(* ===== verification/_CoqProject ===== *)
-Q . S2P
Prelude.v
GoStrings.v
Lexer.v
Comments.v
Syntax.v
SqlParser.v
GoFloat.v
GoFormat.v
FeatureColumn.v
ColumnCode.v
Attribute.v
Verifier.v
Ir.v
AttrInit.v
XgbCode.v
TfCode.v
IRParse.v
Regexp.v
FieldInfer.v
Derivation.v
DeriveNumeric.v
IRGenerator.v
Deps.v
GoState.v
ParserServer.v
Base64.v
Sqlfs.v
SqlfsFile.v
GoConv.v
Model.v
ModelFile.v
Response.v
TableWriter.v
Argo.v
ArgoFollow.v
Pipe.v
NormalStmt.v
Database.v
OptimizeCode.v
Shell.v
Template.v
TemplateText.v
TemplateTypes.v
Fillers.v
LogWriter.v
ResultTables.v
World.v
Oss.v
Cluster.v
PaiCode.v
TmpTables.v
PyExecutor.v
PaiExecutor.v
PaiTables.v
AlisaExecutor.v
Serve.v
Client.v
Prompt.v
KeyBindings.v
Highlight.v
Program.v
Workflow.v
Steps.v
Submit.v
Archive.v
ZooServer.v
ZooNames.v
ZooFacts.v
ZooRun.v
ZooTransfer.v
ZooMemory.v
ZooClient.v
