(* ===== verification/Prelude.v ===== *)
(** * SQLFlow: prelude

    SQLFlow compiles SQL programs with extended statements, such as
        SELECT * FROM t TO TRAIN DNNClassifier COLUMN a, b LABEL y INTO m;
    into machine-learning jobs, and runs them.  This development models the program in Go under
    src/go: the compiler, from the text of a program to the typed intermediate representation;
    the executors, which run the statements; the generators of code and of workflows; and the
    server and the client around them.

    ** The program and the files

    A file of this directory has definitions with the names of the Go functions it models, and
    they follow the branches of those, errors included.

    Strings and numbers of Go.
    - GoStrings.v: bytes, UTF-8, the functions of packages strings and strconv that the program
      calls; GoConv.v: more of strconv, with the round trips of integers; GoFloat.v and
      GoFormat.v: floats, read and printed; Base64.v: package encoding/base64; Regexp.v: the
      regular expressions of the program; GoState.v: functions with effects.

    The compiler: go/parser, go/ir, go/attribute, go/verifier.
    - parser/sqlflow_parser.go cuts the program into statements.  [Parse] (SqlParser.v)
      alternates between a parser of standard SQL (parser/external), which stops where a TO
      clause begins, and the parser of the extended syntax, which reads the clause.
      RemoveCommentInSQLStatement and its helpers, from the same file, are in Comments.v.
    - parser/lexer.go is the lexer of the extended syntax (Lexer.v); the trees that the
      grammar's actions build, their printers and the clauses are in Syntax.v
      (extended_syntax_parser.y).
    - ir/ir_generator.go turns clauses into the statements of ir/ir.go (Ir.v): IRParse.v has the
      parsers of expressions, field descriptions and feature columns and the generators that
      need no database, IRGenerator.v those that do.
    - ir/feature_column.go and codegen_python_values.go, the columns and the Python code they
      print, are in FeatureColumn.v.
    - ir/derivation.go completes a training statement from samples of its data: FieldInfer.v has
      what is inferred from a cell, Derivation.v the derivation on a store of field descriptions
      and columns, and DeriveNumeric.v the theorem about the derivation as a whole.
    - verifier/verifier.go checks a SELECT against the database (Verifier.v), and
      attribute/attribute.go and checker.go the attributes of a statement (Attribute.v).
    - ir/deps/sql_program_deps_graph.go connects the statements of a program that share tables
      (Deps.v).

    What is stored, and what is sent.
    - sqlfs stores a file as rows of a table, in base64: Sqlfs.v has the reader, the writer and
      the flushing of blocks, SqlfsFile.v a file that is written and read back through a
      database; model/model.go packs a trained model with its metadata and stores it in a file,
      a table or an object (Model.v), and ModelFile.v shows that what is saved is loaded.
    - pipe/pipe.go joins the goroutine that runs a program to the one that reads its messages
      (Pipe.v); proto/response.go and workflow/response encode messages (Response.v);
      tablewriter prints them (TableWriter.v).
    - log writers and result tables of the executors: LogWriter.v, ResultTables.v.

    The executors: go/executor, go/sql, go/database.
    - sql/executor_ir.go runs a program statement by statement (Program.v), and
      executor/executor.go the statements of the default executor: NormalStmt.v the standard
      ones, PyExecutor.v those that run generated Python.
    - executor/pai.go, pai_local.go, alisa.go: PaiExecutor.v, AlisaExecutor.v, with the object
      storage in Oss.v, the resources of a job in Cluster.v, and temporary tables in
      TmpTables.v; PaiTables.v shows that those are dropped.
    - World.v has the requests that executors make.

    Code generators: go/codegen.
    - AttrInit.v (initial values of attributes), ColumnCode.v, XgbCode.v, TfCode.v, PaiCode.v,
      OptimizeCode.v: the structures that the templates are filled with, and the commands.
    - Template.v is package text/template, and a reader of Python's strings and comments;
      TemplateText.v has the texts of the templates, Fillers.v what each is executed on, and
      TemplateTypes.v a checker of templates that is proved sound.
    - Steps.v: codegen/experimental, with the texts of its templates.

    Workflows, the server, the client: go/workflow, go/step, go/sqlflowserver, go/cmd/sqlflow.
    - workflow/argo follows a job (Argo.v; ArgoFollow.v shows what a client announces that
      follows one); workflow/couler/codegen.go makes the steps (Workflow.v), on Shell.v, the
      readers of Python's and bash's literals that a statement passes.
    - sqlflowserver.go: the loop over the pipe, with step.go and rpc_stream_renderer.go, is in
      Serve.v, and what it runs with workflows in Submit.v.
    - cmd/sqlflow: main.go is Client.v; prompt.go and input.go are Prompt.v;
      emacs_key_bindings.go is KeyBindings.v and output.go Highlight.v.
    - parser/external/java_parser_server.go: ParserServer.v.  database/db.go: Database.v.

    The model zoo: go/modelzooserver, go/tar, and its commands in go/cmd/sqlflow.
    - tar.go packs directories (Archive.v).  ZooServer.v has every handler of the server with
      its statements, the checks of names (input_check.go), the images (image_build.go), the
      classes of a package (get_model_classes.go) and the default definitions;
      model_zoo_client.go and down_model.go are ZooClient.v.
    - The theorems about the server: ZooNames.v (what a checked name is in a statement of SQL),
      ZooFacts.v (the tables as a catalogue, and what a handler leaves alone), ZooRun.v (the
      catalogue under every handler), ZooTransfer.v (a model released and downloaded), and
      ZooMemory.v, a zoo in the memory at which they are applied.

    This file has what all of them share: results, notations, tactics and hints, and the lemmas
    about lists.

    ** How Go is modelled

    A function that returns an error, or can panic, returns a [result]; [Panic] stands for a
    run-time panic and for log.Panicf.  An int is an integer in Z, wrapped to 64 bits where an
    operation of the program can overflow; a string is a list of bytes; a map is a gmap, and a
    loop over a map uses the order that the class [MapOrder] gives, so that a theorem holds for
    every order.  Functions that change a local state take and return it.  Shared structures
    are in a store where the program depends on the sharing (Derivation.v: descriptions and
    columns are pointers); the executors, which change the statement behind a pointer, have it
    as a state beside the world.  Goroutines are the step relation of Pipe.v, where they
    interleave, and in LogWriter.v and Serve.v a list of what they sent, where they do not.

    A function that acts on the outside is a state transformer [st D] (GoState.v) of a type [D]
    of states of the outside, which stays abstract: the classes say what can be asked of it.

    ** Classes

    A class of operations stands for what is not part of the repository, or is input and
    output; a class of laws has what a library or a service documents of them.  Every theorem
    that needs one has a witness at a concrete instance.
    - Parsers: [External] (TiDB's parser, Vitess' splitter and tokenizer, the Java parser's
      service, the automaton of goyacc, which need not return because the lexer need not), with
      the laws [ParserLaws].
    - The language: [UnicodeTables] (tables beyond ASCII, on which no theorem depends),
      [MapOrder], [SortSlice] (sort.Slice, with what it documents), [GoRegexp] (expressions that
      a user writes), [Protobuf] (Any messages).
    - Databases: [DB] and [Services] for the compiler; [Outside] and its law [BlockDB] for
      sqlfs, where a query gives rows and an error that breaks them off, which the reader does
      not ask for; [TableDB] and [Session] for standard statements; [ModelStore] and
      [ModelWorld] for models; [TmpDB], what a database promises about temporary tables (a DROP
      that is refused, or a database that cannot be opened for it, is among its answers); [DSNParsers],
      [OdpsDSN], [AlisaDSN], the drivers' readers of data source names.
    - What executors ask: [World], one request for each constructor of [call]; [BucketStore],
      the laws of an object storage; [RoleConfig], YAML.
    - Code: [CodegenEnv], [ColumnText], [ParamDocs], and [StepWorld] and [WorkflowEnv] for
      steps.
    - Output: [Output], [WorkingOutput], [Table], [Terminal], [PipeLog], [StreamLog],
      [BlockSink]; [K8s], what Kubernetes answers.
    - The model zoo: [ZooWorld], [ZooConn] and [ZooService] for the server and its client,
      [Files] with the laws [FileLaws], where a path can be a link; [ZooDB], what the database promises about the server's
      statements, [QuietWorld], what else leaves the database alone, and [Delivery], what a
      response that was sent is.
    - Server and client: [ServerWorld], [ClientWorld], [QueryStrings], [SessionURL], [RunWorld];
      [GoPrompt] with the laws [PromptLaws], [Console] and [Keys] for the prompt, [LineBuffer]
      with [LineLaws] and [Screen] for its keys, [ConsoleWriter] with [ColorLaws] for its
      colours; [ParserWorld] and [SqlDrivers], which start the parser and open databases.
    The record [Executor] has the operations that a program needs of any executor: the theorems
    about programs hold for each.

    ** Fuel

    [Lex] takes fuel, because it need not end ([Lex_hangs]); [lex_string_total] says when as
    much fuel as there are bytes is enough.  The inner loops of the lexer and of Comments.v
    have one unit for each byte, [Parse] one for each byte and [parseExpression] two for each
    node; [RemoveComment_total], [Parse_terminates] and [parseExpression_total] prove that
    they do not run out of it.  Where the lexer does not return [Parse] does not ([Parse_hangs]):
    [Parse_terminates] is about the programs on which it does.  The loops that read and write a file of sqlfs have one unit for
    each byte, those of a command's output and of [readStmt] one for each line, and the search
    of the prompt one for each entry of the history; the listing of an object storage has the
    depth of its keys ([deleteDir_deletes]), the printing of a float the digits that its width
    can need.  The loops of the model zoo have one unit for each request that is received, each
    piece that is sent and each page, and [released_is_downloaded] and [listModels_shows_all]
    prove that they end; a stream that breaks is received forever ([receive_repo_broken]).  A prompt
    that is not ended by its user goes on: [repl] has one unit for each line, and [repl_ends]
    says which lines end it.  All other functions are structural.

    ** What the theorems show

    - Parsing: every statement [Parse] returns is standard SQL, a completed SELECT or SHOW
      TRAIN, it ends on every text that the lexer reads to its end, and the TiDB parser stops inside the program; lexing gives disjoint
      tokens in order, whole words and literals; comments are gone after they are removed.
    - Columns and expressions: the recursive parsers return on every tree; a column they
      accept is well formed; [ApplyTo] keeps the kind of a column; integers survive the way
      through the WITH clause; the tables and variables that are split off are what was
      written.
    - Derivation: a field is described by its database type, by its CSV or its key-value
      cells; every EMBEDDING and INDICATOR gets a category column with enough classes; the
      statement's columns are exactly those of the selected fields; and for numbers, what the
      whole derivation gives.
    - Checks: [Verify], [VerifyColumnNameAndType], [verifyTrainStmt] and the check of a
      prediction accept exactly what they should; exporting defaults keeps attributes valid;
      the filler of a training program has every parameter.
    - Dependencies: a reader depends on the last writer, and writers on each other.
    - Storage: what is written to a table of sqlfs is read back, or less where a query breaks
      off, which nothing reports ([broken_copy]); the reader and the writer
      refine a stream of bytes, whatever the sizes of the pieces; a saved model is loaded as it
      was, and its metadata are what was saved.
    - Running: a program reports the statements it ran in order up to the first that fails, and
      its rows reach the screen as the database gave them; what a generated program prints is
      shown line by line, as far as the pipe takes it; a pipe delivers what was written, in
      order, until the reader goes; rows survive their encoding.
    - PAI: temporary tables are dropped, but for those whose DROP fails ([pai_table_left]), and
      no other table is touched; a directory of the object storage is emptied; the
      resources of a job are those of its attributes, in their bounds.
    - Templates: every template prints a program for every structure that is filled in
      ([templates_print]), and a text of the statement stays in its string of Python
      ([texts_stay_in_strings]), except for the estimator of ALPS, which is printed as code
      ([alps_estimator_bare]); the checker runs over the template once, with the types of the
      structure and the places where the reader of Python can be.
    - Workflows: a statement comes out of Python's and bash's literals as it went in; a step of
      the experimental generator reads the SELECT of its statement; the environment of a step
      is the variables of SQLFlow that are not the workflow's, with the session's before them;
      a client announces each step once, in order, and a program
      that is submitted is answered with one message, which the client follows to its end.
    - Client: statements are cut at the semicolons outside of quotation marks, for a file as for
      a prompt; the history is walked in order; [repl] ends where a statement ends it; what was
      cut is pasted, and what is typed is shown.
    - Model zoo: whatever requests are handled, one after the other and however they end, no two
      repositories have the same name and version, every definition belongs to a repository and
      every trained model to a definition ([catalogue_kept]); a name that is accepted stays
      inside its literal of SQL, and in the name of a table it ends no statement, though it can
      begin a comment ([tag_comments]); a model that is released in pieces is downloaded byte
      for byte, with its metadata in front where the experimental generator reads them; as many
      models are listed as there are, each once if the pages fit together, for which the server
      does not ask; what is packed is unpacked, links excepted ([link_lost], [link_refused]);
      and the client
      that releases a model of its own database sends padding behind it
      ([local_pieces_padded]).
    - Where the code does not do what it means to, a theorem says what it does: among them
      [Lex_hangs], [Lex_slash_star_slash], [Lex_empty_comment], [comment_between_literals_kept],
      [print_iff_no_ne], [Embedding_ApplyTo_fails], [cross_key_panics], [kv_trailing_blank],
      [cross_columns_misordered], [Analyze_war_first_reader_lost], [premade_not_type_checked],
      [failed_statement_error_lost], [receive_repo_broken], [last_quote_lost], [dollar_in_here],
      [every_call_dials], [experimental_not_placed], [job_name_has_line_end] and [wide_word_cut].

    Steps.v prints the templates of Python functions with the indentation that the package
    dedent leaves; a template's text is a list of lines there.

    ** What is not modelled

    The goyacc automaton, which is generated, and what the libraries do (the classes).  What no
    template of the program has of package text/template (Template.v).  The conversion of
    protobuf messages to files and the connections that the mains of the servers make; images on
    the terminal (sixel) and package log, whose [Fatal] and [Fatalf] only print; the test cases
    of cmd/sqlflowserver/e2e_common_cases.go, which are a test; package parser/ast's unused
    syntax; and what only calls the operating system (locations of files, process groups).
    Errors keep their format and the operands that are strings or integers. *)

From Stdlib Require Export Ascii.
From Stdlib Require String.
From stdpp Require Export base gmap strings list fin_maps sorting pretty.
From Stdlib Require Export ZArith Lia.


(** ** Go's results

    A Go function of the repository that returns [(value, error)] returns a
    [result]: [Ok v] for [(v, nil)], [Fail e] for [(_, e)].  [Panic] is a run-time
    panic (or [log.Panicf]), and [NoFuel] marks a loop that did not end within
    its fuel; the theorems about loops show when it cannot arise. *)

(** [fmt.Errorf format args...]: the format string of the source and those of its
    operands that are strings or integers, left to right (what [%T], [%v] of a float or of
    a structure would print is left out); a wrapped error contributes its format and
    operands. *)
Record error := Errorf { err_format : string; err_args : list string }.

Inductive result (A : Type) : Type :=
  | Ok (a : A)
  | Fail (e : error)
  | Panic
  | NoFuel.
Arguments Ok {A} a.
Arguments Fail {A} e.
Arguments Panic {A}.
Arguments NoFuel {A}.

#[export] Instance error_eq_dec : EqDecision error.
Proof. solve_decision. Defined.
#[export] Instance result_eq_dec {A} `{EqDecision A} : EqDecision (result A).
Proof. solve_decision. Defined.

#[export] Instance result_ret : MRet result := @Ok.
#[export] Instance result_bind : MBind result := λ A B f m,
  match m with
  | Ok a => f a
  | Fail e => Fail e
  | Panic => Panic
  | NoFuel => NoFuel
  end.
#[export] Instance result_fmap : FMap result := λ A B f m, a ← m; mret (f a).

Declare Scope go_scope.
Delimit Scope go_scope with go.
Open Scope go_scope.

(** [err <- m ;; k]: run [k] on the error of [m], as [if err != nil { return ... }]
    with a message of its own does. *)
Definition catch {A} (m : result A) (k : error → result A) : result A :=
  match m with
  | Fail e => k e
  | Ok a => Ok a
  | Panic => Panic
  | NoFuel => NoFuel
  end.

(** The error is replaced by one with another format that has the old one's
    operands after its own ([fmt.Errorf("...%v", args, err)]). *)
Definition wrapf {A} (fmt : string) (args : list string) (m : result A) : result A :=
  catch m (λ e, Fail (Errorf fmt (args ++ err_format e :: err_args e))).

(** The comma-ok idiom followed by an error return. *)
Definition or_fail {A} (o : option A) (e : error) : result A :=
  match o with Some a => Ok a | None => Fail e end.

Definition is_ok {A} (m : result A) : bool :=
  match m with Ok _ => true | _ => false end.
Definition is_fail {A} (m : result A) : bool :=
  match m with Fail _ => true | _ => false end.

(** [for _, x := range l { if err := f(x); err != nil { return err } }] with an
    accumulator: left to right, stopping at the first failure. *)
Fixpoint foldM {A S} (f : S → A → result S) (s : S) (l : list A) : result S :=
  match l with
  | [] => Ok s
  | x :: l => s' ← f s x; foldM f s' l
  end.

Fixpoint mapR {A B} (f : A → result B) (l : list A) : result (list B) :=
  match l with
  | [] => Ok []
  | x :: l => y ← f x; ys ← mapR f l; Ok (y :: ys)
  end.

(** ** Lemmas on results *)

#[local] Ltac result_cases :=
  simpl; intros;
  repeat match goal with
  | H : _ ∨ _ |- _ => destruct H
  | H : ∃ _, _ |- _ => destruct H
  | H : _ ∧ _ |- _ => destruct H
  | H : Ok _ = Ok _ |- _ => injection H as ->
  | H : Fail _ = Fail _ |- _ => injection H as ->
  end;
  try congruence; eauto.

Lemma bind_Ok {A B} (m : result A) (f : A → result B) b :
  (m ≫= f) = Ok b ↔ ∃ a, m = Ok a ∧ f a = Ok b.
Proof. destruct m; split; result_cases. Qed.

Lemma bind_Fail {A B} (m : result A) (f : A → result B) e :
  (m ≫= f) = Fail e ↔ m = Fail e ∨ ∃ a, m = Ok a ∧ f a = Fail e.
Proof. destruct m; split; result_cases. Qed.

Lemma bind_Panic {A B} (m : result A) (f : A → result B) :
  (m ≫= f) = Panic ↔ m = Panic ∨ ∃ a, m = Ok a ∧ f a = Panic.
Proof. destruct m; split; result_cases. Qed.

Lemma bind_NoFuel {A B} (m : result A) (f : A → result B) :
  (m ≫= f) = NoFuel ↔ m = NoFuel ∨ ∃ a, m = Ok a ∧ f a = NoFuel.
Proof. destruct m; split; result_cases. Qed.

Lemma wrapf_Ok {A} fmt args (m : result A) a : wrapf fmt args m = Ok a ↔ m = Ok a.
Proof. destruct m; split; result_cases. Qed.

Lemma or_fail_Ok {A} (o : option A) e a : or_fail o e = Ok a ↔ o = Some a.
Proof. destruct o; split; result_cases. Qed.

Lemma foldM_app {A S} (f : S → A → result S) s l1 l2 :
  foldM f s (l1 ++ l2) = (s' ← foldM f s l1; foldM f s' l2).
Proof.
  revert s. induction l1 as [|x l1 IH]; intros s; simpl; [done|].
  destruct (f s x); simpl; auto.
Qed.

(** Rule for a loop with an invariant: it holds of every successful exit. *)
Lemma foldM_inv {A S} (I : S → Prop) (f : S → A → result S) l s s' :
  (∀ x s s', x ∈ l → I s → f s x = Ok s' → I s') →
  I s → foldM f s l = Ok s' → I s'.
Proof.
  revert s. induction l as [|x l IH]; intros s Hf Hs; simpl; [congruence|].
  intros (s1 & H1 & H2)%bind_Ok.
  eapply (IH s1); [|eapply Hf; [left|exact Hs|exact H1]|exact H2].
  intros y ??? . eapply Hf. by right.
Qed.

(** A loop ends well and keeps an invariant if every round does. *)
Lemma foldM_total {A S} (I : S → Prop) (f : S → A → result S) l s :
  (∀ x s, x ∈ l → I s → ∃ s', f s x = Ok s' ∧ I s') →
  I s → ∃ s', foldM f s l = Ok s' ∧ I s'.
Proof.
  revert s. induction l as [|x l IH]; intros s Hf Hs; simpl; [by exists s|].
  destruct (Hf x s) as (s1 & -> & H1); [left|done|]. simpl.
  apply IH; [|done]. intros y s' Hy. apply Hf. by right.
Qed.

Lemma mapR_Forall2 {A B} (f : A → result B) l k :
  mapR f l = Ok k ↔ Forall2 (λ x y, f x = Ok y) l k.
Proof.
  revert k. induction l as [|x l IH]; intros k; simpl.
  - split; [intros [=<-]; constructor | by inversion 1].
  - rewrite bind_Ok. split.
    + intros (y & Hy & (ys & Hys & [= <-])%bind_Ok). constructor; [done|]. by apply IH.
    + inversion 1 as [|? y ? ys Hy Hys]; subst. exists y. split; [done|].
      apply bind_Ok. exists ys. by rewrite IH.
Qed.

Lemma mapR_length {A B} (f : A → result B) l k : mapR f l = Ok k → length k = length l.
Proof. rewrite mapR_Forall2. by intros ->%Forall2_length. Qed.

Lemma is_ok_bind {A B} (m : result A) (f : A → result B) :
  is_ok (m ≫= f) = match m with Ok a => is_ok (f a) | _ => false end.
Proof. by destruct m. Qed.

Lemma is_ok_mapR {A B} (f : A → result B) l : is_ok (mapR f l) = forallb (λ x, is_ok (f x)) l.
Proof.
  induction l as [|x l IH]; simpl; [done|]. destruct (f x); simpl; [|done..].
  rewrite <- IH. by destruct (mapR f l).
Qed.

Lemma is_ok_Ok {A} (m : result A) : is_ok m = true ↔ ∃ a, m = Ok a.
Proof. destruct m; simpl; split; naive_solver. Qed.

(** A function that returns, with a value or an error: no panic and enough fuel. *)
Definition fine {A} (m : result A) : Prop :=
  match m with Ok _ | Fail _ => True | Panic | NoFuel => False end.

Lemma fine_cases {A} (m : result A) : fine m ↔ (∃ a, m = Ok a) ∨ (∃ e, m = Fail e).
Proof. destruct m; simpl; split; naive_solver. Qed.

Lemma fine_bind {A B} (m : result A) (f : A → result B) :
  fine m → (∀ a, m = Ok a → fine (f a)) → fine (m ≫= f).
Proof. destruct m; simpl; auto. Qed.

Lemma fine_catch {A} (m : result A) k : fine m → (∀ e, fine (k e)) → fine (catch m k).
Proof. destruct m; simpl; auto. Qed.

Lemma fine_wrapf {A} fmt args (m : result A) : fine m → fine (wrapf fmt args m).
Proof. by destruct m. Qed.

Lemma fine_or_fail {A} (o : option A) e : fine (or_fail o e).
Proof. by destruct o. Qed.

Lemma fine_mapR {A B} (f : A → result B) l : (∀ x, x ∈ l → fine (f x)) → fine (mapR f l).
Proof.
  induction l as [|x l IH]; simpl; intros Hf; [done|].
  apply fine_bind; [apply Hf; left|]. intros y _. apply fine_bind; [|done].
  apply IH. intros z Hz. apply Hf. by right.
Qed.

Lemma fine_foldM {A S} (f : S → A → result S) s l :
  (∀ s x, x ∈ l → fine (f s x)) → fine (foldM f s l).
Proof.
  revert s. induction l as [|x l IH]; simpl; intros s Hf; [done|].
  apply fine_bind; [apply Hf; left|]. intros y _. apply IH. intros s' z Hz. apply Hf. by right.
Qed.

(** ** Automation *)

Create HintDb go.
#[export] Hint Resolve fine_wrapf fine_or_fail : go.
#[export] Hint Rewrite @bind_Ok @bind_Fail @bind_Panic @bind_NoFuel : go.
#[export] Hint Rewrite @wrapf_Ok @or_fail_Ok : go.

(** Run the binds of the goal whose left side is a value, and nothing else. *)
Ltac ok_step := cbn [mbind result_bind mret result_ret].

(** Show that a chain of binds is [fine], leaving what the hints do not know. *)
Ltac fine_step :=
  match goal with
  | |- fine (_ ≫= _) => apply fine_bind; [|intros ? ?]
  | |- fine (catch _ _) => apply fine_catch; [|intros ?]
  | |- fine (wrapf _ _ _) => apply fine_wrapf
  | |- fine (or_fail _ _) => apply fine_or_fail
  | |- fine (if decide ?P then _ else _) => destruct (decide P)
  | |- fine (if ?b then _ else _) => destruct b eqn:?
  | |- fine (let '(_, _) := ?p in _) => destruct p
  | |- fine (Ok _) => exact I
  | |- fine (Fail _) => exact I
  | |- fine _ => solve [auto with go]
  end.
Ltac solve_fine := repeat fine_step.

(** Take a chain of binds in a hypothesis apart into its successful steps. *)
Ltac invert_ok :=
  repeat match goal with
  | H : (_ ≫= _) = Ok _ |- _ => apply bind_Ok in H as (? & ? & ?)
  | H : wrapf _ _ _ = Ok _ |- _ => apply wrapf_Ok in H
  | H : or_fail _ _ = Ok _ |- _ => apply or_fail_Ok in H
  | H : Ok _ = Ok _ |- _ => injection H as H; subst
  | H : mret _ = Ok _ |- _ => injection H as H; subst
  | H : Fail _ = Ok _ |- _ => discriminate H
  | H : Panic = Ok _ |- _ => discriminate H
  | H : NoFuel = Ok _ |- _ => discriminate H
  | H : @None _ = Some _ |- _ => discriminate H
  | H : Some _ = Some _ |- _ => injection H as H; subst
  | H : (_, _) = (_, _) |- _ => injection H as H; subst
  end.

(** Case analysis on every [if]/[match] scrutinee of a hypothesis that ended in
    [Ok], dropping the branches that do not. *)
Ltac case_ok H :=
  repeat (first
    [ discriminate H
    | match type of H with
      | context [match ?x with _ => _ end] =>
        lazymatch x with
        | context [match _ with _ => _ end] => fail
        | _ => let E := fresh "E" in destruct x eqn:E
        end
      end ]; simpl in H).

(** ** Machine integers: Go's [int] and [int64] are 64-bit two's complement. *)
Definition min_int64 : Z := - 2 ^ 63.
Definition max_int64 : Z := 2 ^ 63 - 1.
Definition wrap64 (z : Z) : Z := (z + 2 ^ 63) `mod` 2 ^ 64 - 2 ^ 63.
Definition int64_range (z : Z) : Prop := (min_int64 ≤ z ≤ max_int64)%Z.

#[export] Instance int64_range_dec z : Decision (int64_range z).
Proof. unfold int64_range. apply _. Defined.

Lemma wrap64_range z : int64_range (wrap64 z).
Proof.
  unfold wrap64, int64_range, min_int64, max_int64.
  pose proof (Z.mod_pos_bound (z + 2 ^ 63) (2 ^ 64) ltac:(lia)). lia.
Qed.

Lemma wrap64_id z : int64_range z → wrap64 z = z.
Proof.
  unfold wrap64, int64_range, min_int64, max_int64. intros H.
  rewrite Z.mod_small by lia. lia.
Qed.

(** ** Lists *)

Lemma elem_of_zip_with_fst {A B} (l : list A) (k : list B) x y :
  (x, y) ∈ zip l k → x ∈ l ∧ y ∈ k.
Proof.
  revert k. induction l as [|a l IH]; intros [|b k]; simpl; [set_solver..|].
  rewrite elem_of_cons. intros [[= -> ->]|H]; [set_solver|].
  destruct (IH _ H). set_solver.
Qed.

(** The last element of a list, [l[len(l)-1]]: Go panics on an empty slice. *)
Definition last_elem {A} (l : list A) : result A :=
  match last l with Some x => Ok x | None => Panic end.

(** [l[i]] on a slice. *)
Definition index {A} (l : list A) (i : nat) : result A :=
  match l !! i with Some x => Ok x | None => Panic end.

Lemma fine_index {A} (l : list A) i : (i < length l)%nat → fine (index l i).
Proof. intros Hi. unfold index. destruct (lookup_lt_is_Some_2 l i Hi) as [x ->]. exact I. Qed.

Lemma index_elem {A} (l : list A) i x : index l i = Ok x → x ∈ l.
Proof.
  unfold index. destruct (l !! i) eqn:Hi; [|done]. intros [= ->]. by eapply list_elem_of_lookup_2.
Qed.
