(* ===== verification/GoStrings.v ===== *)
(** * Go strings

    A Go string is a sequence of bytes, so it is Rocq's [string] (a sequence of
    8-bit [ascii]).  This file has what the modelled code uses of the packages
    [strings], [unicode], [unicode/utf8] and [strconv], as executable functions,
    and the lemmas the components share.

    The Unicode tables are data of the Go standard library.  Their ASCII part is
    written out; above it they are the fields of the class [UnicodeTables], so
    every theorem holds for every version of the tables.  [latin1_tables] is the
    instance the witnesses compute with. *)

From S2P Require Import Prelude.

Local Open Scope Z_scope.

(** ** Bytes and substrings *)

Definition byte (c : ascii) : Z := Z.of_N (Ascii.N_of_ascii c).
Definition of_byte (b : Z) : ascii := Ascii.ascii_of_N (Z.to_N b).
Definition char1 (c : ascii) : string := String c EmptyString.

Notation str_len := String.length.

(** [s[n:]] and [s[:n]] for [n ≤ len(s)]. *)
Fixpoint str_drop (n : nat) (s : string) : string :=
  match n, s with
  | S n, String _ s => str_drop n s
  | _, _ => s
  end.

Fixpoint str_take (n : nat) (s : string) : string :=
  match n, s with
  | S n, String c s => String c (str_take n s)
  | _, _ => EmptyString
  end.

(** [s[i:j]] for [i ≤ j ≤ len(s)]. *)
Definition str_slice (i j : nat) (s : string) : string := str_take (j - i) (str_drop i s).

(** [s[i:j]] and [s[i:]], which panic out of range. *)
Definition slice (i j : nat) (s : string) : result string :=
  if decide (i ≤ j ∧ j ≤ str_len s)%nat then Ok (str_slice i j s) else Panic.
Definition slice_from (i : nat) (s : string) : result string :=
  if decide (i ≤ str_len s)%nat then Ok (str_drop i s) else Panic.

Fixpoint str_get (i : nat) (s : string) : option ascii :=
  match s, i with
  | EmptyString, _ => None
  | String c _, O => Some c
  | String _ s, S i => str_get i s
  end.

Fixpoint str_forall (P : ascii → bool) (s : string) : bool :=
  match s with
  | EmptyString => true
  | String c s => P c && str_forall P s
  end.

(** ** Package unicode/utf8 *)

Definition RuneError : Z := 65533.

Definition is_cont (b : Z) : bool := (128 <=? b) && (b <=? 191).

(** [utf8.DecodeRuneInString]: the rune and its width in bytes.  An invalid
    encoding gives [(RuneError, 1)], the empty string [(RuneError, 0)]. *)
Definition decode_rune (s : string) : Z * nat :=
  match s with
  | EmptyString => (RuneError, 0%nat)
  | String c0 s1 =>
    let b0 := byte c0 in
    if b0 <? 128 then (b0, 1%nat)
    else if (b0 <? 194) || (244 <? b0) then (RuneError, 1%nat)
    else match s1 with
    | EmptyString => (RuneError, 1%nat)
    | String c1 s2 =>
      let b1 := byte c1 in
      let lo := if b0 =? 224 then 160 else if b0 =? 240 then 144 else 128 in
      let hi := if b0 =? 237 then 159 else if b0 =? 244 then 143 else 191 in
      if negb ((lo <=? b1) && (b1 <=? hi)) then (RuneError, 1%nat)
      else if b0 <? 224 then ((b0 - 192) * 64 + (b1 - 128), 2%nat)
      else match s2 with
      | EmptyString => (RuneError, 1%nat)
      | String c2 s3 =>
        let b2 := byte c2 in
        if negb (is_cont b2) then (RuneError, 1%nat)
        else if b0 <? 240 then
          ((b0 - 224) * 4096 + (b1 - 128) * 64 + (b2 - 128), 3%nat)
        else match s3 with
        | EmptyString => (RuneError, 1%nat)
        | String c3 _ =>
          let b3 := byte c3 in
          if negb (is_cont b3) then (RuneError, 1%nat)
          else ((b0 - 240) * 262144 + (b1 - 128) * 4096 + (b2 - 128) * 64 + (b3 - 128), 4%nat)
        end
      end
    end
  end.

(** [utf8.EncodeRune]. *)
Definition encode_rune (r : Z) : string :=
  if (r <? 0) || (1114111 <? r) || ((55296 <=? r) && (r <=? 57343)) then
    (* U+FFFD *)
    String (of_byte 239) (String (of_byte 191) (char1 (of_byte 189)))
  else if r <? 128 then char1 (of_byte r)
  else if r <? 2048 then
    String (of_byte (192 + r / 64)) (char1 (of_byte (128 + r mod 64)))
  else if r <? 65536 then
    String (of_byte (224 + r / 4096))
      (String (of_byte (128 + r / 64 mod 64)) (char1 (of_byte (128 + r mod 64))))
  else
    String (of_byte (240 + r / 262144))
      (String (of_byte (128 + r / 4096 mod 64))
        (String (of_byte (128 + r / 64 mod 64)) (char1 (of_byte (128 + r mod 64))))).

(** [for _, r := range s]: the runes of [s], each with the bytes it was read from.
    [str_len s] units of fuel are enough: every rune has a byte at least. *)
Fixpoint segments_fuel (n : nat) (s : string) : list (Z * string) :=
  match n, s with
  | O, _ | _, EmptyString => []
  | S n, _ =>
    let '(r, w) := decode_rune s in
    (r, str_take w s) :: segments_fuel n (str_drop w s)
  end.
Definition segments (s : string) : list (Z * string) := segments_fuel (str_len s) s.
Definition runes (s : string) : list Z := (segments s).*1.

Definition str_concat (l : list string) : string := foldr String.append EmptyString l.

(** ** Package unicode *)

Class UnicodeTables := {
  letter_hi : Z → bool;
  digit_hi : Z → bool;
  number_hi : Z → bool;
  upper_hi : Z → Z;
  lower_hi : Z → Z;
  fold_hi : Z → Z   (* the least rune of the simple-folding orbit *)
}.

Definition in_range (lo hi r : Z) : bool := (lo <=? r) && (r <=? hi).

(** White space: the six ASCII characters, NEL, NBSP and the [Z] category. *)
Definition is_space (r : Z) : bool :=
  in_range 9 13 r || (r =? 32) || (r =? 133) || (r =? 160) || (r =? 5760)
  || in_range 8192 8202 r || in_range 8232 8233 r || (r =? 8239) || (r =? 8287) || (r =? 12288).

Definition ascii_upper_letter (r : Z) : bool := in_range 65 90 r.
Definition ascii_lower_letter (r : Z) : bool := in_range 97 122 r.
Definition ascii_digit (r : Z) : bool := in_range 48 57 r.

Section unicode.
Context `{UnicodeTables}.

Definition is_letter (r : Z) : bool :=
  if r <? 128 then ascii_upper_letter r || ascii_lower_letter r else letter_hi r.
Definition is_digit (r : Z) : bool :=
  if r <? 128 then ascii_digit r else digit_hi r.
Definition is_number (r : Z) : bool :=
  if r <? 128 then ascii_digit r else number_hi r.
Definition rune_upper (r : Z) : Z :=
  if r <? 128 then if ascii_lower_letter r then r - 32 else r else upper_hi r.
Definition rune_lower (r : Z) : Z :=
  if r <? 128 then if ascii_upper_letter r then r + 32 else r else lower_hi r.
Definition rune_fold (r : Z) : Z :=
  if r <? 128 then if ascii_lower_letter r then r - 32 else r else fold_hi r.

(** [strings.Map f s]: an invalid byte becomes U+FFFD. *)
Definition map_runes (f : Z → Z) (s : string) : string :=
  str_concat (encode_rune ∘ f <$> runes s).
Definition ToUpper : string → string := map_runes rune_upper.
Definition ToLower : string → string := map_runes rune_lower.
Definition EqualFold (s t : string) : bool :=
  bool_decide (rune_fold <$> runes s = rune_fold <$> runes t).
End unicode.

(** Latin-1, from the same tables: letters are U+00AA, U+00B5, U+00BA, U+00C0-U+00FF
    without the signs U+00D7 and U+00F7; the superscripts and fractions are numbers. *)
#[export] Instance latin1_tables : UnicodeTables := {|
  letter_hi r := (r =? 170) || (r =? 181) || (r =? 186)
                 || (in_range 192 255 r && negb (r =? 215) && negb (r =? 247));
  digit_hi _ := false;
  number_hi r := in_range 178 179 r || (r =? 185) || in_range 188 190 r;
  upper_hi r := if in_range 224 254 r && negb (r =? 247) then r - 32
                else if r =? 255 then 376 else if r =? 181 then 924 else r;
  lower_hi r := if in_range 192 222 r && negb (r =? 215) then r + 32 else r;
  fold_hi r := if in_range 224 254 r && negb (r =? 247) then r - 32 else r
|}.

(** ** Package strings *)

Fixpoint HasPrefix (s pre : string) : bool :=
  match pre, s with
  | EmptyString, _ => true
  | String p pre, String c s => if decide (p = c) then HasPrefix s pre else false
  | _, EmptyString => false
  end.
Definition HasSuffix (s suf : string) : bool :=
  (Nat.leb (str_len suf) (str_len s)) && bool_decide (str_drop (str_len s - str_len suf) s = suf).
Definition TrimPrefix (s pre : string) : string :=
  if HasPrefix s pre then str_drop (str_len pre) s else s.
Definition TrimSuffix (s suf : string) : string :=
  if HasSuffix s suf then str_take (str_len s - str_len suf) s else s.

(** [strings.Index s sub]: [None] for the -1 of the library. *)
Fixpoint Index (s sub : string) : option nat :=
  if HasPrefix s sub then Some 0%nat
  else match s with
       | EmptyString => None
       | String _ s => S <$> Index s sub
       end.
(** [strings.IndexAny] and [strings.IndexRune] with ASCII characters: the first
    byte that satisfies [P]. *)
Fixpoint IndexFunc (P : ascii → bool) (s : string) : option nat :=
  match s with
  | EmptyString => None
  | String c s => if P c then Some 0%nat else S <$> IndexFunc P s
  end.
(** [strings.LastIndex] of a single byte. *)
Fixpoint LastIndexByte (s : string) (c : ascii) : option nat :=
  match s with
  | EmptyString => None
  | String d s =>
    match LastIndexByte s c with
    | Some i => Some (S i)
    | None => if decide (d = c) then Some 0%nat else None
    end
  end.
Definition Contains (s sub : string) : bool := bool_decide (is_Some (Index s sub)).

(** [strings.Split s sep] for a nonempty [sep]. *)
Fixpoint split_fuel (n : nat) (s sep : string) : list string :=
  match n, Index s sep with
  | S n, Some i => str_take i s :: split_fuel n (str_drop (i + str_len sep) s) sep
  | _, _ => [s]
  end.
Definition Split (s sep : string) : list string := split_fuel (str_len s) s sep.
(** [strings.SplitN s sep 2]. *)
Definition SplitN2 (s sep : string) : list string :=
  match Index s sep with
  | Some i => [str_take i s; str_drop (i + str_len sep) s]
  | None => [s]
  end.
Fixpoint Join (l : list string) (sep : string) : string :=
  match l with
  | [] => EmptyString
  | [s] => s
  | s :: l => (s +:+ sep +:+ Join l sep)%string
  end.
Definition ReplaceAll (s old new : string) : string := Join (Split s old) new.
Definition ReplaceFirst (s old new : string) : string := Join (SplitN2 s old) new.

Fixpoint drop_while {A} (P : A → bool) (l : list A) : list A :=
  match l with
  | [] => []
  | x :: l' => if P x then drop_while P l' else l
  end.
Definition drop_while_end {A} (P : A → bool) (l : list A) : list A :=
  reverse (drop_while P (reverse l)).

(** [strings.TrimSpace]; decoding from the right finds the same runes, because a
    byte that starts a rune is never a continuation byte. *)
Definition TrimSpace (s : string) : string :=
  str_concat (drop_while_end (is_space ∘ fst) (drop_while (is_space ∘ fst) (segments s))).*2.
(** [strings.Trim] with a single ASCII character as its cutset. *)
Definition TrimByte (s : string) (c : ascii) : string :=
  let is_c d := bool_decide (d = c) in
  String.string_of_list_ascii
    (drop_while_end is_c (drop_while is_c (String.list_ascii_of_string s))).

(** ** Package strconv *)

Definition digit_value (c : ascii) : option Z :=
  if ascii_digit (byte c) then Some (byte c - 48) else None.

Fixpoint digits_value (acc : Z) (s : string) : option Z :=
  match s with
  | EmptyString => Some acc
  | String c s => d ← digit_value c; digits_value (acc * 10 + d) s
  end.

Definition unsigned_value (s : string) : option Z :=
  match s with EmptyString => None | _ => digits_value 0 s end.

(** [strconv.ParseInt s 10 bits]: an optional sign and decimal digits, in range. *)
Definition ParseInt10 (bits : Z) (s : string) : option Z :=
  let clip v := if decide (- 2 ^ (bits - 1) ≤ v ≤ 2 ^ (bits - 1) - 1) then Some v else None in
  match s with
  | String "-" s => v ← unsigned_value s; clip (- v)
  | String "+" s => v ← unsigned_value s; clip v
  | _ => v ← unsigned_value s; clip v
  end.
Definition Atoi : string → option Z := ParseInt10 64.

(** ** Lemmas: substrings *)

#[global] Arguments String.append : simpl nomatch.

Lemma str_app_nil_r s : (s +:+ "")%string = s.
Proof. induction s; f_equal/=; auto. Qed.

Lemma str_app_assoc s t u : (s +:+ (t +:+ u) = (s +:+ t) +:+ u)%string.
Proof. induction s; f_equal/=; auto. Qed.

Lemma str_length_app s t : str_len (s +:+ t) = (str_len s + str_len t)%nat.
Proof. induction s; simpl; auto. Qed.

Lemma str_take_drop n s : (str_take n s +:+ str_drop n s)%string = s.
Proof. revert n. induction s; intros [|n]; f_equal/=; auto. Qed.

Lemma str_length_drop n s : str_len (str_drop n s) = (str_len s - n)%nat.
Proof. revert n. induction s; intros [|n]; simpl; auto. Qed.

Lemma str_length_take n s : str_len (str_take n s) = (n `min` str_len s)%nat.
Proof. revert n. induction s; intros [|n]; simpl; auto. Qed.

Lemma str_drop_drop n m s : str_drop n (str_drop m s) = str_drop (m + n) s.
Proof. revert m. induction s; intros [|m]; simpl; try done. by destruct n. Qed.

Lemma str_drop_ge n s : (str_len s ≤ n)%nat → str_drop n s = ""%string.
Proof. revert n. induction s; intros [|n] ?; simpl in *; first [done | lia | apply IHs; lia]. Qed.

Lemma str_take_ge n s : (str_len s ≤ n)%nat → str_take n s = s.
Proof. revert n. induction s; intros [|n] ?; simpl in *; first [done | lia | f_equal; apply IHs; lia]. Qed.

Lemma str_drop_app n s t : n = str_len s → str_drop n (s +:+ t) = t.
Proof. intros ->. by induction s. Qed.

Lemma str_take_app n s t : n = str_len s → str_take n (s +:+ t) = s.
Proof. intros ->. induction s; simpl; [done|]. by f_equal. Qed.

Lemma str_length_nil s : str_len s = 0%nat ↔ s = ""%string.
Proof. by destruct s. Qed.

Lemma str_get_drop i s : str_get i s = match str_drop i s with String c _ => Some c | _ => None end.
Proof. revert i. induction s; intros [|i]; simpl; auto. Qed.

Lemma str_forall_app P s t : str_forall P (s +:+ t) = str_forall P s && str_forall P t.
Proof. induction s as [|c s IH]; simpl; [done|]. rewrite IH. by destruct (P c). Qed.

Lemma str_forall_impl P Q s :
  (∀ c, P c = true → Q c = true) → str_forall P s = true → str_forall Q s = true.
Proof.
  intros HPQ. induction s as [|c s IH]; simpl; [done|].
  intros [? ?]%andb_true_iff. apply andb_true_iff. auto.
Qed.

Lemma str_forall_take P n s : str_forall P s = true → str_forall P (str_take n s) = true.
Proof.
  rewrite <- (str_take_drop n s) at 1. rewrite str_forall_app. by intros [? _]%andb_true_iff.
Qed.

Lemma str_forall_drop P n s : str_forall P s = true → str_forall P (str_drop n s) = true.
Proof.
  rewrite <- (str_take_drop n s) at 1. rewrite str_forall_app. by intros [_ ?]%andb_true_iff.
Qed.

Lemma byte_range c : 0 ≤ byte c < 256.
Proof. unfold byte. pose proof (Ascii.N_ascii_bounded c). lia. Qed.

Lemma of_byte_byte c : of_byte (byte c) = c.
Proof. unfold of_byte, byte. rewrite N2Z.id. apply Ascii.ascii_N_embedding. Qed.

Lemma byte_of_byte b : 0 ≤ b < 256 → byte (of_byte b) = b.
Proof.
  intros H. unfold of_byte, byte. rewrite Ascii.N_ascii_embedding by lia. lia.
Qed.

(** ** Lemmas: runes *)

Definition ascii_byte (c : ascii) : bool := byte c <? 128.
Definition ascii_string (s : string) : bool := str_forall ascii_byte s.

Lemma decode_rune_ascii c s : ascii_byte c = true → decode_rune (String c s) = (byte c, 1%nat).
Proof. unfold ascii_byte. intros H. simpl. by rewrite H. Qed.

Lemma decode_rune_width s r w :
  s ≠ ""%string → decode_rune s = (r, w) → (1 ≤ w ≤ str_len s)%nat.
Proof.
  destruct s as [|c0 s1]; [done|]. intros _. unfold decode_rune.
  repeat (case_match; simpl; try (intros [= <- <-]; simpl; lia)).
Qed.

(** A rune of one byte that is not [RuneError] is that (ASCII) byte. *)
Lemma decode_rune_low c s r w :
  decode_rune (String c s) = (r, w) → r < 128 → r = byte c ∧ w = 1%nat ∧ ascii_byte c = true.
Proof.
  unfold decode_rune, RuneError, is_cont, ascii_byte.
  pose proof (byte_range c) as Hc.
  repeat (case_match; simpl; try (intros [= <- <-] Hr)); try lia; try done;
    repeat match goal with
    | H : (_ || _) = false |- _ => apply orb_false_iff in H as [? ?]
    | H : negb _ = false |- _ => apply negb_false_iff in H
    | H : (_ && _) = true |- _ => apply andb_true_iff in H as [? ?]
    end; exfalso;
    repeat match goal with
    | H : context [byte ?a] |- _ =>
      lazymatch goal with
      | _ : 0 ≤ byte a < 256 |- _ => fail
      | _ => pose proof (byte_range a)
      end
    end; repeat case_match; try lia.
Qed.

Lemma str_concat_cons s l : str_concat (s :: l) = (s +:+ str_concat l)%string.
Proof. done. Qed.

Lemma str_concat_app l k : str_concat (l ++ k) = (str_concat l +:+ str_concat k)%string.
Proof. induction l as [|s l IH]; [done|]. cbn [app]. by rewrite !str_concat_cons, IH, str_app_assoc. Qed.

Lemma segments_fuel_concat n s : (str_len s ≤ n)%nat → str_concat (segments_fuel n s).*2 = s.
Proof.
  revert s. induction n as [|n IH]; intros s Hn.
  - assert (s = ""%string) as -> by (apply str_length_nil; lia). done.
  - destruct s as [|c s]; [done|].
    cbn [segments_fuel]. destruct (decode_rune (String c s)) as [r w] eqn:Hd.
    assert (1 ≤ w ≤ str_len (String c s))%nat by by apply decode_rune_width in Hd.
    rewrite fmap_cons. cbn [str_concat foldr snd].
    fold (str_concat ((segments_fuel n (str_drop w (String c s))).*2)).
    rewrite IH; [apply str_take_drop|]. rewrite str_length_drop. simpl in *. lia.
Qed.

Lemma segments_concat s : str_concat (segments s).*2 = s.
Proof. apply segments_fuel_concat. lia. Qed.

Lemma runes_ascii s :
  ascii_string s = true → runes s = byte <$> String.list_ascii_of_string s.
Proof.
  unfold runes, segments.
  assert (∀ n, (str_len s ≤ n)%nat → ascii_string s = true →
    (segments_fuel n s).*1 = byte <$> String.list_ascii_of_string s) as Hgen; [|by apply Hgen].
  induction s as [|c s IH]; intros [|n] Hn; try done; [simpl in Hn; lia|].
  cbn -[decode_rune]. intros [Hc Hs]%andb_true_iff.
  rewrite decode_rune_ascii by done. cbn. f_equal. simpl in Hn. apply IH; [lia|done].
Qed.

(** ** Lemmas: searching *)

Lemma slice_ok i j s : (i ≤ j ∧ j ≤ str_len s)%nat → slice i j s = Ok (str_slice i j s).
Proof. intros. unfold slice. by rewrite decide_True. Qed.

Lemma slice_from_ok i s : (i ≤ str_len s)%nat → slice_from i s = Ok (str_drop i s).
Proof. intros. unfold slice_from. by rewrite decide_True. Qed.

Lemma str_slice_drop i j s : (i ≤ j)%nat → (str_slice i j s +:+ str_drop j s)%string = str_drop i s.
Proof.
  intros. unfold str_slice.
  replace (str_drop j s) with (str_drop (j - i) (str_drop i s)).
  - apply str_take_drop.
  - rewrite str_drop_drop. f_equal. lia.
Qed.

Lemma str_slice_0 j s : str_slice 0 j s = str_take j s.
Proof. unfold str_slice. by rewrite Nat.sub_0_r. Qed.

Lemma str_forall_slice P i j s : str_forall P s = true → str_forall P (str_slice i j s) = true.
Proof. intros. by apply str_forall_take, str_forall_drop. Qed.

Lemma HasPrefix_app s pre : HasPrefix s pre = true ↔ ∃ t, s = (pre +:+ t)%string.
Proof.
  revert s. induction pre as [|p pre IH]; intros s; simpl.
  - split; [by exists s|by destruct s].
  - destruct s as [|c s]; simpl.
    + split; [done|]. by intros [t [=]].
    + case_decide as Hpc.
      * rewrite IH. subst. split; intros [t Ht]; exists t; [by rewrite Ht|by injection Ht].
      * split; [done|]. by intros [t [= ??]].
Qed.

Lemma Index_Some s sub i :
  Index s sub = Some i →
  (i + str_len sub ≤ str_len s)%nat ∧ HasPrefix (str_drop i s) sub = true.
Proof.
  revert i. induction s as [|c s IH]; intros i; cbn [Index].
  - case_match eqn:HE; [|done]. intros [= <-]. split; [|done].
    apply HasPrefix_app in HE as [t Ht]. apply (f_equal String.length) in Ht.
    rewrite str_length_app in Ht. simpl in *. lia.
  - case_match eqn:HE.
    + intros [= <-]. split; [|done].
      apply HasPrefix_app in HE as [t Ht]. rewrite Ht, str_length_app. lia.
    + destruct (Index s sub) as [k|]; [|done]. intros [= <-].
      destruct (IH k eq_refl) as [??]. split; [simpl; lia|done].
Qed.

(** [Index] finds the least position. *)
Lemma Index_least s sub i k :
  Index s sub = Some i → (k < i)%nat → HasPrefix (str_drop k s) sub = false.
Proof.
  revert i k. induction s as [|c s IH]; intros i k; cbn [Index].
  - case_match; [|done]. intros [= <-]. lia.
  - case_match eqn:HE.
    + intros [= <-]. lia.
    + destruct (Index s sub) as [j|]; [|done]. intros [= <-] Hk.
      destruct k as [|k]; [exact HE|]. cbn [str_drop]. apply (IH j); [done|lia].
Qed.

Lemma Index_None s sub k : Index s sub = None → HasPrefix (str_drop k s) sub = false.
Proof.
  revert k. induction s as [|c s IH]; intros k; cbn [Index].
  - case_match eqn:HE; [done|]. by destruct k.
  - case_match eqn:HE; [done|]. destruct (Index s sub) eqn:E; [done|]. intros _.
    destruct k as [|k]; [exact HE|]. cbn [str_drop]. by apply IH.
Qed.

Lemma IndexFunc_Some P s i :
  IndexFunc P s = Some i →
  (i < str_len s)%nat ∧ (∃ c, str_get i s = Some c ∧ P c = true)
  ∧ str_forall (λ c, negb (P c)) (str_take i s) = true.
Proof.
  revert i. induction s as [|c s IH]; intros i; simpl; [done|].
  destruct (P c) eqn:HP.
  - intros [= <-]. simpl. split_and!; [lia|by exists c|done].
  - destruct (IndexFunc P s) as [k|]; [|done]. intros [= <-].
    destruct (IH k eq_refl) as (?&(d & ? & ?)&?). simpl. rewrite HP. simpl.
    split_and!; [lia|by exists d|done].
Qed.

Lemma IndexFunc_None P s : IndexFunc P s = None ↔ str_forall (λ c, negb (P c)) s = true.
Proof.
  induction s as [|c s IH]; simpl; [done|]. destruct (P c); simpl; [done|].
  rewrite <- IH. by destruct (IndexFunc P s).
Qed.

Lemma IndexFunc_app P u c v :
  str_forall (λ c, negb (P c)) u = true → P c = true →
  IndexFunc P (u +:+ String c v) = Some (str_len u).
Proof.
  intros Hu Hc. induction u as [|d u IH]; simpl in *; [by rewrite Hc|].
  apply andb_true_iff in Hu as [Hd Hu]. apply negb_true_iff in Hd. by rewrite Hd, IH.
Qed.

(** No character [a] directly followed by [b]. *)
Fixpoint no_pair (a b : ascii) (s : string) : bool :=
  match s with
  | String c ((String d _) as s') => negb (bool_decide (c = a ∧ d = b)) && no_pair a b s'
  | _ => true
  end.

Lemma no_pair_Index a b s : Index s (String a (char1 b)) = None ↔ no_pair a b s = true.
Proof.
  unfold char1. induction s as [|c s IH]; [done|]. cbn [Index].
  destruct s as [|d s].
  - simpl. destruct (decide (a = c)); done.
  - change (no_pair a b (String c (String d s)))
      with (negb (bool_decide (c = a ∧ d = b)) && no_pair a b (String d s)).
    rewrite andb_true_iff, <- IH, negb_true_iff, bool_decide_eq_false.
    assert (HasPrefix (String c (String d s)) (String a (String b "")) = true ↔ c = a ∧ d = b) as HE.
    { simpl. destruct (decide (a = c)) as [->|Hac]; [destruct (decide (b = d)) as [->|Hbd]|].
      - split; [done|by destruct s].
      - split; [done|]. intros [_ ->]. done.
      - split; [done|]. intros [-> _]. done. }
    destruct (HasPrefix _ _).
    + split; [done|]. intros [Hn _]. destruct Hn. by apply HE.
    + destruct (Index (String d s) _); simpl; split; try done; [by intros [_ ?]|].
      intros _. split; [|done]. intros H. by apply HE in H.
Qed.

Lemma no_pair_app a b u v :
  no_pair a b u = true → no_pair a b v = true →
  (u = ""%string ∨ ∀ c v', v = String c v' → c ≠ b) → no_pair a b (u +:+ v) = true.
Proof.
  induction u as [|c u IH]; [done|]. intros Hu Hv Hb. cbn [String.append].
  destruct Hb as [|Hb]; [done|].
  destruct u as [|d u].
  - simpl. destruct v as [|e v]; [done|]. apply andb_true_iff; split; [|done].
    apply negb_true_iff, bool_decide_eq_false. intros [_ ->]. by apply (Hb b v).
  - cbn [String.append] in *. simpl in Hu. apply andb_true_iff in Hu as [Hcd Hu].
    simpl. rewrite Hcd. simpl. apply IH; [done..|by right].
Qed.

Lemma no_pair_app_l a b u v :
  no_pair a b u = true → no_pair a b v = true →
  (∀ u' c, u = (u' +:+ char1 c)%string → c ≠ a) → no_pair a b (u +:+ v) = true.
Proof.
  induction u as [|c u IH]; [done|]. intros Hu Hv Ha. cbn [String.append].
  destruct u as [|d u].
  - simpl. destruct v as [|e v]; [done|]. apply andb_true_iff; split; [|done].
    apply negb_true_iff, bool_decide_eq_false. intros [-> _]. by apply (Ha "" a).
  - cbn [String.append] in *. simpl in Hu. apply andb_true_iff in Hu as [Hcd Hu].
    simpl. rewrite Hcd. simpl. apply IH; [done..|].
    intros u' e Hu'. apply (Ha (String c u') e). simpl. by rewrite Hu'.
Qed.

Lemma no_pair_app_inv a b u v :
  no_pair a b (u +:+ v) = true → no_pair a b u = true ∧ no_pair a b v = true.
Proof.
  induction u as [|c u IH]; [done|]. cbn [String.append]. destruct u as [|d u].
  - simpl. destruct v; [done|]. by intros [_ ?]%andb_true_iff.
  - cbn [String.append] in *. simpl. intros [Hc H]%andb_true_iff.
    destruct (IH H) as [Hu Hv]. simpl in Hu. by rewrite Hc.
Qed.

Lemma no_pair_take a b n s : no_pair a b s = true → no_pair a b (str_take n s) = true.
Proof. rewrite <- (str_take_drop n s) at 1. by intros [? _]%no_pair_app_inv. Qed.

Lemma no_pair_drop a b n s : no_pair a b s = true → no_pair a b (str_drop n s) = true.
Proof. rewrite <- (str_take_drop n s) at 1. by intros [_ ?]%no_pair_app_inv. Qed.

(** What stands before the first occurrence has no occurrence. *)
Lemma no_pair_before a b s i :
  Index s (String a (char1 b)) = Some i → no_pair a b (str_take i s) = true.
Proof.
  revert i. induction s as [|c s IH]; intros i; cbn [Index]; [done|].
  case_match eqn:HE; [by intros [= <-]|].
  destruct (Index s _) as [k|] eqn:Hk; [|done]. intros [= <-]. specialize (IH k eq_refl).
  cbn [str_take]. destruct k as [|k]; [done|]. destruct s as [|d s]; [done|].
  cbn [str_take] in *. cbn [no_pair]. apply andb_true_iff. split; [|done].
  apply negb_true_iff, bool_decide_eq_false. intros [-> ->].
  unfold char1 in HE. simpl in HE. rewrite !decide_True in HE by done. by destruct s.
Qed.

Lemma str_get_app_len u c v : str_get (str_len u) (u +:+ String c v) = Some c.
Proof. by induction u. Qed.

Lemma str_get_app_r u v i : str_get (str_len u + i) (u +:+ v) = str_get i v.
Proof. by induction u. Qed.

Lemma str_get_app_l u v i : (i < str_len u)%nat → str_get i (u +:+ v) = str_get i u.
Proof. revert i. induction u; intros [|i] ?; simpl in *; [lia..|done|]. apply IHu. lia. Qed.

Lemma str_forall_get P s i c : str_forall P s = true → str_get i s = Some c → P c = true.
Proof.
  revert i. induction s as [|d s IH]; intros i; simpl; [by destruct i|].
  intros [Hd Hs]%andb_true_iff. destruct i as [|i]; [by intros [= <-]|]. by apply IH.
Qed.

Lemma str_get_lt s i : (i < str_len s)%nat → ∃ c, str_get i s = Some c.
Proof. revert i. induction s as [|d s IH]; intros [|i] ?; simpl in *; [lia..|eauto|]. apply IH. lia. Qed.

Lemma HasPrefix_get s pre i c :
  HasPrefix s pre = true → str_get i pre = Some c → str_get i s = Some c.
Proof.
  intros [t ->]%HasPrefix_app Hc. rewrite str_get_app_l; [done|].
  revert i Hc. induction pre; intros [|i] Hc; cbn in *; try done; [lia|].
  apply IHpre in Hc. lia.
Qed.

(** ** Lemmas: splitting *)

Lemma Join_cons s t l sep : Join (s :: t :: l) sep = (s +:+ sep +:+ Join (t :: l) sep)%string.
Proof. done. Qed.

Lemma split_fuel_join n s sep : Join (split_fuel n s sep) sep = s.
Proof.
  revert s. induction n as [|n IH]; intros s; cbn [split_fuel]; [done|].
  destruct (Index s sep) as [i|] eqn:Hi; [|done].
  specialize (IH (str_drop (i + str_len sep) s)).
  destruct (split_fuel n _ sep) as [|t l] eqn:Hl.
  { destruct n; simpl in Hl; [done|]. by destruct (Index _ sep). }
  rewrite Join_cons, IH.
  apply Index_Some in Hi as [Hi [u Hu]%HasPrefix_app]. rewrite <- str_drop_drop, Hu, str_drop_app by done.
  by rewrite <- Hu, str_take_drop.
Qed.

Lemma Join_Split s sep : Join (Split s sep) sep = s.
Proof. apply split_fuel_join. Qed.

Lemma split_fuel_last n s sep :
  sep ≠ ""%string → (str_len s ≤ n)%nat → Index (List.last (split_fuel n s sep) "") sep = None.
Proof.
  intros Hsep. revert s. induction n as [|n IH]; intros s Hn; cbn [split_fuel].
  - assert (s = ""%string) as -> by (apply str_length_nil; lia). by destruct sep.
  - destruct (Index s sep) as [i|] eqn:Hi; [|done].
    apply Index_Some in Hi as [Hi _].
    assert (str_len sep ≠ 0%nat) by by destruct sep.
    specialize (IH (str_drop (i + str_len sep) s)). rewrite str_length_drop in IH.
    destruct (split_fuel n _ sep) as [|t l] eqn:Hl; [destruct n; simpl in Hl; [done|by destruct (Index _ sep)]|].
    apply IH. lia.
Qed.

Lemma Split_last s sep : sep ≠ ""%string → Index (List.last (Split s sep) "") sep = None.
Proof. intros. by apply split_fuel_last. Qed.

Lemma Split_nonempty s sep : Split s sep ≠ [].
Proof. unfold Split. destruct (str_len s); simpl; [done|]. by case_match. Qed.

Definition no_char (c : ascii) (s : string) : bool := str_forall (λ d, negb (bool_decide (d = c))) s.

Lemma Index_char u c v : no_char c u = true → Index (u +:+ String c v) (char1 c) = Some (str_len u).
Proof.
  induction u as [|d u IH]; cbn [Index String.append HasPrefix char1 no_char str_forall str_len].
  - rewrite decide_True by done. by destruct v.
  - intros [Hd Hu]%andb_true_iff. apply negb_true_iff, bool_decide_eq_false in Hd.
    rewrite decide_False by congruence. by rewrite IH.
Qed.

Lemma Index_char_None u c : no_char c u = true → Index u (char1 c) = None.
Proof.
  induction u as [|d u IH]; cbn [Index HasPrefix char1 no_char str_forall]; [done|].
  intros [Hd Hu]%andb_true_iff. apply negb_true_iff, bool_decide_eq_false in Hd.
  rewrite decide_False by congruence. by rewrite IH.
Qed.

Lemma SplitN2_char u c v : no_char c u = true → SplitN2 (u +:+ String c v) (char1 c) = [u; v].
Proof.
  intros Hu. unfold SplitN2. rewrite Index_char by done. rewrite str_take_app by done.
  rewrite <- str_drop_drop, str_drop_app by done. done.
Qed.

Lemma split_fuel_Join n l c :
  l ≠ [] → Forall (λ u, no_char c u = true) l → (str_len (Join l (char1 c)) ≤ n)%nat →
  split_fuel n (Join l (char1 c)) (char1 c) = l.
Proof.
  intros Hne Hl. revert n. induction Hl as [|u l Hu Hl IH]; intros n Hn; [done|].
  destruct l as [|v l].
  - simpl. destruct n; simpl; [done|]. by rewrite Index_char_None.
  - rewrite Join_cons in *. change (char1 c +:+ ?w)%string with (String c w) in *.
    rewrite str_length_app in Hn. destruct n as [|n]; [simpl in Hn; lia|]. cbn [split_fuel].
    rewrite Index_char by done. rewrite str_take_app by done.
    rewrite <- str_drop_drop, str_drop_app by done. f_equal. apply IH; [done|].
    cbn [str_len char1] in *. lia.
Qed.

Lemma Split_Join l c :
  l ≠ [] → Forall (λ u, no_char c u = true) l → Split (Join l (char1 c)) (char1 c) = l.
Proof. intros. by apply split_fuel_Join. Qed.

(** ** Lemmas: trimming *)

Lemma drop_while_id {A} (P : A → bool) l : Forall (λ x, P x = false) l → drop_while P l = l.
Proof. destruct 1 as [|x l Hx]; simpl; [done|]. by rewrite Hx. Qed.

Lemma drop_while_end_id {A} (P : A → bool) l : Forall (λ x, P x = false) l → drop_while_end P l = l.
Proof.
  intros Hl. unfold drop_while_end. rewrite drop_while_id; [by rewrite reverse_involutive|].
  by apply Forall_reverse.
Qed.

Definition printable (c : ascii) : bool := (32 <? byte c) && (byte c <? 127).

Lemma TrimSpace_id s : str_forall printable s = true → TrimSpace s = s.
Proof.
  intros Hs. unfold TrimSpace.
  assert (Forall (λ x : Z * string, is_space x.1 = false) (segments s)) as Hf.
  { assert (ascii_string s = true) as Ha.
    { eapply str_forall_impl; [|exact Hs]. unfold printable, ascii_byte. intros c. lia. }
    apply (Forall_fmap fst (λ r, is_space r = false)). fold (runes s). rewrite runes_ascii by done.
    clear Ha. induction s as [|c s IH]; simpl in *; [done|].
    apply andb_true_iff in Hs as [Hc Hs]. constructor; [|by apply IH].
    unfold printable in Hc. unfold is_space, in_range. lia. }
  rewrite drop_while_id, drop_while_end_id by done. apply segments_concat.
Qed.

(** ** Maps

    [range] over a map visits the entries in an order that Go chooses; a definition that
    ranges over a map uses this class, and a theorem holds for all its instances. *)
Class MapOrder := {
  range_map : ∀ {A}, gmap string A → list (string * A);
  range_map_perm : ∀ A (m : gmap string A), range_map m ≡ₚ map_to_list m
}.
#[export] Instance canonical_order : MapOrder :=
  {| range_map A m := map_to_list m; range_map_perm A m := reflexivity _ |}.

Lemma elem_of_range_map `{MapOrder} {A} (m : gmap string A) k v :
  (k, v) ∈ range_map m ↔ m !! k = Some v.
Proof. by rewrite range_map_perm, elem_of_map_to_list. Qed.

Lemma list_to_map_range_map `{MapOrder} {A} (m : gmap string A) : list_to_map (range_map m) = m.
Proof.
  rewrite (list_to_map_proper _ (map_to_list m)); [apply list_to_map_to_list| |apply range_map_perm].
  rewrite range_map_perm. apply NoDup_fst_map_to_list.
Qed.

(** ** Lemmas: printing and reading integers *)

Lemma digits_value_app acc u v :
  digits_value acc (u +:+ v) = digits_value acc u ≫= λ a, digits_value a v.
Proof.
  revert acc. induction u as [|c u IH]; intros acc; [done|]. simpl.
  destruct (digit_value c); simpl; auto.
Qed.

Definition is_digit_char (c : ascii) : bool := ascii_digit (byte c).

Lemma pretty_N_char_digit x :
  (x < 10)%N → is_digit_char (pretty_N_char x) = true ∧ digit_value (pretty_N_char x) = Some (Z.of_N x).
Proof.
  intros Hx. assert (x = 0 ∨ x = 1 ∨ x = 2 ∨ x = 3 ∨ x = 4 ∨ x = 5 ∨ x = 6 ∨ x = 7 ∨ x = 8 ∨ x = 9)%N
    as H by lia.
  repeat destruct H as [->|H]; subst; by vm_compute.
Qed.

Lemma pretty_N_go_digits x s :
  ∃ u, pretty_N_go x s = (u +:+ s)%string ∧ str_forall is_digit_char u = true
    ∧ digits_value 0 u = Some (Z.of_N x) ∧ (x ≠ 0%N → u ≠ ""%string).
Proof.
  revert s. induction (N.lt_wf_0 x) as [x _ IH]; intros s.
  destruct (decide (x = 0)%N) as [->|Hx].
  { exists ""%string. by rewrite pretty_N_go_0. }
  rewrite pretty_N_go_step by lia.
  destruct (IH (x `div` 10)%N) with (s := String (pretty_N_char (x `mod` 10)) s)
    as (u & -> & Hu & Hv & _); [apply N.div_lt; lia|].
  destruct (pretty_N_char_digit (x `mod` 10)) as [Hd Hdv]; [by apply N.mod_lt|].
  exists (u +:+ char1 (pretty_N_char (x `mod` 10)))%string. split_and!.
  - by rewrite <- str_app_assoc.
  - rewrite str_forall_app, Hu. simpl. by rewrite Hd.
  - rewrite digits_value_app, Hv. simpl. rewrite Hdv. simpl. f_equal.
    pose proof (N.div_mod x 10 ltac:(done)). lia.
  - intros _. by destruct u.
Qed.

Lemma pretty_Z_digits z :
  0 ≤ z → str_forall is_digit_char (pretty z) = true ∧ unsigned_value (pretty z) = Some z
    ∧ pretty z ≠ ""%string.
Proof.
  intros Hz. destruct z as [|p|p]; [by vm_compute| |lia].
  change (pretty (Zpos p)) with (pretty_N_go (Npos p) "").
  destruct (pretty_N_go_digits (Npos p) "") as (u & -> & Hu & Hv & Hne).
  rewrite str_app_nil_r. specialize (Hne ltac:(done)).
  split_and!; [done| |done]. destruct u; [done|]. exact Hv.
Qed.

Lemma digit_not_sign c : is_digit_char c = true → c ≠ "-"%char ∧ c ≠ "+"%char.
Proof. split; by intros ->. Qed.

Lemma ParseInt10_signless bits c s :
  c ≠ "-"%char → c ≠ "+"%char →
  ParseInt10 bits (String c s)
  = v ← unsigned_value (String c s);
    if decide (- 2 ^ (bits - 1) ≤ v ≤ 2 ^ (bits - 1) - 1) then Some v else None.
Proof.
  intros H1 H2. unfold ParseInt10.
  destruct c as [[] [] [] [] [] [] [] []]; try reflexivity; by exfalso.
Qed.

Lemma Atoi_pretty z : int64_range z → Atoi (pretty z) = Some z.
Proof.
  unfold int64_range, min_int64, max_int64, Atoi. intros Hz.
  destruct (decide (0 ≤ z)) as [Hpos|Hneg].
  - destruct (pretty_Z_digits z Hpos) as (Hd & Hv & Hne).
    destruct (pretty z) as [|c s]; [done|]. simpl in Hd. apply andb_true_iff in Hd as [Hc _].
    destruct (digit_not_sign c Hc). rewrite ParseInt10_signless, Hv by done. simpl.
    by rewrite decide_True by lia.
  - destruct z as [|p|p]; [lia..|].
    change (pretty (Zneg p)) with (String "-" (pretty (Zpos p))).
    destruct (pretty_Z_digits (Zpos p)) as (_ & Hv & _); [lia|].
    unfold ParseInt10. rewrite Hv. simpl. by rewrite decide_True by lia.
Qed.
