(* ===== verification/Lexer.v ===== *)
(** * The lexer of the extended syntax (go/parser/lexer.go)

    [lexer] is the struct of the source with Go's signed positions; [next],
    [backup], [peek], the three [skip] functions, [Lex] and the [lex] functions are
    its methods, as state passing.  [Lex_total] and [lex_all_total] show that
    lexing terminates and cuts the input into consecutive tokens when no comment
    introducer stands before a multi-byte rune; [Lex_hangs] shows that it does not
    terminate otherwise. *)

From S2P Require Import Prelude GoStrings.

Local Open Scope Z_scope.

(** ** Tokens

    goyacc numbers the named tokens of extended_syntax_parser.y from 57346 up and
    gives a character its own code; [TChar r] is [int(r)]. *)
Inductive token :=
  | TChar (r : Z)
  | SELECT | FROM | WHERE | LIMIT | TRAIN | PREDICT | EXPLAIN | EVALUATE
  | RUN | MAXIMIZE | MINIMIZE | USING | WITH | CMD | COLUMN | FOR | LABEL | INTO
  | CONSTRAINT | AND | OR | NOT | AS | TO | SHOW | GROUP | BY
  | IDENT | NUMBER | STRING | POWER | LE | GE | NE.

#[export] Instance token_eq_dec : EqDecision token.
Proof. solve_decision. Defined.

(** What [Lex] returns: a token with the text it stored in [lval.val], or an [int]
    that is not positive, which goyacc takes for the end of the input. *)
Inductive lexret :=
  | Tok (t : token) (val : string)
  | End (n : Z).

(** The [result] field, which only the grammar's actions write, is left out. *)
Record lexer := Lexer {
  input : string;
  start : Z;
  pos : Z;
  width : Z;
  err : option error;
  previous : Z
}.

Definition newLexer (s : string) : lexer := Lexer s 0 0 0 None 0.

Definition eof : Z := 0.
Definition input_len (l : lexer) : Z := Z.of_nat (str_len (input l)).
Definition inner_fuel (l : lexer) : nat := S (str_len (input l)).

Definition set_start (z : Z) (l : lexer) : lexer :=
  Lexer (input l) z (pos l) (width l) (err l) (previous l).
Definition set_pos (z : Z) (l : lexer) : lexer :=
  Lexer (input l) (start l) z (width l) (err l) (previous l).
Definition set_width (z : Z) (l : lexer) : lexer :=
  Lexer (input l) (start l) (pos l) z (err l) (previous l).
(** [l.previous = l.start; l.err = fmt.Errorf(...)]. *)
Definition set_err (e : error) (l : lexer) : lexer :=
  Lexer (input l) (start l) (pos l) (width l) (Some e) (start l).

(** [l.input[i:]] and [l.input[i:j]], which panic out of range. *)
Definition input_from (l : lexer) (i : Z) : result string :=
  if decide (0 ≤ i ≤ input_len l) then Ok (str_drop (Z.to_nat i) (input l)) else Panic.
Definition input_slice (l : lexer) (i j : Z) : result string :=
  if decide (0 ≤ i ≤ j ∧ j ≤ input_len l)
  then Ok (str_slice (Z.to_nat i) (Z.to_nat j) (input l)) else Panic.

Definition emit (t : token) (l : lexer) : result (lexret * lexer) :=
  v ← input_slice l (start l) (pos l);
  Ok (Tok t v, Lexer (input l) (pos l) (pos l) (width l) (err l) (start l)).

Definition next (l : lexer) : result (Z * lexer) :=
  if decide (input_len l ≤ pos l) then Ok (eof, set_width 0 l)
  else
    s ← input_from l (pos l);
    let '(r, w) := decode_rune s in
    Ok (r, set_pos (pos l + Z.of_nat w) (set_width (Z.of_nat w) l)).

Definition backup (l : lexer) : lexer := set_pos (pos l - width l) l.

Definition peek (l : lexer) : result (Z * lexer) :=
  if decide (input_len l ≤ pos l) then Ok (eof, l)
  else '(r, l) ← next l; Ok (r, backup l).

(** ** Skipping *)

(** [for r := l.next(); P(r); r = l.next() { skipNum++ }]. *)
Fixpoint skip_while (fuel : nat) (P : Z → bool) (n : nat) (l : lexer) : result (nat * lexer) :=
  match fuel with
  | O => NoFuel
  | S fuel =>
    '(r, l) ← next l;
    if P r then skip_while fuel P (S n) l else Ok (n, l)
  end.

Definition skipSpaces (l : lexer) : result (nat * lexer) :=
  '(n, l) ← skip_while (inner_fuel l) is_space 0 l;
  let l := backup l in
  Ok (n, set_start (pos l) l).

Definition skipSingleLineComment (l : lexer) : result (nat * lexer) :=
  '(nextRune, l) ← peek l;
  if negb (nextRune =? 45 (* - *)) then Ok (0%nat, l)
  else
    '(_, l) ← next l;
    '(nextNextRune, l) ← peek l;
    if negb (nextNextRune =? 45) then Ok (0%nat, backup l)
    else
      '(_, l) ← next l;
      '(n, l) ← skip_while (inner_fuel l) (λ r, negb (r =? 10) && negb (r =? eof)) 0 l;
      let l := backup l in
      Ok (n, set_start (pos l) l).

Definition unclosed_comment : error :=
  Errorf "cannot find the end (*/) of the comment /*...*/" [].

(** The loop of [skipMultipleLineComment]: the flag says that it reached the end
    of the input and recorded the error. *)
Fixpoint comment_loop (fuel : nat) (n : nat) (l : lexer) : result (nat * bool * lexer) :=
  match fuel with
  | O => NoFuel
  | S fuel =>
    '(r, l) ← next l;
    '(closed, l) ←
      (if r =? 42 (* * *) then '(r', l) ← peek l; Ok (r' =? 47, l) else Ok (false, l));
    if (closed : bool) then Ok (n, false, l)
    else if r =? eof then Ok (0%nat, true, set_err unclosed_comment l)
    else comment_loop fuel (S n) l
  end.

Definition skipMultipleLineComment (l : lexer) : result (nat * lexer) :=
  '(nextRune, l) ← peek l;
  if negb (nextRune =? 47 (* / *)) then Ok (0%nat, l)
  else
    '(_, l) ← next l;
    '(nextNextRune, l) ← peek l;
    if negb (nextNextRune =? 42) then Ok (0%nat, backup l)
    else
      '(n, unclosed, l) ← comment_loop (inner_fuel l) 0 l;
      if (unclosed : bool) then Ok (0%nat, l)
      else
        '(_, l) ← next l;
        Ok (n, set_start (pos l) l).

(** The first loop of [Lex]. *)
Fixpoint skip_loop (fuel : nat) (hasSkipComment : bool) (l : lexer) : result (bool * lexer) :=
  match fuel with
  | O => NoFuel
  | S fuel =>
    '(skipSpaceNum, l) ← skipSpaces l;
    '(n1, l) ← skipSingleLineComment l;
    '(n2, l) ← skipMultipleLineComment l;
    if negb (n1 + n2 =? 0)%nat then skip_loop fuel true l
    else if (skipSpaceNum =? 0)%nat then Ok (hasSkipComment, l)
    else skip_loop fuel hasSkipComment l
  end.

(** ** Lexing one token *)

Definition keywds : list (string * token) :=
  [("SELECT", SELECT); ("FROM", FROM); ("WHERE", WHERE); ("LIMIT", LIMIT);
   ("TRAIN", TRAIN); ("PREDICT", PREDICT); ("EXPLAIN", EXPLAIN); ("EVALUATE", EVALUATE);
   ("RUN", RUN); ("MAXIMIZE", MAXIMIZE); ("MINIMIZE", MINIMIZE); ("USING", USING);
   ("WITH", WITH); ("CMD", CMD); ("COLUMN", COLUMN); ("FOR", FOR); ("LABEL", LABEL);
   ("INTO", INTO); ("CONSTRAINT", CONSTRAINT); ("AND", AND); ("OR", OR); ("NOT", NOT);
   ("AS", AS); ("TO", TO); ("SHOW", SHOW); ("GROUP", GROUP); ("BY", BY)].

Definition lookup_keyword (s : string) : option token :=
  '(_, kt) ← list_find (λ kt : string * token, kt.1 = s) keywds; Some kt.2.

Definition reDigits (s : string) : nat :=
  default (str_len s) (IndexFunc (λ c, negb (ascii_digit (byte c))) s).
Definition is_sign (c : ascii) : bool := bool_decide (c = "+"%char ∨ c = "-"%char).
Definition skip_sign (s : string) : nat :=
  match s with String c _ => if is_sign c then 1 else 0 | _ => 0 end%nat.

(** The length of the match of [[-+]?[0-9]*[.]?[0-9]+([eE][-+]?[0-9]+)?] at the
    beginning of [s], leftmost-first: after [k] digits a dot is taken only when a
    digit follows it, an exponent only when it has a digit. *)
Definition mantissa_len (s : string) : option nat :=
  let k := reDigits s in
  let frac := match str_drop k s with
              | String c t => if decide (c = "."%char) then reDigits t else O
              | _ => O
              end in
  if (0 <? frac)%nat then Some (k + 1 + frac)%nat
  else if (0 <? k)%nat then Some k else None.
Definition exponent_len (s : string) : nat :=
  match s with
  | String c t =>
    if bool_decide (c = "e"%char ∨ c = "E"%char) then
      let sg := skip_sign t in
      let k := reDigits (str_drop sg t) in
      if (0 <? k)%nat then (1 + sg + k)%nat else O
    else O
  | _ => O
  end.
Definition reNumber (s : string) : option nat :=
  let sg := skip_sign s in
  m ← mantissa_len (str_drop sg s);
  Some (sg + m + exponent_len (str_drop (sg + m) s))%nat.

Definition operator_rune (r : Z) : bool :=
  existsb (λ c, byte c =? r) (String.list_ascii_of_string "+-*/%<>=()[]{},;!").

(** The loop of [lexString]; the flag says that a closing quote was found. *)
Fixpoint string_loop (fuel : nat) (l : lexer) : result (bool * lexer) :=
  match fuel with
  | O => NoFuel
  | S fuel =>
    '(r, l) ← next l;
    if (r =? 34) || (r =? 39) then Ok (true, l)
    else if r =? eof then Ok (false, l)
    else if r =? 92 (* \ *) then '(_, l) ← next l; string_loop fuel l
    else string_loop fuel l
  end.

Definition unmatched_quotation : error := Errorf "unmatched quotation" [].

Definition lexString (l : lexer) : result (lexret * lexer) :=
  '(_, l) ← next l;
  '(closed, l) ← string_loop (inner_fuel l) l;
  if (closed : bool) then emit STRING l
  else Ok (End (- start l), set_err unmatched_quotation l).

Definition lexNumber (l : lexer) : result (lexret * lexer) :=
  s ← input_from l (pos l);
  match reNumber s with
  | None => Panic (* log.Panicf *)
  | Some m => emit NUMBER (set_pos (pos l + Z.of_nat m) l)
  end.

Definition two_runes (r1 r2 : Z) : option token :=
  if (r1 =? 42) && (r2 =? 42) then Some POWER
  else if (r1 =? 60) && (r2 =? 61) then Some LE
  else if (r1 =? 62) && (r2 =? 61) then Some GE
  else if (r1 =? 33) && (r2 =? 61) then Some NE
  else if (r1 =? 60) && (r2 =? 62) then Some NE
  else None.

(** [l.peek()] runs only behind a first rune that some pair starts with. *)
Definition lexOperator (l : lexer) : result (lexret * lexer) :=
  '(r, l) ← next l;
  if (r =? 42) || (r =? 60) || (r =? 62) || (r =? 33) then
    '(r', l) ← peek l;
    match two_runes r r' with
    | Some t => '(_, l) ← next l; emit t l
    | None => emit (TChar r) l
    end
  else emit (TChar r) l.

Section lex.
Context `{UnicodeTables}.

Definition emitIdentOrKeyword (l : lexer) : result (lexret * lexer) :=
  s ← input_slice l (start l) (pos l);
  emit (default IDENT (lookup_keyword (ToUpper s))) l.

(** '_' '/' ':' '-' go on with an identifier, and so does '.'. *)
Definition ident_rune (r : Z) : bool :=
  is_letter r || is_number r || (r =? 95) || (r =? 47) || (r =? 58) || (r =? 45).

(** The two nested loops of [lexIdentOrKeyword] read on while the rune goes on
    with the identifier or is a dot. *)
Definition lexIdentOrKeyword (l : lexer) : result (lexret * lexer) :=
  '(r, l) ← next l;
  '(_, l) ←
    (if ident_rune r || (r =? 46)
     then skip_while (inner_fuel l) (λ r, ident_rune r || (r =? 46)) 0 l
     else Ok (0%nat, l));
  emitIdentOrKeyword (backup l).

Definition Lex (fuel : nat) (l : lexer) : result (lexret * lexer) :=
  let '(st, ps, wd) := (start l, pos l, width l) in
  '(hasSkipComment, l) ← skip_loop fuel false l;
  '(r, l) ← peek l;
  if is_letter r then lexIdentOrKeyword l
  else if is_digit r then lexNumber l
  else if (r =? 34) || (r =? 39) then lexString l
  else if operator_rune r then lexOperator l
  else if r =? eof then
    Ok (End 0, if (hasSkipComment : bool) then set_start st (set_pos ps (set_width wd l)) else l)
  else Ok (End (0 - start l), l).

(** The tokens goyacc's parser reads: [Lex] is called until it returns an end. *)
Fixpoint lex_all (fuel : nat) (l : lexer) : result (list (token * string) * Z * lexer) :=
  match fuel with
  | O => NoFuel
  | S fuel' =>
    '(ret, l) ← Lex fuel l;
    match ret with
    | End n => Ok ([], n, l)
    | Tok t v => '(ts, n, l) ← lex_all fuel' l; Ok ((t, v) :: ts, n, l)
    end
  end.

Definition lex_string (s : string) : result (list (token * string) * Z * lexer) :=
  lex_all (S (S (str_len s))) (newLexer s).
End lex.


(** ** Invariant *)

(** [start ≤ pos] and both are inside the input. *)
Definition in_bounds (l : lexer) : Prop := 0 ≤ pos l ≤ input_len l.
Definition wf (l : lexer) : Prop := 0 ≤ start l ≤ pos l ∧ pos l ≤ input_len l.

Definition rest (l : lexer) : string := str_drop (Z.to_nat (pos l)) (input l).

Definition comment_intro (c : ascii) : bool := bool_decide (c = "-"%char ∨ c = "/"%char).

(** No ['-'] or ['/'] stands directly before a byte that is not ASCII. *)
Fixpoint safe_input (s : string) : bool :=
  match s with
  | String c ((String d _) as s') => (negb (comment_intro c) || ascii_byte d) && safe_input s'
  | _ => true
  end.

(** A step that keeps the input and does not move back. *)
Definition advances (l l' : lexer) : Prop :=
  input l' = input l ∧ wf l' ∧ pos l ≤ pos l' ∧ start l ≤ start l'.

Lemma ascii_safe s : ascii_string s = true → safe_input s = true.
Proof.
  unfold ascii_string. induction s as [|c s IH]; [done|]. simpl.
  intros [Hc Hs]%andb_true_iff. specialize (IH Hs). destruct s as [|d s]; [done|].
  simpl in Hs. apply andb_true_iff in Hs as [Hd _]. by rewrite Hd, orb_true_r.
Qed.

Lemma safe_input_drop n s : safe_input s = true → safe_input (str_drop n s) = true.
Proof.
  revert s. induction n as [|n IH]; intros [|c s] H; try done.
  simpl. apply IH. destruct s; [done|]. cbn in H. by apply andb_true_iff in H as [_ ?].
Qed.

Lemma safe_input_take n s : safe_input s = true → safe_input (str_take n s) = true.
Proof.
  revert s. induction n as [|n IH]; intros [|c s] H; try done.
  destruct s as [|d s]; [by destruct n|]. cbn in H. apply andb_true_iff in H as [Hc Hs].
  change (safe_input (String d s) = true) in Hs. specialize (IH _ Hs).
  destruct n as [|n]; [done|]. change ((negb (comment_intro c) || ascii_byte d) && safe_input (str_take (S n) (String d s)) = true).
  by rewrite Hc.
Qed.

Lemma input_len_eq l l' : input l' = input l → input_len l' = input_len l.
Proof. unfold input_len. by intros ->. Qed.

Lemma advances_refl l : wf l → advances l l.
Proof. unfold advances. intros ?. split_and!; [done..|lia|lia]. Qed.

Lemma advances_trans l1 l2 l3 : advances l1 l2 → advances l2 l3 → advances l1 l3.
Proof. unfold advances. intros (?&?&?&?) (?&?&?&?). split_and!; [congruence|done|lia|lia]. Qed.

#[local] Hint Resolve advances_refl : core.

Lemma wf_in_bounds l : wf l → in_bounds l.
Proof. unfold wf, in_bounds. lia. Qed.
#[local] Hint Resolve wf_in_bounds : core.

Lemma newLexer_in_bounds s : in_bounds (newLexer s).
Proof. unfold in_bounds, input_len. simpl. lia. Qed.

(** ** next, peek and backup *)

Lemma rest_len l : in_bounds l → Z.of_nat (str_len (rest l)) = input_len l - pos l.
Proof. unfold in_bounds, rest, input_len. rewrite str_length_drop. lia. Qed.

Lemma rest_cons l : in_bounds l → pos l < input_len l → ∃ c s, rest l = String c s.
Proof.
  intros Hl Hlt. pose proof (rest_len l Hl). destruct (rest l); [simpl in *; lia|eauto].
Qed.

Lemma next_eof l : input_len l ≤ pos l → next l = Ok (eof, set_width 0 l).
Proof. intros. unfold next. by rewrite decide_True by lia. Qed.

Lemma next_rune l r w :
  in_bounds l → pos l < input_len l → decode_rune (rest l) = (r, w) →
  next l = Ok (r, set_pos (pos l + Z.of_nat w) (set_width (Z.of_nat w) l))
  ∧ 1 ≤ Z.of_nat w ∧ pos l + Z.of_nat w ≤ input_len l.
Proof.
  intros Hl Hlt Hd. pose proof (rest_len l Hl) as Hr. split.
  - unfold next, input_from. rewrite decide_False by lia.
    rewrite decide_True by (unfold in_bounds in Hl; lia). simpl. unfold rest in Hd. by rewrite Hd.
  - apply decode_rune_width in Hd; [lia|]. intros He. rewrite He in Hr. simpl in Hr. lia.
Qed.

Lemma backup_next l z : backup (set_pos (pos l + z) (set_width z l)) = set_width z l.
Proof. destruct l. unfold backup, set_pos, set_width. simpl. f_equal. lia. Qed.

Lemma peek_eof l : input_len l ≤ pos l → peek l = Ok (eof, l).
Proof. intros. unfold peek. by rewrite decide_True by lia. Qed.

Lemma peek_rune l r w :
  in_bounds l → pos l < input_len l → decode_rune (rest l) = (r, w) →
  peek l = Ok (r, set_width (Z.of_nat w) l).
Proof.
  intros Hl Hlt Hd. destruct (next_rune l r w Hl Hlt Hd) as [Hn _].
  unfold peek. rewrite decide_False by lia. rewrite Hn. simpl. by rewrite backup_next.
Qed.

(** [peek] returns the rune [next] would and changes at most the width. *)
Lemma peek_ok l :
  in_bounds l → ∃ r w, peek l = Ok (r, set_width w l) ∧
    ((pos l = input_len l ∧ r = eof ∧ w = width l) ∨
     (pos l < input_len l ∧ 0 < w ∧ ∃ n, w = Z.of_nat n ∧ decode_rune (rest l) = (r, n))).
Proof.
  intros Hl. destruct (decide (input_len l ≤ pos l)) as [He|Hlt].
  - exists eof, (width l). rewrite peek_eof by done. unfold in_bounds in Hl.
    destruct l; split; [done|left; simpl in *; split_and!; [lia|done..]].
  - destruct (decode_rune (rest l)) as [r w] eqn:Hd.
    pose proof (next_rune l r w Hl ltac:(lia) Hd) as (_ & ? & _).
    exists r, (Z.of_nat w). rewrite (peek_rune l r w) by (done || lia).
    split; [done|]. right. split_and!; [lia..|eauto].
Qed.

Lemma next_ok l :
  in_bounds l → ∃ r w, next l = Ok (r, set_pos (pos l + w) (set_width w l)) ∧
    0 ≤ w ∧ pos l + w ≤ input_len l ∧
    ((pos l = input_len l ∧ r = eof ∧ w = 0) ∨
     (pos l < input_len l ∧ 0 < w ∧ ∃ n, w = Z.of_nat n ∧ decode_rune (rest l) = (r, n))).
Proof.
  intros Hl. destruct (decide (input_len l ≤ pos l)) as [He|Hlt].
  - exists eof, 0. rewrite next_eof by done. unfold in_bounds in Hl.
    split; [|split_and!; [lia..|left; split_and!; [lia|done..]]].
    destruct l; unfold set_pos, set_width; simpl. do 3 f_equal. lia.
  - destruct (decode_rune (rest l)) as [r w] eqn:Hd.
    pose proof (next_rune l r w Hl ltac:(lia) Hd) as (-> & ? & ?).
    exists r, (Z.of_nat w). split; [done|]. split_and!; [lia..|]. right.
    split_and!; [lia..|eauto].
Qed.

(** ** The skip functions *)

Lemma skip_while_ok fuel P n l :
  in_bounds l → P eof = false → input_len l - pos l < Z.of_nat fuel →
  ∃ n' p w, skip_while fuel P n l = Ok (n', set_pos (p + w) (set_width w l))
    ∧ pos l ≤ p ∧ 0 ≤ w ∧ p + w ≤ input_len l ∧ (n ≤ n')%nat ∧ ((n < n')%nat → pos l < p).
Proof.
  revert n l. induction fuel as [|fuel IH]; intros n l Hl HP Hf.
  { unfold in_bounds in Hl. lia. }
  destruct (next_ok l Hl) as (r & w & Hn & Hw & Hb & Hcase).
  cbn [skip_while]. rewrite Hn. simpl. destruct (P r) eqn:HPr.
  - destruct Hcase as [(_ & -> & _)|(Hlt & Hpos & _)]; [congruence|].
    destruct (IH (S n) (set_pos (pos l + w) (set_width w l)))
      as (n' & p & w' & He & ?); [unfold in_bounds in *; simpl in *; unfold input_len in *; simpl; lia
      | done | unfold input_len in *; simpl; lia|].
    exists n', p, w'. split; [exact He|]. unfold input_len in *; simpl in *. lia.
  - exists n, (pos l), w. split; [done|]. lia.
Qed.

Lemma inner_fuel_enough l : in_bounds l → input_len l - pos l < Z.of_nat (inner_fuel l).
Proof. unfold in_bounds, inner_fuel, input_len. lia. Qed.

Lemma backup_set p w l : backup (set_pos (p + w) (set_width w l)) = set_pos p (set_width w l).
Proof. destruct l. unfold backup, set_pos, set_width. simpl. f_equal. lia. Qed.

Lemma skipSpaces_ok l :
  in_bounds l → ∃ n p w, skipSpaces l = Ok (n, set_start p (set_pos p (set_width w l)))
    ∧ pos l ≤ p ≤ input_len l ∧ (n ≠ 0%nat → pos l < p).
Proof.
  intros Hl. destruct (skip_while_ok (inner_fuel l) is_space 0 l)
    as (n & p & w & He & ? & ? & ? & ? & Hn); [done|done|by apply inner_fuel_enough|].
  exists n, p, w. unfold skipSpaces. rewrite He. ok_step. rewrite backup_set.
  split; [done|]. split; [lia|]. intros. apply Hn. lia.
Qed.

Lemma rest_next l w : 0 ≤ pos l → 0 ≤ w →
  rest (set_pos (pos l + w) (set_width w l)) = str_drop (Z.to_nat w) (rest l).
Proof. intros. unfold rest. simpl. rewrite str_drop_drop. f_equal. lia. Qed.

(** Behind a ['-'] or a ['/'] of a safe input, [peek] leaves the lexer alone: the
    width stays 1, so that the [backup] that follows undoes exactly one [next]. *)
Lemma peek_after_intro l r :
  in_bounds l → safe_input (input l) = true → decode_rune (rest l) = (r, 1%nat) →
  r = 45 ∨ r = 47 → pos l < input_len l →
  ∃ r2, peek (set_pos (pos l + 1) (set_width 1 l)) = Ok (r2, set_pos (pos l + 1) (set_width 1 l))
    ∧ (r2 ≠ eof → pos l + 1 < input_len l).
Proof.
  intros Hl Hs Hd Hr Hlt. set (l1 := set_pos _ _).
  assert (Hl1 : in_bounds l1) by (unfold in_bounds, input_len in *; simpl; lia).
  destruct (peek_ok l1 Hl1) as (r2 & w & Hp & Hcase). exists r2. rewrite Hp.
  assert (w = 1) as ->.
  { destruct Hcase as [(_ & _ & ->)|(Hlt1 & _ & n & -> & Hd1)]; [done|].
    destruct (rest_cons l Hl Hlt) as (c & s & Hc).
    destruct (rest_cons l1 Hl1 Hlt1) as (d & t & Hdt).
    assert (s = String d t) as ->.
    { rewrite <- Hdt. unfold l1. rewrite rest_next by (unfold in_bounds in Hl; lia).
      by rewrite Hc. }
    pose proof (safe_input_drop (Z.to_nat (pos l)) _ Hs) as Hs'. fold (rest l) in Hs'.
    rewrite Hc in Hs', Hd. cbn -[ascii_byte] in Hs'.
    apply andb_true_iff in Hs' as [Hs' _].
    destruct (decode_rune_low _ _ _ _ Hd ltac:(lia)) as (Hrc & _ & _).
    assert (comment_intro c = true) as Hci.
    { unfold comment_intro. apply bool_decide_eq_true.
      rewrite <- (of_byte_byte c), <- Hrc. destruct Hr as [-> | ->]; [by left|by right]. }
    rewrite Hci in Hs'. simpl in Hs'. rewrite Hdt, decode_rune_ascii in Hd1 by done.
    by injection Hd1 as _ <-. }
  split; [done|]. intros Hne.
  destruct Hcase as [(_ & -> & _)|(Hlt1 & _)]; [done|]. unfold input_len in *; simpl in *. lia.
Qed.

Lemma set_pos_id l w : set_pos (pos l) (set_width w l) = set_width w l.
Proof. by destruct l. Qed.

Lemma next_intro l r w :
  in_bounds l → r < 128 → r ≠ eof → peek l = Ok (r, set_width w l) →
  decode_rune (rest l) = (r, 1%nat) ∧ pos l < input_len l ∧
  next (set_width w l) = Ok (r, set_pos (pos l + 1) (set_width 1 l)).
Proof.
  intros Hl Hr Hne Hp. destruct (peek_ok l Hl) as (r' & w' & Hp' & Hcase).
  rewrite Hp in Hp'. injection Hp' as <- Hw.
  destruct Hcase as [(_ & -> & _)|(Hlt & _ & n & -> & Hd)]; [done|].
  destruct (rest_cons l Hl Hlt) as (c & s & Hc). rewrite Hc in Hd.
  destruct (decode_rune_low _ _ _ _ Hd Hr) as (_ & -> & _). rewrite <- Hc in Hd.
  split_and!; [done..|].
  by destruct (next_rune (set_width w l) r 1 Hl Hlt Hd) as [-> _].
Qed.

(** What a skip function promises: it keeps the invariant, never moves back, and
    moves forward when it counts something. *)
Definition skip_spec (l : lexer) (res : result (nat * lexer)) : Prop :=
  ∃ n l', res = Ok (n, l') ∧ advances l l' ∧ (n ≠ 0%nat → pos l < pos l').

Lemma skip_spec_0 l l' : advances l l' → skip_spec l (Ok (0%nat, l')).
Proof. intros. exists 0%nat, l'. by split_and!. Qed.

Lemma wf_set_width l w : wf l → wf (set_width w l).
Proof. done. Qed.

Lemma advances_set_width l w : wf l → advances l (set_width w l).
Proof. intros. unfold advances. split_and!; [done..|simpl; lia|simpl; lia]. Qed.

Lemma skipSpaces_spec l : wf l → skip_spec l (skipSpaces l).
Proof.
  intros Hl. destruct (skipSpaces_ok l ltac:(auto)) as (n & p & w & He & Hp & Hn).
  rewrite He. eexists n, _. split; [done|]. split; [|done].
  unfold wf, advances, input_len in *. simpl. split_and!; [done|unfold wf, input_len; simpl; lia..].
Qed.

(** The common head of the two comment functions: the introducer is consumed, or
    the lexer is back where it was. *)
Lemma intro_ok (r1 r2 : Z) l (k : lexer → result (nat * lexer)) :
  wf l → safe_input (input l) = true → r1 = 45 ∨ r1 = 47 → r2 ≠ eof →
  (∀ l1, l1 = set_pos (pos l + 1) (set_width 1 l) → pos l + 1 < input_len l →
     peek l1 = Ok (r2, l1) → skip_spec l (k l1)) →
  skip_spec l
    ('(nextRune, l) ← peek l;
     if negb (nextRune =? r1) then Ok (0%nat, l)
     else '(_, l) ← next l; '(nn, l) ← peek l;
       if negb (nn =? r2) then Ok (0%nat, backup l) else k l).
Proof.
  intros Hl Hs Hr1 Hr2 Hk. destruct (peek_ok l ltac:(auto)) as (r & w & Hp & _).
  rewrite Hp. simpl. destruct (Z.eqb_spec r r1) as [->|Hne]; simpl;
    [|by apply skip_spec_0, advances_set_width].
  destruct (next_intro l r1 w ltac:(auto) ltac:(lia) ltac:(unfold eof; lia) Hp)
    as (Hd & Hlt & Hn). rewrite Hn. simpl.
  destruct (peek_after_intro l r1 ltac:(auto) Hs Hd Hr1 Hlt) as (r' & Hp' & Hlt').
  rewrite Hp'. simpl. destruct (Z.eqb_spec r' r2) as [->|Hne']; simpl.
  - by apply Hk; auto.
  - rewrite backup_next. by apply skip_spec_0, advances_set_width.
Qed.

Lemma skipSingleLineComment_spec l :
  wf l → safe_input (input l) = true → skip_spec l (skipSingleLineComment l).
Proof.
  intros Hl Hs. apply (intro_ok 45 45 l); [done..|by left|done|].
  intros l1 Hl1 Hlt Hp. assert (in_bounds l1) as Hb.
  { subst. unfold wf, in_bounds, input_len in *. simpl. lia. }
  destruct (next_ok l1 Hb) as (r & w & -> & Hw & Hle & _). ok_step.
  set (l2 := set_pos _ _). assert (in_bounds l2) as Hb2.
  { subst. unfold wf, in_bounds, input_len in *. simpl in *. lia. }
  destruct (skip_while_ok (inner_fuel l2) (λ r, negb (r =? 10) && negb (r =? eof)) 0 l2)
    as (n & p & w' & He & Hp1 & Hw' & Hp2 & _ & Hn); [done|done|by apply inner_fuel_enough|].
  rewrite He. ok_step. rewrite backup_set.
  eexists n, _. split; [done|].
  subst. unfold advances, wf, input_len in *. simpl in *. split_and!; [done|lia..].
Qed.

Lemma comment_loop_ok fuel n l :
  wf l → input_len l - pos l < Z.of_nat fuel →
  ∃ n' b l', comment_loop fuel n l = Ok (n', b, l') ∧ advances l l'
    ∧ (b = false → pos l < pos l' ≤ input_len l ∧ start l' = start l).
Proof.
  revert n l. induction fuel as [|fuel IH]; intros n l Hl Hf.
  { unfold wf in Hl. lia. }
  destruct (next_ok l ltac:(auto)) as (r & w & Hn & Hw & Hle & Hcase).
  cbn [comment_loop]. rewrite Hn. simpl. set (l1 := set_pos _ _).
  assert (Hl1 : wf l1) by (unfold wf, input_len in *; simpl in *; lia).
  assert (∃ closed w', (if r =? 42 then '(r', l) ← peek l1; Ok (r' =? 47, l) else Ok (false, l1))
    = Ok (closed, set_width w' l1) ∧ (closed = true → r ≠ eof)) as (closed & w' & Hc & Hne).
  { destruct (Z.eqb_spec r 42) as [->|_].
    - destruct (peek_ok l1 ltac:(auto)) as (r' & w' & -> & _). simpl. by eexists _, w'.
    - exists false, w. split; [|done]. by destruct l. }
  rewrite Hc. simpl. destruct closed.
  - eexists n, false, _. split; [done|]. specialize (Hne eq_refl).
    destruct Hcase as [(_ & ? & _)|(? & ? & _)]; [done|].
    unfold advances, wf, input_len in *. simpl in *. split_and!; try done; lia.
  - destruct (Z.eqb_spec r eof) as [->|Hr].
    + eexists 0%nat, true, _. split; [done|]. split; [|done].
      unfold advances, wf, input_len in *. simpl in *. split_and!; try done; lia.
    + destruct Hcase as [(_ & ? & _)|(? & ? & _)]; [done|].
      destruct (IH (S n) (set_width w' l1)) as (n' & b & l' & -> & Ha & Hb);
        [done|unfold input_len in *; simpl in *; lia|].
      eexists n', b, l'. split; [done|]. destruct Ha as (Hi & Hw1 & Hpos & Hst).
      unfold advances, wf, input_len in *. simpl in *. rewrite Hi in *.
      split_and!; try done; try lia; intros; destruct Hb; auto; lia.
Qed.

Lemma skipMultipleLineComment_spec l :
  wf l → safe_input (input l) = true → skip_spec l (skipMultipleLineComment l).
Proof.
  intros Hl Hs. apply (intro_ok 47 42 l); [done..|by right|done|].
  intros l1 Hl1 Hlt Hp. assert (wf l1) as Hw1.
  { subst. unfold wf, input_len in *. simpl. lia. }
  destruct (comment_loop_ok (inner_fuel l1) 0 l1 Hw1 ltac:(by apply inner_fuel_enough; auto))
    as (n & b & l2 & He & (Hi & Hw2 & Hpos & Hst2) & Hb). rewrite He. simpl.
  destruct b.
  - apply skip_spec_0. subst l1. unfold advances in *. simpl in *. split_and!; [done..|lia|lia].
  - destruct (next_ok l2 ltac:(auto)) as (r & w & -> & Hw & Hle & _). simpl.
    eexists n, _. split; [done|]. destruct Hb as [Hb Hst]; [done|].
    subst l1. unfold advances, wf, input_len in *. simpl in *. rewrite Hi in *. split_and!; try done; lia.
Qed.

(** ** Numbers *)

Lemma IndexFunc_lt P s i : IndexFunc P s = Some i → (i < str_len s)%nat.
Proof.
  revert i. induction s as [|c s IH]; intros i; simpl; [done|].
  destruct (P c); [intros [= <-]; lia|].
  destruct (IndexFunc P s); [|done]. simpl. intros [= <-]. specialize (IH _ eq_refl). lia.
Qed.

Lemma reDigits_le s : (reDigits s ≤ str_len s)%nat.
Proof.
  unfold reDigits. destruct (IndexFunc _ s) eqn:E; simpl; [|lia].
  apply IndexFunc_lt in E. lia.
Qed.

Lemma reDigits_pos c s : ascii_digit (byte c) = true → (0 < reDigits (String c s))%nat.
Proof. unfold reDigits. simpl. intros ->. simpl. destruct (IndexFunc _ s); simpl; lia. Qed.

Lemma mantissa_len_bound s m : mantissa_len s = Some m → (0 < m ≤ str_len s)%nat.
Proof.
  unfold mantissa_len. pose proof (reDigits_le s) as Hk.
  pose proof (str_length_drop (reDigits s) s) as Hd.
  destruct (str_drop (reDigits s) s) as [|c t]; simpl in *.
  - destruct (0 <? reDigits s)%nat eqn:E; [|done]. intros [= <-]. apply Nat.ltb_lt in E. lia.
  - pose proof (reDigits_le t). case_decide; simpl.
    + destruct (0 <? reDigits t)%nat eqn:E; [apply Nat.ltb_lt in E; intros [= <-]; lia|].
      destruct (0 <? reDigits s)%nat eqn:E'; [|done]. intros [= <-]. apply Nat.ltb_lt in E'. lia.
    + destruct (0 <? reDigits s)%nat eqn:E'; [|done]. intros [= <-]. apply Nat.ltb_lt in E'. lia.
Qed.

Lemma skip_sign_le s : (skip_sign s ≤ str_len s)%nat.
Proof. destruct s as [|c s]; simpl; [done|]. destruct (is_sign c); lia. Qed.

Lemma exponent_len_le s : (exponent_len s ≤ str_len s)%nat.
Proof.
  destruct s as [|c t]; simpl; [done|]. destruct (bool_decide _); [|lia].
  pose proof (reDigits_le (str_drop (skip_sign t) t)) as H1. rewrite str_length_drop in H1.
  pose proof (skip_sign_le t). destruct (0 <? _)%nat; lia.
Qed.

Lemma reNumber_bound s m : reNumber s = Some m → (0 < m ≤ str_len s)%nat.
Proof.
  unfold reNumber. pose proof (skip_sign_le s).
  destruct (mantissa_len (str_drop (skip_sign s) s)) as [k|] eqn:E; simpl; [|done].
  apply mantissa_len_bound in E. rewrite str_length_drop in E.
  pose proof (exponent_len_le (str_drop (skip_sign s + k) s)) as He.
  rewrite str_length_drop in He. intros [= <-]. lia.
Qed.

Lemma reNumber_digit c s : ascii_digit (byte c) = true → is_Some (reNumber (String c s)).
Proof.
  intros Hc. unfold reNumber.
  assert (skip_sign (String c s) = 0%nat) as ->.
  { simpl. unfold is_sign. rewrite bool_decide_eq_false_2; [done|].
    intros [-> | ->]; vm_compute in Hc; done. }
  simpl. unfold mantissa_len. pose proof (reDigits_pos c s Hc).
  destruct (match str_drop (reDigits (String c s)) (String c s) with
    | EmptyString => O | String c0 t => if decide (c0 = "."%char) then reDigits t else O end);
    simpl; [|eauto].
  assert (0 <? reDigits (String c s) = true)%nat as -> by (apply Nat.ltb_lt; lia). simpl. eauto.
Qed.

Lemma reNumber_high c s r n :
  decode_rune (String c s) = (r, n) → 128 ≤ r → reNumber (String c s) = None.
Proof.
  intros Hd Hr. assert (byte c <? 128 = false) as Hc.
  { apply Z.ltb_ge. destruct (Z.ltb_spec (byte c) 128) as [Hlt|]; [|done].
    rewrite decode_rune_ascii in Hd by (by apply Z.ltb_lt). injection Hd as <- _. lia. }
  assert (reDigits (String c s) = 0%nat) as Hz.
  { unfold reDigits. simpl. replace (ascii_digit (byte c)) with false; [done|].
    symmetry. apply andb_false_iff. right. apply Z.leb_gt. apply Z.ltb_ge in Hc. lia. }
  assert (skip_sign (String c s) = 0%nat) as Hsg.
  { simpl. unfold is_sign. rewrite bool_decide_eq_false_2; [done|]. by intros [-> | ->]. }
  unfold reNumber, mantissa_len. rewrite Hsg. cbn [str_drop]. rewrite Hz. cbn [str_drop].
  by rewrite decide_False by (by intros ->).
Qed.

(** ** One call of Lex *)

Lemma skip_loop_ok fuel h l :
  wf l → safe_input (input l) = true → input_len l - pos l < Z.of_nat fuel →
  ∃ h' l', skip_loop fuel h l = Ok (h', l') ∧ advances l l' ∧ pos l ≤ start l'.
Proof.
  revert h l. induction fuel as [|fuel IH]; intros h l Hl Hs Hf; [unfold wf in Hl; lia|].
  cbn [skip_loop].
  destruct (skipSpaces_spec l Hl) as (n0 & l0 & He0 & (Hi0 & Hw0 & Hp0 & Hst0) & Hn0).
  assert (pos l ≤ start l0).
  { destruct (skipSpaces_ok l ltac:(auto)) as (n & p & w & He & ? & _).
    rewrite He in He0. injection He0 as _ <-. simpl. lia. }
  rewrite He0. ok_step.
  destruct (skipSingleLineComment_spec l0 Hw0 ltac:(by rewrite Hi0))
    as (n1 & l1 & -> & (Hi1 & Hw1 & Hp1 & Hst1) & Hn1). ok_step.
  assert (input l1 = input l) as Hi1' by congruence.
  destruct (skipMultipleLineComment_spec l1 Hw1 ltac:(by rewrite Hi1'))
    as (n2 & l2 & -> & (Hi2 & Hw2 & Hp2 & Hst2) & Hn2). ok_step.
  assert (input l2 = input l) as Hi2' by congruence.
  assert (advances l l2) by (unfold advances; split_and!; [done..|lia|lia]).
  assert (∀ h', pos l < pos l2 → ∃ h'' l', skip_loop fuel h' l2 = Ok (h'', l') ∧
    advances l l' ∧ pos l ≤ start l') as Hgo.
  { intros h' Hlt. destruct (IH h' l2) as (h'' & l' & -> & Ha & Hst);
      [done|by rewrite Hi2'|rewrite (input_len_eq l) by done; lia|].
    exists h'', l'. split; [done|]. split; [by eapply advances_trans|lia]. }
  destruct (n1 + n2 =? 0)%nat eqn:E; simpl.
  - destruct (n0 =? 0)%nat eqn:E0; [eexists _, l2; split; [done|]; split; [done|lia]|]. apply Nat.eqb_neq in E0. apply Hgo. lia.
  - apply Nat.eqb_neq in E. apply Hgo.
    destruct (decide (n1 = 0%nat)); [assert (n2 ≠ 0%nat) by lia|]; intuition lia.
Qed.

(** A token was cut out of the input: its text is the bytes between [previous] and
    [pos], it is not empty, it starts at [p] or later, and the next token starts
    where it ends. *)
Definition token_ok (p : Z) (s : string) (ret : lexret) (l' : lexer) : Prop :=
  ∃ t v, ret = Tok t v ∧ input l' = s ∧ wf l' ∧ p ≤ previous l' < pos l' ∧ start l' = pos l'
    ∧ v = str_slice (Z.to_nat (previous l')) (Z.to_nat (pos l')) s.

Lemma emit_ok p t l :
  wf l → p ≤ start l < pos l → ∃ ret l', emit t l = Ok (ret, l') ∧ token_ok p (input l) ret l'.
Proof.
  intros Hl Hp. unfold emit, input_slice. unfold wf in Hl.
  rewrite decide_True by lia. ok_step. eexists _, _. split; [done|].
  unfold token_ok, wf, input_len in *. simpl. eexists _, _. split_and!; try done; lia.
Qed.

Lemma lexNumber_ok p l c s :
  wf l → p ≤ start l → rest l = String c s → ascii_digit (byte c) = true →
  ∃ ret l', lexNumber l = Ok (ret, l') ∧ token_ok p (input l) ret l'.
Proof.
  intros Hl Hp Hr Hc. unfold lexNumber, input_from.
  rewrite decide_True by (unfold wf in Hl; lia). ok_step. fold (rest l). rewrite Hr.
  destruct (reNumber_digit c s Hc) as [m Hm]. rewrite Hm.
  pose proof (reNumber_bound _ _ Hm) as Hb. rewrite <- Hr in Hb.
  pose proof (rest_len l ltac:(auto)) as Hlen.
  apply (emit_ok p NUMBER (set_pos (pos l + Z.of_nat m) l)); unfold wf, input_len in *; simpl; lia.
Qed.

Lemma string_loop_ok fuel l :
  wf l → input_len l - pos l < Z.of_nat fuel →
  ∃ b l', string_loop fuel l = Ok (b, l') ∧ input l' = input l ∧ start l' = start l ∧ wf l'
    ∧ pos l ≤ pos l' ∧ (b = true → pos l < pos l').
Proof.
  revert l. induction fuel as [|fuel IH]; intros l Hl Hf; [unfold wf in Hl; lia|].
  destruct (next_ok l ltac:(auto)) as (r & w & Hn & Hw & Hle & Hcase).
  cbn [string_loop]. rewrite Hn. ok_step. set (l1 := set_pos _ _).
  assert (Hl1 : wf l1) by (unfold wf, input_len in *; simpl in *; lia).
  destruct ((r =? 34) || (r =? 39)) eqn:E.
  { exists true, l1. destruct Hcase as [(_ & -> & _)|(? & ? & _)]; [done|].
    split_and!; try done; subst l1; simpl; intros; lia. }
  destruct (r =? eof) eqn:E'.
  { exists false, l1. split_and!; try done. subst l1; simpl; lia. }
  destruct Hcase as [(_ & -> & _)|(? & ? & _)]; [done|].
  assert (∀ l2, wf l2 → input l2 = input l → start l2 = start l → pos l1 ≤ pos l2 →
    ∃ b l', string_loop fuel l2 = Ok (b, l') ∧ input l' = input l ∧ start l' = start l ∧ wf l'
    ∧ pos l ≤ pos l' ∧ (b = true → pos l < pos l')) as Hgo.
  { intros l2 Hl2 Hi Hst Hpos.
    destruct (IH l2 Hl2) as (b & l' & -> & ? & ? & ? & ? & ?).
    { rewrite (input_len_eq l) by done. subst l1; simpl in *; lia. }
    exists b, l'. subst l1. simpl in *. split_and!; try done; try congruence; intros; lia. }
  destruct (r =? 92); [|apply Hgo; try done; lia].
  destruct (next_ok l1 ltac:(auto)) as (r' & w' & -> & Hw' & Hle' & _). ok_step.
  apply Hgo; try done; subst l1; unfold wf, input_len in *; simpl in *; lia.
Qed.

Lemma lexString_ok p l :
  wf l → p ≤ start l → ∃ ret l', lexString l = Ok (ret, l') ∧
    (token_ok p (input l) ret l' ∨
     ret = End (- start l) ∧ input l' = input l ∧ wf l' ∧ err l' = Some unmatched_quotation).
Proof.
  intros Hl Hp. unfold lexString.
  destruct (next_ok l ltac:(auto)) as (r & w & -> & Hw & Hle & _). ok_step. set (l1 := set_pos _ _).
  assert (Hl1 : wf l1) by (unfold wf, input_len in *; simpl in *; lia).
  destruct (string_loop_ok (inner_fuel l1) l1 Hl1) as (b & l2 & -> & Hi & Hst & Hw2 & Hpos & Hb);
    [by apply inner_fuel_enough; auto|]. ok_step. destruct b.
  - destruct (emit_ok p STRING l2) as (ret & l' & -> & Ht); [done| |].
    { specialize (Hb eq_refl). rewrite Hst. subst l1. unfold wf in *. simpl in *. lia. }
    eexists _, _. split; [done|]. left. by rewrite Hi in Ht.
  - eexists _, _. split; [done|]. right. subst l1. simpl in *. by rewrite Hst.
Qed.

Lemma lexOperator_ok p l :
  wf l → p ≤ start l → pos l < input_len l →
  ∃ ret l', lexOperator l = Ok (ret, l') ∧ token_ok p (input l) ret l'.
Proof.
  intros Hl Hp Hlt. unfold lexOperator.
  destruct (next_ok l ltac:(auto)) as (r & w & -> & Hw & Hle & Hcase). ok_step.
  destruct Hcase as [(? & _)|(_ & Hw0 & _)]; [lia|].
  set (l1 := set_pos _ _).
  assert (Hl1 : wf l1) by (unfold wf, input_len in *; simpl in *; lia).
  assert (p ≤ start l1 < pos l1) as Hlt1 by (subst l1; unfold wf in *; simpl in *; lia).
  destruct (_ || _); [|by apply (emit_ok p _ l1)].
  destruct (peek_ok l1 ltac:(auto)) as (r' & w' & -> & _). ok_step.
  destruct (two_runes r r'); [|by apply (emit_ok p _ (set_width w' l1))].
  destruct (next_ok (set_width w' l1) ltac:(auto)) as (r'' & w'' & -> & ? & ? & _). ok_step.
  apply (emit_ok p t (set_pos (pos l1 + w'') (set_width w'' l1)));
    subst l1; unfold wf, input_len in *; simpl in *; lia.
Qed.

Section lex_lemmas.
Context `{UnicodeTables}.

Lemma lexIdent_ok p l r w :
  wf l → p ≤ start l → peek l = Ok (r, set_width w l) → is_letter r = true →
  ∃ ret l', lexIdentOrKeyword (set_width w l) = Ok (ret, l') ∧ token_ok p (input l) ret l'.
Proof.
  intros Hl Hp Hpk Hr. unfold lexIdentOrKeyword.
  destruct (peek_ok l ltac:(auto)) as (r0 & w0 & Hpk' & Hcase).
  rewrite Hpk in Hpk'. injection Hpk' as <- Hw0.
  destruct Hcase as [(_ & -> & _)|(Hlt & _ & n & -> & Hd)]; [done|].
  destruct (next_rune (set_width w l) r n ltac:(by apply wf_in_bounds) Hlt Hd) as (-> & ? & Hle).
  ok_step. assert (ident_rune r = true) as Hir by (unfold ident_rune; by rewrite Hr).
  rewrite Hir. simpl (_ || _). cbv iota.
  set (l1 := set_pos _ _).
  assert (Hl1 : wf l1) by (unfold wf, input_len in *; simpl in *; lia).
  destruct (skip_while_ok (inner_fuel l1) (λ r, ident_rune r || (r =? 46)) 0 l1)
    as (n' & p' & w' & -> & ? & ? & ? & _); [auto|done|by apply inner_fuel_enough; auto|].
  ok_step. rewrite backup_set. unfold emitIdentOrKeyword, input_slice.
  set (l2 := set_pos p' _).
  assert (Hl2 : wf l2) by (subst l1; unfold wf, input_len in *; simpl in *; lia).
  rewrite decide_True by (unfold wf in Hl2; lia). ok_step.
  apply (emit_ok p _ l2); [done|]. subst l1. simpl in *. unfold wf in *. lia.
Qed.

(** What [Lex] does to a well-formed lexer: it cuts out a token, or it stops with
    an [int] that is not positive. *)
Definition lex_ok (l : lexer) (res : result (lexret * lexer)) : Prop :=
  ∃ ret l', res = Ok (ret, l') ∧ input l' = input l ∧ wf l' ∧
    (token_ok (pos l) (input l) ret l' ∨ ∃ n, ret = End n ∧ n ≤ 0).

Lemma token_lex_ok p l l2 m :
  p = pos l → input l2 = input l →
  (∃ ret l', m = Ok (ret, l') ∧ token_ok p (input l2) ret l') → lex_ok l m.
Proof.
  intros -> Hi (ret & l' & -> & Ht). exists ret, l'. rewrite Hi in Ht.
  destruct Ht as (t & v & Hret & Hi' & Hw & Hrest).
  split_and!; [done..|]. left. exists t, v. auto.
Qed.

Lemma digit_ascii r : is_digit r = true → r < 128 → ascii_digit r = true.
Proof. unfold is_digit. intros Hr ?. by destruct (Z.ltb_spec r 128); [|lia]. Qed.

(** The only way to the [log.Panicf] of [lexNumber] is a digit beyond ASCII. *)
Lemma Lex_cases fuel l :
  wf l → safe_input (input l) = true → input_len l - pos l < Z.of_nat fuel →
  lex_ok l (Lex fuel l) ∨
  (Lex fuel l = Panic ∧ ∃ i r w, decode_rune (str_drop i (input l)) = (r, w) ∧
     128 ≤ r ∧ digit_hi r = true).
Proof.
  intros Hl Hs Hf. unfold Lex.
  destruct (skip_loop_ok fuel false l Hl Hs Hf) as (h & l2 & -> & (Hi & Hw2 & Hp & _) & Hst).
  ok_step. destruct (peek_ok l2 ltac:(auto)) as (r & w & Hpk & Hcase). rewrite Hpk. ok_step.
  assert (Hwl : wf (set_width w l2)) by done.
  destruct (is_letter r) eqn:Er.
  { left. eapply (token_lex_ok (pos l) l l2); [done..|]. by eapply lexIdent_ok. }
  destruct (is_digit r) eqn:Ed.
  { destruct Hcase as [(_ & -> & _)|(Hlt & _ & n & -> & Hd)]; [done|].
    destruct (decide (r < 128)) as [Hr|Hr].
    - left. eapply (token_lex_ok (pos l) l (set_width (Z.of_nat n) l2)); [done..|].
      destruct (rest_cons l2 ltac:(auto) Hlt) as (c & s & Hc). rewrite Hc in Hd.
      destruct (decode_rune_low _ _ _ _ Hd Hr) as (-> & _ & _).
      eapply lexNumber_ok; [done..|]. by apply digit_ascii.
    - right. unfold is_digit in Ed. destruct (Z.ltb_spec r 128); [lia|].
      split; [|rewrite <- Hi; by eexists _, _, _].
      unfold lexNumber, input_from. rewrite decide_True by (unfold wf in Hwl; lia). ok_step.
      fold (rest (set_width (Z.of_nat n) l2)).
      assert (rest (set_width (Z.of_nat n) l2) = rest l2) as -> by done.
      destruct (rest_cons l2 ltac:(auto) Hlt) as (c & s & Hc). rewrite Hc in *.
      by rewrite (reNumber_high c s r n). }
  destruct (_ || _).
  { left. destruct (lexString_ok (pos l) (set_width w l2)) as (ret & l' & -> & Ht); [done..|].
    destruct Ht as [Ht|(-> & Hi' & Hw' & _)].
    - eapply (token_lex_ok (pos l) l l2); [done..|]. by eexists _, _.
    - exists (End (- start l2)), l'. split_and!; [done|by rewrite Hi', <- Hi|done|].
      right. eexists. split; [done|]. unfold wf in Hw2. lia. }
  destruct (operator_rune r) eqn:Eo.
  { left. destruct Hcase as [(_ & -> & _)|(Hlt & _)]; [done|].
    eapply (token_lex_ok (pos l) l (set_width w l2)); [done..|]. by apply lexOperator_ok. }
  left. destruct (r =? eof).
  - exists (End 0), (if h then set_start (start l) (set_pos (pos l) (set_width (width l) (set_width w l2)))
      else set_width w l2). split; [done|].
    split_and!; [by destruct h| |right; by exists 0].
    destruct h; [|done]. unfold wf, input_len in *. simpl. rewrite Hi. lia.
  - exists (End (0 - start l2)), (set_width w l2). split_and!; [done..|].
    right. eexists. split; [done|]. unfold wf in Hw2. lia.
Qed.
End lex_lemmas.

(** ** Reading known bytes *)

Lemma next_at l c s :
  0 ≤ pos l → rest l = String c s → ascii_byte c = true →
  next l = Ok (byte c, set_pos (pos l + 1) (set_width 1 l)).
Proof.
  intros Hp Hr Hc. unfold next, input_from.
  assert (pos l < input_len l).
  { unfold rest, input_len in *. apply (f_equal str_len) in Hr.
    rewrite str_length_drop in Hr. simpl in Hr. lia. }
  rewrite decide_False, decide_True by lia. ok_step. fold (rest l).
  by rewrite Hr, decode_rune_ascii.
Qed.

Lemma peek_at l c s :
  0 ≤ pos l → rest l = String c s → ascii_byte c = true → peek l = Ok (byte c, set_width 1 l).
Proof.
  intros Hp Hr Hc. unfold peek. rewrite decide_False.
  - rewrite (next_at l c s) by done. ok_step. by rewrite backup_next.
  - unfold rest, input_len in *. apply (f_equal str_len) in Hr.
    rewrite str_length_drop in Hr. simpl in Hr. lia.
Qed.

Lemma rest_step l c s :
  0 ≤ pos l → rest l = String c s → rest (set_pos (pos l + 1) (set_width 1 l)) = s.
Proof. intros Hp Hr. rewrite rest_next by lia. by rewrite Hr. Qed.

Lemma rest_nil l : in_bounds l → rest l = ""%string → pos l = input_len l.
Proof. intros Hl Hr. pose proof (rest_len l Hl) as H. rewrite Hr in H. simpl in H. lia. Qed.

(** [skip_while] over ASCII bytes that satisfy [P], up to a byte that does not or to
    the end of the input. *)
Definition stops (P : Z → bool) (s : string) : Prop :=
  match s with
  | EmptyString => P eof = false
  | String c _ => ascii_byte c = true ∧ P (byte c) = false
  end.

Lemma skip_while_run fuel P n l w s :
  in_bounds l → rest l = (w +:+ s)%string →
  str_forall (λ c, ascii_byte c && P (byte c)) w = true → stops P s →
  (str_len w < fuel)%nat →
  ∃ wd, skip_while fuel P n l
    = Ok ((n + str_len w)%nat, set_pos (pos l + Z.of_nat (str_len w) + wd) (set_width wd l)).
Proof.
  revert n l w. induction fuel as [|fuel IH]; intros n l w Hl Hr Hw Hs Hf; [lia|].
  pose proof (rest_len l Hl) as Hlen. unfold in_bounds in Hl.
  destruct w as [|c w]; simpl in Hr.
  - cbn [skip_while]. rewrite Nat.add_0_r. cbn [str_len]. destruct s as [|c s]; simpl in Hs.
    + rewrite next_eof by (rewrite Hr in Hlen; simpl in Hlen; lia). ok_step. rewrite Hs.
      exists 0. do 2 f_equal. destruct l; unfold set_pos, set_width; simpl. f_equal; lia.
    + destruct Hs as [Hc HP]. rewrite (next_at l c s) by (done || lia). ok_step. rewrite HP.
      exists 1. do 3 f_equal. simpl. lia.
  - simpl in Hw. apply andb_true_iff in Hw as [[Hc HP]%andb_true_iff Hw].
    cbn [skip_while]. rewrite (next_at l c (w +:+ s)) by (done || lia). ok_step. rewrite HP.
    destruct (IH (S n) (set_pos (pos l + 1) (set_width 1 l)) w) as [wd Hwd];
      [rewrite Hr in Hlen; unfold in_bounds, input_len in *; simpl in *; lia
      |by eapply rest_step; [lia|]|done|done|simpl in Hf; lia|].
    exists wd. rewrite Hwd. do 2 f_equal; [simpl; lia|].
    unfold set_pos, set_width; simpl. f_equal; lia.
Qed.

(** ** Divergence *)

Section hang.
Context (c : ascii) (s : string) (r : Z).
Hypothesis intro_c : comment_intro c = true.
Hypothesis two_bytes : decode_rune s = (r, 2%nat).

Lemma intro_byte : ascii_byte c = true ∧ is_space (byte c) = false ∧ (byte c = 45 ∨ byte c = 47).
Proof.
  unfold comment_intro in intro_c. apply bool_decide_eq_true in intro_c as [-> | ->];
    split_and!; try done; [by left|by right].
Qed.

Lemma two_bytes_rune : 128 ≤ r ∧ (2 ≤ str_len s)%nat.
Proof.
  assert (s ≠ ""%string) as Hs by (intros ->; by simpl in two_bytes).
  pose proof (decode_rune_width _ _ _ Hs two_bytes). split; [|lia].
  destruct (decide (r < 128)); [|lia]. destruct s as [|d t]; [done|].
  apply decode_rune_low in two_bytes; [|done]. lia.
Qed.

(** The lexer stands on the space. *)
Definition at_space (p : Z) (l : lexer) : Prop :=
  in_bounds l ∧ pos l = p ∧ rest l = String " " (String c s).

(** A [peek] at the two-byte rune makes [backup] go one byte too far back. *)
Lemma intro_overshoot l :
  in_bounds l → rest l = String c s →
  peek l = Ok (byte c, set_width 1 l) ∧
  next (set_width 1 l) = Ok (byte c, set_pos (pos l + 1) (set_width 1 l)) ∧
  peek (set_pos (pos l + 1) (set_width 1 l)) = Ok (r, set_pos (pos l + 1) (set_width 2 l)).
Proof.
  intros Hl Hr. destruct intro_byte as (Hc & _ & _). pose proof (rest_len l Hl) as Hlen.
  destruct two_bytes_rune as [_ Hs]. rewrite Hr in Hlen. simpl in Hlen.
  split_and!.
  - apply (peek_at l c s); [unfold in_bounds in Hl; lia|done..].
  - apply (next_at (set_width 1 l) c s); [unfold in_bounds in Hl; simpl; lia|done..].
  - rewrite (peek_rune _ r 2).
    + done.
    + unfold in_bounds, input_len in *. simpl. lia.
    + unfold in_bounds, input_len in *. simpl. lia.
    + rewrite (rest_step l c s); [done|unfold in_bounds in Hl; lia|done].
Qed.

Lemma hang_round p l :
  at_space p l → ∃ l1, skipSpaces l = Ok (1%nat, l1) ∧
  ∃ l2, skipSingleLineComment l1 = Ok (0%nat, l2) ∧
  ∃ l3, skipMultipleLineComment l2 = Ok (0%nat, l3) ∧ at_space p l3.
Proof.
  intros (Hl & <- & Hr). destruct intro_byte as (Hc & Hsp & Hb).
  destruct two_bytes_rune as [Hr2 Hs].
  pose proof (rest_len l Hl) as Hlen. rewrite Hr in Hlen. simpl in Hlen.
  destruct (skip_while_run (inner_fuel l) is_space 0 l " " (String c s)) as [wd Hsk];
    [done..|unfold inner_fuel, in_bounds, input_len in *; simpl; lia|].
  unfold skipSpaces. rewrite Hsk. ok_step. rewrite backup_set. eexists. split; [done|].
  set (l1 := set_start _ _).
  assert (in_bounds l1) as Hl1 by (unfold in_bounds, input_len in *; simpl in *; lia).
  assert (rest l1 = String c s) as Hr1.
  { pose proof (rest_step l " " (String c s) ltac:(unfold in_bounds in Hl; lia) Hr) as He.
    unfold rest in *. simpl in *. done. }
  destruct (intro_overshoot l1 Hl1 Hr1) as (Hp1 & Hn1 & Hp2).
  (* after a step over the introducer and back: on the space again *)
  set (l2 := backup (set_pos (pos l1 + 1) (set_width 2 l1))).
  assert (at_space (pos l) l2) as Hl2.
  { subst l1 l2. unfold at_space, in_bounds, input_len, rest, backup in *. simpl in *.
    split_and!; [lia..|]. rewrite <- Hr. f_equal. lia. }
  destruct Hl2 as (Hb2 & Hp & Hr2'). unfold skipSingleLineComment, skipMultipleLineComment.
  rewrite Hp1. ok_step. destruct Hb as [Hb|Hb]; rewrite !Hb; simpl (negb _); cbv iota.
  - rewrite Hn1. ok_step. rewrite Hp2. ok_step.
    assert (r =? 45 = false) as -> by (apply Z.eqb_neq; lia). simpl (negb _). cbv iota.
    eexists. split; [done|]. fold l2.
    rewrite (peek_at l2 " " (String c s)) by (done || (unfold in_bounds in Hb2; lia)). ok_step.
    simpl (negb _). cbv iota. eexists. split; [done|]. by split_and!.
  - eexists. split; [done|].
    assert (peek (set_width 1 l1) = Ok (47, set_width 1 l1)) as ->.
    { rewrite <- Hb. apply (peek_at (set_width 1 l1) c s); [|done..].
      by destruct Hl1. }
    ok_step. simpl (negb _). cbv iota. rewrite Hn1. ok_step. rewrite Hp2. ok_step.
    assert (r =? 42 = false) as -> by (apply Z.eqb_neq; lia). simpl (negb _). cbv iota.
    eexists. split; [done|]. by split_and!.
Qed.

Lemma skip_loop_hangs fuel h p l : at_space p l → skip_loop fuel h l = NoFuel.
Proof.
  revert h l. induction fuel as [|fuel IH]; intros h l Hl; [done|].
  destruct (hang_round p l Hl) as (l1 & H1 & l2 & H2 & l3 & H3 & Hl3).
  cbn [skip_loop]. rewrite H1. ok_step. rewrite H2. ok_step. rewrite H3. ok_step.
  simpl. by apply IH.
Qed.
End hang.

(** ** Words, strings and comments *)

Section words.
Context `{UnicodeTables}.

Definition word_rune (r : Z) : bool := ident_rune r || (r =? 46).
Definition word_byte (c : ascii) : bool := ascii_byte c && word_rune (byte c).

(** A word: an ASCII letter and ASCII identifier characters or dots. *)
Definition is_word (w : string) : bool :=
  match w with
  | EmptyString => false
  | String c _ => is_letter (byte c) && str_forall word_byte w
  end.

Lemma slice_at l w s :
  in_bounds l → rest l = (w +:+ s)%string →
  str_slice (Z.to_nat (pos l)) (Z.to_nat (pos l + Z.of_nat (str_len w))) (input l) = w.
Proof.
  intros Hl Hr. unfold in_bounds in Hl. unfold str_slice. fold (rest l). rewrite Hr.
  apply str_take_app. lia.
Qed.

(** Where no space and no comment starts, [Lex] goes on at once. *)
Lemma skip_loop_none fuel h l c s :
  in_bounds l → rest l = String c s → ascii_byte c = true →
  is_space (byte c) = false → byte c ≠ 45 → byte c ≠ 47 →
  skip_loop (S fuel) h l = Ok (h, set_start (pos l) (set_width 1 l)).
Proof.
  intros Hl Hr Hc Hsp H1 H2. pose proof Hl as [Hp _].
  destruct (skip_while_run (inner_fuel l) is_space 0 l "" (String c s)) as [wd Hsk];
    [done..|unfold inner_fuel; simpl; lia|].
  cbn [skip_loop]. unfold skipSpaces. rewrite Hsk. ok_step. rewrite backup_set.
  cbn [str_len Nat.add Z.of_nat]. set (l1 := set_start _ _).
  assert (rest l1 = String c s) as Hr1.
  { rewrite <- Hr. unfold rest. simpl. f_equal. lia. }
  assert (0 ≤ pos l1) by (simpl; lia).
  unfold skipSingleLineComment. rewrite (peek_at l1 c s) by done. ok_step.
  assert (byte c =? 45 = false) as -> by (by apply Z.eqb_neq). cbv beta iota delta [negb].
  ok_step. unfold skipMultipleLineComment. rewrite (peek_at (set_width 1 l1) c s) by done. ok_step.
  assert (byte c =? 47 = false) as -> by (by apply Z.eqb_neq). cbv beta iota delta [negb].
  ok_step. simpl. do 2 f_equal. destruct l. unfold l1, set_start, set_pos, set_width. simpl.
  f_equal; lia.
Qed.

Lemma letter_class c :
  ascii_byte c = true → is_letter (byte c) = true →
  is_space (byte c) = false ∧ byte c ≠ 45 ∧ byte c ≠ 47 ∧ byte c ≠ 0.
Proof.
  unfold ascii_byte, is_letter. intros ->.
  unfold ascii_upper_letter, ascii_lower_letter, in_range. intros Hb.
  assert (65 ≤ byte c ≤ 122) as Hr.
  { apply orb_true_iff in Hb as [Hb|Hb]; apply andb_true_iff in Hb as [?%Z.leb_le ?%Z.leb_le]; lia. }
  split_and!; [|lia..]. unfold is_space, in_range.
  repeat (apply orb_false_iff; split); try (apply Z.eqb_neq; lia);
    apply andb_false_iff; first [right; apply Z.leb_gt; lia | left; apply Z.leb_gt; lia].
Qed.

(** The part of [Lex] behind the skip loop, on a word. *)
Lemma lexIdent_word l w s :
  in_bounds l → rest l = (w +:+ s)%string → is_word w = true → stops word_rune s →
  start l = pos l →
  ∃ l', lexIdentOrKeyword l = Ok (Tok (default IDENT (lookup_keyword (ToUpper w))) w, l')
    ∧ input l' = input l ∧ pos l' = pos l + Z.of_nat (str_len w).
Proof.
  intros Hl Hr Hw Hs Hst. pose proof Hl as [Hp _].
  assert (pos l + Z.of_nat (str_len w) ≤ input_len l) as Hle.
  { pose proof (rest_len l Hl) as Hlen. rewrite Hr, str_length_app in Hlen. lia. }
  pose proof (slice_at l w s Hl Hr) as Hsl.
  destruct w as [|c w]; [done|]. simpl in Hw. apply andb_true_iff in Hw as [Hlet Hw].
  apply andb_true_iff in Hw as [Hcw Hw]. unfold word_byte in Hcw.
  apply andb_true_iff in Hcw as [Hc Hcw].
  unfold lexIdentOrKeyword. rewrite (next_at l c (w +:+ s)) by done. ok_step.
  unfold word_rune in Hcw. rewrite Hcw. set (l1 := set_pos _ _).
  assert (in_bounds l1) as Hl1 by (unfold in_bounds, input_len in *; simpl in *; lia).
  destruct (skip_while_run (inner_fuel l1) word_rune 0 l1 w s) as [wd Hsk];
    [done|by eapply rest_step|done|done| |].
  { unfold inner_fuel, input_len in *. simpl in *. lia. }
  unfold word_rune in Hsk. rewrite Hsk. ok_step. rewrite backup_set.
  set (l2 := set_pos _ _).
  assert (pos l2 = pos l + Z.of_nat (str_len (String c w))) as Hp2 by (simpl; lia).
  assert (start l2 = pos l) as Hs2 by done. assert (input l2 = input l) as Hi2 by done.
  unfold emitIdentOrKeyword, emit, input_slice.
  rewrite decide_True by (rewrite Hp2, Hs2; unfold input_len in *; rewrite Hi2; lia). ok_step.
  rewrite Hp2, Hs2, Hi2, Hsl. eexists. split; [done|]. by split.
Qed.
End words.

(** Evaluate the closed test of the goal's first conditional. *)
#[local] Ltac eval_if :=
  match goal with
  | |- context [if ?b then _ else _] => let v := eval vm_compute in b in change b with v; cbv iota
  end.

(** ** The properties *)

(** The tokens [ts] are nonempty pieces of [s], in order and without overlap, the
    first at [p] or later. *)
Fixpoint cuts (p : Z) (s : string) (ts : list (token * string)) : Prop :=
  match ts with
  | [] => True
  | (_, v) :: ts =>
    ∃ i j, p ≤ i < j ∧ j ≤ Z.of_nat (str_len s)
      ∧ v = str_slice (Z.to_nat i) (Z.to_nat j) s ∧ cuts j s ts
  end.

Lemma lex_all_ok `{UnicodeTables} fuel l :
  wf l → safe_input (input l) = true → input_len l - pos l + 1 < Z.of_nat fuel →
  (∃ ts n l', lex_all fuel l = Ok (ts, n, l') ∧ n ≤ 0 ∧ cuts (pos l) (input l) ts) ∨
  (lex_all fuel l = Panic ∧ ∃ i r w, decode_rune (str_drop i (input l)) = (r, w) ∧
     128 ≤ r ∧ digit_hi r = true).
Proof.
  revert l. induction fuel as [|fuel IH]; intros l Hl Hs Hf; [unfold wf in Hl; lia|].
  cbn [lex_all].
  destruct (Lex_cases (S fuel) l Hl Hs ltac:(lia))
    as [(ret & l1 & -> & Hi & Hw & Hret)|[-> Hd]]; ok_step; [|by right].
  destruct Hret as [(t & v & -> & _ & _ & Hp & Hst & Hv)|(n & -> & Hn)].
  - destruct (IH l1 Hw) as [(ts & n & l' & -> & Hn & Hc)|[-> Hd]];
      [by rewrite Hi|rewrite (input_len_eq l) by done; unfold wf in Hl; lia| |].
    + left. ok_step. eexists _, n, l'. split; [done|]. split; [done|].
      exists (previous l1), (pos l1). rewrite Hi in Hc. unfold wf, input_len in Hw.
      rewrite Hi in Hw. split_and!; try done; lia.
    + right. ok_step. by rewrite Hi in Hd.
  - left. by exists [], n, l1.
Qed.

(** Lexing such an input returns. *)
Lemma lex_string_returns `{UnicodeTables} (s : string) :
  safe_input s = true → (∃ ts n l, lex_string s = Ok (ts, n, l)) ∨ lex_string s = Panic.
Proof.
  intros Hs. destruct (lex_all_ok (S (S (str_len s))) (newLexer s)) as [(ts & n & l & Hr & _)|[Hr _]];
    [unfold wf, input_len; simpl; lia|done|unfold wf, input_len; simpl; lia| |].
  - left. by exists ts, n, l.
  - by right.
Qed.

(** C27: Lexing terminates on every input in which no ['-'] and no ['/'] stands directly
    before a multi-byte character, for every version of the Unicode tables: calling
    [Lex] until it reports the end gives finitely many tokens, which are nonempty,
    pairwise disjoint pieces of the input in their order, and then an [int] that is not
    positive; a panic is possible only where a decimal digit beyond ASCII occurs. *)
Theorem lex_string_total `{UnicodeTables} (s : string) :
  safe_input s = true →
  (∃ ts n l, lex_string s = Ok (ts, n, l) ∧ n ≤ 0 ∧ cuts 0 s ts) ∨
  (lex_string s = Panic ∧ ∃ i r w, decode_rune (str_drop i s) = (r, w) ∧
     128 ≤ r ∧ digit_hi r = true).
Proof.
  intros Hs. apply (lex_all_ok _ (newLexer s)); [|done|];
    unfold wf, input_len; simpl; lia.
Qed.

Lemma lex_string_total_witness :
  (∃ ts n l, lex_string "SELECT a -- x
TO TRAIN m /* y */ WITH b=1.5e3;" = Ok (ts, n, l) ∧ n ≤ 0 ∧ cuts 0 "SELECT a -- x
TO TRAIN m /* y */ WITH b=1.5e3;" ts) ∨
  (lex_string "SELECT a -- x
TO TRAIN m /* y */ WITH b=1.5e3;" = Panic ∧ ∃ i r w, decode_rune (str_drop i "SELECT a -- x
TO TRAIN m /* y */ WITH b=1.5e3;") = (r, w) ∧ 128 ≤ r ∧ digit_hi r = true).
Proof. apply (lex_string_total "SELECT a -- x
TO TRAIN m /* y */ WITH b=1.5e3;"). vm_compute. reflexivity. Defined.

(** [Lex] does not terminate when a space and a ['-'] or ['/'] stand before a
    character of two bytes (as in [a -é]): [peek] sets the width of that character, so
    the [backup] of the comment functions goes back two bytes instead of one, to the
    space, which the loop skips again.  No amount of fuel is enough. *)
Theorem Lex_hangs `{UnicodeTables} (l : lexer) (c : ascii) (s : string) (r : Z) (fuel : nat) :
  in_bounds l → rest l = String " " (String c s) → comment_intro c = true →
  decode_rune s = (r, 2%nat) → Lex fuel l = NoFuel.
Proof.
  intros Hl Hr Hc Hd. unfold Lex.
  by rewrite (skip_loop_hangs c s r Hc Hd fuel false (pos l) l).
Qed.

Lemma Lex_hangs_witness :
  Lex 1000 (set_start 1 (set_pos 1 (newLexer "a -é;"))) = NoFuel.
Proof.
  apply (Lex_hangs _ "-" "é;" 233); [|reflexivity..].
  unfold in_bounds, input_len. simpl. lia.
Defined.

(** A word, up to the first character that cannot continue it, is lexed as a whole,
    as the keyword it spells in upper, lower or mixed case and as an identifier
    otherwise. *)
Theorem Lex_word `{UnicodeTables} (fuel : nat) (l : lexer) (w s : string) :
  in_bounds l → rest l = (w +:+ s)%string → is_word w = true → stops word_rune s →
  ∃ l', Lex (S fuel) l = Ok (Tok (default IDENT (lookup_keyword (ToUpper w))) w, l')
    ∧ input l' = input l ∧ pos l' = pos l + Z.of_nat (str_len w).
Proof.
  intros Hl Hr Hw Hs. unfold Lex.
  assert (∃ c w', w = String c w' ∧ ascii_byte c = true ∧ is_letter (byte c) = true)
    as (c & w' & -> & Hc & Hlet).
  { destruct w as [|c w']; [done|]. simpl in Hw. apply andb_true_iff in Hw as [Hlet Hw].
    apply andb_true_iff in Hw as [Hcw _]. unfold word_byte in Hcw.
    apply andb_true_iff in Hcw as [Hc _]. by exists c, w'. }
  destruct (letter_class c Hc Hlet) as (Hsp & H45 & H47 & _).
  rewrite (skip_loop_none fuel false l c (w' +:+ s)) by done. ok_step.
  set (l2 := set_start _ _). pose proof Hl as [Hp _].
  rewrite (peek_at l2 c (w' +:+ s)) by done. ok_step. rewrite Hlet.
  apply (lexIdent_word (set_width 1 l2) (String c w') s); done.
Qed.

Lemma Lex_word_witness :
  ∃ l', Lex 1 (newLexer "tRaIn DNN") = Ok (Tok TRAIN "tRaIn", l')
    ∧ input l' = "tRaIn DNN"%string ∧ pos l' = 5.
Proof.
  apply (Lex_word 0 (newLexer "tRaIn DNN") "tRaIn" " DNN"); [|reflexivity..|by split].
  unfold in_bounds, input_len. simpl. lia.
Defined.

Definition is_quote (c : ascii) : bool := (byte c =? 34) || (byte c =? 39).
(** An ASCII character that is no quote, no backslash and no NUL. *)
Definition plain_byte (c : ascii) : bool :=
  ascii_byte c && negb (is_quote c) && negb (byte c =? 92) && negb (byte c =? 0).

Lemma string_loop_run fuel l w q s :
  0 ≤ pos l → rest l = (w +:+ String q s)%string → str_forall plain_byte w = true →
  ascii_byte q = true → is_quote q = true → (str_len w < fuel)%nat →
  string_loop fuel l = Ok (true, set_pos (pos l + Z.of_nat (str_len w) + 1) (set_width 1 l)).
Proof.
  revert l w. induction fuel as [|fuel IH]; intros l w Hp Hr Hw Hq Hqq Hf; [lia|].
  cbn [string_loop]. destruct w as [|c w]; simpl in Hr.
  - rewrite (next_at l q s) by done. ok_step. unfold is_quote in Hqq. rewrite Hqq.
    cbn [str_len]. do 3 f_equal. lia.
  - simpl in Hw. apply andb_true_iff in Hw as [Hc Hw]. unfold plain_byte in Hc.
    repeat (apply andb_true_iff in Hc as [Hc ?H]).
    repeat match goal with H : negb _ = true |- _ => apply negb_true_iff in H end.
    unfold is_quote in *.
    rewrite (next_at l c (w +:+ String q s)) by done. ok_step.
    match goal with H : (byte c =? 34) || _ = false |- _ => rewrite H end.
    match goal with H : (byte c =? 0) = false |- _ => unfold eof; rewrite H end.
    match goal with H : (byte c =? 92) = false |- _ => rewrite H end.
    rewrite (IH (set_pos (pos l + 1) (set_width 1 l)) w); try done.
    + do 2 f_equal. unfold set_pos, set_width; simpl. f_equal; lia.
    + simpl. lia.
    + by eapply rest_step.
    + simpl in Hf. lia.
Qed.

Lemma quote_class q :
  is_quote q = true → ascii_byte q = true ∧ is_space (byte q) = false ∧ byte q ≠ 45 ∧ byte q ≠ 47.
Proof.
  unfold is_quote, ascii_byte. rewrite orb_true_iff, !Z.eqb_eq.
  intros [-> | ->]; by vm_compute.
Qed.

(** A string literal starts at a quote of either kind and ends at the first quote of
    either kind, also when the two differ: a double quote closes a single-quoted string. *)
Theorem Lex_string_literal `{UnicodeTables} (fuel : nat) (l : lexer) (q1 q2 : ascii) (w s : string) :
  in_bounds l → rest l = String q1 (w +:+ String q2 s) →
  is_quote q1 = true → is_quote q2 = true → str_forall plain_byte w = true →
  ∃ l', Lex (S fuel) l = Ok (Tok STRING (String q1 (w +:+ char1 q2)), l')
    ∧ pos l' = pos l + Z.of_nat (str_len w) + 2.
Proof.
  intros Hl Hr H1 H2 Hw. unfold Lex. pose proof Hl as [Hp _].
  destruct (quote_class q1 H1) as (Hc1 & Hsp & H45 & H47).
  destruct (quote_class q2 H2) as (Hc2 & _).
  rewrite (skip_loop_none fuel false l q1 (w +:+ String q2 s)) by done. ok_step.
  set (l2 := set_start _ _).
  rewrite (peek_at l2 q1 (w +:+ String q2 s)) by done. ok_step.
  assert (is_letter (byte q1) = false ∧ is_digit (byte q1) = false) as [-> ->].
  { unfold is_quote in H1. apply orb_true_iff in H1. rewrite !Z.eqb_eq in H1.
    by destruct H1 as [-> | ->]. }
  assert ((byte q1 =? 34) || (byte q1 =? 39) = true) as -> by done.
  unfold lexString. rewrite (next_at (set_width 1 l2) q1 (w +:+ String q2 s)) by done. ok_step.
  set (l3 := set_pos _ _).
  assert (Z.of_nat (str_len w) + 2 ≤ input_len l - pos l) as Hlen.
  { rewrite <- rest_len by done. rewrite Hr. simpl. rewrite str_length_app. simpl. lia. }
  rewrite (string_loop_run _ l3 w q2 s); try done; cycle 1.
  { subst l3 l2. simpl. lia. }
  { by eapply rest_step. }
  { unfold inner_fuel, input_len in *. subst l3 l2. simpl. lia. }
  ok_step. unfold emit, input_slice. subst l3 l2. simpl.
  rewrite decide_True by (unfold input_len in *; simpl; lia). ok_step.
  assert (rest l = ((String q1 (w +:+ char1 q2)) +:+ s)%string) as Hr'.
  { rewrite Hr. simpl. f_equal. by rewrite <- str_app_assoc. }
  pose proof (slice_at l _ _ Hl Hr') as Hsl.
  replace (pos l + Z.of_nat (str_len (String q1 (w +:+ char1 q2))))
    with (pos l + 1 + Z.of_nat (str_len w) + 1) in Hsl by (simpl; rewrite str_length_app; simpl; lia).
  rewrite Hsl. eexists. split; [done|]. simpl. lia.
Qed.

Lemma Lex_string_literal_witness :
  let dq := of_byte 34 in
  ∃ l', Lex 1 (newLexer ("'it" +:+ String dq " s")) = Ok (Tok STRING ("'it" +:+ char1 dq)%string, l')
    ∧ pos l' = 0 + 2 + 2.
Proof.
  intros dq. apply (Lex_string_literal 0 (newLexer ("'it" +:+ String dq " s")) "'" dq "it" " s");
    [|reflexivity..]. unfold in_bounds, input_len. simpl. lia.
Defined.

(** The three bytes [/*/] are a complete comment for [Lex]: the introducer's own star
    is taken for the star of the end mark, so that a word behind them, which SQL
    and the fallback parsers have inside the comment, is lexed as a token. *)
Theorem Lex_slash_star_slash `{UnicodeTables} (fuel : nat) (w s : string) :
  is_word w = true → stops word_rune s →
  ∃ l', Lex (S fuel) (newLexer ("/*/" +:+ w +:+ s))
    = Ok (Tok (default IDENT (lookup_keyword (ToUpper w))) w, l').
Proof.
  intros Hw Hs. set (l := newLexer _).
  assert (∃ wd l2, skip_loop (S fuel) false l = Ok (false, l2)
    ∧ l2 = set_start 3 (set_pos 3 (set_width wd l))) as (wd & l2 & Hsk & ->).
  { set (t := (w +:+ s)%string) in *.
    cbn [skip_loop]. unfold skipSpaces.
    destruct (skip_while_run (inner_fuel l) is_space 0 l "" ("/*/" +:+ t)) as [wd Hsk0];
      [apply newLexer_in_bounds|done..|unfold inner_fuel; simpl; lia|].
    rewrite Hsk0. ok_step. rewrite backup_set. cbn [str_len Nat.add Z.of_nat].
    set (l1 := set_start _ _).
    assert (rest l1 = ("/*/" +:+ t)%string) as Hr1 by done.
    unfold skipSingleLineComment. rewrite (peek_at l1 "/" ("*/" +:+ t)) by done.
    ok_step. repeat eval_if. ok_step.
    unfold skipMultipleLineComment. rewrite (peek_at (set_width 1 l1) "/" ("*/" +:+ t)) by done.
    ok_step. repeat eval_if. rewrite (next_at _ "/" ("*/" +:+ t)) by done. ok_step.
    rewrite (peek_at _ "*" ("/" +:+ t)) by done. ok_step. repeat eval_if.
    unfold inner_fuel. cbn [comment_loop].
    rewrite (next_at _ "*" ("/" +:+ t)) by done. ok_step. repeat eval_if.
    rewrite (peek_at _ "/" t) by done. ok_step. repeat eval_if. ok_step.
    rewrite (next_at _ "/" t) by done. ok_step. cbn [Nat.add Nat.eqb negb].
    by exists 1, (Lexer ("/*/" +:+ t) 3 3 1 None 0). }
  unfold Lex. rewrite Hsk. ok_step. set (l2 := set_start _ _).
  assert (in_bounds l2) as Hl2.
  { unfold in_bounds, input_len. simpl. lia. }
  assert (rest l2 = (w +:+ s)%string) as Hr2 by done.
  destruct w as [|c w']; [done|]. pose proof Hw as Hw'. simpl in Hw.
  apply andb_true_iff in Hw as [Hlet [Hcw _]%andb_true_iff]. unfold word_byte in Hcw.
  apply andb_true_iff in Hcw as [Hc _].
  rewrite (peek_at l2 c (w' +:+ s)) by done. ok_step. rewrite Hlet.
  destruct (lexIdent_word (set_width 1 l2) (String c w') s) as (l' & -> & _); try done.
  by exists l'.
Qed.

Lemma Lex_slash_star_slash_witness :
  ∃ l', Lex 1 (newLexer ("/*/" +:+ "DROP" +:+ " */")) = Ok (Tok IDENT "DROP", l').
Proof. apply (Lex_slash_star_slash 0 "DROP" " */"); [reflexivity|by split]. Defined.

(** An empty line comment directly behind a token, or at the start, ends the input
    for goyacc: [Lex] counts no skipped character, leaves its loop at the line break
    and returns the negated position, whatever follows. *)
Theorem Lex_empty_comment `{UnicodeTables} (fuel : nat) (s : string) :
  ∃ l', Lex (S fuel) (newLexer ("--" +:+ String "010" s)) = Ok (End (-2), l') ∧ err l' = None.
Proof.
  set (t := String "010" s). set (l := newLexer _). unfold Lex. cbn [skip_loop]. unfold skipSpaces.
  destruct (skip_while_run (inner_fuel l) is_space 0 l "" ("--" +:+ t)) as [wd Hsk0];
    [apply newLexer_in_bounds|done..|unfold inner_fuel; simpl; lia|].
  rewrite Hsk0. ok_step. rewrite backup_set. cbn [str_len Nat.add Z.of_nat]. set (l1 := set_start _ _).
  unfold skipSingleLineComment. rewrite (peek_at l1 "-" ("-" +:+ t)) by done. ok_step. repeat eval_if.
  rewrite (next_at _ "-" ("-" +:+ t)) by done. ok_step.
  rewrite (peek_at _ "-" t) by done. ok_step. repeat eval_if.
  rewrite (next_at _ "-" t) by done. ok_step. unfold inner_fuel. cbn [skip_while].
  rewrite (next_at _ "010" s) by done. ok_step. repeat eval_if. ok_step.
  unfold skipMultipleLineComment. rewrite (peek_at _ "010" s) by done. ok_step. repeat eval_if. ok_step.
  do 3 (repeat eval_if; ok_step). cbn [Nat.add Nat.eqb negb]. do 2 (repeat eval_if; ok_step). rewrite (peek_at _ "010" s) by done. ok_step. repeat eval_if.
  by eexists.
Qed.
