(* ===== verification/Comments.v ===== *)
(** * Removing comments (go/parser/sqlflow_parser.go)

    [RemoveCommentInSQLStatement] and the functions it is made of.  Offsets are
    never negative in this code, so they are [nat]; the -1 of [strings.Index] is
    [None].  Slices are checked, and the termination theorem shows that none is out
    of range. *)

From S2P Require Import Prelude GoStrings.

Local Open Scope nat_scope.

Definition is_quotation (c : ascii) : bool := (byte c =? 34)%Z || (byte c =? 39)%Z.

(** [cnt] of [isEscapeRune]: the backslashes directly before [idx]. *)
Fixpoint backslashes_before (sql : string) (idx : nat) : nat :=
  match idx with
  | O => O
  | S i => match str_get i sql with
           | Some c => if (byte c =? 92)%Z then S (backslashes_before sql i) else O
           | None => O
           end
  end.
Definition isEscapeRune (sql : string) (idx : nat) : bool :=
  Nat.odd (backslashes_before sql idx).

Definition unmatched_quotation_marks : error := Errorf "unmatched quotation marks" [].

(** The inner loop: the offset behind the closing mark. *)
Fixpoint find_closing (fuel : nat) (sql : string) (target : ascii) (offset : nat) : result nat :=
  match fuel with
  | O => NoFuel
  | S fuel =>
    s ← slice_from offset sql;
    match IndexFunc (λ c, bool_decide (c = target)) s with
    | None => Fail unmatched_quotation_marks
    | Some rightIdx =>
      let offset := offset + rightIdx + 1 in
      if negb (isEscapeRune sql (offset - 1)) then Ok offset
      else find_closing fuel sql target offset
    end
  end.

(** The two slices are kept as pairs.  The left index that is stored is [leftIdx], which
    [strings.IndexAny] counts from [offset]; the right index counts from the start. *)
Fixpoint quotation_loop (fuel : nat) (sql : string) (offset : nat) : result (list (nat * nat)) :=
  match fuel with
  | O => NoFuel
  | S fuel =>
    s ← slice_from offset sql;
    match IndexFunc is_quotation s with
    | None => Ok []
    | Some leftIdx =>
      match str_get (offset + leftIdx) sql with
      | None => Panic
      | Some target =>
        offset' ← find_closing (S (str_len sql)) sql target (offset + leftIdx + 1);
        qs ← quotation_loop fuel sql offset';
        Ok ((leftIdx, offset' - 1) :: qs)
      end
    end
  end.

Definition findMatchedQuotationMarks (sql : string) : result (list (nat * nat)) :=
  quotation_loop (S (str_len sql)) sql 0.

Fixpoint findRightQuotationIndex (qs : list (nat * nat)) (idx : nat) : option nat :=
  match qs with
  | [] => None
  | (l, r) :: qs => if (l <=? idx) && (idx <=? r) then Some r else findRightQuotationIndex qs idx
  end.

Fixpoint single_loop (fuel : nat) (qs : list (nat * nat)) (sql resultSQL : string) (offset : nat)
    : result string :=
  match fuel with
  | O => NoFuel
  | S fuel =>
    s ← slice_from offset sql;
    match Index s "--" with
    | None => Ok (resultSQL +:+ s)%string
    | Some leftIdx =>
      match findRightQuotationIndex qs (offset + leftIdx) with
      | Some r =>
        p ← slice offset (r + 1) sql;
        single_loop fuel qs sql (resultSQL +:+ p)%string (r + 1)
      | None =>
        p ← slice offset (offset + leftIdx) sql;
        s' ← slice_from (offset + leftIdx + 2) sql;
        match Index s' (char1 "010") with
        | None => Ok (resultSQL +:+ p)%string
        | Some rightIdx =>
          single_loop fuel qs sql (resultSQL +:+ p)%string (offset + (leftIdx + rightIdx + 2))
        end
      end
    end
  end.

Definition removeSingleLineComment (sql : string) : result string :=
  qs ← findMatchedQuotationMarks sql;
  single_loop (S (str_len sql)) qs sql "" 0.

Definition unmatched_comment : error := Errorf "unmatched comment /*...*/" [].

Fixpoint multiple_loop (fuel : nat) (qs : list (nat * nat)) (sql resultSQL : string) (offset : nat)
    : result string :=
  match fuel with
  | O => NoFuel
  | S fuel =>
    s ← slice_from offset sql;
    match Index s "/*" with
    | None => Ok (resultSQL +:+ s)%string
    | Some leftIdx =>
      match findRightQuotationIndex qs (offset + leftIdx) with
      | Some r =>
        p ← slice offset (r + 1) sql;
        multiple_loop fuel qs sql (resultSQL +:+ p)%string (r + 1)
      | None =>
        p ← slice offset (offset + leftIdx) sql;
        let offset := offset + (leftIdx + 2) in
        s' ← slice_from offset sql;
        match Index s' "*/" with
        | None => Fail unmatched_comment
        | Some rightIdx =>
          multiple_loop fuel qs sql (resultSQL +:+ p +:+ " ")%string (offset + (rightIdx + 2))
        end
      end
    end
  end.

Definition removeMultipleLineComment (sql : string) : result string :=
  qs ← findMatchedQuotationMarks sql;
  multiple_loop (S (str_len sql)) qs sql "" 0.

Definition RemoveCommentInSQLStatement (sql : string) : result string :=
  sql ← removeMultipleLineComment sql;
  removeSingleLineComment sql.

(** ** Quotation marks *)

Lemma find_closing_cases fuel sql target offset :
  offset ≤ str_len sql → str_len sql - offset < fuel →
  (∃ o, find_closing fuel sql target offset = Ok o ∧ offset < o ≤ str_len sql) ∨
  find_closing fuel sql target offset = Fail unmatched_quotation_marks.
Proof.
  revert offset. induction fuel as [|fuel IH]; intros offset Ho Hf; [lia|].
  cbn [find_closing]. rewrite slice_from_ok by done. ok_step.
  destruct (IndexFunc _ _) as [k|] eqn:Hk; [|by right].
  apply IndexFunc_Some in Hk as (Hk & _). rewrite str_length_drop in Hk.
  case_match; [left; eexists; split; [done|lia]|].
  destruct (IH (offset + k + 1)) as [(o & -> & ?)| ->]; [lia..| |by right].
  left. eexists. split; [done|lia].
Qed.

Lemma quotation_loop_cases fuel sql offset :
  offset ≤ str_len sql → str_len sql - offset < fuel →
  (∃ qs, quotation_loop fuel sql offset = Ok qs ∧ Forall (λ q, q.2 < str_len sql) qs) ∨
  quotation_loop fuel sql offset = Fail unmatched_quotation_marks.
Proof.
  revert offset. induction fuel as [|fuel IH]; intros offset Ho Hf; [lia|].
  cbn [quotation_loop]. rewrite slice_from_ok by done. ok_step.
  destruct (IndexFunc _ _) as [k|] eqn:Hk; [|left; by exists []].
  apply IndexFunc_Some in Hk as (Hk & (c & Hc & _) & _). rewrite str_length_drop in Hk.
  rewrite str_get_drop, str_drop_drop, <- str_get_drop in Hc. rewrite Hc.
  destruct (find_closing_cases (S (str_len sql)) sql c (offset + k + 1))
    as [(o & -> & ?)| ->]; [lia..| |by right]. ok_step.
  destruct (IH o) as [(qs & -> & ?)| ->]; [lia..| |by right]. ok_step.
  left. eexists. split; [done|]. constructor; [simpl; lia|done].
Qed.

Lemma findMatched_cases sql :
  (∃ qs, findMatchedQuotationMarks sql = Ok qs ∧ Forall (λ q, q.2 < str_len sql) qs) ∨
  findMatchedQuotationMarks sql = Fail unmatched_quotation_marks.
Proof. apply quotation_loop_cases; lia. Qed.

Lemma findMatched_none sql :
  str_forall (λ c, negb (is_quotation c)) sql = true → findMatchedQuotationMarks sql = Ok [].
Proof.
  intros H. unfold findMatchedQuotationMarks. cbn [quotation_loop].
  rewrite slice_from_ok by lia. ok_step. cbn [str_drop].
  by apply IndexFunc_None in H as ->.
Qed.

Lemma findRight_Some qs idx r n :
  Forall (λ q, q.2 < n) qs → findRightQuotationIndex qs idx = Some r → idx ≤ r < n.
Proof.
  induction 1 as [|[l r'] qs Hr Hqs IH]; simpl; [done|]. simpl in Hr.
  case_match eqn:E; [|done].
  apply andb_true_iff in E as [_ E%Nat.leb_le]. intros [= <-]. lia.
Qed.

(** ** Totality *)

Section loops.
Variables (qs : list (nat * nat)) (sql : string).
Hypothesis Hqs : Forall (λ q, q.2 < str_len sql) qs.

Lemma single_loop_ok fuel res offset :
  offset ≤ str_len sql → str_len sql - offset < fuel →
  ∃ r, single_loop fuel qs sql res offset = Ok r.
Proof using Hqs.
  revert res offset. induction fuel as [|fuel IH]; intros res offset Ho Hf; [lia|].
  cbn [single_loop]. rewrite slice_from_ok by done. ok_step.
  destruct (Index _ _) as [k|] eqn:Hk; [|eauto].
  apply Index_Some in Hk as [Hk _]. rewrite str_length_drop in Hk. simpl in Hk.
  destruct (findRightQuotationIndex _ _) as [r|] eqn:Hr.
  - apply (findRight_Some _ _ _ (str_len sql)) in Hr; [|done].
    rewrite slice_ok by lia. ok_step. apply IH; lia.
  - rewrite slice_ok, slice_from_ok by lia. ok_step.
    destruct (Index (str_drop _ _) (char1 _)) as [j|] eqn:Hj; [|eauto].
    apply Index_Some in Hj as [Hj _]. rewrite str_length_drop in Hj. simpl in Hj.
    apply IH; lia.
Qed.

Lemma multiple_loop_cases fuel res offset :
  offset ≤ str_len sql → str_len sql - offset < fuel →
  (∃ r, multiple_loop fuel qs sql res offset = Ok r) ∨
  multiple_loop fuel qs sql res offset = Fail unmatched_comment.
Proof using Hqs.
  revert res offset. induction fuel as [|fuel IH]; intros res offset Ho Hf; [lia|].
  cbn [multiple_loop]. rewrite slice_from_ok by done. ok_step.
  destruct (Index _ _) as [k|] eqn:Hk; [|eauto].
  apply Index_Some in Hk as [Hk _]. rewrite str_length_drop in Hk. simpl in Hk.
  destruct (findRightQuotationIndex _ _) as [r|] eqn:Hr.
  - apply (findRight_Some _ _ _ (str_len sql)) in Hr; [|done].
    rewrite slice_ok by lia. ok_step. apply IH; lia.
  - rewrite slice_ok, slice_from_ok by lia. ok_step.
    destruct (Index (str_drop _ _) "*/") as [j|] eqn:Hj; [|by right].
    apply Index_Some in Hj as [Hj _]. rewrite str_length_drop in Hj. simpl in Hj.
    apply IH; lia.
Qed.

(** When every comment mark is inside a recorded literal, nothing is removed. *)
Lemma multiple_loop_quoted fuel res offset :
  (∀ k, HasPrefix (str_drop k sql) "/*" = true → ∃ r, findRightQuotationIndex qs k = Some r) →
  offset ≤ str_len sql → str_len sql - offset < fuel →
  multiple_loop fuel qs sql res offset = Ok (res +:+ str_drop offset sql)%string.
Proof using Hqs.
  intros Hin. revert res offset. induction fuel as [|fuel IH]; intros res offset Ho Hf; [lia|].
  cbn [multiple_loop]. rewrite slice_from_ok by done. ok_step.
  destruct (Index _ _) as [k|] eqn:Hk; [|done].
  apply Index_Some in Hk as [Hk Hpre]. rewrite str_length_drop in Hk. simpl in Hk.
  rewrite str_drop_drop in Hpre. destruct (Hin _ Hpre) as [r Hr]. rewrite Hr.
  apply (findRight_Some _ _ _ (str_len sql)) in Hr; [|done].
  rewrite slice_ok by lia. ok_step. rewrite IH by lia.
  by rewrite <- str_app_assoc, str_slice_drop by lia.
Qed.
End loops.

(** ** Comment-free output *)

Lemma multiple_loop_clean fuel sql res offset r :
  str_forall (λ c, negb (is_quotation c)) sql = true →
  str_forall (λ c, negb (is_quotation c)) res = true →
  no_pair "/" "*" res = true → (∀ u c, res = (u +:+ char1 c)%string → c ≠ "/"%char) →
  offset ≤ str_len sql → multiple_loop fuel [] sql res offset = Ok r →
  no_pair "/" "*" r = true ∧ str_forall (λ c, negb (is_quotation c)) r = true.
Proof.
  intros Hq. revert res offset. induction fuel as [|fuel IH]; intros res offset Hqr Hn Hl Ho; [done|].
  cbn [multiple_loop]. rewrite slice_from_ok by done. ok_step.
  destruct (Index _ _) as [k|] eqn:Hk.
  - pose proof (no_pair_before _ _ _ _ Hk) as Hp.
    apply Index_Some in Hk as [Hk _]. rewrite str_length_drop in Hk. simpl in Hk.
    cbn [findRightQuotationIndex].
    rewrite slice_ok, slice_from_ok by lia. ok_step.
    destruct (Index (str_drop _ _) "*/") as [j|] eqn:Hj; [|done].
    apply Index_Some in Hj as [Hj _]. rewrite str_length_drop in Hj. simpl in Hj.
    assert (str_slice offset (offset + k) sql = str_take k (str_drop offset sql)) as Hs.
    { unfold str_slice. f_equal. lia. }
    rewrite Hs. apply IH; [| | |lia].
    + rewrite !str_forall_app. rewrite Hqr. simpl.
      by rewrite (str_forall_take _ k _ (str_forall_drop _ offset _ Hq)).
    + apply no_pair_app_l; [done| |done]. apply no_pair_app; [done|done|].
      right. by intros c v' [= <- <-].
    + intros u c Hu. rewrite str_app_assoc in Hu.
      assert (∀ x y, (x +:+ " ")%string = (y +:+ char1 c)%string → c = " "%char) as Hlast.
      { intros x. induction x as [|a x IHx]; intros [|b y]; simpl; intros [= ]; try done.
        - by destruct y.
        - by destruct x.
        - by eapply IHx. }
      by rewrite (Hlast _ _ Hu).
  - intros [= <-]. split.
    + apply no_pair_app_l; [done| |done]. by apply no_pair_Index.
    + rewrite str_forall_app, Hqr. simpl. by apply str_forall_drop.
Qed.

(** What the loop over line comments has copied ends before a line break. *)
Lemma single_loop_clean a b fuel sql res offset r :
  b ≠ "010"%char → no_pair a b sql = true ∨ (a = "-"%char ∧ b = "-"%char) →
  no_pair a b res = true → (res = ""%string ∨ str_get offset sql = Some "010"%char) →
  offset ≤ str_len sql → single_loop fuel [] sql res offset = Ok r → no_pair a b r = true.
Proof.
  intros Hb Hab. revert res offset. induction fuel as [|fuel IH]; intros res offset Hn Hl Ho; [done|].
  cbn [single_loop]. rewrite slice_from_ok by done. ok_step.
  assert (∀ t, no_pair a b t = true →
    (∀ c v', t = String c v' → res = ""%string ∨ c = "010"%char) →
    no_pair a b (res +:+ t) = true) as Happ.
  { intros t Ht Hc. apply no_pair_app; [done|done|].
    destruct (decide (res = ""%string)) as [?|Hne]; [by left|right].
    intros c v' Ht'. destruct (Hc c v' Ht') as [?| ->]; [done|]. congruence. }
  assert (∀ c v', str_drop offset sql = String c v' → res = ""%string ∨ c = "010"%char) as Hhead.
  { intros c v' Hd. destruct Hl as [?|Hg]; [by left|right].
    rewrite str_get_drop, Hd in Hg. by injection Hg. }
  destruct (Index _ _) as [k|] eqn:Hk.
  - pose proof (no_pair_before _ _ _ _ Hk) as Hp.
    assert (no_pair a b (str_take k (str_drop offset sql)) = true) as Hpab.
    { destruct Hab as [H|[-> ->]]; [by apply no_pair_take, no_pair_drop|done]. }
    apply Index_Some in Hk as [Hk _]. rewrite str_length_drop in Hk. simpl in Hk.
    cbn [findRightQuotationIndex].
    rewrite slice_ok, slice_from_ok by lia. ok_step.
    assert (str_slice offset (offset + k) sql = str_take k (str_drop offset sql)) as ->.
    { unfold str_slice. f_equal. lia. }
    assert (no_pair a b (res +:+ str_take k (str_drop offset sql)) = true) as Hres.
    { apply Happ; [done|]. intros c v' Ht. destruct (str_drop offset sql) as [|d s'] eqn:Hd.
      - by destruct k.
      - destruct k; [done|]. injection Ht as <- _. by eapply Hhead. }
    destruct (Index (str_drop _ _) (char1 _)) as [j|] eqn:Hj; [|by intros [= <-]].
    apply Index_Some in Hj as [Hj Hpre]. rewrite str_length_drop in Hj. simpl in Hj.
    apply IH; [done| |lia]. right. rewrite str_drop_drop in Hpre.
    apply HasPrefix_app in Hpre as [t Ht]. rewrite str_get_drop.
    replace (offset + (k + j + 2)) with (offset + k + 2 + j) by lia. by rewrite Ht.
  - intros [= <-]. apply Happ; [|done].
    destruct Hab as [H|[-> ->]]; [by apply no_pair_drop|by apply no_pair_Index].
Qed.

(** ** Literals *)

Definition literal_byte (c : ascii) : bool := negb (is_quotation c) && negb (byte c =? 92)%Z.
Definition literal (q : ascii) (a : string) : string := String q (a +:+ char1 q).

Lemma literal_length q a : str_len (literal q a) = str_len a + 2.
Proof. unfold literal, char1. simpl. rewrite str_length_app. simpl. lia. Qed.

Lemma find_closing_literal fuel sql u q a v :
  sql = (u +:+ literal q a +:+ v)%string → is_quotation q = true →
  str_forall literal_byte a = true →
  find_closing (S fuel) sql q (str_len u + 1) = Ok (str_len u + str_len a + 2).
Proof.
  intros -> Hq Ha. cbn [find_closing].
  unfold literal. cbn [String.append]. rewrite <- str_app_assoc. cbn [char1 String.append].
  rewrite slice_from_ok by (rewrite str_length_app; simpl; lia). ok_step.
  rewrite <- str_drop_drop, str_drop_app by done. cbn [str_drop].
  rewrite IndexFunc_app; [| |by apply bool_decide_eq_true].
  - unfold isEscapeRune. replace (str_len u + 1 + str_len a + 1 - 1) with (S (str_len u + str_len a)) by lia.
    cbn [backslashes_before].
    set (sql := (u +:+ _)%string).
    assert (∃ c, str_get (str_len u + str_len a) sql = Some c ∧ (byte c =? 92)%Z = false)
      as (c & -> & ->).
    { subst sql. rewrite str_get_app_r. destruct a as [|x a].
      - exists q. split; [done|]. unfold is_quotation in Hq.
        apply orb_true_iff in Hq. rewrite !Z.eqb_eq in Hq. by destruct Hq as [-> | ->].
      - change (str_len (String x a)) with (S (str_len a)). cbn [str_get].
        rewrite str_get_app_l by (simpl; lia).
        destruct (str_get_lt (String x a) (str_len a)) as [c Hc]; [simpl; lia|].
        exists c. split; [done|]. pose proof (str_forall_get _ _ _ _ Ha Hc) as Hl.
        unfold literal_byte in Hl. apply andb_true_iff in Hl as [_ Hl%negb_true_iff]. done. }
    simpl. f_equal. lia.
  - eapply str_forall_impl; [|exact Ha]. intros c Hc. apply negb_true_iff, bool_decide_eq_false.
    intros ->. unfold literal_byte in Hc. by rewrite Hq in Hc.
Qed.

(** One round of the loop, with the index that it records for the opening mark. *)
Lemma quotation_loop_literal fuel sql u g q a v :
  sql = (u +:+ g +:+ literal q a +:+ v)%string → is_quotation q = true →
  str_forall (λ c, negb (is_quotation c)) g = true → str_forall literal_byte a = true →
  quotation_loop (S fuel) sql (str_len u)
  = (qs ← quotation_loop fuel sql (str_len u + str_len g + str_len a + 2);
     Ok ((str_len g, str_len u + str_len g + str_len a + 1) :: qs)).
Proof.
  intros Hsql Hq Hg Ha. cbn [quotation_loop].
  rewrite slice_from_ok by (rewrite Hsql, str_length_app; lia). ok_step.
  rewrite Hsql at 1. rewrite str_drop_app by done. unfold literal. cbn [String.append].
  rewrite IndexFunc_app by done.
  assert (str_get (str_len u + str_len g) sql = Some q) as ->.
  { rewrite Hsql, str_get_app_r. apply str_get_app_len. }
  assert (sql = ((u +:+ g) +:+ literal q a +:+ v)%string) as Hsql' by by rewrite <- str_app_assoc.
  pose proof (find_closing_literal (str_len sql) sql (u +:+ g) q a v Hsql' Hq Ha) as Hc.
  rewrite str_length_app in Hc. rewrite Hc. ok_step.
  replace (str_len u + str_len g + str_len a + 2 - 1) with (str_len u + str_len g + str_len a + 1) by lia.
  done.
Qed.

Lemma quotation_loop_end fuel sql u g :
  sql = (u +:+ g)%string → str_forall (λ c, negb (is_quotation c)) g = true →
  quotation_loop (S fuel) sql (str_len u) = Ok [].
Proof.
  intros Hsql Hg. cbn [quotation_loop].
  rewrite slice_from_ok by (rewrite Hsql, str_length_app; lia). ok_step.
  rewrite Hsql, str_drop_app by done. by apply IndexFunc_None in Hg as ->.
Qed.

(** No comment starts in a text without one that a quotation mark follows, nor in a text
    without one at the end. *)
Lemma comment_not_before u q v k :
  is_quotation q = true → no_pair "/" "*" u = true →
  HasPrefix (str_drop k (u +:+ String q v)) "/*" = true → str_len u ≤ k.
Proof.
  intros Hq Hu Hk. destruct (decide (str_len u ≤ k)) as [|Hlt]; [done|exfalso].
  assert (no_pair "/" "*" (u +:+ char1 q) = true) as Hu'.
  { apply no_pair_app; [done|done|]. right. by intros c v' [= <- <-] ->. }
  assert (u +:+ String q v = (u +:+ char1 q) +:+ v)%string as Hs by by rewrite <- str_app_assoc.
  rewrite Hs in Hk.
  assert (∀ i, i < 2 → str_get (k + i) ((u +:+ char1 q) +:+ v) = str_get (k + i) (u +:+ char1 q)) as Hg.
  { intros i Hi. apply str_get_app_l. rewrite str_length_app. simpl. lia. }
  pose proof (HasPrefix_get _ _ 0 "/"%char Hk eq_refl) as H0.
  pose proof (HasPrefix_get _ _ 1 "*"%char Hk eq_refl) as H1.
  rewrite str_get_drop, str_drop_drop, <- str_get_drop, Hg in H0, H1 by lia.
  apply no_pair_Index in Hu'. pose proof (Index_None _ _ k Hu') as Hn.
  rewrite str_get_drop, <- str_drop_drop in H0, H1.
  destruct (str_drop k (u +:+ char1 q)) as [|c0 [|c1 s]]; simpl in H0, H1; try done.
  injection H0 as ->. injection H1 as ->. simpl in Hn. by destruct s.
Qed.

Lemma comment_not_after u v k :
  no_pair "/" "*" v = true → HasPrefix (str_drop k (u +:+ v)) "/*" = true → k < str_len u.
Proof.
  intros Hv Hk. destruct (decide (k < str_len u)) as [|Hge]; [done|exfalso].
  replace k with (str_len u + (k - str_len u)) in Hk by lia.
  rewrite <- str_drop_drop, str_drop_app in Hk by done.
  apply no_pair_Index in Hv. by rewrite (Index_None _ _ _ Hv) in Hk.
Qed.

Section two_literals.
Variables (p a mid b t : string) (q1 q2 : ascii).
Hypotheses (Hq1 : is_quotation q1 = true) (Hq2 : is_quotation q2 = true).
Hypotheses (Ha : str_forall literal_byte a = true) (Hb : str_forall literal_byte b = true).
Hypothesis Hqf : str_forall (λ c, negb (is_quotation c)) (p +:+ mid +:+ t) = true.

Definition two_literals : string :=
  (p +:+ literal q1 a +:+ mid +:+ literal q2 b +:+ t)%string.

Lemma two_literals_length :
  str_len two_literals = str_len p + str_len a + 2 + str_len mid + str_len b + 2 + str_len t.
Proof. unfold two_literals. rewrite !str_length_app, !literal_length. lia. Qed.

Lemma findMatched_two_literals :
  findMatchedQuotationMarks two_literals
  = Ok [(str_len p, str_len p + str_len a + 1);
        (str_len mid, str_len p + str_len a + 2 + str_len mid + str_len b + 1)].
Proof using Hq1 Hq2 Ha Hb Hqf.
  rewrite !str_forall_app in Hqf.
  apply andb_true_iff in Hqf as [Hqp [Hqm Hqt]%andb_true_iff].
  unfold findMatchedQuotationMarks.
  assert (∃ n, str_len two_literals = S (S n)) as [n Hn].
  { exists (str_len two_literals - 2). rewrite two_literals_length. lia. }
  rewrite Hn.
  rewrite (quotation_loop_literal _ _ "" p q1 a (mid +:+ literal q2 b +:+ t)) by done.
  set (u := (p +:+ literal q1 a)%string).
  assert (str_len "" + str_len p + str_len a + 2 = str_len u) as ->.
  { subst u. rewrite str_length_app, literal_length. simpl. lia. }
  rewrite (quotation_loop_literal _ _ u mid q2 b t); try done; cycle 1.
  { subst u. unfold two_literals. by rewrite <- str_app_assoc. }
  set (w := (u +:+ mid +:+ literal q2 b)%string).
  assert (str_len u + str_len mid + str_len b + 2 = str_len w) as ->.
  { subst w. rewrite !str_length_app, literal_length. lia. }
  rewrite (quotation_loop_end _ _ w t); try done; cycle 1.
  { subst w u. unfold two_literals. by rewrite <- !str_app_assoc. }
  ok_step. subst u. rewrite str_length_app, literal_length. simpl. do 4 f_equal. lia.
Qed.
End two_literals.

(** ** The properties *)

(** Removing the comments terminates on every statement without a slice out of
    range, and fails only with one of the two errors of the code. *)
Theorem RemoveComment_total (sql : string) :
  (∃ r, RemoveCommentInSQLStatement sql = Ok r)
  ∨ RemoveCommentInSQLStatement sql = Fail unmatched_quotation_marks
  ∨ RemoveCommentInSQLStatement sql = Fail unmatched_comment.
Proof.
  unfold RemoveCommentInSQLStatement, removeMultipleLineComment.
  destruct (findMatched_cases sql) as [(qs & -> & Hqs)| ->]; ok_step; [|by auto].
  destruct (multiple_loop_cases qs sql Hqs (S (str_len sql)) "" 0) as [[r ->]| ->];
    [lia..| |by auto]. ok_step.
  unfold removeSingleLineComment.
  destruct (findMatched_cases r) as [(qs' & -> & Hqs')| ->]; ok_step; [|by auto].
  left. apply single_loop_ok; [done|lia..].
Qed.

(** Without quotation marks the result of removing the comments has no comment
    left: neither of the two comment marks occurs in it, also across the places where a
    comment was cut out. *)
Theorem RemoveComment_clean (sql r : string) :
  str_forall (λ c, negb (is_quotation c)) sql = true →
  RemoveCommentInSQLStatement sql = Ok r → Index r "/*" = None ∧ Index r "--" = None.
Proof.
  intros Hq. unfold RemoveCommentInSQLStatement, removeMultipleLineComment, removeSingleLineComment.
  rewrite findMatched_none by done. ok_step. intros (s & Hs & Hr)%bind_Ok.
  apply multiple_loop_clean in Hs as [Hns Hqs]; try done; [|by intros []|lia].
  rewrite findMatched_none in Hr by done. revert Hr. ok_step. intros Hr. split.
  - apply no_pair_Index.
    eapply (single_loop_clean _ _ (S (str_len s)) s "" 0 r); [done|by left|done|by left|lia|exact Hr].
  - apply no_pair_Index.
    eapply (single_loop_clean "-" "-" (S (str_len s)) s "" 0 r); [done|by right|done|by left|lia|exact Hr].
Qed.

Lemma RemoveComment_clean_witness :
  Index "SELECT/  *a - 
FROM t" "/*" = None ∧ Index "SELECT/  *a - 
FROM t" "--" = None.
Proof.
  apply (RemoveComment_clean "SELECT/ /* x -- */*a - -- y /*z*/
FROM t"); vm_compute; reflexivity.
Defined.

(** A comment between two string literals is not removed when it is no longer than
    what stands before it: the opening mark of the second literal is recorded relative to
    the end of the first, so the text between the two counts as quoted. *)
Theorem comment_between_literals_kept (p a mid b t : string) (q1 q2 : ascii) :
  is_quotation q1 = true → is_quotation q2 = true →
  str_forall literal_byte a = true → str_forall literal_byte b = true →
  str_forall (λ c, negb (is_quotation c)) (p +:+ mid +:+ t) = true →
  no_pair "/" "*" p = true → no_pair "/" "*" t = true →
  str_len mid ≤ str_len p + str_len a + 2 →
  removeMultipleLineComment (two_literals p a mid b t q1 q2) = Ok (two_literals p a mid b t q1 q2).
Proof.
  intros Hq1 Hq2 Ha Hb Hqf Hp Ht Hlen. pose proof (two_literals_length p a mid b t q1 q2) as Hsl.
  unfold removeMultipleLineComment. rewrite findMatched_two_literals by done. ok_step.
  rewrite multiple_loop_quoted; [done| | |lia..].
  { repeat constructor; rewrite Hsl; simpl; lia. }
  intros k Hk.
  assert (str_len p ≤ k) as Hpk by exact (comment_not_before p q1 _ k Hq1 Hp Hk).
  assert (k < str_len p + str_len a + 2 + str_len mid + str_len b + 2) as Hkt.
  { unfold two_literals in Hk.
    assert (∀ x y z w v : string, x +:+ y +:+ z +:+ w +:+ v = (x +:+ y +:+ z +:+ w) +:+ v)%string
      as Hassoc by (intros; by rewrite <- !str_app_assoc).
    rewrite Hassoc in Hk. apply comment_not_after in Hk; [|done].
    rewrite !str_length_app, !literal_length in Hk. lia. }
  cbn [findRightQuotationIndex].
  destruct ((str_len p <=? k) && _) eqn:E1; [eauto|].
  destruct ((str_len mid <=? k) && _) eqn:E2; [eauto|].
  exfalso. apply andb_false_iff in E1, E2. rewrite !Nat.leb_gt in E1, E2. lia.
Qed.

Lemma comment_between_literals_kept_witness :
  removeMultipleLineComment (two_literals "SELECT " "a" ", /*c*/ " "b" " FROM t" "'" "'")
  = Ok (two_literals "SELECT " "a" ", /*c*/ " "b" " FROM t" "'" "'").
Proof.
  apply (comment_between_literals_kept "SELECT " "a" ", /*c*/ " "b" " FROM t" "'" "'");
    [reflexivity..|simpl; lia].
Defined.
