(* ===== verification/Syntax.v ===== *)
(** * The syntax trees of the extended statements (go/parser/extended_syntax_parser.y)

    The types that the grammar's actions build: [Expr], the clauses and
    [SQLFlowSelectStmt].  The parser itself is generated by goyacc.  An expression has
    an integer [Type], which is zero for a compound expression; here it is
    [None] then and the token otherwise. *)

From S2P Require Import Prelude GoStrings Lexer.

Inductive Expr := mkExpr {
  Type_ : option token;
  Value : string;
  Sexp : list Expr
}.

Definition nil_token_eq (t : option token) (u : token) : bool := bool_decide (t = Some u).

Definition atomic (typ : token) (val : string) : Expr := mkExpr (Some typ) val [].
Definition funcall (name : string) (oprd : list Expr) : Expr :=
  mkExpr None "" (atomic IDENT name :: oprd).
Definition unary (typ : token) (op : string) (od1 : Expr) : Expr :=
  mkExpr None "" [atomic typ op; od1].
Definition binary (typ : token) (od1 : Expr) (op : string) (od2 : Expr) : Expr :=
  mkExpr None "" [atomic typ op; od1; od2].
Definition variadic (typ : token) (op : string) (ods : list Expr) : Expr :=
  mkExpr None "" (atomic typ op :: ods).

(** The induction principle with the hypothesis on every child. *)
Section expr_ind.
Variable P : Expr → Prop.
Hypothesis step : ∀ t v l, Forall P l → P (mkExpr t v l).
Fixpoint Expr_ind' (e : Expr) : P e :=
  match e with
  | mkExpr t v l =>
    step t v l ((fix go (l : list Expr) : Forall P l :=
      match l with
      | [] => List.Forall_nil P
      | e :: l => List.Forall_cons P e l (Expr_ind' e) (go l)
      end) l)
  end.
End expr_ind.

Fixpoint Expr_size (e : Expr) : nat := S (sum_list_with Expr_size (Sexp e)).

(** The operators that [String] and [ToTokens] print between their operands. *)
Definition infix_token (t : token) : bool :=
  match t with
  | TChar r => existsb (λ c, byte c =? r)%Z (String.list_ascii_of_string "+*/%=<>!")
  | LE | GE | AND | OR => true
  | _ => false
  end.

Definition tok_minus : token := TChar 45.
Definition tok_lparen : token := TChar 40.
Definition tok_lbracket : token := TChar 91.

(** What [fmt.Sprintf] makes of an operand with the verb %s: it recovers a panic of its [String]
    and prints it.  The text is that of the panic of an operator without a case, the only one
    of the expressions that the grammar builds. *)
Definition operand (r : result string) : result string :=
  match r with
  | Panic => Ok "%!s(PANIC=String method: Cannot print an unknown expression)"%string
  | r => r
  end.

(** [Expr.String].  The index and [log.Panicf] panics are [Panic]. *)
Fixpoint Expr_String (e : Expr) : result string :=
  match e with
  | mkExpr (Some _) v _ => Ok v
  | mkExpr None _ [] => Panic
  | mkExpr None _ (h :: args) =>
    match Type_ h with
    | None => Panic
    | Some t =>
      if infix_token t then
        match args with
        | [a; b] => x ← operand (Expr_String a); y ← operand (Expr_String b); Ok (x +:+ " " +:+ Value h +:+ " " +:+ y)%string
        | _ => Panic
        end
      else if decide (t = tok_minus) then
        match args with
        | [a] => x ← operand (Expr_String a); Ok (" -" +:+ x)%string
        | [a; b] => x ← operand (Expr_String a); y ← operand (Expr_String b); Ok (x +:+ " - " +:+ y)%string
        | _ => Panic
        end
      else if decide (t = tok_lparen) then
        match args with
        | [a] => x ← operand (Expr_String a); Ok ("(" +:+ x +:+ ")")%string
        | _ => Panic
        end
      else if decide (t = tok_lbracket) then
        xs ← mapR Expr_String args; Ok ("[" +:+ Join xs ", " +:+ "]")%string
      else if decide (t = NOT) then
        match args with
        | a :: _ => x ← operand (Expr_String a); Ok ("NOT " +:+ x)%string
        | [] => Panic
        end
      else if decide (t = IDENT) then
        xs ← mapR Expr_String args; Ok (Value h +:+ "(" +:+ Join xs ", " +:+ ")")%string
      else Panic
    end
  end.

(** [Expr.ToTokens]. *)
Fixpoint ToTokens (e : Expr) : result (list string) :=
  match e with
  | mkExpr (Some _) v _ => Ok [v]
  | mkExpr None _ [] => Panic
  | mkExpr None _ (h :: args) =>
    match Type_ h with
    | None => Panic
    | Some t =>
      if infix_token t then
        match args with
        | [a; b] => x ← ToTokens a; y ← ToTokens b; Ok (x ++ Value h :: y)
        | _ => Panic
        end
      else if decide (t = tok_minus) then
        match args with
        | [a] => x ← ToTokens a; Ok ("-"%string :: x)
        | [a; b] => x ← ToTokens a; y ← ToTokens b; Ok (x ++ Value h :: y)
        | _ => Panic
        end
      else if decide (t = tok_lparen) then
        match args with
        | [a] => x ← ToTokens a; Ok ("("%string :: x ++ [")"%string])
        | _ => Panic
        end
      else if decide (t = tok_lbracket) then
        xs ← mapR ToTokens args; Ok ("["%string :: concat xs ++ ["]"%string])
      else if decide (t = NOT) then
        match args with
        | a :: _ => x ← ToTokens a; Ok ("NOT"%string :: x)
        | [] => Panic
        end
      else if decide (t = IDENT) then
        xs ← mapR ToTokens args; Ok (Value h :: "("%string :: concat xs ++ [")"%string])
      else Panic
    end
  end.

Record Constraint := mkConstraint { c_expr : Expr; GroupBy : string }.

Notation Attributes := (gmap string Expr).
(** No FOR in the COLUMN clause: the key is the empty string. *)
Notation columnClause := (gmap string (list Expr)).

Record TrainClause := mkTrainClause {
  Estimator : string;
  TrainAttrs : Attributes;
  Columns : columnClause;
  Label : string;
  TrainUsing : string;
  Save : string
}.

Record PredictClause := mkPredictClause {
  PredAttrs : Attributes;
  Model : string;
  Into : string
}.

Record ExplainClause := mkExplainClause {
  ExplainAttrs : Attributes;
  TrainedModel : string;
  Explainer : string;
  ExplainInto : string
}.

Record EvaluateClause := mkEvaluateClause {
  EvaluateAttrs : Attributes;
  ModelToEvaluate : string;
  EvaluateLabel : string;
  EvaluateInto : string
}.

Record RunClause := mkRunClause {
  ImageName : string;
  Parameters_ : list string;
  OutputTables : list string
}.

Record OptimizeClause := mkOptimizeClause {
  Direction : string;
  Objective : option Expr;
  Constraints : list Constraint;
  OptimizeAttrs : Attributes;
  Solver : string;
  OptimizeInto : string
}.

Record SQLFlowSelectStmt := mkSelect {
  Extended : bool;
  Train : bool;
  Predict : bool;
  Explain : bool;
  Evaluate : bool;
  Run : bool;
  Optimize : bool;
  ShowTrain : bool;
  origin : string;                  (* StandardSelect *)
  train : TrainClause;
  predict : PredictClause;
  explain : ExplainClause;
  evaluate : EvaluateClause;
  optimize : OptimizeClause;
  ModelName : string;               (* ShowTrainClause *)
  run : RunClause
}.

Definition set_origin (s : string) (x : SQLFlowSelectStmt) : SQLFlowSelectStmt :=
  mkSelect (Extended x) (Train x) (Predict x) (Explain x) (Evaluate x) (Run x) (Optimize x)
    (ShowTrain x) s (train x) (predict x) (explain x) (evaluate x) (optimize x) (ModelName x) (run x).

(** [attrsUnion]: the second map's entries are added in some order; a key of both panics. *)
Definition attrsUnion (as1 as2 : Attributes) : result Attributes :=
  if decide (dom as1 ∩ dom as2 = ∅) then Ok (as2 ∪ as1) else Panic.

(** ** Printing *)

(** The shape of the production that puts the operator [t] in front of [n] operands. *)
Definition production (t : token) (n : nat) : bool :=
  if infix_token t || bool_decide (t = NE) then bool_decide (n = 2)
  else if decide (t = tok_minus) then bool_decide (n = 1 ∨ n = 2)
  else if decide (t = tok_lparen ∨ t = NOT) then bool_decide (n = 1)
  else bool_decide (t = tok_lbracket ∨ t = IDENT).

#[export] Instance Expr_list_nil_dec (l : list Expr) : Decision (l = []).
Proof. by destruct l; [left|right]. Defined.

(** The expressions that the actions of the grammar's [expr] build. *)
Fixpoint grammar_expr (e : Expr) : bool :=
  match e with
  | mkExpr (Some t) _ l => bool_decide (t = NUMBER ∨ t = IDENT ∨ t = STRING) && bool_decide (l = [])
  | mkExpr None _ (mkExpr (Some t) _ _ :: args) =>
    production t (length args) && forallb grammar_expr args
  | _ => false
  end.

Fixpoint has_ne (e : Expr) : bool :=
  match e with
  | mkExpr (Some _) _ _ => false
  | mkExpr None _ l =>
    match l with
    | h :: args => nil_token_eq (Type_ h) NE || existsb has_ne args
    | [] => false
    end
  end.

(** The operator outside of the operands that [Sprintf] prints: only brackets and calls print
    what is in them without it. *)
Fixpoint bare_ne (e : Expr) : bool :=
  match e with
  | mkExpr None _ (mkExpr (Some t) _ _ :: args) =>
    bool_decide (t = NE) || bool_decide (t = tok_lbracket ∨ t = IDENT) && existsb bare_ne args
  | _ => false
  end.

Lemma forallb_no {A} (bad : Expr → bool) (f : Expr → result A) args :
  Forall (λ e, grammar_expr e = true → is_ok (f e) = negb (bad e)) args →
  forallb grammar_expr args = true →
  forallb (λ x, is_ok (f x)) args = negb (existsb bad args).
Proof.
  induction 1 as [|e args He Hargs IH]; simpl; [done|]. intros [H1 H2]%andb_true_iff.
  rewrite He, IH by done. by destruct (bad e).
Qed.

(** One operand, two operands, a list of operands: each is printed if it has no [NE]. *)
#[local] Ltac operands :=
  repeat match goal with
  | H : Forall _ (_ :: _) |- _ => apply Forall_cons in H as [? H]
  | H : _ && _ = true |- _ => apply andb_true_iff in H as [? H]
  | H : ?P → is_ok _ = _, H' : ?P |- _ => specialize (H H')
  | H : is_ok (?f ?a) = _ |- context [?f ?a] => destruct (f a); simpl in *
  end;
  repeat match goal with
  | H : _ = negb (has_ne ?a) |- _ => destruct (has_ne a); simpl in *
  end; try done.

Lemma has_ne_compound t v w l args :
  has_ne (mkExpr None v (mkExpr (Some t) w l :: args)) = bool_decide (t = NE) || existsb has_ne args.
Proof. simpl. unfold nil_token_eq. f_equal. apply bool_decide_ext. naive_solver. Qed.

(** Printing ends with a text or a panic, so an operand always has a text. *)
Definition ok_or_panic {A} (r : result A) : Prop := match r with Ok _ | Panic => True | _ => False end.
Lemma ok_or_panic_bind {A B} (r : result A) (f : A → result B) :
  ok_or_panic r → (∀ a, ok_or_panic (f a)) → ok_or_panic (r ≫= f).
Proof. by destruct r; cbn. Qed.
Lemma ok_or_panic_mapR {A B} (f : A → result B) l : Forall (λ a, ok_or_panic (f a)) l → ok_or_panic (mapR f l).
Proof. induction 1 as [|a l Ha _ IH]; [done|]. cbn [mapR]. repeat (apply ok_or_panic_bind; [done|intros ?]). done. Qed.

Lemma String_ok_or_panic e : ok_or_panic (Expr_String e).
Proof.
  assert (∀ r, ok_or_panic r → ok_or_panic (operand r)) as Hop by (by intros []).
  induction e as [t v args IH] using Expr_ind'. destruct t as [t|]; [done|]. destruct args as [|[[t|] w l] args]; [done| |done].
  apply Forall_cons in IH as [_ IH]. cbn [Expr_String Type_].
  repeat case_decide || case_match; try done; subst;
    repeat match goal with H : Forall _ (_ :: _) |- _ => apply Forall_cons in H as [? H] end;
    repeat (apply ok_or_panic_bind; [by eauto using ok_or_panic_mapR|intros ?]); done.
Qed.
Lemma operand_prints e : ∃ s, operand (Expr_String e) = Ok s.
Proof. pose proof (String_ok_or_panic e). destruct (Expr_String e); try done; by eexists. Qed.

Section printers.
Variables (t : token) (args : list Expr).
Hypothesis Hp : production t (length args) = true.
Hypothesis Hg : forallb grammar_expr args = true.

Lemma String_step v w l :
  Forall (λ e, grammar_expr e = true → is_ok (Expr_String e) = negb (bare_ne e)) args →
  is_ok (Expr_String (mkExpr None v (mkExpr (Some t) w l :: args)))
  = negb (bare_ne (mkExpr None v (mkExpr (Some t) w l :: args))).
Proof using Hp Hg.
  intros IH. pose proof (forallb_no bare_ne Expr_String args IH Hg) as Hall. cbn [bare_ne].
  revert Hp. unfold production. cbn [Expr_String Type_].
  destruct (infix_token t) eqn:Hi.
  { intros Hn%bool_decide_eq_true. rewrite !bool_decide_eq_false_2 by (first [intros ->|intros [->| ->]]; by vm_compute in Hi).
    destruct args as [|a [|b [|]]]; try done. destruct (operand_prints a) as [x ->], (operand_prints b) as [y ->]. done. }
  destruct (decide (t = NE)) as [->|Hne]; [done|]. rewrite (bool_decide_eq_false_2 (t = NE)) by done. cbn [orb].
  case_decide.
  { subst t. rewrite (bool_decide_eq_false_2 (tok_minus = tok_lbracket ∨ tok_minus = IDENT)) by (intros [Ht|Ht]; discriminate Ht). intros Hn%bool_decide_eq_true.
    destruct args as [|a [|b [|]]]; simpl in *; try lia; destruct (operand_prints a) as [x ->]; [done|].
    by destruct (operand_prints b) as [y ->]. }
  destruct (decide (t = tok_lparen ∨ t = NOT)) as [[->| ->]|Hn]; simpl.
  1, 2: intros Hn%bool_decide_eq_true; destruct args as [|a [|]]; try done; by destruct (operand_prints a) as [x ->].
  rewrite decide_False by naive_solver. intros Hor%bool_decide_eq_true.
  rewrite (bool_decide_eq_true_2 (t = tok_lbracket ∨ t = IDENT)) by naive_solver. cbn [andb].
  destruct Hor as [->| ->]; simpl; rewrite <- Hall, <- is_ok_mapR; by destruct (mapR Expr_String args).
Qed.

Lemma ToTokens_step v w l :
  Forall (λ e, grammar_expr e = true → is_ok (ToTokens e) = negb (has_ne e)) args →
  is_ok (ToTokens (mkExpr None v (mkExpr (Some t) w l :: args)))
  = negb (bool_decide (t = NE) || existsb has_ne args).
Proof using Hp Hg.
  intros IH. pose proof (forallb_no has_ne ToTokens args IH Hg) as Hall.
  revert Hp. unfold production. cbn [ToTokens Type_].
  destruct (infix_token t) eqn:Hi.
  { intros Hn%bool_decide_eq_true. rewrite bool_decide_eq_false_2 by (by intros ->).
    destruct args as [|a [|b [|]]]; try done. simpl in *. operands. }
  destruct (decide (t = NE)) as [->|Hne]; [done|]. rewrite bool_decide_eq_false_2 by done. simpl.
  case_decide.
  { subst t. intros Hn%bool_decide_eq_true.
    destruct args as [|a [|b [|]]]; simpl in *; try lia; operands. }
  destruct (decide (t = tok_lparen ∨ t = NOT)) as [[->| ->]|Hn]; simpl.
  { intros Hn%bool_decide_eq_true. destruct args as [|a [|]]; try done. simpl in *. operands. }
  { intros Hn%bool_decide_eq_true. destruct args as [|a [|]]; try done. simpl in *. operands. }
  rewrite decide_False by naive_solver. intros Hor%bool_decide_eq_true.
  destruct Hor as [->| ->]; simpl; rewrite <- Hall, <- is_ok_mapR; by destruct (mapR ToTokens args).
Qed.
End printers.

(** Of the expressions that the grammar builds, [ToTokens] prints exactly those without the
    operator [!=] (also written [<>]); on the others, which the grammar accepts, it panics.
    [String] panics where the operator is not an operand of another, or an element of such. *)
Theorem print_iff_no_ne (e : Expr) :
  grammar_expr e = true →
  is_ok (Expr_String e) = negb (bare_ne e) ∧ is_ok (ToTokens e) = negb (has_ne e).
Proof.
  induction e as [t v args IH] using Expr_ind'. intros Hg.
  destruct t as [t|]; [done|]. destruct args as [|[[t|] w l] args]; [done| |done].
  change (production t (length args) && forallb grammar_expr args = true) in Hg.
  apply andb_true_iff in Hg as [Hp Hg]. apply Forall_cons in IH as [_ IH].
  split.
  - apply String_step; [done..|]. eapply Forall_impl; [exact IH|]. naive_solver.
  - rewrite has_ne_compound. apply ToTokens_step; [done..|]. eapply Forall_impl; [exact IH|]. naive_solver.
Qed.

Lemma print_iff_no_ne_witness :
  let e := binary NE (funcall "SUM" [atomic IDENT "x"]) "!=" (atomic NUMBER "2") in
  is_ok (Expr_String e) = negb (bare_ne e) ∧ is_ok (ToTokens e) = negb (has_ne e).
Proof. intros e. apply (print_iff_no_ne e). vm_compute. reflexivity. Defined.
Example nested_ne :
  Expr_String (binary AND (binary NE (atomic IDENT "x") "!=" (atomic NUMBER "2")) "AND" (atomic IDENT "y"))
  = Ok "%!s(PANIC=String method: Cannot print an unknown expression) AND y"%string.
Proof. reflexivity. Qed.
