(* ===== verification/SqlParser.v ===== *)
(** * Parsing SQL programs (go/parser/sqlflow_parser.go, go/parser/external)

    [Parse] alternates between a parser of standard SQL, which stops where it cannot go
    on, and the parser of the extended syntax.  What is not part of the repository is a
    field of the class [External]: the TiDB parser, Vitess' splitter and tokenizer, the
    Java parser's service and the parser goyacc generates. *)

From S2P Require Import Prelude GoStrings Lexer Syntax.

Local Open Scope Z_scope.

(** ** The parsers of standard SQL (go/parser/external) *)

Record Statement := mkStatement {
  String_ : string;
  Inputs : list string;
  Outputs : list string;
  IsUnfinishedSelect : bool
}.

(** The nodes of the TiDB parser, as far as [parseInputsOutputs] looks into them: the
    restored text of a FROM clause and the name of a created table. *)
Inductive StmtNode :=
  | SelectStmt (text : string) (from : option string)
  | UnionStmt (text : string)
  | CreateTableStmt (text table : string) (select_from : option (option string))
  | OtherStmt (text : string).

Definition Text (n : StmtNode) : string :=
  match n with
  | SelectStmt t _ | UnionStmt t | CreateTableStmt t _ _ | OtherStmt t => t
  end.

Record ParserResponse := mkResponse {
  Error : string;
  SqlStatements : list string;
  InputOutputTables : list (list string * list string);
  Resp_IsUnfinishedSelect : bool;
  Resp_Index : Z
}.

(** The interface [Parser]: the statements and the position where the parser stopped, or
    a negative number. *)
Definition Parser : Type := string → result (list Statement * Z).
Definition run_parser (p : Parser) (program : string) : result (list Statement * Z) := p program.

Class External := {
  (** [p.psr.Parse(sql, "", "")]: the nodes or the text of the error. *)
  psr_Parse : string → list StmtNode + string;
  (** [sqlparser.SplitStatementToPieces]. *)
  SplitStatementToPieces : string → result (list string);
  (** [lexer.Position] after each of the comments at the beginning of the program, for a
      tokenizer that allows comments. *)
  comment_positions : string → list Z;
  (** [connectToServer] and [proto.NewParserClient(c).Parse]. *)
  parser_service : string → string → result ParserResponse;
  (** [extendedSyntaxParse] on a new lexer: the lexer it leaves and its [result] field, which
      is nil when no action has set it; a failure is the value of a panic, and [NoFuel] a call
      that does not return, as it happens when the lexer does not (see [Lex_hangs]). *)
  extendedSyntaxParse : string → result (lexer * option SQLFlowSelectStmt)
}.

Section external.
Context `{External}.

(** [FindAllStringSubmatch] of the regular expression of [newTiDBParser], any text, the
    word near between spaces, a quoted and nonempty text, any text: of each match the
    quoted text.  Any text has no line break, and the first takes as much as possible. *)
Definition quote_char : ascii := of_byte 34.
Definition near_mark : string := (" near " +:+ char1 quote_char)%string.
Definition near_at (s : string) : option (string * string) :=
  if HasPrefix s near_mark then
    let r := str_drop (str_len near_mark) s in
    match IndexFunc (λ c, bool_decide (c = quote_char)) r with
    | Some (S n) => Some (str_take (S n) r, str_drop (S (S n)) r)
    | _ => None
    end
  else None.
Fixpoint last_near (s : string) : option (string * string) :=
  match s with
  | EmptyString => None
  | String c s' =>
    if decide (c = "010"%char) then None
    else match last_near s' with Some x => Some x | None => near_at s end
  end.
Fixpoint drop_line (s : string) : string :=
  match s with
  | EmptyString => ""
  | String c s' => if decide (c = "010"%char) then s' else drop_line s'
  end.
Fixpoint near_matches (fuel : nat) (s : string) : list string :=
  match fuel, s with
  | O, _ | _, EmptyString => []
  | S fuel, _ =>
    match last_near s with
    | Some (m, rest) => m :: near_matches fuel (drop_line rest)
    | None => near_matches fuel (drop_line s)
    end
  end.
Definition FindAllStringSubmatch (s : string) : list string := near_matches (str_len s) s.

(** [for i := 0; i < len(stmts)-1; i++ { stmts[i] += ";"; pos += len(stmts[i]) }]. *)
Fixpoint add_semicolons (stmts : list string) (program : string) (pos : nat) : result (list string) :=
  match stmts with
  | [] => Ok []
  | [_] => s ← slice_from pos program; Ok [s]
  | s :: stmts =>
    let s := (s +:+ ";")%string in
    rest ← add_semicolons stmts program (pos + str_len s);
    Ok (s :: rest)
  end.
Definition splitStatementToPieces (program : string) : result (list string) :=
  stmts ← SplitStatementToPieces program;
  if decide (length stmts = 0%nat) then Ok stmts else add_semicolons stmts program 0.

(** [program[pos:]] for an [int]. *)
Definition from_pos (pos : Z) (program : string) : result string :=
  if decide (0 ≤ pos) then slice_from (Z.to_nat pos) program else Panic.

(** [for _, r := range s { if !unicode.IsSpace(r) { break }; pos += utf8.RuneLen(r) }]. *)
Definition rune_len (r : Z) : Z :=
  if r <? 128 then 1 else if r <? 2048 then 2 else if r <? 65536 then 3 else 4.
Fixpoint leading_spaces (rs : list Z) : Z :=
  match rs with
  | r :: rs => if is_space r then rune_len r + leading_spaces rs else 0
  | [] => 0
  end.
Definition getLeadingCommentLen (program : string) : result Z :=
  let pos := match last (comment_positions program) with Some p => p - 1 | None => 0 end in
  s ← from_pos pos program;
  Ok (pos + leading_spaces (runes s)).

Definition parseInputsOutputs (node : StmtNode) (st : Statement) : Statement :=
  match node with
  | SelectStmt _ (Some from) =>
    mkStatement (String_ st) (Inputs st ++ [from]) (Outputs st) (IsUnfinishedSelect st)
  | CreateTableStmt _ table sel =>
    mkStatement (String_ st)
      (Inputs st ++ match sel with Some (Some from) => [from] | _ => [] end)
      (Outputs st ++ [table]) (IsUnfinishedSelect st)
  | _ => st
  end.

Definition is_select_or_union (n : StmtNode) : bool :=
  match n with SelectStmt _ _ | UnionStmt _ => true | _ => false end.

Definition split_failed : error := Errorf "sql statement split failed" [].
Definition cannot_match (err : string) : error :=
  let dq := char1 quote_char in
  Errorf ("cannot match parse error " +:+ dq +:+ "near" +:+ dq +:+ " in " +:+ dq +:+ "%q" +:+ dq) [err].

Fixpoint doParse_loop (stmts : list string) (pos : Z) (retStmts : list Statement)
    : result (list Statement * Z) :=
  match stmts with
  | [] => Ok (retStmts, -1)
  | sql :: stmts =>
    match psr_Parse sql with
    | inl [] => doParse_loop stmts (pos + Z.of_nat (str_len sql)) retStmts
    | inl [node] =>
      doParse_loop stmts (pos + Z.of_nat (str_len sql))
        (retStmts ++ [parseInputsOutputs node (mkStatement (Text node) [] [] false)])
    | inl _ => Fail split_failed
    | inr err =>
      match FindAllStringSubmatch err with
      | [near] =>
        match Index sql near with
        | None => Panic
        | Some idx =>
          match psr_Parse (str_take idx sql +:+ ";") with
          | inl (n :: ns) =>
            if is_select_or_union (List.last ns n) then
              Ok (retStmts ++ [mkStatement (str_take idx sql) [] [] true], pos + Z.of_nat idx)
            else Ok (retStmts, pos)
          | _ => Ok (retStmts, pos)
          end
        end
      | _ => Fail (cannot_match err)
      end
    end
  end.
Definition doParse (program : string) : result (list Statement * Z) :=
  stmts ← splitStatementToPieces program;
  doParse_loop stmts 0 [].

(** The parser is initialized by [newTiDBParser]; the lock is left out. *)
Definition tidb_Parse (program : string) : result (list Statement * Z) :=
  '(ss, pos) ← doParse program;
  if pos <? 0 then Ok (ss, pos)
  else
    s ← from_pos pos program;
    n ← getLeadingCommentLen s;
    Ok (ss, pos + n).

(** [retStatements[len(retStatements)-1].IsUnfinishedSelect = true]. *)
Definition set_last_unfinished (l : list Statement) : result (list Statement) :=
  match reverse l with
  | [] => Panic
  | x :: r => Ok (reverse r ++ [mkStatement (String_ x) (Inputs x) (Outputs x) true])
  end.
Definition java_Parse (typ program : string) : result (list Statement * Z) :=
  r ← parser_service typ program;
  if negb (bool_decide (Error r = ""%string)) then Fail (Errorf (Error r) [])
  else
    let stmts :=
      if decide (length (InputOutputTables r) = length (SqlStatements r)) then
        zip_with (λ s io, mkStatement s io.1 io.2 false) (SqlStatements r) (InputOutputTables r)
      else (λ s, mkStatement s [] [] false) <$> SqlStatements r in
    stmts ← (if Resp_IsUnfinishedSelect r then set_last_unfinished stmts else Ok stmts);
    Ok (stmts, Resp_Index r).

Definition NewParser (dialect : string) : result Parser :=
  if decide (dialect = "mysql" ∨ dialect = "tidb")%string then Ok (tidb_Parse : Parser)
  else if decide (dialect = "hive"%string) then Ok (java_Parse "hive")
  else if decide (dialect = "calcite"%string) then Ok (java_Parse "calcite")
  else if decide (dialect = "maxcompute" ∨ dialect = "alisa")%string then Ok (java_Parse "maxcompute")
  else Fail (Errorf "unrecognized dialect %s" [dialect]).
End external.

(** ** SQL programs (go/parser/sqlflow_parser.go) *)

Record SQLFlowStmt := mkSQLFlowStmt {
  stmt_IsUnfinishedSelect : bool;
  Original : string;
  select : option SQLFlowSelectStmt;
  stmt_Inputs : list string;
  stmt_Outputs : list string
}.

Definition IsExtendedSyntax (s : SQLFlowStmt) : bool := bool_decide (is_Some (select s)).

Section parse.
Context `{External}.

(** [parseSQLFlowStmt] of extended_syntax_parser.y: a panic leaves the named results
    at their zero values, and its value is the error. *)
Definition parseSQLFlowStmt (s : string) : result (option SQLFlowSelectStmt * Z * option error) :=
  match extendedSyntaxParse s with
  | Fail e => Ok (None, 0, Some e)
  | Ok (l, r) => Ok (r, match err l with Some _ => previous l | None => pos l end, err l)
  | Panic => Panic
  | NoFuel => NoFuel
  end.

(** [program[:idx]] for an [int]. *)
Definition upto_pos (idx : Z) (program : string) : result string :=
  if decide (0 ≤ idx) then slice 0 (Z.to_nat idx) program else Panic.

Definition parseFirstSQLFlowStmt (program : string) : result (option SQLFlowSelectStmt * Z) :=
  '(pr, idx, err) ← parseSQLFlowStmt program;
  match err with
  | None => Ok (pr, idx)
  | Some err =>
    p ← upto_pos idx program;
    '(pr, idx, e) ← parseSQLFlowStmt p;
    match e with None => Ok (pr, idx) | Some _ => Fail err end
  end.

Definition of_statement (s : Statement) : SQLFlowStmt :=
  mkSQLFlowStmt (IsUnfinishedSelect s) (String_ s) None (Inputs s) (Outputs s).

Definition thirdPartyParse (dialect program : string) : result (list SQLFlowStmt * Z) :=
  p ← wrapf "thirdPartyParse failed: %v" [] (NewParser dialect);
  '(sqls, i) ← wrapf "thirdPartyParse failed: %v" [] (run_parser p program);
  Ok (map of_statement sqls, i).

Definition ends_unfinished (sqls : list SQLFlowStmt) : bool :=
  match last sqls with Some s => stmt_IsUnfinishedSelect s | None => false end.

(** The assignments to [all[len(all)-1]]. *)
Definition complete_last (all : list SQLFlowStmt) (right : string) (ext : SQLFlowSelectStmt)
    : result (list SQLFlowStmt) :=
  match reverse all with
  | [] => Panic
  | x :: r =>
    let left := Original x in
    Ok (reverse r ++ [mkSQLFlowStmt (stmt_IsUnfinishedSelect x) (left +:+ right)
                        (Some (set_origin left ext)) (stmt_Inputs x) (stmt_Outputs x)])
  end.

Fixpoint Parse_loop (fuel : nat) (dialect program : string) (all : list SQLFlowStmt)
    : result (list SQLFlowStmt) :=
  match fuel with
  | O => NoFuel
  | S fuel =>
    '(sqls, i) ← thirdPartyParse dialect program;
    let all := all ++ sqls in
    if i <? 0 then Ok all
    else
      program ← from_pos i program;
      '(pr, j) ← parseFirstSQLFlowStmt program;
      match pr with
      | None => Panic (* extended.ShowTrain of a nil pointer *)
      | Some extended =>
        all ←
          (if ends_unfinished sqls then
             if ShowTrain extended then
               Fail (Errorf "select should followed by 'to train/predict/explain'" [])
             else
               right ← upto_pos j program;
               complete_last all right extended
           else if negb (ShowTrain extended) then
             Fail (Errorf "invalid 'to train/predict/explain' with no 'select'" [])
           else
             o ← upto_pos j program;
             Ok (all ++ [mkSQLFlowStmt false o (Some extended) [] []]));
        program ← from_pos j program;
        if decide (TrimSpace program = ""%string) then Ok all
        else Parse_loop fuel dialect program all
      end
  end.

Definition Parse (dialect program : string) : result (list SQLFlowStmt) :=
  Parse_loop (S (str_len program)) dialect program [].

Definition ParseStatement (dialect program : string) : result SQLFlowStmt :=
  stmts ← Parse dialect program;
  match stmts with
  | [s] => Ok s
  | _ => Fail (Errorf "expecting one statement, got %d" [pretty (length stmts)])
  end.
End parse.

(** ** Splitting *)

(** What Vitess promises: the pieces stand in the program in their order with a semicolon
    between each two of them. *)
Definition splits `{External} : Prop :=
  ∀ program ps, SplitStatementToPieces program = Ok ps →
    ∃ tail, program = (Join ps ";" +:+ tail)%string.

Lemma add_semicolons_concat ps pre program tail :
  ps ≠ [] → program = (pre +:+ Join ps ";" +:+ tail)%string →
  ∃ qs, add_semicolons ps program (str_len pre) = Ok qs
    ∧ program = (pre +:+ str_concat qs)%string ∧ length qs = length ps.
Proof.
  revert pre. induction ps as [|s ps IH]; intros pre; [done|]. intros _ Hp.
  destruct ps as [|t ps].
  - cbn [add_semicolons]. rewrite slice_from_ok by (rewrite Hp, str_length_app; lia). ok_step.
    eexists. split; [done|]. rewrite Hp, str_drop_app by done. simpl.
    by rewrite str_app_nil_r.
  - change (add_semicolons (s :: t :: ps) program (str_len pre)) with
      (rest ← add_semicolons (t :: ps) program (str_len pre + str_len (s +:+ ";"));
       Ok ((s +:+ ";")%string :: rest)).
    rewrite <- str_length_app.
    destruct (IH (pre +:+ (s +:+ ";"))%string) as (qs & -> & Hq & Hl); [done| |].
    + rewrite Hp, Join_cons. by rewrite <- !str_app_assoc.
    + ok_step. eexists. split; [done|]. simpl. rewrite Hl. split; [|done].
      by rewrite Hq, <- str_app_assoc.
Qed.

Lemma split_pieces_concat `{External} program qs :
  splits → splitStatementToPieces program = Ok qs → qs ≠ [] → str_concat qs = program.
Proof.
  intros Hs. unfold splitStatementToPieces. intros (ps & Hps & Hq)%bind_Ok Hne.
  destruct (Hs _ _ Hps) as [tail Htail]. case_decide as Hl; [injection Hq as <-; by destruct ps|].
  destruct (add_semicolons_concat ps "" program tail) as (qs' & Hqs' & Hcat & _); [by intros ->|done|].
  simpl in Hqs'. rewrite Hqs' in Hq. by injection Hq as ->.
Qed.

(** ** Positions *)

(** Where a parser stopped: only the last statement can be an unfinished select, and its
    text is the end of what was read. *)
Definition stopped_at (program : string) (ss : list Statement) (pos : Z) : Prop :=
  0 ≤ pos ≤ Z.of_nat (str_len program) ∧
  (Forall (λ s, IsUnfinishedSelect s = false) ss ∨
   ∃ fin s pre rest, ss = fin ++ [s] ∧ Forall (λ s, IsUnfinishedSelect s = false) fin ∧
     IsUnfinishedSelect s = true ∧ program = (pre +:+ String_ s +:+ rest)%string ∧
     pos = Z.of_nat (str_len (pre +:+ String_ s))).

Lemma parseInputsOutputs_finished node st :
  IsUnfinishedSelect (parseInputsOutputs node st) = IsUnfinishedSelect st.
Proof. by destruct node as [? []| | |]. Qed.

Lemma doParse_loop_stopped `{External} program stmts pre ret ss pos :
  program = (pre +:+ str_concat stmts)%string → Forall (λ s, IsUnfinishedSelect s = false) ret →
  doParse_loop stmts (Z.of_nat (str_len pre)) ret = Ok (ss, pos) →
  stopped_at program ss pos ∨ (pos = -1 ∧ Forall (λ s, IsUnfinishedSelect s = false) ss).
Proof.
  revert pre ret. induction stmts as [|sql stmts IH]; intros pre ret Hp Hret; cbn [doParse_loop].
  { intros [= <- <-]. by right. }
  assert (program = ((pre +:+ sql) +:+ str_concat stmts)%string) as Hp'
    by by rewrite <- str_app_assoc.
  assert (Z.of_nat (str_len pre) + Z.of_nat (str_len sql) = Z.of_nat (str_len (pre +:+ sql))) as Hpos
    by (rewrite str_length_app; lia).
  destruct (psr_Parse sql) as [[|node [|]]|err].
  - rewrite Hpos. by apply IH.
  - rewrite Hpos. apply IH; [done|]. apply Forall_app. split; [done|].
    apply Forall_singleton. by rewrite parseInputsOutputs_finished.
  - done.
  - destruct (FindAllStringSubmatch err) as [|near [|]]; [done| |done].
    destruct (Index sql near) as [idx|] eqn:Hidx; [|done].
    apply Index_Some in Hidx as [Hidx _].
    assert (stopped_at program ret (Z.of_nat (str_len pre))) as Hstop.
    { split; [|by left]. rewrite Hp, str_length_app. lia. }
    destruct (psr_Parse _) as [[|n ns]|]; [by intros [= <- <-]; left| |by intros [= <- <-]; left].
    case_match; [|by intros [= <- <-]; left].
    intros [= <- <-]. left. split.
    { rewrite Hp', str_length_app, str_length_app. lia. }
    right. exists ret, (mkStatement (str_take idx sql) [] [] true), pre,
      (str_drop idx sql +:+ str_concat stmts)%string.
    split_and!; try done.
    + rewrite Hp at 1. cbn [String_]. f_equal. rewrite str_app_assoc. by rewrite str_take_drop.
    + cbn [String_]. rewrite str_length_app, str_length_take. lia.
Qed.

Lemma doParse_stopped `{External} program ss pos :
  splits → doParse program = Ok (ss, pos) →
  stopped_at program ss pos ∨ (pos = -1 ∧ Forall (λ s, IsUnfinishedSelect s = false) ss).
Proof.
  intros Hs. unfold doParse. intros (qs & Hqs & Hd)%bind_Ok.
  destruct qs as [|q qs].
  - injection Hd as <- <-. by right.
  - apply (doParse_loop_stopped program (q :: qs) "" []); [|done|done].
    simpl. symmetry. by apply (split_pieces_concat _ _ Hs Hqs).
Qed.

(** The width of a decoded rune. *)
Lemma decode_rune_len s r w :
  s ≠ ""%string → decode_rune s = (r, w) → r ≠ RuneError → rune_len r = Z.of_nat w.
Proof.
  destruct s as [|c0 s1]; [done|]. intros _. unfold decode_rune, is_cont, rune_len.
  pose proof (byte_range c0).
  repeat (case_match; try (intros [= <- <-] Hr; try done)); try lia;
    exfalso;
    repeat match goal with
    | H : (_ || _) = false |- _ => apply orb_false_iff in H as [? ?]
    | H : negb _ = false |- _ => apply negb_false_iff in H
    | H : (_ && _) = true |- _ => apply andb_true_iff in H as [? ?]
    | H : (_ =? _) = true |- _ => apply Z.eqb_eq in H
    | H : (_ =? _) = false |- _ => apply Z.eqb_neq in H
    end; lia.
Qed.

Lemma is_space_RuneError : is_space RuneError = false.
Proof. reflexivity. Qed.

Lemma leading_spaces_bounds s : 0 ≤ leading_spaces (runes s) ≤ Z.of_nat (str_len s).
Proof.
  enough (∀ n s, 0 ≤ leading_spaces (segments_fuel n s).*1 ≤ Z.of_nat (str_len s)) as H by apply H.
  clear s. intros n. induction n as [|n IH]; intros s; [simpl; lia|].
  destruct s as [|c s]; [simpl; lia|]. cbn [segments_fuel].
  destruct (decode_rune (String c s)) as [r w] eqn:Hd. rewrite fmap_cons. cbn [fst leading_spaces].
  destruct (is_space r) eqn:Hsp; [|lia].
  assert (rune_len r = Z.of_nat w) as ->.
  { apply (decode_rune_len (String c s)); [done|done|]. intros ->. by rewrite is_space_RuneError in Hsp. }
  assert (1 ≤ w ≤ str_len (String c s))%nat by by apply decode_rune_width in Hd.
  specialize (IH (str_drop w (String c s))). rewrite str_length_drop in IH. lia.
Qed.

(** What Vitess' tokenizer promises: it stands behind the character it looked ahead at. *)
Definition tokenizes `{External} : Prop :=
  ∀ program p, p ∈ comment_positions program → 1 ≤ p ≤ Z.of_nat (str_len program) + 1.

Lemma from_pos_Ok pos program s :
  from_pos pos program = Ok s → 0 ≤ pos ≤ Z.of_nat (str_len program)
    ∧ s = str_drop (Z.to_nat pos) program.
Proof.
  unfold from_pos, slice_from. repeat case_decide; try done. intros [= <-]. split; [lia|done].
Qed.

Lemma getLeadingCommentLen_bounds `{External} program n :
  tokenizes → getLeadingCommentLen program = Ok n → 0 ≤ n ≤ Z.of_nat (str_len program).
Proof.
  intros Ht. unfold getLeadingCommentLen. intros (s & Hs & Hn)%bind_Ok.
  apply from_pos_Ok in Hs as [Hb ->]. injection Hn as <-.
  pose proof (leading_spaces_bounds
    (str_drop (Z.to_nat match last (comment_positions program) with
                        | Some p => p - 1 | None => 0 end) program)) as Hl.
  rewrite str_length_drop in Hl. lia.
Qed.

(** C28: The TiDB parser, given a splitter and a tokenizer that keep to what they promise,
    either accepts the program with finished statements only, or stops at a position inside
    the program; only the last statement can be an unfinished select, and its text is what
    stands directly before the stop, up to comments and spaces that are skipped. *)
Theorem tidb_Parse_stops `{External} (program : string) (ss : list Statement) (pos : Z) :
  splits → tokenizes → tidb_Parse program = Ok (ss, pos) →
  (pos < 0 ∧ Forall (λ s, IsUnfinishedSelect s = false) ss) ∨
  (∃ p, stopped_at program ss p ∧ p ≤ pos ≤ Z.of_nat (str_len program)).
Proof.
  intros Hs Ht. unfold tidb_Parse. intros ([ss' p] & Hd & Hp)%bind_Ok.
  apply doParse_stopped in Hd as Hd'; [|done].
  case_match eqn:Hneg.
  - injection Hp as -> ->. left. split; [lia|].
    destruct Hd' as [[? _]|[_ ?]]; [lia|done].
  - apply bind_Ok in Hp as (s & Hs' & (n & Hn & Hr)%bind_Ok). injection Hr as -> <-.
    apply from_pos_Ok in Hs' as [Hb ->]. apply getLeadingCommentLen_bounds in Hn; [|done].
    rewrite str_length_drop in Hn. right. exists p.
    destruct Hd' as [Hst|[-> _]]; [|lia]. split; [done|]. lia.
Qed.

(** ** A concrete environment, for the witnesses *)

(** One statement per line break-free text; a text that holds [TO] is rejected there, the
    rest is a select. *)
Definition toy_psr (s : string) : list StmtNode + string :=
  match Index s "TO" with
  | None => inl [SelectStmt s None]
  | Some i => inr ("line 1 near " +:+ char1 quote_char +:+ str_drop i s +:+ char1 quote_char)%string
  end.
Definition toy_clause : SQLFlowSelectStmt :=
  mkSelect true true false false false false false false ""
    (mkTrainClause "DNN" ∅ ∅ "" "" "m") (mkPredictClause ∅ "" "") (mkExplainClause ∅ "" "" "")
    (mkEvaluateClause ∅ "" "" "") (mkOptimizeClause "" None [] ∅ "" "") "" (mkRunClause "" [] []).
Definition toy_external : External := {|
  psr_Parse := toy_psr;
  SplitStatementToPieces s := Ok (Split s ";");
  comment_positions _ := [];
  parser_service _ _ := Fail (Errorf "no service" []);
  extendedSyntaxParse s :=
    match Index s ";" with
    | Some i => Ok (Lexer s 0 (Z.of_nat i + 1) 0 None 0, Some toy_clause)
    | None => Fail (Errorf "syntax error" [])
    end
|}.

Lemma toy_splits : @splits toy_external.
Proof.
  intros program ps [= <-]. exists ""%string. rewrite str_app_nil_r. symmetry. apply Join_Split.
Qed.

Lemma toy_tokenizes : @tokenizes toy_external.
Proof. intros program p Hp. by apply not_elem_of_nil in Hp. Qed.

Lemma tidb_Parse_stops_witness :
  let program := "SELECT 1; SELECT * FROM t TO TRAIN DNN;"%string in
  let ss := [mkStatement "SELECT 1;" [] [] false; mkStatement " SELECT * FROM t " [] [] true] in
  (26 < 0 ∧ Forall (λ s, IsUnfinishedSelect s = false) ss) ∨
  (∃ p, stopped_at program ss p ∧ p ≤ 26 ≤ Z.of_nat (str_len program)).
Proof.
  intros program ss. apply (@tidb_Parse_stops toy_external program ss 26).
  - exact toy_splits.
  - exact toy_tokenizes.
  - vm_compute. reflexivity.
Defined.

(** ** The driver against the interface of the parsers *)

(** What [Parse] needs of a parser of standard SQL. *)
Class ParserLaws (p : Parser) : Prop := {
  pl_total : ∀ program, run_parser p program ≠ NoFuel;
  pl_unfinished : ∀ program ss i s, run_parser p program = Ok (ss, i) →
    s ∈ ss → IsUnfinishedSelect s = true →
    0 ≤ i ∧ ∃ fin, ss = fin ++ [s] ∧ Forall (λ s, IsUnfinishedSelect s = false) fin;
  pl_bound : ∀ program ss i, run_parser p program = Ok (ss, i) → i ≤ Z.of_nat (str_len program)
}.

Lemma tidb_laws `{External} :
  splits → tokenizes → (∀ program, SplitStatementToPieces program ≠ NoFuel) →
  ParserLaws tidb_Parse.
Proof.
  intros Hs Ht Htot. split; unfold run_parser.
  - intros program. unfold tidb_Parse, doParse, splitStatementToPieces.
    assert (∀ stmts pos ret, doParse_loop stmts pos ret ≠ NoFuel) as Hd.
    { induction stmts as [|sql stmts IH]; intros pos ret; cbn [doParse_loop]; [done|].
      repeat case_match; try done; by apply IH. }
    assert (∀ ps pos, add_semicolons ps program pos ≠ NoFuel) as Ha.
    { induction ps as [|s ps IH]; intros pos; [done|]. cbn [add_semicolons].
      destruct ps; [unfold slice_from; by case_decide|].
      rewrite bind_NoFuel. intros [?|(? & _ & ?)]; [by eapply IH|done]. }
    rewrite !bind_NoFuel. intros [[[?|(ps & _ & Hp)]|(stmts & _ & ?)]|([ss pos] & _ & Hp)].
    + by eapply Htot.
    + case_decide; [done|by eapply Ha].
    + by eapply Hd.
    + case_match; [done|]. apply bind_NoFuel in Hp as [Hp|(s & _ & Hp)].
      * unfold from_pos, slice_from in Hp. by repeat case_decide.
      * apply bind_NoFuel in Hp as [Hp|(n & _ & ?)]; [|done].
        unfold getLeadingCommentLen in Hp. apply bind_NoFuel in Hp as [Hp|(n & _ & ?)]; [|done].
        unfold from_pos, slice_from in Hp. by repeat case_decide.
  - intros program ss i s Hp Hin Hu. unfold tidb_Parse in Hp.
    apply bind_Ok in Hp as ([ss' p] & Hd & Hp).
    apply doParse_stopped in Hd as Hst; [|done].
    assert (ss' = ss ∧ (i = p ∨ 0 ≤ p ≤ i)) as [-> Hi].
    { case_match; [injection Hp as -> ->; by auto|].
      apply bind_Ok in Hp as (s' & Hs' & (n & Hn & Hr)%bind_Ok). injection Hr as -> <-.
      apply getLeadingCommentLen_bounds in Hn; [|done]. split; [done|right]. lia. }
    destruct Hst as [[Hb [Hall|(fin & s' & _ & _ & -> & Hfin & _ & _)]]|[_ Hall]].
    + rewrite Forall_forall in Hall. apply Hall in Hin. congruence.
    + split; [lia|]. exists fin. split; [|done]. do 2 f_equal.
      apply elem_of_app in Hin as [Hin|Hin%list_elem_of_singleton]; [|done].
      rewrite Forall_forall in Hfin. apply Hfin in Hin. congruence.
    + rewrite Forall_forall in Hall. apply Hall in Hin. congruence.
  - intros program ss i Hp. unfold tidb_Parse in Hp.
    apply bind_Ok in Hp as ([ss' p] & Hd & Hp).
    case_match; [injection Hp as _ ->; lia|].
    apply bind_Ok in Hp as (s' & Hs' & (n & Hn & Hr)%bind_Ok). injection Hr as _ <-.
    apply from_pos_Ok in Hs' as [Hb ->]. apply getLeadingCommentLen_bounds in Hn; [|done].
    rewrite str_length_drop in Hn. lia.
Qed.

(** A statement as [Parse] returns it: a SELECT that the third-party parser left unfinished
    has the extension that follows it, and an extension of its own is SHOW TRAIN. *)
Definition stmt_ok (s : SQLFlowStmt) : Prop :=
  match select s with
  | None => stmt_IsUnfinishedSelect s = false
  | Some ext =>
    ShowTrain ext = negb (stmt_IsUnfinishedSelect s) ∧
    (stmt_IsUnfinishedSelect s = true → ∃ right, Original s = (origin ext +:+ right)%string)
  end.

Section driver.
Context `{External} (dialect : string) (p : Parser).
Hypothesis Hdialect : NewParser dialect = Ok p.
Context `{!ParserLaws p}.

Lemma thirdPartyParse_Ok program sqls i :
  thirdPartyParse dialect program = Ok (sqls, i) →
  ∃ ss, run_parser p program = Ok (ss, i) ∧ sqls = map of_statement ss.
Proof using Hdialect.
  unfold thirdPartyParse. rewrite Hdialect. cbn [wrapf catch]. ok_step.
  intros ([ss j] & Hr%wrapf_Ok & [= <- <-])%bind_Ok. by exists ss.
Qed.

(** All statements but an unfinished last one are as [stmt_ok] says. *)
Lemma thirdPartyParse_ok program sqls i :
  thirdPartyParse dialect program = Ok (sqls, i) →
  Forall stmt_ok sqls ∧ ends_unfinished sqls = false ∨
  ∃ fin s, sqls = fin ++ [s] ∧ Forall stmt_ok fin ∧ stmt_IsUnfinishedSelect s = true ∧ 0 ≤ i.
Proof using Hdialect ParserLaws0.
  intros (ss & Hr & ->)%thirdPartyParse_Ok.
  destruct (decide (Forall (λ s, IsUnfinishedSelect s = false) ss)) as [Hall|Hex]; cycle 1.
  - apply not_Forall_Exists in Hex; [|apply _].
    apply Exists_exists in Hex as (s & Hin & Hu%not_false_iff_true). right.
    destruct (pl_unfinished _ _ _ _ Hr Hin Hu) as (Hi & fin & -> & Hfin).
    exists (map of_statement fin), (of_statement s). rewrite map_app. split_and!; try done.
    apply Forall_map. eapply Forall_impl; [exact Hfin|]. by intros x Hx.
  - left. split.
    + apply Forall_map. eapply Forall_impl; [exact Hall|]. by intros x Hx.
    + unfold ends_unfinished. destruct ss as [|s fin _] using rev_ind; [done|].
      rewrite map_app, last_app. apply Forall_app in Hall as [_ Hs].
      rewrite Forall_singleton in Hs. exact Hs.
Qed.

Lemma complete_last_app all s right ext :
  complete_last (all ++ [s]) right ext
  = Ok (all ++ [mkSQLFlowStmt (stmt_IsUnfinishedSelect s) (Original s +:+ right)
                  (Some (set_origin (Original s) ext)) (stmt_Inputs s) (stmt_Outputs s)]).
Proof using Type. unfold complete_last. by rewrite reverse_snoc, reverse_involutive. Qed.

Lemma Parse_loop_ok fuel program all stmts :
  Forall stmt_ok all → Parse_loop fuel dialect program all = Ok stmts → Forall stmt_ok stmts.
Proof using Hdialect ParserLaws0.
  revert program all. induction fuel as [|fuel IH]; intros program all Hall; [done|].
  cbn [Parse_loop]. intros ([sqls i] & Htp & Hr)%bind_Ok.
  apply thirdPartyParse_ok in Htp as Hsq.
  case_match eqn:Hi.
  { injection Hr as <-. destruct Hsq as [[Hsq _]|(? & ? & _ & _ & _ & ?)]; [|lia].
    by apply Forall_app. }
  apply bind_Ok in Hr as (prog & _ & Hr). apply bind_Ok in Hr as ([pr j] & _ & Hr).
  destruct pr as [ext|]; [|done].
  apply bind_Ok in Hr as (all' & Hall' & Hr). apply bind_Ok in Hr as (prog' & _ & Hr).
  assert (Forall stmt_ok all') as Hok.
  { destruct Hsq as [[Hsq Hend]|(fin & s & -> & Hfin & Hu & _)].
    - rewrite Hend in Hall'. destruct (ShowTrain ext) eqn:Hst; simpl in Hall'; [|done].
      apply bind_Ok in Hall' as (o & _ & [= <-]). rewrite !Forall_app. split_and!; try done.
      apply Forall_singleton. unfold stmt_ok. simpl. by rewrite Hst.
    - unfold ends_unfinished in Hall'. rewrite last_snoc, Hu in Hall'.
      destruct (ShowTrain ext) eqn:Hst; [done|].
      apply bind_Ok in Hall' as (right & _ & Hall').
      rewrite app_assoc, complete_last_app in Hall'. injection Hall' as <-.
      rewrite !Forall_app. split_and!; try done. apply Forall_singleton.
      unfold stmt_ok. simpl. rewrite Hu, Hst. split; [done|]. eauto. }
  case_decide; [by injection Hr as <-|]. by eapply IH.
Qed.

(** C1: Every statement of a parsed program is standard SQL, or a SELECT that the
    standard parser left unfinished together with the TO clause behind it (whose text
    is put behind the SELECT's own), or a SHOW TRAIN on its own; an unfinished SELECT
    without a TO clause is never returned. *)
Theorem Parse_statements_ok (program : string) (stmts : list SQLFlowStmt) :
  Parse dialect program = Ok stmts → Forall stmt_ok stmts.
Proof using Hdialect ParserLaws0. apply Parse_loop_ok. constructor. Qed.

Lemma upto_pos_total idx program : upto_pos idx program ≠ NoFuel.
Proof using Type. unfold upto_pos, slice. by repeat case_decide. Qed.

(** The generated parser consumes a token at least when it accepts, and stays inside. *)
Definition accepts_tokens : Prop := ∀ s l r,
  extendedSyntaxParse s = Ok (l, r) → err l = None → 0 < pos l ≤ Z.of_nat (str_len s).

(** It does nothing but to ask for tokens up to the end: it returns when the lexer does. *)
Definition reads_tokens `{UnicodeTables} : Prop := ∀ s, lex_string s ≠ NoFuel → extendedSyntaxParse s ≠ NoFuel.

Lemma parseFirst_bounds program pr j :
  accepts_tokens → parseFirstSQLFlowStmt program = Ok (pr, j) → 0 < j ≤ Z.of_nat (str_len program).
Proof using Type.
  intros Hacc. unfold parseFirstSQLFlowStmt.
  assert (∀ s r i, parseSQLFlowStmt s = Ok (r, i, None) → 0 < i ≤ Z.of_nat (str_len s)) as Hp.
  { intros s r i. unfold parseSQLFlowStmt. destruct (extendedSyntaxParse s) as [[l r']|e| |] eqn:Hs; [|done..].
    destruct (err l) eqn:He; [done|]. intros [= <- <-]. by eapply Hacc. }
  intros ([[r i] [e|]] & Hs & Hr)%bind_Ok; [|injection Hr as <- <-; by eapply Hp].
  apply bind_Ok in Hr as (q & Hq & ([[r' i'] [|]] & Hs' & Hr)%bind_Ok); [done|]. injection Hr as <- <-.
  unfold upto_pos, slice in Hq. repeat case_decide; try done. injection Hq as <-.
  apply Hp in Hs'. rewrite str_slice_0, str_length_take in Hs'. lia.
Qed.

Lemma parseFirst_total `{UnicodeTables} program :
  reads_tokens → safe_input program = true → parseFirstSQLFlowStmt program ≠ NoFuel.
Proof using Type.
  intros Hread. unfold parseFirstSQLFlowStmt.
  assert (∀ s, safe_input s = true → parseSQLFlowStmt s ≠ NoFuel) as Hp.
  { intros s Hs. unfold parseSQLFlowStmt. assert (extendedSyntaxParse s ≠ NoFuel) as Hne.
    { apply Hread. destruct (lex_string_returns s Hs) as [(ts & n & l & ->)| ->]; done. }
    by destruct (extendedSyntaxParse s) as [[l r']|e| |]. }
  intros Hs. rewrite bind_NoFuel. intros [?|([[r i] [e|]] & _ & Hr)]; [by eapply Hp| |done].
  apply bind_NoFuel in Hr as [?|(q & Hq & Hr)]; [by eapply upto_pos_total|].
  apply bind_NoFuel in Hr as [Hr|([[r' i'] [|]] & _ & ?)]; [|done..]. revert Hr. apply Hp.
  unfold upto_pos, slice in Hq. repeat case_decide; try done. injection Hq as <-.
  rewrite str_slice_0. by apply safe_input_take.
Qed.

Lemma Parse_loop_total `{UnicodeTables} fuel program all :
  accepts_tokens → reads_tokens → safe_input program = true → (str_len program < fuel)%nat →
  Parse_loop fuel dialect program all ≠ NoFuel.
Proof using Hdialect ParserLaws0.
  intros Hacc Hread. revert program all. induction fuel as [|fuel IH]; intros program all Hsafe Hf; [lia|].
  cbn [Parse_loop]. intros [Htp|([sqls i] & _ & Hr)]%bind_NoFuel.
  { unfold thirdPartyParse in Htp. rewrite Hdialect in Htp. simpl in Htp.
    pose proof (pl_total (p:=p) program) as Htot. revert Htp.
    destruct (run_parser p program) as [[]| | |]; by simpl. }
  case_match; [done|]. apply bind_NoFuel in Hr as [Hr|(prog & Hprog & Hr)].
  { revert Hr. unfold from_pos, slice_from. by repeat case_decide. }
  apply from_pos_Ok in Hprog as [Hb ->].
  apply bind_NoFuel in Hr as [Hr|([pr j] & Hj & Hr)].
  { revert Hr. apply parseFirst_total; [done|]. by apply safe_input_drop. }
  apply parseFirst_bounds in Hj; [|done]. destruct pr as [ext|]; [|done].
  apply bind_NoFuel in Hr as [Hr|(all' & _ & Hr)].
  { revert Hr. case_match; case_match; try done;
      rewrite bind_NoFuel; intros [?|(q & _ & Hq)]; try done; try by eapply upto_pos_total.
    revert Hq. unfold complete_last. by case_match. }
  apply bind_NoFuel in Hr as [Hr|(prog' & Hprog' & Hr)].
  { revert Hr. unfold from_pos, slice_from. by repeat case_decide. }
  apply from_pos_Ok in Hprog' as [_ ->]. case_decide; [done|].
  revert Hr. apply IH; [by do 2 apply safe_input_drop|]. rewrite ?str_length_drop in *. lia.
Qed.

(** C2: [Parse] terminates on every program in which no ['-'] and no ['/'] stands directly
    before a multi-byte character, when the parser of the dialect always returns and the
    generated parser returns where the lexer does and accepts at least a token: each round of
    its loop consumes what the extended parser accepts, so a round per byte is enough, and on
    what is left the lexer returns again.  On other programs the lexer may not return, and
    [Parse] does not either. *)
Theorem Parse_terminates `{UnicodeTables} (program : string) :
  accepts_tokens → reads_tokens → safe_input program = true → Parse dialect program ≠ NoFuel.
Proof using Hdialect ParserLaws0. intros ???. apply Parse_loop_total; [done..|lia]. Qed.

(** When the extended parser does not return on what the standard parser has left, [Parse]
    does not return either. *)
Lemma Parse_hangs (program : string) (ss : list Statement) (i : Z) :
  run_parser p program = Ok (ss, i) → 0 ≤ i ≤ Z.of_nat (str_len program) →
  extendedSyntaxParse (str_drop (Z.to_nat i) program) = NoFuel →
  ∀ fuel, Parse_loop fuel dialect program [] = NoFuel.
Proof using Hdialect.
  intros Hr Hi Hhang [|fuel]; [done|]. cbn [Parse_loop]. unfold thirdPartyParse. rewrite Hdialect. cbn [wrapf catch].
  ok_step. rewrite Hr. cbn [wrapf catch]. ok_step. destruct (Z.ltb_spec i 0); [lia|].
  unfold from_pos, slice_from. rewrite !decide_True by lia. ok_step.
  unfold parseFirstSQLFlowStmt, parseSQLFlowStmt. by rewrite Hhang.
Qed.
End driver.

#[export] Instance toy_laws : ParserLaws (@tidb_Parse toy_external).
Proof. apply tidb_laws; [apply toy_splits|apply toy_tokenizes|done]. Qed.

Definition toy_program : string := "SELECT 1; SELECT * FROM t TO TRAIN DNN;"%string.
Definition toy_result : list SQLFlowStmt :=
  [mkSQLFlowStmt false "SELECT 1;" None [] [];
   mkSQLFlowStmt true " SELECT * FROM t TO TRAIN DNN;"
     (Some (set_origin " SELECT * FROM t " toy_clause)) [] []].

Lemma Parse_statements_ok_witness : Forall stmt_ok toy_result.
Proof.
  apply (@Parse_statements_ok toy_external "mysql" _ eq_refl toy_laws toy_program).
  vm_compute. reflexivity.
Defined.

Lemma toy_accepts : @accepts_tokens toy_external.
Proof.
  intros s l r. simpl. destruct (Index s ";") as [i|] eqn:Hi; [|done]. intros [= <- _] _.
  apply Index_Some in Hi as [Hi _]. simpl in *. lia.
Qed.

Lemma toy_reads : @reads_tokens toy_external latin1_tables.
Proof. intros s _. simpl. by destruct (Index s ";"). Qed.

Lemma Parse_terminates_witness :
  @accepts_tokens toy_external ∧ @reads_tokens toy_external latin1_tables ∧ @Parse toy_external "mysql" toy_program ≠ NoFuel.
Proof.
  split; [exact toy_accepts|]. split; [exact toy_reads|].
  apply (@Parse_terminates toy_external "mysql" _ eq_refl toy_laws latin1_tables toy_program toy_accepts toy_reads).
  vm_compute. reflexivity.
Defined.
