(* ===== verification/GoFloat.v ===== *)
(** * Go's float32

    A [float32] is a [spec_float] of the Standard Library with 24 bits of mantissa and
    the exponent bound 128 (one NaN stands for all).  [strconv.ParseFloat(s, 32)] and
    the verb [%f] are written out: a decimal is rounded once, to the nearest even. *)

From Stdlib Require Import SpecFloat.
From S2P Require Import Prelude GoStrings.

Local Open Scope Z_scope.

Definition float32 : Type := spec_float.
#[export] Instance float32_eq_dec : EqDecision float32.
Proof. unfold float32. solve_decision. Defined.

Definition f32_lt (x y : float32) : bool := SFltb x y.
Definition f32_le (x y : float32) : bool := SFleb x y.

(** [float32(z)]. *)
Definition float32_of_Z (z : Z) : float32 := binary_normalize 24 128 z 0 false.

(** A [float64] only occurs as a constant and as what is printed. *)
Definition float64 : Type := spec_float.

(** The float next to [m * b ^ e]. *)
Definition float32_scaled (neg : bool) (m b e : Z) : float32 :=
  match m with
  | Zpos p =>
    if 0 <=? e then
      match m * b ^ e with Zpos q => binary_round 24 128 neg q 0 | _ => S754_nan end
    else
      match b ^ (- e) with
      | Zpos q => SFdiv 24 128 (S754_finite neg p 0) (S754_finite false q 0)
      | _ => S754_nan
      end
  | _ => S754_zero neg
  end.

(** ** strconv.ParseFloat *)

Definition lower_ascii (c : ascii) : ascii :=
  if ascii_upper_letter (byte c) then of_byte (byte c + 32) else c.
Fixpoint lower_ascii_string (s : string) : string :=
  match s with EmptyString => "" | String c s => String (lower_ascii c) (lower_ascii_string s) end.

Definition hex_value (c : ascii) : option Z :=
  let b := byte (lower_ascii c) in
  if ascii_digit b then Some (b - 48)
  else if in_range 97 102 b then Some (b - 87) else None.

(** Digits with at most one dot: the value of all digits, the number of digits behind
    the dot, whether there was a digit, and the rest. *)
Fixpoint mantissa (value : ascii → option Z) (base : Z) (dot seen : bool) (acc frac : Z) (s : string)
    : Z * Z * bool * string :=
  match s with
  | String c s' =>
    match value c with
    | Some d => mantissa value base dot true (acc * base + d) (if dot then frac + 1 else frac) s'
    | None =>
      if bool_decide (c = "."%char) && negb dot then mantissa value base true seen acc frac s'
      else (acc, frac, seen, s)
    end
  | EmptyString => (acc, frac, seen, s)
  end.

(** [e] (or [p]), a sign and digits, and nothing else. *)
Definition exponent (mark : ascii) (s : string) : option Z :=
  match s with
  | String c s =>
    if decide (lower_ascii c = mark) then
      match s with
      | String "-" s => v ← unsigned_value s; Some (- v)
      | String "+" s => unsigned_value s
      | _ => unsigned_value s
      end
    else None
  | EmptyString => None
  end.

(** [underscoreOK] behind the prefix of a hexadecimal number: an underscore stands between
    digits.  [saw] is true behind a digit; [us] behind an underscore. *)
Fixpoint underscoreOK (saw us : bool) (s : string) : bool :=
  match s with
  | EmptyString => negb us
  | String c s =>
    if bool_decide (is_Some (hex_value c)) then underscoreOK true false s
    else if decide (c = "_"%char) then (if saw then underscoreOK false true s else false)
    else if us then false else underscoreOK false false s
  end.
Fixpoint remove_underscores (s : string) : string :=
  match s with
  | EmptyString => ""
  | String c s => if decide (c = "_"%char) then remove_underscores s else String c (remove_underscores s)
  end.

Definition parse_decimal (neg : bool) (s : string) : option float32 :=
  let '(m, frac, seen, r) := mantissa digit_value 10 false false 0 0 s in
  if (seen : bool) then
    e ← (match r with EmptyString => Some 0 | _ => exponent "e" r end);
    Some (float32_scaled neg m 10 (e - frac))
  else None.
Definition parse_hex (neg : bool) (s : string) : option float32 :=
  if underscoreOK true false s then
    let '(m, frac, seen, r) := mantissa hex_value 16 false false 0 0 (remove_underscores s) in
    if (seen : bool) then e ← exponent "p" r; Some (float32_scaled neg m 2 (e - 4 * frac))
    else None
  else None.

(** A finite result that overflows is a range error. *)
Definition in_float_range (f : float32) : option float32 :=
  match f with S754_infinity _ => None | _ => Some f end.

Definition parse_unsigned_float (neg : bool) (s : string) : option float32 :=
  let l := lower_ascii_string s in
  if decide (l = "inf" ∨ l = "infinity")%string then Some (S754_infinity neg)
  else if HasPrefix l "0x" then parse_hex neg (str_drop 2 s) ≫= in_float_range
  else parse_decimal neg s ≫= in_float_range.

(** [strconv.ParseFloat s 32]: [None] for an error. *)
Definition ParseFloat32 (s : string) : option float32 :=
  match s with
  | String "-" s => parse_unsigned_float true s
  | String "+" s => parse_unsigned_float false s
  | _ => if decide (lower_ascii_string s = "nan"%string) then Some S754_nan
         else parse_unsigned_float false s
  end.

(** ** The verb %f: six digits behind the dot *)

Definition div_even (a b : Z) : Z :=
  let '(q, r) := (a / b, a mod b) in
  match 2 * r ?= b with Lt => q | Gt => q + 1 | Eq => if Z.even q then q else q + 1 end.

Fixpoint zeros (n : nat) : string := match n with O => "" | S n => String "0" (zeros n) end.
Definition pad_left (n : nat) (s : string) : string := (zeros (n - str_len s) +:+ s)%string.

Definition print_fixed6 (neg : bool) (v : Z) : string :=
  ((if neg then "-" else "") +:+ pretty (v / 1000000) +:+ "." +:+ pad_left 6 (pretty (v mod 1000000)))%string.

Definition FormatFloat6 (f : float32) : string :=
  match f with
  | S754_nan => "NaN"
  | S754_infinity neg => if neg then "-Inf" else "+Inf"
  | S754_zero neg => print_fixed6 neg 0
  | S754_finite neg m e =>
    print_fixed6 neg
      (if 0 <=? e then Zpos m * 2 ^ e * 1000000 else div_even (Zpos m * 1000000) (2 ^ (- e)))
  end.

Example ParseFloat32_ex : option_map FormatFloat6 <$> [ParseFloat32 "1.5e-1"; ParseFloat32 "-.25";
    ParseFloat32 "0x1_0p-2"; ParseFloat32 "1e39"; ParseFloat32 "1."; ParseFloat32 "."; ParseFloat32 "+Inf";
    ParseFloat32 "nan"; ParseFloat32 "1e-60"; ParseFloat32 "0.1"]
  = [Some "0.150000"; Some "-0.250000"; Some "4.000000"; None; Some "1.000000"; None; Some "+Inf";
     Some "NaN"; Some "0.000000"; Some "0.100000"]%string.
Proof. vm_compute. reflexivity. Qed.
