(* ===== verification/GoFormat.v ===== *)
(** * Printing floating point numbers

    The verb [%v] of package fmt and the encoding of package encoding/json print a float with
    the fewest digits that are read back as the same float.  They are written out for both
    widths: [prec] is 24 or 53 and [emax] 128 or 1024. *)

From Stdlib Require Import SpecFloat.
From S2P Require Import Prelude GoStrings GoFloat.

Local Open Scope Z_scope.

Section width.
Variable (prec emax : Z).

(** The float next to [d * 10 ^ e]. *)
Definition float_near (neg : bool) (d e : Z) : spec_float :=
  match d with
  | Zpos p =>
    if 0 <=? e then match d * 10 ^ e with Zpos q => binary_round prec emax neg q 0 | _ => S754_nan end
    else match 10 ^ (- e) with
         | Zpos q => SFdiv prec emax (S754_finite neg p 0) (S754_finite false q 0)
         | _ => S754_nan
         end
  | _ => S754_zero neg
  end.

(** The number of digits in front of the dot: [10 ^ (dp - 1) <= num / den < 10 ^ dp]. *)
Definition decimal_point (num den : Z) : Z :=
  let k := Z.of_nat (str_len (pretty num)) - Z.of_nat (str_len (pretty den)) in
  let ge := if 0 <=? k then den * 10 ^ k <=? num else den <=? num * 10 ^ (- k) in
  if ge then k + 1 else k.

(** The first [n] digits, cut or rounded up, if one of them is the float [f]; both are possible:
    the nearer one, and an even one of two that are as near. *)
Definition digits_of_length (f : spec_float) (neg : bool) (num den dp n : Z) : option Z :=
  let e := n - dp in
  let num := if 0 <=? e then num * 10 ^ e else num in
  let den := if 0 <=? e then den else den * 10 ^ (- e) in
  let lo := num / den in
  let ok d := bool_decide (float_near neg d (dp - n) = f) in
  match ok lo, ok (lo + 1) with
  | true, true => Some (div_even num den)
  | true, false => Some lo
  | false, true => Some (lo + 1)
  | false, false => None
  end.
(** 17 digits are enough for a [float64], 9 for a [float32]. *)
Fixpoint shortest (fuel : nat) (f : spec_float) (neg : bool) (num den dp n : Z) : Z * Z :=
  match fuel with
  | O => (num / den, 0)
  | S fuel =>
    match digits_of_length f neg num den dp n with
    | Some d => (d, dp - n)
    | None => shortest fuel f neg num den dp (n + 1)
    end
  end.
End width.

(** The digits without the zeros behind them. *)
Fixpoint strip_zeros (s : string) : string :=
  match s with
  | EmptyString => ""
  | String c s' =>
    match strip_zeros s' with
    | EmptyString => if decide (c = "0"%char) then "" else char1 c
    | r => String c r
    end
  end.

(** The digits of a finite float, and how many of them stand in front of the dot. *)
Definition decimal (prec emax : Z) (f : spec_float) (m : positive) (e : Z) (neg : bool) : string * Z :=
  let num := if 0 <=? e then Zpos m * 2 ^ e else Zpos m in
  let den := if 0 <=? e then 1 else 2 ^ (- e) in
  let '(d, x) := shortest prec emax 18 f neg num den (decimal_point num den) 1 in
  (strip_zeros (pretty d), x + Z.of_nat (str_len (pretty d))).

Definition print_sign (neg : bool) (s : string) : string := if neg then ("-" +:+ s)%string else s.
(** Format [e]: the exponent has two digits at least. *)
Definition print_e (neg : bool) (ds : string) (dp : Z) : string :=
  let frac := str_drop 1 ds in
  let x := dp - 1 in
  (print_sign neg (str_take 1 ds +:+ (if decide (frac = ""%string) then "" else "." +:+ frac) +:+
    "e" +:+ (if (x <? 0)%Z then "-" else "+") +:+ pad_left 2 (pretty (Z.abs x)%Z)))%string.
(** Format [f]. *)
Definition print_f (neg : bool) (ds : string) (dp : Z) : string :=
  let n := Z.to_nat dp in
  let whole := if dp <=? 0 then "0"%string else (str_take n ds +:+ zeros (n - str_len ds))%string in
  let frac := (zeros (Z.to_nat (- dp)) +:+ str_drop n ds)%string in
  (print_sign neg (whole +:+ if decide (str_drop n ds = ""%string) then "" else "." +:+ frac))%string.

(** The verb [%v]. *)
Definition Format_v (prec emax : Z) (f : spec_float) : string :=
  match f with
  | S754_nan => "NaN"
  | S754_infinity neg => if neg then "-Inf" else "+Inf"
  | S754_zero neg => print_sign neg "0"
  | S754_finite neg m e =>
    let '(ds, dp) := decimal prec emax f m e neg in
    if (dp - 1 <? -4) || (6 <=? dp - 1) then print_e neg ds dp else print_f neg ds dp
  end.

(** The zero in front of an exponent of one digit is left out when it is negative. *)
Definition clean_exponent (s : string) : string :=
  let n := str_len s in
  if decide (4 ≤ n ∧ str_slice (n - 4) (n - 1) s = "e-0"%string)%nat
  then (str_take (n - 2) s +:+ str_drop (n - 1) s)%string else s.
Definition json_float (prec emax : Z) (f : spec_float) : result string :=
  match f with
  | S754_nan | S754_infinity _ => Fail (Errorf "json: unsupported value: " [Format_v prec emax f])
  | S754_zero neg => Ok (print_sign neg "0")
  | S754_finite neg m e =>
    let '(ds, dp) := decimal prec emax f m e neg in
    let a := S754_finite false m e in
    if SFltb a (float_near prec emax false 1 (-6)) || SFleb (float_near prec emax false 1 21) a
    then Ok (clean_exponent (print_e neg ds dp)) else Ok (print_f neg ds dp)
  end.

Example Format_v_ex : Format_v 24 128 <$> omap ParseFloat32
    ["0.1"; "-1.5e-1"; "1000000"; "123456"; "1234567"; "1e-5"; "0.0001"; "16777216"; "3.4028235e38"; "1e-45"; "0"; "5"]%string
  = ["0.1"; "-0.15"; "1e+06"; "123456"; "1.234567e+06"; "1e-05"; "0.0001"; "1.6777216e+07"; "3.4028235e+38"; "1e-45"; "0"; "5"]%string.
Proof. vm_compute. reflexivity. Qed.
Example json_float_ex : (λ '(d, e), json_float 53 1024 (float_near 53 1024 false d e)) <$>
    [(8, -1); (1, -5); (1, -7); (1, 21); (1, 20); (12345678901234567, -16); (5, -324)]
  = [Ok "0.8"; Ok "0.00001"; Ok "1e-7"; Ok "1e+21"; Ok "100000000000000000000"; Ok "1.2345678901234567"; Ok "5e-324"]%string.
Proof. vm_compute. reflexivity. Qed.
