(* ===== verification/FeatureColumn.v ===== *)
(** * Feature columns and attribute values (go/ir/feature_column.go, codegen_python_values.go)

    [FieldDesc], the implementations of the interface [FeatureColumn] as one inductive
    type, their methods, and the values an attribute can have.  Go shares a [FieldDesc]
    by pointer, so the type of the references to it is a parameter [R]: the generator,
    which allocates one per occurrence, uses the descriptions themselves, the feature
    derivation, which writes through the pointers, uses locations of a store. *)

From S2P Require Import Prelude GoStrings GoFloat.

Local Open Scope Z_scope.

Inductive DataType := Int | Float | Str.
#[export] Instance DataType_eq_dec : EqDecision DataType.
Proof. solve_decision. Defined.

(** A nil slice or map is [None]. *)
Record FieldDesc := mkFieldDesc {
  Name : string;
  DType : DataType;
  DTypeWeight : DataType;
  Delimiter : string;
  DelimiterKV : string;
  Format : string;
  Shape : option (list Z);
  IsSparse : bool;
  Vocabulary : option (gmap string string);
  MaxID : Z
}.
#[export] Instance FieldDesc_eq_dec : EqDecision FieldDesc.
Proof. solve_decision. Defined.

(** The zero value with some fields set: [&FieldDesc{Name: n, DType: t, Shape: s}]. *)
Definition newFieldDesc (n : string) (t : DataType) (s : option (list Z)) : FieldDesc :=
  mkFieldDesc n t Int "" "" "" s false None 0.

(** The dynamic values of [interface{}] that occur, and the feature columns.  An
    [[]interface{}] is nil exactly when it is empty here: it is built by [append]. *)
Inductive value (R : Type) :=
  | VNil
  | VInt (z : Z)
  | VFloat (f : float32)
  | VFloat64 (f : float64)
  | VBool (b : bool)
  | VString (s : string)
  | VInts (l : option (list Z))
  | VStrings (l : option (list string))
  | VList (l : list (value R))
  | VColumn (c : FeatureColumn R)
with FeatureColumn (R : Type) :=
  | NumericColumn (fd : R)
  | BucketColumn (source : R) (Boundaries : list Z)
  | CrossColumn (Keys : list (value R)) (HashBucketSize : Z)
  | CategoryIDColumn (fd : R) (BucketSize : Z)
  | CategoryHashColumn (fd : R) (BucketSize : Z)
  | SeqCategoryIDColumn (fd : R) (BucketSize : Z)
  | EmbeddingColumn (cat : option (FeatureColumn R)) (Dimension : Z)
      (Combiner Initializer name : string)
  | IndicatorColumn (cat : option (FeatureColumn R)) (name : string)
  | WeightedCategoryColumn (cat : option (FeatureColumn R)) (name : string).

Arguments VNil {R}.
Arguments VInt {R}.
Arguments VFloat {R}.
Arguments VFloat64 {R}.
Arguments VBool {R}.
Arguments VString {R}.
Arguments VInts {R}.
Arguments VStrings {R}.
Arguments VList {R}.
Arguments VColumn {R}.
Arguments NumericColumn {R}.
Arguments BucketColumn {R}.
Arguments CrossColumn {R}.
Arguments CategoryIDColumn {R}.
Arguments CategoryHashColumn {R}.
Arguments SeqCategoryIDColumn {R}.
Arguments EmbeddingColumn {R}.
Arguments IndicatorColumn {R}.
Arguments WeightedCategoryColumn {R}.

(** ** Python code (codegen_python_values.go) *)

Definition dq : string := char1 (of_byte 34).
Definition quoted (s : string) : string := (dq +:+ s +:+ dq)%string.

Definition DTypeToString (dt : DataType) : string :=
  match dt with Float => "float32" | Int => "int64" | Str => "string" end.

(** [json.Marshal] of a string, with its HTML escapes. *)
Definition hex_digit (z : Z) : ascii := of_byte (if z <? 10 then 48 + z else 87 + z).
Definition json_rune (rs : Z * string) : string :=
  let '(r, s) := rs in
  if r =? 34 then ("\" +:+ dq)%string
  else if r =? 92 then "\\"
  else if r =? 10 then "\n"
  else if r =? 13 then "\r"
  else if r =? 9 then "\t"
  else if (r <? 32) || (r =? 60) || (r =? 62) || (r =? 38) then
    ("\u00" +:+ char1 (hex_digit (r / 16)) +:+ char1 (hex_digit (r mod 16)))%string
  else if (r =? RuneError) && bool_decide (str_len s = 1%nat) then "\ufffd"
  else if r =? 8232 then "\u2028"
  else if r =? 8233 then "\u2029"
  else s.
Definition json_string (s : string) : string :=
  quoted (str_concat (json_rune <$> segments s)).
Definition json_ints (l : list Z) : string := ("[" +:+ Join (pretty <$> l) "," +:+ "]")%string.
Definition json_strings (l : list string) : string :=
  ("[" +:+ Join (json_string <$> l) "," +:+ "]")%string.

Section python_values.
Context {R : Type}.

(** [v.(int)] for every element: a value of another type panics. *)
Definition as_int (v : value R) : result Z := match v with VInt z => Ok z | _ => Panic end.

Definition AttrToPythonValue (attr : value R) : result string :=
  match attr with
  | VBool b => Ok (if b then "True" else "False")
  | VInt z => Ok (pretty z)
  | VFloat f | VFloat64 f => Ok (FormatFloat6 f)
  | VInts None => Ok "None"
  | VInts (Some l) => Ok (json_ints l)
  | VStrings None => Ok "None"
  | VStrings (Some []) => Ok "[]"
  | VStrings (Some l) => Ok (json_strings l)
  | VList [] => Ok "None"
  | VList (VInt z :: l) => zs ← mapR as_int l; Ok (json_ints (z :: zs))
  | VList _ => Ok "[]"
  | VString s => Ok (quoted s)
  | VNil | VColumn _ => Ok ""
  end.
End python_values.

(** ** Methods of the feature columns *)

Section columns.
Context {R : Type}.

(** [k.(FeatureColumn)] of a key that is not a [*NumericColumn] panics.  A string key
    gives a new description. *)
Definition key_desc (k : value R) : result (list (R + FieldDesc)) :=
  match k with
  | VString s => Ok [inr (newFieldDesc s Str (Some [1]))]
  | VColumn (NumericColumn fd) => Ok [inl fd]
  | VColumn _ => Panic
  | _ => Ok []
  end.

(** A description is an existing one ([inl]) or a new one ([inr]). *)
Notation descs := (result (list (R + FieldDesc))).
Definition CrossColumn_GetFieldDesc (keys : list (value R)) : descs :=
  l ← mapR key_desc keys; Ok (concat l).
Definition EmbeddingColumn_GetFieldDesc (rec : FeatureColumn R → descs)
    (cat : option (FeatureColumn R)) : descs :=
  match cat with None => Ok [] | Some c => rec c end.
Definition IndicatorColumn_GetFieldDesc (rec : FeatureColumn R → descs)
    (cat : option (FeatureColumn R)) : descs :=
  match cat with None => Ok [] | Some c => rec c end.
Definition WeightedCategoryColumn_GetFieldDesc (rec : FeatureColumn R → descs)
    (cat : option (FeatureColumn R)) : descs :=
  match cat with None => Ok [] | Some c => rec c end.

Fixpoint GetFieldDesc (c : FeatureColumn R) : descs :=
  match c with
  | NumericColumn fd | BucketColumn fd _ | CategoryIDColumn fd _ | CategoryHashColumn fd _
  | SeqCategoryIDColumn fd _ => Ok [inl fd]
  | CrossColumn keys _ => CrossColumn_GetFieldDesc keys
  | EmbeddingColumn cat _ _ _ _ => EmbeddingColumn_GetFieldDesc GetFieldDesc cat
  | IndicatorColumn cat _ => IndicatorColumn_GetFieldDesc GetFieldDesc cat
  | WeightedCategoryColumn cat _ => WeightedCategoryColumn_GetFieldDesc GetFieldDesc cat
  end.

(** [fc.(CategoryColumn)]: the structs that embed the interface have its methods too. *)
Definition is_CategoryColumn (c : FeatureColumn R) : bool :=
  match c with NumericColumn _ => false | _ => true end.

(** A method of a nil embedded interface panics. *)
Fixpoint NumClass (c : FeatureColumn R) : result Z :=
  match c with
  | NumericColumn _ => Panic
  | BucketColumn _ b => Ok (Z.of_nat (length b) + 1)
  | CrossColumn _ n | CategoryIDColumn _ n | CategoryHashColumn _ n | SeqCategoryIDColumn _ n => Ok n
  | EmbeddingColumn cat _ _ _ _ | IndicatorColumn cat _ | WeightedCategoryColumn cat _ =>
    match cat with Some c => NumClass c | None => Panic end
  end.

Variable deref : R → FieldDesc.

Definition no_apply (what : string) : error := Errorf what [].

Notation applied := (result (FeatureColumn R)).
Definition CrossColumn_ApplyTo (other : R) : applied :=
  Fail (no_apply "CrossColumn doesn't support the method ApplyTo").
(** The test is inverted in the source: a category column is refused. *)
Definition EmbeddingColumn_ApplyTo (rec : FeatureColumn R → applied) (other : R)
    (cat : option (FeatureColumn R)) (d : Z) (cb ini : string) : applied :=
  match cat with
  | None => Ok (EmbeddingColumn None d cb ini (Name (deref other)))
  | Some cat =>
    fc ← rec cat;
    if negb (is_CategoryColumn fc) then Ok (EmbeddingColumn None d cb ini (Name (deref other)))
    else Fail (no_apply "Embedding.ApplyTo should return CategoryColumn")
  end.
Definition IndicatorColumn_ApplyTo (rec : FeatureColumn R → applied) (other : R)
    (cat : option (FeatureColumn R)) : applied :=
  match cat with
  | None => Ok (IndicatorColumn None (Name (deref other)))
  | Some cat =>
    fc ← rec cat;
    if is_CategoryColumn fc then Ok (IndicatorColumn (Some fc) (Name (deref other)))
    else Fail (no_apply "Indicator.ApplyTo should return CategoryColumn")
  end.
Definition WeightedCategoryColumn_ApplyTo (rec : FeatureColumn R → applied) (other : R)
    (cat : option (FeatureColumn R)) : applied :=
  match cat with
  | None => Ok (WeightedCategoryColumn None (Name (deref other)))
  | Some cat =>
    fc ← rec cat;
    if is_CategoryColumn fc then Ok (WeightedCategoryColumn (Some fc) (Name (deref other)))
    else Fail (no_apply "WeightedCategoryColumn.ApplyTo should return CategoryColumn")
  end.

Fixpoint ApplyTo (other : R) (c : FeatureColumn R) : applied :=
  match c with
  | NumericColumn _ => Ok (NumericColumn other)
  | BucketColumn _ b => Ok (BucketColumn other b)
  | CrossColumn _ _ => CrossColumn_ApplyTo other
  | CategoryIDColumn _ n => Ok (CategoryIDColumn other n)
  | CategoryHashColumn _ n => Ok (CategoryHashColumn other n)
  | SeqCategoryIDColumn _ n => Ok (SeqCategoryIDColumn other n)
  | EmbeddingColumn cat d cb ini _ => EmbeddingColumn_ApplyTo (ApplyTo other) other cat d cb ini
  | IndicatorColumn cat _ => IndicatorColumn_ApplyTo (ApplyTo other) other cat
  | WeightedCategoryColumn cat _ => WeightedCategoryColumn_ApplyTo (ApplyTo other) other cat
  end.

(** The order in which [range] gives the keys of a vocabulary. *)
Variable range_keys : gmap string string → list string.

Definition upper (s : string) : string :=
  String.string_of_list_ascii
    ((λ c, of_byte (let b := byte c in if ascii_lower_letter b then b - 32 else b))
       <$> String.list_ascii_of_string s).

Definition FieldDesc_GenPythonCode (fd : FieldDesc) : result string :=
  let vocabList := match Vocabulary fd with Some v => range_keys v | None => [] end in
  shapeStr ← (match Shape fd with
              | None => Ok "[]"%string
              | Some s => AttrToPythonValue (R:=R) (VInts (Some s))
              end);
  vocabStr ← AttrToPythonValue (R:=R) (VStrings (Some vocabList));
  let dtype t := ("runtime.feature.field_desc.DataType." +:+ upper (DTypeToString t))%string in
  Ok ("runtime.feature.field_desc.FieldDesc(name=" +:+ quoted (Name fd)
      +:+ ", dtype=" +:+ dtype (DType fd)
      +:+ ", dtype_weight=" +:+ dtype (DTypeWeight fd)
      +:+ ", delimiter=" +:+ quoted (Delimiter fd)
      +:+ ", delimiter_kv=" +:+ quoted (DelimiterKV fd)
      +:+ ", format=" +:+ quoted ""
      +:+ ", shape=" +:+ shapeStr
      +:+ ", is_sparse=" +:+ (if IsSparse fd then "True" else "False")
      +:+ ", vocabulary=" +:+ vocabStr +:+ ")")%string.

Definition column_code (kind : string) (args : list string) : string :=
  ("runtime.feature.column." +:+ kind +:+ "(" +:+ Join args ", " +:+ ")")%string.

(** The methods [GenPythonCode]; a key of a CROSS that is neither a string nor a
    [*NumericColumn] is left out. *)
Definition key_code (k : value R) : result (list string) :=
  match k with
  | VString s => Ok [quoted s]
  | VColumn (NumericColumn fd) =>
    s ← FieldDesc_GenPythonCode (deref fd); Ok [column_code "NumericColumn" [s]]
  | _ => Ok []
  end.

Notation code := (result string).
Definition NumericColumn_GenPythonCode (fd : R) : code :=
  s ← FieldDesc_GenPythonCode (deref fd); Ok (column_code "NumericColumn" [s]).
Definition BucketColumn_GenPythonCode (source : R) (boundaries : list Z) : code :=
  s ← NumericColumn_GenPythonCode source;
  bs ← AttrToPythonValue (R:=R) (VInts (Some boundaries));
  Ok (column_code "BucketColumn" [s; bs]).
Definition CrossColumn_GenPythonCode (keys : list (value R)) (n : Z) : code :=
  ks ← mapR key_code keys;
  Ok (column_code "CrossColumn" [("[" +:+ Join (concat ks) "," +:+ "]")%string; pretty n]).
Definition CategoryIDColumn_GenPythonCode (fd : R) (n : Z) : code :=
  s ← FieldDesc_GenPythonCode (deref fd); Ok (column_code "CategoryIDColumn" [s; pretty n]).
Definition CategoryHashColumn_GenPythonCode (fd : R) (n : Z) : code :=
  s ← FieldDesc_GenPythonCode (deref fd); Ok (column_code "CategoryHashColumn" [s; pretty n]).
Definition SeqCategoryIDColumn_GenPythonCode (fd : R) (n : Z) : code :=
  s ← FieldDesc_GenPythonCode (deref fd); Ok (column_code "SeqCategoryIDColumn" [s; pretty n]).
Definition EmbeddingColumn_GenPythonCode (rec : FeatureColumn R → code)
    (cat : option (FeatureColumn R)) (d : Z) (cb ini name : string) : code :=
  s ← (match cat with Some c => rec c | None => Ok "None"%string end);
  Ok (column_code "EmbeddingColumn"
        ["category_column=" +:+ s; "dimension=" +:+ pretty d; "combiner=" +:+ quoted cb;
         "initializer=" +:+ quoted ini; "name=" +:+ quoted name]%string).
Definition IndicatorColumn_GenPythonCode (rec : FeatureColumn R → code)
    (cat : option (FeatureColumn R)) (name : string) : code :=
  s ← (match cat with Some c => rec c | None => Ok "None"%string end);
  Ok (column_code "IndicatorColumn" ["category_column=" +:+ s; "name=" +:+ quoted name]%string).
Definition WeightedCategoryColumn_GenPythonCode (rec : FeatureColumn R → code)
    (cat : option (FeatureColumn R)) (name : string) : code :=
  s ← (match cat with Some c => rec c | None => Ok "None"%string end);
  Ok (column_code "WeightedCategoryColumn" ["category_column=" +:+ s; "name=" +:+ quoted name]%string).

Fixpoint GenPythonCode (c : FeatureColumn R) : code :=
  match c with
  | NumericColumn fd => NumericColumn_GenPythonCode fd
  | BucketColumn fd b => BucketColumn_GenPythonCode fd b
  | CrossColumn keys n => CrossColumn_GenPythonCode keys n
  | CategoryIDColumn fd n => CategoryIDColumn_GenPythonCode fd n
  | CategoryHashColumn fd n => CategoryHashColumn_GenPythonCode fd n
  | SeqCategoryIDColumn fd n => SeqCategoryIDColumn_GenPythonCode fd n
  | EmbeddingColumn cat d cb ini name => EmbeddingColumn_GenPythonCode GenPythonCode cat d cb ini name
  | IndicatorColumn cat name => IndicatorColumn_GenPythonCode GenPythonCode cat name
  | WeightedCategoryColumn cat name => WeightedCategoryColumn_GenPythonCode GenPythonCode cat name
  end.
End columns.

(** ** Properties of ApplyTo *)

(** Induction on a column, with the hypothesis for the category column inside. *)
Section column_ind.
Context {R : Type} (P : FeatureColumn R → Prop).
Let Po (cat : option (FeatureColumn R)) : Prop := match cat with Some c => P c | None => True end.
Hypothesis HNumeric : ∀ fd, P (NumericColumn fd).
Hypothesis HBucket : ∀ fd b, P (BucketColumn fd b).
Hypothesis HCross : ∀ ks n, P (CrossColumn ks n).
Hypothesis HId : ∀ fd n, P (CategoryIDColumn fd n).
Hypothesis HHash : ∀ fd n, P (CategoryHashColumn fd n).
Hypothesis HSeq : ∀ fd n, P (SeqCategoryIDColumn fd n).
Hypothesis HEmb : ∀ cat d c i n, Po cat → P (EmbeddingColumn cat d c i n).
Hypothesis HInd : ∀ cat n, Po cat → P (IndicatorColumn cat n).
Hypothesis HWei : ∀ cat n, Po cat → P (WeightedCategoryColumn cat n).

Fixpoint column_ind (c : FeatureColumn R) : P c :=
  match c with
  | NumericColumn fd => HNumeric fd
  | BucketColumn fd b => HBucket fd b
  | CrossColumn ks n => HCross ks n
  | CategoryIDColumn fd n => HId fd n
  | CategoryHashColumn fd n => HHash fd n
  | SeqCategoryIDColumn fd n => HSeq fd n
  | EmbeddingColumn cat d cb i n =>
    HEmb cat d cb i n (match cat with Some c => column_ind c | None => I end)
  | IndicatorColumn cat n =>
    HInd cat n (match cat with Some c => column_ind c | None => I end)
  | WeightedCategoryColumn cat n =>
    HWei cat n (match cat with Some c => column_ind c | None => I end)
  end.
End column_ind.

(** Go's typing: the embedded column is a [CategoryColumn]. *)
Fixpoint well_typed {R} (c : FeatureColumn R) : bool :=
  match c with
  | EmbeddingColumn (Some c) _ _ _ _ | IndicatorColumn (Some c) _ | WeightedCategoryColumn (Some c) _ =>
    is_CategoryColumn c && well_typed c
  | _ => true
  end.

Lemma ApplyTo_kind {R} (deref : R → FieldDesc) other c c' :
  ApplyTo deref other c = Ok c' → is_CategoryColumn c' = is_CategoryColumn c.
Proof.
  destruct c as [| | | | | |[c|] d cb i n|[c|] n|[c|] n]; simpl; try (by intros [= <-]); try done;
    intros (fc & _ & H)%bind_Ok; destruct (is_CategoryColumn fc); simpl in H; first [done | by injection H as <-].
Qed.

(** [ApplyTo], which copies a column whose name is a pattern to a matching field, gives a
    column that reads that field and no other, and that has the same number of classes; an
    EMBEDDING or INDICATOR that has no category column yet stays without one. *)
Theorem ApplyTo_fields {R} (deref : R → FieldDesc) (other : R) (c c' : FeatureColumn R) :
  well_typed c = true → ApplyTo deref other c = Ok c' →
  NumClass c' = NumClass c ∧
  (GetFieldDesc c' = Ok [inl other] ∨ GetFieldDesc c' = Ok [] ∧ GetFieldDesc c = Ok []).
Proof.
  revert c'. induction c as
    [fd|fd b|ks n|fd n|fd n|fd n|[c|] d cb i n IH|[c|] n IH|[c|] n IH] using column_ind;
    intros c'; simpl in *; try (by intros _ [= <-]; auto); try done;
    intros [Hcat Hwt]%andb_true_iff (fc & Hfc & H)%bind_Ok;
    pose proof (ApplyTo_kind _ _ _ _ Hfc) as Hk; rewrite Hcat in Hk; rewrite Hk in H; [done| |];
    injection H as <-; destruct (IH _ Hwt Hfc) as [? [?|[??]]]; simpl; auto.
Qed.

Lemma ApplyTo_fields_witness :
  let c := WeightedCategoryColumn (Some (CategoryIDColumn (newFieldDesc "c.*" Int None) 7)) "w" in
  let o := newFieldDesc "c1" Int (Some [1]) in
  let c' := WeightedCategoryColumn (Some (CategoryIDColumn o 7)) "c1" in
  NumClass c' = NumClass c ∧
  (GetFieldDesc c' = Ok [inl o] ∨ GetFieldDesc c' = Ok [] ∧ GetFieldDesc c = Ok []).
Proof. intros c o c'. apply (ApplyTo_fields id o c c'); reflexivity. Defined.

(** The test in [EmbeddingColumn.ApplyTo] is inverted: where [IndicatorColumn.ApplyTo]
    copies the category column, [EmbeddingColumn.ApplyTo] fails with the error that is
    meant for a result that is no category column. *)
Theorem Embedding_ApplyTo_fails {R} (deref : R → FieldDesc) (other : R) (cat fc : FeatureColumn R)
    (d : Z) (cb i n : string) :
  is_CategoryColumn cat = true → ApplyTo deref other cat = Ok fc →
  ApplyTo deref other (EmbeddingColumn (Some cat) d cb i n)
    = Fail (no_apply "Embedding.ApplyTo should return CategoryColumn") ∧
  ApplyTo deref other (IndicatorColumn (Some cat) n)
    = Ok (IndicatorColumn (Some fc) (Name (deref other))).
Proof.
  intros Hc Hfc. apply ApplyTo_kind in Hfc as Hk. rewrite Hc in Hk.
  simpl. rewrite Hfc. ok_step. by rewrite Hk.
Qed.

Lemma Embedding_ApplyTo_fails_witness :
  let o := newFieldDesc "c1" Int (Some [1]) in
  let cat := CategoryHashColumn (newFieldDesc "c.*" Int None) 7 in
  ApplyTo id o (EmbeddingColumn (Some cat) 128 "sum" "" "")
    = Fail (no_apply "Embedding.ApplyTo should return CategoryColumn") ∧
  ApplyTo id o (IndicatorColumn (Some cat) "") = Ok (IndicatorColumn (Some (CategoryHashColumn o 7)) "c1").
Proof.
  intros o cat. apply (Embedding_ApplyTo_fails id o cat (CategoryHashColumn o 7)); reflexivity.
Defined.
