(* ===== verification/ColumnCode.v ===== *)
(** * Code for feature columns (go/codegen/codegen_feature_column.go)

    [GenerateFeatureColumnCode] prints a column as a call of the module [tf] or of a module for
    XGBoost, which has no columns for sequences, crosses and embeddings. *)

From S2P Require Import Prelude GoStrings FeatureColumn.

Local Open Scope Z_scope.

Definition isXGBoostModule (module : string) : bool := HasPrefix module "xgboost".

(** [json.Marshal] of a slice that may be nil. *)
Definition json_shape (l : option (list Z)) : string := from_option json_ints "null"%string l.
Definition desc_of (d : FieldDesc + FieldDesc) : FieldDesc := match d with inl d | inr d => d end.

Section code.
Context `{MapOrder} (module : string).

Definition toModuleDataType (dtype : DataType) : string :=
  match dtype with
  | Int => module +:+ ".dtypes.int64"
  | Float => module +:+ ".dtypes.float32"
  | Str => module +:+ ".dtypes.string"
  end.
Definition feature_code (name args : string) : string :=
  module +:+ ".feature_column." +:+ name +:+ "(" +:+ args +:+ ")".
Definition not_in_xgboost (what : string) : error := Errorf (what +:+ " is not supported in XGBoost models") [].
Definition unsupported_column : error := Errorf "unsupported feature column type %T on %v" [].

Definition numeric_code (fd : FieldDesc) : string :=
  feature_code "numeric_column"
    (quoted (Name fd) +:+ ", shape=" +:+ json_shape (Shape fd) +:+
     (if decide (module = "tf"%string) then ", dtype=" +:+ toModuleDataType (DType fd) else "")).

(** The product of the indices of the shape, not of its elements: the loop ranges over the
    indices. *)
Definition shape_size_of (fd : FieldDesc) : Z :=
  foldl (λ size s, wrap64 (size * Z.of_nat s)) 1 (seq 0 (length (default [] (Shape fd)))).

Fixpoint GenerateFeatureColumnCode (fc : FeatureColumn FieldDesc) : result string :=
  match fc with
  | NumericColumn fd => Ok (numeric_code fd)
  | BucketColumn source b =>
    Ok (feature_code "bucketized_column" (numeric_code source +:+ ", boundaries=" +:+ json_ints b))
  | CategoryIDColumn fd n =>
    match map fst (range_map (default ∅ (Vocabulary fd))) with
    | [] =>
      Ok (feature_code "categorical_column_with_identity"
            ("key=" +:+ quoted (Name fd) +:+ ", num_buckets=" +:+ pretty n))
    | vocab =>
      Ok (feature_code "categorical_column_with_vocabulary_list"
            ("key=" +:+ quoted (Name fd) +:+ ", vocabulary_list=[" +:+ Join (map quoted vocab) "," +:+ "]"))
    end
  | SeqCategoryIDColumn fd n =>
    if isXGBoostModule module then Fail (not_in_xgboost "SEQ_CATEGORY_ID") else
    Ok (feature_code "sequence_categorical_column_with_identity"
          ("key=" +:+ quoted (Name fd) +:+ ", num_buckets=" +:+ pretty n))
  | CategoryHashColumn fd n =>
    Ok (feature_code "categorical_column_with_hash_bucket"
          ("key=" +:+ quoted (Name fd) +:+ ", hash_bucket_size=" +:+ pretty n +:+
           ", dtype=" +:+ toModuleDataType (DType fd)))
  | WeightedCategoryColumn None _ => Fail unsupported_column
  | WeightedCategoryColumn (Some c) _ =>
    sourceCode ← GenerateFeatureColumnCode c;
    ds ← GetFieldDesc c;
    d ← index ds 0;
    Ok (feature_code "weighted_categorical_column"
          ("categorical_column=" +:+ sourceCode +:+ ", weight_feature_key=" +:+ quoted (Name (desc_of d) +:+ "_weight")))
  | CrossColumn keys n =>
    if isXGBoostModule module then Fail (not_in_xgboost "CROSS") else
    keysGenerated ← mapR (λ key,
      match key with
      | VColumn (NumericColumn fd) =>
        if 1 <? shape_size_of fd then Fail (Errorf "CROSS does not support shape not equal to 1" [])
        else Ok (quoted (Name fd))
      | VColumn c => GenerateFeatureColumnCode c
      | VString strKey => Ok (quoted strKey)
      | _ => Fail (Errorf "field in cross column is not a FeatureColumn or string type: %v" [])
      end) keys;
    Ok (feature_code "crossed_column"
          ("[" +:+ Join keysGenerated "," +:+ "], hash_bucket_size=" +:+ pretty n))
  | EmbeddingColumn cat d combiner _ _ =>
    if isXGBoostModule module then Fail (not_in_xgboost "EMBEDDING") else
    match cat with
    | None => Fail unsupported_column
    | Some c =>
      sourceCode ← GenerateFeatureColumnCode c;
      Ok (feature_code "embedding_column"
            (sourceCode +:+ ", dimension=" +:+ pretty d +:+ ", combiner=" +:+ quoted combiner))
    end
  | IndicatorColumn None _ => Fail unsupported_column
  | IndicatorColumn (Some c) _ =>
    sourceCode ← GenerateFeatureColumnCode c;
    Ok (feature_code "indicator_column" sourceCode)
  end.

(** ** The columns that XGBoost has *)

Fixpoint xgboost_column (fc : FeatureColumn FieldDesc) : bool :=
  match fc with
  | NumericColumn _ | BucketColumn _ _ | CategoryIDColumn _ _ | CategoryHashColumn _ _ => true
  | SeqCategoryIDColumn _ _ | CrossColumn _ _ | EmbeddingColumn _ _ _ _ _ => false
  | IndicatorColumn cat _ | WeightedCategoryColumn cat _ =>
    match cat with Some c => xgboost_column c | None => false end
  end.

Lemma xgboost_column_desc fc : xgboost_column fc = true → ∃ fd, GetFieldDesc fc = Ok [inl fd].
Proof.
  induction fc as [fd|fd b|ks n|fd n|fd n|fd n|[c|] d cb i n IH|[c|] n IH|[c|] n IH] using column_ind;
    cbn in *; try done; try (by eexists); try exact IH.
Qed.

(** For an XGBoost module a column has code exactly when no column for a sequence, a cross or
    an embedding is in it; otherwise there is an error and no panic. *)
Lemma xgboost_code fc : isXGBoostModule module = true →
  if xgboost_column fc then ∃ s, GenerateFeatureColumnCode fc = Ok s else ∃ e, GenerateFeatureColumnCode fc = Fail e.
Proof.
  intros Hx. induction fc as [fd|fd b|ks n|fd n|fd n|fd n|[c|] d cb i n IH|[c|] n IH|[c|] n IH] using column_ind;
    cbn [xgboost_column GenerateFeatureColumnCode]; rewrite ?Hx; try (by eexists).
  - destruct (map fst _); by eexists.
  - destruct (xgboost_column c); destruct IH as [s ->]; by eexists.
  - destruct (xgboost_column c) eqn:Hc; destruct IH as [s ->]; [|by eexists].
    apply xgboost_column_desc in Hc as [fd ->]. by eexists.
Qed.

(** The shape of a key of a cross is never refused. *)
Lemma shape_size_le fd : shape_size_of fd ≤ 1.
Proof.
  unfold shape_size_of. set (n := length _). clearbody n.
  destruct n as [|n]; [done|]. cbn [seq foldl]. change (wrap64 (1 * Z.of_nat 0)) with 0.
  assert (∀ l, foldl (λ size s, wrap64 (size * Z.of_nat s)) 0 l = 0) as Hz by (by intros l; induction l).
  by rewrite Hz.
Qed.
End code.
