(* ===== verification/Attribute.v ===== *)
(** * Attributes (go/attribute/attribute.go, checker.go)

    A [Dictionary] describes the attributes a model takes: their type, default value and
    checker.  The map that Go updates in place is returned; the functions that range over
    a map take the entries in the order of the iteration, which Go chooses. *)

From Stdlib Require Import SpecFloat.
From S2P Require Import Prelude GoStrings GoFloat FeatureColumn.

Local Open Scope Z_scope.

(** [reflect.Type]; [unknownType] is nil. *)
Inductive attr_type := boolType | intType | floatType | stringType | intListType.

Definition attr := value FieldDesc.

Record description := mkDescription {
  typ : option attr_type;
  defaultValue : attr;
  doc : string;
  checker : option (attr → string → result unit)
}.

Notation Dictionary := (gmap string description).

Definition attribute_error (name : string) (e : error) : error :=
  Errorf "attribute %s error: %s" (name :: err_format e :: err_args e).
Definition must_be (fmt name : string) : error := Errorf fmt [name].

(** [if checker != nil { if err := checker(v); err != nil {...} }; return nil]. *)
Definition run_checker {A} (checker : option (A → result unit)) (name : string) (v : A) : result unit :=
  match checker with
  | None => Ok tt
  | Some c => catch (c v) (λ e, Fail (attribute_error name e))
  end.

(** The default value is checked when the attribute is declared; [log.Panicf] panics. *)
Definition check_default (value : attr) (c : attr → string → result unit) (name : string) : result unit :=
  match value with VNil => Ok tt | _ => catch (c value name) (λ _, Panic) end.

Definition Int_checker (checker : option (Z → result unit)) (v : attr) (name : string) : result unit :=
  match v with
  | VInt z => run_checker checker name z
  | _ => Fail (must_be "attribute %s must be of type int, but got %T" name)
  end.
Definition Dict_Int (name : string) (value : attr) (doc : string) (checker : option (Z → result unit))
    (d : Dictionary) : result Dictionary :=
  _ ← check_default value (Int_checker checker) name;
  Ok (<[name := mkDescription (Some intType) value doc (Some (Int_checker checker))]> d).

(** An int is accepted and converted. *)
Definition Float_checker (checker : option (float32 → result unit)) (v : attr) (name : string)
    : result unit :=
  match v with
  | VFloat f => run_checker checker name f
  | VInt z => run_checker checker name (float32_of_Z z)
  | _ => Fail (must_be "attribute %s must be of type float, but got %T" name)
  end.
Definition Float_default (v : attr) : attr :=
  match v with VFloat f => VFloat f | VInt z => VFloat (float32_of_Z z) | _ => VNil end.
Definition Dict_Float (name : string) (value : attr) (doc : string)
    (checker : option (float32 → result unit)) (d : Dictionary) : result Dictionary :=
  _ ← check_default value (Float_checker checker) name;
  Ok (<[name := mkDescription (Some floatType) (Float_default value) doc (Some (Float_checker checker))]> d).

Definition Bool_checker (checker : option (bool → result unit)) (v : attr) (name : string) : result unit :=
  match v with
  | VBool b => run_checker checker name b
  | _ => Fail (must_be "attribute %s must be of type bool, but got %T" name)
  end.
Definition Dict_Bool (name : string) (value : attr) (doc : string) (checker : option (bool → result unit))
    (d : Dictionary) : result Dictionary :=
  _ ← check_default value (Bool_checker checker) name;
  Ok (<[name := mkDescription (Some boolType) value doc (Some (Bool_checker checker))]> d).

Definition String_checker (checker : option (string → result unit)) (v : attr) (name : string)
    : result unit :=
  match v with
  | VString s => run_checker checker name s
  | _ => Fail (must_be "attribute %s must be of type string, but got %T" name)
  end.
Definition Dict_String (name : string) (value : attr) (doc : string)
    (checker : option (string → result unit)) (d : Dictionary) : result Dictionary :=
  _ ← check_default value (String_checker checker) name;
  Ok (<[name := mkDescription (Some stringType) value doc (Some (String_checker checker))]> d).

Definition IntList_checker (checker : option (option (list Z) → result unit)) (v : attr) (name : string)
    : result unit :=
  match v with
  | VInts l => run_checker checker name l
  | _ => Fail (must_be "attribute %s must be of type []int, but got %T" name)
  end.
Definition Dict_IntList (name : string) (value : attr) (doc : string)
    (checker : option (option (list Z) → result unit)) (d : Dictionary) : result Dictionary :=
  _ ← check_default value (IntList_checker checker) name;
  Ok (<[name := mkDescription (Some intListType) value doc (Some (IntList_checker checker))]> d).

Definition Unknown_checker (checker : attr → result unit) (v : attr) (name : string) : result unit :=
  catch (checker v) (λ e, Fail (attribute_error name e)).
Definition Dict_Unknown (name : string) (value : attr) (doc : string)
    (checker : option (attr → result unit)) (d : Dictionary) : result Dictionary :=
  let c := Unknown_checker <$> checker in
  _ ← (match c with Some c => check_default value c name | None => Ok tt end);
  Ok (<[name := mkDescription None value doc c]> d).

Notation Attrs := (gmap string attr).

(** One round of the loop of [ExportDefaults]. *)
Definition export_default (attrs : Attrs) (kv : string * description) : Attrs :=
  let '(k, v) := kv in
  match typ v, defaultValue v, attrs !! k with
  | None, _, _ | _, VNil, _ | _, _, Some _ => attrs
  | Some _, default, None => <[k := default]> attrs
  end.
Definition ExportDefaults (order : list (string * description)) (attrs : Attrs) : Attrs :=
  foldl export_default attrs order.

Definition unsupported (k : string) : error := Errorf "unsupported attribute %v" [k].

Definition find_description (d : Dictionary) (k : string) : result description :=
  match d !! k with
  | Some desc => Ok desc
  | None =>
    match Split k "." with
    | [p; _] => or_fail (d !! (p +:+ ".*")%string) (unsupported k)
    | _ => Fail (unsupported k)
    end
  end.
Definition validate_entry (d : Dictionary) (kv : string * attr) : result unit :=
  let '(k, v) := kv in
  desc ← find_description d k;
  match v, checker desc with
  | VNil, _ | _, None => Ok tt
  | _, Some c => c v k
  end.
Definition Validate (d : Dictionary) (order : list (string * attr)) : result unit :=
  foldM (λ _ kv, validate_entry d kv) tt order.

Definition type_name (t : option attr_type) : string :=
  match t with
  | Some boolType => "bool" | Some intType => "int" | Some floatType => "float32"
  | Some stringType => "string" | Some intListType => "[]int" | None => "unknown"
  end.

Definition nl : string := char1 "010".
Definition cell (s : string) : string := (nl +:+ char1 "009" +:+ "<td>" +:+ s +:+ "</td>")%string.
Definition table_row (cells : list string) : string :=
  ("<tr>" +:+ str_concat (cell <$> cells) +:+ nl +:+ "</tr>")%string.
#[export] Instance string_le_dec (s t : string) : Decision (String.leb s t = true).
Proof. apply _. Defined.
(** [sort.Strings]: bytewise. *)
Definition sorted_keys {A} (m : gmap string A) : list string :=
  merge_sort (λ s t, String.leb s t = true) (map_to_list m).*1.
Definition GenerateTableInHTML (d : Dictionary) : string :=
  Join (["<table>"%string; table_row ["Name"; "Type"; "Description"]%string]
        ++ omap (λ k, desc ← d !! k;
                 Some (table_row [k; type_name (typ desc); ReplaceAll (doc desc) nl "<br>"]))
             (sorted_keys d)
        ++ ["</table>"%string]) nl.

(** [Update]: every key of the other dictionary is written. *)
Definition Update (d other : Dictionary) : Dictionary := other ∪ d.

Section model_definitions.
Context `{UnicodeTables}.
(** [PremadeModelParamsDocs], which a script generates. *)
Variable PremadeModelParamsDocs : gmap string (gmap string string).

Definition only_lower (s : string) : string :=
  String.string_of_list_ascii
    (List.filter (λ c, ascii_lower_letter (byte c)) (String.list_ascii_of_string s)).

Definition premade_description (isXGBoostModel : bool) (doc : string) : description :=
  let unknown := mkDescription None VNil doc None in
  if negb isXGBoostModel then unknown
  else match SplitN2 (TrimSpace doc) " " with
  | [t; rest] =>
    let typed t := mkDescription (Some t) VNil rest None in
    let maybeType := ToLower (only_lower t) in
    if decide (maybeType = "float"%string) then typed floatType
    else if decide (maybeType = "int"%string) then typed intType
    else if decide (maybeType = "string"%string) then typed stringType
    else if decide (maybeType = "boolean"%string) then typed boolType
    else unknown
  | _ => unknown
  end.

Definition NewDictionaryFromModelDefinition (estimator prefix : string) : Dictionary :=
  let isXGBoostModel := HasPrefix estimator "xgboost" in
  list_to_map ((λ pd, ((prefix +:+ pd.1)%string, premade_description isXGBoostModel pd.2))
    <$> map_to_list (default ∅ (PremadeModelParamsDocs !! estimator))).

Definition removeUnnecessaryParams : gmap string (gmap string string) :=
  (λ v, delete "feature_columns"%string
          (delete "dnn_feature_columns"%string (delete "linear_feature_columns"%string v)))
    <$> PremadeModelParamsDocs.
End model_definitions.

(** ** Range checkers (checker.go) *)

Definition equalSign (b : bool) : string := if b then "=" else "".
Definition IntLowerBoundChecker (lower : Z) (includeLower : bool) (i : Z) : result unit :=
  if (lower <? i) || (includeLower && (i =? lower)) then Ok tt
  else Fail (Errorf "range check %v <%v %v failed" [pretty lower; equalSign includeLower; pretty i]).
Definition IntUpperBoundChecker (upper : Z) (includeUpper : bool) (i : Z) : result unit :=
  if (i <? upper) || (includeUpper && (i =? upper)) then Ok tt
  else Fail (Errorf "range check %v >%v %v failed" [pretty upper; equalSign includeUpper; pretty i]).
Definition IntRangeChecker (lower upper : Z) (includeLower includeUpper : bool) (i : Z) : result unit :=
  _ ← IntLowerBoundChecker lower includeLower i;
  IntUpperBoundChecker upper includeUpper i.

Definition Float32LowerBoundChecker (lower : float32) (includeLower : bool) (f : float32) : result unit :=
  if (negb includeLower && f32_lt lower f) || (includeLower && f32_le lower f) then Ok tt
  else Fail (Errorf "range check %v <%v %v failed" [equalSign includeLower]).
Definition Float32UpperBoundChecker (upper : float32) (includeUpper : bool) (f : float32) : result unit :=
  if (negb includeUpper && f32_lt f upper) || (includeUpper && f32_le f upper) then Ok tt
  else Fail (Errorf "range check %v >%v %v failed" [equalSign includeUpper]).
Definition Float32RangeChecker (lower upper : float32) (includeLower includeUpper : bool) (f : float32)
    : result unit :=
  _ ← Float32LowerBoundChecker lower includeLower f;
  Float32UpperBoundChecker upper includeUpper f.

Definition expected_in (i : string) : error := Errorf "expected value in %v, actual: %v" [i].
Definition IntChoicesChecker (choices : list Z) (i : Z) : result unit :=
  if decide (i ∈ choices) then Ok tt else Fail (expected_in (pretty i)).
Definition StringChoicesChecker (choices : list string) (s : string) : result unit :=
  if decide (s ∈ choices) then Ok tt else Fail (expected_in s).

(** ** Dictionaries that are built by the operations *)

(** Every exported default passes its checker, under any name. *)
Definition default_ok (desc : description) : Prop :=
  typ desc ≠ None → defaultValue desc ≠ VNil →
  ∀ c, checker desc = Some c → ∀ n, c (defaultValue desc) n = Ok tt.
Definition dict_ok (d : Dictionary) : Prop := ∀ k desc, d !! k = Some desc → default_ok desc.

Inductive declared `{UnicodeTables} : Dictionary → Prop :=
  | declared_empty : declared ∅
  | declared_premade docs estimator prefix :
      declared (NewDictionaryFromModelDefinition docs estimator prefix)
  | declared_int n v dc c d d' : declared d → Dict_Int n v dc c d = Ok d' → declared d'
  | declared_float n v dc c d d' : declared d → Dict_Float n v dc c d = Ok d' → declared d'
  | declared_bool n v dc c d d' : declared d → Dict_Bool n v dc c d = Ok d' → declared d'
  | declared_string n v dc c d d' : declared d → Dict_String n v dc c d = Ok d' → declared d'
  | declared_intlist n v dc c d d' : declared d → Dict_IntList n v dc c d = Ok d' → declared d'
  | declared_unknown n v dc c d d' : declared d → Dict_Unknown n v dc c d = Ok d' → declared d'
  | declared_update d d' : declared d → declared d' → declared (Update d d').

Lemma run_checker_name {A} (c : option (A → result unit)) n n' v :
  run_checker c n v = Ok tt → run_checker c n' v = Ok tt.
Proof. unfold run_checker. destruct c as [c|]; [|done]. by destruct (c v). Qed.

Lemma check_default_Ok v c name u :
  check_default v c name = Ok u → v = VNil ∨ c v name = Ok tt.
Proof.
  unfold check_default. destruct v; [by left|..]; right; destruct (c _ name) as [[]| | |]; simpl in *; done.
Qed.

Lemma dict_ok_insert k desc d : default_ok desc → dict_ok d → dict_ok (<[k := desc]> d).
Proof.
  intros Hd Hdict k' desc'. rewrite lookup_insert_Some. intros [[_ <-]|[_ Hk]]; [done|by eapply Hdict].
Qed.

Lemma declared_ok `{UnicodeTables} d : declared d → dict_ok d.
Proof.
  induction 1 as [|docs est prefix|n v dc c d d' _ IH Hd|n v dc c d d' _ IH Hd|n v dc c d d' _ IH Hd
    |n v dc c d d' _ IH Hd|n v dc c d d' _ IH Hd|n v dc c d d' _ IH Hd|d d' _ IH1 _ IH2].
  - intros k desc. by rewrite lookup_empty.
  - intros k desc Hk. apply elem_of_list_to_map_2 in Hk.
    apply list_elem_of_fmap in Hk as ([p dc] & [= _ ->] & _).
    unfold premade_description. repeat case_match; by intros ? ? c [=].
  - apply bind_Ok in Hd as (u & Hc%check_default_Ok & [= <-]). apply dict_ok_insert; [|done].
    intros _ Hne c' [= <-] n'. destruct Hc as [?|Hc]; [done|]. simpl in *.
    destruct v; try done. by eapply run_checker_name.
  - apply bind_Ok in Hd as (u & Hc%check_default_Ok & [= <-]). apply dict_ok_insert; [|done].
    intros _ Hne c' [= <-] n'. simpl in Hne. destruct Hc as [->|Hc]; [done|]. simpl in *.
    destruct v; try done; simpl in *; by eapply run_checker_name.
  - apply bind_Ok in Hd as (u & Hc%check_default_Ok & [= <-]). apply dict_ok_insert; [|done].
    intros _ Hne c' [= <-] n'. destruct Hc as [?|Hc]; [done|]. simpl in *.
    destruct v; try done. by eapply run_checker_name.
  - apply bind_Ok in Hd as (u & Hc%check_default_Ok & [= <-]). apply dict_ok_insert; [|done].
    intros _ Hne c' [= <-] n'. destruct Hc as [?|Hc]; [done|]. simpl in *.
    destruct v; try done. by eapply run_checker_name.
  - apply bind_Ok in Hd as (u & Hc%check_default_Ok & [= <-]). apply dict_ok_insert; [|done].
    intros _ Hne c' [= <-] n'. destruct Hc as [?|Hc]; [done|]. simpl in *.
    destruct v; try done. by eapply run_checker_name.
  - apply bind_Ok in Hd as (u & _ & [= <-]). apply dict_ok_insert; [|done]. by intros [].
  - intros k desc. unfold Update. rewrite lookup_union_Some_raw.
    intros [Hk|[_ Hk]]; [by eapply IH2|by eapply IH1].
Qed.

(** ** Exporting the defaults *)

Definition exported (desc : description) : option attr :=
  match typ desc, defaultValue desc with
  | None, _ | _, VNil => None
  | _, v => Some v
  end.

Lemma export_default_lookup attrs k desc k' :
  export_default attrs (k, desc) !! k'
  = match attrs !! k' with
    | Some v => Some v
    | None => if decide (k = k') then exported desc else None
    end.
Proof.
  unfold export_default, exported.
  destruct (typ desc), (defaultValue desc), (attrs !! k) eqn:Hk; case_decide; subst;
    rewrite ?Hk, ?lookup_insert_eq, ?lookup_insert_ne by done; try done; by destruct (attrs !! k').
Qed.

#[local] Arguments export_default : simpl never.

Lemma ExportDefaults_lookup_list order attrs k :
  NoDup order.*1 →
  ExportDefaults order attrs !! k
  = match attrs !! k with
    | Some v => Some v
    | None => (list_to_map order : gmap string description) !! k ≫= exported
    end.
Proof.
  unfold ExportDefaults. revert attrs. induction order as [|[k0 desc] order IH]; intros attrs; simpl.
  - rewrite lookup_empty. by destruct (attrs !! k).
  - intros [Hnot Hnd]%NoDup_cons. rewrite IH, export_default_lookup by done.
    destruct (attrs !! k); [done|]. case_decide as Hk.
    + subst. rewrite lookup_insert_eq. simpl. destruct (exported desc); [done|].
      by rewrite (not_elem_of_list_to_map_1 order).
    + by rewrite lookup_insert_ne.
Qed.

(** Whatever the order of the iteration, [ExportDefaults] keeps every attribute that is
    given and adds exactly the defaults, other than nil, of the typed descriptions. *)
Theorem ExportDefaults_lookup (d : Dictionary) (order : list (string * description)) (attrs : Attrs)
    (k : string) :
  order ≡ₚ map_to_list d →
  ExportDefaults order attrs !! k
  = match attrs !! k with Some v => Some v | None => d !! k ≫= exported end.
Proof.
  intros Hp.
  assert (NoDup order.*1) as Hnd by (rewrite Hp; apply NoDup_fst_map_to_list).
  rewrite ExportDefaults_lookup_list by done.
  by rewrite (list_to_map_proper order (map_to_list d)), list_to_map_to_list.
Qed.

Definition demo_dictionary : Dictionary :=
  {[ "train.epoch"%string := mkDescription (Some intType) (VInt 1) ""
       (Some (Int_checker (Some (IntLowerBoundChecker 1 true))));
     "model.*"%string := mkDescription None (VInt 5) "" None ]}.

Lemma ExportDefaults_lookup_witness :
  ExportDefaults (reverse (map_to_list demo_dictionary)) ∅ !! "train.epoch"%string = Some (VInt 1).
Proof.
  rewrite (ExportDefaults_lookup demo_dictionary _ ∅ "train.epoch"); [reflexivity|].
  apply reverse_Permutation.
Defined.

Lemma Validate_Ok d order :
  Validate d order = Ok tt ↔ ∀ kv, kv ∈ order → validate_entry d kv = Ok tt.
Proof.
  unfold Validate. induction order as [|kv order IH]; simpl.
  - split; [intros _ kv Hkv; by apply not_elem_of_nil in Hkv|done].
  - rewrite bind_Ok. split.
    + intros ([] & Hkv & Ho) kv' [->|Hin]%elem_of_cons; [done|]. by apply IH.
    + intros Hall. exists tt. split; [apply Hall; set_solver|]. apply IH. set_solver.
Qed.

Lemma validate_entry_default d k desc v :
  dict_ok d → d !! k = Some desc → exported desc = Some v → validate_entry d (k, v) = Ok tt.
Proof.
  intros Hok Hk Hv. unfold validate_entry, find_description. rewrite Hk. ok_step.
  specialize (Hok _ _ Hk). unfold default_ok, exported in *.
  destruct (typ desc); [|done]. destruct (checker desc) as [c|]; [|by destruct v].
  destruct (defaultValue desc); try done; injection Hv as <-; by apply Hok.
Qed.

(** Exporting the defaults of a dictionary that the operations of the package built
    keeps attributes valid: if the given attributes pass [Validate], they pass it together
    with the defaults, in every order of the three iterations. *)
Theorem ExportDefaults_valid `{UnicodeTables} (d : Dictionary) (attrs : Attrs)
    (od : list (string * description)) (oa oe : list (string * attr)) :
  declared d → od ≡ₚ map_to_list d → oa ≡ₚ map_to_list attrs →
  oe ≡ₚ map_to_list (ExportDefaults od attrs) →
  Validate d oa = Ok tt → Validate d oe = Ok tt.
Proof.
  intros Hd Hod Hoa Hoe Hv. rewrite Validate_Ok in *. intros [k v] Hin.
  rewrite Hoe, elem_of_map_to_list in Hin.
  assert (NoDup od.*1) as Hnd by (rewrite Hod; apply NoDup_fst_map_to_list).
  rewrite ExportDefaults_lookup_list in Hin by done.
  destruct (attrs !! k) as [v'|] eqn:Hk.
  - injection Hin as ->. apply Hv. rewrite Hoa. by apply elem_of_map_to_list.
  - rewrite (list_to_map_proper od (map_to_list d)), list_to_map_to_list in Hin by done.
    apply bind_Some in Hin as (desc & Hdesc & Hex).
    by eapply validate_entry_default; [apply declared_ok|..].
Qed.

Lemma ExportDefaults_valid_witness :
  Validate demo_dictionary
    (map_to_list (ExportDefaults (map_to_list demo_dictionary) {[ "model.x"%string := VBool true ]}))
  = Ok tt.
Proof.
  apply (ExportDefaults_valid demo_dictionary {[ "model.x"%string := VBool true ]}
           (map_to_list demo_dictionary) (map_to_list {[ "model.x"%string := VBool true ]}));
    [|reflexivity..].
  eapply (declared_int "train.epoch" (VInt 1) "" (Some (IntLowerBoundChecker 1 true))
            {[ "model.*"%string := mkDescription None (VInt 5) "" None ]}); [|reflexivity].
  eapply (declared_unknown "model.*" (VInt 5) "" None ∅); [constructor|reflexivity].
Defined.

(** The types that [NewDictionaryFromModelDefinition] reads off the XGBoost parameter
    documents are not checked: its descriptions have no checker, so [Validate] accepts
    any value, of whatever type, under every name of the dictionary. *)
Theorem premade_not_type_checked `{UnicodeTables} (docs : gmap string (gmap string string))
    (estimator prefix k : string) (desc : description) (v : attr) :
  NewDictionaryFromModelDefinition docs estimator prefix !! k = Some desc →
  Validate (NewDictionaryFromModelDefinition docs estimator prefix) [(k, v)] = Ok tt.
Proof.
  intros Hk. apply Validate_Ok. intros kv Hkv%list_elem_of_singleton. subst.
  unfold validate_entry, find_description. rewrite Hk. ok_step.
  apply elem_of_list_to_map_2 in Hk. apply list_elem_of_fmap in Hk as ([p dc] & [= _ ->] & _).
  assert (checker (premade_description (HasPrefix estimator "xgboost") dc) = None) as ->.
  { unfold premade_description. by repeat case_match. }
  by destruct v.
Qed.

Lemma premade_not_type_checked_witness :
  let docs := {[ "xgboost.gbtree"%string := {[ "max_depth"%string := "int Maximum tree depth"%string ]} ]} in
  Validate (NewDictionaryFromModelDefinition docs "xgboost.gbtree" "") [("max_depth"%string, VString "deep")]
  = Ok tt.
Proof.
  intros docs. apply (premade_not_type_checked docs "xgboost.gbtree" "" "max_depth"
    (mkDescription (Some intType) VNil "Maximum tree depth" None)).
  vm_compute. reflexivity.
Defined.
