(* ===== verification/Verifier.v ===== *)
(** * Verifying SELECT statements (go/verifier/verifier.go)

    The database is the parameter [DB]: its driver's name and what a query gives.  The
    regular expression of [FetchSamples] is written out as [limit_at]. *)

From S2P Require Import Prelude GoStrings Lexer Syntax.

Local Open Scope Z_scope.

(** The type of the variable a cell is scanned into ([NewRowValuesToScan] in derivation.go);
    [ToScanType] is [reflect.New(ct.ScanType())]. *)
Inductive scan_dest :=
  | ToString | ToNullString | ToInt32 | ToNullInt32 | ToInt64 | ToNullInt64
  | ToFloat32 | ToFloat64 | ToNullFloat64 | ToScanType.
#[export] Instance scan_dest_eq_dec : EqDecision scan_dest.
Proof. solve_decision. Defined.

(** [sql.ColumnType] and [sql.Rows]; [Err_after n] is what [Err] returns after [n] calls of
    [Next].  A row is what [Scan] gives for the destinations: the texts of the cells, or an
    error, as for a NULL that does not fit. *)
Record ColumnType := mkColumnType { ct_Name : string; DatabaseTypeName : string }.
Notation row := (list scan_dest → result (list string)).
Record Rows := mkRows {
  ColumnTypes : result (list ColumnType);
  row_data : list row;
  Err_after : nat → option error
}.
Record DB := mkDB { DriverName : string; Query : string → result Rows }.

(** ** Bounding the number of samples *)

Fixpoint span (P : ascii → bool) (s : string) : string * string :=
  match s with
  | String c s' => if P c then let '(u, v) := span P s' in (String c u, v) else ("", s)
  | EmptyString => ("", "")
  end.

(** The class [\s] of the package regexp. *)
Definition re_space (c : ascii) : bool :=
  let b := byte c in (b =? 9) || (b =? 10) || (b =? 12) || (b =? 13) || (b =? 32).
Definition re_digit (c : ascii) : bool := ascii_digit (byte c).
Definition fold_eq (c u : ascii) : bool :=
  (byte c =? byte u) || (ascii_lower_letter (byte c) && (byte c - 32 =? byte u)).
Fixpoint HasPrefixFold (s pre : string) : bool :=
  match pre, s with
  | EmptyString, _ => true
  | String p pre, String c s => fold_eq c p && HasPrefixFold s pre
  | _, EmptyString => false
  end.

(** A match of [(?i)LIMIT\s+[0-9]+] at the beginning: the digits and what follows. *)
Definition limit_at (s : string) : option (string * string) :=
  if HasPrefixFold s "LIMIT" then
    let '(sp, r) := span re_space (str_drop 5 s) in
    let '(ds, rest) := span re_digit r in
    if decide (sp = "" ∨ ds = "")%string then None else Some (ds, rest)
  else None.

(** [limitNum, _ := strconv.Atoi(digits)]: out of range it is the largest int. *)
Definition limit_num (ds : string) : Z :=
  match unsigned_value ds with Some v => v `min` max_int64 | None => 0 end.

(** [re.ReplaceAllStringFunc], with the numbers of the matches. *)
Fixpoint replace_limits (fuel : nat) (n : Z) (s : string) : string :=
  match fuel, s with
  | O, _ | _, EmptyString => ""
  | S fuel, String c s' =>
    match limit_at s with
    | Some (ds, rest) =>
      ("LIMIT " +:+ pretty (limit_num ds `min` n) +:+ replace_limits fuel n rest)%string
    | None => String c (replace_limits fuel n s')
    end
  end.
Fixpoint limits (fuel : nat) (s : string) : list Z :=
  match fuel, s with
  | O, _ | _, EmptyString => []
  | S fuel, String c s' =>
    match limit_at s with
    | Some (ds, rest) => limit_num ds :: limits fuel rest
    | None => limits fuel s'
    end
  end.

Definition limited_query (query : string) (n : Z) : string :=
  match limits (str_len query) query with
  | [] => (query +:+ " LIMIT " +:+ pretty n)%string
  | _ => replace_limits (str_len query) n query
  end.

Definition FetchSamples (db : DB) (query : string) (n : Z) : result Rows :=
  if n =? 0 then Fail (Errorf "cannot fetch 0 sample" [])
  else Query db (if 0 <? n then limited_query query n else query).

(** ** Field types *)

Notation FieldTypes := (gmap string string).

Section verifier.
Context `{UnicodeTables} `{MapOrder}.

Definition Decomp (ident : string) : string * string :=
  let ident := ToLower ident in
  match LastIndexByte ident "." with
  | None => ("", ident)
  | Some idx => (str_take idx ident, str_drop (idx + 1) ident)
  end.

(** [rows.Next()], [rows.Err()] and [rows.ColumnTypes()].  When [Next] has given a row and
    [Err] is not nil, the source returns [(nil, err)] with the [err] of the line before,
    which is nil. *)
Definition first_row (q : string) (rows : Rows) : result (option (list ColumnType)) :=
  match row_data rows with
  | [] => Fail (Errorf "query %s gives 0 row" [q])
  | _ =>
    match Err_after rows 1 with
    | Some _ => Ok None
    | None => cts ← ColumnTypes rows; Ok (Some cts)
    end
  end.

Definition add_field (ft : FieldTypes) (ct : ColumnType) : result FieldTypes :=
  let fld := (Decomp (ct_Name ct)).2 in
  match ft !! fld with
  | Some _ => Fail (Errorf "duplicated field name %s" [fld])
  | None => Ok (<[fld := DatabaseTypeName ct]> ft)
  end.

Definition Verify (q : string) (db : DB) : result FieldTypes :=
  rows ← FetchSamples db q 1;
  r ← first_row q rows;
  match r with
  | None => Ok ∅ (* a nil map *)
  | Some cts => foldM add_field ∅ cts
  end.

Definition check_field (label : string) (predFields : FieldTypes) (nt : string * string) : result unit :=
  let '(n, t) := nt in
  if decide (n = label) then Ok tt
  else match predFields !! n with
  | None => Fail (Errorf "the predict statement doesn't contain column %s" [n])
  | Some pt =>
    if decide (t = pt) then Ok tt
    else Fail (Errorf "field %s type dismatch %v(predict) vs %v(train)" [n; pt; t])
  end.

Definition VerifyColumnNameAndType (trainParsed predParsed : SQLFlowSelectStmt) (db : DB)
    : result unit :=
  trainFields ← Verify (origin trainParsed) db;
  predFields ← Verify (origin predParsed) db;
  foldM (λ _ nt, check_field (Label (train trainParsed)) predFields nt) tt (range_map trainFields).

Definition GetSQLFieldType (slct : string) (db : DB) : result (list string * list string) :=
  rows ← FetchSamples db slct 1;
  r ← first_row slct rows;
  match r with
  | None => Ok ([], [])
  | Some cts => Ok (map (λ ct, (Decomp (ct_Name ct)).2) cts, map DatabaseTypeName cts)
  end.
End verifier.

(** ** Properties *)

(** A loop of checks without a result: it ends well iff every check does. *)
Lemma foldM_check {A} (f : A → result unit) l :
  foldM (λ _ x, f x) tt l = Ok tt ↔ ∀ x, x ∈ l → f x = Ok tt.
Proof.
  induction l as [|x l IH]; simpl.
  - split; [intros _ x Hx; by apply not_elem_of_nil in Hx|done].
  - rewrite bind_Ok. split.
    + intros ([] & Hx & Hl) y [->|Hy]%elem_of_cons; [done|]. by apply IH.
    + intros Hall. exists tt. split; [apply Hall; set_solver|]. apply IH. set_solver.
Qed.

Lemma check_field_Ok label pf n t :
  check_field label pf (n, t) = Ok tt ↔ (n ≠ label → pf !! n = Some t).
Proof.
  unfold check_field. case_decide as Hl; [by split|].
  destruct (pf !! n) as [pt|]; [|naive_solver]. case_decide; naive_solver.
Qed.

Lemma add_field_names `{UnicodeTables} cts ft ft' :
  foldM add_field ft cts = Ok ft' →
  ∀ f t, ft' !! f = Some t ↔
    ft !! f = Some t ∨ ∃ ct, ct ∈ cts ∧ f = (Decomp (ct_Name ct)).2 ∧ t = DatabaseTypeName ct.
Proof.
  revert ft. induction cts as [|ct cts IH]; intros ft; simpl.
  - intros [= <-] f t. split; [by left|]. intros [?|(ct & Hct & _)]; [done|].
    by apply not_elem_of_nil in Hct.
  - intros (ft1 & H1 & H2)%bind_Ok f t. rewrite (IH _ H2).
    unfold add_field in H1. destruct (ft !! _) eqn:Hf; [done|]. injection H1 as <-.
    rewrite lookup_insert_Some. split.
    + intros [[[<- <-]|[_ ?]]|(ct' & ? & ? & ?)]; [right; exists ct; set_solver|by left|].
      right. exists ct'. set_solver.
    + intros [?|(ct' & [->|Hct]%elem_of_cons & -> & ->)].
      * left. right. split; [congruence|done].
      * left. by left.
      * right. by exists ct'.
Qed.

(** The fields that [Verify] returns are those of the result's columns, under the part
    of the lower-cased name behind the last dot, with the column's type. *)
Theorem Verify_fields `{UnicodeTables} (q : string) (db : DB) (rows : Rows) (cts : list ColumnType)
    (ft : FieldTypes) :
  FetchSamples db q 1 = Ok rows → ColumnTypes rows = Ok cts → Err_after rows 1 = None →
  Verify q db = Ok ft →
  row_data rows ≠ [] ∧
  ∀ f t, ft !! f = Some t ↔ ∃ ct, ct ∈ cts ∧ f = (Decomp (ct_Name ct)).2 ∧ t = DatabaseTypeName ct.
Proof.
  intros Hr Hcts Herr. unfold Verify, first_row. rewrite Hr. ok_step.
  destruct (row_data rows) eqn:Hd; [done|]. rewrite Herr, Hcts. ok_step. intros Hf.
  split; [done|]. intros f t. rewrite (add_field_names _ _ _ Hf), lookup_empty. naive_solver.
Qed.

Definition demo_rows : Rows :=
  mkRows (Ok [mkColumnType "T.A" "INT"; mkColumnType "b" "TEXT"]) [λ _, Ok ["1"; "x"]%string] (λ _, None).
Definition demo_db : DB := mkDB "mysql" (λ _, Ok demo_rows).

Lemma Verify_fields_witness :
  let ft := {[ "a" := "INT"; "b" := "TEXT" ]}%string : FieldTypes in
  row_data demo_rows ≠ [] ∧
  ∀ f t, ft !! f = Some t ↔
    ∃ ct, ct ∈ [mkColumnType "T.A" "INT"; mkColumnType "b" "TEXT"] ∧ f = (Decomp (ct_Name ct)).2
      ∧ t = DatabaseTypeName ct.
Proof.
  intros ft. apply (Verify_fields "SELECT * FROM t" demo_db demo_rows); [reflexivity..|].
  vm_compute. reflexivity.
Defined.

(** [VerifyColumnNameAndType] accepts exactly when both statements verify and every
    field of the training statement other than the label is a field of the prediction
    statement with the same type, in whatever order the fields are visited. *)
Theorem VerifyColumnNameAndType_Ok `{UnicodeTables} `{MapOrder} (tr pr : SQLFlowSelectStmt) (db : DB) :
  VerifyColumnNameAndType tr pr db = Ok tt ↔
  ∃ tf pf, Verify (origin tr) db = Ok tf ∧ Verify (origin pr) db = Ok pf ∧
    ∀ n t, tf !! n = Some t → n ≠ Label (train tr) → pf !! n = Some t.
Proof.
  unfold VerifyColumnNameAndType. rewrite bind_Ok. split.
  - intros (tf & Htf & (pf & Hpf & Hc)%bind_Ok). exists tf, pf. split_and!; try done.
    rewrite foldM_check in Hc. intros n t Hn Hl.
    specialize (Hc (n, t)). rewrite elem_of_range_map, check_field_Ok in Hc. auto.
  - intros (tf & pf & Htf & Hpf & Hall). exists tf. split; [done|]. rewrite Hpf. ok_step.
    apply foldM_check. intros [n t]. rewrite elem_of_range_map, check_field_Ok. auto.
Qed.
