(* ===== verification/Ir.v ===== *)
(** * The intermediate representation (go/ir/ir.go)

    The statements that the generator makes, as records whose fields have the names of
    the source with a prefix, and the interface [SQLFlowStmt] as their sum. *)

From S2P Require Import Prelude GoStrings GoFloat FeatureColumn.

(** [map[string]interface{}] and [map[string][]FeatureColumn]; [R] is what refers to a
    field description. *)
Notation attributes R := (gmap string (value R)).
Notation features R := (gmap string (list (FeatureColumn R))).

Section ir.
Context {R : Type}.

Record TrainStmt := mkTrainStmt {
  t_OriginalSQL : string;
  t_Select : string;
  ValidationSelect : string;
  ModelImage : string;
  t_Estimator : string;
  t_Attributes : attributes R;
  Features : features R;
  t_Label : FeatureColumn R;
  PreTrainedModel : string;
  t_Into : string;
  TmpTrainTable : string;
  TmpValidateTable : string
}.

Record PredictStmt := mkPredictStmt {
  p_OriginalSQL : string;
  p_Select : string;
  ResultTable : string;
  ResultColumn : string;
  p_Attributes : attributes R;
  Using : string;
  p_TrainStmt : option TrainStmt;
  TmpPredictTable : string
}.

Record ExplainStmt := mkExplainStmt {
  e_OriginalSQL : string;
  e_Select : string;
  e_Attributes : attributes R;
  e_Explainer : string;
  e_ModelName : string;
  e_Into : string;
  TmpExplainTable : string;
  e_TrainStmt : option TrainStmt
}.

Record EvaluateStmt := mkEvaluateStmt {
  v_OriginalSQL : string;
  v_Select : string;
  v_Attributes : attributes R;
  v_ModelName : string;
  v_Label : FeatureColumn R;
  v_Into : string;
  TmpEvaluateTable : string;
  v_TrainStmt : option TrainStmt
}.

Record ShowTrainStmt := mkShowTrainStmt { s_OriginalSQL : string; s_ModelName : string }.

Record OptimizeExpr := mkOptimizeExpr { ExpressionTokens : list string; oe_GroupBy : string }.

Record OptimizeStmt := mkOptimizeStmt {
  o_OriginalSQL : string;
  o_Select : string;
  Variables : list string;
  ResultValueName : string;
  VariableType : string;
  o_Attributes : attributes R;
  o_Objective : OptimizeExpr;
  o_Direction : string;
  o_Constraints : list OptimizeExpr;
  o_Solver : string;
  o_ResultTable : string
}.

Record RunStmt := mkRunStmt {
  r_OriginalSQL : string;
  r_Select : string;
  r_ImageName : string;
  r_Parameters : list string;
  r_Into : string
}.

Inductive IRStmt :=
  | IRTrain (s : TrainStmt)
  | IRPredict (s : PredictStmt)
  | IRExplain (s : ExplainStmt)
  | IREvaluate (s : EvaluateStmt)
  | IRNormal (s : string)
  | IRShowTrain (s : ShowTrainStmt)
  | IROptimize (s : OptimizeStmt)
  | IRRun (s : RunStmt).

Definition SetOriginalSQL (sql : string) (s : IRStmt) : IRStmt :=
  match s with
  | IRTrain s =>
    IRTrain (mkTrainStmt sql (t_Select s) (ValidationSelect s) (ModelImage s) (t_Estimator s)
      (t_Attributes s) (Features s) (t_Label s) (PreTrainedModel s) (t_Into s) (TmpTrainTable s)
      (TmpValidateTable s))
  | IRPredict s =>
    IRPredict (mkPredictStmt sql (p_Select s) (ResultTable s) (ResultColumn s) (p_Attributes s)
      (Using s) (p_TrainStmt s) (TmpPredictTable s))
  | IRExplain s =>
    IRExplain (mkExplainStmt sql (e_Select s) (e_Attributes s) (e_Explainer s) (e_ModelName s)
      (e_Into s) (TmpExplainTable s) (e_TrainStmt s))
  | IREvaluate s =>
    IREvaluate (mkEvaluateStmt sql (v_Select s) (v_Attributes s) (v_ModelName s) (v_Label s)
      (v_Into s) (TmpEvaluateTable s) (v_TrainStmt s))
  | IRNormal s => IRNormal s
  | IRShowTrain s => IRShowTrain (mkShowTrainStmt sql (s_ModelName s))
  | IROptimize s =>
    IROptimize (mkOptimizeStmt sql (o_Select s) (Variables s) (ResultValueName s) (VariableType s)
      (o_Attributes s) (o_Objective s) (o_Direction s) (o_Constraints s) (o_Solver s) (o_ResultTable s))
  | IRRun s => IRRun (mkRunStmt sql (r_Select s) (r_ImageName s) (r_Parameters s) (r_Into s))
  end.

Definition IsExtended (s : IRStmt) : bool := match s with IRNormal _ => false | _ => true end.

Definition GetOriginalSQL (s : IRStmt) : string :=
  match s with
  | IRTrain s => t_OriginalSQL s
  | IRPredict s => p_OriginalSQL s
  | IRExplain s => e_OriginalSQL s
  | IREvaluate s => v_OriginalSQL s
  | IRNormal s => s
  | IRShowTrain s => s_OriginalSQL s
  | IROptimize s => o_OriginalSQL s
  | IRRun s => r_OriginalSQL s
  end.

Definition set_Features (f : features R) (s : TrainStmt) : TrainStmt :=
  mkTrainStmt (t_OriginalSQL s) (t_Select s) (ValidationSelect s) (ModelImage s) (t_Estimator s)
    (t_Attributes s) f (t_Label s) (PreTrainedModel s) (t_Into s) (TmpTrainTable s) (TmpValidateTable s).
Definition set_Label (l : FeatureColumn R) (s : TrainStmt) : TrainStmt :=
  mkTrainStmt (t_OriginalSQL s) (t_Select s) (ValidationSelect s) (ModelImage s) (t_Estimator s)
    (t_Attributes s) (Features s) l (PreTrainedModel s) (t_Into s) (TmpTrainTable s) (TmpValidateTable s).

Inductive ModelKind := TensorFlow | XGBoost | KMeans.
Definition GetModelKind `{UnicodeTables} (s : TrainStmt) : ModelKind :=
  let estimator := ToUpper (t_Estimator s) in
  if HasPrefix estimator "XGB" then XGBoost
  else if HasPrefix estimator "KMEANS" then KMeans else TensorFlow.
End ir.
Arguments TrainStmt : clear implicits.
Arguments PredictStmt : clear implicits.
Arguments ExplainStmt : clear implicits.
Arguments EvaluateStmt : clear implicits.
Arguments OptimizeStmt : clear implicits.
Arguments IRStmt : clear implicits.
