(* ===== verification/AttrInit.v ===== *)
(** * The attributes of the code generators (go/codegen/tensorflow/codegen.go,
    go/codegen/xgboost/codegen.go, go/codegen/pai/kmeans.go, go/codegen/optimize/codegen.go)

    Every generator declares a dictionary; initializing a statement fills in the defaults and
    checks its attributes.  For TensorFlow the attributes of an optimizer and of a loss are
    first turned into the call that makes it. *)

From S2P Require Import Prelude GoStrings GoFloat GoFormat FeatureColumn Attribute Ir.

Local Open Scope Z_scope.

Notation attrs := (gmap string attr).

Definition doc_lines (l : list string) : string := Join l nl.
(** A dictionary whose declaration panics does not exist when the program runs. *)
Definition declared_or_empty (d : result Dictionary) : Dictionary := match d with Ok d => d | _ => ∅ end.

(** ** Dictionaries *)

Definition at_least (lower : Z) : option (Z → result unit) := Some (IntLowerBoundChecker lower true).

Definition common_declarations : result Dictionary :=
  d ← Dict_Int "train.batch_size" (VInt 1) (doc_lines ["[default=1]"; "The training batch size."; "range: [1,Infinity]"])
        (at_least 1) ∅;
  d ← Dict_Int "train.epoch" (VInt 1)
        (doc_lines ["[default=1]"; "Number of epochs the training will run."; "range: [1, Infinity]"]) (at_least 1) d;
  d ← Dict_Int "train.verbose" (VInt 0)
        (doc_lines ["[default=0]"; "Show verbose logs when training."; "possible values: 0, 1, 2"])
        (Some (IntChoicesChecker [0; 1; 2])) d;
  d ← Dict_Int "train.max_steps" (VInt 0) (doc_lines ["[default=0]"; "Max steps to run training."]) (at_least 0) d;
  d ← Dict_Int "train.save_checkpoints_steps" (VInt 100)
        (doc_lines ["[default=100]"; "Steps to run between saving checkpoints."]) (at_least 1) d;
  d ← Dict_Int "train.log_every_n_iter" (VInt 10) (doc_lines ["[default=10]"; "Print logs every n iterations"])
        (at_least 1) d;
  d ← Dict_Int "validation.start_delay_secs" (VInt 0)
        (doc_lines ["[default=0]"; "Seconds to wait before starting validation."]) (at_least 0) d;
  d ← Dict_Int "validation.throttle_secs" (VInt 0)
        (doc_lines ["[default=0]"; "Seconds to wait when need to run validation again."]) (at_least 0) d;
  d ← Dict_String "validation.metrics" (VString "Accuracy")
        (doc_lines [("[default=" +:+ quoted "" +:+ "]")%string; "Specify metrics when training and evaluating.";
                    ("example: " +:+ quoted "Accuracy,AUC")%string]) None d;
  d ← Dict_String "validation.select" (VString "")
        (doc_lines [("[default=" +:+ quoted "" +:+ "]")%string; "Specify the dataset for validation.";
                    ("example: " +:+ quoted "SELECT * FROM iris.train LIMIT 100")%string]) None d;
  Dict_Int "validation.steps" (VInt 1) (doc_lines ["[default=1]"; "Specify steps for validation."]) (at_least 1) d.
Definition commonAttributes : Dictionary := declared_or_empty common_declarations.

Definition distributed_declarations : result Dictionary :=
  foldM (λ d '(n, v), Dict_Int n (VInt v) "" None d) ∅
    [("train.num_ps", 0); ("train.num_workers", 1); ("train.worker_cpu", 400); ("train.worker_gpu", 0);
     ("train.ps_cpu", 200); ("train.ps_gpu", 0); ("train.num_evaluator", 0); ("train.evaluator_cpu", 200);
     ("train.evaluator_gpu", 0)]%string.
Definition distributedTrainingAttributes : Dictionary := declared_or_empty distributed_declarations.

Definition xgboost_declarations (objectives : list string) : result Dictionary :=
  d ← Dict_Float "eta" (VFloat (float32_scaled false 3 10 (-1)))
        (doc_lines ["[default=0.3, alias: learning_rate]";
          "Step size shrinkage used in update to prevents overfitting. After each boosting step, we can directly get the weights of new features, and eta shrinks the feature weights to make the boosting process more conservative.";
          "range: [0,1]"]) (Some (Float32RangeChecker (float32_of_Z 0) (float32_of_Z 1) true true)) ∅;
  d ← Dict_Int "num_class" VNil (doc_lines ["Number of classes."; "range: [2, Infinity]"]) (at_least 2) d;
  d ← Dict_String "objective" VNil "Learning objective" (Some (StringChoicesChecker objectives)) d;
  d ← Dict_String "eval_metric" VNil "eval metric" None d;
  d ← Dict_Bool "train.disk_cache" (VBool false) "whether use external memory to cache train data" None d;
  d ← Dict_Int "train.num_boost_round" (VInt 10)
        (doc_lines ["[default=10]"; "The number of rounds for boosting."; "range: [1, Infinity]"]) (at_least 1) d;
  d ← Dict_Int "train.batch_size" (VInt (-1))
        (doc_lines ["[default=-1]"; "Batch size for each iteration, -1 means use all data at once."; "range: [-1, Infinity]"])
        (at_least (-1)) d;
  d ← Dict_Int "train.epoch" (VInt 1)
        (doc_lines ["[default=1]"; "Number of rounds to run the training."; "range: [1, Infinity]"]) (at_least 1) d;
  d ← Dict_String "validation.select" (VString "")
        (doc_lines [("[default=" +:+ quoted "" +:+ "]")%string; "Specify the dataset for validation.";
                    ("example: " +:+ quoted "SELECT * FROM boston.train LIMIT 8")%string]) None d;
  Dict_Int "train.num_workers" (VInt 1)
    (doc_lines ["[default=1]"; "Number of workers for distributed train, 1 means stand-alone mode."; "range: [1, 128]"])
    (Some (IntRangeChecker 1 128 true true)) d.

Definition kmeans_declarations : result Dictionary :=
  d ← Dict_Int "center_count" (VInt 3) (doc_lines ["[default=3]"; "The cluster count. range: [1, Infinity]"; ""]) (at_least 1) ∅;
  d ← Dict_String "idx_table_name" (VString "")
        (doc_lines [""; "The output table name which includes"; "cluster_index column indicates the cluster result,";
          "distance column indicates the distance from the center and"; "all the columns of input table."]) None d;
  Dict_String "excluded_columns" (VString "")
    (doc_lines [("[default=" +:+ quoted "" +:+ "]")%string; "excluded the special feature columns from the SELECT statement."])
    None d.
Definition kmeansAttributes : Dictionary := declared_or_empty kmeans_declarations.

Definition optimize_declarations : result Dictionary :=
  d ← Dict_Bool "data.enable_slice" (VBool false) "Whether to enable data slicing" None ∅;
  d ← Dict_Int "data.batch_size" (VInt (-1)) "Batch size when training" None d;
  d ← Dict_Int "worker.num" (VInt 1) "Worker number" (at_least 1) d;
  d ← Dict_Int "worker.core" (VInt 8) "Worker core number" (at_least 1) d;
  d ← Dict_Int "worker.memory" (VInt 4096) "Worker memory" (at_least 1) d;
  Dict_Unknown "solver.*" VNil "Solver options" None d.
Definition optimizeAttributes : Dictionary := declared_or_empty optimize_declarations.

(** The declarations do not panic: every default passes its checker. *)
Lemma declarations_ok objectives :
  is_ok common_declarations = true ∧ is_ok distributed_declarations = true ∧
  is_ok (xgboost_declarations objectives) = true ∧ is_ok kmeans_declarations = true ∧
  is_ok optimize_declarations = true.
Proof. repeat split; vm_compute; reflexivity. Qed.

(** ** Values as text *)

(** What Go prints for a pointer to a column, as text and in JSON. *)
Class ColumnText := {
  pointer_text : FeatureColumn FieldDesc → string;
  pointer_json : FeatureColumn FieldDesc → result string
}.

Definition bracketed (l : list string) : string := ("[" +:+ Join l " " +:+ "]")%string.
(** The verb [%v]. *)
Fixpoint Sprint_v `{ColumnText} (v : attr) : string :=
  match v with
  | VNil => "<nil>"
  | VInt z => pretty z
  | VFloat f => Format_v 24 128 f
  | VFloat64 f => Format_v 53 1024 f
  | VBool b => if b then "true" else "false"
  | VString s => s
  | VInts l => bracketed (map pretty (default [] l))
  | VStrings l => bracketed (default [] l)
  | VList l => bracketed (map Sprint_v l)
  | VColumn c => pointer_text c
  end.

(** ** Optimizers and losses (tensorflow) *)

Definition attrIsOptimizer (attrKey : string) : bool :=
  bool_decide (attrKey = "model.optimizer" ∨ attrKey = "model.dnn_optimizer" ∨ attrKey = "model.linear_optimizer")%string.
Definition IsPAI (submitter : string) : bool :=
  bool_decide (submitter = "pai" ∨ submitter = "alisa" ∨ submitter = "pai_local")%string.

(** The name is compared without the [model.] in front that it always has. *)
Definition default_optimizer (estimator optimizerParamName : string) : string :=
  if decide (estimator = "LinearClassifier" ∨ estimator = "LinearRegressor")%string then "Ftrl"
  else if decide ((estimator = "DNNLinearCombinedClassifier" ∨ estimator = "DNNLinearCombinedRegressor") ∧
                  optimizerParamName = "linear_optimizer")%string then "Ftrl"
  else "Adagrad".
Definition setDefaultOptimizer (estimator : string) (a : attrs) (optimizerParamName : string) : attrs :=
  <[optimizerParamName := VString (default_optimizer estimator optimizerParamName)]> a.

Definition tf1OptimizerClsNames : gmap string string :=
  list_to_map [("Adagrad", "AdagradOptimizer"); ("Adam", "AdamOptimizer"); ("Ftrl", "FtrlOptimizer");
               ("RMSProp", "RMSPropOptimizer"); ("SGD", "GradientDescentOptimizer")]%string.

Section optimizers.
Context `{MapOrder} `{ColumnText}.

(** An attribute such as [optimizer.learning_rate]: the optimizer and the argument. *)
Definition optimizer_arg (k : string) : option (string * string) :=
  match Split k "." with
  | [p; x] => if attrIsOptimizer ("model." +:+ p) then Some (("model." +:+ p)%string, x) else None
  | _ => None
  end.
(** One round of the loop that gathers the arguments; it deletes them. *)
Definition gather (acc : gmap string attrs * attrs) (kv : string * attr) : gmap string attrs * attrs :=
  let '(optimizerArgs, a) := acc in
  let '(k, v) := kv in
  let optimizerArgs :=
    if attrIsOptimizer k then <[k := default ∅ (optimizerArgs !! k)]> optimizerArgs else optimizerArgs in
  match optimizer_arg k with
  | Some (o, x) => (<[o := <[x := v]> (default ∅ (optimizerArgs !! o))]> optimizerArgs, delete k a)
  | None => (optimizerArgs, a)
  end.
Definition call_text (cls : string) (args : list (string * attr)) : string :=
  (cls +:+ "(" +:+ str_concat (map (λ '(k, v), k +:+ "=" +:+ Sprint_v v +:+ ", ") args) +:+ ")")%string.
Definition optimizer_class (pai : bool) (v : attr) : string :=
  let cls := Sprint_v v in
  match tf1OptimizerClsNames !! cls with Some c => if pai then c else cls | None => cls end.
Definition optimizer_call (pai : bool) (estimator : string) (a : attrs) (oa : string * attrs) : attrs :=
  let '(name, args) := oa in
  let a := match a !! name with Some _ => a | None => setDefaultOptimizer estimator a name end in
  <[name := VString (call_text (optimizer_class pai (default VNil (a !! name))) (range_map args))]> a.
Definition constructOptimizers (pai : bool) (estimator : string) (a : attrs) : attrs :=
  let '(optimizerArgs, a) := foldl gather (∅, a) (range_map a) in
  foldl (optimizer_call pai estimator) a (range_map optimizerArgs).

(** A loss that is no text panics, and so does an attribute [loss] without a dot. *)
Definition gather_loss (acc : string * list string * attrs) (kv : string * attr) : result (string * list string * attrs) :=
  let '(lossFunction, lossArgs, a) := acc in
  let '(k, v) := kv in
  if decide (k = "model.loss"%string) then
    match v with VString s => Ok (s, lossArgs, a) | _ => Panic end
  else
    let attrParts := Split k "." in
    head ← index attrParts 0;
    if decide (head = "loss"%string) then
      name ← index attrParts 1;
      Ok (lossFunction, lossArgs ++ [(name +:+ "=" +:+ Sprint_v v)%string], delete k a)
    else Ok acc.
Definition constructLosses (a : attrs) : result attrs :=
  '(lossFunction, lossArgs, a) ← foldM gather_loss (""%string, [], a) (range_map a);
  if decide (lossFunction = ""%string) then Ok a
  else Ok (<["model.loss"%string := VString (lossFunction +:+ "(" +:+ Join lossArgs "," +:+ ")")]> a).
End optimizers.

(** ** Initializing a statement *)

Definition set_Attributes {R} (a : attributes R) (s : TrainStmt R) : TrainStmt R :=
  mkTrainStmt (t_OriginalSQL s) (t_Select s) (ValidationSelect s) (ModelImage s) (t_Estimator s)
    a (Features s) (t_Label s) (PreTrainedModel s) (t_Into s) (TmpTrainTable s) (TmpValidateTable s).
Definition set_o_Attributes {R} (a : attributes R) (s : OptimizeStmt R) : OptimizeStmt R :=
  mkOptimizeStmt (o_OriginalSQL s) (o_Select s) (Variables s) (ResultValueName s) (VariableType s)
    a (o_Objective s) (o_Direction s) (o_Constraints s) (o_Solver s) (o_ResultTable s).

(** The generated tables of the parameters of known models and of the objectives of XGBoost,
    and the variable SQLFLOW_submitter. *)
Class CodegenEnv := {
  PremadeModelParamsDocs : gmap string (gmap string string);
  XGBoostObjectiveDocs : gmap string string;
  SQLFLOW_submitter : string
}.

(** The session of a client (go/proto/sqlflow.proto). *)
Record pb_Session := mkSession {
  Token : string; DbConnStr : string; ExitOnSubmit : bool; UserId : string; HiveLocation : string;
  HdfsNamenodeAddr : string; HdfsUser : string; HdfsPass : string; Submitter : string;
  ServiceAccount : string; WfNamespace : string
}.

Section initialize.
Context `{UnicodeTables} `{MapOrder} `{ColumnText} `{CodegenEnv}.

Definition any_model_parameter (d : Dictionary) : result Dictionary :=
  Dict_Unknown "model.*" VNil "Any model parameters defined in custom models" None d.
Definition model_attributes (estimator : string) : result Dictionary :=
  let modelAttr := NewDictionaryFromModelDefinition PremadeModelParamsDocs estimator "model." in
  modelAttr ← (if decide (size modelAttr = 0%nat)
               then d ← any_model_parameter ∅; Ok (Update modelAttr d) else Ok modelAttr);
  let modelAttr := Update modelAttr commonAttributes in
  modelAttr ← (if HasPrefix estimator "sqlflow_models." then
                 d ← Dict_Unknown "model.optimizer" VNil "Specify optimizer" None ∅;
                 d ← Dict_Unknown "model.loss" VNil "Specify loss" None d;
                 d ← any_model_parameter d; Ok (Update modelAttr d)
               else Ok modelAttr);
  Ok (if IsPAI SQLFLOW_submitter then Update modelAttr distributedTrainingAttributes else modelAttr).

(** The attributes that are validated are those that stay. *)
Definition validated (d : Dictionary) (a : attrs) : result attrs :=
  _ ← Validate d (range_map a); Ok a.

(** go/codegen/tensorflow/codegen.go *)
Definition tf_InitializeAttributes (trainStmt : TrainStmt FieldDesc) : result (TrainStmt FieldDesc) :=
  let a := ExportDefaults (range_map commonAttributes) (t_Attributes trainStmt) in
  let a := constructOptimizers (IsPAI SQLFLOW_submitter) (t_Estimator trainStmt) a in
  a ← constructLosses a;
  d ← model_attributes (t_Estimator trainStmt);
  a ← validated d a;
  Ok (set_Attributes a trainStmt).

(** go/codegen/xgboost/codegen.go *)
Definition getXGBoostObjectives : list string := map fst (range_map XGBoostObjectiveDocs).
Definition attributeDictionary : Dictionary := declared_or_empty (xgboost_declarations getXGBoostObjectives).
Definition fullAttrValidator : Dictionary :=
  Update (NewDictionaryFromModelDefinition PremadeModelParamsDocs "xgboost.gbtree" "") attributeDictionary.
Definition xgb_InitializeAttributes (trainStmt : TrainStmt FieldDesc) : result (TrainStmt FieldDesc) :=
  a ← validated fullAttrValidator (ExportDefaults (range_map attributeDictionary) (t_Attributes trainStmt));
  Ok (set_Attributes a trainStmt).

(** go/codegen/pai/kmeans.go *)
Definition InitializeKMeansAttributes (trainStmt : TrainStmt FieldDesc) : result (TrainStmt FieldDesc) :=
  a ← validated kmeansAttributes (ExportDefaults (range_map kmeansAttributes) (t_Attributes trainStmt));
  Ok (set_Attributes a trainStmt).

(** go/codegen/optimize/codegen.go *)
Definition optimize_InitializeAttributes (stmt : OptimizeStmt FieldDesc) : result (OptimizeStmt FieldDesc) :=
  a ← validated optimizeAttributes (ExportDefaults (range_map optimizeAttributes) (o_Attributes stmt));
  Ok (set_o_Attributes a stmt).
End initialize.

(** ** What becomes of an optimizer *)

Lemma attrIsOptimizer_no_arg k : attrIsOptimizer k = true → optimizer_arg k = None.
Proof. unfold attrIsOptimizer. by intros [->|[->| ->]]%bool_decide_eq_true. Qed.

Lemma optimizer_arg_Some k o x :
  optimizer_arg k = Some (o, x) → attrIsOptimizer o = true ∧ ∃ p, o = ("model." +:+ p)%string ∧ k = (p +:+ "." +:+ x)%string.
Proof.
  unfold optimizer_arg. pose proof (Join_Split k ".") as Hj. destruct (Split k ".") as [|p [|y [|]]]; try done.
  destruct (attrIsOptimizer _) eqn:Ho; [|done]. intros [= <- <-]. split; [done|]. exists p. split; [done|by rewrite <- Hj].
Qed.

Lemma model_prefix_inj p q : ("model." +:+ p = "model." +:+ q)%string → p = q.
Proof. by intros [=]. Qed.

Lemma optimizer_arg_inj k k' o x : optimizer_arg k = Some (o, x) → optimizer_arg k' = Some (o, x) → k = k'.
Proof.
  intros (_ & p & -> & ->)%optimizer_arg_Some (_ & q & Hq%model_prefix_inj & ->)%optimizer_arg_Some. by subst.
Qed.

Section optimizers_spec.
Context `{MapOrder} `{ColumnText}.

(** The attributes in [l] name the optimizer [o]: its own attribute or one of its arguments. *)
Definition names (o : string) (l : list (string * attr)) : Prop :=
  ∃ k v, (k, v) ∈ l ∧ (attrIsOptimizer k = true ∧ k = o ∨ ∃ x, optimizer_arg k = Some (o, x)).

Lemma names_snoc o l kv : names o (l ++ [kv]) ↔ names o l ∨ names o [kv].
Proof. unfold names. setoid_rewrite elem_of_app. naive_solver. Qed.

Definition gathered (l : list (string * attr)) (a a' : attrs) : Prop :=
  (∀ k, k ∈ l.*1 → optimizer_arg k ≠ None → a' !! k = None) ∧
  (∀ k, k ∉ l.*1 ∨ optimizer_arg k = None → a' !! k = a !! k).

Lemma gathered_snoc_arg l a a' k v :
  gathered l a a' → optimizer_arg k ≠ None → gathered (l ++ [(k, v)]) a (delete k a').
Proof.
  intros [Hd Hr] Ho. unfold gathered. rewrite fmap_app. split; intros k'; rewrite elem_of_app, lookup_delete; cbn;
    rewrite list_elem_of_singleton; case_decide as Hk; subst; try done.
  - intros [?|?]; [by apply Hd|by subst].
  - naive_solver.
  - intros Hk'. apply Hr. tauto.
Qed.

Lemma gathered_snoc_other l a a' k v :
  gathered l a a' → optimizer_arg k = None → gathered (l ++ [(k, v)]) a a'.
Proof.
  intros [Hd Hr] Ho. unfold gathered. rewrite fmap_app. split; intros k'; rewrite elem_of_app; cbn;
    rewrite list_elem_of_singleton.
  - intros [?| ->]; [by apply Hd|done].
  - intros Hk'. apply Hr. tauto.
Qed.

Lemma names_one o k v :
  names o [(k, v)] ↔ (attrIsOptimizer k = true ∧ k = o) ∨ ∃ x, optimizer_arg k = Some (o, x).
Proof. unfold names. setoid_rewrite list_elem_of_singleton. naive_solver. Qed.

(** The arguments of [o] in [l] are the map [m]. *)
Definition args_in (l : list (string * attr)) (o : string) (m : attrs) : Prop :=
  ∀ x v, m !! x = Some v ↔ ∃ k, optimizer_arg k = Some (o, x) ∧ (k, v) ∈ l.

Lemma args_in_none l o : ¬ names o l → args_in l o ∅.
Proof.
  intros Hn x v. rewrite lookup_empty. split; [done|]. intros (k & Hk & Hin). destruct Hn. exists k, v. eauto.
Qed.

Lemma args_in_other l o m k v :
  args_in l o m → (∀ x, optimizer_arg k ≠ Some (o, x)) → args_in (l ++ [(k, v)]) o m.
Proof.
  intros Hm Hk x w. rewrite (Hm x w). setoid_rewrite elem_of_app. setoid_rewrite list_elem_of_singleton.
  split; [naive_solver|]. intros (k' & Hk' & [Hin|[= -> ->]]); [eauto|by apply Hk in Hk'].
Qed.

Lemma args_in_arg l o m k v x :
  args_in l o m → optimizer_arg k = Some (o, x) → k ∉ l.*1 → args_in (l ++ [(k, v)]) o (<[x := v]> m).
Proof.
  intros Hm Hk Hnew y w. setoid_rewrite elem_of_app. setoid_rewrite list_elem_of_singleton.
  rewrite lookup_insert. case_decide as Hxy.
  - subst y. split; [intros [= <-]; eauto|]. intros (k' & Hk' & [Hin|[= -> ->]]); [|done].
    destruct Hnew. rewrite (optimizer_arg_inj _ _ _ _ Hk Hk'). by apply (list_elem_of_fmap_2 fst) in Hin.
  - rewrite (Hm y w). split; [naive_solver|]. intros (k' & Hk' & [Hin|[= -> ->]]); [eauto|congruence].
Qed.

Lemma gather_spec a l G a' :
  NoDup l.*1 → foldl gather (∅, a) l = (G, a') →
  (∀ o, is_Some (G !! o) ↔ names o l) ∧ (∀ o m, G !! o = Some m → args_in l o m) ∧ gathered l a a'.
Proof.
  revert G a'. induction l as [|[k v] l IH] using rev_ind; intros G a'.
  - intros _ [= <- <-]. split_and!.
    + intros o. rewrite lookup_empty. split; [by intros []|]. by intros (? & ? & ?%not_elem_of_nil & _).
    + done.
    + by split; [intros ? ?%not_elem_of_nil|].
  - rewrite fmap_app, foldl_snoc, NoDup_app. intros (Hnd & Hk & _).
    assert (k ∉ l.*1) as Hnew by (intros Hin; apply (Hk k Hin); cbn; by apply list_elem_of_singleton).
    destruct (foldl gather (∅, a) l) as [G0 a0]. destruct (IH G0 a0 Hnd eq_refl) as (Hdom & Hargs & Hrest).
    clear IH Hk. intros Hg.
    assert (∀ o, args_in l o (default ∅ (G0 !! o))) as Hdef.
    { intros o. destruct (G0 !! o) as [m|] eqn:Hm; [by apply Hargs|]. apply args_in_none. rewrite <- Hdom, Hm. by intros []. }
    unfold gather in Hg. destruct (attrIsOptimizer k) eqn:Hopt; [|destruct (optimizer_arg k) as [[o x]|] eqn:Ho].
    + pose proof (attrIsOptimizer_no_arg _ Hopt) as Hno. rewrite Hno in Hg. injection Hg as <- <-. split_and!.
      * intros o. rewrite names_snoc, names_one, <- Hdom, lookup_insert_is_Some', Hopt, Hno.
        split; [intros [->|?]; eauto|intros [?|[[_ ->]|[y [=]]]]; auto].
      * intros o m. rewrite lookup_insert. case_decide as Heq; [intros [= <-]; subst o|intros Hm; apply Hargs in Hm];
          (apply args_in_other; [done|by rewrite Hno]).
      * by apply gathered_snoc_other.
    + injection Hg as <- <-. split_and!.
      * intros o'. rewrite names_snoc, names_one, <- Hdom, lookup_insert_is_Some', Ho, Hopt.
        split; [intros [->|?]; eauto|intros [?|[[[=] _]|[y [= -> ->]]]]; auto].
      * intros o' m. rewrite lookup_insert. case_decide as Heq.
        -- subst o'. intros [= <-]. by apply args_in_arg.
        -- intros Hm. apply Hargs in Hm. apply args_in_other; [done|]. rewrite Ho. congruence.
      * by apply gathered_snoc_arg; [|rewrite Ho].
    + injection Hg as <- <-. split_and!.
      * intros o. rewrite names_snoc, names_one, <- Hdom, Hopt, Ho.
        split; [by left|intros [?|[[[=] _]|[y [=]]]]; auto].
      * intros o m Hm. apply args_in_other; [by apply Hargs|by rewrite Ho].
      * by apply gathered_snoc_other.
Qed.

Definition optimizer_of (estimator o : string) (a : attrs) : attr :=
  default (VString (default_optimizer estimator o)) (a !! o).

Lemma optimizer_calls pai est l a k :
  NoDup l.*1 →
  foldl (optimizer_call pai est) a l !! k =
  match (list_to_map l : gmap string attrs) !! k with
  | Some args => Some (VString (call_text (optimizer_class pai (optimizer_of est k a)) (range_map args)))
  | None => a !! k
  end.
Proof.
  revert a. induction l as [|[o args] l IH]; intros a; cbn; [by rewrite lookup_empty|].
  intros [Hnot Hnd]%NoDup_cons. rewrite IH by done. clear IH.
  assert (∀ a : attrs, (match a !! o with Some _ => a | None => setDefaultOptimizer est a o end) !! o =
    Some (optimizer_of est o a)) as Ho.
  { intros b. unfold optimizer_of, setDefaultOptimizer. destruct (b !! o) eqn:Hb; [done|]. by rewrite lookup_insert_eq. }
  destruct (decide (o = k)) as [<-|Hk].
  - rewrite not_elem_of_list_to_map_1 by done. rewrite !lookup_insert_eq. by rewrite Ho.
  - rewrite (lookup_insert_ne (list_to_map l)) by done.
    assert (∀ v, <[o := v]> (match a !! o with Some _ => a | None => setDefaultOptimizer est a o end) !! k = a !! k) as Hs.
    { intros v. rewrite lookup_insert_ne by done. destruct (a !! o); [done|]. by apply lookup_insert_ne. }
    destruct (list_to_map l !! k); unfold optimizer_of; by rewrite Hs.
Qed.

(** [constructOptimizers], in every order of its iterations: an attribute such as
    [optimizer.learning_rate] is gone, one that has nothing to do with an optimizer stays, and
    an optimizer that is named or has arguments becomes one call: its class, or the one that is
    taken by default, with every one of its arguments once. *)
Theorem constructOptimizers_spec (pai : bool) (estimator : string) (a : attrs) (k : string) :
  let a' := constructOptimizers pai estimator a in
  (optimizer_arg k ≠ None → a' !! k = None) ∧
  (optimizer_arg k = None → attrIsOptimizer k = false → a' !! k = a !! k) ∧
  (attrIsOptimizer k = true →
    (a' !! k = None ∧ a !! k = None ∧ ∀ k' x, optimizer_arg k' = Some (k, x) → a !! k' = None) ∨
    ∃ args, NoDup args.*1 ∧ (∀ x v, (x, v) ∈ args ↔ ∃ k', optimizer_arg k' = Some (k, x) ∧ a !! k' = Some v) ∧
      a' !! k = Some (VString (call_text (optimizer_class pai (optimizer_of estimator k a)) args))).
Proof.
  unfold constructOptimizers. destruct (foldl gather (∅, a) (range_map a)) as [G a1] eqn:Hg.
  assert (∀ A (m : gmap string A), NoDup (range_map m).*1) as Hnd
    by (intros; rewrite range_map_perm; apply NoDup_fst_map_to_list).
  apply gather_spec in Hg as (Hdom & Hargs & Hdel & Hrest); [|done].
  assert (∀ k, k ∈ (range_map a).*1 ↔ is_Some (a !! k)) as Hin.
  { intros k'. rewrite list_elem_of_fmap. split.
    - intros ([k2 v] & -> & Hk%elem_of_range_map). by exists v.
    - intros [v Hv]. exists (k', v). split; [done|]. by apply elem_of_range_map. }
  assert (∀ k, G !! k = None → foldl (optimizer_call pai estimator) a1 (range_map G) !! k = a1 !! k) as Hnone
    by (intros k' Hk'; by rewrite optimizer_calls, list_to_map_range_map, Hk').
  cbn. split_and!.
  - intros Ho. rewrite Hnone.
    + destruct (a !! k) eqn:Hk; [apply Hdel; [apply Hin; by rewrite Hk|done]|].
      rewrite Hrest; [done|left; rewrite Hin, Hk; by intros []].
    + destruct (G !! k) as [m|] eqn:Hm; [|done]. assert (names k (range_map a)) as (k' & v & _ & [[Hk' ->]|[x Hx]])
        by (apply Hdom; by rewrite Hm).
      * by apply attrIsOptimizer_no_arg in Hk'.
      * apply optimizer_arg_Some in Hx as [Hx _]. by apply attrIsOptimizer_no_arg in Hx.
  - intros Ho Hk. rewrite Hnone; [by apply Hrest; right|].
    destruct (G !! k) as [m|] eqn:Hm; [|done]. assert (names k (range_map a)) as (k' & v & _ & [[Hk' ->]|[x Hx]])
        by (apply Hdom; by rewrite Hm).
    + congruence.
    + apply optimizer_arg_Some in Hx as [Hx _]. congruence.
  - intros Hk. assert (a1 !! k = a !! k) as Ha1 by (apply Hrest; right; by apply attrIsOptimizer_no_arg).
    destruct (G !! k) as [m|] eqn:Hm.
    + right. exists (range_map m). split; [apply Hnd|]. split.
      * intros x v. rewrite elem_of_range_map, (Hargs _ _ Hm x v). by setoid_rewrite elem_of_range_map.
      * rewrite optimizer_calls, list_to_map_range_map, Hm by done. do 4 f_equal.
        unfold optimizer_of. f_equal. exact Ha1.
    + left. assert (¬ names k (range_map a)) as Hn by (rewrite <- Hdom, Hm; by intros []).
      assert (a !! k = None) as Hak.
      { destruct (a !! k) as [v|] eqn:Hv; [|done]. destruct Hn. exists k, v. split; [by apply elem_of_range_map|by left]. }
      split; [by rewrite Hnone, Ha1|]. split; [done|]. intros k' x Hx. destruct (a !! k') as [v|] eqn:Hv; [|done].
      destruct Hn. exists k', v. split; [by apply elem_of_range_map|]. eauto.
Qed.
End optimizers_spec.

(** The default of the linear part of a combined model is never taken. *)
Lemma linear_default_unused estimator o :
  (estimator = "DNNLinearCombinedClassifier" ∨ estimator = "DNNLinearCombinedRegressor")%string →
  attrIsOptimizer o = true → default_optimizer estimator o = "Adagrad"%string.
Proof.
  intros He Ho%bool_decide_eq_true. unfold default_optimizer.
  by destruct He as [-> | ->], Ho as [->|[->| ->]].
Qed.

(** ** What validated attributes are *)

Section validated.
Context `{UnicodeTables} `{MapOrder}.

(** An attribute with a default in the dictionary [d0] that the dictionary [d] types is there
    once the defaults have been exported and the attributes validated, and passes its checker. *)
Lemma validated_typed (d0 d : Dictionary) (a a' : attrs) k desc0 v0 desc c :
  validated d (ExportDefaults (range_map d0) a) = Ok a' →
  (∀ k, a !! k ≠ Some VNil) → d0 !! k = Some desc0 → exported desc0 = Some v0 →
  d !! k = Some desc → checker desc = Some c →
  ∃ v, a' !! k = Some v ∧ c v k = Ok tt.
Proof.
  unfold validated. intros ([] & Hv & [= <-])%bind_Ok Hnil Hd0 Hex Hd Hc.
  assert (∃ v, ExportDefaults (range_map d0) a !! k = Some v ∧ v ≠ VNil) as (v & Hk & Hne).
  { rewrite (ExportDefaults_lookup d0) by apply range_map_perm. destruct (a !! k) as [v|] eqn:Ha.
    - exists v. split; [done|]. intros ->. by apply (Hnil k).
    - exists v0. rewrite Hd0. cbn. split; [done|]. intros ->. unfold exported in Hex. by destruct (typ desc0), (defaultValue desc0). }
  exists v. split; [done|]. rewrite Validate_Ok in Hv. specialize (Hv (k, v)).
  rewrite elem_of_range_map in Hv. specialize (Hv Hk). unfold validate_entry, find_description in Hv.
  rewrite Hd in Hv. revert Hv. ok_step. rewrite Hc. by destruct v.
Qed.

(** Every attribute of a validated statement is one of the dictionary, or of its wildcards. *)
Lemma validated_known (d : Dictionary) (a a' : attrs) k v :
  validated d a = Ok a' → a' !! k = Some v →
  a' = a ∧ (is_Some (d !! k) ∨ ∃ p x, Split k "." = [p; x] ∧ is_Some (d !! (p +:+ ".*")%string)).
Proof.
  unfold validated. intros ([] & Hv & [= <-])%bind_Ok Hk. split; [done|]. rewrite Validate_Ok in Hv.
  specialize (Hv (k, v)). rewrite elem_of_range_map in Hv. specialize (Hv Hk).
  apply bind_Ok in Hv as (desc & Hf & _). unfold find_description in Hf.
  destruct (d !! k); [left; by eexists|right]. destruct (Split k ".") as [|p [|x [|]]]; try done.
  exists p, x. split; [done|]. apply or_fail_Ok in Hf. by eexists.
Qed.
End validated.
