(* ===== verification/XgbCode.v ===== *)
(** * What the XGBoost generator fills its templates with (go/codegen/xgboost/codegen.go)

    The attributes are split into those of the model and those of the training, the columns and
    descriptions are printed; the record [trainFiller] and its like hold what the text templates
    get. *)

From S2P Require Import Prelude GoStrings GoFloat GoFormat FeatureColumn Attribute Ir ColumnCode AttrInit.

Local Open Scope Z_scope.

(** ** JSON *)

Definition json_list (l : list string) : string := ("[" +:+ Join l "," +:+ "]")%string.
Fixpoint json_attr `{ColumnText} (v : attr) : result string :=
  match v with
  | VNil => Ok "null"%string
  | VInt z => Ok (pretty z)
  | VFloat f => json_float 24 128 f
  | VFloat64 f => json_float 53 1024 f
  | VBool b => Ok (if b then "true" else "false")%string
  | VString s => Ok (json_string s)
  | VInts l => Ok (json_shape l)
  | VStrings l => Ok (from_option json_strings "null"%string l)
  | VList [] => Ok "null"%string
  | VList l => ss ← mapR json_attr l; Ok (json_list ss)
  | VColumn c => pointer_json c
  end.
(** A map: its keys are sorted. *)
Definition json_map {A} (f : A → result string) (m : gmap string A) : result string :=
  ss ← mapR (λ k, match m !! k with Some x => s ← f x; Ok (json_string k +:+ ":" +:+ s)%string | None => Ok ""%string end)
         (sorted_keys m);
  Ok ("{" +:+ Join ss "," +:+ "}")%string.

(** ** Parameters of the model *)

Section xgboost.
Context `{UnicodeTables} `{MapOrder} `{ColumnText}.

Definition updateIfKeyDoesNotExist (current add : attrs) : attrs :=
  foldl (λ current '(k, v), match current !! k with Some _ => current | None => <[k := v]> current end)
    current (range_map add).

Definition f64 (d e : Z) : attr := VFloat64 (float_near 53 1024 false d e).
Definition forest_defaults (objective : string) : attrs :=
  list_to_map [("objective", VString objective); ("learning_rate", VInt 1); ("subsample", f64 8 (-1));
               ("colsample_bynode", f64 8 (-1)); ("reg_lambda", f64 1 (-5))]%string.
Definition default_attributes (estimator : string) : option attrs :=
  let e := ToUpper estimator in
  let among l := bool_decide (e ∈ l) in
  if among ["XGBOOST.XGBREGRESSOR"; "XGBREGRESSOR"]%string then Some {[ "objective"%string := VString "reg:squarederror" ]}
  else if among ["XGBOOST.XGBRFREGRESSOR"; "XGBRFREGRESSOR"]%string then Some (forest_defaults "reg:squarederror")
  else if among ["XGBOOST.XGBCLASSIFIER"; "XGBCLASSIFIER"]%string then Some {[ "objective"%string := VString "binary:logistic" ]}
  else if among ["XGBOOST.XGBRFCLASSIFIER"; "XGBRFCLASSIFIER"]%string then Some (forest_defaults "multi:softprob")
  else if among ["XGBOOST.XGBRANKER"; "XGBRANKER"]%string then Some {[ "objective"%string := VString "rank:pairwise" ]}
  else if among ["XGBOOST.GBTREE"]%string then Some {[ "booster"%string := VString "gbtree" ]}
  else if among ["XGBOOST.GBLINEAR"]%string then Some {[ "booster"%string := VString "gblinear" ]}
  else if among ["XGBOOST.DART"]%string then Some {[ "booster"%string := VString "dart" ]}
  else None.
Definition resolveModelParams (estimator : string) (a : attrs) : result attrs :=
  match default_attributes estimator with
  | Some d => Ok (updateIfKeyDoesNotExist a d)
  | None => Fail (Errorf "unsupported model name %v, currently supports xgboost.gbtree, xgboost.gblinear, xgboost.dart" [estimator])
  end.

(** The attributes of the model and those behind [train.]. *)
Definition parse_one (params : attrs * attrs) (kv : string * attr) : attrs * attrs :=
  let '(model, train) := params in
  let '(key, v) := kv in
  if HasPrefix key "train." then (model, <[str_drop 6 key := v]> train) else (<[key := v]> model, train).
Definition parseAttribute (a : attrs) : attrs * attrs := foldl parse_one (∅, ∅) (range_map a).

(** ** Columns and descriptions *)

(** Only numeric columns, for the code that has no other. *)
Definition numeric_field (c : FeatureColumn FieldDesc) (fmt : string) : result FieldDesc :=
  match c with NumericColumn fd => Ok fd | _ => Fail (Errorf fmt []) end.
Definition getFieldDesc (fcs : list (FeatureColumn FieldDesc)) (l : FeatureColumn FieldDesc) : result (list FieldDesc * FieldDesc) :=
  features ← mapR (λ fc, numeric_field fc "unsupported feature column type %T on %v") fcs;
  label ← numeric_field l "unsupported label column type %T on %v";
  Ok (features, label).

Record FieldMeta := mkFieldMeta {
  FeatureName : string; fm_DType : string; fm_Delimiter : string; fm_Format : string;
  Shap : option (list Z); fm_IsSparse : bool
}.
Definition resolveFieldMeta (d : FieldDesc) : FieldMeta :=
  mkFieldMeta (Name d) (DTypeToString (DType d)) (Delimiter d) (Format d) (Shape d) (IsSparse d).
Definition json_field (name value : string) : string := (quoted name +:+ ":" +:+ value)%string.
Definition json_meta (m : FieldMeta) : string :=
  ("{" +:+ Join [json_field "feature_name" (json_string (FeatureName m)); json_field "dtype" (json_string (fm_DType m));
     json_field "delimiter" (json_string (fm_Delimiter m)); json_field "format" (json_string (fm_Format m));
     json_field "shape" (json_shape (Shap m)); json_field "is_sparse" (if fm_IsSparse m then "true" else "false")] ","
   +:+ "}")%string.
Definition resolveFeatureMeta (fds : list FieldDesc) : result (string * list string) :=
  let ret : gmap string FieldMeta := foldl (λ m d, <[Name d := resolveFieldMeta d]> m) ∅ fds in
  f ← json_map (λ m, Ok (json_meta m)) ret;
  Ok (f, map Name fds).

Definition column_code_and_descs (fc : FeatureColumn FieldDesc) : result (string * list FieldDesc) :=
  code ← GenerateFeatureColumnCode "xgboost_extended" fc;
  ds ← GetFieldDesc fc;
  Ok (code, map desc_of ds).
Definition deriveFeatureColumnCodeAndFieldDescs (fcs : option (list (FeatureColumn FieldDesc)))
    (labelFc : FeatureColumn FieldDesc) : result (string * list FieldDesc * FieldDesc) :=
  fcs ← or_fail fcs (Errorf "feature_columns should not be nil" []);
  l ← mapR column_code_and_descs fcs;
  label ← numeric_field labelFc "unsupported label column type %T on %v";
  Ok (Join l.*1 ("," +:+ nl), concat l.*2, label).

(** ** The fillers *)

Record trainFiller := mkTrainFiller {
  OSSModelDirToSave : string; OSSModelDirToLoad : string; DataSource : string; TrainSelect : string;
  tf_ValidationSelect : string; ModelParamsJSON : string; TrainParamsJSON : string; FieldDescJSON : string;
  FeatureColumnNames : list string; LabelJSON : string; FeatureColumnCode : string; DiskCache : bool;
  BatchSize : Z; Epoch : Z; LoadPreTrainedModel : bool; tf_IsPAI : bool; PAITrainTable : string;
  PAIValidateTable : string; ModelRepoImage : string; tf_OriginalSQL : string
}.

(** An integer of the training's attributes, which is taken out of them; another type panics. *)
Definition take_int (train : attrs) (k : string) (default : Z) : result (Z * attrs) :=
  match train !! k with
  | None => Ok (default, train)
  | Some (VInt z) => Ok (z, delete k train)
  | Some _ => Panic
  end.
Definition pai_table (pai : bool) (tmp table : string) : string :=
  if pai && negb (bool_decide (tmp = ""%string)) then table else ""%string.

Definition newTrainFiller (pai : bool) (trainStmt : TrainStmt FieldDesc) (s : pb_Session) (ossURIToSave ossURIToLoad : string)
    : result trainFiller :=
  a ← resolveModelParams (t_Estimator trainStmt) (t_Attributes trainStmt);
  let '(model, train) := parseAttribute a in
  diskCache ← (match train !! "disk_cache"%string with Some (VBool b) => Ok b | _ => Panic end);
  let train := delete "disk_cache"%string train in
  '(batchSize, train) ← take_int train "batch_size" (-1);
  '(epoch, train) ← take_int train "epoch" 1;
  let train := delete "num_workers"%string train in
  if negb (bool_decide (size (Features trainStmt) = 1%nat)) then
    Fail (Errorf "xgboost only support 1 feature column set, received %d" [pretty (Z.of_nat (size (Features trainStmt)))])
  else
  '(code, descs, label) ← deriveFeatureColumnCodeAndFieldDescs (Features trainStmt !! "feature_columns"%string) (t_Label trainStmt);
  mp ← json_map json_attr model;
  tp ← json_map json_attr train;
  '(f, fs) ← resolveFeatureMeta descs;
  let table := pai_table pai (TmpTrainTable trainStmt) in
  Ok (mkTrainFiller ossURIToSave ossURIToLoad (DbConnStr s) (t_Select trainStmt) (ValidationSelect trainStmt) mp tp f fs
        (json_meta (resolveFieldMeta label)) code diskCache batchSize epoch
        (negb (bool_decide (PreTrainedModel trainStmt = ""%string))) pai
        (table (TmpTrainTable trainStmt)) (table (TmpValidateTable trainStmt)) (ModelImage trainStmt) (t_OriginalSQL trainStmt)).

Record predFiller := mkPredFiller {
  pf_DataSource : string; pf_PredSelect : string; pf_FeatureMetaJSON : string; TrainLabelMetaJSON : string;
  PredLabelMetaJSON : string; pf_FeatureColumnNames : list string; pf_FeatureColumnCode : string;
  pf_ResultTable : string; pf_HDFSNameNodeAddr : string; pf_HiveLocation : string; pf_HDFSUser : string;
  pf_HDFSPass : string; pf_IsPAI : bool; pf_PAITable : string
}.
(** A statement whose training statement is nil panics. *)
Definition or_panic {A} (o : option A) : result A := match o with Some x => Ok x | None => Panic end.
Definition result_desc (name : string) (d : FieldDesc) : FieldDesc :=
  mkFieldDesc name (DType d) Int (Delimiter d) "" (Format d) (Shape d) (IsSparse d) (Vocabulary d) (MaxID d).
Definition xgb_predFiller (pai : bool) (predStmt : PredictStmt FieldDesc) (s : pb_Session) : result predFiller :=
  t ← or_panic (p_TrainStmt predStmt);
  '(code, descs, label) ← deriveFeatureColumnCodeAndFieldDescs (Features t !! "feature_columns"%string) (t_Label t);
  '(f, fs) ← resolveFeatureMeta descs;
  Ok (mkPredFiller (DbConnStr s) (p_Select predStmt) f (json_meta (resolveFieldMeta label))
        (json_meta (resolveFieldMeta (result_desc (ResultColumn predStmt) label))) fs code (ResultTable predStmt)
        (HdfsNamenodeAddr s) (HiveLocation s) (HdfsUser s) (HdfsPass s) pai
        (pai_table pai (TmpPredictTable predStmt) (TmpPredictTable predStmt))).

Record evalFiller := mkEvalFiller {
  ef_DataSource : string; ef_PredSelect : string; ef_FeatureMetaJSON : string; LabelMetaJSON : string;
  ef_FeatureColumnNames : list string; ef_FeatureColumnCode : string; MetricNames : string;
  ef_ResultTable : string; ef_HDFSNameNodeAddr : string; ef_HiveLocation : string; ef_HDFSUser : string;
  ef_HDFSPass : string; ef_IsPAI : bool; ef_PAITable : string
}.
Definition metric_names (a : attrs) : result string :=
  match a !! "validation.metrics"%string with
  | None => Ok "accuracy_score"%string
  | Some (VString names) => Ok names
  | Some _ => Fail (Errorf "validation.metrics must be a string" [])
  end.
Definition xgb_evalFiller (pai : bool) (evalStmt : EvaluateStmt FieldDesc) (s : pb_Session) : result evalFiller :=
  t ← or_panic (v_TrainStmt evalStmt);
  '(code, descs, label) ← deriveFeatureColumnCodeAndFieldDescs (Features t !! "feature_columns"%string) (t_Label t);
  '(f, fs) ← resolveFeatureMeta descs;
  metrics ← metric_names (v_Attributes evalStmt);
  Ok (mkEvalFiller (DbConnStr s) (v_Select evalStmt) f (json_meta (resolveFieldMeta label)) fs code metrics
        (v_Into evalStmt) (HdfsNamenodeAddr s) (HiveLocation s) (HdfsUser s) (HdfsPass s) pai
        (pai_table pai (TmpEvaluateTable evalStmt) (TmpEvaluateTable evalStmt))).

(** go/codegen/xgboost/codegen_explain.go *)
Definition resolveParams (a : attrs) (group : string) : attrs :=
  foldl (λ sp '(k, v), if HasPrefix k group then <[str_drop (str_len group) k := v]> sp else sp) ∅ (range_map a).
Record explainFiller := mkExplainFiller {
  xf_DataSource : string; DatasetSQL : string; ShapSummaryParams : string; xf_Explainer : string;
  FeatureFieldMetaJSON : string; xf_FeatureColumnNames : list string; xf_FeatureColumnCode : string;
  xf_LabelJSON : string; xf_ResultTable : string; xf_IsPAI : bool; PAIExplainTable : string
}.
Definition xgb_explainFiller (pai : bool) (stmt : ExplainStmt FieldDesc) (s : pb_Session) : result explainFiller :=
  summary ← json_map json_attr (resolveParams (e_Attributes stmt) "summary.");
  t ← or_panic (e_TrainStmt stmt);
  '(code, descs, label) ← deriveFeatureColumnCodeAndFieldDescs (Features t !! "feature_columns"%string) (t_Label t);
  '(f, fs) ← resolveFeatureMeta descs;
  Ok (mkExplainFiller (DbConnStr s) (e_Select stmt) summary (e_Explainer stmt) f fs code
        (json_meta (resolveFieldMeta label)) (e_Into stmt) pai (TmpExplainTable stmt)).
End xgboost.

(** ** An initialized statement has the parameters that the generator takes *)

Section fine.
Context `{UnicodeTables} `{MapOrder} `{ColumnText} `{CodegenEnv}.

(** A column in JSON is a text or an error. *)
Definition columns_print : Prop := ∀ c, fine (pointer_json c).

Fixpoint fine_json_attr (Hc : columns_print) (v : attr) : fine (json_attr v).
Proof.
  destruct v as [|z|f|f|b|s|l|l|l|c]; cbn; try done.
  - unfold json_float. destruct f; try done. destruct (decimal _ _ _ _ _ _). by case_match.
  - unfold json_float. destruct f; try done. destruct (decimal _ _ _ _ _ _). by case_match.
  - destruct l as [|v l]; [done|]. apply fine_bind; [|done].
    apply fine_bind; [apply fine_json_attr; exact Hc|]. intros s _. apply fine_bind; [|done].
    induction l as [|w l IH]; cbn; [done|]. apply fine_bind; [apply fine_json_attr; exact Hc|]. intros t _.
    by apply fine_bind.
Qed.

Lemma fine_json_map {A} (f : A → result string) (m : gmap string A) :
  (∀ x, fine (f x)) → fine (json_map f m).
Proof.
  intros Hf. unfold json_map. apply fine_bind; [|done]. apply fine_mapR. intros k _.
  destruct (m !! k); [|done]. by apply fine_bind.
Qed.

Lemma fine_numeric_field c fmt : fine (numeric_field c fmt).
Proof. by destruct c. Qed.

Lemma fine_column_code_and_descs fc : fine (column_code_and_descs fc).
Proof.
  unfold column_code_and_descs. pose proof (xgboost_code "xgboost_extended" fc eq_refl) as Hc.
  destruct (xgboost_column fc) eqn:Hx; destruct Hc as [s ->]; [|done].
  apply xgboost_column_desc in Hx as [fd ->]. done.
Qed.

Lemma fine_derive fcs l : fine (deriveFeatureColumnCodeAndFieldDescs fcs l).
Proof.
  unfold deriveFeatureColumnCodeAndFieldDescs. apply fine_bind; [by destruct fcs|]. intros fs _.
  apply fine_bind; [apply fine_mapR; intros; apply fine_column_code_and_descs|]. intros ps _.
  apply fine_bind; [apply fine_numeric_field|done].
Qed.

Lemma fine_resolveFeatureMeta fds : fine (resolveFeatureMeta fds).
Proof. unfold resolveFeatureMeta. apply fine_bind; [by apply fine_json_map|done]. Qed.

Lemma updateIfKeyDoesNotExist_lookup current add k :
  updateIfKeyDoesNotExist current add !! k = match current !! k with Some v => Some v | None => add !! k end.
Proof.
  unfold updateIfKeyDoesNotExist.
  replace (add !! k) with ((list_to_map (range_map add) : attrs) !! k) by (by rewrite list_to_map_range_map).
  assert (NoDup (range_map add).*1) as Hnd by (rewrite range_map_perm; apply NoDup_fst_map_to_list).
  revert current Hnd. induction (range_map add) as [|[j v] l IH]; intros current; cbn.
  - intros _. rewrite lookup_empty. by destruct (current !! k).
  - intros [Hj Hnd]%NoDup_cons. rewrite IH by done. destruct (decide (j = k)) as [<-|Hk].
    + rewrite lookup_insert_eq. destruct (current !! j) eqn:Hc; [by rewrite Hc|]. by rewrite lookup_insert_eq.
    + rewrite lookup_insert_ne by done. destruct (current !! j) eqn:Hc; [done|]. by rewrite lookup_insert_ne.
Qed.

(** What stands behind [train.] and what does not. *)
Lemma parseAttribute_train a x : (parseAttribute a).2 !! x = a !! ("train." +:+ x)%string.
Proof.
  unfold parseAttribute.
  replace (a !! ("train." +:+ x)%string) with ((list_to_map (range_map a) : attrs) !! ("train." +:+ x)%string)
    by (by rewrite list_to_map_range_map).
  assert (NoDup (range_map a).*1) as Hnd by (rewrite range_map_perm; apply NoDup_fst_map_to_list).
  enough (∀ p, (foldl parse_one p (range_map a)).2 !! x =
    match (list_to_map (range_map a) : attrs) !! ("train." +:+ x)%string with Some v => Some v | None => p.2 !! x end) as Hp.
  { rewrite Hp. cbn [snd]. rewrite lookup_empty. by destruct (list_to_map _ !! _). }
  induction (range_map a) as [|[k v] l IH]; intros [m t]; cbn [foldl list_to_map foldr fst snd].
  - by rewrite lookup_empty.
  - cbn in Hnd. apply NoDup_cons in Hnd as [Hk Hnd]. rewrite (IH Hnd). cbn [parse_one].
    destruct (HasPrefix k "train.") eqn:Hp; cbn [snd].
    + apply HasPrefix_app in Hp as [y ->]. rewrite (str_drop_app 6 "train." y) by done.
      destruct (decide (y = x)) as [->|Hy].
      * rewrite lookup_insert_eq, not_elem_of_list_to_map_1 by done. by rewrite lookup_insert_eq.
      * rewrite (lookup_insert_ne _ ("train." +:+ y)%string) by (intros Heq; apply Hy; cbn in Heq; congruence). by rewrite lookup_insert_ne.
    + rewrite lookup_insert_ne; [done|]. intros ->. by rewrite (proj2 (HasPrefix_app _ _) (ex_intro _ x eq_refl)) in Hp.
Qed.

(** The attributes of the training in the dictionary. *)
Lemma attributeDictionary_train :
  (∃ d, attributeDictionary !! "train.disk_cache"%string = Some (mkDescription (Some boolType) (VBool false) d (Some (Bool_checker None)))) ∧
  (∃ d, attributeDictionary !! "train.batch_size"%string = Some (mkDescription (Some intType) (VInt (-1)) d (Some (Int_checker (at_least (-1)))))) ∧
  (∃ d, attributeDictionary !! "train.epoch"%string = Some (mkDescription (Some intType) (VInt 1) d (Some (Int_checker (at_least 1))))).
Proof. unfold attributeDictionary. split_and!; eexists; reflexivity. Qed.

Lemma fullAttrValidator_lookup k desc :
  attributeDictionary !! k = Some desc → fullAttrValidator !! k = Some desc.
Proof. apply lookup_union_Some_l. Qed.

Lemma int_checked lower v k :
  Int_checker (at_least lower) v k = Ok tt → ∃ z, v = VInt z ∧ lower ≤ z.
Proof.
  destruct v; cbn; try done. unfold run_checker, at_least, IntLowerBoundChecker.
  destruct ((lower <? z) || (true && (z =? lower))) eqn:Hz; [|done]. intros _. exists z. split; [done|lia].
Qed.

Lemma bool_checked v k : Bool_checker None v k = Ok tt → ∃ b, v = VBool b.
Proof. destruct v; cbn; try done. by eexists. Qed.

(** The training's attributes of an initialized statement. *)
Definition train_typed (a : attrs) : Prop :=
  (∃ b, a !! "train.disk_cache"%string = Some (VBool b)) ∧
  (∃ z, a !! "train.batch_size"%string = Some (VInt z) ∧ -1 ≤ z) ∧
  (∃ z, a !! "train.epoch"%string = Some (VInt z) ∧ 1 ≤ z).

Lemma xgb_initialized s s' :
  (∀ k, t_Attributes s !! k ≠ Some VNil) → xgb_InitializeAttributes s = Ok s' → train_typed (t_Attributes s').
Proof.
  intros Hnil (a & Ha & [= <-])%bind_Ok. cbn [t_Attributes set_Attributes].
  destruct attributeDictionary_train as ([d1 H1'] & [d2 H2'] & [d3 H3']).
  split_and!.
  - destruct (validated_typed _ _ _ _ _ _ (VBool false) _ _ Ha Hnil H1' eq_refl (fullAttrValidator_lookup _ _ H1') eq_refl)
      as (v & Hv & [z ->]%bool_checked). exists z. exact Hv.
  - destruct (validated_typed _ _ _ _ _ _ (VInt (-1)) _ _ Ha Hnil H2' eq_refl (fullAttrValidator_lookup _ _ H2') eq_refl)
      as (v & Hv & (z & -> & Hz)%int_checked). exists z. split; [exact Hv|exact Hz].
  - destruct (validated_typed _ _ _ _ _ _ (VInt 1) _ _ Ha Hnil H3' eq_refl (fullAttrValidator_lookup _ _ H3') eq_refl)
      as (v & Hv & (z & -> & Hz)%int_checked). exists z. split; [exact Hv|exact Hz].
Qed.

Lemma resolveModelParams_keeps est a a' k v :
  resolveModelParams est a = Ok a' → a !! k = Some v → a' !! k = Some v.
Proof.
  unfold resolveModelParams. destruct (default_attributes est) as [d|]; [|done]. intros [= <-] Hk.
  by rewrite updateIfKeyDoesNotExist_lookup, Hk.
Qed.

Lemma take_int_some t k d z : t !! k = Some (VInt z) → take_int t k d = Ok (z, delete k t).
Proof. intros Hk. unfold take_int. by rewrite Hk. Qed.

(** C34: A statement that the XGBoost generator has initialized has the parameters of the
    training that the generator asks for with type assertions: making the filler of the
    template ends without a panic, and the size of a batch, the epochs and the cache that it
    holds are the attributes of the statement, in their ranges. *)
Theorem newTrainFiller_initialized (pai : bool) (stmt stmt' : TrainStmt FieldDesc) (s : pb_Session) (save load : string) :
  columns_print → (∀ k, t_Attributes stmt !! k ≠ Some VNil) → xgb_InitializeAttributes stmt = Ok stmt' →
  fine (newTrainFiller pai stmt' s save load) ∧
  ∀ f, newTrainFiller pai stmt' s save load = Ok f →
    t_Attributes stmt' !! "train.disk_cache"%string = Some (VBool (DiskCache f)) ∧
    t_Attributes stmt' !! "train.batch_size"%string = Some (VInt (BatchSize f)) ∧ -1 ≤ BatchSize f ∧
    t_Attributes stmt' !! "train.epoch"%string = Some (VInt (Epoch f)) ∧ 1 ≤ Epoch f.
Proof.
  intros Hc Hnil Hi. destruct (xgb_initialized _ _ Hnil Hi) as ([b Hb] & (bs & Hbs & Hbs') & (ep & Hep & Hep')).
  unfold newTrainFiller. destruct (resolveModelParams _ _) as [a|e| |] eqn:Hr;
    [|by split|unfold resolveModelParams in Hr; by case_match..].
  ok_step. pose proof (parseAttribute_train a) as Ht. destruct (parseAttribute a) as [model train]. cbn [snd] in Ht.
  assert (train !! "disk_cache"%string = Some (VBool b)) as Hb1 by (rewrite Ht; by eapply resolveModelParams_keeps).
  assert (train !! "batch_size"%string = Some (VInt bs)) as Hbs1 by (rewrite Ht; by eapply resolveModelParams_keeps).
  assert (train !! "epoch"%string = Some (VInt ep)) as Hep1 by (rewrite Ht; by eapply resolveModelParams_keeps).
  rewrite Hb1. ok_step.
  rewrite (take_int_some _ _ _ bs) by (by rewrite lookup_delete_ne). ok_step.
  rewrite (take_int_some _ _ _ ep) by (by rewrite !lookup_delete_ne). ok_step.
  case_match; [by split|]. split.
  - apply fine_bind; [apply fine_derive|]. intros [[code descs] label] _.
    apply fine_bind; [by apply fine_json_map; intros; apply fine_json_attr|]. intros mp _.
    apply fine_bind; [by apply fine_json_map; intros; apply fine_json_attr|]. intros tp _.
    apply fine_bind; [apply fine_resolveFeatureMeta|by intros [f fs] _].
  - intros f ([[code descs] label] & _ & (mp & _ & (tp & _ & ([fj fs] & _ & [= <-])%bind_Ok)%bind_Ok)%bind_Ok)%bind_Ok.
    cbn. done.
Qed.
End fine.

(** A regressor with one column. *)
Definition demo_columns : FeatureColumn FieldDesc := NumericColumn (newFieldDesc "a" Int (Some [1])).
Definition demo_regressor : TrainStmt FieldDesc :=
  mkTrainStmt "" "SELECT * FROM t" "" "" "xgboost.xgbregressor" {[ "train.epoch"%string := VInt 3 ]}
    {[ "feature_columns"%string := [demo_columns] ]} (NumericColumn (newFieldDesc "y" Int (Some [1]))) "" "m" "" "".
#[export] Instance blank_columns : ColumnText := {| pointer_text _ := "&{}"%string; pointer_json _ := Ok "{}"%string |}.
#[export] Instance empty_env : CodegenEnv :=
  {| PremadeModelParamsDocs := ∅; XGBoostObjectiveDocs := {[ "reg:squarederror"%string := ""%string ]}; SQLFLOW_submitter := "" |}.
Definition demo_session : pb_Session := mkSession "" "mysql://x" false "" "" "" "" "" "" "" "".

Lemma newTrainFiller_initialized_witness :
  match xgb_InitializeAttributes demo_regressor with
  | Ok stmt' =>
    fine (newTrainFiller false stmt' demo_session "" "") ∧
    ∀ f, newTrainFiller false stmt' demo_session "" "" = Ok f → t_Attributes stmt' !! "train.epoch"%string = Some (VInt (Epoch f))
  | _ => False
  end.
Proof.
  destruct (xgb_InitializeAttributes demo_regressor) as [stmt'| | |] eqn:Hi; [|vm_compute in Hi; discriminate Hi..].
  destruct (newTrainFiller_initialized false demo_regressor stmt' demo_session "" "") as [Hfine Hf].
  - by intros c.
  - intros k Hk. change (({[ "train.epoch"%string := VInt 3 ]} : attrs) !! k = Some VNil) in Hk.
    by apply lookup_singleton_Some in Hk as [_ [=]].
  - exact Hi.
  - split; [exact Hfine|]. intros f Hn. apply (Hf f Hn).
Defined.

Example demo_filler :
  match xgb_InitializeAttributes demo_regressor ≫= λ s, newTrainFiller false s demo_session "" "" with
  | Ok f => (Epoch f, BatchSize f, TrainParamsJSON f) = (3, -1, "{" +:+ quoted "num_boost_round" +:+ ":10}")%string
  | _ => False
  end.
Proof. vm_compute. reflexivity. Qed.
