(* ===== verification/TfCode.v ===== *)
(** * What the TensorFlow generator fills its templates with (go/codegen/tensorflow/codegen.go)

    The attributes are split by their prefix, the columns of each target are printed; the
    records hold what the text templates get. *)

From S2P Require Import Prelude GoStrings FeatureColumn Attribute Ir ColumnCode AttrInit XgbCode.

Local Open Scope Z_scope.

Section tensorflow.
Context `{UnicodeTables} `{MapOrder} `{ColumnText}.

(** [strings.Replace(s, old, "", 1)] *)
Definition remove_first (s old : string) : string := ReplaceFirst s old "".

Definition categorize_one (params : attrs * attrs * attrs) (kv : string * attr) : attrs * attrs * attrs :=
  let '(trainParams, validateParams, modelParams) := params in
  let '(k, v) := kv in
  let put m prefix := if HasPrefix k prefix then <[remove_first k prefix := v]> m else m in
  (put trainParams "train.", put validateParams "validation.", put modelParams "model.").
Definition CategorizeAttributes (a : attrs) : attrs * attrs * attrs :=
  foldl categorize_one (∅, ∅, ∅) (range_map a).

(** The code of the columns of one target, and their descriptions, which are kept under the
    target if there are any. *)
Definition target_code (acc : list string * gmap string (list FieldDesc)) (tf : string * list (FeatureColumn FieldDesc))
    : result (list string * gmap string (list FieldDesc)) :=
  let '(featureColumnsCode, fieldDescs) := acc in
  let '(target, fcList) := tf in
  l ← mapR (λ fc, code ← GenerateFeatureColumnCode "tf" fc; ds ← GetFieldDesc fc; Ok (code, map desc_of ds)) fcList;
  let descs := concat l.*2 in
  Ok (featureColumnsCode ++ [(quoted target +:+ ": [" +:+ Join l.*1 ("," +:+ nl) +:+ "]")%string],
      match descs with [] => fieldDescs | _ => <[target := descs]> fieldDescs end).
Definition tf_DeriveFeatureColumnCodeAndFieldDescs (trainStmt : TrainStmt FieldDesc)
    : result (list string * gmap string (list FieldDesc)) :=
  foldM target_code ([], ∅) (range_map (Features trainStmt)).

Definition column_map_code (codes : list string) : string := ("{" +:+ Join codes ("," +:+ nl) +:+ "}")%string.
Definition first_desc (c : FeatureColumn FieldDesc) : result FieldDesc :=
  ds ← GetFieldDesc c; d ← index ds 0; Ok (desc_of d).

Record tf_trainFiller := mkTfTrainFiller {
  tt_DataSource : string; tt_TrainSelect : string; tt_ValidationSelect : string; tt_Estimator : string;
  tt_FieldDescs : gmap string (list FieldDesc); tt_FeatureColumnCode : string; tt_Y : FieldDesc;
  tt_ModelParams : attrs; tt_TrainParams : attrs; tt_ValidationParams : attrs; tt_Save : string;
  tt_LoadPreTrainedModel : bool; tt_IsPAI : bool; tt_PAITrainTable : string; tt_PAIValidateTable : string;
  tt_ModelRepoImage : string; tt_OriginalSQL : string
}.
Definition tf_Train_filler (pai : bool) (trainStmt : TrainStmt FieldDesc) (s : pb_Session) : result tf_trainFiller :=
  let '(trainParams, validateParams, modelParams) := CategorizeAttributes (t_Attributes trainStmt) in
  '(codes, descs) ← tf_DeriveFeatureColumnCodeAndFieldDescs trainStmt;
  y ← first_desc (t_Label trainStmt);
  let table := pai_table pai (TmpTrainTable trainStmt) in
  Ok (mkTfTrainFiller (DbConnStr s) (t_Select trainStmt) (ValidationSelect trainStmt) (t_Estimator trainStmt) descs
        (column_map_code codes) y modelParams trainParams validateParams "model_save"
        (negb (bool_decide (PreTrainedModel trainStmt = ""%string))) pai (table (TmpTrainTable trainStmt))
        (table (TmpValidateTable trainStmt)) (ModelImage trainStmt) (t_OriginalSQL trainStmt)).

(** The parameters of the model that a training statement carries. *)
Definition model_params (a : attrs) : attrs :=
  foldl (λ m '(k, v), if HasPrefix k "model." then <[remove_first k "model." := v]> m else m) ∅ (range_map a).
Definition restoreModel (stmt : option (TrainStmt FieldDesc))
    : result (attrs * list string * gmap string (list FieldDesc)) :=
  t ← or_panic stmt;
  '(codes, descs) ← tf_DeriveFeatureColumnCodeAndFieldDescs t;
  Ok (model_params (t_Attributes t), codes, descs).

Record tf_predFiller := mkTfPredFiller {
  tp_DataSource : string; tp_Select : string; tp_ResultTable : string; tp_Estimator : string;
  tp_FieldDescs : gmap string (list FieldDesc); tp_FeatureColumnCode : string; TrainLabelMeta : FieldDesc;
  PredLabelMeta : FieldDesc; tp_ModelParams : attrs; PredParams : attrs; tp_Save : string;
  tp_HDFSNameNodeAddr : string; tp_HiveLocation : string; tp_HDFSUser : string; tp_HDFSPass : string
}.
Definition tf_Pred_filler (predStmt : PredictStmt FieldDesc) (s : pb_Session) : result tf_predFiller :=
  '(modelParams, codes, descs) ← restoreModel (p_TrainStmt predStmt);
  t ← or_panic (p_TrainStmt predStmt);
  label ← first_desc (t_Label t);
  Ok (mkTfPredFiller (DbConnStr s) (p_Select predStmt) (ResultTable predStmt) (t_Estimator t) descs (column_map_code codes)
        label (result_desc (ResultColumn predStmt) label) modelParams (resolveParams (p_Attributes predStmt) "predict.")
        "model_save" (HdfsNamenodeAddr s) (HiveLocation s) (HdfsUser s) (HdfsPass s)).

Record tf_explainFiller := mkTfExplainFiller {
  tx_DataSource : string; tx_Select : string; SummaryParams : string; EstimatorClass : string;
  tx_FieldDescs : gmap string (list FieldDesc); tx_FeatureColumnCode : string; tx_Y : FieldDesc;
  tx_ModelParams : attrs; tx_Save : string; tx_ResultTable : string;
  tx_HDFSNameNodeAddr : string; tx_HiveLocation : string; tx_HDFSUser : string; tx_HDFSPass : string
}.
Definition tf_Explain_filler (stmt : ExplainStmt FieldDesc) (s : pb_Session) : result tf_explainFiller :=
  '(modelParams, codes, descs) ← restoreModel (e_TrainStmt stmt);
  t ← or_panic (e_TrainStmt stmt);
  label ← first_desc (t_Label t);
  summary ← json_map json_attr (resolveParams (e_Attributes stmt) "summary.");
  Ok (mkTfExplainFiller (DbConnStr s) (e_Select stmt) summary (t_Estimator t) descs (column_map_code codes) label
        modelParams "model_save" (e_Into stmt) (HdfsNamenodeAddr s) (HiveLocation s) (HdfsUser s) (HdfsPass s)).

Record tf_evaluateFiller := mkTfEvaluateFiller {
  te_DataSource : string; te_Select : string; te_ResultTable : string; te_Estimator : string;
  te_FieldDescs : gmap string (list FieldDesc); te_FeatureColumnCode : string; te_Y : FieldDesc;
  te_ModelParams : attrs; te_ValidationParams : attrs; te_Save : string;
  te_HDFSNameNodeAddr : string; te_HiveLocation : string; te_HDFSUser : string; te_HDFSPass : string
}.
Definition tf_Evaluate_filler (stmt : EvaluateStmt FieldDesc) (s : pb_Session) : result tf_evaluateFiller :=
  '(modelParams, codes, descs) ← restoreModel (v_TrainStmt stmt);
  t ← or_panic (v_TrainStmt stmt);
  label ← first_desc (t_Label t);
  let vp := resolveParams (v_Attributes stmt) "validation." in
  let vp := if decide (size vp = 0%nat) then <["metrics"%string := VString "Accuracy"]> vp else vp in
  Ok (mkTfEvaluateFiller (DbConnStr s) (v_Select stmt) (v_Into stmt) (t_Estimator t) descs (column_map_code codes) label
        modelParams vp "model_save" (HdfsNamenodeAddr s) (HiveLocation s) (HdfsUser s) (HdfsPass s)).

(** ** The split of the attributes *)

Lemma remove_first_prefix p x : remove_first (p +:+ x) p = x.
Proof.
  unfold remove_first, ReplaceFirst, SplitN2.
  assert (Index (p +:+ x) p = Some 0%nat) as ->.
  { assert (HasPrefix (p +:+ x) p = true) as Hp by (apply HasPrefix_app; by exists x).
    destruct (p +:+ x)%string; cbn [Index]; by rewrite Hp. }
  cbn [str_take]. rewrite Nat.add_0_l, str_drop_app by done. done.
Qed.

(** A loop that takes the entries with a prefix, without it. *)
Definition behind (prefix : string) (l : list (string * attr)) (m : attrs) : attrs :=
  foldl (λ m '(k, v), if HasPrefix k prefix then <[remove_first k prefix := v]> m else m) m l.

Lemma behind_lookup prefix (l : list (string * attr)) m x :
  NoDup l.*1 → behind prefix l m !! x =
  match (list_to_map l : attrs) !! (prefix +:+ x)%string with Some v => Some v | None => m !! x end.
Proof.
  unfold behind. revert m. induction l as [|[k v] l IH]; intros m; cbn [foldl list_to_map foldr fst snd].
  - by rewrite lookup_empty.
  - intros [Hk Hnd]%NoDup_cons. rewrite (IH _ Hnd). destruct (HasPrefix k prefix) eqn:Hp.
    + apply HasPrefix_app in Hp as [y ->]. rewrite remove_first_prefix. destruct (decide (y = x)) as [->|Hy].
      * rewrite lookup_insert_eq, not_elem_of_list_to_map_1 by done. by rewrite lookup_insert_eq.
      * rewrite (lookup_insert_ne _ (prefix +:+ y)%string), lookup_insert_ne; [done..|].
        intros Heq. apply Hy. apply (f_equal (str_drop (str_len prefix))) in Heq. by rewrite !str_drop_app in Heq.
    + rewrite lookup_insert_ne; [done|]. intros ->. by rewrite (proj2 (HasPrefix_app _ _) (ex_intro _ x eq_refl)) in Hp.
Qed.

Lemma behind_range prefix (a : attrs) x : behind prefix (range_map a) ∅ !! x = a !! (prefix +:+ x)%string.
Proof.
  rewrite behind_lookup by (rewrite range_map_perm; apply NoDup_fst_map_to_list).
  rewrite list_to_map_range_map, lookup_empty. by destruct (a !! _).
Qed.

Lemma CategorizeAttributes_behind a :
  CategorizeAttributes a = (behind "train." (range_map a) ∅, behind "validation." (range_map a) ∅, behind "model." (range_map a) ∅).
Proof.
  unfold CategorizeAttributes, behind.
  enough (∀ l t v m, foldl categorize_one (t, v, m) l =
    (behind "train." l t, behind "validation." l v, behind "model." l m)) as -> by done.
  unfold behind. induction l as [|[k x] l IH]; intros t v m; [done|]. cbn [foldl]. by rewrite <- IH.
Qed.

(** [CategorizeAttributes] and [restoreModel] split the attributes by their prefix, in every
    order of the iteration: under a name in each part is exactly the attribute with the prefix
    in front of that name. *)
Theorem CategorizeAttributes_lookup (a : attrs) (x : string) :
  let '(train, validation, model) := CategorizeAttributes a in
  train !! x = a !! ("train." +:+ x)%string ∧ validation !! x = a !! ("validation." +:+ x)%string ∧
  model !! x = a !! ("model." +:+ x)%string ∧ model_params a = model.
Proof. rewrite CategorizeAttributes_behind. by rewrite !behind_range. Qed.
End tensorflow.
