(* ===== verification/IRParse.v ===== *)
(** * From clauses to the intermediate representation (go/ir/ir_generator.go)

    The parsers of expressions, feature columns and field descriptions and the
    generators that need no database.  The functions of the source call each other
    through [parseExpression] and [parseFeatureColumn]; here the two are variables of the
    section, and the knot is tied with fuel at its end ([parse_fuel] is enough). *)

From S2P Require Import Prelude GoStrings GoFloat Lexer Syntax FeatureColumn Ir.

Local Open Scope Z_scope.

Notation val := (value FieldDesc).
Notation column := (FeatureColumn FieldDesc).

Section parsers.
Context `{UnicodeTables}.

Definition inferStringValue (expr : string) : val :=
  match Atoi expr with
  | Some z => VInt z
  | None =>
    match ParseFloat32 expr with
    | Some f => VFloat f
    | None =>
      if decide (ToUpper expr = "TRUE"%string) then VBool true
      else if decide (ToUpper expr = "FALSE"%string) then VBool false
      else VString (TrimByte (TrimByte expr (of_byte 34)) "'")
    end
  end.

Definition expected_string : error := Errorf "expression expected to be string, actual: %s" [].
Definition expression2string (e : Expr) : result string :=
  match Type_ e, inferStringValue (Value e) with
  | Some _, VString s => Ok s
  | _, _ => Fail expected_string
  end.

Definition not_int (fmt : string) : error := Errorf fmt [].
Definition transformToIntList (l : list val) : result (list Z) :=
  mapR (λ v, match v with VInt z => Ok z | _ => Fail (not_int "type is not int: %s") end) l.

Definition resolveDelimiter (delimiter : string) : string :=
  if EqualFold delimiter "COMMA" then "," else delimiter.

Definition parseDefaultNumericColumn (el : Expr) : result column :=
  key ← expression2string el;
  Ok (NumericColumn (newFieldDesc key Float (Some [1]))).

Definition bad (fmt : string) (args : list string) : error := Errorf fmt args.

(** [strconv.Atoi] of a text of the expression, with an error of its own. *)
Definition atoi (fmt : string) (e : Expr) : result Z :=
  or_fail (Atoi (Value e)) (bad fmt [Value e]).

Variable parseExpression : Expr → result val.
Variable parseFeatureColumn : list Expr → result column.

Definition parseShape (e : Expr) : result (list Z) :=
  match Atoi (Value e) with
  | Some z => Ok [z]
  | None =>
    v ← parseExpression e;
    match v with
    | VList l => wrapf "bad shape: %s, err: %s" [Value e] (transformToIntList l)
    | _ => Fail (bad "bad shape: %s, err: %s" [Value e])
    end
  end.

Definition fieldDesc_format : error := bad "bad DENSE|SPARSE format: %v, should be like: %s"
  ["DENSE|SPARSE(col_name[, SHAPE, DELIMITER, DTYPE, DELIMITER_KV, DTYPE_KEY])"]%string.

Definition parse_shape_field (head : string) (v : val) : result (list Z) :=
  match v with
  | VInt z => Ok [z]
  | VList l => mapR (λ v, match v with VInt z => Ok z | _ => Fail (bad "bad %s shape: %v" [head]) end) l
  | VString s => if decide (s = "none"%string) then Ok [] else Fail (bad "bad %s shape: %s" [head; s])
  | _ => Fail (bad "bad %s shape: %v" [head])
  end.

Definition parse_dtype (head s : string) : result DataType :=
  if EqualFold s "float" then Ok Float
  else if EqualFold s "int" then Ok Int
  else if EqualFold s "string" then Ok Str
  else Fail (bad "bad %s data value type %s" [head; s]).

(** An argument that may be left out. *)
Definition optional {A} (o : option Expr) (dflt : A) (f : Expr → result A) : result A :=
  match o with Some e => f e | None => Ok dflt end.

Definition parseFieldDesc (el : list Expr) : result FieldDesc :=
  if decide (length el < 2 ∨ 7 < length el)%nat then Fail fieldDesc_format
  else
    e0 ← index el 0;
    e1 ← index el 1;
    call ← wrapf "bad DENSE|SPARSE format: %v, should be like: %s" [] (expression2string e0);
    let head := ToUpper call in
    isSparse ←
      (if decide (head = "DENSE"%string) then Ok false
       else if decide (head = "SPARSE"%string) then Ok true else Fail fieldDesc_format);
    name ← wrapf "bad %s name: %s, err: %s" [head] (expression2string e1);
    shape ← optional (el !! 2%nat) [] (λ e,
      v ← wrapf "bad %s shape: %v, err: %s" [head] (parseExpression e); parse_shape_field head v);
    delimiter ← optional (el !! 3%nat) ""%string (λ e,
      s ← wrapf "bad %s delimiter: %s, err: %s" [head] (expression2string e);
      Ok (resolveDelimiter s));
    dtype ← optional (el !! 4%nat) Float (λ e,
      s ← expression2string e;
      t ← parse_dtype head s;
      if bool_decide (6 ≤ length el)%nat && negb (bool_decide (t = Int)) then
        Fail (bad "when the column of a key-value list format, the key data type must be int, but got %s" [s])
      else Ok t);
    delimiterKV ← optional (el !! 5%nat) ""%string expression2string;
    dtypeWeight ← optional (el !! 6%nat) Float (λ e,
      s ← expression2string e;
      if EqualFold s "float" then Ok Float
      else Fail (bad "bad %s weight type %s, support float for weight only" [head; s]));
    Ok (mkFieldDesc name dtype dtypeWeight delimiter delimiterKV "" (Some shape) isSparse None 0).

Definition parseNumericColumn (el : list Expr) : result column :=
  fd ← parseFieldDesc el; Ok (NumericColumn fd).

Definition strictly_ascending (b : list Z) : bool :=
  forallb (λ xy, xy.1 <? xy.2) (zip b (tail b)).

Definition bucket_key : error := bad "key of BUCKET must be DENSE or column name, which is %s" [].

Definition parseBucketColumn (el : list Expr) : result column :=
  match el with
  | [_; src; boundaries] =>
    source ←
      (match Type_ src with
       | Some _ => catch (parseDefaultNumericColumn src) (λ _, Fail bucket_key)
       | None => catch (parseFeatureColumn (Sexp src)) (λ _, Fail bucket_key)
       end);
    match source with
    | NumericColumn fd =>
      b ← wrapf "bad BUCKET boundaries: %s" [] (parseShape boundaries);
      if strictly_ascending b then Ok (BucketColumn fd b)
      else Fail (bad "BUCKET boundaries should be in strictly ascending order, but got: %d" [])
    | _ => Fail bucket_key
    end
  | _ => Fail (bad "bad BUCKET expression format: %s, should be like: %s"
                 ["BUCKET([DENSE(...)|col_name], BOUNDARIES)"%string])
  end.

Definition cross_format : error := bad "bad CROSS expression format: %s, should be like: %s"
  ["CROSS([column_1, column_2], HASH_BUCKET_SIZE)"%string].

Definition parseCrossColumn (el : list Expr) : result column :=
  match el with
  | [_; keysExpr; size] =>
    key ← parseExpression keysExpr;
    match key with
    | VList keys =>
      bucketSize ← atoi "bad CROSS bucketSize: %s, err: %s" size;
      Ok (CrossColumn keys bucketSize)
    | _ => Fail cross_format
    end
  | _ => Fail cross_format
  end.

(** The common part of CATEGORY_ID, SEQ_CATEGORY_ID and CATEGORY_HASH. *)
Definition parse_category (kind help : string) (el : list Expr) : result (FieldDesc * Z) :=
  if negb (bool_decide (length el = 3 ∨ length el = 4)%nat) then
    Fail (bad ("bad " +:+ kind +:+ " expression format: %s, should be like: %s") [help])
  else
    e1 ← index el 1;
    e2 ← index el 2;
    fieldDesc ←
      (match Type_ e1 with
       | None => parseFieldDesc (Sexp e1)
       | Some _ =>
         key ← wrapf ("bad " +:+ kind +:+ " key: %s, err: %s") [] (expression2string e1);
         Ok (newFieldDesc (ToLower key) Int None)
       end);
    bucketSize ← atoi ("bad " +:+ kind +:+ " bucketSize: %s, err: %s") e2;
    Ok (fieldDesc, bucketSize).

Definition parseCategoryIDColumn (el : list Expr) : result column :=
  '(fd, n) ← parse_category "CATEGORY_ID" "CATEGORY_ID([DENSE()|SPARSE()|col_name], BUCKET_SIZE)" el;
  Ok (CategoryIDColumn fd n).
Definition parseSeqCategoryIDColumn (el : list Expr) : result column :=
  '(fd, n) ← parse_category "SEQ_CATEGORY_ID" "SEQ_CATEGORY_ID([DENSE()|SPARSE()|col_name], BUCKET_SIZE)" el;
  Ok (SeqCategoryIDColumn fd n).
Definition parseCategoryHashColumn (el : list Expr) : result column :=
  '(fd, n) ← parse_category "CATEGORY_HASH" "CATEGORY_HASH([DENSE()|SPARSE()|col_name], BUCKET_SIZE)" el;
  Ok (CategoryHashColumn fd n).

(** The category column, nil for a column name, and the name. *)
Definition buildCategoryIDForEmbeddingOrIndicator (el : list Expr) : result (option column * string) :=
  src ← index el 1;
  match Type_ src with
  | Some _ =>
    name ← wrapf "bad INDICATOR/EMBEDDING key: %s, err: %s" [] (expression2string src);
    Ok (None, name)
  | None =>
    source ← parseFeatureColumn (Sexp src);
    match source with
    | NumericColumn fd =>
      match Shape fd with
      | Some (n :: _) =>
        if decide (DelimiterKV fd = ""%string) then Ok (Some (CategoryIDColumn fd n), ""%string)
        else Ok (Some (WeightedCategoryColumn (Some (CategoryIDColumn fd n)) (Name fd)), ""%string)
      | _ => Fail (bad "invalid FieldDesc Shape: %v" [])
      end
    | _ =>
      if is_CategoryColumn source then Ok (Some source, ""%string)
      else Fail (bad "key of EMBEDDING must be categorical column" [])
    end
  end.

Definition parseWeightedCategoryColumn (el : list Expr) : result column :=
  let help := "WEIGHTED_CATEGORY([CATEGORY_ID(...)|CATEGORY_HASH(...)])"%string in
  if negb (bool_decide (length el = 2%nat)) then
    Fail (bad "bad WEIGHTED_CATEGORY expression format: %s, should be like: %s" [help])
  else
    '(catColumn, colName) ← buildCategoryIDForEmbeddingOrIndicator el;
    match catColumn with
    | None => Fail (bad "must use specify category column type when using WEIGHTED_CATEGORY like %s" [help])
    | Some _ => Ok (WeightedCategoryColumn catColumn colName)
    end.

Definition parseEmbeddingColumn (el : list Expr) : result column :=
  if decide (length el < 3 ∨ 5 < length el)%nat then
    Fail (bad "bad EMBEDDING expression format: %s, should be like: %s"
            ["EMBEDDING([CATEGORY_ID(...)|col_name], SIZE[, COMBINER, INITIALIZER])"%string])
  else
    '(catColumn, colName) ← buildCategoryIDForEmbeddingOrIndicator el;
    e2 ← index el 2;
    dimension ← atoi "bad EMBEDDING dimension: %s, err: %s" e2;
    combiner ← optional (el !! 3%nat) "sum"%string (λ e,
      wrapf "bad EMBEDDING combiner: %s, err: %s" [] (expression2string e));
    initializer ← optional (el !! 4%nat) ""%string (λ e,
      wrapf "bad EMBEDDING initializer: %s, err: %s" [] (expression2string e));
    Ok (EmbeddingColumn catColumn dimension combiner initializer colName).

Definition parseIndicatorColumn (el : list Expr) : result column :=
  if decide (length el < 2 ∨ 3 < length el)%nat then
    Fail (bad "bad INDICATOR expression format: %s, should be like: %s"
            ["INDICATOR(CATEGORY_ID(...)|CATEGORY_HASH(...)|col_name])"%string])
  else
    '(catColumn, colName) ← buildCategoryIDForEmbeddingOrIndicator el;
    Ok (IndicatorColumn catColumn colName).

(** The body of [parseFeatureColumn]. *)
Definition parse_column_body (el : list Expr) : result column :=
  e0 ← index el 0;
  let head := Value e0 in
  if decide (head = ""%string) then
    Fail (bad "column description expects format like DENSE(key) etc, got %v" [])
  else
    let h := ToUpper head in
    if decide (h = "DENSE" ∨ h = "SPARSE")%string then parseNumericColumn el
    else if decide (h = "BUCKET"%string) then parseBucketColumn el
    else if decide (h = "CROSS"%string) then parseCrossColumn el
    else if decide (h = "CATEGORY_ID"%string) then parseCategoryIDColumn el
    else if decide (h = "SEQ_CATEGORY_ID"%string) then parseSeqCategoryIDColumn el
    else if decide (h = "CATEGORY_HASH"%string) then parseCategoryHashColumn el
    else if decide (h = "EMBEDDING"%string) then parseEmbeddingColumn el
    else if decide (h = "INDICATOR"%string) then parseIndicatorColumn el
    else if decide (h = "WEIGHTED_CATEGORY"%string) then parseWeightedCategoryColumn el
    else Fail (bad "not supported expr: %s" [head]).

(** The body of [parseExpression] on an [*ExprList]; [parse_list] stands for the
    recursive call with an [*ExprList]. *)
Variable parse_list : list Expr → result val.

Definition parse_item (expr : Expr) : result val :=
  match Sexp expr with
  | [] => Ok (match Atoi (Value expr) with Some z => VInt z | None => VString (Value expr) end)
  | s =>
    match s with
    | [op; num] =>
      if decide (Value op = "-"%string) then
        match Atoi (Value num) with
        | Some z => Ok (VInt (wrap64 (- z)))
        | None => parse_list s
        end
      else parse_list s
    | _ => parse_list s
    end
  end.

Definition parse_list_body (el : list Expr) : result val :=
  e0 ← index el 0;
  if decide (Type_ e0 = Some IDENT) then c ← parseFeatureColumn el; Ok (VColumn c)
  else if decide (Type_ e0 = Some tok_lbracket) then
    l ← mapR parse_item (tail el); Ok (VList l)
  else Fail (bad "not supported expr: %v" []).
End parsers.

(** ** Tying the knot *)

Definition list_size (el : list Expr) : nat := sum_list_with Expr_size el.
Definition parse_fuel (el : list Expr) : nat := 2 * list_size el + 2.

Section knot.
Context `{UnicodeTables}.

(** [parseExpression] on an [*Expr], given the function on an [*ExprList]. *)
Definition expr_with (parse_list : list Expr → result val) (e : Expr) : result val :=
  match Type_ e with
  | Some _ => Ok (inferStringValue (Value e))
  | None => parse_list (Sexp e)
  end.

Fixpoint parse_column_n (fuel : nat) (el : list Expr) : result column :=
  match fuel with
  | O => NoFuel
  | S fuel => parse_column_body (expr_with (parse_list_n fuel)) (parse_column_n fuel) el
  end
with parse_list_n (fuel : nat) (el : list Expr) : result val :=
  match fuel with
  | O => NoFuel
  | S fuel => parse_list_body (parse_column_n fuel) (parse_list_n fuel) el
  end.

Definition parseFeatureColumn (el : list Expr) : result column := parse_column_n (parse_fuel el) el.
Definition parseExpression (e : Expr) : result val :=
  expr_with (λ el, parse_list_n (parse_fuel el) el) e.
End knot.

(** ** Generators that need no database *)

Section generators.
Context `{UnicodeTables} `{MapOrder}.

(** The keys of a map are distinct, so the test for a duplicate never fires. *)
Definition generateAttributeIR (attrs : Attributes) : result (attributes FieldDesc) :=
  foldM (λ ret kv,
      v ← parseExpression kv.2;
      match ret !! kv.1 with
      | Some _ => Fail (bad "duplicate attribute: %v=%v" [kv.1])
      | None => Ok (<[kv.1 := v]> ret)
      end) ∅ (range_map attrs).

(** A column name, or a function call that describes a column. *)
Definition generate_column (colExpr : Expr) : result column :=
  match Type_ colExpr with
  | Some _ => Ok (NumericColumn (newFieldDesc (Value colExpr) Float (Some [1])))
  | None => wrapf "parse FeatureColumn failed: %v" [] (parseFeatureColumn (Sexp colExpr))
  end.
Definition generate_columns (columns : columnClause) : result (features FieldDesc) :=
  foldM (λ fcMap tl, fcList ← mapR generate_column tl.2; Ok (<[tl.1 := fcList]> fcMap)) ∅
    (range_map columns).

Definition parseValidationSelect (attrs : attributes FieldDesc) : result string :=
  match attrs !! "validation.select"%string with
  | Some (VString s) => Ok s
  | _ => Fail (bad "validation.select not found" [])
  end.

(** [modelParts[0:len-1]] joined and [modelParts[len-1]]. *)
Definition split_model_uri (uri : string) : string * string :=
  let parts := Split uri "/" in
  (Join (removelast parts) "/", List.last parts "").

Definition GenerateTrainStmt (slct : SQLFlowSelectStmt) : result (TrainStmt FieldDesc) :=
  let tc := train slct in
  let '(modelImageName, modelName) := split_model_uri (Estimator tc) in
  attrList ← generateAttributeIR (TrainAttrs tc);
  fcMap ← generate_columns (Columns tc);
  let label := NumericColumn (newFieldDesc (Label tc) Int (Some [1])) in
  let vslct := match parseValidationSelect attrList with Ok s => s | _ => ""%string end in
  Ok (mkTrainStmt "" (origin slct) vslct modelImageName modelName attrList fcMap label
        (TrainUsing tc) (Save tc) "" "").

Definition parseResultTable (intoStatement : string) : result (string * string) :=
  match Split intoStatement "." with
  | [db; table; col] => Ok (Join [db; table] ".", col)
  | [table; col] => Ok (table, col)
  | _ => Fail (bad "invalid result table format, should be [db.table.class_col] or [table.class_col]" [])
  end.

Definition GenerateShowTrainStmt (showTrain : SQLFlowSelectStmt) : result ShowTrainStmt :=
  Ok (mkShowTrainStmt "" (ModelName showTrain)).

Definition string_attribute (what : string) (v : val) : result string :=
  match v with VString s => Ok s | _ => Fail (bad "%s must be string, but got %T" [what]) end.

(** [name(v1, v2)] or [v1, v2]: the variables in the parentheses and the name. *)
Definition split_variables (varsStr : string) : result (string * string) :=
  match Index varsStr "(" with
  | None => Ok (TrimSpace varsStr, ""%string)
  | Some idx =>
    match str_get (str_len varsStr - 1) varsStr with
    | None => Panic
    | Some c =>
      if decide (c = ")"%char) then
        inner ← slice (idx + 1) (str_len varsStr - 1) varsStr;
        Ok (TrimSpace inner, TrimSpace (str_take idx varsStr))
      else Fail (bad "invalid format of variables attributes %s" [varsStr])
    end
  end.

Definition check_result_name (varList : list string) (resultName : string)
    : result (list string * string) :=
  let resultName :=
    match varList with
    | [v] => if decide (resultName = ""%string) then v else resultName
    | _ => resultName
    end in
  if decide (1 < length varList)%nat then
    if decide (resultName = ""%string) then
      Fail (bad "result name must be provided when there are multiple variables" [])
    else if decide (resultName ∈ varList) then
      Fail (bad "result name should not have same name with the selected columns" [])
    else Ok (varList, resultName)
  else Ok (varList, resultName).

Definition getOptimizeVariablesAndResultValueName (optimizeStmt : SQLFlowSelectStmt)
    : result (list string * string) :=
  varsExpr ← or_fail (OptimizeAttrs (optimize optimizeStmt) !! "variables"%string)
    (bad "%s must be provided inside WITH statement of optimize clause" ["variables"%string]);
  parsedVarsExpr ← parseExpression varsExpr;
  varsStr ← (match parsedVarsExpr with
             | VString s => Ok s
             | _ => Fail (bad "variables must be string but got %T" [])
             end);
  '(varsStr, resultName) ← split_variables (TrimSpace varsStr);
  varList ← mapR (λ v,
      let v := TrimSpace v in
      if decide (v = ""%string) then Fail (bad "variable name is empty" []) else Ok v)
    (Split varsStr ",");
  check_result_name varList resultName.

Definition GenerateOptimizeStmt (optimizeStmt : SQLFlowSelectStmt) : result (OptimizeStmt FieldDesc) :=
  let oc := optimize optimizeStmt in
  '(vars, resultValueName) ← getOptimizeVariablesAndResultValueName optimizeStmt;
  varTypeExpr ← or_fail (OptimizeAttrs oc !! "var_type"%string)
    (bad "%s must be provided in optimize clause" ["var_type"%string]);
  varType ← parseExpression varTypeExpr;
  varTypeStr ← string_attribute "var_type" varType;
  attrs ← foldM (λ attrs kv,
      if decide (kv.1 = "variables" ∨ kv.1 = "var_type")%string then Ok attrs
      else v ← parseExpression kv.2; Ok (<[kv.1 := v]> attrs)) ∅ (range_map (OptimizeAttrs oc));
  objective ← (match Objective oc with Some e => ToTokens e | None => Panic end);
  constraints ← mapR (λ c, ts ← ToTokens (c_expr c); Ok (mkOptimizeExpr ts (GroupBy c)))
    (Constraints oc);
  let solver := if decide (Solver oc = ""%string) then "glpk"%string else Solver oc in
  Ok (mkOptimizeStmt "" (origin optimizeStmt) vars resultValueName varTypeStr attrs
        (mkOptimizeExpr objective "") (ToLower (Direction oc)) constraints solver (OptimizeInto oc)).

Definition GenerateRunStmt (slct : SQLFlowSelectStmt) : result RunStmt :=
  let rc := run slct in
  Ok (mkRunStmt "" (TrimSpace (origin slct)) (ImageName rc) (Parameters_ rc)
        (Join (OutputTables rc) ",")).
End generators.

(** ** Termination *)

(** Every compound node has a head, as the grammar's actions build it. *)
Fixpoint headed (e : Expr) : bool :=
  match e with
  | mkExpr t _ l => (bool_decide (is_Some t) || negb (bool_decide (l = []))) && forallb headed l
  end.

Lemma headed_Sexp e : headed e = true → Forall (λ x, headed x = true) (Sexp e).
Proof.
  destruct e as [t v l]. simpl. intros [_ Hl]%andb_true_iff. rewrite forallb_forall in Hl.
  apply Forall_forall. intros x Hx. by apply Hl, list_elem_of_In.
Qed.

Lemma headed_head e : headed e = true → Type_ e = None → Sexp e ≠ [].
Proof.
  destruct e as [t v l]. simpl. intros [Ht _]%andb_true_iff ->.
  apply orb_true_iff in Ht as [Ht|Ht]; [by apply bool_decide_eq_true in Ht as [??]|].
  by apply negb_true_iff, bool_decide_eq_false in Ht.
Qed.

Lemma list_size_elem x el : x ∈ el → (Expr_size x ≤ list_size el)%nat.
Proof.
  induction el as [|y el IH]; [by intros ?%not_elem_of_nil|].
  unfold list_size in *. simpl. intros [->|Hx]%elem_of_cons; [lia|]. specialize (IH Hx). lia.
Qed.

Lemma Sexp_size x : (list_size (Sexp x) < Expr_size x)%nat.
Proof. destruct x as [t v l]. unfold list_size. simpl. lia. Qed.

Section fine_bodies.
Context `{UnicodeTables}.
Variable n : nat.
Variable pe : Expr → result val.
Variable pfc : list Expr → result column.
Hypothesis Hpe : ∀ x, headed x = true → (Expr_size x ≤ n)%nat → fine (pe x).
Hypothesis Hpfc : ∀ l, l ≠ [] → Forall (λ x, headed x = true) l → (list_size l < n)%nat → fine (pfc l).

Definition args_ok (el : list Expr) : Prop :=
  el ≠ [] ∧ Forall (λ x, headed x = true) el ∧ (list_size el ≤ n)%nat.

Lemma args_ok_elem el x : args_ok el → x ∈ el → headed x = true ∧ (Expr_size x ≤ n)%nat.
Proof using Type.
  intros (_ & Hh & Hs) Hx. split; [by eapply Forall_forall in Hh|].
  apply list_size_elem in Hx. lia.
Qed.

Lemma args_ok_Sexp el x :
  args_ok el → x ∈ el → Type_ x = None → args_ok (Sexp x) ∧ (list_size (Sexp x) < n)%nat.
Proof using Type.
  intros Hok Hx Ht. destruct (args_ok_elem _ _ Hok Hx) as [Hh Hs]. pose proof (Sexp_size x).
  split; [|lia]. split_and!; [by apply headed_head|by apply headed_Sexp|lia].
Qed.

Lemma fine_expression2string e : fine (expression2string e).
Proof using Type. unfold expression2string. by repeat case_match. Qed.
#[local] Hint Resolve fine_expression2string : go.

Lemma fine_optional {A} el i (d : A) f :
  args_ok el → (∀ x, headed x = true → (Expr_size x ≤ n)%nat → fine (f x)) →
  fine (optional (el !! i) d f).
Proof using Type.
  intros Hok Hf. unfold optional. destruct (el !! i) as [x|] eqn:Hx; [|exact I].
  apply list_elem_of_lookup_2 in Hx. destruct (args_ok_elem _ _ Hok Hx). auto.
Qed.

Lemma fine_shape_field head v : fine (parse_shape_field head v).
Proof using Type.
  unfold parse_shape_field. repeat case_match; try exact I. apply fine_mapR. intros w _. by destruct w.
Qed.
Lemma fine_dtype head s : fine (parse_dtype head s).
Proof using Type. unfold parse_dtype. by repeat case_match. Qed.
#[local] Hint Resolve fine_shape_field fine_dtype : go.

Lemma fine_parseFieldDesc el : args_ok el → fine (parseFieldDesc pe el).
Proof using Hpe.
  intros Hok. unfold parseFieldDesc. fine_step; [exact I|].
  apply fine_bind; [apply fine_index; lia|]. intros e0 _.
  apply fine_bind; [apply fine_index; lia|]. intros e1 _.
  repeat (fine_step || (apply fine_optional; [done|intros ? ? ?])).
Qed.

Lemma fine_parseShape e : headed e = true → (Expr_size e ≤ n)%nat → fine (parseShape pe e).
Proof using Hpe.
  intros. unfold parseShape. case_match; [exact I|]. solve_fine. case_match; try exact I.
  apply fine_wrapf, fine_mapR. intros v _. by destruct v.
Qed.

Lemma fine_parse_category kind help el : args_ok el → fine (parse_category pe kind help el).
Proof using Hpe.
  intros Hok. unfold parse_category. fine_step; [exact I|].
  apply negb_false_iff, bool_decide_eq_true in Heqb.
  apply fine_bind; [apply fine_index; lia|]. intros e1 He1%index_elem.
  apply fine_bind; [apply fine_index; lia|]. intros e2 _.
  apply fine_bind; [|intros ? ?; unfold atoi; solve_fine].
  destruct (Type_ e1) eqn:Ht; [solve_fine|].
  apply fine_parseFieldDesc. by eapply args_ok_Sexp.
Qed.

Lemma fine_build el :
  args_ok el → (1 < length el)%nat → fine (buildCategoryIDForEmbeddingOrIndicator pfc el).
Proof using Hpfc.
  intros Hok Hl. unfold buildCategoryIDForEmbeddingOrIndicator.
  apply fine_bind; [by apply fine_index|]. intros src Hsrc%index_elem.
  destruct (Type_ src) eqn:Ht; [solve_fine|].
  apply fine_bind; [|by intros c _; repeat case_match].
  destruct (args_ok_Sexp _ _ Hok Hsrc Ht) as [(? & ? & _) ?]. by apply Hpfc.
Qed.

Lemma fine_parseBucketColumn el : args_ok el → fine (parseBucketColumn pe pfc el).
Proof using Hpe Hpfc.
  intros Hok. unfold parseBucketColumn. destruct el as [|e0 [|src [|bs [|]]]]; try exact I.
  apply fine_bind.
  - destruct (Type_ src) eqn:Ht; apply fine_catch; try (intros; exact I).
    + unfold parseDefaultNumericColumn. solve_fine.
    + destruct (args_ok_Sexp _ src Hok) as [(? & ? & _) ?]; [set_solver|done|]. by apply Hpfc.
  - intros source _. destruct source; try exact I.
    apply fine_bind; [apply fine_wrapf|by intros b _; case_match].
    destruct (args_ok_elem _ bs Hok); [set_solver|]. by apply fine_parseShape.
Qed.

Lemma fine_column_body el : args_ok el → fine (parse_column_body pe pfc el).
Proof using Hpe Hpfc.
  intros Hok. pose proof Hok as (Hne & _). unfold parse_column_body.
  apply fine_bind; [apply fine_index; destruct el; [done|simpl; lia]|]. intros e0 _.
  repeat (fine_step; [try exact I|]); try exact I.
  - unfold parseNumericColumn. fine_step; [by apply fine_parseFieldDesc|exact I].
  - by apply fine_parseBucketColumn.
  - unfold parseCrossColumn. destruct el as [|? [|ks [|? [|]]]]; try exact I.
    destruct (args_ok_elem _ ks Hok); [set_solver|].
    fine_step; [by apply Hpe|]. case_match; try exact I. unfold atoi. solve_fine.
  - unfold parseCategoryIDColumn. fine_step; [by apply fine_parse_category|]. by case_match.
  - unfold parseSeqCategoryIDColumn. fine_step; [by apply fine_parse_category|]. by case_match.
  - unfold parseCategoryHashColumn. fine_step; [by apply fine_parse_category|]. by case_match.
  - unfold parseEmbeddingColumn. fine_step; [exact I|].
    fine_step; [apply fine_build; [done|lia]|]. case_match.
    apply fine_bind; [apply fine_index; lia|]. intros e2 _. unfold atoi.
    fine_step; [solve_fine|].
    repeat (apply fine_bind; [apply fine_optional; [done|]; intros; solve_fine|intros ? _]). exact I.
  - unfold parseIndicatorColumn. fine_step; [exact I|].
    fine_step; [apply fine_build; [done|lia]|]. by case_match.
  - unfold parseWeightedCategoryColumn. fine_step; [exact I|].
    apply negb_false_iff, bool_decide_eq_true in Heqb.
    fine_step; [apply fine_build; [done|lia]|]. by repeat case_match.
Qed.
End fine_bodies.

Lemma fine_list_body `{UnicodeTables} n pfc pl el :
  args_ok n el → fine (pfc el) →
  (∀ l, l ≠ [] → Forall (λ x, headed x = true) l → (list_size l < n)%nat → fine (pl l)) →
  fine (parse_list_body pfc pl el).
Proof.
  intros Hok Hc Hl. pose proof Hok as (Hne & _). unfold parse_list_body.
  apply fine_bind; [apply fine_index; destruct el; [done|simpl; lia]|]. intros e0 _.
  fine_step; [by fine_step|]. fine_step; [|exact I]. fine_step; [|exact I].
  apply fine_mapR. intros x Hx. assert (x ∈ el) as Hin by (destruct el; set_solver).
  destruct (args_ok_elem _ _ _ Hok Hin) as [Hh Hs]. apply headed_Sexp in Hh.
  pose proof (Sexp_size x).
  assert (Sexp x ≠ [] → fine (pl (Sexp x))) as Hp by (intros; apply Hl; [done..|lia]).
  unfold parse_item. destruct (Sexp x) as [|op [|num [|]]] eqn:Hsx; [exact I|by apply Hp..| |by apply Hp].
  case_decide; [|by apply Hp]. case_match; [exact I|by apply Hp].
Qed.

Lemma parse_n_fine `{UnicodeTables} fuel el :
  el ≠ [] → Forall (λ x, headed x = true) el →
  ((2 * list_size el < fuel)%nat → fine (parse_column_n fuel el)) ∧
  ((2 * list_size el + 1 < fuel)%nat → fine (parse_list_n fuel el)).
Proof.
  revert el. induction fuel as [|fuel IH]; intros el Hne Hh; [lia|].
  assert (args_ok (list_size el) el) as Hok by (split_and!; [done..|lia]).
  split; intros Hf; cbn [parse_column_n parse_list_n].
  - apply (fine_column_body (list_size el)); [| |done].
    + intros x Hx Hs. unfold expr_with. destruct (Type_ x) eqn:Ht; [exact I|].
      pose proof (Sexp_size x). apply IH; [by apply headed_head|by apply headed_Sexp|lia].
    + intros l Hl1 Hl2 Hl3. apply IH; [done..|lia].
  - apply (fine_list_body (list_size el)); [done| |].
    + apply IH; [done..|lia].
    + intros l Hl1 Hl2 Hl3. apply IH; [done..|lia].
Qed.

(** ** What the parsers build *)

(** The invariant of a parsed column: bucket boundaries ascend strictly, an embedded column
    is a category column, and a WEIGHTED_CATEGORY has one; the same holds of the columns in the
    keys of a CROSS, in lists too. *)
Definition ascending (b : list Z) : Prop :=
  ∀ i j x y, (i < j)%nat → b !! i = Some x → b !! j = Some y → x < y.
Fixpoint column_ok (c : column) : Prop :=
  match c with
  | BucketColumn _ b => ascending b
  | CrossColumn keys _ => foldr (λ v P, val_ok v ∧ P) True keys
  | EmbeddingColumn (Some c) _ _ _ _ | IndicatorColumn (Some c) _ | WeightedCategoryColumn (Some c) _ =>
    is_CategoryColumn c = true ∧ column_ok c
  | WeightedCategoryColumn None _ => False
  | _ => True
  end
with val_ok (v : val) : Prop :=
  match v with
  | VColumn c => column_ok c
  | VList l => foldr (λ v P, val_ok v ∧ P) True l
  | _ => True
  end.

Lemma Forall_val_ok l : Forall val_ok l → foldr (λ v P, val_ok v ∧ P) True l.
Proof. induction 1; by cbn. Qed.

Lemma inferStringValue_ok `{UnicodeTables} s : val_ok (inferStringValue s).
Proof. unfold inferStringValue. by repeat case_match. Qed.

Lemma strictly_ascending_ok b : strictly_ascending b = true → ascending b.
Proof.
  unfold strictly_ascending. induction b as [|z b IH]; intros Hb i j x y Hij Hi Hj; [done|].
  destruct b as [|z' b]; [destruct i, j; try lia; done|].
  cbn [tail zip zip_with forallb] in *. apply andb_true_iff in Hb as [Hz Hb]. cbn in Hz.
  destruct j as [|j]; [lia|]. cbn in Hj. destruct i as [|i].
  - injection Hi as <-. destruct j as [|j]; [injection Hj as <-; lia|].
    enough (z' < y) by lia. apply (IH Hb 0%nat (S j)); [lia|done|done].
  - apply (IH Hb i j); [lia|done|done].
Qed.

Lemma build_ok `{UnicodeTables} pfc el cat name :
  (∀ l c, pfc l = Ok c → column_ok c) →
  buildCategoryIDForEmbeddingOrIndicator pfc el = Ok (cat, name) →
  match cat with Some c => is_CategoryColumn c = true ∧ column_ok c | None => True end.
Proof.
  intros Hpfc. unfold buildCategoryIDForEmbeddingOrIndicator. intros (src & _ & Hb)%bind_Ok.
  destruct (Type_ src).
  - apply bind_Ok in Hb as (nm & _ & [= <- <-]). exact I.
  - apply bind_Ok in Hb as (source & Hs & Hb). apply Hpfc in Hs.
    destruct source; simpl in Hb; try (injection Hb as <- <-; by rewrite ?Hs).
    destruct (Shape fd) as [[|]|]; try done. case_decide; by injection Hb as <- <-.
Qed.

Lemma list_body_ok pfc pl el v :
  (∀ l c, pfc l = Ok c → column_ok c) → (∀ l v, pl l = Ok v → val_ok v) →
  parse_list_body pfc pl el = Ok v → val_ok v.
Proof.
  intros Hpfc Hpl. unfold parse_list_body. intros (e0 & _ & Hv)%bind_Ok. case_decide.
  - apply bind_Ok in Hv as (c & Hc & [= <-]). by apply Hpfc in Hc.
  - case_decide; [|done]. apply bind_Ok in Hv as (l & Hl & [= <-]). apply Forall_val_ok.
    apply mapR_Forall2 in Hl. induction Hl as [|e v el' l Hi _ IH]; constructor; [|exact IH].
    unfold parse_item in Hi. repeat case_match; simplify_eq; try done; by eapply Hpl.
Qed.

Lemma column_body_ok `{UnicodeTables} pe pfc el c :
  (∀ e v, pe e = Ok v → val_ok v) → (∀ l c, pfc l = Ok c → column_ok c) →
  parse_column_body pe pfc el = Ok c → column_ok c.
Proof.
  intros Hpe Hpfc. unfold parse_column_body. intros (e0 & _ & Hc)%bind_Ok.
  repeat (case_decide; [try done|]); try done.
  - by apply bind_Ok in Hc as (fd & _ & [= <-]).
  - unfold parseBucketColumn in Hc. destruct el as [|? [|src [|bs [|]]]]; try done.
    apply bind_Ok in Hc as (source & _ & Hc). destruct source; try done.
    apply bind_Ok in Hc as (b & _ & Hc). destruct (strictly_ascending b) eqn:Hb; [|done].
    injection Hc as <-. by apply strictly_ascending_ok.
  - unfold parseCrossColumn in Hc. destruct el as [|? [|ks [|? [|]]]]; try done.
    apply bind_Ok in Hc as (key & Hk%Hpe & Hc). destruct key; try done. by apply bind_Ok in Hc as (z & _ & [= <-]).
  - by apply bind_Ok in Hc as ([fd z] & _ & [= <-]).
  - by apply bind_Ok in Hc as ([fd z] & _ & [= <-]).
  - by apply bind_Ok in Hc as ([fd z] & _ & [= <-]).
  - unfold parseEmbeddingColumn in Hc. case_decide; [done|].
    apply bind_Ok in Hc as ([cat name] & Hb & Hc). apply build_ok in Hb; [|done].
    apply bind_Ok in Hc as (e2 & _ & Hc). apply bind_Ok in Hc as (d & _ & Hc).
    apply bind_Ok in Hc as (cb & _ & Hc). apply bind_Ok in Hc as (i & _ & [= <-]). by destruct cat.
  - unfold parseIndicatorColumn in Hc. case_decide; [done|].
    apply bind_Ok in Hc as ([cat name] & Hb & [= <-]). apply build_ok in Hb; [|done]. by destruct cat.
  - unfold parseWeightedCategoryColumn in Hc. case_match; [done|].
    apply bind_Ok in Hc as ([cat name] & Hb & Hc). apply build_ok in Hb; [|done].
    destruct cat; [|done]. by injection Hc as <-.
Qed.

Lemma parse_n_ok `{UnicodeTables} fuel :
  (∀ el c, parse_column_n fuel el = Ok c → column_ok c) ∧ (∀ el v, parse_list_n fuel el = Ok v → val_ok v).
Proof.
  induction fuel as [|fuel [IHc IHl]]; [done|]. split; intros el x; cbn [parse_column_n parse_list_n].
  - apply column_body_ok; [|done]. intros e v. unfold expr_with. destruct (Type_ e); [|by apply IHl].
    intros [= <-]. apply inferStringValue_ok.
  - by apply list_body_ok.
Qed.

(** ** The properties *)

(** C32: [parseExpression] returns on every expression in which each compound node has a
    head, with a value or an error: its recursion with [parseFeatureColumn] ends and no
    index is out of range. *)
Theorem parseExpression_total `{UnicodeTables} (e : Expr) :
  headed e = true →
  (∃ v, parseExpression e = Ok v) ∨ (∃ err, parseExpression e = Fail err).
Proof.
  intros Hh. apply fine_cases. unfold parseExpression, expr_with.
  destruct (Type_ e) eqn:Ht; [exact I|].
  apply parse_n_fine; [by apply headed_head|by apply headed_Sexp|]. unfold parse_fuel. lia.
Qed.

Definition id_expr (s : string) : Expr := atomic IDENT s.
Definition demo_column : Expr :=
  funcall "EMBEDDING" [funcall "CATEGORY_ID" [id_expr "c1"; atomic NUMBER "10"]; atomic NUMBER "128"].

Lemma parseExpression_total_witness :
  (∃ v, parseExpression demo_column = Ok v) ∨ (∃ err, parseExpression demo_column = Fail err).
Proof. apply (parseExpression_total demo_column). reflexivity. Defined.

(** C33: Every feature column that [parseFeatureColumn] accepts has strictly ascending bucket
    boundaries, category columns inside EMBEDDING, INDICATOR and WEIGHTED_CATEGORY, and a
    category column in each WEIGHTED_CATEGORY, at every depth: inside these three, and inside
    the keys of a CROSS and the lists among them. *)
Theorem parseFeatureColumn_ok `{UnicodeTables} (el : list Expr) (c : column) :
  parseFeatureColumn el = Ok c → column_ok c.
Proof. apply parse_n_ok. Qed.

Lemma parseFeatureColumn_ok_witness :
  column_ok (CrossColumn [VString "c2"; VColumn (BucketColumn
    (mkFieldDesc "c1" Float Float "" "" "" (Some [10]) false None 0) [-1; 2; 30])] 100).
Proof.
  apply (parseFeatureColumn_ok (Sexp (funcall "CROSS"
    [variadic tok_lbracket "square"
       [id_expr "c2"; funcall "BUCKET"
          [funcall "DENSE" [id_expr "c1"; atomic NUMBER "10"];
           variadic tok_lbracket "square"
             [unary tok_minus "-" (atomic NUMBER "1"); atomic NUMBER "2"; atomic NUMBER "30"]]];
     atomic NUMBER "100"]))).
  vm_compute. reflexivity.
Defined.

(** CROSS accepts any feature column as a key, but [GetFieldDesc] asserts that a key
    that is no string is a [*NumericColumn]: on a CROSS over another kind of column, which
    parses, it panics. *)
Theorem cross_key_panics `{UnicodeTables} (el : list Expr) (keys : list val) (n : Z) (c : column) :
  parseFeatureColumn el = Ok (CrossColumn keys n) →
  VColumn c ∈ keys → is_CategoryColumn c = true → GetFieldDesc (CrossColumn keys n) = Panic.
Proof.
  intros _ Hin Hc. cbn [GetFieldDesc]. unfold CrossColumn_GetFieldDesc.
  assert (mapR key_desc keys = Panic) as ->; [|done].
  induction keys as [|k keys IH]; [by apply not_elem_of_nil in Hin|].
  cbn [mapR]. apply elem_of_cons in Hin as [<-|Hin].
  - by destruct c.
  - destruct k as [| | | | | | | | |[]]; simpl; try done; by rewrite IH.
Qed.

Lemma cross_key_panics_witness :
  GetFieldDesc (CrossColumn [VColumn (CategoryIDColumn (newFieldDesc "c1" Int None) 10); VString "c2"] 100)
  = Panic.
Proof.
  apply (cross_key_panics
    (Sexp (funcall "CROSS"
      [variadic tok_lbracket "square"
         [funcall "CATEGORY_ID" [id_expr "c1"; atomic NUMBER "10"]; id_expr "c2"];
       atomic NUMBER "100"])) _ _ (CategoryIDColumn (newFieldDesc "c1" Int None) 10));
    [vm_compute; reflexivity|left|reflexivity].
Defined.

(** An integer attribute survives the way from the WITH clause to the generated Python
    code: the text of every 64-bit integer is read as that integer and printed again as
    the same text. *)
Theorem int_attribute_roundtrip `{UnicodeTables} (z : Z) :
  int64_range z →
  (v ← parseExpression (atomic NUMBER (pretty z)); AttrToPythonValue v) = Ok (pretty z).
Proof.
  intros Hz. unfold parseExpression, expr_with, inferStringValue. simpl. by rewrite Atoi_pretty.
Qed.

Lemma int_attribute_roundtrip_witness :
  (v ← parseExpression (atomic NUMBER "-1024"); AttrToPythonValue v) = Ok "-1024"%string.
Proof. apply (int_attribute_roundtrip (-1024)). unfold int64_range, min_int64, max_int64. lia. Defined.

(** A result table is split at the last dot: the table and the column that
    [parseResultTable] returns are the text before and behind it, and there are one or
    two dots altogether. *)
Theorem parseResultTable_split (s table col : string) :
  parseResultTable s = Ok (table, col) →
  s = (table +:+ "." +:+ col)%string ∧ Index col "." = None ∧
  (length (Split s ".") = 2 ∨ length (Split s ".") = 3)%nat.
Proof.
  intros Hp. pose proof (Join_Split s ".") as Hj. pose proof (Split_last s "." ltac:(done)) as Hl.
  unfold parseResultTable in Hp. destruct (Split s ".") as [|a [|b [|c [|]]]]; try done;
    injection Hp as <- <-; rewrite <- Hj; simpl in *; (split_and!; [|done|]); auto.
  by rewrite <- !str_app_assoc.
Qed.

Lemma parseResultTable_split_witness :
  "db.t.class"%string = ("db.t" +:+ "." +:+ "class")%string ∧ Index "class" "." = None ∧
  (length (Split "db.t.class" ".") = 2 ∨ length (Split "db.t.class" ".") = 3)%nat.
Proof. apply (parseResultTable_split "db.t.class" "db.t" "class"). reflexivity. Defined.

Lemma check_result_name_ok vars res vars' res' :
  vars ≠ [] → Forall (λ v, v ≠ ""%string) vars →
  check_result_name vars res = Ok (vars', res') →
  vars' = vars ∧ res' ≠ ""%string ∧ ((1 < length vars)%nat → res' ∉ vars).
Proof.
  intros Hne Hall. unfold check_result_name. destruct vars as [|v [|w vars]]; [done|..].
  - rewrite decide_False by (simpl; lia). intros [= <- <-]. apply Forall_cons in Hall as [Hv _].
    split_and!; [done|by case_decide|simpl; lia].
  - rewrite decide_True by (simpl; lia). repeat case_decide; try done. by intros [= <- <-].
Qed.

(** When the variables of an OPTIMIZE clause are accepted, there is at least one, none
    has an empty name, the result has a name, and with several variables that name is
    not one of theirs. *)
Theorem optimize_variables_ok `{UnicodeTables} (s : SQLFlowSelectStmt) (vars : list string) (res : string) :
  getOptimizeVariablesAndResultValueName s = Ok (vars, res) →
  vars ≠ [] ∧ Forall (λ v, v ≠ ""%string) vars ∧ res ≠ ""%string ∧
  ((1 < length vars)%nat → res ∉ vars).
Proof.
  unfold getOptimizeVariablesAndResultValueName.
  intros (e & _ & (v & _ & (str & _ & ([vs rn] & _ & (l & Hl & Hc)%bind_Ok)%bind_Ok)%bind_Ok)%bind_Ok)%bind_Ok.
  apply mapR_Forall2 in Hl.
  assert (l ≠ []) as Hne.
  { intros ->. apply Forall2_nil_inv_r in Hl. by apply Split_nonempty in Hl. }
  assert (Forall (λ v, v ≠ ""%string) l) as Hall.
  { eapply Forall2_Forall_r; [exact Hl|]. apply Forall_forall. intros x _ y. by case_decide; intros [= <-]. }
  by destruct (check_result_name_ok _ _ _ _ Hne Hall Hc) as (-> & ? & ?).
Qed.

Definition demo_optimize : SQLFlowSelectStmt :=
  mkSelect true false false false false false true false "SELECT * FROM t"
    (mkTrainClause "" ∅ ∅ "" "" "") (mkPredictClause ∅ "" "") (mkExplainClause ∅ "" "" "")
    (mkEvaluateClause ∅ "" "" "")
    (mkOptimizeClause "MAXIMIZE" (Some (funcall "SUM" [id_expr "p"])) []
      {[ "variables"%string := atomic STRING "'amount(x, y)'" ]} "" "") "" (mkRunClause "" [] []).

Lemma optimize_variables_ok_witness :
  ["x"; "y"]%string ≠ [] ∧ Forall (λ v, v ≠ ""%string) ["x"; "y"]%string ∧ "amount"%string ≠ ""%string ∧
  ((1 < length ["x"; "y"]%string)%nat → "amount"%string ∉ ["x"; "y"]%string).
Proof. apply (optimize_variables_ok demo_optimize). vm_compute. reflexivity. Defined.
