(* ===== verification/Regexp.v ===== *)
(** * Regular expressions

    The fixed expressions of derivation.go are matched here by derivatives, and the matcher
    is proved to decide the language.  A program's user can give expressions of her own: for
    these the package regexp is the class [GoRegexp]. *)

From S2P Require Import Prelude GoStrings.

(** The expressions the source uses, on ASCII classes: a text that matches one of them
    from [^] to [$] has a match by bytes. *)
Inductive re :=
  | RNone
  | REps
  | RClass (P : ascii → bool)
  | RCat (r1 r2 : re)
  | RAlt (r1 r2 : re)
  | RStar (r : re).

Inductive lang : re → string → Prop :=
  | lang_eps : lang REps ""
  | lang_class P c : P c = true → lang (RClass P) (String c "")
  | lang_cat r1 r2 s t : lang r1 s → lang r2 t → lang (RCat r1 r2) (s +:+ t)
  | lang_alt_l r1 r2 s : lang r1 s → lang (RAlt r1 r2) s
  | lang_alt_r r1 r2 s : lang r2 s → lang (RAlt r1 r2) s
  | lang_star_nil r : lang (RStar r) ""
  | lang_star_app r s t : lang r s → lang (RStar r) t → lang (RStar r) (s +:+ t).

Fixpoint nullable (r : re) : bool :=
  match r with
  | RNone | RClass _ => false
  | REps | RStar _ => true
  | RCat r1 r2 => nullable r1 && nullable r2
  | RAlt r1 r2 => nullable r1 || nullable r2
  end.

(** Constructors that keep derivatives small. *)
Definition cat (r1 r2 : re) : re :=
  match r1, r2 with
  | RNone, _ | _, RNone => RNone
  | REps, r => r
  | r1, r2 => RCat r1 r2
  end.
Definition alt (r1 r2 : re) : re :=
  match r1, r2 with RNone, r | r, RNone => r | r1, r2 => RAlt r1 r2 end.

Fixpoint deriv (c : ascii) (r : re) : re :=
  match r with
  | RNone | REps => RNone
  | RClass P => if P c then REps else RNone
  | RCat r1 r2 =>
    if nullable r1 then alt (cat (deriv c r1) r2) (deriv c r2) else cat (deriv c r1) r2
  | RAlt r1 r2 => alt (deriv c r1) (deriv c r2)
  | RStar r => cat (deriv c r) (RStar r)
  end.

Fixpoint re_match (r : re) (s : string) : bool :=
  match s with
  | EmptyString => nullable r
  | String c s => re_match (deriv c r) s
  end.

(** ** The matcher decides the language *)

Lemma lang_cat_inv r1 r2 s :
  lang (RCat r1 r2) s ↔ ∃ u v, s = (u +:+ v)%string ∧ lang r1 u ∧ lang r2 v.
Proof.
  split; [inversion 1; subst; eauto|]. intros (u & v & -> & ? & ?). by constructor.
Qed.

Lemma lang_cat_nil r1 r2 s : lang r1 "" → lang r2 s → lang (RCat r1 r2) s.
Proof. intros. apply lang_cat_inv. by exists ""%string, s. Qed.

Lemma lang_cat_cons r1 r2 c s : lang r1 (char1 c) → lang r2 s → lang (RCat r1 r2) (String c s).
Proof. intros. apply lang_cat_inv. by exists (char1 c), s. Qed.

Lemma lang_alt_inv r1 r2 s : lang (RAlt r1 r2) s ↔ lang r1 s ∨ lang r2 s.
Proof. split; [inversion 1; subst; auto|]. intros [?|?]; by constructor. Qed.

Lemma lang_none s : ¬ lang RNone s.
Proof. by inversion 1. Qed.

Lemma lang_eps_inv s : lang REps s ↔ s = ""%string.
Proof. split; [by inversion 1|]. intros ->. constructor. Qed.

Lemma lang_cat_smart r1 r2 s : lang (cat r1 r2) s ↔ lang (RCat r1 r2) s.
Proof.
  assert (lang (RCat RNone r2) s ↔ False) as Hn.
  { rewrite lang_cat_inv. split; [|done]. by intros (? & ? & _ & ?%lang_none & _). }
  assert (∀ r, lang (RCat r RNone) s ↔ False) as Hn'.
  { intros r. rewrite lang_cat_inv. split; [|done]. by intros (? & ? & _ & _ & ?%lang_none). }
  assert (∀ r, lang (RCat REps r) s ↔ lang r s) as He.
  { intros r. rewrite lang_cat_inv. setoid_rewrite lang_eps_inv. split.
    - by intros (? & ? & -> & -> & ?).
    - intros ?. by exists ""%string, s. }
  pose proof (lang_none s).
  destruct r1, r2; cbn [cat]; rewrite ?Hn, ?Hn', ?He; tauto.
Qed.

Lemma lang_alt_smart r1 r2 s : lang (alt r1 r2) s ↔ lang (RAlt r1 r2) s.
Proof.
  rewrite lang_alt_inv. pose proof (lang_none s).
  destruct r1, r2; cbn [alt]; rewrite ?lang_alt_inv; tauto.
Qed.

Lemma str_app_eq_nil (u v : string) : (u +:+ v)%string = ""%string → u = ""%string ∧ v = ""%string.
Proof. destruct u; simpl; [done|discriminate]. Qed.

Lemma nullable_lang r : nullable r = true ↔ lang r "".
Proof.
  induction r as [| |P|r1 IH1 r2 IH2|r1 IH1 r2 IH2|r IH]; simpl.
  - split; [done|]. by intros ?%lang_none.
  - split; [constructor|done].
  - split; [done|]. by inversion 1.
  - rewrite andb_true_iff, IH1, IH2, lang_cat_inv. split.
    + intros [??]. by exists ""%string, ""%string.
    + intros (u & v & Huv & ? & ?). symmetry in Huv. by apply str_app_eq_nil in Huv as [-> ->].
  - rewrite orb_true_iff, IH1, IH2, lang_alt_inv. done.
  - split; [constructor|done].
Qed.

(** A nonempty text of a star begins with a nonempty text of its body. *)
Lemma lang_star_cons r c s :
  lang (RStar r) (String c s) ↔
  ∃ u v, s = (u +:+ v)%string ∧ lang r (String c u) ∧ lang (RStar r) v.
Proof.
  split.
  - intros H. remember (RStar r) as q eqn:Hq. remember (String c s) as w eqn:Hw. revert Hq Hw.
    induction H as [| | | | |r'|r' u v Hu _ Hv IH]; try done. intros [= ->] Hw.
    destruct u as [|c' u]; simpl in Hw; [by apply IH|]. injection Hw as -> <-. by exists u, v.
  - intros (u & v & -> & Hu & Hv). apply (lang_star_app _ (String c u) v Hu Hv).
Qed.

Lemma deriv_lang c r s : lang (deriv c r) s ↔ lang r (String c s).
Proof.
  revert s. induction r as [| |P|r1 IH1 r2 IH2|r1 IH1 r2 IH2|r IH]; intros s; simpl.
  - split; intros H; by apply lang_none in H.
  - split; [intros H; by apply lang_none in H|inversion 1].
  - destruct (P c) eqn:Hc.
    + rewrite lang_eps_inv. split; [intros ->; by constructor|by inversion 1].
    + split; [intros H; by apply lang_none in H|]. inversion 1; congruence.
  - assert (lang (cat (deriv c r1) r2) s ↔
            ∃ u v, s = (u +:+ v)%string ∧ lang r1 (String c u) ∧ lang r2 v) as Hd.
    { rewrite lang_cat_smart, lang_cat_inv. by setoid_rewrite IH1. }
    assert (lang (RCat r1 r2) (String c s) ↔
            (∃ u v, s = (u +:+ v)%string ∧ lang r1 (String c u) ∧ lang r2 v) ∨
            (lang r1 "" ∧ lang r2 (String c s))) as Hc.
    { rewrite lang_cat_inv. split.
      - intros ([|c' u] & v & Hs & ? & ?); simpl in Hs; [right; by subst|].
        injection Hs as <- ->. left. eauto.
      - intros [(u & v & -> & ? & ?)|[??]]; [by exists (String c u), v|by exists ""%string, (String c s)]. }
    destruct (nullable r1) eqn:Hn; rewrite Hc.
    + rewrite lang_alt_smart, lang_alt_inv, Hd, IH2. apply nullable_lang in Hn. tauto.
    + rewrite Hd. rewrite <- (nullable_lang r1), Hn. naive_solver.
  - rewrite lang_alt_smart, !lang_alt_inv. by rewrite IH1, IH2.
  - rewrite lang_cat_smart, lang_cat_inv, lang_star_cons. by setoid_rewrite IH.
Qed.

Lemma re_match_lang r s : re_match r s = true ↔ lang r s.
Proof.
  revert r. induction s as [|c s IH]; intros r; simpl; [apply nullable_lang|].
  by rewrite IH, deriv_lang.
Qed.

(** ** The package regexp, for expressions a user writes

    [compile_regexp e] is [regexp.Compile e]: the function [MatchString], or no value for a
    text that is not an expression. *)
Class GoRegexp := { compile_regexp : string → option (string → bool) }.

(** [regexp.MustCompile]. *)
Definition MustCompile `{GoRegexp} (e : string) : result (string → bool) :=
  match compile_regexp e with Some m => Ok m | None => Panic end.

(** ** Pieces of expressions *)

Definition r_char (c : ascii) : re := RClass (λ d, bool_decide (d = c)).
Definition r_opt (r : re) : re := RAlt r REps.
Definition r_plus (r : re) : re := RCat r (RStar r).

Lemma lang_char c : lang (r_char c) (char1 c).
Proof. constructor. by apply bool_decide_eq_true. Qed.

Lemma lang_char_inv c s : lang (r_char c) s ↔ s = char1 c.
Proof.
  split; [|intros ->; apply lang_char]. inversion 1 as [|P d Hd| | | | |]; subst.
  apply bool_decide_eq_true in Hd. by subst.
Qed.

Lemma lang_opt_nil r : lang (r_opt r) "".
Proof. apply lang_alt_r. constructor. Qed.

Lemma lang_opt r s : lang r s → lang (r_opt r) s.
Proof. apply lang_alt_l. Qed.

Lemma lang_star_class P s : lang (RStar (RClass P)) s ↔ str_forall P s = true.
Proof.
  induction s as [|c s IH]; simpl; [split; [done|constructor]|].
  rewrite lang_star_cons, andb_true_iff, <- IH. split.
  - intros (u & v & -> & Hu & Hv). inversion Hu; subst. by split.
  - intros [Hc Hs]. exists ""%string, s. split; [done|]. split; [by constructor|done].
Qed.

Lemma lang_plus_class P c s :
  P c = true → str_forall P s = true → lang (r_plus (RClass P)) (String c s).
Proof.
  intros Hc Hs. apply (lang_cat _ _ (char1 c) s); [by constructor|by apply lang_star_class].
Qed.

(** ** A small instance

    [compile_regexp] for the expressions of [deriveFeatureColumn] whose field name has
    letters, digits and underscores only: it matches the name in whatever case. *)
Definition word_char (c : ascii) : bool :=
  let b := byte c in ascii_lower_letter b || ascii_upper_letter b || ascii_digit b || (b =? 95)%Z.
Definition lower_ascii (s : string) : string :=
  String.string_of_list_ascii
    (map (λ c, of_byte (let b := byte c in if ascii_upper_letter b then b + 32 else b)%Z)
       (String.list_ascii_of_string s)).
Definition word_regexp : GoRegexp := {|
  compile_regexp e :=
    let f := TrimSuffix (TrimPrefix e "(?i)^") "$" in
    if str_forall word_char f then Some (λ s, bool_decide (lower_ascii s = lower_ascii f)) else None
|}.
