(* ===== verification/FieldInfer.v ===== *)
(** * Inferring field descriptions from samples (go/ir/derivation.go, first half)

    [InferFeatureColumns] looks at the first rows of the training query and completes the
    description of every selected field: its type, its shape, the format of a string field
    and the largest index in it.  The functions of the source change the description
    [fieldDescMap[fieldName]] in place and no other, so they are functions from a
    description to a description here; the store is in Derivation.v. *)

From S2P Require Import Prelude GoStrings GoFloat FeatureColumn Lexer Syntax Verifier Regexp.

Local Open Scope Z_scope.

(** ** Assignments to the fields of a description *)

Definition set_DType (t : DataType) (d : FieldDesc) : FieldDesc :=
  mkFieldDesc (Name d) t (DTypeWeight d) (Delimiter d) (DelimiterKV d) (Format d) (Shape d)
    (IsSparse d) (Vocabulary d) (MaxID d).
Definition set_Delimiter (s : string) (d : FieldDesc) : FieldDesc :=
  mkFieldDesc (Name d) (DType d) (DTypeWeight d) s (DelimiterKV d) (Format d) (Shape d)
    (IsSparse d) (Vocabulary d) (MaxID d).
Definition set_Format (s : string) (d : FieldDesc) : FieldDesc :=
  mkFieldDesc (Name d) (DType d) (DTypeWeight d) (Delimiter d) (DelimiterKV d) s (Shape d)
    (IsSparse d) (Vocabulary d) (MaxID d).
Definition set_Shape (s : list Z) (d : FieldDesc) : FieldDesc :=
  mkFieldDesc (Name d) (DType d) (DTypeWeight d) (Delimiter d) (DelimiterKV d) (Format d) (Some s)
    (IsSparse d) (Vocabulary d) (MaxID d).
Definition set_Vocabulary (v : gmap string string) (d : FieldDesc) : FieldDesc :=
  mkFieldDesc (Name d) (DType d) (DTypeWeight d) (Delimiter d) (DelimiterKV d) (Format d) (Shape d)
    (IsSparse d) (Some v) (MaxID d).
Definition set_MaxID (z : Z) (d : FieldDesc) : FieldDesc :=
  mkFieldDesc (Name d) (DType d) (DTypeWeight d) (Delimiter d) (DelimiterKV d) (Format d) (Shape d)
    (IsSparse d) (Vocabulary d) z.

(** ** Formats of string data *)

Definition CSV : string := "csv".
Definition KV : string := "kv".

Definition escapeDelimiter (delim : string) : string :=
  if decide (delim = "|") then "\|"
  else if decide (delim = ".") then "\."
  else if decide (delim = "+") then "\+"
  else if decide (delim = "?") then "\?"
  else if decide (delim = "*") then "\*"
  else if decide (delim = "$") then "\$"
  else if decide (delim = " ") then "\s"
  else delim.

Definition realNumberRegex : string := "((\+|-)?([0-9]+)(\.[0-9]+)?)|((\+|-)?\.?[0-9]+)".
Definition r_digits : re := r_plus (RClass re_digit).
Definition r_sign : re := r_opt (RAlt (r_char "+") (r_char "-")).
Definition r_number : re :=
  RAlt (RCat r_sign (RCat r_digits (r_opt (RCat (r_char ".") r_digits))))
       (RCat r_sign (RCat (r_opt (r_char ".")) r_digits)).
Definition r_spaces : re := RStar (RClass re_space).

(** The expressions of the formats, from [^] to [$]. *)
Definition csvRegex : re :=
  RCat r_spaces
    (RCat (r_plus (RCat r_number (RCat r_spaces (RCat (r_char ",") r_spaces))))
       (RCat r_number (RCat r_spaces (RCat (r_opt (r_char ",")) r_spaces)))).
Definition keyValueRegex : re := r_plus (RCat r_digits (RCat (r_char ":") (RCat r_number r_spaces))).

Definition inferStringDataFormat `{GoRegexp} (strData delim1 delim2 : string) : result string :=
  if re_match csvRegex strData then Ok CSV
  else if re_match keyValueRegex strData then Ok KV
  else if decide (delim1 = "" ∨ delim2 = "")%string then Ok ""%string
  else
    matches ← MustCompile
      ("^((\w|\d)+(" +:+ escapeDelimiter delim2 +:+ ")?(" +:+ realNumberRegex +:+ ")?("
         +:+ escapeDelimiter delim1 +:+ ")?)+$")%string;
    Ok (if matches strData : bool then KV else ""%string).

(** [regexp.MustCompile("\\s+").Split(s, -1)] *)
Fixpoint split_spaces (s : string) : list string :=
  match s with
  | EmptyString => [""%string]
  | String c s' =>
    let l := split_spaces s' in
    if re_space c then
      match s' with
      | String d _ => if re_space d then l else ""%string :: l
      | EmptyString => ""%string :: l
      end
    else match l with w :: l => String c w :: l | [] => [char1 c] end
  end.

Definition invalid_kv (s : string) : error := Errorf "invalid key-value format string %s" [s].
Definition max_index_step (maxIndex : Z) (s : string) : result Z :=
  match SplitN2 s ":" with
  | [k; _] => index ← or_fail (Atoi k) (invalid_kv s); Ok (if maxIndex <? index then index else maxIndex)
  | _ => Fail (invalid_kv s)
  end.
Definition getMaxIndexOfKeyValueData (str : string) : result Z :=
  foldM max_index_step 0 (split_spaces str).

(** ** Filling a description *)

Definition shape_size (s : list Z) : Z := foldl (λ size x, wrap64 (size * x)) 1 s.

Section fill.
Context `{UnicodeTables} `{GoRegexp}.

Definition newDefaultFieldDesc (fieldName : string) : FieldDesc := newFieldDesc fieldName Int None.

Definition csv_values (cellData : string) : list string :=
  filter (λ v, v ≠ ""%string) (map TrimSpace (Split cellData ",")).

(** The last loop of [fillCSVFieldDesc]. *)
Definition csv_value (d : FieldDesc) (v : string) : FieldDesc :=
  match ParseInt10 64 v with
  | Some i => if MaxID d <? i then set_MaxID i d else d
  | None => match ParseFloat32 v with Some _ => set_DType Float d | None => d end
  end.

Definition fillCSVFieldDesc (cellData fieldName : string) (d : FieldDesc) : result FieldDesc :=
  let size := shape_size (default [] (Shape d)) in
  let values := csv_values cellData in
  let n := Z.of_nat (length values) in
  let dense := negb (IsSparse d) in
  let d := if dense && bool_decide (Shape d = None) then set_Shape [n] d else d in
  d ←
    (if dense && negb (size =? n) then
       if 1 <? size then
         Fail (Errorf "column %s should be csv format dense tensor of %d element(s), but got %d element(s)"
                 [fieldName; pretty size; pretty n])
       else Ok (set_Shape [n] d)
     else Ok d);
  let d := if IsSparse d then set_DType Int d else d in
  Ok (foldl csv_value (set_Delimiter "," d) values).

Definition fillFieldDescByDataType (cellData : string) (d : FieldDesc) : FieldDesc :=
  let shaped d := match Shape d with None => set_Shape [1] d | Some _ => d end in
  match ParseInt10 32 cellData with
  | Some _ => shaped d
  | None =>
    match ParseFloat32 cellData with
    | Some _ => set_DType Float (shaped d)
    | None =>
      let voc := default ∅ (Vocabulary d) in
      set_Vocabulary
        (match voc !! cellData with Some _ => voc | None => <[cellData := cellData]> voc end)
        (set_Shape [1] (set_DType Str d))
    end
  end.

Definition unifyDatabaseTypeName (typeName : string) : string :=
  ToUpper (if HasSuffix typeName "_TYPE" then ReplaceFirst typeName "_TYPE" "" else typeName).

Definition string_types : list string := ["CHAR"; "VARCHAR"; "TEXT"; "STRING"]%string.
Definition scan_dest_of (isNullable : bool) (typeName : string) : scan_dest :=
  let t := unifyDatabaseTypeName typeName in
  if decide (t ∈ string_types) then if isNullable then ToNullString else ToString
  else if decide (t ∈ ["INT"; "TINYINT"]%string) then if isNullable then ToNullInt32 else ToInt32
  else if decide (t ∈ ["BIGINT"; "DECIMAL"]%string) then if isNullable then ToNullInt64 else ToInt64
  else if decide (t = "FLOAT"%string) then if isNullable then ToNullFloat64 else ToFloat32
  else if decide (t = "DOUBLE"%string) then if isNullable then ToNullFloat64 else ToFloat64
  else if decide (typeName = "TIMESTAMP_TYPE"%string) then if isNullable then ToNullString else ToString
  else ToScanType.
Definition NewRowValuesToScan (columnTypeList : list ColumnType) (isNullable : bool) : list scan_dest :=
  map (λ ct, scan_dest_of isNullable (DatabaseTypeName ct)) columnTypeList.

(** The values of a row with their types. *)
Definition scanRowValue (r : row) (columnTypeList : list ColumnType)
    : result (list (scan_dest * string)) :=
  let rowData := NewRowValuesToScan columnTypeList false in
  cells ← r rowData; Ok (zip rowData cells).

(** The cell as a pointer to a string; a pointer of another type panics. *)
Definition string_cell (rowdata : list (scan_dest * string)) (idx : nat) : result string :=
  '(t, s) ← index rowdata idx; if decide (t = ToString) then Ok s else Panic.

(** [fieldDescMap[fld].Shape[0]] and its assignment. *)
Definition Shape0 (d : FieldDesc) : result Z := index (default [] (Shape d)) 0.

(** The case of a string that is in the key-value format. *)
Definition fill_kv (cellData fld : string) (rowCount : nat) (originalSizes : gmap string Z)
    (d : FieldDesc) : result FieldDesc :=
  if negb (IsSparse d) then
    Fail (Errorf ("should use " +:+ quoted "COLUMN SPARSE(%s)" +:+ " for the key-value format data") [fld])
  else if decide (DelimiterKV d = ""%string) then
    let d := set_DType Float d in
    if bool_decide (default 1 (originalSizes !! fld) = 1) then
      let d := if decide (rowCount = 0%nat) then set_Shape [1] d else d in
      curMaxIndex ← getMaxIndexOfKeyValueData cellData;
      s0 ← Shape0 d;
      let n := wrap64 (curMaxIndex + 1) in
      Ok (if s0 <? n then set_Shape (n :: tail (default [] (Shape d))) d else d)
    else Ok d
  else Ok d.

Definition fill_string (cellData fld : string) (rowCount : nat) (originalSizes : gmap string Z)
    (d : FieldDesc) : result FieldDesc :=
  d ← (if decide (rowCount = 0%nat) then
         f ← inferStringDataFormat cellData (Delimiter d) (DelimiterKV d); Ok (set_Format f d)
       else Ok d);
  if decide (Format d = CSV) then fillCSVFieldDesc cellData fld d
  else if decide (Format d = KV) then fill_kv cellData fld rowCount originalSizes d
  else Ok (fillFieldDescByDataType cellData d).

(** One round of the loop of [fillFieldDesc]. *)
Definition fill_field (rowdata : list (scan_dest * string)) (rowCount : nat)
    (originalSizes : gmap string Z) (idx : nat) (ct : ColumnType) (fld : string) (d : FieldDesc)
    : result FieldDesc :=
  let typeName := DatabaseTypeName ct in
  let t := unifyDatabaseTypeName typeName in
  if decide (t ∈ ["INT"; "TINYINT"; "DECIMAL"; "BIGINT"]%string) then
    Ok (set_Shape [1] (set_DType Int d))
  else if decide (t ∈ ["FLOAT"; "DOUBLE"]%string) then Ok (set_Shape [1] (set_DType Float d))
  else if decide (t ∈ string_types) then
    cellData ← string_cell rowdata idx;
    fill_string cellData fld rowCount originalSizes d
  else Fail (Errorf "fillFieldDesc: unsupported database column type: %s" [typeName]).
End fill.

Example format_ex `{GoRegexp} :
  [inferStringDataFormat "1,2,-3.5" "" ""; inferStringDataFormat "0:3.2 5:-.5 7:9" "" "";
   inferStringDataFormat "3" "" ""; inferStringDataFormat " 1 , 2 ," "" "";
   inferStringDataFormat "1:2 " "" ""; inferStringDataFormat "a,b" "" ""]
  = [Ok "csv"; Ok "kv"; Ok ""; Ok "csv"; Ok "kv"; Ok ""]%string.
Proof. vm_compute. reflexivity. Qed.

Example max_index_ex :
  [getMaxIndexOfKeyValueData "0:3.2 5:-.5  3:9"; getMaxIndexOfKeyValueData "1:2 "]
  = [Ok 5; Fail (invalid_kv "")].
Proof. vm_compute. reflexivity. Qed.

(** ** Texts of integers and numbers *)

Lemma digits_lang s : str_forall is_digit_char s = true → s ≠ ""%string → lang r_digits s.
Proof.
  destruct s as [|c s]; simpl; [done|]. intros [Hc Hs]%andb_true_iff _. by apply lang_plus_class.
Qed.

Lemma unsigned_lang s :
  str_forall is_digit_char s = true → s ≠ ""%string →
  lang (RCat r_digits (r_opt (RCat (r_char ".") r_digits))) s.
Proof.
  intros Hs Hne. rewrite <- (str_app_nil_r s). constructor; [by apply digits_lang|apply lang_opt_nil].
Qed.

Lemma pretty_Z_neg p : pretty (Zneg p) = String "-" (pretty (Zpos p)).
Proof. done. Qed.

(** A predicate of the digits and the minus sign holds of the whole text. *)
Lemma pretty_Z_forall (P : ascii → bool) (z : Z) :
  (∀ c, is_digit_char c = true → P c = true) → P "-"%char = true → str_forall P (pretty z) = true.
Proof.
  intros Hd Hm. assert (∀ x, 0 ≤ x → str_forall P (pretty x) = true) as Hpos.
  { intros x Hx. eapply str_forall_impl; [exact Hd|]. by apply pretty_Z_digits. }
  destruct z as [|p|p]; [by apply Hpos..|]. rewrite pretty_Z_neg. simpl. rewrite Hm. by apply Hpos.
Qed.

Lemma pretty_Z_ne (z : Z) : pretty z ≠ ""%string.
Proof. destruct z as [|p|p]; [done| |done]. by apply (pretty_Z_digits (Zpos p)). Qed.

Lemma number_lang (z : Z) : lang r_number (pretty z).
Proof.
  apply lang_alt_l. destruct (decide (0 ≤ z)) as [Hz|Hz].
  - destruct (pretty_Z_digits z Hz) as (Hd & _ & Hne).
    apply lang_cat_nil; [apply lang_opt_nil|by apply unsigned_lang].
  - destruct z as [|p|p]; [lia..|]. destruct (pretty_Z_digits (Zpos p)) as (Hd & _ & Hne); [lia|].
    rewrite pretty_Z_neg. apply lang_cat_cons; [|by apply unsigned_lang].
    apply lang_opt, lang_alt_r, lang_char.
Qed.

Lemma spaces_nil : lang r_spaces "".
Proof. constructor. Qed.

(** The characters a text of an expression can have. *)
Fixpoint re_chars (P : ascii → bool) (r : re) : Prop :=
  match r with
  | RNone | REps => True
  | RClass Q => ∀ c, Q c = true → P c = true
  | RCat r1 r2 | RAlt r1 r2 => re_chars P r1 ∧ re_chars P r2
  | RStar r => re_chars P r
  end.

Lemma lang_chars P r s : re_chars P r → lang r s → str_forall P s = true.
Proof.
  intros Hr Hs. induction Hs as [|Q c Hc|r1 r2 s t _ IHs _ IHt|r1 r2 s _ IH|r1 r2 s _ IH| |r s t _ IHs _ IHt];
    simpl in *; try rewrite str_forall_app.
  - done.
  - by rewrite Hr.
  - destruct Hr. by rewrite IHs, IHt.
  - destruct Hr. by apply IH.
  - destruct Hr. by apply IH.
  - done.
  - by rewrite IHs, IHt.
Qed.

(** ** Comma-separated integers *)

Definition csv_item : re := RCat r_number (RCat r_spaces (RCat (r_char ",") r_spaces)).

Lemma csv_item_lang (z : Z) : lang csv_item (pretty z +:+ ",").
Proof.
  constructor; [apply number_lang|]. apply lang_cat_nil; [apply spaces_nil|].
  apply lang_cat_cons; [apply lang_char|apply spaces_nil].
Qed.

(** All the integers but the last are items, and the last is the end. *)
Lemma Join_items (z : Z) (zs : list Z) :
  ∃ u v, Join (map pretty (z :: zs)) "," = (u +:+ v)%string ∧ lang (RStar csv_item) u ∧
    lang r_number v ∧ (zs ≠ [] → ∃ w, u = (pretty z +:+ "," +:+ w)%string ∧ lang (RStar csv_item) w).
Proof.
  revert z. induction zs as [|y zs IH]; intros z.
  - exists ""%string, (pretty z). split; [done|]. split; [constructor|]. split; [apply number_lang|done].
  - destruct (IH y) as (u & v & Hj & Hu & Hv & _). cbn [map] in *. rewrite Join_cons, Hj.
    exists ((pretty z +:+ ",") +:+ u)%string, v. split_and!; [by rewrite <- !str_app_assoc| |done|].
    + constructor; [apply csv_item_lang|done].
    + intros _. exists u. split; [by rewrite <- str_app_assoc|done].
Qed.

Lemma csv_lang (zs : list Z) : (2 ≤ length zs)%nat → lang csvRegex (Join (map pretty zs) ",").
Proof.
  destruct zs as [|z [|y zs]]; simpl length; [lia..|]. intros _.
  destruct (Join_items z (y :: zs)) as (u & v & -> & _ & Hv & Hw).
  destruct Hw as (w & -> & Hw); [done|].
  apply lang_cat_nil; [apply spaces_nil|]. constructor.
  - rewrite str_app_assoc. constructor; [apply csv_item_lang|done].
  - rewrite <- (str_app_nil_r v). constructor; [done|]. apply lang_cat_nil; [apply spaces_nil|].
    apply lang_cat_nil; [apply lang_opt_nil|apply spaces_nil].
Qed.

Lemma csv_values_integers (zs : list Z) : zs ≠ [] → csv_values (Join (map pretty zs) ",") = map pretty zs.
Proof.
  intros Hne. unfold csv_values. rewrite (Split_Join _ ","); [|by destruct zs|].
  - assert (map TrimSpace (map pretty zs) = map pretty zs) as ->.
    { rewrite map_map. apply map_ext. intros z. apply TrimSpace_id.
      apply pretty_Z_forall; [|done]. unfold is_digit_char, ascii_digit, in_range, printable. intros c. lia. }
    clear Hne. induction zs as [|z zs IH]; [done|]. cbn [map].
    rewrite filter_cons_True by apply pretty_Z_ne. by rewrite IH.
  - apply Forall_forall. intros s Hs. apply list_elem_of_fmap in Hs as (z & -> & _).
    apply pretty_Z_forall; [|done]. intros c. by destruct c as [[] [] [] [] [] [] [] []].
Qed.

Lemma csv_value_integers (zs : list Z) d :
  Forall int64_range zs → foldl csv_value d (map pretty zs) = set_MaxID (foldl Z.max (MaxID d) zs) d.
Proof.
  intros Hzs. revert d. induction Hzs as [|z zs Hz _ IH]; intros d; [by destruct d|].
  cbn [map foldl]. rewrite IH. unfold csv_value.
  change (ParseInt10 64 (pretty z)) with (Atoi (pretty z)). rewrite (Atoi_pretty z Hz).
  destruct (MaxID d <? z) eqn:Hlt; unfold set_MaxID; simpl; [by rewrite Z.max_r by lia|by rewrite Z.max_l by lia].
Qed.

(** The description [fillCSVFieldDesc] leaves for the integers [zs]. *)
Definition csv_filled (zs : list Z) (d : FieldDesc) : FieldDesc :=
  set_MaxID (foldl Z.max (MaxID d) zs) (set_Delimiter "," d).

(** Two or more integers with commas between them are recognised as CSV whatever the
    delimiters of the column are.  Filling a dense column then sets the delimiter, raises the
    largest index to the largest of the integers, and gives a column without a shape, or of
    one element, their number as its shape; it keeps a shape of that many elements and
    refuses another one.  A sparse column keeps its shape and becomes integer. *)
Theorem csv_integers_filled `{GoRegexp} (zs : list Z) (d : FieldDesc) (f d1 d2 : string) :
  (2 ≤ length zs)%nat → Forall int64_range zs →
  let s := Join (map pretty zs) "," in
  let n := Z.of_nat (length zs) in
  let size := shape_size (default [] (Shape d)) in
  inferStringDataFormat s d1 d2 = Ok CSV ∧
  (IsSparse d = true → fillCSVFieldDesc s f d = Ok (csv_filled zs (set_DType Int d))) ∧
  (IsSparse d = false → (Shape d = None ∨ size = 1) →
     fillCSVFieldDesc s f d = Ok (csv_filled zs (set_Shape [n] d))) ∧
  (IsSparse d = false → Shape d ≠ None → size = n → fillCSVFieldDesc s f d = Ok (csv_filled zs d)) ∧
  (IsSparse d = false → 1 < size → size ≠ n → is_fail (fillCSVFieldDesc s f d) = true).
Proof.
  intros Hlen Hzs s n size.
  assert (zs ≠ []) as Hne by (by intros ->; simpl in Hlen; lia).
  assert (csv_values s = map pretty zs) as Hv by by apply csv_values_integers.
  assert (1 < n) as Hn by (unfold n; lia).
  assert (∀ d', foldl csv_value d' (map pretty zs) = set_MaxID (foldl Z.max (MaxID d') zs) d') as Hf
    by (intros; by apply csv_value_integers).
  split_and!.
  - unfold inferStringDataFormat. assert (re_match csvRegex s = true) as -> by by apply re_match_lang, csv_lang.
    done.
  - intros Hs. unfold fillCSVFieldDesc. rewrite Hv, Hs. cbn [negb andb]. ok_step. by rewrite Hf, Hs.
  - intros Hs Hsh. unfold fillCSVFieldDesc. rewrite Hv, length_map, Hs. fold n size. cbn [negb andb].
    assert (size = 1) as Hsz.
    { destruct Hsh as [Hsh|?]; [|done]. unfold size. by rewrite Hsh. }
    rewrite (proj2 (Z.eqb_neq size n)) by lia. rewrite Hsz. cbn [negb andb]. change (1 <? 1) with false.
    ok_step. rewrite Hf. destruct (bool_decide (Shape d = None)); cbn [IsSparse set_Shape]; by rewrite Hs.
  - intros Hs Hsh Hsz. unfold fillCSVFieldDesc. rewrite Hv, length_map, Hs. fold n size. cbn [negb andb].
    rewrite bool_decide_false by done. rewrite (proj2 (Z.eqb_eq size n)) by done. cbn [negb]. ok_step.
    by rewrite Hf, Hs.
  - intros Hs H1 Hsz. unfold fillCSVFieldDesc. rewrite Hv, length_map, Hs. fold n size. cbn [negb andb].
    rewrite (proj2 (Z.eqb_neq size n)) by done. cbn [negb]. by rewrite (proj2 (Z.ltb_lt 1 size)).
Qed.

Lemma csv_integers_filled_witness :
  let d := newFieldDesc "c" Int (Some [3]) in
  @inferStringDataFormat word_regexp "5,-7,11" "" "" = Ok CSV ∧
  fillCSVFieldDesc "5,-7,11" "c" d = Ok (csv_filled [5; -7; 11] d).
Proof.
  destruct (@csv_integers_filled word_regexp [5; -7; 11] (newFieldDesc "c" Int (Some [3])) "c" "" "")
    as (H & _ & _ & Hd & _).
  - simpl. lia.
  - repeat constructor; unfold int64_range, min_int64, max_int64; lia.
  - split; [exact H|]. apply Hd; done.
Defined.

(** ** Key-value data *)

Definition kv_entry (kv : Z * string) : string := (pretty kv.1 +:+ String ":" kv.2)%string.
Definition kv_text (kvs : list (Z * string)) : string := Join (map kv_entry kvs) " ".
Definition kv_ok (kv : Z * string) : Prop := 0 ≤ kv.1 < max_int64 ∧ re_match r_number kv.2 = true.

Definition kv_item : re := RCat r_digits (RCat (r_char ":") (RCat r_number r_spaces)).

Lemma kv_item_lang kv t : kv_ok kv → lang r_spaces t → lang kv_item (kv_entry kv +:+ t).
Proof.
  destruct kv as [i v]. intros [Hi Hv%re_match_lang] Ht. unfold kv_entry. cbn [fst snd] in *.
  rewrite <- str_app_assoc. destruct (pretty_Z_digits i) as (Hd & _ & Hne); [lia|].
  constructor; [by apply digits_lang|]. apply lang_cat_cons; [apply lang_char|]. by constructor.
Qed.

Lemma kv_lang kvs t :
  kvs ≠ [] → Forall kv_ok kvs → lang r_spaces t → lang keyValueRegex (kv_text kvs +:+ t).
Proof.
  intros Hne Hk Ht. unfold kv_text, keyValueRegex, r_plus. fold kv_item.
  induction Hk as [|kv kvs Hkv Hkvs IH]; [done|].
  destruct kvs as [|kv' kvs].
  - cbn [map Join]. rewrite <- (str_app_nil_r (_ +:+ t)). constructor; [by apply kv_item_lang|constructor].
  - cbn [map] in *. rewrite Join_cons.
    rewrite (str_app_assoc (kv_entry kv)), <- (str_app_assoc (kv_entry kv +:+ " ")).
    constructor; [apply kv_item_lang; [done|]; by apply lang_star_class|].
    destruct (proj1 (lang_cat_inv _ _ _) (IH ltac:(done))) as (u & v & -> & ? & ?). by constructor.
Qed.

Lemma no_colon_csv s : lang csvRegex s → no_char ":" s = true.
Proof.
  apply lang_chars. set (P := λ d, negb (bool_decide (d = ":"%char))).
  assert (∀ c, re_digit c = true → P c = true) as Hd by (intros c; by destruct c as [[] [] [] [] [] [] [] []]).
  assert (∀ c, re_space c = true → P c = true) as Hs by (intros c; by destruct c as [[] [] [] [] [] [] [] []]).
  repeat split; try exact Hd; try exact Hs; intros c Hc; apply bool_decide_eq_true in Hc; by subst.
Qed.

Lemma kv_text_colon kvs t : kvs ≠ [] → no_char ":" (kv_text kvs +:+ t) = false.
Proof.
  destruct kvs as [|kv kvs]; [done|]. intros _. unfold kv_text. cbn [map].
  assert (∃ w, Join (kv_entry kv :: map kv_entry kvs) " " = (pretty kv.1 +:+ String ":" w)%string) as [w ->].
  { destruct kvs as [|kv' kvs]; [by eexists|]. cbn [map]. rewrite Join_cons. unfold kv_entry at 1.
    rewrite <- str_app_assoc. by eexists. }
  unfold no_char. rewrite <- str_app_assoc, str_forall_app. simpl. apply andb_false_r.
Qed.

(** A word: no white space, and not empty. *)
Definition is_word (w : string) : Prop := str_forall (λ c, negb (re_space c)) w = true ∧ w ≠ ""%string.

Lemma split_spaces_word w : str_forall (λ c, negb (re_space c)) w = true → split_spaces w = [w].
Proof.
  induction w as [|c w IH]; [done|]. cbn [str_forall split_spaces].
  intros [Hc Hw]%andb_true_iff. apply negb_true_iff in Hc. by rewrite Hc, IH.
Qed.

Lemma split_spaces_cons w s :
  str_forall (λ c, negb (re_space c)) w = true →
  match s with String d _ => re_space d = false | EmptyString => True end →
  split_spaces (w +:+ String " " s) = w :: split_spaces s.
Proof.
  intros Hw Hs. induction w as [|c w IH].
  - cbn [String.append split_spaces]. destruct s as [|d s]; [done|]. by rewrite Hs.
  - cbn [str_forall] in Hw. apply andb_true_iff in Hw as [Hc Hw]. apply negb_true_iff in Hc.
    cbn [String.append split_spaces]. by rewrite Hc, IH.
Qed.

Lemma split_spaces_Join ws tail :
  ws ≠ [] → Forall is_word ws → tail = ""%string ∨ tail = " "%string →
  split_spaces (Join ws " " +:+ tail) = ws ++ (if decide (tail = "")%string then [] else [""%string]).
Proof.
  intros Hne Hws Ht. induction Hws as [|w ws [Hw Hwn] Hws IH]; [done|].
  destruct ws as [|w' ws].
  - cbn [Join]. destruct Ht as [->| ->].
    + rewrite str_app_nil_r. by apply split_spaces_word.
    + by rewrite split_spaces_cons.
  - rewrite Join_cons. change (" " +:+ ?x)%string with (String " " x).
    rewrite <- str_app_assoc. cbn [String.append]. rewrite split_spaces_cons; [by rewrite IH|done|].
    apply Forall_cons in Hws as [[Hw' Hn'] _]. destruct w' as [|d w']; [done|].
    cbn [str_forall] in Hw'. apply andb_true_iff in Hw' as [Hd _]. apply negb_true_iff in Hd.
    by destruct ws.
Qed.

Lemma kv_word kv : kv_ok kv → is_word (kv_entry kv).
Proof.
  destruct kv as [i v]. intros [Hi Hv%re_match_lang]. unfold kv_entry. cbn [fst snd]. split.
  - rewrite str_forall_app. cbn [str_forall]. apply andb_true_iff. split; [|apply andb_true_iff; split; [done|]].
    + apply pretty_Z_forall; [|done]. intros c. by destruct c as [[] [] [] [] [] [] [] []].
    + eapply lang_chars; [|exact Hv]. repeat split; intros c; by destruct c as [[] [] [] [] [] [] [] []].
  - by destruct (pretty i).
Qed.

Lemma max_index_entry m kv : kv_ok kv → max_index_step m (kv_entry kv) = Ok (m `max` kv.1).
Proof.
  destruct kv as [i v]. intros [Hi _]. unfold max_index_step. cbn [fst] in *.
  assert (SplitN2 (kv_entry (i, v)) ":" = [pretty i; v]) as ->.
  { apply (SplitN2_char (pretty i) ":"). apply pretty_Z_forall; [|done].
    intros c. by destruct c as [[] [] [] [] [] [] [] []]. }
  rewrite Atoi_pretty by (unfold int64_range, min_int64, max_int64 in *; lia). cbn [or_fail]. ok_step.
  f_equal. destruct (m <? i) eqn:?; lia.
Qed.

Lemma max_index_entries m kvs :
  Forall kv_ok kvs → foldM max_index_step m (map kv_entry kvs) = Ok (foldl Z.max m (map fst kvs)).
Proof.
  intros Hk. revert m. induction Hk as [|kv kvs Hkv _ IH]; intros m; [done|].
  cbn [map foldM foldl]. rewrite max_index_entry by done. ok_step. apply IH.
Qed.

Lemma kv_format `{GoRegexp} kvs t d1 d2 :
  kvs ≠ [] → Forall kv_ok kvs → lang r_spaces t → inferStringDataFormat (kv_text kvs +:+ t) d1 d2 = Ok KV.
Proof.
  intros Hne Hk Ht. unfold inferStringDataFormat.
  destruct (re_match csvRegex _) eqn:Hcsv.
  { apply re_match_lang, no_colon_csv in Hcsv. by rewrite kv_text_colon in Hcsv. }
  assert (re_match keyValueRegex (kv_text kvs +:+ t) = true) as ->; [|done].
  apply re_match_lang. by apply kv_lang.
Qed.

Lemma kv_words kvs : Forall kv_ok kvs → Forall is_word (map kv_entry kvs).
Proof. intros Hk. apply (Forall_fmap kv_entry). eapply Forall_impl; [exact Hk|]. apply kv_word. Qed.

(** For the text [i1:v1 i2:v2 ...] with nonnegative indices and numbers, whatever the
    delimiters of the column are, the format is key-value, and filling a sparse column of
    one element that has no delimiter of its own gives it the largest index plus one as its
    shape and the type float. *)
Theorem kv_filled `{GoRegexp} (kvs : list (Z * string)) (d : FieldDesc) (f : string)
    (originalSizes : gmap string Z) :
  kvs ≠ [] → Forall kv_ok kvs → IsSparse d = true → DelimiterKV d = ""%string →
  default 1 (originalSizes !! f) = 1 →
  fill_string (kv_text kvs) f 0 originalSizes d
  = Ok (set_Shape [foldl Z.max 0 (map fst kvs) + 1] (set_DType Float (set_Format KV d))).
Proof.
  intros Hne Hk Hs Hkv Hsz. unfold fill_string. cbn [decide].
  assert (inferStringDataFormat (kv_text kvs) (Delimiter d) (DelimiterKV d) = Ok KV) as Hf.
  { rewrite <- (str_app_nil_r (kv_text kvs)). apply kv_format; [done|done|apply spaces_nil]. }
  rewrite decide_True by done. rewrite Hf. ok_step. cbn [Format set_Format].
  rewrite decide_False by done. rewrite decide_True by done. unfold fill_kv. cbn [IsSparse set_Format].
  rewrite Hs. cbn [negb DelimiterKV set_Format]. rewrite decide_True by done.
  rewrite bool_decide_true by done. rewrite decide_True by done.
  assert (getMaxIndexOfKeyValueData (kv_text kvs) = Ok (foldl Z.max 0 (map fst kvs))) as ->.
  { unfold getMaxIndexOfKeyValueData. rewrite <- (str_app_nil_r (kv_text kvs)). unfold kv_text.
    rewrite split_spaces_Join; [|by destruct kvs|by apply kv_words|by left].
    rewrite decide_True, app_nil_r by done. by apply max_index_entries. }
  assert (0 ≤ foldl Z.max 0 (map fst kvs) < max_int64) as Hm.
  { assert (∀ m, 0 ≤ m < max_int64 → 0 ≤ foldl Z.max m (map fst kvs) < max_int64) as Hgen; [|by apply Hgen].
    clear -Hk. induction Hk as [|kv kvs [Hkv _] _ IH]; intros m Hm; [done|]. apply IH. lia. }
  ok_step. unfold Shape0. cbn. rewrite wrap64_id by (unfold int64_range, min_int64, max_int64 in *; lia).
  destruct (1 <? _) eqn:Hlt; [done|].
  assert (foldl Z.max 0 (map fst kvs) + 1 = 1) as -> by lia. done.
Qed.

Lemma kv_filled_witness :
  let d := mkFieldDesc "c" Int Int "" "" "" (Some [1]) true None 0 in
  @fill_string word_regexp "3:-1.5 12:7" "c" 0 ∅ d
  = Ok (set_Shape [13] (set_DType Float (set_Format KV d))).
Proof.
  apply (@kv_filled word_regexp [(3, "-1.5"%string); (12, "7"%string)]).
  - done.
  - repeat constructor; vm_compute; done.
  - done.
  - done.
  - done.
Defined.

(** A blank behind the last pair still gives the key-value format, whose expression
    allows it, but then the largest index is an error: the text behind the blank counts as a
    pair. *)
Theorem kv_trailing_blank `{GoRegexp} (kvs : list (Z * string)) (d1 d2 : string) :
  kvs ≠ [] → Forall kv_ok kvs →
  inferStringDataFormat (kv_text kvs +:+ " ") d1 d2 = Ok KV ∧
  getMaxIndexOfKeyValueData (kv_text kvs +:+ " ") = Fail (invalid_kv "").
Proof.
  intros Hne Hk. split; [apply kv_format; [done|done|by apply lang_star_class]|].
  unfold getMaxIndexOfKeyValueData, kv_text.
  rewrite split_spaces_Join; [|by destruct kvs|by apply kv_words|by right].
  rewrite decide_False by done. by rewrite foldM_app, max_index_entries.
Qed.

Lemma kv_trailing_blank_witness :
  @inferStringDataFormat word_regexp "0:1 " "" "" = Ok KV ∧
  getMaxIndexOfKeyValueData "0:1 " = Fail (invalid_kv "").
Proof.
  apply (@kv_trailing_blank word_regexp [(0, "1"%string)] "" ""); [done|].
  repeat constructor; vm_compute; done.
Defined.
