(* ===== verification/Derivation.v ===== *)
(** * Deriving feature columns (go/ir/derivation.go, second half)

    The derivation writes through pointers: a field description is shared by the columns
    that read it and by the map from names to descriptions, and a feature column is in the
    statement and under every name of the column map.  So the descriptions and the columns
    live in a store here, a pointer is its position, a column refers to descriptions by
    position, and two column pointers are equal when their positions are.
    [InferFeatureColumns] puts the columns of the statement in the store, runs the steps of
    the source on it and reads the statement back. *)

From S2P Require Import Prelude GoStrings GoFloat FeatureColumn Lexer Syntax Ir Verifier Regexp FieldInfer.

Local Open Scope Z_scope.

Record store := mkStore { descs : list FieldDesc; cols : list (FeatureColumn nat) }.

Notation FieldDescMap := (gmap string nat).
(** Name of a field to the columns that read it; one for each target. *)
Notation TargetMap := (gmap string (list nat)).
Notation ColumnMap := (gmap string TargetMap).
(** [trainStmt.Features] as pointers. *)
Notation Pointers := (gmap string (list nat)).

Definition deref (s : store) (l : nat) : FieldDesc := default (newFieldDesc "" Int None) (descs s !! l).
Definition new_desc (d : FieldDesc) (s : store) : nat * store :=
  (length (descs s), mkStore (descs s ++ [d]) (cols s)).
Definition new_col (c : FeatureColumn nat) (s : store) : nat * store :=
  (length (cols s), mkStore (descs s) (cols s ++ [c])).
Definition set_desc (l : nat) (d : FieldDesc) (s : store) : store := mkStore (<[l := d]> (descs s)) (cols s).
Definition set_col (p : nat) (c : FeatureColumn nat) (s : store) : store :=
  mkStore (descs s) (<[p := c]> (cols s)).

(** The name of a description of [GetFieldDesc]. *)
Definition desc_name (s : store) (d : nat + FieldDesc) : string :=
  match d with inl l => Name (deref s l) | inr d => Name d end.
Definition desc_of (s : store) (d : nat + FieldDesc) : FieldDesc :=
  match d with inl l => deref s l | inr d => d end.

(** [m[k] = append(m[k], x)] *)
Definition append_at (k : string) (x : nat) (m : TargetMap) : TargetMap :=
  <[k := default [] (m !! k) ++ [x]]> m.

(** ** sort.Slice

    [sort_positions n less] is the order in which [sort.Slice] leaves the elements, by their
    old positions, when [less] answers from the positions alone.  Up to six elements it is
    an insertion sort. *)
Fixpoint sift (less : nat → nat → bool) (j : nat) (l : list nat) : list nat :=
  match j with
  | O => l
  | S i =>
    if less j i then
      match l !! j, l !! i with
      | Some x, Some y => sift less i (<[i := x]> (<[j := y]> l))
      | _, _ => l
      end
    else l
  end.
Definition insertion_sort (n : nat) (less : nat → nat → bool) : list nat :=
  foldl (λ l i, sift less i l) (seq 0 n) (seq 1 (n - 1)).

Class SortSlice := {
  sort_positions : nat → (nat → nat → bool) → list nat;
  sort_positions_perm : ∀ n less, sort_positions n less ≡ₚ seq 0 n;
  sort_positions_small : ∀ n less, (n ≤ 6)%nat → sort_positions n less = insertion_sort n less
}.

Section derivation.
Context `{UnicodeTables} `{GoRegexp} `{MapOrder}.

(** ** The maps *)

Definition initColumnMap (s : store) (tm : TargetMap) (fc : nat) : result TargetMap :=
  c ← index (cols s) fc;
  ds ← GetFieldDesc c;
  match c, ds with
  | EmbeddingColumn _ _ _ _ name, [] | IndicatorColumn _ name, [] => Ok (append_at name fc tm)
  | _, _ => Ok (foldl (λ tm d, append_at (desc_name s d) fc tm) tm ds)
  end.

Definition makeColumnMap (s : store) (parsedFeatureColumns : Pointers) : result ColumnMap :=
  foldM (λ fcMap tl,
      tm ← foldM (initColumnMap s) ∅ tl.2;
      Ok (<[tl.1 := tm]> fcMap)) ∅ (range_map parsedFeatureColumns).

Definition add_desc (sm : store * FieldDescMap) (d : nat + FieldDesc) : store * FieldDescMap :=
  let '(s, m) := sm in
  match d with
  | inl l => (s, <[Name (deref s l) := l]> m)
  | inr d => let '(l, s) := new_desc d s in (s, <[Name d := l]> m)
  end.
Definition makeFieldDescMap (s : store) (features : Pointers) : result (store * FieldDescMap) :=
  foldM (foldM (λ sm fc,
      c ← index (cols sm.1) fc;
      ds ← GetFieldDesc c;
      Ok (foldl add_desc sm ds))) (s, ∅) (map snd (range_map features)).

(** ** Filling the descriptions from the samples *)

(** The description of a field, with a default one if there is none. *)
Definition describe (fld : string) (sm : store * FieldDescMap) : nat * (store * FieldDescMap) :=
  let '(s, m) := sm in
  match m !! fld with
  | Some l => (l, (s, m))
  | None => let '(l, s) := new_desc (newDefaultFieldDesc fld) s in (l, (s, <[fld := l]> m))
  end.
Definition fill_step (rowdata : list (scan_dest * string)) (rowCount : nat)
    (originalSizes : gmap string Z) (sm : store * FieldDescMap) (ict : nat * ColumnType)
    : result (store * FieldDescMap) :=
  let '(idx, ct) := ict in
  let fld := (Decomp (ct_Name ct)).2 in
  let '(l, (s, m)) := describe fld sm in
  d ← fill_field rowdata rowCount originalSizes idx ct fld (deref s l);
  Ok (set_desc l d s, m).
Definition fillFieldDesc (columnTypeList : list ColumnType) (rowdata : list (scan_dest * string))
    (rowCount : nat) (originalSizes : gmap string Z) (sm : store * FieldDescMap)
    : result (store * FieldDescMap) :=
  foldM (fill_step rowdata rowCount originalSizes) sm (imap pair columnTypeList).

(** The error of [scanRowValue] is overwritten: the row is nil then. *)
Definition fillFieldDescs (rows : Rows) (columnTypes : list ColumnType)
    (originalSizes : gmap string Z) (sm : store * FieldDescMap) : result (store * FieldDescMap) :=
  sm ← foldM (λ sm ir,
      let '(rowCount, r) := ir in
      let rowData := match scanRowValue r columnTypes with Ok d => d | _ => [] end in
      fillFieldDesc columnTypes rowData rowCount originalSizes sm)
    sm (imap pair (row_data rows));
  let n := length (row_data rows) in
  match Err_after rows (n + 1) with
  | Some e => Fail e
  | None => if decide (n = 0%nat) then Fail (Errorf "fillFieldDesc: empty dataset" []) else Ok sm
  end.

Definition originalSizes_of (s : store) (m : FieldDescMap) : gmap string Z :=
  (λ l, shape_size (default [] (Shape (deref s l)))) <$> m.

(** ** Deriving the columns *)

Definition getFeatureColumnTargets (features : Pointers) : list string :=
  match range_map features with [] => ["feature_columns"%string] | l => map fst l end.

(** [trainStmt.Label.GetFieldDesc()[0]] *)
Definition label_desc (label : FeatureColumn nat) : result (nat + FieldDesc) :=
  ds ← GetFieldDesc label; index ds 0.

Definition updateFeatureColumn (fmMap : FieldDescMap) (s : store) (fc : nat) : result store :=
  let not_found name := Errorf "column not found or inferred: %s" [name] in
  c ← index (cols s) fc;
  match c with
  | EmbeddingColumn None dim comb ini name =>
    cs ← or_fail (fmMap !! name) (not_found name);
    let d := deref s cs in
    s0 ← Shape0 d;
    bucketSize ←
      (if IsSparse d then Ok s0
       else if MaxID d =? 0 then
         Fail (Errorf "use dense column on embedding column but did not got a correct MaxID" [])
       else Ok (wrap64 (MaxID d + 1)));
    Ok (set_col fc (EmbeddingColumn (Some (CategoryIDColumn cs bucketSize)) dim comb ini name) s)
  | IndicatorColumn None name =>
    cs ← or_fail (fmMap !! name) (not_found name);
    let d := deref s cs in
    if IsSparse d then Fail (Errorf "cannot use sparse column with indicator column" [])
    else if MaxID d =? 0 then
      Fail (Errorf "use indicator column but did not got a correct MaxID" [])
    else
      Ok (set_col fc (IndicatorColumn (Some (CategoryIDColumn cs (wrap64 (MaxID d + 1)))) name) s)
  | _ => Ok s
  end.

Definition new_column (cs : nat) (d : FieldDesc) : FeatureColumn nat :=
  if decide (DType d = Str) then
    EmbeddingColumn
      (Some (CategoryIDColumn cs (Z.of_nat (size (default ∅ (Vocabulary d)))))) 128 "sum" "" ""
  else NumericColumn cs.
Definition newFeatureColumn (fmMap : FieldDescMap) (fieldName : string) (st : store * TargetMap)
    : result (store * TargetMap) :=
  let '(s, fcTargetMap) := st in
  cs ← or_fail (fmMap !! fieldName) (Errorf "column not found or inferred: %s" [fieldName]);
  let '(p, s) := new_col (new_column cs (deref s cs)) s in
  Ok (s, append_at fieldName p fcTargetMap).

(** A name that is not a selected field is an expression for some of them.  The state is
    the store, the new map of the target and the map of the descriptions; the last has an
    entry for every selected field ([fillFieldDescs_fields] below), so that its value is
    never nil here. *)
Definition expand_one (fc : nat) (matches : string → bool) (fdMap : FieldDescMap)
    (st : store * TargetMap * bool) (sf : string) : result (store * TargetMap * bool) :=
  let '(s, tm, hasMatch) := st in
  if matches sf then
    l ← or_fail (fdMap !! sf) (Errorf "nil description" []);
    c ← index (cols s) fc;
    applied ← ApplyTo (deref s) l c;
    let '(p, s) := new_col applied s in
    Ok (s, <[sf := [p]]> tm, true)
  else Ok st.

Definition expand_names (selectFieldTypeMap : FieldTypes) (st : store * TargetMap * FieldDescMap)
    (fl : string * list nat) : result (store * TargetMap * FieldDescMap) :=
  let '(s, tm, fdMap) := st in
  let '(f, fcs) := fl in
  match selectFieldTypeMap !! f with
  | Some _ => Ok (s, <[f := fcs]> tm, fdMap)
  | None =>
    match fcs with
    | [fc] =>
      r ← or_fail (compile_regexp ("(?i)^" +:+ f +:+ "$"))
            (Errorf "unknown column '%s' in 'column clause'" [f]);
      '(s, tm, hasMatch) ←
        foldM (expand_one fc r fdMap) (s, tm, false) (map fst (range_map selectFieldTypeMap));
      if hasMatch : bool then Ok (s, tm, delete f fdMap)
      else Fail (Errorf "'%s' in 'column clause' does not match any selected fields" [f])
    | _ => Fail (Errorf "cannot expand '%s' in 'column clause'" [f])
    end
  end.

(** The main loop, for a field. *)
Definition derive_field (label : FeatureColumn nat) (targets : nat) (fdMap : FieldDescMap)
    (st : store * TargetMap) (slctKey : string) : result (store * TargetMap) :=
  let '(s, fcTargetMap) := st in
  d ← label_desc label;
  if decide (desc_name s d = slctKey) then Ok st
  else match fcTargetMap !! slctKey with
  | Some fcList => s ← foldM (updateFeatureColumn fdMap) s fcList; Ok (s, fcTargetMap)
  | None => if decide (1 < targets)%nat then Ok st else newFeatureColumn fdMap slctKey st
  end.

(** The loop over the targets, for one of them. *)
Definition derive_target (selectFieldTypeMap : FieldTypes) (label : FeatureColumn nat) (targets : nat)
    (st : store * ColumnMap * FieldDescMap) (target : string)
    : result (store * ColumnMap * FieldDescMap) :=
  let '(s, fcMap, fdMap) := st in
  let fcTargetMap := default ∅ (fcMap !! target) in
  '(s, tm, fdMap) ← foldM (expand_names selectFieldTypeMap) (s, ∅, fdMap) (range_map fcTargetMap);
  '(s, tm) ← foldM (derive_field label targets fdMap) (s, tm) (map fst (range_map selectFieldTypeMap));
  Ok (s, <[target := tm]> fcMap, fdMap).

Definition deriveFeatureColumn (s : store) (fcMap : ColumnMap) (columnTargets : list string)
    (fdMap : FieldDescMap) (selectFieldTypeMap : FieldTypes) (label : FeatureColumn nat)
    : result (store * ColumnMap * FieldDescMap) :=
  foldM (derive_target selectFieldTypeMap label (length columnTargets)) (s, fcMap, fdMap) columnTargets.

(** ** Writing the columns back *)

Definition desc_count (s : store) (p : nat) : result nat :=
  c ← index (cols s) p; ds ← GetFieldDesc c; Ok (length ds).

Definition multi_columns (s : store) (fcs : list nat) : result (list nat) :=
  foldM (λ acc p, n ← desc_count s p; Ok (if decide (1 < n)%nat then acc ++ [p] else acc)) [] fcs.

(** The columns so far: all of them, those with one description, the others. *)
Definition collect_column (s : store) (st : list nat * list nat * list nat) (fc : nat)
    : result (list nat * list nat * list nat) :=
  let '(allColumnFCs, singleColumnFC, multiColumnFC) := st in
  if decide (fc ∈ allColumnFCs) then Ok st
  else
    n ← desc_count s fc;
    if decide (n = 1%nat) then Ok (allColumnFCs ++ [fc], singleColumnFC ++ [fc], multiColumnFC)
    else Ok (allColumnFCs ++ [fc], singleColumnFC, multiColumnFC ++ [fc]).

Definition collect_columns (s : store) (label : FeatureColumn nat) (tm : TargetMap)
    (selectFieldNames : list string) : result (list nat * list nat * list nat) :=
  foldM (λ st slctKey,
      d ← label_desc label;
      if decide (slctKey = desc_name s d) then Ok st
      else foldM (collect_column s) st (default [] (tm !! slctKey)))
    ([], [], []) selectFieldNames.

(** The sort: [less] asks for the elements of [indices], which stay where they are.  With
    two columns or more it asks for each of them. *)
Definition sort_multi `{SortSlice} (allMultiColumnFeatures multiColumnFC : list nat) : result (list nat) :=
  let indices := omap (λ p, fst <$> list_find (eq p) allMultiColumnFeatures) multiColumnFC in
  let n := length multiColumnFC in
  if decide (2 ≤ n ∧ length indices < n)%nat then Panic
  else
    let less i j := (nth i indices 0 <? nth j indices 0)%nat in
    Ok (omap (λ k, multiColumnFC !! k) (sort_positions n less)).

Definition set_target `{SortSlice} (s : store) (label : FeatureColumn nat) (fcMap : ColumnMap)
    (selectFieldNames : list string) (features : Pointers) (target : string) : result Pointers :=
  allMultiColumnFeatures ← multi_columns s (default [] (features !! target));
  '(allColumnFCs, singleColumnFC, multiColumnFC) ←
    collect_columns s label (default ∅ (fcMap !! target)) selectFieldNames;
  if decide (multiColumnFC = []) then Ok (<[target := allColumnFCs]> features)
  else
    multiColumnFC ← sort_multi allMultiColumnFeatures multiColumnFC;
    Ok (<[target := singleColumnFC ++ multiColumnFC]> features).

Definition setDerivedFeatureColumnToIR `{SortSlice} (s : store) (label : FeatureColumn nat)
    (fcMap : ColumnMap) (columnTargets selectFieldNames : list string) (features : Pointers)
    : result Pointers :=
  foldM (set_target s label fcMap selectFieldNames) features columnTargets.

(** The store with the shape of the label set, and the label. *)
Definition deriveLabel (s : store) (label : FeatureColumn nat) (fmMap : FieldDescMap)
    : result (store * FeatureColumn nat) :=
  d ← label_desc label;
  let labelName := desc_name s d in
  if decide (labelName = ""%string) then Ok (s, label)
  else
    l ← or_fail (fmMap !! labelName) (Errorf "deriveLabel: LABEL COLUMN '%s' not found" [labelName]);
    let d := deref s l in
    Ok (if decide (Shape d = Some [1]) then set_desc l (set_Shape [] d) s else s, NumericColumn l).

(** ** The statement in the store *)

Fixpoint value_in (v : value FieldDesc) (ds : list FieldDesc) : value nat * list FieldDesc :=
  match v with
  | VNil => (VNil, ds)
  | VInt z => (VInt z, ds)
  | VFloat f => (VFloat f, ds)
  | VFloat64 f => (VFloat64 f, ds)
  | VBool b => (VBool b, ds)
  | VString x => (VString x, ds)
  | VInts l => (VInts l, ds)
  | VStrings l => (VStrings l, ds)
  | VList l =>
    let '(l, ds) :=
      (fix values_in l ds :=
         match l with
         | [] => ([], ds)
         | v :: l => let '(v, ds) := value_in v ds in let '(l, ds) := values_in l ds in (v :: l, ds)
         end) l ds in
    (VList l, ds)
  | VColumn c => let '(c, ds) := column_in c ds in (VColumn c, ds)
  end
with column_in (c : FeatureColumn FieldDesc) (ds : list FieldDesc) : FeatureColumn nat * list FieldDesc :=
  let cat_in (cat : option (FeatureColumn FieldDesc)) ds :=
    match cat with Some c => let '(c, ds) := column_in c ds in (Some c, ds) | None => (None, ds) end in
  match c with
  | NumericColumn d => (NumericColumn (length ds), ds ++ [d])
  | BucketColumn d b => (BucketColumn (length ds) b, ds ++ [d])
  | CrossColumn keys n =>
    let '(keys, ds) :=
      (fix values_in l ds :=
         match l with
         | [] => ([], ds)
         | v :: l => let '(v, ds) := value_in v ds in let '(l, ds) := values_in l ds in (v :: l, ds)
         end) keys ds in
    (CrossColumn keys n, ds)
  | CategoryIDColumn d n => (CategoryIDColumn (length ds) n, ds ++ [d])
  | CategoryHashColumn d n => (CategoryHashColumn (length ds) n, ds ++ [d])
  | SeqCategoryIDColumn d n => (SeqCategoryIDColumn (length ds) n, ds ++ [d])
  | EmbeddingColumn cat dim comb ini name =>
    let '(cat, ds) := cat_in cat ds in (EmbeddingColumn cat dim comb ini name, ds)
  | IndicatorColumn cat name => let '(cat, ds) := cat_in cat ds in (IndicatorColumn cat name, ds)
  | WeightedCategoryColumn cat name =>
    let '(cat, ds) := cat_in cat ds in (WeightedCategoryColumn cat name, ds)
  end.

Fixpoint value_out (s : store) (v : value nat) : value FieldDesc :=
  match v with
  | VNil => VNil
  | VInt z => VInt z
  | VFloat f => VFloat f
  | VFloat64 f => VFloat64 f
  | VBool b => VBool b
  | VString x => VString x
  | VInts l => VInts l
  | VStrings l => VStrings l
  | VList l => VList (map (value_out s) l)
  | VColumn c => VColumn (column_out s c)
  end
with column_out (s : store) (c : FeatureColumn nat) : FeatureColumn FieldDesc :=
  match c with
  | NumericColumn d => NumericColumn (deref s d)
  | BucketColumn d b => BucketColumn (deref s d) b
  | CrossColumn keys n => CrossColumn (map (value_out s) keys) n
  | CategoryIDColumn d n => CategoryIDColumn (deref s d) n
  | CategoryHashColumn d n => CategoryHashColumn (deref s d) n
  | SeqCategoryIDColumn d n => SeqCategoryIDColumn (deref s d) n
  | EmbeddingColumn cat dim comb ini name =>
    EmbeddingColumn (match cat with Some c => Some (column_out s c) | None => None end) dim comb ini name
  | IndicatorColumn cat name =>
    IndicatorColumn (match cat with Some c => Some (column_out s c) | None => None end) name
  | WeightedCategoryColumn cat name =>
    WeightedCategoryColumn (match cat with Some c => Some (column_out s c) | None => None end) name
  end.

Definition load_column (s : store) (c : FeatureColumn FieldDesc) : nat * store :=
  let '(c, ds) := column_in c (descs s) in new_col c (mkStore ds (cols s)).
Definition load_features (features : features FieldDesc) : Pointers * store :=
  foldl (λ ps tl,
      let '(fcs, s) :=
        foldl (λ ls c, let '(p, s) := load_column ls.2 c in (ls.1 ++ [p], s)) ([], ps.2) tl.2 in
      (<[tl.1 := fcs]> ps.1, s)) (∅, mkStore [] []) (map_to_list features).
Definition read_features (s : store) (ps : Pointers) : features FieldDesc :=
  (map (column_out s) ∘ omap (λ p, cols s !! p)) <$> ps.

(** ** The whole derivation *)

Definition select_field (st : FieldTypes * list string) (ct : ColumnType)
    : result (FieldTypes * list string) :=
  let '(selectFieldTypeMap, selectFieldNames) := st in
  let fld := (Decomp (ct_Name ct)).2 in
  match selectFieldTypeMap !! fld with
  | Some _ => Fail (Errorf "duplicated field name %s" [fld])
  | None => Ok (<[fld := DatabaseTypeName ct]> selectFieldTypeMap, selectFieldNames ++ [fld])
  end.

Definition InferFeatureColumns `{SortSlice} (trainStmt : TrainStmt FieldDesc) (db : DB)
    : result (TrainStmt FieldDesc) :=
  let '(features, s) := load_features (Features trainStmt) in
  let '(label, ds) := column_in (t_Label trainStmt) (descs s) in
  let s := mkStore ds (cols s) in
  fcMap ← makeColumnMap s features;
  '(s, fmMap) ← makeFieldDescMap s features;
  rows ← FetchSamples db (t_Select trainStmt) 1000;
  columnTypes ← ColumnTypes rows;
  '(selectFieldTypeMap, selectFieldNames) ← foldM select_field (∅, []) columnTypes;
  let originalSizes := originalSizes_of s fmMap in
  '(s, fmMap) ← fillFieldDescs rows columnTypes originalSizes (s, fmMap);
  let columnTargets := getFeatureColumnTargets features in
  '(s, fcMap, fmMap) ← deriveFeatureColumn s fcMap columnTargets fmMap selectFieldTypeMap label;
  features ← setDerivedFeatureColumnToIR s label fcMap columnTargets selectFieldNames features;
  '(s, label) ← deriveLabel s label fmMap;
  Ok (set_Label (column_out s label) (set_Features (read_features s features) trainStmt)).

(** ** The log *)

Definition column_kind {R} (c : FeatureColumn R) : string :=
  match c with
  | NumericColumn _ => "*ir.NumericColumn"
  | BucketColumn _ _ => "*ir.BucketColumn"
  | CrossColumn _ _ => "*ir.CrossColumn"
  | CategoryIDColumn _ _ => "*ir.CategoryIDColumn"
  | CategoryHashColumn _ _ => "*ir.CategoryHashColumn"
  | SeqCategoryIDColumn _ _ => "*ir.SeqCategoryIDColumn"
  | EmbeddingColumn _ _ _ _ _ => "*ir.EmbeddingColumn"
  | IndicatorColumn _ _ => "*ir.IndicatorColumn"
  | WeightedCategoryColumn _ _ => "*ir.WeightedCategoryColumn"
  end.
Definition log_column (target : string) (fc : FeatureColumn FieldDesc) : result (list string) :=
  ds ← GetFieldDesc fc;
  Ok (map (λ d, ("Using column (" +:+ Name (match d with inl d | inr d => d end)
                 +:+ ") in feature column (" +:+ column_kind fc
                 +:+ ") as model construct param (" +:+ target +:+ ")")%string) ds).
(** What is written to a writer that is not nil. *)
Definition LogDerivationResult (trainStmt : TrainStmt FieldDesc) : result (list string) :=
  ls ← mapR (λ tl, l ← mapR (log_column tl.1) tl.2; Ok (concat l)) (range_map (Features trainStmt));
  Ok (concat ls ++ [char1 (of_byte 10)]).
End derivation.

(** ** Sorting *)

Lemma swap_perm (l : list nat) i j x y :
  l !! j = Some x → l !! i = Some y → <[i := x]> (<[j := y]> l) ≡ₚ l.
Proof.
  intros Hj Hi. apply Permutation_inj. rewrite !length_insert. split; [done|].
  exists (λ k, if decide (k = i) then j else if decide (k = j) then i else k). split.
  - intros a b. repeat case_decide; congruence.
  - intros k. apply lookup_lt_Some in Hi as Hli. apply lookup_lt_Some in Hj as Hlj.
    case_decide as Hki; [subst|case_decide as Hkj; [subst|]].
    + by rewrite list_lookup_insert_eq by (by rewrite length_insert).
    + rewrite list_lookup_insert_ne by done. by rewrite list_lookup_insert_eq by done.
    + by rewrite !list_lookup_insert_ne by done.
Qed.

Lemma sift_perm less j l : sift less j l ≡ₚ l.
Proof.
  revert l. induction j as [|i IH]; intros l; simpl; [done|].
  destruct (less (S i) i); [|done].
  destruct (l !! S i) as [x|] eqn:Hj; [|done]. destruct (l !! i) as [y|] eqn:Hi; [|done].
  rewrite IH. by apply swap_perm.
Qed.

Lemma insertion_sort_perm n less : insertion_sort n less ≡ₚ seq 0 n.
Proof.
  unfold insertion_sort. generalize (seq 1 (n - 1)). intros ks.
  assert (∀ l, foldl (λ l i, sift less i l) l ks ≡ₚ l) as H; [|apply H].
  induction ks as [|i ks IH]; intros l; simpl; [done|]. by rewrite IH, sift_perm.
Qed.

(** The insertion sort is an instance. *)
Definition insertion_slice : SortSlice :=
  {| sort_positions := insertion_sort; sort_positions_perm := insertion_sort_perm;
     sort_positions_small n less _ := eq_refl |}.

Lemma omap_lookup_perm (l : list nat) ks : ks ≡ₚ seq 0 (length l) → omap (λ k, l !! k) ks ≡ₚ l.
Proof.
  intros ->. induction l as [|x l IH] using rev_ind; [done|].
  rewrite length_app, Nat.add_1_r, seq_S, omap_app. simpl. rewrite lookup_app_r, Nat.sub_diag by lia. simpl.
  assert (omap (λ k, (l ++ [x]) !! k) (seq 0 (length l)) = omap (λ k, l !! k) (seq 0 (length l))) as ->;
    [|by rewrite IH].
  apply list_omap_ext. apply Forall2_same_length_lookup_2; [done|]. intros i a b Ha Hb.
  rewrite Ha in Hb. injection Hb as <-. apply lookup_seq in Ha as [-> Hlt].
  by rewrite lookup_app_l.
Qed.

Lemma sort_multi_perm `{SortSlice} all multi l : sort_multi all multi = Ok l → l ≡ₚ multi.
Proof.
  unfold sort_multi. case_decide; [done|]. intros [= <-]. apply omap_lookup_perm, sort_positions_perm.
Qed.

(** ** The columns written back *)

Lemma collect_column_spec s st fc st' :
  collect_column s st fc = Ok st' →
  let '(a, sg, mu) := st in let '(a', sg', mu') := st' in
  NoDup a → a ≡ₚ sg ++ mu → NoDup a' ∧ a' ≡ₚ sg' ++ mu' ∧ (∀ p, p ∈ a' ↔ p ∈ a ∨ p = fc).
Proof.
  destruct st as [[a sg] mu]. unfold collect_column. case_decide as Hin.
  - intros [= <-] Hnd Hp. split_and!; try done. naive_solver.
  - intros (n & _ & H)%bind_Ok. case_decide; injection H as <-; intros Hnd Hp; split_and!.
    1, 4: apply NoDup_app; split_and!; [done|set_solver|apply NoDup_singleton].
    1, 3: rewrite Hp; solve_Permutation.
    all: intros p; set_solver.
Qed.

Lemma collect_list_spec s fcs st st' :
  foldM (collect_column s) st fcs = Ok st' →
  let '(a, sg, mu) := st in let '(a', sg', mu') := st' in
  NoDup a → a ≡ₚ sg ++ mu → NoDup a' ∧ a' ≡ₚ sg' ++ mu' ∧ (∀ p, p ∈ a' ↔ p ∈ a ∨ p ∈ fcs).
Proof.
  revert st. induction fcs as [|fc fcs IH]; intros [[a sg] mu]; cbn [foldM].
  - intros [= <-]. intros. split_and!; try done. set_solver.
  - intros ([[a1 sg1] mu1] & H1%collect_column_spec & H2%IH)%bind_Ok. destruct st' as [[a' sg'] mu'].
    intros Hnd Hp. destruct (H1 Hnd Hp) as (N1 & P1 & E1). destruct (H2 N1 P1) as (N2 & P2 & E2).
    split_and!; try done. intros p. rewrite E2, E1. set_solver.
Qed.

Lemma collect_columns_spec s label tm names l sg mu d :
  label_desc label = Ok d → collect_columns s label tm names = Ok (l, sg, mu) →
  NoDup l ∧ l ≡ₚ sg ++ mu ∧
  ∀ p, p ∈ l ↔ ∃ k, k ∈ names ∧ k ≠ desc_name s d ∧ p ∈ default [] (tm !! k).
Proof.
  intros Hd. unfold collect_columns. rewrite Hd. ok_step.
  assert (∀ st, foldM (λ st slctKey,
      if decide (slctKey = desc_name s d) then Ok st
      else foldM (collect_column s) st (default [] (tm !! slctKey))) st names = Ok (l, sg, mu) →
    let '(a0, sg0, mu0) := st in NoDup a0 → a0 ≡ₚ sg0 ++ mu0 →
    NoDup l ∧ l ≡ₚ sg ++ mu ∧
    ∀ p, p ∈ l ↔ p ∈ a0 ∨ ∃ k, k ∈ names ∧ k ≠ desc_name s d ∧ p ∈ default [] (tm !! k)) as Hgen.
  { induction names as [|k names IH]; intros [[a0 sg0] mu0]; cbn [foldM].
    - intros [= <- <- <-] ??. split_and!; try done. set_solver.
    - case_decide as Hk.
      + ok_step. intros H%IH ??. destruct H as (?&?&E); [done..|]. split_and!; try done.
        intros p. rewrite E. split; [set_solver|]. intros [?|(k' & [->|?]%elem_of_cons & ? & ?)]; [by left|done|].
        right. eauto.
      + intros ([[a1 sg1] mu1] & H1%collect_list_spec & H2%IH)%bind_Ok N0 P0.
        destruct (H1 N0 P0) as (N1 & P1 & E1). destruct (H2 N1 P1) as (?&?&E). split_and!; try done.
        intros p. rewrite E, E1. split.
        * intros [[?|?]|(k' & ? & ? & ?)]; [by left|right|right]; [exists k|exists k']; set_solver.
        * intros [?|(k' & [->|?]%elem_of_cons & ? & ?)]; [by left; left|by left; right|right; eauto]. }
  intros H. destruct (Hgen _ H) as (?&?&E); [apply NoDup_nil_2|done|]. split_and!; try done.
  intros p. rewrite E. set_solver.
Qed.

(** [setDerivedFeatureColumnToIR] gives a target exactly the columns of the selected fields
    other than the label, each of them once, in whatever way the sort orders them, and
    leaves the other targets. *)
Theorem set_target_columns `{SortSlice} (s : store) (label : FeatureColumn nat) (d : nat + FieldDesc)
    (fcMap : ColumnMap) (names : list string) (features features' : Pointers) (target : string) :
  label_desc label = Ok d → set_target s label fcMap names features target = Ok features' →
  ∃ l, features' = <[target := l]> features ∧ NoDup l ∧
    ∀ p, p ∈ l ↔ ∃ k, k ∈ names ∧ k ≠ desc_name s d ∧ p ∈ default [] (default ∅ (fcMap !! target) !! k).
Proof.
  intros Hd (all & _ & ([[l sg] mu] & Hc & Hw)%bind_Ok)%bind_Ok.
  destruct (collect_columns_spec _ _ _ _ _ _ _ _ Hd Hc) as (Hnd & Hp & He). case_decide.
  - injection Hw as <-. by exists l.
  - apply bind_Ok in Hw as (mu' & Hs%sort_multi_perm & [= <-]). exists (sg ++ mu'). split; [done|].
    assert (sg ++ mu' ≡ₚ l) as Hl by by rewrite Hs. split; [by rewrite Hl|]. intros p. by rewrite Hl.
Qed.

Lemma range_map_singleton `{MapOrder} {A} k (x : A) : range_map ({[k := x]} : gmap string A) = [(k, x)].
Proof. apply Permutation_singleton_r. by rewrite range_map_perm, map_to_list_singleton. Qed.

Lemma sort_multi_three `{SortSlice} : sort_multi [0; 1; 2]%nat [1; 2; 0]%nat = Ok [1; 0; 2]%nat.
Proof.
  unfold sort_multi. rewrite decide_False by (vm_compute; lia).
  rewrite sort_positions_small by (simpl; lia). reflexivity.
Qed.

(** The statement COLUMN CROSS([c,d],9), CROSS([a,c],9), CROSS([b,d],9) on the fields a, b, c
    and d with the label y. *)
Definition cross_store : store :=
  mkStore [newFieldDesc "y" Int (Some [1])]
    (map (λ ks, CrossColumn (map VString ks) 9) [["c"; "d"]; ["a"; "c"]; ["b"; "d"]]%string).
Definition cross_features : Pointers := {[ "feature_columns"%string := [0; 1; 2]%nat ]}.

(** Columns with several fields are to stand in the order of the COLUMN clause, but the
    order in which the comparison function looks does not follow the swaps of the sort.  For
    three CROSS columns the second comes first. *)
Theorem cross_columns_misordered `{SortSlice} `{MapOrder} :
  ∃ fcMap, makeColumnMap cross_store cross_features = Ok fcMap ∧
    setDerivedFeatureColumnToIR cross_store (NumericColumn 0%nat) fcMap ["feature_columns"%string]
      ["a"; "b"; "c"; "d"; "y"]%string cross_features
    = Ok {[ "feature_columns"%string := [1; 0; 2]%nat ]}.
Proof.
  unfold makeColumnMap, cross_features at 1. rewrite range_map_singleton. eexists. split; [reflexivity|].
  unfold setDerivedFeatureColumnToIR. cbn [foldM]. unfold set_target.
  assert (multi_columns cross_store (default [] (cross_features !! "feature_columns"%string))
          = Ok [0; 1; 2]%nat) as -> by (vm_compute; reflexivity). ok_step.
  match goal with |- context [collect_columns ?s ?l ?tm ?n] =>
    assert (collect_columns s l tm n = Ok ([1; 2; 0], [], [1; 2; 0])%nat) as -> by (vm_compute; reflexivity)
  end.
  ok_step. rewrite decide_False by done. rewrite sort_multi_three. reflexivity.
Qed.

Lemma set_target_columns_witness :
  let tm := {[ "a"%string := [1]; "c"%string := [1; 0] ]}%nat : TargetMap in
  ∃ l, {[ "feature_columns"%string := [0; 1]%nat ]} = <["feature_columns"%string := l]> cross_features ∧
    NoDup l ∧
    ∀ p, p ∈ l ↔ ∃ k, k ∈ ["y"; "c"]%string ∧ k ≠ "y"%string ∧ p ∈ default [] (tm !! k).
Proof.
  intros tm.
  destruct (@set_target_columns insertion_slice cross_store (NumericColumn 0%nat) (inl 0%nat)
    {[ "feature_columns"%string := tm ]} ["y"; "c"]%string cross_features
    {[ "feature_columns"%string := [0; 1]%nat ]} "feature_columns") as (l & H1 & H2 & H3).
  - reflexivity.
  - vm_compute. reflexivity.
  - exists l. split; [exact H1|]. split; [exact H2|]. exact H3.
Defined.

(** ** What filling does to the descriptions *)

(** Every name has a description of that name. *)
Definition fd_wf (s : store) (m : FieldDescMap) : Prop :=
  ∀ n l, m !! n = Some l → ∃ d, descs s !! l = Some d ∧ Name d = n.

Lemma fd_wf_inj s m n n' l : fd_wf s m → m !! n = Some l → m !! n' = Some l → n = n'.
Proof. intros Hw (d & Hd & <-)%Hw (d' & Hd' & <-)%Hw. congruence. Qed.

Lemma csv_value_Name vs d : Name (foldl csv_value d vs) = Name d.
Proof.
  revert d. induction vs as [|v vs IH]; intros d; simpl; [done|]. rewrite IH. unfold csv_value.
  by repeat case_match.
Qed.

Lemma fill_csv_Name cell fld d d' : fillCSVFieldDesc cell fld d = Ok d' → Name d' = Name d.
Proof.
  unfold fillCSVFieldDesc. intros (d1 & H1 & [= <-])%bind_Ok. rewrite csv_value_Name. simpl.
  assert (Name d1 = Name d) as <-; [|by destruct (IsSparse d1)].
  revert H1. repeat case_match; try done; by intros [= <-].
Qed.

Lemma fill_kv_Name cell fld rc sizes d d' : fill_kv cell fld rc sizes d = Ok d' → Name d' = Name d.
Proof.
  unfold fill_kv. destruct (negb _); [done|]. case_decide; [|by intros [= <-]].
  destruct (bool_decide _); [|by intros [= <-]].
  intros (i & _ & (s0 & _ & [= <-])%bind_Ok)%bind_Ok. destruct (s0 <? _); by case_decide.
Qed.

Lemma fill_string_Name `{GoRegexp} cell fld rc sizes d d' :
  fill_string cell fld rc sizes d = Ok d' → Name d' = Name d.
Proof.
  unfold fill_string. intros (d1 & H1 & H2)%bind_Ok.
  assert (Name d1 = Name d) as <-.
  { clear H2. case_decide; [|by injection H1 as <-]. by apply bind_Ok in H1 as (f & _ & [= <-]). }
  case_decide; [by eapply fill_csv_Name|]. case_decide; [by eapply fill_kv_Name|]. injection H2 as <-.
  unfold fillFieldDescByDataType. by repeat case_match.
Qed.

Lemma fill_field_Name `{UnicodeTables} `{GoRegexp} rowdata rc sizes i ct fld d d' :
  fill_field rowdata rc sizes i ct fld d = Ok d' → Name d' = Name d.
Proof.
  unfold fill_field. repeat case_decide; try done; [by intros [= <-]..|].
  intros (c & _ & Hs)%bind_Ok. by eapply fill_string_Name.
Qed.

Definition int_types : list string := ["INT"; "TINYINT"; "DECIMAL"; "BIGINT"]%string.
Definition float_types : list string := ["FLOAT"; "DOUBLE"]%string.

Lemma int_not_float t : t ∈ int_types → t ∉ float_types.
Proof.
  intros Hi. repeat (apply elem_of_cons in Hi as [->|Hi];
    [apply (bool_decide_eq_false (_ ∈ _)); reflexivity|]). by apply not_elem_of_nil in Hi.
Qed.

(** A number column is described by its database type. *)
Definition typed `{UnicodeTables} (ct : ColumnType) (d : FieldDesc) : Prop :=
  let t := unifyDatabaseTypeName (DatabaseTypeName ct) in
  Name d = (Decomp (ct_Name ct)).2 ∧
  (t ∈ int_types → DType d = Int ∧ Shape d = Some [1]) ∧
  (t ∈ float_types → DType d = Float ∧ Shape d = Some [1]).

Section fill_facts.
Context `{UnicodeTables} `{GoRegexp}.
Notation field ct := ((Decomp (ct_Name ct)).2).

Lemma fill_field_typed rowdata rc sizes i ct d d' :
  Name d = field ct → fill_field rowdata rc sizes i ct (field ct) d = Ok d' → typed ct d'.
Proof.
  intros Hn Hf. split; [by rewrite (fill_field_Name _ _ _ _ _ _ _ _ Hf)|].
  unfold fill_field in Hf. fold int_types float_types in Hf. case_decide as Hi.
  - injection Hf as <-. split; [done|]. intros Hfl. by apply int_not_float in Hi.
  - split; [done|]. intros Hfl. rewrite decide_True in Hf by done. by injection Hf as <-.
Qed.

Lemma describe_spec fld s m l s1 m1 :
  describe fld (s, m) = (l, (s1, m1)) → fd_wf s m →
  fd_wf s1 m1 ∧ m1 !! fld = Some l ∧ m ⊆ m1 ∧ cols s1 = cols s ∧
  (∀ n, is_Some (m1 !! n) ↔ is_Some (m !! n) ∨ n = fld) ∧
  (∀ k d, descs s !! k = Some d → descs s1 !! k = Some d).
Proof.
  unfold describe. destruct (m !! fld) as [k|] eqn:Hk.
  - intros [= <- <- <-] Hw. split_and!; try done. intros n. split; [by left|].
    intros [?| ->]; [done|]. by rewrite Hk.
  - cbn. intros [= <- <- <-] Hw. split_and!; try done.
    + intros n k Hn. destruct (decide (n = fld)) as [->|Hne].
      * rewrite lookup_insert_eq in Hn. injection Hn as <-. eexists.
        split; [by apply list_lookup_middle|done].
      * rewrite lookup_insert_ne in Hn by done. destruct (Hw _ _ Hn) as (d & Hd & Hnd).
        exists d. split; [|done]. by apply lookup_app_l_Some.
    + by rewrite lookup_insert_eq.
    + by apply insert_subseteq.
    + intros n. rewrite lookup_insert_is_Some. destruct (decide (fld = n)); naive_solver.
    + intros k d Hd. by apply lookup_app_l_Some.
Qed.

Lemma fill_step_spec rowdata rc sizes s m i ct s' m' :
  fill_step rowdata rc sizes (s, m) (i, ct) = Ok (s', m') → fd_wf s m →
  fd_wf s' m' ∧ m ⊆ m' ∧ cols s' = cols s ∧
  (∀ n, is_Some (m' !! n) ↔ is_Some (m !! n) ∨ n = field ct) ∧
  (∃ l d, m' !! field ct = Some l ∧ descs s' !! l = Some d ∧ typed ct d) ∧
  (∀ n l d, n ≠ field ct → m !! n = Some l → descs s !! l = Some d → descs s' !! l = Some d).
Proof.
  unfold fill_step. destruct (describe _ _) as [l [s1 m1]] eqn:Hd.
  intros (d' & Hf & [= <- <-])%bind_Ok Hw.
  destruct (describe_spec _ _ _ _ _ _ Hd Hw) as (Hw1 & Hl & Hsub & Hcols & Hdom & Hkeep).
  destruct (Hw1 _ _ Hl) as (d & Hd1 & Hnd). unfold deref in Hf. rewrite Hd1 in Hf. cbn in Hf.
  pose proof (fill_field_typed _ _ _ _ _ _ _ Hnd Hf) as Hty.
  assert (l < length (descs s1))%nat as Hlt by by apply lookup_lt_Some in Hd1.
  split_and!; try done.
  - intros n k Hn. unfold set_desc. cbn. destruct (decide (k = l)) as [->|Hkl].
    + exists d'. rewrite list_lookup_insert_eq by done. split; [done|].
      rewrite (fd_wf_inj _ _ _ _ _ Hw1 Hn Hl). by destruct Hty.
    + rewrite list_lookup_insert_ne by done. by apply Hw1.
  - exists l, d'. split; [done|]. split; [|done]. by apply list_lookup_insert_eq.
  - intros n k e Hn Hm He. cbn. rewrite list_lookup_insert_ne; [by apply Hkeep|].
    intros ->. apply Hn. eapply fd_wf_inj; [exact Hw1| |exact Hl]. by eapply lookup_weaken.
Qed.

(** The field of the column is described, as its type says. *)
Definition described (sm : store * FieldDescMap) (ct : ColumnType) : Prop :=
  ∃ l d, sm.2 !! field ct = Some l ∧ descs sm.1 !! l = Some d ∧ typed ct d.
(** What filling changes: descriptions are added for the given fields. *)
Definition extends (names : list string) (sm sm' : store * FieldDescMap) : Prop :=
  fd_wf sm'.1 sm'.2 ∧ sm.2 ⊆ sm'.2 ∧ cols sm'.1 = cols sm.1 ∧
  (∀ n, is_Some (sm'.2 !! n) ↔ is_Some (sm.2 !! n) ∨ n ∈ names).

Lemma extends_trans ns1 ns2 ns sm1 sm2 sm3 :
  (∀ n, n ∈ ns ↔ n ∈ ns1 ∨ n ∈ ns2) → extends ns1 sm1 sm2 → extends ns2 sm2 sm3 → extends ns sm1 sm3.
Proof.
  intros Hns (W1 & S1 & C1 & D1) (W2 & S2 & C2 & D2). split_and!.
  - done.
  - by transitivity sm2.2.
  - by rewrite C2.
  - intros n. rewrite D2, D1, Hns. tauto.
Qed.

Lemma fill_columns_spec rowdata rc sizes icts sm sm' :
  foldM (fill_step rowdata rc sizes) sm icts = Ok sm' → fd_wf sm.1 sm.2 →
  NoDup (map (λ ict, field ict.2) icts) →
  extends (map (λ ict, field ict.2) icts) sm sm' ∧ (∀ ict, ict ∈ icts → described sm' ict.2) ∧
  (∀ n l d, n ∉ map (λ ict, field ict.2) icts → sm.2 !! n = Some l → descs sm.1 !! l = Some d →
     descs sm'.1 !! l = Some d).
Proof.
  revert sm. induction icts as [|[i ct] icts IH]; intros [s m]; cbn [foldM map fst snd].
  - intros [= <-] Hw _. split_and!; try done.
    + split_and!; try done. intros n. rewrite elem_of_nil. tauto.
    + intros ict Hi. by apply not_elem_of_nil in Hi.
  - intros ([s1 m1] & H1 & H2)%bind_Ok Hw [Hn Hnd]%NoDup_cons.
    destruct (fill_step_spec _ _ _ _ _ _ _ _ _ H1 Hw) as (W1 & S1 & C1 & D1 & (l & d & Hl & Hd & Hty) & K1).
    destruct (IH _ H2 W1 Hnd) as (E2 & T2 & K2). split_and!.
    + eapply (extends_trans [field ct]); [| |exact E2].
      * intros n. rewrite elem_of_cons, list_elem_of_singleton. tauto.
      * split_and!; try done. intros n. by rewrite D1, list_elem_of_singleton.
    + intros ict [->|Hi]%elem_of_cons; [|by apply T2]. exists l, d. cbn [snd].
      destruct E2 as (_ & S2 & _). split_and!; [by eapply lookup_weaken|by eapply K2|done].
    + intros n k e [? ?]%not_elem_of_cons Hm He. eapply K2; [done|by eapply lookup_weaken|by eapply K1].
Qed.

Lemma imap_fields cts : map (λ ict, field ict.2) (imap pair cts) = map (λ ct, field ct) cts.
Proof.
  change (map ?f) with (fmap (M:=list) f). rewrite fmap_imap. unfold compose. cbn.
  assert (∀ f : nat → ColumnType → string, (∀ i c, f i c = field c) →
    imap f cts = (λ ct, field ct) <$> cts) as Hgen; [|by apply Hgen].
  induction cts as [|ct cts IH]; intros f Hf; [done|]. cbn. rewrite Hf. f_equal.
  apply IH. intros. apply Hf.
Qed.

Lemma elem_of_imap_pair (cts : list ColumnType) ct : ct ∈ cts → ∃ i, (i, ct) ∈ imap pair cts.
Proof.
  intros (i & Hi)%list_elem_of_lookup. exists i. apply elem_of_lookup_imap. by exists i, ct.
Qed.

Lemma fillFieldDesc_spec cts rowdata rc sizes sm sm' :
  fillFieldDesc cts rowdata rc sizes sm = Ok sm' → fd_wf sm.1 sm.2 → NoDup (map (λ ct, field ct) cts) →
  extends (map (λ ct, field ct) cts) sm sm' ∧ ∀ ct, ct ∈ cts → described sm' ct.
Proof.
  unfold fillFieldDesc. intros Hf Hw Hnd. rewrite <- imap_fields in Hnd.
  destruct (fill_columns_spec _ _ _ _ _ _ Hf Hw Hnd) as (He & Ht & _). rewrite imap_fields in He.
  split; [done|]. intros ct (i & Hi)%elem_of_imap_pair. apply (Ht _ Hi).
Qed.

Lemma fill_rows_spec cts sizes irs sm sm' :
  foldM (λ sm ir,
      let '(rowCount, r) := ir in
      fillFieldDesc cts (match scanRowValue r cts with Ok d => d | _ => [] end) rowCount sizes sm)
    sm irs = Ok sm' →
  fd_wf sm.1 sm.2 → NoDup (map (λ ct, field ct) cts) → irs ≠ [] →
  extends (map (λ ct, field ct) cts) sm sm' ∧ ∀ ct, ct ∈ cts → described sm' ct.
Proof.
  intros Hf Hw Hnd. revert sm Hf Hw. induction irs as [|[n r] irs IH]; intros sm; cbn [foldM]; [done|].
  intros (sm1 & H1 & H2)%bind_Ok Hw _. destruct (fillFieldDesc_spec _ _ _ _ _ _ H1 Hw Hnd) as [E1 T1].
  destruct (decide (irs = [])) as [->|Hne]; [by injection H2 as <-|].
  destruct (IH _ H2) as [E2 T2]; [by destruct E1|done|]. split; [|done].
  eapply extends_trans; [|exact E1|exact E2]. intros n'. tauto.
Qed.
End fill_facts.

(** After [fillFieldDescs] every selected field has a description of its name, descriptions
    that were there stay, no others come in, and a column of a number type is integer or
    float as the database says, with the shape [[1]], whatever the rows hold. *)
Theorem fillFieldDescs_fields `{UnicodeTables} `{GoRegexp} (rows : Rows) (cts : list ColumnType)
    (sizes : gmap string Z) (sm sm' : store * FieldDescMap) :
  fd_wf sm.1 sm.2 → NoDup (map (λ ct, (Decomp (ct_Name ct)).2) cts) →
  fillFieldDescs rows cts sizes sm = Ok sm' →
  row_data rows ≠ [] ∧ extends (map (λ ct, (Decomp (ct_Name ct)).2) cts) sm sm' ∧
  ∀ ct, ct ∈ cts → described sm' ct.
Proof.
  intros Hw Hnd (sm1 & H1 & H2)%bind_Ok. cbv zeta in H2. destruct (Err_after _ _); [done|]. case_decide as Hn; [done|].
  injection H2 as <-. assert (row_data rows ≠ []) as Hr by (by intros Hr; rewrite Hr in Hn).
  split; [done|]. eapply fill_rows_spec; [exact H1|done..|]. by destruct (row_data rows).
Qed.

(** A result of an integer and a text column with one row. *)
Definition small_rows : Rows :=
  mkRows (Ok [mkColumnType "t.Age" "INT"; mkColumnType "tags" "VARCHAR"])
    [λ _, Ok ["7"; "3,5"]%string] (λ _, None).

Lemma fillFieldDescs_fields_witness :
  let cts := [mkColumnType "t.Age" "INT"; mkColumnType "tags" "VARCHAR"] in
  ∃ sm', @fillFieldDescs latin1_tables word_regexp small_rows cts ∅ (mkStore [] [], ∅) = Ok sm' ∧
    @extends ["age"; "tags"]%string (mkStore [] [], ∅) sm' ∧
    ∀ ct, ct ∈ cts → @described latin1_tables sm' ct.
Proof.
  intros cts. eexists. split; [vm_compute; reflexivity|].
  match goal with |- extends _ _ ?sm ∧ _ =>
    destruct (@fillFieldDescs_fields latin1_tables word_regexp small_rows cts ∅ (mkStore [] [], ∅) sm)
      as (_ & H1 & H2)
  end.
  - intros n l Hn. cbn in Hn. by rewrite lookup_empty in Hn.
  - apply (bool_decide_eq_true (NoDup _)). vm_compute. reflexivity.
  - vm_compute. reflexivity.
  - split; [exact H1|exact H2].
Defined.

(** ** What updating does to the columns *)

Definition complete (c : FeatureColumn nat) : Prop :=
  match c with EmbeddingColumn None _ _ _ _ | IndicatorColumn None _ => False | _ => True end.

(** The number of classes of a description. *)
Definition classes (d : FieldDesc) (n : Z) : Prop :=
  if IsSparse d then ∃ l, Shape d = Some (n :: l) else MaxID d ≠ 0 ∧ n = wrap64 (MaxID d + 1).

Inductive updated (m : FieldDescMap) (s : store) : FeatureColumn nat → FeatureColumn nat → Prop :=
  | updated_same c : updated m s c c
  | updated_embedding dim comb ini name cs n :
    m !! name = Some cs → classes (deref s cs) n →
    updated m s (EmbeddingColumn None dim comb ini name)
      (EmbeddingColumn (Some (CategoryIDColumn cs n)) dim comb ini name)
  | updated_indicator name cs n :
    m !! name = Some cs → IsSparse (deref s cs) = false → classes (deref s cs) n →
    updated m s (IndicatorColumn None name) (IndicatorColumn (Some (CategoryIDColumn cs n)) name).

Lemma updated_trans m s c1 c2 c3 : updated m s c1 c2 → updated m s c2 c3 → updated m s c1 c3.
Proof.
  intros H1 H2. destruct H1; [done| |]; inversion H2; subst; by constructor.
Qed.

Lemma updated_complete m s c c' : updated m s c c' → complete c → complete c'.
Proof. by destruct 1. Qed.

Lemma updateFeatureColumn_spec m s fc s' :
  updateFeatureColumn m s fc = Ok s' →
  descs s' = descs s ∧
  ∃ c c', cols s !! fc = Some c ∧ cols s' = <[fc := c']> (cols s) ∧ updated m s c c' ∧ complete c'.
Proof.
  unfold updateFeatureColumn, index. intros (c & Hc & H)%bind_Ok.
  destruct (cols s !! fc) as [c0|] eqn:Hl; [|done]. injection Hc as ->.
  assert (∀ s', Ok s = Ok s' → complete c → descs s' = descs s ∧
    ∃ c0 c', Some c = Some c0 ∧ cols s' = <[fc := c']> (cols s) ∧ updated m s c0 c' ∧ complete c') as Hsame.
  { intros ? [= <-] Hcc. split; [done|]. exists c, c. rewrite list_insert_id by done.
    split_and!; try done. constructor. }
  destruct c as [| | | | | |[cat|] dim comb ini name|[cat|] name|]; try by apply Hsame.
  - apply bind_Ok in H as (cs & Hcs%or_fail_Ok & (s0 & Hs0 & (n & Hn & [= <-])%bind_Ok)%bind_Ok).
    split; [done|]. eexists _, _. split; [done|]. split; [done|]. split; [|done].
    constructor; [done|]. unfold classes. destruct (IsSparse _).
    + injection Hn as <-. unfold Shape0, index in Hs0. destruct (Shape (deref s cs)) as [[|x l]|]; try done.
      injection Hs0 as ->. by exists l.
    + destruct (_ =? _) eqn:Hz; [done|]. injection Hn as <-. apply Z.eqb_neq in Hz. done.
  - apply bind_Ok in H as (cs & Hcs%or_fail_Ok & H). destruct (IsSparse _) eqn:Hsp; [done|].
    destruct (_ =? _) eqn:Hz; [done|]. injection H as <-. apply Z.eqb_neq in Hz.
    split; [done|]. eexists _, _. split; [done|]. split; [done|]. split; [|done].
    constructor; [done..|]. unfold classes. by rewrite Hsp.
Qed.

(** After [updateFeatureColumn] every column of the list has its category column.  The
    descriptions and the other columns are as before; a new category column reads the
    description of the column's name and has as many classes as the largest index plus one,
    or as the shape says for a sparse one, and an INDICATOR is never sparse. *)
Theorem updateFeatureColumn_complete (m : FieldDescMap) (s s' : store) (fcList : list nat) :
  foldM (updateFeatureColumn m) s fcList = Ok s' →
  descs s' = descs s ∧
  (∀ fc, fc ∈ fcList → ∃ c, cols s' !! fc = Some c ∧ complete c) ∧
  (∀ p c, cols s !! p = Some c → ∃ c', cols s' !! p = Some c' ∧ updated m s c c' ∧ (p ∉ fcList → c' = c)).
Proof.
  revert s. induction fcList as [|fc fcs IH]; intros s; cbn [foldM].
  - intros [= <-]. split_and!; [done| |].
    + intros fc Hfc. by apply not_elem_of_nil in Hfc.
    + intros p c Hp. exists c. split_and!; [done|constructor|done].
  - intros (s1 & (Hd & c & c' & Hc & Hcols & Hu & Hcc)%updateFeatureColumn_spec & H2)%bind_Ok.
    destruct (IH _ H2) as (D2 & C2 & U2).
    assert (∀ x y, updated m s1 x y → updated m s x y) as Hs1.
    { intros x y. destruct 1; constructor; try done; unfold deref in *; by rewrite <- Hd. }
    assert (cols s1 !! fc = Some c') as Hfc.
    { rewrite Hcols. apply list_lookup_insert_eq. by eapply lookup_lt_Some. }
    split_and!; [congruence| |].
    + intros p [->|Hp]%elem_of_cons; [|by apply C2]. destruct (U2 _ _ Hfc) as (c2 & ? & Hu2 & _).
      exists c2. split; [done|]. by eapply updated_complete.
    + intros p x Hx. destruct (decide (p = fc)) as [->|Hne].
      * rewrite Hc in Hx. injection Hx as ->. destruct (U2 _ _ Hfc) as (c2 & ? & Hu2 & _). exists c2.
        split_and!; [done|eapply updated_trans; eauto|]. intros Hn. exfalso. apply Hn. left.
      * destruct (U2 p x) as (c2 & ? & Hu2 & Hn); [by rewrite Hcols, list_lookup_insert_ne|].
        exists c2. split_and!; [done|by apply Hs1|]. intros Hp. apply Hn. intros Hin. apply Hp. by right.
Qed.

Lemma updateFeatureColumn_complete_witness :
  let d := mkFieldDesc "a" Int Int "" "" "" (Some [1]) false None 7 in
  let s := mkStore [d] [EmbeddingColumn None 3 "sum" "" "a"] in
  let s' := mkStore [d] [EmbeddingColumn (Some (CategoryIDColumn 0%nat 8)) 3 "sum" "" "a"] in
  descs s' = descs s ∧ (∀ fc, fc ∈ [0%nat] → ∃ c, cols s' !! fc = Some c ∧ complete c).
Proof.
  intros d s s'.
  destruct (updateFeatureColumn_complete {[ "a"%string := 0%nat ]} s s' [0%nat]) as (H1 & H2 & _).
  - vm_compute. reflexivity.
  - split; [exact H1|exact H2].
Defined.
