(* ===== verification/DeriveNumeric.v ===== *)
(** * The derivation for numbers

    What [InferFeatureColumns] as a whole gives for a training statement without a COLUMN
    clause whose fields are numbers: the loop over the samples, the derivation, the columns
    written back and the label together. *)

From S2P Require Import Prelude GoStrings GoFloat FeatureColumn Lexer Syntax Ir Verifier Regexp FieldInfer.
From S2P Require Import Derivation.

Local Open Scope Z_scope.

Notation field ct := ((Decomp (ct_Name ct)).2).

Section numeric.
Context `{UnicodeTables} `{GoRegexp} `{MapOrder} `{SortSlice}.

Definition numeric (ct : ColumnType) : Prop :=
  unifyDatabaseTypeName (DatabaseTypeName ct) ∈ int_types ++ float_types.
(** The description of a number. *)
Definition numeric_desc (ct : ColumnType) : FieldDesc :=
  newFieldDesc (field ct)
    (if decide (unifyDatabaseTypeName (DatabaseTypeName ct) ∈ int_types) then Int else Float) (Some [1]).

(** No other field of a description is set. *)
Definition plain (d : FieldDesc) : Prop := d = newFieldDesc (Name d) (DType d) (Shape d).

Lemma typed_numeric ct d : numeric ct → typed ct d → plain d → d = numeric_desc ct.
Proof.
  intros [Hi|Hf]%elem_of_app (Hn & Hint & Hfl) ->; unfold numeric_desc; rewrite Hn.
  - destruct (Hint Hi) as [-> ->]. by rewrite decide_True.
  - destruct (Hfl Hf) as [-> ->]. rewrite decide_False; [done|]. intros Hi. by apply int_not_float in Hi.
Qed.

Lemma fill_field_numeric rowdata rc sizes i ct d :
  numeric ct → plain d → ∃ d', fill_field rowdata rc sizes i ct (field ct) d = Ok d' ∧ plain d'.
Proof.
  unfold fill_field. fold int_types float_types. intros [Hi|Hf]%elem_of_app ->.
  - rewrite decide_True by done. eexists. split; reflexivity.
  - rewrite decide_False by (intros Hi; by apply int_not_float in Hi). rewrite decide_True by done.
    eexists. split; reflexivity.
Qed.

(** The description of the label in the statement is at the first place, and those of the
    fields have no more than a type and a shape. *)
Definition numeric_state (lab : FieldDesc) (sm : store * FieldDescMap) : Prop :=
  fd_wf sm.1 sm.2 ∧ descs sm.1 !! 0%nat = Some lab ∧
  ∀ n l, sm.2 !! n = Some l → l ≠ 0%nat ∧ plain (deref sm.1 l).

Lemma deref_eq s l d : descs s !! l = Some d → deref s l = d.
Proof. unfold deref. by intros ->. Qed.

Lemma describe_numeric lab fld sm :
  numeric_state lab sm → numeric_state lab (describe fld sm).2 ∧
    (describe fld sm).2.2 !! fld = Some (describe fld sm).1.
Proof.
  destruct sm as [s m]. intros (Hw & Hz & Hm). destruct (describe fld (s, m)) as [l [s1 m1]] eqn:Hd.
  destruct (describe_spec _ _ _ _ _ _ Hd Hw) as (Hw1 & Hl & _ & _ & _ & Hk).
  split; [|done]. split; [done|]. split; [by apply Hk|]. cbn. intros n k Hn.
  unfold describe in Hd. destruct (m !! fld) as [l0|] eqn:Hf.
  - injection Hd as <- <- <-. by apply (Hm n).
  - cbn in Hd. injection Hd as <- <- <-. destruct (decide (n = fld)) as [->|Hne].
    + rewrite lookup_insert_eq in Hn. injection Hn as <-. split.
      * apply lookup_lt_Some in Hz. cbn in *. lia.
      * erewrite deref_eq by (cbn; by apply list_lookup_middle). reflexivity.
    + rewrite lookup_insert_ne in Hn by done. destruct (Hm _ _ Hn) as [? Hp]. split; [done|].
      destruct (Hw _ _ Hn) as (d & Hd & _). erewrite deref_eq by (by apply Hk).
      by erewrite deref_eq in Hp.
Qed.

Lemma fill_step_numeric lab rowdata rc sizes sm i ct :
  numeric ct → numeric_state lab sm →
  ∃ sm', fill_step rowdata rc sizes sm (i, ct) = Ok sm' ∧ numeric_state lab sm'.
Proof.
  intros Hct Hs. destruct sm as [s m].
  destruct (describe_numeric lab (field ct) (s, m) Hs) as [(W1 & Z1 & P1) L1].
  unfold fill_step. destruct (describe (field ct) (s, m)) as [l [s1 m1]]. cbn in *.
  destruct (P1 _ _ L1) as [Hl0 Hp].
  destruct (fill_field_numeric rowdata rc sizes i ct (deref s1 l) Hct Hp) as (d' & Hf & Hp').
  rewrite Hf. ok_step. eexists. split; [done|].
  destruct (W1 _ _ L1) as (d & Hd & Hn). assert (l < length (descs s1))%nat by by apply lookup_lt_Some in Hd.
  split_and!; cbn.
  - intros n k Hk. cbn. destruct (decide (k = l)) as [->|Hkl].
    + exists d'. rewrite list_lookup_insert_eq by done. split; [done|].
      rewrite (fill_field_Name _ _ _ _ _ _ _ _ Hf), (deref_eq _ _ _ Hd), Hn. by eapply fd_wf_inj.
    + rewrite list_lookup_insert_ne by done. by apply W1.
  - by rewrite list_lookup_insert_ne.
  - intros n k Hk. destruct (P1 _ _ Hk) as [? Hpk]. split; [done|].
    destruct (decide (k = l)) as [->|Hkl].
    + rewrite (deref_eq _ _ d'); [done|]. cbn. by apply list_lookup_insert_eq.
    + destruct (W1 _ _ Hk) as (e & He & _). erewrite deref_eq by (cbn; by rewrite list_lookup_insert_ne).
      by rewrite (deref_eq _ _ _ He) in Hpk.
Qed.

Lemma fill_rows_numeric lab cts sizes irs sm :
  Forall numeric cts → numeric_state lab sm →
  ∃ sm', foldM (λ sm ir,
      let '(rowCount, r) := ir in
      fillFieldDesc cts (match scanRowValue r cts with Ok d => d | _ => [] end) rowCount sizes sm)
    sm irs = Ok sm' ∧ numeric_state lab sm'.
Proof.
  intros Hn Hs. apply foldM_total; [|done]. intros [rc r] sm1 _ Hs1. unfold fillFieldDesc.
  apply foldM_total; [|done]. intros [i ct] sm2 Hi Hs2. apply fill_step_numeric; [|done].
  apply elem_of_lookup_imap in Hi as (j & ct' & [= <- <-] & Hj). by eapply Forall_lookup_1.
Qed.

(** The samples: every field is described by its type. *)
Lemma fillFieldDescs_numeric lab rows cts sizes :
  Forall numeric cts → NoDup (map (λ ct, field ct) cts) →
  row_data rows ≠ [] → Err_after rows (length (row_data rows) + 1) = None →
  ∃ s m, fillFieldDescs rows cts sizes (mkStore [lab] [], ∅) = Ok (s, m) ∧
    fd_wf s m ∧ descs s !! 0%nat = Some lab ∧ cols s = [] ∧
    (∀ n, is_Some (m !! n) ↔ n ∈ map (λ ct, field ct) cts) ∧ (∀ n, m !! n ≠ Some 0%nat) ∧
    ∀ ct, ct ∈ cts → ∃ l, m !! field ct = Some l ∧ descs s !! l = Some (numeric_desc ct).
Proof.
  intros Hnum Hnd Hr He.
  assert (numeric_state lab (mkStore [lab] [], ∅)) as Hz.
  { by split_and!. }
  destruct (fill_rows_numeric lab cts sizes (imap pair (row_data rows)) _ Hnum Hz)
    as ([s m] & Hf & Hw & Hlab & Hp).
  exists s, m. unfold fillFieldDescs. rewrite Hf. ok_step. cbv zeta. rewrite He.
  rewrite decide_False by (by destruct (row_data rows)).
  destruct (fill_rows_spec _ _ _ _ _ Hf) as [(_ & _ & Hc & Hd) Ht];
    [by destruct Hz|done|by destruct (row_data rows)|]. cbn in *.
  split_and!; try done.
  - intros n. rewrite Hd, lookup_empty. split; [intros [[??]|?]; done|by right].
  - intros n Hn. by destruct (Hp _ _ Hn).
  - intros ct Hct. destruct (Ht _ Hct) as (l & d & Hl & Hdl & Hty). cbn in *. exists l. split; [done|].
    rewrite Hdl. f_equal. destruct (Hp _ _ Hl) as [_ Hpl]. rewrite (deref_eq _ _ _ Hdl) in Hpl.
    apply typed_numeric; [|done..]. by eapply Forall_forall in Hct.
Qed.

(** ** The columns of one target *)

(** The columns for the fields [ks]: one for each but the label. *)
Definition columns_for (lab : FieldDesc) (m : FieldDescMap) (ks : list string)
    (cs : list (FeatureColumn nat)) (tm : TargetMap) : Prop :=
  ∀ k, match tm !! k with
       | Some ps => k ∈ ks ∧ k ≠ Name lab ∧
           ∃ p l, ps = [p] ∧ m !! k = Some l ∧ cs !! p = Some (NumericColumn l)
       | None => k ∉ ks ∨ k = Name lab
       end.

Lemma columns_for_lookup lab m ks cs tm k :
  columns_for lab m ks cs tm → k ∈ ks → k ≠ Name lab →
  ∃ p l, tm !! k = Some [p] ∧ m !! k = Some l ∧ cs !! p = Some (NumericColumn l).
Proof.
  intros Hc Hk Hn. specialize (Hc k). destruct (tm !! k) as [ps|].
  - destruct Hc as (_ & _ & p & l & -> & ? & ?). eauto.
  - by destruct Hc.
Qed.

Definition number_at (s : store) (m : FieldDescMap) (k : string) : Prop :=
  ∃ l d, m !! k = Some l ∧ descs s !! l = Some d ∧ DType d ≠ Str.

Lemma derive_field_numeric lab s m ks k cs tm :
  descs s !! 0%nat = Some lab → number_at s m k → k ∉ ks → columns_for lab m ks cs tm →
  ∃ cs' tm', derive_field (NumericColumn 0%nat) 1 m (mkStore (descs s) cs, tm) k
      = Ok (mkStore (descs s) cs', tm') ∧ columns_for lab m (k :: ks) cs' tm'.
Proof.
  intros Hlab (l & d & Hl & Hd & Hty) Hk Hc. unfold derive_field, label_desc. cbn [GetFieldDesc index lookup].
  ok_step. cbn [index list_lookup lookup]. ok_step. cbn [desc_name]. rewrite (deref_eq _ _ lab) by done.
  pose proof (Hc k) as Hck. destruct (decide (Name lab = k)) as [<-|Hlk].
  - eexists _, _. split; [done|]. intros k'. specialize (Hc k'). destruct (tm !! k').
    + destruct Hc as (? & ? & ?). split_and!; [by right|done..].
    + destruct (decide (k' = Name lab)) as [->|?]; [by right|]. destruct Hc as [Hc|?]; [|done].
      left. by apply not_elem_of_cons.
  - destruct (tm !! k) as [ps|] eqn:Htm; [by destruct Hck|]. rewrite decide_False by lia.
    unfold newFeatureColumn. rewrite Hl. cbn [or_fail]. ok_step.
    rewrite (deref_eq _ _ d) by done. unfold new_column. rewrite decide_False by done.
    cbn [new_col cols descs]. eexists _, _. split; [done|]. intros k'. unfold append_at. rewrite Htm.
    cbn [default from_option id app]. destruct (decide (k' = k)) as [->|Hne].
    + rewrite lookup_insert_eq. split_and!; [left|congruence|]. eexists _, _. split_and!; [done..|].
      by apply list_lookup_middle.
    + rewrite lookup_insert_ne by done. specialize (Hc k'). destruct (tm !! k').
      * destruct Hc as (? & ? & p & l' & ? & ? & ?). split_and!; [by right|done|].
        exists p, l'. split_and!; [done..|]. by apply lookup_app_l_Some.
      * destruct Hc as [?|?]; [left|by right]. by apply not_elem_of_cons.
Qed.

Lemma derive_fields_numeric lab s m keys ks cs tm :
  descs s !! 0%nat = Some lab → (∀ k, k ∈ keys → number_at s m k) → NoDup keys →
  (∀ k, k ∈ keys → k ∉ ks) → columns_for lab m ks cs tm →
  ∃ cs' tm' ks', foldM (derive_field (NumericColumn 0%nat) 1 m) (mkStore (descs s) cs, tm) keys
      = Ok (mkStore (descs s) cs', tm') ∧ columns_for lab m ks' cs' tm' ∧
    ∀ k, k ∈ ks' ↔ k ∈ ks ∨ k ∈ keys.
Proof.
  intros Hlab Hkeys Hnd. revert ks cs tm. induction Hnd as [|k keys Hk Hnd IH]; intros ks cs tm Hks Hc.
  - exists cs, tm, ks. split_and!; [done..|]. intros k. rewrite elem_of_nil. tauto.
  - destruct (derive_field_numeric lab s m ks k cs tm Hlab) as (cs1 & tm1 & Hf & Hc1);
      [apply Hkeys; left|apply Hks; left|done|].
    destruct (IH) with (ks := k :: ks) (cs := cs1) (tm := tm1) as (cs2 & tm2 & ks2 & Hf2 & Hc2 & He).
    + intros k' Hk'. apply Hkeys. by right.
    + intros k' Hk'. apply not_elem_of_cons. split; [by intros ->|]. apply Hks. by right.
    + done.
    + exists cs2, tm2, ks2. cbn [foldM]. rewrite Hf. ok_step. split_and!; [done..|].
      intros k'. rewrite He, !elem_of_cons. tauto.
Qed.

(** ** Collecting them *)

(** The columns for the names, in their order. *)
Definition columns_of (s : store) (m : FieldDescMap) (names : list string) (ps : list nat) : Prop :=
  Forall2 (λ k p, ∃ l, m !! k = Some l ∧ cols s !! p = Some (NumericColumn l)) names ps.

Lemma columns_of_fresh s m names ps k p l :
  fd_wf s m → columns_of s m names ps → k ∉ names → m !! k = Some l →
  cols s !! p = Some (NumericColumn l) → p ∉ ps.
Proof.
  intros Hw Hps. induction Hps as [|k' p' names ps (l' & Hl' & Hp') _ IH]; intros Hk Hl Hp.
  - by apply not_elem_of_nil.
  - apply not_elem_of_cons in Hk as [Hne Hk]. apply not_elem_of_cons. split; [|by apply IH].
    intros ->. rewrite Hp in Hp'. injection Hp' as <-. apply Hne. by eapply fd_wf_inj.
Qed.

Lemma collect_numeric lab s m tm ks names :
  descs s !! 0%nat = Some lab → fd_wf s m → columns_for lab m ks (cols s) tm →
  (∀ k, k ∈ names → k ∈ ks) → NoDup names →
  ∃ ps, collect_columns s (NumericColumn 0%nat) tm names = Ok (ps, ps, []) ∧
    columns_of s m (filter (λ k, k ≠ Name lab) names) ps.
Proof.
  intros Hlab Hw Hc Hin Hnd. unfold collect_columns, label_desc. cbn [GetFieldDesc]. ok_step.
  cbn [index list_lookup lookup]. ok_step. cbn [desc_name]. rewrite (deref_eq _ _ _ Hlab).
  assert (∀ pre ps0, (∀ k, k ∈ names → k ∉ pre) → columns_of s m pre ps0 →
    ∃ ps, foldM (λ st slctKey, if decide (slctKey = Name lab) then Ok st
        else foldM (collect_column s) st (default [] (tm !! slctKey))) (ps0, ps0, []) names
      = Ok (ps0 ++ ps, ps0 ++ ps, []) ∧ columns_of s m (filter (λ k, k ≠ Name lab) names) ps) as Hgen.
  { induction Hnd as [|k names Hk Hnd IH]; intros pre ps0 Hpre Hps0.
    - exists []. rewrite app_nil_r. split; [done|constructor].
    - cbn [foldM]. destruct (decide (k = Name lab)) as [->|Hkl].
      + ok_step. rewrite filter_cons_False by naive_solver.
        eapply IH; [|intros k' Hk'; apply Hpre; by right|done]. intros k' Hk'. apply Hin. by right.
      + rewrite filter_cons_True by done.
        destruct (columns_for_lookup _ _ _ _ _ k Hc) as (p & l & Ht & Hl & Hp); [apply Hin; left|done|].
        assert (p ∉ ps0) as Hfresh by (eapply columns_of_fresh; [..|exact Hp]; [done..|apply Hpre; left|done]).
        assert (collect_column s (ps0, ps0, []) p = Ok (ps0 ++ [p], ps0 ++ [p], [])) as Hcol.
        { unfold collect_column. rewrite decide_False by done. unfold desc_count, index. by rewrite Hp. }
        rewrite Ht. cbn [default from_option id foldM]. rewrite Hcol. ok_step.
        destruct IH with (pre := pre ++ [k]) (ps0 := ps0 ++ [p]) as (ps & Hf & Hps).
        * intros k' Hk'. apply Hin. by right.
        * intros k' Hk'. apply not_elem_of_app. split; [apply Hpre; by right|].
          intros ->%list_elem_of_singleton. done.
        * apply Forall2_app; [done|]. constructor; [by exists l|constructor].
        * exists (p :: ps). rewrite <- !app_assoc in Hf. split; [exact Hf|]. constructor; [by exists l|done]. }
  destruct (Hgen [] []) as (ps & Hf & Hps); [intros k _; apply not_elem_of_nil|constructor|].
  by exists ps.
Qed.

(** ** The whole derivation *)

Lemma range_map_empty {A} : range_map (∅ : gmap string A) = [].
Proof. apply Permutation_nil_r. by rewrite range_map_perm, map_to_list_empty. Qed.

Lemma select_fields ft ns cts :
  NoDup (map (λ ct, field ct) cts) → (∀ ct, ct ∈ cts → ft !! field ct = None) →
  ∃ ft', foldM select_field (ft, ns) cts = Ok (ft', ns ++ map (λ ct, field ct) cts) ∧
    ∀ f, is_Some (ft' !! f) ↔ is_Some (ft !! f) ∨ f ∈ map (λ ct, field ct) cts.
Proof.
  revert ft ns. induction cts as [|ct cts IH]; intros ft ns; cbn [foldM map].
  - intros _ _. exists ft. rewrite app_nil_r. split; [done|]. intros f. rewrite elem_of_nil. tauto.
  - intros [Hct Hnd]%NoDup_cons Hft. 
    assert (select_field (ft, ns) ct = Ok (<[field ct := DatabaseTypeName ct]> ft, ns ++ [field ct])) as ->
      by (unfold select_field; by rewrite Hft by left).
    ok_step.
    destruct (IH (<[field ct := DatabaseTypeName ct]> ft) (ns ++ [field ct]) Hnd) as (ft' & Hf & Hd).
    + intros ct' Hin. rewrite lookup_insert_ne; [apply Hft; by right|]. intros Heq. apply Hct.
      rewrite Heq. apply list_elem_of_In, in_map_iff. exists ct'. by rewrite <- list_elem_of_In.
    + exists ft'. split; [by rewrite Hf, <- app_assoc|]. intros f.
      rewrite Hd, elem_of_cons, lookup_insert_is_Some. destruct (decide (field ct = f)); naive_solver.
Qed.

Lemma range_keys (m : FieldTypes) :
  NoDup (map fst (range_map m)) ∧ ∀ k, k ∈ map fst (range_map m) ↔ is_Some (m !! k).
Proof.
  split.
  - rewrite range_map_perm. apply NoDup_fst_map_to_list.
  - intros k. rewrite list_elem_of_fmap. split.
    + intros ([k' v] & -> & Hk). apply elem_of_range_map in Hk. by exists v.
    + intros [v Hv]. exists (k, v). split; [done|]. by apply elem_of_range_map.
Qed.

(** The label of the result. *)
Definition label_of (lab : FieldDesc) (cts : list ColumnType) (lab' : FieldDesc) : Prop :=
  Name lab = ""%string ∧ lab' = lab ∨
  Name lab ≠ ""%string ∧ ∃ ct, ct ∈ cts ∧ field ct = Name lab ∧ lab' = set_Shape [] (numeric_desc ct).

Lemma deriveLabel_numeric lab lab' s m cts :
  fd_wf s m → descs s !! 0%nat = Some lab →
  (∀ ct, ct ∈ cts → ∃ l, m !! field ct = Some l ∧ descs s !! l = Some (numeric_desc ct)) →
  label_of lab cts lab' →
  ∃ s' p, deriveLabel s (NumericColumn 0%nat) m = Ok (s', NumericColumn p) ∧ cols s' = cols s ∧
    deref s' p = lab' ∧ ∀ k l d, k ≠ Name lab → m !! k = Some l → descs s !! l = Some d → deref s' l = d.
Proof.
  intros Hw Hlab Hm Hl. unfold deriveLabel, label_desc. cbn [GetFieldDesc]. ok_step.
  cbn [index list_lookup lookup]. ok_step. cbn [desc_name]. rewrite (deref_eq _ _ _ Hlab).
  destruct Hl as [[-> ->]|(Hne & ct & Hct & Hf & ->)].
  - rewrite decide_True by done. exists s, 0%nat. split_and!; [done..|by apply deref_eq|].
    intros k l d _ _. apply deref_eq.
  - rewrite decide_False by done. destruct (Hm _ Hct) as (l & Hl & Hd). rewrite Hf in Hl. rewrite Hl.
    cbn [or_fail]. ok_step. rewrite (deref_eq _ _ _ Hd). cbn [Shape numeric_desc newFieldDesc].
    rewrite decide_True by done. eexists _, l. split_and!; [done..| |].
    + apply deref_eq. cbn. apply list_lookup_insert_eq. by eapply lookup_lt_Some.
    + intros k l' d Hk Hl' Hd'. apply deref_eq. cbn. rewrite list_lookup_insert_ne; [done|].
      intros ->. apply Hk. by eapply fd_wf_inj.
Qed.

Lemma filter_fields (P : string → Prop) `{∀ x, Decision (P x)} cts :
  filter P (map (λ ct, field ct) cts) = map (λ ct, field ct) (filter (λ ct, P (field ct)) cts).
Proof.
  induction cts as [|ct cts IH]; [done|]. cbn [map]. destruct (decide (P (field ct))).
  - rewrite !filter_cons_True by done. cbn [map]. by rewrite IH.
  - by rewrite !filter_cons_False.
Qed.

Lemma read_columns s s' m cts ps :
  cols s' = cols s → columns_of s m (map (λ ct, field ct) cts) ps →
  (∀ ct l, ct ∈ cts → m !! field ct = Some l → deref s' l = numeric_desc ct) →
  map (column_out s') (omap (λ p, cols s' !! p) ps) = map (λ ct, NumericColumn (numeric_desc ct)) cts.
Proof.
  intros Hc Hps. remember (map (λ ct, field ct) cts) as names eqn:Hn. revert cts Hn.
  induction Hps as [|k p names ps (l & Hl & Hp) _ IH]; intros [|ct cts]; try done.
  cbn [map]. intros [= -> ->] Hd. cbn [omap list_omap]. rewrite Hc, Hp, <- Hc. cbn [map]. f_equal.
  - cbn [column_out]. f_equal. apply Hd; [left|done].
  - apply IH; [done|]. intros ct' l' Hct'. apply Hd. by right.
Qed.
End numeric.

(** C4: The derivation as a whole, for a TRAIN statement without a COLUMN clause whose
    selected fields are all numbers: it succeeds, whatever order the maps are visited in, with
    one numeric column for each field other than the label, in the order of the SELECT, of
    the type of the database and of shape [[1]]; the label's shape becomes empty. *)
Theorem InferFeatureColumns_numeric `{UnicodeTables} `{GoRegexp} `{MapOrder} `{SortSlice}
    (ts : TrainStmt FieldDesc) (db : DB) (lab lab' : FieldDesc) (rows : Rows) (cts : list ColumnType) :
  Features ts = ∅ → t_Label ts = NumericColumn lab → FetchSamples db (t_Select ts) 1000 = Ok rows →
  ColumnTypes rows = Ok cts → NoDup (map (λ ct, field ct) cts) → Forall numeric cts →
  row_data rows ≠ [] → Err_after rows (length (row_data rows) + 1) = None → label_of lab cts lab' →
  InferFeatureColumns ts db
  = Ok (set_Label (NumericColumn lab')
          (set_Features
             {[ "feature_columns"%string :=
                  map (λ ct, NumericColumn (numeric_desc ct)) (filter (λ ct, field ct ≠ Name lab) cts) ]} ts)).
Proof.
  intros Hfe Hla Hrows Hcts Hnd Hnum Hdata Herr Hlab.
  destruct (fillFieldDescs_numeric lab rows cts ∅ Hnum Hnd Hdata Herr)
    as (s & m & Hfill & Hw & Hl0 & Hcols & Hdom & _ & Hd).
  destruct (select_fields ∅ [] cts Hnd) as (ft & Hsel & Hft); [intros; by rewrite lookup_empty|].
  destruct (range_keys ft) as [Hknd Hkeys].
  assert (∀ k, k ∈ map fst (range_map ft) ↔ k ∈ map (λ ct, field ct) cts) as Hks.
  { intros k. rewrite Hkeys, Hft, lookup_empty. split; [intros [[??]|?]; done|by right]. }
  destruct (derive_fields_numeric lab s m (map fst (range_map ft)) [] [] ∅ Hl0) as (cs & tm & ks & Hder & Hcf & Hke).
  { intros k [ct [-> Hct]]%Hks%list_elem_of_fmap. destruct (Hd _ Hct) as (l & Hl & Hdl).
    exists l, (numeric_desc ct). split_and!; [done..|]. unfold numeric_desc. cbn. by case_decide. }
  { done. }
  { intros k _. apply not_elem_of_nil. }
  { intros k. rewrite lookup_empty. left. apply not_elem_of_nil. }
  set (s1 := mkStore (descs s) cs).
  destruct (collect_numeric lab s1 m tm ks (map (λ ct, field ct) cts) Hl0 Hw Hcf) as (ps & Hcol & Hps); [|done|].
  { intros k Hk. apply Hke. right. by apply Hks. }
  rewrite (filter_fields (λ k, k ≠ Name lab)) in Hps.
  destruct (deriveLabel_numeric lab lab' s1 m cts Hw Hl0 Hd Hlab) as (s2 & p & Hdl & Hc2 & Hp2 & Hk2).
  unfold InferFeatureColumns. rewrite Hfe, Hla. unfold load_features. rewrite map_to_list_empty.
  cbn [foldl column_in descs cols length app]. unfold makeColumnMap, makeFieldDescMap.
  rewrite range_map_empty. cbn [foldM map]. ok_step. rewrite Hrows. ok_step. rewrite Hcts. ok_step.
  rewrite Hsel. ok_step. cbn [app]. unfold originalSizes_of. rewrite fmap_empty, Hfill. ok_step.
  unfold getFeatureColumnTargets. rewrite range_map_empty. unfold deriveFeatureColumn, derive_target.
  cbn [foldM length]. rewrite lookup_empty. cbn [default from_option id]. rewrite range_map_empty.
  cbn [foldM]. ok_step. assert (s = mkStore (descs s) []) as -> by (rewrite <- Hcols; by destruct s).
  cbn [descs]. rewrite Hder. ok_step. unfold setDerivedFeatureColumnToIR, set_target. cbn [foldM].
  rewrite lookup_empty. cbn [default from_option id multi_columns foldM]. ok_step.
  rewrite lookup_insert_eq. cbn [default from_option id]. fold s1. rewrite Hcol. ok_step.
  rewrite decide_True by done. ok_step. rewrite Hdl. ok_step. cbn [column_out]. rewrite Hp2.
  do 3 f_equal. unfold read_features. rewrite insert_empty, map_fmap_singleton. f_equal.
  eapply read_columns; [exact Hc2|exact Hps|]. intros ct l [Hne Hct]%list_elem_of_filter Hl.
  destruct (Hd _ Hct) as (l' & Hl' & Hdl'). rewrite Hl in Hl'. injection Hl' as <-. by eapply Hk2.
Qed.

Definition iris_rows : Rows :=
  mkRows (Ok [mkColumnType "iris.Width" "FLOAT"; mkColumnType "length" "BIGINT_TYPE";
              mkColumnType "class" "int"])
    [λ _, Ok ["1.5"; "3"; "0"]%string; λ _, Fail (Errorf "scan" [])] (λ _, None).
Definition iris_stmt : TrainStmt FieldDesc :=
  mkTrainStmt "" "SELECT * FROM iris" "" "" "DNNClassifier" ∅ ∅
    (NumericColumn (newFieldDesc "class" Int (Some [1]))) "" "m" "" "".

Lemma InferFeatureColumns_numeric_witness :
  @InferFeatureColumns latin1_tables word_regexp canonical_order insertion_slice iris_stmt
    (mkDB "mysql" (λ _, Ok iris_rows))
  = Ok (set_Label (NumericColumn (newFieldDesc "class" Int (Some [])))
          (set_Features
             {[ "feature_columns"%string :=
                  [NumericColumn (newFieldDesc "width" Float (Some [1]));
                   NumericColumn (newFieldDesc "length" Int (Some [1]))] ]} iris_stmt)).
Proof.
  apply (@InferFeatureColumns_numeric latin1_tables word_regexp canonical_order insertion_slice
    iris_stmt (mkDB "mysql" (λ _, Ok iris_rows)) (newFieldDesc "class" Int (Some [1]))
    (newFieldDesc "class" Int (Some [])) iris_rows
    [mkColumnType "iris.Width" "FLOAT"; mkColumnType "length" "BIGINT_TYPE"; mkColumnType "class" "int"]).
  - reflexivity.
  - reflexivity.
  - reflexivity.
  - reflexivity.
  - apply (bool_decide_eq_true (NoDup _)). vm_compute. reflexivity.
  - repeat constructor; apply (bool_decide_eq_true (_ ∈ _)); vm_compute; reflexivity.
  - done.
  - reflexivity.
  - right. split; [done|]. exists (mkColumnType "class" "int"). split; [|split; reflexivity].
    right. right. left.
Defined.
