(* ===== verification/IRGenerator.v ===== *)
(** * The generators that use the database (go/ir/ir_generator.go 44-74, 138-379)

    Training statements with derived columns, the statements that load a trained model, and
    the checks of their fields against the database.  Connections and the storage of models
    are I/O: the class [Services] has what opening a connection and loading a model give. *)

From S2P Require Import Prelude GoStrings GoFloat FeatureColumn Lexer Syntax SqlParser Ir IRParse Verifier.
From S2P Require Import Regexp FieldInfer Derivation.

Local Open Scope Z_scope.

(** The IR's statement, not the parser's. *)
Notation stmt := (TrainStmt FieldDesc).

Class Services := {
  (** [database.OpenAndConnectDB] and [database.OpenDB]. *)
  OpenAndConnectDB : string → result DB;
  OpenDB : string → result DB;
  (** [model.Load modelName cwd db]: the field [TrainSelect] of the model. *)
  Load_TrainSelect : string → string → DB → result string
}.

Section checks.
Context `{MapOrder} `{UnicodeTables}.

(** The check [f] of the name of every field of every column, in the order of the loops. *)
Definition check_column (f : string → result unit) (c : column) : result unit :=
  ds ← GetFieldDesc c;
  foldM (λ _ d, f (Name (match d with inl d | inr d => d end))) tt ds.
Definition check_features (f : string → result unit) (fs : features FieldDesc) : result unit :=
  foldM (λ _ tl, foldM (λ _ c, check_column f c) tt tl.2) tt (range_map fs).

(** [FieldTypes.Get] *)
Definition Get (ft : FieldTypes) (ident : string) : string * bool :=
  match ft !! ident with Some t => (t, true) | None => (""%string, false) end.

Definition verifyTrainStmt (trainStmt : stmt) (db : DB) (verifyLabel : bool) : result unit :=
  trainFields ← Verify (t_Select trainStmt) db;
  _ ← check_features (λ name,
      if (Get trainFields name).2 then Ok tt
      else Fail (Errorf "feature field does not exist in database: %s" [name])) (Features trainStmt);
  if verifyLabel then
    ds ← GetFieldDesc (t_Label trainStmt);
    d ← index ds 0;
    let labelFieldName := Name (match d with inl d | inr d => d end) in
    if decide (labelFieldName = ""%string) then Ok tt
    else if (Get trainFields labelFieldName).2 then Ok tt
    else Fail (Errorf "label field does not exist in database: %s" [labelFieldName])
  else Ok tt.

(** The names of the fields of both statements are swapped in the source, which is kept. *)
Definition verifyIRWithTrainStmt (sqlir : IRStmt FieldDesc) (db : DB) : result unit :=
  '(selectStmt, trainStmt) ←
    (match sqlir with
     | IRPredict s => Ok (p_Select s, p_TrainStmt s)
     | IRExplain s => Ok (e_Select s, e_TrainStmt s)
     | IREvaluate s => Ok (v_Select s, v_TrainStmt s)
     | _ => Fail (Errorf "verifyIRWithTrainStmt doesn't support IR of type %T" [])
     end);
  trainFields ← Verify selectStmt db;
  match trainStmt with
  | None => Ok tt
  | Some trainStmt =>
    predFields ← Verify (t_Select trainStmt) db;
    check_features (λ name,
        let '(it, ok) := Get predFields name in
        if negb ok then Fail (Errorf "predFields doesn't contain column %s" [name])
        else
          let tt_ := (Get trainFields name).1 in
          if decide (it = tt_) then Ok tt
          else Fail (Errorf "field %s type dismatch %v(pred) vs %v(train)" [name; it; tt_]))
      (Features trainStmt)
  end.
End checks.

Section generators.
Context `{UnicodeTables} `{GoRegexp} `{MapOrder} `{SortSlice} `{External} `{Services}.

(** The statement that trained a model, with the one that is to use it. *)
Definition loadModelMeta (pr : SQLFlowSelectStmt) (db : DB) (cwd modelName : string)
    : result (SQLFlowSelectStmt * SQLFlowSelectStmt) :=
  TrainSelect ← wrapf "load %v" [] (Load_TrainSelect modelName cwd db);
  tr ← wrapf "parse: TrainSelect %v raise %v" [TrainSelect] (ParseStatement (DriverName db) TrainSelect);
  match select tr with
  | None => Panic
  | Some slct =>
    _ ← wrapf "VerifyColumnNameAndType: %v" [] (VerifyColumnNameAndType slct pr db);
    Ok (pr, slct)
  end.

Definition GenerateTrainStmtWithInferredColumns (slct : SQLFlowSelectStmt) (connStr cwd : string)
    (loadPreTrainedModel verifyLabel : bool) : result stmt :=
  trainStmt ← GenerateTrainStmt slct;
  db ← OpenAndConnectDB connStr;
  trainStmt ← InferFeatureColumns trainStmt db;
  _ ← verifyTrainStmt trainStmt db verifyLabel;
  if loadPreTrainedModel && negb (bool_decide (TrainUsing (train slct) = ""%string)) then
    _ ← loadModelMeta slct db cwd (TrainUsing (train slct));
    Ok trainStmt
  else Ok trainStmt.

(** The training clause it sets in [slct] is not read again. *)
Definition GenerateTrainStmtByModel (slct : SQLFlowSelectStmt) (connStr cwd model : string) : result stmt :=
  db ← OpenDB connStr;
  '(_, trainSlct) ← loadModelMeta slct db cwd model;
  GenerateTrainStmtWithInferredColumns trainSlct connStr "" false false.

Definition train_stmt_of (slct : SQLFlowSelectStmt) (connStr cwd model : string)
    (getTrainStmtFromModel : bool) : result (option stmt) :=
  if getTrainStmtFromModel then
    t ← GenerateTrainStmtByModel slct connStr cwd model; Ok (Some t)
  else Ok None.
Definition verify_generated (sqlir : IRStmt FieldDesc) (connStr : string) (getTrainStmtFromModel : bool)
    : result unit :=
  if getTrainStmtFromModel then
    db ← OpenAndConnectDB connStr; verifyIRWithTrainStmt sqlir db
  else Ok tt.

Definition GeneratePredictStmt (slct : SQLFlowSelectStmt) (connStr cwd : string)
    (getTrainStmtFromModel : bool) : result (PredictStmt FieldDesc) :=
  let pc := predict slct in
  attrMap ← generateAttributeIR (PredAttrs pc);
  trainStmt ← train_stmt_of slct connStr cwd (Model pc) getTrainStmtFromModel;
  '(resultTable, resultCol) ← parseResultTable (Into pc);
  let predStmt :=
    mkPredictStmt "" (origin slct) resultTable resultCol attrMap (Model pc) trainStmt "" in
  _ ← verify_generated (IRPredict predStmt) connStr getTrainStmtFromModel;
  Ok predStmt.

Definition GenerateExplainStmt (slct : SQLFlowSelectStmt) (connStr cwd : string)
    (getTrainStmtFromModel : bool) : result (ExplainStmt FieldDesc) :=
  let ec := explain slct in
  attrs ← generateAttributeIR (ExplainAttrs ec);
  trainStmt ← train_stmt_of slct connStr cwd (TrainedModel ec) getTrainStmtFromModel;
  let explainStmt :=
    mkExplainStmt "" (origin slct) attrs (Explainer ec) (TrainedModel ec) (ExplainInto ec) "" trainStmt in
  _ ← verify_generated (IRExplain explainStmt) connStr getTrainStmtFromModel;
  Ok explainStmt.

Definition GenerateEvaluateStmt (slct : SQLFlowSelectStmt) (connStr cwd : string)
    (getTrainStmtFromModel : bool) : result (EvaluateStmt FieldDesc) :=
  let vc := evaluate slct in
  attrMap ← generateAttributeIR (EvaluateAttrs vc);
  trainStmt ← train_stmt_of slct connStr cwd (ModelToEvaluate vc) getTrainStmtFromModel;
  let label := NumericColumn (newFieldDesc (EvaluateLabel vc) Int None) in
  let evaluateStmt :=
    mkEvaluateStmt "" (origin slct) attrMap (ModelToEvaluate vc) label (EvaluateInto vc) "" trainStmt in
  _ ← verify_generated (IREvaluate evaluateStmt) connStr getTrainStmtFromModel;
  Ok evaluateStmt.
End generators.

(** ** What the checks accept *)

(** [n] is the name of a field of a column of the statement. *)
Definition reads (fs : features FieldDesc) (n : string) : Prop :=
  ∃ t l c ds d, fs !! t = Some l ∧ c ∈ l ∧ GetFieldDesc c = Ok ds ∧ d ∈ ds ∧
    n = Name (match d with inl d | inr d => d end).
(** No key of a CROSS is a column of another kind, so that [GetFieldDesc] does not panic. *)
Definition columns_readable (fs : features FieldDesc) : Prop :=
  ∀ t l c, fs !! t = Some l → c ∈ l → is_ok (GetFieldDesc c) = true.

Lemma check_features_Ok `{MapOrder} f fs :
  check_features f fs = Ok tt ↔ columns_readable fs ∧ ∀ n, reads fs n → f n = Ok tt.
Proof.
  unfold check_features. rewrite (foldM_check (λ tl : string * list column, foldM (λ _ c, check_column f c) tt tl.2)).
  split.
  - intros Hall.
    assert (∀ t l c, fs !! t = Some l → c ∈ l → check_column f c = Ok tt) as Hc.
    { intros t l c Ht Hc. apply elem_of_range_map in Ht. apply Hall in Ht. cbn in Ht.
      rewrite (foldM_check (check_column f)) in Ht. by apply Ht. }
    split.
    + intros t l c Ht Hin. apply is_ok_Ok.
      specialize (Hc _ _ _ Ht Hin). apply bind_Ok in Hc as (ds & ? & _). by exists ds.
    + intros n (t & l & c & ds & d & Ht & Hin & Hds & Hd & ->). specialize (Hc _ _ _ Ht Hin).
      unfold check_column in Hc. rewrite Hds in Hc. cbn in Hc.
      rewrite (foldM_check (λ d, f (Name (match d with inl d | inr d => d end)))) in Hc. by apply Hc.
  - intros [Hr Hall] [t l] Ht%elem_of_range_map. cbn. apply (foldM_check (check_column f)). intros c Hc.
    destruct (proj1 (is_ok_Ok _) (Hr _ _ _ Ht Hc)) as [ds Hds]. unfold check_column. rewrite Hds. ok_step.
    apply (foldM_check (λ d, f (Name (match d with inl d | inr d => d end)))).
    intros d Hd. apply Hall. by exists t, l, c, ds, d.
Qed.

Lemma Get_Some ft n t : Get ft n = (t, true) ↔ ft !! n = Some t.
Proof. unfold Get. destruct (ft !! n); split; congruence. Qed.

Lemma Get_ok ft n : (Get ft n).2 = true ↔ is_Some (ft !! n).
Proof. unfold Get. destruct (ft !! n); cbn; split; [eauto|done|done|by intros [??]]. Qed.

(** [verifyTrainStmt] accepts exactly when the statement's SELECT verifies and has every
    field that a column reads, and the label too where that is asked for and there is one. *)
Theorem verifyTrainStmt_Ok `{MapOrder} `{UnicodeTables} (ts : TrainStmt FieldDesc) (lab : FieldDesc)
    (db : DB) (verifyLabel : bool) :
  t_Label ts = NumericColumn lab →
  verifyTrainStmt ts db verifyLabel = Ok tt ↔
  ∃ tf, Verify (t_Select ts) db = Ok tf ∧ columns_readable (Features ts) ∧
    (∀ n, reads (Features ts) n → is_Some (tf !! n)) ∧
    (verifyLabel = true → Name lab ≠ ""%string → is_Some (tf !! Name lab)).
Proof.
  intros Hl. unfold verifyTrainStmt. rewrite bind_Ok.
  assert (∀ tf, (∀ n, reads (Features ts) n → (if (Get tf n).2 then Ok tt
      else Fail (Errorf "feature field does not exist in database: %s" [n])) = Ok tt) ↔
    ∀ n, reads (Features ts) n → is_Some (tf !! n)) as Hread.
  { intros tf. split; intros Hall n Hn; specialize (Hall n Hn).
    - apply Get_ok. by destruct (Get tf n).2.
    - apply Get_ok in Hall. by rewrite Hall. }
  assert (∀ tf, (if verifyLabel then
      ds ← GetFieldDesc (t_Label ts); d ← index ds 0;
      let labelFieldName := Name (match d with inl d | inr d => d end) in
      if decide (labelFieldName = ""%string) then Ok tt
      else if (Get tf labelFieldName).2 then Ok tt
      else Fail (Errorf "label field does not exist in database: %s" [labelFieldName])
    else Ok tt) = Ok tt ↔ (verifyLabel = true → Name lab ≠ ""%string → is_Some (tf !! Name lab))) as Hlab.
  { intros tf. rewrite Hl. cbn [GetFieldDesc]. ok_step. cbn [index list_lookup lookup]. ok_step.
    destruct verifyLabel; [|by split]. cbn. case_decide as Hn; [by split|]. rewrite <- Get_ok.
    destruct (Get tf (Name lab)).2; split; try done. intros Ht. by discriminate Ht. }
  split.
  - intros (tf & Hv & ([] & Hc & Hlb)%bind_Ok). apply check_features_Ok in Hc as [Hr Hc].
    exists tf. split_and!; [done|done|by apply Hread|by apply Hlab].
  - intros (tf & Hv & Hr & Hall & Hlb). exists tf. split; [done|]. apply bind_Ok. exists tt. split.
    + apply check_features_Ok. split; [done|]. by apply Hread.
    + by apply Hlab.
Qed.

Definition demo_train : TrainStmt FieldDesc :=
  mkTrainStmt "" "SELECT a, b" "" "" "m" ∅
    {[ "feature_columns"%string := [NumericColumn (newFieldDesc "a" Int None)] ]}
    (NumericColumn (newFieldDesc "b" Int None)) "" "" "" "".

Lemma verifyTrainStmt_Ok_witness :
  @verifyTrainStmt canonical_order latin1_tables demo_train demo_db true = Ok tt ∧
  ∃ tf, @Verify latin1_tables "SELECT a, b" demo_db = Ok tf ∧ columns_readable (Features demo_train) ∧
    (∀ n, reads (Features demo_train) n → is_Some (tf !! n)).
Proof.
  assert (@verifyTrainStmt canonical_order latin1_tables demo_train demo_db true = Ok tt) as Hok
    by (vm_compute; reflexivity).
  split; [exact Hok|].
  destruct (proj1 (@verifyTrainStmt_Ok canonical_order latin1_tables demo_train (newFieldDesc "b" Int None)
    demo_db true eq_refl) Hok) as (tf & H1 & H2 & H3 & _).
  exists tf. split; [exact H1|]. split; [exact H2|exact H3].
Defined.

(** A prediction that [GeneratePredictStmt] makes with a model carries the training
    statement that the model's SELECT gives, and every field that one of its columns reads is
    a field of the training data, of the type it has in the data to predict, where a
    missing field counts as one of the empty type. *)
Theorem GeneratePredictStmt_fields `{UnicodeTables} `{GoRegexp} `{MapOrder} `{SortSlice} `{External}
    `{Services} (slct : SQLFlowSelectStmt) (connStr cwd : string) (ps : PredictStmt FieldDesc) :
  GeneratePredictStmt slct connStr cwd true = Ok ps →
  ∃ ts db predF trainF,
    GenerateTrainStmtByModel slct connStr cwd (Model (predict slct)) = Ok ts ∧
    p_TrainStmt ps = Some ts ∧ p_Select ps = origin slct ∧
    OpenAndConnectDB connStr = Ok db ∧
    Verify (origin slct) db = Ok predF ∧ Verify (t_Select ts) db = Ok trainF ∧
    ∀ n, reads (Features ts) n → ∃ t, trainF !! n = Some t ∧ t = default ""%string (predF !! n).
Proof.
  unfold GeneratePredictStmt, train_stmt_of, verify_generated.
  intros (attrs & _ & (ots & (ts & Hts & [= <-])%bind_Ok &
    ([table col] & _ & ([] & (db & Hdb & Hv)%bind_Ok & [= <-])%bind_Ok)%bind_Ok)%bind_Ok)%bind_Ok.
  unfold verifyIRWithTrainStmt in Hv. cbn [mbind result_bind p_Select p_TrainStmt] in Hv.
  apply bind_Ok in Hv as (pf & Hpf & (tf & Htf & [_ Hc]%check_features_Ok)%bind_Ok).
  exists ts, db, pf, tf. split_and!; try done. intros n Hn. specialize (Hc n Hn). unfold Get in Hc.
  destruct (tf !! n) as [t|]; [|done]. cbn in Hc. case_decide as Ht; [|done]. exists t. split; [done|].
  rewrite Ht. by destruct (pf !! n).
Qed.

(** A model trained on the field [a] with the label [b], used on the same table. *)
Definition demo_clause : SQLFlowSelectStmt :=
  mkSelect true true false false false false false false "" (mkTrainClause "DNN" ∅ ∅ "b" "" "m")
    (predict toy_clause) (explain toy_clause) (evaluate toy_clause) (optimize toy_clause) ""
    (run toy_clause).
Definition demo_external : External := {|
  psr_Parse := @psr_Parse toy_external;
  SplitStatementToPieces := @SplitStatementToPieces toy_external;
  comment_positions := @comment_positions toy_external;
  parser_service := @parser_service toy_external;
  extendedSyntaxParse s := Ok (Lexer s 0 (Z.of_nat (str_len s)) 0 None 0, Some demo_clause)
|}.
Definition number_rows : Rows :=
  mkRows (Ok [mkColumnType "a" "INT"; mkColumnType "b" "INT"]) [λ _, Ok ["1"; "2"]%string] (λ _, None).
Definition number_db : DB := mkDB "mysql" (λ _, Ok number_rows).
Definition demo_services : Services := {|
  OpenAndConnectDB _ := Ok number_db;
  OpenDB _ := Ok number_db;
  Load_TrainSelect _ _ _ := Ok "SELECT * FROM t TO TRAIN DNN;"%string
|}.
Definition demo_predict : SQLFlowSelectStmt :=
  mkSelect true false true false false false false false "SELECT * FROM t" (train demo_clause)
    (mkPredictClause ∅ "m" "r.c") (explain toy_clause) (evaluate toy_clause) (optimize toy_clause) ""
    (run toy_clause).
Definition demo_generate : result (PredictStmt FieldDesc) :=
  @GeneratePredictStmt latin1_tables word_regexp canonical_order insertion_slice demo_external demo_services
    demo_predict "mysql" "" true.

Lemma GeneratePredictStmt_fields_witness :
  match demo_generate with
  | Ok ps => ∃ ts trainF, p_TrainStmt ps = Some ts ∧
      @Verify latin1_tables (t_Select ts) number_db = Ok trainF ∧ ∀ n, reads (Features ts) n → is_Some (trainF !! n)
  | _ => False
  end.
Proof.
  destruct demo_generate as [ps| | |] eqn:Hg; [|vm_compute in Hg; discriminate Hg..].
  destruct (@GeneratePredictStmt_fields latin1_tables word_regexp canonical_order insertion_slice demo_external
    demo_services demo_predict "mysql" "" ps Hg) as (ts & db & pf & tf & _ & H1 & _ & H2 & _ & H3 & H4).
  injection H2 as <-. exists ts, tf. split; [exact H1|]. split; [exact H3|].
  intros n Hn. destruct (H4 n Hn) as (t & Ht & _). exists t. exact Ht.
Defined.
