(* ===== verification/Deps.v ===== *)
(** * Dependencies between the statements of a program (go/ir/deps)

    [Analyze] connects statements through table nodes: a node in the outputs of one
    statement and in the inputs of another is an edge of the workflow.  A table node is
    never written after it is made, so nodes are values; the earlier statements, to whose
    outputs [resolveHazard] appends, are threaded as a list. *)

From S2P Require Import Prelude GoStrings Lexer Syntax SqlParser.

Inductive TableType := TypeTable | TypeModel.
#[export] Instance TableType_eq_dec : EqDecision TableType.
Proof. solve_decision. Defined.

Record Table := mkTable { Type_of : TableType; table_Name : string; HazardIndex : nat }.
#[export] Instance Table_eq_dec : EqDecision Table.
Proof. solve_decision. Defined.

Record Node := mkNode {
  Statement_ : string;
  Order : nat;
  node_Inputs : list Table;
  node_Outputs : list Table
}.

Definition type_string (t : TableType) : string :=
  match t with TypeTable => "table" | TypeModel => "model" end.
Definition FullName (t : Table) : string := (type_string (Type_of t) +:+ "." +:+ table_Name t)%string.

Notation TableNodeMap := (gmap string (list Table)).

Definition full_name (t : string) : string := ("table." +:+ t)%string.

Definition contains (tableList : list Table) (item : string) : bool :=
  existsb (λ t, bool_decide (FullName t = item)) tableList.

Definition getFirstInList (tableList : list Table) (tableNameToFind : string) : option Table :=
  '(_, t) ← list_find (λ t, FullName t = tableNameToFind) tableList; Some t.

(** One round of the loop of [connectStatementInputs]. *)
Definition connect_input (s : list Table * TableNodeMap) (t : string) : result (list Table * TableNodeMap) :=
  let '(inputs, m) := s in
  match m !! full_name t with
  | None =>
    let tableNode := mkTable TypeTable t 0 in
    Ok (inputs ++ [tableNode], <[full_name t := [tableNode]]> m)
  | Some l => x ← last_elem l; Ok (inputs ++ [x], m)
  end.
Definition connectStatementInputs (stmt : SQLFlowStmt) (m : TableNodeMap)
    : result (list Table * TableNodeMap) :=
  foldM connect_input ([], m) (stmt_Inputs stmt).

Definition add_output (t : Table) (n : Node) : Node :=
  mkNode (Statement_ n) (Order n) (node_Inputs n) (node_Outputs n ++ [t]).

(** The loop of [resolveHazard] on the statements in reverse: the inputs, the map and the
    statements (reversed) that it leaves. *)
Fixpoint resolve_loop (rev_constructed : list Node) (t : string) (inputs : list Table) (m : TableNodeMap)
    : result (list Table * TableNodeMap * list Node) :=
  match rev_constructed with
  | [] => Ok (inputs, m, [])
  | prev :: rest =>
    let fullTableName := full_name t in
    if contains (node_Outputs prev) fullTableName then
      prevOutput ← or_fail (getFirstInList (node_Outputs prev) fullTableName)
        (Errorf "error adding WAW dependency, tablename: %s, prev stmt: %s" [fullTableName; Statement_ prev]);
      '(inputs, m, rest) ← resolve_loop rest t (inputs ++ [prevOutput]) m;
      Ok (inputs, m, prev :: rest)
    else if contains (node_Inputs prev) fullTableName then
      let l := default [] (m !! fullTableName) in
      x ← last_elem l;
      let readAsOutputTable := mkTable TypeTable t (HazardIndex x + 1) in
      let inputs := if contains inputs fullTableName then inputs else inputs ++ [readAsOutputTable] in
      '(inputs, m, rest) ← resolve_loop rest t inputs (<[fullTableName := l ++ [readAsOutputTable]]> m);
      Ok (inputs, m, add_output readAsOutputTable prev :: rest)
    else
      '(inputs, m, rest) ← resolve_loop rest t inputs m;
      Ok (inputs, m, prev :: rest)
  end.
Definition resolveHazard (constructed : list Node) (t : string) (inputs : list Table) (m : TableNodeMap)
    : result (list Table * TableNodeMap * list Node) :=
  '(inputs, m, r) ← resolve_loop (reverse constructed) t inputs m;
  Ok (inputs, m, reverse r).

Record outputs_state := mkOutputs {
  os_inputs : list Table; os_outputs : list Table; os_map : TableNodeMap; os_result : list Node }.

(** One round of the loop of [connectStatementOutputs]. *)
Definition connect_output (s : outputs_state) (t : string) : result outputs_state :=
  let '(mkOutputs inputs outputs m result) := s in
  let fullName := full_name t in
  match m !! fullName with
  | None =>
    let tableNode := mkTable TypeTable t 0 in
    Ok (mkOutputs inputs (outputs ++ [tableNode]) (<[fullName := [tableNode]]> m) result)
  | Some _ =>
    '(inputs, m, result) ← resolveHazard result t inputs m;
    let l := default [] (m !! fullName) in
    x ← last_elem l;
    let warTable := mkTable TypeTable t (HazardIndex x + 1) in
    Ok (mkOutputs inputs (outputs ++ [warTable]) (<[fullName := l ++ [warTable]]> m) result)
  end.
Definition connectStatementOutputs (result : list Node) (inputs : list Table) (stmt : SQLFlowStmt)
    (m : TableNodeMap) : Prelude.result outputs_state :=
  foldM connect_output (mkOutputs inputs [] m result) (stmt_Outputs stmt).

(** One round of the loop of [Analyze]. *)
Definition analyze_step (s : list Node * TableNodeMap) (stmt : SQLFlowStmt)
    : result (list Node * TableNodeMap) :=
  let '(result, m) := s in
  '(inputs, m) ← connectStatementInputs stmt m;
  os ← connectStatementOutputs result inputs stmt m;
  let curr := mkNode (Original stmt) (length result) (os_inputs os) (os_outputs os) in
  Ok (os_result os ++ [curr], os_map os).

(** ** The drawing *)

Definition line_break : string := char1 "010".
Definition quote_str : string := char1 (of_byte 34).
Definition table_node_name (t : Table) : string :=
  (FullName t +:+ "_" +:+ pretty (HazardIndex t))%string.
Definition stmt_name (n : Node) : string := ("Stmt" +:+ pretty (Order n))%string.

Section draw.
Context `{MapOrder}.

(** The lines of [writeNodes]: the statements, then every table node once. *)
Definition writeNodes (stmts : list Node) : list string :=
  map (λ n, stmt_name n +:+ " [shape=box label=" +:+ quote_str
              +:+ TrimByte (Statement_ n) "010" +:+ quote_str +:+ "]" +:+ line_break)%string stmts
  ++ map (λ kv, ReplaceAll kv.1 "." "_" +:+ " [shape=circle]" +:+ line_break)%string
       (range_map (list_to_map (map (λ t, (table_node_name t, 1%nat))
          (concat (map (λ n, node_Inputs n ++ node_Outputs n) stmts))) : gmap string nat)).

Definition edge_name (t : Table) : string :=
  (ReplaceAll (FullName t) "." "_" +:+ "_" +:+ pretty (HazardIndex t))%string.
Definition writeEdges (stmts : list Node) : list string :=
  concat (map (λ n,
    map (λ t, edge_name t +:+ " -> " +:+ stmt_name n +:+ line_break)%string (node_Inputs n)
    ++ map (λ t, stmt_name n +:+ " -> " +:+ edge_name t +:+ line_break)%string (node_Outputs n)) stmts).

(** The environment: the variable SQLFLOW_GRAPHVIZ_OUTPUT, the error of [os.Create] and
    those of the n-th [WriteString]. *)
Record GraphvizEnv := mkGraphvizEnv {
  dotFilePath : string; create_error : option error; write_error : nat → option error }.

Fixpoint write_lines (env : GraphvizEnv) (n : nat) (lines : list string) : result unit :=
  match lines with
  | [] => Ok tt
  | _ :: lines =>
    match write_error env n with Some e => Fail e | None => write_lines env (S n) lines end
  end.
Definition graph_lines (stmts : list Node) : list string :=
  ["digraph D {" +:+ line_break]%string ++ writeNodes stmts ++ writeEdges stmts
  ++ ["}" +:+ line_break]%string.
Definition drawGraphviz (env : GraphvizEnv) (stmts : list Node) : result unit :=
  if decide (dotFilePath env = ""%string) then Ok tt
  else match create_error env with
  | Some e => Fail e
  | None => write_lines env 0 (graph_lines stmts)
  end.

Definition Analyze (env : GraphvizEnv) (parsedProgram : list SQLFlowStmt) : result (list Node) :=
  match parsedProgram with
  | [] => Fail (Errorf "no parsed statements to analyze" [])
  | [s] => Ok [mkNode (Original s) 0 [] []]
  | _ =>
    '(result, _) ← foldM analyze_step ([], ∅) parsedProgram;
    _ ← drawGraphviz env result;
    Ok result
  end.
End draw.

(** ** What a step keeps *)

(** A statement can only get more outputs. *)
Definition grow1 (n n' : Node) : Prop :=
  node_Inputs n' = node_Inputs n ∧ ∀ t, t ∈ node_Outputs n → t ∈ node_Outputs n'.
Notation grows := (Forall2 grow1).

#[export] Instance grow1_refl : Reflexive grow1.
Proof. by intros n. Qed.
#[export] Instance grow1_trans : Transitive grow1.
Proof. intros a b c [E1 H1] [E2 H2]. split; [congruence|auto]. Qed.

Lemma full_name_inj t t' : full_name t = full_name t' → t = t'.
Proof. by intros [= ->]. Qed.

Lemma contains_elem l item : contains l item = true ↔ ∃ t, t ∈ l ∧ FullName t = item.
Proof.
  unfold contains. rewrite existsb_exists. split.
  - intros (t & Ht & Hf%bool_decide_eq_true). exists t. by rewrite list_elem_of_In.
  - intros (t & Ht & Hf). exists t. rewrite <- list_elem_of_In. split; [done|by apply bool_decide_eq_true].
Qed.

Lemma getFirst_elem l item t : getFirstInList l item = Some t → t ∈ l ∧ FullName t = item.
Proof.
  unfold getFirstInList. intros ([i x] & Hf & [= ->])%bind_Some.
  apply list_find_Some in Hf as (Hi & ? & _). split; [by eapply list_elem_of_lookup_2|done].
Qed.

Lemma last_elem_Ok {A} (l : list A) x : last_elem l = Ok x ↔ last l = Some x.
Proof. unfold last_elem. destruct (last l); naive_solver. Qed.

Lemma resolve_loop_spec rc t inp m inp' m' rc' :
  resolve_loop rc t inp m = Ok (inp', m', rc') →
  grows rc rc' ∧ (∀ x, x ∈ inp → x ∈ inp') ∧
  (∀ k, k ≠ full_name t → m' !! k = m !! k) ∧
  (∀ prev, prev ∈ rc → contains (node_Outputs prev) (full_name t) = true →
     ∃ x, x ∈ node_Outputs prev ∧ x ∈ inp').
Proof.
  revert inp m inp' m' rc'. induction rc as [|prev rc IH]; intros inp m inp' m' rc'; cbn [resolve_loop].
  - intros [= <- <- <-]. split_and!; [constructor|done|done|].
    intros prev Hp. by apply not_elem_of_nil in Hp.
  - destruct (contains (node_Outputs prev) (full_name t)) eqn:Hc.
    + intros (x & Hx%or_fail_Ok & ([[inp1 m1] rc1] & Hr & [= <- <- <-])%bind_Ok)%bind_Ok.
      apply IH in Hr as (Hg & Hin & Hm & Hw). apply getFirst_elem in Hx as [Hx _].
      split_and!; [by constructor| |done|].
      * intros y Hy. apply Hin. set_solver.
      * intros p [->|Hp]%elem_of_cons Hpc; [exists x; split; [done|]; apply Hin; set_solver|by apply Hw].
    + destruct (contains (node_Inputs prev) (full_name t)) eqn:Hci.
      * intros (x & _ & ([[inp1 m1] rc1] & Hr & [= <- <- <-])%bind_Ok)%bind_Ok.
        apply IH in Hr as (Hg & Hin & Hm & Hw). split_and!.
        -- constructor; [|done]. split; [done|]. simpl. set_solver.
        -- intros y Hy. apply Hin. case_match; set_solver.
        -- intros k Hk. rewrite Hm by done. by rewrite lookup_insert_ne.
        -- intros p [->|Hp]%elem_of_cons Hpc; [congruence|by apply Hw].
      * intros ([[inp1 m1] rc1] & Hr & [= <- <- <-])%bind_Ok.
        apply IH in Hr as (Hg & Hin & Hm & Hw). split_and!; [by constructor|done|done|].
        intros p [->|Hp]%elem_of_cons Hpc; [congruence|by apply Hw].
Qed.

Lemma resolveHazard_spec r t inp m inp' m' r' :
  resolveHazard r t inp m = Ok (inp', m', r') →
  grows r r' ∧ (∀ x, x ∈ inp → x ∈ inp') ∧
  (∀ k, k ≠ full_name t → m' !! k = m !! k) ∧
  (∀ prev, prev ∈ r → contains (node_Outputs prev) (full_name t) = true →
     ∃ x, x ∈ node_Outputs prev ∧ x ∈ inp').
Proof.
  unfold resolveHazard. intros ([[inp1 m1] rc1] & Hr & [= <- <- <-])%bind_Ok.
  apply resolve_loop_spec in Hr as (Hg & ? & ? & Hw). split_and!; [|done|done|].
  - rewrite <- (reverse_involutive r). by apply Forall2_reverse.
  - intros prev Hp. apply Hw. by apply elem_of_reverse.
Qed.

Lemma connect_input_spec s t s' :
  connect_input s t = Ok s' →
  (∀ x, x ∈ s.1 → x ∈ s'.1) ∧ (∀ k l, s.2 !! k = Some l → s'.2 !! k = Some l) ∧
  (∀ l x, s.2 !! full_name t = Some (l ++ [x]) → x ∈ s'.1).
Proof.
  destruct s as [inp m]. unfold connect_input.
  destruct (m !! full_name t) as [l|] eqn:Hm.
  - intros (x & Hx%last_elem_Ok & [= <-])%bind_Ok. simpl. split_and!; [set_solver|done|].
    intros l' y Hl. rewrite Hm in Hl. injection Hl as ->. rewrite last_snoc in Hx. set_solver.
  - intros [= <-]. simpl. split_and!; [set_solver| |by rewrite Hm].
    intros k l Hk. rewrite lookup_insert_ne; [done|congruence].
Qed.

Lemma connectStatementInputs_spec stmt m inp m' :
  connectStatementInputs stmt m = Ok (inp, m') →
  (∀ k l, m !! k = Some l → m' !! k = Some l) ∧
  (∀ t l x, t ∈ stmt_Inputs stmt → m !! full_name t = Some (l ++ [x]) → x ∈ inp).
Proof.
  unfold connectStatementInputs. generalize (stmt_Inputs stmt). intros ts.
  enough (∀ s s', foldM connect_input s ts = Ok s' →
    (∀ x, x ∈ s.1 → x ∈ s'.1) ∧ (∀ k l, s.2 !! k = Some l → s'.2 !! k = Some l) ∧
    (∀ t l x, t ∈ ts → s.2 !! full_name t = Some (l ++ [x]) → x ∈ s'.1)) as Hgen.
  { intros Hf. by apply Hgen in Hf as (_ & ? & ?). }
  induction ts as [|t ts IH]; intros s s'; cbn [foldM].
  - intros [= <-]. split_and!; [done|done|]. intros t l x Ht. by apply not_elem_of_nil in Ht.
  - intros (s1 & H1 & H2)%bind_Ok. apply connect_input_spec in H1 as (A1 & B1 & C1).
    apply IH in H2 as (A2 & B2 & C2). split_and!; [auto|auto|].
    intros t' l x [->|Ht]%elem_of_cons Hl; [by eapply A2, C1|]. by eapply C2, B1.
Qed.

(** [t] is known and its current node is one of the outputs. *)
Definition current_output (m : TableNodeMap) (outs : list Table) (t : string) : Prop :=
  ∃ l x, m !! full_name t = Some (l ++ [x]) ∧ x ∈ outs ∧ FullName x = full_name t.

Lemma connect_output_spec s t s' :
  connect_output s t = Ok s' →
  grows (os_result s) (os_result s') ∧ (∀ x, x ∈ os_inputs s → x ∈ os_inputs s') ∧
  (∀ x, x ∈ os_outputs s → x ∈ os_outputs s') ∧
  (∀ k, k ≠ full_name t → os_map s' !! k = os_map s !! k) ∧
  current_output (os_map s') (os_outputs s') t ∧
  (is_Some (os_map s !! full_name t) →
     ∀ prev, prev ∈ os_result s → contains (node_Outputs prev) (full_name t) = true →
     ∃ x, x ∈ node_Outputs prev ∧ x ∈ os_inputs s').
Proof.
  destruct s as [inp outs m r]. unfold connect_output.
  destruct (m !! full_name t) as [l|] eqn:Hm.
  - intros ([[inp1 m1] r1] & Hr & (x & Hx & [= <-])%bind_Ok)%bind_Ok.
    apply resolveHazard_spec in Hr as (Hg & Hin & Hk & Hw). simpl. split_and!; try done.
    + set_solver.
    + intros k Hne. rewrite lookup_insert_ne by done. by apply Hk.
    + eexists _, _. rewrite lookup_insert_eq. split_and!; [done|set_solver|done].
  - intros [= <-]. simpl. split_and!.
    + apply Forall_Forall2_diag. by apply Forall_true.
    + done.
    + set_solver.
    + intros k Hne. by rewrite lookup_insert_ne.
    + exists [], (mkTable TypeTable t 0). rewrite lookup_insert_eq. split_and!; [done|set_solver|done].
    + rewrite Hm. by intros [??].
Qed.

Lemma grows_refl r : grows r r.
Proof. apply Forall_Forall2_diag. by apply Forall_true. Qed.

Lemma grows_lookup r r' i n :
  grows r r' → r !! i = Some n → ∃ n', r' !! i = Some n' ∧ grow1 n n'.
Proof. intros Hg Hi. by eapply Forall2_lookup_l in Hg. Qed.

Lemma grows_contains r r' i n item :
  grows r r' → r !! i = Some n → contains (node_Outputs n) item = true →
  ∃ n', r' !! i = Some n' ∧ grow1 n n' ∧ contains (node_Outputs n') item = true.
Proof.
  intros Hg Hi Hc. destruct (grows_lookup _ _ _ _ Hg Hi) as (n' & Hi' & Hn). exists n'.
  split_and!; [done|done|]. rewrite contains_elem in *. destruct Hc as (t & Ht & Hf).
  exists t. split; [by apply Hn|done].
Qed.

(** The whole loop over the outputs of one statement. *)
Lemma connect_outputs_spec ts s s' :
  foldM connect_output s ts = Ok s' →
  grows (os_result s) (os_result s') ∧ (∀ x, x ∈ os_inputs s → x ∈ os_inputs s') ∧
  (∀ x, x ∈ os_outputs s → x ∈ os_outputs s') ∧
  (∀ t, t ∉ ts → os_map s' !! full_name t = os_map s !! full_name t) ∧
  (∀ t, t ∈ ts ∨ current_output (os_map s) (os_outputs s) t → current_output (os_map s') (os_outputs s') t) ∧
  (∀ t i n, t ∈ ts → is_Some (os_map s !! full_name t) → os_result s !! i = Some n →
     contains (node_Outputs n) (full_name t) = true →
     ∃ n' x, os_result s' !! i = Some n' ∧ x ∈ node_Outputs n' ∧ x ∈ os_inputs s').
Proof.
  revert s. induction ts as [|t0 ts IH]; intros s; cbn [foldM].
  - intros [= <-]. split_and!; [apply grows_refl|done|done|done| |].
    + intros t [Ht|?]; [by apply not_elem_of_nil in Ht|done].
    + intros t i n Ht. by apply not_elem_of_nil in Ht.
  - intros (s1 & H1 & H2)%bind_Ok.
    apply connect_output_spec in H1 as (G1 & I1 & O1 & M1 & C1 & W1).
    apply IH in H2 as (G2 & I2 & O2 & M2 & C2 & W2).
    assert (∀ t, t ≠ t0 → full_name t ≠ full_name t0) as Hne
      by (intros t Ht Hf; by apply Ht, full_name_inj).
    split_and!; auto.
    + by transitivity (os_result s1).
    + intros t [Ht Hts]%not_elem_of_cons. rewrite M2 by done. by apply M1, Hne.
    + intros t Ht. destruct (decide (t = t0)) as [->|Hd]; [apply C2; by right|].
      apply C2. destruct Ht as [[?|?]%elem_of_cons|(l & x & Hm & Hx & Hf)]; [done|by left|right].
      exists l, x. split_and!; [by rewrite M1; [|by apply Hne]|by apply O1|done].
    + intros t i n Ht Hs Hi Hc. destruct (decide (t = t0)) as [->|Hd].
      * destruct (W1 Hs n) as (x & Hx & Hxi); [by eapply list_elem_of_lookup_2|done|].
        assert (grows (os_result s) (os_result s')) as G by by transitivity (os_result s1).
        destruct (grows_lookup _ _ _ _ G Hi) as (n' & Hi' & _ & Hn').
        exists n', x. split_and!; auto.
      * apply elem_of_cons in Ht as [?|Ht]; [done|].
        destruct (grows_contains _ _ _ _ _ G1 Hi Hc) as (n1 & Hi1 & _ & Hc1).
        apply (W2 t i n1); try done. by rewrite M1; [|by apply Hne].
Qed.

(** ** The graph of a program *)

(** The edge of the workflow from statement [i] to statement [j]. *)
Definition edge (r : list Node) (i j : nat) : Prop :=
  ∃ ni nj x, r !! i = Some ni ∧ r !! j = Some nj ∧ x ∈ node_Outputs ni ∧ x ∈ node_Inputs nj.

Definition writes (ps : list SQLFlowStmt) (k : nat) (t : string) : Prop :=
  ∃ st, ps !! k = Some st ∧ t ∈ stmt_Outputs st.
Definition reads (ps : list SQLFlowStmt) (k : nat) (t : string) : Prop :=
  ∃ st, ps !! k = Some st ∧ t ∈ stmt_Inputs st.

Record graph_inv (ps : list SQLFlowStmt) (r : list Node) (m : TableNodeMap) : Prop := {
  gi_length : length r = length ps;
  gi_written : ∀ k t, writes ps k t → is_Some (m !! full_name t) ∧
    ∃ n, r !! k = Some n ∧ contains (node_Outputs n) (full_name t) = true;
  gi_last : ∀ k t, writes ps k t → (∀ j, k < j → ¬ writes ps j t) →
    ∃ n, r !! k = Some n ∧ current_output m (node_Outputs n) t;
  gi_raw : ∀ k j t, k < j → writes ps k t → reads ps j t →
    (∀ i, k < i → i < j → ¬ writes ps i t) → edge r k j;
  gi_waw : ∀ k j t, k < j → writes ps k t → writes ps j t → edge r k j
}.

Lemma edge_grow r r' n i j : grows r r' → edge r i j → edge (r' ++ [n]) i j.
Proof.
  intros Hg (ni & nj & x & Hi & Hj & Hx & Hxj).
  destruct (grows_lookup _ _ _ _ Hg Hi) as (ni' & Hi' & _ & Ho).
  destruct (grows_lookup _ _ _ _ Hg Hj) as (nj' & Hj' & He & _).
  exists ni', nj', x. rewrite !lookup_app_l by (by eapply lookup_lt_Some).
  split_and!; [done|done|by apply Ho|by rewrite He].
Qed.

Lemma writes_snoc ps st k t :
  writes (ps ++ [st]) k t ↔ writes ps k t ∨ k = length ps ∧ t ∈ stmt_Outputs st.
Proof.
  unfold writes. setoid_rewrite lookup_app_Some. split.
  - intros (st' & [?|[Hk Hl]] & Ht); [left; eauto|]. apply list_lookup_singleton_Some in Hl as [? ->].
    right. split; [lia|done].
  - intros [(st' & ? & ?)|[-> ?]]; [eauto|]. exists st. split; [right|done].
    split; [done|]. by rewrite Nat.sub_diag.
Qed.

Lemma reads_snoc ps st k t :
  reads (ps ++ [st]) k t ↔ reads ps k t ∨ k = length ps ∧ t ∈ stmt_Inputs st.
Proof.
  unfold reads. setoid_rewrite lookup_app_Some. split.
  - intros (st' & [?|[Hk Hl]] & Ht); [left; eauto|]. apply list_lookup_singleton_Some in Hl as [? ->].
    right. split; [lia|done].
  - intros [(st' & ? & ?)|[-> ?]]; [eauto|]. exists st. split; [right|done].
    split; [done|]. by rewrite Nat.sub_diag.
Qed.

Lemma writes_lt ps k t : writes ps k t → k < length ps.
Proof. intros (st & Hk & _). by eapply lookup_lt_Some. Qed.
Lemma reads_lt ps k t : reads ps k t → k < length ps.
Proof. intros (st & Hk & _). by eapply lookup_lt_Some. Qed.

Lemma current_contains m outs t : current_output m outs t → contains outs (full_name t) = true.
Proof. intros (l & x & _ & Hx & Hf). apply contains_elem. by exists x. Qed.

(** What one statement adds: its node, with the outputs that are now current and the inputs
    that were current or hazards. *)
Lemma analyze_step_spec r m st r' m' :
  analyze_step (r, m) st = Ok (r', m') →
  ∃ r1 curr, r' = r1 ++ [curr] ∧ grows r r1 ∧
    (∀ t, t ∉ stmt_Outputs st → ∀ l, m !! full_name t = Some l → m' !! full_name t = Some l) ∧
    (∀ t, t ∈ stmt_Outputs st → current_output m' (node_Outputs curr) t) ∧
    (∀ t l x, t ∈ stmt_Inputs st → m !! full_name t = Some (l ++ [x]) → x ∈ node_Inputs curr) ∧
    (∀ t i n, t ∈ stmt_Outputs st → is_Some (m !! full_name t) → r !! i = Some n →
       contains (node_Outputs n) (full_name t) = true →
       ∃ n' x, r1 !! i = Some n' ∧ x ∈ node_Outputs n' ∧ x ∈ node_Inputs curr).
Proof.
  unfold analyze_step.
  intros ([inp m1] & Hin%connectStatementInputs_spec & (os & Hos & [= <- <-])%bind_Ok)%bind_Ok.
  destruct Hin as [Hm1 Hcur]. apply connect_outputs_spec in Hos as (G & I & _ & M & C & W).
  simpl in *. eexists _, _. split; [done|]. simpl. split_and!; [done| | | |].
  - intros t Ht l Hl. rewrite M by done. by apply Hm1.
  - intros t Ht. apply C. by left.
  - intros t l x Ht Hl. by eapply I, Hcur.
  - intros t i n Ht [l Hl] Hi Hc. eapply W; [done| |done|done]. exists l. by apply Hm1.
Qed.

Lemma graph_inv_nil : graph_inv [] [] ∅.
Proof.
  assert (∀ k t, ¬ writes [] k t) as Hw by (intros k t (? & ? & _); done).
  split; [done|..]; intros; by exfalso; eapply Hw.
Qed.

Lemma graph_inv_step ps r m st r' m' :
  graph_inv ps r m → analyze_step (r, m) st = Ok (r', m') → graph_inv (ps ++ [st]) r' m'.
Proof.
  intros Hinv Hstep. apply analyze_step_spec in Hstep as (r1 & curr & -> & G & M & C & R & W).
  pose proof (gi_length _ _ _ Hinv) as Hlen. pose proof (Forall2_length _ _ _ G) as Hlen1.
  assert ((r1 ++ [curr]) !! length ps = Some curr) as Hcurr.
  { rewrite lookup_app_r by lia. by replace (length ps - length r1) with 0 by lia. }
  assert (∀ i n, r1 !! i = Some n → (r1 ++ [curr]) !! i = Some n) as Hold.
  { intros i n Hi. apply lookup_app_l_Some, Hi. }
  split.
  - rewrite !length_app. simpl. lia.
  - intros k t [Hw|[-> Ht]]%writes_snoc.
    + destruct (gi_written _ _ _ Hinv k t Hw) as ([l Hl] & n & Hn & Hc). split.
      * destruct (decide (t ∈ stmt_Outputs st)) as [Ht|Ht]; [|exists l; by apply M].
        destruct (C t Ht) as (l' & x & Hl' & _). rewrite Hl'. eauto.
      * destruct (grows_contains _ _ _ _ _ G Hn Hc) as (n' & Hn' & _ & Hc'). exists n'. auto.
    + destruct (C t Ht) as (l & x & Hl & Hx). rewrite Hl. split; [eauto|]. exists curr.
      split; [done|]. eapply current_contains. by apply C.
  - intros k t [Hw|[-> Ht]]%writes_snoc Hno; [|exists curr; auto].
    assert (t ∉ stmt_Outputs st) as Ht.
    { intros Ht. apply (Hno (length ps)); [by apply writes_lt in Hw|]. apply writes_snoc. auto. }
    destruct (gi_last _ _ _ Hinv k t Hw) as (n & Hn & l & x & Hl & Hx & Hf).
    { intros j Hj Hwj. apply (Hno j Hj). apply writes_snoc. by left. }
    destruct (grows_lookup _ _ _ _ G Hn) as (n' & Hn' & _ & Ho). exists n'. split; [auto|].
    exists l, x. auto.
  - intros k j t Hkj [Hw|[-> Ht]]%writes_snoc Hr Hno.
    2:{ apply reads_snoc in Hr as [Hr|[-> _]]; [apply reads_lt in Hr|]; lia. }
    apply reads_snoc in Hr as [Hr|[-> Ht]].
    + eapply edge_grow; [exact G|]. eapply (gi_raw _ _ _ Hinv); try done.
      intros i Hki Hij Hwi. apply (Hno i Hki Hij). apply writes_snoc. by left.
    + destruct (gi_last _ _ _ Hinv k t Hw) as (n & Hn & l & x & Hl & Hx & _).
      { intros j Hj Hwj. apply (Hno j Hj); [by apply writes_lt in Hwj|]. apply writes_snoc. by left. }
      destruct (grows_lookup _ _ _ _ G Hn) as (n' & Hn' & _ & Ho).
      exists n', curr, x. split_and!; [auto|done|auto|by eapply R].
  - intros k j t Hkj [Hw|[-> Ht]]%writes_snoc Hwj.
    2:{ apply writes_snoc in Hwj as [Hr|[-> _]]; [apply writes_lt in Hr|]; lia. }
    apply writes_snoc in Hwj as [Hwj|[-> Ht]].
    + eapply edge_grow; [exact G|]. by eapply (gi_waw _ _ _ Hinv).
    + destruct (gi_written _ _ _ Hinv k t Hw) as (Hs & n & Hn & Hc).
      destruct (W t k n Ht Hs Hn Hc) as (n' & x & Hn' & Hx & Hxi).
      exists n', curr, x. auto.
Qed.

Lemma analyze_inv ps r m : foldM analyze_step ([], ∅) ps = Ok (r, m) → graph_inv ps r m.
Proof.
  revert r m. induction ps as [|st ps IH] using rev_ind; intros r m.
  - intros [= <- <-]. apply graph_inv_nil.
  - rewrite foldM_app. intros ([r0 m0] & H0 & H1)%bind_Ok. simpl in H1.
    apply bind_Ok in H1 as ([r1 m1] & H1 & [= <- <-]). eapply graph_inv_step; [by apply IH|done].
Qed.

Lemma Analyze_inv `{MapOrder} env ps r :
  1 < length ps → Analyze env ps = Ok r → ∃ m, graph_inv ps r m.
Proof.
  intros Hl. unfold Analyze. destruct ps as [|s [|s' ps]]; [simpl in Hl; lia..|].
  intros ([r' m] & Hf & (u & _ & [= <-])%bind_Ok)%bind_Ok. exists m. by apply analyze_inv.
Qed.

(** ** The properties *)

(** C29: Read after write: in the graph of a program there is an edge from the last statement
    that writes a table before a statement that reads it to that statement. *)
Theorem Analyze_raw `{MapOrder} (env : GraphvizEnv) (ps : list SQLFlowStmt) (r : list Node)
    (k j : nat) (t : string) :
  Analyze env ps = Ok r → k < j → writes ps k t → reads ps j t →
  (∀ i, k < i → i < j → ¬ writes ps i t) → edge r k j.
Proof.
  intros Ha Hkj Hw Hr Hno. apply Analyze_inv in Ha as [m Hm].
  - by eapply (gi_raw _ _ _ Hm).
  - apply reads_lt in Hr. lia.
Qed.

Definition no_graph : GraphvizEnv := mkGraphvizEnv "" None (λ _, None).
Definition stmt_io (text : string) (i o : list string) : SQLFlowStmt := mkSQLFlowStmt false text None i o.
Definition demo_program : list SQLFlowStmt :=
  [stmt_io "CREATE TABLE t AS SELECT * FROM s" ["s"] ["t"];
   stmt_io "SELECT * FROM t" ["t"] []; stmt_io "INSERT INTO t SELECT 1" [] ["t"]]%string.
Definition demo_graph : list Node :=
  match Analyze no_graph demo_program with Ok r => r | _ => [] end.

Lemma demo_writes k : writes demo_program k "t" ↔ k = 0 ∨ k = 2.
Proof.
  unfold writes. split.
  - intros (st & Hk & Ht). destruct k as [|[|[|k]]]; [by left| |by right|done].
    injection Hk as <-. by apply not_elem_of_nil in Ht.
  - intros [-> | ->]; eexists; (split; [reflexivity|]); left.
Qed.

Lemma Analyze_raw_witness : edge demo_graph 0 1.
Proof.
  apply (Analyze_raw no_graph demo_program demo_graph 0 1 "t"); [reflexivity|lia| | |].
  - apply demo_writes. by left.
  - eexists. split; [reflexivity|]. left.
  - intros i ? ?. lia.
Defined.

(** C30: Write after write: every two statements that write the same table are connected
    directly, the earlier one before the later one. *)
Theorem Analyze_waw `{MapOrder} (env : GraphvizEnv) (ps : list SQLFlowStmt) (r : list Node)
    (k j : nat) (t : string) :
  Analyze env ps = Ok r → k < j → writes ps k t → writes ps j t → edge r k j.
Proof.
  intros Ha Hkj Hw Hr. apply Analyze_inv in Ha as [m Hm].
  - by eapply (gi_waw _ _ _ Hm).
  - apply writes_lt in Hr. lia.
Qed.

Lemma Analyze_waw_witness : edge demo_graph 0 2.
Proof.
  apply (Analyze_waw no_graph demo_program demo_graph 0 2 "t"); [reflexivity|lia| |].
  - apply demo_writes. by left.
  - apply demo_writes. by right.
Defined.

(** A statement that only reads [t]. *)
Lemma analyze_step_read_new r m a t :
  m !! full_name t = None →
  analyze_step (r, m) (stmt_io a [t] [])
  = Ok (r ++ [mkNode a (length r) [mkTable TypeTable t 0] []],
        <[full_name t := [mkTable TypeTable t 0]]> m).
Proof.
  intros Hm. unfold analyze_step, connectStatementInputs, stmt_io, connect_input. simpl. by rewrite Hm.
Qed.

Lemma analyze_step_read r m a t l x :
  m !! full_name t = Some (l ++ [x]) →
  analyze_step (r, m) (stmt_io a [t] []) = Ok (r ++ [mkNode a (length r) [x] []], m).
Proof.
  intros Hm. unfold analyze_step, connectStatementInputs, stmt_io, connect_input. simpl. rewrite Hm.
  unfold last_elem. by rewrite last_snoc.
Qed.

Lemma contains_table t h l : contains (mkTable TypeTable t h :: l) (full_name t) = true.
Proof. unfold contains. cbn [existsb]. by rewrite bool_decide_true. Qed.

(** Two readers of the first version of a table, and then a writer. *)
Lemma resolve_two_readers m a b t :
  let n h := mkTable TypeTable t h in
  m !! full_name t = Some [n 0] →
  ∃ m', resolveHazard [mkNode a 0 [n 0] []; mkNode b 1 [n 0] []] t [] m
        = Ok ([n 1], m', [mkNode a 0 [n 0] [n 2]; mkNode b 1 [n 0] [n 1]])
      ∧ m' !! full_name t = Some [n 0; n 1; n 2].
Proof.
  intros n Hm. unfold resolveHazard. subst n.
  eexists. split.
  - cbn [reverse rev_append resolve_loop node_Outputs node_Inputs].
    change (contains [] (full_name t)) with false. cbv iota.
    rewrite !contains_table. cbv iota. rewrite Hm.
    unfold last_elem. cbn [from_option id last app]. ok_step. cbn [HazardIndex Nat.add].
    rewrite !contains_table. cbv iota. rewrite lookup_insert_eq. cbn [from_option id last app]. ok_step.
    reflexivity.
  - by rewrite lookup_insert_eq.
Qed.

Lemma analyze_step_write r m a t inputs m' r' l x :
  is_Some (m !! full_name t) →
  resolveHazard r t [] m = Ok (inputs, m', r') →
  m' !! full_name t = Some (l ++ [x]) →
  analyze_step (r, m) (stmt_io a [] [t])
  = Ok (r' ++ [mkNode a (length r) inputs [mkTable TypeTable t (HazardIndex x + 1)]],
        <[full_name t := (l ++ [x]) ++ [mkTable TypeTable t (HazardIndex x + 1)]]> m').
Proof.
  intros [? Hm] Hr Hm'. unfold analyze_step, connectStatementInputs, connectStatementOutputs, stmt_io.
  cbn [foldM stmt_Inputs stmt_Outputs]. ok_step. unfold connect_output. rewrite Hm, Hr. ok_step.
  rewrite Hm'. cbn [from_option id default]. unfold last_elem. rewrite last_snoc. reflexivity.
Qed.

(** Write after read: of two statements that read a table before a third one writes it,
    only the second is connected with the writer.  The first has no edge at all to either
    of the others, so that the workflow can run the writer before it. *)
Theorem Analyze_war_first_reader_lost `{MapOrder} (a b c t : string) :
  ∃ r, Analyze no_graph [stmt_io a [t] []; stmt_io b [t] []; stmt_io c [] [t]] = Ok r ∧
    edge r 1 2 ∧ ∀ j, ¬ edge r 0 j.
Proof.
  set (n0 := mkTable TypeTable t 0). set (n1 := mkTable TypeTable t 1).
  set (n2 := mkTable TypeTable t 2). set (n3 := mkTable TypeTable t 3).
  exists [mkNode a 0 [n0] [n2]; mkNode b 1 [n0] [n1]; mkNode c 2 [n1] [n3]]. split_and!.
  - unfold Analyze. cbn [foldM]. rewrite analyze_step_read_new by apply lookup_empty. ok_step.
    set (m := <[_ := _]> _). assert (m !! full_name t = Some [n0]) as Hm by apply lookup_insert_eq.
    rewrite (analyze_step_read _ m b t [] n0) by done. ok_step. cbn [app length].
    destruct (resolve_two_readers m a b t Hm) as (m' & Hr & Hm').
    rewrite (analyze_step_write _ m c t [n1] m' _ [n0; n1] n2) by done. ok_step. reflexivity.
  - exists (mkNode b 1 [n0] [n1]), (mkNode c 2 [n1] [n3]), n1. by repeat split; try left.
  - intros j (ni & nj & x & [= <-] & Hj & Hx & Hxj).
    apply list_elem_of_singleton in Hx as ->.
    destruct j as [|[|[|]]]; [..|done]; injection Hj as <-; simpl in Hxj;
      apply list_elem_of_singleton in Hxj; discriminate Hxj.
Qed.
