(* ===== verification/GoState.v ===== *)
(** * Functions with effects

    The packages around the compiler act on what is outside of it: a database, files, a
    terminal, commands.  A Go function that does is a state transformer here: it takes the
    state of the outside world and returns a result together with the new state, also when
    the result is an error, since what was done before the error stays done. *)

From S2P Require Import Prelude.

Definition st (D A : Type) : Type := D → result A * D.

#[export] Instance st_ret {D} : MRet (st D) := λ A a d, (Ok a, d).
#[export] Instance st_bind {D} : MBind (st D) := λ A B f m d,
  match m d with
  | (Ok a, d) => f a d
  | (Fail e, d) => (Fail e, d)
  | (Panic, d) => (Panic, d)
  | (NoFuel, d) => (NoFuel, d)
  end.

Definition lift {D A} (r : result A) : st D A := λ d, (r, d).
Definition fail {D A} (e : error) : st D A := lift (Fail e).
Definition get {D} : st D D := λ d, (Ok d, d).
Definition put {D} (d : D) : st D unit := λ _, (Ok tt, d).

(** The error as a value, for code that looks at it. *)
Definition attempt {D A} (m : st D A) : st D (A + error) := λ d,
  match m d with
  | (Ok a, d) => (Ok (inl a), d)
  | (Fail e, d) => (Ok (inr e), d)
  | (Panic, d) => (Panic, d)
  | (NoFuel, d) => (NoFuel, d)
  end.

(** [if e := m; e != nil { return k(e) }] *)
Definition catchS {D A} (m : st D A) (k : error → st D A) : st D A := λ d,
  match m d with
  | (Fail e, d) => k e d
  | r => r
  end.
(** [fmt.Errorf(fmt, args, e)] *)
Definition wrapS {D A} (fmt : string) (args : list string) (m : st D A) : st D A :=
  catchS m (λ e, fail (Errorf fmt (args ++ err_format e :: err_args e))).

(** A computation with a local state of its own, its parts outside of that state and the state
    itself: what a function does to the structure behind a pointer that it was given. *)
Definition with_local {S D A} (s : S) (m : st (S * D) A) : st D A := λ d,
  let '(r, (_, d)) := m (s, d) in (r, d).
Definition at_disk {S D A} (m : st D A) : st (S * D) A := λ '(s, d), let '(r, d) := m d in (r, (s, d)).
Definition own {S D} : st (S * D) S := λ '(s, d), (Ok s, (s, d)).
Definition update {S D} (f : S → S) : st (S * D) unit := λ '(s, d), (Ok tt, (f s, d)).

(** [defer f()]: [f] runs when [m] has ended, however that was; its own result is lost, as
    that of a deferred call is. *)
Definition defer {D A} (f : st D unit) (m : st D A) : st D A := λ d,
  let '(r, d) := m d in (r, (f d).2).

Fixpoint eachS {D X} (f : X → st D unit) (l : list X) : st D unit :=
  match l with
  | [] => mret tt
  | x :: l => f x ≫= λ _, eachS f l
  end.

Section lemmas.
Context {D : Type}.

Lemma st_bind_Ok {A B} (m : st D A) (f : A → st D B) d b d' :
  (m ≫= f) d = (Ok b, d') ↔ ∃ a d1, m d = (Ok a, d1) ∧ f a d1 = (Ok b, d').
Proof.
  unfold mbind, st_bind. destruct (m d) as [[a|e| |] d1]; split; try naive_solver.
Qed.

Lemma st_bind_run {A B} (m : st D A) (f : A → st D B) d a d1 :
  m d = (Ok a, d1) → (m ≫= f) d = f a d1.
Proof. intros H. unfold mbind, st_bind. by rewrite H. Qed.

Lemma st_bind_fail {A B} (m : st D A) (f : A → st D B) d e d1 :
  m d = (Fail e, d1) → (m ≫= f) d = (Fail e, d1).
Proof. intros H. unfold mbind, st_bind. by rewrite H. Qed.

Lemma catchS_Ok {A} (m : st D A) k d a d' :
  catchS m k d = (Ok a, d') ↔ m d = (Ok a, d') ∨ ∃ e d1, m d = (Fail e, d1) ∧ k e d1 = (Ok a, d').
Proof. unfold catchS. destruct (m d) as [[b|e| |] d1]; split; naive_solver. Qed.

Lemma wrapS_Ok {A} fmt args (m : st D A) d a d' :
  wrapS fmt args m d = (Ok a, d') ↔ m d = (Ok a, d').
Proof. unfold wrapS. rewrite catchS_Ok. split; [|by left]. intros [?|(e&d1&?&[=])]; done. Qed.

Lemma lift_Ok {A} (r : result A) d a d' : @lift D A r d = (Ok a, d') ↔ r = Ok a ∧ d = d'.
Proof. unfold lift. split; [by intros [= -> ->]|by intros [-> ->]]. Qed.

Lemma mret_Ok {A} (x : A) d a d' : @mret (st D) _ A x d = (Ok a, d') ↔ x = a ∧ d = d'.
Proof. unfold mret, st_ret. split; [by intros [= -> ->]|by intros [-> ->]]. Qed.
Lemma eachS_app {X} (f : X → st D unit) l k d :
  eachS f (l ++ k) d = (eachS f l ≫= λ _, eachS f k) d.
Proof.
  revert d. induction l as [|x l IH]; intros d; [done|]. cbn [app eachS]. unfold mbind, st_bind in *.
  destruct (f x d) as [[[]|e| |] d1]; [apply IH|done..].
Qed.
End lemmas.

#[export] Hint Rewrite @st_bind_Ok @wrapS_Ok @lift_Ok @mret_Ok : go.

(** Take a successful run in a hypothesis apart. *)
Ltac run_ok :=
  repeat match goal with
  | H : (_ ≫= _) _ = (Ok _, _) |- _ => apply st_bind_Ok in H as (? & ? & ? & ?)
  | H : wrapS _ _ _ _ = (Ok _, _) |- _ => apply wrapS_Ok in H
  | H : lift _ _ = (Ok _, _) |- _ => apply lift_Ok in H as [? ?]
  | H : mret _ _ = (Ok _, _) |- _ => apply mret_Ok in H as [? ?]
  | H : fail _ _ = (Ok _, _) |- _ => discriminate H
  | H : Ok _ = Ok _ |- _ => injection H as H
  end; subst.

(** ** What a computation does to the world

    [within R m]: however [m] ends, it relates the worlds before and after as [R] does. *)

Definition within {D A} (R : D → D → Prop) (m : st D A) : Prop := ∀ d r d', m d = (r, d') → R d d'.
(** The relation of worlds that leaves a local state free. *)
Definition beside {S D} (R : D → D → Prop) (x y : S * D) : Prop := R x.2 y.2.

#[export] Instance beside_preorder {S D} (R : D → D → Prop) `{!PreOrder R} : PreOrder (@beside S D R).
Proof. split; [intros x; unfold beside; reflexivity|intros x y z; unfold beside; apply transitivity]. Qed.

Section within.
Context {D : Type} (R : D → D → Prop) `{!PreOrder R}.

Lemma within_lift {A} (r : result A) : within R (lift r).
Proof. by intros d r' d' [= <- <-]. Qed.
Lemma within_ret {A} (x : A) : within R (mret x).
Proof. by intros d r' d' [= <- <-]. Qed.
Lemma within_get : within R get.
Proof. by intros d r' d' [= <- <-]. Qed.
Lemma within_bind {A B} (m : st D A) (f : A → st D B) :
  within R m → (∀ a, within R (f a)) → within R (m ≫= f).
Proof.
  intros Hm Hf d r d'. unfold mbind, st_bind. destruct (m d) as [[a|e| |] d1] eqn:Hd; intros Hr;
    specialize (Hm _ _ _ Hd); [|by injection Hr as <- <-..]. etrans; [exact Hm|]. by eapply Hf.
Qed.
Lemma within_eachS {X} (f : X → st D unit) l : (∀ x, x ∈ l → within R (f x)) → within R (eachS f l).
Proof.
  induction l as [|x l IH]; intros Hf; [apply within_ret|]. apply within_bind; [apply Hf; left|].
  intros _. apply IH. intros y Hy. apply Hf. by right.
Qed.
Lemma within_attempt {A} (m : st D A) : within R m → within R (attempt m).
Proof.
  intros Hm d r d'. unfold attempt. destruct (m d) as [[a|e| |] d1] eqn:Hd; intros [= <- <-]; by eapply Hm.
Qed.
Lemma within_catchS {A} (m : st D A) (k : error → st D A) :
  within R m → (∀ e, within R (k e)) → within R (catchS m k).
Proof.
  intros Hm Hk d r d'. unfold catchS. destruct (m d) as [[a|e| |] d1] eqn:Hd; intros Hr;
    specialize (Hm _ _ _ Hd); [by injection Hr as <- <-| |by injection Hr as <- <-..]. etrans; [exact Hm|]. by eapply Hk.
Qed.
Lemma within_wrapS {A} fmt args (m : st D A) : within R m → within R (wrapS fmt args m).
Proof. intros Hm. apply within_catchS; [done|]. intros e. apply within_lift. Qed.
Lemma within_defer {A} (f : st D unit) (m : st D A) : within R f → within R m → within R (defer f m).
Proof.
  intros Hf Hm d r d'. unfold defer. destruct (m d) as [r1 d1] eqn:Hd, (f d1) as [r2 d2] eqn:Hf1. intros [= <- <-].
  etrans; [by eapply Hm|by eapply Hf].
Qed.
Lemma within_local {S A} (s : S) (m : st (S * D) A) : within (beside R) m → within R (with_local s m).
Proof.
  intros Hm d r d'. unfold with_local. destruct (m (s, d)) as [r1 [s1 d1]] eqn:Hd. intros [= <- <-].
  exact (Hm _ _ _ Hd).
Qed.
Lemma within_disk {S A} (m : st D A) : within R m → within (@beside S D R) (at_disk m).
Proof.
  intros Hm [s d] r [s' d']. unfold at_disk, beside. destruct (m d) as [r1 d1] eqn:Hd. intros [= <- <- <-].
  exact (Hm _ _ _ Hd).
Qed.
Lemma within_own {S} : within (@beside S D R) own.
Proof. intros [s d] r [s' d'] [= <- <- <-]. unfold beside. reflexivity. Qed.
Lemma within_update {S} (f : S → S) : within (@beside S D R) (update f).
Proof. intros [s d] r [s' d'] [= <- <- <-]. unfold beside. reflexivity. Qed.
Lemma within_decide {A} (P : Prop) `{Decision P} (m k : st D A) : within R m → within R k → within R (if decide P then m else k).
Proof. by destruct (decide P). Qed.
Lemma within_if {A} (b : bool) (m k : st D A) : within R m → within R k → within R (if b then m else k).
Proof. by destruct b. Qed.
End within.

Create HintDb within.
#[export] Hint Resolve within_lift within_ret within_get within_bind within_attempt within_catchS within_wrapS
  within_defer within_local within_disk within_own within_update within_decide within_if : within.

(** A loop that carries a value of its own. *)
Fixpoint foldS {D S X} (f : S → X → st D S) (s : S) (l : list X) : st D S :=
  match l with
  | [] => mret s
  | x :: l => s ← f s x; foldS f s l
  end.
