(* ===== verification/ParserServer.v ===== *)
(** * The connection to the parser of Java (go/parser/external/java_parser_server.go)

    Standard SQL of Hive, Calcite and MaxCompute is parsed by a process of its own.  The client
    starts it when nothing listens at its port, and means to keep its connection. *)

From S2P Require Import Prelude GoStrings GoState.

Local Open Scope nat_scope.

(** Packages net, os/exec and grpc, and the clock.  [Conn] are the connections. *)
Class ParserWorld (Conn D : Type) := {
  ps_Getenv : string → string;
  tcp_Dial : string → st D Conn;                 (* net.DialTimeout, of a second *)
  tcp_Close : Conn → st D unit;
  start_command : list string → st D unit;       (* exec.Command, Start *)
  sleep_second : st D unit;
  path_Join : string → string → string;
  grpc_Dial : string → st D Conn
}.

Section server.
Context `{ParserWorld Conn D}.

(** [log.Fatal] ends the process. *)
Definition required_env (name : string) : st D string :=
  let v := ps_Getenv name in if decide (v = ""%string) then lift Panic else mret v.
Definition getServerPort : st D string := required_env "SQLFLOW_PARSER_SERVER_PORT".
Definition getServerLoadingPath : st D string := required_env "SQLFLOW_PARSER_SERVER_LOADING_PATH".

Definition isServerUp (address : string) : st D bool :=
  r ← attempt (tcp_Dial address);
  match r with
  | inl conn => attempt (tcp_Close conn) ≫= λ _, mret true
  | inr _ => mret false
  end.
Definition probe : st D bool := port ← getServerPort; isServerUp (":" +:+ port)%string.

Fixpoint wait_up (times : nat) : st D unit :=
  match times with
  | O => fail (Errorf "unable to start external parser service" [])
  | S times => sleep_second ≫= λ _, up ← probe; if up : bool then mret tt else wait_up times
  end.
Definition startServerIfNotUp : st D unit :=
  up ← probe;
  if up : bool then mret tt else
    path ← getServerLoadingPath; port ← getServerPort; path' ← getServerLoadingPath;
    start_command ["java"; "-cp"; path_Join path "parser-1.0-SNAPSHOT-jar-with-dependencies.jar";
                   "org.sqlflow.parser.ParserGrpcServer"; "-p"; port; "-l"; path']%string ≫= λ _,
    wait_up 3.

(** The state is the variable [clientConn] of the package, which [mu] protects: calls follow
    each other.  The last statement declares another [clientConn]. *)
Definition connectToServer : st (option Conn * D) Conn :=
  clientConn ← own;
  match clientConn with
  | Some c => mret c
  | None =>
    at_disk startServerIfNotUp ≫= λ _,
    port ← at_disk getServerPort;
    clientConn ← at_disk (grpc_Dial (":" +:+ port)); mret clientConn
  end.

(** The connections of so many calls, as far as they succeed. *)
Fixpoint connect_times (n : nat) : st (option Conn * D) (list Conn) :=
  match n with
  | O => mret []
  | S n => c ← connectToServer; l ← connect_times n; mret (c :: l)
  end.
End server.

(** ** What holds *)

Section facts.
Context `{ParserWorld Conn D}.

(** When the start succeeds the server has just answered. *)
Lemma wait_up_answered (n : nat) (d d' : D) : wait_up n d = (Ok tt, d') → ∃ d0, probe d0 = (Ok true, d').
Proof.
  revert d. induction n as [|n IH]; intros d Hr; [discriminate Hr|]. cbn [wait_up] in Hr.
  apply st_bind_Ok in Hr as (? & d1 & _ & (up & d2 & Hp & Hr)%st_bind_Ok). destruct up; run_ok; eauto.
Qed.
Theorem startServerIfNotUp_answered (d d' : D) : startServerIfNotUp d = (Ok tt, d') → ∃ d0, probe d0 = (Ok true, d').
Proof.
  intros Hr. apply st_bind_Ok in Hr as (up & d1 & Hp & Hr). destruct up; run_ok; [eauto|by eapply wait_up_answered].
Qed.

(** The variable is never set: a call leaves it as it is, however it ends. *)
Lemma connectToServer_keeps (v : option Conn) (d : D) : (connectToServer (v, d)).2.1 = v.
Proof.
  unfold connectToServer, mbind, st_bind, own, at_disk. destruct v as [c|]; [done|].
  destruct (startServerIfNotUp d) as [[[]|e| |] d1]; [|done..]. destruct (getServerPort d1) as [[port|?| |] d2]; [|done..].
  by destruct (grpc_Dial (":" +:+ port)%string d2) as [[c|?| |] d3].
Qed.

(** [dials]: how many connections were made for grpc. *)
Context (dials : D → nat).
Context (Hdial : ∀ a d c d', grpc_Dial a d = (Ok c, d') → dials d' = S (dials d)).
Definition same_dials (d d' : D) : Prop := dials d' = dials d.
Context (Hprobe : ∀ a, within same_dials (tcp_Dial a)) (Hclose : ∀ c, within same_dials (tcp_Close c)).
Context (Hstart : ∀ l, within same_dials (start_command l)) (Hsleep : within same_dials sleep_second).

#[local] Instance same_dials_preorder : PreOrder same_dials.
Proof. split; [by intros d|intros x y z; unfold same_dials; congruence]. Qed.
#[local] Ltac still := repeat first
  [ apply _ | assumption | apply Hprobe | apply Hclose | apply Hstart | apply Hsleep
  | apply within_bind; [..|intros ?] | apply within_lift | apply within_ret | apply within_attempt
  | match goal with |- within _ (match ?x with _ => _ end) => destruct x end ].
Lemma probe_dials : within same_dials probe.
Proof. unfold probe, getServerPort, required_env, isServerUp. still. Qed.
Lemma wait_up_dials (n : nat) : within same_dials (wait_up n).
Proof. pose proof probe_dials. induction n as [|n IH]; cbn [wait_up]; unfold fail; still. Qed.
Lemma start_dials : within same_dials startServerIfNotUp.
Proof.
  pose proof probe_dials. pose proof wait_up_dials. unfold startServerIfNotUp, getServerPort, getServerLoadingPath, required_env. still; eauto.
Qed.

(** Every call makes a connection of its own, and none is closed: the variable, which the code
    looks at first, stays empty. *)
Theorem every_call_dials (n : nat) (d d' : D) (l : list Conn) (v : option Conn) :
  connect_times n (None, d) = (Ok l, (v, d')) → v = None ∧ length l = n ∧ dials d' = n + dials d.
Proof.
  revert d l. induction n as [|n IH]; intros d l Hr; cbn [connect_times] in Hr.
  { apply mret_Ok in Hr as [<- [= <- <-]]. done. }
  apply st_bind_Ok in Hr as (c & [v1 d1] & Hc & Hr). pose proof (connectToServer_keeps None d) as Hv. rewrite Hc in Hv. cbn in Hv. subst v1.
  apply st_bind_Ok in Hr as (l1 & [v2 d2] & Hl & Hr). apply mret_Ok in Hr as [<- [= <- <-]].
  destruct (IH _ _ Hl) as (-> & <- & ->). split_and!; [done..|]. cut (dials d1 = S (dials d)); [cbn; lia|].
  unfold connectToServer, own, at_disk, mbind, st_bind in Hc.
  destruct (startServerIfNotUp d) as [[[]|?| |] e1] eqn:Hs; [|done..].
  destruct (getServerPort e1) as [[port|?| |] e2] eqn:Hp; [|done..].
  destruct (grpc_Dial (":" +:+ port)%string e2) as [[c'|?| |] e3] eqn:Hg; [|done..]. injection Hc as -> ->.
  rewrite (Hdial _ _ _ _ Hg). f_equal. rewrite <- (start_dials _ _ _ Hs).
  unfold getServerPort, required_env in Hp. destruct (decide _); [done|]. by apply mret_Ok in Hp as [_ ->].
Qed.
End facts.

(** ** A machine on which the server starts in the second that follows *)

(** The state: whether the server listens, and the connections that were made. *)
#[export] Instance small_machine : ParserWorld nat (bool * nat) := {|
  ps_Getenv name := if decide (name = "SQLFLOW_PARSER_SERVER_PORT")%string then "12300"%string else "/opt"%string;
  tcp_Dial _ '(up, n) := (if up : bool then Ok 0 else Fail (Errorf "connection refused" []), (up, n));
  tcp_Close _ := mret tt;
  start_command _ '(_, n) := (Ok tt, (true, n));
  sleep_second := mret tt;
  path_Join a b := (a +:+ "/" +:+ b)%string;
  grpc_Dial _ '(up, n) := (Ok (S n), (up, S n))
|}.
Example two_calls : connect_times 2 (None, (false, 0)) = (Ok [1; 2], (None, (true, 2))).
Proof. reflexivity. Qed.
Lemma every_call_dials_witness : @None nat = None ∧ length [1; 2] = 2 ∧ 2 = 2 + 0.
Proof.
  apply (every_call_dials (Conn := nat) (D := bool * nat) snd) with (d := (false, 0)) (d' := (true, 2)) (v := None).
  - by intros a [up n] c [up' n'] [= <- <- <-].
  - by intros a [up n] r [up' n'] [= <- <- <-].
  - by intros c d r d' [= _ <-].
  - by intros l [up n] r [up' n'] [= <- <- <-].
  - by intros d r d' [= _ <-].
  - reflexivity.
Defined.
