(* ===== verification/Base64.v ===== *)
(** * Standard base64 (Go's encoding/base64, [StdEncoding])

    The table file system (go/sqlfs) stores its blocks in base64, so that a block is a
    literal of SQL.  This file has the two functions of the Go library that it calls,
    [EncodeToString] and [DecodeString], with the padding, the newlines that decoding skips
    and the positions that its errors name, and shows that decoding undoes encoding. *)

From S2P Require Import Prelude GoStrings.

Local Open Scope Z_scope.

Definition alphabet : string := "ABCDEFGHIJKLMNOPQRSTUVWXYZabcdefghijklmnopqrstuvwxyz0123456789+/".

Definition b64_char (n : Z) : ascii := default "A"%char (str_get (Z.to_nat n) alphabet).
Definition b64_value (c : ascii) : option Z := Z.of_nat <$> LastIndexByte alphabet c.

(** ** Encoding: three bytes give four characters *)

Definition sextet (val : Z) (i : Z) : ascii := b64_char (Z.land (Z.shiftr val (18 - 6 * i)) 63).
Definition join3 (a b c : Z) : Z := Z.lor (Z.lor (Z.shiftl a 16) (Z.shiftl b 8)) c.

Fixpoint EncodeToString (s : string) : string :=
  match s with
  | "" => ""
  | String a "" =>
    let val := join3 (byte a) 0 0 in String (sextet val 0) (String (sextet val 1) "==")
  | String a (String b "") =>
    let val := join3 (byte a) (byte b) 0 in
    String (sextet val 0) (String (sextet val 1) (String (sextet val 2) "="))
  | String a (String b (String c s)) =>
    let val := join3 (byte a) (byte b) (byte c) in
    String (sextet val 0) (String (sextet val 1) (String (sextet val 2) (String (sextet val 3)
      (EncodeToString s))))
  end%string.

(** ** Decoding *)

Definition CorruptInputError (i : Z) : error := Errorf "illegal base64 data at input byte %d" [pretty i].

Definition newline (c : ascii) : bool := (byte c =? 10) || (byte c =? 13).
(** The rest behind the newlines, and its position. *)
Fixpoint skip_newlines (i : Z) (s : string) : Z * string :=
  match s with
  | String c s' => if newline c then skip_newlines (i + 1) s' else (i, s)
  | "" => (i, s)
  end%string.

(** The bytes of the characters in [q] (at most four, the missing ones count as 0): one
    fewer than characters. *)
Definition quantum (q : list Z) : string :=
  let x k := default 0 (q !! k) in
  let val := Z.lor (Z.lor (Z.lor (Z.shiftl (x 0%nat) 18) (Z.shiftl (x 1%nat) 12)) (Z.shiftl (x 2%nat) 6)) (x 3%nat) in
  str_take (length q - 1)
    (String (of_byte (Z.land (Z.shiftr val 16) 255))
      (String (of_byte (Z.land (Z.shiftr val 8) 255)) (String (of_byte (Z.land val 255)) ""))).

(** What stands at and behind the first padding character, at position [i]. *)
Definition decode_padding (q : list Z) (i : Z) (s : string) : string * option error :=
  let finish j t :=
    let '(j, t) := skip_newlines j t in
    (quantum q, if bool_decide (t = ""%string) then None else Some (CorruptInputError j)) in
  if decide (length q < 2)%nat then (""%string, Some (CorruptInputError i))
  else if decide (length q = 2%nat) then
    match skip_newlines (i + 1) s with
    | (j, String c t) =>
      if bool_decide (c = "="%char) then finish (j + 1) t
      else (""%string, Some (CorruptInputError (j - 1)))
    | (j, EmptyString) => (""%string, Some (CorruptInputError j))
    end
  else finish (i + 1) s.

(** [q] are the values of the characters of the current group, [i] is the position.  On an
    error the bytes decoded so far are returned with it. *)
Fixpoint decode_from (q : list Z) (i : Z) (s : string) : string * option error :=
  match s with
  | EmptyString =>
    (""%string, match q with [] => None | _ => Some (CorruptInputError (i - Z.of_nat (length q))) end)
  | String c s' =>
    match b64_value c with
    | Some v =>
      if decide (length q = 3%nat) then
        let '(r, e) := decode_from [] (i + 1) s' in ((quantum (q ++ [v]) +:+ r)%string, e)
      else decode_from (q ++ [v]) (i + 1) s'
    | None =>
      if newline c then decode_from q (i + 1) s'
      else if bool_decide (c = "="%char) then decode_padding q i s'
      else (""%string, Some (CorruptInputError i))
    end
  end.
Definition DecodeString (s : string) : string * option error := decode_from [] 0 s.

Example encode_man : EncodeToString "Many hands" = "TWFueSBoYW5kcw=="%string.
Proof. reflexivity. Qed.
Example decode_man : DecodeString "TWFu
eSBoYW5kcw==" = ("Many hands"%string, None).
Proof. reflexivity. Qed.
Example decode_cut : DecodeString "TWFueS=" = ("Man"%string, Some (CorruptInputError 7)).
Proof. vm_compute. reflexivity. Qed.

(** ** Decoding undoes encoding *)

Lemma b64_value_char n : 0 ≤ n < 64 → b64_value (b64_char n) = Some n.
Proof.
  intros Hn.
  assert (forallb (λ k, bool_decide (b64_value (b64_char (Z.of_nat k)) = Some (Z.of_nat k))) (seq 0 64) = true)
    as Hall by (vm_compute; reflexivity).
  rewrite forallb_forall in Hall. specialize (Hall (Z.to_nat n)).
  rewrite Z2Nat.id in Hall by lia. apply (bool_decide_eq_true (_ = _)), Hall, in_seq. lia.
Qed.

Lemma lor_shiftl a b k : 0 ≤ k → 0 ≤ b < 2 ^ k → Z.lor (Z.shiftl a k) b = a * 2 ^ k + b.
Proof.
  intros Hk Hb. rewrite <- (Z.shiftl_mul_pow2 a k) by done. symmetry. apply Z.add_nocarry_lor.
  apply Z.bits_inj'. intros i Hi. rewrite Z.land_spec, Z.bits_0.
  destruct (Z.lt_ge_cases i k); [by rewrite Z.shiftl_spec_low|].
  destruct (decide (b = 0)) as [->|]; [by rewrite Z.bits_0, andb_false_r|].
  rewrite (Z.bits_above_log2 b i), andb_false_r; [done|lia|].
  apply Z.lt_le_trans with k; [apply Z.log2_lt_pow2; lia|done].
Qed.

Lemma join3_val a b c :
  0 ≤ a < 256 → 0 ≤ b < 256 → 0 ≤ c < 256 → join3 a b c = (a * 256 + b) * 256 + c.
Proof.
  intros Ha Hb Hc. unfold join3. rewrite <- Z.lor_assoc.
  rewrite (lor_shiftl b c) by (simpl; lia). rewrite lor_shiftl by (simpl; lia). lia.
Qed.

(** The six-bit digits of a value, and back. *)
Definition digit (val i : Z) : Z := (val / 2 ^ (18 - 6 * i)) `mod` 64.

Lemma b64_value_sextet val i : 0 ≤ i ≤ 3 → b64_value (sextet val i) = Some (digit val i).
Proof.
  intros Hi. unfold sextet. change 63 with (Z.ones 6).
  rewrite Z.land_ones, Z.shiftr_div_pow2 by lia. apply b64_value_char.
  change (2 ^ 6) with 64. by apply Z.mod_pos_bound.
Qed.

Lemma digits_join val :
  0 ≤ val < 2 ^ 24 →
  Z.lor (Z.lor (Z.lor (Z.shiftl (digit val 0) 18) (Z.shiftl (digit val 1) 12))
    (Z.shiftl (digit val 2) 6)) (digit val 3) = val.
Proof.
  intros Hv. rewrite <- !Z.lor_assoc. unfold digit.
  change (18 - 6 * 0) with 18. change (18 - 6 * 1) with 12. change (18 - 6 * 2) with 6. change (18 - 6 * 3) with 0.
  pose proof (Z.mod_pos_bound (val / 2 ^ 12) 64). pose proof (Z.mod_pos_bound (val / 2 ^ 6) 64).
  pose proof (Z.mod_pos_bound (val / 2 ^ 0) 64).
  rewrite (lor_shiftl _ _ 6), (lor_shiftl _ _ 12), (lor_shiftl _ _ 18) by (simpl; lia).
  change (2 ^ 18) with (64 * (64 * 64)). change (2 ^ 12) with (64 * 64). change (2 ^ 6) with 64.
  rewrite Z.div_1_r, <- !Z.div_div by lia. Z.to_euclidean_division_equations; lia.
Qed.

(** [q] has the digits of [val], up to zeros at the end. *)
Lemma quantum_bytes q val :
  0 ≤ val < 2 ^ 24 → (∀ k, (k ≤ 3)%nat → default 0 (q !! k) = digit val (Z.of_nat k)) →
  quantum q = str_take (length q - 1)
    (String (of_byte (val / 65536)) (String (of_byte ((val / 256) `mod` 256)) (String (of_byte (val `mod` 256)) ""))).
Proof.
  intros Hv Hq. unfold quantum. rewrite !Hq by lia. cbn [Z.of_nat Pos.of_succ_nat Pos.succ].
  rewrite digits_join by done. change 255 with (Z.ones 8). rewrite !Z.land_ones, !Z.shiftr_div_pow2 by lia.
  change (2 ^ 16) with 65536. change (2 ^ 8) with 256.
  rewrite (Z.mod_small (val / 65536)) at 1; [done|]. Z.to_euclidean_division_equations; lia.
Qed.

Lemma join3_bytes a b c :
  let val := join3 (byte a) (byte b) (byte c) in
  0 ≤ val < 2 ^ 24 ∧ of_byte (val / 65536) = a ∧ of_byte ((val / 256) `mod` 256) = b ∧ of_byte (val `mod` 256) = c.
Proof.
  pose proof (byte_range a). pose proof (byte_range b). pose proof (byte_range c).
  cbv zeta. rewrite join3_val by done. split; [lia|].
  rewrite <- (of_byte_byte a) at 2. rewrite <- (of_byte_byte b) at 3. rewrite <- (of_byte_byte c) at 4.
  split_and!; f_equal; Z.to_euclidean_division_equations; lia.
Qed.

Lemma decode_sextet q i val k s :
  0 ≤ k ≤ 3 → length q ≠ 3%nat →
  decode_from q i (String (sextet val k) s) = decode_from (q ++ [digit val k]) (i + 1) s.
Proof.
  intros Hk Hq. cbn [decode_from]. rewrite b64_value_sextet by done. by rewrite decide_False.
Qed.

Lemma decode_sextet_last q i val k s :
  0 ≤ k ≤ 3 → length q = 3%nat →
  decode_from q i (String (sextet val k) s)
  = let '(r, e) := decode_from [] (i + 1) s in ((quantum (q ++ [digit val k]) +:+ r)%string, e).
Proof.
  intros Hk Hq. cbn [decode_from]. rewrite b64_value_sextet by done. by rewrite decide_True.
Qed.

(** The characters of a group, then what comes behind. *)
Lemma decode_group i val s :
  0 ≤ val < 2 ^ 24 →
  decode_from [] i (String (sextet val 0) (String (sextet val 1) (String (sextet val 2) (String (sextet val 3) s))))
  = let '(r, e) := decode_from [] (i + 4) s in
    (String (of_byte (val / 65536)) (String (of_byte ((val / 256) `mod` 256)) (String (of_byte (val `mod` 256)) r)), e).
Proof.
  intros Hv. rewrite !decode_sextet, decode_sextet_last by (done || lia).
  replace (i + 1 + 1 + 1 + 1) with (i + 4) by lia. destruct (decode_from [] (i + 4) s) as [r e].
  rewrite (quantum_bytes _ val); [done|done|]. intros [|[|[|[|k]]]] Hk; try done. lia.
Qed.

Lemma decode_pad q i s : decode_from q i (String "=" s) = decode_padding q i s.
Proof. cbn [decode_from]. by assert (b64_value "=" = None) as -> by (vm_compute; reflexivity). Qed.

Lemma decode_two i val :
  0 ≤ val < 2 ^ 24 → digit val 2 = 0 → digit val 3 = 0 →
  decode_from [] i (String (sextet val 0) (String (sextet val 1) "==")) = (char1 (of_byte (val / 65536)), None).
Proof.
  intros Hv H2 H3. rewrite !decode_sextet, decode_pad by (done || lia). unfold decode_padding.
  rewrite decide_False, decide_True by (simpl; lia). cbn -[quantum].
  rewrite (quantum_bytes _ val); [done|done|]. intros [|[|[|[|k]]]] Hk; try done. lia.
Qed.

Lemma decode_three i val :
  0 ≤ val < 2 ^ 24 → digit val 3 = 0 →
  decode_from [] i (String (sextet val 0) (String (sextet val 1) (String (sextet val 2) "=")))
  = (String (of_byte (val / 65536)) (char1 (of_byte ((val / 256) `mod` 256))), None).
Proof.
  intros Hv H3. rewrite !decode_sextet, decode_pad by (done || lia). unfold decode_padding.
  rewrite !decide_False by (simpl; lia). cbn -[quantum].
  rewrite (quantum_bytes _ val); [done|done|]. intros [|[|[|[|k]]]] Hk; try done. lia.
Qed.

Lemma decode_encode i s : decode_from [] i (EncodeToString s) = (s, None).
Proof.
  assert (∀ n s i, (str_len s ≤ n)%nat → decode_from [] i (EncodeToString s) = (s, None)) as Hgen;
    [|by eapply Hgen].
  clear. induction n as [|n IH]; intros [|a [|b [|c s]]] i Hn; try done; try (simpl in Hn; lia).
  - pose proof (join3_bytes a zero zero) as (Hv & Ha & _). change (byte zero) with 0 in *.
    cbn [EncodeToString]. rewrite decode_two; [by rewrite Ha|done|..];
      unfold digit; rewrite join3_val by (apply byte_range || lia); cbn;
      pose proof (byte_range a); Z.to_euclidean_division_equations; lia.
  - pose proof (join3_bytes a b zero) as (Hv & Ha & Hb & _). change (byte zero) with 0 in *.
    cbn [EncodeToString]. rewrite decode_three; [by rewrite Ha, Hb|done|].
    unfold digit; rewrite join3_val by (apply byte_range || lia); cbn.
    pose proof (byte_range a). pose proof (byte_range b). Z.to_euclidean_division_equations; lia.
  - pose proof (join3_bytes a b c) as (Hv & Ha & Hb & Hc). cbn [EncodeToString].
    rewrite decode_group by done. rewrite IH by (simpl in Hn; lia). by rewrite Ha, Hb, Hc.
Qed.

Lemma DecodeString_EncodeToString s : DecodeString (EncodeToString s) = (s, None).
Proof. apply decode_encode. Qed.

(** The characters of an encoding: none of them ends a literal of SQL, a field or a line. *)
Definition b64_output (c : ascii) : bool := bool_decide (is_Some (b64_value c)) || bool_decide (c = "="%char).

Lemma EncodeToString_output s : str_forall b64_output (EncodeToString s) = true.
Proof.
  assert (∀ val i, 0 ≤ i ≤ 3 → b64_output (sextet val i) = true) as Hs.
  { intros val i Hi. unfold b64_output. by rewrite b64_value_sextet. }
  assert (∀ n s, (str_len s ≤ n)%nat → str_forall b64_output (EncodeToString s) = true) as Hgen; [|by eapply Hgen].
  induction n as [|n IH]; intros [|a [|b [|c t]]] Hn; try done; try (simpl in Hn; lia);
    cbn [EncodeToString str_forall]; rewrite !Hs by lia; try done.
  apply IH. simpl in Hn. lia.
Qed.

Lemma EncodeToString_length s : str_len (EncodeToString s) = (4 * ((str_len s + 2) / 3))%nat.
Proof.
  assert (∀ n s, (str_len s ≤ n)%nat → str_len (EncodeToString s) = (4 * ((str_len s + 2) / 3))%nat) as Hgen;
    [|by eapply Hgen].
  induction n as [|n IH]; intros [|a [|b [|c t]]] Hn; try done; try (simpl in Hn; lia).
  cbn [EncodeToString str_len]. rewrite IH by (simpl in Hn; lia).
  replace (S (S (S (str_len t))) + 2)%nat with (str_len t + 2 + 1 * 3)%nat by lia.
  rewrite Nat.div_add by lia. lia.
Qed.
