(* ===== verification/Sqlfs.v ===== *)
(** * Files in tables (go/sqlfs)

    A file of bytes is a table with one row per block: its number and its bytes in base64.
    [flushWriteCloser] cuts what is written into blocks of the size of its buffer and gives
    them to a hook; the SQL writer's hook inserts a row, the Hive writer's appends a line to
    a CSV file, which closing uploads.  [reader] selects the rows in batches and hands out
    the bytes.

    The database, the local file and the commands are the class [Outside]: what each call
    does to a state of type [D].  The hooks are closures with a counter of rows; the counter
    is a part of their state here. *)

From S2P Require Import Prelude GoStrings GoState Base64.

(** ** The outside world *)

Class Outside (D : Type) := {
  Exec : string → st D unit;                      (* db.Exec *)
  (** db.Query, then rows.Next and Scan until Next gives false: the rows, and what rows.Err
      would say, an error if the result broke off.  A failure is an error of Query or Scan. *)
  SelectBlocks : string → st D (list (Z * string) * option error);
  WriteCSV : string → st D unit;                  (* csv.Write *)
  csv_Name : string;
  CloseCSV : st D unit;                           (* csv.Close, os.Remove *)
  RunHdfs : list string → list string → st D unit (* CombinedOutput, with the environment *)
}.

(** ** The buffered writer (flush_write_closer.go) *)

Record flushWriteCloser := mkWriter { buf : string; cap : nat; flushes : nat }.
Definition set_buf (b : string) (w : flushWriteCloser) : flushWriteCloser := mkWriter b (cap w) (flushes w).

Section writer.
Context {D : Type} (flush : string → st D unit) (wrapup : st D unit).
Notation W := (flushWriteCloser * D)%type.

Definition newFlushWriteCloser (flushCap : nat) : flushWriteCloser := mkWriter "" flushCap 0.

(** A call of a hook from a method of the writer. *)
Definition hook (m : st D unit) : st W (unit + error) := λ '(w, d),
  let '(r, d) := attempt m d in (r, (w, d)).
Definition on_writer (f : flushWriteCloser → flushWriteCloser) : st W unit := λ '(w, d), (Ok tt, (f w, d)).

(** [Write] returns a count and an error, as Go's does; [fuel] bounds the rounds. *)
Fixpoint Write_loop (fuel : nat) (p : string) (n : nat) : st W (nat * option error) :=
  match fuel with
  | O => lift NoFuel
  | S fuel =>
    if decide (p = ""%string) then mret (n, None) else
    '(w, _) ← get;
    let fill := (cap w - str_len (buf w)) `min` str_len p in
    on_writer (set_buf (buf w +:+ str_take fill p)) ≫= λ _,
    '(w, _) ← get;
    if decide (cap w ≤ str_len (buf w))%nat then
      e ← hook (flush (buf w));
      match e with
      | inr e => mret (n + fill, Some e)%nat
      | inl _ => on_writer (set_buf "") ≫= λ _, Write_loop fuel (str_drop fill p) (n + fill)
      end
    else Write_loop fuel (str_drop fill p) (n + fill)
  end.
Definition Write (p : string) : st W (nat * option error) := Write_loop (str_len p + 2) p 0.

Definition Close : st W unit :=
  '(w, _) ← get;
  e ← hook (flush (buf w));
  match e with
  | inr e => fail e
  | inl _ =>
    on_writer (set_buf "") ≫= λ _,
    e ← hook wrapup;
    match e with inr e => fail e | inl _ => mret tt end
  end.
End writer.

(** ** Tables (table.go) *)

Section tables.
Context `{Outside D}.

Definition has_stmt (table : string) : string := "SELECT 1 FROM " +:+ table +:+ " LIMIT 1".
Definition hasTable (table : string) : st D unit :=
  wrapS "hasTable %s failed: %v" [table] (Exec (has_stmt table)).

Definition create_stmt (DriverName table : string) : option string :=
  let create columns := "CREATE TABLE IF NOT EXISTS " +:+ table +:+ " " +:+ columns in
  let quoted c := char1 (of_byte 34) +:+ c +:+ char1 (of_byte 34) in
  if decide (DriverName = "mysql"%string) then
    Some (create "(id INT, block TEXT, PRIMARY KEY (id))")
  else if decide (DriverName = "hive"%string) then
    Some (create ("(id INT, block STRING) ROW FORMAT DELIMITED FIELDS TERMINATED BY "
                  +:+ quoted "\001" +:+ " STORED AS TEXTFILE"))
  else if decide (DriverName = "maxcompute"%string) then
    Some (create "(id INT, block STRING)")
  else None.

(** [hasTable] gives false only with an error, so that [!has] is never reached. *)
Definition createTable (DriverName table : string) : st D unit :=
  match create_stmt DriverName table with
  | None => fail (Errorf "createTable doesn't recognize dbms %s" [DriverName])
  | Some stmt =>
    wrapS "exec:[%s] failed: %v" [stmt] (Exec stmt) ≫= λ _,
    wrapS "createTable cannot verify the creation: %v" [] (hasTable table)
  end.

Definition drop_stmt (table : string) : string := "DROP TABLE IF EXISTS " +:+ table +:+ ";".
Definition dropTableIfExists (table : string) : st D unit :=
  wrapS "dropTableIfExists %s: %v" [table] (Exec (drop_stmt table)).

(** ** The SQL writer (sql_writer.go) *)

(** The hook's state: the counter and the world. *)
Definition at_world {A} (m : st D A) : st (Z * D) A := λ '(row, d), let '(r, d) := m d in (r, (row, d)).
Definition next_row : st (Z * D) unit := λ '(row, d), (Ok tt, (wrap64 (row + 1), d)).

Definition insert_block (table : string) (row : Z) (block : string) : string :=
  "INSERT INTO " +:+ table +:+ " (id, block) VALUES(" +:+ pretty row +:+ ", '" +:+ block +:+ "')".

(** [db] is whether the pointer to the database is not nil. *)
Definition flushToSQLTable (db : bool) (table : string) (b : string) : st (Z * D) unit :=
  if negb db then fail (Errorf "flushToSQLTable: no database connection" [])
  else if decide (0 < str_len b)%nat then
    '(row, _) ← get;
    wrapS "cannot flush to table %s: %v" [table] (at_world (Exec (insert_block table row (EncodeToString b)))) ≫= λ _,
    next_row
  else mret tt.

Definition noopWrapUp {S} : st S unit := mret tt.

(** The new table; the writer is [flushWriteCloser] on [flushToSQLTable true table], with the
    counter at 0. *)
Definition prepare_table (DriverName table : string) : st D unit :=
  wrapS "cannot drop table %s: %v" [table] (dropTableIfExists table) ≫= λ _,
  wrapS "cannot create table %s: %v" [table] (createTable DriverName table).
Definition newSQLWriter (DriverName table : string) (bufSize : nat) : st D flushWriteCloser :=
  prepare_table DriverName table ≫= λ _, mret (newFlushWriteCloser bufSize).

(** ** The Hive writer (hive_writer.go) *)

Definition csv_line (row : Z) (block : string) : string :=
  pretty row +:+ char1 (of_byte 1) +:+ block +:+ char1 (of_byte 10).

Definition flushToCSV (b : string) : st (Z * D) unit :=
  if decide (0 < str_len b)%nat then
    '(row, _) ← get;
    wrapS "cannot flush to CSV, %v" [] (at_world (WriteCSV (csv_line row (EncodeToString b)))) ≫= λ _,
    next_row
  else mret tt.

(** The command and what it adds to the environment. *)
Definition hdfsCmd (cmd user passwd namenodeAddr : string) : list string * list string :=
  let env := if decide (user = ""%string) then []
             else ["HADOOP_USER_NAME=" +:+ user; "HADOOP_USER_PASSWORD=" +:+ passwd] in
  let cmdStr := if decide (namenodeAddr = ""%string) then "hdfs dfs"%string
                else "hdfs dfs -fs hdfs://" +:+ namenodeAddr in
  (env, Split (cmdStr +:+ " " +:+ cmd) " ").

(** [path] is [path.Join(hivePath, table)]. *)
Definition uploadCSVFile (path table user passwd namenodeAddr : string) : st (Z * D) unit :=
  let run c := let '(env, args) := hdfsCmd c user passwd namenodeAddr in at_world (RunHdfs env args) in
  defer (at_world CloseCSV)
    (wrapS "failed %s: %v" [] (run ("-mkdir -p " +:+ path)) ≫= λ _,
     defer (run ("-rm -r -f " +:+ path))
       (wrapS "failed %s: %v" [] (run ("-copyFromLocal " +:+ csv_Name +:+ " " +:+ path)) ≫= λ _,
        at_world (Exec ("LOAD DATA INPATH '" +:+ path +:+ "' OVERWRITE INTO TABLE " +:+ table)))).

(** [params] is the error of [getHdfsParams], which reads the data source's URL, [tmp] that of
    creating the CSV file. *)
Definition newHiveWriter (params tmp : option error) (DriverName table : string) (bufSize : nat)
    : st D flushWriteCloser :=
  match params with
  | Some e => fail e
  | None =>
    prepare_table DriverName table ≫= λ _,
    match tmp with
    | Some e => wrapS "cannot create CSV file: %v" [] (fail e)
    | None => mret (newFlushWriteCloser bufSize)
    end
  end.

(** ** The reader (reader.go) *)

Record reader := mkReader {
  is_open : bool;  (* [r.db != nil] *)
  r_table : string;
  r_buf : string;
  fragments : list (Z * string);
  fragmentIdx : nat;
  rowIdx : Z;
  rowBufSize : Z
}.
Definition set_r_buf (b : string) (r : reader) : reader :=
  mkReader (is_open r) (r_table r) b (fragments r) (fragmentIdx r) (rowIdx r) (rowBufSize r).
Definition set_fragments (l : list (Z * string)) (i : nat) (row : Z) (r : reader) : reader :=
  mkReader (is_open r) (r_table r) (r_buf r) l i row (rowBufSize r).
Definition on_reader (f : reader → reader) : st (reader * D) unit := λ '(r, d), (Ok tt, (f r, d)).

Definition EOF : error := Errorf "EOF" [].

Definition select_blocks (table : string) (lo hi : Z) : string :=
  "SELECT id,block FROM " +:+ table +:+ " WHERE id>=" +:+ pretty lo +:+ " AND id<" +:+ pretty hi +:+ ";".

(** Of fragments with the same number any order is refused. *)
Definition by_id (f g : Z * string) : Prop := (f.1 ≤ g.1)%Z.
#[export] Instance by_id_dec f g : Decision (by_id f g).
Proof. unfold by_id. apply _. Defined.

(** [rows.Err] is not asked: a result that broke off counts as complete. *)
Definition readNextFragments : st (reader * D) unit :=
  '(r, _) ← get;
  let invalid := Errorf "invalid sqlfs db table %s" [r_table r] in
  '(rows, _) ← (λ '(r, d), let '(rows, d) :=
    SelectBlocks (select_blocks (r_table r) (rowIdx r) (wrap64 (rowIdx r + rowBufSize r))) d in (rows, (r, d)));
  if (rowBufSize r <? Z.of_nat (length rows))%Z then fail invalid else
  let fs := merge_sort by_id rows in
  if forallb (λ '(i, f), (f.1 =? wrap64 (Z.of_nat i + rowIdx r))%Z) (imap pair fs) then
    on_reader (set_fragments fs 0 (wrap64 (rowIdx r + Z.of_nat (length fs))))
  else fail invalid.

Definition reset : st (reader * D) unit := on_reader (λ r, set_fragments [] 0 (rowIdx r) r).

Definition nextBlock : st (reader * D) string :=
  '(r, _) ← get;
  let take_block :=
    '(r, _) ← get;
    if decide (fragments r = []) then reset ≫= λ _, fail EOF else
    f ← lift (index (fragments r) (fragmentIdx r));
    on_reader (set_fragments (fragments r) (S (fragmentIdx r)) (rowIdx r)) ≫= λ _, mret f.2 in
  if decide (fragmentIdx r = length (fragments r)) then
    if ((0 <? rowIdx r) && (Z.of_nat (length (fragments r)) <? rowBufSize r))%Z then
      reset ≫= λ _, fail EOF
    else readNextFragments ≫= λ _, take_block
  else take_block.

Definition Open (table : string) (rowBufSize : Z) : st D reader :=
  catchS (hasTable table) (λ _, fail (Errorf "open: table %s doesn't exist" [table])) ≫= λ _,
  if (rowBufSize <=? 0)%Z then fail (Errorf "rowBufSize must be larger than 0" [])
  else mret (mkReader true table "" [] 0 0 rowBufSize).

(** [Read(p)] with [len(p) = k]: the bytes copied to [p], and the error. *)
Fixpoint Read_loop (fuel k : nat) (out : string) : st (reader * D) (string * option error) :=
  match fuel with
  | O => lift NoFuel
  | S fuel =>
    if decide (str_len out < k)%nat then
      '(r, _) ← get;
      let m := (k - str_len out) `min` str_len (r_buf r) in
      let out := out +:+ str_take m (r_buf r) in
      let rest := str_drop m (r_buf r) in
      on_reader (set_r_buf rest) ≫= λ _,
      if decide (rest = ""%string) then
        blk ← attempt nextBlock;
        match blk with
        | inr e => mret (out, Some e)
        | inl blk =>
          let '(b, e) := DecodeString blk in
          on_reader (set_r_buf b) ≫= λ _,
          match e with Some e => mret (out, Some e) | None => Read_loop fuel k out end
        end
      else Read_loop fuel k out
    else mret (out, None)
  end.
Definition Read (fuel k : nat) : st (reader * D) (string * option error) :=
  '(r, _) ← get;
  if is_open r then
    '(out, e) ← Read_loop fuel k "";
    if decide (e = Some EOF ∧ (0 < str_len out)%nat) then mret (out, None) else mret (out, e)
  else mret (""%string, Some (Errorf "read from a closed reader" [])).

Definition Close_reader : st (reader * D) unit :=
  on_reader (λ r, mkReader false (r_table r) (r_buf r) (fragments r) (fragmentIdx r) (rowIdx r) (rowBufSize r)).
End tables.

(** [io.Copy] from the reader, with a buffer of [k] bytes: all that was read. *)
Fixpoint Copy (fuel k : nat) {D} `{Outside D} : st (reader * D) string :=
  match fuel with
  | O => lift NoFuel
  | S fuel =>
    '(out, e) ← Read (k + 2) k;
    match e with
    | None => rest ← Copy fuel k; mret (out +:+ rest)
    | Some e => if decide (e = EOF) then mret out else fail e
    end
  end.

(** ** Creating a file (writer.go) *)

Definition bufSize : nat := Z.to_nat (32 * 1024).

Definition Create `{Outside D} (params tmp : option error) (DriverName table : string) : st D flushWriteCloser :=
  if decide (DriverName = "hive"%string) then newHiveWriter params tmp DriverName table bufSize
  else newSQLWriter DriverName table bufSize.

(** ** What a hook promises to the writer

    [holds d bs]: the state [d] of the hook has stored the blocks [bs].  An empty buffer
    stores nothing, and neither does a call that fails. *)

Definition nonempty (b : string) : list string := if decide (b = ""%string) then [] else [b].

Class BlockSink {D} (flush : string → st D unit) := {
  holds : D → list string → Prop;
  sink_ok b d d' bs : holds d bs → flush b d = (Ok tt, d') → holds d' (bs ++ nonempty b);
  sink_fail b d d' bs e : holds d bs → flush b d = (Fail e, d') → holds d' bs;
  sink_fine b d bs : holds d bs → fine (flush b d).1
}.

(** The blocks of a file: all of them as long as the buffer, up to the last one. *)
Fixpoint chunks_fuel (fuel n : nat) (s : string) : list string :=
  match fuel with
  | O => []
  | S fuel => if decide (s = ""%string) then [] else str_take n s :: chunks_fuel fuel n (str_drop n s)
  end.
Definition chunks (n : nat) (s : string) : list string := chunks_fuel (str_len s) n s.

(** Several writes, up to the first error, as [io.Copy] does them. *)
Definition Writes {D} (flush : string → st D unit) : list string → st (flushWriteCloser * D) unit :=
  eachS (λ p, '(_, e) ← Write flush p; match e with Some e => fail e | None => mret tt end).

Lemma str_concat_nonempty b : str_concat (nonempty b) = b.
Proof. unfold nonempty. case_decide as Hb; [done|]. apply str_app_nil_r. Qed.

Lemma chunks_fuel_enough k n s :
  (0 < n)%nat → (str_len s ≤ k)%nat → chunks_fuel k n s = chunks_fuel (str_len s) n s.
Proof.
  intros Hn. revert s. assert (∀ m k s, (str_len s ≤ m)%nat → (str_len s ≤ k)%nat →
    chunks_fuel k n s = chunks_fuel (str_len s) n s) as Hgen; [|by intros; eapply Hgen].
  clear k. induction m as [|m IH]; intros k s Hm Hk.
  - destruct s; [by destruct k|simpl in Hm; lia].
  - destruct (decide (s = ""%string)) as [->|Hs]; [by destruct k|].
    destruct k as [|k]; [destruct s; simpl in *; (done || lia)|].
    destruct (str_len s) as [|j] eqn:Hj; [by apply str_length_nil in Hj|]. cbn [chunks_fuel].
    rewrite !decide_False by done. apply (f_equal (cons _)).
    assert (str_len (str_drop n s) ≤ j)%nat by (rewrite str_length_drop; lia).
    trans (chunks_fuel (str_len (str_drop n s)) n (str_drop n s)); [|symmetry]; by apply IH; lia.
Qed.

Lemma chunks_cons n b s :
  (0 < n)%nat → str_len b = n → chunks n (b +:+ s) = b :: chunks n s.
Proof.
  intros Hn Hb. unfold chunks. rewrite str_length_app. destruct n as [|n]; [lia|].
  rewrite Hb. cbn [Nat.add chunks_fuel]. rewrite decide_False by (by destruct b).
  rewrite str_take_app, str_drop_app by done. f_equal. apply chunks_fuel_enough; lia.
Qed.

Lemma chunks_last n b : (str_len b < n)%nat → chunks n b = nonempty b.
Proof.
  intros Hb. unfold chunks, nonempty. destruct (str_len b) as [|j] eqn:Hj.
  - by apply str_length_nil in Hj as ->.
  - cbn [chunks_fuel]. case_decide; [done|].
    rewrite str_take_ge, str_drop_ge by lia. by destruct j.
Qed.

Lemma chunks_unique n bs b :
  (0 < n)%nat → Forall (λ c, str_len c = n) bs → (str_len b < n)%nat →
  chunks n (str_concat bs +:+ b) = bs ++ nonempty b.
Proof.
  intros Hn Hbs Hb. induction Hbs as [|c bs Hc _ IH]; [by apply chunks_last|].
  by rewrite str_concat_cons, <- str_app_assoc, chunks_cons, IH by done.
Qed.

Lemma str_take_add m k s : (str_take m s +:+ str_take k (str_drop m s))%string = str_take (m + k) s.
Proof. revert s. induction m as [|m IH]; intros [|c s]; simpl; [by destruct k..|by destruct k|by rewrite IH]. Qed.

Section writer_facts.
Context {D : Type} (flush : string → st D unit) `{!BlockSink flush}.

Definition writer_ok (w : flushWriteCloser) : Prop := (0 < cap w)%nat ∧ (str_len (buf w) ≤ cap w)%nat.

Definition full (w : flushWriteCloser) : Prop := str_len (buf w) = cap w.

(** A run took [t] from its input and stored the blocks [new]. *)
Definition wrote (w : flushWriteCloser) (t : string) (w' : flushWriteCloser) (new : list string) : Prop :=
  cap w' = cap w ∧ (str_len (buf w') ≤ cap w)%nat ∧
  (buf w +:+ t)%string = (str_concat new +:+ buf w')%string ∧ Forall (λ c, str_len c = cap w) new.

Lemma wrote_trans w t w1 n1 u w2 n2 :
  wrote w t w1 n1 → wrote w1 u w2 n2 → wrote w (t +:+ u) w2 (n1 ++ n2).
Proof.
  intros (C1 & L1 & E1 & F1) (C2 & L2 & E2 & F2). rewrite C1 in *. split_and!; [congruence|done| |].
  - by rewrite str_app_assoc, E1, <- str_app_assoc, E2, str_app_assoc, str_concat_app.
  - by apply Forall_app.
Qed.

Lemma wrote_refl w : (str_len (buf w) ≤ cap w)%nat → wrote w "" w [].
Proof. intros Hl. split_and!; try done. by rewrite str_app_nil_r. Qed.

Lemma wrote_buffered w t :
  (str_len (buf w +:+ t) ≤ cap w)%nat → wrote w t (set_buf (buf w +:+ t) w) [].
Proof. intros Hl. by split_and!. Qed.

Lemma wrote_flushed w t :
  str_len (buf w +:+ t) = cap w → wrote w t (set_buf "" w) [(buf w +:+ t)%string].
Proof.
  intros Hl. split_and!; [done|simpl; lia|simpl; by rewrite !str_app_nil_r|by repeat constructor].
Qed.

(** One round of [Write_loop], as the code reads. *)
Lemma Write_round fuel p n w d bs :
  p ≠ ""%string → holds d bs →
  let fill := ((cap w - str_len (buf w)) `min` str_len p)%nat in
  let b := (buf w +:+ str_take fill p)%string in
  Write_loop flush (S fuel) p n (w, d) =
    if decide (cap w ≤ str_len b)%nat then
      match flush b d with
      | (Fail e, d') => (Ok (n + fill, Some e)%nat, (set_buf b w, d'))
      | (_, d') => Write_loop flush fuel (str_drop fill p) (n + fill) (set_buf "" w, d')
      end
    else Write_loop flush fuel (str_drop fill p) (n + fill) (set_buf b w, d).
Proof.
  intros Hp Hh fill b. cbn [Write_loop]. rewrite decide_False by done.
  cbv [mbind st_bind get on_writer hook attempt mret st_ret]. fold fill. fold b. cbn [buf cap set_buf].
  destruct (decide _); [|done]. pose proof (sink_fine b d bs Hh) as Hf.
  by destruct (flush b d) as [[[]|e| |] d'].
Qed.

Definition rounds (w : flushWriteCloser) (p : string) : nat :=
  (str_len p + if decide (full w) then 2 else 1)%nat.

Lemma Write_loop_spec fuel p n w d bs :
  writer_ok w → holds d bs → (rounds w p ≤ fuel)%nat →
  ∃ k e w' d' new, Write_loop flush fuel p n (w, d) = (Ok ((n + k)%nat, e), (w', d')) ∧ (k ≤ str_len p)%nat ∧
    wrote w (str_take k p) w' new ∧ holds d' (bs ++ new) ∧
    (e = None → k = str_len p ∧ (full w' → full w)).
Proof.
  revert p n w d bs. induction fuel as [|fuel IH]; intros p n w d bs [Hc Hl] Hh Hf; unfold rounds in Hf.
  { case_decide; lia. }
  destruct (decide (p = ""%string)) as [->|Hp].
  { exists 0%nat, None, w, d, []. rewrite Nat.add_0_r, app_nil_r.
    split; [done|]. split; [done|]. split; [by apply wrote_refl|done]. }
  set (fill := ((cap w - str_len (buf w)) `min` str_len p)%nat).
  assert (0 < str_len p)%nat by (destruct p; [done|simpl; lia]).
  set (b := (buf w +:+ str_take fill p)%string).
  assert (str_len b = (str_len (buf w) + fill)%nat) as Hb.
  { unfold b. rewrite str_length_app, str_length_take. lia. }
  rewrite (Write_round _ _ _ _ _ bs) by done. cbv zeta. fold fill. fold b. destruct (decide (cap w ≤ str_len b)%nat) as [Hfull|Hfull].
  - assert (str_len b = cap w) as Hbc by lia. pose proof (sink_fine b d bs Hh) as Hfine.
    destruct (flush b d) as [[[]|er| |] d'] eqn:Hr; try done.
    + pose proof (sink_ok _ _ _ _ Hh Hr) as Hh'. unfold nonempty in Hh'.
      rewrite decide_False in Hh' by (intros ->; simpl in *; lia).
      destruct (IH (str_drop fill p) (n + fill)%nat (set_buf "" w) d' (bs ++ [b]))
        as (k & e & w' & d2 & new & -> & Hk & Hw & Hh2 & He).
      { split; simpl; lia. }
      { done. }
      { unfold rounds, full in *. cbn [set_buf buf cap str_len]. rewrite decide_False by lia.
        rewrite str_length_drop. case_decide; lia. }
      rewrite str_length_drop in Hk, He.
      exists (fill + k)%nat, e, w', d2, ([b] ++ new). rewrite Nat.add_assoc, app_assoc. split_and!; [done|lia| |done|].
      * replace (str_take (fill + k) p) with (str_take fill p +:+ str_take k (str_drop fill p))%string.
        { eapply wrote_trans; [by apply wrote_flushed|done]. }
        apply str_take_add.
      * intros ->. destruct (He eq_refl) as [-> Hfu]. split; [lia|]. unfold full in *. cbn in Hfu. intros Hx.
        apply Hfu in Hx. lia.
    + pose proof (sink_fail _ _ _ _ _ Hh Hr). exists fill, (Some er), (set_buf b w), d', []. rewrite app_nil_r. split_and!; [done|lia| |done|done].
      apply wrote_buffered. fold b. lia.
  - destruct (IH (str_drop fill p) (n + fill)%nat (set_buf b w) d bs) as (k & e & w' & d2 & new & -> & Hk & Hw & Hh2 & He).
    + split; simpl; lia.
    + done.
    + unfold rounds, full in *. cbn [set_buf buf cap]. rewrite decide_False by lia.
      rewrite str_length_drop. case_decide; lia.
    + assert (str_drop fill p = ""%string) as Hd by (apply str_drop_ge; lia).
      rewrite Hd in *. exists fill, e, w', d2, new. cbn in Hk. replace k with 0%nat in * by lia.
      rewrite Nat.add_0_r. split_and!; [done|lia| |done|].
      * rewrite <- (str_app_nil_r (str_take fill p)). change new with ([] ++ new).
        eapply wrote_trans; [apply wrote_buffered; fold b; lia|done].
      * intros ->. destruct (He eq_refl) as [_ Hfu]. split; [lia|]. unfold full in *. cbn in Hfu. intros Hx.
        apply Hfu in Hx. lia.
Qed.

(** What the writer has taken: what is stored, then the buffer. *)
Definition contents (w : flushWriteCloser) (bs : list string) : string := str_concat bs +:+ buf w.

(** C25: [Write] behaves as an append to the file, whatever its hook does: it always returns, it
    counts the bytes that it took, all of them unless it reports an error, and the file is what
    it was with these bytes behind it, also after a flush that failed.  Every block that is
    stored has exactly the size of the buffer, which is never exceeded. *)
Theorem Write_refines (p : string) (w : flushWriteCloser) (d : D) (bs : list string) :
  writer_ok w → holds d bs →
  ∃ n e w' d' new, Write flush p (w, d) = (Ok (n, e), (w', d')) ∧ (n ≤ str_len p)%nat ∧
    (e = None → n = str_len p) ∧ writer_ok w' ∧ cap w' = cap w ∧ holds d' (bs ++ new) ∧
    Forall (λ b, str_len b = cap w) new ∧ contents w' (bs ++ new) = (contents w bs +:+ str_take n p)%string.
Proof.
  intros Hw Hh. destruct (Write_loop_spec (str_len p + 2) p 0 w d bs Hw Hh)
    as (n & e & w' & d' & new & Hr & Hn & (Hcap & Hlen & He & Hf) & Hh' & Hnone).
  { unfold rounds. case_decide; lia. }
  exists n, e, w', d', new. split_and!; try done.
  - intros ->. by apply Hnone.
  - destruct Hw. split; [by rewrite Hcap|by rewrite Hcap].
  - unfold contents. by rewrite str_concat_app, <- !str_app_assoc, He.
Qed.

(** A writer that no error has stopped. *)
Lemma Writes_spec ps w d bs wd' :
  writer_ok w → ¬ full w → holds d bs → Writes flush ps (w, d) = (Ok tt, wd') →
  ∃ new, wrote w (str_concat ps) wd'.1 new ∧ holds wd'.2 (bs ++ new) ∧ writer_ok wd'.1 ∧ ¬ full wd'.1.
Proof.
  revert w d bs. induction ps as [|p ps IH]; intros w d bs Hw Hnf Hh.
  - intros (_ & <-)%mret_Ok. exists []. rewrite app_nil_r. split_and!; try done.
    apply wrote_refl. by destruct Hw.
  - unfold Writes. cbn [eachS]. intros (u & wd1 & ([n e] & wd2 & H1 & H2)%st_bind_Ok & H3)%st_bind_Ok.
    destruct e; [done|]. apply mret_Ok in H2 as [_ ->].
    destruct (Write_loop_spec (str_len p + 2) p 0 w d bs Hw Hh)
      as (k & e & w' & d' & new & Hr & Hn & Hwr & Hh' & Hnone).
    { unfold rounds. case_decide; lia. }
    unfold Write in H1. rewrite Hr in H1. injection H1 as _ -> <-. destruct (Hnone eq_refl) as [-> Hfu].
    rewrite str_take_ge in Hwr by lia.
    assert (writer_ok w') as Hw' by (destruct Hw, Hwr as (Hc & ? & _); split; by rewrite Hc).
    destruct (IH w' d' (bs ++ new)) as (new2 & Hwr2 & Hh2 & Hok); [done|tauto|done|done|].
    exists (new ++ new2). rewrite app_assoc. split; [by eapply wrote_trans|done].
Qed.

(** Closing after writes of which none failed. *)
Lemma Close_after (wrapup : st D unit) (s : string) (n : nat) (d d2 : D) (w w2 : flushWriteCloser) bs :
  (0 < n)%nat → wrote (newFlushWriteCloser n) s w bs → ¬ full w → holds d bs →
  Close flush wrapup (w, d) = (Ok tt, (w2, d2)) →
  ∃ d1, holds d1 (chunks n s) ∧ wrapup d1 = (Ok tt, d2).
Proof.
  intros Hn (Hcap & Hlen & He & Hf) Hnf Hh Hc. cbn in *.
  unfold Close in Hc. revert Hc. cbv [mbind st_bind get hook attempt on_writer].
  pose proof (sink_fine (buf w) d bs Hh) as Hfine.
  destruct (flush (buf w) d) as [[[]|er| |] d3] eqn:Hr; try done.
  destruct (wrapup d3) as [[[]|er| |] d4] eqn:Hr2; try done. intros [= _ <-].
  exists d3. split; [|done]. rewrite He, chunks_unique; [by eapply sink_ok|done|done|].
  unfold full in Hnf. lia.
Qed.
Lemma Close_spec (wrapup : st D unit) (ps : list string) (n : nat) (d d2 : D) (w2 : flushWriteCloser) wd :
  (0 < n)%nat → holds d [] → Writes flush ps (newFlushWriteCloser n, d) = (Ok tt, wd) →
  Close flush wrapup wd = (Ok tt, (w2, d2)) →
  ∃ d1, holds d1 (chunks n (str_concat ps)) ∧ wrapup d1 = (Ok tt, d2).
Proof.
  intros Hn Hh Hws Hc.
  destruct (Writes_spec _ _ _ _ _ (conj Hn (Nat.le_0_l _) : writer_ok (newFlushWriteCloser n)) ltac:(unfold full; simpl; lia) Hh Hws)
    as (new & Hw & Hh1 & Hw1 & Hnf).
  destruct wd as [w1 d1]. by eapply Close_after.
Qed.

(** What ends up in the hook does not depend on how the data is cut into writes: after
    writes of which none failed and a [Close], the hook has the data in blocks of the size of
    the buffer, a shorter one at the end if need be, and none for no data. *)
Theorem Close_chunks (wrapup : st D unit) (ps : list string) (n : nat) (d d2 : D) (w2 : flushWriteCloser) wd :
  (0 < n)%nat → holds d [] → Writes flush ps (newFlushWriteCloser n, d) = (Ok tt, wd) →
  Close flush wrapup wd = (Ok tt, (w2, d2)) →
  ∃ d1, holds d1 (chunks n (str_concat ps)) ∧ wrapup d1 = (Ok tt, d2).
Proof. apply Close_spec. Qed.
End writer_facts.
