(* ===== verification/SqlfsFile.v ===== *)
(** * What is written to a table is read back (go/sqlfs)

    The promises of the database that the table file system relies on are the class
    [BlockDB]; the SQL writer's hook is a [BlockSink] because of them.  The reader refines a
    file with a position ([Read_refines]), and what the writer wrote is what the reader
    reads ([sqlfs_roundtrip]).  [memory_db] is a database that keeps its tables in memory
    and reads the statements that the program sends. *)

From S2P Require Import Prelude GoStrings GoState Base64 Sqlfs.

Local Open Scope Z_scope.

(** ** What the database promises

    [table_rows t d] is the content of the table [t], if there is one.  The laws are those of
    SQL for the statements of go/sqlfs: DROP TABLE removes a table, CREATE TABLE gives an
    empty one where there was none (MySQL may accept the statement and not create it),
    SELECT 1 fails for a missing table, INSERT adds a row or fails without an effect, and the
    SELECT with bounds gives the rows within them, in any order, or some of them if the
    result breaks off, which [rows.Err] tells. *)

Definition table_char (c : ascii) : bool :=
  let b := byte c in
  ascii_lower_letter b || ascii_upper_letter b || ascii_digit b || (b =? 95) || (b =? 46).
Definition table_name (t : string) : bool := str_forall table_char t.

Class BlockDB (D : Type) `{Outside D} := {
  table_rows : string → D → option (list (Z * string));
  exec_fine q d : fine (Exec q d).1;
  drop_law t d d' : table_name t = true → Exec (drop_stmt t) d = (Ok tt, d') → table_rows t d' = None;
  create_law driver t stmt d d' :
    table_name t = true → create_stmt driver t = Some stmt → Exec stmt d = (Ok tt, d') →
    table_rows t d = None → table_rows t d' = None ∨ table_rows t d' = Some [];
  has_law t d d' : table_name t = true → Exec (has_stmt t) d = (Ok tt, d') → d' = d ∧ is_Some (table_rows t d);
  insert_law t row block l d d' :
    table_name t = true → int64_range row → str_forall b64_output block = true → table_rows t d = Some l →
    Exec (insert_block t row block) d = (Ok tt, d') → table_rows t d' = Some (l ++ [(row, block)]);
  insert_fail t row block d d' e :
    table_name t = true → int64_range row → str_forall b64_output block = true →
    Exec (insert_block t row block) d = (Fail e, d') → table_rows t d' = table_rows t d;
  select_law t lo hi d : table_name t = true → int64_range lo → int64_range hi →
    ∃ r, SelectBlocks (select_blocks t lo hi) d = (r, d) ∧ fine r ∧
      ∀ rows err l, r = Ok (rows, err) → table_rows t d = Some l →
        rows ⊆+ filter (λ f, lo ≤ f.1 < hi) l ∧ (err = None → rows ≡ₚ filter (λ f, lo ≤ f.1 < hi) l)
}.

(** The rows of a file. *)
Definition file_rows (bs : list string) : list (Z * string) :=
  imap (λ i b, (wrap64 (Z.of_nat i), EncodeToString b)) bs.

(** ** The SQL writer's hook *)

Lemma file_rows_snoc bs b :
  file_rows (bs ++ [b]) = file_rows bs ++ [(wrap64 (Z.of_nat (length bs)), EncodeToString b)].
Proof. unfold file_rows. rewrite imap_app. cbn. by rewrite Nat.add_0_r. Qed.

Lemma wrap64_succ z : wrap64 (wrap64 z + 1) = wrap64 (z + 1).
Proof.
  unfold wrap64. f_equal.
  replace ((z + 2 ^ 63) `mod` 2 ^ 64 - 2 ^ 63 + 1 + 2 ^ 63) with ((z + 2 ^ 63) `mod` 2 ^ 64 + 1) by lia.
  rewrite Zplus_mod_idemp_l. f_equal. lia.
Qed.

Section sink.
Context `{BlockDB D} (table : string) (Htable : table_name table = true).

Program Instance sql_sink : BlockSink (flushToSQLTable true table) := {
  holds rd bs := rd.1 = wrap64 (Z.of_nat (length bs)) ∧ table_rows table rd.2 = Some (file_rows bs)
}.
Next Obligation.
  intros b [row d] d' bs [Hrow Hrows]. unfold flushToSQLTable, nonempty. cbn [negb fst snd] in *.
  destruct (decide (b = ""%string)) as [->|Hb].
  - rewrite decide_False by (simpl; lia). intros [_ <-]%mret_Ok. by rewrite app_nil_r.
  - rewrite decide_True by (destruct b; [done|simpl; lia]).
    intros ([row' d1] & s1 & Hg & ([] & [row2 d2] & He%wrapS_Ok & Hn)%st_bind_Ok)%st_bind_Ok.
    injection Hg as <- <- <-. unfold at_world in He.
    destruct (Exec _ d) as [r d3] eqn:Hex. injection He as -> <- <-. injection Hn as <-. cbn.
    rewrite length_app. cbn. split.
    + rewrite Hrow, wrap64_succ. f_equal. lia.
    + rewrite file_rows_snoc, <- Hrow. eapply insert_law; try done; [rewrite Hrow; apply wrap64_range|apply EncodeToString_output].
Qed.
Next Obligation.
  intros b [row d] d' bs e [Hrow Hrows]. unfold flushToSQLTable. cbn [negb fst snd] in *.
  case_decide; [|done]. unfold mbind, st_bind, get, wrapS, catchS, at_world.
  destruct (Exec _ d) as [[[]|er| |] d3] eqn:Hex; try done. intros [= _ <-]. cbn. split; [done|].
  assert (int64_range row) as Hi by (rewrite Hrow; apply wrap64_range).
  by rewrite (insert_fail _ _ _ _ _ _ Htable Hi (EncodeToString_output _) Hex).
Qed.
Next Obligation.
  intros b [row d] bs _. unfold flushToSQLTable. cbn [negb]. case_decide; [|done].
  unfold mbind, st_bind, get, wrapS, catchS, at_world. pose proof (exec_fine (insert_block table row (EncodeToString b)) d).
  destruct (Exec _ d) as [[[]|er| |] d3]; done.
Qed.
End sink.

(** ** The reader *)

Lemma file_rows_lookup bs i :
  Z.of_nat (length bs) < 2 ^ 63 → file_rows bs !! i = (λ b, (Z.of_nat i, EncodeToString b)) <$> bs !! i.
Proof.
  intros Hl. unfold file_rows. rewrite list_lookup_imap. destruct (bs !! i) as [b|] eqn:Hb; [|done].
  apply lookup_lt_Some in Hb. cbn. rewrite wrap64_id; [done|]. unfold int64_range, min_int64, max_int64. lia.
Qed.

Lemma file_rows_length bs : length (file_rows bs) = length bs.
Proof. apply length_imap. Qed.

(** The rows from number [m] on, at most [n] of them. *)
Definition batch (bs : list string) (m n : nat) : list (Z * string) := take n (drop m (file_rows bs)).

Lemma batch_lookup bs m n i :
  Z.of_nat (length bs) < 2 ^ 63 → (i < n)%nat →
  batch bs m n !! i = (λ b, (Z.of_nat (m + i), EncodeToString b)) <$> bs !! (m + i)%nat.
Proof.
  intros Hl Hi. unfold batch. rewrite lookup_take_lt, lookup_drop by done. by apply file_rows_lookup.
Qed.

Lemma batch_index bs m n i x :
  Z.of_nat (length bs) < 2 ^ 63 → batch bs m n !! i = Some x →
  (i < n)%nat ∧ ∃ b, bs !! (m + i)%nat = Some b ∧ x = (Z.of_nat (m + i), EncodeToString b).
Proof.
  intros Hl Hx. assert (i < n)%nat as Hi.
  { destruct (decide (i < n)%nat); [done|]. unfold batch in Hx. by rewrite lookup_take_ge in Hx by lia. }
  split; [done|]. rewrite batch_lookup in Hx by done.
  destruct (bs !! (m + i)%nat) as [b|]; [|done]. injection Hx as <-. by exists b.
Qed.

Lemma batch_elem bs m n x :
  Z.of_nat (length bs) < 2 ^ 63 →
  x ∈ batch bs m n ↔ x ∈ file_rows bs ∧ Z.of_nat m ≤ x.1 < Z.of_nat (m + n).
Proof.
  intros Hl. rewrite !list_elem_of_lookup. split.
  - intros (i & (Hi & b & Hb & ->)%batch_index); [|done]. cbn. split; [|lia].
    exists (m + i)%nat. by rewrite file_rows_lookup, Hb.
  - intros [(i & Hi) Hr]. rewrite file_rows_lookup in Hi by done. destruct (bs !! i) as [b|] eqn:Hb; [|done].
    injection Hi as <-. cbn in Hr. exists (i - m)%nat. rewrite batch_lookup by (done || lia).
    replace (m + (i - m))%nat with i by lia. by rewrite Hb.
Qed.

Lemma batch_NoDup bs m n : Z.of_nat (length bs) < 2 ^ 63 → NoDup (batch bs m n).
Proof.
  intros Hl. apply NoDup_alt. intros i j x (_ & b & _ & ->)%batch_index (_ & c & _ & [= H _])%batch_index; [|done..].
  lia.
Qed.

Lemma batch_sorted bs m n : Z.of_nat (length bs) < 2 ^ 63 → StronglySorted by_id (batch bs m n).
Proof.
  intros Hl.
  assert (∀ l o, (∀ i x, l !! i = Some x → x.1 = Z.of_nat (o + i)) → StronglySorted by_id l) as Hgen.
  { clear. induction l as [|x l IH]; intros o Ho; constructor.
    - apply (IH (S o)). intros i y Hy. rewrite (Ho (S i) y Hy). lia.
    - apply Forall_forall. intros y (i & Hi)%list_elem_of_lookup. unfold by_id.
      rewrite (Ho 0%nat x eq_refl), (Ho (S i) y Hi). lia. }
  apply (Hgen _ m). by intros i x (_ & b & _ & ->)%batch_index.
Qed.

#[local] Instance by_id_total : Total by_id.
Proof. intros x y. unfold by_id. lia. Qed.
#[local] Instance by_id_trans : Transitive by_id.
Proof. intros x y z. unfold by_id. lia. Qed.

Lemma filter_batch bs m n :
  Z.of_nat (length bs) < 2 ^ 63 →
  filter (λ f, Z.of_nat m ≤ f.1 < Z.of_nat (m + n)) (file_rows bs) ≡ₚ batch bs m n.
Proof.
  intros Hl. assert (NoDup (file_rows bs)) as Hnd.
  { assert (file_rows bs = batch bs 0 (length bs)) as ->; [|by apply batch_NoDup].
    unfold batch. rewrite drop_0, take_ge; [done|]. by rewrite file_rows_length. }
  apply NoDup_Permutation; [by apply NoDup_filter|by apply batch_NoDup|].
  intros x. rewrite list_elem_of_filter, batch_elem by done. tauto.
Qed.

(** However the database orders the rows, sorting gives the batch. *)
Lemma sort_batch bs m n rows :
  Z.of_nat (length bs) < 2 ^ 63 →
  rows ≡ₚ filter (λ f, Z.of_nat m ≤ f.1 < Z.of_nat (m + n)) (file_rows bs) →
  merge_sort by_id rows = batch bs m n.
Proof.
  intros Hl Hb. rewrite filter_batch in Hb by done.
  apply (StronglySorted_unique_strong by_id); [|apply (StronglySorted_merge_sort _)|by apply batch_sorted|].
  - intros x y Hx Hy H1 H2. rewrite merge_sort_Permutation, Hb in Hx.
    apply list_elem_of_lookup in Hx as (i & (_ & b & Hbi & ->)%batch_index); [|done].
    apply list_elem_of_lookup in Hy as (j & (_ & c & Hcj & ->)%batch_index); [|done].
    unfold by_id in *. cbn in *. assert (m + i = m + j)%nat as He by lia. rewrite He in *. congruence.
  - by rewrite merge_sort_Permutation.
Qed.

(** The check of the numbers after sorting. *)
Definition numbered (m : Z) (fs : list (Z * string)) : bool :=
  forallb (λ '(i, f), (f.1 =? wrap64 (Z.of_nat i + m))%Z) (imap pair fs).

Lemma numbered_lookup m fs i x : numbered m fs = true → fs !! i = Some x → x.1 = wrap64 (Z.of_nat i + m).
Proof.
  intros Hn Hi. unfold numbered in Hn. rewrite forallb_forall in Hn. apply Z.eqb_eq.
  apply (Hn (i, x)), list_elem_of_In, elem_of_lookup_imap. by exists i, x.
Qed.

(** Rows of the batch that have the numbers from [m] on are its first ones: a result that
    breaks off does not pass for another one, only for a shorter one. *)
Lemma numbered_batch bs m n fs :
  Z.of_nat (length bs) < 2 ^ 63 → Z.of_nat (m + length fs) < 2 ^ 63 →
  fs ⊆ batch bs m n → numbered (Z.of_nat m) fs = true →
  fs = batch bs m (length fs) ∧ (m + length fs ≤ m `max` length bs)%nat.
Proof.
  intros Hl Hlf Hsub Hnum.
  assert (∀ i x, fs !! i = Some x → ∃ b, bs !! (m + i)%nat = Some b ∧ x = (Z.of_nat (m + i), EncodeToString b)) as Hx.
  { intros i x Hi. pose proof (lookup_lt_Some _ _ _ Hi). pose proof (numbered_lookup _ _ _ _ Hnum Hi) as Hid.
    apply list_elem_of_lookup_2, Hsub, list_elem_of_lookup in Hi as [j Hj].
    apply batch_index in Hj as (_ & b & Hb & ->); [|done].
    cbn in Hid.
    rewrite wrap64_id in Hid by (unfold int64_range, min_int64, max_int64; lia).
    replace (m + i)%nat with (m + j)%nat by lia. by exists b. }
  split.
  - apply list_eq. intros i. destruct (fs !! i) as [x|] eqn:Hi.
    + pose proof (lookup_lt_Some _ _ _ Hi). destruct (Hx i x Hi) as (b & Hb & ->).
      by rewrite batch_lookup, Hb by (done || lia).
    + apply lookup_ge_None in Hi. unfold batch. by rewrite lookup_take_ge by lia.
  - destruct (decide (fs = [])) as [->|Hne]; [simpl; lia|].
    destruct (lookup_lt_is_Some_2 fs (length fs - 1)) as [x Hi]; [by destruct fs; [|simpl; lia]|].
    destruct (Hx _ _ Hi) as (b & Hb%lookup_lt_Some & _). lia.
Qed.

Lemma str_len_pos s : s ≠ ""%string → (0 < str_len s)%nat.
Proof. destruct s; [done|simpl; lia]. Qed.

Section reader_facts.
Context `{BlockDB D} (table : string) (Htable : table_name table = true).
Context (bs : list string) (Hne : Forall (λ b, b ≠ ""%string) bs).
Context (N : nat) (HN : (0 < N)%nat) (Hsmall : Z.of_nat (length bs) + Z.of_nat N < 2 ^ 63).
Context (d : D) (Hrows : table_rows table d = Some (file_rows bs)).

(** The error of a query. *)
Definition query_failed (e : error) : Prop :=
  e ≠ EOF ∧ ∃ lo hi, int64_range lo ∧ int64_range hi ∧ SelectBlocks (select_blocks table lo hi) d = (Fail e, d).

(** The result of some query breaks off ([rows.Err]), or a query fails with the error that
    stands for the end of a file. *)
Definition breaks_off : Prop :=
  ∃ lo hi r, int64_range lo ∧ int64_range hi ∧ SelectBlocks (select_blocks table lo hi) d = (r, d) ∧
    (r = Fail EOF ∨ ∃ rows e, r = Ok (rows, Some e)).

(** What is known of results that break off: with [False] for [broken], that there are none. *)
Context (broken : Prop) (Hbroken : breaks_off → broken).

(** The reader stands before block number [k]; its fragments are the rows from [lo] to [m].
    A batch that is not full is taken for the last one. *)
Definition at_block (r : reader) (k : nat) : Prop :=
  is_open r = true ∧ r_table r = table ∧ rowBufSize r = Z.of_nat N ∧
  ∃ lo m, rowIdx r = Z.of_nat m ∧ (lo ≤ m ≤ length bs)%nat ∧ fragments r = batch bs lo (m - lo) ∧
    (lo + fragmentIdx r)%nat = k ∧ (k ≤ m)%nat ∧ (m - lo ≤ N)%nat ∧
    ((m - lo < N)%nat → (0 < m)%nat → m = length bs ∨ broken).

Lemma batch_length lo n : (lo + n ≤ length bs)%nat → length (batch bs lo n) = n.
Proof. intros Hl. unfold batch. rewrite length_take, length_drop, file_rows_length. lia. Qed.

Ltac in_range := unfold int64_range, min_int64, max_int64; lia.

(** The rows of a query that pass the check of the numbers. *)
Lemma select_batch m : (m ≤ length bs)%nat →
  ∃ res, SelectBlocks (select_blocks table (Z.of_nat m) (Z.of_nat m + Z.of_nat N)) d = (res, d) ∧
  match res with
  | Ok (rows, _) => (length rows ≤ N)%nat ∧
      (numbered (Z.of_nat m) (merge_sort by_id rows) = false → broken) ∧
      (numbered (Z.of_nat m) (merge_sort by_id rows) = true →
       ∃ n, merge_sort by_id rows = batch bs m n ∧ (n ≤ N)%nat ∧ (m + n ≤ length bs)%nat ∧
         ((n < N)%nat → (m + n)%nat = length bs ∨ broken))
  | Fail e => e = EOF ∧ broken ∨ query_failed e
  | _ => False
  end.
Proof.
  intros Hm. destruct (select_law table (Z.of_nat m) (Z.of_nat m + Z.of_nat N) d Htable) as (res & Hsel & Hf & Hp);
    [in_range..|]. exists res. split; [done|].
  destruct res as [[rows err]|e| |]; try done; cycle 1.
  { destruct (decide (e = EOF)) as [->|He]; [left; split; [done|]|right; split; [done|]].
    - apply Hbroken. exists (Z.of_nat m), (Z.of_nat m + Z.of_nat N), (Fail EOF). split_and!; [in_range..|done|by left].
    - exists (Z.of_nat m), (Z.of_nat m + Z.of_nat N). split_and!; [in_range..|done]. }
  destruct (Hp rows err _ eq_refl Hrows) as [Hsub Hall]. rewrite <- Nat2Z.inj_add in Hsub, Hall.
  assert (rows ⊆+ batch bs m N) as Hsubb by (by rewrite <- filter_batch by lia).
  pose proof (submseteq_length _ _ Hsubb) as Hlen. unfold batch in Hlen. rewrite length_take, length_drop, file_rows_length in Hlen.
  split; [lia|].
  assert (broken ∨ merge_sort by_id rows = batch bs m N) as Hor.
  { destruct err as [er|]; [left|right; apply sort_batch; [lia|by apply Hall]].
    apply Hbroken. exists (Z.of_nat m), (Z.of_nat m + Z.of_nat N), (Ok (rows, Some er)).
    split_and!; [in_range..|done|right; by eexists _, _]. }
  assert (length (merge_sort by_id rows) = length rows) as Hms by (by rewrite merge_sort_Permutation).
  split.
  - intros Hn. destruct Hor as [|Heq]; [done|]. rewrite Heq in Hn. exfalso. revert Hn.
    apply not_false_iff_true, forallb_forall. intros [i x] Hi%list_elem_of_In.
    apply elem_of_lookup_imap in Hi as (j & y & [= <- <-] & Hx).
    apply batch_index in Hx as (Hj & b & Hbj & ->); [|lia]. apply lookup_lt_Some in Hbj. apply Z.eqb_eq. cbn.
    rewrite wrap64_id; [lia|in_range].
  - intros Hn. exists (length rows). destruct (numbered_batch bs m N (merge_sort by_id rows)) as [Heq Hle];
      [lia|lia| |done|].
    { intros x Hx. rewrite merge_sort_Permutation in Hx. by eapply elem_of_submseteq. }
    rewrite Hms in Heq, Hle. split_and!; [done|lia|lia|]. intros Hlt.
    destruct Hor as [|Hfull]; [by right|left]. rewrite Hfull in Hms. unfold batch in Hms.
    rewrite length_take, length_drop, file_rows_length in Hms. lia.
Qed.

Lemma readNextFragments_spec r k m :
  at_block r k → rowIdx r = Z.of_nat m → k = m →
  (∃ e, readNextFragments (r, d) = (Fail e, (r, d)) ∧ (query_failed e ∨ broken)) ∨
  ∃ r', readNextFragments (r, d) = (Ok tt, (r', d)) ∧ r_buf r' = r_buf r ∧ at_block r' k ∧
    fragmentIdx r' = 0%nat ∧ (fragments r' = [] → (length bs ≤ k)%nat ∨ broken).
Proof.
  intros (Ho & Ht & Hs & lo & m' & Hm & Hlm & Hfr & Hk & Hkm & HlN & Hend) Hrow ->.
  assert (m' = m) as -> by lia.
  unfold readNextFragments, mbind, st_bind, get. rewrite Ht, Hs, Hrow.
  rewrite wrap64_id by in_range.
  destruct (select_batch m ltac:(lia)) as (res & Hsel & Hres). rewrite Hsel.
  destruct res as [[rows err]|e| |]; try done; cycle 1.
  { left. exists e. split; [done|]. destruct Hres as [[_ ?]|?]; [by right|by left]. }
  destruct Hres as (HlenN & Hbad & Hgood).
  destruct (Z.ltb_spec (Z.of_nat N) (Z.of_nat (length rows))); [lia|].
  change (forallb _ (imap pair (merge_sort by_id rows))) with (numbered (Z.of_nat m) (merge_sort by_id rows)).
  destruct (numbered _ _) eqn:Hnum; [right|left; eexists; split; [done|right; by apply Hbad]].
  destruct (Hgood eq_refl) as (n & -> & HnN & Hnl & Hnend).
  unfold on_reader. eexists. split; [reflexivity|]. split; [done|]. cbn.
  rewrite batch_length by lia.
  rewrite wrap64_id by in_range.
  split; [|split; [done|]].
  - split_and!; [done..|]. exists m, (m + n)%nat. cbn. replace (m + n - m)%nat with n by lia.
    split_and!; try done; try lia. intros Hlt _. by apply Hnend.
  - intros Hnil%(f_equal length). rewrite batch_length in Hnil by lia. simpl in Hnil.
    destruct (Hnend ltac:(lia)) as [?|?]; [left; lia|by right].
Qed.

Lemma take_block_spec r k :
  at_block r k → (fragments r ≠ [] → fragmentIdx r < length (fragments r))%nat →
  (fragments r = [] → (length bs ≤ k)%nat ∨ broken) →
  ∃ res r', (if decide (fragments r = []) then reset ≫= λ _, fail EOF else
      f ← lift (index (fragments r) (fragmentIdx r));
      on_reader (set_fragments (fragments r) (S (fragmentIdx r)) (rowIdx r)) ≫= λ _, mret f.2) (r, d)
    = (res, (r', d)) ∧ r_buf r' = r_buf r ∧
  match res with
  | Ok blk => ∃ b, bs !! k = Some b ∧ blk = EncodeToString b ∧ at_block r' (S k)
  | Fail e => e = EOF ∧ (k = length bs ∨ broken) ∧ at_block r' k
  | _ => False
  end.
Proof.
  intros (Ho & Ht & Hs & lo & m & Hm & Hlm & Hfr & Hk & Hkm & HlN & Hend) Hin Hnl.
  assert (length (fragments r) = m - lo)%nat as Hlen by (rewrite Hfr; apply batch_length; lia).
  case_decide as Hnil.
  - specialize (Hnl Hnil). rewrite Hnil in Hlen. simpl in Hlen. eexists _, _. split; [reflexivity|]. split; [done|].
    assert (k = length bs ∨ broken) as Hkb by (destruct Hnl; [left; lia|by right]).
    split; [done|]. split; [done|]. split_and!; try done. exists m, m. cbn. rewrite Nat.sub_diag.
    split_and!; try done; try lia. intros _ Hpos. destruct Hkb; [left; lia|by right].
  - specialize (Hin Hnil). rewrite Hlen in Hin.
    destruct (lookup_lt_is_Some_2 (fragments r) (fragmentIdx r) ltac:(lia)) as [x Hx].
    unfold index. rewrite Hx. rewrite Hfr in Hx. apply batch_index in Hx as (_ & b & Hb & ->); [|lia].
    eexists _, _. split; [reflexivity|]. split; [done|]. exists b. rewrite <- Hk. split; [done|]. split; [done|].
    split_and!; try done. exists lo, m. cbn. split_and!; try done; lia.
Qed.

Lemma nextBlock_spec r k :
  at_block r k →
  ∃ res r', nextBlock (r, d) = (res, (r', d)) ∧ r_buf r' = r_buf r ∧
  match res with
  | Ok blk => ∃ b, bs !! k = Some b ∧ blk = EncodeToString b ∧ at_block r' (S k)
  | Fail e => (e = EOF ∧ k = length bs ∨ query_failed e ∨ broken) ∧ at_block r' k
  | _ => False
  end.
Proof.
  intros Hat. pose proof Hat as (Ho & Ht & Hs & lo & m & Hm & Hlm & Hfr & Hk & Hkm & HlN & Hend).
  assert (length (fragments r) = m - lo)%nat as Hlen by (rewrite Hfr; apply batch_length; lia).
  unfold nextBlock. rewrite (st_bind_run get _ _ (r, d) (r, d)) by done. cbv beta iota zeta. rewrite Hs, Hlen.
  destruct (decide (fragmentIdx r = m - lo)%nat) as [Hend'|Hin].
  - destruct (Z.ltb_spec 0 (rowIdx r)), (Z.ltb_spec (Z.of_nat (m - lo)) (Z.of_nat N)); cbn [andb].
    1: { destruct (Hend ltac:(lia) ltac:(lia)) as [Hml|Hbr]; (eexists _, _; split; [reflexivity|]; split; [done|]);
         (split; [first [by right; right|left; split; [done|lia]]|]);
         split_and!; try done; exists m, m; cbn; rewrite Nat.sub_diag;
         split_and!; try done; try lia; intros; first [by left|by right]. }
    all: destruct (readNextFragments_spec r k m Hat Hm ltac:(lia))
           as [(e & Hr & Hq)|(r' & Hr & Hbuf & Hat' & Hidx & Hnil)];
         [rewrite (st_bind_fail _ _ _ _ _ Hr); exists (Fail e), r; split_and!; [done..|by right|done]|].
    all: rewrite (st_bind_run _ _ _ _ _ Hr), (st_bind_run get _ _ (r', d) (r', d)) by done.
    all: destruct (take_block_spec r' k Hat') as (res & r2 & -> & Hb2 & Hres);
      [intros Hl; rewrite Hidx; by destruct (fragments r'); [|simpl; lia]|done|].
    all: exists res, r2; split_and!; [done|congruence|].
    all: by destruct res; [|destruct Hres as (? & [?|?] & ?); split; [by left|done|by right; right|done]|..].
  - destruct (take_block_spec r k Hat) as (res & r2 & Hrun & Hb2 & Hres); [lia|intros Hz; rewrite Hz in Hlen; simpl in Hlen; lia|].
    exists res, r2. split_and!; [exact Hrun|done|].
    by destruct res; [|destruct Hres as (? & [?|?] & ?); split; [by left|done|by right; right|done]|..].
Qed.

(** What is still to be read. *)
Definition file_at (r : reader) (rest : string) : Prop :=
  ∃ k, at_block r k ∧ rest = (r_buf r +:+ str_concat (drop k bs))%string.

(** How a read can end before its buffer is full. *)
Definition stopped (e : error) (rest : string) : Prop :=
  (e = EOF ∧ rest = ""%string) ∨ query_failed e ∨ broken.

Lemma at_block_set_buf b r k : at_block r k → at_block (set_r_buf b r) k.
Proof. done. Qed.

Definition read_rounds (r : reader) (n : nat) : nat := (n + if decide (r_buf r = ""%string) then 2 else 1)%nat.

Lemma Read_loop_spec fuel k out r rest :
  file_at r rest → (str_len out ≤ k)%nat → (read_rounds r (k - str_len out) ≤ fuel)%nat →
  ∃ more e r' rest', Read_loop fuel k out (r, d) = (Ok ((out +:+ more)%string, e), (r', d)) ∧
    file_at r' rest' ∧ rest = (more +:+ rest')%string ∧ (str_len out + str_len more ≤ k)%nat ∧
    match e with None => (str_len out + str_len more)%nat = k | Some e => stopped e rest' end.
Proof.
  revert out r rest. induction fuel as [|fuel IH]; intros out r rest Hat Hk Hf; unfold read_rounds in Hf.
  { case_decide; lia. }
  cbn [Read_loop]. destruct (decide (str_len out < k)%nat) as [Hlt|Hge].
  2: { exists ""%string, None, r, rest. rewrite str_app_nil_r. split_and!; try done; simpl; lia. }
  rewrite (st_bind_run get _ _ (r, d) (r, d)) by done. cbv beta iota zeta.
  set (m := ((k - str_len out) `min` str_len (r_buf r))%nat).
  set (more := str_take m (r_buf r)). set (left := str_drop m (r_buf r)).
  assert (str_len more = m) as Hmore by (unfold more; rewrite str_length_take; lia).
  assert (r_buf r = more +:+ left)%string as Hbuf by (unfold more, left; by rewrite str_take_drop).
  destruct Hat as (n & Hat & Hrest).
  rewrite (st_bind_run _ _ _ tt (set_r_buf left r, d)) by done.
  destruct (decide (left = ""%string)) as [Hl|Hl].
  - destruct (nextBlock_spec (set_r_buf left r) n Hat) as (res & r' & Hrun & Hb & Hres). cbn in Hb.
    unfold attempt at 1. unfold mbind at 1, st_bind at 1. rewrite Hrun. destruct res as [blk|e| |]; try done.
    + destruct Hres as (b & Hbn & -> & Hat'). rewrite DecodeString_EncodeToString.
      assert (b ≠ ""%string) as Hbne by (rewrite Forall_forall in Hne; by apply Hne, list_elem_of_lookup; exists n).
      rewrite (st_bind_run _ _ _ tt (set_r_buf b r', d)) by done.
      destruct (IH (out +:+ more)%string (set_r_buf b r') (b +:+ str_concat (drop (S n) bs))%string)
        as (more2 & e & r2 & rest' & -> & Hat2 & Hr2 & Hlen & He).
      { by exists (S n). }
      { rewrite str_length_app. lia. }
      { unfold read_rounds. rewrite str_length_app. cbn [set_r_buf r_buf]. rewrite (decide_False _ _ Hbne).
        destruct (decide (r_buf r = ""%string)) as [Hz|Hz]; [lia|]. apply str_len_pos in Hz.
        assert (0 < m)%nat by lia. lia. }
      rewrite str_length_app in *. exists (more +:+ more2)%string, e, r2, rest'. rewrite str_length_app.
      rewrite str_app_assoc. split_and!; [done|done| |lia|destruct e; [done|lia]].
      rewrite Hrest, Hbuf, Hl, str_app_nil_r, (drop_S _ b) by done.
      by rewrite str_concat_cons, Hr2, str_app_assoc.
    + destruct Hres as [He Hat']. exists more, (Some e), r', (str_concat (drop n bs)).
      split_and!; [done| | |lia|].
      * exists n. split; [done|]. by rewrite Hb, Hl.
      * by rewrite Hrest, Hbuf, Hl, str_app_nil_r.
      * destruct He as [[-> ->]|]; [left|by right]. split; [done|]. by rewrite drop_ge.
  - destruct (IH (out +:+ more)%string (set_r_buf left r) (left +:+ str_concat (drop n bs))%string)
      as (more2 & e & r2 & rest' & -> & Hat2 & Hr2 & Hlen & He).
    { by exists n. }
    { rewrite str_length_app. lia. }
    { unfold read_rounds. rewrite str_length_app. cbn [set_r_buf r_buf]. rewrite (decide_False _ _ Hl).
      apply str_len_pos in Hl. unfold left in Hl. rewrite str_length_drop in Hl.
      destruct (decide (r_buf r = ""%string)) as [Hz|Hz]; lia. }
    rewrite str_length_app in *. exists (more +:+ more2)%string, e, r2, rest'. rewrite str_length_app.
    rewrite str_app_assoc. split_and!; [done|done| |lia|destruct e; [done|lia]].
    by rewrite Hrest, Hbuf, <- str_app_assoc, Hr2, str_app_assoc.
Qed.

Lemma Read_refines_spec (k : nat) (r : reader) (rest : string) :
  file_at r rest →
  ∃ out e r' rest', Read (k + 2) k (r, d) = (Ok (out, e), (r', d)) ∧
    file_at r' rest' ∧ rest = (out +:+ rest')%string ∧ (str_len out ≤ k)%nat ∧
    match e with
    | None => (str_len out = (k `min` str_len rest)%nat ∨ broken) ∧ ((0 < k)%nat → out ≠ ""%string)
    | Some e => (e = EOF → out = ""%string) ∧
        (e = EOF ∧ rest = ""%string ∧ (0 < k)%nat ∨ query_failed e ∨ broken)
    end.
Proof.
  intros Hat. destruct (Read_loop_spec (k + 2) k "" r rest Hat) as (out & e & r' & rest' & Hrun & Hat' & Hr & Hlen & He).
  { simpl. lia. }
  { unfold read_rounds. simpl. case_decide; lia. }
  change ("" +:+ out)%string with out in Hrun.
  unfold Read. rewrite (st_bind_run get _ _ (r, d) (r, d)) by done. cbv beta iota.
  destruct Hat as (n & (-> & _) & _). rewrite (st_bind_run _ _ _ _ _ Hrun). cbv beta iota. cbn in Hlen, He.
  rewrite Hr.
  destruct (decide (e = Some EOF ∧ (0 < str_len out)%nat)) as [[-> Ho]|Hno].
  - exists out, None, r', rest'. split_and!; [done..|lia| |by intros _ ->; simpl in Ho; lia].
    destruct He as [[_ ->]|[[[] _]|Hb]]; [left; rewrite str_app_nil_r; lia|done|by right].
  - exists out, e, r', rest'. split_and!; [done..|lia|]. destruct e as [e|].
    + assert (e = EOF → out = ""%string) as Hout.
      { intros ->. destruct out; [done|exfalso; apply Hno; split; [done|simpl; lia]]. }
      split; [done|]. destruct He as [[-> ->]|]; [left|by right]. rewrite (Hout eq_refl).
      split_and!; try done. destruct k; [|lia].
      exfalso. clear -Hrun. unfold Read_loop in Hrun. simpl in Hrun. done.
    + rewrite str_length_app. split; [left; lia|]. intros Hk ->. simpl in He. lia.
Qed.

End reader_facts.

(** C26: [Read] behaves as a read from a file with a position, in whatever order the database
    returns the rows and however the blocks fall: it always returns, it gives the next bytes
    and moves behind them, also before it reports an error.  Unless the result of a query
    breaks off, it gives as many as fit into its buffer or the file has left, it reports the
    end only when nothing is left, and another error only if a query failed.  The code does not
    ask for rows.Err: when a result breaks off a read may be shorter, or report the end
    or an error while bytes are left.  A read that moved forward hides the end until the next
    one. *)
Theorem Read_refines `{BlockDB D} (table : string) (bs : list string) (N : nat) (d : D) (k : nat) (r : reader) (rest : string) :
  table_name table = true → Forall (λ b, b ≠ ""%string) bs → (0 < N)%nat →
  Z.of_nat (length bs) + Z.of_nat N < 2 ^ 63 → table_rows table d = Some (file_rows bs) →
  file_at table bs N (breaks_off table d) r rest →
  ∃ out e r' rest', Read (k + 2) k (r, d) = (Ok (out, e), (r', d)) ∧
    file_at table bs N (breaks_off table d) r' rest' ∧ rest = (out +:+ rest')%string ∧ (str_len out ≤ k)%nat ∧
    match e with
    | None => (str_len out = (k `min` str_len rest)%nat ∨ breaks_off table d) ∧ ((0 < k)%nat → out ≠ ""%string)
    | Some e => (e = EOF → out = ""%string) ∧
        (e = EOF ∧ rest = ""%string ∧ (0 < k)%nat ∨ query_failed table d e ∨ breaks_off table d)
    end.
Proof.
  intros Ht Hne HN Hs Hrows Hat. by apply (Read_refines_spec table Ht bs Hne N HN Hs d Hrows (breaks_off table d)).
Qed.

(** ** Writing, then reading *)

Lemma chunks_nonempty n s : (0 < n)%nat → Forall (λ b, b ≠ ""%string) (chunks n s).
Proof.
  intros Hn. unfold chunks. generalize (str_len s) at 1. intros k. revert s.
  induction k as [|k IH]; intros s; cbn [chunks_fuel]; [constructor|]. case_decide as Hs; [constructor|].
  constructor; [|apply IH]. destruct s; [done|]. by destruct n; [lia|].
Qed.

Lemma chunks_concat n s : (0 < n)%nat → str_concat (chunks n s) = s.
Proof.
  intros Hn. unfold chunks. assert (∀ k s, (str_len s ≤ k)%nat → str_concat (chunks_fuel k n s) = s) as Hgen;
    [|by apply Hgen]. clear s. induction k as [|k IH]; intros s Hk; cbn [chunks_fuel].
  - by destruct s; [|simpl in Hk; lia].
  - case_decide as Hs; [done|]. rewrite str_concat_cons, IH; [apply str_take_drop|].
    apply str_len_pos in Hs. rewrite str_length_drop. lia.
Qed.

Lemma chunks_length n s : (0 < n)%nat → (length (chunks n s) ≤ str_len s)%nat.
Proof.
  intros Hn. rewrite <- (chunks_concat n s Hn) at 2. pose proof (chunks_nonempty n s Hn) as Hc.
  induction Hc as [|b bs Hb _ IH]; [simpl; lia|]. rewrite str_concat_cons, str_length_app.
  apply str_len_pos in Hb. simpl. lia.
Qed.

(** Reading to the end: the whole rest, unless a query fails, or breaks off. *)
Definition copied (table : string) `{Outside D} (d : D) (broken : Prop) (all : string) (res : result string) : Prop :=
  (∃ e, res = Fail e ∧ query_failed table d e) ∨
  broken ∧ ((∃ n, res = Ok (str_take n all)) ∨ ∃ e, res = Fail e).
Lemma Copy_spec `{BlockDB D} (table : string) (bs : list string) (N : nat) (d : D) (broken : Prop) fuel k r rest :
  table_name table = true → Forall (λ b, b ≠ ""%string) bs → (0 < N)%nat →
  Z.of_nat (length bs) + Z.of_nat N < 2 ^ 63 → table_rows table d = Some (file_rows bs) →
  (breaks_off table d → broken) → file_at table bs N broken r rest → (0 < k)%nat → (str_len rest < fuel)%nat →
  ∃ res r', Copy fuel k (r, d) = (res, (r', d)) ∧
    (res = Ok rest ∧ file_at table bs N broken r' "" ∨ copied table d broken rest res).
Proof.
  intros Ht Hne HN Hs Hrows Hbr Hat Hk. revert r rest Hat. induction fuel as [|fuel IH]; intros r rest Hat Hf; [lia|].
  cbn [Copy]. destruct (Read_refines_spec table Ht bs Hne N HN Hs d Hrows broken Hbr k r rest Hat)
    as (out & e & r' & rest' & Hrun & Hat' & -> & _ & He).
  rewrite (st_bind_run _ _ _ _ _ Hrun). cbv beta iota. destruct e as [e|].
  - destruct He as [Hout He]. destruct (decide (e = EOF)) as [->|Hne'].
    + rewrite (Hout eq_refl) in *. cbn in Hat'. exists (Ok ""%string), r'. split; [done|]. cbn in He |- *.
      destruct He as [(_ & -> & _)|[[[] _]|Hb]]; [by left|done|]. right. right. split; [done|].
      left. by exists 0%nat; destruct rest'.
    + exists (Fail e), r'. split; [done|]. right. destruct He as [[? _]|[Hq|Hb]]; [done|left; by exists e|].
      right. split; [done|]. right. by exists e.
  - rewrite str_length_app in He, Hf. destruct He as [_ Hout]. specialize (Hout Hk). apply str_len_pos in Hout.
    destruct (IH r' rest' Hat' ltac:(lia)) as (res & r2 & Hrun2 & Hres).
    destruct Hres as [[-> Hr2]|[(e & -> & Hq)|[Hb [[n ->]|[e ->]]]]].
    + rewrite (st_bind_run _ _ _ _ _ Hrun2). exists (Ok (out +:+ rest')%string), r2. split; [done|]. by left.
    + rewrite (st_bind_fail _ _ _ _ _ Hrun2). exists (Fail e), r2. split; [done|]. right. left. by exists e.
    + rewrite (st_bind_run _ _ _ _ _ Hrun2). eexists (Ok (out +:+ str_take n rest')%string), r2. split; [done|].
      right. right. split; [done|]. left. exists (str_len out + n)%nat.
      by rewrite <- str_take_add, str_take_app, str_drop_app.
    + rewrite (st_bind_fail _ _ _ _ _ Hrun2). exists (Fail e), r2. split; [done|]. right. right. split; [done|].
      right. by exists e.
Qed.

Section roundtrip.
Context `{BlockDB D} (driver table : string) (Htable : table_name table = true).

Lemma newSQLWriter_Ok n d w d1 :
  newSQLWriter driver table n d = (Ok w, d1) → w = newFlushWriteCloser n ∧ table_rows table d1 = Some [].
Proof.
  intros ([] & d2 & Hp & [<- <-]%mret_Ok)%st_bind_Ok. split; [done|].
  apply st_bind_Ok in Hp as ([] & d3 & Hdrop & Hcreate). apply wrapS_Ok in Hdrop, Hcreate.
  apply wrapS_Ok in Hdrop. apply (drop_law _ _ _ Htable) in Hdrop. unfold createTable in Hcreate.
  destruct (create_stmt driver table) as [stmt|] eqn:Hs; [|done].
  apply st_bind_Ok in Hcreate as ([] & d4 & Hc%wrapS_Ok & Hh%wrapS_Ok).
  apply wrapS_Ok in Hh. apply (has_law _ _ _ Htable) in Hh as [-> [l Hl]].
  destruct (create_law _ _ _ _ _ Htable Hs Hc Hdrop); congruence.
Qed.

(** A file that was created, written in whatever pieces and closed without an error. *)
Definition written (n : nat) (ps : list string) (d d2 : D) : Prop :=
  ∃ w d1 wd w2 row, newSQLWriter driver table n d = (Ok w, d1) ∧
    Writes (flushToSQLTable true table) ps (w, (0, d1)) = (Ok tt, wd) ∧
    Close (flushToSQLTable true table) noopWrapUp wd = (Ok tt, (w2, (row, d2))).

Lemma written_rows n ps d d2 :
  (0 < n)%nat → written n ps d d2 → table_rows table d2 = Some (file_rows (chunks n (str_concat ps))).
Proof.
  intros Hn (w & d1 & wd & w2 & row & Hnew & Hws & Hc).
  apply newSQLWriter_Ok in Hnew as [-> Hrows].
  destruct (@Close_spec _ _ (sql_sink table Htable) noopWrapUp ps n (0, d1) (row, d2) w2 wd) as (rd & [_ Hr] & [_ ->]%mret_Ok);
    [done|by split|done..].
Qed.

Lemma Open_Ok N d r d' :
  (0 < N)%nat → Open table (Z.of_nat N) d = (Ok r, d') →
  d' = d ∧ r = mkReader true table "" [] 0 0 (Z.of_nat N) ∧ is_Some (table_rows table d).
Proof.
  intros HN ([] & d1 & Hh & Hr)%st_bind_Ok. apply catchS_Ok in Hh as [Hh|(? & ? & _ & [=])].
  apply wrapS_Ok in Hh. apply (has_law _ _ _ Htable) in Hh as [-> Hs].
  destruct (Z.leb_spec (Z.of_nat N) 0); [lia|]. by apply mret_Ok in Hr as [<- ->].
Qed.

Lemma Open_written n N ps d d2 r d3 broken :
  (0 < n)%nat → (0 < N)%nat → written n ps d d2 → Open table (Z.of_nat N) d2 = (Ok r, d3) →
  d3 = d2 ∧ file_at table (chunks n (str_concat ps)) N broken r (str_concat ps).
Proof.
  intros Hn HN Hw (-> & -> & _)%Open_Ok; [|done]. split; [done|]. exists 0%nat. split.
  - split_and!; try done. exists 0%nat, 0%nat. cbn. split_and!; try done; lia.
  - cbn. by rewrite drop_0, chunks_concat.
Qed.

(** C3: A file that was written in whatever pieces, with whatever sizes of the writer's buffer
    and of the reader's batches, is read back as it was written: copying it out with a buffer
    of any size ends, with exactly the bytes that were written, unless a query fails, when the
    copy fails with its error, or the result of a query breaks off.  The code does not ask for
    rows.Err, so that in the last case the copy may also end without an error,
    with a beginning of the bytes.  Copying neither changes the database nor depends on the
    order in which it returns the rows. *)
Theorem sqlfs_roundtrip (n N k fuel : nat) (ps : list string) (d d2 d3 : D) (r : reader) :
  (0 < n)%nat → (0 < N)%nat → (0 < k)%nat → Z.of_nat (str_len (str_concat ps)) + Z.of_nat N < 2 ^ 63 →
  (str_len (str_concat ps) < fuel)%nat →
  written n ps d d2 → Open table (Z.of_nat N) d2 = (Ok r, d3) →
  ∃ res r', Copy fuel k (r, d3) = (res, (r', d2)) ∧
    (res = Ok (str_concat ps) ∨ (∃ e, res = Fail e ∧ query_failed table d2 e) ∨
     breaks_off table d2 ∧ ((∃ m, res = Ok (str_take m (str_concat ps))) ∨ ∃ e, res = Fail e)).
Proof.
  intros Hn HN Hk Hs Hf Hw Ho. destruct (Open_written _ _ _ _ _ _ _ (breaks_off table d2) Hn HN Hw Ho) as [-> Hat].
  pose proof (chunks_length n (str_concat ps) Hn).
  destruct (Copy_spec table (chunks n (str_concat ps)) N d2 (breaks_off table d2) fuel k r (str_concat ps))
    as (res & r' & Hrun & Hres); try done; [by apply chunks_nonempty|lia|by eapply written_rows|].
  exists res, r'. split; [done|]. destruct Hres as [[-> _]|]; [by left|by right].
Qed.
End roundtrip.

(** ** A database in memory *)

Notation tables := (gmap string (list (Z * string))).

Definition cut_prefix (pre s : string) : option string :=
  if HasPrefix s pre then Some (str_drop (str_len pre) s) else None.
(** What stands before the character [c], and behind it. *)
Definition cut_at (c : ascii) (s : string) : option (string * string) :=
  match SplitN2 s (char1 c) with [u; v] => Some (u, v) | _ => None end.

Definition exec_insert (s : string) (d : tables) : option tables :=
  '(t, s) ← cut_at " " s;
  s ← cut_prefix "(id, block) VALUES(" s;
  '(i, s) ← cut_at "," s;
  s ← cut_prefix " '" s;
  '(block, _) ← cut_at "'" s;
  i ← Atoi i;
  l ← d !! t;
  Some (<[t := l ++ [(i, block)]]> d).
Definition exec_select (s : string) (d : tables) : option (list (Z * string)) :=
  s ← cut_prefix "SELECT id,block FROM " s;
  '(t, s) ← cut_at " " s;
  s ← cut_prefix "WHERE id>=" s;
  '(lo, s) ← cut_at " " s;
  s ← cut_prefix "AND id<" s;
  '(hi, _) ← cut_at ";" s;
  lo ← Atoi lo; hi ← Atoi hi;
  l ← d !! t;
  Some (filter (λ f, lo ≤ f.1 < hi) l).
Definition exec_statement (s : string) (d : tables) : option tables :=
  match cut_prefix "DROP TABLE IF EXISTS " s, cut_prefix "CREATE TABLE IF NOT EXISTS " s,
        cut_prefix "SELECT 1 FROM " s, cut_prefix "INSERT INTO " s with
  | Some s, _, _, _ => '(t, _) ← cut_at ";" s; Some (delete t d)
  | _, Some s, _, _ => '(t, _) ← cut_at " " s; Some (<[t := default [] (d !! t)]> d)
  | _, _, Some s, _ => '(t, _) ← cut_at " " s; _ ← d !! t; Some d
  | _, _, _, Some s => exec_insert s d
  | _, _, _, _ => None
  end.

Definition refused : error := Errorf "refused" [].

#[export] Instance memory_outside : Outside tables := {|
  Exec q d := match exec_statement q d with Some d' => (Ok tt, d') | None => (Fail refused, d) end;
  SelectBlocks q d := ((λ l, (l, None)) <$> or_fail (exec_select q d) refused, d);
  WriteCSV _ d := (Ok tt, d);
  csv_Name := "/tmp/sqlflow-sqlfs";
  CloseCSV d := (Ok tt, d);
  RunHdfs _ _ d := (Ok tt, d)
|}.

Lemma cut_at_char c u v : no_char c u = true → cut_at c (u +:+ String c v) = Some (u, v).
Proof. intros Hu. unfold cut_at. by rewrite SplitN2_char. Qed.

Lemma cut_prefix_app pre s : cut_prefix pre (pre +:+ s) = Some s.
Proof.
  unfold cut_prefix. assert (HasPrefix (pre +:+ s) pre = true) as ->; [apply HasPrefix_app; by exists s|].
  by rewrite str_drop_app.
Qed.

Lemma no_char_table c t : table_char c = false → table_name t = true → no_char c t = true.
Proof.
  intros Hc. apply str_forall_impl. intros a Ha. apply negb_true_iff, bool_decide_eq_false. congruence.
Qed.

Lemma no_char_pretty c (z : Z) : is_digit_char c = false → c ≠ "-"%char → no_char c (pretty z) = true.
Proof.
  intros Hc Hm.
  assert (∀ z : Z, 0 ≤ z → no_char c (pretty z) = true) as Hpos.
  { clear z. intros z Hz. destruct (pretty_Z_digits z Hz) as (Hd & _). revert Hd. apply str_forall_impl.
    intros a Ha. apply negb_true_iff, bool_decide_eq_false. congruence. }
  destruct z as [|p|p]; [by apply Hpos; lia..|].
  change (pretty (Zneg p)) with (String "-" (pretty (Zpos p))). cbn [no_char str_forall].
  apply andb_true_iff. split; [|by apply Hpos; lia]. apply negb_true_iff, bool_decide_eq_false. congruence.
Qed.

Lemma no_char_b64 c s : b64_output c = false → str_forall b64_output s = true → no_char c s = true.
Proof.
  intros Hc. apply str_forall_impl. intros a Ha. apply negb_true_iff, bool_decide_eq_false. congruence.
Qed.

Ltac cut_char := rewrite cut_at_char;
  [|first [by apply no_char_table | by apply no_char_pretty | by eapply no_char_b64]].

Lemma exec_drop t d : table_name t = true → exec_statement (drop_stmt t) d = Some (delete t d).
Proof.
  intros Ht. unfold exec_statement, drop_stmt. rewrite (cut_prefix_app "DROP TABLE IF EXISTS ").
  change ";"%string with (String ";" ""). by cut_char.
Qed.

Lemma exec_create driver t stmt d :
  table_name t = true → create_stmt driver t = Some stmt →
  exec_statement stmt d = Some (<[t := default [] (d !! t)]> d).
Proof.
  intros Ht Hs. assert (∃ c, stmt = "CREATE TABLE IF NOT EXISTS " +:+ t +:+ " " +:+ c)%string as [c ->].
  { unfold create_stmt in Hs. repeat case_decide; try done; injection Hs as <-; by eexists. }
  unfold exec_statement. rewrite (cut_prefix_app "CREATE TABLE IF NOT EXISTS ").
  change (cut_prefix "DROP TABLE IF EXISTS " _) with (@None string).
  change (" " +:+ c)%string with (String " " c). by cut_char.
Qed.

Lemma exec_has t d : table_name t = true → exec_statement (has_stmt t) d = (_ ← d !! t; Some d).
Proof.
  intros Ht. unfold exec_statement, has_stmt. rewrite (cut_prefix_app "SELECT 1 FROM ").
  change (cut_prefix "DROP TABLE IF EXISTS " _) with (@None string).
  change (cut_prefix "CREATE TABLE IF NOT EXISTS " _) with (@None string).
  change (" LIMIT 1")%string with (String " " "LIMIT 1"). by cut_char.
Qed.

Lemma exec_insert_block t row block d :
  table_name t = true → int64_range row → str_forall b64_output block = true →
  exec_statement (insert_block t row block) d = (l ← d !! t; Some (<[t := l ++ [(row, block)]]> d)).
Proof.
  intros Ht Hr Hb. unfold exec_statement, insert_block. rewrite (cut_prefix_app "INSERT INTO ").
  change (cut_prefix "DROP TABLE IF EXISTS " _) with (@None string).
  change (cut_prefix "CREATE TABLE IF NOT EXISTS " _) with (@None string).
  change (cut_prefix "SELECT 1 FROM " _) with (@None string). unfold exec_insert.
  change (" (id, block) VALUES(" +:+ ?x)%string with (String " " ("(id, block) VALUES(" +:+ x)).
  cut_char. cbn [mbind option_bind]. rewrite cut_prefix_app. cbn [mbind option_bind].
  change (", '" +:+ ?x)%string with (String "," (" '" +:+ x)). cut_char. cbn [mbind option_bind].
  rewrite cut_prefix_app. cbn [mbind option_bind]. change ("')")%string with (String "'" ")"). cut_char.
  cbn [mbind option_bind]. by rewrite Atoi_pretty.
Qed.

Lemma exec_select_blocks t lo hi d :
  table_name t = true → int64_range lo → int64_range hi →
  exec_select (select_blocks t lo hi) d = (l ← d !! t; Some (filter (λ f, lo ≤ f.1 < hi) l)).
Proof.
  intros Ht Hlo Hhi. unfold exec_select, select_blocks. rewrite (cut_prefix_app "SELECT id,block FROM ").
  cbn [mbind option_bind]. change (" WHERE id>=" +:+ ?x)%string with (String " " ("WHERE id>=" +:+ x)).
  cut_char. cbn [mbind option_bind]. rewrite cut_prefix_app. cbn [mbind option_bind].
  change (" AND id<" +:+ ?x)%string with (String " " ("AND id<" +:+ x)). cut_char. cbn [mbind option_bind].
  rewrite cut_prefix_app. cbn [mbind option_bind]. change (";")%string with (String ";" ""). cut_char.
  cbn [mbind option_bind]. by rewrite !Atoi_pretty.
Qed.

#[export] Instance memory_db : BlockDB tables.
Proof.
  refine {| table_rows t d := d !! t |}; cbn [Exec SelectBlocks memory_outside].
  - intros q d. by destruct (exec_statement q d).
  - intros t d d' Ht. rewrite exec_drop by done. intros [= <-]. apply lookup_delete_eq.
  - intros driver t stmt d d' Ht Hs. erewrite exec_create by done. intros [= <-] Hn. right.
    by rewrite lookup_insert_eq, Hn.
  - intros t d d' Ht. rewrite exec_has by done. destruct (d !! t) eqn:Hl; [|done]. by intros [= <-].
  - intros t row block l d d' Ht Hr Hb Hl. rewrite exec_insert_block, Hl by done. intros [= <-].
    by rewrite lookup_insert_eq.
  - intros t row block d d' e Ht Hr Hb. rewrite exec_insert_block by done.
    destruct (d !! t) eqn:Hl; [done|]. by intros [= _ <-].
  - intros t lo hi d Ht Hlo Hhi. rewrite exec_select_blocks by done. eexists. split; [done|].
    destruct (d !! t) as [l|]; cbn; (split; [done|]); [by intros ??? [= <- <-] [= <-]|done].
Defined.

(** The same database, over a connection that breaks off every result after one row. *)
Definition broken_outside : Outside tables := {|
  Exec := Exec;
  SelectBlocks q d :=
    ((λ l, (take 1 l, if decide (1 < length l)%nat then Some refused else None)) <$> or_fail (exec_select q d) refused, d);
  WriteCSV := WriteCSV;
  csv_Name := csv_Name;
  CloseCSV := CloseCSV;
  RunHdfs := RunHdfs
|}.
Definition broken_db : @BlockDB tables broken_outside.
Proof.
  destruct memory_db as [rows fine_ drop_ create_ has_ insert_ insert_f select_].
  refine (@Build_BlockDB tables broken_outside rows fine_ drop_ create_ has_ insert_ insert_f _).
  intros t lo hi d Ht Hlo Hhi. destruct (select_ t lo hi d Ht Hlo Hhi) as (r & Hr & _ & Hl).
  injection Hr as Hr. eexists. split; [done|]. cbn in Hr |- *.
  destruct (exec_select _ d) as [l|]; [|done]. split; [done|]. intros rows' err l' [= <- <-] Hl'.
  destruct (Hl l None l' (eq_sym Hr) Hl') as [Hsub Hall]. split.
  - trans l; [|done]. apply sublist_submseteq, sublist_take.
  - case_decide; [done|]. intros _. rewrite take_ge by lia. by apply Hall.
Defined.

(** The file [SQLFlow] in blocks of four bytes, written in three pieces. *)
Definition demo_pieces : list string := ["SQ"; "LFlo"; "w!"]%string.
Definition demo_tables : tables := {[ "m"%string := [(0, "U1FMRg=="); (1, "bG93IQ==")] ]}%string.

Lemma demo_written : written "mysql" "m" 4 demo_pieces (∅ : tables) demo_tables.
Proof.
  exists (newFlushWriteCloser 4), {[ "m"%string := [] ]}, (newFlushWriteCloser 4, (2, demo_tables)),
    (newFlushWriteCloser 4), 2.
  split_and!; vm_compute; reflexivity.
Qed.

Lemma sqlfs_roundtrip_witness :
  written "mysql" "m" 4 demo_pieces (∅ : tables) demo_tables ∧
  ∃ res r', Copy 20 3 (mkReader true "m" "" [] 0 0 2, demo_tables) = (res, (r', demo_tables)) ∧
    (res = Ok "SQLFlow!"%string ∨ (∃ e, res = Fail e ∧ query_failed "m" demo_tables e) ∨
     breaks_off "m" demo_tables ∧ ((∃ m, res = Ok (str_take m "SQLFlow!")) ∨ ∃ e, res = Fail e)).
Proof.
  split; [exact demo_written|].
  apply (sqlfs_roundtrip "mysql" "m" eq_refl 4 2 3 20 demo_pieces ∅ demo_tables demo_tables);
    [lia..|done|simpl; lia|exact demo_written|vm_compute; reflexivity].
Defined.

(** A copy that ends without an error and has lost the end of the file: the connection broke
    off after the first row, and the batch that is not full is taken for the last one. *)
Example broken_copy :
  let r := mkReader true "m" "" [] 0 0 2 in
  (@Copy 20 3 _ broken_outside (r, demo_tables)).1 = Ok "SQLF"%string ∧
  @SelectBlocks _ broken_outside (select_blocks "m" 0 2) demo_tables
    = (Ok ([(0, "U1FMRg==")]%string, Some refused), demo_tables).
Proof. split; vm_compute; reflexivity. Qed.

Definition one_block : tables := {[ "m"%string := [(0, "U1FMRg=="%string)] ]}.

Lemma Write_refines_witness :
  let flush := flushToSQLTable true "m" in
  ∃ n e w' d' new, Write flush "ow!" (mkWriter "L" 4 0, (1, one_block)) = (Ok (n, e), (w', d')) ∧
    (n ≤ 3)%nat ∧ (e = None → n = 3%nat) ∧ Forall (λ b, str_len b = 4%nat) new ∧
    contents w' (["SQLF"%string] ++ new) = ("SQLFL" +:+ str_take n "ow!")%string.
Proof.
  destruct (@Write_refines _ _ (sql_sink "m" eq_refl) "ow!" (mkWriter "L" 4 0) (1, one_block) ["SQLF"%string])
    as (n & e & w' & d' & new & H1 & H2 & H3 & _ & _ & _ & H4 & H5).
  - split; simpl; lia.
  - split; vm_compute; reflexivity.
  - exists n, e, w', d', new. split; [exact H1|]. split; [exact H2|]. split; [exact H3|]. split; [exact H4|exact H5].
Defined.

Lemma Close_chunks_witness :
  ∃ d1 : Z * tables, (d1.1 = 2 ∧ table_rows "m" d1.2 = Some (file_rows (chunks 4 "SQLFlow!"))) ∧
    noopWrapUp d1 = (Ok tt, (2, demo_tables)).
Proof.
  destruct (@Close_chunks _ _ (sql_sink "m" eq_refl) noopWrapUp demo_pieces 4 (0, {[ "m"%string := [] ]}) (2, demo_tables)
    (newFlushWriteCloser 4) (newFlushWriteCloser 4, (2, demo_tables))) as (d1 & H1 & H2).
  - lia.
  - split; vm_compute; reflexivity.
  - vm_compute. reflexivity.
  - vm_compute. reflexivity.
  - exists d1. split; [exact H1|exact H2].
Defined.

Lemma Read_refines_witness :
  let bs := ["SQLF"; "low!"]%string in
  ∃ out e r' rest', Read 7 5 (mkReader true "m" "" [] 0 0 2, demo_tables) = (Ok (out, e), (r', demo_tables)) ∧
    file_at "m" bs 2 (breaks_off "m" demo_tables) r' rest' ∧ "SQLFlow!"%string = (out +:+ rest')%string.
Proof.
  destruct (Read_refines "m" ["SQLF"; "low!"]%string 2 demo_tables 5 (mkReader true "m" "" [] 0 0 2) "SQLFlow!")
    as (out & e & r' & rest' & H1 & H2 & H3 & _).
  - reflexivity.
  - repeat constructor; done.
  - lia.
  - simpl. lia.
  - reflexivity.
  - exists 0%nat. split; [|reflexivity]. split_and!; try done. exists 0%nat, 0%nat. simpl. split_and!; try done; lia.
  - exists out, e, r', rest'. split; [exact H1|]. split; [exact H2|exact H3].
Defined.
