(* ===== verification/GoConv.v ===== *)
(** * Paths and numbers

    Two parts of Go's standard library that the back end uses: the lexical functions of
    package path, and [strconv.ParseInt] with base 0, which takes the base from the prefix of
    the text, with [fmt]'s hexadecimal output. *)

From S2P Require Import Prelude GoStrings.

Local Open Scope Z_scope.

(** ** Package path *)

Definition clean_step (rooted : bool) (stack : list string) (elem : string) : list string :=
  if decide (elem ∈ [""; "."]%string) then stack
  else if decide (elem = ".."%string) then
    match stack with
    | top :: rest => if decide (top = ".."%string) then elem :: stack else rest
    | [] => if rooted then [] else [elem]
    end
  else elem :: stack.
Definition path_Clean (p : string) : string :=
  let rooted := HasPrefix p "/" in
  let elems := rev (foldl (clean_step rooted) [] (Split p "/")) in
  if rooted then String "/" (Join elems "/")
  else match elems with [] => "."%string | _ => Join elems "/" end.
Definition path_Join (elems : list string) : string :=
  match filter (λ e, e ≠ ""%string) elems with
  | [] => ""%string
  | l => path_Clean (Join l "/")
  end.
(** Up to the last slash, and what is behind it. *)
Definition path_Split (p : string) : string * string :=
  match LastIndexByte p "/" with
  | Some i => (str_take (S i) p, str_drop (S i) p)
  | None => (""%string, p)
  end.
Definition path_Base (p : string) : string :=
  match rev (filter (λ e, e ≠ ""%string) (Split p "/")) with
  | e :: _ => e
  | [] => if decide (p = ""%string) then "."%string else "/"%string
  end.
Definition path_Dir (p : string) : string := path_Clean (path_Split p).1.

Example join_up : path_Join ["/tmp/a/"; "../b"; ""; "model.tar.gz"]%string = "/tmp/b/model.tar.gz"%string.
Proof. vm_compute. reflexivity. Qed.

(** ** [strconv.ParseInt(s, 0, 64)] *)

Definition lower (c : ascii) : ascii := of_byte (Z.lor (byte c) 32).
Definition hex_value (c : ascii) : option Z :=
  let b := byte c in
  if ascii_digit b then Some (b - 48)
  else if in_range 97 122 (byte (lower c)) then Some (byte (lower c) - 87) else None.

(** The base and the digits behind its prefix. *)
Definition split_base (s : string) : Z * string :=
  match s with
  | String "0" s' =>
    match s' with
    | String c (String d t) =>
      if decide (lower c = "b"%char) then (2, String d t)
      else if decide (lower c = "o"%char) then (8, String d t)
      else if decide (lower c = "x"%char) then (16, String d t)
      else (8, s')
    | _ => (8, s')
    end
  | _ => (10, s)
  end.

Fixpoint base_value (base acc : Z) (s : string) : option Z :=
  match s with
  | EmptyString => Some acc
  | String "_" s => base_value base acc s
  | String c s =>
    d ← hex_value c;
    if d <? base then base_value base (acc * base + d) s else None
  end.

(** Underscores must separate digits, or the digits from the prefix; [before] is the class of
    the character before: a digit (or the prefix), an underscore, or neither. *)
Inductive before := Digit | Underscore | Start | Other.
#[export] Instance before_eq_dec : EqDecision before.
Proof. solve_decision. Defined.
Fixpoint underscores_ok (hex : bool) (b : before) (s : string) : bool :=
  match s with
  | EmptyString => negb (bool_decide (b = Underscore))
  | String c s =>
    if ascii_digit (byte c) || (hex && in_range 97 102 (byte (lower c))) then underscores_ok hex Digit s
    else if decide (c = "_"%char) then bool_decide (b = Digit) && underscores_ok hex Underscore s
    else negb (bool_decide (b = Underscore)) && underscores_ok hex Other s
  end.
Definition underscoreOK (s : string) : bool :=
  let s := match s with String "-" s | String "+" s => s | _ => s end in
  match s with
  | String "0" (String c t) =>
    if decide (lower c ∈ ["b"; "o"; "x"]%char) then underscores_ok (bool_decide (lower c = "x"%char)) Digit t
    else underscores_ok false Start s
  | _ => underscores_ok false Start s
  end.

Definition ParseUint0 (s : string) : option Z :=
  if decide (s = ""%string) then None else
  let '(base, digits) := split_base s in
  v ← base_value base 0 digits;
  if (v <? 2 ^ 64) && (negb (Contains s "_") || underscoreOK s)
  then Some v else None.
Definition ParseInt0 (s : string) : option Z :=
  let clip v := if decide (int64_range v) then Some v else None in
  match s with
  | String "-" s => v ← ParseUint0 s; clip (- v)
  | String "+" s => v ← ParseUint0 s; clip v
  | _ => v ← ParseUint0 s; clip v
  end.

(** ** [fmt.Sprintf("0x%08x", n)] *)

Definition hex_digit (d : Z) : ascii := of_byte (if d <? 10 then 48 + d else 87 + d).
Fixpoint hex_digits (fuel : nat) (n : Z) (acc : string) : string :=
  match fuel with
  | O => acc
  | S fuel =>
    let acc := String (hex_digit (n `mod` 16)) acc in
    if n <? 16 then acc else hex_digits fuel (n / 16) acc
  end.
Fixpoint pad0 (k : nat) (s : string) : string := match k with O => s | S k => String "0" (pad0 k s) end.
(** For [0 ≤ n < 2^63], which has at most 16 digits. *)
Definition hex08 (n : Z) : string :=
  let s := hex_digits 16 n "" in ("0x" +:+ pad0 (8 - str_len s) s)%string.

Example hex_1000 : hex08 1000 = "0x000003e8"%string ∧ ParseInt0 (hex08 1000) = Some 1000.
Proof. split; vm_compute; reflexivity. Qed.
Example parse_underscore : map ParseInt0 ["0x_3E8"; "1_000"; "1__0"; "-0b11"; "017"; "08"; "0"; "0x"; ""]%string
  = [Some 1000; Some 1000; None; Some (-3); Some 15; None; Some 0; None; None].
Proof. vm_compute. reflexivity. Qed.

(** ** The header of a length *)

Lemma hex_value_digit d : 0 ≤ d < 16 →
  hex_value (hex_digit d) = Some d ∧ hex_digit d ≠ "_"%char.
Proof.
  intros Hd.
  assert (forallb (λ k, bool_decide (hex_value (hex_digit (Z.of_nat k)) = Some (Z.of_nat k) ∧
    hex_digit (Z.of_nat k) ≠ "_"%char)) (seq 0 16) = true) as Hall by (vm_compute; reflexivity).
  rewrite forallb_forall in Hall. specialize (Hall (Z.to_nat d)). rewrite Z2Nat.id in Hall by lia.
  apply (bool_decide_eq_true (_ ∧ _)), Hall, in_seq. lia.
Qed.

Lemma base_value_digit acc d s : 0 ≤ d < 16 →
  base_value 16 acc (String (hex_digit d) s) = base_value 16 (acc * 16 + d) s.
Proof.
  intros Hd. destruct (hex_value_digit d Hd) as [Hv Hu].
  assert (∀ c, c ≠ "_"%char → base_value 16 acc (String c s) =
    (d ← hex_value c; if d <? 16 then base_value 16 (acc * 16 + d) s else None)) as Heq.
  { intros c Hc. destruct c as [[] [] [] [] [] [] [] []]; try reflexivity. by exfalso. }
  rewrite Heq, Hv by done. cbn. destruct (Z.ltb_spec d 16); [done|lia].
Qed.

(** [hex_digits] puts the digits of [n] in front of [s]. *)
Lemma hex_digits_spec fuel n s :
  0 ≤ n < 16 ^ Z.of_nat fuel → (0 < fuel)%nat →
  ∃ u, hex_digits fuel n s = (u +:+ s)%string ∧ no_char "_" u = true ∧
    (∀ acc t, base_value 16 acc (u +:+ t) = base_value 16 (acc * 16 ^ Z.of_nat (str_len u) + n) t) ∧
    (0 < str_len u)%nat ∧ (∀ k, (0 < k)%nat → n < 16 ^ Z.of_nat k ↔ (str_len u ≤ k)%nat).
Proof.
  revert n s. induction fuel as [|fuel IH]; intros n s Hn Hf; [lia|]. cbn [hex_digits].
  pose proof (Z.mod_pos_bound n 16 ltac:(lia)) as Hm. destruct (hex_value_digit _ Hm) as [Hv Hu].
  assert (no_char "_" (char1 (hex_digit (n `mod` 16))) = true) as Hno.
  { cbn. apply andb_true_iff. split; [|done]. by apply negb_true_iff, bool_decide_eq_false. }
  destruct (Z.ltb_spec n 16) as [Hlt|Hge].
  - exists (char1 (hex_digit (n `mod` 16))). split; [done|]. split; [done|]. split; [|split; [simpl; lia|]].
    + intros acc t. cbn [char1 String.append]. rewrite base_value_digit by done. rewrite Z.mod_small by lia.
      done.
    + intros k Hk. simpl. split; [lia|]. intros _.
      apply Z.lt_le_trans with (16 ^ 1); [lia|]. apply Z.pow_le_mono_r; lia.
  - assert (0 ≤ n / 16 < 16 ^ Z.of_nat fuel) as Hd.
    { rewrite Nat2Z.inj_succ, Z.pow_succ_r in Hn by lia. split; [apply Z.div_pos; lia|].
      apply Z.div_lt_upper_bound; lia. }
    destruct (decide (fuel = 0%nat)) as [->|Hf0]; [simpl in *; lia|].
    destruct (IH (n / 16) (String (hex_digit (n `mod` 16)) s) Hd ltac:(lia)) as (u & -> & Hno2 & Hval & Hpos & Hlen).
    exists (u +:+ char1 (hex_digit (n `mod` 16)))%string. rewrite str_length_app. cbn [str_len char1].
    split; [by rewrite <- str_app_assoc|].
    split; [unfold no_char in *; rewrite str_forall_app; apply andb_true_iff; by split|]. split; [|split; [lia|]].
    + intros acc t. rewrite <- str_app_assoc, Hval. cbn [char1 String.append].
      rewrite base_value_digit by done. f_equal. rewrite Nat2Z.inj_add. cbn.
      rewrite Z.pow_add_r by lia. pose proof (Z.div_mod n 16). lia.
    + intros k Hk. destruct k as [|[|k]]; [lia|simpl; lia|].
      assert (str_len u + 1 ≤ S (S k) ↔ str_len u ≤ S k)%nat as -> by lia. rewrite <- Hlen by lia.
      rewrite (Nat2Z.inj_succ (S k)), (Z.pow_succ_r 16 (Z.of_nat (S k))) by lia. split.
      * intros Hlt. apply Z.div_lt_upper_bound; lia.
      * intros Hlt. pose proof (Z.div_mod n 16). lia.
Qed.

Lemma base_value_pad0 k s : base_value 16 0 (pad0 k s) = base_value 16 0 s.
Proof. induction k as [|k IH]; [done|]. cbn [pad0]. by rewrite <- IH. Qed.

Lemma str_len_pad0 k s : str_len (pad0 k s) = (k + str_len s)%nat.
Proof. induction k as [|k IH]; [done|]. simpl. by rewrite IH. Qed.

Lemma no_char_pad0 k s : no_char "_" s = true → no_char "_" (pad0 k s) = true.
Proof. intros Hs. induction k as [|k IH]; [done|]. simpl. exact IH. Qed.

(** Reading a printed length gives it back; it has ten characters up to 32 bits. *)
Lemma hex08_spec n : 0 ≤ n < 2 ^ 63 →
  ParseInt0 (hex08 n) = Some n ∧ (10 ≤ str_len (hex08 n))%nat ∧ (str_len (hex08 n) = 10%nat ↔ n < 2 ^ 32).
Proof.
  intros Hn. unfold hex08.
  destruct (hex_digits_spec 16 n "") as (u & -> & Hno & Hval & Hpos & Hlen); [cbn; lia|lia|].
  rewrite str_app_nil_r. set (p := pad0 (8 - str_len u) u).
  assert (str_len p = (8 - str_len u) + str_len u)%nat as Hp by apply str_len_pad0.
  assert (base_value 16 0 p = Some n) as Hb.
  { unfold p. rewrite base_value_pad0. rewrite <- (str_app_nil_r u), Hval. done. }
  assert (no_char "_" p = true) as Hnp by by apply no_char_pad0. clearbody p.
  specialize (Hlen 8%nat ltac:(lia)). change (16 ^ Z.of_nat 8) with (2 ^ 32) in Hlen.
  rewrite str_length_app. cbn [str_len]. split; [|split; [lia|rewrite Hlen; lia]].
  unfold ParseInt0. cbn [String.append]. unfold ParseUint0. rewrite decide_False by done.
  destruct p as [|c p]; [simpl in Hp; lia|].
  change (split_base (String "0" (String "x" (String c p)))) with (16, String c p). cbn [mbind option_bind].
  rewrite Hb. cbn [mbind option_bind]. destruct (Z.ltb_spec n (2 ^ 64)); [|lia].
  assert (Contains (String "0" (String "x" (String c p))) "_" = false) as ->.
  { unfold Contains. apply bool_decide_eq_false. change "_"%string with (char1 "_").
    rewrite Index_char_None; [by intros [? ?]|]. exact Hnp. }
  cbn. rewrite decide_True; [done|]. unfold int64_range, min_int64, max_int64. lia.
Qed.
