(* ===== verification/Model.v ===== *)
(** * Trained models (go/model/model.go)

    A model is a directory, kept as a tarball in a table of the file system of go/sqlfs, with
    its metadata in the tarball ([saveDB]) or in front of it behind a header with its length
    ([SaveDBExperimental]).  Commands, JSON, temporary files, gRPC and the connection are the
    class [ModelWorld]. *)

From S2P Require Import Prelude GoStrings GoState GoConv Base64 Sqlfs.

Local Open Scope Z_scope.

Class ModelWorld (D : Type) `{Outside D} := {
  Json : Type;
  Encode : Json → result string;
  NewJson : string → result Json;
  MustString : Json → string → string;             (* Get(key).MustString() *)
  OpenAndConnectDB : string → st D string;         (* the driver's name *)
  hive_params : string → option error;             (* the error of getHdfsParams *)
  TempFile : option error;                         (* of creating the CSV file *)
  TarOut : string → list string * option error;    (* tar czf - -C dir . : its output and its error *)
  RunTar : list string → st D unit;
  ReadFile : string → st D string;
  CreateFile : string → st D unit;
  TempDir : st D string;
  RemoveAll : string → st D unit;
  DownloadModel : string → string → string → st D string (* to a temporary file *)
}.

Definition modelMetaFileName : string := "model_meta.json".

Section model.
Context `{ModelWorld D}.

Record Model := mkModel { workDir : string; TrainSelect : string; Meta : option Json }.
Definition New (cwd trainSelect : string) : Model := mkModel cwd trainSelect None.
Definition GetMetaAsString (m : Model) (key : string) : string :=
  match Meta m with None => "" | Some j => MustString j key end.

(** The hooks of the writer that [sqlfs.Create] gives, and the path of the Hive table. *)
Definition hooks (driver table : string) (hive : string * string * string * string)
    : (string → st (Z * D) unit) * st (Z * D) unit :=
  if decide (driver = "hive"%string) then
    let '(path, user, passwd, addr) := hive in (flushToCSV, uploadCSVFile path table user passwd addr)
  else (flushToSQLTable true table, noopWrapUp).

(** The tarball of a directory, written to the file: [cmd.Run()] with [cmd.Stdout = sqlf] fails
    when tar or a write does. *)
Definition tar_to (flush : string → st (Z * D) unit) (dir : string) : st (flushWriteCloser * (Z * D)) unit :=
  let '(out, e) := TarOut dir in
  wrapS "tar stderr: %v\ntar cmd %v" []
    (Writes flush out ≫= λ _, match e with Some e => fail e | None => mret tt end).

(** The file is closed twice, once by [defer]; [prologue] writes what stands in front. *)
Definition save_with (connStr table : string) (hive : string * string * string * string)
    (prologue : (string → st (Z * D) unit) → st (flushWriteCloser * (Z * D)) unit) (dir : string) : st D unit :=
  driver ← OpenAndConnectDB connStr;
  w ← wrapS "cannot create sqlfs file %s: %v" [table] (Create (hive_params connStr) TempFile driver table);
  let '(flush, wrapup) := hooks driver table hive in
  with_local 0 (with_local w
    (defer (Close flush wrapup)
      (prologue flush ≫= λ _,
       tar_to flush dir ≫= λ _,
       wrapS "close sqlfs error: %v" [] (Close flush wrapup)))).

Definition saveDB (m : Model) (connStr table : string) (hive : string * string * string * string) : st D unit :=
  save_with connStr table hive (λ _, mret tt) (workDir m).

(** The errors of the first two writes are not looked at; without metadata [Encode] panics. *)
Definition SaveDBExperimental (m : Model) (connStr table : string) (hive : string * string * string * string)
    : st D unit :=
  save_with connStr table hive
    (λ flush,
      metaJSONStr ← lift (match Meta m with None => Panic | Some j => Encode j end);
      Write flush (hex08 (Z.of_nat (str_len metaJSONStr))) ≫= λ _,
      Write flush metaJSONStr ≫= λ _, mret tt) (workDir m).

Definition Save (m : Model) (modelURI connStr : string) (hive : string * string * string * string) : st D unit :=
  if Contains modelURI "://" then
    match Split modelURI "://" with
    | ["oss"; _] => fail (Errorf "save model to oss is not supported now" [])
    | _ => fail (Errorf "error modelURI format: %s" [modelURI])
    end%string
  else saveDB m connStr modelURI hive.

(** ** Loading *)

Definition decodeMeta (meta : string) : result Model :=
  j ← NewJson meta;
  Ok (mkModel "" (MustString j "original_sql") (Some j)).
Definition loadMeta (metaFileName : string) : st D Model :=
  data ← catchS (ReadFile metaFileName) (λ _, fail (Errorf "can't read model metadata file" []));
  lift (decodeMeta data).

Definition saveTar (m : Model) (modelDir save : string) : st D string :=
  let modelFile := path_Join [modelDir; TrimSuffix save ".tar.gz" +:+ ".tar.gz"]%string in
  RunTar ["tar"; "czf"; modelFile; "-C"; workDir m; "."]%string ≫= λ _, mret modelFile.

Definition loadTar (modelDir save dst : string) : st D Model :=
  let tarFile := path_Join [modelDir; TrimSuffix save ".tar.gz" +:+ ".tar.gz"]%string in
  catchS (RunTar ["tar"; "zxf"; tarFile; "-C"; dst]%string)
    (λ _, fail (Errorf "unzip tar file %s failed" [modelDir])) ≫= λ _,
  loadMeta (path_Join [dst; modelMetaFileName]).

Definition ExtractMetaFromTarball (tarballName cwd : string) : st D Model :=
  if negb (HasSuffix tarballName ".tar.gz") then fail (Errorf "given file should be a .tar.gz file" []) else
  catchS (RunTar ["tar"; "xpf"; tarballName; "-C"; cwd; "./" +:+ modelMetaFileName]%string)
    (λ e, fail (Errorf "can't unzip model tarball %s: %s, %v" [tarballName])) ≫= λ _,
  let metaPath := path_Join [cwd; modelMetaFileName] in
  defer (RemoveAll metaPath) (loadMeta metaPath).

(** [io.Copy] uses a buffer of 32 KB.  The fuel is the number of reads. *)
Definition copy_size : nat := Z.to_nat (32 * 1024).
Definition open_model {A} (table : string) (m : st (reader * D) A) : st D A :=
  sqlf ← wrapS "Can't open sqlfs %s, %v" [table] (Open table 32);
  with_local sqlf (defer Close_reader m).
(** The file's name and what was copied to it. *)
Definition dump_file (fuel k : nat) (cwd : string) : st (reader * D) (string * string) :=
  let fileName := path_Join [cwd; "model_dump.tar.gz"]%string in
  wrapS "Can't careate model file: %v" [] (at_disk (CreateFile fileName)) ≫= λ _,
  content ← catchS (Copy fuel k) (λ _, fail (Errorf "Can't dump model to local file" []));
  mret (fileName, content).
Definition DumpDBModel (fuel k : nat) (table cwd : string) : st D (string * string) :=
  open_model table (dump_file fuel k cwd).

Definition DumpDBModelExperimental (fuel k : nat) (table cwd : string) : st D (string * Model * string) :=
  open_model table (
    '(lengthHexStr, err) ← Read 12 10;
    if bool_decide (err ≠ None) || negb (Nat.eqb (str_len lengthHexStr) 10)
    then fail (Errorf "read meta length from db error: %v" [])
    else match ParseInt0 lengthHexStr with
    | None => fail (Errorf "convert length head error: %v" [])
    | Some metaLength =>
      if metaLength <? 0 then lift Panic (* make([]byte, metaLength) *) else
      '(metaStr, err) ← Read (Z.to_nat metaLength + 2) (Z.to_nat metaLength);
      match err with
      | Some e => fail (Errorf "read meta json from db error: %v" [err_format e])
      | None =>
        if Z.of_nat (str_len metaStr) =? metaLength then
          model ← wrapS "model meta json parse error: %v" [] (lift (decodeMeta metaStr));
          '(fileName, content) ← dump_file fuel k cwd;
          mret (fileName, model, content)
        else fail (Errorf "read meta json from db error: invalid meta length read %d" [pretty (Z.of_nat (str_len metaStr))])
      end
    end).

(** When [cwd] is empty only the metadata is read, in a temporary directory that is removed. *)
Definition loadModelFromDB (fuel k : nat) (table cwd : string) : st D Model :=
  if decide (cwd = ""%string) then
    cwd ← TempDir;
    defer (RemoveAll cwd) ('(tarFile, _) ← DumpDBModel fuel k table cwd; ExtractMetaFromTarball tarFile cwd)
  else
    '(tarFile, _) ← DumpDBModel fuel k table cwd;
    loadTar (path_Dir tarFile) (path_Base tarFile) cwd.

(** Server, model name and tag of some-domain.com:port/model_name:tag. *)
Definition zoo_parts (modelURI : string) : result (string * string * string) :=
  let uriParts := Split modelURI "/" in
  let modelNameAndTag := Join (tail uriParts) "/" in
  addr ← index uriParts 0;
  match Split modelNameAndTag ":" with
  | [_] => Ok (addr, modelNameAndTag, "")
  | [modelName; modelTag] => Ok (addr, modelName, modelTag)
  | _ => Fail (Errorf "model name after USING must be like [model-zoo.com:port/]model_name[:tag]" [])
  end%string.
Definition loadModelFromZoo (modelURI dst : string) : st D Model :=
  '(addr, name, tag) ← lift (zoo_parts modelURI);
  tmpFile ← DownloadModel addr name tag;
  defer (RemoveAll tmpFile) (loadTar (path_Dir tmpFile) (path_Base tmpFile) dst).

(** A URI with another scheme of two parts falls through to the database. *)
Definition Load (fuel k : nat) (modelURI dst : string) : st D Model :=
  if Contains modelURI "://" then
    match Split modelURI "://" with
    | [scheme; path] =>
      if decide (scheme = "file"%string) then let '(dir, file) := path_Split path in loadTar dir file dst
      else if decide (scheme = "oss"%string) then fail (Errorf "load model from oss is not supported now" [])
      else loadModelFromDB fuel k modelURI dst
    | _ => fail (Errorf "error modelURI format: %s" [modelURI])
    end
  else if Contains modelURI "/" then loadModelFromZoo modelURI dst
  else loadModelFromDB fuel k modelURI dst.
End model.

(** [project] is the database's name, an error if the data source has none. *)
Definition GetOSSModelPath (modelName UserId : string) (project : result string) : result string :=
  projectName ← project;
  let userID := if decide (UserId = ""%string) then "unknown"%string else UserId in
  Ok (Join [projectName; userID; modelName] "/").
