(* ===== verification/ModelFile.v ===== *)
(** * A model that was saved is loaded back (go/model)

    [SaveDBExperimental] and [DumpDBModelExperimental] through the table file system: the
    composition of the two programs with the writer and the reader of go/sqlfs. *)

From S2P Require Import Prelude GoStrings GoState GoConv Base64 Sqlfs SqlfsFile Model.

Local Open Scope Z_scope.

Section model_facts.
Context `{ModelWorld D} `{!BlockDB D}.

(** The queries for a table's blocks do not fail, and their results do not break off. *)
Definition answers (table : string) (rows : option (list (Z * string))) : Prop :=
  ∀ lo hi d, int64_range lo → int64_range hi → table_rows table d = rows →
    ∃ blocks, (SelectBlocks (select_blocks table lo hi) d).1 = Ok (blocks, None).

Lemma bufSize_pos : (0 < bufSize)%nat.
Proof. unfold bufSize. lia. Qed.

(** Closing the SQL writer again does nothing. *)
Lemma Close_again table w rd rd2 w2 :
  Close (flushToSQLTable true table) noopWrapUp (w, rd) = (Ok tt, (w2, rd2)) →
  Close (flushToSQLTable true table) noopWrapUp (w2, rd2) = (Ok tt, (w2, rd2)).
Proof.
  unfold Close. cbv [mbind st_bind get hook attempt on_writer noopWrapUp mret st_ret fail lift].
  destruct (flushToSQLTable true table (buf w) rd) as [[[]|e| |] rd3]; try done.
  by intros [= <- <-].
Qed.

Lemma answers_no_failure table d e : answers table (table_rows table d) → ¬ query_failed table d e.
Proof.
  intros Ha (_ & lo & hi & Hlo & Hhi & Hr). destruct (Ha lo hi d Hlo Hhi eq_refl) as [? Hb]. by rewrite Hr in Hb.
Qed.
Lemma answers_unbroken table d : answers table (table_rows table d) → ¬ breaks_off table d.
Proof.
  intros Ha (lo & hi & r & Hlo & Hhi & Hr & Hbr). destruct (Ha lo hi d Hlo Hhi eq_refl) as [rows Hb].
  rewrite Hr in Hb. cbn in Hb. destruct Hbr as [->|(? & ? & ->)]; done.
Qed.

(** The run of [SaveDBExperimental] when no insertion fails. *)
Lemma SaveDBExperimental_run m j s out connStr driver table hive d0 d1 d3 :
  Meta m = Some j → Encode j = Ok s → TarOut (workDir m) = (out, None) →
  OpenAndConnectDB connStr d0 = (Ok driver, d1) → driver ≠ "hive"%string →
  written driver table bufSize (hex08 (Z.of_nat (str_len s)) :: s :: out) d1 d3 →
  SaveDBExperimental m connStr table hive d0 = (Ok tt, d3).
Proof.
  intros Hm Hj Htar Hdb Hd (w & d2 & wd & w2 & row & Hnew & Hws & Hc).
  unfold SaveDBExperimental, save_with. rewrite (st_bind_run _ _ _ _ _ Hdb). unfold Create.
  rewrite decide_False by done.
  rewrite (st_bind_run _ _ _ w d2) by (unfold wrapS, catchS; by rewrite Hnew).
  unfold hooks. rewrite decide_False by done. rewrite Hm, Hj. unfold with_local, defer, tar_to. rewrite Htar.
  unfold Writes in Hws. cbn [eachS] in Hws.
  apply st_bind_Ok in Hws as (u1 & wd1 & ([n1 e1] & wd1' & Hw1 & He1)%st_bind_Ok & Hws).
  destruct e1; [done|]. apply mret_Ok in He1 as [_ ->].
  apply st_bind_Ok in Hws as (u2 & wd2 & ([n2 e2] & wd2' & Hw2 & He2)%st_bind_Ok & Hws).
  destruct e2; [done|]. apply mret_Ok in He2 as [_ ->].
  fold (Writes (flushToSQLTable true table)) in Hws.
  rewrite (st_bind_run _ _ _ tt wd2).
  2: { rewrite (st_bind_run (lift (Ok s)) _ _ s (w, (0, d2))) by done.
       rewrite (st_bind_run _ _ _ _ _ Hw1), (st_bind_run _ _ _ _ _ Hw2). done. }
  rewrite (st_bind_run _ _ _ tt wd).
  2: { unfold wrapS, catchS. by rewrite (st_bind_run _ _ _ _ _ Hws). }
  unfold wrapS, catchS. rewrite Hc. destruct wd as [w' rd']. by rewrite (Close_again _ _ _ _ _ Hc).
Qed.

(** A read of exactly what comes next. *)
Lemma Read_next table bs N d r a rest :
  table_name table = true → Forall (λ b, b ≠ ""%string) bs → (0 < N)%nat →
  Z.of_nat (length bs) + Z.of_nat N < 2 ^ 63 → table_rows table d = Some (file_rows bs) →
  answers table (table_rows table d) → file_at table bs N False r (a +:+ rest) →
  ∃ r', Read (str_len a + 2) (str_len a) (r, d) = (Ok (a, None), (r', d)) ∧ file_at table bs N False r' rest.
Proof.
  intros Ht Hne HN Hs Hrows Ha Hat.
  destruct (Read_refines_spec table Ht bs Hne N HN Hs d Hrows False (answers_unbroken _ _ Ha) (str_len a) r _ Hat)
    as (out & e & r' & rest' & Hrun & Hat' & Hr & _ & He). destruct e as [e|].
  - destruct He as [_ [(_ & Hz & Hk)|[Hq|Hb]]]; [|by apply answers_no_failure in Hq|done].
    destruct a; [simpl in Hk; lia|done].
  - destruct He as [[Hl|Hb] _]; [|done]. rewrite str_length_app in Hl.
    assert (out = a ∧ rest' = rest) as [-> ->].
    { assert (str_take (str_len a) (out +:+ rest') = str_take (str_len a) (a +:+ rest)) as H1 by by rewrite Hr.
      assert (str_drop (str_len a) (out +:+ rest') = str_drop (str_len a) (a +:+ rest)) as H2 by by rewrite Hr.
      rewrite !str_take_app in H1 by lia. rewrite !str_drop_app in H2 by lia. done. }
    by exists r'.
Qed.

(** The run of [DumpDBModelExperimental] on a file with a header, metadata and a tarball. *)
Lemma DumpDBModelExperimental_run table n s tar j cwd fuel k d d4 r :
  let fileName := path_Join [cwd; "model_dump.tar.gz"]%string in
  let pieces := chunks n (hex08 (Z.of_nat (str_len s)) +:+ s +:+ tar)%string in
  table_name table = true → (0 < n)%nat → Z.of_nat (str_len s) < 2 ^ 32 → NewJson s = Ok j →
  Z.of_nat (str_len (hex08 (Z.of_nat (str_len s)) +:+ s +:+ tar)) + 32 < 2 ^ 63 →
  (0 < k)%nat → (str_len tar < fuel)%nat →
  table_rows table d = Some (file_rows pieces) → answers table (table_rows table d) →
  Open table 32 d = (Ok r, d) → file_at table pieces 32 False r (hex08 (Z.of_nat (str_len s)) +:+ s +:+ tar) →
  CreateFile fileName d = (Ok tt, d4) → table_rows table d4 = table_rows table d →
  DumpDBModelExperimental fuel k table cwd d = (Ok (fileName, mkModel "" (MustString j "original_sql") (Some j), tar), d4).
Proof.
  intros fileName pieces Ht Hn Hlen Hj Hs Hk Hf Hrows Ha Hopen Hat Hcreate Hrows4.
  destruct (hex08_spec (Z.of_nat (str_len s)) ltac:(lia)) as (Hparse & _ & Hten).
  apply Hten in Hlen as Hlen10. clear Hten.
  assert (Forall (λ b, b ≠ ""%string) pieces) as Hne by by apply chunks_nonempty.
  assert (Z.of_nat (length pieces) + Z.of_nat 32 < 2 ^ 63) as Hsm.
  { pose proof (chunks_length n (hex08 (Z.of_nat (str_len s)) +:+ s +:+ tar)%string Hn). unfold pieces. lia. }
  destruct (Read_next table pieces 32 d r _ _ Ht Hne ltac:(lia) Hsm Hrows Ha Hat) as (r1 & Hr1 & Hat1).
  rewrite Hlen10 in Hr1.
  destruct (Read_next table pieces 32 d r1 _ _ Ht Hne ltac:(lia) Hsm Hrows Ha Hat1) as (r2 & Hr2 & Hat2).
  rewrite <- Hrows4 in Hrows, Ha.
  destruct (Copy_spec table pieces 32 d4 False fuel k r2 tar Ht Hne ltac:(lia) Hsm Hrows (answers_unbroken _ _ Ha) Hat2 Hk Hf)
    as (res & r3 & Hr3 & [[-> _]|[(e & _ & Hq)|[Hb _]]]); [|by apply answers_no_failure in Hq|done].
  unfold DumpDBModelExperimental, open_model.
  rewrite (st_bind_run _ _ _ r d) by (unfold wrapS, catchS; by rewrite Hopen).
  unfold with_local, defer. rewrite (st_bind_run _ _ _ _ _ Hr1), Hlen10, Hparse.
  cbn [negb orb Nat.eqb bool_decide decide_rel].
  rewrite bool_decide_eq_false_2 by congruence. cbn [orb]. rewrite (proj2 (Z.ltb_ge _ 0)) by lia. rewrite Nat2Z.id.
  rewrite (st_bind_run _ _ _ _ _ Hr2), Z.eqb_refl.
  rewrite (st_bind_run _ _ _ (mkModel "" (MustString j "original_sql") (Some j)) (r2, d)).
  2: { unfold wrapS, catchS, lift, decodeMeta. by rewrite Hj. }
  rewrite (st_bind_run _ _ _ (fileName, tar) (r3, d4)); [done|].
  unfold dump_file. fold fileName. rewrite (st_bind_run _ _ _ tt (r2, d4)).
  2: { unfold wrapS, catchS, at_disk. by rewrite Hcreate. }
  rewrite (st_bind_run _ _ _ tar (r3, d4)); [done|]. unfold catchS. by rewrite Hr3.
Qed.

(** C5: A model that is saved with its metadata is dumped with the same metadata and the same
    tarball.  When connecting, creating the table and every insertion succeed and the metadata
    is shorter than 4 GiB, [SaveDBExperimental] succeeds, and on its database
    [DumpDBModelExperimental] gives the decoded metadata, the training SELECT in it and, in the
    file it names, the bytes that tar wrote, with a buffer of any size, for every database that
    keeps the promises of [BlockDB], answers queries, and whose tables the file system does not
    touch. *)
Theorem model_roundtrip (m : Model) (j : Json) (s : string) (out : list string)
    (connStr driver table cwd : string) (hive : string * string * string * string)
    (fuel k : nat) (d0 d1 d3 d4 : D) (r : reader) :
  let fileName := path_Join [cwd; "model_dump.tar.gz"]%string in
  let pieces := hex08 (Z.of_nat (str_len s)) :: s :: out in
  (∀ s, Encode j = Ok s → NewJson s = Ok j) → table_name table = true →
  Meta m = Some j → Encode j = Ok s → Z.of_nat (str_len s) < 2 ^ 32 → TarOut (workDir m) = (out, None) →
  OpenAndConnectDB connStr d0 = (Ok driver, d1) → driver ≠ "hive"%string →
  written driver table bufSize pieces d1 d3 → Z.of_nat (str_len (str_concat pieces)) + 32 < 2 ^ 63 →
  answers table (table_rows table d3) → Open table 32 d3 = (Ok r, d3) →
  CreateFile fileName d3 = (Ok tt, d4) → table_rows table d4 = table_rows table d3 →
  (0 < k)%nat → (str_len (str_concat out) < fuel)%nat →
  SaveDBExperimental m connStr table hive d0 = (Ok tt, d3) ∧
  DumpDBModelExperimental fuel k table cwd d3
  = (Ok (fileName, mkModel "" (MustString j "original_sql") (Some j), str_concat out), d4).
Proof.
  intros fileName pieces Hjson Ht Hm Hj Hlen Htar Hdb Hd Hw Hs Ha Hopen Hcreate Hrows4 Hk Hf.
  split; [by eapply SaveDBExperimental_run|].
  destruct (Open_written driver table Ht bufSize 32 pieces d1 d3 r d3 False bufSize_pos ltac:(lia) Hw Hopen) as [_ Hat].
  pose proof (written_rows driver table Ht bufSize pieces d1 d3 bufSize_pos Hw) as Hrows.
  unfold pieces in Hs, Hat, Hrows. rewrite !str_concat_cons in Hs, Hat, Hrows.
  eapply (DumpDBModelExperimental_run table bufSize); try done; [apply bufSize_pos|by apply Hjson].
Qed.
End model_facts.

(** ** A world in memory *)

#[export] Instance memory_model : ModelWorld tables := {|
  Json := string;
  Encode := Ok;
  NewJson := Ok;
  MustString j _ := j;
  OpenAndConnectDB _ d := (Ok "mysql"%string, d);
  hive_params _ := None;
  TempFile := None;
  TarOut dir := (["tar of "; dir]%string, None);
  RunTar _ d := (Ok tt, d);
  ReadFile _ d := (Fail refused, d);
  CreateFile _ d := (Ok tt, d);
  TempDir d := (Ok "/tmp/x"%string, d);
  RemoveAll _ d := (Ok tt, d);
  DownloadModel _ _ _ d := (Fail refused, d)
|}.

Lemma memory_answers t l : table_name t = true → answers (D := tables) t (Some l).
Proof.
  intros Ht lo hi d Hlo Hhi Hl. cbn [SelectBlocks memory_outside fst]. rewrite exec_select_blocks by done.
  cbn [table_rows memory_db] in Hl. rewrite Hl. by eexists.
Qed.

(** What the file holds: a header, the metadata [SELECT 1] and the tarball. *)
Definition demo_file : tables :=
  {[ "m"%string := file_rows ["0x00000008SELECT 1tar of /w"%string] ]}.

#[local] Instance writer_eq_dec : EqDecision flushWriteCloser.
Proof. solve_decision. Defined.

Lemma demo_file_written :
  written "mysql" "m" bufSize ["0x00000008"; "SELECT 1"; "tar of "; "/w"]%string (∅ : tables) demo_file.
Proof.
  exists (newFlushWriteCloser bufSize), {[ "m"%string := [] ]},
    (mkWriter "0x00000008SELECT 1tar of /w" bufSize 0, (0, {[ "m"%string := [] ]})), (newFlushWriteCloser bufSize), 1.
  split_and!; apply (bool_decide_eq_true (_ = _)); vm_compute; reflexivity.
Qed.

Definition demo_model (dir query : string) : @Model tables memory_outside memory_model :=
  @mkModel tables memory_outside memory_model dir query (Some "SELECT 1"%string).

Lemma model_roundtrip_witness :
  SaveDBExperimental (demo_model "/w" "") "db" "m" ("", "", "", "")%string (∅ : tables)
  = (Ok tt, demo_file) ∧
  DumpDBModelExperimental 100 7 "m" "/tmp" demo_file
  = (Ok ("/tmp/model_dump.tar.gz", demo_model "" "SELECT 1", "tar of /w"), demo_file)%string.
Proof.
  apply (@model_roundtrip tables memory_outside memory_model memory_db (demo_model "/w" "") "SELECT 1"%string "SELECT 1" ["tar of "; "/w"]%string
    "db" "mysql" "m" "/tmp" ("", "", "", "")%string 100 7 (∅ : tables) ∅ demo_file demo_file
    (mkReader true "m" "" [] 0 0 32)).
  - by intros s [= <-].
  - reflexivity.
  - reflexivity.
  - reflexivity.
  - vm_compute. reflexivity.
  - reflexivity.
  - reflexivity.
  - done.
  - exact demo_file_written.
  - vm_compute. reflexivity.
  - apply memory_answers. reflexivity.
  - vm_compute. reflexivity.
  - reflexivity.
  - reflexivity.
  - lia.
  - vm_compute. lia.
Defined.
