(* ===== verification/Response.v ===== *)
(** * Messages between the server, the steps and the client (go/proto/response.go,
    go/workflow/response/response.go)

    A row of a result is a list of values of Go's dynamic types, sent as a list of protobuf
    Any messages.  The protobuf library is the class [Protobuf]. *)

From S2P Require Import Prelude GoStrings.

Local Open Scope Z_scope.

(** ** Values *)

(** The types of integers; a value of one of them is an integer in its range. *)
Inductive int_kind := KInt | KInt8 | KInt16 | KInt32 | KInt64 | KUint | KUint8 | KUint16 | KUint32 | KUint64.
#[export] Instance int_kind_eq_dec : EqDecision int_kind.
Proof. solve_decision. Defined.

Definition signed_kind (k : int_kind) : bool :=
  match k with KInt | KInt8 | KInt16 | KInt32 | KInt64 => true | _ => false end.
Definition kind_bits (k : int_kind) : Z :=
  match k with
  | KInt8 | KUint8 => 8 | KInt16 | KUint16 => 16 | KInt32 | KUint32 => 32
  | KInt | KInt64 | KUint | KUint64 => 64
  end.
Definition kind_range (k : int_kind) (z : Z) : Prop :=
  if signed_kind k then - 2 ^ (kind_bits k - 1) ≤ z < 2 ^ (kind_bits k - 1) else 0 ≤ z < 2 ^ kind_bits k.

(** A dynamic value; floats by their bits, a time by its seconds and nanoseconds since 1970. *)
Inductive goval :=
  | VNil | VBool (b : bool) | VInteger (k : int_kind) (z : Z)
  | VFloat32 (bits : Z) | VFloat64 (bits : Z) | VString (s : string) | VBytes (s : string)
  | VTime (seconds nanos : Z) | VOther (type : string).
#[export] Instance goval_eq_dec : EqDecision goval.
Proof. solve_decision. Defined.

(** ** Messages *)

(** Row_Null, the well-known wrappers and Timestamp. *)
Inductive pod :=
  | Row_Null | BoolValue (b : bool) | Int32Value (z : Z) | Int64Value (z : Z) | UInt32Value (z : Z)
  | UInt64Value (z : Z) | FloatValue (bits : Z) | DoubleValue (bits : Z) | StringValue (s : string)
  | BytesValue (s : string) | Timestamp (seconds nanos : Z) | OtherMessage (type : string).

Class Protobuf := {
  any : Type;
  MarshalAny : pod → result any;
  UnmarshalAny : any → option pod;  (* the message of a DynamicAny *)
  Timestamp_String : Z → Z → string
}.

(** What [head] holds under [columnNames]: a list of strings, or a value of another type. *)
Inductive header_value := Columns (names : list string) | NotColumns (type : string).
Notation header := (gmap string header_value).

Section response.
Context `{Protobuf}.

Inductive Response :=
  | Response_Head (ColumnNames : list string)
  | Response_Row (Data : list any)
  | Response_Message (Message : string)
  | Response_Eoe (Sql : string) (SpentTimeSeconds : Z)
  | Response_Job (Id Namespace : string).

Definition EncodeHead (head : header) : result Response :=
  match head !! "columnNames"%string with
  | None => Fail (Errorf "can't find field columnNames in head" [])
  | Some (NotColumns t) => Fail (Errorf "head[columnNames] is of type %T, expected []string" [t])
  | Some (Columns names) => Ok (Response_Head names)
  end.

(** Signed and unsigned values go through 64 bits and are cut to the width of the message. *)
Definition cut_signed (bits z : Z) : Z := (z + 2 ^ (bits - 1)) `mod` 2 ^ bits - 2 ^ (bits - 1).
Definition cut_unsigned (bits z : Z) : Z := z `mod` 2 ^ bits.

Definition encodePODType (val : goval) : result pod :=
  match val with
  | VNil => Ok Row_Null
  | VBool b => Ok (BoolValue b)
  | VInteger (KInt8 | KInt16 | KInt32) z => Ok (Int32Value (cut_signed 32 z))
  | VInteger (KInt | KInt64) z => Ok (Int64Value (cut_signed 64 z))
  | VInteger (KUint8 | KUint16 | KUint32) z => Ok (UInt32Value (cut_unsigned 32 z))
  | VInteger (KUint | KUint64) z => Ok (UInt64Value (cut_unsigned 64 z))
  | VFloat32 f => Ok (FloatValue f)
  | VFloat64 f => Ok (DoubleValue f)
  | VString s => Ok (StringValue s)
  | VBytes s => Ok (BytesValue s)
  | VTime s n => Ok (Timestamp s n)
  | VOther _ => Fail (Errorf "Unknown Go type %#v to be converted into protobuf.Any" [])
  end.

Definition EncodeRow (row : list goval) : result Response :=
  data ← mapR (λ element, pm ← encodePODType element; MarshalAny pm) row;
  Ok (Response_Row data).

Definition EncodeMessage (s : string) : result Response := Ok (Response_Message s).

(** The value, which is nil also where there is an error. *)
Definition DecodePODType (a : any) : goval * option error :=
  match UnmarshalAny a with
  | None => (VNil, None)
  | Some (BoolValue b) => (VBool b, None)
  | Some (Int32Value z) => (VInteger KInt32 z, None)
  | Some (Int64Value z) => (VInteger KInt64 z, None)
  | Some (UInt32Value z) => (VInteger KUint32 z, None)
  | Some (UInt64Value z) => (VInteger KUint64 z, None)
  | Some (FloatValue f) => (VFloat32 f, None)
  | Some (DoubleValue f) => (VFloat64 f, None)
  | Some (StringValue s) => (VString s, None)
  | Some (BytesValue s) => (VBytes s, None)
  | Some (Timestamp s n) => (VString (Timestamp_String s n), None)
  | Some (Row_Null | OtherMessage _) => (VNil, Some (Errorf "unknown Any: %v to convert to go" []))
  end.

(** ** Compound responses of a workflow step *)

Record CompoundResponses := mkResponses { responses : list Response; errMessages : list string }.
Definition New_responses : CompoundResponses := mkResponses [] [].
Definition add_response (p : Response) (r : CompoundResponses) : CompoundResponses :=
  mkResponses (responses r ++ [p]) (errMessages r).
Definition AppendMessage (message : string) (r : CompoundResponses) : result CompoundResponses :=
  res ← EncodeMessage message; Ok (add_response res r).

(** What is behind the first occurrence of [sub]. *)
Definition cut_after (sub s : string) : option string :=
  n ← Index s sub; Some (str_drop (n + str_len sub) s).
(** A line has a match of [<div.*?>.*</div>] if one starts at the first [<div] and the first [>]. *)
Definition isHTMLCode (code : string) : bool :=
  existsb (λ line, bool_decide (is_Some (rest ← cut_after "<div" line; rest ← cut_after ">" rest; cut_after "</div>" rest)))
    (Split code (char1 (of_byte 10))).
Example isHTMLCode_lines :
  isHTMLCode "a<div id=1>b</div>" = true ∧ isHTMLCode ("<div>" +:+ char1 (of_byte 10) +:+ "</div>") = false.
Proof. vm_compute. done. Qed.

(** [proto.UnmarshalText] is an argument. *)
Definition unmarshal_line (UnmarshalText : string → option Response)
    (acc : list Response * list string) (msg : string) : list Response * list string :=
  let '(out, errs) := acc in
  let msg := TrimSpace msg in
  let out := if isHTMLCode msg then out ++ [Response_Message msg] else out in
  match UnmarshalText msg with
  | None => (out, errs)
  | Some (Response_Message m) => (out, errs ++ [m])
  | Some response => (out ++ [response], errs)
  end.
Definition unMarshalProtoMessages (UnmarshalText : string → option Response)
    (messages : list string) : list Response * list string :=
  foldl (unmarshal_line UnmarshalText) ([], []) messages.
Definition AppendProtoMessages (UnmarshalText : string → option Response)
    (messages : list string) (r : CompoundResponses) : CompoundResponses :=
  let '(out, errs) := unMarshalProtoMessages UnmarshalText messages in
  mkResponses (responses r ++ out) (errMessages r ++ errs).
Definition ErrorMessage (r : CompoundResponses) : string := Join (errMessages r) (char1 (of_byte 10)).

Record FetchRequest := mkFetchRequest { JobId : string; JobNamespace : string; StepId : string; StepPhase : string }.
Record FetchResponse := mkFetchResponse { UpdatedFetchSince : FetchRequest; Eof : bool; Responses : list Response }.

Definition to_FetchResponse (r : CompoundResponses) (jobID namespace stepID stepPhase : string) (eof : bool)
    : FetchResponse :=
  mkFetchResponse (mkFetchRequest jobID namespace stepID stepPhase) eof (responses r).
Definition ResponseWithStepComplete (r : CompoundResponses) (jobID namespace stepID stepPhase : string) (eof : bool)
    : FetchResponse :=
  to_FetchResponse (add_response (Response_Eoe "" 0) r) jobID namespace stepID stepPhase eof.

(** ** What a value becomes on the way *)

Definition widened (k : int_kind) : int_kind :=
  match k with
  | KInt8 | KInt16 | KInt32 => KInt32
  | KInt | KInt64 => KInt64
  | KUint8 | KUint16 | KUint32 => KUint32
  | KUint | KUint64 => KUint64
  end.
Definition received (v : goval) : goval :=
  match v with
  | VInteger k z => VInteger (widened k) z
  | VTime s n => VString (Timestamp_String s n)
  | VOther _ => VNil
  | v => v
  end.
Definition well_typed (v : goval) : Prop := match v with VInteger k z => kind_range k z | _ => True end.

Lemma cut_signed_id bits z : 0 < bits → - 2 ^ (bits - 1) ≤ z < 2 ^ (bits - 1) → cut_signed bits z = z.
Proof.
  intros Hb Hz. unfold cut_signed. assert (2 ^ bits = 2 * 2 ^ (bits - 1)) as ->.
  { rewrite <- Z.pow_succ_r by lia. f_equal. lia. }
  rewrite Z.mod_small; lia.
Qed.

Lemma encode_received v pm a :
  (∀ m a, MarshalAny m = Ok a → UnmarshalAny a = Some m) → well_typed v →
  encodePODType v = Ok pm → MarshalAny pm = Ok a → (DecodePODType a).1 = received v.
Proof.
  intros Hlaw Hv He Hm. apply Hlaw in Hm. unfold DecodePODType. rewrite Hm. destruct v as [| |k z| | | | | |]; try done;
    cbn in He; try (injection He as <-; done).
  destruct k; injection He as <-; cbn in *; unfold kind_range in Hv; cbn in Hv;
    (rewrite cut_signed_id || unfold cut_unsigned); rewrite ?Z.mod_small; (done || lia).
Qed.

Lemma EncodeRow_received row resp :
  (∀ m a, MarshalAny m = Ok a → UnmarshalAny a = Some m) → Forall well_typed row → EncodeRow row = Ok resp →
  ∃ data, resp = Response_Row data ∧ map (λ a, (DecodePODType a).1) data = map received row.
Proof.
  intros Hlaw Hrow (data & Hd%mapR_Forall2 & [= <-])%bind_Ok. exists data. split; [done|].
  induction Hd as [|v a row data Ha _ IH]; [done|]. inversion Hrow as [|? ? Hv Hrow']; subst.
  apply bind_Ok in Ha as (pm & He & Hm). cbn. f_equal; [by eapply encode_received|by apply IH].
Qed.

(** A row arrives as it was sent: where the protobuf library unpacks what it packed, every
    value that can be sent, whatever its type, is received with the same value.  Integers keep
    their value and sign and are widened to 32 or 64 bits, a time arrives as its text, and only
    a NULL comes with an error next to the nil that stands for it. *)
Theorem row_roundtrip (row : list goval) (resp : Response) :
  (∀ m a, MarshalAny m = Ok a → UnmarshalAny a = Some m) → Forall well_typed row → EncodeRow row = Ok resp →
  ∃ data, resp = Response_Row data ∧ length data = length row ∧ (λ a, (DecodePODType a).1) <$> data = received <$> row ∧
    Forall2 (λ v a, (DecodePODType a).2 = None ↔ v ≠ VNil) row data.
Proof.
  intros Hlaw Hrow (data & Hd%mapR_Forall2 & [= <-])%bind_Ok. exists data. split; [done|].
  split; [by rewrite (Forall2_length _ _ _ Hd)|]. induction Hd as [|v a row data Ha _ IH]; [by split|].
  inversion Hrow as [|? ? Hv Hrow']; subst. apply bind_Ok in Ha as (pm & He & Hm).
  destruct (IH Hrow') as [IH1 IH2]. split.
  - cbn. f_equal; [by eapply encode_received|exact IH1].
  - constructor; [|exact IH2]. apply Hlaw in Hm. unfold DecodePODType. rewrite Hm.
    destruct v as [| |k z| | | | | |]; cbn in He; try done; [| |destruct k|..];
      injection He as <-; cbn; split; try done.
Qed.
End response.

(** A library that packs a message as it is. *)
#[export] Instance plain_protobuf : Protobuf := {|
  any := pod;
  MarshalAny := Ok;
  UnmarshalAny := Some;
  Timestamp_String s n := "seconds:" +:+ pretty s
|}.

Definition demo_row : list goval :=
  [VNil; VInteger KInt8 (-7); VInteger KUint16 65535; VInteger KInt (-9223372036854775808); VBytes "ab"; VTime 5 0].

Definition demo_response : @Response plain_protobuf :=
  @Response_Row plain_protobuf [Row_Null; Int32Value (-7); UInt32Value 65535;
    Int64Value (-9223372036854775808); BytesValue "ab"; Timestamp 5 0].

Lemma row_roundtrip_witness :
  ∃ data, demo_response = Response_Row data ∧ length data = 6%nat ∧
    (λ a, (DecodePODType a).1) <$> data = received <$> demo_row.
Proof.
  destruct (row_roundtrip demo_row demo_response) as (data & H1 & H2 & H3 & _).
  - by intros m a [= ->].
  - repeat constructor; done.
  - vm_compute. reflexivity.
  - exists data. split; [exact H1|]. split; [exact H2|exact H3].
Defined.
