(* ===== verification/TableWriter.v ===== *)
(** * Writing result tables (go/step/tablewriter)

    A table is written as protobuf text for another program or as ASCII art for a terminal.
    Both writers buffer rows.  The output is the class [Output]: what writing a message, a
    newline or a rendered table does to the outside state. *)

From S2P Require Import Prelude GoStrings GoState Response.

Local Open Scope Z_scope.

Class Output (D : Type) `{Protobuf} := {
  CompactText : Response → st D unit;                          (* proto.CompactText *)
  WriteOut : string → st D unit;                               (* out.Write *)
  RenderTable : list string → list (list string) → st D unit;  (* header and lines of a tablewriter.Table *)
  Sprint : goval → string
}.

(** [Create] knows two names. *)
Inductive writer_kind := ASCII | PROTOBUF.
Definition Create_writer (name : string) : result writer_kind :=
  if decide (name = "ascii"%string) then Ok ASCII
  else if decide (name = "protobuf"%string) then Ok PROTOBUF
  else Fail (Errorf "SQLFLow does not support the tablewriter : %s" [name]).

Section protobuf.
Context `{Output D}.

(** ** protobuf.go *)

Record ProtobufWriter := mkProtobufWriter {
  head : header;
  rows : list (list goval);
  pb_bufSize : Z;
  hasWrittenHeader : bool
}.
Notation W := (ProtobufWriter * D)%type.

Definition createProtobufWriter (bufSize : Z) : ProtobufWriter := mkProtobufWriter ∅ [] bufSize false.

Definition on_table (f : ProtobufWriter → ProtobufWriter) : st W unit := λ '(t, d), (Ok tt, (f t, d)).
Definition at_out {A} (m : st D A) : st W A := λ '(t, d), let '(r, d) := m d in (r, (t, d)).

Definition formatWrite (msg : Response) : st D unit :=
  CompactText msg ≫= λ _, WriteOut (char1 (of_byte 10)).

Definition SetHeader (h : header) : st W unit :=
  on_table (λ t, mkProtobufWriter h (rows t) (pb_bufSize t) (hasWrittenHeader t)).

Definition writeHead : st W unit :=
  '(t, _) ← get;
  if decide (head t = ∅) then mret tt
  else if hasWrittenHeader t then mret tt
  else
    response ← lift (EncodeHead (head t));
    on_table (λ t, mkProtobufWriter (head t) (rows t) (pb_bufSize t) true) ≫= λ _,
    at_out (formatWrite response).

(** The error of [formatWrite] is not looked at. *)
Definition writeRow (row : list goval) : st W unit :=
  response ← lift (EncodeRow row);
  attempt (at_out (formatWrite response)) ≫= λ _, mret tt.
Definition writeRows : st W unit := '(t, _) ← get; eachS writeRow (rows t).

Definition Flush : st W unit :=
  writeHead ≫= λ _, writeRows ≫= λ _,
  on_table (λ t, mkProtobufWriter (head t) [] (pb_bufSize t) (hasWrittenHeader t)).

Definition AppendRow (row : list goval) : st W unit :=
  on_table (λ t, mkProtobufWriter (head t) (rows t ++ [row]) (pb_bufSize t) (hasWrittenHeader t)) ≫= λ _,
  '(t, _) ← get;
  if pb_bufSize t <=? Z.of_nat (length (rows t)) then Flush else mret tt.

(** A failing [Flush] is reported as success. *)
Definition FlushWithError (err : string) : st W unit :=
  r ← attempt Flush;
  match r with
  | inr _ => mret tt
  | inl _ => response ← lift (EncodeMessage err); at_out (formatWrite response)
  end.

(** ** ascii.go *)

(** [tablewriter.Table] has the header and the lines that were appended. *)
Record ASCIIWriter := mkASCIIWriter { cols : list string; lines : list (list string); ascii_bufSize : Z }.
Notation A := (ASCIIWriter * D)%type.
Definition createASCIIWriter (bufSize : Z) : ASCIIWriter := mkASCIIWriter [] [] bufSize.
Definition on_ascii (f : ASCIIWriter → ASCIIWriter) : st A unit := λ '(t, d), (Ok tt, (f t, d)).
Definition at_terminal {X} (m : st D X) : st A X := λ '(t, d), let '(r, d) := m d in (r, (t, d)).

Definition ascii_SetHeader (h : header) : st A unit :=
  match h !! "columnNames"%string with
  | None => fail (Errorf "can't find field columnNames in head" [])
  | Some (NotColumns _) => fail (Errorf "invalid header type" [])
  | Some (Columns names) => on_ascii (λ t, mkASCIIWriter names (lines t) (ascii_bufSize t))
  end.

(** [Render], then [ClearRows]; rendering has no error of its own. *)
Definition render_and_clear : st A unit :=
  '(t, _) ← get;
  attempt (at_terminal (RenderTable (cols t) (lines t))) ≫= λ _,
  on_ascii (λ t, mkASCIIWriter (cols t) [] (ascii_bufSize t)).
Definition ascii_AppendRow (row : list goval) : st A unit :=
  on_ascii (λ t, mkASCIIWriter (cols t) (lines t ++ [map Sprint row]) (ascii_bufSize t)) ≫= λ _,
  '(t, _) ← get;
  if ascii_bufSize t <=? Z.of_nat (length (lines t)) then render_and_clear else mret tt.
Definition ascii_Flush : st A unit :=
  '(t, _) ← get;
  if decide (0 < length (lines t))%nat then render_and_clear else mret tt.
Definition ascii_FlushWithError (err : string) : st A unit :=
  ascii_Flush ≫= λ _, at_terminal (WriteOut err).
End protobuf.

(** ** The stream of messages

    [emitted d] are the messages that the output has got; an output that works takes each. *)

Class WorkingOutput (D : Type) `{Output D} := {
  emitted : D → list Response;
  emits r d : ∃ d', formatWrite r d = (Ok tt, d') ∧ emitted d' = emitted d ++ [r];
  tables_shown : D → list (list string * list (list string));
  renders cs ls d : ∃ d', RenderTable cs ls d = (Ok tt, d') ∧ tables_shown d' = tables_shown d ++ [(cs, ls)]
}.

Section stream.
Context `{WorkingOutput D}.
Notation W := (ProtobufWriter * D)%type.

(** What a program does with a writer behind the header. *)
Inductive op := Row (row : list goval) | FlushNow.
Definition run_op (o : op) : st W unit := match o with Row row => AppendRow row | FlushNow => Flush end.
Definition op_rows (ops : list op) : list (list goval) :=
  omap (λ o, match o with Row row => Some row | FlushNow => None end) ops.

(** The messages of a table: those that are out, the header if it is to come, the rows in the
    buffer.  [names] is the header, [resps] what the buffered rows become. *)
Definition stream_at (names : list string) (w : W) (log : list Response) : Prop :=
  ∃ resps, mapR EncodeRow (rows w.1) = Ok resps ∧ head w.1 !! "columnNames"%string = Some (Columns names) ∧
    emitted w.2 ++ (if hasWrittenHeader w.1 then [] else [Response_Head names]) ++ resps = log.

Lemma eachS_writeRow t d rs resps :
  mapR EncodeRow rs = Ok resps →
  ∃ d', eachS writeRow rs (t, d) = (Ok tt, (t, d')) ∧ emitted d' = emitted d ++ resps.
Proof.
  revert d resps. induction rs as [|row rs IH]; intros d resps; cbn [mapR].
  - intros [= <-]. exists d. by rewrite app_nil_r.
  - intros (resp & Hresp & (resps' & Hrs & [= <-])%bind_Ok)%bind_Ok. cbn [eachS].
    destruct (emits resp d) as (d1 & Hf & He). destruct (IH d1 _ Hrs) as (d2 & Hr & He2).
    exists d2. split; [|by rewrite He2, He, <- app_assoc].
    rewrite (st_bind_run _ _ _ tt (t, d1)); [exact Hr|]. unfold writeRow.
    rewrite (st_bind_run _ _ _ resp (t, d)) by (unfold lift; by rewrite Hresp).
    rewrite (st_bind_run _ _ _ (inl tt) (t, d1)); [done|]. unfold attempt, at_out. by rewrite Hf.
Qed.

Lemma Flush_stream names w log :
  stream_at names w log →
  ∃ w', Flush w = (Ok tt, w') ∧ stream_at names w' log ∧ rows w'.1 = [] ∧ hasWrittenHeader w'.1 = true ∧
    pb_bufSize w'.1 = pb_bufSize w.1.
Proof.
  destruct w as [[h rs b hw] d]. intros (resps & Hrs & Hh & Hlog). cbn in *.
  assert (h ≠ ∅) as Hne by (intros ->; done).
  assert (∃ d1, writeHead (mkProtobufWriter h rs b hw, d) = (Ok tt, (mkProtobufWriter h rs b true, d1)) ∧
    emitted d1 = emitted d ++ (if hw then [] else [Response_Head names])) as (d1 & Hw & He1).
  { unfold writeHead. rewrite (st_bind_run get _ _ _ _ eq_refl). cbn. rewrite decide_False by done. destruct hw.
    - exists d. by rewrite app_nil_r.
    - destruct (emits (Response_Head names) d) as (d1 & Hf & He). exists d1. split; [|done].
      unfold EncodeHead. rewrite Hh. unfold mbind, st_bind, lift, on_table, at_out. cbn. by rewrite Hf. }
  destruct (eachS_writeRow (mkProtobufWriter h rs b true) d1 rs resps Hrs) as (d2 & Hr & He2).
  exists (mkProtobufWriter h [] b true, d2). split.
  - unfold Flush. rewrite (st_bind_run _ _ _ _ _ Hw). unfold writeRows.
    rewrite (st_bind_run _ _ _ tt (mkProtobufWriter h rs b true, d2)); [done|].
    by rewrite (st_bind_run get _ _ _ _ eq_refl).
  - split; [|done]. exists []. split_and!; [done..|]. cbn. by rewrite !app_nil_r, He2, He1, <- Hlog, !app_assoc.
Qed.

Lemma AppendRow_stream names w log row resp :
  stream_at names w log → EncodeRow row = Ok resp →
  ∃ w', AppendRow row w = (Ok tt, w') ∧ stream_at names w' (log ++ [resp]).
Proof.
  destruct w as [[h rs b hw] d]. intros (resps & Hrs & Hh & Hlog) Hresp. cbn in *.
  assert (stream_at names (mkProtobufWriter h (rs ++ [row]) b hw, d) (log ++ [resp])) as Hs.
  { exists (resps ++ [resp]). split_and!; [|done|]; cbn.
    - apply mapR_Forall2, Forall2_app; [by apply mapR_Forall2|by repeat constructor].
    - by rewrite <- Hlog, !app_assoc. }
  unfold AppendRow. rewrite (st_bind_run _ _ _ tt (mkProtobufWriter h (rs ++ [row]) b hw, d)) by done.
  rewrite (st_bind_run get _ _ _ _ eq_refl). cbn. destruct (b <=? _); [|by eexists].
  destruct (Flush_stream _ _ _ Hs) as (w' & Hr & Hs' & _). by exists w'.
Qed.

(** A table arrives as it was written, whatever the size of the buffer and wherever else
    the writer is flushed: after the header, any rows that can be encoded and flushes in
    between, and a last flush, the output has got the header once and first, then each row
    once, in order, and nothing is left in the buffer; no call fails. *)
Theorem protobuf_stream (bufSize : Z) (h : header) (names : list string) (ops : list op) (resps : list Response) (d : D) :
  h !! "columnNames"%string = Some (Columns names) → mapR EncodeRow (op_rows ops) = Ok resps →
  ∃ t d', (SetHeader h ≫= λ _, eachS run_op ops ≫= λ _, Flush) (createProtobufWriter bufSize, d) = (Ok tt, (t, d')) ∧
    emitted d' = emitted d ++ Response_Head names :: resps ∧ rows t = [].
Proof.
  intros Hh Hops.
  rewrite (st_bind_run _ _ _ tt (mkProtobufWriter h [] bufSize false, d)) by done.
  assert (stream_at names (mkProtobufWriter h [] bufSize false, d) (emitted d ++ [Response_Head names])) as Hs.
  { exists []. split_and!; [done..|]. cbn. done. }
  assert (∃ w', eachS run_op ops (mkProtobufWriter h [] bufSize false, d) = (Ok tt, w') ∧
    stream_at names w' ((emitted d ++ [Response_Head names]) ++ resps)) as (w' & Hr & Hs').
  { revert Hs. generalize (emitted d ++ [Response_Head names]) (mkProtobufWriter h [] bufSize false, d).
    revert resps Hops. induction ops as [|o ops IH]; intros resps Hops log w Hs; cbn [eachS].
    - injection Hops as <-. exists w. by rewrite app_nil_r.
    - destruct o as [row|]; cbn [op_rows omap list_omap] in Hops.
      + cbn [mapR] in Hops. apply bind_Ok in Hops as (resp & Hresp & (resps' & Hrs & [= <-])%bind_Ok).
        destruct (AppendRow_stream _ _ _ _ _ Hs Hresp) as (w1 & Hr1 & Hs1).
        destruct (IH _ Hrs _ _ Hs1) as (w2 & Hr2 & Hs2). exists w2. split; [|by rewrite <- app_assoc in Hs2].
        by rewrite (st_bind_run _ _ _ _ _ Hr1).
      + destruct (Flush_stream _ _ _ Hs) as (w1 & Hr1 & Hs1 & _). destruct (IH _ Hops _ _ Hs1) as (w2 & Hr2 & Hs2).
        exists w2. split; [|done]. by rewrite (st_bind_run _ _ _ _ _ Hr1). }
  rewrite (st_bind_run _ _ _ _ _ Hr).
  destruct (Flush_stream _ _ _ Hs') as ([t d2] & Hr2 & (rs & Hrs & _ & Hlog) & Hnil & Hhw & _). cbn in *.
  exists t, d2. split; [done|]. split; [|done]. rewrite Hnil in Hrs. injection Hrs as <-. rewrite Hhw in Hlog.
  cbn in Hlog. by rewrite app_nil_r, <- app_assoc in Hlog.
Qed.
End stream.

(** ** The tables on a terminal *)

Section terminal.
Context `{WorkingOutput D}.
Notation A := (ASCIIWriter * D)%type.

(** The lines of the tables that were shown behind the first [n], and the lines to come. *)
Definition shown_lines (n : nat) (w : A) : list (list string) :=
  concat (drop n (tables_shown w.2)).*2 ++ lines w.1.

Definition ascii_ok (names : list string) (b : Z) (n : nat) (w : A) : Prop :=
  cols w.1 = names ∧ ascii_bufSize w.1 = b ∧ (n ≤ length (tables_shown w.2))%nat ∧
  Z.of_nat (length (lines w.1)) < Z.max 1 b ∧
  Forall (λ t, t.1 = names ∧ 0 < Z.of_nat (length t.2) ≤ Z.max 1 b) (drop n (tables_shown w.2)).

Lemma render_and_clear_ok c b n ls d :
  (n ≤ length (tables_shown d))%nat → 0 < Z.of_nat (length ls) ≤ Z.max 1 b →
  Forall (λ t, t.1 = c ∧ 0 < Z.of_nat (length t.2) ≤ Z.max 1 b) (drop n (tables_shown d)) →
  ∃ w', render_and_clear (mkASCIIWriter c ls b, d) = (Ok tt, w') ∧ ascii_ok c b n w' ∧ lines w'.1 = [] ∧
    shown_lines n w' = shown_lines n (mkASCIIWriter c ls b, d).
Proof.
  intros Hn Hl Hf. unfold render_and_clear. rewrite (st_bind_run get _ _ _ _ eq_refl). cbn [cols lines].
  destruct (renders c ls d) as (d' & Hr & He).
  rewrite (st_bind_run _ _ _ (inl tt) (mkASCIIWriter c ls b, d')) by (unfold attempt, at_terminal; by rewrite Hr).
  eexists. split; [reflexivity|]. unfold ascii_ok, shown_lines. cbn.
  rewrite He, length_app, (drop_app_le _ _ n) by done. cbn. split_and!; try done; try lia.
  - apply Forall_app. split; [done|]. by constructor; [split|constructor].
  - rewrite fmap_app, concat_app. cbn. by rewrite !app_nil_r.
Qed.

Lemma ascii_AppendRow_ok c b n w row :
  ascii_ok c b n w → ∃ w', ascii_AppendRow row w = (Ok tt, w') ∧ ascii_ok c b n w' ∧
    shown_lines n w' = shown_lines n w ++ [map Sprint row].
Proof.
  destruct w as [[c' ls b'] d]. intros (Hc & Hb & Hn & Hl & Hf). cbn in Hc, Hb, Hn, Hl, Hf. subst b' c'.
  unfold ascii_AppendRow.
  rewrite (st_bind_run _ _ _ tt (mkASCIIWriter c (ls ++ [map Sprint row]) b, d)) by done.
  rewrite (st_bind_run get _ _ _ _ eq_refl). cbn [ascii_bufSize lines]. rewrite length_app. cbn [length].
  assert (shown_lines n (mkASCIIWriter c (ls ++ [map Sprint row]) b, d)
    = shown_lines n (mkASCIIWriter c ls b, d) ++ [map Sprint row]) as Hs by (unfold shown_lines; cbn; by rewrite app_assoc).
  destruct (Z.leb_spec b (Z.of_nat (length ls + 1))) as [Hle|Hlt].
  - destruct (render_and_clear_ok c b n (ls ++ [map Sprint row]) d) as (w' & Hr & Hok & _ & He);
      [done|rewrite length_app; cbn; lia|done|]. exists w'. split_and!; [done..|congruence].
  - eexists. split; [reflexivity|]. split; [|done]. unfold ascii_ok. cbn. rewrite length_app. cbn.
    split_and!; try done; lia.
Qed.

Lemma ascii_rows_ok c b n rs w :
  ascii_ok c b n w → ∃ w', eachS ascii_AppendRow rs w = (Ok tt, w') ∧ ascii_ok c b n w' ∧
    shown_lines n w' = shown_lines n w ++ map (map Sprint) rs.
Proof.
  revert w. induction rs as [|row rs IH]; intros w Hok; cbn [eachS map].
  - exists w. rewrite app_nil_r. by split.
  - destruct (ascii_AppendRow_ok c b n w row Hok) as (w1 & Hr1 & Hok1 & Hs1).
    destruct (IH w1 Hok1) as (w2 & Hr2 & Hok2 & Hs2). exists w2.
    split; [by rewrite (st_bind_run _ _ _ _ _ Hr1)|]. split; [done|]. by rewrite Hs2, Hs1, <- app_assoc.
Qed.

Lemma ascii_Flush_ok c b n w :
  ascii_ok c b n w → ∃ w', ascii_Flush w = (Ok tt, w') ∧ lines w'.1 = [] ∧
    concat (drop n (tables_shown w'.2)).*2 = shown_lines n w ∧
    Forall (λ t, t.1 = c ∧ 0 < Z.of_nat (length t.2) ≤ Z.max 1 b) (drop n (tables_shown w'.2)).
Proof.
  destruct w as [[c' ls b'] d]. intros (Hc & Hb & Hn & Hl & Hf). cbn in Hc, Hb, Hn, Hl, Hf. subst b' c'.
  unfold ascii_Flush. rewrite (st_bind_run get _ _ _ _ eq_refl). cbn [lines]. case_decide as Hpos.
  - destruct (render_and_clear_ok c b n ls d) as (w2 & Hr2 & (_ & _ & _ & _ & Hf2) & Hnil & He); [done|lia|done|].
    exists w2. split_and!; [done..| |done]. unfold shown_lines in He at 1. by rewrite Hnil, app_nil_r in He.
  - destruct ls; [|simpl in Hpos; lia]. eexists. split; [reflexivity|]. split_and!; [done| |done].
    unfold shown_lines. cbn. by rewrite app_nil_r.
Qed.

Lemma ascii_start b names d : ascii_ok names b (length (tables_shown d)) (mkASCIIWriter names [] b, d) ∧
  shown_lines (length (tables_shown d)) (mkASCIIWriter names [] b, d) = [].
Proof. unfold ascii_ok, shown_lines. cbn. rewrite drop_all. split_and!; try done; lia. Qed.

(** On a terminal the rows are shown in tables with the header of the result that are never
    empty nor longer than the buffer (or than one row, when the buffer is smaller), and after the
    last flush their lines, taken together, are the rows in order. *)
Theorem ascii_tables (b : Z) (h : header) (names : list string) (rs : list (list goval)) (d : D) :
  h !! "columnNames"%string = Some (Columns names) →
  ∃ t d', (ascii_SetHeader h ≫= λ _, eachS ascii_AppendRow rs ≫= λ _, ascii_Flush) (createASCIIWriter b, d) = (Ok tt, (t, d')) ∧
    let shown := drop (length (tables_shown d)) (tables_shown d') in
    lines t = [] ∧ concat shown.*2 = map (map Sprint) rs ∧
    Forall (λ t, t.1 = names ∧ 0 < Z.of_nat (length t.2) ≤ Z.max 1 b) shown.
Proof.
  intros Hh. rewrite (st_bind_run _ _ _ tt (mkASCIIWriter names [] b, d)) by (unfold ascii_SetHeader; by rewrite Hh).
  destruct (ascii_start b names d) as [Hok Hs]. destruct (ascii_rows_ok _ _ _ rs _ Hok) as (w1 & Hr1 & Hok1 & Hs1).
  destruct (ascii_Flush_ok _ _ _ _ Hok1) as ([t d'] & Hr2 & Hnil & He & Hf). rewrite (st_bind_run _ _ _ _ _ Hr1).
  exists t, d'. split; [exact Hr2|]. split; [exact Hnil|]. split; [|exact Hf]. by rewrite Hs1, Hs in He.
Qed.
End terminal.

(** ** An output that keeps everything *)

Notation recording := (list (@Response plain_protobuf) * list (list string * list (list string)))%type.

#[export] Instance recording_output : Output recording := {|
  CompactText r d := (Ok tt, (d.1 ++ [r], d.2));
  WriteOut _ d := (Ok tt, d);
  RenderTable cs ls d := (Ok tt, (d.1, d.2 ++ [(cs, ls)]));
  Sprint v := match v with VString s => s | VInteger _ z => pretty z | _ => "?"%string end
|}.
#[export] Instance recording_works : WorkingOutput recording.
Proof.
  refine {| emitted d := d.1; tables_shown d := d.2 |}.
  - intros r d. by eexists.
  - intros cs ls d. by eexists.
Defined.

Definition demo_header : header := {[ "columnNames"%string := Columns ["a"%string] ]}.

Definition demo_stream : list (@Response plain_protobuf) :=
  map (@Response_Row plain_protobuf) [[StringValue "x"]; [Int32Value 3]; [Row_Null]].

Lemma protobuf_stream_witness :
  ∃ t d', (SetHeader demo_header ≫= λ _,
      eachS run_op [Row [VString "x"]; FlushNow; Row [VInteger KInt8 3]; Row [VNil]] ≫= λ _, Flush)
    (createProtobufWriter 2, ([], []) : recording) = (Ok tt, (t, d')) ∧
    emitted d' = Response_Head ["a"%string] ::
      demo_stream ∧ rows t = [].
Proof.
  destruct (protobuf_stream 2 demo_header ["a"%string]
    [Row [VString "x"]; FlushNow; Row [VInteger KInt8 3]; Row [VNil]] demo_stream (([], []) : recording))
    as (t & d' & H1 & H2 & H3).
  - reflexivity.
  - vm_compute. reflexivity.
  - exists t, d'. split; [exact H1|]. split; [exact H2|exact H3].
Defined.

Lemma ascii_tables_witness :
  ∃ t d', (ascii_SetHeader demo_header ≫= λ _, eachS ascii_AppendRow [[VString "x"]; [VString "y"]; [VString "z"]]
      ≫= λ _, ascii_Flush) (createASCIIWriter 2, ([], []) : recording) = (Ok tt, (t, d')) ∧ lines t = [] ∧
    concat (tables_shown d').*2 = [["x"]; ["y"]; ["z"]]%string.
Proof.
  destruct (ascii_tables 2 demo_header ["a"%string] [[VString "x"]; [VString "y"]; [VString "z"]]
    (([], []) : recording) eq_refl) as (t & d' & H1 & H2 & H3 & _).
  exists t, d'. split; [exact H1|]. split; [exact H2|exact H3].
Defined.
