(* ===== verification/Argo.v ===== *)
(** * Following a workflow (go/workflow/argo/fetch.go, workflow.go)

    A program that runs as an Argo workflow is followed by a client that calls [Fetch] again
    and again with the request of the last response.  Kubernetes is the record [K8s]: what it
    answers during one call. *)

From S2P Require Import Prelude GoStrings Response.

Local Open Scope Z_scope.

(** ** Resources *)

Record Node := mkNode { Type_ : string; Children : list string }.
Record Workflow := mkWorkflow {
  wf_Name : string;
  wf_Namespace : string;
  wf_Phase : string;
  Templates : list nat;  (* the number of steps of each template *)
  Nodes : gmap string Node
}.
Record Pod := mkPod {
  pod_Name : string;
  pod_Phase : string;
  Containers : list (list string * list string)  (* command and arguments *)
}.

Definition NodeTypePod : string := "Pod".
Definition NodeTypeSteps : string := "Steps".
Definition NodeTypeStepGroup : string := "StepGroup".
Definition PodPending : string := "Pending".
Definition PodSucceeded : string := "Succeeded".
Definition PodFailed : string := "Failed".
Definition NodePending : string := "Pending".

(** The combined output of kubectl with arguments and standard input, and its error; the JSON
    decoders of the resources; the environment and the clock. *)
Record K8s := mkK8s {
  kubectl : list string → string → string * option error;
  parseWorkflowResource : string → result Workflow;
  parsePodResource : string → result Pod;
  Getenv : string → string;
  now : Z  (* seconds since 1970 *)
}.

(** ** k8s_api.go *)

Definition default_namespace (namespace : string) : string :=
  if decide (namespace = ""%string) then "default"%string else namespace.

(** The match of [.+/(.+) .+] in a line: the last slash and then the last blank that leave
    something around them. *)
Definition last_blank (s : string) : option string :=
  match LastIndexByte (str_take (str_len s - 1) s) " " with
  | Some (S j) => Some (str_take (S j) s)
  | _ => None
  end.
Fixpoint slash_match (n : nat) (line : string) : option string :=
  match n with
  | O => None
  | S n =>
    match str_get n line with
    | Some "/"%char =>
      if decide (0 < n)%nat then
        match last_blank (str_drop (S n) line) with Some id => Some id | None => slash_match n line end
      else None
    | _ => slash_match n line
    end
  end.
Definition created_resource (output : string) : option string :=
  head (omap (λ line, slash_match (str_len line) line) (Split output (char1 (of_byte 10)))).

Section k8s_api.
Variable k : K8s.

Definition k8sCreateResource (yamlContent : string) : result string :=
  match kubectl k ["create"; "-f"; "-"]%string yamlContent with
  | (output, Some e) => Fail (Errorf "submit Argo YAML error: %v, output: %s" [err_format e; output])
  | (output, None) => or_fail (created_resource output) (Errorf "parse created resource error: %s, %v" [])
  end.
Definition Submit (argoYAMLContent : string) : result string := k8sCreateResource argoYAMLContent.  (* submit.go *)
Definition k8sReadWorkflow (workflowID namespace : string) : result Workflow :=
  match kubectl k ["-n"; default_namespace namespace; "get"; "wf"; workflowID; "-o"; "json"]%string "" with
  | (output, Some e) => Fail (Errorf "getWorkflowResource error: %v\n%v" [output; err_format e])
  | (output, None) => parseWorkflowResource k output
  end.
Definition k8sReadPod (podName namespace : string) : result Pod :=
  match kubectl k ["-n"; default_namespace namespace; "get"; "pod"; podName; "-o"; "json"]%string "" with
  | (_, Some e) => Fail (Errorf "cmd: %s failed: %v" [err_format e])
  | (output, None) => parsePodResource k output
  end.
Definition k8sReadPodLogs (podName namespace containerName sinceTime : string) (enableTimeStamp : bool)
    : result (list string) :=
  let stamps := if enableTimeStamp then ["--timestamps=true"; "--since-time=" +:+ sinceTime]%string else [] in
  match kubectl k (["-n"; default_namespace namespace; "logs"; podName; containerName]%string ++ stamps) "" with
  | (output, Some e) => Fail (Errorf "getPodLogs error: %v\n%v" [output; err_format e])
  | (output, None) => Ok (Split (TrimSpace output) (char1 (of_byte 10)))
  end.
Definition k8sDelete (kind name namespace : string) : result unit :=
  match kubectl k ["-n"; default_namespace namespace; "delete"; kind; name; "--ignore-not-found"]%string "" with
  | (_, Some e) => Fail (Errorf "failed %s, %v" [err_format e])
  | (_, None) => Ok tt
  end.
Definition k8sDeletePod (podID namespace : string) : result unit := k8sDelete "pod" podID namespace.
Definition k8sDeleteWorkflow (workflowID namespace : string) : result unit := k8sDelete "workflow" workflowID namespace.
End k8s_api.

Section argo.
Context `{Protobuf} `{UnicodeTables} (UnmarshalText : string → option Response).

(** ** workflow.go *)

Definition isPodCompleted (pod : Pod) : bool :=
  bool_decide (pod_Phase pod = PodSucceeded) || bool_decide (pod_Phase pod = PodFailed).
Definition isPodPending (pod : Pod) : bool := bool_decide (pod_Phase pod = PodPending).
Definition isPodFailed (pod : Pod) : bool := bool_decide (pod_Phase pod = PodFailed).
Definition isWorkflowPending (wf : Workflow) : bool :=
  bool_decide (wf_Phase wf = NodePending) || bool_decide (wf_Phase wf = ""%string).

Definition checkNodeType (expected actual : string) : result unit :=
  if decide (expected = actual) then Ok tt
  else Fail (Errorf "checkNodeType failed %v(expected) != %v(actual)" [expected; actual]).

(** A missing node is one without a type. *)
Definition node (wf : Workflow) (name : string) : Node := default (mkNode "" []) (Nodes wf !! name).

Definition getPodNameByStepGroup (wf : Workflow) (stepGroupName : string) : result string :=
  match Nodes wf !! stepGroupName with
  | None => Fail (Errorf "getPodNameByStepGroup: stepGroup %v doesn't exist" [stepGroupName])
  | Some stepGroupNode =>
    wrapf "getPodNameByStepGroup: %v" [] (checkNodeType NodeTypeStepGroup (Type_ stepGroupNode)) ≫= λ _,
    match Children stepGroupNode with
    | [pod] => Ok pod
    | l => Fail (Errorf "getPodNameByStepGroup: unexpected len(stepGroupNode.Children) 1 != %v" [pretty (length l)])
    end
  end.

Definition getPodByStepGroup (k : K8s) (wf : Workflow) (stepGroupName namespace : string) : result Pod :=
  podName ← getPodNameByStepGroup wf stepGroupName; k8sReadPod k podName namespace.

Definition getNextStepGroup (wf : Workflow) (current : string) : result string :=
  let stepGroupNode := node wf current in
  wrapf "getNextStepGroup: %v" [] (checkNodeType NodeTypeStepGroup (Type_ stepGroupNode)) ≫= λ _,
  match Children stepGroupNode with
  | [pod] =>
    let podNode := node wf pod in
    wrapf "getNextStepGroup %v" [] (checkNodeType NodeTypePod (Type_ podNode)) ≫= λ _,
    match Children podNode with
    | [] => Ok ""%string
    | [next] => Ok next
    | l => Fail (Errorf "getNextStepGroup: unexpected len(podNode.Children) 1 != %v" [pretty (length l)])
    end
  | l => Fail (Errorf "getNextStepGroup: unexpected len(stepGroupNode.Children) 1 != %v" [pretty (length l)])
  end.

(** The retries wait, but look at the same node. *)
Definition getFirstStepGroup (wf : Workflow) (workflowID : string) : result string :=
  let stepNode := node wf workflowID in
  wrapf "getCurrentStepGroup: %v" [] (checkNodeType NodeTypeSteps (Type_ stepNode)) ≫= λ _,
  match Children stepNode with
  | [group] => Ok group
  | l => Fail (Errorf "getCurrentStepGroup: unexpected len(stepNode.Children) 1 != %v" [pretty (length l)])
  end.

Definition getStepGroup (wf : Workflow) (workflowID stepID : string) : result string :=
  if decide (stepID = ""%string) then getFirstStepGroup wf workflowID else Ok stepID.

(** ** fetch.go *)

(** The search follows the groups; it need not end when they form a cycle. *)
Fixpoint step_search (fuel : nat) (wf : Workflow) (target current : string) (stepIdx : Z) : result Z :=
  match fuel with
  | O => NoFuel
  | S fuel =>
    if decide (current = target) then Ok stepIdx
    else next ← getNextStepGroup wf current; step_search fuel wf target next (stepIdx + 1)
  end.
Definition getStepIdx (wf : Workflow) (targetStepGroup : string) : result Z :=
  first ← getFirstStepGroup wf (wf_Name wf);
  step_search (size (Nodes wf) + 2) wf targetStepGroup first 1.

Definition logViewURL (k : K8s) (ns wfID podID : string) : string :=
  let dtmEp := Getenv k "SQLFLOW_WORKFLOW_LOGVIEW_DTM_ENDPOINT" in
  if decide (dtmEp = ""%string) then
    Getenv k "SQLFLOW_WORKFLOW_LOGVIEW_ENDPOINT" +:+ "/workflows/" +:+ ns +:+ "/" +:+ wfID
      +:+ "?tab=workflow&nodeId=" +:+ podID +:+ "&sidePanel=logs:" +:+ podID +:+ ":main"
  else
    dtmEp +:+ "?jobName=" +:+ wfID +:+ "&taskName=" +:+ podID +:+ "&__envName=PROD&startTime="
      +:+ pretty (now k * 1000) +:+ "&endTime=" +:+ pretty ((now k + 24 * 3600) * 1000).

Definition log_prefix (stepIdx stepCnt : Z) : string :=
  "SQLFlow Step: [" +:+ pretty stepIdx +:+ "/" +:+ pretty stepCnt +:+ "]".

(** The messages that announce a step, and those of its new phase. *)
Definition announce (stepPhase logPrefix logURL : string) (pod : Pod) (r : CompoundResponses) : result CompoundResponses :=
  if decide (stepPhase = ""%string) then
    '(command, args) ← index (Containers pod) 1;
    let execCode := Join command " " +:+ " " +:+ Join args " " in
    r ← AppendMessage (logPrefix +:+ " Execute Code: " +:+ execCode) r;
    AppendMessage (logPrefix +:+ " Log: " +:+ logURL) r
  else Ok r.
Definition report_phase (stepPhase logPrefix : string) (pod : Pod) (r : CompoundResponses) : result CompoundResponses :=
  if decide (stepPhase = pod_Phase pod) then Ok r
  else AppendMessage (logPrefix +:+ " Status: " +:+ pod_Phase pod) r.

(** A failed step gives a response and an error, of which gRPC delivers the error. *)
Definition Fetch (k : K8s) (req : FetchRequest) : result FetchResponse :=
  wf ← k8sReadWorkflow k (JobId req) (JobNamespace req);
  if isWorkflowPending wf then
    Ok (to_FetchResponse New_responses (JobId req) (JobNamespace req) "" "" false)
  else
    stepGroupName ← getStepGroup wf (JobId req) (StepId req);
    steps ← index (Templates wf) 0;
    let stepCnt := Z.of_nat steps in
    stepIdx ← getStepIdx wf stepGroupName;
    let logPrefix := log_prefix stepIdx stepCnt in
    pod ← getPodByStepGroup k wf stepGroupName (JobNamespace req);
    let logURL := logViewURL k (wf_Namespace wf) (wf_Name wf) (pod_Name pod) in
    r ← announce (StepPhase req) logPrefix logURL pod New_responses;
    r ← report_phase (StepPhase req) logPrefix pod r;
    let newStepPhase := pod_Phase pod in
    if isPodCompleted pod then
      podLogs ← k8sReadPodLogs k (pod_Name pod) (JobNamespace req) "main" "" false;
      let r := AppendProtoMessages UnmarshalText podLogs r in
      if isPodFailed pod then Fail (Errorf "%s Failed, Log: %s\n%s" [logPrefix; logURL; ErrorMessage r])
      else
        nextStepGroup ← getNextStepGroup wf stepGroupName;
        let eof := bool_decide (nextStepGroup = ""%string) && (stepIdx =? stepCnt) in
        if decide (nextStepGroup = ""%string) then
          Ok (ResponseWithStepComplete r (JobId req) (JobNamespace req) stepGroupName newStepPhase eof)
        else Ok (ResponseWithStepComplete r (JobId req) (JobNamespace req) nextStepGroup "" eof)
    else Ok (to_FetchResponse r (JobId req) (JobNamespace req) stepGroupName newStepPhase false).

(** The first run of characters other than blanks that a blank follows, and what is behind that
    blank, which must be the rest of the text without an end of line. *)
Definition parseOffset (content : string) : result (string * string) :=
  let blank c := in_range 9 10 (byte c) || in_range 12 13 (byte c) || (byte c =? 32) in
  let fix find (s word : string) : option (string * string) :=
    match s with
    | EmptyString => None
    | String c s =>
      if blank c then
        if bool_decide (word = ""%string) || Contains s (char1 (of_byte 10)) then find s "" else Some (word, s)
      else find s (word +:+ char1 c)
    end in
  or_fail (find content ""%string) (Errorf "Parse offset failed: %s" [content]).

Definition next_log (oldOffset : string) (st : list string * bool * string * bool) (msg : string)
    : list string * bool * string * bool :=
  let '(buffer, skipOlderLogs, offset, stopped) := st in
  if stopped then st else
  match parseOffset msg with
  | Ok (newOffset, content) =>
    if decide (newOffset = oldOffset) then (buffer, true, offset, false)
    else if skipOlderLogs || bool_decide (oldOffset = ""%string)
    then (buffer ++ [content], skipOlderLogs, newOffset, false)
    else st
  | _ => (buffer, skipOlderLogs, offset, true)
  end.
Definition getOffsetAndContentFromLogs (logs : list string) (oldOffset : string) : list string * string :=
  let '(buffer, _, offset, _) := foldl (next_log oldOffset) ([], false, oldOffset, false) logs in
  (buffer, offset).
Definition getPodLogs (k : K8s) (podName namespace offset : string) : result (list string * string) :=
  logs ← k8sReadPodLogs k podName namespace "main" offset true;
  Ok (getOffsetAndContentFromLogs logs offset).

(** ** The client's loop (cmd/sqlflow/rpc_stream_renderer.go, renderPRCFetchResp)

    [ks] is Kubernetes during each call; the calls, and the error that ended them. *)
Fixpoint follow (ks : list K8s) (req : FetchRequest) : list (K8s * FetchRequest * FetchResponse) * option error :=
  match ks with
  | [] => ([], None)
  | k :: ks =>
    match Fetch k req with
    | Ok resp =>
      if Eof resp then ([(k, req, resp)], None)
      else let '(calls, e) := follow ks (UpdatedFetchSince resp) in ((k, req, resp) :: calls, e)
    | Fail e => ([], Some e)
    | _ => ([], None)
    end
  end.
End argo.
