(* ===== verification/ArgoFollow.v ===== *)
(** * What a client of a workflow sees (go/workflow/argo)

    A workflow whose steps form a chain grows while it runs: Argo adds the nodes of a step when
    the one before has succeeded.  [Fetch] refines a small state machine on the position in the
    chain and the last phase that was reported, and following the workflow announces every step
    once, in order. *)

From S2P Require Import Prelude GoStrings Response Argo.

Local Open Scope Z_scope.

Section follow_facts.
Context `{Protobuf} `{UnicodeTables} (UnmarshalText : string → option Response).
Notation Fetch := (Fetch UnmarshalText).
Notation follow := (follow UnmarshalText).

(** The nodes of the workflow [wf] are the chain [l] of step groups and pods. *)
Record chain (wf : Workflow) (l : list (string * string)) : Prop := {
  chain_first : ∃ g p l', l = (g, p) :: l' ∧ node wf (wf_Name wf) = mkNode NodeTypeSteps [g];
  chain_group : ∀ i g p, l !! i = Some (g, p) →
    Nodes wf !! g = Some (mkNode NodeTypeStepGroup [p]) ∧
    node wf p = mkNode NodeTypePod (match l !! S i with Some (g', _) => [g'] | None => [] end);
  chain_NoDup : NoDup l.*1;
  chain_named : ∀ g, g ∈ l.*1 → g ≠ ""%string
}.

Definition group (l : list (string * string)) (i : nat) : string := default ""%string (l.*1 !! i).

Lemma group_lookup l i g p : l !! i = Some (g, p) → group l i = g.
Proof. intros Hi. unfold group. by rewrite list_lookup_fmap, Hi. Qed.

Lemma checkNodeType_refl t : checkNodeType t t = Ok tt.
Proof. unfold checkNodeType. by rewrite decide_True. Qed.

Lemma node_Some wf g n : Nodes wf !! g = Some n → node wf g = n.
Proof. intros Hg. unfold node. by rewrite Hg. Qed.

Lemma getNextStepGroup_chain wf l i g p :
  chain wf l → l !! i = Some (g, p) → getNextStepGroup wf g = Ok (group l (S i)).
Proof.
  intros Hc Hi. destruct (chain_group _ _ Hc _ _ _ Hi) as [Hg Hp].
  unfold getNextStepGroup. rewrite (node_Some _ _ _ Hg). cbn [Type_ Children].
  rewrite checkNodeType_refl. cbn -[checkNodeType]. rewrite Hp. cbn [Type_ Children]. rewrite checkNodeType_refl.
  unfold group. rewrite list_lookup_fmap. by destruct (l !! S i) as [[]|].
Qed.

Lemma getFirstStepGroup_chain wf l : chain wf l → getFirstStepGroup wf (wf_Name wf) = Ok (group l 0).
Proof.
  intros (g & p & l' & -> & Hn)%chain_first. unfold getFirstStepGroup. by rewrite Hn.
Qed.

Lemma group_inj l i j : NoDup l.*1 → (i < length l)%nat → (j < length l)%nat → group l i = group l j → i = j.
Proof.
  intros Hnd Hi Hj. unfold group. intros He. apply (NoDup_lookup l.*1 i j (group l i)); [done| |].
  - unfold group. destruct (lookup_lt_is_Some_2 l.*1 i) as [x ->]; [by rewrite length_fmap|done].
  - unfold group. rewrite He. destruct (lookup_lt_is_Some_2 l.*1 j) as [x ->]; [by rewrite length_fmap|done].
Qed.

Lemma lookup_group l i : (i < length l)%nat → ∃ p, l !! i = Some (group l i, p).
Proof.
  intros Hi. destruct (lookup_lt_is_Some_2 l i Hi) as [[g p] Hl]. exists p. by rewrite (group_lookup _ _ _ _ Hl).
Qed.

Lemma step_search_chain wf l i j fuel z :
  chain wf l → (i ≤ j)%nat → (j < length l)%nat → (j - i < fuel)%nat →
  step_search fuel wf (group l j) (group l i) z = Ok (z + Z.of_nat (j - i)).
Proof.
  intros Hc. revert i z. induction fuel as [|fuel IH]; intros i z Hij Hj Hf; [lia|]. cbn [step_search].
  case_decide as He.
  - apply (group_inj l) in He as ->; [|by apply Hc|lia|done]. f_equal. lia.
  - assert (i ≠ j) by congruence. destruct (lookup_group l i) as [p Hp]; [lia|].
    rewrite (getNextStepGroup_chain _ _ _ _ _ Hc Hp). ok_step. rewrite IH by lia. f_equal. lia.
Qed.

Lemma chain_size wf l : chain wf l → (length l ≤ size (Nodes wf))%nat.
Proof.
  intros Hc. rewrite <- (length_fmap fst l), <- size_dom, <- (size_list_to_set (C := gset string) l.*1) by apply Hc.
  apply subseteq_size. intros g. rewrite elem_of_list_to_set, elem_of_dom.
  intros ([g' p] & -> & (i & Hi)%list_elem_of_lookup)%list_elem_of_fmap.
  destruct (chain_group _ _ Hc _ _ _ Hi) as [Hg _]. cbn. by rewrite Hg.
Qed.

Lemma getStepIdx_chain wf l j :
  chain wf l → (j < length l)%nat → getStepIdx wf (group l j) = Ok (Z.of_nat j + 1).
Proof.
  intros Hc Hj. unfold getStepIdx. rewrite (getFirstStepGroup_chain _ _ Hc). ok_step.
  pose proof (chain_size _ _ Hc). rewrite (step_search_chain _ _ 0 j _ 1 Hc) by lia. f_equal. lia.
Qed.

Lemma getPodByStepGroup_chain k wf l i g p ns :
  chain wf l → l !! i = Some (g, p) → getPodByStepGroup k wf g ns = k8sReadPod k p ns.
Proof.
  intros Hc Hi. destruct (chain_group _ _ Hc _ _ _ Hi) as [Hg _].
  unfold getPodByStepGroup, getPodNameByStepGroup. by rewrite Hg.
Qed.

(** ** One call *)

Context (id ns : string) (n : nat) (gs : list (string * string)).

(** Kubernetes while the first [m] of the steps [gs] exist, of [n] steps in all; while there is
    none the workflow is pending.  The pods of these steps can be read, have a phase and the
    two containers that Argo gives them, and their logs can be read when they have ended. *)
Definition snapshot (m : nat) (k : K8s) : Prop :=
  ∃ wf ts, k8sReadWorkflow k id ns = Ok wf ∧ wf_Name wf = id ∧ Templates wf = n :: ts ∧
    isWorkflowPending wf = bool_decide (m = 0%nat) ∧ (m ≠ 0%nat → chain wf (take m gs)) ∧
    ∀ i p, (i < m)%nat → gs.*2 !! i = Some p → ∃ pod, k8sReadPod k p ns = Ok pod ∧ pod_Phase pod ≠ ""%string ∧
      (2 ≤ length (Containers pod))%nat ∧
      (isPodCompleted pod = true → ∃ logs, k8sReadPodLogs k (pod_Name pod) ns "main" "" false = Ok logs).

(** The request of a client that waits for step [i], counted from 0, with the phase [ph]. *)
Definition waits (req : FetchRequest) (i : nat) (ph : string) : Prop :=
  JobId req = id ∧ JobNamespace req = ns ∧ StepPhase req = ph ∧
  (StepId req = group gs i ∨ (i = 0%nat ∧ StepId req = ""%string)).

(** The machine: the next position, and whether that was the end. *)
Definition advance (m i : nat) (q : string) : nat * string * bool :=
  if decide (q = PodSucceeded) then
    if decide (S i < m)%nat then (S i, ""%string, false) else (i, q, bool_decide (m = n))
  else (i, q, false).

(** What is sent about a step in front of its logs: with no phase reported yet, its code and
    where its log is; a phase that is not the one reported last. *)
Definition opening (prefix url ph : string) (pod : Pod) : list Response :=
  let '(command, args) := default ([], []) (Containers pod !! 1%nat) in
  (if decide (ph = ""%string) then
     [Response_Message (prefix +:+ " Execute Code: " +:+ Join command " " +:+ " " +:+ Join args " ");
      Response_Message (prefix +:+ " Log: " +:+ url)] else []) ++
  (if decide (ph = pod_Phase pod) then [] else [Response_Message (prefix +:+ " Status: " +:+ pod_Phase pod)]).
(** All that is sent about step [i]. *)
Definition sent (k : K8s) (wf : Workflow) (i : nat) (ph : string) (pod : Pod) (logs : list string) : list Response :=
  opening (log_prefix (Z.of_nat i + 1) (Z.of_nat n)) (logViewURL k (wf_Namespace wf) (wf_Name wf) (pod_Name pod)) ph pod
  ++ (if decide (pod_Phase pod = PodSucceeded) then
        (unMarshalProtoMessages UnmarshalText logs).1 ++ [(Response_Eoe "" 0)] else []).

Lemma group_take m i : (i < m)%nat → group (take m gs) i = group gs i.
Proof. intros Hi. unfold group. by rewrite !list_lookup_fmap, lookup_take_lt. Qed.

Lemma Fetch_pending k req i ph :
  snapshot 0 k → waits req i ph →
  Fetch k req = Ok (mkFetchResponse (mkFetchRequest id ns "" "") false []).
Proof.
  intros (wf & ts & Hwf & _ & _ & Hp & _) (<- & <- & _). unfold Argo.Fetch. rewrite Hwf. ok_step. by rewrite Hp.
Qed.

(** The messages before the logs. *)
Lemma announce_report ph prefix url pod :
  (2 ≤ length (Containers pod))%nat →
  ∃ r0 r, announce ph prefix url pod New_responses = Ok r0 ∧ report_phase ph prefix pod r0 = Ok r ∧
    responses r = opening prefix url ph pod.
Proof.
  intros Hc. unfold announce, report_phase, index, opening.
  destruct (lookup_lt_is_Some_2 (Containers pod) 1%nat) as [[command args] ->]; [lia|].
  destruct (decide (ph = ""%string)), (decide (ph = pod_Phase pod)); cbn; eexists _, _; split_and!; reflexivity.
Qed.

Lemma Fetch_step m i k req ph :
  snapshot m k → (i < m ≤ length gs)%nat → waits req i ph →
  ∃ wf pod, k8sReadWorkflow k id ns = Ok wf ∧ pod_Phase pod ≠ ""%string ∧
    (∃ p, gs.*2 !! i = Some p ∧ k8sReadPod k p ns = Ok pod) ∧
    if decide (pod_Phase pod = PodFailed) then ∃ e, Fetch k req = Fail e
    else
      let '(i', ph', eof) := advance m i (pod_Phase pod) in
      ∃ logs, (pod_Phase pod = PodSucceeded → k8sReadPodLogs k (pod_Name pod) ns "main" "" false = Ok logs) ∧
        Fetch k req = Ok (mkFetchResponse (mkFetchRequest id ns (group gs i') ph') eof (sent k wf i ph pod logs)).
Proof.
  intros (wf & ts & Hwf & Hname & Hts & Hpend & Hchain & Hpods) [Him Hm] (Hid & Hns & Hph & Hstep).
  assert (m ≠ 0%nat) as Hm0 by lia. specialize (Hchain Hm0).
  destruct (lookup_lt_is_Some_2 gs i) as [[g p] Hi]; [lia|].
  destruct (Hpods i p Him) as (pod & Hpod & Hq & Hcs & Hlogs); [by rewrite list_lookup_fmap, Hi|].
  assert (take m gs !! i = Some (g, p)) as Hti by (by rewrite lookup_take_lt).
  exists wf, pod. split; [done|]. split; [done|]. split; [exists p; by rewrite list_lookup_fmap, Hi|].
  unfold Argo.Fetch. rewrite Hid, Hns, Hwf. ok_step. rewrite Hpend, bool_decide_eq_false_2 by done.
  assert (getStepGroup wf id (StepId req) = Ok (group gs i)) as ->.
  { unfold getStepGroup. destruct Hstep as [->|[-> ->]].
    - rewrite decide_False; [done|]. rewrite (group_lookup _ _ _ _ Hi).
      apply (chain_named _ _ Hchain), list_elem_of_fmap. exists (g, p). split; [done|].
      by eapply list_elem_of_lookup_2.
    - rewrite decide_True by done. rewrite <- Hname, (getFirstStepGroup_chain _ _ Hchain). by rewrite group_take. }
  ok_step. unfold index. rewrite Hts. cbn [lookup list_lookup]. ok_step.
  rewrite <- (group_take m i) by done. rewrite (getStepIdx_chain _ _ i Hchain) by (rewrite length_take; lia). ok_step.
  rewrite (group_lookup _ _ _ _ Hti), (getPodByStepGroup_chain _ _ _ _ _ _ _ Hchain Hti), Hpod. ok_step.
  set (prefix := log_prefix (Z.of_nat i + 1) (Z.of_nat n)). set (url := logViewURL _ _ _ _).
  destruct (announce_report ph prefix url pod Hcs) as (r0 & r & Hr0 & Hr & Hres). rewrite Hph, Hr0. ok_step. rewrite Hr. ok_step.
  unfold isPodCompleted, isPodFailed in *.
  destruct (decide (pod_Phase pod = PodFailed)) as [Hfail|Hnf].
  { rewrite (bool_decide_eq_true_2 _ Hfail), orb_true_r in *. destruct (Hlogs eq_refl) as [logs ->]. ok_step.
    by eexists. }
  rewrite (bool_decide_eq_false_2 _ Hnf), orb_false_r in *. unfold advance, sent. fold prefix url.
  destruct (decide (pod_Phase pod = PodSucceeded)) as [Hsucc|Hns'].
  - rewrite (bool_decide_eq_true_2 _ Hsucc) in *. destruct (Hlogs eq_refl) as [logs Hl].
    rewrite Hl. ok_step. rewrite (getNextStepGroup_chain _ _ _ _ _ Hchain Hti). ok_step.
    assert (responses (add_response (Response_Eoe "" 0) (AppendProtoMessages UnmarshalText logs r))
      = opening prefix url ph pod ++ (unMarshalProtoMessages UnmarshalText logs).1 ++ [(Response_Eoe "" 0)]) as Hall.
    { unfold AppendProtoMessages. destruct (unMarshalProtoMessages _ logs) as [out errs]. cbn. by rewrite Hres, app_assoc. }
    unfold ResponseWithStepComplete, to_FetchResponse. rewrite Hall.
    destruct (decide (S i < m)%nat) as [Hlt|Hge].
    + exists logs. split; [done|]. rewrite group_take by done.
      assert (group gs (S i) ≠ ""%string) as Hne.
      { rewrite <- (group_take m) by done. destruct (lookup_group (take m gs) (S i)) as [p' Hp']; [rewrite length_take; lia|].
        apply (chain_named _ _ Hchain), list_elem_of_fmap. eexists. split; [|by eapply list_elem_of_lookup_2]. done. }
      rewrite decide_False, bool_decide_eq_false_2 by done. done.
    + exists logs. split; [done|].
      assert (group (take m gs) (S i) = ""%string) as ->.
      { unfold group. rewrite list_lookup_fmap, lookup_take_ge by lia. done. }
      rewrite decide_True, bool_decide_eq_true_2 by done. rewrite (group_lookup _ _ _ _ Hi). do 2 f_equal.
      cbn [andb]. destruct (Z.eqb_spec (Z.of_nat i + 1) (Z.of_nat n)).
      * by rewrite bool_decide_eq_true_2 by lia.
      * by rewrite bool_decide_eq_false_2 by lia.
  - rewrite (bool_decide_eq_false_2 _ Hns'). exists []. split; [done|].
    unfold to_FetchResponse. by rewrite Hres, app_nil_r, (group_lookup _ _ _ _ Hi).
Qed.

(** ** Following a workflow *)

Notation call := (K8s * FetchRequest * FetchResponse)%type.

(** The step that a call announces: it sends the code and the log of a step when the workflow
    runs and no phase of the step was reported before. *)
Definition announced (c : call) : option string :=
  let '(k, req, _) := c in
  match k8sReadWorkflow k (JobId req) (JobNamespace req) with
  | Ok wf =>
    if negb (isWorkflowPending wf) && bool_decide (StepPhase req = ""%string)
    then Some (if decide (StepId req = ""%string) then group gs 0 else StepId req) else None
  | _ => None
  end.
Definition ended (calls : list call) : Prop := ∃ c, last calls = Some c ∧ Eof c.2 = true.
Definition succeeded (ks : list K8s) (p : string) : Prop :=
  ∃ k pod, k ∈ ks ∧ k8sReadPod k p ns = Ok pod ∧ pod_Phase pod = PodSucceeded.

(** How many steps are announced before a call that waits for step [i]. *)
Definition done_steps (i : nat) (ph : string) : nat := if decide (ph = ""%string) then i else S i.

Lemma announced_pending k req resp i ph : snapshot 0 k → waits req i ph → announced (k, req, resp) = None.
Proof.
  intros (wf & ts & Hwf & _ & _ & Hp & _) (Hid & Hns & _). unfold announced. by rewrite Hid, Hns, Hwf, Hp.
Qed.

Lemma announced_step m k req resp i ph :
  snapshot m k → (i < m ≤ length gs)%nat → waits req i ph →
  announced (k, req, resp) = if decide (ph = ""%string) then Some (group gs i) else None.
Proof.
  intros (wf & ts & Hwf & _ & _ & Hp & Hc & _) [Him Hm] (Hid & Hns & Hph & Hs). unfold announced.
  rewrite Hid, Hns, Hwf, Hp, Hph, bool_decide_eq_false_2 by lia. cbn [negb andb].
  destruct (decide (ph = ""%string)) as [->|]; [|by rewrite bool_decide_eq_false_2].
  rewrite bool_decide_eq_true_2 by done. f_equal.
  destruct Hs as [->|[-> ->]]; [|done]. rewrite decide_False; [done|].
  destruct (lookup_group gs i) as [p Hp']; [lia|]. apply (chain_named wf (take m gs)); [apply Hc; lia|].
  apply list_elem_of_fmap. exists (group gs i, p). split; [done|]. eapply (list_elem_of_lookup_2 _ i).
  by rewrite lookup_take_lt.
Qed.

Lemma group_drop l i j : (i < j ≤ length l)%nat → drop i (take j l.*1) = group l i :: drop (S i) (take j l.*1).
Proof.
  intros Hi. apply drop_S. rewrite lookup_take_lt, list_lookup_fmap by lia.
  destruct (lookup_group l i) as [p ->]; [lia|done].
Qed.

Lemma drop_take_nil {A} (l : list A) i : drop i (take i l) = [].
Proof. apply drop_ge. rewrite length_take. lia. Qed.

Lemma ended_cons c calls : ended (c :: calls) → Eof c.2 = false → ended calls.
Proof.
  intros (x & Hl & Hx) Hc. destruct calls as [|y calls]; [injection Hl as <-; congruence|]. by exists x.
Qed.

Lemma succeeded_cons k ks p : succeeded ks p → succeeded (k :: ks) p.
Proof. intros (k' & pod & Hin & Hrest). exists k', pod. split; [by right|done]. Qed.

Lemma follow_spec ks ms i ph req calls e :
  length gs = n → Forall2 snapshot ms ks → StronglySorted le ms → Forall (λ m, m ≤ n)%nat ms → (i < n)%nat →
  waits req i ph → Forall (λ m, i < m ∨ m = 0 ∧ i = 0 ∧ ph = ""%string)%nat ms → follow ks req = (calls, e) →
  ∃ j, (done_steps i ph ≤ j ≤ n)%nat ∧ omap announced calls = drop (done_steps i ph) (take j gs.*1) ∧
    (ended calls → j = n ∧ ∀ x p, (i ≤ x)%nat → gs.*2 !! x = Some p → succeeded ks p).
Proof.
  intros Hn Hks. revert i ph req calls. induction Hks as [|m k ms ks Hk Hks IH]; intros i ph req calls Hsort Hle Hi Hw Hm.
  { intros [= <- <-]. exists (done_steps i ph). rewrite drop_take_nil. split; [|split; [done|by intros (c & [=] & _)]].
    unfold done_steps. case_decide; lia. }
  apply StronglySorted_cons in Hsort as [Hge Hsort]. apply Forall_cons in Hle as [Hmn Hle].
  apply Forall_cons in Hm as [Hm Hms].
  assert (∃ c, done_steps i ph = c ∧ c ≤ n)%nat as (c & Hc & Hcn) by (eexists; split; [done|unfold done_steps; case_decide; lia]).
  destruct Hm as [Him|(-> & -> & ->)].
  2: { cbn [Argo.follow]. rewrite (Fetch_pending _ _ _ _ Hk Hw). cbn [Eof UpdatedFetchSince].
       destruct (follow ks _) as [calls' e'] eqn:Hf. intros [= <- <-].
       destruct (IH 0%nat ""%string (mkFetchRequest id ns "" "") calls') as (j & Hj & Ho & He);
         [done..|by split_and!; [..|right]|done|done|].
       exists j. cbn [omap list_omap]. rewrite (announced_pending _ _ _ _ _ Hk Hw). split; [exact Hj|]. split; [exact Ho|].
       intros [-> Hs]%ended_cons%He; [|done]. split; [done|]. intros z p' Hz Hp'. by eapply succeeded_cons, Hs. }
  destruct (Fetch_step m i k req ph Hk ltac:(lia) Hw) as (wf & pod & Hwf & Hq & (p & Hp & Hpod) & Hfetch).
  cbn [Argo.follow].
  destruct (decide (pod_Phase pod = PodFailed)) as [Hfail|Hnf].
  { destruct Hfetch as [er ->]. intros [= <- <-]. exists c. rewrite Hc, drop_take_nil.
    split; [lia|]. split; [done|by intros (? & [=] & _)]. }
  destruct (advance m i (pod_Phase pod)) as [[i' ph'] eof] eqn:Hadv. destruct Hfetch as (logs & _ & ->).
  cbn [Eof UpdatedFetchSince]. set (resp := mkFetchResponse _ _ _).
  assert (∀ j, (S i ≤ j ≤ n)%nat → drop (done_steps i ph) (take j gs.*1)
    = option_list (announced (k, req, resp)) ++ drop (S i) (take j gs.*1)) as Hstep.
  { intros j Hj. rewrite (announced_step m _ _ _ i ph Hk ltac:(lia) Hw). unfold done_steps.
    case_decide; [apply group_drop; lia|done]. }
  assert (pod_Phase pod = PodSucceeded → gs.*2 !! i = Some p → succeeded (k :: ks) p) as Hsucc.
  { intros Hs _. exists k, pod. split; [left|done]. }
  destruct eof.
  - intros [= <- <-]. unfold advance in Hadv. case_decide as Hs; [|done]. case_decide; [done|].
    injection Hadv as _ _ Hmn'%bool_decide_eq_true. exists n. rewrite Hstep by lia.
    assert (S i = n) as <- by lia. rewrite drop_take_nil, app_nil_r.
    split; [unfold done_steps; case_decide; lia|]. split; [cbn; by destruct (announced _)|].
    intros _. split; [done|]. intros x p' Hx Hp'.
    assert (x = i) as -> by (apply lookup_lt_Some in Hp'; rewrite length_fmap in Hp'; lia).
    rewrite Hp in Hp'. injection Hp' as <-. by apply Hsucc.
  - destruct (follow ks _) as [calls' e'] eqn:Hf. intros [= <- <-].
    assert (done_steps i' ph' = S i ∧ (i' < n)%nat ∧ (i' = i ∨ i' = S i ∧ pod_Phase pod = PodSucceeded) ∧
      Forall (λ m, i' < m ∨ m = 0 ∧ i' = 0 ∧ ph' = ""%string)%nat ms) as (Hd & Hi' & Hcase & Hms').
    { unfold advance in Hadv. unfold done_steps. case_decide as Hs; [case_decide as Hl|]; simplify_eq.
      - rewrite decide_True by done. split_and!; [done|lia|by right|].
        eapply Forall_impl; [exact Hge|]. cbn. intros; lia.
      - rewrite decide_False by done. split_and!; [done|lia|by left|].
        eapply Forall_impl; [exact Hge|]. cbn. intros; lia.
      - rewrite decide_False by done. split_and!; [done|lia|by left|].
        eapply Forall_impl; [exact Hge|]. cbn. intros; lia. }
    destruct (IH i' ph' (mkFetchRequest id ns (group gs i') ph') calls') as (j & Hj & Ho & He);
      [done..|by split_and!; [..|left]|done|done|].
    rewrite Hd in Hj, Ho. exists j. rewrite Hstep by lia.
    split; [unfold done_steps; case_decide; lia|]. split; [cbn [omap list_omap]; rewrite Ho; by destruct (announced _)|].
    intros [-> Hs]%ended_cons%He; [|done]. split; [done|]. intros x p' Hx Hp'.
    destruct (decide (i' ≤ x)%nat) as [Hle'|]; [by eapply succeeded_cons, Hs|].
    destruct Hcase as [->|[-> Hq']]; [lia|]. assert (x = i) as -> by lia.
    rewrite Hp in Hp'. injection Hp' as <-. by apply Hsucc.
Qed.

(** C24: [Fetch] refines a state machine on the step that the client waits for and the phase it
    has been told.  While the workflow is pending nothing happens.  A failed pod is an error.  A
    succeeded one gives its logs and moves on to the next step, of which nothing was reported,
    if it exists, stays if it does not yet, and ends after the last.  With another phase the
    client waits on.  A step's code and log are sent when nothing was reported about it, its
    phase when it is not the one reported last. *)
Theorem Fetch_refines (m i : nat) (k : K8s) (req : FetchRequest) (ph : string) :
  snapshot m k → waits req i ph → (m ≤ length gs)%nat →
  if decide (m = 0%nat) then Fetch k req = Ok (mkFetchResponse (mkFetchRequest id ns "" "") false [])
  else (i < m)%nat →
    ∃ wf pod p logs, k8sReadWorkflow k id ns = Ok wf ∧ gs.*2 !! i = Some p ∧ k8sReadPod k p ns = Ok pod ∧
      (pod_Phase pod = PodSucceeded → k8sReadPodLogs k (pod_Name pod) ns "main" "" false = Ok logs) ∧
      if decide (pod_Phase pod = PodFailed) then ∃ e, Fetch k req = Fail e
      else
        let '(i', ph', eof) := advance m i (pod_Phase pod) in
        Fetch k req = Ok (mkFetchResponse (mkFetchRequest id ns (group gs i') ph') eof (sent k wf i ph pod logs)).
Proof.
  intros Hk Hw Hm. destruct (decide (m = 0%nat)) as [->|Hm0]; [by eapply Fetch_pending|]. intros Hi.
  destruct (Fetch_step m i k req ph Hk (conj Hi Hm) Hw) as (wf & pod & Hwf & _ & (p & Hp & Hpod) & Hf).
  destruct (decide (pod_Phase pod = PodFailed)) as [Hfail|].
  - exists wf, pod, p, []. split; [done|]. split; [done|]. split; [done|]. split; [by rewrite Hfail|].
    rewrite decide_True by done. exact Hf.
  - destruct (advance m i (pod_Phase pod)) as [[i' ph'] eof] eqn:Hadv. destruct Hf as (logs & Hl & Hf).
    exists wf, pod, p, logs. rewrite decide_False, Hadv by done. done.
Qed.

(** C31: A client that follows a workflow while its steps appear and run is told about each step
    once, in the order of the steps, however often it asks and whatever phases it sees; and when
    it is told that the workflow has ended, it has been told about all of them, and the pod of
    each has succeeded. *)
Theorem follow_announces (ks : list K8s) (ms : list nat) (calls : list call) (e : option error) :
  length gs = n → (0 < n)%nat → Forall2 snapshot ms ks → StronglySorted le ms → Forall (λ m, m ≤ n)%nat ms →
  follow ks (mkFetchRequest id ns "" "") = (calls, e) →
  ∃ j, (j ≤ n)%nat ∧ omap announced calls = take j gs.*1 ∧
    (ended calls → j = n ∧ ∀ p, p ∈ gs.*2 → succeeded ks p).
Proof.
  intros Hn Hpos Hks Hsort Hle Hf.
  destruct (follow_spec ks ms 0 "" (mkFetchRequest id ns "" "") calls e) as (j & Hj & Ho & He); try done.
  - split_and!; [done..|by right].
  - apply Forall_forall. intros m _. destruct m; [by right|left; lia].
  - exists j. split; [lia|]. split; [done|]. intros [-> Hs]%He. split; [done|].
    intros p (x & Hx)%list_elem_of_lookup. by eapply Hs; [lia|].
Qed.

(** When all steps exist and have succeeded, as many calls as there are steps left are
    enough for the client to be told that the workflow has ended, without an error. *)
Theorem follow_ends (ks : list K8s) (i : nat) (ph : string) (req : FetchRequest) :
  length gs = n → (i < n)%nat → waits req i ph → (n - i ≤ length ks)%nat →
  Forall (λ k, snapshot n k ∧ ∀ p, p ∈ gs.*2 → ∃ pod, k8sReadPod k p ns = Ok pod ∧ pod_Phase pod = PodSucceeded) ks →
  ended (follow ks req).1 ∧ (follow ks req).2 = None.
Proof.
  intros Hn. revert i ph req. induction ks as [|k ks IH]; intros i ph req Hi Hw Hl Hks; [simpl in Hl; lia|].
  apply Forall_cons in Hks as [[Hk Hs] Hks]. cbn [Argo.follow].
  destruct (Fetch_step n i k req ph Hk ltac:(lia) Hw) as (wf & pod & Hwf & _ & (p & Hp & Hpod) & Hf).
  destruct (Hs p) as (pod' & Hpod' & Hsucc); [by eapply list_elem_of_lookup_2|].
  rewrite Hpod in Hpod'. injection Hpod' as <-. rewrite decide_False in Hf by (by rewrite Hsucc).
  unfold advance in Hf. rewrite decide_True in Hf by done. destruct (decide (S i < n)%nat) as [Hlt|Hge].
  - destruct Hf as (logs & _ & ->). cbn [Eof UpdatedFetchSince].
    destruct (IH (S i) ""%string (mkFetchRequest id ns (group gs (S i)) "")) as [(c & Hc & He) Hnone];
      [lia|by split_and!; [..|left]|simpl in Hl; lia|done|].
    destruct (follow ks _) as [calls e]. cbn in *. split; [|done]. exists c. split; [|done].
    by destruct calls.
  - destruct Hf as (logs & _ & ->). rewrite bool_decide_eq_true_2 by done. cbn. split; [|done]. eexists. by split.
Qed.
End follow_facts.

(** ** A workflow of two steps *)

Definition demo_steps : list (string * string) := [("g1", "p1"); ("g2", "p2")]%string.
(** While [m] steps exist, with the phase of their pods. *)
Definition demo_nodes (m : nat) : gmap string Node :=
  list_to_map (("w", mkNode NodeTypeSteps ["g1"]) ::
    match m with
    | 0 => []
    | 1 => [("g1", mkNode NodeTypeStepGroup ["p1"]); ("p1", mkNode NodeTypePod [])]
    | _ => [("g1", mkNode NodeTypeStepGroup ["p1"]); ("p1", mkNode NodeTypePod ["g2"]);
            ("g2", mkNode NodeTypeStepGroup ["p2"]); ("p2", mkNode NodeTypePod [])]
    end%nat)%string.
Definition demo_k8s (m : nat) (phase : string → string) : K8s := {|
  kubectl args _ :=
    (match args with
     | [_; _; "get"; "pod"; p; _; _] => p
     | [_; _; "logs"; p; _] => "log of " +:+ p
     | _ => "workflow"
     end%string, None);
  parseWorkflowResource _ := Ok (mkWorkflow "w" "default" (match m with O => NodePending | _ => "Running" end) [2%nat] (demo_nodes m));
  parsePodResource p := Ok (mkPod p (phase p) [([], []); (["step"], [p])]);
  Getenv _ := ""%string;
  now := 0
|}.

Lemma demo_snapshot m phase : (m ≤ 2)%nat → (∀ p, phase p ≠ ""%string) →
  snapshot "w" "default" 2 demo_steps m (demo_k8s m phase).
Proof.
  intros Hm Hphase. eexists _, []. split; [reflexivity|]. split; [done|]. split; [done|].
  split; [by destruct m as [|[|[|m]]]; [..|lia]|]. split.
  - intros Hm0. assert (m = 1 ∨ m = 2)%nat as [-> | ->] by lia.
    + split; [by eexists _, _, []|by intros [|[]] g p [= <- <-]| |].
      * apply (bool_decide_eq_true (NoDup _)). reflexivity.
      * intros g Hg. by apply list_elem_of_singleton in Hg as ->.
    + split; [by eexists _, _, _|by intros [|[|[]]] g p [= <- <-]| |].
      * apply (bool_decide_eq_true (NoDup _)). reflexivity.
      * intros g Hg. by repeat (apply elem_of_cons in Hg as [->|Hg]; [done|]); apply not_elem_of_nil in Hg.
  - intros i p Hi Hp. eexists. split; [reflexivity|]. split; [apply Hphase|]. split; [cbn; lia|]. intros _. by eexists.
Qed.

Definition running (p : string) : string := "Running".
Definition succeeding (p : string) : string := PodSucceeded.

(** The workflow starts, runs, succeeds in its first step before the second exists, and ends. *)
Definition demo_run : list K8s :=
  [demo_k8s 0 running; demo_k8s 1 running; demo_k8s 1 running; demo_k8s 1 succeeding; demo_k8s 2 succeeding;
   demo_k8s 2 running; demo_k8s 2 succeeding].
Definition no_text (_ : string) : option (@Response plain_protobuf) := None.

Lemma follow_announces_witness :
  let calls := (@follow plain_protobuf no_text demo_run (mkFetchRequest "w" "default" "" "")).1 in
  omap (announced demo_steps) calls = ["g1"; "g2"]%string ∧ ∀ p, p ∈ ["p1"; "p2"]%string → succeeded "default" demo_run p.
Proof.
  intros calls.
  destruct (@follow_announces plain_protobuf no_text "w" "default" 2 demo_steps demo_run
    [0; 1; 1; 1; 2; 2; 2]%nat calls None) as (j & Hj & Ho & He).
  - reflexivity.
  - lia.
  - repeat constructor; apply demo_snapshot; (done || lia).
  - repeat constructor; lia.
  - repeat constructor; lia.
  - unfold calls. vm_compute. reflexivity.
  - assert (ended calls) as [-> Hs]%He by (eexists; split; vm_compute; reflexivity). split; [exact Ho|exact Hs].
Defined.

Lemma follow_ends_witness :
  let r := @follow plain_protobuf no_text [demo_k8s 2 succeeding; demo_k8s 2 succeeding]
    (mkFetchRequest "w" "default" "" "") in
  ended r.1 ∧ r.2 = None.
Proof.
  apply (@follow_ends plain_protobuf no_text "w" "default" 2 demo_steps
    [demo_k8s 2 succeeding; demo_k8s 2 succeeding] 0 "").
  - reflexivity.
  - lia.
  - split_and!; [done..|by right].
  - simpl. lia.
  - repeat constructor; try (apply demo_snapshot; done || lia); intros p Hp; by eexists.
Defined.

Lemma Fetch_refines_witness :
  @Fetch plain_protobuf no_text (demo_k8s 1 succeeding) (mkFetchRequest "w" "default" "g1" "Running")
  = Ok (mkFetchResponse (mkFetchRequest "w" "default" "g1" "Succeeded") false
          [Response_Message "SQLFlow Step: [1/2] Status: Succeeded"; (Response_Eoe "" 0)]).
Proof.
  destruct (@Fetch_refines plain_protobuf no_text "w" "default" 2 demo_steps 1 0 (demo_k8s 1 succeeding)
    (mkFetchRequest "w" "default" "g1" "Running") "Running") as (wf & pod & p & logs & Hwf & Hp & Hpod & Hlogs & Hf).
  - apply demo_snapshot; (done || lia).
  - split_and!; [done..|by left].
  - cbn. lia.
  - lia.
  - vm_compute in Hwf, Hp. injection Hwf as <-. injection Hp as <-. vm_compute in Hpod. injection Hpod as <-.
    specialize (Hlogs eq_refl). vm_compute in Hlogs. injection Hlogs as <-. exact Hf.
Defined.
