(* ===== verification/Pipe.v ===== *)
(** * The pipe between a running program and its reader (go/pipe/pipe.go)

    A pipe is an unbuffered channel of items with a second channel by which the reader tells
    the writer that it has gone.  The goroutine that writes and the one that reads interleave:
    the step relation has a rule for everything that one of them can do next. *)

From S2P Require Import Prelude.

Section pipe.
Context {A : Type}.

(** The two channels carry no state but whether they are closed. *)
Record pipe := mkPipe { wrCh_closed : bool; done_closed : bool }.
Definition Pipe : pipe := mkPipe false false.

(** Closing a channel twice panics. *)
Definition Writer_Close (p : pipe) : result pipe :=
  if wrCh_closed p then Panic else Ok (mkPipe true (done_closed p)).
Definition Reader_Close (p : pipe) : result pipe :=
  if done_closed p then Panic else Ok (mkPipe (wrCh_closed p) true).

(** The cases of the [select] in [Write] that can be taken, of which Go takes any; [receiver]
    is whether another goroutine receives.  A send on a closed channel panics. *)
Inductive write_case := Sent | ErrClosedPipe | WritePanics.
Definition Writer_Write (p : pipe) (receiver : bool) : list write_case :=
  (if wrCh_closed p then [WritePanics] else if receiver then [Sent] else []) ++
  (if done_closed p then [ErrClosedPipe] else []).

(** ** Goroutines

    The writer is a tree that branches on whether [Write] has returned nil.  The reader may
    run forever: it is a state of type [R] and the action [next] of each state. *)
Inductive writer :=
  | WDone
  | WWrite (x : A) (k : bool → writer)
  | WClose (k : writer).
Inductive action (R : Type) := RDone | RRecv (k : option A → R) | RClose (r : R).
Arguments RDone {R}.
Arguments RRecv {R}.
Arguments RClose {R}.

Context {R : Type} (next : R → action R).

(** [moved]: the items that have gone through the channel. *)
Inductive state := Running (w : writer) (r : R) (p : pipe) (moved : list A) | Panicked.

Inductive step : state → state → Prop :=
  | step_send x k r kr p moved :
      Sent ∈ Writer_Write p true → next r = RRecv kr →
      step (Running (WWrite x k) r p moved) (Running (k true) (kr (Some x)) p (moved ++ [x]))
  | step_refused x k r p moved b :
      ErrClosedPipe ∈ Writer_Write p b →
      step (Running (WWrite x k) r p moved) (Running (k false) r p moved)
  | step_write_panics x k r p moved b :
      WritePanics ∈ Writer_Write p b →
      step (Running (WWrite x k) r p moved) Panicked
  | step_close_writer k r p p' moved :
      Writer_Close p = Ok p' →
      step (Running (WClose k) r p moved) (Running k r p' moved)
  | step_close_writer_panics k r p moved :
      Writer_Close p = Panic → step (Running (WClose k) r p moved) Panicked
  | step_end_of_range w r kr p moved :
      wrCh_closed p = true → next r = RRecv kr →
      step (Running w r p moved) (Running w (kr None) p moved)
  | step_close_reader w r r' p p' moved :
      next r = RClose r' → Reader_Close p = Ok p' →
      step (Running w r p moved) (Running w r' p' moved)
  | step_close_reader_panics w r r' p moved :
      next r = RClose r' → Reader_Close p = Panic → step (Running w r p moved) Panicked.

Definition start (w : writer) (r : R) : state := Running w r Pipe [].
Definition final (s : state) : Prop := ∃ r p moved, s = Running WDone r p moved ∧ next r = RDone.

(** ** How the pipe is to be used

    The writer closes its end once, as the last thing it does ([defer wr.Close()]).  The reader
    receives until the channel is closed or it closes its own end, once. *)
Inductive closes_last : writer → Prop :=
  | closes_write x k : (∀ b, closes_last (k b)) → closes_last (WWrite x k)
  | closes_close : closes_last (WClose WDone).

Definition gone (r : R) : Prop := next r = RDone ∨ ∃ r', next r = RClose r' ∧ next r' = RDone.
(** [I] holds of the reader while it is to go on. *)
Definition reads_on (I : R → Prop) : Prop := ∀ r, I r →
  (∃ kr, next r = RRecv kr ∧ (∀ x, I (kr (Some x))) ∧ gone (kr None)) ∨
  (∃ r', next r = RClose r' ∧ next r' = RDone).

(** Write the items [l], stop at the first error, and close. *)
Fixpoint write_all (l : list A) : writer :=
  match l with
  | [] => WClose WDone
  | x :: l => WWrite x (λ ok, if ok then write_all l else WClose WDone)
  end.

Lemma write_all_closes l : closes_last (write_all l).
Proof. induction l as [|x l IH]; cbn; constructor; [intros []; [exact IH|constructor]]. Qed.

Section runs.
Context (I : R → Prop) (HI : reads_on I).

(** What is so in every state of a run. *)
Definition inv (s : state) : Prop :=
  match s with
  | Panicked => False
  | Running w r p moved =>
    (if wrCh_closed p then w = WDone else closes_last w) ∧
    (if done_closed p then next r = RDone else I r ∨ (wrCh_closed p = true ∧ gone r))
  end.

Lemma inv_start w r : closes_last w → I r → inv (start w r).
Proof. intros Hw Hr. split; [exact Hw|by left]. Qed.

Lemma inv_step s s' : inv s → step s s' → inv s'.
Proof.
  intros Hs Hst. destruct Hst as [x k r kr [wc dc] moved Hin Hn|x k r [wc dc] moved b Hin|x k r [wc dc] moved b Hin
    |k r [wc dc] p' moved Hc|k r [wc dc] moved Hc|w r kr [wc dc] moved Hc Hn|w r r' [wc dc] p' moved Hn Hc
    |w r r' [wc dc] moved Hn Hc]; unfold inv, Writer_Write, Writer_Close, Reader_Close in *; cbn in *.
  - destruct Hs as [Hw Hr]. destruct wc; [done|]. destruct dc; [by rewrite Hn in Hr|].
    destruct Hr as [Hr|[[=] _]]. inversion Hw as [? ? Hk|]; subst. split; [apply Hk|]. left.
    destruct (HI r Hr) as [(kr' & Hn' & Hx & _)|(r' & Hn' & _)]; rewrite Hn in Hn'; [|done].
    injection Hn' as <-. apply Hx.
  - destruct Hs as [Hw Hr]. destruct wc; [done|]. destruct dc; [|destruct b; set_solver].
    inversion Hw as [? ? Hk|]; subst. by split; [apply Hk|].
  - destruct Hs as [Hw _]. destruct wc; [done|]. destruct b, dc; set_solver.
  - destruct Hs as [Hw Hr]. destruct wc; [done|]. injection Hc as <-. cbn. inversion Hw; subst. split; [done|].
    destruct dc; [done|]. destruct Hr as [Hr|[[=] _]]. by left.
  - destruct Hs as [Hw _]. by destruct wc.
  - subst wc. destruct Hs as [-> Hr]. split; [done|]. destruct dc; [by rewrite Hn in Hr|]. right. split; [done|].
    destruct Hr as [Hr|[_ Hr]].
    + destruct (HI r Hr) as [(kr' & Hn' & _ & He)|(r' & Hn' & _)]; rewrite Hn in Hn'; [|done]. by injection Hn' as <-.
    + destruct Hr as [Hr|(r' & Hr & _)]; by rewrite Hn in Hr.
  - destruct Hs as [Hw Hr]. destruct dc; [done|]. injection Hc as <-. cbn. split; [done|].
    destruct Hr as [Hr|[_ Hr]].
    + destruct (HI r Hr) as [(kr' & Hn' & _)|(r'' & Hn' & Hd)]; rewrite Hn in Hn'; [done|]. by injection Hn' as <-.
    + destruct Hr as [Hr|(r'' & Hr & Hd)]; rewrite Hn in Hr; [done|]. by injection Hr as <-.
  - destruct Hs as [_ Hr]. destruct dc; [by rewrite Hn in Hr|done].
Qed.

Lemma inv_progress s : inv s → final s ∨ ∃ s', step s s'.
Proof.
  destruct s as [w r [wc dc] moved|]; [|done]. intros [Hw Hr]. cbn in *. destruct wc.
  - subst w. destruct dc; [left; by exists r, (mkPipe true true), moved|].
    assert (gone r ∨ ∃ kr, next r = RRecv kr) as [[Hd|(r' & Hn & _)]|(kr & Hn)].
    { destruct Hr as [Hr|[_ Hr]]; [|by left]. destruct (HI r Hr) as [(kr & Hn & _)|Hr']; [right|left; right]; eauto. }
    + left. by exists r, (mkPipe true false), moved.
    + right. eexists. eapply step_close_reader; [exact Hn|reflexivity].
    + right. eexists. by eapply step_end_of_range.
  - right. destruct Hw as [x k Hk|]; [|by eexists; apply step_close_writer]. destruct dc.
    + eexists. apply (step_refused _ _ _ _ _ true). cbn. set_solver.
    + destruct Hr as [Hr|[[=] _]]. destruct (HI r Hr) as [(kr & Hn & _)|(r' & Hn & _)]; eexists.
      * eapply step_send; [set_solver|exact Hn].
      * eapply step_close_reader; [exact Hn|reflexivity].
Qed.

(** The steps that are left to a reader, once the writer's end is closed, while its own is not. *)
Lemma inv_sn_closed r dc moved : inv (Running WDone r (mkPipe true dc) moved) →
  sn step (Running WDone r (mkPipe true dc) moved).
Proof.
  assert (∀ r dc moved, next r = RDone → sn step (Running WDone r (mkPipe true dc) moved)) as Hdone.
  { clear. intros r dc moved Hd. constructor. intros s' Hst. inversion Hst; subst; congruence. }
  assert (∀ r moved, gone r → sn step (Running WDone r (mkPipe true false) moved)) as Hgone.
  { clear - Hdone. intros r moved [Hd|(r' & Hn & Hd)]; [by apply Hdone|]. constructor. intros s' Hst.
    inversion Hst; subst; unfold Reader_Close in *; cbn in *; simplify_eq; try congruence.
    rewrite Hn in *. simplify_eq. by apply Hdone. }
  intros [_ Hr]. cbn in Hr. destruct dc; [by apply Hdone|]. destruct Hr as [Hr|[_ Hr]]; [|by apply Hgone].
  destruct (HI r Hr) as [(kr & Hn & _ & He)|(r' & Hn & Hd)]; [|by apply Hgone; right; exists r'].
  constructor. intros s' Hst. inversion Hst; subst; try congruence. rewrite Hn in *. simplify_eq. by apply Hgone.
Qed.

Lemma inv_sn s : inv s → sn step s.
Proof.
  destruct s as [w r p moved|]; [|done]. revert r p moved. induction w as [|x k IH|k IH]; intros r [wc dc] moved Hs.
  - destruct Hs as [Hw Hr]. destruct wc; [by apply inv_sn_closed|by inversion Hw].
  - destruct wc; [by destruct Hs as [[=] _]|].
    assert (∀ r moved, inv (Running (WWrite x k) r (mkPipe false true) moved) →
      sn step (Running (WWrite x k) r (mkPipe false true) moved)) as Hclosed.
    { intros r' moved' Hs'. constructor. intros s' Hst. pose proof (inv_step _ _ Hs' Hst) as Hs''. destruct Hs' as [_ Hd].
      inversion Hst; subst; try discriminate; try (exfalso; exact Hs''); try exact (IH _ _ _ _ Hs''). }
    destruct dc; [by apply Hclosed|].
    constructor. intros s' Hst. pose proof (inv_step _ _ Hs Hst) as Hs'.
    inversion Hst; subst; try discriminate; try (exfalso; exact Hs'); [exact (IH _ _ _ _ Hs')..|].
    unfold Reader_Close in *. cbn in *. simplify_eq. by apply Hclosed.
  - destruct wc; [by destruct Hs as [[=] _]|]. destruct Hs as [Hw Hr]. inversion Hw; subst.
    assert (∀ r dc moved, inv (Running (WClose WDone) r (mkPipe false dc) moved) → (dc = false →
        ∀ r', next r = RClose r' → sn step (Running (WClose WDone) r' (mkPipe false true) moved)) →
      sn step (Running (WClose WDone) r (mkPipe false dc) moved)) as Hstep.
    { intros r' dc' moved' Hs' Hrd. constructor. intros s' Hst. pose proof (inv_step _ _ Hs' Hst) as Hs''.
      inversion Hst; subst; unfold Writer_Close, Reader_Close in *; cbn [wrCh_closed done_closed] in *;
        try discriminate; try (exfalso; exact Hs''); simplify_eq.
      - by apply inv_sn_closed.
      - destruct dc'; simplify_eq. by eapply Hrd. }
    apply Hstep; [by split|]. intros -> r' Hn.
    assert (inv (Running (WClose WDone) r' (mkPipe false true) moved)) as Hs'.
    { eapply (inv_step (Running (WClose WDone) r (mkPipe false false) moved)); [by split|]. by eapply step_close_reader. }
    apply Hstep; [exact Hs'|done].
Qed.

Lemma inv_run s s' : inv s → rtc step s s' → inv s'.
Proof. intros Hs. induction 1; [done|]. eauto using inv_step. Qed.
End runs.
End pipe.
Arguments RDone {A R}.
Arguments RRecv {A R}.
Arguments RClose {A R}.

(** ** A loop over the pipe

    [for r := range rd.ReadAll() { body }], where [body] goes on to the next item or returns,
    after [defer rd.Close()] or without it. *)
Section range.
Context {A S : Type} (body : S → A → S * bool) (closes : bool).

Inductive loop := Looping (s : S) | Leaving (s : S) | Gone (s : S).
Definition next_action (r : loop) : action (A := A) loop :=
  match r with
  | Looping s => RRecv (λ o,
      match o with
      | Some x => let '(s, go) := body s x in if go then Looping s else Leaving s
      | None => Leaving s
      end)
  | Leaving s => if closes then RClose (Gone s) else RDone
  | Gone _ => RDone
  end.

(** The loop on a list, with whether it has reached the end. *)
Fixpoint range_over (s : S) (l : list A) : S * bool :=
  match l with
  | [] => (s, true)
  | x :: l => let '(s, go) := body s x in if go then range_over s l else (s, false)
  end.

Lemma range_over_app s l k :
  range_over s (l ++ k) = let '(s, go) := range_over s l in if go then range_over s k else (s, false).
Proof. revert s. induction l as [|x l IH]; intros s; cbn; [done|]. destruct (body s x) as [s' []]; [apply IH|done]. Qed.

Notation state := (state (A := A) (R := loop)).
Notation step := (step next_action).

Lemma loop_reads_on : closes = true → reads_on next_action (λ r, match r with Gone _ => False | _ => True end).
Proof.
  intros Hc [s|s|s] Hr; cbn; [| |done].
  - left. eexists. split; [done|]. split; [|right; exists (Gone s); cbn; by rewrite Hc].
    intros x. destruct (body s x) as [s' []]; done.
  - right. exists (Gone s). by rewrite Hc.
Qed.

(** What is so while [xs] is written: [rest] is to come; the writer gives up only when the loop
    has returned, and the loop ends only when it returns or everything was written. *)
Definition run_of (s0 : S) (xs : list A) (st : state) : Prop :=
  match st with
  | Panicked => False
  | Running w r p moved =>
    ∃ rest s go, xs = moved ++ rest ∧ range_over s0 moved = (s, go) ∧
      (w = write_all rest ∧ wrCh_closed p = false ∨
       (w = WClose WDone ∧ wrCh_closed p = false ∨ w = WDone ∧ wrCh_closed p = true) ∧
         (rest = [] ∨ go = false ∧ done_closed p = true)) ∧
      (go = false → ∃ m x, moved = m ++ [x] ∧ (range_over s0 m).2 = true) ∧
      (done_closed p = true → r = Gone s) ∧
      match r with
      | Looping s' => s' = s ∧ go = true
      | Leaving s' => s' = s ∧ (go = false ∨ wrCh_closed p = true)
      | Gone s' => s' = s ∧ (go = false ∨ wrCh_closed p = true) ∧ closes = true ∧ done_closed p = true
      end
  end.

Lemma run_of_start s0 xs : run_of s0 xs (start (write_all xs) (Looping s0)).
Proof. exists xs, s0, true. split_and!; try done. by left. Qed.

Lemma run_of_step s0 xs st st' : run_of s0 xs st → step st st' → run_of s0 xs st'.
Proof.
  intros Hs Hst. destruct Hst as [x k r kr [wc dc] moved Hin Hn|x k r [wc dc] moved b Hin|x k r [wc dc] moved b Hin
    |k r [wc dc] p' moved Hc|k r [wc dc] moved Hc|w r kr [wc dc] moved Hc Hn|w r r' [wc dc] p' moved Hn Hc
    |w r r' [wc dc] moved Hn Hc]; destruct Hs as (rest & s & go & Hxs & Hgo & Hw & Hl & Hd & Hr); cbn in *.
  - destruct Hw as [[Hw ->]|[[[[=] _]|[[=] _]] _]]. destruct rest as [|y rest]; [done|]. injection Hw as -> ->.
    destruct r as [s'|s'|s']; cbn in Hn; [|by destruct closes|done]. injection Hn as <-. destruct Hr as [-> ->].
    exists rest. rewrite range_over_app, Hgo. cbn. destruct (body s y) as [s2 go2] eqn:Hb.
    exists s2, go2. split; [by rewrite <- app_assoc|]. split; [by destruct go2|]. split; [by left|].
    split; [intros _; exists moved, y; by rewrite Hgo|]. split; [intros Hd'; by specialize (Hd Hd')|].
    destruct go2; [done|]. by split; [|left].
  - destruct Hw as [[Hw ->]|[[[[=] _]|[[=] _]] _]]. destruct rest as [|y rest]; [done|]. injection Hw as -> ->.
    destruct dc; [|by destruct b; set_solver]. specialize (Hd eq_refl). subst r.
    destruct Hr as (_ & [-> |[=]] & Hcl & _).
    exists (y :: rest), s, false. split_and!; try done; [|by left]. right. split; [by left|by right].
  - destruct Hw as [[Hw ->]|[[[[=] _]|[[=] _]] _]]. destruct b, dc; set_solver.
  - unfold Writer_Close in Hc. cbn in Hc. destruct wc; [done|]. injection Hc as <-.
    exists rest, s, go. split_and!; try done.
    + right. destruct Hw as [[Hw _]|[[[[= ->] _]|[[=] _]] Hrest]]; [|by split; [right|]].
      destruct rest; [|done]. injection Hw as ->. by split; [right|left].
    + destruct r; cbn; [done|..]; naive_solver.
  - unfold Writer_Close in Hc. cbn in Hc. destruct wc; [|done]. by destruct Hw as [[_ [=]]|[[[_ [=]]|[[=] _]] _]].
  - subst wc. destruct r as [s'|s'|s']; cbn in Hn; [|by destruct closes|done]. injection Hn as <-. destruct Hr as [-> ->].
    exists rest, s, true. split_and!; try done; [|by right]. intros Hd'. by specialize (Hd Hd').
  - destruct r as [s'|s'|s']; cbn in Hn; [done| |done]. destruct closes eqn:Hcl; [|done]. injection Hn as <-.
    unfold Reader_Close in Hc. cbn in Hc. destruct dc; [done|]. injection Hc as <-. destruct Hr as [-> Hr].
    exists rest, s, go. split_and!; try done. destruct Hw as [Hw|[Hw [Hrest|[_ [=]]]]]; [by left|right]. by split; [|left].
  - destruct r as [s'|s'|s']; cbn in Hn; [done| |done]. unfold Reader_Close in Hc. cbn in Hc. destruct dc; [|done].
    by specialize (Hd eq_refl).
Qed.

Lemma run_of_run s0 xs st : rtc step (start (write_all xs) (Looping s0)) st → run_of s0 xs st.
Proof.
  assert (∀ st1 st2, rtc step st1 st2 → run_of s0 xs st1 → run_of s0 xs st2) as Hrun.
  { intros st1 st2. induction 1; [done|]. eauto using run_of_step. }
  intros Hst. eapply Hrun; [exact Hst|apply run_of_start].
Qed.

(** What a loop that has ended has done, in any state in which the writer does nothing more. *)
Lemma run_of_end s0 xs r p moved : run_of s0 xs (Running WDone r p moved) →
  moved `prefix_of` xs ∧ (range_over s0 moved).2 = false ∨ moved = xs.
Proof.
  intros (rest & s & go & -> & Hgo & Hw & _). rewrite Hgo. destruct Hw as [[Hw _]|[_ Hrest]].
  - by destruct rest.
  - destruct Hrest as [-> |[-> _]]; [right; by rewrite app_nil_r|left]. split; [by apply prefix_app_r|done].
Qed.

Lemma range_over_prefix s0 l k : (range_over s0 (l ++ k)).2 = true → (range_over s0 l).2 = true.
Proof. rewrite range_over_app. by destruct (range_over s0 l) as [s []]. Qed.

(** There is one place at which a loop returns. *)
Lemma first_false s0 (l1 l2 k1 k2 : list A) x1 x2 :
  l1 ++ x1 :: k1 = l2 ++ x2 :: k2 → (range_over s0 l1).2 = true → (range_over s0 l2).2 = true →
  (range_over s0 (l1 ++ [x1])).2 = false → (range_over s0 (l2 ++ [x2])).2 = false → l1 = l2.
Proof.
  intros He H1 H2 H1' H2'.
  assert (∀ l1 l2 k1 k2 x1 x2, l1 ++ x1 :: k1 = l2 ++ x2 :: k2 → (range_over s0 l2).2 = true →
    (range_over s0 (l1 ++ [x1])).2 = false → length l2 ≤ length l1)%nat as Hle.
  { clear. intros l1 l2 k1 k2 x1 x2 He H2 H1. destruct (decide (length l2 ≤ length l1)%nat) as [|Hgt]; [done|exfalso].
    rewrite cons_middle, app_assoc in He.
    assert (l2 = (l1 ++ [x1]) ++ drop (length (l1 ++ [x1])) l2) as Hl2.
    { rewrite <- (take_drop (length (l1 ++ [x1])) l2) at 1. f_equal.
      apply (f_equal (take (length (l1 ++ [x1])))) in He. rewrite take_app_length in He.
      rewrite take_app_le in He by (rewrite length_app; simpl; lia). done. }
    rewrite Hl2 in H2. apply range_over_prefix in H2. congruence. }
  pose proof (Hle _ _ _ _ _ _ He H2 H1'). pose proof (Hle _ _ _ _ _ _ (eq_sym He) H1 H2').
  by apply app_inj_1 in He as [? _]; [|lia].
Qed.

End range.

(** C22: A program that writes its messages to the pipe, up to the first failed write, and then
    closes it, and a loop over the pipe that closes its own end when it returns, work together
    however they interleave: no run is infinite, none panics, none gets stuck before both have
    ended, and when they have, the state of the loop is that of a loop over the list of all
    messages. *)
Theorem pipe_range {A S} (body : S → A → S * bool) (s0 : S) (xs : list A) :
  let step := step (next_action body true) in
  sn step (start (write_all xs) (Looping s0)) ∧
  ∀ st, rtc step (start (write_all xs) (Looping s0)) st →
    st ≠ Panicked ∧ (final (next_action body true) st ∨ ∃ st', step st st') ∧
    ∀ r p moved, st = Running WDone r p moved → next_action body true r = RDone →
      r = Gone (range_over body s0 xs).1 ∧ moved `prefix_of` xs ∧ ((range_over body s0 xs).2 = true → moved = xs).
Proof.
  intros step. pose proof (loop_reads_on body true eq_refl) as HI. pose proof (write_all_closes xs) as Hw.
  assert (inv (next_action body true) (λ r, match r with Gone _ => False | _ => True end) (start (write_all xs) (Looping s0))) as Hinv
    by (by apply inv_start).
  split; [by eapply inv_sn|]. intros st Hst.
  pose proof (inv_run _ _ HI _ _ Hinv Hst) as Hi. split; [by intros ->|]. split; [by eapply inv_progress|].
  intros r p moved -> Hr. pose proof (run_of_run _ _ _ _ _ Hst) as Hrun. pose proof (run_of_end _ _ _ _ _ _ _ Hrun) as Hend.
  destruct Hrun as (rest & s & go & Hxs & Hgo & _ & _ & _ & Hl). rewrite Hgo in Hend. cbn in Hend.
  destruct r as [s'|s'|s']; cbn in Hr; [done..|]. destruct Hl as [-> _].
  destruct Hend as [[Hp ->]| ->].
  - by rewrite Hxs, range_over_app, Hgo in *.
  - by rewrite Hgo.
Qed.

(** A loop that returns without closing its end strands the program: if it returns at a
    message that is not the last one, then a run that cannot go on has the program blocked in
    the [Write] of the next message. *)
Theorem pipe_strands {A S} (body : S → A → S * bool) (s0 : S) (pre : list A) (x y : A) (post : list A) st :
  let step := step (next_action body false) in
  (range_over body s0 pre).2 = true → (range_over body s0 (pre ++ [x])).2 = false →
  rtc step (start (write_all (pre ++ x :: y :: post)) (Looping s0)) st → ¬ (∃ st', step st st') →
  ∃ r, st = Running (write_all (y :: post)) r Pipe (pre ++ [x]).
Proof.
  intros step Hpre Hx Hst Hstuck. apply run_of_run in Hst. destruct st as [w r [wc dc] moved|]; [|done].
  destruct Hst as (rest & s & go & Hxs & Hgo & Hw & Hl & Hd & Hr). cbn in Hw, Hd, Hr.
  assert (dc = false) as -> by (destruct dc; [specialize (Hd eq_refl); subst r; naive_solver|done]).
  destruct go.
  { exfalso. destruct r as [s'|s'|s']; [| |naive_solver].
    - apply Hstuck. destruct wc; [eexists; by eapply step_end_of_range|].
      destruct Hw as [[-> _]|[[[-> _]|[_ [=]]] _]]; [|by eexists; apply step_close_writer].
      destruct rest; [by eexists; apply step_close_writer|]. eexists. by eapply step_send; [set_solver|].
    - destruct Hr as [_ [[=] | ->]]. destruct Hw as [[_ [=]]|[_ [-> |[[=] _]]]]. rewrite app_nil_r in Hxs.
      rewrite cons_middle, app_assoc in Hxs. assert ((range_over body s0 moved).2 = true) as Ht by (by rewrite Hgo).
      rewrite <- Hxs in Ht. apply range_over_prefix in Ht. congruence. }
  destruct (Hl eq_refl) as (m & x' & -> & Hm). rewrite <- app_assoc in Hxs. cbn in Hxs.
  assert (pre = m) as <- by (eapply (first_false body s0); try done; by rewrite Hgo).
  apply app_inv_head in Hxs. injection Hxs as <- <-. exists r.
  destruct Hw as [[-> ->]|[_ [[=]|[_ [=]]]]]. done.
Qed.

(** Three items; the loop returns at the second. *)
Definition stop_at_two (s : list nat) (x : nat) : list nat * bool := (s ++ [x], negb (x =? 2)%nat).
Definition stranded_reader : @loop (list nat) := Leaving [1; 2]%nat.

Lemma stranded_run :
  rtc (step (next_action stop_at_two false)) (start (write_all [1; 2; 3]%nat) (Looping []))
    (Running (write_all [3]%nat) stranded_reader Pipe [1; 2]%nat).
Proof.
  eapply rtc_l; [eapply (step_send _ 1%nat); [set_solver|reflexivity]|].
  eapply rtc_l; [eapply (step_send _ 2%nat); [set_solver|reflexivity]|]. apply rtc_refl.
Qed.

Lemma pipe_strands_witness :
  rtc (step (next_action stop_at_two false)) (start (write_all [1; 2; 3]%nat) (Looping []))
    (Running (write_all [3]%nat) stranded_reader Pipe [1; 2]%nat) ∧
  ∃ r, Running (write_all [3]%nat) stranded_reader Pipe [1; 2]%nat =
       Running (write_all [3]%nat) r Pipe ([1] ++ [2])%nat.
Proof.
  split; [exact stranded_run|].
  apply (pipe_strands stop_at_two [] [1]%nat 2%nat 3%nat []); [reflexivity..|exact stranded_run|].
  intros [st Hst]. inversion Hst; subst; cbn in *; try discriminate;
    match goal with H : _ ∈ (if ?b then _ else _) ++ [] |- _ => destruct b; set_solver end.
Defined.
