(* ===== verification/NormalStmt.v ===== *)
(** * Standard SQL statements (go/executor/sql_stmt.go, go/executor/fields.go)

    A statement that is a query writes its header and its rows to the pipe, another one the
    number of rows it changed.  The database and the pipe are the class [Session]. *)

From S2P Require Import Prelude GoStrings GoState Response Verifier FieldInfer.

Local Open Scope Z_scope.

(** ** Data source names (go/database/db.go) *)

Definition ParseURL (url : string) : result (string * string) :=
  if decide (url = ""%string) then Fail (Errorf "dataSource should not be an empty string" [])
  else match Split url "://" with
  | [driver; source] => Ok (driver, source)
  | _ => Fail (Errorf "Expecting but cannot find :// in dataSource %v" [url])
  end.
Definition unparseURL (driver source : string) : string := driver +:+ "://" +:+ source.

(** The drivers read their own data source names. *)
Class DSNParsers := { maxcompute_project : string → result string; alisa_project : string → result string;
                      hive_database : string → result string }.
Fixpoint take_word (s : string) : string :=
  match s with
  | String c s =>
    let b := byte c in
    if ascii_digit b || ascii_upper_letter b || ascii_lower_letter b || (b =? 95) then String c (take_word s) else ""
  | EmptyString => ""
  end.
(** go/database/get_database.go; an unknown driver ends the process. *)
Definition GetDatabaseName `{DSNParsers} (datasource : string) : result string :=
  '(driver, dsName) ← ParseURL datasource;
  if decide (driver = "maxcompute"%string) then maxcompute_project dsName
  else if decide (driver = "alisa"%string) then alisa_project dsName
  else if decide (driver = "mysql"%string) then
    match Index dsName "/" with Some i => Ok (take_word (str_drop (S i) dsName)) | None => Ok ""%string end
  else if decide (driver = "hive"%string) then hive_database dsName
  else Panic.

(** ** What goes through the pipe of a running program *)

Inductive message :=
  | MHead (columnNames : list string)
  | MRow (row : list goval)
  | MText (s : string)
  | MError (e : error)
  | MFigures (Image Text : string)
  | MJob (Id Namespace : string)
  | MEndOfExecution (StartTime EndTime : Z) (Statement : string).

(** ** Cells (fields.go)

    What the pointers that were given to [Scan] point to: an SQL null type with its value if it
    is valid, or a variable of another type. *)
Inductive cell :=
  | NullBool (v : option bool) | NullInt32 (v : option Z) | NullInt64 (v : option Z)
  | NullFloat64 (v : option Z) | RawBytes (v : option string) | NullString (v : option string)
  | NullTime (v : option (Z * Z)) | TimePtr (seconds nanos : Z) | BytesPtr (v : option string)
  | BoolPtr (b : bool) | StringPtr (s : string) | IntPtr (k : int_kind) (z : Z)
  | Float32Ptr (bits : Z) | Float64Ptr (bits : Z) | OtherPtr (type : string).

Definition or_nil {A} (f : A → goval) (v : option A) : goval := from_option f VNil v.
Definition fieldValue (val : cell) : result goval :=
  match val with
  | NullBool v => Ok (or_nil VBool v)
  | NullInt32 v => Ok (or_nil (VInteger KInt32) v)
  | NullInt64 v => Ok (or_nil (VInteger KInt64) v)
  | NullFloat64 v => Ok (or_nil VFloat64 v)
  | RawBytes v => Ok (or_nil VString v)
  | NullString v => Ok (or_nil VString v)
  | NullTime v => Ok (or_nil (λ '(s, n), VTime s n) v)
  | TimePtr s n => Ok (VTime s n)
  | BytesPtr v => Ok (or_nil VBytes v)
  | BoolPtr b => Ok (VBool b)
  | StringPtr s => Ok (VString s)
  | IntPtr k z => Ok (VInteger k z)
  | Float32Ptr f => Ok (VFloat32 f)
  | Float64Ptr f => Ok (VFloat64 f)
  | OtherPtr t => Fail (Errorf "unrecognized type %T" [t])
  end.

(** The type of a column in a table to be created. *)
Definition fieldType (dbms typeName : string) : result string :=
  if decide (dbms = "mysql" ∨ dbms = "maxcompute" ∨ dbms = "alisa")%string then
    if decide (typeName = "VARCHAR"%string) then Ok "VARCHAR(255)"%string else Ok typeName
  else if decide (dbms = "hive"%string) then
    let typeName := TrimSuffix typeName "_TYPE" in
    if decide (typeName = "VARCHAR"%string) then Ok "STRING"%string else Ok typeName
  else Fail (Errorf "Not supported DBMS:%s" [dbms]).
Definition stringFieldType (driver : string) : result string :=
  if decide (driver = "mysql"%string) then Ok "VARCHAR(255)"%string
  else if decide (driver = "hive" ∨ driver = "maxcompute" ∨ driver = "alisa")%string then Ok "STRING"%string
  else Fail (Errorf "unsupported driver type %s" [driver]).

(** ** Statements (sql_stmt.go) *)

(** [sql.Rows]; each row is what [Scan] stores for given destinations. *)
Record query_rows := mkQueryRows {
  q_Columns : result (list string);
  q_ColumnTypes : result (list ColumnType);
  scans : list (list scan_dest → result (list cell))
}.

Class Session (D : Type) := {
  WriteItem : message → st D unit;       (* wr.Write *)
  QueryDB : string → st D query_rows;    (* db.Query *)
  ExecDB : string → st D (Z + error)     (* db.Exec, then RowsAffected *)
}.

Section statements.
Context `{UnicodeTables} `{Session D}.

Definition without_comment_lines (s : string) : string :=
  let nl := char1 (of_byte 10) in
  if HasPrefix s "-- " then Join (filter (λ l, HasPrefix l "-- " = false) (Split s nl)) nl else s.
Definition isQuery (slct : string) : bool :=
  let s := without_comment_lines (ToUpper (TrimSpace slct)) in
  let has := Contains s in
  if HasPrefix s "SELECT" && negb (has "INTO") then true
  else if HasPrefix s "SHOW" && (has "CREATE" || has "DATABASES" || has "TABLES") then true
  else HasPrefix s "DESC" || HasPrefix s "EXPLAIN".

(** [row[i] = v] for the values in turn, in a row of nils as long as the columns. *)
Fixpoint fill_row (i : nat) (row : list goval) (values : list cell) : result (list goval) :=
  match values with
  | [] => Ok row
  | val :: values =>
    v ← fieldValue val;
    if decide (i < length row)%nat then fill_row (S i) (<[i := v]> row) values else Panic
  end.
Definition row_of (columns : list string) (columnTypes : list ColumnType)
    (scan : list scan_dest → result (list cell)) : result (list goval) :=
  values ← scan (NewRowValuesToScan columnTypes true);
  fill_row 0 (replicate (length columns) VNil) values.
Definition parseRow (columns : list string) (columnTypes : list ColumnType)
    (scan : list scan_dest → result (list cell)) : st D unit :=
  row ← lift (row_of columns columnTypes scan);
  WriteItem (MRow row).

(** [rows.Err] is not looked at. *)
Definition runQuery (slct : string) : st D unit :=
  rows ← wrapS "runQuery failed: %v" [] (QueryDB slct);
  columns ← wrapS "failed to get columns: %v" [] (lift (q_Columns rows));
  columnTypes ← wrapS "failed to get columnTypes: %v" [] (lift (q_ColumnTypes rows));
  WriteItem (MHead columns) ≫= λ _,
  eachS (parseRow columns columnTypes) (scans rows).

Definition runExec (slct : string) : st D unit :=
  res ← wrapS "runExec failed: %v" [] (ExecDB slct);
  match res with
  | inr e => fail (Errorf "failed to get affected row number: %v" [err_format e])
  | inl affected =>
    if 1 <? affected then WriteItem (MText (pretty affected +:+ " rows affected"))
    else if affected <? 0 then WriteItem (MText "OK")
    else WriteItem (MText (pretty affected +:+ " row affected"))
  end.

Definition runNormalStmt (slct : string) : st D unit :=
  if isQuery slct then runQuery slct else runExec slct.
End statements.

(** The last dot separates the table from the column. *)
Definition parseTableColumn (s : string) : result (string * string) :=
  match LastIndexByte s "." with
  | Some pos =>
    if decide (pos = str_len s - 1)%nat then Fail (Errorf "can not separate %s to table and column" [s])
    else Ok (str_take pos s, str_drop (S pos) s)
  | None => Fail (Errorf "can not separate %s to table and column" [s])
  end.

(** ** What a query writes

    [items]: what went through the pipe. *)
Class PipeLog (D : Type) `{Session D} := {
  items : D → list message;
  write_logs m d : ∃ r d', WriteItem m d = (r, d') ∧ fine r ∧ items d' = items d ++ (if is_ok r then [m] else []);
  query_logs s d : items (QueryDB s d).2 = items d
}.

Section query.
Context `{UnicodeTables} `{PipeLog D}.

Lemma fill_row_spec i row values row' :
  (i ≤ length row)%nat → fill_row i row values = Ok row' ↔
  ∃ vs, mapR fieldValue values = Ok vs ∧ (i + length vs ≤ length row)%nat ∧
    row' = take i row ++ vs ++ drop (i + length vs) row.
Proof.
  revert i row. induction values as [|v values IH]; intros i row Hi; cbn [fill_row mapR].
  - split.
    + intros [= <-]. exists []. cbn. by rewrite Nat.add_0_r, take_drop.
    + intros (vs & [= <-] & _ & ->). cbn. by rewrite Nat.add_0_r, take_drop.
  - destruct (fieldValue v) as [x|e| |]; cbn; [|by split; [|intros (? & [=] & _)]..].
    case_decide as Hlt.
    2: { split; [done|]. intros (vs & (xs & _ & [= <-])%bind_Ok & Hl & _). simpl in Hl. lia. }
    assert (take (S i) (<[i:=x]> row) = take i row ++ [x]) as Ht.
    { rewrite (take_S_r _ _ x) by (by rewrite list_lookup_insert_eq). by rewrite take_insert_ge by lia. }
    assert (∀ n, (i < n)%nat → drop n (<[i:=x]> row) = drop n row) as Hd by (intros; by rewrite drop_insert_lt).
    rewrite IH, length_insert, Ht by (rewrite length_insert; lia). split.
    + intros (vs & -> & Hl & ->). exists (x :: vs). cbn. split; [done|]. split; [lia|].
      rewrite Hd by lia. by rewrite <- app_assoc, Nat.add_succ_r.
    + intros (vs & (xs & -> & [= <-])%bind_Ok & Hl & ->). exists xs. cbn in Hl. split; [done|]. split; [lia|].
      rewrite Hd by lia. by rewrite <- app_assoc; cbn; rewrite Nat.add_succ_r.
Qed.

(** The rows of a query, as far as they can be read. *)
Fixpoint readable (columns : list string) (cts : list ColumnType)
    (l : list (list scan_dest → result (list cell))) : list (list goval) :=
  match l with
  | [] => []
  | s :: l => match row_of columns cts s with Ok row => row :: readable columns cts l | _ => [] end
  end.

Lemma write_rows columns cts l d r d' :
  eachS (parseRow columns cts) l d = (r, d') →
  ∃ n, (n ≤ length (readable columns cts l))%nat ∧ items d' = items d ++ (MRow <$> take n (readable columns cts l)) ∧
    (r = Ok tt ↔ n = length l).
Proof.
  revert d. induction l as [|s l IH]; intros d; cbn [eachS readable].
  - intros [= <- <-]. exists 0%nat. by rewrite app_nil_r.
  - assert (parseRow columns cts s d = match row_of columns cts s with
      | Ok row => WriteItem (MRow row) d | Fail e => (Fail e, d) | Panic => (Panic, d) | NoFuel => (NoFuel, d)
      end) as Hp by (unfold parseRow, mbind, st_bind, lift; by destruct (row_of columns cts s)).
    unfold mbind, st_bind. rewrite Hp. clear Hp.
    destruct (row_of columns cts s) as [row|e| |]; [|by intros [= <- <-]; exists 0%nat; rewrite app_nil_r..].
    destruct (write_logs (MRow row) d) as (r1 & d1 & Hw & Hf & Hi). rewrite Hw.
    destruct r1 as [[]|e| |]; [|intros [= <- <-]..]; cbn in Hi.
    + intros (n & Hn & Hi2 & Hr)%IH. exists (S n). simpl. split; [lia|]. split; [by rewrite Hi2, Hi, <- app_assoc|].
      rewrite Hr. lia.
    + exists 0%nat. simpl. split; [lia|]. by rewrite Hi.
    + by destruct Hf.
    + by destruct Hf.
Qed.

(** What a query writes to the pipe: the header, then its rows in order, as far as they can
    be read and the pipe takes them, and nothing else; it succeeds exactly when all of them
    were written. *)
Theorem runQuery_items (slct : string) (d d0 d' : D) (q : query_rows) (cols : list string) (cts : list ColumnType)
    (r : result unit) :
  QueryDB slct d = (Ok q, d0) → q_Columns q = Ok cols → q_ColumnTypes q = Ok cts → runQuery slct d = (r, d') →
  ∃ n, (n ≤ S (length (readable cols cts (scans q))))%nat ∧
    items d' = items d ++ take n (MHead cols :: (MRow <$> readable cols cts (scans q))) ∧
    (r = Ok tt ↔ n = S (length (scans q))).
Proof.
  intros Hq Hc Ht. pose proof (query_logs slct d) as Hl. rewrite Hq in Hl. cbn in Hl.
  unfold runQuery. rewrite (st_bind_run _ _ _ q d0) by (unfold wrapS, catchS; by rewrite Hq).
  rewrite (st_bind_run _ _ _ cols d0) by (unfold wrapS, catchS, lift; by rewrite Hc).
  rewrite (st_bind_run _ _ _ cts d0) by (unfold wrapS, catchS, lift; by rewrite Ht).
  destruct (write_logs (MHead cols) d0) as (r1 & d1 & Hw & Hf & Hi). unfold mbind, st_bind. rewrite Hw.
  destruct r1 as [[]|e| |]; cbn in Hi; [|intros [= <- <-]..].
  - intros (n & Hn & Hi2 & Hr)%write_rows. exists (S n). split; [lia|].
    split; [|rewrite Hr; lia]. rewrite Hi2, Hi, Hl, <- app_assoc. cbn. by rewrite fmap_take.
  - exists 0%nat. split; [lia|]. by rewrite Hi, Hl.
  - by destruct Hf.
  - by destruct Hf.
Qed.
End query.

(** A row with a value for every column is what the cells hold. *)
Lemma row_of_Ok columns cts scan row :
  row_of columns cts scan = Ok row ↔
  ∃ cells vs, scan (NewRowValuesToScan cts true) = Ok cells ∧ mapR fieldValue cells = Ok vs ∧
    (length vs ≤ length columns)%nat ∧ row = vs ++ replicate (length columns - length vs) VNil.
Proof.
  unfold row_of. rewrite bind_Ok. split.
  - intros (cells & Hc & Hr). apply fill_row_spec in Hr as (vs & Hv & Hl & ->); [|lia].
    rewrite length_replicate in Hl. exists cells, vs. rewrite drop_replicate. done.
  - intros (cells & vs & Hc & Hv & Hl & ->). exists cells. split; [done|]. apply fill_row_spec; [lia|].
    exists vs. rewrite length_replicate, drop_replicate. done.
Qed.

(** ** A pipe that keeps everything, and a database with one table of two columns and a row that
    cannot be read *)

Definition demo_query : query_rows :=
  mkQueryRows (Ok ["a"; "b"]%string) (Ok [mkColumnType "a" "INT"; mkColumnType "b" "VARCHAR"])
    [λ _, Ok [NullInt32 (Some 1); NullString (Some "x"%string)]; λ _, Ok [NullInt32 None];
     λ _, Fail (Errorf "scan" []); λ _, Ok []].
#[export] Instance message_log : Session (list message) := {|
  WriteItem m d := (Ok tt, d ++ [m]);
  QueryDB s d := (Ok (if decide (s = "SELECT"%string) then demo_query else mkQueryRows (Ok ["1"%string]) (Ok []) []), d);
  ExecDB _ d := (Ok (inl 2), d)
|}.
#[export] Instance message_log_works : PipeLog (list message).
Proof.
  refine {| items d := d |}.
  - intros m d. by exists (Ok tt), (d ++ [m]).
  - reflexivity.
Defined.

Lemma runQuery_items_witness :
  ∃ n, (n ≤ 3)%nat ∧
    (@runQuery latin1_tables _ message_log "SELECT" []).2 =
    take n [MHead ["a"; "b"]%string; MRow [VInteger KInt32 1; VString "x"]; MRow [VNil; VNil]].
Proof.
  destruct (@runQuery_items latin1_tables _ message_log message_log_works "SELECT" [] []
    (@runQuery latin1_tables _ message_log "SELECT" []).2 demo_query ["a"; "b"]%string
    [mkColumnType "a" "INT"; mkColumnType "b" "VARCHAR"] (Fail (Errorf "scan" []))) as (n & Hn & Hi & _).
  - reflexivity.
  - reflexivity.
  - reflexivity.
  - vm_compute. reflexivity.
  - exists n. split; [exact Hn|exact Hi].
Defined.
