(* ===== verification/Database.v ===== *)
(** * Opening databases (go/database/db.go)

    A database is named by a URL; package database/sql has the drivers that are linked in. *)

From S2P Require Import Prelude GoStrings GoState SqlParser Response NormalStmt.

Local Open Scope nat_scope.

(** [H]: the handles of package database/sql. *)
Class SqlDrivers (H D : Type) := {
  sql_Drivers : list string;
  sql_Open : string → string → st D H;
  sql_Ping : H → st D unit
}.

Record DB (H : Type) := mkDB { DriverName : string; DataSourceName : string; handle_of : option H }.
Arguments mkDB {H}. Arguments DriverName {H}. Arguments DataSourceName {H}. Arguments handle_of {H}.

Definition URL {H} (db : DB H) : string := unparseURL (DriverName db) (DataSourceName db).

Section open.
Context `{SqlDrivers H D}.

(** Some errors come with a database that has no handle; the caller looks at the error only. *)
Definition OpenDB (url : string) : st D (DB H) :=
  '(driver, dataSource) ← lift (ParseURL url);
  if decide (driver ∈ sql_Drivers) then h ← sql_Open driver dataSource; mret (mkDB driver dataSource (Some h))
  else fail (Errorf "sqlflow currently doesn't support DB %s" [driver]).
Definition OpenAndConnectDB (url : string) : st D (DB H) :=
  db ← wrapS "failed to open database: %v" [] (OpenDB url);
  match handle_of db with
  | Some h => wrapS "failed to ping database: %v" [] (sql_Ping h) ≫= λ _, mret db
  | None => lift Panic
  end.

(** A URL names its driver and its source: taken apart and put together it is the same. *)
Theorem ParseURL_unparse (url driver source : string) : ParseURL url = Ok (driver, source) → unparseURL driver source = url.
Proof.
  unfold ParseURL. case_decide; [done|]. pose proof (Join_Split url "://") as Hj.
  destruct (Split url "://") as [|a [|b [|c l]]]; try done. intros [= <- <-]. exact Hj.
Qed.
(** What was opened has a driver that is linked in, a handle that answers, and the URL it was
    opened with. *)
Theorem OpenAndConnectDB_URL (url : string) (d d' : D) (db : DB H) : OpenAndConnectDB url d = (Ok db, d') →
  URL db = url ∧ DriverName db ∈ sql_Drivers ∧ ∃ h d1, handle_of db = Some h ∧ sql_Ping h d1 = (Ok tt, d').
Proof.
  intros (db1 & d1 & Ho & Hr)%st_bind_Ok. apply wrapS_Ok in Ho. unfold OpenDB in Ho.
  apply st_bind_Ok in Ho as ([driver source] & d2 & [Hu ->]%lift_Ok & Ho). case_decide as Hin; [|done].
  apply st_bind_Ok in Ho as (h & d3 & _ & [<- <-]%mret_Ok). cbn [handle_of] in Hr.
  apply st_bind_Ok in Hr as ([] & d4 & Hp%wrapS_Ok & [<- <-]%mret_Ok). split; [by apply ParseURL_unparse|].
  split; [done|]. by eexists h, _.
Qed.
End open.

#[export] Instance one_driver : SqlDrivers string unit := {| sql_Drivers := ["mysql"%string]; sql_Open d s := mret s; sql_Ping _ := mret tt |}.
Lemma OpenAndConnectDB_URL_witness :
  OpenAndConnectDB "mysql://root@tcp(h)/iris" tt = (Ok (mkDB "mysql" "root@tcp(h)/iris" (Some "root@tcp(h)/iris"%string)), tt) ∧
  URL (mkDB "mysql" "root@tcp(h)/iris" (Some "root@tcp(h)/iris"%string)) = "mysql://root@tcp(h)/iris"%string.
Proof.
  assert (OpenAndConnectDB "mysql://root@tcp(h)/iris" tt = (Ok (mkDB "mysql" "root@tcp(h)/iris" (Some "root@tcp(h)/iris"%string)), tt)) as Ho
    by (vm_compute; reflexivity).
  split; [exact Ho|]. exact (proj1 (OpenAndConnectDB_URL _ _ _ _ Ho)).
Defined.
