(* ===== verification/OptimizeCode.v ===== *)
(** * What the generator of optimization programs fills its templates with
    (go/codegen/optimize/codegen.go) *)

From S2P Require Import Prelude GoStrings FeatureColumn Attribute Verifier Ir AttrInit XgbCode NormalStmt.

Local Open Scope Z_scope.

Section optimize.
Context `{MapOrder} `{ColumnText}.

(** The group of an attribute, without the dot, and its name there. *)
Definition group_of (k : string) : option (string * string) :=
  if HasPrefix k "data." then Some ("data"%string, str_drop 5 k)
  else if HasPrefix k "solver." then Some ("solver"%string, str_drop 7 k)
  else if HasPrefix k "worker." then Some ("worker"%string, str_drop 7 k)
  else None.
Definition group_one (parsedAttrs : gmap string attrs) (kv : string * attr) : result (gmap string attrs) :=
  let '(k, v) := kv in
  '(p, x) ← or_fail (group_of k) (Errorf "unrecognized attribute %s" [k]);
  Ok (<[p := <[x := v]> (default ∅ (parsedAttrs !! p))]> parsedAttrs).
Definition group_attributes (a : attrs) : result (gmap string attrs) := foldM group_one ∅ (range_map a).
Definition generateOptimizeAttributeJSONString (a : attrs) : result string :=
  g ← group_attributes a; json_map (json_map json_attr) g.

Record pyomoNativeOptimizeFiller := mkPyomoFiller {
  py_DataSource : string; py_Select : string; py_Variables : list string; py_ResultValueName : string;
  py_VariableType : string; py_Objective : OptimizeExpr; py_Direction : string;
  py_Constraints : list OptimizeExpr; py_Solver : string; py_AttributeJSON : string; py_ResultTable : string
}.
Record optFlowOptimizeFiller := mkOptFlowFiller {
  UserID : string; ColumnNames : list string; of_Variables : list string; of_ResultValueName : string;
  of_VariableType : string; of_Direction : string; of_Objective : OptimizeExpr;
  of_Constraints : list OptimizeExpr; of_Solver : string; of_AttributeJSON : string; TrainTable : string;
  of_ResultTable : string
}.

(** A table without a database is one of the session's database. *)
Definition in_database (dbName table : string) : string :=
  if Contains table "." then table else dbName +:+ "." +:+ table.
Definition optimize_filler `{UnicodeTables} `{DSNParsers} (open : string → result DB) (optimStmt : OptimizeStmt FieldDesc)
    (s : pb_Session) (tableName : string) (useOptFlow : bool)
    : result (pyomoNativeOptimizeFiller + optFlowOptimizeFiller) :=
  dbName ← GetDatabaseName (DbConnStr s);
  let resultTable := in_database dbName (o_ResultTable optimStmt) in
  attrJSON ← generateOptimizeAttributeJSONString (o_Attributes optimStmt);
  if negb useOptFlow then
    Ok (inl (mkPyomoFiller (DbConnStr s) (o_Select optimStmt) (Variables optimStmt) (ResultValueName optimStmt)
               (VariableType optimStmt) (o_Objective optimStmt) (o_Direction optimStmt) (o_Constraints optimStmt)
               (o_Solver optimStmt) attrJSON resultTable))
  else
    let tableName := in_database dbName tableName in
    db ← open (DbConnStr s);
    '(columns, _) ← GetSQLFieldType ("SELECT * FROM " +:+ tableName) db;
    Ok (inr (mkOptFlowFiller (UserId s) columns (Variables optimStmt) (ResultValueName optimStmt) (VariableType optimStmt)
               (o_Direction optimStmt) (o_Objective optimStmt) (o_Constraints optimStmt) (o_Solver optimStmt) attrJSON
               tableName resultTable)).

(** ** The groups of an initialized statement *)

Definition groups : list string := ["data"; "solver"; "worker"].

Lemma group_of_Some k p x : group_of k = Some (p, x) ↔ p ∈ groups ∧ k = (p +:+ "." +:+ x)%string.
Proof.
  unfold group_of, groups. split.
  - repeat (destruct (HasPrefix k _) eqn:Hp; [apply HasPrefix_app in Hp as [t ->]; intros [= <- <-]; cbn; by split; [set_solver|]|clear Hp]). done.
  - intros [Hp ->]. rewrite !elem_of_cons in Hp. destruct Hp as [->|[->|[->|[]%not_elem_of_nil]]]; by destruct x.
Qed.

Lemma group_spec l g : NoDup l.*1 → Forall (λ k, is_Some (group_of k)) l.*1 →
  ∃ g', foldM group_one g l = Ok g' ∧ ∀ p x, p ∈ groups →
    g' !! p ≫= (λ m, m !! x) =
    match (list_to_map l : attrs) !! (p +:+ "." +:+ x)%string with Some v => Some v | None => g !! p ≫= (λ m, m !! x) end.
Proof.
  revert g. induction l as [|[k v] l IH]; intros g; cbn [fmap list_fmap].
  - intros _ _. exists g. split; [done|]. intros p x _. cbn. by rewrite lookup_empty.
  - intros [Hk Hnd]%NoDup_cons [[[q y] Hq] Hl]%Forall_cons. cbn [fst] in *. cbn [foldM].
    assert (group_one g (k, v) = Ok (<[q := <[y := v]> (default ∅ (g !! q))]> g)) as -> by (cbn; by rewrite Hq).
    cbn [mbind result_bind].
    destruct (IH (<[q := <[y := v]> (default ∅ (g !! q))]> g) Hnd Hl) as (g' & Hg & Hs). exists g'.
    split; [exact Hg|]. apply group_of_Some in Hq as [Hq ->]. intros p x Hp. rewrite (Hs p x Hp). cbn [list_to_map foldr fst snd].
    destruct (decide ((q, y) = (p, x))) as [[= -> ->]|Hne].
    + rewrite lookup_insert_eq, not_elem_of_list_to_map_1 by done. rewrite lookup_insert_eq. cbn. by rewrite lookup_insert_eq.
    + rewrite (lookup_insert_ne _ (q +:+ "." +:+ y)%string).
      * destruct (list_to_map l !! _); [done|]. destruct (decide (q = p)) as [->|Hqp].
        -- rewrite lookup_insert_eq. cbn. rewrite lookup_insert_ne by congruence. by destruct (g !! p); cbn; rewrite ?lookup_empty.
        -- by rewrite lookup_insert_ne.
      * intros Heq. assert (Some (q, y) = Some (p, x)) as [=]; [|congruence].
        rewrite <- (proj2 (group_of_Some _ q y) (conj Hq eq_refl)), Heq. by apply group_of_Some.
Qed.

Lemma optimize_keys k : is_Some (optimizeAttributes !! k) →
  k ∈ ["data.enable_slice"; "data.batch_size"; "worker.num"; "worker.core"; "worker.memory"; "solver.*"]%string.
Proof.
  intros [d Hd%elem_of_map_to_list]. apply (list_elem_of_fmap_2 fst) in Hd. cbn [fst] in Hd.
  assert ((map_to_list optimizeAttributes).*1 ⊆ ["data.enable_slice"; "data.batch_size"; "worker.num"; "worker.core"; "worker.memory"; "solver.*"]%string) as Hs
    by (apply (bool_decide_eq_true (_ ⊆ _)); vm_compute; reflexivity).
  by apply Hs.
Qed.

Lemma wildcard_prefix p c : (p +:+ ".*")%string = c →
  str_drop (str_len c - 2) c = ".*"%string ∧ p = str_take (str_len c - 2) c.
Proof.
  intros <-. rewrite str_length_app. cbn [str_len]. replace (str_len p + 2 - 2)%nat with (str_len p) by lia.
  by rewrite str_drop_app, str_take_app.
Qed.

(** The attributes of an initialized optimization statement are all recognized: they fall
    into the three groups that the program gets, and under a name in a group is exactly the
    attribute with that prefix and name. *)
Theorem optimize_attributes_grouped (stmt stmt' : OptimizeStmt FieldDesc) :
  optimize_InitializeAttributes stmt = Ok stmt' →
  ∃ g, group_attributes (o_Attributes stmt') = Ok g ∧
    ∀ p x, p ∈ groups → g !! p ≫= (λ m, m !! x) = o_Attributes stmt' !! (p +:+ "." +:+ x)%string.
Proof.
  intros (a & Ha & [= <-])%bind_Ok. cbn [o_Attributes set_o_Attributes]. unfold group_attributes.
  destruct (group_spec (range_map a) ∅) as (g & Hg & Hs).
  - rewrite range_map_perm. apply NoDup_fst_map_to_list.
  - apply Forall_forall. intros k ([k' v] & -> & Hk%elem_of_range_map)%list_elem_of_fmap. cbn [fst].
    destruct (validated_known _ _ _ _ _ Ha Hk) as [-> [Hd|(p & x & Hsp & Hd)]]; apply optimize_keys in Hd.
    + rewrite !elem_of_cons in Hd. repeat destruct Hd as [->|Hd]; try (by eexists). by apply not_elem_of_nil in Hd.
    + pose proof (Join_Split k' ".") as Hj. rewrite Hsp in Hj. cbn in Hj. subst k'.
      assert (p = "solver"%string) as ->.
      { rewrite !elem_of_cons in Hd.
        repeat destruct Hd as [[Hs Hp]%wildcard_prefix|Hd]; [cbn in Hs; discriminate Hs..|done|by apply not_elem_of_nil in Hd]. }
      exists ("solver"%string, x). apply group_of_Some. split; [right; left|done].
  - exists g. split; [exact Hg|]. intros p x Hp. etrans; [apply (Hs p x Hp)|].
    rewrite list_to_map_range_map, lookup_empty. by destruct (_ !! _).
Qed.
End optimize.

Definition demo_optimize : OptimizeStmt FieldDesc :=
  mkOptimizeStmt "" "SELECT * FROM t" ["x"%string] "x" "Integers" {[ "solver.max_iter"%string := VInt 10 ]}
    (mkOptimizeExpr [] "") "maximize" [] "glpk" "r".

Lemma optimize_attributes_grouped_witness :
  match optimize_InitializeAttributes demo_optimize with
  | Ok stmt' => ∃ g, group_attributes (o_Attributes stmt') = Ok g ∧
      g !! "solver"%string ≫= (λ m, m !! "max_iter"%string) = o_Attributes stmt' !! "solver.max_iter"%string
  | _ => False
  end.
Proof.
  destruct (optimize_InitializeAttributes demo_optimize) as [stmt'| | |] eqn:Hi; [|vm_compute in Hi; discriminate Hi..].
  destruct (optimize_attributes_grouped demo_optimize stmt' Hi) as (g & Hg & Hs). exists g. split; [exact Hg|].
  apply (Hs "solver"%string "max_iter"%string). right. left.
Defined.
