(* ===== verification/Shell.v ===== *)
(** * Texts inside of programs: Python's and the shell's literals

    The workflow generators put the text of a statement into a Python program, and that into a
    command of bash.  This file has the readers of those languages that the text goes through:
    a string between triple quotes, a word between double quotes, a here-document; and what
    replacing single characters does to a text. *)

From S2P Require Import Prelude GoStrings.

Local Open Scope nat_scope.

Definition chr_bs : ascii := of_byte 92.      (* backslash *)
Definition chr_dq : ascii := of_byte 34.      (* double quotation mark *)
Definition chr_sq : ascii := of_byte 39.      (* single quotation mark *)
Definition chr_bt : ascii := of_byte 96.      (* backquote *)
Definition chr_nl : ascii := of_byte 10.
Definition chr_cr : ascii := of_byte 13.

(** ** Replacing characters *)

Fixpoint subst_char (c : ascii) (new s : string) : string :=
  match s with
  | EmptyString => EmptyString
  | String d s => (if decide (d = c) then new else char1 d) +:+ subst_char c new s
  end.

Lemma subst_char_app c new s t : subst_char c new (s +:+ t) = (subst_char c new s +:+ subst_char c new t)%string.
Proof. induction s as [|d s IH]; [done|]. cbn [String.append subst_char]. by rewrite IH, str_app_assoc. Qed.
Lemma subst_char_none c new s : no_char c s = true → subst_char c new s = s.
Proof.
  induction s as [|d s IH]; [done|]. cbn. intros [Hd Hs]%andb_true_iff. apply negb_true_iff, bool_decide_eq_false in Hd.
  rewrite decide_False by done. by rewrite IH.
Qed.

(** A text with its parts that a character separates. *)
Lemma split_char_parts c s : ∃ l, Forall (λ u, no_char c u = true) l ∧ l ≠ [] ∧ s = Join l (char1 c).
Proof.
  induction s as [|d s (l & Hl & Hne & ->)]; [by exists [""%string]; repeat constructor|].
  destruct (decide (d = c)) as [->|Hd].
  - exists (""%string :: l). split_and!; [by constructor|done|]. by destruct l.
  - destruct l as [|u l]; [done|]. exists (String d u :: l). apply Forall_cons in Hl as [Hu Hl]. split_and!; [|done|by destruct l].
    constructor; [|done]. unfold no_char in *. cbn [str_forall]. rewrite Hu, andb_true_r. by apply negb_true_iff, bool_decide_eq_false.
Qed.

Lemma ReplaceAll_char c new s : ReplaceAll s (char1 c) new = subst_char c new s.
Proof.
  destruct (split_char_parts c s) as (l & Hl & Hne & ->). unfold ReplaceAll. rewrite Split_Join by done. clear Hne.
  induction Hl as [|u l Hu Hl IH]; [done|]. destruct l as [|v l]; [by rewrite subst_char_none|].
  rewrite !Join_cons, !subst_char_app, IH, (subst_char_none c new u) by done. do 2 f_equal.
  cbn. rewrite decide_True by done. by rewrite str_app_nil_r.
Qed.

(** ** Trimming a text of ASCII characters *)

Definition ascii_space (c : ascii) : bool := is_space (byte c).
(** No white space at either end. *)
Definition trimmed (s : string) : Prop :=
  let l := String.list_ascii_of_string s in
  (∀ c, head l = Some c → ascii_space c = false) ∧ (∀ c, last l = Some c → ascii_space c = false).

Lemma segments_ascii s : ascii_string s = true → segments s = (λ c, (byte c, char1 c)) <$> String.list_ascii_of_string s.
Proof.
  unfold segments.
  assert (∀ n, str_len s ≤ n → ascii_string s = true →
    segments_fuel n s = (λ c, (byte c, char1 c)) <$> String.list_ascii_of_string s) as Hgen; [|by apply Hgen].
  induction s as [|c s IH]; intros [|n] Hn; try done; [cbn in Hn; lia|].
  cbn -[decode_rune]. intros [Hc Hs]%andb_true_iff. rewrite decode_rune_ascii by done. cbn. f_equal. apply IH; [cbn in Hn; lia|done].
Qed.

Lemma drop_while_fmap {A B} (f : A → B) P l : drop_while P (f <$> l) = f <$> drop_while (P ∘ f) l.
Proof. induction l as [|x l IH]; [done|]. cbn. destruct (P (f x)); [exact IH|done]. Qed.
Lemma drop_while_end_fmap {A B} (f : A → B) P l : drop_while_end P (f <$> l) = f <$> drop_while_end (P ∘ f) l.
Proof. unfold drop_while_end. by rewrite <- fmap_reverse, drop_while_fmap, fmap_reverse. Qed.
Lemma drop_while_head {A} (P : A → bool) l x : head (drop_while P l) = Some x → P x = false.
Proof. induction l as [|y l IH]; [done|]. cbn. destruct (P y) eqn:Hy; [exact IH|]. by intros [= <-]. Qed.
Lemma drop_while_fixed {A} (P : A → bool) l : (∀ x, head l = Some x → P x = false) → drop_while P l = l.
Proof. destruct l as [|y l]; [done|]. intros H. cbn. by rewrite (H y eq_refl). Qed.
Lemma drop_while_suffix {A} (P : A → bool) l : ∃ k, l = k ++ drop_while P l.
Proof. induction l as [|y l [k Hk]]; [by exists []|]. cbn. destruct (P y); [exists (y :: k); cbn; by f_equal|by exists []]. Qed.

(** Both ends of what two rounds of dropping leave. *)
Lemma drop_both_ends {A} (P : A → bool) l :
  let k := drop_while_end P (drop_while P l) in
  (∀ x, head k = Some x → P x = false) ∧ (∀ x, last k = Some x → P x = false).
Proof.
  cbv zeta. unfold drop_while_end. set (m := drop_while P l). split.
  - intros x Hx. destruct (drop_while_suffix P (reverse m)) as [k Hk].
    apply (f_equal reverse) in Hk. rewrite reverse_involutive, reverse_app in Hk.
    apply (drop_while_head P l). fold m. rewrite Hk. by destruct (reverse (drop_while P (reverse m))).
  - intros x Hx. rewrite last_reverse in Hx. by apply drop_while_head in Hx.
Qed.

Lemma TrimSpace_ascii s : ascii_string s = true →
  TrimSpace s = String.string_of_list_ascii (drop_while_end ascii_space (drop_while ascii_space (String.list_ascii_of_string s))).
Proof.
  intros Ha. unfold TrimSpace. rewrite segments_ascii, drop_while_fmap, drop_while_end_fmap, <- list_fmap_compose by done.
  unfold compose. cbn [fst snd]. induction (drop_while_end _ _) as [|c l IH]; [done|]. cbn. by f_equal.
Qed.
Lemma TrimSpace_trimmed s : ascii_string s = true → trimmed (TrimSpace s).
Proof.
  intros Ha. rewrite TrimSpace_ascii by done. unfold trimmed. rewrite String.list_ascii_of_string_of_list_ascii. apply drop_both_ends.
Qed.
Lemma TrimSpace_fixed s : ascii_string s = true → trimmed s → TrimSpace s = s.
Proof.
  intros Ha [Hh Hl]. rewrite TrimSpace_ascii by done. rewrite (drop_while_fixed _ _ Hh). unfold drop_while_end.
  rewrite drop_while_fixed; [by rewrite reverse_involutive, String.string_of_list_ascii_of_string|].
  intros c Hc. apply Hl. by rewrite <- (reverse_involutive (String.list_ascii_of_string s)), last_reverse.
Qed.

(** ** Python: a string between three single quotation marks

    The reader starts behind the opening marks; it gives the value and what follows the closing
    ones.  The escapes with digits and names ([x], [u], [U], [N], octal) are left out: [None]. *)
Definition py_escape (c : ascii) : option string :=
  if decide (c = chr_nl) then Some ""%string
  else if decide (c = chr_bs ∨ c = chr_sq ∨ c = chr_dq) then Some (char1 c)
  else if decide (c = "n"%char) then Some (char1 chr_nl)
  else if decide (c = "t"%char) then Some (char1 (of_byte 9))
  else if decide (c = "r"%char) then Some (char1 chr_cr)
  else if decide (c = "a"%char) then Some (char1 (of_byte 7))
  else if decide (c = "b"%char) then Some (char1 (of_byte 8))
  else if decide (c = "f"%char) then Some (char1 (of_byte 12))
  else if decide (c = "v"%char) then Some (char1 (of_byte 11))
  else if decide (c ∈ ["x"; "u"; "U"; "N"; "0"; "1"; "2"; "3"; "4"; "5"; "6"; "7"]%char) then None
  else Some (String chr_bs (char1 c)).
Definition triple : string := String chr_sq (String chr_sq (char1 chr_sq)).
Fixpoint py_string (s : string) : option (string * string) :=
  if HasPrefix s triple then Some (""%string, str_drop 3 s) else
  match s with
  | EmptyString => None
  | String c s =>
    if decide (c = chr_bs) then
      match s with
      | EmptyString => None
      | String d s => e ← py_escape d; '(v, rest) ← py_string s; Some (e +:+ v, rest)
      end
    else '(v, rest) ← py_string s; Some (String c v, rest)
  end.

(** ** Characters that are replaced one by one *)

Fixpoint map_chars (f : ascii → string) (s : string) : string :=
  match s with EmptyString => EmptyString | String c s => (f c +:+ map_chars f s)%string end.

Lemma HasPrefix_triple_head c s : c ≠ chr_sq → HasPrefix (String c s) triple = false.
Proof. intros Hc. cbn [HasPrefix triple]. by rewrite decide_False. Qed.
Lemma HasPrefix_sq t : HasPrefix t (char1 chr_sq) = false → HasPrefix (String chr_sq t) triple = false.
Proof.
  unfold triple. cbn [HasPrefix]. rewrite decide_True by done. destruct t as [|c t]; [done|]. cbn [HasPrefix char1].
  destruct (decide (chr_sq = c)); [by destruct t|done].
Qed.

(** Python's string does not end at a single quotation mark that is not the first of three and
    not last, when the replacement of no other character starts with one. *)
Lemma map_chars_open f s r : f chr_sq = char1 chr_sq →
  (∀ c t, c ≠ chr_sq → HasPrefix (f c +:+ t) (char1 chr_sq) = false) →
  s ≠ ""%string → HasPrefix (String chr_sq s) triple = false → s ≠ char1 chr_sq →
  HasPrefix (String chr_sq (map_chars f s +:+ triple +:+ r)) triple = false.
Proof.
  intros Hsq Hf Hne Ht Hne2. destruct s as [|d s]; [done|]. cbn [map_chars].
  destruct (decide (d = chr_sq)) as [->|Hd]; [|rewrite <- str_app_assoc; by apply HasPrefix_sq, Hf].
  destruct s as [|e s]; [done|]. assert (e ≠ chr_sq) as He.
  { intros ->. cbn [HasPrefix triple char1] in Ht. rewrite !decide_True in Ht by done. by destruct s. }
  rewrite Hsq. cbn [String.append char1 map_chars]. unfold triple at 2. cbn [HasPrefix char1]. rewrite !decide_True by done.
  rewrite <- str_app_assoc. by apply Hf.
Qed.

(** ** bash: a word between double quotation marks, and the body of a here-document

    A dollar sign or a backquote that is not escaped starts an expansion: [None]. *)
Fixpoint bash_word (s : string) : option (string * string) :=
  match s with
  | EmptyString => None
  | String c s =>
    if decide (c = chr_dq) then Some (""%string, s)
    else if decide (c = chr_bs) then
      match s with
      | EmptyString => None
      | String d s =>
        '(v, rest) ← bash_word s;
        Some (if decide (d = chr_nl) then v
              else if decide (d = "$"%char ∨ d = chr_bt ∨ d = chr_dq ∨ d = chr_bs) then String d v
              else String chr_bs (String d v), rest)
      end
    else if decide (c = "$"%char ∨ c = chr_bt) then None
    else '(v, rest) ← bash_word s; Some (String c v, rest)
  end.
Fixpoint bash_here (s : string) : option string :=
  match s with
  | EmptyString => Some ""%string
  | String c s =>
    if decide (c = chr_bs) then
      match s with
      | EmptyString => Some (char1 chr_bs)
      | String d s =>
        v ← bash_here s;
        Some (if decide (d = chr_nl) then v
              else if decide (d = "$"%char ∨ d = chr_bt ∨ d = chr_bs) then String d v
              else String chr_bs (String d v))
      end
    else if decide (c = "$"%char ∨ c = chr_bt) then None
    else v ← bash_here s; Some (String c v)
  end.
