(* ===== verification/Template.v ===== *)
(** * Text templates (package text/template), as the generators of code use them

    A template is parsed to a list of nodes and executed on data: actions print a value, [range]
    repeats a part for the elements of a list or a map, [if] chooses one.  The names of actions
    are those of the package; what no template of the program has (templates that call others,
    comparisons, trimmed blanks) is left out. *)

From S2P Require Import Prelude GoStrings FeatureColumn Attribute Ir ColumnCode AttrInit XgbCode Shell.

Local Open Scope Z_scope.

(** ** Data

    A value of the program as the package sees it: one of an interface type or a text, a number
    or a bool, the type of a field, the code of columns, a list, a map in the order of its keys,
    or a structure. *)
Inductive data :=
  | DAttr (a : attr) | DField (t : DataType) | DCode (s : string)
  | DList (l : list data) | DMap (m : list (string * data)) | DStruct (fields : list (string * data)).

Definition text (s : string) : data := DAttr (VString s).
Definition number (z : Z) : data := DAttr (VInt z).
Definition truth (b : bool) : data := DAttr (VBool b).
Definition map_of {A} (f : A → data) (m : gmap string A) : data :=
  DMap (map (λ k, (k, match m !! k with Some a => f a | None => DAttr VNil end)) (sorted_keys m)).
Definition assoc {A} (k : string) (l : list (string * A)) : option A :=
  snd <$> List.find (λ kv, bool_decide (kv.1 = k)) l.

Lemma elem_of_sorted_keys {A} (m : gmap string A) k : k ∈ sorted_keys m ↔ is_Some (m !! k).
Proof.
  unfold sorted_keys. rewrite merge_sort_Permutation, list_elem_of_fmap. split.
  - intros ([k' x] & -> & Hx%elem_of_map_to_list). by exists x.
  - intros [x Hx%elem_of_map_to_list]. by exists (k, x).
Qed.

(** ** Templates *)

(** The dot or a variable, with the fields that are selected. *)
Inductive operand := Dot (path : list string) | Var (name : string) (path : list string).
(** [index o "k"], or an operand alone. *)
Record pipeline := mkPipe { p_operand : operand; p_key : option string }.
Inductive node :=
  | NText (s : string)
  | NAction (p : pipeline) (call : option string)
  | NRange (vars : list string) (p : pipeline) (body : list node)
  | NIf (p : pipeline) (then_ else_ : list node).

(** *** Parsing *)

Inductive token := TText (s : string) | TAction (words : list string).

Definition action_words (s : string) : list string :=
  filter (λ w, w ≠ ""%string) (Split (ReplaceAll s "," " ") " ").
Definition lex_piece (piece : string) : result (list token) :=
  match Index piece "}}" with
  | Some i => Ok [TAction (action_words (str_take i piece)); TText (str_drop (i + 2) piece)]
  | None => Fail (Errorf "unclosed action" [])
  end.
Definition lex_template (s : string) : result (list token) :=
  match Split s "{{" with
  | [] => Ok []
  | t :: pieces => l ← mapR lex_piece pieces; Ok (TText t :: concat l)
  end.

Definition parse_operand (w : string) : result operand :=
  match Split w "." with
  | ""%string :: path => Ok (Dot (filter (λ n, n ≠ ""%string) path))
  | v :: path => if HasPrefix v "$" then Ok (Var v path) else Fail (Errorf "function %q not defined" [v])
  | [] => Fail (Errorf "missing value" [])
  end.
Definition unquote (w : string) : result string :=
  let s := str_take (str_len w - 2) (str_drop 1 w) in
  if decide (w = dq +:+ s +:+ dq)%string then Ok s else Fail (Errorf "unexpected %s in operand" [w]).
Definition parse_pipe (ws : list string) : result (pipeline * list string) :=
  match ws with
  | w :: ws =>
    if decide (w = "index"%string) then
      match ws with
      | w :: k :: ws => o ← parse_operand w; k ← unquote k; Ok (mkPipe o (Some k), ws)
      | _ => Fail (Errorf "missing value for index" [])
      end
    else o ← parse_operand w; Ok (mkPipe o None, ws)
  | [] => Fail (Errorf "missing value" [])
  end.
(** A pipeline that nothing follows, or a call of a function. *)
Definition parse_alone (ws : list string) : result pipeline :=
  '(p, ws) ← parse_pipe ws; if decide (ws = []) then Ok p else Fail (Errorf "unexpected %s" ws).
Definition parse_action (ws : list string) : result node :=
  '(p, ws) ← parse_pipe ws;
  match ws with
  | [] => Ok (NAction p None)
  | [bar; f] => if decide (bar = "|"%string) then Ok (NAction p (Some f)) else Fail (Errorf "unexpected %s" ws)
  | _ => Fail (Errorf "unexpected %s" ws)
  end.
Definition parse_range (ws : list string) : result (list string * pipeline) :=
  match ws with
  | v :: asgn :: rest =>
    if decide (asgn = ":="%string) then p ← parse_alone rest; Ok ([v], p) else
    match rest with
    | asgn' :: rest => if decide (asgn' = ":="%string) then p ← parse_alone rest; Ok ([v; asgn], p) else Fail (Errorf "range can only initialize variables" [])
    | [] => Fail (Errorf "unexpected %s in range" ws)
    end
  | _ => p ← parse_alone ws; Ok ([], p)
  end.

(** What is open, with the nodes in front of it, last first; an [if] that follows an [else] ends
    with it. *)
Inductive frame :=
  | FRange (vars : list string) (p : pipeline) (outer : list node)
  | FIf (p : pipeline) (outer : list node) (chained : bool)
  | FElse (p : pipeline) (then_ outer : list node) (chained : bool).
Fixpoint close (stack : list frame) (acc : list node) : result (list frame * list node) :=
  match stack with
  | [] => Fail (Errorf "unexpected {{end}}" [])
  | FRange vars p outer :: stack => Ok (stack, NRange vars p (reverse acc) :: outer)
  | FIf p outer chained :: stack =>
    let nodes := NIf p (reverse acc) [] :: outer in if (chained : bool) then close stack nodes else Ok (stack, nodes)
  | FElse p th outer chained :: stack =>
    let nodes := NIf p th (reverse acc) :: outer in if (chained : bool) then close stack nodes else Ok (stack, nodes)
  end.
Fixpoint parse_nodes (stack : list frame) (acc : list node) (ts : list token) : result (list node) :=
  match ts with
  | [] => if decide (stack = []) then Ok (reverse acc) else Fail (Errorf "unexpected EOF" [])
  | TText s :: ts => parse_nodes stack (NText s :: acc) ts
  | TAction (w :: ws) :: ts =>
    if decide (w = "end"%string) then '(stack, acc) ← close stack acc; parse_nodes stack acc ts
    else if decide (w = "range"%string) then '(vars, p) ← parse_range ws; parse_nodes (FRange vars p acc :: stack) [] ts
    else if decide (w = "if"%string) then p ← parse_alone ws; parse_nodes (FIf p acc false :: stack) [] ts
    else if decide (w = "else"%string) then
      match stack with
      | FIf p outer chained :: stack =>
        let stack := FElse p (reverse acc) outer chained :: stack in
        match ws with
        | w :: ws =>
          if decide (w = "if"%string) then p ← parse_alone ws; parse_nodes (FIf p [] true :: stack) [] ts
          else Fail (Errorf "unexpected %s in else" [w])
        | [] => parse_nodes stack [] ts
        end
      | _ => Fail (Errorf "unexpected {{else}}" [])
      end
    else n ← parse_action (w :: ws); parse_nodes stack (n :: acc) ts
  | TAction [] :: _ => Fail (Errorf "missing value for command" [])
  end.
(** [template.New(name).Parse(s)] *)
Definition Parse_template (s : string) : result (list node) := ts ← lex_template s; parse_nodes [] [] ts.

(** ** Execution *)

(** What is printed: the template's own text, a text of the data, or what stands for another
    value. *)
Inductive segment := Own (s : string) | Text (s : string) | Code (s : string).
Definition seg_text (g : segment) : string := match g with Own s | Text s | Code s => s end.
Definition program_of (gs : list segment) : string := str_concat (map seg_text gs).

Section execution.
Context `{ColumnText}.

Definition field (d : data) (n : string) : result data :=
  match d with
  | DStruct fields => or_fail (assoc n fields) (Errorf "can't evaluate field %s" [n])
  | _ => Fail (Errorf "can't evaluate field %s" [n])
  end.
Definition operand_value (env : list (string * data)) (dot : data) (o : operand) : result data :=
  match o with
  | Dot path => foldM field dot path
  | Var x path => d ← or_fail (assoc x env) (Errorf "undefined variable: %s" [x]); foldM field d path
  end.
(** A key that is not in the map has no value. *)
Definition pipe_value (env : list (string * data)) (dot : data) (p : pipeline) : result data :=
  d ← operand_value env dot (p_operand p);
  match p_key p, d with
  | None, _ => Ok d
  | Some k, DMap m => Ok (default (DAttr VNil) (assoc k m))
  | Some _, _ => Fail (Errorf "can't index item" [])
  end.

(** The functions that the generators define; a panic of one is an error of the template. *)
Definition call (f : string) (d : data) : result string :=
  match d with
  | DAttr a =>
    if decide (f = "attrToPythonValue"%string) then
      match AttrToPythonValue a with Panic => Fail (Errorf "error calling %s" [f]) | r => r end
    else if decide (f = "intArrayToJSONString"%string) then json_attr a
    else Fail (Errorf "wrong type for value" [])
  | DField t => if decide (f = "DTypeToString"%string) then Ok (DTypeToString t) else Fail (Errorf "wrong type for value" [])
  | _ => Fail (Errorf "wrong type for value" [])
  end.
(** No template prints anything but these. *)
Definition print (d : data) : result segment :=
  match d with
  | DAttr (VString s) => Ok (Text s)
  | DAttr VNil => Ok (Code "<no value>")
  | DAttr a => Ok (Code (Sprint_v a))
  | DCode s => Ok (Code s)
  | _ => Fail (Errorf "can't print" [])
  end.
Definition truthy (d : data) : bool :=
  match d with
  | DAttr (VBool b) => b
  | DAttr (VInt z) => negb (z =? 0)
  | DAttr (VString s) | DCode s => negb (bool_decide (s = ""%string))
  | DAttr VNil => false
  | DList l => negb (bool_decide (length l = 0%nat))
  | DMap m => negb (bool_decide (length m = 0%nat))
  | _ => true
  end.

(** The elements that [range] visits: the key or index and the element. *)
Definition elements (d : data) : result (list (data * data)) :=
  match d with
  | DList l => Ok (imap (λ i d, (number (Z.of_nat i), d)) l)
  | DMap m => Ok (map (λ '(k, d), (text k, d)) m)
  | _ => Fail (Errorf "range can't iterate over %v" [])
  end.
Definition bind (vars : list string) (kd : data * data) (env : list (string * data)) : list (string * data) :=
  match vars with
  | [v] => (v, kd.2) :: env
  | [k; v] => (v, kd.2) :: (k, kd.1) :: env
  | _ => env
  end.

Fixpoint exec_node (env : list (string * data)) (dot : data) (n : node) : result (list segment) :=
  let exec_nodes := fix exec_nodes env dot l :=
    match l with
    | [] => Ok []
    | n :: l => g ← exec_node env dot n; gs ← exec_nodes env dot l; Ok (g ++ gs)
    end in
  match n with
  | NText s => Ok [Own s]
  | NAction p f =>
    d ← pipe_value env dot p;
    match f with
    | None => g ← print d; Ok [g]
    | Some f => s ← call f d; Ok [Code s]
    end
  | NRange vars p body =>
    d ← pipe_value env dot p;
    l ← elements d;
    gs ← mapR (λ kd, exec_nodes (bind vars kd env) kd.2 body) l;
    Ok (concat gs)
  | NIf p th el =>
    d ← pipe_value env dot p;
    if truthy d then exec_nodes env dot th else exec_nodes env dot el
  end.
Fixpoint exec_nodes (env : list (string * data)) (dot : data) (l : list node) : result (list segment) :=
  match l with
  | [] => Ok []
  | n :: l => g ← exec_node env dot n; gs ← exec_nodes env dot l; Ok (g ++ gs)
  end.
(** [Execute(&program, d)] of the template with the text [s], in parts. *)
Definition segments_of (s : string) (d : data) : result (list segment) :=
  nodes ← Parse_template s; exec_nodes [] d nodes.
Definition execute (s : string) (d : data) : result string := gs ← segments_of s d; Ok (program_of gs).
End execution.

(** A template without actions is what it prints. *)
Example plain_text `{ColumnText} : execute "x = 1" (DStruct []) = Ok "x = 1"%string.
Proof. vm_compute. reflexivity. Qed.
Example range_and_if `{ColumnText} :
  execute ("{{range $k, $v := .M}}{{$k}}={{if $v.Name}}{{$v.Name}}{{else if $v.Also}}?{{else}}-{{end}};{{end}} {{ index .N " +:+ dq +:+ "x" +:+ dq +:+ " }}")
    (DStruct [("M", DMap [("a", DStruct [("Name", text "b")]); ("c", DStruct [("Name", text ""); ("Also", number 0)])]); ("N", DMap [])])%string
  = Ok "a=b;c=-; <no value>"%string.
Proof. vm_compute. reflexivity. Qed.

(** ** Reading a program of Python

    Where the reader is: in the code, a comment, behind one or two quotation marks that began
    there, in a short or a long string, behind a backslash in it, behind one or two marks in a
    long string, or behind a line end in a short string, which is an error. *)
Inductive py :=
  | PCode | PComment | PQ1 (c : ascii) | PQ2 (c : ascii) | PShort (c : ascii) | PShortEsc (c : ascii)
  | PLong (c : ascii) | PLongEsc (c : ascii) | PLong1 (c : ascii) | PLong2 (c : ascii) | PError.
#[export] Instance py_eq_dec : EqDecision py.
Proof. solve_decision. Defined.

Definition is_mark (d : ascii) : bool := bool_decide (d = chr_sq ∨ d = chr_dq).
Definition code_step (d : ascii) : py :=
  if is_mark d then PQ1 d else if decide (d = "#"%char) then PComment else PCode.
Definition short_step (c d : ascii) : py :=
  if decide (d = c) then PCode else if decide (d = chr_bs) then PShortEsc c else if decide (d = chr_nl) then PError else PShort c.
Definition long_step (c d : ascii) : py :=
  if decide (d = c) then PLong1 c else if decide (d = chr_bs) then PLongEsc c else PLong c.
Definition py_step (st : py) (d : ascii) : py :=
  match st with
  | PCode => code_step d
  | PComment => if decide (d = chr_nl) then PCode else PComment
  | PQ1 c => if decide (d = c) then PQ2 c else short_step c d
  | PQ2 c => if decide (d = c) then PLong c else code_step d
  | PShort c => short_step c d
  | PShortEsc c => PShort c
  | PLong c => long_step c d
  | PLongEsc c => PLong c
  | PLong1 c => if decide (d = c) then PLong2 c else long_step c d
  | PLong2 c => if decide (d = c) then PCode else long_step c d
  | PError => PError
  end.
Fixpoint py_scan (st : py) (s : string) : py :=
  match s with EmptyString => st | String d s => py_scan (py_step st d) s end.

(** In a string, where a mark ends it or is part of it: [inside st s] says that a text that
    starts there stays in the string, character by character, and that it is what the string
    has there, since it has no escape. *)
Definition in_string (st : py) : bool :=
  match st with PQ1 _ | PShort _ | PLong _ | PLong1 _ | PLong2 _ => true | _ => false end.
Definition open_string (st : py) : bool := match st with PQ1 _ | PShort _ | PLong _ => true | _ => false end.
Fixpoint inside (st : py) (s : string) : bool :=
  match s with
  | EmptyString => open_string st
  | String d s => in_string st && negb (bool_decide (d = chr_bs)) && inside (py_step st d) s
  end.

(** A part of a program in its place: a text of the data is in a string of the program, anything
    else is too or is code that leaves no string open. *)
Definition fits (st : py) (g : segment) : bool :=
  match g with
  | Own _ => true
  | Text s => open_string st && inside st s
  | Code s => (open_string st && inside st s) || (bool_decide (st = PCode) && bool_decide (py_scan PCode s = PCode))
  end.
Fixpoint all_fit (st : py) (gs : list segment) : bool :=
  match gs with [] => true | g :: gs => fits st g && all_fit (py_scan st (seg_text g)) gs end.

Lemma py_scan_app st s t : py_scan st (s +:+ t) = py_scan (py_scan st s) t.
Proof. revert st. induction s as [|d s IH]; intros st; [done|]. exact (IH _). Qed.
Lemma program_of_app gs hs : program_of (gs ++ hs) = (program_of gs +:+ program_of hs)%string.
Proof. unfold program_of. rewrite map_app. induction (map seg_text gs) as [|s l IH]; [done|]. cbn [app]. by rewrite !str_concat_cons, IH, str_app_assoc. Qed.
Lemma all_fit_app st gs hs : all_fit st (gs ++ hs) = all_fit st gs && all_fit (py_scan st (program_of gs)) hs.
Proof.
  revert st. induction gs as [|g gs IH]; intros st; [done|]. cbn [app all_fit]. rewrite IH, andb_assoc. do 2 f_equal.
  unfold program_of. cbn [map]. by rewrite str_concat_cons, py_scan_app.
Qed.
