(* ===== verification/TemplateText.v ===== *)
(** * The texts of the templates of the generators (go/codegen, go/workflow/couler)

    The texts as they are in the source, line by line.  In them a backquote stands for a
    quotation mark: Go's raw strings have none. *)

From S2P Require Import Prelude GoStrings Shell.

Definition raw (lines : list string) : string := Join (map (subst_char chr_bt (char1 chr_dq)) lines) (char1 chr_nl).

(** *** go/codegen/pai/template_tf.go *)

Definition tfImportsText : string := raw
  ["";
   "import tensorflow as tf";
   "from runtime.tensorflow import is_tf_estimator";
   "from runtime.tensorflow.import_model import import_model";
   "try:";
   "	from runtime.model import oss";
   "	from runtime.pai.pai_distributed import define_tf_flags, set_oss_environs";
   "except:";
   "	pass # PAI is not always needed";
   "";
   ""]%string.
Definition tfLoadModelTmplText : string := tfImportsText +:+ raw
  ["";
   "FLAGS = define_tf_flags()";
   "set_oss_environs(FLAGS)";
   "";
   "estimator = import_model('''{{.Estimator}}''')";
   "is_estimator = is_tf_estimator(estimator)";
   "";
   "# Keras single node is using h5 format to save the model, no need to deal with export model format.";
   "# Keras distributed mode will use estimator, so this is also needed.";
   "if is_estimator:";
   "    oss.load_file(`{{.OSSModelDir}}`, `exported_path`)";
   "# NOTE(typhoonzero): directory `model_save` is hardcoded in codegen/tensorflow/codegen.go";
   "oss.load_dir(`{{.OSSModelDir}}/model_save`)";
   ""]%string.
Definition paiRequirementsTmplText : string := raw
  ["";
   "adanet==0.8.0";
   "dill==0.3.0";
   "numpy==1.16.2";
   "pandas==0.24.2";
   "plotille==3.7";
   "seaborn==0.9.0";
   "shap==0.28.5";
   "scikit-learn==0.20.4";
   "tensorflow-datasets==3.0.0";
   "{{if .IsXGBoost }}";
   "sklearn-pandas==1.8.0";
   "xgboost==0.82";
   "sklearn2pmml==0.56.0";
   "{{end}}";
   ""]%string.
Definition tfPredictTmplText : string := tfImportsText +:+ raw
  ["";
   "import os";
   "import types";
   "import traceback";
   "import json";
   "from runtime.tensorflow import predict";
   "";
   "try:";
   "    import sqlflow_models";
   "except Exception as e:";
   "    print(`error importing sqlflow_models: %s` % e)";
   "    traceback.print_exc()";
   "try:";
   "    tf.enable_eager_execution()";
   "except:";
   "    pass";
   "";
   "FLAGS = define_tf_flags()";
   "set_oss_environs(FLAGS)";
   "";
   "(estimator,";
   " feature_column_names,";
   " feature_column_names_map,";
   " feature_metas,";
   " label_meta,";
   " model_params,";
   " feature_columns_code) = oss.load_metas(`{{.OSSModelDir}}`, `tensorflow_model_desc`)";
   "";
   "feature_columns = eval(feature_columns_code)";
   "";
   "# NOTE(typhoonzero): No need to eval model_params[`optimizer`] and model_params[`loss`]";
   "# because predicting do not need these parameters.";
   "";
   "is_estimator = is_tf_estimator(import_model(estimator))";
   "";
   "# Keras single node is using h5 format to save the model, no need to deal with export model format.";
   "# Keras distributed mode will use estimator, so this is also needed.";
   "if is_estimator:";
   "    oss.load_file(`{{.OSSModelDir}}`, `exported_path`)";
   "# NOTE(typhoonzero): directory `model_save` is hardcoded in codegen/tensorflow/codegen.go";
   "oss.load_dir(`{{.OSSModelDir}}/model_save`)";
   "";
   "predict.pred(datasource=`{{.DataSource}}`,";
   "             estimator_string=estimator,";
   "             select=```{{.Select}}```,";
   "             result_table=`{{.ResultTable}}`,";
   "             feature_columns=feature_columns,";
   "             feature_column_names=feature_column_names,";
   "             feature_column_names_map=feature_column_names_map,";
   "             train_label_name=label_meta[`feature_name`],";
   "             result_col_name=`{{.ResultColumn}}`,";
   "             feature_metas=feature_metas,";
   "             model_params=model_params,";
   "             pred_params=json.loads('''{{.PredParams}}'''),";
   "             save=`model_save`,";
   "             batch_size=1,";
   "             pai_table=`{{.PAITable}}`)";
   ""]%string.
Definition tfExplainTmplText : string := tfImportsText +:+ raw
  ["";
   "import os";
   "import matplotlib";
   "if os.environ.get('DISPLAY', '') == '':";
   "	print('no display found. Using non-interactive Agg backend')";
   "	matplotlib.use('Agg')";
   "";
   "import json";
   "import types";
   "import sys";
   "from runtime.tensorflow import explain";
   "";
   "try:";
   "    tf.enable_eager_execution()";
   "except Exception as e:";
   "    sys.stderr.write(`warning: failed to enable_eager_execution: %s` % e)";
   "    pass";
   "";
   "FLAGS = define_tf_flags()";
   "set_oss_environs(FLAGS)";
   "";
   "(estimator,";
   "feature_column_names,";
   "feature_column_names_map,";
   "feature_metas,";
   "label_meta,";
   "model_params,";
   "feature_columns_code) = oss.load_metas(`{{.OSSModelDir}}`, `tensorflow_model_desc`)";
   "";
   "feature_columns = eval(feature_columns_code)";
   "# NOTE(typhoonzero): No need to eval model_params[`optimizer`] and model_params[`loss`]";
   "# because predicting do not need these parameters.";
   "";
   "is_estimator = is_tf_estimator(import_model(estimator))";
   "";
   "# Keras single node is using h5 format to save the model, no need to deal with export model format.";
   "# Keras distributed mode will use estimator, so this is also needed.";
   "if is_estimator:";
   "    oss.load_file(`{{.OSSModelDir}}`, `exported_path`)";
   "# NOTE(typhoonzero): directory `model_save` is hardcoded in codegen/tensorflow/codegen.go";
   "oss.load_dir(`{{.OSSModelDir}}/model_save`)";
   "";
   "";
   "explain.explain(datasource=`{{.DataSource}}`,";
   "                estimator_string=estimator,";
   "                select=```{{.Select}}```,";
   "                feature_columns=feature_columns,";
   "                feature_column_names=feature_column_names,";
   "                feature_metas=feature_metas,";
   "                label_meta=label_meta,";
   "                model_params=model_params,";
   "                save=`model_save`,";
   "                result_table=`{{.ResultTable}}`,";
   "                pai_table=`{{.PAITable}}`,";
   "                oss_dest='''{{.ResultOSSDest}}''',";
   "                oss_ak='''{{.ResultOSSAK}}''',";
   "                oss_sk='''{{.ResultOSSSK}}''',";
   "                oss_endpoint='''{{.ResultOSSEndpoint}}''',";
   "                oss_bucket_name='''{{.ResultOSSBucket}}''')";
   ""]%string.
Definition tfEvaluateTmplText : string := tfImportsText +:+ raw
  ["";
   "import os";
   "import matplotlib";
   "if os.environ.get('DISPLAY', '') == '':";
   "	print('no display found. Using non-interactive Agg backend')";
   "	matplotlib.use('Agg')";
   "";
   "import json";
   "import types";
   "import sys";
   "from runtime.tensorflow import evaluate";
   "";
   "try:";
   "    tf.enable_eager_execution()";
   "except Exception as e:";
   "    sys.stderr.write(`warning: failed to enable_eager_execution: %s` % e)";
   "    pass";
   "";
   "FLAGS = define_tf_flags()";
   "set_oss_environs(FLAGS)";
   "";
   "(estimator,";
   "feature_column_names,";
   "feature_column_names_map,";
   "feature_metas,";
   "label_meta,";
   "model_params,";
   "feature_columns_code) = oss.load_metas(`{{.OSSModelDir}}`, `tensorflow_model_desc`)";
   "";
   "feature_columns = eval(feature_columns_code)";
   "# NOTE(typhoonzero): No need to eval model_params[`optimizer`] and model_params[`loss`]";
   "# because predicting do not need these parameters.";
   "";
   "is_estimator = is_tf_estimator(import_model(estimator))";
   "";
   "# Keras single node is using h5 format to save the model, no need to deal with export model format.";
   "# Keras distributed mode will use estimator, so this is also needed.";
   "if is_estimator:";
   "    oss.load_file(`{{.OSSModelDir}}`, `exported_path`)";
   "# NOTE(typhoonzero): directory `model_save` is hardcoded in codegen/tensorflow/codegen.go";
   "oss.load_dir(`{{.OSSModelDir}}/model_save`)";
   "";
   "evaluate.evaluate(datasource=`{{.DataSource}}`,";
   "                  estimator_string=estimator,";
   "                  select=```{{.Select}}```,";
   "                  result_table=`{{.ResultTable}}`,";
   "                  feature_columns=feature_columns,";
   "                  feature_column_names=feature_column_names,";
   "                  feature_metas=feature_metas,";
   "                  label_meta=label_meta,";
   "                  model_params=model_params,";
   "                  validation_metrics=`{{.ValidationMetrics}}`.split(`,`),";
   "                  save=`model_save`,";
   "                  batch_size=1,";
   "                  validation_steps=None,";
   "                  verbose=0,";
   "                  pai_table=`{{.PAITable}}`)";
   ""]%string.

(** *** go/codegen/pai/template_xgboost.go *)

Definition xgbPredTemplateText : string := raw
  ["";
   "import json";
   "import copy";
   "import runtime.xgboost as xgboost_extended";
   "from runtime.xgboost.predict import pred";
   "from runtime.model import oss";
   "from runtime.pai.pai_distributed import define_tf_flags, set_oss_environs";
   "";
   "FLAGS = define_tf_flags()";
   "set_oss_environs(FLAGS)";
   "";
   "# NOTE(typhoonzero): the xgboost model file `my_model` is hard coded in xgboost/train.py";
   "oss.load_file(`{{.OSSModelDir}}`, `my_model`)";
   "(estimator,";
   "model_params,";
   "train_params,";
   "feature_metas,";
   "feature_column_names,";
   "label_meta,";
   "feature_column_code) = oss.load_metas(`{{.OSSModelDir}}`, `xgboost_model_desc`)";
   "";
   "pred_label_meta = copy.copy(label_meta)";
   "pred_label_meta[`feature_name`] = `{{.ResultColumn}}`";
   "";
   "feature_column_transformers = eval('[{}]'.format(feature_column_code))";
   "transform_fn = xgboost_extended.feature_column.ComposedColumnTransformer(feature_column_names, *feature_column_transformers)";
   "";
   "pred(datasource='''{{.DataSource}}''',";
   "    select='''{{.PredSelect}}''',";
   "    feature_metas=feature_metas,";
   "    feature_column_names=feature_column_names,";
   "    train_label_meta=label_meta,";
   "    pred_label_meta=label_meta,";
   "    result_table='''{{.ResultTable}}''',";
   "    is_pai=True,";
   "    pai_table='''{{.PAIPredictTable}}''',";
   "    model_params=model_params,";
   "    train_params=train_params,";
   "    transform_fn=transform_fn,";
   "    feature_column_code=feature_column_code,";
   "    flags=FLAGS)";
   ""]%string.
Definition xgbExplainTemplateText : string := raw
  ["";
   "# Running on PAI";
   "import os";
   "import matplotlib";
   "import runtime.xgboost as xgboost_extended";
   "";
   "if os.environ.get('DISPLAY', '') == '':";
   "    print('no display found. Using non-interactive Agg backend')";
   "    matplotlib.use('Agg')";
   "";
   "import json";
   "from runtime.xgboost.explain import explain";
   "from runtime.model import oss";
   "from runtime.pai.pai_distributed import define_tf_flags, set_oss_environs";
   "";
   "FLAGS = define_tf_flags()";
   "set_oss_environs(FLAGS)";
   "";
   "# NOTE(typhoonzero): the xgboost model file `my_model` is hard coded in xgboost/train.py";
   "oss.load_file(`{{.OSSModelDir}}`, `my_model`)";
   "";
   "(estimator,";
   "model_params,";
   "train_params,";
   "feature_field_meta,";
   "feature_column_names,";
   "label_field_meta,";
   "feature_column_code) = oss.load_metas(`{{.OSSModelDir}}`, `xgboost_model_desc`)";
   "";
   "feature_column_transformers = eval('[{}]'.format(feature_column_code))";
   "transform_fn = xgboost_extended.feature_column.ComposedColumnTransformer(feature_column_names, *feature_column_transformers)";
   "";
   "explain(";
   "    datasource='''{{.DataSource}}''',";
   "    select='''{{.DatasetSQL}}''',";
   "	feature_field_meta=feature_field_meta,";
   "	feature_column_names=feature_column_names,";
   "	label_meta=label_field_meta,";
   "	summary_params={},";
   "	explainer=`{{.Explainer}}`,";
   "	result_table='''{{.ResultTable}}''',";
   "	is_pai=`{{.IsPAI}}` == `true`,";
   "	pai_explain_table=`{{.PAIExplainTable}}`,";
   "	oss_dest='''{{.ResultOSSDest}}''',";
   "	oss_ak='''{{.ResultOSSAK}}''',";
   "	oss_sk='''{{.ResultOSSSK}}''',";
   "	oss_endpoint='''{{.ResultOSSEndpoint}}''',";
   "	oss_bucket_name='''{{.ResultOSSBucket}}''',";
   "	transform_fn=transform_fn,";
   "	feature_column_code=feature_column_code)";
   ""]%string.
Definition xgbEvalTemplateText : string := raw
  ["";
   "import json";
   "import runtime.xgboost as xgboost_extended";
   "from runtime.xgboost.evaluate import evaluate";
   "from runtime.model import oss";
   "from runtime.pai.pai_distributed import define_tf_flags, set_oss_environs";
   "";
   "FLAGS = define_tf_flags()";
   "set_oss_environs(FLAGS)";
   "";
   "# NOTE(typhoonzero): the xgboost model file `my_model` is hard coded in xgboost/train.py";
   "oss.load_file(`{{.OSSModelDir}}`, `my_model`)";
   "(estimator,";
   "model_params,";
   "train_params,";
   "feature_metas,";
   "feature_column_names,";
   "label_meta,";
   "feature_column_code) = oss.load_metas(`{{.OSSModelDir}}`, `xgboost_model_desc`)";
   "";
   "feature_column_transformers = eval('[{}]'.format(feature_column_code))";
   "transform_fn = xgboost_extended.feature_column.ComposedColumnTransformer(feature_column_names, *feature_column_transformers)";
   "";
   "evaluate(datasource='''{{.DataSource}}''',";
   "         select='''{{.PredSelect}}''',";
   "         feature_metas=feature_metas,";
   "         feature_column_names=feature_column_names,";
   "         label_meta=label_meta,";
   "         result_table='''{{.ResultTable}}''',";
   "         validation_metrics=`{{.MetricNames}}`.split(`,`),";
   "         is_pai=True,";
   "         pai_table=`{{.PAIEvaluateTable}}`,";
   "         model_params=model_params,";
   "         transform_fn=transform_fn,";
   "         feature_column_code=feature_column_code)";
   ""]%string.

(** *** go/codegen/alps/template_train.go *)

Definition templateTrain : string := raw
  ["import copy";
   "import os";
   "import shutil";
   "";
   "import tensorflow as tf";
   "from alps.framework.column.column import (DenseColumn, GroupedSparseColumn,";
   "                                          SparseColumn)";
   "from alps.framework.engine import LocalEngine";
   "from alps.framework.experiment import EstimatorBuilder";
   "from alps.io.base import OdpsConf";
   "from runtime.model import db";
   "from runtime.alps.train import train";
   "from runtime.tensorflow.get_tf_version import tf_is_version2";
   "";
   "feature_column_names = [{{range $target, $desclist := .FieldDescs}}{{range $desclist}}";
   "`{{.Name}}`,";
   "{{end}}{{end}}]";
   "";
   "feature_metas = dict()";
   "{{ range $target, $desclist := .FieldDescs }}";
   "{{ range $value := $desclist }}";
   "feature_metas[`{{$value.Name}}`] = {";
   "    `feature_name`: `{{$value.Name}}`,";
   "    `dtype`: `{{$value.DType | DTypeToString}}`,";
   "    `delimiter`: `{{$value.Delimiter}}`,";
   "    `format`: `{{$value.Format}}`,";
   "    `shape`: {{$value.Shape | intArrayToJSONString}},";
   "    `is_sparse`: `{{$value.IsSparse}}` == `true`,";
   "    `dtype_weight`: `{{$value.DTypeWeight | DTypeToString}}`,";
   "    `delimiter_kv`: `{{$value.DelimiterKV}}`";
   "}";
   "{{end}}";
   "{{end}}";
   "";
   "label_meta = {";
   "    `feature_name`: `{{.Y.Name}}`,";
   "    `dtype`: `{{.Y.DType | DTypeToString}}`,";
   "    `delimiter`: `{{.Y.Delimiter}}`,";
   "    `shape`: {{.Y.Shape | intArrayToJSONString}},";
   "    `is_sparse`: `{{.Y.IsSparse}}` == `true`";
   "}";
   "";
   "model_params=dict()";
   "{{range $k, $v := .ModelParams}}";
   "model_params[`{{$k}}`]={{$v | attrToPythonValue}}";
   "{{end}}";
   "";
   "# Construct optimizer objects to pass to model initializer.";
   "# The original model_params is serializable (do not have tf.xxx objects).";
   "model_params_constructed = copy.deepcopy(model_params)";
   "for optimizer_arg in [`optimizer`, `dnn_optimizer`, `linear_optimizer`]:";
   "    if optimizer_arg in model_params_constructed:";
   "        model_params_constructed[optimizer_arg] = eval(model_params_constructed[optimizer_arg])";
   "";
   "if `loss` in model_params_constructed:";
   "    model_params_constructed[`loss`] = eval(model_params_constructed[`loss`])";
   "";
   "";
   "class SQLFlowEstimatorBuilder(EstimatorBuilder):";
   "    def _build(self, experiment, run_config):";
   "        feature_columns_map = {{.FeatureColumnCode}}";
   "        if feature_columns_map.get(`feature_columns`):";
   "            feature_columns = feature_columns_map[`feature_columns`]";
   "        else:";
   "            raise ValueError(`Not supported feature column map`)";
   "        model_params_constructed[`feature_columns`] = feature_columns";
   "        return tf.estimator.{{.Estimator}}(config=run_config,";
   "                                           **model_params_constructed)";
   "";
   "";
   "if __name__ == `__main__`:";
   "    if tf_is_version2():";
   "        raise ValueError(`ALPS must run with TensorFlow == 1.15.x`)";
   "";
   "    driver, dsn = `{{.DataSource}}`.split(`://`)";
   "    user, passwd, endpoint, odps_project = db.parseMaxComputeDSN(dsn)";
   "    odps_conf = OdpsConf(";
   "        accessid=user,";
   "        accesskey=passwd,";
   "        # endpoint should looks like: `https://service.cn.maxcompute.aliyun.com/api`";
   "        endpoint=endpoint,";
   "        project=odps_project)";
   "";
   "    features = []";
   "    for col_name in feature_column_names:";
   "        # NOTE: add sparse columns like: SparseColumn(name=`deep_id`, shape=[15033], dtype=`int`)";
   "        if feature_metas[col_name][`is_sparse`]:";
   "            features.append(SparseColumn(name=feature_metas[col_name][`feature_name`],";
   "                                         shape=feature_metas[col_name][`shape`],";
   "                                         dtype=feature_metas[col_name][`dtype`],";
   "                                         separator=feature_metas[col_name][`separator`]))";
   "        else:";
   "            features.append(DenseColumn(name=feature_metas[col_name][`feature_name`],";
   "                                        shape=feature_metas[col_name][`shape`],";
   "                                        dtype=feature_metas[col_name][`dtype`]))";
   "    labels = DenseColumn(name=label_meta[`feature_name`],";
   "                         shape=label_meta[`shape`],";
   "                         dtype=label_meta[`dtype`])";
   "";
   "    try:";
   "        os.mkdir(`scratch`)";
   "    except FileExistsError:";
   "        pass";
   "";
   "    train_max_steps = {{index .TrainParams `max_steps` | attrToPythonValue}}";
   "    train_max_steps = None if train_max_steps == 0 else train_max_steps";
   "";
   "    # TODO(typhoonzero): support pass feature_map_table from WITH attributes.";
   "    # TODO(typhoonzero): pass actual use_id.";
   "    # TODO(typhoonzero): pass engine config to submit jobs to the cluster.";
   "    train(SQLFlowEstimatorBuilder(),";
   "          odps_conf=odps_conf,";
   "          project=odps_project,";
   "          train_table=`{{.TmpTrainTable}}`,";
   "          eval_table=`{{.TmpValidateTable}}`,";
   "          features=features,";
   "          labels=labels,";
   "          feature_map_table=``,";
   "          feature_map_partition=``,";
   "          epochs=1,";
   "          batch_size=2,";
   "          shuffle=False,";
   "          shuffle_bufsize=128,";
   "          cache_file=``,";
   "          max_steps=train_max_steps,";
   "          eval_steps={{index .ValidationParams `steps` | attrToPythonValue}},";
   "          eval_batch_size=1,";
   "          eval_start_delay={{index .ValidationParams `start_delay_secs` | attrToPythonValue}},";
   "          eval_throttle={{index .ValidationParams `throttle_secs` | attrToPythonValue}},";
   "          drop_remainder=True,";
   "          export_path=`./scratch/model`,";
   "          scratch_dir=`./scratch`,";
   "          user_id=``,";
   "          engine_config={`name`: `LocalEngine`},";
   "          exit_on_submit=False)";
   "    shutil.rmtree(`scratch`)";
   ""]%string.

(** *** go/codegen/tensorflow/template_train.go *)

Definition tfTrainTemplateText : string := raw
  ["# -*- coding: utf-8 -*-";
   "import copy";
   "import traceback";
   "import tensorflow as tf";
   "import runtime";
   "from runtime.tensorflow.train import train";
   "from runtime.tensorflow.get_tf_version import tf_is_version2";
   "from tensorflow.estimator import (DNNClassifier,";
   "                                  DNNRegressor,";
   "                                  LinearClassifier,";
   "                                  LinearRegressor,";
   "                                  BoostedTreesClassifier,";
   "                                  BoostedTreesRegressor,";
   "                                  DNNLinearCombinedClassifier,";
   "                                  DNNLinearCombinedRegressor)";
   "if tf_is_version2():";
   "    from tensorflow.keras.optimizers import Adadelta, Adagrad, Adam, Adamax, Ftrl, Nadam, RMSprop, SGD";
   "    from tensorflow.keras.losses import BinaryCrossentropy, CategoricalCrossentropy, CategoricalHinge, CosineSimilarity, Hinge, Huber, KLDivergence, LogCosh, MeanAbsoluteError, MeanAbsolutePercentageError, MeanSquaredError, MeanSquaredLogarithmicError, Poisson, SparseCategoricalCrossentropy, SquaredHinge";
   "else:";
   "    from tensorflow.train import AdadeltaOptimizer, AdagradOptimizer, AdamOptimizer, FtrlOptimizer, RMSPropOptimizer, GradientDescentOptimizer, MomentumOptimizer";
   "    from tensorflow.keras.losses import BinaryCrossentropy, CategoricalCrossentropy, CategoricalHinge, CosineSimilarity, Hinge, Huber, KLDivergence, LogCosh, MeanAbsoluteError, MeanAbsolutePercentageError, MeanSquaredError, MeanSquaredLogarithmicError, Poisson, SparseCategoricalCrossentropy, SquaredHinge";
   "try:";
   "    import sqlflow_models";
   "except Exception as e:";
   "    print(`failed to import sqlflow_models: %s`, e)";
   "    traceback.print_exc()";
   "";
   "feature_column_names = [{{range $target, $desclist := .FieldDescs}}{{range $desclist}}";
   "`{{.Name}}`,";
   "{{end}}{{end}}]";
   "";
   "# feature_column_names_map is used to determine the order of feature columns of each target:";
   "# e.g. when using DNNLinearCombinedClassifer.";
   "# feature_column_names_map will be saved to a single file when using PAI.";
   "feature_column_names_map = dict()";
   "{{range $target, $desclist := .FieldDescs}}";
   "feature_column_names_map[`{{$target}}`] = [{{range $desclist}}`{{.Name}}`,{{end}}]";
   "{{end}}";
   "";
   "feature_metas = dict()";
   "{{ range $target, $desclist := .FieldDescs }}";
   "{{ range $value := $desclist }}";
   "feature_metas[`{{$value.Name}}`] = {";
   "    `feature_name`: `{{$value.Name}}`,";
   "    `dtype`: `{{$value.DType | DTypeToString}}`,";
   "    `delimiter`: `{{$value.Delimiter}}`,";
   "    `format`: `{{$value.Format}}`,";
   "    `shape`: {{$value.Shape | intArrayToJSONString}},";
   "    `is_sparse`: `{{$value.IsSparse}}` == `true`,";
   "    `dtype_weight`: `{{$value.DTypeWeight | DTypeToString}}`,";
   "    `delimiter_kv`: `{{$value.DelimiterKV}}`";
   "}";
   "{{end}}";
   "{{end}}";
   "";
   "label_meta = {";
   "    `feature_name`: `{{.Y.Name}}`,";
   "    `dtype`: `{{.Y.DType | DTypeToString}}`,";
   "    `delimiter`: `{{.Y.Delimiter}}`,";
   "    `shape`: {{.Y.Shape | intArrayToJSONString}},";
   "    `is_sparse`: `{{.Y.IsSparse}}` == `true`";
   "}";
   "";
   "model_params=dict()";
   "{{range $k, $v := .ModelParams}}";
   "model_params[`{{$k}}`]={{$v | attrToPythonValue}}";
   "{{end}}";
   "";
   "# Construct optimizer objects to pass to model initializer.";
   "# The original model_params is serializable (do not have tf.xxx objects).";
   "model_params_constructed = copy.deepcopy(model_params)";
   "for optimizer_arg in [`optimizer`, `dnn_optimizer`, `linear_optimizer`]:";
   "    if optimizer_arg in model_params_constructed:";
   "        model_params_constructed[optimizer_arg] = eval(model_params_constructed[optimizer_arg])";
   "";
   "if `loss` in model_params_constructed:";
   "    model_params_constructed[`loss`] = eval(model_params_constructed[`loss`])";
   "";
   "# feature_columns_code will be used to save the training informations together";
   "# with the saved model.";
   "feature_columns_code = ```{{.FeatureColumnCode}}```";
   "feature_columns = eval(feature_columns_code)";
   "";
   "train_max_steps = {{index .TrainParams `max_steps` | attrToPythonValue}}";
   "train_max_steps = None if train_max_steps == 0 else train_max_steps";
   "";
   "train(datasource=`{{.DataSource}}`,";
   "      estimator_string=```{{.Estimator}}```,";
   "      select=```{{.TrainSelect}}```,";
   "      validation_select=```{{.ValidationSelect}}```,";
   "      feature_columns=feature_columns,";
   "      feature_column_names=feature_column_names,";
   "      feature_metas=feature_metas,";
   "      label_meta=label_meta,";
   "      model_params=model_params_constructed,";
   "      validation_metrics=`{{index .ValidationParams `metrics`}}`.split(`,`),";
   "      save=`{{.Save}}`,";
   "      batch_size={{index .TrainParams `batch_size` | attrToPythonValue}},";
   "      epoch={{index .TrainParams `epoch` | attrToPythonValue}},";
   "      validation_steps={{index .ValidationParams `steps` | attrToPythonValue}},";
   "      verbose={{index .TrainParams `verbose` | attrToPythonValue}},";
   "      max_steps=train_max_steps,";
   "      validation_start_delay_secs={{index .ValidationParams `start_delay_secs` | attrToPythonValue}},";
   "      validation_throttle_secs={{index .ValidationParams `throttle_secs` | attrToPythonValue}},";
   "      save_checkpoints_steps={{index .TrainParams `save_checkpoints_steps` | attrToPythonValue}},";
   "      log_every_n_iter={{index .TrainParams `log_every_n_iter` | attrToPythonValue}},";
   "      load_pretrained_model=`{{.LoadPreTrainedModel}}` == `true`,";
   "      is_pai=`{{.IsPAI}}` == `true`,";
   "      pai_table=`{{.PAITrainTable}}`,";
   "      pai_val_table=`{{.PAIValidateTable}}`,";
   "      feature_columns_code=feature_columns_code,";
   "      model_params_code_map=model_params,";
   "      model_repo_image=`{{.ModelRepoImage}}`,";
   "      original_sql='''{{.OriginalSQL}}''',";
   "      feature_column_names_map=feature_column_names_map)";
   ""]%string.

(** *** go/codegen/tensorflow/template_pred.go *)

Definition tfPredTemplateText : string := raw
  ["";
   "import tensorflow as tf";
   "import runtime";
   "from runtime.tensorflow.predict import pred";
   "from runtime.tensorflow.get_tf_version import tf_is_version2";
   "from tensorflow.estimator import DNNClassifier, DNNRegressor, LinearClassifier, LinearRegressor, BoostedTreesClassifier, BoostedTreesRegressor, DNNLinearCombinedClassifier, DNNLinearCombinedRegressor";
   "try:";
   "    import sqlflow_models";
   "except:";
   "    pass";
   "";
   "feature_column_names = [{{range $target, $desclist := .FieldDescs}}{{range $desclist}}";
   "`{{.Name}}`,";
   "{{end}}{{end}}]";
   "";
   "# feature_column_names_map is used to determine the order of feature columns of each target:";
   "# e.g. when using DNNLinearCombinedClassifier";
   "feature_column_names_map = dict()";
   "{{range $target, $desclist := .FieldDescs}}";
   "feature_column_names_map[`{{$target}}`] = [{{range $desclist}}`{{.Name}}`,{{end}}]";
   "{{end}}";
   "    ";
   "";
   "feature_metas = dict()";
   "{{ range $target, $desclist := .FieldDescs }}";
   "{{ range $value := $desclist }}";
   "feature_metas[`{{$value.Name}}`] = {";
   "    `feature_name`: `{{$value.Name}}`,";
   "    `dtype`: `{{$value.DType | DTypeToString}}`,";
   "    `delimiter`: `{{$value.Delimiter}}`,";
   "    `format`: `{{$value.Format}}`,";
   "    `shape`: {{$value.Shape | intArrayToJSONString}},";
   "    `is_sparse`: `{{$value.IsSparse}}` == `true`,";
   "    `dtype_weight`: `{{$value.DTypeWeight | DTypeToString}}`,";
   "    `delimiter_kv`: `{{$value.DelimiterKV}}`";
   "}";
   "{{end}}";
   "{{end}}";
   "";
   "label_meta = {";
   "    `feature_name`: `{{.PredLabelMeta.Name}}`,";
   "    `dtype`: `{{.PredLabelMeta.DType | DTypeToString}}`,";
   "    `delimiter`: `{{.PredLabelMeta.Delimiter}}`,";
   "    `shape`: {{.PredLabelMeta.Shape | intArrayToJSONString}},";
   "    `is_sparse`: `{{.PredLabelMeta.IsSparse}}` == `true`";
   "}";
   "";
   "train_label_meta = {";
   "    `feature_name`: `{{.TrainLabelMeta.Name}}`,";
   "    `dtype`: `{{.TrainLabelMeta.DType | DTypeToString}}`,";
   "    `delimiter`: `{{.TrainLabelMeta.Delimiter}}`,";
   "    `shape`: {{.TrainLabelMeta.Shape | intArrayToJSONString}},";
   "    `is_sparse`: `{{.TrainLabelMeta.IsSparse}}` == `true`";
   "}";
   "";
   "model_params=dict()";
   "{{range $k, $v := .ModelParams}}";
   "model_params[`{{$k}}`]={{$v | attrToPythonValue}}";
   "{{end}}";
   "";
   "pred_params=dict()";
   "{{range $k, $v := .PredParams}}";
   "pred_params[`{{$k}}`]={{$v | attrToPythonValue}}";
   "{{end}}";
   "";
   "feature_columns = {{.FeatureColumnCode}}";
   "";
   "pred(datasource=`{{.DataSource}}`,";
   "     estimator_string=```{{.Estimator}}```,";
   "     select=```{{.Select}}```,";
   "     result_table=`{{.ResultTable}}`,";
   "     feature_columns=feature_columns,";
   "     feature_column_names=feature_column_names,";
   "     feature_column_names_map=feature_column_names_map,";
   "     train_label_name=train_label_meta[`feature_name`],";
   "     result_col_name=label_meta[`feature_name`],";
   "     feature_metas=feature_metas,";
   "     model_params=model_params,";
   "     pred_params=pred_params,";
   "     save=`{{.Save}}`,";
   "     batch_size=1)";
   ""]%string.

(** *** go/codegen/tensorflow/template_explain.go *)

Definition boostedTreesExplainTemplateText : string := raw
  ["";
   "import tensorflow as tf";
   "import runtime";
   "from runtime.tensorflow import explain";
   "from tensorflow.estimator import DNNClassifier, DNNRegressor, LinearClassifier, LinearRegressor, BoostedTreesClassifier, BoostedTreesRegressor, DNNLinearCombinedClassifier, DNNLinearCombinedRegressor";
   "try:";
   "    import sqlflow_models";
   "except:";
   "    pass";
   "";
   "feature_column_names = [{{range $target, $desclist := .FieldDescs}}{{range $desclist}}";
   "`{{.Name}}`,";
   "{{end}}{{end}}]";
   "";
   "# feature_column_names_map is used to determine the order of feature columns of each target:";
   "# e.g. when using DNNLinearCombinedClassifier";
   "feature_column_names_map = dict()";
   "{{range $target, $desclist := .FieldDescs}}{{range $desclist}}";
   "feature_column_names_map[`{{$target}}`] = `{{.Name}}`";
   "{{end}}{{end}}";
   "    ";
   "feature_metas = dict()";
   "{{ range $key,$desclist := .FieldDescs }}";
   "{{ range $value := $desclist }}";
   "feature_metas[`{{$value.Name}}`] = {";
   "    `feature_name`: `{{$value.Name}}`,";
   "    `dtype`: `{{$value.DType | DTypeToString}}`,";
   "    `delimiter`: `{{$value.Delimiter}}`,";
   "    `format`: `{{$value.Format}}`,";
   "    `shape`: {{$value.Shape | intArrayToJSONString}},";
   "    `is_sparse`: `{{$value.IsSparse}}` == `true`,";
   "    `dtype_weight`: `{{$value.DTypeWeight | DTypeToString}}`,";
   "    `delimiter_kv`: `{{$value.DelimiterKV}}`";
   "}";
   "{{end}}";
   "{{end}}";
   "";
   "label_meta = {";
   "    `feature_name`: `{{.Y.Name}}`,";
   "    `dtype`: `{{.Y.DType | DTypeToString}}`,";
   "    `delimiter`: `{{.Y.Delimiter}}`,";
   "    `shape`: {{.Y.Shape | intArrayToJSONString}},";
   "    `is_sparse`: `{{.Y.IsSparse}}` == `true`";
   "}";
   "";
   "model_params=dict()";
   "{{range $k, $v := .ModelParams}}";
   "model_params[`{{$k}}`]={{$v | attrToPythonValue}}";
   "{{end}}";
   "";
   "feature_columns = {{.FeatureColumnCode}}";
   "";
   "import json";
   "summaryAttrs = json.loads('''{{.SummaryParams}}''')";
   "";
   "explain.explain(datasource=`{{.DataSource}}`,";
   "                estimator_string=```{{.EstimatorClass}}```,";
   "                select=```{{.Select}}```,";
   "                feature_columns=feature_columns,";
   "                feature_column_names=feature_column_names,";
   "                feature_metas=feature_metas,";
   "                label_meta=label_meta,";
   "                model_params=model_params,";
   "                save=`{{.Save}}`,";
   "                result_table=`{{.ResultTable}}`,";
   "                **summaryAttrs)";
   ""]%string.

(** *** go/codegen/tensorflow/template_evaluate.go *)

Definition tfEvaluateTemplateText : string := raw
  ["";
   "import tensorflow as tf";
   "import runtime";
   "from runtime.tensorflow.evaluate import evaluate";
   "from runtime.tensorflow.get_tf_version import tf_is_version2";
   "from tensorflow.estimator import DNNClassifier, DNNRegressor, LinearClassifier, LinearRegressor, BoostedTreesClassifier, BoostedTreesRegressor, DNNLinearCombinedClassifier, DNNLinearCombinedRegressor";
   "try:";
   "    import sqlflow_models";
   "except:";
   "    pass";
   "";
   "feature_column_names = [{{range $target, $desclist := .FieldDescs}}{{range $desclist}}";
   "`{{.Name}}`,";
   "{{end}}{{end}}]";
   "";
   "# feature_column_names_map is used to determine the order of feature columns of each target:";
   "# e.g. when using DNNLinearCombinedClassifier";
   "feature_column_names_map = dict()";
   "{{range $target, $desclist := .FieldDescs}}";
   "feature_column_names_map[`{{$target}}`] = [{{range $desclist}}`{{.Name}}`,{{end}}]";
   "{{end}}";
   "    ";
   "";
   "feature_metas = dict()";
   "{{ range $target, $desclist := .FieldDescs }}";
   "{{ range $value := $desclist }}";
   "feature_metas[`{{$value.Name}}`] = {";
   "    `feature_name`: `{{$value.Name}}`,";
   "    `dtype`: `{{$value.DType | DTypeToString}}`,";
   "    `delimiter`: `{{$value.Delimiter}}`,";
   "    `format`: `{{$value.Format}}`,";
   "    `shape`: {{$value.Shape | intArrayToJSONString}},";
   "    `is_sparse`: `{{$value.IsSparse}}` == `true`,";
   "    `dtype_weight`: `{{$value.DTypeWeight | DTypeToString}}`,";
   "    `delimiter_kv`: `{{$value.DelimiterKV}}`";
   "}";
   "{{end}}";
   "{{end}}";
   "";
   "label_meta = {";
   "    `feature_name`: `{{.Y.Name}}`,";
   "    `dtype`: `{{.Y.DType | DTypeToString}}`,";
   "    `delimiter`: `{{.Y.Delimiter}}`,";
   "    `shape`: {{.Y.Shape | intArrayToJSONString}},";
   "    `is_sparse`: `{{.Y.IsSparse}}` == `true`";
   "}";
   "";
   "model_params=dict()";
   "{{range $k, $v := .ModelParams}}";
   "model_params[`{{$k}}`]={{$v | attrToPythonValue}}";
   "{{end}}";
   "";
   "feature_columns = {{.FeatureColumnCode}}";
   "";
   "evaluate(datasource=`{{.DataSource}}`,";
   "         estimator_string=```{{.Estimator}}```,";
   "         select=```{{.Select}}```,";
   "         result_table=`{{.ResultTable}}`,";
   "         feature_columns=feature_columns,";
   "         feature_column_names=feature_column_names,";
   "         feature_metas=feature_metas,";
   "         label_meta=label_meta,";
   "         model_params=model_params,";
   "         validation_metrics=`{{index .ValidationParams `metrics`}}`.split(`,`),";
   "         save=`{{.Save}}`,";
   "         batch_size=1,";
   "         validation_steps=None,";
   "         verbose=0)";
   ""]%string.

(** *** go/codegen/xgboost/template_train.go *)

Definition trainTemplateText : string := raw
  ["";
   "import runtime.xgboost as xgboost_extended";
   "from runtime.xgboost.train import train";
   "import runtime.xgboost.feature_column as xgboost_feature_column";
   "from runtime.pai.pai_distributed import define_tf_flags, set_oss_environs";
   "import json";
   "";
   "if `{{.IsPAI}}` == `true`:";
   "    FLAGS = define_tf_flags()";
   "    set_oss_environs(FLAGS)";
   "";
   "if `{{.IsPAI}}` == `true` and `{{.LoadPreTrainedModel}}` == `true`:";
   "    from runtime.model import oss";
   "    oss.load_file(`{{.OSSModelDirToLoad}}`, `my_model`)";
   "";
   "model_params = json.loads('''{{.ModelParamsJSON}}''')";
   "train_params = json.loads('''{{.TrainParamsJSON}}''')";
   "feature_metas = json.loads('''{{.FieldDescJSON}}''')";
   "label_meta = json.loads('''{{.LabelJSON}}''')";
   "";
   "feature_column_names = [{{range .FeatureColumnNames}}";
   "`{{.}}`,";
   "{{end}}]";
   "";
   "# NOTE: in the current implementation, we are generating a transform_fn from COLUMN clause. ";
   "# The transform_fn is executed during the process of dumping the original data into DMatrix SVM file.";
   "feature_column_list = [{{.FeatureColumnCode}}]";
   "transform_fn = xgboost_extended.feature_column.ComposedColumnTransformer(feature_column_names, *feature_column_list)";
   "";
   "train(datasource='''{{.DataSource}}''',";
   "      select='''{{.TrainSelect}}''',";
   "      model_params=model_params,";
   "      train_params=train_params,";
   "      feature_metas=feature_metas,";
   "      feature_column_names=feature_column_names,";
   "      label_meta=label_meta,";
   "      validation_select='''{{.ValidationSelect}}''',";
   "      disk_cache=`{{.DiskCache}}` == `true`,";
   "      batch_size={{.BatchSize}},";
   "      epoch={{.Epoch}},";
   "      load_pretrained_model=`{{.LoadPreTrainedModel}}` == `true`,";
   "      is_pai=`{{.IsPAI}}` == `true`,";
   "      pai_train_table=`{{.PAITrainTable}}`,";
   "      pai_validate_table=`{{.PAIValidateTable}}`,";
   "      oss_model_dir=`{{.OSSModelDirToSave}}`,";
   "      transform_fn=transform_fn,";
   "      feature_column_code='''{{.FeatureColumnCode}}''',";
   "      model_repo_image=`{{.ModelRepoImage}}`,";
   "      original_sql='''{{.OriginalSQL}}''')";
   ""]%string.
Definition distTrainTemplateText : string := raw
  ["";
   "import runtime.xgboost as xgboost_extended";
   "from runtime.xgboost.train import dist_train";
   "from runtime.pai.pai_distributed import define_tf_flags, set_oss_environs";
   "import json";
   "";
   "FLAGS = define_tf_flags()";
   "set_oss_environs(FLAGS)";
   "";
   "if `{{.IsPAI}}` == `true` and `{{.LoadPreTrainedModel}}` == `true`:";
   "	from runtime.model import oss";
   "	oss.load_file(`{{.OSSModelDirToLoad}}`, `my_model`)";
   "";
   "model_params = json.loads('''{{.ModelParamsJSON}}''')";
   "train_params = json.loads('''{{.TrainParamsJSON}}''')";
   "feature_metas = json.loads('''{{.FieldDescJSON}}''')";
   "label_meta = json.loads('''{{.LabelJSON}}''')";
   "";
   "feature_column_names = [{{range .FeatureColumnNames}}";
   "`{{.}}`,";
   "{{end}}]";
   "";
   "# NOTE: in the current implementation, we are generating a transform_fn from COLUMN clause. ";
   "# The transform_fn is executed during the process of dumping the original data into DMatrix SVM file.";
   "transform_fn = xgboost_extended.feature_column.ComposedColumnTransformer(feature_column_names, {{.FeatureColumnCode}})";
   "";
   "dist_train(flags=FLAGS,";
   "      datasource='''{{.DataSource}}''',";
   "      select='''{{.TrainSelect}}''',";
   "      model_params=model_params,";
   "      train_params=train_params,";
   "      feature_metas=feature_metas,";
   "      feature_column_names=feature_column_names,";
   "      label_meta=label_meta,";
   "      validation_select='''{{.ValidationSelect}}''',";
   "      disk_cache=`{{.DiskCache}}` == `true`,";
   "      batch_size={{.BatchSize}},";
   "      epoch={{.Epoch}},";
   "      load_pretrained_model=`{{.LoadPreTrainedModel}}` == `true`,";
   "      is_pai=`{{.IsPAI}}` == `true`,";
   "      pai_train_table=`{{.PAITrainTable}}`,";
   "      pai_validate_table=`{{.PAIValidateTable}}`,";
   "      oss_model_dir=`{{.OSSModelDirToSave}}`,";
   "      transform_fn=transform_fn,";
   "      feature_column_code='''{{.FeatureColumnCode}}''',";
   "      model_repo_image=`{{.ModelRepoImage}}`,";
   "      original_sql='''{{.OriginalSQL}}''')";
   ""]%string.

(** *** go/codegen/xgboost/template_pred.go *)

Definition predTemplateText : string := raw
  ["";
   "import json";
   "import runtime.xgboost as xgboost_extended";
   "from runtime.xgboost.predict import pred";
   "";
   "feature_metas = json.loads('''{{.FeatureMetaJSON}}''')";
   "train_label_meta = json.loads('''{{.TrainLabelMetaJSON}}''')";
   "pred_label_meta = json.loads('''{{.PredLabelMetaJSON}}''')";
   "";
   "feature_column_names = [{{range .FeatureColumnNames}}";
   "`{{.}}`,";
   "{{end}}]";
   "";
   "feature_column_list = [{{.FeatureColumnCode}}]";
   "transform_fn = xgboost_extended.feature_column.ComposedColumnTransformer(feature_column_names, *feature_column_list)";
   "";
   "pred(datasource='''{{.DataSource}}''',";
   "     select='''{{.PredSelect}}''',";
   "     feature_metas=feature_metas,";
   "     feature_column_names=feature_column_names,";
   "     train_label_meta=train_label_meta,";
   "     pred_label_meta=pred_label_meta,";
   "     result_table='''{{.ResultTable}}''',";
   "     is_pai=`{{.IsPAI}}` == `true`,";
   "     pai_table=`{{.PAITable}}`,";
   "     transform_fn=transform_fn,";
   "     feature_column_code='''{{.FeatureColumnCode}}''')";
   ""]%string.

(** *** go/codegen/xgboost/template_explain.go *)

Definition explainTemplateText : string := raw
  ["";
   "import json";
   "import runtime.xgboost as xgboost_extended";
   "from runtime.xgboost.explain import explain";
   "";
   "feature_field_meta = json.loads('''{{.FeatureFieldMetaJSON}}''')";
   "label_meta = json.loads('''{{.LabelJSON}}''')";
   "summary_params = json.loads('''{{.ShapSummaryParams}}''')";
   "";
   "feature_column_names = [{{range .FeatureColumnNames}}";
   "`{{.}}`,";
   "{{end}}]";
   "";
   "feature_column_list = [{{.FeatureColumnCode}}]";
   "transform_fn = xgboost_extended.feature_column.ComposedColumnTransformer(feature_column_names, *feature_column_list)";
   "";
   "explain(";
   "    datasource='''{{.DataSource}}''',";
   "    select='''{{.DatasetSQL}}''',";
   "    feature_field_meta=feature_field_meta,";
   "    feature_column_names=feature_column_names,";
   "    label_meta=label_meta,";
   "    summary_params=summary_params,";
   "    explainer=`{{.Explainer}}`,";
   "    result_table=`{{.ResultTable}}`,";
   "    is_pai=`{{.IsPAI}}` == `true`,";
   "    pai_explain_table=`{{.PAIExplainTable}}`,";
   "    transform_fn=transform_fn,";
   "    feature_column_code='''{{.FeatureColumnCode}}''')";
   ""]%string.

(** *** go/codegen/xgboost/template_evaluate.go *)

Definition evalTemplateText : string := raw
  ["";
   "import runtime.xgboost as xgboost_extended";
   "from runtime.xgboost.evaluate import evaluate";
   "import json";
   "";
   "feature_metas = json.loads('''{{.FeatureMetaJSON}}''')";
   "label_meta = json.loads('''{{.LabelMetaJSON}}''')";
   "";
   "feature_column_names = [{{range .FeatureColumnNames}}";
   "`{{.}}`,";
   "{{end}}]";
   "";
   "feature_column_list = [{{.FeatureColumnCode}}]";
   "transform_fn = xgboost_extended.feature_column.ComposedColumnTransformer(feature_column_names, *feature_column_list)";
   "";
   "evaluate(datasource='''{{.DataSource}}''',";
   "         select='''{{.PredSelect}}''',";
   "         feature_metas=feature_metas,";
   "         feature_column_names=feature_column_names,";
   "         label_meta=label_meta,";
   "         result_table='''{{.ResultTable}}''',";
   "         validation_metrics=`{{.MetricNames}}`.split(`,`), ";
   "         is_pai=`{{.IsPAI}}` == `true`,";
   "         pai_table=`{{.PAITable}}`,";
   "         transform_fn=transform_fn,";
   "         feature_column_code='''{{.FeatureColumnCode}}''')";
   ""]%string.

(** *** go/codegen/optimize/template_optimize.go *)

Definition optimizeVarObjectiveAndConstraintText : string := raw
  ["";
   "variables = [{{range .Variables}}'''{{.}}''',{{end}}]";
   "";
   "objective = [{{range .Objective.ExpressionTokens}}'''{{.}}''',{{end}}]";
   "";
   "constraints = [{{range .Constraints}}";
   "    {";
   "        `tokens`: [{{range .ExpressionTokens}}'''{{.}}''',{{end}}],";
   "        `group_by`: '''{{.GroupBy}}''',";
   "    },";
   "{{end}}]";
   ""]%string.
Definition pyomoNativeOptimizeText : string := optimizeVarObjectiveAndConstraintText +:+ raw
  ["";
   "from runtime.optimize import run_optimize_locally";
   "";
   "run_optimize_locally(datasource='''{{.DataSource}}''', ";
   "                     select='''{{.Select}}''',";
   "                     variables=variables, ";
   "                     variable_type='''{{.VariableType}}''',";
   "                     result_value_name='''{{.ResultValueName}}''',";
   "                     objective=objective,";
   "                     direction='''{{.Direction}}''',";
   "                     constraints=constraints,";
   "                     solver='''{{.Solver}}''',";
   "                     result_table='''{{.ResultTable}}''')";
   ""]%string.
Definition optFlowOptimizeText : string := optimizeVarObjectiveAndConstraintText +:+ raw
  ["";
   "from runtime.optimize import run_optimize_on_optflow";
   "";
   "columns = [{{range .ColumnNames}}'''{{.}}''',{{end}}]";
   "";
   "run_optimize_on_optflow(train_table='''{{.TrainTable}}''',";
   "                        columns=columns,";
   "                        variables=variables,";
   "                        variable_type='''{{.VariableType}}''',";
   "                        result_value_name='''{{.ResultValueName}}''',";
   "                        objective=objective,";
   "                        direction='''{{.Direction}}''',";
   "                        constraints=constraints,";
   "                        solver='''{{.Solver}}''',";
   "                        result_table='''{{.ResultTable}}''',";
   "                        user_id='''{{.UserID}}''')";
   ""]%string.

(** *** go/workflow/couler/template.go *)

Definition coulerTemplateText : string := raw
  ["";
   "import json";
   "import re";
   "import os";
   "import couler.argo as couler";
   "datasource = `{{ .DataSource }}`";
   "step_log_file = None";
   "if `{{ .StepLogFile }}` != ``:";
   "  step_log_file = `{{ .StepLogFile }}`";
   "cluster_config = None";
   "if `{{.ClusterConfigFn}}` != ``:";
   "  cluster_config = `{{.ClusterConfigFn}}`";
   "workflow_ttl = {{.WorkflowTTL}}";
   "";
   "# it's bug of the couler project, that needs `` on integer environment variable value to avoid the ";
   "# workflow failed: `invalid spec: cannot convert int64 to string`";
   "# issue: https://github.com/couler-proj/couler/issues/108";
   "def escape_env(value):";
   "	return str(value).replace('`', '\\`')";
   "";
   "step_envs = dict()";
   "{{range $k, $v := .StepEnvs}}";
   "step_envs[`{{$k}}`] = '''`%s`''' % escape_env('''{{$v}}''')";
   "{{end}}";
   "";
   "def step_command(sql, step_log_file):";
   "	if step_log_file:";
   "		# wait for some seconds to exit in case the";
   "		# step pod is recycled too fast";
   "		exit_time_wait = os.getenv(`SQLFLOW_WORKFLOW_EXIT_TIME_WAIT`, `0`)";
   "";
   "		log_dir = os.path.dirname(step_log_file)";
   "		return ``.join([";
   "			`if [[ -f /opt/sqlflow/init_step_container.sh ]]; `";
   "			`then bash /opt/sqlflow/init_step_container.sh; fi`,";
   "			` && set -o pipefail`,  # fail when any sub-command fail";
   "			` && mkdir -p %s` % log_dir,";
   "			``` && (step -e `%s` 2>&1 | tee %s)``` %";
   "			(sql, step_log_file),";
   "			` && sleep %s` % exit_time_wait";
   "		])";
   "	else:";
   "		return '''step -e `%s`''' % sql";
   "";
   "sqlflow_secret = None";
   "if `{{.SecretName}}` != ``:";
   "	# note(yancey1989): set dry_run to true, just reference the secret meta to generate workflow YAML,";
   "	# we should create the secret before launching sqlflowserver";
   "	secret_data=json.loads('''{{.SecretData}}''')";
   "	sqlflow_secret = couler.create_secret(secret_data, name=`{{ .SecretName }}`, dry_run=True)";
   "";
   "resources = None";
   "if '''{{.Resources}}''' != ``:";
   "  resources=json.loads('''{{.Resources}}''')";
   "";
   "{{ range $ss := .SQLStatements }}";
   "	{{if $ss.IsExtendedSQL }}";
   "couler.run_container(command=[`bash`, `-c`, step_command('''{{ $ss.OriginalSQL}}''', step_log_file)],";
   "  image=`{{ $ss.DockerImage}}`,";
   "  env=step_envs,";
   "  secret=sqlflow_secret,";
   "  resources=resources)";
   "  {{else if $ss.IsKatibTrain}}";
   "import couler.sqlflow.katib as auto";
   "";
   "model = `{{ $ss.Model }}`";
   "params = json.loads('''{{ $ss.Parameters }}''')";
   "train_sql = '''{{ $ss.OriginalSQL }}'''";
   "auto.train(model=model, params=params, sql=escape_sql(train_sql), datasource=datasource)";
   "	{{else}}";
   "couler.run_container(command=[`bash`, `-c`, step_command('''{{ $ss.OriginalSQL}}''', step_log_file)],";
   "	image=`{{ $ss.DockerImage}}`,";
   "	env=step_envs,";
   "	secret=sqlflow_secret,";
   "	resources=resources)";
   "	{{end}}";
   "{{end}}";
   "";
   "couler.config_workflow(cluster_config_file=cluster_config, time_to_clean=workflow_ttl)";
   "{{ if .UseCoulerSubmitter }}";
   "from ant_couler.couler_submitter import CoulerSubmitter";
   "sbmtr = CoulerSubmitter(address=`{{.CoulerServerAddr}}`, namespace=`sqlflow`)";
   "resp = couler.run(submitter=sbmtr, cluster=`{{.CoulerCluster}}`)";
   "print(resp.name)";
   "{{ end }}";
   ""]%string.
