(* ===== verification/TemplateTypes.v ===== *)
(** * Types of templates

    A checker that runs over a template once, with the types of its data and with the places
    where the reader of Python can be ([py]), and the proof that it is sound: a template that it
    accepts can be executed on all data of the type, and where the texts of the data are safe,
    they are inside of strings of the program and nothing else. *)

From S2P Require Import Prelude GoStrings FeatureColumn Attribute Ir ColumnCode AttrInit XgbCode Shell Template.

Local Open Scope Z_scope.

(** ** Texts that keep their place *)

(** In strings of both kinds; in long strings only; in the code, and in long strings. *)
Definition name_char (d : ascii) : bool := negb (is_mark d) && negb (bool_decide (d = chr_bs ∨ d = chr_nl)).
Definition name_safe (s : string) : bool := str_forall name_char s.
Definition long_safe (s : string) : bool := inside (PLong chr_sq) s && inside (PLong chr_dq) s.
Definition code_safe (s : string) : bool := bool_decide (py_scan PCode s = PCode) && long_safe s.
(** In strings and in the code. *)
Definition plain_char (d : ascii) : bool := name_char d && negb (bool_decide (d = "#"%char)).
Definition plain_safe (s : string) : bool := str_forall plain_char s.

(** ** Types

    A text that can stand in any string of the program, or in a long one only; code; a text that
    the template prints in the code, which is never safe; a number or a bool; the value of an
    attribute; the shape and the type of a field. *)
Inductive ty :=
  | TName | TLong | TCode | TBare | TPlain | TParam | TInts | TField
  | TList (t : ty) | TMap (t : ty) | TStruct (l : list (string * ty)).

Section typing.
Context `{ColumnText}.
(** Whether the texts have to be safe. *)
Variable strict : bool.

Definition when_strict (b : bool) : Prop := strict = true → b = true.
(** An attribute can be printed: as Python, and as it is. *)
Definition param_ok (a : attr) : Prop :=
  (∃ s, AttrToPythonValue a = Ok s ∧ when_strict (bool_decide (py_scan PCode s = PCode))) ∧
  ∃ g, print (DAttr a) = Ok g ∧ when_strict (name_safe (seg_text g)).

Fixpoint typed (t : ty) (d : data) {struct t} : Prop :=
  match t, d with
  | TName, DAttr (VString s) => when_strict (name_safe s)
  | TLong, DAttr (VString s) => when_strict (long_safe s)
  | TCode, DCode s => when_strict (code_safe s)
  | TBare, DAttr (VString s) => when_strict false
  | TPlain, DAttr (VBool _ | VInt _) => True
  | TParam, DAttr a => param_ok a
  | TInts, DAttr (VInts _) => True
  | TField, DField _ => True
  | TList t, DList l => Forall (typed t) l
  | TMap t, DMap l => Forall (λ kd, when_strict (name_safe kd.1) ∧ typed t kd.2) l
  | TStruct ts, DStruct fs =>
    (fix go (ts : list (string * ty)) (fs : list (string * data)) : Prop :=
       match ts, fs with
       | [], [] => True
       | (n, t) :: ts, (m, d) :: fs => n = m ∧ typed t d ∧ go ts fs
       | _, _ => False
       end) ts fs
  | _, _ => False
  end.
End typing.

(** The same, decided, when the texts have to be safe. *)
Section safe_data.
Context `{ColumnText}.
Fixpoint safe_data (t : ty) (d : data) {struct t} : bool :=
  match t, d with
  | TName, DAttr (VString s) => name_safe s
  | TLong, DAttr (VString s) => long_safe s
  | TCode, DCode s => code_safe s
  | TPlain, DAttr (VBool _ | VInt _) | TInts, DAttr (VInts _) | TField, DField _ => true
  | TParam, DAttr a =>
    match AttrToPythonValue a, print (DAttr a) with
    | Ok s, Ok g => bool_decide (py_scan PCode s = PCode) && name_safe (seg_text g)
    | _, _ => false
    end
  | TList t, DList l => forallb (safe_data t) l
  | TMap t, DMap l => forallb (λ kd, name_safe kd.1 && safe_data t kd.2) l
  | TStruct ts, DStruct fs =>
    (fix go (ts : list (string * ty)) (fs : list (string * data)) : bool :=
       match ts, fs with
       | [], [] => true
       | (n, t) :: ts, (m, d) :: fs => bool_decide (n = m) && safe_data t d && go ts fs
       | _, _ => false
       end) ts fs
  | _, _ => false
  end.

Lemma ty_nested_ind (P : ty → Prop) :
  P TName → P TLong → P TCode → P TBare → P TPlain → P TParam → P TInts → P TField → (∀ t, P t → P (TList t)) → (∀ t, P t → P (TMap t)) →
  (∀ l, Forall (λ nt, P nt.2) l → P (TStruct l)) → ∀ t, P t.
Proof.
  intros H1 H2 H3 H4 H5 H6 H7 H8 Hl Hm Hs. fix IH 1. intros [| | | | | | | |t|t|l]; [done..|apply Hl, IH|apply Hm, IH|apply Hs].
  induction l as [|[n t] l IHl]; constructor; [apply IH|exact IHl].
Qed.
Lemma safe_typed t d : safe_data t d = true → typed true t d.
Proof.
  revert d. induction t as [| | | | | | | |t IH|t IH|ts IH] using ty_nested_ind; intros d Hd;
    try (destruct d as [[]| | | | |]; try done; by intros _).
  - destruct d as [a| | | | |]; try done. cbn [safe_data] in Hd. destruct (AttrToPythonValue a) as [s| | |] eqn:Ha; try done.
    destruct (print (DAttr a)) as [g| | |] eqn:Hg; try done. apply andb_true_iff in Hd as [Hs Hn].
    split; [exists s|exists g]; (split; [done|by intros _]).
  - destruct d as [| | |l| |]; try done. cbn [safe_data] in Hd. rewrite forallb_forall in Hd. apply Forall_forall.
    intros x Hx%list_elem_of_In. by apply IH, Hd.
  - destruct d as [| | | |l|]; try done. cbn [safe_data] in Hd. rewrite forallb_forall in Hd. apply Forall_forall.
    intros x Hx%list_elem_of_In. apply Hd in Hx as [Hk Hx]%andb_true_iff. split; [by intros _|by apply IH].
  - destruct d as [| | | | |fs]; try done. cbn [safe_data typed] in *. induction IH as [|[n t] ts Ht _ IHts] in fs, Hd |- *; [by destruct fs|].
    destruct fs as [|[m d] fs]; [done|]. apply andb_true_iff in Hd as [[Hn Hd]%andb_true_iff Hr].
    apply bool_decide_eq_true in Hn. split; [done|]. split; [by apply Ht|by apply IHts].
Qed.
End safe_data.

(** ** The checker *)

Definition mark_state (st : py) : bool := match st with PQ1 c | PShort c | PLong c => is_mark c | _ => false end.
Definition after_text (st : py) : list py := match st with PQ1 c => [PQ1 c; PShort c] | _ => [st] end.
Definition name_hole (st : py) : option (list py) := if mark_state st then Some (after_text st) else None.
Definition long_hole (st : py) : option (list py) :=
  match st with PLong c => if is_mark c then Some [st] else None | _ => None end.
Definition code_hole (st : py) : option (list py) := match st with PCode => Some [st] | _ => None end.
Definition either_hole (a b : option (list py)) : option (list py) := match a with Some _ => a | None => b end.
Definition print_hole (t : ty) (st : py) : option (list py) :=
  match t with
  | TName | TParam => name_hole st
  | TLong => long_hole st
  | TCode => either_hole (code_hole st) (long_hole st)
  | TBare => code_hole st
  | TPlain => either_hole (code_hole st) (name_hole st)
  | _ => None
  end.
Definition call_hole (f : string) (t : ty) (st : py) : option (list py) :=
  match t with
  | TParam => if decide (f = "attrToPythonValue"%string) then code_hole st else None
  | TInts => if decide (f = "intArrayToJSONString"%string) then either_hole (code_hole st) (name_hole st) else None
  | TField => if decide (f = "DTypeToString"%string) then either_hole (code_hole st) (name_hole st) else None
  | _ => None
  end.
Definition at_all (f : py → option (list py)) (X : list py) : option (list py) :=
  match X with [] => None | _ => l ← mapM f X; Some (remove_dups (concat l)) end.

Fixpoint path_ty (t : ty) (path : list string) : option ty :=
  match path with
  | [] => Some t
  | n :: path => match t with TStruct ts => t ← assoc n ts; path_ty t path | _ => None end
  end.
Definition operand_ty (env : list (string * ty)) (dot : ty) (o : operand) : option ty :=
  match o with Dot path => path_ty dot path | Var x path => t ← assoc x env; path_ty t path end.
Definition pipe_ty (env : list (string * ty)) (dot : ty) (p : pipeline) : option ty :=
  t ← operand_ty env dot (p_operand p);
  match p_key p, t with
  | None, _ => Some t
  | Some _, TMap TParam => Some TParam
  | Some _, _ => None
  end.
Definition element_ty (t : ty) : option (ty * ty) :=
  match t with TList t => Some (TPlain, t) | TMap t => Some (TName, t) | _ => None end.
Definition bind_ty (vars : list string) (kt : ty * ty) (env : list (string * ty)) : list (string * ty) :=
  match vars with
  | [v] => (v, kt.2) :: env
  | [k; v] => (v, kt.2) :: (k, kt.1) :: env
  | _ => env
  end.

(** The places where the reader can be behind a node, from those where it can be in front. *)
Fixpoint check_node (X : list py) (env : list (string * ty)) (dot : ty) (n : node) {struct n} : option (list py) :=
  let check_nodes := fix check_nodes X env dot l {struct l} :=
    match l with [] => Some X | n :: l => Y ← check_node X env dot n; check_nodes Y env dot l end in
  match n with
  | NText s => Some (remove_dups (map (λ st, py_scan st s) X))
  | NAction p f => t ← pipe_ty env dot p; at_all (match f with None => print_hole t | Some f => call_hole f t end) X
  | NRange vars p body =>
    t ← pipe_ty env dot p;
    kt ← element_ty t;
    Y ← check_nodes X (bind_ty vars kt env) kt.2 body;
    if bool_decide (Y ⊆ X) then Some X else None
  | NIf p th el =>
    pipe_ty env dot p ≫= λ _,
    Y ← check_nodes X env dot th;
    Z ← check_nodes X env dot el;
    Some (remove_dups (Y ++ Z))
  end.
Fixpoint check_nodes (X : list py) (env : list (string * ty)) (dot : ty) (l : list node) : option (list py) :=
  match l with [] => Some X | n :: l => Y ← check_node X env dot n; check_nodes Y env dot l end.
(** A template begins and ends in the code. *)
Definition check_template (s : string) (t : ty) : bool :=
  match Parse_template s with
  | Ok nodes => match check_nodes [PCode] [] t nodes with Some Y => bool_decide (Y ⊆ [PCode]) | None => false end
  | _ => false
  end.

(** ** Safe texts in their places *)

Lemma is_mark_spec d : is_mark d = true ↔ d = chr_sq ∨ d = chr_dq.
Proof. apply bool_decide_eq_true. Qed.
Lemma name_char_spec d : name_char d = true ↔ is_mark d = false ∧ d ≠ chr_bs ∧ d ≠ chr_nl.
Proof. unfold name_char. rewrite andb_true_iff, !negb_true_iff, bool_decide_eq_false. naive_solver. Qed.

Lemma inside_name c s : is_mark c = true → name_safe s = true →
  ∀ st, st ∈ [PShort c; PLong c] → inside st s = true ∧ py_scan st s = st.
Proof.
  intros Hc. induction s as [|d s IH]; intros Hs st Hst.
  - split; [|done]. by repeat (apply elem_of_cons in Hst as [->|Hst]); try by apply elem_of_nil in Hst.
  - apply andb_true_iff in Hs as [[Hm [Hb Hn]]%name_char_spec Hs].
    assert (d ≠ c) as Hdc by (intros ->; congruence).
    assert (py_step st d = st) as Hstep.
    { repeat (apply elem_of_cons in Hst as [->|Hst]); [| |by apply elem_of_nil in Hst];
        cbn; unfold short_step, long_step; by rewrite !decide_False. }
    cbn [inside py_scan]. rewrite Hstep. destruct (IH Hs st Hst) as [-> ->]. split; [|done].
    rewrite bool_decide_false by done. by repeat (apply elem_of_cons in Hst as [->|Hst]); try by apply elem_of_nil in Hst.
Qed.
Lemma name_fits st s : mark_state st = true → name_safe s = true →
  open_string st && inside st s = true ∧ py_scan st s ∈ after_text st.
Proof.
  intros Hm Hs. destruct st as [| |c| |c| |c| | | |]; try done; cbn [mark_state] in Hm.
  - destruct s as [|d s]; [split; [done|by left]|]. cbn [inside py_scan].
    apply andb_true_iff in Hs as [Hd Hs]. pose proof Hd as [Hdm [Hb Hn]]%name_char_spec.
    assert (d ≠ c) as Hdc by (intros ->; congruence).
    assert (py_step (PQ1 c) d = PShort c) as -> by (cbn; unfold short_step; by rewrite !decide_False).
    destruct (inside_name c s Hm Hs (PShort c)) as [-> ->]; [by left|]. rewrite bool_decide_false by done.
    split; [done|]. right. by left.
  - destruct (inside_name c s Hm Hs (PShort c)) as [-> ->]; [by left|]. split; [done|by left].
  - destruct (inside_name c s Hm Hs (PLong c)) as [-> ->]; [by right; left|]. split; [done|by left].
Qed.

Lemma inside_long c s st : st ∈ [PLong c; PLong1 c; PLong2 c] → inside st s = true → py_scan st s = PLong c.
Proof.
  revert st. induction s as [|d s IH]; intros st Hst Hs.
  - by repeat (apply elem_of_cons in Hst as [->|Hst]); try by apply elem_of_nil in Hst.
  - cbn [inside py_scan] in *. apply andb_true_iff in Hs as [[_ Hb]%andb_true_iff Hs].
    apply negb_true_iff, bool_decide_eq_false in Hb. apply (IH _); [|done]. clear IH.
    destruct (decide (py_step st d = PCode)) as [He|Hne].
    { rewrite He in Hs. by destruct s. }
    clear Hs. repeat (apply elem_of_cons in Hst as [->|Hst]); [..|by apply elem_of_nil in Hst]; cbn in *; unfold long_step in *;
      repeat case_decide; try done; set_solver.
Qed.
Lemma long_fits c s : is_mark c = true → long_safe s = true →
  open_string (PLong c) && inside (PLong c) s = true ∧ py_scan (PLong c) s = PLong c.
Proof.
  intros [->| ->]%is_mark_spec [Hq Hd]%andb_true_iff; (split; [cbn [open_string andb]; done|]); apply inside_long; try done; by left.
Qed.

Lemma plain_name s : plain_safe s = true → name_safe s = true.
Proof. apply str_forall_impl. by intros d [Hd _]%andb_true_iff. Qed.
Lemma plain_code s : plain_safe s = true → py_scan PCode s = PCode.
Proof.
  induction s as [|d s IH]; [done|]. intros [[[Hm _]%name_char_spec Hh]%andb_true_iff Hs]%andb_true_iff.
  apply negb_true_iff, bool_decide_eq_false in Hh. cbn [py_scan py_step]. unfold code_step. rewrite Hm, decide_False by done. by apply IH.
Qed.

(** *** Numbers, shapes and types *)

Lemma plain_pretty (z : Z) : plain_safe (pretty z) = true.
Proof.
  assert (∀ z : Z, 0 ≤ z → plain_safe (pretty z) = true) as Hpos.
  { clear z. intros z Hz. destruct (pretty_Z_digits z Hz) as (Hd & _). revert Hd. apply str_forall_impl.
    intros d Hd. destruct d as [[] [] [] [] [] [] [] []]; try done; by vm_compute. }
  destruct z as [|p|p]; [by apply Hpos; lia..|].
  change (pretty (Zneg p)) with (String "-" (pretty (Zpos p))). cbn [plain_safe str_forall].
  apply andb_true_iff. split; [done|]. by apply Hpos; lia.
Qed.
Lemma plain_join l sep : Forall (λ s, plain_safe s = true) l → plain_safe sep = true → plain_safe (Join l sep) = true.
Proof.
  intros Hl Hsep. induction Hl as [|s l Hs Hl IH]; [done|]. destruct l as [|t l]; [done|].
  rewrite Join_cons. unfold plain_safe in *. by rewrite !str_forall_app, Hs, Hsep.
Qed.
Lemma plain_shape l : plain_safe (json_shape l) = true.
Proof.
  destruct l as [l|]; [|done]. cbn [json_shape from_option]. unfold json_ints, plain_safe. rewrite !str_forall_app.
  assert (plain_safe (Join (pretty <$> l) ",") = true) as Hj.
  { apply plain_join; [|done]. apply Forall_fmap, Forall_true. intros z. apply plain_pretty. }
  unfold plain_safe in Hj. by rewrite Hj.
Qed.

(** ** Soundness *)

Section soundness.
Context `{ColumnText} (strict : bool).
Notation typed := (typed strict).

(** A part fits where the reader is, and leaves it at one of the places. *)
Definition placed (st : py) (gs : list segment) (Y : list py) : Prop :=
  strict = true → all_fit st gs = true ∧ py_scan st (program_of gs) ∈ Y.
Lemma placed_one st g Y : placed st [g] Y ↔ (strict = true → fits st g = true ∧ py_scan st (seg_text g) ∈ Y).
Proof.
  unfold placed, program_of. cbn [all_fit map]. rewrite andb_true_r, str_concat_cons. cbn [str_concat]. by rewrite str_app_nil_r.
Qed.
Lemma placed_app st gs hs Y Z : placed st gs Y → (∀ st', st' ∈ Y → placed st' hs Z) → placed st (gs ++ hs) Z.
Proof.
  intros Hg Hh Hs. destruct (Hg Hs) as [Hf Hy]. destruct (Hh _ Hy Hs) as [Hf' Hz].
  by rewrite all_fit_app, Hf, Hf', program_of_app, py_scan_app.
Qed.

Lemma name_placed st s Y g : seg_text g = s → (∀ t, g ≠ Own t) → name_hole st = Some Y → when_strict strict (name_safe s) → placed st [g] Y.
Proof.
  intros <- Hg Hh Hs. apply placed_one. intros Hst. unfold name_hole in Hh. destruct (mark_state st) eqn:Hm; [|done]. injection Hh as <-.
  destruct (name_fits st _ Hm (Hs Hst)) as [Hf Hy]. split; [|done]. destruct g; [by destruct (Hg s)|done|]. cbn in *. by rewrite Hf.
Qed.
Lemma long_placed st s Y g : seg_text g = s → (∀ t, g ≠ Own t) → long_hole st = Some Y → when_strict strict (long_safe s) → placed st [g] Y.
Proof.
  intros <- Hg Hh Hs. apply placed_one. intros Hst. destruct st as [| | | | | |c| | | |]; try done. cbn in Hh.
  destruct (is_mark c) eqn:Hm; [|done]. injection Hh as <-. destruct (long_fits c _ Hm (Hs Hst)) as [Hf ->].
  split; [|by left]. destruct g; [by destruct (Hg s)|done|]. cbn in *. by rewrite Hf.
Qed.
Lemma code_placed st s Y : code_hole st = Some Y → when_strict strict (bool_decide (py_scan PCode s = PCode)) → placed st [Code s] Y.
Proof.
  intros Hh Hs. apply placed_one. intros Hst. destruct st; try done. injection Hh as <-. specialize (Hs Hst).
  apply bool_decide_eq_true in Hs. unfold fits. cbn [seg_text]. rewrite Hs. split; [done|by left].
Qed.
Lemma either_hole_Some a b Y : either_hole a b = Some Y → a = Some Y ∨ b = Some Y.
Proof. destruct a; cbn; auto. Qed.
Lemma plain_placed st s Y : either_hole (code_hole st) (name_hole st) = Some Y → plain_safe s = true → placed st [Code s] Y.
Proof.
  intros [Hh|Hh]%either_hole_Some Hs.
  - apply (code_placed _ _ _ Hh). intros _. by apply bool_decide_eq_true, plain_code.
  - by apply (name_placed _ s _ (Code s) eq_refl); [|done|intros _; apply plain_name].
Qed.

Lemma print_not_own d g : print d = Ok g → ∀ t, g ≠ Own t.
Proof. intros Hp t ->. destruct d as [[]| | | | |]; discriminate Hp. Qed.
Lemma print_sound t d : typed t d → (∃ st Y, print_hole t st = Some Y) →
  ∃ g, print d = Ok g ∧ ∀ st Y, print_hole t st = Some Y → placed st [g] Y.
Proof.
  intros Hd (st0 & Y0 & Hh0). destruct t; try discriminate Hh0; clear st0 Y0 Hh0.
  - destruct d as [[]| | | | |]; try done. eexists. split; [reflexivity|]. intros st Y Hh. by eapply name_placed.
  - destruct d as [[]| | | | |]; try done. eexists. split; [reflexivity|]. intros st Y Hh. by eapply long_placed.
  - destruct d as [| |s| | |]; try done. eexists. split; [reflexivity|]. intros st Y [Hh|Hh]%either_hole_Some.
    + apply (code_placed _ _ _ Hh). intros Hs. by apply Hd, andb_true_iff in Hs as [? _].
    + eapply long_placed; [reflexivity|done|exact Hh|]. intros Hs. by apply Hd, andb_true_iff in Hs as [_ ?].
  - destruct d as [[]| | | | |]; try done. eexists. split; [reflexivity|]. intros st Y _. apply placed_one. intros Hs. by apply Hd in Hs.
  - destruct d as [[]| | | | |]; try done; eexists; (split; [reflexivity|]); intros st Y Hh; apply (plain_placed _ _ _ Hh);
      [apply plain_pretty|by destruct b].
  - destruct d as [a| | | | |]; try done. destruct Hd as [_ (g & Hg & Hs)]. exists g. split; [done|].
    intros st Y Hh. eapply name_placed; [reflexivity|by eapply print_not_own|done|done].
Qed.
Lemma call_sound f t d : typed t d → (∃ st Y, call_hole f t st = Some Y) →
  ∃ s, call f d = Ok s ∧ ∀ st Y, call_hole f t st = Some Y → placed st [Code s] Y.
Proof.
  intros Hd (st0 & Y0 & Hh0). destruct t; try discriminate Hh0; cbn [call_hole] in *; case_decide as Hf; try discriminate Hh0;
    clear st0 Y0 Hh0; subst f.
  - destruct d as [a| | | | |]; try done. destruct Hd as [(s & Ha & Hs) _]. exists s. split.
    + cbn [call]. rewrite decide_True by done. by rewrite Ha.
    + intros st Y Hh. by apply code_placed.
  - destruct d as [[]| | | | |]; try done. eexists. split; [cbn [call]; rewrite decide_False, decide_True by done; reflexivity|].
    intros st Y Hh. apply (plain_placed _ _ _ Hh). apply plain_shape.
  - destruct d as [|dt| | | |]; try done. eexists. split; [cbn [call]; rewrite decide_True by done; reflexivity|].
    intros st Y Hh. apply (plain_placed _ _ _ Hh). by destruct dt.
Qed.

(** *** Paths, pipelines and environments *)

Lemma typed_field ts fs n t : typed (TStruct ts) (DStruct fs) → assoc n ts = Some t → ∃ d, assoc n fs = Some d ∧ typed t d.
Proof.
  induction ts as [|[m u] ts IH] in fs |- *; [done|]. destruct fs as [|[m' d] fs]; [done|]. cbn. intros (<- & Hd & Hr).
  unfold assoc. cbn [List.find fst]. case_bool_decide; [intros [= ->]; by exists d|]. by apply IH.
Qed.
Lemma path_sound path t d u : path_ty t path = Some u → typed t d → ∃ e, foldM field d path = Ok e ∧ typed u e.
Proof.
  induction path as [|n path IH] in t, d |- *; cbn [path_ty foldM]; [intros [= ->] Hd; by exists d|].
  destruct t as [| | | | | | | | | |ts]; try done. intros (v & Hv & Hp)%bind_Some Hd. destruct d as [| | | | |fs]; try done.
  destruct (typed_field _ _ _ _ Hd Hv) as (e & He & Ht). cbn [field]. rewrite He. cbn. by apply (IH v).
Qed.
Definition env_typed (tenv : list (string * ty)) (env : list (string * data)) : Prop :=
  Forall2 (λ xt xd, xt.1 = xd.1 ∧ typed xt.2 xd.2) tenv env.
Lemma env_sound tenv env x t : env_typed tenv env → assoc x tenv = Some t → ∃ d, assoc x env = Some d ∧ typed t d.
Proof.
  induction 1 as [|[y u] [z d] tenv env [Hy Hd] _ IH]; [done|]. cbn in Hy, Hd. subst z. unfold assoc. cbn [List.find fst].
  case_bool_decide; [intros [= ->]; by exists d|]. exact IH.
Qed.
Lemma no_value_ok : param_ok strict VNil.
Proof. split; eexists; (split; [reflexivity|]); intros _; by vm_compute. Qed.
Lemma pipe_sound tenv env tdot dot p t : env_typed tenv env → typed tdot dot → pipe_ty tenv tdot p = Some t →
  ∃ d, pipe_value env dot p = Ok d ∧ typed t d.
Proof.
  intros Henv Hdot (u & Hu & Hk)%bind_Some.
  assert (∃ d, operand_value env dot (p_operand p) = Ok d ∧ typed u d) as (d & Hd & Htd).
  { destruct (p_operand p) as [path|x path]; cbn [operand_ty operand_value] in *; [by eapply path_sound|].
    apply bind_Some in Hu as (v & Hv & Hu). destruct (env_sound _ _ _ _ Henv Hv) as (e & -> & He). cbn. by eapply path_sound. }
  unfold pipe_value. rewrite Hd. cbn [mbind result_bind]. destruct (p_key p) as [k|].
  - destruct u as [| | | | | | | | |[]|]; try discriminate Hk. injection Hk as <-. destruct d as [| | | |m|]; try done.
    eexists. split; [reflexivity|]. unfold assoc. destruct (List.find _ m) as [[k' d]|] eqn:Hf; [|exact no_value_ok].
    apply List.find_some in Hf as [Hf _]. cbn. apply list_elem_of_In in Hf.
    cbn [TemplateTypes.typed] in Htd. rewrite Forall_forall in Htd. apply (Htd _ Hf).
  - injection Hk as <-. by exists d.
Qed.
Lemma elements_sound t d kt : typed t d → element_ty t = Some kt →
  ∃ l, elements d = Ok l ∧ Forall (λ kd, typed kt.1 kd.1 ∧ typed kt.2 kd.2) l.
Proof.
  intros Hd Hk. destruct t as [| | | | | | | |t|t|]; try done; injection Hk as <-; destruct d as [| | |l|m|]; try done;
    eexists; (split; [reflexivity|]); cbn [fst snd].
  - change (Forall (typed t) l) in Hd. apply Forall_forall. intros [k d] (i & e & [= -> ->] & He)%elem_of_lookup_imap.
    split; [done|]. cbn. apply (proj1 (Forall_forall _ _) Hd). by eapply list_elem_of_lookup_2.
  - apply Forall_map. eapply Forall_impl; [exact Hd|]. by intros [k d] [Hk Ht].
Qed.
Lemma bind_sound vars kt kd tenv env : env_typed tenv env → typed kt.1 kd.1 ∧ typed kt.2 kd.2 →
  env_typed (bind_ty vars kt tenv) (bind vars kd env).
Proof. intros He [Hk Hd]. destruct vars as [|x [|y [|]]]; try done; repeat (constructor; [done|]); done. Qed.

(** *** Nodes *)

Lemma node_nested_ind (P : node → Prop) :
  (∀ s, P (NText s)) → (∀ p f, P (NAction p f)) →
  (∀ vars p body, Forall P body → P (NRange vars p body)) →
  (∀ p th el, Forall P th → Forall P el → P (NIf p th el)) → ∀ n, P n.
Proof.
  intros Ht Ha Hr Hi. fix IH 1. intros [s|p f|vars p body|p th el]; [apply Ht|apply Ha|apply Hr|apply Hi];
    [induction body as [|n l IHl]|induction th as [|n l IHl]|induction el as [|n l IHl]]; constructor; [apply IH|exact IHl|apply IH|exact IHl|apply IH|exact IHl].
Qed.

Definition sound_node (n : node) : Prop := ∀ X tenv env tdot dot Y,
  check_node X tenv tdot n = Some Y → env_typed tenv env → typed tdot dot →
  ∃ gs, exec_node env dot n = Ok gs ∧ ∀ st, st ∈ X → placed st gs Y.
Definition sound_nodes (l : list node) : Prop := ∀ X tenv env tdot dot Y,
  check_nodes X tenv tdot l = Some Y → env_typed tenv env → typed tdot dot →
  ∃ gs, exec_nodes env dot l = Ok gs ∧ ∀ st, st ∈ X → placed st gs Y.

Lemma placed_weaken st gs Y Z : (∀ y, y ∈ Y → y ∈ Z) → placed st gs Y → placed st gs Z.
Proof. intros Hs Hp Hst. destruct (Hp Hst) as [Hf Hy]. auto. Qed.
Lemma placed_nil st X : st ∈ X → placed st [] X.
Proof. by intros Hst _. Qed.
Lemma at_all_Some f X Y : at_all f X = Some Y → ∀ st, st ∈ X → ∃ Z, f st = Some Z ∧ ∀ y, y ∈ Z → y ∈ Y.
Proof.
  destruct X as [|x X]; [done|]. intros (l & Hl & [= <-])%bind_Some st Hst. apply mapM_Some in Hl.
  apply list_elem_of_lookup in Hst as (i & Hi). destruct (Forall2_lookup_l _ _ _ _ _ Hl Hi) as (Z & HZ & Hf).
  exists Z. split; [done|]. intros y Hy. apply elem_of_remove_dups, list_elem_of_In, in_concat. exists Z.
  split; apply list_elem_of_In; [by eapply list_elem_of_lookup_2|done].
Qed.
Lemma all_placed X Y (g : segment) (h : py → option (list py)) :
  at_all h X = Some Y → (∀ st Z, h st = Some Z → placed st [g] Z) → ∀ st, st ∈ X → placed st [g] Y.
Proof.
  intros Hat Hp st Hst. destruct (at_all_Some _ _ _ Hat st Hst) as (Z & HZ & Hs). by eapply placed_weaken, Hp.
Qed.

Lemma nodes_sound l : Forall sound_node l → sound_nodes l.
Proof.
  induction 1 as [|n l Hn _ IH]; intros X tenv env tdot dot Y; cbn [check_nodes exec_nodes].
  - intros [= <-] _ _. exists []. split; [done|]. intros st. apply placed_nil.
  - intros (Z & HZ & HY)%bind_Some Henv Hdot. destruct (Hn _ _ _ _ _ _ HZ Henv Hdot) as (g & Hg & Hpg).
    destruct (IH _ _ _ _ _ _ HY Henv Hdot) as (gs & Hgs & Hpgs). exists (g ++ gs). rewrite Hg. cbn. rewrite Hgs. cbn.
    split; [done|]. intros st Hst. eapply placed_app; [by apply Hpg|exact Hpgs].
Qed.
Lemma range_sound body X tenv env kt vars Y l :
  sound_nodes body → check_nodes X (bind_ty vars kt tenv) kt.2 body = Some Y → Y ⊆ X → env_typed tenv env →
  Forall (λ kd, typed kt.1 kd.1 ∧ typed kt.2 kd.2) l →
  ∃ gs, mapR (λ kd, exec_nodes (bind vars kd env) kd.2 body) l = Ok gs ∧ ∀ st, st ∈ X → placed st (concat gs) X.
Proof.
  intros Hb Hc Hsub Henv. induction 1 as [|kd l Hkd _ IH]; cbn [mapR].
  - exists []. split; [done|]. intros st. apply placed_nil.
  - destruct (Hb _ _ _ _ _ _ Hc (bind_sound vars kt kd _ _ Henv Hkd) (proj2 Hkd)) as (g & Hg & Hpg).
    destruct IH as (gs & Hgs & Hpgs). exists (g :: gs). rewrite Hg. cbn [mbind result_bind]. rewrite Hgs. split; [done|].
    intros st Hst. cbn [concat]. eapply placed_app; [by apply Hpg|]. intros st' Hst'. by apply Hpgs, Hsub.
Qed.

(** A node that the checker accepts is executed on data of its type, and its parts are in their
    places. *)
Lemma node_sound n : sound_node n.
Proof.
  induction n as [s|p f|vars p body IH|p th el IHt IHe] using node_nested_ind; intros X tenv env tdot dot Y Hc Henv Hdot.
  - injection Hc as <-. exists [Own s]. split; [done|]. intros st Hst. apply placed_one. intros _. split; [done|].
    apply elem_of_remove_dups. by apply (list_elem_of_fmap_2 (λ st, py_scan st s)).
  - apply bind_Some in Hc as (t & Ht & Hc). destruct (pipe_sound _ _ _ _ _ _ Henv Hdot Ht) as (d & Hd & Htd).
    cbn [exec_node]. rewrite Hd. cbn [mbind result_bind]. destruct X as [|x X]; [done|].
    destruct (at_all_Some _ _ _ Hc x ltac:(by left)) as (Z0 & HZ0 & _). destruct f as [f|].
    + destruct (call_sound f t d Htd) as (s & -> & Hs); [by eexists _, _|]. eexists. split; [reflexivity|].
      by apply (all_placed _ _ _ _ Hc Hs).
    + destruct (print_sound t d Htd) as (g & -> & Hs); [by eexists _, _|]. eexists. split; [reflexivity|].
      by apply (all_placed _ _ _ _ Hc Hs).
  - apply bind_Some in Hc as (t & Ht & (kt & Hkt & (Z & HZ & Hc)%bind_Some)%bind_Some).
    case_bool_decide as Hsub; [|done]. injection Hc as <-.
    destruct (pipe_sound _ _ _ _ _ _ Henv Hdot Ht) as (d & Hd & Htd).
    destruct (elements_sound _ _ _ Htd Hkt) as (l & Hl & Hall).
    destruct (range_sound body _ _ _ _ _ _ _ (nodes_sound _ IH) HZ Hsub Henv Hall) as (gs & Hgs & Hp).
    exists (concat gs). split; [|exact Hp]. change (exec_node env dot (NRange vars p body)) with
      (d ← pipe_value env dot p; l ← elements d; gs ← mapR (λ kd, exec_nodes (bind vars kd env) kd.2 body) l; Ok (concat gs)).
    rewrite Hd. cbn [mbind result_bind]. rewrite Hl. cbn [mbind result_bind]. by rewrite Hgs.
  - apply bind_Some in Hc as (t & Ht & (Y1 & HY1 & (Y2 & HY2 & [= <-])%bind_Some)%bind_Some).
    destruct (pipe_sound _ _ _ _ _ _ Henv Hdot Ht) as (d & Hd & Htd).
    change (exec_node env dot (NIf p th el)) with
      (d ← pipe_value env dot p; if truthy d then exec_nodes env dot th else exec_nodes env dot el).
    rewrite Hd. cbn [mbind result_bind].
    destruct (nodes_sound _ IHt _ _ _ _ _ _ HY1 Henv Hdot) as (g1 & Hg1 & Hp1).
    destruct (nodes_sound _ IHe _ _ _ _ _ _ HY2 Henv Hdot) as (g2 & Hg2 & Hp2).
    destruct (truthy d); [exists g1|exists g2]; (split; [done|]); intros st Hst; (eapply placed_weaken; [|by auto]);
      intros y Hy; apply elem_of_remove_dups, elem_of_app; auto.
Qed.

(** A template that is accepted prints a program for all data of its type.  If the texts have to
    be safe, every part of the program fits in its place, and the program ends in the code. *)
Lemma template_sound s t d : check_template s t = true → typed t d →
  ∃ gs, segments_of s d = Ok gs ∧ (strict = true → all_fit PCode gs = true ∧ py_scan PCode (program_of gs) = PCode).
Proof.
  unfold check_template, segments_of. destruct (Parse_template s) as [nodes| | |]; try done.
  destruct (check_nodes [PCode] [] t nodes) as [Y|] eqn:Hc; [|done]. intros Hsub%bool_decide_eq_true Hd.
  destruct (nodes_sound nodes (proj2 (Forall_forall _ _) (λ n _, node_sound n)) _ _ [] _ d _ Hc ltac:(constructor) Hd) as (gs & Hgs & Hp).
  exists gs. split; [exact Hgs|]. intros Hs. destruct (Hp PCode ltac:(by left) Hs) as [Hf Hy]. split; [done|].
  by apply list_elem_of_singleton, Hsub.
Qed.
End soundness.
