(* ===== verification/Fillers.v ===== *)
(** * What the templates are filled with (go/codegen)

    Every generator fills a structure and executes a template on it.  [filler] has one
    constructor for each template that an executor uses, [data_of] is the structure as the
    package sees it, with the names of its fields, and [Execute] is the call of the template. *)

From S2P Require Import Prelude GoStrings GoFloat FeatureColumn Attribute Ir AttrInit XgbCode TfCode OptimizeCode Shell.
From S2P Require Import Template TemplateText TemplateTypes.

Local Open Scope Z_scope.

(** ** What the templates get *)

Record pai_loadModelFiller := mkLoadModelFiller { lm_OSSModelDir : string; lm_Estimator : string }.
Record pai_predictFiller := mkPaiPredictFiller {
  pp_OSSModelDir : string; pp_DataSource : string; pp_Select : string; pp_ResultTable : string;
  pp_ResultColumn : string; pp_PAITable : string; pp_Using : string; pp_PredParams : string
}.
Record pai_explainFiller := mkPaiExplainFiller {
  pe_OSSModelDir : string; pe_DataSource : string; pe_Select : string; pe_ResultTable : string; pe_IsPAI : bool;
  pe_PAITable : string; pe_ResultOSSDest : string; pe_ResultOSSAK : string; pe_ResultOSSSK : string;
  pe_ResultOSSEndpoint : string; pe_ResultOSSBucket : string
}.
Record pai_evaluateFiller := mkPaiEvaluateFiller {
  pv_OSSModelDir : string; pv_DataSource : string; pv_Select : string; pv_ResultTable : string; pv_IsPAI : bool;
  pv_PAITable : string; pv_ValidationMetrics : string
}.
Record xgbPredictFiller := mkXgbPredictFiller {
  xp_OSSModelDir : string; xp_DataSource : string; xp_PredSelect : string; xp_ResultTable : string;
  xp_ResultColumn : string; xp_HDFSNameNodeAddr : string; xp_HiveLocation : string; xp_HDFSUser : string;
  xp_HDFSPass : string; PAIPredictTable : string
}.
Record xgbExplainFiller := mkXgbExplainFiller {
  xe_OSSModelDir : string; xe_DataSource : string; xe_DatasetSQL : string; xe_ResultTable : string;
  xe_Explainer : string; xe_IsPAI : bool; xe_PAIExplainTable : string; xe_HDFSNameNodeAddr : string;
  xe_HiveLocation : string; xe_HDFSUser : string; xe_HDFSPass : string; xe_ResultOSSDest : string;
  xe_ResultOSSAK : string; xe_ResultOSSSK : string; xe_ResultOSSEndpoint : string; xe_ResultOSSBucket : string
}.
Record xgbEvaluateFiller := mkXgbEvaluateFiller {
  xv_OSSModelDir : string; xv_DataSource : string; xv_PredSelect : string; xv_ResultTable : string;
  xv_MetricNames : string; xv_HDFSNameNodeAddr : string; xv_HiveLocation : string; xv_HDFSUser : string;
  xv_HDFSPass : string; PAIEvaluateTable : string
}.
(** go/codegen/alps/template_train.go *)
Record alps_trainFiller := mkAlpsTrainFiller {
  at_DataSource : string; at_TrainSelect : string; at_ValidationSelect : string; at_Estimator : string;
  at_FieldDescs : gmap string (list FieldDesc); at_FeatureColumnCode : string; at_Y : FieldDesc;
  at_ModelParams : attrs; at_TrainParams : attrs; at_ValidationParams : attrs; at_Save : string;
  at_TmpTrainTable : string; at_TmpValidateTable : string
}.

Inductive filler :=
  | FXgbTrain (distributed : bool) (f : trainFiller) | FXgbPred (f : predFiller) | FXgbEval (f : evalFiller)
  | FXgbExplain (f : explainFiller)
  | FTfTrain (f : tf_trainFiller) | FTfPred (f : tf_predFiller) | FTfEval (f : tf_evaluateFiller)
  | FTfExplain (f : tf_explainFiller)
  | FPyomo (f : pyomoNativeOptimizeFiller) | FOptFlow (f : optFlowOptimizeFiller)
  | FRequirements (IsXGBoost : bool) | FPaiLoad (f : pai_loadModelFiller)
  | FPaiPredict (f : pai_predictFiller) | FPaiExplain (f : pai_explainFiller) | FPaiEvaluate (f : pai_evaluateFiller)
  | FPaiXgbPredict (f : xgbPredictFiller) | FPaiXgbExplain (f : xgbExplainFiller) | FPaiXgbEvaluate (f : xgbEvaluateFiller)
  | FAlpsTrain (f : alps_trainFiller).

(** ** The structures as data *)

Definition texts (l : list string) : data := DList (map text l).
Definition desc_data (d : FieldDesc) : data := DStruct
  [("Name", text (Name d)); ("DType", DField (DType d)); ("DTypeWeight", DField (DTypeWeight d)); ("Delimiter", text (Delimiter d));
   ("DelimiterKV", text (DelimiterKV d)); ("Format", text (Format d)); ("Shape", DAttr (VInts (Shape d)));
   ("IsSparse", truth (IsSparse d)); ("Vocabulary", map_of text (default ∅ (Vocabulary d))); ("MaxID", number (MaxID d))]%string.
Definition descs_data (l : list FieldDesc) : data := DList (map desc_data l).
Definition expr_data (e : OptimizeExpr) : data := DStruct
  [("ExpressionTokens", texts (ExpressionTokens e)); ("GroupBy", text (oe_GroupBy e))]%string.

Definition xgb_train_data (f : trainFiller) : data := DStruct
  [("OSSModelDirToSave", text (OSSModelDirToSave f)); ("OSSModelDirToLoad", text (OSSModelDirToLoad f));
   ("DataSource", text (DataSource f)); ("TrainSelect", text (TrainSelect f));
   ("ValidationSelect", text (tf_ValidationSelect f)); ("ModelParamsJSON", text (ModelParamsJSON f));
   ("TrainParamsJSON", text (TrainParamsJSON f)); ("FieldDescJSON", text (FieldDescJSON f));
   ("FeatureColumnNames", texts (FeatureColumnNames f)); ("LabelJSON", text (LabelJSON f));
   ("FeatureColumnCode", DCode (FeatureColumnCode f)); ("DiskCache", truth (DiskCache f));
   ("BatchSize", number (BatchSize f)); ("Epoch", number (Epoch f));
   ("LoadPreTrainedModel", truth (LoadPreTrainedModel f)); ("IsPAI", truth (tf_IsPAI f));
   ("PAITrainTable", text (PAITrainTable f)); ("PAIValidateTable", text (PAIValidateTable f));
   ("ModelRepoImage", text (ModelRepoImage f)); ("OriginalSQL", text (tf_OriginalSQL f))]%string.
Definition xgb_pred_data (f : predFiller) : data := DStruct
  [("DataSource", text (pf_DataSource f)); ("PredSelect", text (pf_PredSelect f));
   ("FeatureMetaJSON", text (pf_FeatureMetaJSON f)); ("TrainLabelMetaJSON", text (TrainLabelMetaJSON f));
   ("PredLabelMetaJSON", text (PredLabelMetaJSON f)); ("FeatureColumnNames", texts (pf_FeatureColumnNames f));
   ("FeatureColumnCode", DCode (pf_FeatureColumnCode f)); ("ResultTable", text (pf_ResultTable f));
   ("HDFSNameNodeAddr", text (pf_HDFSNameNodeAddr f)); ("HiveLocation", text (pf_HiveLocation f));
   ("HDFSUser", text (pf_HDFSUser f)); ("HDFSPass", text (pf_HDFSPass f)); ("IsPAI", truth (pf_IsPAI f));
   ("PAITable", text (pf_PAITable f))]%string.
Definition xgb_eval_data (f : evalFiller) : data := DStruct
  [("DataSource", text (ef_DataSource f)); ("PredSelect", text (ef_PredSelect f));
   ("FeatureMetaJSON", text (ef_FeatureMetaJSON f)); ("LabelMetaJSON", text (LabelMetaJSON f));
   ("FeatureColumnNames", texts (ef_FeatureColumnNames f)); ("FeatureColumnCode", DCode (ef_FeatureColumnCode f));
   ("MetricNames", text (MetricNames f)); ("ResultTable", text (ef_ResultTable f));
   ("HDFSNameNodeAddr", text (ef_HDFSNameNodeAddr f)); ("HiveLocation", text (ef_HiveLocation f));
   ("HDFSUser", text (ef_HDFSUser f)); ("HDFSPass", text (ef_HDFSPass f)); ("IsPAI", truth (ef_IsPAI f));
   ("PAITable", text (ef_PAITable f))]%string.
Definition xgb_explain_data (f : explainFiller) : data := DStruct
  [("DataSource", text (xf_DataSource f)); ("DatasetSQL", text (DatasetSQL f));
   ("ShapSummaryParams", text (ShapSummaryParams f)); ("Explainer", text (xf_Explainer f));
   ("FeatureFieldMetaJSON", text (FeatureFieldMetaJSON f)); ("FeatureColumnNames", texts (xf_FeatureColumnNames f));
   ("FeatureColumnCode", DCode (xf_FeatureColumnCode f)); ("LabelJSON", text (xf_LabelJSON f));
   ("ResultTable", text (xf_ResultTable f)); ("IsPAI", truth (xf_IsPAI f));
   ("PAIExplainTable", text (PAIExplainTable f))]%string.
Definition tf_train_data (f : tf_trainFiller) : data := DStruct
  [("DataSource", text (tt_DataSource f)); ("TrainSelect", text (tt_TrainSelect f));
   ("ValidationSelect", text (tt_ValidationSelect f)); ("Estimator", text (tt_Estimator f));
   ("FieldDescs", map_of descs_data (tt_FieldDescs f)); ("FeatureColumnCode", DCode (tt_FeatureColumnCode f));
   ("Y", desc_data (tt_Y f)); ("ModelParams", map_of DAttr (tt_ModelParams f));
   ("TrainParams", map_of DAttr (tt_TrainParams f)); ("ValidationParams", map_of DAttr (tt_ValidationParams f));
   ("Save", text (tt_Save f)); ("OSSModelDirToLoad", text "");
   ("LoadPreTrainedModel", truth (tt_LoadPreTrainedModel f)); ("IsPAI", truth (tt_IsPAI f));
   ("PAITrainTable", text (tt_PAITrainTable f)); ("PAIValidateTable", text (tt_PAIValidateTable f));
   ("ModelRepoImage", text (tt_ModelRepoImage f)); ("OriginalSQL", text (tt_OriginalSQL f))]%string.
Definition tf_pred_data (f : tf_predFiller) : data := DStruct
  [("DataSource", text (tp_DataSource f)); ("Select", text (tp_Select f)); ("ResultTable", text (tp_ResultTable f));
   ("Estimator", text (tp_Estimator f)); ("FieldDescs", map_of descs_data (tp_FieldDescs f));
   ("FeatureColumnCode", DCode (tp_FeatureColumnCode f)); ("TrainLabelMeta", desc_data (TrainLabelMeta f));
   ("PredLabelMeta", desc_data (PredLabelMeta f)); ("ModelParams", map_of DAttr (tp_ModelParams f));
   ("PredParams", map_of DAttr (PredParams f)); ("Save", text (tp_Save f));
   ("HDFSNameNodeAddr", text (tp_HDFSNameNodeAddr f)); ("HiveLocation", text (tp_HiveLocation f));
   ("HDFSUser", text (tp_HDFSUser f)); ("HDFSPass", text (tp_HDFSPass f))]%string.
Definition tf_explain_data (f : tf_explainFiller) : data := DStruct
  [("DataSource", text (tx_DataSource f)); ("Select", text (tx_Select f)); ("SummaryParams", text (SummaryParams f));
   ("EstimatorClass", text (EstimatorClass f)); ("FieldDescs", map_of descs_data (tx_FieldDescs f));
   ("FeatureColumnCode", DCode (tx_FeatureColumnCode f)); ("Y", desc_data (tx_Y f));
   ("ModelParams", map_of DAttr (tx_ModelParams f)); ("Save", text (tx_Save f));
   ("ResultTable", text (tx_ResultTable f)); ("HDFSNameNodeAddr", text (tx_HDFSNameNodeAddr f));
   ("HiveLocation", text (tx_HiveLocation f)); ("HDFSUser", text (tx_HDFSUser f)); ("HDFSPass", text (tx_HDFSPass f))]%string.
Definition tf_eval_data (f : tf_evaluateFiller) : data := DStruct
  [("DataSource", text (te_DataSource f)); ("Select", text (te_Select f)); ("ResultTable", text (te_ResultTable f));
   ("Estimator", text (te_Estimator f)); ("FieldDescs", map_of descs_data (te_FieldDescs f));
   ("FeatureColumnCode", DCode (te_FeatureColumnCode f)); ("Y", desc_data (te_Y f));
   ("ModelParams", map_of DAttr (te_ModelParams f)); ("ValidationParams", map_of DAttr (te_ValidationParams f));
   ("Save", text (te_Save f)); ("HDFSNameNodeAddr", text (te_HDFSNameNodeAddr f));
   ("HiveLocation", text (te_HiveLocation f)); ("HDFSUser", text (te_HDFSUser f)); ("HDFSPass", text (te_HDFSPass f))]%string.
Definition pyomo_data (f : pyomoNativeOptimizeFiller) : data := DStruct
  [("DataSource", text (py_DataSource f)); ("Select", text (py_Select f)); ("Variables", texts (py_Variables f));
   ("ResultValueName", text (py_ResultValueName f)); ("VariableType", text (py_VariableType f));
   ("Objective", expr_data (py_Objective f)); ("Direction", text (py_Direction f));
   ("Constraints", DList (map expr_data (py_Constraints f))); ("Solver", text (py_Solver f));
   ("AttributeJSON", text (py_AttributeJSON f)); ("ResultTable", text (py_ResultTable f))]%string.
Definition optflow_data (f : optFlowOptimizeFiller) : data := DStruct
  [("UserID", text (UserID f)); ("ColumnNames", texts (ColumnNames f)); ("Variables", texts (of_Variables f));
   ("ResultValueName", text (of_ResultValueName f)); ("VariableType", text (of_VariableType f));
   ("Objective", expr_data (of_Objective f)); ("Direction", text (of_Direction f));
   ("Constraints", DList (map expr_data (of_Constraints f))); ("Solver", text (of_Solver f));
   ("AttributeJSON", text (of_AttributeJSON f)); ("TrainTable", text (TrainTable f));
   ("ResultTable", text (of_ResultTable f))]%string.
Definition pai_load_data (f : pai_loadModelFiller) : data := DStruct
  [("OSSModelDir", text (lm_OSSModelDir f)); ("Estimator", text (lm_Estimator f))]%string.
Definition pai_predict_data (f : pai_predictFiller) : data := DStruct
  [("OSSModelDir", text (pp_OSSModelDir f)); ("DataSource", text (pp_DataSource f)); ("Select", text (pp_Select f));
   ("ResultTable", text (pp_ResultTable f)); ("ResultColumn", text (pp_ResultColumn f));
   ("PAITable", text (pp_PAITable f)); ("Using", text (pp_Using f)); ("PredParams", text (pp_PredParams f))]%string.
Definition pai_explain_data (f : pai_explainFiller) : data := DStruct
  [("OSSModelDir", text (pe_OSSModelDir f)); ("DataSource", text (pe_DataSource f)); ("Select", text (pe_Select f));
   ("ResultTable", text (pe_ResultTable f)); ("IsPAI", truth (pe_IsPAI f)); ("PAITable", text (pe_PAITable f));
   ("ResultOSSDest", text (pe_ResultOSSDest f)); ("ResultOSSAK", text (pe_ResultOSSAK f));
   ("ResultOSSSK", text (pe_ResultOSSSK f)); ("ResultOSSEndpoint", text (pe_ResultOSSEndpoint f));
   ("ResultOSSBucket", text (pe_ResultOSSBucket f))]%string.
Definition pai_evaluate_data (f : pai_evaluateFiller) : data := DStruct
  [("OSSModelDir", text (pv_OSSModelDir f)); ("DataSource", text (pv_DataSource f)); ("Select", text (pv_Select f));
   ("ResultTable", text (pv_ResultTable f)); ("IsPAI", truth (pv_IsPAI f)); ("PAITable", text (pv_PAITable f));
   ("ValidationMetrics", text (pv_ValidationMetrics f))]%string.
Definition pai_xgb_predict_data (f : xgbPredictFiller) : data := DStruct
  [("OSSModelDir", text (xp_OSSModelDir f)); ("DataSource", text (xp_DataSource f));
   ("PredSelect", text (xp_PredSelect f)); ("ResultTable", text (xp_ResultTable f));
   ("ResultColumn", text (xp_ResultColumn f)); ("HDFSNameNodeAddr", text (xp_HDFSNameNodeAddr f));
   ("HiveLocation", text (xp_HiveLocation f)); ("HDFSUser", text (xp_HDFSUser f)); ("HDFSPass", text (xp_HDFSPass f));
   ("PAIPredictTable", text (PAIPredictTable f))]%string.
Definition pai_xgb_explain_data (f : xgbExplainFiller) : data := DStruct
  [("OSSModelDir", text (xe_OSSModelDir f)); ("DataSource", text (xe_DataSource f));
   ("DatasetSQL", text (xe_DatasetSQL f)); ("ResultTable", text (xe_ResultTable f));
   ("Explainer", text (xe_Explainer f)); ("IsPAI", truth (xe_IsPAI f));
   ("PAIExplainTable", text (xe_PAIExplainTable f)); ("HDFSNameNodeAddr", text (xe_HDFSNameNodeAddr f));
   ("HiveLocation", text (xe_HiveLocation f)); ("HDFSUser", text (xe_HDFSUser f)); ("HDFSPass", text (xe_HDFSPass f));
   ("ResultOSSDest", text (xe_ResultOSSDest f)); ("ResultOSSAK", text (xe_ResultOSSAK f));
   ("ResultOSSSK", text (xe_ResultOSSSK f)); ("ResultOSSEndpoint", text (xe_ResultOSSEndpoint f));
   ("ResultOSSBucket", text (xe_ResultOSSBucket f))]%string.
Definition pai_xgb_evaluate_data (f : xgbEvaluateFiller) : data := DStruct
  [("OSSModelDir", text (xv_OSSModelDir f)); ("DataSource", text (xv_DataSource f));
   ("PredSelect", text (xv_PredSelect f)); ("ResultTable", text (xv_ResultTable f));
   ("MetricNames", text (xv_MetricNames f)); ("HDFSNameNodeAddr", text (xv_HDFSNameNodeAddr f));
   ("HiveLocation", text (xv_HiveLocation f)); ("HDFSUser", text (xv_HDFSUser f)); ("HDFSPass", text (xv_HDFSPass f));
   ("PAIEvaluateTable", text (PAIEvaluateTable f))]%string.
Definition alps_train_data (f : alps_trainFiller) : data := DStruct
  [("DataSource", text (at_DataSource f)); ("TrainSelect", text (at_TrainSelect f));
   ("ValidationSelect", text (at_ValidationSelect f)); ("Estimator", text (at_Estimator f));
   ("FieldDescs", map_of descs_data (at_FieldDescs f)); ("FeatureColumnCode", DCode (at_FeatureColumnCode f));
   ("Y", desc_data (at_Y f)); ("ModelParams", map_of DAttr (at_ModelParams f));
   ("TrainParams", map_of DAttr (at_TrainParams f)); ("ValidationParams", map_of DAttr (at_ValidationParams f));
   ("Save", text (at_Save f)); ("TmpTrainTable", text (at_TmpTrainTable f));
   ("TmpValidateTable", text (at_TmpValidateTable f))]%string.
Definition requirements_data (IsXGBoost : bool) : data := DStruct [("IsXGBoost", truth IsXGBoost)]%string.

Definition data_of (f : filler) : data :=
  match f with
  | FXgbTrain _ f => xgb_train_data f
  | FXgbPred f => xgb_pred_data f
  | FXgbEval f => xgb_eval_data f
  | FXgbExplain f => xgb_explain_data f
  | FTfTrain f => tf_train_data f
  | FTfPred f => tf_pred_data f
  | FTfExplain f => tf_explain_data f
  | FTfEval f => tf_eval_data f
  | FPyomo f => pyomo_data f
  | FOptFlow f => optflow_data f
  | FPaiLoad f => pai_load_data f
  | FPaiPredict f => pai_predict_data f
  | FPaiExplain f => pai_explain_data f
  | FPaiEvaluate f => pai_evaluate_data f
  | FPaiXgbPredict f => pai_xgb_predict_data f
  | FPaiXgbExplain f => pai_xgb_explain_data f
  | FPaiXgbEvaluate f => pai_xgb_evaluate_data f
  | FAlpsTrain f => alps_train_data f
  | FRequirements x => requirements_data x
  end.
Definition template_of (f : filler) : string :=
  match f with
  | FXgbTrain d _ => if (d : bool) then distTrainTemplateText else trainTemplateText
  | FXgbPred _ => predTemplateText
  | FXgbEval _ => evalTemplateText
  | FXgbExplain _ => explainTemplateText
  | FTfTrain _ => tfTrainTemplateText
  | FTfPred _ => tfPredTemplateText
  | FTfExplain _ => boostedTreesExplainTemplateText
  | FTfEval _ => tfEvaluateTemplateText
  | FPyomo _ => pyomoNativeOptimizeText
  | FOptFlow _ => optFlowOptimizeText
  | FPaiLoad _ => tfLoadModelTmplText
  | FPaiPredict _ => tfPredictTmplText
  | FPaiExplain _ => tfExplainTmplText
  | FPaiEvaluate _ => tfEvaluateTmplText
  | FPaiXgbPredict _ => xgbPredTemplateText
  | FPaiXgbExplain _ => xgbExplainTemplateText
  | FPaiXgbEvaluate _ => xgbEvalTemplateText
  | FAlpsTrain _ => templateTrain
  | FRequirements _ => paiRequirementsTmplText
  end.
(** [tmpl.Execute(&program, filler)] with the template that belongs to the filler. *)
Definition Execute `{ColumnText} (f : filler) : result string := execute (template_of f) (data_of f).

(** ** Their types *)

Definition desc_ty : ty := TStruct
  [("Name", TName); ("DType", TField); ("DTypeWeight", TField); ("Delimiter", TName); ("DelimiterKV", TName); ("Format", TName);
   ("Shape", TInts); ("IsSparse", TPlain); ("Vocabulary", TMap TName); ("MaxID", TPlain)]%string.
Definition expr_ty : ty := TStruct [("ExpressionTokens", TList TLong); ("GroupBy", TLong)]%string.
Definition ty_of (f : filler) : ty :=
  match f with
  | FXgbTrain _ _ => TStruct
    [("OSSModelDirToSave", TName); ("OSSModelDirToLoad", TName); ("DataSource", TName); ("TrainSelect", TLong);
     ("ValidationSelect", TLong); ("ModelParamsJSON", TLong); ("TrainParamsJSON", TLong); ("FieldDescJSON", TLong);
     ("FeatureColumnNames", TList TName); ("LabelJSON", TLong); ("FeatureColumnCode", TCode); ("DiskCache", TPlain);
     ("BatchSize", TPlain); ("Epoch", TPlain); ("LoadPreTrainedModel", TPlain); ("IsPAI", TPlain);
     ("PAITrainTable", TName); ("PAIValidateTable", TName); ("ModelRepoImage", TName); ("OriginalSQL", TLong)]%string
  | FXgbPred _ => TStruct
    [("DataSource", TName); ("PredSelect", TLong); ("FeatureMetaJSON", TLong); ("TrainLabelMetaJSON", TLong);
     ("PredLabelMetaJSON", TLong); ("FeatureColumnNames", TList TName); ("FeatureColumnCode", TCode);
     ("ResultTable", TName); ("HDFSNameNodeAddr", TName); ("HiveLocation", TName); ("HDFSUser", TName);
     ("HDFSPass", TName); ("IsPAI", TPlain); ("PAITable", TName)]%string
  | FXgbEval _ => TStruct
    [("DataSource", TName); ("PredSelect", TLong); ("FeatureMetaJSON", TLong); ("LabelMetaJSON", TLong);
     ("FeatureColumnNames", TList TName); ("FeatureColumnCode", TCode); ("MetricNames", TName);
     ("ResultTable", TName); ("HDFSNameNodeAddr", TName); ("HiveLocation", TName); ("HDFSUser", TName);
     ("HDFSPass", TName); ("IsPAI", TPlain); ("PAITable", TName)]%string
  | FXgbExplain _ => TStruct
    [("DataSource", TName); ("DatasetSQL", TLong); ("ShapSummaryParams", TLong); ("Explainer", TName);
     ("FeatureFieldMetaJSON", TLong); ("FeatureColumnNames", TList TName); ("FeatureColumnCode", TCode);
     ("LabelJSON", TLong); ("ResultTable", TName); ("IsPAI", TPlain); ("PAIExplainTable", TName)]%string
  | FTfTrain _ => TStruct
    [("DataSource", TName); ("TrainSelect", TLong); ("ValidationSelect", TLong); ("Estimator", TName);
     ("FieldDescs", TMap (TList desc_ty)); ("FeatureColumnCode", TCode); ("Y", desc_ty); ("ModelParams", TMap TParam);
     ("TrainParams", TMap TParam); ("ValidationParams", TMap TParam); ("Save", TName); ("OSSModelDirToLoad", TName);
     ("LoadPreTrainedModel", TPlain); ("IsPAI", TPlain); ("PAITrainTable", TName); ("PAIValidateTable", TName);
     ("ModelRepoImage", TName); ("OriginalSQL", TLong)]%string
  | FTfPred _ => TStruct
    [("DataSource", TName); ("Select", TLong); ("ResultTable", TName); ("Estimator", TName);
     ("FieldDescs", TMap (TList desc_ty)); ("FeatureColumnCode", TCode); ("TrainLabelMeta", desc_ty);
     ("PredLabelMeta", desc_ty); ("ModelParams", TMap TParam); ("PredParams", TMap TParam); ("Save", TName);
     ("HDFSNameNodeAddr", TName); ("HiveLocation", TName); ("HDFSUser", TName); ("HDFSPass", TName)]%string
  | FTfExplain _ => TStruct
    [("DataSource", TName); ("Select", TLong); ("SummaryParams", TLong); ("EstimatorClass", TName);
     ("FieldDescs", TMap (TList desc_ty)); ("FeatureColumnCode", TCode); ("Y", desc_ty); ("ModelParams", TMap TParam);
     ("Save", TName); ("ResultTable", TName); ("HDFSNameNodeAddr", TName); ("HiveLocation", TName);
     ("HDFSUser", TName); ("HDFSPass", TName)]%string
  | FTfEval _ => TStruct
    [("DataSource", TName); ("Select", TLong); ("ResultTable", TName); ("Estimator", TName);
     ("FieldDescs", TMap (TList desc_ty)); ("FeatureColumnCode", TCode); ("Y", desc_ty); ("ModelParams", TMap TParam);
     ("ValidationParams", TMap TParam); ("Save", TName); ("HDFSNameNodeAddr", TName); ("HiveLocation", TName);
     ("HDFSUser", TName); ("HDFSPass", TName)]%string
  | FPyomo _ => TStruct
    [("DataSource", TName); ("Select", TLong); ("Variables", TList TLong); ("ResultValueName", TName);
     ("VariableType", TName); ("Objective", expr_ty); ("Direction", TName); ("Constraints", TList expr_ty);
     ("Solver", TName); ("AttributeJSON", TLong); ("ResultTable", TName)]%string
  | FOptFlow _ => TStruct
    [("UserID", TName); ("ColumnNames", TList TLong); ("Variables", TList TLong); ("ResultValueName", TName);
     ("VariableType", TName); ("Objective", expr_ty); ("Direction", TName); ("Constraints", TList expr_ty);
     ("Solver", TName); ("AttributeJSON", TLong); ("TrainTable", TName); ("ResultTable", TName)]%string
  | FPaiLoad _ => TStruct
    [("OSSModelDir", TName); ("Estimator", TName)]%string
  | FPaiPredict _ => TStruct
    [("OSSModelDir", TName); ("DataSource", TName); ("Select", TLong); ("ResultTable", TName);
     ("ResultColumn", TName); ("PAITable", TName); ("Using", TName); ("PredParams", TLong)]%string
  | FPaiExplain _ => TStruct
    [("OSSModelDir", TName); ("DataSource", TName); ("Select", TLong); ("ResultTable", TName); ("IsPAI", TPlain);
     ("PAITable", TName); ("ResultOSSDest", TName); ("ResultOSSAK", TName); ("ResultOSSSK", TName);
     ("ResultOSSEndpoint", TName); ("ResultOSSBucket", TName)]%string
  | FPaiEvaluate _ => TStruct
    [("OSSModelDir", TName); ("DataSource", TName); ("Select", TLong); ("ResultTable", TName); ("IsPAI", TPlain);
     ("PAITable", TName); ("ValidationMetrics", TName)]%string
  | FPaiXgbPredict _ => TStruct
    [("OSSModelDir", TName); ("DataSource", TName); ("PredSelect", TLong); ("ResultTable", TName);
     ("ResultColumn", TName); ("HDFSNameNodeAddr", TName); ("HiveLocation", TName); ("HDFSUser", TName);
     ("HDFSPass", TName); ("PAIPredictTable", TName)]%string
  | FPaiXgbExplain _ => TStruct
    [("OSSModelDir", TName); ("DataSource", TName); ("DatasetSQL", TLong); ("ResultTable", TName);
     ("Explainer", TName); ("IsPAI", TPlain); ("PAIExplainTable", TName); ("HDFSNameNodeAddr", TName);
     ("HiveLocation", TName); ("HDFSUser", TName); ("HDFSPass", TName); ("ResultOSSDest", TName);
     ("ResultOSSAK", TName); ("ResultOSSSK", TName); ("ResultOSSEndpoint", TName); ("ResultOSSBucket", TName)]%string
  | FPaiXgbEvaluate _ => TStruct
    [("OSSModelDir", TName); ("DataSource", TName); ("PredSelect", TLong); ("ResultTable", TName);
     ("MetricNames", TName); ("HDFSNameNodeAddr", TName); ("HiveLocation", TName); ("HDFSUser", TName);
     ("HDFSPass", TName); ("PAIEvaluateTable", TName)]%string
  | FAlpsTrain _ => TStruct
    [("DataSource", TName); ("TrainSelect", TLong); ("ValidationSelect", TLong); ("Estimator", TBare);
     ("FieldDescs", TMap (TList desc_ty)); ("FeatureColumnCode", TCode); ("Y", desc_ty); ("ModelParams", TMap TParam);
     ("TrainParams", TMap TParam); ("ValidationParams", TMap TParam); ("Save", TName); ("TmpTrainTable", TName);
     ("TmpValidateTable", TName)]%string
  | FRequirements _ => TStruct [("IsXGBoost", TPlain)]%string
  end.

Lemma templates_checked (f : filler) : check_template (template_of f) (ty_of f) = true.
Proof. destruct f as [[]| | | | | | | | | | | | | | | | | |]; vm_compute; reflexivity. Qed.

(** ** Every filler prints *)

Section typed_data.
Context `{ColumnText}.

Lemma typed_map_of {A} strict t (g : A → data) (m : gmap string A) :
  (∀ k x, m !! k = Some x → when_strict strict (name_safe k) ∧ typed strict t (g x)) → typed strict (TMap t) (map_of g m).
Proof.
  intros Hm. apply Forall_map, Forall_forall. intros k Hk. apply elem_of_sorted_keys in Hk as [x Hx]. cbn. rewrite Hx. by apply Hm.
Qed.
Lemma typed_false_texts l : typed false (TList TName) (texts l) ∧ typed false (TList TLong) (texts l).
Proof. split; apply Forall_map, Forall_true; by intros s. Qed.
Lemma typed_false_desc d : typed false desc_ty (desc_data d).
Proof. repeat split; try done. by apply typed_map_of. Qed.
Lemma typed_false_descs (m : gmap string (list FieldDesc)) : typed false (TMap (TList desc_ty)) (map_of descs_data m).
Proof. apply typed_map_of. intros k l _. split; [done|]. apply Forall_map, Forall_true. apply typed_false_desc. Qed.
Lemma typed_false_expr e : typed false expr_ty (expr_data e).
Proof. repeat split; try done. apply typed_false_texts. Qed.
Lemma typed_false_exprs l : typed false (TList expr_ty) (DList (map expr_data l)).
Proof. apply Forall_map, Forall_true. apply typed_false_expr. Qed.
Lemma typed_false_params (m : attrs) :
  (∀ k a, m !! k = Some a → ∃ s, AttrToPythonValue a = Ok s) → typed false (TMap TParam) (map_of DAttr m).
Proof.
  intros Hm. apply typed_map_of. intros k a Ha. split; [done|]. split.
  - destruct (Hm k a Ha) as [s Hs]. by exists s.
  - by destruct a; eexists.
Qed.

(** The maps of attributes that a template prints as Python. *)
Definition params_of (f : filler) : list attrs :=
  match f with
  | FTfTrain f => [tt_ModelParams f; tt_TrainParams f; tt_ValidationParams f]
  | FTfPred f => [tp_ModelParams f; PredParams f]
  | FTfEval f => [te_ModelParams f; te_ValidationParams f]
  | FTfExplain f => [tx_ModelParams f]
  | FAlpsTrain f => [at_ModelParams f; at_TrainParams f; at_ValidationParams f]
  | _ => []
  end.
Lemma typed_false_filler f :
  (∀ m k a, m ∈ params_of f → m !! k = Some a → ∃ s, AttrToPythonValue a = Ok s) → typed false (ty_of f) (data_of f).
Proof.
  intros Hp. destruct f; cbn [params_of] in Hp; repeat split; try done;
    first [apply typed_false_texts|apply typed_false_descs|apply typed_false_desc|apply typed_false_expr|apply typed_false_exprs
          |apply typed_false_params; intros k a; apply Hp; set_solver].
Qed.

(** C18: every template prints a program for every structure that its generator fills in: no action
    names a field or a variable that is not there, or takes a value of another type, whichever
    template it is and however the parts nest.  What can fail is only the value of an attribute
    that has no text in Python. *)
Theorem templates_print (f : filler) :
  (∀ m k a, m ∈ params_of f → m !! k = Some a → ∃ s, AttrToPythonValue a = Ok s) → ∃ program, Execute f = Ok program.
Proof.
  intros Hp. destruct (template_sound false _ _ _ (templates_checked f) (typed_false_filler f Hp)) as (gs & Hgs & _).
  exists (program_of gs). unfold Execute, execute. by rewrite Hgs.
Qed.

(** C19: in the program that is printed from any template but that of ALPS, every text of the
    statement is in a string of Python, from the first character to the last, and the strings
    and the comments of the template are as they were written, if the texts are safe: names
    without quotation marks, backslashes and line ends, and statements without a backslash that
    would not end the string that they are in.  The code of columns and the values of attributes
    stand in the code and leave no string open.  The data of the ALPS template is never safe: it
    prints the estimator of the TO TRAIN clause into the code. *)
Theorem texts_stay_in_strings (f : filler) :
  safe_data (ty_of f) (data_of f) = true →
  (∀ g, f ≠ FAlpsTrain g) ∧ ∃ parts, segments_of (template_of f) (data_of f) = Ok parts ∧ Execute f = Ok (program_of parts) ∧
    all_fit PCode parts = true ∧ py_scan PCode (program_of parts) = PCode.
Proof.
  intros Hsafe. split.
  { intros g ->. revert Hsafe. cbn [data_of ty_of alps_train_data safe_data]. unfold text. cbn [safe_data]. by rewrite !andb_false_r. }
  apply safe_typed in Hsafe as Hf. destruct (template_sound true _ _ _ (templates_checked f) Hf) as (gs & Hgs & Hs). exists gs.
  unfold Execute, execute. rewrite Hgs. destruct (Hs eq_refl) as [? ?]. by split_and!.
Qed.
End typed_data.

(** ** Programs *)

Definition demo_field : FieldDesc := newFieldDesc "petal_length" Float (Some [1]).
(** An evaluation whose statement has both kinds of quotation marks. *)
Definition demo_eval (validation : attrs) : tf_evaluateFiller :=
  mkTfEvaluateFiller "mysql://iris" ("SELECT * FROM iris WHERE " +:+ dq +:+ "class" +:+ dq +:+ " = 'a' LIMIT 10") "iris.result" "DNNClassifier"
    {[ "feature_columns"%string := [demo_field] ]} "{'feature_columns': []}" (newFieldDesc "class" Int (Some [1]))
    {[ "n_classes"%string := VInt 3; "hidden_units"%string := VInts (Some [10; 20]) ]} validation "model_save" "" "" "" "".
Definition demo_filler : filler := FTfEval (demo_eval {[ "metrics"%string := VString "Accuracy" ]}).

Lemma templates_print_witness : ∃ program, Execute demo_filler = Ok program.
Proof.
  apply (templates_print demo_filler). intros m k a Hm Ha.
  apply list_elem_of_In in Hm as [<-|[<-|[]]]; cbn in Ha;
    repeat (apply lookup_insert_Some in Ha as [[<- <-]|[_ Ha]]; [eexists; reflexivity|]);
    apply lookup_singleton_Some in Ha as [<- <-]; eexists; reflexivity.
Defined.
Lemma texts_stay_in_strings_witness :
  (∀ g, demo_filler ≠ FAlpsTrain g) ∧
  ∃ parts, segments_of (template_of demo_filler) (data_of demo_filler) = Ok parts ∧ Execute demo_filler = Ok (program_of parts) ∧
    all_fit PCode parts = true ∧ py_scan PCode (program_of parts) = PCode.
Proof.
  apply (texts_stay_in_strings demo_filler). vm_compute. reflexivity.
Defined.

(** The estimator of ALPS stands in the code, whatever it is. *)
Definition demo_alps (estimator : string) : filler := FAlpsTrain (mkAlpsTrainFiller "" "" "" estimator ∅ "" demo_field ∅ ∅ ∅ "" "" "").
Example alps_estimator_bare :
  match segments_of templateTrain (data_of (demo_alps "DNNClassifier() or f")), Execute (demo_alps "DNNClassifier() or f") with
  | Ok parts, Ok program =>
    Contains program "return tf.estimator.DNNClassifier() or f(config=run_config," && negb (all_fit PCode parts)
  | _, _ => false
  end = true.
Proof. vm_compute. reflexivity. Qed.

(** A validation that is asked for one thing other than the metrics has no metrics: the program
    gets a text that is the name of none. *)
Example metrics_no_value :
  match Execute (FTfEval (demo_eval {[ "steps"%string := VInt 1 ]})) with
  | Ok program => Contains program ("validation_metrics=" +:+ quoted "<no value>" +:+ ".split")
  | _ => false
  end = true.
Proof. vm_compute. reflexivity. Qed.
(** The name of the column for the result is put into a structure that is not used: the
    prediction gets that of the label. *)
Example result_column_unused :
  Contains xgbPredTemplateText ("pred_label_meta[" +:+ quoted "feature_name" +:+ "] = " +:+ quoted "{{.ResultColumn}}") = true ∧
  Contains xgbPredTemplateText "pred_label_meta=label_meta," = true ∧ Contains xgbPredTemplateText "pred_label_meta=pred_label_meta" = false.
Proof. vm_compute. done. Qed.
(** A field description of ALPS has a delimiter, its program asks for a separator. *)
Example separator_missing :
  Contains templateTrain (quoted "delimiter" +:+ ":") = true ∧ Contains templateTrain (quoted "separator" +:+ ":") = false ∧
  Contains templateTrain ("[" +:+ quoted "separator" +:+ "]") = true.
Proof. vm_compute. done. Qed.
