(* ===== verification/LogWriter.v ===== *)
(** * The output of a command as messages (go/executor/executor.go, logChanWriter)

    Commands write their output in pieces of any size; [logChanWriter] gives the pipe one
    message per line. *)

From S2P Require Import Prelude GoStrings GoState Response NormalStmt.

Local Open Scope nat_scope.

Record logChanWriter := mkLogChanWriter { log_buf : string; prev : string }.

Definition newline : string := char1 (of_byte 10).

(** [bytes.Buffer.ReadString('\n')]: the line, the rest of the buffer, and whether there was a
    line; without one it gives all that is left. *)
Definition ReadString (s : string) : string * string * bool :=
  match Index s newline with
  | Some n => (str_take (S n) s, str_drop (S n) s, true)
  | None => (s, ""%string, false)
  end.

Section writer.
Context `{Session D}.
Notation W := (logChanWriter * D)%type.

Definition on_log (f : logChanWriter → logChanWriter) : st W unit := λ '(w, d), (Ok tt, (f w, d)).
(** [cw.wr.Write] *)
Definition to_pipe (m : message) : st W (unit + error) := λ '(w, d),
  let '(r, d) := attempt (WriteItem m) d in (r, (w, d)).

(** Each round but the last takes a line from the buffer. *)
Fixpoint log_loop (fuel n : nat) : st W (nat * option error) :=
  match fuel with
  | O => lift NoFuel
  | S fuel =>
    '(cw, _) ← get;
    let '(line, rest, found) := ReadString (log_buf cw) in
    let p := (prev cw +:+ line)%string in
    on_log (λ _, mkLogChanWriter rest p) ≫= λ _,
    if negb found then mret (n, None) else
    e ← to_pipe (MText p);
    match e with
    | inr e => mret (str_len p, Some e)
    | inl _ => on_log (λ cw, mkLogChanWriter (log_buf cw) "") ≫= λ _, log_loop fuel n
    end
  end.
Definition log_Write (p : string) : st W (nat * option error) :=
  on_log (λ cw, mkLogChanWriter (log_buf cw +:+ p) (prev cw)) ≫= λ _,
  '(cw, _) ← get;
  log_loop (str_len (log_buf cw) + 1) (str_len p).

(** The error of the pipe is not looked at. *)
Definition log_Close : st W unit :=
  '(cw, _) ← get;
  if decide (0 < str_len (prev cw)) then
    to_pipe (MText (prev cw)) ≫= λ _, on_log (λ cw, mkLogChanWriter (log_buf cw) "")
  else mret tt.

(** A command's output: some writes, then [Close]; a command whose output cannot be written
    gets the error. *)
Definition log_output : list string → st W unit :=
  eachS (λ p, '(_, e) ← log_Write p; match e with Some e => fail e | None => mret tt end).
End writer.

(** ** The lines of a text *)

(** The lines of [acc ++ s] that end in [s], and what is left behind the last of them. *)
Fixpoint complete (acc s : string) : list string * string :=
  match s with
  | EmptyString => ([], acc)
  | String c s =>
    let acc := (acc +:+ char1 c)%string in
    if decide (c = of_byte 10) then let '(ls, r) := complete "" s in (acc :: ls, r) else complete acc s
  end.
Definition lines (s : string) : list string :=
  let '(ls, r) := complete "" s in ls ++ if decide (r = ""%string) then [] else [r].

Lemma complete_app acc s t :
  complete acc (s +:+ t) =
  let '(ls, r) := complete acc s in let '(ls2, r2) := complete r t in (ls ++ ls2, r2).
Proof.
  revert acc. induction s as [|c s IH]; intros acc; cbn [complete String.append].
  - by destruct (complete acc t).
  - case_decide; [|apply IH]. rewrite IH. destruct (complete "" s) as [ls r]. by destruct (complete r t).
Qed.

Lemma complete_concat acc s : let '(ls, r) := complete acc s in (str_concat ls +:+ r = acc +:+ s)%string.
Proof.
  revert acc. induction s as [|c s IH]; intros acc; cbn [complete].
  - by rewrite str_app_nil_r.
  - case_decide.
    + specialize (IH ""%string). destruct (complete "" s) as [ls r]. rewrite str_concat_cons, <- str_app_assoc, IH.
      cbn. by rewrite <- str_app_assoc.
    + specialize (IH (acc +:+ char1 c)%string). destruct (complete (acc +:+ char1 c) s) as [ls r]. rewrite IH.
      by rewrite <- str_app_assoc.
Qed.

Lemma ReadString_complete acc s :
  let '(line, rest, found) := ReadString s in
  if found then str_len rest < str_len s ∧
    complete acc s = (let '(ls, r) := complete "" rest in ((acc +:+ line)%string :: ls, r))
  else line = s ∧ rest = ""%string ∧ complete acc s = ([], (acc +:+ s)%string).
Proof.
  revert acc. unfold ReadString, newline. induction s as [|c s IH]; intros acc; [by cbn; rewrite str_app_nil_r|].
  cbn [Index HasPrefix char1 complete].
  destruct (decide (of_byte 10 = c)) as [<-|Hne].
  - rewrite (decide_True (P := of_byte 10 = of_byte 10)) by done.
    assert (HasPrefix s "" = true) as -> by (by destruct s). cbn [str_take str_drop str_len]. split; [lia|].
    by destruct (complete "" s).
  - rewrite (decide_False (P := c = of_byte 10)) by congruence. cbn [andb].
    specialize (IH (acc +:+ char1 c)%string). unfold char1 in *. destruct (Index s _) as [n|]; cbn [option_map fmap option_fmap].
    + destruct IH as [Hl ->]. change (str_drop (S (S n)) (String c s)) with (str_drop (S n) s).
      change (str_take (S (S n)) (String c s)) with (String c (str_take (S n) s)). cbn [str_len]. split; [lia|].
      destruct (complete "" (str_drop (S n) s)). by rewrite <- str_app_assoc.
    + destruct IH as (_ & _ & ->). split_and!; [done..|]. by rewrite <- str_app_assoc.
Qed.

Section output.
Context `{PipeLog D}.
Notation W := (logChanWriter * D)%type.

Lemma to_pipe_spec m w d : ∃ r d', to_pipe m (w, d) = (Ok r, (w, d')) ∧
  items d' = items d ++ match r with inl _ => [m] | inr _ => [] end ∧
  (is_ok (WriteItem m d).1 = true → r = inl tt).
Proof.
  unfold to_pipe, attempt. destruct (write_logs m d) as (r & d' & Hw & Hf & Hi). rewrite Hw.
  destruct r as [[]|e| |]; try done; eexists _, d'; (split; [reflexivity|]); by rewrite Hi.
Qed.

(** A run of the loop writes the lines that are complete and keeps the rest. *)
Lemma log_loop_spec fuel n b p d r w' d' :
  str_len b < fuel → log_loop fuel n (mkLogChanWriter b p, d) = (r, (w', d')) →
  ∃ k k' e, r = Ok (k, e) ∧ items d' = items d ++ (MText <$> take k' (complete p b).1) ∧
    ((∀ m d, is_ok (WriteItem m d).1 = true) → e = None) ∧
    (e = None → k = n ∧ length (complete p b).1 ≤ k' ∧ w' = mkLogChanWriter "" (complete p b).2) ∧
    (is_Some e → (complete p b).1 !! k' = Some (prev w')).
Proof.
  revert b p d. induction fuel as [|fuel IH]; intros b p d Hf; [lia|]. cbn [log_loop].
  rewrite (st_bind_run get _ _ _ _ eq_refl). cbn [log_buf prev].
  pose proof (ReadString_complete p b) as Hr. destruct (ReadString b) as [[line rest] found].
  rewrite (st_bind_run (on_log _) _ _ tt (mkLogChanWriter rest (p +:+ line), d)) by done.
  destruct found; cbn [negb].
  2: { destruct Hr as (-> & -> & ->). intros [= <- <- <-]. exists n, 0, None. split; [done|].
       rewrite app_nil_r. split; [done|]. split; [done|]. split; [|by intros [? [=]]]. intros _. split; [done|]. split; [cbn; lia|done]. }
  destruct Hr as [Hl ->]. destruct (complete "" rest) as [ls rr] eqn:Hrest.
  destruct (to_pipe_spec (MText (p +:+ line)) (mkLogChanWriter rest (p +:+ line)) d) as (e & d1 & Ht & Hi & Hok).
  rewrite (st_bind_run _ _ _ _ _ Ht). destruct e as [[]|e].
  - rewrite (st_bind_run (on_log _) _ _ tt (mkLogChanWriter rest "", d1)) by done.
    intros (k & k' & e & -> & Hi2 & He & Hk & Hx)%IH; [|lia]. rewrite Hrest in *. cbn in Hk, Hi2. exists k, (S k'), e.
    split; [done|]. split; [by rewrite Hi2, Hi, <- app_assoc|]. split; [exact He|].
    split; [|exact Hx].
    intros (? & ? & ?)%Hk. split; [done|]. split; [cbn; lia|done].
  - intros [= <- <- <-]. exists (str_len (p +:+ line)), 0, (Some e). split; [done|]. split; [by rewrite Hi|].
    split; [|by split]. intros Hall. by specialize (Hok (Hall _ _)).
Qed.

Lemma log_output_spec ps p d r w' d' :
  log_output ps (mkLogChanWriter "" p, d) = (r, (w', d')) →
  fine r ∧ ((∀ m d, is_ok (WriteItem m d).1 = true) → r = Ok tt) ∧
  ∃ k, items d' = items d ++ (MText <$> take k (complete p (str_concat ps)).1) ∧
    (r = Ok tt → length (complete p (str_concat ps)).1 ≤ k ∧ w' = mkLogChanWriter "" (complete p (str_concat ps)).2) ∧
    (r ≠ Ok tt → (complete p (str_concat ps)).1 !! k = Some (prev w')).
Proof.
  unfold log_output. revert p d. induction ps as [|q ps IH]; intros p d; cbn [eachS].
  { intros [= <- <- <-]. split; [done|]. split; [done|]. exists 0. rewrite app_nil_r. split; [done|]. split; [|done]. intros _. by split; [cbn; lia|]. }
  destruct (log_Write q (mkLogChanWriter "" p, d)) as [r1 [w1 d1]] eqn:Hw.
  assert (log_loop (str_len q + 1) (str_len q) (mkLogChanWriter q p, d) = (r1, (w1, d1))) as Hloop by exact Hw.
  apply log_loop_spec in Hloop as (k & k1 & e & -> & Hi & Hall & Hk & Hx); [|lia].
  unfold mbind, st_bind. rewrite Hw. rewrite str_concat_cons, complete_app.
  destruct (complete p q) as [ls1 r1] eqn:Hc1. cbn in Hi, Hk, Hx. destruct e as [e|].
  - intros [= <- <- <-]. split; [done|]. split; [intros Ha; by specialize (Hall Ha)|]. destruct (complete r1 _) as [ls2 r2].
    specialize (Hx ltac:(by eexists)). pose proof (lookup_lt_Some _ _ _ Hx).
    exists k1. split; [cbn; by rewrite take_app_le by lia|]. split; [done|]. intros _. cbn. by rewrite lookup_app_l by lia.
  - destruct (Hk eq_refl) as (-> & Hle & ->). intros (Hf & Ha & k2 & Hi2 & Hk2 & Hx2)%IH.
    split; [exact Hf|]. split; [exact Ha|]. destruct (complete r1 _) as [ls2 r2]. cbn in Hi2, Hk2, Hx2 |- *.
    exists (length ls1 + k2). rewrite take_app_add' by done. split.
    + by rewrite Hi2, Hi, take_ge, fmap_app, <- app_assoc by done.
    + split; [intros [? ->]%Hk2; rewrite length_app; split; [lia|done]|].
      intros Hr. rewrite lookup_app_r by lia. by replace (length ls1 + k2 - length ls1) with k2 by lia; apply Hx2.
Qed.

Lemma log_run_lines (ps : list string) (d d' : D) (r : result unit) (w' : logChanWriter) :
  (log_output ps ≫= λ _, log_Close) (mkLogChanWriter "" "", d) = (r, (w', d')) →
  ∃ k, items d' = items d ++ (MText <$> take k (lines (str_concat ps))) ∧
    (r = Ok tt → length (complete "" (str_concat ps)).1 ≤ k) ∧
    ((∀ m d, is_ok (WriteItem m d).1 = true) → r = Ok tt ∧ length (lines (str_concat ps)) ≤ k).
Proof.
  destruct (log_output ps (mkLogChanWriter "" "", d)) as [r1 [w1 d1]] eqn:Ho. unfold mbind, st_bind. rewrite Ho.
  apply log_output_spec in Ho as (Hf & Ha & k & Hi & Hk & _). unfold lines.
  destruct (complete "" (str_concat ps)) as [ls rest]. cbn in Hi, Hk.
  destruct r1 as [[]|e| |]; try done.
  - destruct (Hk eq_refl) as [Hle ->]. clear Hk. unfold log_Close. rewrite (st_bind_run get _ _ _ _ eq_refl). cbn [prev].
    assert ((0 < str_len rest) ↔ rest ≠ ""%string) as Hlen by (destruct rest; simpl; split; (done || lia)).
    destruct (decide (0 < str_len rest)) as [Hr|Hr].
    + rewrite decide_False by (by apply Hlen).
      destruct (to_pipe_spec (MText rest) (mkLogChanWriter "" rest) d1) as (e & d2 & Ht & Hi2 & Hok).
      rewrite (st_bind_run _ _ _ _ _ Ht). intros [= <- <- <-]. rewrite take_ge in Hi by done.
      destruct e as [[]|e].
      * exists (length ls + 1). rewrite take_ge by (rewrite length_app; simpl; lia). rewrite length_app. cbn. 
        split; [by rewrite Hi2, Hi, fmap_app, <- app_assoc|]. split; [lia|]. intros _. split; [done|lia].
      * exists (length ls). rewrite take_app_length. split; [by rewrite Hi2, Hi, app_nil_r|]. cbn. split; [lia|].
        intros Hall. by specialize (Hok (Hall _ _)).
    + rewrite decide_True by (destruct (decide (rest = ""%string)); [done|by destruct Hr; apply Hlen]).
      intros [= <- <- <-]. exists k. rewrite app_nil_r. split; [done|]. cbn. split; [lia|]. intros _. split; [done|lia].
  - intros [= <- <- <-]. exists (k `min` length ls). rewrite take_app_le by lia. 
    split; [by rewrite Hi, <- take_take, (take_ge ls (length ls))|]. split; [done|]. intros Hall. by specialize (Ha Hall).
Qed.

(** C40: A command's output reaches the pipe line by line, however the command cuts it: the
    messages are the first lines of the whole output; they are all of the lines that have an
    end if no write fails, and the rest of the output follows when the writer is closed.  A pipe
    that takes everything gets all of it. *)
Theorem log_output_lines (ps : list string) (d d' : D) (r : result unit) (w' : logChanWriter) :
  (log_output ps ≫= λ _, log_Close) (mkLogChanWriter "" "", d) = (r, (w', d')) →
  ∃ k, items d' = items d ++ (MText <$> take k (lines (str_concat ps))) ∧
    (r = Ok tt → length (complete "" (str_concat ps)).1 ≤ k) ∧
    ((∀ m d, is_ok (WriteItem m d).1 = true) → r = Ok tt ∧ length (lines (str_concat ps)) ≤ k).
Proof. apply log_run_lines. Qed.

(** Closing behind a write that failed tries the line again. *)
Lemma log_failed_close ps d d1 w1 e :
  log_output ps (mkLogChanWriter "" "", d) = (Fail e, (w1, d1)) →
  ∃ r x k, log_Close (w1, d1) = (r, x) ∧ items x.2 = items d ++ (MText <$> take k (lines (str_concat ps))).
Proof.
  intros (_ & _ & k & Hi & _ & Hx)%log_output_spec. specialize (Hx ltac:(done)). unfold lines.
  destruct (complete "" (str_concat ps)) as [ls rest]. cbn in Hi, Hx. pose proof (lookup_lt_Some _ _ _ Hx).
  unfold log_Close. rewrite (st_bind_run get _ _ _ _ eq_refl). case_decide.
  - destruct (to_pipe_spec (MText (prev w1)) w1 d1) as (r & d2 & Ht & Hi2 & _). rewrite (st_bind_run _ _ _ _ _ Ht).
    eexists _, _, (if r then S k else k). split; [reflexivity|]. cbn [snd]. rewrite Hi2, Hi, <- app_assoc. f_equal.
    destruct r; [|by rewrite app_nil_r, take_app_le by lia]. rewrite take_app_le by lia. by rewrite (take_S_r _ _ _ Hx), fmap_app.
  - eexists _, _, k. split; [reflexivity|]. cbn [snd]. by rewrite Hi, take_app_le by lia.
Qed.

(** A pipe that takes everything. *)
Lemma log_output_lines_all ps d d' r w' :
  (log_output ps ≫= λ _, log_Close) (mkLogChanWriter "" "", d) = (r, (w', d')) →
  (∀ m d, is_ok (WriteItem m d).1 = true) → r = Ok tt ∧ items d' = items d ++ (MText <$> lines (str_concat ps)).
Proof.
  intros (k & Hi & _ & Hall)%log_run_lines Hopen. destruct (Hall Hopen) as [-> Hk]. split; [done|].
  by rewrite Hi, take_ge.
Qed.
End output.

Lemma log_output_lines_witness :
  let nl := newline in
  ∃ k, (((log_output ["a"; "b" +:+ nl +:+ nl; "c"]%string ≫= λ _, log_Close)
           (mkLogChanWriter "" "", [] : list message)).2).2 =
       MText <$> take k ["ab" +:+ nl; nl; "c"]%string.
Proof.
  intros nl.
  destruct (log_output_lines ["a"; "b" +:+ nl +:+ nl; "c"]%string [] [MText ("ab" +:+ nl); MText nl; MText "c"]
    (Ok tt) (mkLogChanWriter "" "")) as (k & Hk & _).
  - vm_compute. reflexivity.
  - exists k. exact Hk.
Defined.
