(* ===== verification/ResultTables.v ===== *)
(** * Tables for the results of a statement (go/executor/pre_exec.go, createEvaluationResultTable
    of executor.go, getCreateShapResultSQL of pai.go)

    Before a prediction, an explanation or an evaluation runs, the table for its result is
    dropped and created anew.  [ExecTable] is [db.Exec]; [view d] is what queries give while the
    database is in the state [d]. *)

From S2P Require Import Prelude GoStrings GoState NormalStmt GoFloat FeatureColumn Verifier Ir.

Class TableDB (D : Type) := {
  ExecTable : string → st D unit;
  view : D → DB
}.

(** The constants of go/model/model.go. *)
Definition TENSORFLOW : Z := 0.
Definition XGBOOST : Z := 1.
Definition PAIML : Z := 2.

(** ** The fields of a prediction table *)

(** One column of the SELECT: the label or the result column gives its type, another one is
    kept. *)
Definition select_field (driver trainLabelColumn resultColumnName : string) (slctFlds : list string)
    (acc : string * list string * list string) (it : nat * string) : result (string * list string * list string) :=
  let '(resultColumnType, fieldNames, fieldTypes) := acc in
  let '(idx, colType) := it in
  stype ← fieldType driver colType;
  fldName ← index slctFlds idx;
  if decide (fldName = trainLabelColumn ∨ fldName = resultColumnName)
  then Ok (stype, fieldNames, fieldTypes)
  else Ok (resultColumnType, fieldNames ++ [fldName], fieldTypes ++ [stype]).

Definition label_column (s : PredictStmt FieldDesc) : result string :=
  match p_TrainStmt s with
  | None => Ok ""%string
  | Some t => ds ← GetFieldDesc (t_Label t); d ← index ds 0; Ok (Name (match d with inl d | inr d => d end))
  end.

Definition result_type (driver strFieldType resultColumnType : string) : result string :=
  if decide (resultColumnType = ""%string) then Ok strFieldType
  else wrapf "mapping to DBMS column type failed, %s" [] (fieldType driver resultColumnType).

(** The fields of the attribute [predict.extra_outputs]. *)
Definition extra_fields (attrs : attributes FieldDesc) : result (list string) :=
  match attrs !! "predict.extra_outputs"%string with
  | None => Ok []
  | Some (VString extraFields) =>
    Ok (filter (λ f, f ≠ ""%string) (map TrimSpace (Split extraFields ",")))
  | Some _ => Fail (Errorf "predict.extra_outputs must be string" [])
  end.

Definition getPredictionTableFieldNamesAndTypes `{UnicodeTables} (predStmt : PredictStmt FieldDesc) (db : DB)
    : result (list string * list string) :=
  '(slctFlds, slctTypes) ← GetSQLFieldType (p_Select predStmt) db;
  trainLabelColumn ← label_column predStmt;
  '(resultColumnType, fieldNames, fieldTypes) ←
    foldM (select_field (DriverName db) trainLabelColumn (ResultColumn predStmt) slctFlds)
      (""%string, [], []) (imap pair slctTypes);
  strFieldType ← stringFieldType (DriverName db);
  resultColumnType ← result_type (DriverName db) strFieldType resultColumnType;
  extras ← extra_fields (p_Attributes predStmt);
  Ok (fieldNames ++ [ResultColumn predStmt] ++ extras,
      fieldTypes ++ [resultColumnType] ++ ((λ _, strFieldType) <$> extras)).

(** ** Creating the tables *)

Section tables.
Context `{UnicodeTables} `{TableDB D}.

Definition exec_or_fail (stmt : string) : st D unit :=
  wrapS "failed executing %s: %q" [stmt] (ExecTable stmt).

Definition create_table_stmt (driver table : string) (names types : list string) : string :=
  let q := char1 (of_byte 34) in
  let items := zip_with (λ n t, n +:+ " " +:+ t)%string names types in
  "CREATE TABLE " +:+ table +:+ " (" +:+ Join items "," +:+ ")" +:+
  (if decide (driver = "hive"%string)
   then " ROW FORMAT DELIMITED FIELDS TERMINATED BY " +:+ q +:+ "\001" +:+ q +:+ " STORED AS TEXTFILE;"
   else ";").
Definition createPredictionResultTable (predStmt : PredictStmt FieldDesc) : st D unit :=
  exec_or_fail ("drop table if exists " +:+ ResultTable predStmt +:+ ";") ≫= λ _,
  d ← get;
  '(names, types) ← lift (getPredictionTableFieldNamesAndTypes predStmt (view d));
  exec_or_fail (create_table_stmt (DriverName (view d)) (ResultTable predStmt) names types).

Definition drop_if_exists (table : string) : string := "DROP TABLE IF EXISTS " +:+ table +:+ ";".

(** The SHAP values: a column for every field but the label. *)
Definition getCreateShapResultSQL (db : DB) (tableName selectStmt labelCol : string) : result string :=
  '(flds, _) ← GetSQLFieldType selectStmt db;
  let columnType := if decide (DriverName db = "mysql"%string) then "VARCHAR(255)"%string else "STRING"%string in
  let columnDefList := map (λ f, f +:+ " " +:+ columnType) (filter (λ f, f ≠ labelCol) flds) in
  Ok ("CREATE TABLE IF NOT EXISTS " +:+ tableName +:+ " (" +:+ Join columnDefList "," +:+ ");").

(** A label column that is not a text panics. *)
Definition shap_table (db : DB) (stmt : ExplainStmt FieldDesc) (tableName what : string) : result string :=
  match e_Attributes stmt !! "label_col"%string with
  | None => Fail (Errorf ("need to specify WITH label_col=lable_col_name when explaining " +:+ what +:+ " models") [])
  | Some (VString labelCol) => getCreateShapResultSQL db tableName (e_Select stmt) labelCol
  | Some _ => Panic
  end.
Definition explain_table (db : DB) (stmt : ExplainStmt FieldDesc) (tableName : string) (modelType : Z)
    (estimator : string) : result string :=
  let mysql := bool_decide (DriverName db = "mysql"%string) in
  if decide (e_Explainer stmt = "XGBoostExplainer"%string) then
    Ok ("CREATE TABLE IF NOT EXISTS " +:+ tableName +:+ " " +:+
        (if mysql then "(feature VARCHAR(255), fscore FLOAT, gain FLOAT)" else "(feature STRING, fscore STRING, gain STRING)"))
  else if decide (modelType = TENSORFLOW) then
    if HasPrefix estimator "BoostedTrees" then
      Ok ("CREATE TABLE IF NOT EXISTS " +:+ tableName +:+ " " +:+
          (if mysql then "(feature VARCHAR(255), dfc FLOAT, gain FLOAT)" else "(feature STRING, dfc STRING, gain STRING)") +:+ ";")
    else shap_table db stmt tableName "deep"
  else if decide (modelType = XGBOOST) then shap_table db stmt tableName "xgboost"
  else Fail (Errorf "not supported modelType %d for creating Explain result table" [pretty modelType]).
Definition createExplainResultTable (stmt : ExplainStmt FieldDesc) (tableName : string) (modelType : Z)
    (estimator : string) : st D unit :=
  exec_or_fail (drop_if_exists tableName) ≫= λ _,
  d ← get;
  createStmt ← lift (explain_table (view d) stmt tableName modelType estimator);
  exec_or_fail createStmt.

Definition createEvaluationResultTable (driver tableName : string) (metricNames : list string) : st D unit :=
  exec_or_fail (drop_if_exists tableName) ≫= λ _,
  let columnType := if decide (driver = "mysql"%string) then "VARCHAR(255)"%string else "STRING"%string in
  let columnDef := Join (map (λ mn, mn +:+ " " +:+ columnType) metricNames) "," in
  exec_or_fail ("CREATE TABLE IF NOT EXISTS " +:+ tableName +:+ " (" +:+ columnDef +:+ ");").
End tables.

(** ** What the fields are *)

Section fields.
Context `{UnicodeTables}.

(** The columns of the SELECT that are neither the label nor the result. *)
Definition kept (label res : string) (cols : list (string * string)) : list (string * string) :=
  filter (λ c, c.1 ≠ label ∧ c.1 ≠ res) cols.
(** The type of the last of the others. *)
Definition result_column (label res : string) (cols : list (string * string)) : option string :=
  snd <$> last (filter (λ c, c.1 = label ∨ c.1 = res) cols).

Lemma result_column_cons label res c cols :
  result_column label res (c :: cols) =
  match result_column label res cols with
  | Some t => Some t
  | None => if decide (c.1 = label ∨ c.1 = res) then Some c.2 else None
  end.
Proof.
  unfold result_column. rewrite filter_cons. case_decide; [|by destruct (last _)].
  destruct (filter _ cols) as [|c' l]; [done|]. by rewrite last_cons_cons; destruct (last (c' :: l)) eqn:Hl;
    [|apply last_None in Hl].
Qed.

Lemma select_fields_spec driver label res pre flds types rt0 n0 t0 rt names typs :
  length flds = length types →
  foldM (select_field driver label res (pre ++ flds)) (rt0, n0, t0) (imap (λ i t, (length pre + i, t))%nat types)
  = Ok (rt, names, typs) →
  ∃ ktypes, names = n0 ++ (kept label res (zip flds types)).*1 ∧
    mapR (fieldType driver) (kept label res (zip flds types)).*2 = Ok ktypes ∧ typs = t0 ++ ktypes ∧
    match result_column label res (zip flds types) with
    | None => rt = rt0
    | Some t => fieldType driver t = Ok rt
    end.
Proof.
  revert pre types rt0 n0 t0. induction flds as [|f flds IH]; intros pre types rt0 n0 t0 Hl.
  - destruct types; [|done]. cbn. intros [= <- <- <-]. exists []. by rewrite !app_nil_r.
  - destruct types as [|t types]; [done|]. rewrite imap_cons. cbn [foldM]. intros ([[rt1 n1] t1] & Hs & Hf)%bind_Ok.
    rewrite (imap_ext _ (λ i t, (length (pre ++ [f]) + i, t)%nat)) in Hf
      by (intros; rewrite length_app; simpl; f_equal; lia).
    rewrite cons_middle, app_assoc in Hf. apply IH in Hf as (kts & -> & Hk & -> & Hr); [|simpl in Hl; lia].
    unfold select_field in Hs. apply bind_Ok in Hs as (stype & Hst & Hs). apply bind_Ok in Hs as (fn & Hi & Hs).
    unfold index in Hi. rewrite Nat.add_0_r, list_lookup_middle in Hi by done. injection Hi as ->.
    unfold kept. cbn [zip_with]. rewrite filter_cons, result_column_cons. cbn [fst snd]. case_decide as Hd.
    + injection Hs as <- <- <-. rewrite decide_False by tauto. exists kts. split; [done|]. split; [exact Hk|].
      split; [done|]. destruct (result_column _ _ _); [exact Hr|]. by subst.
    + injection Hs as <- <- <-. rewrite decide_True by tauto. exists (stype :: kts). rewrite !fmap_cons. cbn [mapR fst snd].
      split; [by rewrite <- app_assoc|]. rewrite Hst. ok_step. split; [unfold kept in Hk; by rewrite Hk|].
      split; [by rewrite <- app_assoc|]. by destruct (result_column _ _ _).
Qed.

(** The table for predictions has a column for every column of the SELECT that is neither
    the label that was trained nor the result, in their order and with the type that the
    database gave, then exactly one result column, then a text column for every extra output.
    The result has the type that the last of the left out columns has, or a text type if there
    is none. *)
Theorem prediction_fields (s : PredictStmt FieldDesc) (db : DB) (label : string) (names types : list string) :
  label_column s = Ok label → getPredictionTableFieldNamesAndTypes s db = Ok (names, types) →
  ∃ flds ctypes extras ktypes rt str, GetSQLFieldType (p_Select s) db = Ok (flds, ctypes) ∧
    extra_fields (p_Attributes s) = Ok extras ∧ stringFieldType (DriverName db) = Ok str ∧
    let cols := kept label (ResultColumn s) (zip flds ctypes) in
    mapR (fieldType (DriverName db)) cols.*2 = Ok ktypes ∧
    names = cols.*1 ++ ResultColumn s :: extras ∧ types = ktypes ++ rt :: ((λ _, str) <$> extras) ∧
    length names = length types ∧ ResultColumn s ∉ cols.*1 ∧ (label ∉ cols.*1) ∧
    match result_column label (ResultColumn s) (zip flds ctypes) with
    | None => rt = str
    | Some t => ∃ t', fieldType (DriverName db) t = Ok t' ∧ if decide (t' = ""%string) then rt = str
                else fieldType (DriverName db) t' = Ok rt
    end.
Proof.
  intros Hlab. unfold getPredictionTableFieldNamesAndTypes. intros ([flds ctypes] & Hf & H1)%bind_Ok.
  rewrite Hlab in H1. apply bind_Ok in H1 as (? & [= <-] & H1). apply bind_Ok in H1 as ([[rt0 n0] t0] & Hs & H1).
  apply bind_Ok in H1 as (str & Hstr & H1). apply bind_Ok in H1 as (rt & Hrt & H1).
  apply bind_Ok in H1 as (extras & Hex & [= <- <-]).
  assert (length flds = length ctypes) as Hl.
  { unfold GetSQLFieldType in Hf. apply bind_Ok in Hf as (rows & _ & Hf). apply bind_Ok in Hf as ([cts|] & _ & Hf);
      injection Hf as <- <-; [by rewrite !length_map|done]. }
  apply (select_fields_spec _ _ _ [] flds ctypes) in Hs as (kts & -> & Hk & -> & Hr); [|done]. cbn [app] in *.
  exists flds, ctypes, extras, kts, rt, str. split_and!; try done.
  - apply mapR_length in Hk. rewrite length_fmap in Hk. rewrite !length_app, !length_fmap. simpl. rewrite length_fmap. lia.
  - unfold kept. intros (c & -> & [[_ Hc] _]%list_elem_of_filter)%list_elem_of_fmap. done.
  - unfold kept. intros (c & -> & [[Hc _] _]%list_elem_of_filter)%list_elem_of_fmap. done.
  - unfold result_type in Hrt. destruct (result_column _ _ _) as [t|].
    + exists rt0. split; [done|]. case_decide; [by injection Hrt as ->|]. by apply wrapf_Ok in Hrt.
    + subst rt0. by injection Hrt as ->.
Qed.
End fields.

(** A table with the fields [a], the label [y] and [b], and an attribute with two more outputs. *)
Definition demo_table_db : DB :=
  mkDB "mysql" (λ _, Ok (mkRows (Ok [mkColumnType "t.a" "INT"; mkColumnType "y" "VARCHAR"; mkColumnType "b" "FLOAT"])
    [λ _, Ok ["1"; "2"; "3"]%string] (λ _, None))).
Definition demo_predict_stmt : PredictStmt FieldDesc :=
  mkPredictStmt "" "SELECT * FROM t" "r" "p"
    {[ "predict.extra_outputs"%string := VString "u, v ,"%string ]} "m"
    (Some (mkTrainStmt "" "" "" "" "" ∅ ∅ (NumericColumn (newFieldDesc "y" Int (Some [1%Z]))) "" "" "" "")) "".

Lemma prediction_fields_witness :
  match @getPredictionTableFieldNamesAndTypes latin1_tables demo_predict_stmt demo_table_db with
  | Ok (names, types) => length names = length types ∧ names = ["a"; "b"; "p"; "u"; "v"]%string
  | _ => False
  end.
Proof.
  destruct (@getPredictionTableFieldNamesAndTypes latin1_tables demo_predict_stmt demo_table_db)
    as [[names types]| | |] eqn:Hg; [|vm_compute in Hg; discriminate Hg..].
  destruct (@prediction_fields latin1_tables demo_predict_stmt demo_table_db "y" names types eq_refl Hg)
    as (fl & ct & ex & kt & rt & str & H1 & H2 & H3 & H4 & H5 & H6 & H7 & _).
  vm_compute in H1. injection H1 as <- <-. vm_compute in H2. injection H2 as <-.
  split; [exact H7|]. rewrite H5. reflexivity.
Defined.
