(* ===== verification/World.v ===== *)
(** * What the executors ask of the outside world

    Files, commands, the object storage service and connections: one constructor of [call] for
    each kind of request, with the type of its answer, so that a promise of the world that
    concerns all requests is one statement.  The code of the statements is printed by text
    templates; [filler] is what a template gets. *)

From S2P Require Import Prelude GoStrings GoState FeatureColumn Ir Response NormalStmt ResultTables AttrInit XgbCode TfCode OptimizeCode.

Local Open Scope Z_scope.

(** [exec.Cmd], and what is left when it has run: what it wrote to its two outputs, piece by
    piece, and the error of [Run]. *)
Record command := mkCommand { cmd_Args : list string; cmd_Dir : string; cmd_Stdin : string }.
Record outcome := mkOutcome { cmd_Stdout : list string; cmd_Stderr : list string; cmd_error : option error }.

(** [oss.Bucket] with its client. *)
Record Bucket := mkBucket { b_Endpoint : string; b_AccessKeyID : string; b_AccessKeySecret : string; b_Name : string }.

(** The answer of [bucket.ListObjects]: keys, common prefixes, and whether there are more. *)
Record ListObjectsResult := mkListing { Objects : list string; CommonPrefixes : list string; IsTruncated : bool }.

Inductive call : Type → Type :=
  | database_Open (dataSource : string) : call unit             (* database.OpenAndConnectDB *)
  | randstring_Generate (n : Z) : call string
  | time_Now : call string                                      (* formatted as 20060102150405 *)
  | os_WriteFile (path content : string) : call unit            (* os.Create and f.WriteString *)
  | os_Stat (path : string) : call unit
  | os_MkdirAll (path : string) : call unit
  | os_Setenv (k v : string) : call unit
  | ioutil_ReadFile (path : string) : call string
  | exec_Command (c : command) : call outcome
  | oss_New (b : Bucket) : call unit                            (* oss.New, cli.Bucket *)
  | oss_ListObjects (b : Bucket) (prefix : string) : call ListObjectsResult (* with the delimiter / *)
  | oss_DeleteObjects (b : Bucket) (keys : list string) : call unit
  | oss_DeleteObject (b : Bucket) (key : string) : call unit
  | oss_IsObjectExist (b : Bucket) (key : string) : call bool
  | oss_GetObject (b : Bucket) (key : string) : call string
  | oss_GetObjectToFile (b : Bucket) (key path : string) : call unit
  | oss_PutObjectFromFile (b : Bucket) (key path : string) : call unit
  | alisa_Exec (code : string) (resources : string) : call outcome
  | alisa_ExecPyODPS (code args : string) : call outcome.

Class World (D : Type) := {
  perform {A} : call A → st D A;
  Env : string → string                                         (* os.Getenv *)
}.

(** ** Trained models, as the executors see them *)

Class ModelStore (D : Type) := {
  SaveModel : string → string → string → pb_Session → st D unit; (* directory, statement, URI *)
  LoadTrainSelect : string → st D string                         (* of the model's training *)
}.
