(* ===== verification/Oss.v ===== *)
(** * Directories of the object storage service (go/executor/pai.go, go/model/model.go)

    Models that PAI trains are objects of a bucket whose keys look like paths.  A directory is
    deleted and downloaded by listing it with the delimiter / and descending into the common
    prefixes.  A listing has at most 100 entries, and the code does not ask for more: deleting
    is complete for directories that are small enough, and leaves objects in larger ones. *)

From S2P Require Import Prelude GoStrings GoState Response NormalStmt ResultTables Model World.

Local Open Scope nat_scope.

(** The bucket of the models (GetOSSModelBucket) and the path of a model in it. *)
Definition OSSModelBucketName : string := "sqlflow-models".
Definition OSSModelURL (modelFullPath : string) : string := "oss://" +:+ OSSModelBucketName +:+ "/" +:+ modelFullPath.

Section oss.
Context `{World D}.

Definition GetOSSModelBucket : st D Bucket :=
  let ak := Env "SQLFLOW_OSS_AK" in
  let sk := Env "SQLFLOW_OSS_SK" in
  let ep := Env "SQLFLOW_OSS_MODEL_ENDPOINT" in
  if decide (ak = "" ∨ sk = "" ∨ ep = "")%string then
    fail (Errorf "should define SQLFLOW_OSS_MODEL_ENDPOINT, SQLFLOW_OSS_AK, SQLFLOW_OSS_SK when using submitter alisa" [])
  else
    let b := mkBucket ep ak sk OSSModelBucketName in
    perform (oss_New b) ≫= λ _, mret b.

(** ** Deleting *)

(** The fuel bounds the depth of the directories. *)
Fixpoint deleteDirRecursive (fuel : nat) (bucket : Bucket) (dir : string) : st D unit :=
  match fuel with
  | O => lift NoFuel
  | S fuel =>
    if negb (HasSuffix dir "/") then fail (Errorf "dir to delete must end with /" []) else
    lor ← perform (oss_ListObjects bucket dir);
    eachS (deleteDirRecursive fuel bucket) (CommonPrefixes lor) ≫= λ _,
    if decide (0 < length (Objects lor)) then perform (oss_DeleteObjects bucket (Objects lor)) else mret tt
  end.
Definition cleanOSSModelPath (fuel : nat) (ossModelPath : string) : st D unit :=
  bucket ← GetOSSModelBucket; deleteDirRecursive fuel bucket ossModelPath.

(** ** Downloading *)

Definition download_object (bucket : Bucket) (dir localDir objPath : string) : st D unit :=
  if HasSuffix objPath "/" then mret tt
  else if HasPrefix objPath dir then
    perform (oss_GetObjectToFile bucket objPath (localDir +:+ TrimPrefix objPath dir))
  else fail (Errorf "objpath: %s does not match model dir %s" [objPath; dir]).
Fixpoint downloadDirRecursive (fuel : nat) (bucket : Bucket) (dir localDir : string) : st D unit :=
  match fuel with
  | O => lift NoFuel
  | S fuel =>
    perform (os_MkdirAll localDir) ≫= λ _,
    lor ← perform (oss_ListObjects bucket dir);
    eachS (λ subPrefix, downloadDirRecursive fuel bucket subPrefix (localDir +:+ TrimPrefix subPrefix dir))
      (CommonPrefixes lor) ≫= λ _,
    eachS (download_object bucket dir localDir) (Objects lor)
  end.
Definition downloadOSSModel (fuel : nat) (ossModelPath : string) : st D unit :=
  bucket ← GetOSSModelBucket;
  if negb (HasSuffix ossModelPath "/") then fail (Errorf "dir to download must end with /" []) else
  let localDirParts := Split ossModelPath "/" in
  localDir ← lift (index localDirParts (length localDirParts - 2));
  downloadDirRecursive fuel bucket ossModelPath (localDir +:+ "/").

(** ** The kind of a model that was saved

    A model without a description is taken for one that PAI has saved. *)
Definition getOSSSavedModelType (modelName : string) : st D (Z * string) :=
  bucket ← GetOSSModelBucket;
  ret ← perform (oss_IsObjectExist bucket (modelName +:+ "/tensorflow_model_desc"));
  if ret : bool then
    perform (oss_GetObjectToFile bucket (modelName +:+ "/tensorflow_model_desc_estimator") "tmp_estimator_name") ≫= λ _,
    buf ← perform (ioutil_ReadFile "tmp_estimator_name");
    mret (TENSORFLOW, buf)
  else
    ret ← perform (oss_IsObjectExist bucket (modelName +:+ "/xgboost_model_desc"));
    if ret : bool then mret (XGBOOST, ""%string) else mret (PAIML, ""%string).
End oss.

(** ** What the service promises *)

(** The entry for a key in a listing: the key itself, or what it has in common with others. *)
Definition entry (p k : string) : string + string :=
  let r := str_drop (str_len p) k in
  match Index r "/" with
  | Some i => inr (p +:+ str_take (S i) r)
  | None => inl k
  end.
Definition keys_below (p : string) (m : gmap string string) : list string :=
  filter (λ k, HasPrefix k p = true) (map_to_list m).*1.
Definition entries (p : string) (m : gmap string string) : list (string + string) :=
  remove_dups (entry p <$> keys_below p m).
Definition max_keys : nat := 100.
Definition listing_of (es : list (string + string)) : ListObjectsResult :=
  let es' := take max_keys es in
  mkListing (omap (λ e, match e with inl k => Some k | inr _ => None end) es')
            (omap (λ e, match e with inr q => Some q | inl _ => None end) es')
            (bool_decide (max_keys < length es)).

Class BucketStore (D : Type) `{World D} := {
  objects : D → Bucket → gmap string string;
  list_law b p d : ∃ es, es ≡ₚ entries p (objects d b) ∧ perform (oss_ListObjects b p) d = (Ok (listing_of es), d);
  delete_law b ks d : ∃ d', perform (oss_DeleteObjects b ks) d = (Ok tt, d') ∧
    objects d' b = filter (λ kv, kv.1 ∉ ks) (objects d b)
}.

(** ** Entries *)

Lemma Index_char_inv c s i : Index s (char1 c) = Some i →
  ∃ u v, s = (u +:+ String c v)%string ∧ no_char c u = true ∧ i = str_len u.
Proof.
  revert i. induction s as [|d s IH]; intros i; [done|]. cbn [Index HasPrefix char1]. destruct (decide (c = d)) as [->|Hd].
  - replace (HasPrefix s "") with true by (by destruct s). intros [= <-]. by exists ""%string, s.
  - destruct (Index s (char1 c)) as [j|] eqn:Hj; [|done]. intros [= <-].
    destruct (IH j eq_refl) as (u & v & -> & Hu & ->). exists (String d u), v. cbn.
    rewrite bool_decide_false by congruence. done.
Qed.

Definition prefix_of (p u : string) : string := (p +:+ u +:+ "/")%string.

Lemma entry_cases p k : HasPrefix k p = true →
  entry p k = inl k ∨
  ∃ u v, k = (prefix_of p u +:+ v)%string ∧ no_char "/" u = true ∧ entry p k = inr (prefix_of p u).
Proof.
  intros [t ->]%HasPrefix_app. unfold entry. rewrite str_drop_app by done.
  destruct (Index t "/") as [i|] eqn:Hi; [|by left]. right.
  apply Index_char_inv in Hi as (u & v & -> & Hu & ->). exists u, v. unfold prefix_of.
  replace (u +:+ String "/" v)%string with ((u +:+ "/") +:+ v)%string by (by rewrite <- str_app_assoc).
  rewrite str_take_app by (rewrite str_length_app; cbn; lia). by rewrite <- !str_app_assoc.
Qed.

Lemma entry_below p u v : no_char "/" u = true → entry p (prefix_of p u +:+ v) = inr (prefix_of p u).
Proof.
  intros Hu. unfold entry, prefix_of. rewrite <- !str_app_assoc, str_drop_app by done.
  change ("/" +:+ v)%string with (String "/" v). assert (Index (u +:+ String "/" v) "/" = Some (str_len u)) as -> by exact (Index_char u "/" v Hu).
  replace (u +:+ String "/" v)%string with ((u +:+ "/") +:+ v)%string by (by rewrite <- str_app_assoc).
  rewrite str_take_app by (rewrite str_length_app; cbn; lia). done.
Qed.

(** A common prefix is a longer directory, and is the entry of all that is in it. *)
Lemma entry_prefix p k q : HasPrefix k p = true → entry p k = inr q →
  HasPrefix q p = true ∧ HasPrefix k q = true ∧ HasSuffix q "/" = true ∧ str_len p < str_len q ∧
  ∀ k', HasPrefix k' q = true → entry p k' = inr q.
Proof.
  intros Hk He. destruct (entry_cases p k Hk) as [Hl|(u & v & -> & Hu & Hr)]; [congruence|].
  rewrite Hr in He. injection He as <-. split_and!.
  - apply HasPrefix_app. by exists (u +:+ "/")%string.
  - apply HasPrefix_app. by exists v.
  - unfold HasSuffix, prefix_of. rewrite str_app_assoc, str_length_app, str_drop_app by (cbn; lia).
    apply andb_true_iff. split; [apply Nat.leb_le; lia|by apply bool_decide_eq_true].
  - unfold prefix_of. rewrite !str_length_app. cbn. lia.
  - intros k' [t ->]%HasPrefix_app. by apply entry_below.
Qed.

Lemma HasPrefix_trans k q p : HasPrefix q p = true → HasPrefix k q = true → HasPrefix k p = true.
Proof. intros [u ->]%HasPrefix_app [v ->]%HasPrefix_app. apply HasPrefix_app. exists (u +:+ v)%string. by rewrite <- str_app_assoc. Qed.

Lemma HasPrefix_length k p : HasPrefix k p = true → str_len p ≤ str_len k.
Proof. intros [u ->]%HasPrefix_app. rewrite str_length_app. lia. Qed.

Lemma elem_of_keys_below k p m : k ∈ keys_below p m ↔ HasPrefix k p = true ∧ is_Some (m !! k).
Proof.
  unfold keys_below. rewrite list_elem_of_filter, list_elem_of_fmap. split; intros [Hp Hk]; split; try done.
  - destruct Hk as ([k' v] & -> & Hk). exists v. by apply elem_of_map_to_list.
  - destruct Hk as [v Hk]. exists (k, v). split; [done|]. by apply elem_of_map_to_list.
Qed.

Lemma elem_of_entries e p m : e ∈ entries p m ↔ ∃ k, e = entry p k ∧ k ∈ keys_below p m.
Proof. unfold entries. by rewrite elem_of_remove_dups, list_elem_of_fmap. Qed.

(** A smaller bucket has no more entries. *)
Lemma entries_length p m m' : m' ⊆ m → length (entries p m') ≤ length (entries p m).
Proof.
  intros Hm. apply submseteq_length, NoDup_submseteq; [apply NoDup_remove_dups|].
  intros e. rewrite !elem_of_entries. intros (k & -> & [Hk [v Hv]]%elem_of_keys_below). exists k. split; [done|].
  apply elem_of_keys_below. split; [done|]. exists v. by eapply lookup_weaken.
Qed.

Lemma elem_of_Objects k es : k ∈ Objects (listing_of es) ↔ inl k ∈ take max_keys es.
Proof.
  cbn. rewrite list_elem_of_omap. split; [intros ([k'|] & ? & [= ->]); done|]. intros. by exists (inl k).
Qed.
Lemma elem_of_CommonPrefixes q es : q ∈ CommonPrefixes (listing_of es) ↔ inr q ∈ take max_keys es.
Proof.
  cbn. rewrite list_elem_of_omap. split; [intros ([|q'] & ? & [= ->]); done|]. intros. by exists (inr q).
Qed.

(** ** What deleting does *)

Section deleting.
Context `{BucketStore D} (b : Bucket).

(** Only what has the prefix changes. *)
Definition outside_kept (dir : string) (d d' : D) : Prop :=
  ∀ k, HasPrefix k dir = false → objects d' b !! k = objects d b !! k.

#[export] Instance outside_kept_preorder dir : PreOrder (outside_kept dir).
Proof. split; [by intros d k|]. intros d1 d2 d3 H12 H23 k Hk. rewrite (H23 k Hk). by apply H12. Qed.

Definition delete_rest (es : list (string + string)) : st D unit :=
  let ks := Objects (listing_of es) in
  if decide (0 < length ks) then perform (oss_DeleteObjects b ks) else mret tt.

Lemma delete_rest_run es d : ∃ d', delete_rest es d = (Ok tt, d') ∧
  objects d' b = filter (λ kv, kv.1 ∉ Objects (listing_of es)) (objects d b).
Proof.
  unfold delete_rest. case_decide as Hl; [apply delete_law|]. exists d. split; [done|].
  destruct (Objects (listing_of es)) as [|k ks]; [|cbn in Hl; lia].
  symmetry. apply map_filter_id. intros k v _. cbn. set_solver.
Qed.

Lemma deleteDir_step fuel dir d : HasSuffix dir "/" = true →
  ∃ es, es ≡ₚ entries dir (objects d b) ∧
    deleteDirRecursive (S fuel) b dir d =
    (eachS (deleteDirRecursive fuel b) (CommonPrefixes (listing_of es)) ≫= λ _, delete_rest es) d.
Proof.
  intros Hdir. destruct (list_law b dir d) as (es & Hes & Hl). exists es. split; [done|].
  cbn [deleteDirRecursive]. rewrite Hdir. cbn [negb]. by rewrite (st_bind_run _ _ _ _ _ Hl).
Qed.

(** What a listing names is in the directory. *)
Lemma listed_prefix dir m es q : es ≡ₚ entries dir m → q ∈ CommonPrefixes (listing_of es) →
  ∃ k, k ∈ keys_below dir m ∧ entry dir k = inr q.
Proof.
  intros Hes Hq%elem_of_CommonPrefixes%elem_of_take. destruct Hq as (i & Hq & _). apply list_elem_of_lookup_2 in Hq.
  rewrite Hes, elem_of_entries in Hq. destruct Hq as (k & He & Hk). by exists k.
Qed.
Lemma listed_object dir m es k : es ≡ₚ entries dir m → k ∈ Objects (listing_of es) →
  HasPrefix k dir = true ∧ entry dir k = inl k ∧ inl k ∈ take max_keys es.
Proof.
  intros Hes Hk%elem_of_Objects. assert (inl k ∈ entries dir m) as He.
  { rewrite <- Hes. apply elem_of_take in Hk as (i & Hk & _). by eapply list_elem_of_lookup_2. }
  apply elem_of_entries in He as (k' & He & [Hk' _]%elem_of_keys_below).
  destruct (entry_cases dir k' Hk') as [Hl|(?&?&_&_&Hr)]; [|congruence]. rewrite Hl in He.
  injection He as ->. done.
Qed.

(** Objects outside of the directory are kept, also when the listing is not complete. *)
Lemma deleteDir_outside fuel dir : within (outside_kept dir) (deleteDirRecursive fuel b dir).
Proof.
  revert dir. induction fuel as [|fuel IH]; intros dir; [apply within_lift; apply _|]. intros d r d' Hrun.
  destruct (HasSuffix dir "/") eqn:Hdir; [|cbn in Hrun; rewrite Hdir in Hrun; by injection Hrun as <- <-].
  destruct (deleteDir_step fuel dir d Hdir) as (es & Hes & Hstep). rewrite Hstep in Hrun. revert d' Hrun.
  enough (within (outside_kept dir) (eachS (deleteDirRecursive fuel b) (CommonPrefixes (listing_of es)))) as Heach.
  { intros d' Hrun. unfold mbind, st_bind in Hrun. destruct (eachS _ _ d) as [[[]|e| |] d1] eqn:He; specialize (Heach _ _ _ He);
      [|by injection Hrun as <- <-..]. destruct (delete_rest_run es d1) as (d2 & Hd & Ho). rewrite Hd in Hrun.
    injection Hrun as <- <-. etrans; [exact Heach|]. intros k Hk. rewrite Ho. apply option_eq. intros v.
    rewrite map_lookup_filter_Some. split; [by intros []|]. intros Hv. split; [done|].
    intros Hin%(listed_object _ _ _ _ Hes). destruct Hin as (Hk' & _). cbn in Hk'. congruence. }
  apply within_eachS; [apply _|]. intros q (k & [Hk _]%elem_of_keys_below & He)%(listed_prefix _ _ _ _ Hes).
  intros d1 r1 d2 H1 k' Hk'. apply (IH q d1 r1 d2 H1). apply entry_prefix in He as (Hq & _); [|done].
  destruct (HasPrefix k' q) eqn:Hkq; [|done]. by rewrite (HasPrefix_trans _ _ _ Hq Hkq) in Hk'.
Qed.

(** No directory of this one has more entries than a listing shows. *)
Definition small (dir : string) (m : gmap string string) : Prop :=
  ∀ p, HasPrefix p dir = true → length (entries p m) ≤ max_keys.

Lemma small_sub dir q m m' : m' ⊆ m → HasPrefix q dir = true → small dir m → small q m'.
Proof.
  intros Hm Hq Hs p Hp. etrans; [by apply entries_length|]. apply Hs. by apply (HasPrefix_trans p q).
Qed.

Lemma deleteDirs fuel m qs d :
  (∀ q d, q ∈ qs → objects d b ⊆ m → ∃ d', deleteDirRecursive fuel b q d = (Ok tt, d') ∧
    objects d' b = filter (λ kv, HasPrefix kv.1 q = false) (objects d b)) →
  objects d b ⊆ m → ∃ d', eachS (deleteDirRecursive fuel b) qs d = (Ok tt, d') ∧
    objects d' b = filter (λ kv, Forall (λ q, HasPrefix kv.1 q = false) qs) (objects d b).
Proof.
  revert d. induction qs as [|q qs IH]; intros d Hq Hd.
  - exists d. split; [done|]. symmetry. by apply map_filter_id.
  - destruct (Hq q d) as (d1 & H1 & Ho1); [by left|done|].
    destruct (IH d1) as (d2 & H2 & Ho2).
    { intros q' d' Hin. apply Hq. by right. }
    { rewrite Ho1. etrans; [apply map_filter_subseteq|done]. }
    exists d2. split; [cbn [eachS]; by rewrite (st_bind_run _ _ _ _ _ H1)|].
    rewrite Ho2, Ho1, map_filter_filter. apply map_filter_ext. intros k v _. cbn. rewrite Forall_cons. tauto.
Qed.

(** C36: deleting a directory of a bucket whose listings are not cut off (each of its
    directories has at most the hundred entries that one answer holds), with fuel for its
    depth, succeeds, and leaves exactly the objects whose keys do not start with the directory:
    everything below is deleted at every depth and nothing else is touched. *)
Theorem deleteDir_deletes fuel dir d :
  HasSuffix dir "/" = true → small dir (objects d b) →
  (∀ k, k ∈ keys_below dir (objects d b) → str_len k < fuel + str_len dir) → 0 < fuel →
  ∃ d', deleteDirRecursive fuel b dir d = (Ok tt, d') ∧
    objects d' b = filter (λ kv, HasPrefix kv.1 dir = false) (objects d b).
Proof.
  revert dir d. induction fuel as [|fuel IH]; intros dir d Hdir Hsmall Hfuel Hpos; [lia|].
  destruct (deleteDir_step fuel dir d Hdir) as (es & Hes & ->).
  assert (∀ e, e ∈ take max_keys es ↔ e ∈ entries dir (objects d b)) as Hall.
  { intros e. rewrite <- Hes, take_ge; [done|]. rewrite Hes. apply Hsmall. apply HasPrefix_app. exists ""%string. by rewrite str_app_nil_r. }
  destruct (deleteDirs fuel (objects d b) (CommonPrefixes (listing_of es)) d) as (d1 & H1 & Ho1); [|done|].
  { intros q d1 (k & Hk & He)%(listed_prefix _ _ _ _ Hes) Hd1. pose proof Hk as [Hk1 _]%elem_of_keys_below.
    destruct (entry_prefix dir k q Hk1 He) as (Hq & Hkq & Hqs & Hlen & _).
    apply IH; [done|by eapply small_sub| |].
    - intros k' [Hk' [v Hv]]%elem_of_keys_below. assert (str_len k' < S fuel + str_len dir); [|lia].
      apply Hfuel, elem_of_keys_below. split; [by eapply HasPrefix_trans|]. exists v. by eapply lookup_weaken.
    - specialize (Hfuel k Hk). apply HasPrefix_length in Hkq. lia. }
  rewrite (st_bind_run _ _ _ _ _ H1). destruct (delete_rest_run es d1) as (d2 & -> & Ho2). exists d2. split; [done|].
  rewrite Ho2, Ho1, map_filter_filter. apply map_filter_ext. intros k v Hv. cbn [fst].
  rewrite Forall_forall. split.
  - intros [Hk Hq]. apply not_true_iff_false. intros Hkd.
    assert (entry dir k ∈ take max_keys es) as Hin.
    { apply Hall, elem_of_entries. exists k. split; [done|]. apply elem_of_keys_below. by split; [|exists v]. }
    destruct (entry_cases dir k Hkd) as [He|(u & w & -> & Hu & He)]; rewrite He in Hin.
    + by apply Hk, elem_of_Objects.
    + apply elem_of_CommonPrefixes, Hq in Hin. apply not_true_iff_false in Hin. apply Hin, HasPrefix_app. by exists w.
  - intros Hk. split.
    + intros (Hk' & _)%(listed_object _ _ _ _ Hes). congruence.
    + intros q (k' & [Hk' _]%elem_of_keys_below & He)%(listed_prefix _ _ _ _ Hes).
      apply entry_prefix in He as (Hq & _); [|done]. destruct (HasPrefix k q) eqn:Hkq; [|done].
      by rewrite (HasPrefix_trans _ _ _ Hq Hkq) in Hk.
Qed.

(** A directory with more entries than a listing shows is not empty after it has been deleted,
    whether an error is reported or not: the code does not ask for the rest of the listing. *)
Theorem deleteDir_truncated fuel dir d r d' :
  max_keys < length (entries dir (objects d b)) → deleteDirRecursive fuel b dir d = (r, d') →
  ∃ k, k ∈ keys_below dir (objects d' b).
Proof.
  intros Hlen Hrun. destruct fuel as [|fuel].
  { injection Hrun as <- <-. destruct (entries dir (objects d b)) as [|e es] eqn:He; [cbn in Hlen; lia|].
    assert (e ∈ entries dir (objects d b)) as (k & _ & Hk)%elem_of_entries by (rewrite He; left). by exists k. }
  destruct (HasSuffix dir "/") eqn:Hdir.
  2: { cbn in Hrun. rewrite Hdir in Hrun. injection Hrun as <- <-.
       destruct (entries dir (objects d b)) as [|e es] eqn:He; [cbn in Hlen; lia|].
       assert (e ∈ entries dir (objects d b)) as (k & _ & Hk)%elem_of_entries by (rewrite He; left). by exists k. }
  destruct (deleteDir_step fuel dir d Hdir) as (es & Hes & Hstep). rewrite Hstep in Hrun. clear Hstep.
  destruct (lookup_lt_is_Some_2 es max_keys) as [e He]; [by rewrite Hes|].
  assert (e ∉ take max_keys es) as Hnot.
  { assert (NoDup es) as Hnd by (rewrite Hes; apply NoDup_remove_dups). intros (i & Hi & Hlt)%elem_of_take.
    assert (i = max_keys) by by eapply NoDup_lookup. lia. }
  assert (e ∈ entries dir (objects d b)) as (k & -> & Hk)%elem_of_entries
    by (rewrite <- Hes; by eapply list_elem_of_lookup_2).
  exists k. apply elem_of_keys_below in Hk as [Hkd [v Hv]]. apply elem_of_keys_below. split; [done|]. exists v.
  assert (within (λ d d', objects d' b !! k = objects d b !! k) (eachS (deleteDirRecursive fuel b) (CommonPrefixes (listing_of es)))) as Heach.
  { apply within_eachS; [split; [by intros ?|by intros ??? H1 H2; rewrite H2]|]. intros q Hq d1 r1 d2 H1.
    apply (deleteDir_outside fuel q d1 r1 d2 H1). destruct (HasPrefix k q) eqn:Hkq; [|done].
    pose proof Hq as Hq'. apply (listed_prefix _ _ _ _ Hes) in Hq' as (k' & [Hk' _]%elem_of_keys_below & He').
    apply entry_prefix in He' as (_ & _ & _ & _ & Hall); [|done]. apply elem_of_CommonPrefixes in Hq.
    by rewrite (Hall k Hkq) in Hnot. }
  unfold mbind, st_bind in Hrun. destruct (eachS _ _ d) as [[[]|e| |] d1] eqn:Hd1; specialize (Heach _ _ _ Hd1);
    [|injection Hrun as <- <-; by rewrite Heach..].
  destruct (delete_rest_run es d1) as (d2 & Hd & Ho). rewrite Hd in Hrun. injection Hrun as <- <-.
  rewrite Ho. apply map_lookup_filter_Some_2; [by rewrite Heach|]. cbn.
  intros (_ & Hk' & Hin)%(listed_object _ _ _ _ Hes). by rewrite Hk' in Hnot.
Qed.
End deleting.

(** ** A bucket in memory *)

Lemma entries_size p m : length (entries p m) ≤ size m.
Proof.
  transitivity (length (entry p <$> keys_below p m)).
  - apply submseteq_length, NoDup_submseteq; [apply NoDup_remove_dups|]. intros e. unfold entries. by rewrite elem_of_remove_dups.
  - rewrite length_fmap. unfold keys_below. etrans; [apply length_filter|]. rewrite length_fmap. by rewrite length_map_to_list.
Qed.

Definition bucket_perform {A} (c : call A) : st (gmap string string) A :=
  match c with
  | oss_ListObjects _ p => λ m, (Ok (listing_of (entries p m)), m)
  | oss_DeleteObjects _ ks => λ m, (Ok tt, filter (λ kv, kv.1 ∉ ks) m)
  | oss_IsObjectExist _ k => λ m, (Ok (bool_decide (is_Some (m !! k))), m)
  | _ => fail (Errorf "not a request to a bucket" [])
  end.
Definition bucket_world : World (gmap string string) := {| perform := @bucket_perform; Env := λ _, "x"%string |}.
#[local] Existing Instance bucket_world.
#[local] Program Instance bucket_store : BucketStore (gmap string string) := {| objects := λ m _, m |}.
Next Obligation. intros b p m. by exists (entries p m). Qed.
Next Obligation. intros b ks m. by eexists. Qed.

Definition demo_bucket : gmap string string :=
  list_to_map [("m/1", "x"); ("m/sub/", ""); ("m/sub/2", "y"); ("m/sub/deep/3", "z"); ("n", "w")]%string.
Definition model_bucket : Bucket := mkBucket "x" "x" "x" OSSModelBucketName.

Lemma deleteDir_deletes_witness :
  (∃ d', deleteDirRecursive 20 model_bucket "m/" demo_bucket = (Ok tt, d') ∧
     objects d' model_bucket = filter (λ kv, HasPrefix kv.1 "m/" = false) (objects demo_bucket model_bucket)) ∧
  (deleteDirRecursive 20 model_bucket "m/" demo_bucket).2 = {["n"%string := "w"%string]}.
Proof.
  split; [|by vm_compute].
  apply (deleteDir_deletes model_bucket 20 "m/" demo_bucket).
  - reflexivity.
  - intros p _. etrans; [apply entries_size|]. vm_compute. lia.
  - assert (Forall (λ k, str_len k < 22) (keys_below "m/" demo_bucket)) as Hf by (by vm_compute; repeat constructor; lia).
    intros k Hk. exact (proj1 (Forall_forall _ _) Hf k Hk).
  - lia.
Defined.

(** Of the objects n0, n1, ... of a directory only a hundred are deleted. *)
Definition big_bucket (n : nat) : gmap string string :=
  list_to_map (map (λ i, ("m/n" +:+ pretty (Z.of_nat i), ""%string)) (seq 0 n)).
Example big_directory_not_deleted : size (deleteDirRecursive 20 model_bucket "m/" (big_bucket 103)).2 = 3.
Proof. by vm_compute. Qed.
