(* ===== verification/Cluster.v ===== *)
(** * Clusters and jobs of PAI (go/codegen/pai/cluster_config.go, tensorflow.go, codegen.go)

    The attributes of a statement that describe a cluster are taken out of it before the code is
    generated; the command line of a job has the cluster, the tables and the directory of the
    checkpoint. *)

From S2P Require Import Prelude GoStrings GoState FeatureColumn Ir AttrInit XgbCode NormalStmt ResultTables World Oss.

Local Open Scope Z_scope.

(** ** The cluster

    [WorkerConfig] is also the Go type [PSConfig], which has the same fields. *)

Record WorkerConfig := mkWorkerConfig { Count : Z; GPU : Z; CPU : Z }.
Record ClusterConfig := mkClusterConfig { PS : WorkerConfig; Worker : WorkerConfig; Evaluator : option WorkerConfig }.

Definition cluster_defaults : gmap string Z :=
  list_to_map [("train.num_ps", 0); ("train.num_workers", 1); ("train.worker_cpu", 400); ("train.worker_gpu", 0);
               ("train.ps_cpu", 200); ("train.ps_gpu", 0); ("train.num_evaluator", 0); ("train.evaluator_cpu", 200);
               ("train.evaluator_gpu", 0)]%string.

(** One round of the loop over the defaults: the attribute moves into the map. *)
Definition take_attribute (defaultMap : gmap string Z) (k : string) : st attrs (gmap string Z) :=
  a ← get;
  match a !! k with
  | None => mret defaultMap
  | Some (VInt intValue) => put (delete k a) ≫= λ _, mret (<[k := intValue]> defaultMap)
  | Some _ => fail (Errorf "attribute %s must be int, got: %s" [k])
  end.
Definition take_attributes `{MapOrder} (defaults : gmap string Z) : st attrs (gmap string Z) :=
  foldS take_attribute defaults (range_map defaults).*1.

Definition cluster_of (m : gmap string Z) : result ClusterConfig :=
  let n k := default 0 (m !! k) in
  let workers := n "train.num_workers"%string in
  let ps := n "train.num_ps"%string in
  let ps := if (1 <? workers) && (ps <? 1) then 1 else ps in
  let evaluators := n "train.num_evaluator"%string in
  let cc := mkClusterConfig (mkWorkerConfig ps (n "train.ps_gpu"%string) (n "train.ps_cpu"%string))
              (mkWorkerConfig workers (n "train.worker_gpu"%string) (n "train.worker_cpu"%string)) in
  if evaluators =? 1 then
    Ok (cc (Some (mkWorkerConfig evaluators (n "train.evaluator_gpu"%string) (n "train.evaluator_cpu"%string))))
  else if 1 <? evaluators then Fail (Errorf "train.num_evaluator should only be 1 or 0" [])
  else Ok (cc None).
Definition GetClusterConfig `{MapOrder} : st attrs ClusterConfig := m ← take_attributes cluster_defaults; lift (cluster_of m).

Definition predict_defaults : gmap string Z := {[ "predict.num_workers"%string := 1 ]}.
Definition GetClusterConfig4Pred `{MapOrder} : st attrs ClusterConfig :=
  m ← take_attributes predict_defaults;
  let workers := default 0 (m !! "predict.num_workers"%string) in
  if workers <? 1 then fail (Errorf "invalid predict.num_workers" [])
  else mret (mkClusterConfig (mkWorkerConfig 1 0 0) (mkWorkerConfig workers 0 0) None).

(** [json.Marshal] of a cluster, and [strconv.Quote] of a text of printable ASCII characters. *)
Definition json_worker (w : WorkerConfig) : string :=
  "{" +:+ Join [json_field "count" (pretty (Count w)); json_field "gpu" (pretty (GPU w)); json_field "cpu" (pretty (CPU w))] "," +:+ "}".
Definition json_cluster (c : ClusterConfig) : string :=
  "{" +:+ Join ([json_field "ps" (json_worker (PS c)); json_field "worker" (json_worker (Worker c))] ++
                match Evaluator c with Some w => [json_field "evaluator" (json_worker w)] | None => [] end) "," +:+ "}".
Fixpoint escape_quotes (s : string) : string :=
  match s with
  | EmptyString => EmptyString
  | String c s =>
    if bool_decide (c = of_byte 34 ∨ c = "\"%char) then String "\" (String c (escape_quotes s)) else String c (escape_quotes s)
  end.
Definition Quote_plain (s : string) : string := quoted (escape_quotes s).

(** ** Tables and checkpoints *)

Definition maxComputeTableURL (table : string) : result string :=
  match Split table "." with
  | [project; name] => Ok ("odps://" +:+ project +:+ "/tables/" +:+ name)
  | _ => Fail (Errorf "odps table: %s should be format db.table" [table])
  end.

(** Letters, which become small, and digits. *)
Definition role_rune (ch : Z) : string :=
  if ascii_lower_letter ch || ascii_digit ch then encode_rune ch
  else if ascii_upper_letter ch then encode_rune (ch - 65 + 97)
  else "".
Definition genRoleName (project : string) : string := "pai2oss" +:+ str_concat (map role_rune (runes project)).

(** The host and the arn in the JSON text of the configuration. *)
Class RoleConfig := { unmarshal_role : string → result (string * string) }.

Section commands.
Context `{MapOrder} `{RoleConfig} `{World D}.

Definition getCheckpointDir (ossModelPath project : string) : result string :=
  let ckpJSONStr := Env "SQLFLOW_OSS_CHECKPOINT_CONFIG" in
  if decide (ckpJSONStr = ""%string) then
    Fail (Errorf "need to configure SQLFLOW_OSS_CHECKPOINT_CONFIG when submitting to PAI" [])
  else
    '(host, arn) ← unmarshal_role ckpJSONStr;
    Ok (OSSModelURL ossModelPath +:+ "/?role_arn=" +:+ arn +:+ "/" +:+ genRoleName project +:+ "&host=" +:+ host).

(** The tables of a job: the second one only if it is another one. *)
Definition submit_tables (trainTable valTable : string) : result string :=
  t ← maxComputeTableURL trainTable;
  if decide (trainTable ≠ valTable ∧ valTable ≠ ""%string) then v ← maxComputeTableURL valTable; Ok (t +:+ "," +:+ v)
  else Ok t.
Definition output_table (resTable : string) : result string :=
  if decide (resTable = ""%string) then Ok ""%string else t ← maxComputeTableURL resTable; Ok ("-Doutputs=" +:+ t).
(** [strings.Replace] with the count 0 replaces nothing: the dots of a model's name stay. *)
Definition getTFPAICmd (cc : ClusterConfig) (tarball paramsFile modelName ossModelPath trainTable valTable resTable project : string)
    : result string :=
  let jobName := "sqlflow_" +:+ modelName in
  submitTables ← submit_tables trainTable valTable;
  outputTables ← output_table resTable;
  chkpoint ← getCheckpointDir ossModelPath project;
  let cmd := "pai -name tensorflow1150 -project algo_public_dev -DmaxHungTimeBeforeGCInSeconds=0 -DjobName=" +:+ jobName +:+
             " -Dtags=dnn -Dscript=" +:+ tarball +:+ " -DentryFile=entry.py -Dtables=" +:+ submitTables +:+ " " +:+
             outputTables +:+ " -DhyperParameters=" +:+ quoted paramsFile +:+ " -DcheckpointDir='" +:+ chkpoint +:+ "'" in
  Ok (if 1 <? Count (Worker cc) then cmd +:+ " -Dcluster=" +:+ Quote_plain (json_cluster cc)
      else cmd +:+ " -DgpuRequired='" +:+ pretty (GPU (Worker cc)) +:+ "'").
End commands.

(** ** What the cluster is *)

Definition int_or_absent (a : attrs) (k : string) : Prop :=
  match a !! k with None | Some (VInt _) => True | Some _ => False end.
Definition int_at (a : attrs) (k : string) (d : Z) : Z :=
  match a !! k with Some (VInt z) => z | _ => d end.
#[export] Instance int_or_absent_dec a k : Decision (int_or_absent a k).
Proof. unfold int_or_absent. destruct (a !! k) as [[]|]; apply _. Defined.

Definition without (l : list string) (a : attrs) : attrs := filter (λ kv, kv.1 ∉ l) a.

Lemma without_cons k l a : without l (delete k a) = without (k :: l) a.
Proof.
  apply map_eq. intros j. apply option_eq. intros v. unfold without. rewrite !map_lookup_filter_Some, lookup_delete_Some.
  cbn. rewrite not_elem_of_cons. naive_solver.
Qed.

Section cluster_facts.
Context `{MapOrder}.

Lemma take_attribute_int m k a : int_or_absent a k → is_Some (m !! k) →
  ∃ m', take_attribute m k a = (Ok m', delete k a) ∧ m' !! k = (int_at a k) <$> (m !! k) ∧ ∀ j, j ≠ k → m' !! j = m !! j.
Proof.
  unfold int_or_absent, take_attribute, mbind, st_bind, get, int_at. intros Hk [d Hd].
  destruct (a !! k) as [[]|] eqn:Ha; try done.
  - exists (<[k:=z]> m). rewrite lookup_insert_eq, Hd. split_and!; [done..|]. intros j Hj. by rewrite lookup_insert_ne.
  - exists m. rewrite Hd, delete_id by done. done.
Qed.

Lemma foldS_take l m a : NoDup l → (∀ k, k ∈ l → int_or_absent a k ∧ is_Some (m !! k)) →
  ∃ m', foldS take_attribute m l a = (Ok m', without l a) ∧
    ∀ k, m' !! k = if decide (k ∈ l) then int_at a k <$> m !! k else m !! k.
Proof.
  revert m a. induction l as [|k l IH]; intros m a Hnd Hl.
  - exists m. cbn. split; [|done]. unfold without. rewrite map_filter_id; [done|]. intros; cbn; set_solver.
  - apply NoDup_cons in Hnd as [Hk Hnd]. destruct (Hl k) as [Hi Hm]; [by left|].
    destruct (take_attribute_int m k a Hi Hm) as (m1 & H1 & Hm1 & Ho).
    destruct (IH m1 (delete k a) Hnd) as (m2 & H2 & Hm2).
    { intros j Hj. assert (j ≠ k) as Hjk by (by intros ->). destruct (Hl j) as [Hij Hmj]; [by right|].
      unfold int_or_absent. rewrite lookup_delete_ne by done. by rewrite Ho. }
    exists m2. cbn [foldS]. rewrite (st_bind_run _ _ _ _ _ H1), H2, without_cons. split; [done|].
    intros j. rewrite Hm2. unfold int_at. destruct (decide (j = k)) as [->|Hj].
    + rewrite decide_False by done. rewrite decide_True by left. exact Hm1.
    + rewrite lookup_delete_ne by done. rewrite Ho by done. repeat case_decide; set_solver.
Qed.

Lemma foldS_take_bad l m a k : NoDup l → k ∈ l → ¬ int_or_absent a k → ∃ e a', foldS take_attribute m l a = (Fail e, a').
Proof.
  revert m a. induction l as [|j l IH]; intros m a Hnd Hk Hbad; [by apply not_elem_of_nil in Hk|].
  apply NoDup_cons in Hnd as [Hj Hnd]. cbn [foldS]. unfold mbind, st_bind.
  destruct (decide (j = k)) as [->|Hjk].
  - unfold take_attribute, mbind, st_bind, get. unfold int_or_absent in Hbad.
    destruct (a !! k) as [[]|]; try done; by eexists _, _.
  - apply elem_of_cons in Hk as [->|Hk]; [done|].
    unfold take_attribute, mbind, st_bind, get. destruct (a !! j) as [v|]; [|by apply IH].
    destruct v; try (by eexists _, _). cbn. apply IH; [done..|]. unfold int_or_absent. by rewrite lookup_delete_ne.
Qed.

Lemma range_keys_nodup (m : gmap string Z) : NoDup (range_map m).*1.
Proof. rewrite range_map_perm. apply NoDup_fst_map_to_list. Qed.
Lemma elem_of_range_keys (m : gmap string Z) k : k ∈ (range_map m).*1 ↔ is_Some (m !! k).
Proof.
  rewrite range_map_perm, list_elem_of_fmap. split.
  - intros ([j v] & -> & Hj%elem_of_map_to_list). by exists v.
  - intros [v Hv]. exists (k, v). by rewrite elem_of_map_to_list.
Qed.



Lemma take_attributes_spec (defaults : gmap string Z) a :
  (∀ k, is_Some (defaults !! k) → int_or_absent a k) →
  ∃ m, take_attributes defaults a = (Ok m, filter (λ kv, defaults !! kv.1 = None) a) ∧
    ∀ k d, defaults !! k = Some d → m !! k = Some (int_at a k d).
Proof.
  intros Ha. destruct (foldS_take (range_map defaults).*1 defaults a) as (m & Hm & Hk).
  - apply range_keys_nodup.
  - intros k Hk%elem_of_range_keys. auto.
  - exists m. unfold take_attributes. rewrite Hm. split.
    + f_equal. apply map_filter_ext. intros k v _. cbn. by rewrite elem_of_range_keys, <- eq_None_not_Some.
    + intros k d Hd. rewrite Hk, decide_True by (by apply elem_of_range_keys; exists d). by rewrite Hd.
Qed.

(** C39: the cluster of a job.  When every attribute of the cluster is absent or an integer and
    at most one evaluator is asked for, in every order of the loop over the defaults: the number
    of workers is the attribute, or 1; more than one worker means at least one parameter server;
    there is an evaluator exactly if one was asked for; and exactly the attributes of the
    cluster have been taken out of the statement, so that the generators do not see them. *)
Theorem GetClusterConfig_spec (a : attrs) :
  (∀ k, is_Some (cluster_defaults !! k) → int_or_absent a k) → int_at a "train.num_evaluator" 0 ≤ 1 →
  ∃ cc, GetClusterConfig a = (Ok cc, filter (λ kv, cluster_defaults !! kv.1 = None) a) ∧
    Count (Worker cc) = int_at a "train.num_workers" 1 ∧ CPU (Worker cc) = int_at a "train.worker_cpu" 400 ∧
    GPU (Worker cc) = int_at a "train.worker_gpu" 0 ∧ CPU (PS cc) = int_at a "train.ps_cpu" 200 ∧
    Count (PS cc) = (if (1 <? Count (Worker cc)) then int_at a "train.num_ps" 0 `max` 1 else int_at a "train.num_ps" 0) ∧
    Evaluator cc = (if int_at a "train.num_evaluator" 0 =? 1
                    then Some (mkWorkerConfig 1 (int_at a "train.evaluator_gpu" 0) (int_at a "train.evaluator_cpu" 200)) else None).
Proof.
  intros Ha He. destruct (take_attributes_spec cluster_defaults a Ha) as (m & Hm & Hk).
  unfold GetClusterConfig. rewrite (st_bind_run _ _ _ _ _ Hm). unfold cluster_of.
  rewrite !(Hk "train.num_ps" 0), !(Hk "train.num_workers" 1), !(Hk "train.worker_cpu" 400), !(Hk "train.worker_gpu" 0),
    !(Hk "train.ps_cpu" 200), !(Hk "train.ps_gpu" 0), !(Hk "train.num_evaluator" 0), !(Hk "train.evaluator_cpu" 200),
    !(Hk "train.evaluator_gpu" 0) by reflexivity. cbn [from_option id].
  assert ((1 <? int_at a "train.num_evaluator" 0) = false) as -> by (by apply Z.ltb_ge).
  destruct (_ =? 1) eqn:H1; eexists; (split; [reflexivity|]); cbn [Count GPU CPU Worker PS Evaluator]; split_and!; try done.
  all: try (apply Z.eqb_eq in H1; by rewrite H1).
  all: destruct (1 <? int_at a "train.num_workers" 1); cbn [andb]; [|done]; destruct (Z.ltb_spec (int_at a "train.num_ps" 0) 1); lia.
Qed.

(** The errors: an attribute that is no integer, or more than one evaluator. *)
Lemma GetClusterConfig_Fail (a : attrs) k :
  is_Some (cluster_defaults !! k) → ¬ int_or_absent a k → ∃ e a', GetClusterConfig a = (Fail e, a').
Proof.
  intros Hk Hbad. destruct (foldS_take_bad (range_map cluster_defaults).*1 cluster_defaults a k) as (e & a' & He); [|..|done|].
  - apply range_keys_nodup.
  - by apply elem_of_range_keys.
  - exists e, a'. unfold GetClusterConfig. by apply st_bind_fail.
Qed.
End cluster_facts.

Definition demo_cluster : attrs :=
  list_to_map [("train.num_workers", VInt 2); ("train.num_evaluator", VInt 1); ("train.epoch", VInt 3)]%string.
Lemma GetClusterConfig_spec_witness :
  int_at demo_cluster "train.num_evaluator" 0 ≤ 1 ∧
  ∃ cc, GetClusterConfig demo_cluster = (Ok cc, filter (λ kv, cluster_defaults !! kv.1 = None) demo_cluster) ∧
    Count (Worker cc) = 2 ∧ Count (PS cc) = 1 ∧ is_Some (Evaluator cc).
Proof.
  split; [by vm_compute|].
  destruct (GetClusterConfig_spec demo_cluster) as (cc & Hcc & Hw & _ & _ & _ & Hps & He).
  - intros k [d Hd]. assert (map_Forall (λ k _, int_or_absent demo_cluster k) cluster_defaults) as Hall
      by (apply (bool_decide_unpack _); by vm_compute). exact (Hall k d Hd).
  - by vm_compute.
  - exists cc. split; [exact Hcc|]. rewrite Hps, Hw, He. vm_compute. by split_and!; [..|eexists].
Defined.

(** ** A role's name has letters and digits only *)

Definition role_char (c : ascii) : bool := ascii_lower_letter (byte c) || ascii_digit (byte c).

Lemma role_rune_chars ch : str_forall role_char (role_rune ch) = true.
Proof.
  assert (∀ r, 0 ≤ r < 128 → encode_rune r = char1 (of_byte r)) as Henc.
  { intros r Hr. unfold encode_rune. rewrite (proj2 (Z.ltb_lt r 128)) by lia.
    assert ((r <? 0) || (1114111 <? r) || ((55296 <=? r) && (r <=? 57343)) = false) as -> by lia. reflexivity. }
  assert (∀ r, 0 ≤ r < 128 → ascii_lower_letter r || ascii_digit r = true → str_forall role_char (encode_rune r) = true) as Hr.
  { intros r Hr Ha. rewrite Henc by done. unfold char1. cbn [str_forall]. unfold role_char.
    rewrite byte_of_byte by lia. by rewrite Ha. }
  unfold role_rune. destruct (_ || _) eqn:H1; [|destruct (ascii_upper_letter ch) eqn:H2; [|done]].
  - apply Hr; [|done]. revert H1. unfold ascii_lower_letter, ascii_digit, in_range. lia.
  - revert H2. unfold ascii_upper_letter, in_range. intros H2. apply Hr; [lia|].
    unfold ascii_lower_letter, in_range. apply orb_true_iff. left. lia.
Qed.

Lemma genRoleName_chars project : str_forall role_char (genRoleName project) = true.
Proof.
  unfold genRoleName. rewrite str_forall_app. apply andb_true_iff. split; [reflexivity|].
  induction (runes project) as [|ch l IH]; [done|]. cbn [map]. rewrite str_concat_cons, str_forall_app, IH.
  by rewrite role_rune_chars.
Qed.
