(* ===== verification/PaiCode.v ===== *)
(** * The code and the commands for PAI (go/codegen/pai, go/codegen/alps)

    For a statement the generator gives a Python program, the command line that submits it and
    the text of its requirements; the templates are in Fillers.v. *)

From S2P Require Import Prelude GoStrings GoState Base64 GoFloat FeatureColumn Attribute Ir Verifier AttrInit XgbCode TfCode.
From S2P Require Import OptimizeCode Fillers NormalStmt ResultTables World Oss Cluster.

Local Open Scope Z_scope.

(** ** The generators' entry points *)

Section generators.
Context `{UnicodeTables} `{MapOrder} `{ColumnText} `{CodegenEnv}.
Notation pai := (IsPAI SQLFLOW_submitter).

(** go/codegen/xgboost: [Train] is [DistTrain] with one worker. *)
Definition xgb_DistTrain (stmt : TrainStmt FieldDesc) (s : pb_Session) (nworkers : Z) (ossURIToSave ossURIToLoad : string) : result string :=
  r ← newTrainFiller pai stmt s ossURIToSave ossURIToLoad; Execute (FXgbTrain (1 <? nworkers) r).
Definition xgb_Train (stmt : TrainStmt FieldDesc) (s : pb_Session) : result string := xgb_DistTrain stmt s 1 "" "".
Definition xgb_Pred (stmt : PredictStmt FieldDesc) (s : pb_Session) : result string :=
  r ← xgb_predFiller pai stmt s; Execute (FXgbPred r).
Definition xgb_Evaluate (stmt : EvaluateStmt FieldDesc) (s : pb_Session) : result string :=
  r ← xgb_evalFiller pai stmt s; Execute (FXgbEval r).
Definition xgb_Explain (stmt : ExplainStmt FieldDesc) (s : pb_Session) : result string :=
  r ← xgb_explainFiller pai stmt s; Execute (FXgbExplain r).
(** go/codegen/tensorflow *)
Definition tf_Train (stmt : TrainStmt FieldDesc) (s : pb_Session) : result string :=
  r ← tf_Train_filler pai stmt s; Execute (FTfTrain r).
Definition tf_Pred (stmt : PredictStmt FieldDesc) (s : pb_Session) : result string :=
  r ← tf_Pred_filler stmt s; Execute (FTfPred r).
Definition tf_Evaluate (stmt : EvaluateStmt FieldDesc) (s : pb_Session) : result string :=
  r ← tf_Evaluate_filler stmt s; Execute (FTfEval r).
Definition tf_Explain (stmt : ExplainStmt FieldDesc) (s : pb_Session) : result string :=
  r ← tf_Explain_filler stmt s; Execute (FTfExplain r).
(** go/codegen/optimize *)
Definition GenerateOptimizeCode `{DSNParsers} (open : string → result DB) (stmt : OptimizeStmt FieldDesc) (s : pb_Session)
    (tableName : string) (useOptFlow : bool) : result string :=
  f ← optimize_filler open stmt s tableName useOptFlow;
  Execute (match f with inl f => FPyomo f | inr f => FOptFlow f end).
(** go/codegen/alps *)
Definition alps_Train (stmt : TrainStmt FieldDesc) (s : pb_Session) : result string :=
  let '(trainParams, validateParams, modelParams) := CategorizeAttributes (t_Attributes stmt) in
  '(codes, descs) ← tf_DeriveFeatureColumnCodeAndFieldDescs stmt;
  y ← first_desc (t_Label stmt);
  Execute (FAlpsTrain (mkAlpsTrainFiller (DbConnStr s) (t_Select stmt) (ValidationSelect stmt) (t_Estimator stmt) descs
    (column_map_code codes) y modelParams trainParams validateParams (t_Into stmt) (TmpTrainTable stmt) (TmpValidateTable stmt))).

(** ** PAI's own algorithms *)

(** The names of the columns and their types, in order. *)
Definition getColumnTypes (slct : string) (db : DB) : result (list string * list string) :=
  rows ← Query db slct;
  r ← first_row slct rows;
  match r with
  | None => Ok ([], [])
  | Some cts => Ok (map (λ ct, (Decomp (ct_Name ct)).2) cts, map DatabaseTypeName cts)
  end.

Definition column_names (fs : features FieldDesc) : result (list string) :=
  mapR (λ fc, d ← first_desc fc; Ok (Name d)) (concat (range_map fs).*2).
Definition getTrainRandomForestsPAICmd (stmt : TrainStmt FieldDesc) : result string :=
  treeNum ← match t_Attributes stmt !! "tree_num"%string with None => Ok 1 | Some (VInt n) => Ok n | Some _ => Panic end;
  featureCols ← column_names (Features stmt);
  label ← first_desc (t_Label stmt);
  Ok ("pai -name randomforests -DinputTableName=" +:+ quoted (TmpTrainTable stmt) +:+ " -DmodelName=" +:+ quoted (t_Into stmt) +:+
      " -DlabelColName=" +:+ quoted (Name label) +:+ " -DfeatureColNames=" +:+ quoted (Join featureCols ",") +:+
      " -DtreeNum=" +:+ quoted (pretty treeNum)).

Definition parseExcludedColsMap (a : attrs) : result (gset string) :=
  match a !! "excluded_columns"%string with
  | Some (VString s) => Ok (if decide (s = ""%string) then ∅ else list_to_set (Split s ","))
  | _ => Panic
  end.
(** The command and the table that is dropped. *)
Definition kmeans_command (stmt : TrainStmt FieldDesc) : result (string * string) :=
  stmt ← InitializeKMeansAttributes stmt;
  let a := t_Attributes stmt in
  centerCount ← match a !! "center_count"%string with Some (VInt n) => Ok n | _ => Panic end;
  idxTableName ← match a !! "idx_table_name"%string with Some (VString t) => Ok t | _ => Panic end;
  if decide (idxTableName = ""%string) then
    Fail (Errorf ("should set " +:+ quoted "idx_table_name" +:+ " in WITH clause") [])
  else
    excluded ← parseExcludedColsMap a;
    featureCols ← column_names (Features stmt);
    let selectedCols := filter (λ c, c ∉ excluded) featureCols in
    Ok ("pai -name kmeans -project algo_public -DinputTableName=" +:+ TmpTrainTable stmt +:+ " -DcenterCount=" +:+ pretty centerCount +:+
        " -DmodelName " +:+ t_Into stmt +:+ " -DidxTableName=" +:+ idxTableName +:+ " -DselectedColNames=" +:+ Join selectedCols "," +:+
        " -DappendColNames=" +:+ quoted (Join featureCols ","), idxTableName).

(** A label column that is no text differs from every field, and panics when it is printed. *)
Definition explain_forest_command (stmt : ExplainStmt FieldDesc) (flds : list string) : result string :=
  match e_Attributes stmt !! "label_column"%string with
  | None => Fail (Errorf "must specify WITH label_column when using pai random forest to explain models" [])
  | Some (VString labelCol) =>
    Ok ("pai -name feature_importance -project algo_public -DmodelName=" +:+ quoted (e_ModelName stmt) +:+
        " -DinputTableName=" +:+ quoted (TmpExplainTable stmt) +:+ "  -DoutputTableName=" +:+ quoted (e_Into stmt) +:+
        " -DlabelColName=" +:+ quoted labelCol +:+ " -DfeatureColNames=" +:+ quoted (Join (filter (λ f, f ≠ labelCol) flds) ","))
  | Some _ => Panic
  end.
End generators.

(** ** Code, command and requirements for a statement *)

Section pai.
Context `{UnicodeTables} `{MapOrder} `{ColumnText} `{CodegenEnv} `{DSNParsers} `{RoleConfig} `{World D} `{TableDB D}.
Variable (session : pb_Session).
Notation pai := (IsPAI SQLFLOW_submitter).

(** [database.OpenAndConnectDB], and what queries give through the connection. *)
Definition connect : st D DB := perform (database_Open (DbConnStr session)) ≫= λ _, d ← get; mret (view d).
(** A statement whose error is not looked at. *)
Definition exec_ignored (stmt : string) : st D unit := attempt (ExecTable stmt) ≫= λ _, mret tt.

Definition getTrainKMeansPAICmd (stmt : TrainStmt FieldDesc) : st D string :=
  '(cmd, idxTableName) ← lift (kmeans_command stmt);
  connect ≫= λ _,
  ExecTable (drop_if_exists idxTableName) ≫= λ _, mret cmd.
Definition getExplainRandomForestsPAICmd (stmt : ExplainStmt FieldDesc) : st D string :=
  db ← connect;
  '(flds, _) ← lift (getColumnTypes (e_Select stmt) db);
  exec_ignored (drop_if_exists (e_Into stmt)) ≫= λ _,
  lift (explain_forest_command stmt flds).
Definition getPAIPredictCmd (stmt : PredictStmt FieldDesc) : st D string :=
  db ← connect;
  '(flds, _) ← lift (getColumnTypes (p_Select stmt) db);
  exec_ignored (drop_if_exists (ResultTable stmt)) ≫= λ _,
  mret ("pai -name prediction -DmodelName=" +:+ quoted (Using stmt) +:+ " -DinputTableName=" +:+ quoted (TmpPredictTable stmt) +:+
        " -DoutputTableName=" +:+ quoted (ResultTable stmt) +:+ " -DfeatureColNames=" +:+ quoted (Join flds ",") +:+
        " -DappendColNames=" +:+ quoted (Join flds ","))%string.
(** Only these two estimators leave a model in PAI. *)
Definition CleanupPAIModel (stmt : TrainStmt FieldDesc) : st D unit :=
  if decide (t_Estimator stmt = "kmeans" ∨ t_Estimator stmt = "randomforests")%string then
    connect ≫= λ _, ExecTable ("DROP OFFLINEMODEL IF EXISTS " +:+ t_Into stmt)
  else mret tt.

(** The attributes that the cluster is described by are taken out of the statement. *)
Definition on_attrs {A} (m : st attrs A) (a : attrs) : result (A * attrs) :=
  match m a with
  | (Ok x, a) => Ok (x, a)
  | (Fail e, _) => Fail e
  | (Panic, _) => Panic
  | (NoFuel, _) => NoFuel
  end.
Definition genRequirements (isXGBoost : bool) : result string := Execute (FRequirements isXGBoost).

(** *** Training *)

Definition generateLoadOSSModelCode (estimator ossModelPathToLoad : string) : result string :=
  if decide (ossModelPathToLoad = ""%string) then Ok ""%string
  else Execute (FPaiLoad (mkLoadModelFiller ossModelPathToLoad estimator)).
Definition has_validation (a : attrs) : result bool :=
  match a !! "validation.select"%string with
  | None => Ok false
  | Some (VString s) => Ok (negb (bool_decide (s = ""%string)))
  | Some _ => Panic
  end.
Definition TFTrainWithLoadAndSave (stmt : TrainStmt FieldDesc) (modelPathToSave modelPathToLoad : string) (cc : ClusterConfig)
    : result string :=
  hasVal ← has_validation (t_Attributes stmt);
  if (1 <? Count (Worker cc)) && negb hasVal then Fail (Errorf "Distributed training must specify WITH validation.select" [])
  else
    loadCode ← generateLoadOSSModelCode (t_Estimator stmt) modelPathToLoad;
    trainCode ← tf_Train stmt session;
    Ok (loadCode +:+ nl +:+ trainCode).

Definition pai_Train (stmt : TrainStmt FieldDesc) (tarball paramsFile modelName ossModelPathToSave ossModelPathToLoad : string)
    : st D (string * string * string) :=
  '(cc, a) ← lift (on_attrs GetClusterConfig (t_Attributes stmt));
  let stmt := set_Attributes a stmt in
  currProject ← lift (GetDatabaseName (DbConnStr session));
  let estimator := ToLower (t_Estimator stmt) in
  let cmd := getTFPAICmd cc tarball paramsFile modelName ossModelPathToSave (TmpTrainTable stmt) (TmpValidateTable stmt) "" currProject in
  if decide (estimator = "randomforests"%string) then
    paiCmd ← lift (getTrainRandomForestsPAICmd stmt); mret (""%string, paiCmd, ""%string)
  else if decide (estimator = "kmeans"%string) then
    paiCmd ← getTrainKMeansPAICmd stmt; mret (""%string, paiCmd, ""%string)
  else if HasPrefix estimator "xgboost" then
    let load := if decide (ossModelPathToLoad = ""%string) then ""%string else OSSModelURL ossModelPathToLoad in
    code ← lift (xgb_DistTrain stmt session (Count (Worker cc)) (OSSModelURL ossModelPathToSave) load);
    paiCmd ← lift cmd;
    requirements ← lift (genRequirements true);
    mret (code, paiCmd, requirements)
  else
    code ← lift (TFTrainWithLoadAndSave stmt ossModelPathToSave ossModelPathToLoad cc);
    paiCmd ← lift cmd;
    requirements ← lift (genRequirements false);
    mret (code, paiCmd, requirements).

(** *** Prediction *)

Definition TFLoadAndPredict (stmt : PredictStmt FieldDesc) (modelPath : string) : result string :=
  predParams ← json_map json_attr (resolveParams (p_Attributes stmt) "predict.");
  Execute (FPaiPredict (mkPaiPredictFiller (OSSModelURL modelPath) (DbConnStr session) (p_Select stmt) (ResultTable stmt)
    (ResultColumn stmt) (pai_table pai (TmpPredictTable stmt) (TmpPredictTable stmt)) (Using stmt) predParams)).
Definition set_p_Attributes (a : attrs) (s : PredictStmt FieldDesc) : PredictStmt FieldDesc :=
  mkPredictStmt (p_OriginalSQL s) (p_Select s) (ResultTable s) (ResultColumn s) a (Using s) (p_TrainStmt s) (TmpPredictTable s).

(** What a failed [genRequirements] leaves in the named results: the code that calls it for a
    prediction goes on, and returns its error only if it returns before the next assignment. *)
Definition try_requirements (isXGBoost : bool) : result (string * option error) :=
  match genRequirements isXGBoost with
  | Ok r => Ok (r, None)
  | Fail e => Ok (""%string, Some e)
  | Panic => Panic
  | NoFuel => NoFuel
  end.
Definition return_named (x : string * string * string) (e : option error) : result (string * string * string) :=
  match e with Some e => Fail e | None => Ok x end.

(** An error of the cluster's configuration is looked at, but what is returned are the named
    results, which do not have it. *)
Definition pai_predict_xgb (stmt : PredictStmt FieldDesc) (tarball paramsFile modelName ossModelPath currProject : string)
    : result (string * string * string) :=
  '(requirements, _) ← try_requirements true;
  code ← Execute (FPaiXgbPredict (mkXgbPredictFiller (OSSModelURL ossModelPath) (DbConnStr session) (p_Select stmt)
    (ResultTable stmt) (ResultColumn stmt) (HdfsNamenodeAddr session) (HiveLocation session) (HdfsUser session)
    (HdfsPass session) (pai_table pai (TmpPredictTable stmt) (TmpPredictTable stmt))));
  match on_attrs GetClusterConfig4Pred (p_Attributes stmt) with
  | Ok (cc, _) =>
    paiCmd ← getTFPAICmd cc tarball paramsFile modelName ossModelPath (TmpPredictTable stmt) "" (ResultTable stmt) currProject;
    Ok (code, paiCmd, requirements)
  | Fail _ => Ok (code, ""%string, requirements)
  | Panic => Panic
  | NoFuel => NoFuel
  end.
Definition pai_predict_tf (stmt : PredictStmt FieldDesc) (tarball paramsFile modelName ossModelPath currProject : string)
    : result (string * string * string) :=
  '(requirements, e) ← try_requirements false;
  match on_attrs GetClusterConfig (p_Attributes stmt) with
  | Ok (cc, a) =>
    let stmt := set_p_Attributes a stmt in
    code ← TFLoadAndPredict stmt ossModelPath;
    paiCmd ← getTFPAICmd cc tarball paramsFile modelName ossModelPath (TmpPredictTable stmt) "" (ResultTable stmt) currProject;
    Ok (code, paiCmd, requirements)
  | Fail _ => return_named (""%string, ""%string, requirements) e
  | Panic => Panic
  | NoFuel => NoFuel
  end.
Definition pai_Predict (stmt : PredictStmt FieldDesc) (tarball paramsFile modelName ossModelPath : string) (modelType : Z)
    : st D (string * string * string) :=
  currProject ← lift (GetDatabaseName (DbConnStr session));
  if decide (modelType = PAIML) then
    paiCmd ← getPAIPredictCmd stmt; mret (""%string, paiCmd, ""%string)
  else if decide (modelType = XGBOOST) then lift (pai_predict_xgb stmt tarball paramsFile modelName ossModelPath currProject)
  else lift (pai_predict_tf stmt tarball paramsFile modelName ossModelPath currProject).

(** *** Explanation *)

Record ExplainRender := mkExplainRender {
  x_Code : string; PaiCmd : string; Requirements : string;
  x_endpoint : string; x_ak : string; x_sk : string; x_bucket : string; x_key : string
}.
Definition newExplainRender (userID : string) : st D ExplainRender :=
  now ← perform time_Now;
  mret (mkExplainRender "" "" "" (Env "SQLFLOW_OSS_ALISA_ENDPOINT") (Env "SQLFLOW_OSS_AK") (Env "SQLFLOW_OSS_SK")
          (Env "SQLFLOW_OSS_ALISA_BUCKET") ("explain_images/" +:+ userID +:+ "/" +:+ now)).
Definition readAsHTML (body : string) : string :=
  "<div align='center'><img src='data:image/png;base64," +:+ EncodeToString body +:+ "' /></div>".
Definition Draw (expn : ExplainRender) : st D string :=
  let b := mkBucket (x_endpoint expn) (x_ak expn) (x_sk expn) (x_bucket expn) in
  perform (oss_New b) ≫= λ _,
  body ← perform (oss_GetObject b (x_key expn));
  mret (readAsHTML body).
Definition rendered (expn : ExplainRender) (code paiCmd requirements : string) : ExplainRender :=
  mkExplainRender code paiCmd requirements (x_endpoint expn) (x_ak expn) (x_sk expn) (x_bucket expn) (x_key expn).

Definition TFLoadAndExplain (stmt : ExplainStmt FieldDesc) (modelPath : string) (expn : ExplainRender) : result string :=
  Execute (FPaiExplain (mkPaiExplainFiller (OSSModelURL modelPath) (DbConnStr session) (e_Select stmt) (e_Into stmt) pai
    (pai_table pai (TmpExplainTable stmt) (TmpExplainTable stmt)) (x_key expn) (x_ak expn) (x_sk expn) (x_endpoint expn)
    (x_bucket expn))).
Definition xgb_explain_code (stmt : ExplainStmt FieldDesc) (modelPath : string) (expn : ExplainRender) : result string :=
  Execute (FPaiXgbExplain (mkXgbExplainFiller (OSSModelURL modelPath) (DbConnStr session) (e_Select stmt) (e_Into stmt)
    (e_Explainer stmt) pai (TmpExplainTable stmt) (HdfsNamenodeAddr session) (HiveLocation session) (HdfsUser session)
    (HdfsPass session) (x_key expn) (x_ak expn) (x_sk expn) (x_endpoint expn) (x_bucket expn))).
Definition pai_Explain (stmt : ExplainStmt FieldDesc) (tarball paramsFile modelName ossModelPath : string) (modelType : Z)
    : st D ExplainRender :=
  '(cc, a) ← lift (on_attrs GetClusterConfig (e_Attributes stmt));
  let stmt := mkExplainStmt (e_OriginalSQL stmt) (e_Select stmt) a (e_Explainer stmt) (e_ModelName stmt) (e_Into stmt)
                (TmpExplainTable stmt) (e_TrainStmt stmt) in
  currProject ← lift (GetDatabaseName (DbConnStr session));
  expn ← newExplainRender (UserId session);
  let cmd := getTFPAICmd cc tarball paramsFile modelName ossModelPath (TmpExplainTable stmt) "" (e_Into stmt) currProject in
  if decide (modelType = PAIML) then
    if decide (e_Into stmt = ""%string) then
      fail (Errorf "explain PAI random forests model need INTO clause to output the explain result to a table" [])
    else
      requirements ← lift (genRequirements false);
      paiCmd ← getExplainRandomForestsPAICmd stmt;
      mret (rendered expn "" paiCmd requirements)
  else
    let xgb := bool_decide (modelType = XGBOOST) in
    requirements ← lift (genRequirements xgb);
    code ← lift (if xgb then xgb_explain_code stmt ossModelPath expn else TFLoadAndExplain stmt ossModelPath expn);
    paiCmd ← lift cmd;
    mret (rendered expn code paiCmd requirements).

(** *** Evaluation *)

(** The attribute that is read has a name that no statement can give: it is the default. *)
Definition validation_metrics (a : attrs) (name dflt : string) : result string :=
  match a !! name with None => Ok dflt | Some (VString s) => Ok s | Some _ => Panic end.
Definition TFLoadAndEvaluate (stmt : EvaluateStmt FieldDesc) (modelPath : string) : result string :=
  metrics ← validation_metrics (v_Attributes stmt) "validationMetrics" "Accuracy";
  Execute (FPaiEvaluate (mkPaiEvaluateFiller (OSSModelURL modelPath) (DbConnStr session) (v_Select stmt) (v_Into stmt) pai
    (pai_table pai (TmpEvaluateTable stmt) (TmpEvaluateTable stmt)) metrics)).
Definition xgb_evaluate_code (stmt : EvaluateStmt FieldDesc) (modelPath : string) : result string :=
  metrics ← validation_metrics (v_Attributes stmt) "validation.metrics" "accuracy_score";
  Execute (FPaiXgbEvaluate (mkXgbEvaluateFiller (OSSModelURL modelPath) (DbConnStr session) (v_Select stmt) (v_Into stmt)
    metrics (HdfsNamenodeAddr session) (HiveLocation session) (HdfsUser session) (HdfsPass session)
    (pai_table pai (TmpEvaluateTable stmt) (TmpEvaluateTable stmt)))).
Definition set_v_Attributes (a : attrs) (s : EvaluateStmt FieldDesc) : EvaluateStmt FieldDesc :=
  mkEvaluateStmt (v_OriginalSQL s) (v_Select s) a (v_ModelName s) (v_Label s) (v_Into s) (TmpEvaluateTable s) (v_TrainStmt s).
Definition pai_Evaluate (stmt : EvaluateStmt FieldDesc) (tarball paramsFile modelName ossModelPath : string) (modelType : Z)
    : result (string * string * string) :=
  '(cc, a) ← on_attrs GetClusterConfig (v_Attributes stmt);
  let stmt := set_v_Attributes a stmt in
  currProject ← GetDatabaseName (DbConnStr session);
  if decide (modelType = PAIML) then Fail (Errorf "evaluate PAI ML model is not supported for now" [])
  else
    let xgb := bool_decide (modelType = XGBOOST) in
    requirements ← genRequirements xgb;
    code ← (if xgb then xgb_evaluate_code stmt ossModelPath else TFLoadAndEvaluate stmt ossModelPath);
    paiCmd ← getTFPAICmd cc tarball paramsFile modelName ossModelPath (TmpEvaluateTable stmt) "" (v_Into stmt) currProject;
    Ok (code, paiCmd, requirements).

(** ** An error that is lost

    A prediction with an attribute of the cluster that is no integer is not refused: without an
    error it gives no code and no command. *)
Theorem predict_config_error_lost (stmt : PredictStmt FieldDesc) (tarball paramsFile modelName path project req : string) (k : string) :
  is_Some (cluster_defaults !! k) → ¬ int_or_absent (p_Attributes stmt) k → genRequirements false = Ok req →
  pai_predict_tf stmt tarball paramsFile modelName path project = Ok (""%string, ""%string, req).
Proof.
  intros Hk Hbad Hreq. destruct (GetClusterConfig_Fail (p_Attributes stmt) k Hk Hbad) as (e & a & He).
  unfold pai_predict_tf, try_requirements. rewrite Hreq. cbn [mbind result_bind]. unfold on_attrs. by rewrite He.
Qed.
End pai.

(** ** An example *)
#[export] Instance no_role : RoleConfig := {| unmarshal_role _ := Ok ("host", "arn")%string |}.

Definition demo_predict : PredictStmt FieldDesc :=
  mkPredictStmt "" "SELECT * FROM t" "p" "class" {[ "train.num_workers"%string := VString "two" ]} "m" None "d.tmp".

#[local] Existing Instance bucket_world.
Definition demo_requirements : string := match genRequirements false with Ok s => s | _ => ""%string end.
Lemma predict_config_error_lost_witness :
  ¬ int_or_absent (p_Attributes demo_predict) "train.num_workers" ∧
  pai_predict_tf demo_session demo_predict "t" "p" "m" "path" "d" = Ok ("", "", demo_requirements)%string.
Proof.
  split; [by vm_compute; intros []|].
  apply (predict_config_error_lost demo_session demo_predict "t" "p" "m" "path" "d" demo_requirements "train.num_workers").
  - by exists 1.
  - vm_compute. by intros [].
  - vm_compute. reflexivity.
Defined.
