(* ===== verification/TmpTables.v ===== *)
(** * Temporary tables (go/executor/pai.go)

    PAI reads tables, not SELECT statements: before a job is submitted the result of the SELECT
    is stored in a table with a random name, which is dropped when the job has ended. *)

From S2P Require Import Prelude GoStrings GoState Ir NormalStmt ResultTables World.

Local Open Scope Z_scope.

Definition lifecycleOnTmpTable : Z := 7.
Definition create_tmp_stmt (tableName selectStmt : string) : string :=
  "CREATE TABLE " +:+ tableName +:+ " LIFECYCLE " +:+ pretty lifecycleOnTmpTable +:+ " AS " +:+ selectStmt.
Definition drop_stmt (tbName : string) : string := "DROP TABLE " +:+ tbName.

Section tables.
Context `{World D} `{TableDB D} `{DSNParsers}.

Definition createTmpTableFromSelect (selectStmt dataSource : string) : st D (string * string) :=
  perform (database_Open dataSource) ≫= λ _,
  tableName ← perform (randstring_Generate 16);
  databaseName ← lift (GetDatabaseName dataSource);
  ExecTable (create_tmp_stmt tableName selectStmt) ≫= λ _,
  mret (databaseName, tableName).
Definition qualified (t : string * string) : string := Join [t.1; t.2] ".".

Definition dropTmpTables (tableNames : list string) (dataSource : string) : st D unit :=
  perform (database_Open dataSource) ≫= λ _,
  eachS (λ tbName, if decide (tbName = ""%string) then mret tt else ExecTable (drop_stmt tbName)) tableNames.

(** When the second table cannot be created the name of the first is not returned. *)
Definition createTempTrainAndValTable (trainSelect validSelect datasource : string) : st D (string * string) :=
  t ← createTmpTableFromSelect trainSelect datasource;
  if decide (validSelect = ""%string) then mret (qualified t, ""%string)
  else v ← createTmpTableFromSelect validSelect datasource; mret (qualified t, qualified v).
End tables.
