(* ===== verification/PyExecutor.v ===== *)
(** * The executor that runs Python programs (go/executor/executor.go, go/executor/cmd.go)

    A statement becomes a Python program, which is given to an interpreter on its standard
    input; what it prints goes to the pipe line by line, and if it fails its error output is
    searched for a diagnosis. *)

From S2P Require Import Prelude GoStrings GoState GoConv Base64 GoFloat Response FeatureColumn Verifier Ir AttrInit XgbCode TfCode.
From S2P Require Import OptimizeCode NormalStmt LogWriter ResultTables World Oss Cluster PaiCode TmpTables.

Local Open Scope nat_scope.

(** ** The diagnosis in an error output

    The expression is runtime.diagnostics.SQLFlowDiagnostic: with what follows on the line as
    its submatch; its dots are any rune but a newline. *)
Definition any_rune (s : string) : option string :=
  match s with
  | EmptyString => None
  | String c _ => if decide (c = of_byte 10) then None else Some (str_drop (decode_rune s).2 s)
  end.
Definition literal (l s : string) : option string := if HasPrefix s l then Some (str_drop (str_len l) s) else None.
Definition until_newline (s : string) : string :=
  match Index s newline with Some i => str_take i s | None => s end.
Definition diagnostic_at (s : string) : option string :=
  s ← literal "runtime" s; s ← any_rune s; s ← literal "diagnostics" s; s ← any_rune s;
  s ← literal "SQLFlowDiagnostic: " s; Some (until_newline s).
Fixpoint find_diagnostic (s : string) : option string :=
  match diagnostic_at s with
  | Some m => Some m
  | None => match s with String _ s => find_diagnostic s | EmptyString => None end
  end.

(** [filepath.Ext]: from the last dot of the last element of the path. *)
Definition file_Ext (path : string) : string :=
  let base := match LastIndexByte path "/" with Some i => str_drop (S i) path | None => path end in
  match LastIndexByte base "." with Some i => str_drop i base | None => "" end.

Section executor.
Context `{UnicodeTables} `{MapOrder} `{ColumnText} `{CodegenEnv} `{DSNParsers}.
Context `{World D} `{TableDB D} `{Session D} `{ModelStore D}.

(** ** Commands *)

Definition tryRun (args : list string) : st D bool :=
  o ← perform (exec_Command (mkCommand args "" ""));
  mret (match cmd_error o with None => true | Some _ => false end).
Definition hasPython : st D bool := tryRun ["python"; "-V"].
Definition hasTensorFlow : st D bool := tryRun ["python"; "-c"; "import tensorflow"].
Definition hasDatabaseConnector (driverName : string) : st D bool :=
  if decide (driverName = "hive"%string) then tryRun ["python"; "-c"; "from impala.dbapi import connect"]
  else if decide (driverName = "mysql"%string) then tryRun ["python"; "-c"; "from MySQLdb import connect"]
  else if decide (driverName = "maxcompute"%string) then tryRun ["python"; "-c"; "from odps import ODPS"]
  else mret false.
Definition hasDocker : st D bool := tryRun ["docker"; "version"].
Definition andS (m k : st D bool) : st D bool := b ← m; if b : bool then k else mret false.

(** Without Python and Docker the process ends.  (The program looks for the Docker image too,
    and does nothing with the answer.) *)
Definition python_cmd (cwd : string) : command := mkCommand ["python"; "-u"] cwd "".
Definition docker_cmd (cwd : string) : command :=
  mkCommand ["docker"; "run"; "--rm"; "-v" +:+ cwd +:+ ":/work"; "-w/work"; "--network=host"; "-i"; "sqlflow/sqlflow"; "python"] "" "".
Definition sqlflowCmd (cwd driverName : string) : st D command :=
  ready ← andS hasPython (andS hasTensorFlow (hasDatabaseConnector driverName));
  if ready : bool then mret (python_cmd cwd)
  else
    docker ← hasDocker;
    if docker : bool then
      tryRun ["docker"; "images"; "-q"; "sqlflow/sqlflow"] ≫= λ _, mret (docker_cmd cwd)
    else
      python ← hasPython;
      if python : bool then mret (python_cmd cwd) else lift Panic.

(** [io.MultiWriter(cw, &buf)]: what got into the buffer, and the error of the pipe. *)
Fixpoint multi_write (collected : string) (pieces : list string) : st (logChanWriter * D) (string * option error) :=
  match pieces with
  | [] => mret (collected, None)
  | p :: pieces =>
    '(_, e) ← log_Write p;
    match e with Some e => mret (collected, Some e) | None => multi_write (collected +:+ p) pieces end
  end.
Definition logged (pieces : list string) : st D (string * option error) :=
  with_local (mkLogChanWriter "" "") (defer log_Close (multi_write "" pieces)).

(** The error output, if the command or the pipe failed.  The errors of [os.Setenv] are not
    looked at; the error of the command goes before that of the pipe. *)
Definition runCommand (cmd : command) (context : gmap string string) (logStderr : bool) : st D (string * option error) :=
  eachS (λ '(k, v), attempt (perform (os_Setenv k v)) ≫= λ _, mret tt) (range_map context) ≫= λ _,
  o ← perform (exec_Command cmd);
  '(collected, e) ← logged (if logStderr then cmd_Stderr o else cmd_Stdout o);
  let stderr := if logStderr then collected else str_concat (cmd_Stderr o) in
  match cmd_error o, e with
  | Some e, _ | None, Some e => mret (stderr, Some e)
  | None, None => mret (""%string, None)
  end.

Variables (Cwd : string) (session : pb_Session).

Definition program_error (e : error) (program errorLog : string) : error :=
  match find_diagnostic errorLog with
  | Some m => Errorf "%s" [m]
  | None => Errorf "failed: %v\n%sGenerated Code:%[2]s\n%s\n%[2]sOutput%[2]s\n%[4]v" [err_format e; "=========="%string; program; errorLog]
  end.
Definition runProgram (program : string) (logStderr : bool) : st D unit :=
  d ← get;
  cmd ← sqlflowCmd Cwd (DriverName (view d));
  '(errorLog, e) ← runCommand (mkCommand (cmd_Args cmd) (cmd_Dir cmd) program) ∅ logStderr;
  match e with Some e => fail (program_error e program errorLog) | None => mret tt end.

(** ** Statements *)

Definition is_xgboost (t : TrainStmt FieldDesc) : bool := match GetModelKind t with XGBoost => true | _ => false end.
Definition write_ignored (m : message) : st D unit := attempt (WriteItem m) ≫= λ _, mret tt.

Definition py_ExecuteTrain (cl : TrainStmt FieldDesc) : st D unit :=
  code ← lift (if is_xgboost cl then xgb_Train cl session else tf_Train cl session);
  runProgram code false ≫= λ _,
  SaveModel Cwd (t_OriginalSQL cl) (t_Into cl) session.

Definition py_ExecutePredict (cl : PredictStmt FieldDesc) : st D unit :=
  createPredictionResultTable cl ≫= λ _,
  t ← lift (or_panic (p_TrainStmt cl));
  code ← lift (if is_xgboost t then xgb_Pred cl session else tf_Pred cl session);
  runProgram code false.

Definition readExplainResult (target : string) : st D string :=
  body ← perform (ioutil_ReadFile target); mret (readAsHTML body).
Definition show_figures : st D unit :=
  img ← readExplainResult (path_Join [Cwd; "summary.png"]);
  termFigure ← perform (ioutil_ReadFile (path_Join [Cwd; "summary.txt"]));
  write_ignored (MFigures img termFigure).
(** The error of the generator is looked at when the table for the result has been created. *)
Definition py_ExecuteExplain (cl : ExplainStmt FieldDesc) : st D unit :=
  connect session ≫= λ _,
  t ← lift (or_panic (e_TrainStmt cl));
  let xgb := is_xgboost t in
  code ← attempt (lift (if xgb then xgb_Explain cl session else tf_Explain cl session));
  (if decide (e_Into cl = ""%string) then mret tt
   else createExplainResultTable cl (e_Into cl) (if xgb then XGBOOST else TENSORFLOW) (t_Estimator t)) ≫= λ _,
  match code with
  | inr e => fail e
  | inl code =>
    runProgram code false ≫= λ _,
    if decide (e_Into cl = ""%string) then show_figures else mret tt
  end.

(** The names of the columns; an attribute that is no text panics. *)
Definition metric_columns (a : attrs) : result (list string) :=
  match a !! "validation.metrics"%string with
  | None => Ok ["loss"%string]
  | Some (FeatureColumn.VString s) => Ok ("loss"%string :: Split s ",")
  | Some _ => Panic
  end.
Definition evaluation_table (cl : EvaluateStmt FieldDesc) : st D unit :=
  db ← connect session;
  metricNames ← lift (metric_columns (v_Attributes cl));
  createEvaluationResultTable (DriverName db) (v_Into cl) metricNames.
Definition py_ExecuteEvaluate (cl : EvaluateStmt FieldDesc) : st D unit :=
  t ← lift (or_panic (v_TrainStmt cl));
  code ← lift (if is_xgboost t then xgb_Evaluate cl session else tf_Evaluate cl session);
  (if decide (v_Into cl = ""%string) then mret tt else evaluation_table cl) ≫= λ _,
  runProgram code false.

(** The columns of the result: the variables with their types in the source, and the result. *)
Definition variable_columns (driver : string) (variables : list string) (fieldTypes : gmap string string) : result (list string) :=
  foldM (λ cols '(name, typ),
    if existsb (EqualFold name) variables then t ← fieldType driver typ; Ok (cols ++ [name +:+ " " +:+ t]%string) else Ok cols)
    [] (range_map fieldTypes).
Definition result_column_name (stmt : OptimizeStmt FieldDesc) : string :=
  match Variables stmt with
  | [v] => if EqualFold v (ResultValueName stmt) then ResultValueName stmt +:+ "_value" else ResultValueName stmt
  | _ => ResultValueName stmt
  end.
Definition result_column_type (variableType : string) : result string :=
  if bool_decide (variableType = "Binary"%string) || HasSuffix variableType "Integers" then Ok "BIGINT"%string
  else if HasSuffix variableType "Reals" then Ok "FLOAT"%string
  else Fail (Errorf "unsupported variable_type = %s" [variableType]).
Definition optimize_columns (stmt : OptimizeStmt FieldDesc) (driver : string) (db : DB) : result (list string) :=
  fieldTypes ← Verify (o_Select stmt) db;
  cols ← variable_columns driver (Variables stmt) fieldTypes;
  t ← result_column_type (VariableType stmt);
  t ← fieldType driver t;
  Ok (cols ++ [result_column_name stmt +:+ " " +:+ t]%string).
Definition generate_optimize (stmt : OptimizeStmt FieldDesc) (tableName : string) (useOptFlow : bool) : st D string :=
  r ← attempt (if useOptFlow then connect session else d ← get; mret (view d));
  lift (GenerateOptimizeCode (λ _, match r with inl db => Ok db | inr e => Fail e end) stmt session tableName useOptFlow).
Definition py_ExecuteOptimize (stmt : OptimizeStmt FieldDesc) : st D unit :=
  db ← connect session;
  '(driver, _) ← lift (ParseURL (DbConnStr session));
  cols ← lift (optimize_columns stmt driver db);
  attempt (dropTmpTables [o_ResultTable stmt] (DbConnStr session)) ≫= λ _,
  ExecTable ("CREATE TABLE " +:+ o_ResultTable stmt +:+ " (" +:+ Join cols "," +:+ ");")%string ≫= λ _,
  program ← generate_optimize stmt "" false;
  runProgram program false.

Definition run_context (stmt : RunStmt) : gmap string string :=
  list_to_map [("SQLFLOW_TO_RUN_SELECT", r_Select stmt); ("SQLFLOW_TO_RUN_INTO", r_Into stmt);
               ("SQLFLOW_TO_RUN_IMAGE", r_ImageName stmt)]%string.
(** A program without an extension is run itself, a Python file as a module. *)
Definition run_command (stmt : RunStmt) : result command :=
  match r_Parameters stmt with
  | [] => Fail (Errorf "Parameters shouldn't be empty" [])
  | program :: params =>
    let ext := file_Ext program in
    if decide (ext = ""%string) then Ok (mkCommand (program :: params) Cwd "")
    else if EqualFold ext ".py" then Ok (mkCommand ("python" :: "-m" :: TrimSuffix program ext :: params)%string Cwd "")
    else Fail (Errorf "The other executable except Python program is not supported yet" [])
  end.
Definition py_ExecuteRun (stmt : RunStmt) : st D unit :=
  cmd ← lift (run_command stmt);
  '(errMsg, e) ← runCommand cmd (run_context stmt) false;
  match e with
  | Some e => write_ignored (MText errMsg) ≫= λ _, fail e
  | None => mret tt
  end.

Definition py_ExecuteShowTrain (stmt : ShowTrainStmt) : st D unit :=
  r ← attempt (LoadTrainSelect (s_ModelName stmt));
  match r with
  | inr e => write_ignored (MText ("Load model meta " +:+ s_ModelName stmt +:+ " failed.")) ≫= λ _, fail e
  | inl trainSelect =>
    write_ignored (MHead ["Model"; "Train Statement"]%string) ≫= λ _,
    write_ignored (MRow [Response.VString (s_ModelName stmt); Response.VString (TrimSpace trainSelect)])
  end.
End executor.

(** ** What a program prints is shown *)

Section shown.
Context `{UnicodeTables} `{MapOrder} `{World D} `{TableDB D} `{PipeLog D}.

(** What got into the buffer is what was written, up to a write that failed. *)
Lemma multi_write_output c ps p d r w' :
  log_output ps (mkLogChanWriter "" p, d) = (r, w') →
  ∃ c' t e, multi_write c ps (mkLogChanWriter "" p, d) = (Ok (c', e), w') ∧ (c +:+ str_concat ps)%string = (c' +:+ t)%string ∧
    match r with Ok _ => e = None ∧ t = ""%string | _ => is_Some e end.
Proof.
  unfold log_output. revert c p d. induction ps as [|q ps IH]; intros c p d; cbn [eachS multi_write].
  { intros [= <- <-]. exists c, ""%string, None. by split_and!. }
  destruct (log_Write q (mkLogChanWriter "" p, d)) as [r1 [w1 d1]] eqn:Hw. pose proof Hw as Hloop.
  apply log_loop_spec in Hloop as (k & k1 & e & -> & _ & _ & Hk & _); [|cbn; lia].
  unfold mbind, st_bind. rewrite Hw. destruct e as [e|].
  - intros [= <- <-]. exists c, (str_concat (q :: ps)), (Some e). by split_and!.
  - destruct (Hk eq_refl) as (_ & _ & ->). intros (c' & t & e & Hm & Hc & He)%(IH (c +:+ q)%string).
    exists c', t, e. rewrite str_concat_cons, str_app_assoc. done.
Qed.

(** The output in the pipe: its first lines, all that have an end unless there is an error, and
    all in a pipe that takes everything. *)
Definition shown_lines (output : string) (e : option error) (d d' : D) : Prop :=
  ∃ k, items d' = items d ++ (MText <$> take k (lines output)) ∧
    (e = None → length (complete "" output).1 ≤ k)%nat ∧
    ((∀ m d, is_ok (WriteItem m d).1 = true) → e = None ∧ length (lines output) ≤ k)%nat.

Lemma logged_lines ps d : ∃ c t e d', logged ps d = (Ok (c, e), d') ∧ str_concat ps = (c +:+ t)%string ∧
  (e = None → t = ""%string) ∧ shown_lines (str_concat ps) e d d'.
Proof.
  destruct (log_output ps (mkLogChanWriter "" "", d)) as [r1 [w1 d1]] eqn:Ho. pose proof Ho as Ho'.
  apply log_output_spec in Ho' as (Hf & Hopen & _).
  destruct (multi_write_output "" _ _ _ _ _ Ho) as (c & t & e & Hm & Hc & He).
  unfold logged, with_local, defer. rewrite Hm. destruct r1 as [[]|er| |]; [..|done|done].
  - destruct He as [-> ->].
    destruct ((log_output ps ≫= λ _, log_Close) (mkLogChanWriter "" "", d)) as [r2 [w2 d2]] eqn:Hrun.
    pose proof (log_run_lines ps d d2 r2 w2 Hrun) as (k & Hi & Hk & Hall). rewrite (st_bind_run _ _ _ _ _ Ho) in Hrun. rewrite Hrun.
    exists c, ""%string, None, d2. split_and!; [done..|]. exists k. split; [exact Hi|].
    assert (r2 = Ok tt) as ->; [|split; [by auto|by intros [_ ?]%Hall]].
    revert Hrun. unfold log_Close. rewrite (st_bind_run get _ _ _ _ eq_refl). case_decide; [|by intros [= <- _ _]].
    destruct (to_pipe_spec (MText (prev w1)) w1 d1) as (r & d3 & Ht & _). rewrite (st_bind_run _ _ _ _ _ Ht). by intros [= <- _ _].
  - destruct (log_failed_close _ _ _ _ _ Ho) as (r & [w2 d2] & k & Hcl & Hi). rewrite Hcl. destruct He as [e' ->].
    exists c, t, (Some e'), d2. split_and!; [done..|]. exists k. split; [exact Hi|]. split; [done|]. intros Ha. by specialize (Hopen Ha).
Qed.

(** The error of the command goes before that of the pipe. *)
Definition failure (o : outcome) (e : option error) : option error := match cmd_error o with Some e => Some e | None => e end.

Lemma runCommand_shown cmd logStderr o d d1 : perform (exec_Command cmd) d = (Ok o, d1) →
  ∃ log t e d2, runCommand cmd ∅ logStderr d =
    (Ok (match failure o e with Some e => (log, Some e) | None => (""%string, None) end), d2) ∧
  str_concat (cmd_Stderr o) = (log +:+ t)%string ∧ (e = None ∨ logStderr = false → t = ""%string) ∧
  shown_lines (str_concat (if logStderr then cmd_Stderr o else cmd_Stdout o)) e d1 d2.
Proof.
  intros Ho. destruct (logged_lines (if logStderr then cmd_Stderr o else cmd_Stdout o) d1) as (c & t & e & d2 & Hl & Hc & Ht & Hs).
  exists (if logStderr then c else str_concat (cmd_Stderr o)), (if logStderr then t else ""%string), e, d2.
  split; [|split; [by destruct logStderr; [|rewrite str_app_nil_r]|split; [destruct logStderr; [intros [?|[=]]; by apply Ht|done]|exact Hs]]].
  unfold runCommand. assert (range_map (∅ : gmap string string) = []) as ->.
  { apply Permutation_nil_r. by rewrite range_map_perm, map_to_list_empty. }
  rewrite (st_bind_run (eachS _ []) _ d tt d eq_refl), (st_bind_run _ _ _ _ _ Ho), (st_bind_run _ _ _ _ _ Hl).
  unfold failure. by destruct (cmd_error o), e.
Qed.

(** C21: running a generated program.  What the interpreter prints, on its error output if that
    is asked for and otherwise on its output, in pieces of any size, arrives in the pipe as one
    message for each line, in order: as many of the first lines as the pipe took, all that have
    an end unless a write failed, and all in a pipe that takes everything.  The call succeeds
    exactly when the interpreter does and no write failed; the error of the interpreter goes
    first.  It is the diagnosis in the error output, or without one the program together with
    that output, all of it unless it was to be shown and could not. *)
Theorem runProgram_shown (Cwd program : string) (logStderr : bool) (cmd : command) (o : outcome) (d d1 d2 : D) :
  sqlflowCmd Cwd (DriverName (view d)) d = (Ok cmd, d1) →
  perform (exec_Command (mkCommand (cmd_Args cmd) (cmd_Dir cmd) program)) d1 = (Ok o, d2) →
  ∃ log t e d3, runProgram Cwd program logStderr d =
    (match failure o e with
     | None => Ok tt
     | Some e => Fail (program_error e program log)
     end, d3) ∧
    str_concat (cmd_Stderr o) = (log +:+ t)%string ∧ (e = None ∨ logStderr = false → t = ""%string) ∧
    shown_lines (str_concat (if logStderr then cmd_Stderr o else cmd_Stdout o)) e d2 d3.
Proof.
  intros Hcmd Hrun. destruct (runCommand_shown _ logStderr _ _ _ Hrun) as (log & t & e & d3 & Hc & Hrest). exists log, t, e, d3.
  split; [|exact Hrest].
  unfold runProgram. rewrite (st_bind_run get _ _ _ _ eq_refl), (st_bind_run _ _ _ _ _ Hcmd), (st_bind_run _ _ _ _ _ Hc).
  by destruct (failure o e).
Qed.
End shown.

(** A machine with Python on which every program fails with a diagnosis. *)
Definition failing_perform {A} (c : call A) : st (list message) A :=
  match c with
  | exec_Command c =>
    mret (if decide (cmd_Stdin c = ""%string) then mkOutcome [] [] None
          else mkOutcome ["loss"; " 1" +:+ newline +:+ "lo"; "ss 2"]%string
                 ["Traceback" +:+ newline; "runtime.diagnostics.SQLFlowDiagnostic: no such column" +:+ newline]%string
                 (Some (Errorf "exit status 1" [])))
  | _ => fail (Errorf "not here" [])
  end.
Definition failing_world : World (list message) := {| perform := @failing_perform; Env := λ _, ""%string |}.
Definition no_tables : TableDB (list message) := {| ExecTable := λ _, mret tt; view := λ _, demo_db |}.
#[local] Existing Instances failing_world no_tables.

Lemma runProgram_shown_witness :
  ∃ d3, runProgram "/tmp" "train()" false ([] : list message) = (Fail (Errorf "%s" ["no such column"%string]), d3) ∧
    d3 = MText <$> ["loss 1" +:+ newline; "loss 2"]%string.
Proof.
  assert (∀ (m : message) (d : list message), is_ok (WriteItem m d).1 = true) as Hopen by reflexivity.
  destruct (runProgram_shown "/tmp" "train()" false (python_cmd "/tmp")
    (mkOutcome ["loss"; " 1" +:+ newline +:+ "lo"; "ss 2"]%string
       ["Traceback" +:+ newline; "runtime.diagnostics.SQLFlowDiagnostic: no such column" +:+ newline]%string
       (Some (Errorf "exit status 1" []))) [] [] []) as (log & t & e & d3 & Hrun & Hlog & Ht & k & Hi & _ & Hk).
  - vm_compute. reflexivity.
  - vm_compute. reflexivity.
  - specialize (Ht (or_intror eq_refl)). subst t. rewrite str_app_nil_r in Hlog. destruct (Hk Hopen) as [-> Hle]. subst log.
    exists d3. split; [rewrite Hrun; vm_compute; reflexivity|]. rewrite take_ge in Hi by exact Hle. exact Hi.
Defined.
