(* ===== verification/PaiExecutor.v ===== *)
(** * The executor that submits jobs to PAI (go/executor/pai.go, go/executor/pai_local.go)

    For a statement the executor stores the result of its SELECT in a temporary table, writes
    the credentials and the generated program into the directory, and submits a job with the
    command line of MaxCompute.  The temporary tables are dropped when the call has ended.
    Functions that get a statement change the structure behind the pointer: they have the
    statement as a local state beside the world. *)

From S2P Require Import Prelude GoStrings GoState GoConv Base64 GoFloat Response FeatureColumn Verifier Ir AttrInit XgbCode TfCode.
From S2P Require Import OptimizeCode NormalStmt LogWriter ResultTables Model World Oss Cluster PaiCode TmpTables PyExecutor.

Local Open Scope Z_scope.

Definition job_tarball : string := "job.tar.gz".
Definition paramsFile : string := "params.txt".
Definition entryFile : string := "entry.py".

(** The parts of a MaxCompute data source name that a job needs; the driver reads it. *)
Record odps_config := mkOdpsConfig { AccessID : string; AccessKey : string; Project : string; Endpoint : string }.
Class OdpsDSN := { parse_odps_dsn : string → result odps_config }.

Section pai.
Context `{UnicodeTables} `{MapOrder} `{ColumnText} `{CodegenEnv} `{DSNParsers} `{RoleConfig} `{OdpsDSN}.
Context `{World D} `{TableDB D} `{Session D} `{ModelStore D}.
Variables (Cwd : string) (session : pb_Session) (depth : nat).

(** ** Resources of a job *)

Definition run_silent (c : command) : st D string :=
  o ← perform (exec_Command c);
  match cmd_error o with
  | None => mret (str_concat (cmd_Stdout o))
  | Some e => fail (Errorf "failed %s, %v" [Join (cmd_Args c) " "; err_format e])
  end.
Definition findPyModulePath (pyModuleName : string) : st D string :=
  out ← run_silent (mkCommand ["python"; "-c"; "import " +:+ pyModuleName +:+ ";print(" +:+ pyModuleName +:+ ".__path__[0])"]%string "" "");
  mret (TrimSpace out).
Definition copyPythonPackage (packageName dst : string) : st D unit :=
  path ← catchS (findPyModulePath packageName) (λ _, fail (Errorf "Can not find Python package: %s" [packageName]));
  run_silent (mkCommand ["cp"; "-r"; path; "."]%string dst "") ≫= λ _, mret tt.
Definition copyCustomPackage (estimator dst : string) : st D unit :=
  match Split estimator "." with
  | [pkgName; _] =>
    if decide (pkgName = "sqlflow_models" ∨ pkgName = "xgboost")%string then mret tt else copyPythonPackage pkgName dst
  | _ => mret tt
  end.
Definition writeFile (filePath program : string) : st D unit :=
  catchS (perform (os_WriteFile filePath program)) (λ _, fail (Errorf "create python code failed" [])).
Definition achieveResource (cwd entryCode requirements tarball estimator : string) : st D unit :=
  writeFile (path_Join [cwd; entryFile]) entryCode ≫= λ _,
  writeFile (path_Join [cwd; "requirements.txt"%string]) requirements ≫= λ _,
  copyPythonPackage "runtime" cwd ≫= λ _,
  copyPythonPackage "sqlflow_models" cwd ≫= λ _,
  copyCustomPackage estimator cwd ≫= λ _,
  run_silent (mkCommand ["tar"; "czf"; tarball; "./runtime"; "./sqlflow_models"; entryFile; "requirements.txt"]%string cwd "") ≫= λ _,
  mret tt.

(** The file is created before the variables are looked at.  (The path is a format in the
    source; it is one without verbs.) *)
Definition setting (name value : string) : string := "sqlflow_oss_" +:+ name +:+ "=" +:+ quoted value +:+ char1 (of_byte 10).
Definition createPAIHyperParamFile (cwd filename modelPath : string) : st D unit :=
  let path := path_Join [cwd; filename] in
  let ossAk := Env "SQLFLOW_OSS_AK" in
  let ossSk := Env "SQLFLOW_OSS_SK" in
  let ossEp := Env "SQLFLOW_OSS_MODEL_ENDPOINT" in
  if decide (ossAk = "" ∨ ossSk = "" ∨ ossEp = "")%string then
    perform (os_WriteFile path "") ≫= λ _,
    fail (Errorf "must define SQLFLOW_OSS_AK, SQLFLOW_OSS_SK, SQLFLOW_OSS_MODEL_ENDPOINT when submitting to PAI" [])
  else
    perform (os_WriteFile path (setting "ak" ossAk +:+ setting "sk" ossSk +:+ setting "ep" ossEp +:+
                                setting "modeldir" (OSSModelURL modelPath))).

(** Both outputs go to one writer: they are the standard output here, in their order. *)
Definition odps_cmd (cfg : odps_config) (paiCmd : string) : command :=
  mkCommand ["odpscmd"; "--instance-priority"; "9"; "-u"; AccessID cfg; "-p"; AccessKey cfg; "--project"; Project cfg;
             "--endpoint"; Endpoint cfg; "-e"; paiCmd]%string "" "".
Definition submitPAITask (code paiCmd requirements estimator : string) : st D unit :=
  achieveResource Cwd code requirements job_tarball estimator ≫= λ _,
  '(_, datasourceName) ← lift (ParseURL (DbConnStr session));
  cfg ← lift (parse_odps_dsn datasourceName);
  o ← perform (exec_Command (odps_cmd cfg paiCmd));
  '(output, e) ← logged (cmd_Stdout o);
  match cmd_error o, e with
  | Some e, _ | None, Some e =>
    fail (Errorf "failed: %v\n%sProgram%[2]s\n%s\n%[2]sOutput%[2]s\n%[4]v" [err_format e; "=========="%string; paiCmd; output])
  | None, None => mret tt
  end.

Definition oss_model_path (modelName : string) : result string :=
  GetOSSModelPath modelName (UserId session) (GetDatabaseName (DbConnStr session)).
Definition scriptPath : string := "file://" +:+ Cwd +:+ "/" +:+ job_tarball.
Definition paramsPath : string := "file://" +:+ Cwd +:+ "/" +:+ paramsFile.

(** ** Training *)

Definition set_tmp_train (t : string * string) (s : TrainStmt FieldDesc) : TrainStmt FieldDesc :=
  mkTrainStmt (t_OriginalSQL s) (t_Select s) (ValidationSelect s) (ModelImage s) (t_Estimator s) (t_Attributes s)
    (Features s) (t_Label s) (PreTrainedModel s) (t_Into s) t.1 t.2.
(** Both names are assigned, also when there is an error: then they are empty. *)
Definition preExecuteTrainOnPAI : st (TrainStmt FieldDesc * D) unit :=
  cl ← own;
  r ← attempt (at_disk (createTempTrainAndValTable (t_Select cl) (ValidationSelect cl) (DbConnStr session)));
  match r with
  | inl t => update (set_tmp_train t)
  | inr e => update (set_tmp_train ("", "")%string) ≫= λ _, fail e
  end.
(** The directory that the model is saved to is emptied, but not if it is loaded from there. *)
Definition train_paths (cl : TrainStmt FieldDesc) : st D (string * string) :=
  ossModelPathToSave ← lift (oss_model_path (t_Into cl));
  ossModelPathToLoad ← lift (if decide (PreTrainedModel cl = ""%string) then Ok ""%string else oss_model_path (PreTrainedModel cl));
  (if decide (ossModelPathToLoad = ""%string ∨ ossModelPathToSave ≠ ossModelPathToLoad)
   then cleanOSSModelPath depth (ossModelPathToSave +:+ "/") else mret tt) ≫= λ _,
  mret (ossModelPathToSave, ossModelPathToLoad).
Definition getPaiTrainCode : st (TrainStmt FieldDesc * D) (string * string * string) :=
  preExecuteTrainOnPAI ≫= λ _,
  cl ← own;
  at_disk (
    '(ossModelPathToSave, ossModelPathToLoad) ← train_paths cl;
    createPAIHyperParamFile Cwd paramsFile ossModelPathToSave ≫= λ _,
    pai_Train session cl scriptPath paramsPath (t_Into cl) ossModelPathToSave ossModelPathToLoad).

(** The pattern of the methods: the code is made, which may create temporary tables; they are
    dropped when the call returns, whether that made an error or not; the job is submitted.
    The names of the tables are those that are in the statement when the code has been made. *)
Definition with_tmp {S A} (names : S → list string) (stmt : S) (code : st (S * D) A) (submit : S → A → st D unit) : st D unit :=
  with_local stmt (
    r ← attempt code;
    s ← own;
    at_disk (defer (dropTmpTables (names s) (DbConnStr session))
               (match r with inr e => fail e | inl a => submit s a end))).

Definition save_trained (cl : TrainStmt FieldDesc) : st D unit :=
  ossModelPathToSave ← lift (oss_model_path (t_Into cl));
  downloadOSSModel depth (ossModelPathToSave +:+ "/") ≫= λ _,
  SaveModel Cwd (t_OriginalSQL cl) (t_Into cl) session.
Definition train_tables (s : TrainStmt FieldDesc) : list string := [TmpTrainTable s; TmpValidateTable s].
Definition pai_ExecuteTrain (cl : TrainStmt FieldDesc) : st D unit :=
  with_tmp train_tables cl getPaiTrainCode (λ cl '(code, paiCmd, requirements),
    submitPAITask code paiCmd requirements (t_Estimator cl) ≫= λ _, save_trained cl).

(** ** Prediction *)

Definition in_project (currProject table : string) : string :=
  match Split table "." with [_] => currProject +:+ "." +:+ table | _ => table end.
Definition set_predict (tmp res : string) (s : PredictStmt FieldDesc) : PredictStmt FieldDesc :=
  mkPredictStmt (p_OriginalSQL s) (p_Select s) res (ResultColumn s) (p_Attributes s) (Using s) (p_TrainStmt s) tmp.
Definition getPaiPredictCode : st (PredictStmt FieldDesc * D) (string * string * string * string) :=
  cl ← own;
  t ← at_disk (createTmpTableFromSelect (p_Select cl) (DbConnStr session));
  update (set_predict (qualified t) (ResultTable cl)) ≫= λ _,
  currProject ← lift (GetDatabaseName (DbConnStr session));
  update (λ s, set_predict (TmpPredictTable s) (in_project currProject (ResultTable s)) s) ≫= λ _,
  cl ← own;
  at_disk (
    createPredictionResultTable cl ≫= λ _,
    ossModelPath ← lift (oss_model_path (Using cl));
    '(modelType, estimator) ← getOSSSavedModelType ossModelPath;
    createPAIHyperParamFile Cwd paramsFile ossModelPath ≫= λ _,
    '(code, paiCmd, requirements) ← pai_Predict session cl scriptPath paramsPath (Using cl) ossModelPath modelType;
    mret (code, paiCmd, requirements, estimator)).
Definition predict_tables (s : PredictStmt FieldDesc) : list string := [TmpPredictTable s].
Definition pai_ExecutePredict (cl : PredictStmt FieldDesc) : st D unit :=
  with_tmp predict_tables cl getPaiPredictCode (λ _ '(code, paiCmd, requirements, estimator),
    submitPAITask code paiCmd requirements estimator).

(** ** Explanation *)

Definition set_explain (tmp into : string) (s : ExplainStmt FieldDesc) : ExplainStmt FieldDesc :=
  mkExplainStmt (e_OriginalSQL s) (e_Select s) (e_Attributes s) (e_Explainer s) (e_ModelName s) into tmp (e_TrainStmt s).
(** PAI creates the table for its own algorithms. *)
Definition explain_result (currProject estimator : string) (modelType : Z) : st (ExplainStmt FieldDesc * D) unit :=
  cl ← own;
  if decide (e_Into cl ≠ ""%string ∧ modelType ≠ PAIML) then
    update (λ s, set_explain (TmpExplainTable s) (in_project currProject (e_Into s)) s) ≫= λ _,
    cl ← own;
    at_disk (connect session ≫= λ _, createExplainResultTable cl (e_Into cl) modelType estimator)
  else mret tt.
Definition getPaiExplainCode : st (ExplainStmt FieldDesc * D) (ExplainRender * string) :=
  cl ← own;
  t ← at_disk (createTmpTableFromSelect (e_Select cl) (DbConnStr session));
  update (set_explain (qualified t) (e_Into cl)) ≫= λ _,
  ossModelPath ← lift (oss_model_path (e_ModelName cl));
  currProject ← lift (GetDatabaseName (DbConnStr session));
  '(modelType, estimator) ← at_disk (getOSSSavedModelType ossModelPath);
  explain_result currProject estimator modelType ≫= λ _,
  cl ← own;
  at_disk (
    createPAIHyperParamFile Cwd paramsFile ossModelPath ≫= λ _,
    expn ← pai_Explain session cl scriptPath paramsPath (e_ModelName cl) ossModelPath modelType;
    mret (expn, estimator)).
(** The error of drawing the picture is not returned: the variable that is has another scope. *)
Definition draw_figure (expn : ExplainRender) : st D unit :=
  r ← attempt (Draw expn);
  match r with inl img => write_ignored (MFigures img "") | inr _ => mret tt end.
Definition explain_tables (s : ExplainStmt FieldDesc) : list string := [TmpExplainTable s].
Definition pai_ExecuteExplain (cl : ExplainStmt FieldDesc) : st D unit :=
  with_tmp explain_tables cl getPaiExplainCode (λ _ '(expn, estimator),
    submitPAITask (x_Code expn) (PaiCmd expn) (Requirements expn) estimator ≫= λ _, draw_figure expn).

(** ** Evaluation *)

Definition set_evaluate (tmp into : string) (a : attrs) (s : EvaluateStmt FieldDesc) : EvaluateStmt FieldDesc :=
  mkEvaluateStmt (v_OriginalSQL s) (v_Select s) a (v_ModelName s) (v_Label s) into tmp (v_TrainStmt s).
Definition fillDefaultValidationMetrics (a : attrs) (modelType : Z) : result attrs :=
  match a !! "validation.metrics"%string with
  | Some (FeatureColumn.VString _) => Ok a
  | Some _ => Fail (Errorf "%s must be string" ["validation.metrics"%string])
  | None =>
    if decide (modelType = XGBOOST) then Ok (<["validation.metrics"%string := FeatureColumn.VString "accuracy_score"]> a)
    else if decide (modelType = TENSORFLOW) then Ok (<["validation.metrics"%string := FeatureColumn.VString "Accuracy"]> a)
    else Ok a
  end.
Definition evaluate_result (currProject : string) (modelType : Z) : st (EvaluateStmt FieldDesc * D) unit :=
  cl ← own;
  if decide (v_Into cl ≠ ""%string ∧ modelType ≠ PAIML) then
    update (λ s, set_evaluate (TmpEvaluateTable s) (in_project currProject (v_Into s)) (v_Attributes s) s) ≫= λ _,
    cl ← own; at_disk (evaluation_table session cl)
  else mret tt.
Definition getPaiEvaluateCode : st (EvaluateStmt FieldDesc * D) (string * string * string * string) :=
  cl ← own;
  t ← at_disk (createTmpTableFromSelect (v_Select cl) (DbConnStr session));
  update (set_evaluate (qualified t) (v_Into cl) (v_Attributes cl)) ≫= λ _,
  ossModelPath ← lift (oss_model_path (v_ModelName cl));
  currProject ← lift (GetDatabaseName (DbConnStr session));
  '(modelType, estimator) ← at_disk (getOSSSavedModelType ossModelPath);
  a ← lift (fillDefaultValidationMetrics (v_Attributes cl) modelType);
  update (λ s, set_evaluate (TmpEvaluateTable s) (v_Into s) a s) ≫= λ _,
  evaluate_result currProject modelType ≫= λ _,
  cl ← own;
  at_disk (
    createPAIHyperParamFile Cwd paramsFile ossModelPath ≫= λ _,
    '(code, paiCmd, requirements) ← lift (pai_Evaluate session cl scriptPath paramsPath (v_ModelName cl) ossModelPath modelType);
    mret (code, paiCmd, requirements, estimator)).
Definition evaluate_tables (s : EvaluateStmt FieldDesc) : list string := [TmpEvaluateTable s].
Definition pai_ExecuteEvaluate (cl : EvaluateStmt FieldDesc) : st D unit :=
  with_tmp evaluate_tables cl getPaiEvaluateCode (λ _ '(code, paiCmd, requirements, estimator),
    submitPAITask code paiCmd requirements estimator).

(** ** Optimization *)

Definition set_variables (vs : list string) (s : OptimizeStmt FieldDesc) : OptimizeStmt FieldDesc :=
  mkOptimizeStmt (o_OriginalSQL s) (o_Select s) vs (ResultValueName s) (VariableType s) (o_Attributes s) (o_Objective s)
    (o_Direction s) (o_Constraints s) (o_Solver s) (o_ResultTable s).
Definition drop_ignored (table : string) : st D unit := attempt (dropTmpTables [table] (DbConnStr session)) ≫= λ _, mret tt.
(** Three variables or more become one column of the table, a second temporary table. *)
Definition joined_select (vs : list string) (t : string * string) : string :=
  "SELECT *, CONCAT(" +:+ Join vs ",','," +:+ ") AS " +:+ Join vs "__" +:+ " FROM " +:+ qualified t.
Definition join_variables (stmt : OptimizeStmt FieldDesc) (t : string * string) : st D (OptimizeStmt FieldDesc * (string * string)) :=
  let vs := Variables stmt in
  if decide (2 < length vs)%nat then
    r ← attempt (createTmpTableFromSelect (joined_select vs t) (DbConnStr session));
    drop_ignored t.2 ≫= λ _,
    match r with inr e => fail e | inl t' => mret (set_variables [Join vs "__"] stmt, t') end
  else mret (stmt, t).
Definition optflow_result (dbName resultTable : string) : result string :=
  match SplitN2 resultTable "." with
  | [database; _] =>
    if decide (database = dbName) then Ok resultTable
    else Fail (Errorf "database name of result table must be the same as source table" [])
  | _ => Ok (dbName +:+ "." +:+ resultTable)
  end.
Definition run_optflow (stmt : OptimizeStmt FieldDesc) (t : string * string) : st D unit :=
  connect session ≫= λ _,
  resultTable ← lift (optflow_result t.1 (o_ResultTable stmt));
  ExecTable ("DROP TABLE IF EXISTS " +:+ resultTable) ≫= λ _,
  code ← generate_optimize session stmt t.2 true;
  runProgram Cwd code false.
Definition executeOptimizeUsingOptFlow (stmt : OptimizeStmt FieldDesc) : st D unit :=
  t ← createTmpTableFromSelect (o_Select stmt) (DbConnStr session);
  '(stmt, t) ← join_variables stmt t;
  defer (drop_ignored t.2) (run_optflow stmt t).

(** A statement TO RUN is not supported. *)
Definition pai_ExecuteRun (stmt : RunStmt) : st D unit := fail (Errorf "ExecuteRun is not supported in PAI submitter" []).

(** ** The executor that runs PAI's programs where it is (pai_local.go) *)

Definition local_flags (ossModelPath : string) : string :=
  Join ["import os"; "from runtime.pai.pai_distributed import define_tf_flags"; "FLAGS = define_tf_flags()";
        "FLAGS.sqlflow_oss_ak = os.getenv(" +:+ quoted "SQLFLOW_OSS_AK" +:+ ")";
        "FLAGS.sqlflow_oss_sk = os.getenv(" +:+ quoted "SQLFLOW_OSS_SK" +:+ ")";
        "FLAGS.sqlflow_oss_ep = os.getenv(" +:+ quoted "SQLFLOW_OSS_MODEL_ENDPOINT" +:+ ")";
        "FLAGS.sqlflow_oss_modeldir = " +:+ quoted (OSSModelURL ossModelPath);
        "FLAGS.checkpointDir = " +:+ quoted "."; ""]%string (char1 (of_byte 10)).
Definition run_local (modelName code : string) : st D unit :=
  ossModelPath ← lift (oss_model_path modelName);
  runProgram Cwd (local_flags ossModelPath +:+ code) true.
Definition local_ExecuteTrain (cl : TrainStmt FieldDesc) : st D unit :=
  with_tmp train_tables cl getPaiTrainCode (λ cl '(code, _, _), run_local (t_Into cl) code ≫= λ _, save_trained cl).
Definition local_ExecutePredict (cl : PredictStmt FieldDesc) : st D unit :=
  with_tmp predict_tables cl getPaiPredictCode (λ cl '(code, _, _, _), run_local (Using cl) code).
Definition local_ExecuteExplain (cl : ExplainStmt FieldDesc) : st D unit :=
  with_tmp explain_tables cl getPaiExplainCode (λ cl '(expn, _), run_local (e_ModelName cl) (x_Code expn)).
Definition local_ExecuteEvaluate (cl : EvaluateStmt FieldDesc) : st D unit :=
  with_tmp evaluate_tables cl getPaiEvaluateCode (λ cl '(code, _, _, _), run_local (v_ModelName cl) code).
End pai.
