(* ===== verification/PaiTables.v ===== *)
(** * No temporary table is left behind (go/executor/pai.go)

    What the database promises about temporary tables is the class [TmpDB]; everything else that
    an executor asks of the world keeps them.  The tables that a statement creates are dropped
    when it has been executed, unless the database cannot be opened or a DROP fails, which
    nobody learns, and in one case more: a training table whose validation table cannot be
    created stays. *)

From S2P Require Import Prelude GoStrings GoState GoConv Base64 GoFloat Response FeatureColumn Verifier Ir AttrInit XgbCode TfCode.
From S2P Require Import OptimizeCode NormalStmt LogWriter ResultTables Model World Oss Cluster PaiCode TmpTables PyExecutor PaiExecutor.

Local Open Scope Z_scope.

(** The names that randstring.Generate gives have letters and digits only. *)
Definition letter_or_digit (c : ascii) : bool :=
  ascii_lower_letter (byte c) || ascii_upper_letter (byte c) || ascii_digit (byte c).
Definition random_name (t : string) : Prop := t ≠ ""%string ∧ str_forall letter_or_digit t = true.

(** [tmp]: the tables with a life cycle, in the database [db] that the data source names; those
    for results are not among them.  A CREATE that fails creates none; a DROP may fail, and may
    have dropped the table then or not. *)
Class TmpDB (D : Type) (dataSource db : string) `{UnicodeTables} `{World D} `{TableDB D} `{Session D} `{ModelStore D}
    `{DSNParsers} := {
  tmp : D → gset string;
  tmp_named : GetDatabaseName dataSource = Ok db;
  tmp_call {A} (c : call A) : within (λ d d', tmp d' = tmp d) (perform c);
  tmp_write m : within (λ d d', tmp d' = tmp d) (WriteItem m);
  tmp_save dir sql uri s : within (λ d d', tmp d' = tmp d) (SaveModel dir sql uri s);
  tmp_if_exists t : within (λ d d', tmp d' = tmp d) (ExecTable ("DROP TABLE IF EXISTS " +:+ t));
  tmp_offline m : within (λ d d', tmp d' = tmp d) (ExecTable ("DROP OFFLINEMODEL IF EXISTS " +:+ m));
  tmp_predict p : within (λ d d', tmp d' = tmp d) (createPredictionResultTable p);
  tmp_explain e t k est : within (λ d d', tmp d' = tmp d) (createExplainResultTable e t k est);
  tmp_evaluate driver t ms : within (λ d d', tmp d' = tmp d) (createEvaluationResultTable driver t ms);
  tmp_fresh n d t d' : perform (randstring_Generate n) d = (Ok t, d') → t ∉ tmp d ∧ random_name t;
  tmp_create t slct d r d' : random_name t → ExecTable (create_tmp_stmt t slct) d = (r, d') →
    tmp d' = if is_ok r then {[ t ]} ∪ tmp d else tmp d;
  tmp_drop name t d r d' : random_name t → name = t ∨ name = qualified (db, t) → ExecTable (drop_stmt name) d = (r, d') →
    tmp d' = tmp d ∖ {[ t ]} ∨ is_ok r = false ∧ tmp d' = tmp d
}.

Section keeping.
Context `{UnicodeTables} `{World D} `{TableDB D} `{Session D} `{ModelStore D} `{DSNParsers} {dataSource db : string} `{!TmpDB D dataSource db}.

Definition same_tmp (d d' : D) : Prop := tmp d' = tmp d.
#[export] Instance same_tmp_preorder : PreOrder same_tmp.
Proof. split; [by intros d|]. intros d1 d2 d3 H12 H23. unfold same_tmp in *. congruence. Qed.

(** *** The steps of the executors keep the temporary tables *)

Ltac keep :=
  repeat first
    [ solve [eauto 2 with keep]
    | apply within_bind; [..|intros ?]
    | apply within_lift | apply within_ret | apply within_get | apply within_attempt
    | apply within_catchS; [..|intros ?] | apply within_wrapS | apply within_defer
    | apply within_local | apply within_disk | apply within_own | apply within_update
    | apply within_eachS; [..|intros ? _]
    | match goal with |- PreOrder _ => apply _ | |- within _ (match ?x with _ => _ end) => destruct x end ].

Lemma keep_call {A} (c : call A) : within same_tmp (perform c).
Proof. apply tmp_call. Qed.
Lemma keep_write m : within same_tmp (WriteItem m).
Proof. apply tmp_write. Qed.
Lemma keep_save dir sql uri s : within same_tmp (SaveModel dir sql uri s).
Proof. apply tmp_save. Qed.
Lemma keep_if_exists t : within same_tmp (ExecTable ("DROP TABLE IF EXISTS " +:+ t)).
Proof. apply tmp_if_exists. Qed.
Lemma keep_drop_if_exists t : within same_tmp (ExecTable (drop_if_exists t)).
Proof. apply tmp_if_exists. Qed.
Lemma keep_predict p : within same_tmp (createPredictionResultTable p).
Proof. apply tmp_predict. Qed.
Lemma keep_explain e t k est : within same_tmp (createExplainResultTable e t k est).
Proof. apply tmp_explain. Qed.
Lemma keep_evaluate driver t ms : within same_tmp (createEvaluationResultTable driver t ms).
Proof. apply tmp_evaluate. Qed.
#[local] Hint Resolve keep_call keep_write keep_save keep_if_exists keep_drop_if_exists keep_predict keep_explain
  keep_evaluate : keep.

(** Commands and their output. *)
Lemma keep_to_pipe m : within (beside same_tmp) (to_pipe m).
Proof.
  intros [w d] r [w' d']. unfold to_pipe. destruct (attempt (WriteItem m) d) as [r1 d1] eqn:Hd. intros [= <- <- <-].
  exact (within_attempt _ _ (keep_write m) _ _ _ Hd).
Qed.
Lemma keep_on_log f : within (beside same_tmp) (on_log f).
Proof. intros [w d] r [w' d'] [= <- <- <-]. unfold beside. reflexivity. Qed.
#[local] Hint Resolve keep_to_pipe keep_on_log : keep.

Lemma keep_log_loop fuel n : within (beside same_tmp) (log_loop fuel n).
Proof. induction fuel; cbn [log_loop]; keep. Qed.
#[local] Hint Resolve keep_log_loop : keep.
Lemma keep_log_Write p : within (beside same_tmp) (log_Write p).
Proof. unfold log_Write. keep. Qed.
Lemma keep_log_Close : within (beside same_tmp) log_Close.
Proof. unfold log_Close. keep. Qed.
#[local] Hint Resolve keep_log_Write keep_log_Close : keep.
Lemma keep_multi_write c ps : within (beside same_tmp) (multi_write c ps).
Proof. revert c. induction ps; intros c; cbn [multi_write]; keep. Qed.
#[local] Hint Resolve keep_multi_write : keep.
Lemma keep_logged ps : within same_tmp (logged ps).
Proof. unfold logged. keep. Qed.
#[local] Hint Resolve keep_logged : keep.

Lemma keep_runCommand `{MapOrder} cmd context b : within same_tmp (runCommand cmd context b).
Proof. unfold runCommand. keep. Qed.
Lemma keep_sqlflowCmd cwd driver : within same_tmp (sqlflowCmd cwd driver).
Proof. unfold sqlflowCmd, andS, hasPython, hasTensorFlow, hasDatabaseConnector, hasDocker, tryRun. keep. Qed.
#[local] Hint Resolve keep_runCommand keep_sqlflowCmd : keep.
Lemma keep_runProgram `{MapOrder} cwd program b : within same_tmp (runProgram cwd program b).
Proof. unfold runProgram. keep. Qed.
Lemma keep_write_ignored m : within same_tmp (write_ignored m).
Proof. unfold write_ignored. keep. Qed.
Lemma keep_connect s : within same_tmp (connect s).
Proof. unfold connect. keep. Qed.
#[local] Hint Resolve keep_runProgram keep_write_ignored keep_connect : keep.

(** The object storage. *)
Lemma keep_bucket : within same_tmp GetOSSModelBucket.
Proof. unfold GetOSSModelBucket. keep. Qed.
#[local] Hint Resolve keep_bucket : keep.
Lemma keep_deleteDir fuel b dir : within same_tmp (deleteDirRecursive fuel b dir).
Proof. revert dir. induction fuel; intros dir; cbn [deleteDirRecursive]; keep. Qed.
Lemma keep_downloadDir fuel b dir l : within same_tmp (downloadDirRecursive fuel b dir l).
Proof. revert dir l. induction fuel; intros dir l; cbn [downloadDirRecursive]; unfold download_object; keep. Qed.
#[local] Hint Resolve keep_deleteDir keep_downloadDir : keep.
Lemma keep_clean fuel p : within same_tmp (cleanOSSModelPath fuel p).
Proof. unfold cleanOSSModelPath. keep. Qed.
Lemma keep_download fuel p : within same_tmp (downloadOSSModel fuel p).
Proof. unfold downloadOSSModel. keep. Qed.
Lemma keep_modelType m : within same_tmp (getOSSSavedModelType m).
Proof. unfold getOSSSavedModelType. keep. Qed.
#[local] Hint Resolve keep_clean keep_download keep_modelType : keep.

Context `{MapOrder} `{ColumnText} `{CodegenEnv} `{RoleConfig} `{OdpsDSN}.
Variables (Cwd : string) (session : pb_Session) (depth : nat).
Hypothesis session_source : DbConnStr session = dataSource.

Lemma keep_submit code cmd req est : within same_tmp (submitPAITask Cwd session code cmd req est).
Proof.
  unfold submitPAITask, achieveResource, copyCustomPackage, copyPythonPackage, findPyModulePath, run_silent, writeFile. keep.
Qed.
Lemma keep_params cwd f m : within same_tmp (createPAIHyperParamFile cwd f m).
Proof. unfold createPAIHyperParamFile. keep. Qed.
Lemma keep_pai_Train stmt a b c d e : within same_tmp (pai_Train session stmt a b c d e).
Proof. unfold pai_Train, getTrainKMeansPAICmd. keep. Qed.
Lemma keep_pai_Predict stmt a b c d e : within same_tmp (pai_Predict session stmt a b c d e).
Proof. unfold pai_Predict, getPAIPredictCmd, exec_ignored. keep. Qed.
Lemma keep_pai_Explain stmt a b c d e : within same_tmp (pai_Explain session stmt a b c d e).
Proof. unfold pai_Explain, newExplainRender, getExplainRandomForestsPAICmd, exec_ignored. keep. Qed.
Lemma keep_save_trained cl : within same_tmp (save_trained Cwd session depth cl).
Proof. unfold save_trained. keep. Qed.
Lemma keep_draw e : within same_tmp (draw_figure e).
Proof. unfold draw_figure, Draw. keep. Qed.
Lemma keep_run_local m c : within same_tmp (run_local Cwd session m c).
Proof. unfold run_local. keep. Qed.
#[local] Hint Resolve keep_submit keep_params keep_pai_Train keep_pai_Predict keep_pai_Explain keep_save_trained keep_draw keep_run_local : keep.
Lemma keep_train_paths cl : within same_tmp (train_paths session depth cl).
Proof. unfold train_paths. keep. Qed.
Lemma keep_explain_result p est k : within (beside same_tmp) (explain_result session p est k).
Proof. unfold explain_result. keep. Qed.
Lemma keep_evaluation_table cl : within same_tmp (evaluation_table session cl).
Proof. unfold evaluation_table. keep. Qed.
#[local] Hint Resolve keep_evaluation_table : keep.
Lemma keep_evaluate_result p k : within (beside same_tmp) (evaluate_result session p k).
Proof. unfold evaluate_result. keep. Qed.
#[local] Hint Resolve keep_train_paths keep_explain_result keep_evaluate_result : keep.

(** ** Creating and dropping *)

Lemma create_tmp slct d r d' : createTmpTableFromSelect slct dataSource d = (r, d') →
  (∃ t, r = Ok (db, t) ∧ t ∉ tmp d ∧ random_name t ∧ tmp d' = {[ t ]} ∪ tmp d) ∨
  (is_ok r = false ∧ tmp d' = tmp d).
Proof.
  unfold createTmpTableFromSelect. rewrite tmp_named. unfold mbind, st_bind.
  destruct (perform (database_Open dataSource) d) as [r1 d1] eqn:Hop. pose proof (tmp_call _ _ _ _ Hop) as T1. cbn in T1.
  destruct r1 as [[]|e| |]; try (intros [= <- <-]; by right).
  destruct (perform (randstring_Generate 16) d1) as [r2 d2] eqn:Hge. pose proof (tmp_call _ _ _ _ Hge) as T2. cbn in T2.
  destruct r2 as [t|e| |]; try (intros [= <- <-]; right; split; [done|congruence]).
  apply tmp_fresh in Hge as [Hfresh Hne]. cbn [lift].
  destruct (ExecTable (create_tmp_stmt t slct) d2) as [r3 d3] eqn:Hex. pose proof (tmp_create _ _ _ _ _ Hne Hex) as T3.
  rewrite T2, T1 in T3. rewrite T1 in Hfresh.
  destruct r3 as [[]|e| |]; intros [= <- <-]; [left; by exists t|right; by split..].
Qed.

Lemma drop_tmp names created d r d' :
  Forall2 (λ n t, n = t ∨ n = qualified (db, t)) names created → Forall (λ t, random_name t) created →
  dropTmpTables names dataSource d = (r, d') →
  ∃ kept, kept ⊆ (list_to_set created : gset string) ∧ tmp d' = tmp d ∖ (list_to_set created ∖ kept) ∧ (is_ok r = true → kept = ∅).
Proof.
  intros Hn Hr. unfold dropTmpTables, mbind, st_bind.
  destruct (perform (database_Open dataSource) d) as [r1 d1] eqn:Hop. pose proof (tmp_call _ _ _ _ Hop) as T1. cbn in T1.
  destruct r1 as [[]|e| |]; [rewrite <- T1; clear Hop T1|intros [= <- <-]; exists (list_to_set created); split_and!; [done|set_solver|done]..].
  revert d1. induction Hn as [|n t names created Hnt Hn IH]; intros d1.
  { intros [= <- <-]. exists ∅. split_and!; [done|set_solver|done]. }
  apply Forall_cons in Hr as [Hrt Hr]. specialize (IH Hr). cbn [eachS list_to_set].
  rewrite decide_False.
  2: { destruct Hrt as [Hne _]. destruct Hnt as [-> | ->]; [done|]. unfold qualified. cbn. destruct db; cbn; [done|discriminate]. }
  unfold mbind, st_bind. destruct (ExecTable (drop_stmt n) d1) as [r2 d2] eqn:Hex.
  pose proof (tmp_drop n t d1 r2 d2 Hrt Hnt Hex) as T2. destruct r2 as [[]|e| |]; cycle 1.
  1-3: intros [= <- <-]; destruct T2 as [T2|[_ T2]]; [exists (list_to_set created ∖ {[ t ]})|exists ({[ t ]} ∪ list_to_set created)];
    (split_and!; [set_solver| |done]); rewrite T2; apply set_eq; intros x; destruct (decide (x = t)); set_solver.
  intros Hrun. destruct T2 as [T2|[[=] _]]. destruct (IH d2 Hrun) as (kept & Hsub & Hleft & Hok).
  exists (kept ∖ {[ t ]}). split_and!; [set_solver| |intros Hrok; rewrite (Hok Hrok); set_solver].
  rewrite Hleft, T2. apply set_eq. intros x. destruct (decide (x = t)); set_solver.
Qed.

(** After a drop the tables [L] are left, or more if the drop failed: tables that it was to drop. *)
Definition dropped (L : gset string) (d' : D) : Prop :=
  tmp d' = L ∨ ∃ names d1 r1, dropTmpTables names dataSource d1 = (r1, d') ∧ is_ok r1 = false ∧
    L ⊆ tmp d' ∧ ∀ t, t ∈ tmp d' → t ∈ L ∨ qualified (db, t) ∈ names.

(** An empty name is skipped. *)
Definition names_of (names created : list string) : Prop :=
  Forall2 (λ n t, n = qualified (db, t)) (filter (λ n, n ≠ ""%string) names) created.

Lemma dropTmpTables_filter names d :
  dropTmpTables names dataSource d = dropTmpTables (filter (λ n, n ≠ ""%string) names) dataSource d.
Proof.
  unfold dropTmpTables, mbind, st_bind. destruct (perform _ d) as [[[]|e| |] d1]; [|done..].
  revert d1. induction names as [|n names IH]; intros d1; [done|]. rewrite filter_cons. cbn [eachS].
  destruct (decide (n = ""%string)) as [->|Hn].
  - rewrite decide_False by auto. rewrite (st_bind_run (mret tt) _ d1 tt d1 eq_refl). apply IH.
  - rewrite decide_True by done. cbn [eachS]. rewrite decide_False by done. unfold mbind, st_bind.
    destruct (ExecTable _ d1) as [[[]|e| |] d2]; [apply IH|done..].
Qed.

Lemma qualified_nonempty t : t ≠ ""%string → qualified (db, t) ≠ ""%string.
Proof. unfold qualified. cbn. by destruct db. Qed.

Lemma dropTmpTables_fails names d : is_ok (dropTmpTables names dataSource d).1 = false →
  is_ok (perform (database_Open dataSource) d).1 = false ∨ ∃ name d1, name ∈ names ∧ is_ok (ExecTable (drop_stmt name) d1).1 = false.
Proof.
  unfold dropTmpTables, mbind, st_bind. destruct (perform _ d) as [[[]|e| |] d1]; [|by left..]. intros Hf. right. revert d1 Hf.
  induction names as [|n names IH]; intros d1; [done|]. cbn [eachS]. unfold mbind, st_bind.
  destruct ((if decide (n = ""%string) then mret tt else ExecTable (drop_stmt n)) d1) as [[[]|e| |] d2] eqn:Hex.
  1: { intros (name & d3 & Hin & Hf)%IH. exists name, d3. split; [by right|done]. }
  all: intros _; exists n, d1; (split; [by left|]); case_decide; [done|by rewrite Hex].
Qed.

Lemma drop_created names created L d :
  names_of names created → Forall (λ t, t ∉ L ∧ random_name t) created →
  tmp d = list_to_set created ∪ L → dropped L (dropTmpTables names dataSource d).2.
Proof.
  intros Hn HL Hd. destruct (dropTmpTables names dataSource d) as [r d'] eqn:Hrun. cbn [snd].
  pose proof Hrun as Hrun'. rewrite dropTmpTables_filter in Hrun'.
  destruct (drop_tmp _ created _ _ _ (Forall2_impl _ _ _ _ Hn (λ n t H, or_intror H)) (Forall_impl _ _ _ HL (λ t H, proj2 H)) Hrun')
    as (kept & Hsub & Hd' & Hok).
  assert (tmp d' = kept ∪ L) as Hleft.
  { rewrite Hd', Hd. rewrite Forall_forall in HL. apply set_eq. intros x. destruct (decide (x ∈ kept)); set_solver. }
  destruct (is_ok r) eqn:Hr; [left; rewrite Hleft, Hok by done; set_solver|]. right. exists names, d, r. split_and!; [done..|set_solver|].
  intros t Ht. rewrite Hleft in Ht. apply elem_of_union in Ht as [Ht|Ht]; [right|by left].
  apply Hsub in Ht. apply elem_of_list_to_set, list_elem_of_lookup in Ht as [i Hi].
  destruct (Forall2_lookup_r _ _ _ _ _ Hn Hi) as (n & Hni & ->). apply list_elem_of_lookup_2, list_elem_of_filter in Hni. tauto.
Qed.

Definition ended {A} (r : result A) : Prop := is_ok r || is_fail r = true.
#[local] Instance ended_dec {A} (r : result A) : Decision (ended r).
Proof. unfold ended. apply _. Defined.

Lemma with_tmp_spec {S A} (names : S → list string) stmt (code : st (S * D) A) submit d r d' L :
  with_tmp session names stmt code submit d = (r, d') → ended r →
  (∀ rc s1 d1, code (stmt, d) = (rc, (s1, d1)) → ended rc → ∃ created, names_of (names s1) created ∧
     Forall (λ t, t ∉ L ∧ random_name t) created ∧ tmp d1 = list_to_set created ∪ L) →
  (∀ s a, within same_tmp (submit s a)) → dropped L d'.
Proof using session_source.
  unfold with_tmp, with_local. intros Hrun Hr Hcode Hsubmit.
  destruct (code (stmt, d)) as [rc [s1 d1]] eqn:Hc. unfold mbind, st_bind, attempt, own in Hrun. rewrite Hc in Hrun.
  unfold at_disk, defer in Hrun. rewrite session_source in Hrun.
  assert (∀ m : st D unit, within same_tmp m → ended rc →
    dropped L (dropTmpTables (names s1) dataSource (m d1).2).2) as Hdrop.
  { intros m Hm Hrc. destruct (Hcode rc s1 d1 eq_refl Hrc) as (created & Hn & HL & Hd).
    apply (drop_created _ created L); [done..|]. destruct (m d1) as [r2 d2] eqn:Hd2. by rewrite <- Hd; apply (Hm _ _ _ Hd2). }
  destruct rc as [a|e| |].
  - specialize (Hdrop (submit s1 a) (Hsubmit s1 a) eq_refl). destruct (submit s1 a d1) as [r2 d2]. by injection Hrun as <- <-.
  - specialize (Hdrop (fail e) (within_lift _ _) eq_refl). cbn in Hdrop, Hrun. by injection Hrun as <- <-.
  - by injection Hrun as <- <-.
  - by injection Hrun as <- <-.
Qed.

(** A step that keeps the tables and the names in the statement. *)
Definition same_named {S} (names : S → list string) (x y : S * D) : Prop := tmp y.2 = tmp x.2 ∧ names y.1 = names x.1.
#[export] Instance same_named_preorder {S} (names : S → list string) : PreOrder (same_named names).
Proof. split; [by intros x|]. intros x y z [? ?] [? ?]. unfold same_named in *. split; congruence. Qed.
Lemma named_disk {S A} (names : S → list string) (m : st D A) : within same_tmp m → within (same_named names) (at_disk m).
Proof.
  intros Hm [s1 d] r [s2 d']. unfold at_disk. destruct (m d) as [r1 d1] eqn:Hd. intros [= <- <- <-]. split; [|done].
  exact (Hm _ _ _ Hd).
Qed.
Lemma named_own {S} (names : S → list string) : within (same_named names) own.
Proof. by intros [s1 d] r [s2 d'] [= <- <- <-]. Qed.
Lemma named_update {S} (names : S → list string) f : (∀ x, names (f x) = names x) → within (same_named names) (update f).
Proof. intros Hf [s1 d] r [s2 d'] [= <- <- <-]. split; [done|apply Hf]. Qed.

Ltac keep_named :=
  repeat first
    [ solve [eauto 2 with keep]
    | apply named_disk; keep
    | apply named_own
    | apply named_update; done
    | apply within_bind; [..|intros ?]
    | apply within_lift | apply within_ret
    | match goal with |- PreOrder _ => apply _ | |- within _ (match ?x with _ => _ end) => destruct x end ].

Lemma named_explain_result p est k : within (same_named explain_tables) (explain_result session p est k).
Proof. unfold explain_result. keep_named. Qed.
Lemma named_evaluate_result p k : within (same_named evaluate_tables) (evaluate_result session p k).
Proof. unfold evaluate_result. keep_named. Qed.
#[local] Hint Resolve named_explain_result named_evaluate_result : keep.

(** The code of a statement with one table. *)
Lemma single_tmp {S A} (names : S → list string) sel f (rest : S → string * string → st (S * D) A) stmt d rc s1 d1 :
  names stmt = [""%string] → (∀ cl t x, names (f cl t x) = [qualified t]) →
  (∀ cl t, within (same_named names) (rest cl t)) →
  (own ≫= λ cl, at_disk (createTmpTableFromSelect (sel cl) (DbConnStr session)) ≫= λ t,
     update (f cl t) ≫= λ _, rest cl t) (stmt, d) = (rc, (s1, d1)) →
  ∃ created, names_of (names s1) created ∧ Forall (λ t, t ∉ tmp d ∧ random_name t) created ∧
    tmp d1 = list_to_set created ∪ tmp d.
Proof using session_source.
  intros Hs Hf Hrest. rewrite session_source. unfold mbind, st_bind, own, at_disk.
  destruct (createTmpTableFromSelect (sel stmt) dataSource d) as [r2 d2] eqn:Hc.
  apply create_tmp in Hc as [(t & -> & Hfresh & Hne & Ht)|[Hr Ht]].
  - unfold update. intros Hrun. apply Hrest in Hrun as [Ht' Hn]. cbn in Ht', Hn. rewrite Hf in Hn.
    exists [t]. unfold names_of. rewrite Hn, filter_cons, decide_True by (by apply qualified_nonempty, Hne). cbn.
    split; [by repeat constructor|]. split; [by apply Forall_singleton|]. rewrite Ht', Ht. set_solver.
  - intros Hrun. assert (s1 = stmt ∧ d1 = d2) as [-> ->] by (destruct r2; by simplify_eq).
    exists []. unfold names_of. rewrite Hs, filter_cons, decide_False by auto. cbn.
    split; [done|]. split; [done|]. rewrite Ht. set_solver.
Qed.

Lemma predict_code_tmp stmt d rc s1 d1 : TmpPredictTable stmt = ""%string →
  getPaiPredictCode Cwd session (stmt, d) = (rc, (s1, d1)) →
  ∃ created, names_of (predict_tables s1) created ∧ Forall (λ t, t ∉ tmp d ∧ random_name t) created ∧
    tmp d1 = list_to_set created ∪ tmp d.
Proof using session_source.
  intros Hs. apply (single_tmp predict_tables p_Select (λ cl t, set_predict (qualified t) (ResultTable cl))); [|done|].
  - unfold predict_tables. by rewrite Hs.
  - intros cl t. keep_named.
Qed.
Lemma explain_code_tmp stmt d rc s1 d1 : TmpExplainTable stmt = ""%string →
  getPaiExplainCode Cwd session (stmt, d) = (rc, (s1, d1)) →
  ∃ created, names_of (explain_tables s1) created ∧ Forall (λ t, t ∉ tmp d ∧ random_name t) created ∧
    tmp d1 = list_to_set created ∪ tmp d.
Proof using session_source.
  intros Hs. apply (single_tmp explain_tables e_Select (λ cl t, set_explain (qualified t) (e_Into cl))); [|done|].
  - unfold explain_tables. by rewrite Hs.
  - intros cl t. keep_named.
Qed.
Lemma evaluate_code_tmp stmt d rc s1 d1 : TmpEvaluateTable stmt = ""%string →
  getPaiEvaluateCode Cwd session (stmt, d) = (rc, (s1, d1)) →
  ∃ created, names_of (evaluate_tables s1) created ∧ Forall (λ t, t ∉ tmp d ∧ random_name t) created ∧
    tmp d1 = list_to_set created ∪ tmp d.
Proof using session_source.
  intros Hs. apply (single_tmp evaluate_tables v_Select (λ cl t, set_evaluate (qualified t) (v_Into cl) (v_Attributes cl))); [|done|].
  - unfold evaluate_tables. by rewrite Hs.
  - intros cl t. keep_named.
Qed.

(** C20: a prediction, an explanation or an evaluation on PAI, or with PAI's program on this
    machine, drops its temporary table: whether the call succeeds or fails, at whatever step
    (making the code, submitting the job, drawing the picture), the temporary tables afterwards
    are those of before, unless the drop itself, the last thing that is done, failed because the
    database could not be opened or did not accept the DROP; then tables that it was to drop may
    be left besides.  The error of the drop is ignored, so that the result of the call does not
    tell.  Only a panic while the code is made keeps the deferred drop from running. *)
Theorem pai_tables_dropped d r d' :
  (∃ stmt, TmpPredictTable stmt = ""%string ∧
     (pai_ExecutePredict Cwd session stmt d = (r, d') ∨ local_ExecutePredict Cwd session stmt d = (r, d'))) ∨
  (∃ stmt, TmpExplainTable stmt = ""%string ∧
     (pai_ExecuteExplain Cwd session stmt d = (r, d') ∨ local_ExecuteExplain Cwd session stmt d = (r, d'))) ∨
  (∃ stmt, TmpEvaluateTable stmt = ""%string ∧
     (pai_ExecuteEvaluate Cwd session stmt d = (r, d') ∨ local_ExecuteEvaluate Cwd session stmt d = (r, d'))) →
  ended r → dropped (tmp d) d'.
Proof using session_source.
  intros [(stmt & Hs & [Hrun|Hrun])|[(stmt & Hs & [Hrun|Hrun])|(stmt & Hs & [Hrun|Hrun])]] Hr;
    (eapply with_tmp_spec; [exact Hrun|exact Hr| |intros x a; cbv beta; keep]); intros rc s1 d1 Hc _.
  1-2: by apply (predict_code_tmp stmt d rc s1 d1).
  1-2: by apply (explain_code_tmp stmt d rc s1 d1).
  all: by apply (evaluate_code_tmp stmt d rc s1 d1).
Qed.

(** *** Training: two tables *)

Lemma create_both tr va d r d' : createTempTrainAndValTable tr va dataSource d = (r, d') →
  (∃ created t v, r = Ok (t, v) ∧ names_of [t; v] created ∧
     Forall (λ t, t ∉ tmp d ∧ random_name t) created ∧ tmp d' = list_to_set created ∪ tmp d) ∨
  (is_ok r = false ∧ (tmp d' = tmp d ∨ va ≠ ""%string ∧ ∃ t, t ∉ tmp d ∧ tmp d' = {[ t ]} ∪ tmp d)).
Proof.
  unfold createTempTrainAndValTable, mbind, st_bind.
  destruct (createTmpTableFromSelect tr dataSource d) as [r1 d1] eqn:Hc1.
  apply create_tmp in Hc1 as [(t & -> & Hfresh & Hne & Ht)|[Hr Ht]].
  2: { destruct r1; [done|..]; intros [= <- <-]; right; (split; [done|by left]). }
  pose proof (qualified_nonempty t (proj1 Hne)) as Hq. destruct (decide (va = ""%string)) as [->|Hva].
  - intros [= <- <-]. left. exists [t], (qualified (db, t)), ""%string. split; [done|].
    split. { unfold names_of. rewrite filter_cons, decide_True by done. by repeat constructor. }
    split; [by apply Forall_singleton|]. rewrite Ht. set_solver.
  - destruct (createTmpTableFromSelect va dataSource d1) as [r2 d2] eqn:Hc2.
    apply create_tmp in Hc2 as [(v & -> & Hvf & Hvne & Hv)|[Hr Hv]].
    + intros [= <- <-]. left. exists [t; v], (qualified (db, t)), (qualified (db, v)). split; [done|].
      pose proof (qualified_nonempty v (proj1 Hvne)) as Hqv.
      split. { unfold names_of. rewrite !filter_cons, !decide_True by done. by repeat constructor. }
      rewrite Ht in Hvf.
      split; [apply Forall_cons; split; [done|apply Forall_singleton; split; [set_solver|done]]|]. rewrite Hv, Ht. set_solver.
    + intros Hrun. right. assert (is_ok r = false ∧ d' = d2) as [Hr' ->] by (destruct r2; by simplify_eq).
      split; [done|]. right. split; [done|]. exists t. split; [done|]. by rewrite Hv.
Qed.

Lemma pre_train stmt d : preExecuteTrainOnPAI session (stmt, d) =
  match createTempTrainAndValTable (t_Select stmt) (ValidationSelect stmt) dataSource d with
  | (Ok t, d') => (Ok tt, (set_tmp_train t stmt, d'))
  | (Fail e, d') => (Fail e, (set_tmp_train ("", "")%string stmt, d'))
  | (Panic, d') => (Panic, (stmt, d'))
  | (NoFuel, d') => (NoFuel, (stmt, d'))
  end.
Proof using session_source.
  unfold preExecuteTrainOnPAI. rewrite <- session_source. unfold mbind, st_bind, own, attempt, at_disk.
  by destruct (createTempTrainAndValTable _ _ _ d) as [[]].
Qed.

(** [L]: the tables that will be left, which are those of before but in one case. *)
Lemma train_code_tmp stmt d rc s1 d1 :
  getPaiTrainCode Cwd session depth (stmt, d) = (rc, (s1, d1)) → ended rc →
  ∃ L created, names_of (train_tables s1) created ∧ Forall (λ t, t ∉ L ∧ random_name t) created ∧
    tmp d1 = list_to_set created ∪ L ∧
    (L = tmp d ∨ is_ok rc = false ∧ ValidationSelect stmt ≠ ""%string ∧ ∃ t, t ∉ tmp d ∧ L = {[ t ]} ∪ tmp d).
Proof using session_source.
  unfold getPaiTrainCode. intros Hrun Hend. pose proof (pre_train stmt d) as Hpre.
  destruct (createTempTrainAndValTable _ _ dataSource d) as [r2 d2] eqn:Hc.
  apply create_both in Hc as [(created & t & v & -> & Hn & HL & Ht)|[Hr Ht]].
  - rewrite (st_bind_run _ _ _ _ _ Hpre) in Hrun. exists (tmp d), created.
    match type of Hrun with ?m (set_tmp_train (t, v) stmt, d2) = _ => assert (within (same_named train_tables) m) as Hm by keep_named end.
    destruct (Hm _ _ _ Hrun) as [Ht' Hn']. cbn in Ht', Hn'. rewrite Hn', Ht', Ht. split_and!; [done..|by left].
  - assert (∃ e, r2 = Fail e) as [e ->].
    { destruct r2 as [|e| |]; [done|by exists e|..]; unfold mbind, st_bind in Hrun; rewrite Hpre in Hrun; by injection Hrun as <- <- <-. }
    rewrite (st_bind_fail _ _ _ _ _ Hpre) in Hrun. injection Hrun as <- <- <-.
    assert (names_of (train_tables (set_tmp_train ("", "")%string stmt)) []) as Hn by constructor.
    destruct Ht as [Ht|[Hva (t & Hf & Ht)]].
    + exists (tmp d), []. split_and!; [done|done| |by left]. rewrite Ht. set_solver.
    + exists ({[ t ]} ∪ tmp d), []. split_and!; [done|done| |right; split_and!; [done..|by exists t]]. rewrite Ht. set_solver.
Qed.

Lemma with_tmp_Fail {S A} (names : S → list string) stmt (code : st (S * D) A) submit d r d' :
  with_tmp session names stmt code submit d = (r, d') → ended r → is_ok (code (stmt, d)).1 = false → is_fail r = true.
Proof.
  unfold with_tmp, with_local, mbind, st_bind, attempt. destruct (code (stmt, d)) as [rc [s1 d1]].
  destruct rc; intros Hrun Hr Hok; [done|..]; cbn in Hrun; by injection Hrun as <- <-.
Qed.

(** A training drops its temporary tables, however it ends, but in one case: when the SELECT for
    validation cannot be stored, the call fails and the table for training stays, because its
    name is lost with the error. *)
Theorem pai_train_tables stmt d r d' :
  pai_ExecuteTrain Cwd session depth stmt d = (r, d') ∨ local_ExecuteTrain Cwd session depth stmt d = (r, d') → ended r →
  dropped (tmp d) d' ∨
  is_fail r = true ∧ ValidationSelect stmt ≠ ""%string ∧ ∃ t, t ∉ tmp d ∧ dropped ({[ t ]} ∪ tmp d) d'.
Proof using session_source.
  intros Hor Hr. destruct (getPaiTrainCode Cwd session depth (stmt, d)) as [rc [s1 d1]] eqn:Hc.
  destruct (decide (ended rc)) as [Hend|Hend].
  - destruct (train_code_tmp stmt d rc s1 d1 Hc Hend) as (L & created & Hn & HL & Ht & Hcase).
    assert (dropped L d') as Hd.
    { destruct Hor as [Hrun|Hrun]; (eapply with_tmp_spec; [exact Hrun|exact Hr| |intros x a; cbv beta; keep]);
        intros rc2 s2 d2 Hc2 _; rewrite Hc in Hc2; injection Hc2 as <- <- <-; by exists created. }
    destruct Hcase as [->|(Hrc & Hva & t & Hf & ->)]; [by left|]. right. split; [|split; [done|by exists t]].
    destruct Hor as [Hrun|Hrun]; (eapply with_tmp_Fail; [exact Hrun|done|by rewrite Hc]).
  - exfalso. unfold pai_ExecuteTrain, local_ExecuteTrain, with_tmp, with_local, mbind, st_bind, attempt in Hor.
    rewrite Hc in Hor. destruct rc; [by destruct Hend..| |]; destruct Hor as [Hrun|Hrun]; by injection Hrun as <- <-.
Qed.

(** *** Optimization: a table, or two one after the other *)

Lemma keep_run_optflow stmt t : within same_tmp (run_optflow Cwd session stmt t).
Proof. unfold run_optflow, generate_optimize. keep. Qed.

(** A drop fails. *)
Definition drop_fails : Prop := ∃ names d1, is_ok (dropTmpTables names dataSource d1).1 = false.
(** The tables [L] are left, or more if a drop fails. *)
Definition left_tables (L L' : gset string) : Prop := L' = L ∨ drop_fails ∧ L ⊆ L'.

Lemma drop_one t d L : t ∉ L → random_name t → tmp d = {[ t ]} ∪ L →
  tmp (drop_ignored session t d).2 = L ∨ drop_fails ∧ tmp (drop_ignored session t d).2 = {[ t ]} ∪ L.
Proof using session_source.
  intros Ht Hne Hd. unfold drop_ignored. rewrite session_source. unfold mbind, st_bind, attempt.
  destruct (dropTmpTables [t] dataSource d) as [r d1] eqn:Hrun.
  destruct (drop_tmp [t] [t] d r d1) as (kept & Hsub & Hd' & Hok);
    [constructor; [by left|constructor]|by apply Forall_singleton|done|].
  assert (tmp d1 = L ∨ drop_fails ∧ tmp d1 = {[ t ]} ∪ L) as Hcase; [|by destruct r as [[]| | |]].
  cbn [list_to_set] in *. destruct (decide (t ∈ kept)) as [Hin|Hno].
  - right. split; [|rewrite Hd', Hd; set_solver]. exists [t], d. rewrite Hrun. destruct (is_ok r) eqn:Hr; [|done].
    rewrite (Hok eq_refl) in Hin. set_solver.
  - left. rewrite Hd', Hd. set_solver.
Qed.

Lemma drop_ignored_result t d : ∃ d3, drop_ignored session t d = (Ok tt, d3) ∨ ∃ x, drop_ignored session t d = (x, d3) ∧ ¬ ended x.
Proof.
  unfold drop_ignored, mbind, st_bind, attempt. destruct (dropTmpTables _ _ d) as [[]]; eexists; (by left) || (right; eexists; by split).
Qed.

Lemma join_variables_tmp stmt t d r d1 L :
  t ∉ L → random_name t → tmp d = {[ t ]} ∪ L → join_variables session stmt (db, t) d = (r, d1) → ended r →
  ∃ L', left_tables L L' ∧
    ((∃ stmt' t', r = Ok (stmt', (db, t')) ∧ t' ∉ L' ∧ random_name t' ∧ tmp d1 = {[ t' ]} ∪ L') ∨ is_fail r = true ∧ tmp d1 = L').
Proof using session_source.
  intros Ht Hne Hd. unfold join_variables. rewrite session_source. case_decide.
  2: { intros [= <- <-] _. exists L. split; [by left|]. left. by exists stmt, t. }
  unfold mbind, st_bind, attempt.
  destruct (createTmpTableFromSelect (joined_select (Variables stmt) (db, t)) dataSource d) as [r2 d2] eqn:Hc. cbn [snd].
  destruct (drop_ignored_result t d2) as [d4 Hres].
  apply create_tmp in Hc as [(t' & -> & Hf & Hne' & Ht')|[Hr Ht']].
  - rewrite Hd in Ht', Hf. pose proof (drop_one t d2 ({[ t' ]} ∪ L) ltac:(set_solver) Hne ltac:(rewrite Ht'; set_solver)) as Hdrop.
    destruct Hres as [Hres|(x & Hres & Hx)]; rewrite Hres in *; cbn [snd] in *.
    + intros [= <- <-] _. destruct Hdrop as [Hdrop|[Hfails Hdrop]].
      * exists L. split; [by left|]. left. eexists _, t'. split_and!; [done|set_solver|done|done].
      * exists ({[ t ]} ∪ L). split; [right; split; [done|set_solver]|]. left. eexists _, t'. split_and!; [done|set_solver|done|].
        rewrite Hdrop. set_solver.
    + intros Hrun Hr. exfalso. apply Hx. destruct x as [[]|e| |]; [done|done|by injection Hrun as <- <-..].
  - destruct r2 as [|e| |]; [done| |by intros [= <- <-]..].
    rewrite Hd in Ht'. pose proof (drop_one t d2 L Ht Hne Ht') as Hdrop.
    destruct Hres as [Hres|(x & Hres & Hx)]; rewrite Hres in *; cbn [snd] in *.
    + intros [= <- <-] _. exists (tmp d4). split; [|by right]. destruct Hdrop as [->|[Hfails ->]]; [by left|right; split; [done|set_solver]].
    + intros Hrun Hend. exfalso. apply Hx. destruct x as [[]|e'| |]; [done|done|by injection Hrun as <- <-..].
Qed.

(** An optimization leaves no temporary table either, with one table or with two, unless a drop
    fails. *)
Theorem optimize_tables stmt d r d' :
  executeOptimizeUsingOptFlow Cwd session stmt d = (r, d') → ended r → left_tables (tmp d) (tmp d').
Proof using session_source.
  unfold executeOptimizeUsingOptFlow. rewrite session_source. unfold mbind at 1, st_bind at 1.
  destruct (createTmpTableFromSelect _ dataSource d) as [r1 d1] eqn:Hc.
  apply create_tmp in Hc as [(t & -> & Hf & Hne & Ht)|[Hr Ht]].
  2: { destruct r1; [done|..]; intros [= <- <-] ?; by left. }
  unfold mbind at 1, st_bind at 1. destruct (join_variables session stmt (db, t) d1) as [r2 d2] eqn:Hj.
  intros Hrun Hr. assert (ended r2) as Hr2 by (destruct r2; [done..| |]; by injection Hrun as <- <-).
  destruct (join_variables_tmp stmt t d1 r2 d2 (tmp d) Hf Hne Ht Hj Hr2) as (L & HL & [(stmt' & t' & -> & Hf' & Hne' & Ht')|[Hfail Ht']]).
  - unfold defer in Hrun. destruct (run_optflow Cwd session stmt' (db, t') d2) as [r3 d3] eqn:Hrf.
    apply keep_run_optflow in Hrf. injection Hrun as <- <-. cbn [snd]. unfold same_tmp in Hrf. rewrite Ht' in Hrf.
    destruct (drop_one t' d3 L Hf' Hne' Hrf) as [->|[Hfails ->]]; [done|]. right. split; [done|].
    destruct HL as [->|[_ HL]]; set_solver.
  - destruct r2; [done| |done..]. injection Hrun as <- <-. by rewrite Ht'.
Qed.
End keeping.

(** ** A database that keeps its temporary tables in memory

    Creating a table fails when the SELECT ends in BAD; queries have no answer. *)

Fixpoint letters_a (n : nat) : string := match n with O => "a" | S n => String "a" (letters_a n) end.
Definition fresh_name (d : gset string) : result string :=
  match filter (λ t, t ∉ d) (map letters_a (seq 0 (S (size d)))) with
  | t :: _ => Ok t
  | [] => Fail (Errorf "no name" [])
  end.
Definition tmp_perform {A} (c : call A) : st (gset string) A :=
  match c with
  | database_Open _ => mret tt
  | randstring_Generate _ => λ d, (fresh_name d, d)
  | exec_Command _ => mret (mkOutcome [] [] None)
  | os_WriteFile _ _ => mret tt
  | _ => fail (Errorf "no answer" [])
  end.
Definition name_char (c : ascii) : bool := letter_or_digit c || bool_decide (c = "."%char).
Definition exec_create (rest : string) (d : gset string) : result unit * gset string :=
  match Index rest " " with
  | Some i =>
    if HasPrefix (str_drop i rest) " LIFECYCLE 7 AS " then
      if HasSuffix rest "BAD" then (Fail (Errorf "bad select" []), d) else (Ok tt, {[ str_take i rest ]} ∪ d)
    else (Ok tt, d)
  | None => (Ok tt, d)
  end.
(** While this table is there nothing can be dropped. *)
Definition pinned : string := "pinned".
Definition exec_drop (name : string) (d : gset string) : result unit * gset string :=
  if str_forall name_char name then
    let t := match Index name "." with Some i => str_drop (S i) name | None => name end in
    if decide (t ∉ d ∨ pinned ∈ d) then (Fail (Errorf "cannot drop" []), d) else (Ok tt, d ∖ {[ t ]})
  else (Ok tt, d).
Definition tmp_exec (s : string) : st (gset string) unit := λ d,
  match literal "CREATE TABLE " s, literal "DROP TABLE " s with
  | Some rest, _ => exec_create rest d
  | None, Some name => exec_drop name d
  | None, None => (Ok tt, d)
  end.

#[local] Instance tmp_world : World (gset string) := {| perform := @tmp_perform; Env _ := "x"%string |}.
#[local] Instance tmp_tables : TableDB (gset string) :=
  {| ExecTable := tmp_exec; view _ := mkDB "maxcompute" (λ _, Fail (Errorf "no answer" [])) |}.
#[local] Instance tmp_session : Session (gset string) :=
  {| WriteItem _ := mret tt; QueryDB _ := fail (Errorf "no answer" []); ExecDB _ := mret (inl 0) |}.
#[local] Instance tmp_models : ModelStore (gset string) :=
  {| SaveModel _ _ _ _ := mret tt; LoadTrainSelect _ := mret ""%string |}.
#[local] Instance no_dsn : DSNParsers :=
  {| maxcompute_project _ := Ok ""%string; alisa_project _ := Ok ""%string; hive_database _ := Ok ""%string |}.

Lemma letters_a_random n : random_name (letters_a n).
Proof. induction n as [|n [_ IH]]; by split. Qed.

Lemma name_no c t : letter_or_digit c = false → str_forall letter_or_digit t = true → no_char c t = true.
Proof.
  intros Hc. apply str_forall_impl. intros x Hx. apply negb_true_iff, bool_decide_eq_false. by intros ->; rewrite Hx in Hc.
Qed.

Lemma kept_literal (m : st (gset string) unit) : (∀ d, ∃ r, m d = (r, d)) → within (λ d d', d' = d) m.
Proof. intros Hm d r d' Hd. destruct (Hm d) as [r' Hr]. congruence. Qed.

Lemma exec_if_exists t d : tmp_exec ("DROP TABLE IF EXISTS " +:+ t) d = (Ok tt, d).
Proof. reflexivity. Qed.
Lemma exec_if_not_exists t d : tmp_exec ("CREATE TABLE IF NOT EXISTS " +:+ t) d = (Ok tt, d).
Proof. unfold tmp_exec, literal. cbn. by destruct t. Qed.

Ltac same_state :=
  repeat first
    [ apply within_bind; [..|intros ?] | apply within_lift | apply within_ret | apply within_get | apply within_wrapS
    | match goal with |- PreOrder _ => split; [by intros ?|by intros ??? -> ->] | |- within _ (match ?x with _ => _ end) => destruct x end
    | by apply kept_literal; intros d; eexists ].

Lemma view_no_types `{UnicodeTables} q (d : gset string) : ∃ e, GetSQLFieldType q (view d) = Fail e.
Proof. unfold GetSQLFieldType, FetchSamples. cbn. by eexists. Qed.

Lemma tmp_perform_kept {A} (c : call A) d : ∃ r, tmp_perform c d = (r, d).
Proof. destruct c; by eexists. Qed.

Lemma tmp_exec_CREATE s d : tmp_exec ("CREATE TABLE " +:+ s) d = exec_create s d.
Proof. by destruct s. Qed.
Lemma tmp_exec_DROP s d : tmp_exec ("DROP TABLE " +:+ s) d = exec_drop s d.
Proof. by destruct s. Qed.

Lemma tmp_exec_create t slct d r d' : random_name t → tmp_exec (create_tmp_stmt t slct) d = (r, d') →
  d' = if is_ok r then {[ t ]} ∪ d else d.
Proof.
  intros [_ Ht]. unfold create_tmp_stmt. rewrite tmp_exec_CREATE. unfold exec_create.
  assert (Index (t +:+ " LIFECYCLE " +:+ pretty lifecycleOnTmpTable +:+ " AS " +:+ slct) " " = Some (str_len t)) as ->
    by (apply (Index_char t " "); by apply name_no).
  rewrite str_drop_app, str_take_app by done.
  assert (HasPrefix (" LIFECYCLE " +:+ pretty lifecycleOnTmpTable +:+ " AS " +:+ slct) " LIFECYCLE 7 AS " = true) as ->
    by (apply HasPrefix_app; by exists slct).
  destruct (HasSuffix _ "BAD"); by intros [= <- <-].
Qed.

Lemma tmp_exec_drop name t (d : gset string) r d' : random_name t → name = t ∨ name = qualified ("d", t)%string →
  tmp_exec (drop_stmt name) d = (r, d') → d' = d ∖ {[ t ]} ∨ is_ok r = false ∧ d' = d.
Proof.
  intros [_ Ht] Hn. unfold drop_stmt. rewrite tmp_exec_DROP. unfold exec_drop.
  assert (str_forall name_char t = true) as Hnc.
  { eapply str_forall_impl; [|exact Ht]. intros c Hc. unfold name_char. by rewrite Hc. }
  assert (str_forall name_char name = true ∧ (match Index name "." with Some i => str_drop (S i) name | None => name end) = t) as [-> ->].
  { destruct Hn as [-> | ->]; [split; [done|]|split; [exact Hnc|]].
    - assert (Index t "." = None) as -> by (apply (Index_char_None t "."); by apply name_no). done.
    - assert (Index (qualified ("d", t)%string) "." = Some 1%nat) as -> by exact (Index_char "d" "." t eq_refl). done. }
  case_decide; intros [= <- <-]; [by right|by left].
Qed.

Lemma fresh_name_fresh d t : fresh_name d = Ok t → t ∉ d ∧ random_name t.
Proof.
  unfold fresh_name. destruct (filter _ _) as [|u us] eqn:Hf; [done|]. intros [= <-].
  assert (u ∈ filter (λ t, t ∉ d) (map letters_a (seq 0 (S (size d))))) as Hu by (rewrite Hf; left).
  apply list_elem_of_filter in Hu as [Hu (n & -> & _)%list_elem_of_fmap]. split; [done|apply letters_a_random].
Qed.

Lemma kept_statement s : (∀ d, tmp_exec s d = (Ok tt, d)) → within (λ d d', d' = d) (exec_or_fail s).
Proof. intros Hs. unfold exec_or_fail. apply within_wrapS; [same_state|]. apply kept_literal. intros d. by exists (Ok tt). Qed.

(** Whatever statement [explain_table] gives, it is one of those. *)
Lemma explain_statement db stmt t k est s :
  (∀ q, ∃ e, GetSQLFieldType q db = Fail e) → explain_table db stmt t k est = Ok s → ∃ x, s = ("CREATE TABLE IF NOT EXISTS " +:+ x)%string.
Proof.
  intros Hdb. unfold explain_table, shap_table, getCreateShapResultSQL. destruct (Hdb (e_Select stmt)) as [e ->].
  repeat case_match; intros Hs; simplify_eq; by eexists.
Qed.
Lemma kept_explain e t k est : within (λ d d', d' = d) (createExplainResultTable e t k est).
Proof.
  unfold createExplainResultTable. apply within_bind; [same_state|by apply kept_statement|]. intros _ d r d'.
  unfold mbind, st_bind, get, lift. destruct (explain_table _ _ _ _ _) as [s|err| |] eqn:Hs; [|by intros [= <- <-]..].
  apply explain_statement in Hs as [x ->]; [|intros q; apply (view_no_types q d)].
  apply kept_statement. intros d1. apply exec_if_not_exists.
Qed.
Lemma kept_predict p : within (λ d d', d' = d) (createPredictionResultTable p).
Proof.
  unfold createPredictionResultTable. apply within_bind; [same_state|by apply kept_statement|]. intros _ d r d'.
  unfold mbind, st_bind, get, lift, getPredictionTableFieldNamesAndTypes.
  destruct (view_no_types (p_Select p) d) as [err ->]. by intros [= <- <-].
Qed.
Lemma kept_evaluate driver t ms : within (λ d d', d' = d) (createEvaluationResultTable driver t ms).
Proof.
  unfold createEvaluationResultTable. apply within_bind; [same_state|by apply kept_statement|]. intros _.
  apply kept_statement. intros d. apply exec_if_not_exists.
Qed.

#[local] Instance tmp_memory : TmpDB (gset string) "mysql://r/d" "d".
Proof.
  refine {| tmp d := d |}.
  - reflexivity.
  - intros A c. intros d r d' Hd. destruct (tmp_perform_kept c d) as [r' Hr]. cbn in Hd. congruence.
  - intros m. same_state.
  - intros dir sql uri s. same_state.
  - intros t. same_state.
  - intros m. same_state.
  - intros p. apply kept_predict.
  - intros e t k est. apply kept_explain.
  - intros driver t ms. apply kept_evaluate.
  - intros n d t d' [= Hf <-]. by apply fresh_name_fresh.
  - intros t slct d r d'. apply tmp_exec_create.
  - intros name t d r d'. apply tmp_exec_drop.
Defined.

Definition demo_pai_session : pb_Session := mkSession "" "mysql://r/d" false "" "" "" "" "" "pai" "" "".
Definition demo_pai_predict : PredictStmt FieldDesc := mkPredictStmt "" "SELECT * FROM t" "p" "class" ∅ "m" None "".
#[local] Instance no_odps : OdpsDSN := {| parse_odps_dsn _ := Ok (mkOdpsConfig "" "" "" "") |}.

Lemma pai_tables_dropped_witness :
  let r := pai_ExecutePredict "/tmp" demo_pai_session demo_pai_predict {[ "old"%string ]} in
  ended r.1 ∧ dropped (dataSource := "mysql://r/d") (db := "d") {[ "old"%string ]} r.2.
Proof.
  intros r. assert (ended r.1) as Hr by (vm_compute; reflexivity). split; [exact Hr|].
  assert (dropped (dataSource := "mysql://r/d") (db := "d") (tmp ({[ "old"%string ]} : gset string)) r.2) as Ht; [|exact Ht].
  apply (pai_tables_dropped (dataSource := "mysql://r/d") (db := "d") "/tmp" demo_pai_session eq_refl {[ "old"%string ]} r.1 r.2); [|exact Hr].
  left. exists demo_pai_predict. split; [reflexivity|]. left. exact (surjective_pairing r).
Defined.
(** This drop succeeds; a DROP that is refused leaves the table, and the call fails as it does when
    the drop succeeds: it does not tell. *)
Example pai_table_dropped : elements (pai_ExecutePredict "/tmp" demo_pai_session demo_pai_predict {[ "old"%string ]}).2 = ["old"%string].
Proof. vm_compute. reflexivity. Qed.
Example pai_table_left :
  let run d := pai_ExecutePredict "/tmp" demo_pai_session demo_pai_predict d in
  (run {[ pinned ]}).1 = (run ∅).1 ∧ (run ∅).2 = ∅ ∧ elements ((run {[ pinned ]}).2 ∖ {[ pinned ]}) = ["a"%string].
Proof. vm_compute. by split_and!. Qed.

(** The table that a training leaves when its validation table cannot be created. *)
Definition demo_pai_train : TrainStmt FieldDesc :=
  mkTrainStmt "" "SELECT * FROM t" "SELECT BAD" "" "DNNClassifier" ∅ ∅ (NumericColumn (newFieldDesc "y" Int (Some [1]))) "" "m" "" "".
Example training_table_left :
  let r := pai_ExecuteTrain "/tmp" demo_pai_session 10 demo_pai_train ∅ in
  is_fail r.1 = true ∧ elements r.2 = ["a"%string].
Proof. vm_compute. by split. Qed.
