(* ===== verification/AlisaExecutor.v ===== *)
(** * The executors of alisa and ALPS (go/executor/alisa.go, go/executor/alps.go)

    Alisa runs PAI's commands as tasks: the program and the parameters are uploaded to a bucket,
    from which the task downloads them, and are deleted when the task has ended. *)

From S2P Require Import Prelude GoStrings GoState GoConv Base64 GoFloat Response FeatureColumn Verifier Ir AttrInit XgbCode TfCode.
From S2P Require Import OptimizeCode NormalStmt LogWriter ResultTables Model World Oss Cluster PaiCode TmpTables PyExecutor PaiExecutor.

Local Open Scope Z_scope.

Inductive task_type := AlisaTaskTypePAI | AlisaTaskTypePyODPS.

(** The driver of alisa reads its data source name. *)
Class AlisaDSN := { parse_alisa_dsn : string → result unit }.

(** ** The error of a task (pai.go) *)

Definition ossAuthErrorMsg : string := "The role_arn you provide not exists in OSS auth service".
(** The expression is http://logview with the rest of the line. *)
Definition pickPAILogViewerURL (output : string) : list string :=
  omap (λ line, i ← Index line "http://logview"; Some (str_drop i line)) (Split output newline).
Definition diagnose_msg (taskType output tips : string) : string :=
  let msg := taskType +:+ " task failed" in
  if Contains output ossAuthErrorMsg then
    msg +:+ ", " +:+ (if decide (tips = ""%string)
                      then "due to lack of the auth for PAI to access OSS(need to contact your administrator)" else tips)
  else msg.

Section alisa.
Context `{UnicodeTables} `{MapOrder} `{ColumnText} `{CodegenEnv} `{DSNParsers} `{RoleConfig} `{AlisaDSN}.
Context `{World D} `{TableDB D} `{Session D} `{ModelStore D}.
Variables (Cwd : string) (session : pb_Session) (depth : nat).

Definition diagnose (taskType output : string) : error :=
  Errorf "%s, please go to check details error logs in the LogViewer website: %s"
    [diagnose_msg taskType output (Env "ERROR_PAI2OSS"); Join (pickPAILogViewerURL output) newline].

(** ** Submitting a task *)

Definition resources (codeResourceURL paramsResourceURL : string) : string :=
  let item url name := "{" +:+ quoted "downloadUrl" +:+ ":" +:+ quoted url +:+ ", " +:+ quoted "resourceName" +:+ ":" +:+ quoted name +:+ "}" in
  "[" +:+ item codeResourceURL job_tarball +:+ ", " +:+ item paramsResourceURL paramsFile +:+ "]".
(** What the task writes goes to the standard output of the process, not to the pipe. *)
Definition submitAlisaTask (taskType : task_type) (submitCode args codeURL paramsURL : string) : st D unit :=
  '(_, dsName) ← lift (ParseURL (DbConnStr session));
  lift (parse_alisa_dsn dsName) ≫= λ _,
  o ← perform (match taskType with
               | AlisaTaskTypePAI => alisa_Exec submitCode (resources codeURL paramsURL)
               | AlisaTaskTypePyODPS => alisa_ExecPyODPS submitCode args
               end);
  match cmd_error o with
  | None => mret tt
  | Some _ => fail (diagnose (match taskType with AlisaTaskTypePAI => "PAI" | AlisaTaskTypePyODPS => "PyODPS" end)
                      (str_concat (cmd_Stdout o)))
  end.

Definition getAlisaBucket : st D Bucket :=
  let ep := Env "SQLFLOW_OSS_ALISA_ENDPOINT" in
  let ak := Env "SQLFLOW_OSS_AK" in
  let sk := Env "SQLFLOW_OSS_SK" in
  if decide (ep = "" ∨ ak = "" ∨ sk = "")%string then
    fail (Errorf "should define SQLFLOW_OSS_ALISA_ENDPOINT, SQLFLOW_OSS_ALISA_BUCKET, SQLFLOW_OSS_AK, SQLFLOW_OSS_SK when using submitter alisa" [])
  else
    let b := mkBucket ep ak sk (Env "SQLFLOW_OSS_ALISA_BUCKET") in
    perform (oss_New b) ≫= λ _, mret b.
Definition uploadResource (cwd localFileName ossObjectName : string) (bucket : Bucket) : st D string :=
  perform (oss_PutObjectFromFile bucket ossObjectName (path_Join [cwd; localFileName])) ≫= λ _,
  mret ("https://" +:+ b_Name bucket +:+ "." +:+ b_Endpoint bucket +:+ "/" +:+ ossObjectName)%string.
Definition tarAndUploadResource (cwd entryCode requirements ossObjectName estimator : string) (bucket : Bucket) : st D string :=
  achieveResource cwd entryCode requirements job_tarball estimator ≫= λ _,
  uploadResource cwd job_tarball ossObjectName bucket.
(** The error of uploading the parameters is not looked at: the task is submitted without an
    address for them. *)
Definition uploadResourceAndSubmitAlisaTask (entryCode requirements alisaExecCode estimator : string) : st D unit :=
  ossCodeObjectName ← perform (randstring_Generate 16);
  alisaBucket ← getAlisaBucket;
  codeResourceURL ← tarAndUploadResource Cwd entryCode requirements ossCodeObjectName estimator alisaBucket;
  defer (perform (oss_DeleteObject alisaBucket ossCodeObjectName)) (
    ossParamsObjectName ← perform (randstring_Generate 16);
    r ← attempt (uploadResource Cwd paramsFile ossParamsObjectName alisaBucket);
    defer (perform (oss_DeleteObject alisaBucket ossParamsObjectName))
      (submitAlisaTask AlisaTaskTypePAI alisaExecCode "" codeResourceURL (match r with inl url => url | inr _ => "" end)%string)).

(** ** Statements *)

Definition alisa_script : string := "file://@@" +:+ job_tarball.
Definition alisa_params : string := "file://@@" +:+ paramsFile.

(** Unlike PAI's own executor this one returns before the drop is deferred if the table cannot
    be created; the name of the model to start from is given as it is, not as a path. *)
Definition alisa_ExecuteTrain (ts : TrainStmt FieldDesc) : st D unit :=
  with_local ts (
    preExecuteTrainOnPAI session ≫= λ _,
    ts ← own;
    at_disk (defer (dropTmpTables (train_tables ts) (DbConnStr session)) (
      ossModelPathToSave ← lift (oss_model_path session (t_Into ts));
      modelBucket ← GetOSSModelBucket;
      deleteDirRecursive depth modelBucket (ossModelPathToSave +:+ "/") ≫= λ _,
      CleanupPAIModel session ts ≫= λ _,
      createPAIHyperParamFile Cwd paramsFile ossModelPathToSave ≫= λ _,
      '(code, paiCmd, requirements) ← pai_Train session ts alisa_script alisa_params (t_Into ts) ossModelPathToSave (PreTrainedModel ts);
      uploadResourceAndSubmitAlisaTask code requirements paiCmd (t_Estimator ts)))).

(** The table of a statement with one SELECT is dropped when the call returns. *)
Definition with_tmp_table (slct : string) (k : string → st D unit) : st D unit :=
  t ← createTmpTableFromSelect slct (DbConnStr session);
  defer (dropTmpTables [qualified t] (DbConnStr session)) (k (qualified t)).

Definition alisa_ExecutePredict (ps : PredictStmt FieldDesc) : st D unit :=
  with_tmp_table (p_Select ps) (λ tmpTable,
    let ps := set_predict tmpTable (ResultTable ps) ps in
    createPredictionResultTable ps ≫= λ _,
    ossModelPath ← lift (oss_model_path session (Using ps));
    '(modelType, estimator) ← getOSSSavedModelType ossModelPath;
    createPAIHyperParamFile Cwd paramsFile ossModelPath ≫= λ _,
    '(code, paiCmd, requirements) ← pai_Predict session ps alisa_script alisa_params (Using ps) ossModelPath modelType;
    uploadResourceAndSubmitAlisaTask code requirements paiCmd estimator).

Definition alisa_ExecuteExplain (cl : ExplainStmt FieldDesc) : st D unit :=
  with_tmp_table (e_Select cl) (λ tmpTable,
    let cl := set_explain tmpTable (e_Into cl) cl in
    ossModelPath ← lift (oss_model_path session (e_ModelName cl));
    '(modelType, estimator) ← getOSSSavedModelType ossModelPath;
    (if decide (e_Into cl = ""%string) then mret tt else createExplainResultTable cl (e_Into cl) modelType estimator) ≫= λ _,
    createPAIHyperParamFile Cwd paramsFile ossModelPath ≫= λ _,
    expn ← pai_Explain session cl alisa_script alisa_params (e_ModelName cl) ossModelPath modelType;
    uploadResourceAndSubmitAlisaTask (x_Code expn) (Requirements expn) (PaiCmd expn) estimator ≫= λ _,
    draw_figure expn).

(** The table for the result is created also when the statement names none. *)
Definition alisa_ExecuteEvaluate (es : EvaluateStmt FieldDesc) : st D unit :=
  with_tmp_table (v_Select es) (λ tmpTable,
    ossModelPath ← lift (oss_model_path session (v_ModelName es));
    '(modelType, estimator) ← getOSSSavedModelType ossModelPath;
    a ← lift (fillDefaultValidationMetrics (v_Attributes es) modelType);
    let es := set_evaluate tmpTable (v_Into es) a es in
    metricNames ← lift (metric_columns a);
    d ← get;
    createEvaluationResultTable (DriverName (view d)) (v_Into es) metricNames ≫= λ _,
    createPAIHyperParamFile Cwd paramsFile ossModelPath ≫= λ _,
    '(code, paiCmd, requirements) ← lift (pai_Evaluate session es alisa_script alisa_params (v_ModelName es) ossModelPath modelType);
    uploadResourceAndSubmitAlisaTask code requirements paiCmd estimator).

(** ** Running a program *)

Definition sqlflowToRunProgramFolder : string := "/opt/sqlflow/run".
Definition getRunnableProgramAbsPath (fileNameOrPath : string) : string :=
  if HasPrefix fileNameOrPath "/" then fileNameOrPath else path_Join [sqlflowToRunProgramFolder; fileNameOrPath].
Definition run_args (stmt : RunStmt) (params : list string) : list string :=
  params ++ ["SQLFLOW_TO_RUN_SELECT='" +:+ r_Select stmt +:+ "'"; "SQLFLOW_TO_RUN_INTO='" +:+ r_Into stmt +:+ "'";
             "SQLFLOW_TO_RUN_IMAGE='" +:+ r_ImageName stmt +:+ "'"]%string.
Definition alisa_ExecuteRun (stmt : RunStmt) : st D unit :=
  match r_Parameters stmt with
  | [] => fail (Errorf "Parameters shouldn't be empty" [])
  | program :: params =>
    if EqualFold (file_Ext program) ".py" then
      let programAbsPath := getRunnableProgramAbsPath program in
      catchS (perform (os_Stat programAbsPath)) (λ _, fail (Errorf "Cannot find the Python file %s" [programAbsPath])) ≫= λ _,
      code ← perform (ioutil_ReadFile programAbsPath);
      submitAlisaTask AlisaTaskTypePyODPS code (Join (run_args stmt params) " ") "" ""
    else fail (Errorf "Alisa executor only supports Python program but cannot execute %s" [program])
  end.

(** ** ALPS *)

Definition alps_ExecuteTrain (cl : TrainStmt FieldDesc) : st D unit :=
  with_local cl (
    preExecuteTrainOnPAI session ≫= λ _,
    cl ← own;
    at_disk (defer (dropTmpTables (train_tables cl) (DbConnStr session))
      (code ← lift (alps_Train cl session); runProgram Cwd code false))).
Definition alps_unsupported (what : string) : error := Errorf ("ALPS " +:+ what +:+ " job is not implemented") [].
End alisa.
