(* ===== verification/Serve.v ===== *)
(** * From the pipe to the client's screen (go/sqlflowserver/sqlflowserver.go,
    go/cmd/sqlflow/rpc_stream_renderer.go, go/step/step.go)

    The server turns every message of a running program into a response of a stream; the client
    renders the responses, with a table writer for rows, and follows the workflow if the
    response is a job. *)

From S2P Require Import Prelude GoStrings GoState Base64 SqlParser Response NormalStmt TableWriter Argo Pipe.

Local Open Scope Z_scope.

(** ** The server *)

Class ServerWorld (D : Type) `{Protobuf} := {
  Send : option Response → st D unit;              (* stream.Send, also of nil *)
  UnmarshalText : string → option Response         (* proto.UnmarshalText *)
}.

Section server.
Context `{External} `{UnicodeTables} `{ServerWorld D}.

(** The body of the loop in [Run].  An [EndOfExecution] is only sent when the program has
    several statements; behind it the variable for the response, which is nil, is sent too. *)
Definition respond (Stmts DbConnStr : string) (m : message) : st D unit :=
  match m with
  | MError e => fail e
  | MHead names => res ← lift (EncodeHead {[ "columnNames"%string := Columns names ]}); Send (Some res)
  | MRow row => res ← lift (EncodeRow row); Send (Some res)
  | MFigures Image _ => res ← lift (EncodeMessage Image); Send (Some res)
  | MText s =>
    match UnmarshalText s with
    | Some res => Send (Some res)
    | None => res ← lift (EncodeMessage s); Send (Some res)
    end
  | MJob id ns => Send (Some (Response_Job id ns))
  | MEndOfExecution startTime endTime sql =>
    '(dialect, _) ← lift (ParseURL DbConnStr);
    sqls ← lift (Parse dialect Stmts);
    if decide (1 < length sqls)%nat then Send (Some (Response_Eoe sql (wrap64 (endTime - startTime)))) ≫= λ _, Send None
    else mret tt
  end.
Definition Server_Run (Stmts DbConnStr : string) (l : list message) : st D unit :=
  eachS (respond Stmts DbConnStr) l.
End server.

(** ** Table writers as one interface (tablewriter.TableWriter) *)

Class Table (T D : Type) := {
  table_SetHeader : header → st (T * D) unit;
  table_AppendRow : list goval → st (T * D) unit;
  table_Flush : st (T * D) unit;
  table_FlushWithError : string → st (T * D) unit
}.
#[export] Instance ascii_table `{Output D} : Table ASCIIWriter D := {|
  table_SetHeader := ascii_SetHeader; table_AppendRow := ascii_AppendRow;
  table_Flush := ascii_Flush; table_FlushWithError := ascii_FlushWithError
|}.
#[export] Instance protobuf_table `{Output D} : Table ProtobufWriter D := {|
  table_SetHeader := SetHeader; table_AppendRow := AppendRow;
  table_Flush := Flush; table_FlushWithError := FlushWithError
|}.

(** ** Rendering (step.go) *)

(** The log, the error stream and the terminal; [imageCat] decodes and draws an image. *)
Class Terminal (D : Type) := {
  Println : string → st D unit;
  PrintlnErr : string → st D unit;
  imageCat : string → st D unit
}.

Inductive object :=
  | OHead (h : header) | ORow (row : list goval) | OError (e : string) | OEnd
  | OFigures (Image Text : string) | OText (s : string) | ONil | OOther.

(** The submatch of the expression in a text: what stands between [base64,] and the last quote of its
    line, in the first line that has both. *)
Definition base64_in_line (line : string) : option string :=
  n ← Index line "base64,";
  let rest := str_drop (n + 7) line in
  m ← LastIndexByte rest "'";
  Some (str_take m rest).
Definition getBase64EncodedImage (s : string) : string * option error :=
  match omap base64_in_line (Split s (char1 (of_byte 10))) with
  | m :: _ => DecodeString m
  | [] => (""%string, Some (Errorf "no images in the HTML" []))
  end.

Section render.
Context `{Protobuf} `{Table T D} `{Terminal D}.
Notation W := (T * D)%type.

Definition at_screen {X} (m : st D X) : st W X := λ '(t, d), let '(r, d) := m d in (r, (t, d)).

(** [log.Fatalf] ends the process. *)
Definition Fatalf {X} (s : string) : st W X := at_screen (Println s) ≫= λ _, lift Panic.

Definition printAsDataURL (s : string) : st D unit :=
  Println ("data:text/html, " +:+ s) ≫= λ _, Println "" ≫= λ _,
  Println "To view the content, paste the above data url to a web browser.".

(** The line that [log.Println] prints for a value of type [Figures]. *)
Definition figures_line (Image Text : string) : string := "{" +:+ Image +:+ " " +:+ Text +:+ "}".

Definition render_figures (Image Text : string) (isTerminal it2Check : bool) : st D unit :=
  if isHTMLCode Image then
    if negb isTerminal then printAsDataURL Image else
    match getBase64EncodedImage Image with
    | (_, Some _) => printAsDataURL Image
    | (image, None) =>
      if negb it2Check then
        printAsDataURL Image ≫= λ _,
        Println "Or use iTerm2 as your terminal to view images." ≫= λ _, Println Text
      else
        e ← attempt (imageCat image);
        match e with
        | inl _ => mret tt
        | inr e => PrintlnErr ("ERROR: " +:+ err_format e) ≫= λ _, printAsDataURL Image ≫= λ _, Println Text
        end
    end
  else Println (figures_line Image Text).

Definition Render (rsp : object) (isTerminal it2Check : bool) : st W unit :=
  match rsp with
  | OHead h => table_SetHeader h
  | ORow row => table_AppendRow row
  | OError s =>
    if isTerminal then at_screen (Println ("ERROR: " +:+ s))
    else attempt (table_FlushWithError s) ≫= λ _, Fatalf ("workflow step failed: " +:+ s)
  | OEnd => mret tt
  | OFigures i t => at_screen (render_figures i t isTerminal it2Check)
  | OText s => at_screen (Println s)
  | ONil => mret tt
  | OOther =>
    if isTerminal then at_screen (Println "unrecognized response type: %v")
    else Fatalf "unrecognized response type: %v"
  end.

(** ** The client *)

Definition object_of (r : Response) : object :=
  match r with
  | Response_Head names => OHead {[ "columnNames"%string := Columns names ]}
  | Response_Row data => ORow (map (λ a, (DecodePODType a).1) data)
  | Response_Message m => if isHTMLCode m then OFigures m "" else OText m
  | Response_Eoe _ _ | Response_Job _ _ => ONil
  end.
Definition render (isTerminal it2Check : bool) (r : Response) : st W unit :=
  Render (object_of r) isTerminal it2Check.

(** What [render] returns is not looked at. *)
Definition renders_all (isTerminal it2Check : bool) : list Response → st W unit :=
  eachS (λ r, attempt (render isTerminal it2Check r) ≫= λ _, mret tt).

(** The loop that fetches: [ks] is Kubernetes during each call. *)
Definition renderPRCFetchResp `{UnicodeTables} (isTerminal it2Check : bool) (UnmarshalText : string → option Response)
    (ks : list K8s) (req : FetchRequest) : st W (option error) :=
  let '(calls, e) := follow UnmarshalText ks req in
  renders_all isTerminal it2Check (concat (map (λ c, Responses c.2) calls)) ≫= λ _, mret e.

(** [stream] is what [Recv] gives: responses, then the end or an error.  The namespace of a job
    is not passed on. *)
Fixpoint recv_loop `{UnicodeTables} (isTerminal it2Check : bool) (UnmarshalText : string → option Response)
    (ks : list K8s) (stream : list Response) (last : option error) : st W (option error) :=
  let render_error e := attempt (Render (OError (err_format e)) isTerminal it2Check) ≫= λ _, mret (Some e) in
  match stream with
  | [] => match last with None => mret None | Some e => render_error e end
  | resp :: stream =>
    attempt (render isTerminal it2Check resp) ≫= λ _,
    match resp with
    | Response_Job id _ =>
      e ← renderPRCFetchResp isTerminal it2Check UnmarshalText ks (mkFetchRequest id "" "" "");
      match e with None => mret None | Some e => render_error e end
    | _ => recv_loop isTerminal it2Check UnmarshalText ks stream last
    end
  end.
Definition renderRPCRespStream `{UnicodeTables} (isTerminal it2Check : bool) (UnmarshalText : string → option Response)
    (ks : list K8s) (stream : list Response) (last : option error) : st W (option error) :=
  err ← recv_loop isTerminal it2Check UnmarshalText ks stream last;
  attempt table_Flush ≫= λ _, mret err.

(** *** The command line, which runs the program itself *)

Definition object_of_message (m : message) : object :=
  match m with
  | MHead names => OHead {[ "columnNames"%string := Columns names ]}
  | MRow row => ORow row
  | MText s => OText s
  | MError e => OError (err_format e)
  | MFigures i t => OFigures i t
  | MEndOfExecution _ _ _ => OEnd
  | MJob _ _ => OOther
  end.

(** The replacer of escaped line ends and tabs. *)
Fixpoint unescape_stmt (s : string) : string :=
  match s with
  | String c (String d s' as rest) =>
    if decide (byte c = 92)%Z then
      if decide (byte d = 110) then String (of_byte 10) (unescape_stmt s')
      else if decide (byte d = 116) then String (of_byte 9) (unescape_stmt s')
      else if decide (byte d = 114) then String (of_byte 13) (unescape_stmt s')
      else String c (unescape_stmt rest)
    else String c (unescape_stmt rest)
  | _ => s
  end.

(** [run] gives the messages of the program, in a loop that does not close its end of the pipe. *)
Definition RunSQLProgramAndPrintResult (run : string → list message) (sqlStmt : string)
    (isTerminal it2Check : bool) : st W unit :=
  eachS (λ m, Render (object_of_message m) isTerminal it2Check) (run (unescape_stmt sqlStmt)) ≫= λ _, table_Flush.
End render.

(** ** What a query shows *)

Class StreamLog (D : Type) `{ServerWorld D} := {
  sent : D → list Response;
  sends r d : ∃ d', Send (Some r) d = (Ok tt, d') ∧ sent d' = sent d ++ [r]
}.

(** The loop of the server is one over a pipe: its state is what [Run] has returned. *)
Lemma range_respond `{External} `{UnicodeTables} `{ServerWorld D} stmts conn l d :
  range_over (λ '(_, d) m, let '(r, d) := respond stmts conn m d in ((r, d), is_ok r)) (Ok tt, d) l =
  let '(r, d) := Server_Run stmts conn l d in ((r, d), is_ok r).
Proof.
  unfold Server_Run. revert d. induction l as [|m l IH]; intros d; cbn [range_over eachS]; [done|].
  unfold mbind, st_bind. destruct (respond stmts conn m d) as [[[]|e| |] d1]; cbn; [apply IH|done..].
Qed.

(** When a statement fails the program writes an [EndOfExecution] and then the error
    (RunSQLProgram_reports).  If it is the only statement the server ends the stream with that
    error.  If there are several, the nil that the server sends behind the [EndOfExecution]
    ends the stream with the library's own error, and that of the statement is lost. *)
Theorem failed_statement_error_lost `{External} `{UnicodeTables} `{StreamLog D}
    (stmts conn dialect source sql : string) (ms : list message) (t1 t2 : Z) (e e0 : error)
    (sqls : list SQLFlowStmt) (d d0 : D) :
  ParseURL conn = Ok (dialect, source) → Parse dialect stmts = Ok sqls →
  (∀ d, ∃ d', Send None d = (Fail e0, d')) → Server_Run stmts conn ms d = (Ok tt, d0) →
  ∃ d1, Server_Run stmts conn (ms ++ [MEndOfExecution t1 t2 sql; MError e]) d =
        (Fail (if decide (1 < length sqls)%nat then e0 else e), d1).
Proof.
  intros Hu Hp Hnil Hms. unfold Server_Run in *. rewrite eachS_app, (st_bind_run _ _ _ _ _ Hms). cbn [eachS].
  unfold respond, mbind, st_bind, lift. rewrite Hu. cbv beta iota. rewrite Hp. cbv beta iota. case_decide as Hl; [|by exists d0].
  destruct (sends (Response_Eoe sql (wrap64 (t2 - t1))) d0) as (d1 & -> & _).
  destruct (Hnil d1) as (d2 & ->). by exists d2.
Qed.

Section query.
Context `{External} `{UnicodeTables} `{StreamLog D1} `{!Output D2} `{!WorkingOutput D2} `{!Terminal D2}.

Lemma respond_rows stmts conn rows resps d :
  mapR EncodeRow rows = Ok resps →
  ∃ d', Server_Run stmts conn (MRow <$> rows) d = (Ok tt, d') ∧ sent d' = sent d ++ resps.
Proof.
  unfold Server_Run. revert d resps. induction rows as [|row rows IH]; intros d resps; cbn [mapR fmap list_fmap eachS].
  - intros [= <-]. exists d. by rewrite app_nil_r.
  - intros (resp & Hr & (resps' & Hrs & [= <-])%bind_Ok)%bind_Ok. destruct (sends resp d) as (d1 & Hs & He).
    destruct (IH d1 _ Hrs) as (d2 & Hr2 & He2). exists d2. split; [|by rewrite He2, He, <- app_assoc].
    rewrite (st_bind_run _ _ _ tt d1); [exact Hr2|]. unfold respond. by rewrite (st_bind_run _ _ _ resp d) by (unfold lift; by rewrite Hr).
Qed.

Lemma recv_rows isT it2 ut ks c b n rows resps w :
  (∀ m a, MarshalAny m = Ok a → UnmarshalAny a = Some m) → Forall (Forall well_typed) rows →
  mapR EncodeRow rows = Ok resps → ascii_ok c b n w →
  ∃ w', recv_loop isT it2 ut ks resps None w = (Ok None, w') ∧ ascii_ok c b n w' ∧
    shown_lines n w' = shown_lines n w ++ map (map Sprint) (map (map received) rows).
Proof.
  intros Hlaw. revert resps w. induction rows as [|row rows IH]; intros resps w Hty; cbn [mapR map].
  - intros [= <-] Hok. exists w. by rewrite app_nil_r.
  - intros (resp & Hr & (resps' & Hrs & [= <-])%bind_Ok)%bind_Ok Hok. apply Forall_cons in Hty as [Hty1 Hty].
    destruct (EncodeRow_received _ _ Hlaw Hty1 Hr) as (data & -> & Hdata).
    destruct (ascii_AppendRow_ok _ _ _ _ (map received row) Hok) as (w1 & Ha & Hok1 & Hs1).
    destruct (IH _ _ Hty Hrs Hok1) as (w2 & Hr2 & Hok2 & Hs2). exists w2.
    split; [|split; [done|by rewrite Hs2, Hs1, <- app_assoc]]. cbn [recv_loop].
    rewrite (st_bind_run _ _ _ (inl tt) w1); [exact Hr2|]. unfold attempt, render, object_of. cbn [Render table_AppendRow ascii_table].
    by rewrite Hdata, Ha.
Qed.

(** C7: A query's result reaches the user: of the header and the rows that it writes to the
    pipe the server makes a response each; rendering those responses, with the table writer of
    a terminal whatever the size of its buffer, succeeds and shows under the header exactly the
    rows, in order, each value as it is received. *)
Theorem query_shown (stmts conn : string) (names : list string) (rows : list (list goval)) (b : Z)
    (isTerminal it2Check : bool) (ut : string → option Response) (ks : list K8s) (d1 : D1) (d2 : D2) :
  (∀ m a, MarshalAny m = Ok a → UnmarshalAny a = Some m) →
  Forall (λ row, Forall well_typed row ∧ is_ok (EncodeRow row) = true) rows →
  ∃ resps d1' t d2',
    Server_Run stmts conn (MHead names :: (MRow <$> rows)) d1 = (Ok tt, d1') ∧ sent d1' = sent d1 ++ resps ∧
    renderRPCRespStream isTerminal it2Check ut ks resps None (createASCIIWriter b, d2) = (Ok None, (t, d2')) ∧
    let shown := drop (length (tables_shown d2)) (tables_shown d2') in
    lines t = [] ∧ concat shown.*2 = map (map Sprint) (map (map received) rows) ∧
    Forall (λ t, t.1 = names ∧ 0 < Z.of_nat (length t.2) ≤ Z.max 1 b) shown.
Proof.
  intros Hlaw [Hty Henc]%Forall_and.
  assert (∃ resps, mapR EncodeRow rows = Ok resps) as [resps Hresps].
  { apply is_ok_Ok. rewrite is_ok_mapR. apply Is_true_true, forallb_True, Forall_forall. intros row Hrow.
    by eapply Forall_forall in Henc as ->. }
  destruct (sends (Response_Head names) d1) as (d1a & Hs & Hsent).
  destruct (respond_rows stmts conn rows resps d1a Hresps) as (d1' & Hrun & Hsent').
  destruct (ascii_start b names d2) as [Hok Hnil].
  destruct (recv_rows isTerminal it2Check ut ks _ _ _ rows resps _ Hlaw Hty Hresps Hok) as (w1 & Hrecv & Hok1 & Hs1).
  destruct (ascii_Flush_ok _ _ _ _ Hok1) as ([t d2'] & Hfl & Hl & Hc & Hf).
  exists (Response_Head names :: resps), d1', t, d2'. split.
  { unfold Server_Run. cbn [eachS]. rewrite (st_bind_run _ _ _ tt d1a); [exact Hrun|].
    unfold respond. by rewrite (st_bind_run _ _ _ (Response_Head names) d1) by done. }
  split; [by rewrite Hsent', Hsent, <- app_assoc|]. split.
  { unfold renderRPCRespStream. cbn [recv_loop].
    rewrite (st_bind_run _ _ _ None w1).
    - rewrite (st_bind_run _ _ _ (inl tt) (t, d2')); [done|]. unfold attempt. cbn [table_Flush ascii_table]. by rewrite Hfl.
    - rewrite (st_bind_run _ _ _ (inl tt) (mkASCIIWriter names [] b, d2)); [exact Hrecv|]. done. }
  split; [exact Hl|]. split; [|exact Hf]. cbn [snd] in Hc. by rewrite Hc, Hs1, Hnil.
Qed.
End query.

(** ** A stream that keeps everything, and a screen *)

#[export] Instance keeping_stream : ServerWorld (list (@Response plain_protobuf)) := {|
  Send r d := match r with Some r => (Ok tt, d ++ [r]) | None => (Fail (Errorf "proto: Marshal called with nil" []), d) end;
  UnmarshalText _ := None
|}.
#[export] Instance keeping_stream_works : StreamLog (list (@Response plain_protobuf)).
Proof. refine {| sent d := d |}. intros r d. by eexists. Defined.
#[export] Instance blank_terminal : Terminal recording := {|
  Println _ d := (Ok tt, d);
  PrintlnErr _ d := (Ok tt, d);
  imageCat _ d := (Ok tt, d)
|}.

#[local] Existing Instance toy_external.

(** Two rows through a buffer of one. *)
Lemma query_shown_witness :
  ∃ resps d1' (t : ASCIIWriter) (d2' : recording),
    Server_Run "" "mysql://x" (MHead ["a"]%string :: (MRow <$> [[VString "x"]; [VInteger KInt8 3]])) [] = (Ok tt, d1') ∧
    d1' = resps ∧
    renderRPCRespStream true false (λ _, None) [] resps None (createASCIIWriter 1, ([], []) : recording)
      = (Ok None, (t, d2')) ∧
    concat (tables_shown d2').*2 = [["x"]; ["3"]]%string.
Proof.
  destruct (query_shown (D1 := list Response) (D2 := recording) "" "mysql://x" ["a"]%string
    [[VString "x"]; [VInteger KInt8 3]] 1 true false (λ _, None) [] [] ([], []))
    as (resps & d1' & t & d2' & Hn1 & Hn2 & Hn3 & _ & Hn4 & _).
  - by intros m a [= ->].
  - repeat constructor; done.
  - exists resps, d1', t, d2'. split; [exact Hn1|]. split; [exact Hn2|]. split; [exact Hn3|exact Hn4].
Defined.

Lemma failed_statement_error_lost_witness :
  ∃ d1, Server_Run toy_program "mysql://x" ([MText "working"] ++ [MEndOfExecution 0 1 "SELECT 1"; MError (Errorf "no table" [])]) []
    = (Fail (Errorf "proto: Marshal called with nil" []), d1).
Proof.
  apply (failed_statement_error_lost (D := list Response) toy_program "mysql://x" "mysql" "x" "SELECT 1" [MText "working"]
    0 1 (Errorf "no table" []) (Errorf "proto: Marshal called with nil" []) toy_result [] [Response_Message "working"]).
  - reflexivity.
  - vm_compute. reflexivity.
  - intros d. by exists d.
  - reflexivity.
Defined.
