(* ===== verification/Client.v ===== *)
(** * The client's command line (go/cmd/sqlflow/main.go)

    The client reads lines, from a file or a terminal, cuts them into statements at the
    semicolons outside of quotation marks, and sends each statement to the server, except that
    EXIT and QUIT end the client and USE changes the data source of the requests behind it. *)

From S2P Require Import Prelude GoStrings GoState Base64 SqlParser Response NormalStmt TableWriter Argo ArgoFollow Pipe AttrInit Serve.

Local Open Scope Z_scope.

(** ** Lines become statements *)

Definition isSpace (c : ascii) : bool := in_range 9 13 (byte c) || (byte c =? 32).
Fixpoint skip_spaces (s : string) : string :=
  match s with String c s' => if isSpace c then skip_spaces s' else s | EmptyString => s end.
(** [strings.TrimLeft(line, "\t ")] *)
Fixpoint TrimLeft_blank (s : string) : string :=
  match s with
  | String c s' => if (byte c =? 9) || (byte c =? 32) then TrimLeft_blank s' else s
  | EmptyString => s
  end.

(** What [addLineToStmt] takes and changes: its three pointers. *)
Record input := mkInput { inQuotedString : bool; isSingleQuoted : bool; statements : list string }.
Definition no_input : input := mkInput false false [].

(** [+=] on the last statement. *)
Fixpoint append_last (l : list string) (s : string) : list string :=
  match l with
  | [] => []
  | [t] => [(t +:+ s)%string]
  | t :: l => t :: append_last l s
  end.
Definition add_text (s : string) (i : input) : input :=
  mkInput (inQuotedString i) (isSingleQuoted i) (append_last (statements i) s).
Definition last_empty (i : input) : bool := bool_decide (List.last (statements i) ""%string = ""%string).
Definition new_statement (i : input) : input :=
  mkInput (inQuotedString i) (isSingleQuoted i) (statements i ++ [""%string]).

Definition backslash : ascii := of_byte 92.
Definition double_quote : ascii := of_byte 34.
Definition single_quote : ascii := of_byte 39.

(** A quotation mark opens a string or ends the one that it has opened. *)
Definition on_quote (c : ascii) (i : input) : input :=
  let single := bool_decide (c = single_quote) in
  if inQuotedString i
  then mkInput (negb (Bool.eqb (isSingleQuoted i) single)) (isSingleQuoted i) (statements i)
  else mkInput true single (statements i).

Section lines.
Context `{UnicodeTables}.

(** The loop at index i: [piece] is line[start:i] and [rest] is line[i:]; [first] says that i is
    0.  The answer tells whether the line ends with the end of a statement. *)
Fixpoint line_loop (fuel : nat) (isEscape first : bool) (piece rest : string) (i : input) : result (bool * input) :=
  match fuel with
  | O => NoFuel
  | S fuel =>
    match rest with
    | EmptyString => Ok (false, add_text piece i)
    | String c rest =>
      let next esc i := line_loop fuel esc false (piece +:+ char1 c) rest i in
      if isEscape then next false i
      else if decide (c = backslash) then next (inQuotedString i) i
      else if decide (c = double_quote ∨ c = single_quote) then next false (on_quote c i)
      else if decide (c = ";"%char ∧ inQuotedString i = false) then
        let i := if first && negb (last_empty i) then add_text (piece +:+ ";") i
                 else if decide (piece ≠ ""%string) then add_text (piece +:+ ";") i else i in
        let rest := skip_spaces rest in
        if decide (rest = ""%string) then Ok (true, i)
        else line_loop fuel false false "" rest (if last_empty i then i else new_statement i)
      else if bool_decide (c = "-"%char ∧ inQuotedString i = false) && HasPrefix rest "-" &&
              match str_drop 1 rest with String c _ => isSpace c | EmptyString => true end then
        let i := add_text (TrimSpace piece) i in
        if decide (statements i = [""%string]) then Ok (true, mkInput (inQuotedString i) (isSingleQuoted i) [])
        else Ok (false, i)
      else next false i
    end
  end.

Definition addLineToStmt (line : string) (i : input) : result (bool * input) :=
  let '(line, i) := match statements i with
                    | [] => (TrimLeft_blank line, new_statement i)
                    | _ => (line, add_text (char1 (of_byte 10)) i)
                    end in
  let line := unescape_stmt line in
  line_loop (S (str_len line)) false true "" line i.

(** [bufio.Scanner]: the lines that are left, and the error behind them. *)
Record Scanner := mkScanner { sc_lines : list string; sc_Err : option error }.
Inductive read_error := EOF | ReadError (e : error).

Fixpoint read_lines (lines : list string) (i : input) : result (bool * list string * list string) :=
  match lines with
  | [] => Ok (false, statements i, [])
  | line :: lines =>
    '(complete, i) ← addLineToStmt line i;
    if complete : bool then Ok (true, statements i, lines) else read_lines lines i
  end.
Definition readStmt (scn : Scanner) : result (list string * option read_error * Scanner) :=
  '(complete, stmt, lines) ← read_lines (sc_lines scn) no_input;
  Ok (stmt,
      if complete : bool then None
      else match sc_Err scn with None => Some EOF | Some e => Some (ReadError e) end,
      mkScanner lines (sc_Err scn)).
End lines.

(** ** Data sources *)

(** Package net/url: [ParseQuery] and [Encode], and the session's address with the user and the
    parameters that it lacks. *)
Class QueryStrings := {
  ParseQuery : string → option (gmap string (list string));
  Encode : gmap string (list string) → string
}.

(** [log.Fatalf] ends the process. *)
Definition getDataSource `{QueryStrings} (dataSource db : string) : result string :=
  if decide (db = ""%string) then Ok dataSource else
  match ParseURL dataSource with
  | Ok (driver, other) =>
    let pieces := Split other "?" in
    let piece0 := List.hd ""%string pieces in
    if decide (driver = "maxcompute" ∨ driver = "alisa")%string then
      v ← match pieces with
          | [_; q] => match ParseQuery q with Some v => Ok v | None => Panic end
          | _ => Ok ∅
          end;
      Ok (driver +:+ "://" +:+ piece0 +:+ "?" +:+ Encode (<["curr_project"%string := [db]]> v))%string
    else if decide (driver = "mysql" ∨ driver = "hive")%string then
      let piece0 := (List.hd "" (Split piece0 "/") +:+ "/" +:+ db)%string in
      Ok (driver +:+ "://" +:+ Join (piece0 :: tail pieces) "?")%string
    else Panic
  | _ => Panic
  end.

Definition isExitStmt `{UnicodeTables} (stmt : string) : bool :=
  let separatorIndex := default (str_len stmt) (Index stmt ";") in
  let firstStmt := ToUpper (TrimSpace (str_take separatorIndex stmt)) in
  bool_decide (firstStmt = "EXIT" ∨ firstStmt = "QUIT")%string.

(** [strings.Fields] *)
Fixpoint fields_of (word : string) (l : list (Z * string)) : list string :=
  match l with
  | [] => if decide (word = ""%string) then [] else [word]
  | (r, s) :: l =>
    if is_space r then (if decide (word = ""%string) then [] else [word]) ++ fields_of "" l
    else fields_of (word +:+ s) l
  end.
Definition Fields `{UnicodeTables} (s : string) : list string := fields_of "" (segments s).

(** ** The session of a request (go/sql/session.go)

    [add_params]: the address with the user and the password, if it names none, and with those
    parameters that it lacks; [None] if net/url cannot read it. *)
Class SessionURL := { add_params : string → option (string * string) → list (string * string) → option string }.
Definition MakeSessionFromEnv `{UnicodeTables} `{SessionURL} (Getenv : string → string) : pb_Session :=
  let source := Getenv "SQLFLOW_DATASOURCE"%string in
  let session conn := mkSession (Getenv "SQLFLOW_USER_TOKEN"%string) conn
    (bool_decide (ToLower (Getenv "SQLFLOW_EXIT_ON_SUBMIT"%string) = "true"%string)) (Getenv "SQLFLOW_USER_ID"%string) "" "" "" ""
    (Getenv "SQLFLOW_submitter"%string) "" "" in
  let hdfsUser := Getenv "SQLFLOW_HADOOP_USER"%string in
  match ParseURL source with
  | Ok (driver, _) =>
    if decide (driver = "hive"%string) then
      match add_params source
              (if decide (hdfsUser = ""%string) then None else Some (hdfsUser, Getenv "SQLFLOW_HADOOP_PASS"%string))
              (filter (λ kv, kv.2 ≠ ""%string)
                 [("hive_location", Getenv "SQLFLOW_HIVE_LOCATION"); ("hdfs_namenode_addr", Getenv "SQLFLOW_HDFS_NAMENODE_ADDR")]%string) with
      | Some conn => session conn
      | None => session source
      end
    else session source
  | _ => session source
  end.
Definition with_source (conn : string) (s : pb_Session) : pb_Session :=
  mkSession (Token s) conn (ExitOnSubmit s) (UserId s) (HiveLocation s) (HdfsNamenodeAddr s) (HdfsUser s) (HdfsPass s)
    (Submitter s) (ServiceAccount s) (WfNamespace s).

(** ** Running statements *)

Record options := mkOptions {
  CertFile : string; SQLFlowServer : string; DataSource : string; Execute : string; File : string;
  opt_Run : bool; Delete : bool; Release : bool; opt_Get : bool; Repo : bool; opt_Model : bool; Local : bool; opt_List : bool
}.

Class ClientWorld (D : Type) `{Protobuf} := {
  LoadCert : string → st D unit;                            (* credentials.NewClientTLSFromFile *)
  Dial : string → bool → st D unit;                         (* the address, and whether with credentials *)
  client_Run : string → pb_Session → st D (list Response * option error); (* the stream of the answers and its end *)
  cluster : string → list K8s;                              (* the cluster at the calls of Fetch for a statement *)
  text_response : string → option Response;
  capture : st D unit → st D (option error * string);       (* step.GetStdout *)
  ClientEnv : string → string;
  OpenFile : string → st D Scanner;
  Stdin : Scanner;
  is_terminal : bool;
  StringLines : string → Scanner                            (* the lines of a text *)
}.

(** What a statement comes to: the process ends with it, or it returns. *)
Inductive verdict := Exited | Ran (e : option error).

Section client.
Context `{UnicodeTables} `{QueryStrings} `{SessionURL} `{ClientWorld D} `{!Terminal D} `{!Output D} `{!DSNParsers}.

Definition tablePageSize : Z := 1000.
Definition it2Check : bool := true.

Definition createRPCConn (opts : options) : st D unit :=
  if decide (CertFile opts = ""%string) then Dial (SQLFlowServer opts) false
  else LoadCert (CertFile opts) ≫= λ _, Dial (SQLFlowServer opts) true.

Definition sqlRequest (program ds currentDB : string) : result (string * pb_Session) :=
  conn ← getDataSource ds currentDB;
  Ok (program, with_source conn (MakeSessionFromEnv ClientEnv)).

(** [log.Println(err); return err] *)
Definition logged_error {A} (m : st D A) : st D A := catchS m (λ e, Println (err_format e) ≫= λ _, fail e).
Definition runStmtOnServer (opts : options) (currentDB stmt : string) (isTerminal : bool) : st D unit :=
  (if isTerminal then mret tt else Println ("sqlflow> " +:+ stmt)) ≫= λ _,
  logged_error (lift (Create_writer "ascii")) ≫= λ _,
  logged_error (createRPCConn opts) ≫= λ _,
  '(program, session) ← lift (sqlRequest stmt (DataSource opts) currentDB);
  '(stream, last) ← logged_error (client_Run program session);
  e ← with_local (createASCIIWriter tablePageSize)
        (renderRPCRespStream isTerminal it2Check text_response (cluster stmt) stream last);
  match e with Some e => fail e | None => mret tt end.

(** The database in use is a global variable. *)
Definition switchDatabase (opts : options) (db : string) : st (string * D) unit :=
  currentDB ← own;
  '(err, out) ← at_disk (capture (runStmtOnServer opts currentDB ("USE " +:+ db) true));
  match err with
  | Some e => at_disk (Println out) ≫= λ _, fail e
  | None => at_disk (Println ("Database changed to " +:+ db)) ≫= λ _, update (λ _, db)
  end.

Definition verdict_of {S} (m : st S unit) : st S verdict :=
  r ← attempt m; mret (Ran (match r with inl _ => None | inr e => Some e end)).
Definition runStmt (opts : options) (stmt : string) (isTerminal : bool) : st (string * D) verdict :=
  if isExitStmt stmt then at_disk (Println "Goodbye!") ≫= λ _, mret Exited else
  match Fields (ReplaceAll stmt ";" "") with
  | [use; db] =>
    if decide (ToUpper use = "USE"%string) then verdict_of (switchDatabase opts db)
    else currentDB ← own; verdict_of (at_disk (runStmtOnServer opts currentDB stmt isTerminal))
  | _ => currentDB ← own; verdict_of (at_disk (runStmtOnServer opts currentDB stmt isTerminal))
  end.

(** ** A program that is read to its end *)

Definition end_last (stmts : list string) : list string :=
  if decide (0 < length stmts)%nat then
    if HasSuffix (TrimSpace (List.last stmts ""%string)) ";" then stmts else append_last stmts ";"
  else stmts.
(** An error ends the process. *)
Fixpoint run_all (opts : options) (stmts : list string) : st (string * D) verdict :=
  match stmts with
  | [] => mret (Ran None)
  | stmt :: stmts =>
    v ← runStmt opts stmt false;
    match v with
    | Exited => mret Exited
    | Ran (Some e) => at_disk (Println ("run SQL statement failed: " +:+ err_format e)) ≫= λ _, lift Panic
    | Ran None => run_all opts stmts
    end
  end.
Fixpoint repl (fuel : nat) (opts : options) (scanner : Scanner) : st (string * D) unit :=
  match fuel with
  | O => lift NoFuel
  | S fuel =>
    '(statements, err, scanner) ← lift (readStmt scanner);
    match err, statements with
    | Some EOF, [] => mret tt
    | _, _ =>
      v ← run_all opts (end_last statements);
      match v with Exited => mret tt | Ran _ => repl fuel opts scanner end
    end
  end.

(** ** The program's start *)

Definition assertConnectable (opts : options) : st D unit :=
  catchS (createRPCConn opts) (λ e, Println ("can't connect to " +:+ SQLFlowServer opts +:+ ": " +:+ err_format e) ≫= λ _, lift Panic).
Definition or_env (s name : string) : string := if decide (s = ""%string) then ClientEnv name else s.
Definition with_environment (opts : options) : result options :=
  let server := or_env (SQLFlowServer opts) "SQLFLOW_SERVER" in
  if decide (server = ""%string) then Fail (Errorf "SQLFlow server address is not provided" []) else
  let source := or_env (DataSource opts) "SQLFLOW_DATASOURCE" in
  if decide (source = ""%string) then Fail (Errorf "data source is not provided" []) else
  Ok (mkOptions (or_env (CertFile opts) "SQLFLOW_CA_CRT") server source (Execute opts) (File opts) (opt_Run opts)
        (Delete opts) (Release opts) (opt_Get opts) (Repo opts) (opt_Model opts) (Local opts) (opt_List opts)).
(** The scanner of a file or of the text of an option; [None] for a prompt. *)
Definition open_input (opts : options) : st D (option Scanner) :=
  let isTerminal := bool_decide (File opts = ""%string) && bool_decide (Execute opts = ""%string) && is_terminal in
  file ← (if decide (File opts ≠ "" ∧ File opts ≠ "-")%string then OpenFile (File opts) else mret Stdin);
  mret (if isTerminal then None
        else Some (if decide (Execute opts = ""%string) then file else StringLines (TrimSpace (Execute opts)))).
Definition runSQLFlowClient (prompt : options → st (string * D) unit) (fuel : nat) (opts : options) : st (string * D) unit :=
  opts ← lift (with_environment opts);
  at_disk (assertConnectable opts) ≫= λ _,
  currentDB ← lift (GetDatabaseName (DataSource opts));
  update (λ _, currentDB) ≫= λ _,
  scanner ← at_disk (open_input opts);
  match scanner with
  | None => prompt opts
  | Some scanner => repl fuel opts scanner
  end.

(** What the options ask for. *)
Inductive task := RunClient | ReleaseModel | ReleaseModelFromLocal | ReleaseRepo | DeleteModel | DeleteRepo | ListModels | ListRepos | DownloadModel.
Definition processOptions (opts : options) : task :=
  if opt_Run opts then RunClient
  else if Release opts && opt_Model opts then (if Local opts then ReleaseModelFromLocal else ReleaseModel)
  else if Release opts && Repo opts then ReleaseRepo
  else if Delete opts && opt_Model opts then DeleteModel
  else if Delete opts && Repo opts then DeleteRepo
  else if opt_List opts && opt_Model opts then ListModels
  else if opt_List opts && Repo opts then ListRepos
  else if opt_Get opts && opt_Model opts then DownloadModel
  else RunClient.
End client.

(** ** What is read

    A scanner of its own: the open quotation mark (single or double) and whether the next
    character is escaped; [None] at a semicolon outside of quotation marks. *)
Definition qstate : Type := option bool * bool.
Definition q0 : qstate := (None, false).
Definition scan_char (q : qstate) (c : ascii) : option qstate :=
  if q.2 then Some (q.1, false)
  else if decide (c = backslash) then Some (q.1, bool_decide (is_Some q.1))
  else if decide (c = double_quote ∨ c = single_quote) then
    let single := bool_decide (c = single_quote) in
    Some (match q.1 with
          | None => Some single
          | Some s => if Bool.eqb s single then None else Some s
          end, false)
  else if decide (c = ";"%char ∧ q.1 = None) then None
  else Some (q.1, false).
Fixpoint scan (q : qstate) (s : string) : option qstate :=
  match s with
  | EmptyString => Some q
  | String c s => q ← scan_char q c; scan q s
  end.

(** A statement: its only semicolon outside of quotation marks is its end. *)
Definition complete (s : string) : Prop := ∃ p, s = (p +:+ ";")%string ∧ scan q0 p = Some q0.
Definition unfinished (s : string) : Prop := is_Some (scan q0 s).
Definition gap (g : string) : Prop := str_forall (λ c, isSpace c || bool_decide (c = ";"%char)) g = true.

(** [cut l t]: the text [t] is the statements [l], in order and each as it is written, with
    white space and empty statements around them, and perhaps an unfinished one at its end. *)
Inductive cut : list string → string → Prop :=
  | cut_end g : gap g → cut [] g
  | cut_open g s : gap g → unfinished s → cut [s] (g +:+ s)
  | cut_statement g s l t : gap g → complete s → cut l t → cut (s :: l) (g +:+ s +:+ t).

Lemma gap_app g h : gap g → gap h → gap (g +:+ h).
Proof. unfold gap. intros Hg Hh. by rewrite str_forall_app, Hg, Hh. Qed.
Lemma cut_gap g l t : gap g → cut l t → cut l (g +:+ t).
Proof.
  intros Hg Ht. destruct Ht as [h Hh|h s Hh Hs|h s l t Hh Hs Ht].
  - constructor. by apply gap_app.
  - rewrite str_app_assoc. constructor; [by apply gap_app|done].
  - rewrite str_app_assoc. constructor; [by apply gap_app|done..].
Qed.

(** The statements [l] at the beginning of a text. *)
Definition cuts (l : list string) (t : string) : Prop := ∀ k u, cut k u → cut (l ++ k) (t +:+ u).
Lemma cuts_nil : cuts [] "".
Proof. by intros k u Hu. Qed.
Lemma cuts_gap l t g : cuts l t → gap g → cuts l (t +:+ g).
Proof. intros Hl Hg k u Hu. rewrite <- str_app_assoc. apply Hl. by apply cut_gap. Qed.
Lemma cuts_statement l t s : cuts l t → complete s → cuts (l ++ [s]) (t +:+ s).
Proof.
  intros Hl Hs k u Hu. rewrite <- str_app_assoc, <- app_assoc. apply Hl.
  by apply (cut_statement "" s k u).
Qed.

Lemma scan_app q s t : scan q (s +:+ t) = (scan q s ≫= λ q, scan q t).
Proof. revert q. induction s as [|c s IH]; intros q; [done|]. cbn. destruct (scan_char q c); [apply IH|done]. Qed.

Lemma append_last_snoc l s t : append_last (l ++ [s]) t = l ++ [(s +:+ t)%string].
Proof. induction l as [|x l IH]; [done|]. cbn. rewrite IH. by destruct l. Qed.
Lemma last_snoc l (s d : string) : List.last (l ++ [s]) d = s.
Proof. induction l as [|x l IH]; [done|]. cbn. rewrite IH. by destruct l. Qed.

Lemma skip_spaces_split s : ∃ g, gap g ∧ s = (g +:+ skip_spaces s)%string.
Proof.
  induction s as [|c s (g & Hg & IH)]; [by exists ""%string|]. cbn. destruct (isSpace c) eqn:Hc; [|by exists ""%string].
  exists (String c g). split; [|cbn; by f_equal]. unfold gap in *. cbn. by rewrite Hc, Hg.
Qed.

(** ** The loop over a line *)

Definition quote_of (i : input) : option bool := if inQuotedString i then Some (isSingleQuoted i) else None.

(** The state of the loop when the text [t] has been read: [l] are the statements before the
    one that is being read, [cur] is that one without [piece]. *)
Record reading (esc : bool) (piece : string) (i : input) (l : list string) (t0 cur : string) : Prop := {
  read_statements : statements i = l ++ [cur];
  read_complete : Forall complete l;
  read_cuts : cuts l t0;
  read_scan : scan q0 (cur +:+ piece) = Some (quote_of i, esc)
}.

Lemma reading_next esc piece i l t0 cur c esc' i' :
  reading esc piece i l t0 cur → statements i' = statements i → scan_char (quote_of i, esc) c = Some (quote_of i', esc') →
  reading esc' (piece +:+ char1 c) i' l t0 cur.
Proof.
  intros [H1 H2 H3 H4] Hs Hc. split; [by rewrite Hs|done|done|].
  rewrite str_app_assoc, scan_app, H4. cbn. by rewrite Hc.
Qed.
Lemma reading_last_empty esc piece i l t0 cur :
  reading esc piece i l t0 cur → last_empty i = bool_decide (cur = ""%string).
Proof. intros [H1 _ _ _]. unfold last_empty. by rewrite H1, last_snoc. Qed.

(** What a line comes to, with the text up to its end. *)
Definition line_read (total : string) (b : bool) (i : input) : Prop :=
  if b then Forall (λ s, s = ""%string ∨ complete s) (statements i) ∧ cut (statements i) total
  else ∃ esc l t0 cur, reading esc "" i l t0 cur ∧ total = (t0 +:+ cur)%string.

Lemma Forall_or_empty l : Forall complete l → Forall (λ s, s = ""%string ∨ complete s) l.
Proof. intros H. eapply Forall_impl; [exact H|]. by right. Qed.

(** Behind a semicolon, when the text [t] has been read: the last statement is complete, or it
    is still empty. *)
Definition ended_at (i : input) (t : string) : Prop :=
  ∃ l cur, statements i = l ++ [cur] ∧ Forall complete l ∧ inQuotedString i = false ∧
    (cur = ""%string ∧ cuts l t ∨ complete cur ∧ ∃ t0, t = (t0 +:+ cur)%string ∧ cuts l t0).

Lemma semicolon first piece i l t0 cur :
  reading false piece i l t0 cur → inQuotedString i = false → (first = false → piece = ""%string → cur = ""%string) →
  ended_at (if first && negb (last_empty i) then add_text (piece +:+ ";") i
            else if decide (piece ≠ ""%string) then add_text (piece +:+ ";") i else i) (t0 +:+ cur +:+ piece +:+ ";").
Proof.
  intros [H1 H2 H3 H4] Hq Hfirst.
  assert (ended_at (add_text (piece +:+ ";") i) (t0 +:+ cur +:+ piece +:+ ";")) as Hadd.
  { exists l, (cur +:+ piece +:+ ";")%string. cbn. rewrite H1, append_last_snoc. split_and!; [done..|]. right. split.
    - exists (cur +:+ piece)%string. split; [by rewrite str_app_assoc|]. unfold quote_of in H4. by rewrite Hq in H4.
    - by exists t0. }
  unfold last_empty. rewrite H1, last_snoc. destruct (first && _) eqn:Hf; [done|].
  destruct (decide (piece ≠ ""%string)) as [|Hpe]; [done|]. apply dec_stable in Hpe. subst piece.
  assert (cur = ""%string) as ->.
  { destruct first; [|by apply Hfirst]. cbn in Hf. by apply negb_false_iff, bool_decide_eq_true in Hf. }
  exists l, ""%string. split_and!; [done..|]. left. split; [done|]. by apply cuts_gap.
Qed.

Lemma ended_line i t g : ended_at i t → gap g → line_read (t +:+ g) true i.
Proof.
  intros (l & cur & H1 & H2 & Hq & Hcur) Hg. unfold line_read. rewrite H1. split.
  - apply Forall_app. split; [by apply Forall_or_empty|]. apply Forall_singleton. destruct Hcur as [[-> _]|[? _]]; [by left|by right].
  - destruct Hcur as [[-> Ht]|[Hc (t0 & -> & Ht)]].
    + apply Ht. rewrite <- (str_app_nil_r g). constructor; [done|]. by exists q0.
    + rewrite <- str_app_assoc. apply Ht. apply (cut_statement "" cur [] g); [done..|]. by constructor.
Qed.

Lemma ended_next i t g : ended_at i t → gap g →
  ∃ l, reading false "" (if last_empty i then i else new_statement i) l (t +:+ g) "".
Proof.
  intros (l & cur & H1 & H2 & Hq & Hcur) Hg. unfold last_empty. rewrite H1, last_snoc.
  assert (∀ j, inQuotedString j = inQuotedString i → scan q0 ("" +:+ "") = Some (quote_of j, false)) as Hs.
  { intros j Hj. unfold quote_of. by rewrite Hj, Hq. }
  destruct Hcur as [[-> Ht]|[Hc (t0 & -> & Ht)]].
  - rewrite bool_decide_true by done. exists l. split; [done|done|by apply cuts_gap|by apply Hs].
  - rewrite bool_decide_false by (destruct Hc as (p & -> & _); by destruct p).
    exists (l ++ [cur]). split; [cbn; by rewrite H1|apply Forall_app; split; [done|by apply Forall_singleton]|apply cuts_gap; [by apply cuts_statement|done]|by apply Hs].
Qed.

Lemma line_loop_spec (Hu : UnicodeTables) fuel esc first piece rest i l t0 cur :
  (str_len rest < fuel)%nat → no_pair "-" "-" rest = true → reading esc piece i l t0 cur →
  (first = false → piece = ""%string → cur = ""%string) →
  ∃ b i', line_loop fuel esc first piece rest i = Ok (b, i') ∧ line_read (t0 +:+ cur +:+ piece +:+ rest) b i'.
Proof.
  revert esc first piece rest i l t0 cur. induction fuel as [|fuel IH]; intros esc first piece rest i l t0 cur Hf Hp Hr Hfirst; [lia|].
  destruct rest as [|c rest]; cbn [line_loop].
  { exists false, (add_text piece i). split; [done|]. exists esc, l, t0, (cur +:+ piece)%string. rewrite str_app_nil_r.
    split; [|done]. destruct Hr as [H1 H2 H3 H4]. split; [cbn; by rewrite H1, append_last_snoc|done|done|].
    by rewrite str_app_nil_r. }
  assert (no_pair "-" "-" rest = true) as Hp' by (by apply (no_pair_drop _ _ 1) in Hp).
  assert (∀ esc' i', statements i' = statements i → scan_char (quote_of i, esc) c = Some (quote_of i', esc') →
    ∃ b j, line_loop fuel esc' false (piece +:+ char1 c) rest i' = Ok (b, j) ∧
      line_read (t0 +:+ cur +:+ piece +:+ String c rest) b j) as Hnext.
  { intros esc' i' Hs Hc. pose proof (reading_next _ _ _ _ _ _ _ _ _ Hr Hs Hc) as Hr'.
    destruct (IH _ false _ rest _ _ _ _ ltac:(cbn in Hf; lia) Hp' Hr') as (b & j & H1 & H2); [by destruct piece|].
    exists b, j. split; [exact H1|]. by rewrite <- (str_app_assoc piece (char1 c) rest) in H2. }
  unfold scan_char in Hnext. cbn [fst snd] in Hnext.
  destruct esc; [by apply Hnext|].
  destruct (decide (c = backslash)) as [|Hb]; [|].
  { apply Hnext; [done|]. unfold quote_of. by destruct (inQuotedString i). }
  destruct (decide (c = double_quote ∨ c = single_quote)) as [|Hqu].
  { apply Hnext; [unfold on_quote; by destruct (inQuotedString i)|]. unfold on_quote, quote_of.
    destruct (inQuotedString i); [|done]. by destruct (Bool.eqb (isSingleQuoted i) _) eqn:He; cbn; rewrite ?He. }
  assert (quote_of i = None ↔ inQuotedString i = false) as Hqo by (unfold quote_of; by destruct (inQuotedString i)).
  destruct (decide (c = ";"%char ∧ inQuotedString i = false)) as [[-> Hq]|Hnot].
  - destruct (skip_spaces_split rest) as (g & Hg & Hrest). pose proof (semicolon _ _ _ _ _ _ Hr Hq Hfirst) as Hend.
    set (i1 := if first && _ then _ else _) in *. clearbody i1.
    assert (t0 +:+ cur +:+ piece +:+ String ";" rest = (t0 +:+ cur +:+ piece +:+ ";") +:+ g +:+ skip_spaces rest)%string as Htot.
    { rewrite Hrest at 1. change (String ";" (g +:+ ?u)) with (";" +:+ g +:+ u)%string. by rewrite !str_app_assoc. }
    rewrite Htot. clear Hnext. destruct (decide (skip_spaces rest = ""%string)) as [Hend'|Hend'].
    + exists true, i1. split; [done|]. rewrite Hend', str_app_nil_r. by apply ended_line.
    + destruct (ended_next _ _ _ Hend Hg) as (l' & Hr').
      destruct (IH false false "" (skip_spaces rest) _ _ _ _ ltac:(pose proof (f_equal str_len Hrest) as Hl; rewrite str_length_app in Hl; cbn in Hf; lia)
        ltac:(rewrite Hrest in Hp'; by apply no_pair_app_inv in Hp' as [_ ?]) Hr' ltac:(done)) as (b & j & H1 & H2).
      exists b, j. split; [exact H1|]. by rewrite str_app_assoc.
  - assert (bool_decide (c = "-"%char ∧ inQuotedString i = false) && HasPrefix rest "-" = false) as ->.
    { apply andb_false_iff. destruct (HasPrefix rest "-") eqn:Hd; [left|by right]. apply bool_decide_eq_false. intros [-> _].
      apply HasPrefix_app in Hd as [u ->]. cbn in Hp. by rewrite bool_decide_true in Hp. }
    cbn [andb]. apply Hnext; [done|]. rewrite decide_False by (by rewrite Hqo). done.
Qed.

(** ** Lines *)

Definition no_comment (line : string) : Prop := Contains (unescape_stmt line) "--" = false.

Lemma no_comment_pair line : no_comment line → no_pair "-" "-" (unescape_stmt line) = true.
Proof.
  unfold no_comment, Contains. intros Hn%bool_decide_eq_false. apply no_pair_Index.
  destruct (Index (unescape_stmt line) (String "-" (char1 "-"))) eqn:Hi; [|done]. destruct Hn. by eexists.
Qed.

Lemma TrimLeft_blank_suffix line : ∃ u, unescape_stmt line = (u +:+ unescape_stmt (TrimLeft_blank line))%string.
Proof.
  induction line as [|c line (u & IH)]; [by exists ""%string|]. cbn [TrimLeft_blank].
  destruct ((byte c =? 9) || (byte c =? 32)) eqn:Hc; [|by exists ""%string]. exists (String c u).
  assert (unescape_stmt (String c line) = String c (unescape_stmt line)) as ->.
  { destruct line as [|d line]; [done|]. cbn [unescape_stmt]. rewrite decide_False; [done|].
    intros Hb. by rewrite Hb in Hc. }
  by rewrite IH.
Qed.

Lemma no_comment_trimmed line : no_comment line → no_pair "-" "-" (unescape_stmt (TrimLeft_blank line)) = true.
Proof.
  intros Hn%no_comment_pair. destruct (TrimLeft_blank_suffix line) as (u & Hu). rewrite Hu in Hn.
  by apply no_pair_app_inv in Hn as [_ ?].
Qed.

Definition newline1 : string := char1 (of_byte 10).
(** The text of the lines of a program, as the statements have it. *)
Definition following_text (lines : list string) : string := str_concat (map (λ l, newline1 +:+ unescape_stmt l) lines).
Definition program_text (lines : list string) : string :=
  match lines with
  | [] => ""
  | l :: lines => unescape_stmt (TrimLeft_blank l) +:+ following_text lines
  end.

(** The lines as they were typed, joined again. *)
Definition typed_text (lines : list string) : string :=
  match lines with
  | [] => ""
  | l :: lines => TrimLeft_blank l +:+ str_concat (map (λ l, newline1 +:+ l) lines)
  end.

(** The replacer only touches backslashes. *)
Lemma unescape_stmt_id line : no_char backslash line = true → unescape_stmt line = line.
Proof.
  assert (∀ n line, (str_len line ≤ n)%nat → no_char backslash line = true → unescape_stmt line = line) as Hgen; [|by eapply Hgen].
  clear. induction n as [|n IH]; intros [|c [|d line]] Hn Hl; cbn in Hn; try done; try lia.
  cbn [no_char str_forall] in Hl. apply andb_true_iff in Hl as [Hc Hl]. cbn [unescape_stmt].
  apply negb_true_iff, bool_decide_eq_false in Hc. rewrite decide_False by (intros Hb; apply Hc; by rewrite <- (of_byte_byte c), Hb).
  f_equal. apply (IH (String d line)); [cbn; lia|exact Hl].
Qed.
Lemma no_char_TrimLeft_blank c line : no_char c line = true → no_char c (TrimLeft_blank line) = true.
Proof.
  induction line as [|a line IH]; [done|]. cbn [TrimLeft_blank]. intros Hl. destruct (_ || _); [|done].
  cbn [no_char str_forall] in Hl. apply andb_true_iff in Hl as [_ Hl]. by apply IH.
Qed.
Lemma program_text_typed lines : Forall (λ l, no_char backslash l = true) lines → program_text lines = typed_text lines.
Proof.
  intros [|l ls Hl Hls]; [done|]. cbn [program_text typed_text].
  rewrite unescape_stmt_id by (by apply no_char_TrimLeft_blank). f_equal. unfold following_text. f_equal.
  induction Hls as [|x ls Hx _ IH]; [done|]. cbn [map]. by rewrite unescape_stmt_id, IH.
Qed.

Section reads.
Context (Hu : UnicodeTables).

Lemma addLineToStmt_first line : no_comment line →
  ∃ b i', addLineToStmt line no_input = Ok (b, i') ∧ line_read (unescape_stmt (TrimLeft_blank line)) b i'.
Proof.
  intros Hn. unfold addLineToStmt. cbn [statements no_input].
  destruct (line_loop_spec Hu (S (str_len (unescape_stmt (TrimLeft_blank line)))) false true ""
    (unescape_stmt (TrimLeft_blank line)) (new_statement no_input) [] "" "") as (b & i' & H1 & H2);
    [lia|by apply no_comment_trimmed|split; [done..|by apply cuts_nil|done]|done|].
  exists b, i'. by split.
Qed.

Lemma addLineToStmt_next line total i : no_comment line → line_read total false i →
  ∃ b i', addLineToStmt line i = Ok (b, i') ∧ line_read (total +:+ newline1 +:+ unescape_stmt line) b i'.
Proof.
  intros Hn (esc & l & t0 & cur & [H1 H2 H3 H4] & ->). unfold addLineToStmt.
  assert (∃ x k, statements i = x :: k) as (x & k & Hi) by (rewrite H1; destruct l; by eexists _, _).
  rewrite Hi.
  destruct (line_loop_spec Hu (S (str_len (unescape_stmt line))) false true "" (unescape_stmt line)
    (add_text newline1 i) l t0 (cur +:+ newline1)) as (b & i' & Hr1 & Hr2); [lia|by apply no_comment_pair| |done|].
  - split; [cbn; by rewrite H1, append_last_snoc|done|done|]. rewrite str_app_nil_r in H4 |- *. rewrite scan_app, H4.
    unfold quote_of. cbn. by destruct esc.
  - exists b, i'. split; [exact Hr1|]. change ("" +:+ ?u)%string with u in Hr2. by rewrite <- !str_app_assoc in Hr2 |- *.
Qed.

Lemma line_read_cut total b i : line_read total b i → cut (statements i) total.
Proof.
  destruct b; cbn; [by intros [_ ?]|]. intros (esc & l & t0 & cur & [H1 _ H3 H4] & ->). rewrite H1. apply H3.
  apply (cut_open "" cur); [done|]. rewrite str_app_nil_r in H4. by eexists.
Qed.

Lemma read_lines_spec lines total i : Forall no_comment lines → line_read total false i →
  ∃ b stmts used rest, read_lines lines i = Ok (b, stmts, rest) ∧ lines = used ++ rest ∧ cut stmts (total +:+ following_text used) ∧
    if b then Forall (λ s, s = ""%string ∨ complete s) stmts else rest = [].
Proof.
  intros Hn. revert total i. induction Hn as [|line lines Hl _ IH]; intros total i Hr; cbn [read_lines].
  { exists false, (statements i), [], []. split_and!; [done..| |done]. cbn. rewrite str_app_nil_r. exact (line_read_cut _ _ _ Hr). }
  destruct (addLineToStmt_next line total i Hl Hr) as (b & i' & -> & Hr'). ok_step. destruct b.
  - exists true, (statements i'), [line], lines. split_and!; [done..| |by destruct Hr'].
    apply line_read_cut in Hr'. cbn. by rewrite str_app_nil_r.
  - destruct (IH _ _ Hr') as (b & stmts & used & rest & -> & -> & Hcut & Hb). exists b, stmts, (line :: used), rest.
    split_and!; [done..| |done]. unfold following_text in *. cbn [map]. rewrite str_concat_cons.
    by rewrite <- !str_app_assoc in Hcut |- *.
Qed.

(** C9: reading statements from lines without two hyphens in a row, also in quotation marks,
    always ends, and cuts the text of the lines it has used at the semicolons outside of
    quotation marks.  This text is what was typed, without the blanks before it, where each
    typed [\n], [\t] and [\r] has become the character it stands for, also in quotation marks;
    lines without a backslash are unchanged.  The statements are in the order of the text, each
    is a piece of it with its blanks and line ends, and only white space and empty statements
    between them are gone.  Without an error every nonempty statement ends with its only semicolon; with
    an error no line is left. *)
Theorem readStmt_cuts (scn : Scanner) : Forall no_comment (sc_lines scn) →
  ∃ stmts err used rest, readStmt scn = Ok (stmts, err, mkScanner rest (sc_Err scn)) ∧ sc_lines scn = used ++ rest ∧
    cut stmts (program_text used) ∧
    (Forall (λ l, no_char backslash l = true) used → program_text used = typed_text used) ∧
    match err with
    | None => Forall (λ s, s = ""%string ∨ complete s) stmts
    | Some _ => rest = []
    end.
Proof.
  unfold readStmt. destruct scn as [lines e]. cbn [sc_lines sc_Err]. intros Hn.
  assert (∃ b stmts used rest, read_lines lines no_input = Ok (b, stmts, rest) ∧ lines = used ++ rest ∧
    cut stmts (program_text used) ∧ if b then Forall (λ s, s = ""%string ∨ complete s) stmts else rest = [])
    as (b & stmts & used & rest & -> & -> & Hcut & Hb).
  { destruct Hn as [|line lines Hl Hn]; [exists false, [], [], []; split_and!; [done..|by constructor|done]|].
    destruct (addLineToStmt_first line Hl) as (b & i & Ha & Hr). cbn [read_lines]. rewrite Ha. ok_step. destruct b.
    - exists true, (statements i), [line], lines. split_and!; [done..| |by destruct Hr].
      apply line_read_cut in Hr. cbn. by rewrite str_app_nil_r.
    - destruct (read_lines_spec _ _ _ Hn Hr) as (b & stmts & used & rest & -> & -> & ? & ?).
      by exists b, stmts, (line :: used), rest. }
  ok_step. eexists stmts, _, used, rest. split_and!; [done..|exact (program_text_typed used)|].
  destruct b; [done|]. by destruct e.
Qed.

(** ** The loop over a program *)

Lemma skip_spaces_length s : (str_len (skip_spaces s) ≤ str_len s)%nat.
Proof. destruct (skip_spaces_split s) as (g & _ & Hs). rewrite Hs at 2. rewrite str_length_app. lia. Qed.

Lemma line_loop_total fuel esc first piece rest i :
  (str_len rest < fuel)%nat → ∃ b i', line_loop fuel esc first piece rest i = Ok (b, i').
Proof.
  revert esc first piece rest i. induction fuel as [|fuel IH]; intros esc first piece rest i Hf; [lia|].
  destruct rest as [|c rest]; [by eexists _, _|]. cbn [line_loop]. cbn in Hf. pose proof (skip_spaces_length rest).
  repeat case_match; try (by eexists _, _); apply IH; lia.
Qed.

Lemma read_lines_total lines i : ∃ b stmts rest, read_lines lines i = Ok (b, stmts, rest) ∧
  (if b then length rest < length lines else rest = [])%nat ∧ (length rest ≤ length lines)%nat.
Proof.
  revert i. induction lines as [|line lines IH]; intros i; cbn [read_lines]; [by exists false, (statements i), []|].
  assert (∃ b j, addLineToStmt line i = Ok (b, j)) as (b & j & ->).
  { unfold addLineToStmt. destruct (statements i); apply line_loop_total; lia. }
  ok_step. destruct b; [exists true, (statements j), lines; cbn; split_and!; [done|lia|lia]|].
  destruct (IH j) as (b & stmts & rest & -> & Hb & Hr). exists b, stmts, rest. cbn [length].
  split_and!; [done|destruct b; [lia|done]|lia].
Qed.
End reads.

Section repl.
Context `{UnicodeTables} `{QueryStrings} `{SessionURL} `{ClientWorld D} `{!Terminal D} `{!Output D} `{!DSNParsers}.

(** C35: the loop over the statements of a program ends when the input can be read to its end: a
    round for each line and two more are enough, unless running the statements does not end.  When
    reading fails, as it does at a line that is too long for the scanner, and no line is left,
    the loop never ends: it only looks for the end of the input. *)
Theorem repl_ends (opts : options) (scn : Scanner) (fuel : nat) (d : string * D) :
  (sc_Err scn = None → (length (sc_lines scn) + 2 ≤ fuel)%nat →
   (∀ stmts d, (run_all opts stmts d).1 ≠ NoFuel) → (repl fuel opts scn d).1 ≠ NoFuel) ∧
  (is_Some (sc_Err scn) → sc_lines scn = [] → repl fuel opts scn d = (NoFuel, d)).
Proof.
  split.
  - intros He Hf Hrun. revert scn d He Hf. induction fuel as [|fuel IH]; intros [lines e] d He Hf; cbn in He, Hf; [lia|]. subst e.
    destruct (read_lines_total lines no_input) as (b & stmts & rest & Hr & Hb & Hl).
    assert (readStmt (mkScanner lines None) = Ok (stmts, if b then None else Some EOF, mkScanner rest None)) as Hread.
    { unfold readStmt. cbn [sc_lines sc_Err]. by rewrite Hr. }
    cbn [repl]. rewrite Hread. unfold lift, mbind, st_bind.
    assert (∀ d, (let '(r, d1) := run_all opts (end_last stmts) d in
       match r with Ok v => match v with Exited => mret tt | Ran _ => repl fuel opts (mkScanner rest None) end d1
       | Fail e => (Fail e, d1) | Panic => (Panic, d1) | NoFuel => (NoFuel, d1) end).1 ≠ NoFuel) as Hall.
    { intros d1. specialize (Hrun (end_last stmts) d1). destruct (run_all opts (end_last stmts) d1) as [[v|e| |] d2]; [|done..].
      destruct v; [done|]. destruct b; [apply IH; cbn; [done|lia]|]. subst rest. by destruct fuel; [lia|]. }
    destruct b; [exact (Hall d)|]. destruct stmts; [done|exact (Hall d)].
  - intros [e He] Hl. destruct scn as [lines e']. cbn in He, Hl. subst. induction fuel as [|fuel IH]; [done|].
    cbn [repl]. unfold readStmt. cbn. exact IH.
Qed.
End repl.

(** ** A server that notes the requests with their data sources *)

#[export] Instance plain_queries : QueryStrings := {| ParseQuery _ := Some ∅; Encode _ := ""%string |}.
#[export] Instance no_session_url : SessionURL := {| add_params _ _ _ := None |}.
#[export] Instance noting_server : ClientWorld recording := {|
  LoadCert _ := mret tt;
  Dial _ _ := mret tt;
  client_Run p s := λ '(a, b), (Ok ([], None), (a ++ [Response_Message (DbConnStr s +:+ " " +:+ p)], b));
  cluster _ := [];
  text_response _ := None;
  capture m := λ d, let '(r, d) := m d in (Ok (match r with Fail e => Some e | _ => None end, ""%string), d);
  ClientEnv _ := ""%string;
  OpenFile _ := mret (mkScanner [] None);
  Stdin := mkScanner [] None;
  is_terminal := false;
  StringLines s := mkScanner (Split s newline1) None
|}.
Definition demo_options : options := mkOptions "" "localhost" "mysql://r:r@tcp(h:1)/iris?x=0" "" "" true false false false false false false false.
Definition demo_program : list string :=
  ["use other; select 'a;"; " b';  select 1;"; ""; "select 2"]%string.
Definition requests (d : (string * recording)) : list Response := d.2.1.

Example program_requests : (requests (repl 10 demo_options (mkScanner demo_program None) ("", ([], []))%string).2 =
  Response_Message <$>
    ["mysql://r:r@tcp(h:1)/iris?x=0 USE other"; "mysql://r:r@tcp(h:1)/other?x=0 select 'a;" +:+ newline1 +:+ " b';";
     "mysql://r:r@tcp(h:1)/other?x=0 select 1;"; "mysql://r:r@tcp(h:1)/other?x=0 " +:+ newline1 +:+ "select 2;"])%string.
Proof. by vm_compute. Qed.

(** A comment behind a complete statement keeps the client waiting: the test of main_test.go has
    three statements of four lines as the answer of one call. *)
Example comment_behind_statement :
  readStmt (mkScanner ["select 1; -- one"; "select 2;"; "select 3;"]%string None) =
    Ok (["select 1;"; newline1 +:+ "select 2;"], None, mkScanner ["select 3;"] None)%string.
Proof. by vm_compute. Qed.
(** Blanks in front of a comment are lost also when a quotation mark before them is open. *)
Example quoted_blanks_lost :
  readStmt (mkScanner ["select 'a"; "   b' -- c"; ";"]%string None) =
    Ok (["select 'a" +:+ newline1 +:+ "b'" +:+ newline1 +:+ ";"], None, mkScanner [] None)%string.
Proof. by vm_compute. Qed.

Lemma readStmt_cuts_witness :
  Forall no_comment demo_program ∧
  ∃ used rest, demo_program = used ++ rest ∧
    cut ["use other;"; "select 'a;" +:+ newline1 +:+ " b';"; "select 1;"]%string (program_text used).
Proof.
  assert (Forall no_comment demo_program) as Hn by (repeat constructor; by vm_compute).
  split; [exact Hn|].
  destruct (readStmt_cuts _ (mkScanner demo_program None) Hn) as (stmts & err & used & rest & Hr & Hs & Hc & _).
  exists used, rest. split; [exact Hs|]. vm_compute in Hr. injection Hr as <- _ _. exact Hc.
Defined.

(** Running a statement here does not run out of fuel. *)
Definition ends {S A} (m : st S A) : Prop := ∀ d, (m d).1 ≠ NoFuel.
Lemma ends_bind {S A B} (m : st S A) (f : A → st S B) : ends m → (∀ a, ends (f a)) → ends (m ≫= f).
Proof. intros Hm Hf d. specialize (Hm d). unfold mbind, st_bind. destruct (m d) as [[a|e| |] d1]; [apply Hf|done..]. Qed.
Lemma ends_ret {S A} (a : A) : ends (mret a : st S A).
Proof. by intros d. Qed.
Lemma ends_fail {S A} e : ends (fail e : st S A).
Proof. by intros d. Qed.
Lemma ends_logged_error {S A} `{Terminal S} (m : st S A) : ends m → (∀ s, ends (Println s)) → ends (logged_error m).
Proof.
  intros Hm Hp d. specialize (Hm d). unfold logged_error, catchS. destruct (m d) as [[a|e| |] d1]; [done| |done..].
  by apply ends_bind; [apply Hp|intros; apply ends_fail].
Qed.
Lemma ends_at_disk {S T A} (m : st S A) : ends m → ends (at_disk (S := T) m).
Proof. intros Hm [t d]. specialize (Hm d). unfold at_disk. by destruct (m d). Qed.
Lemma ends_verdict_of {S} (m : st S unit) : ends m → ends (verdict_of m).
Proof. intros Hm d. specialize (Hm d). unfold verdict_of, attempt, mbind, st_bind. by destruct (m d) as [[a|e| |] d1]. Qed.

Lemma demo_request_ends c s : ends (lift (sqlRequest s (DataSource demo_options) c) : st recording _).
Proof.
  intros d. unfold lift, sqlRequest. cbn [fst]. destruct (getDataSource _ c) eqn:Hg; cbn; try done.
  unfold getDataSource in Hg. destruct (decide (c = ""%string)); [done|]. by vm_compute in Hg.
Qed.
Lemma demo_server_ends c s b : ends (runStmtOnServer demo_options c s b).
Proof.
  unfold runStmtOnServer. apply ends_bind; [destruct b; by intros []|intros _].
  do 2 (apply ends_bind; [apply ends_logged_error; [by intros []|by intros ? []]|intros _]).
  apply ends_bind; [apply demo_request_ends|]. intros [program session] [x y]. by destruct b.
Qed.
Lemma demo_switch_ends db : ends (switchDatabase demo_options db).
Proof.
  intros [c d]. unfold switchDatabase, own, mbind, st_bind, at_disk, capture. cbn [noting_server].
  pose proof (demo_server_ends c ("USE " +:+ db) true d) as Hs.
  destruct (runStmtOnServer _ _ _ _ d) as [[[]|e| |] [x y]]; done.
Qed.
Lemma demo_run_ends stmt : ends (runStmt demo_options stmt false).
Proof.
  assert (∀ c, ends (verdict_of (at_disk (S := string) (runStmtOnServer demo_options c stmt false)))) as Hs.
  { intros c. apply ends_verdict_of, ends_at_disk, demo_server_ends. }
  unfold runStmt. destruct (isExitStmt stmt); [apply ends_bind; [intros [? []]; done|intros _; apply ends_ret]|].
  assert (ends (own ≫= λ c : string, verdict_of (at_disk (runStmtOnServer demo_options c stmt false)))) as Ho.
  { apply ends_bind; [by intros []|done]. }
  destruct (Fields _) as [|use [|db [|? ?]]]; try done.
  destruct (decide (ToUpper use = "USE"%string)); [|done]. apply ends_verdict_of, demo_switch_ends.
Qed.
Lemma demo_runs_end stmts : ends (run_all demo_options stmts).
Proof.
  induction stmts as [|s stmts IH]; [apply ends_ret|]. cbn [run_all]. apply ends_bind; [apply demo_run_ends|].
  intros [|[e|]]; [apply ends_ret|by intros [? []]|exact IH].
Qed.

Lemma repl_ends_witness :
  (repl 6 demo_options (mkScanner demo_program None) ("", ([], []))%string).1 ≠ NoFuel ∧
  (repl 6 demo_options (mkScanner [] (Some (Errorf "bufio.Scanner: token too long" []))) ("", ([], []))%string).1 = NoFuel.
Proof.
  split.
  - apply (repl_ends demo_options (mkScanner demo_program None) 6 ("", ([], []))%string); [reflexivity|cbn; lia|exact demo_runs_end].
  - by rewrite (proj2 (repl_ends demo_options (mkScanner [] (Some (Errorf "bufio.Scanner: token too long" []))) 6 ("", ([], []))%string)).
Defined.
