(* ===== verification/Prompt.v ===== *)
(** * The prompt (go/cmd/sqlflow/prompt.go, go/cmd/sqlflow/input.go)

    The prompt collects the lines that are typed into statements, as the reader of files does,
    keeps a history that can be walked through and searched, and suggests words.  The buffer
    of the line that is edited, documents and the filters of suggestions are the library
    go-prompt's: the class [GoPrompt]. *)

From S2P Require Import Prelude GoStrings GoState SqlParser Response NormalStmt TableWriter Argo Pipe AttrInit Serve Client.

Local Open Scope nat_scope.

Record Suggest := mkSuggest { s_Text : string; s_Description : string }.
#[export] Instance Suggest_eq_dec : EqDecision Suggest.
Proof. solve_decision. Defined.

Class GoPrompt (B : Type) := {
  Text : B → string;
  InsertText : string → B → B;                    (* at the cursor, which moves behind it *)
  DeleteBeforeCursor : nat → B → B;
  Delete_runes : nat → B → B;                     (* behind the cursor *)
  GoLineBeginning : B → B;
  GoLineEnd : B → B;
  TextBeforeCursor : B → string;
  GetWordBeforeCursor : B → string;
  FilterHasPrefix : list Suggest → string → list Suggest;    (* ignoring case *)
  FilterContains : list Suggest → string → list Suggest;
  path_Match : string → string → bool                        (* filepath.Match without an error *)
}.

(** The tables of go/attribute: parameters of models and optimizers, objectives. *)
Class ParamDocs := {
  PremadeModelParamsDocs : gmap string (gmap string string);
  OptimizerParamsDocs : gmap string (gmap string string);
  XGBoostObjectiveDocs : gmap string string;
  sort_by_text : list Suggest → list Suggest               (* sort.Slice *)
}.

Inductive searchMode := normalSearch | wildcardSearch.
Definition prompt_prefix : string := "sqlflow> ".
Definition prompt_livePrefix : string := "      -> ".

Definition plain (l : list (string * string)) : list Suggest := map (λ '(t, d), mkSuggest t d) l.
Definition defaultSuggestions : list Suggest := map (λ t, mkSuggest t "") ["SELECT"; "FROM"; "WHERE"; "LIMIT"; "COLUMN"; "INTO"; "USING"; "WITH"; "TO"]%string.
Definition toSuggestions : list Suggest :=
  plain [("TRAIN", "train a model"); ("PREDICT", "predict using a trained model"); ("EXPLAIN", "explain using a trained model")]%string.
Definition trainSuggestions : list Suggest :=
  plain [("WITH", "model parameters"); ("LABEL", "label field for supervised learning tasks"); ("COLUMN", "feature columns")]%string.
Definition withSuggestions : list Suggest :=
  plain [("LABEL", "label for supervised learning"); ("INTO", "where to save model"); ("USING", "using a trained model")]%string.
Definition labelSuggestions : list Suggest := plain [("INTO", "where to save model")]%string.
Definition prompt_attributes : list Suggest :=
  plain [("train", "training attributes"); ("model", "model attributes"); ("validation.select", "validation dataset")]%string.

(** What the functions that [startSearch] makes have captured. *)
Record search := mkSearch {
  mode : searchMode; searchKey : string; lastSearchKey : string; selected : string; keepOriginalInput : bool;
  oldLivePrefix : string; oldEnableLivePrefix : bool
}.

Record promptState := mkPromptState {
  livePrefix : string;
  enableLivePrefix : bool;
  keywords : list string;
  history : list Suggest;
  searching : option search;                       (* isSearching, with what the search has captured *)
  historyNavPos : nat;
  estimatorCls : string;
  modelParamDocs : gmap string (list Suggest);
  models : list Suggest;
  optimizers : gmap string string;
  p_input : input;                                 (* statements, inQuotedString, isSingleQuoted *)
  lastStatements : list string
}.

Definition set_live (prefix : string) (enable : bool) (p : promptState) : promptState :=
  mkPromptState prefix enable (keywords p) (history p) (searching p) (historyNavPos p) (estimatorCls p) (modelParamDocs p)
    (models p) (optimizers p) (p_input p) (lastStatements p).
Definition set_searching (s : option search) (p : promptState) : promptState :=
  mkPromptState (livePrefix p) (enableLivePrefix p) (keywords p) (history p) s (historyNavPos p) (estimatorCls p) (modelParamDocs p)
    (models p) (optimizers p) (p_input p) (lastStatements p).
Definition set_history (h : list Suggest) (pos : nat) (p : promptState) : promptState :=
  mkPromptState (livePrefix p) (enableLivePrefix p) (keywords p) h (searching p) pos (estimatorCls p) (modelParamDocs p)
    (models p) (optimizers p) (p_input p) (lastStatements p).
Definition set_optimizers (cls : string) (o : gmap string string) (p : promptState) : promptState :=
  mkPromptState (livePrefix p) (enableLivePrefix p) (keywords p) (history p) (searching p) (historyNavPos p) cls (modelParamDocs p)
    (models p) o (p_input p) (lastStatements p).
Definition set_input (i : input) (last : list string) (p : promptState) : promptState :=
  mkPromptState (livePrefix p) (enableLivePrefix p) (keywords p) (history p) (searching p) (historyNavPos p) (estimatorCls p)
    (modelParamDocs p) (models p) (optimizers p) i last.

Definition changeLivePrefix (p : promptState) : string * bool := (livePrefix p, enableLivePrefix p).

(** ** The history *)

Section history.
Context {B : Type} `{GoPrompt B}.

(** [p.history[p.historyNavPos-1]] can panic. *)
Definition navigateHistory (origInput : string) (older : bool) (p : promptState) (buf : B) : result (promptState * B) :=
  match searching p with
  | Some _ => Ok (p, buf)
  | None =>
    let pos := if older then (if decide (historyNavPos p < length (history p)) then S (historyNavPos p) else historyNavPos p)
               else (if decide (0 < historyNavPos p) then historyNavPos p - 1 else historyNavPos p) in
    let p := set_history (history p) pos p in
    let buf := GoLineBeginning buf in
    let buf := Delete_runes (length (runes (Text buf))) buf in
    if decide (pos = 0) then Ok (p, InsertText origInput buf)
    else e ← index (history p) (pos - 1); Ok (p, InsertText (s_Text e) buf)
  end.
(** The key binding of [initHistory] remembers what was typed before the walk. *)
Definition navigate (origInput : string) (older : bool) (p : promptState) (buf : B) : result (string * promptState * B) :=
  let origInput := if decide (historyNavPos p = 0) then Text buf else origInput in
  '(p, buf) ← navigateHistory origInput older p buf; Ok (origInput, p, buf).

(** ** Searching *)

Definition searchSuffix : string := "_` ".

(** The text behind the key, or a backspace. *)
Definition edit_key (s : search) (buf : B) : search * B :=
  let set_key key lastKey selected := mkSearch (mode s) key lastKey selected (keepOriginalInput s) (oldLivePrefix s) (oldEnableLivePrefix s) in
  let key := searchKey s in
  let typed := TrimPrefix (Text buf) (key +:+ searchSuffix) in
  if decide (typed ≠ Text buf) then
    let '(selected, typed) :=
      if decide (str_len typed ≤ 1) then (selected s, typed)
      else (if HasSuffix typed ";" then typed else selected s, List.last (Split typed ";") ""%string) in
    let buf := GoLineBeginning buf in
    let buf := Delete_runes (length (runes (Text buf))) buf in
    (set_key (key +:+ typed) key selected, InsertText (key +:+ typed +:+ searchSuffix) buf)
  else if decide (str_len key ≠ 0) then
    let shorter := str_concat (removelast (segments key)).*2 in
    (set_key shorter key (selected s), InsertText searchSuffix (DeleteBeforeCursor (str_len searchSuffix) buf))
  else (set_key key key (selected s), InsertText " " buf).

Definition candidates_of `{UnicodeTables} (s : search) (history : list Suggest) : list Suggest :=
  match mode s with
  | wildcardSearch =>
    let pattern := ("*" +:+ ToUpper (searchKey s) +:+ "*")%string in
    filter (λ e, path_Match pattern (ToUpper (s_Text e)) = true) history
  | normalSearch => FilterContains history (searchKey s)
  end.
(** Each text once, with the number of its entries. *)
Definition count_texts (candidates : list Suggest) : gmap string nat :=
  foldl (λ counts e, <[s_Text e := S (default 0 (counts !! s_Text e))]> counts) ∅ candidates.
Definition unique_commands (candidates : list Suggest) : list Suggest :=
  let counts := count_texts candidates in
  (foldl (λ '(result, visited) e,
     (if decide (s_Text e ∈ visited) then result
      else result ++ [mkSuggest (s_Text e) (pretty (Z.of_nat (default 0 (counts !! s_Text e))))],
      {[ s_Text e ]} ∪ visited)) ([], ∅ : gset string) candidates).1.
Definition searchHistoryImpl `{UnicodeTables} (s : search) (history : list Suggest) (buf : B) : list Suggest * search * B :=
  let '(s, buf) := edit_key s buf in
  (unique_commands (candidates_of s history), s, buf).

Definition startSearch (buf : B) (m : searchMode) (p : promptState) : promptState * B :=
  match searching p with
  | Some _ => (p, buf)
  | None =>
    let s := mkSearch m (Text buf) "" "" (bool_decide (str_len (Text buf) ≠ 0)) (livePrefix p) (enableLivePrefix p) in
    let live := match m with wildcardSearch => "🔍❄`" | normalSearch => "🔍`" end%string in
    (set_searching (Some s) (set_live live true p), InsertText searchSuffix (GoLineEnd buf))
  end.
(** The number of characters to delete is a number of bytes. *)
Definition stopSearch (p : promptState) (buf : B) : string * nat * promptState * B :=
  match searching p with
  | None => (""%string, 0, p, buf)
  | Some s =>
    let buf := GoLineEnd buf in
    let p := set_live (oldLivePrefix s) (oldEnableLivePrefix s) (set_searching None p) in
    let buf := InsertText (selected s) buf in
    let buf :=
      if decide (Text buf = lastSearchKey s +:+ searchSuffix)%string then
        if keepOriginalInput s then DeleteBeforeCursor (str_len searchSuffix) buf
        else DeleteBeforeCursor (str_len (Text buf)) buf
      else GoLineEnd (Delete_runes (str_len (lastSearchKey s) + str_len searchSuffix) (GoLineBeginning buf)) in
    (Text buf, str_len searchSuffix + str_len (selected s) + str_len (searchKey s), p, buf)
  end.
End history.

(** ** Suggestions *)

Section suggestions.
Context {B : Type} `{GoPrompt B} `{UnicodeTables} `{MapOrder} `{ParamDocs}.

Definition model_suggestions (model : string) (params : gmap string string) : list Suggest :=
  let prefix := if HasPrefix model "xgboost" then "" else "model."%string in
  sort_by_text (prompt_attributes ++ map (λ '(param, doc), mkSuggest (prefix +:+ param) doc) (range_map params)).
Definition newPromptState (history : list Suggest) : promptState :=
  mkPromptState prompt_livePrefix false
    (map s_Text defaultSuggestions ++ map s_Text toSuggestions ++ map s_Text withSuggestions)
    history None 0 ""
    (list_to_map (map (λ '(model, params), (model, model_suggestions model params)) (range_map PremadeModelParamsDocs)))
    (sort_by_text (map (λ '(model, _), mkSuggest model "") (range_map PremadeModelParamsDocs)))
    ∅ no_input [].
(** The lines of the history file, the newest first. *)
Definition initHistory (lines : list string) : list Suggest := map (λ t, mkSuggest t "") (rev lines).

(** The last keyword, the word before it and the last word. *)
Fixpoint lookahead (keywords words : list string) (last : string) (i : nat) : string * string * string :=
  match i with
  | O => (""%string, ""%string, last)
  | S i' =>
    let word := ToUpper (default ""%string (words !! i')) in
    if decide (word ∈ keywords) then (word, if decide (2 < i) then default ""%string (words !! (i - 2)) else ""%string, last)
    else lookahead keywords words last i'
  end.
Definition lookaheadKeyword (p : promptState) (words : list string) : string * string * string :=
  lookahead (keywords p) words (List.last words ""%string) (length words).
Definition clauseUnderCursor (p : promptState) (textBefore : string) : string * string * string :=
  lookaheadKeyword p (Fields (Join (statements (p_input p)) " " +:+ " " +:+ textBefore)).

Definition default_optimizers (estimatorCls : string) : gmap string string :=
  if decide (estimatorCls = "LinearClassifier" ∨ estimatorCls = "LinearRegressor")%string then {[ "optimizer"%string := "Ftrl"%string ]}
  else if decide (estimatorCls = "DNNLinearCombinedClassifier" ∨ estimatorCls = "DNNLinearCombinedRegressor")%string then
    {[ "dnn_optimizer"%string := "Adagrad"%string; "linear_optimizer"%string := "Ftrl"%string ]}
  else {[ "optimizer"%string := "Adagrad"%string ]}.
Definition optimizer_suggestions (kv : string * string) : list Suggest :=
  match OptimizerParamsDocs !! kv.2 with
  | Some params => mkSuggest kv.1 "" :: map (λ '(param, doc), mkSuggest (kv.1 +:+ "." +:+ param) doc) (range_map params)
  | None => []
  end.
(** The defaults are left in the map. *)
Definition getOptimizerSuggestion (estimatorCls : string) (o : gmap string string) : list Suggest * gmap string string :=
  if HasPrefix estimatorCls "xgboost" || HasPrefix estimatorCls "BoostedTrees" then ([], o) else
  let o := if decide (o = ∅) then default_optimizers estimatorCls else o in
  (sort_by_text (concat (map optimizer_suggestions (range_map o))), o).

Definition names_suggested {A} (m : gmap string A) : list Suggest := sort_by_text (map (λ '(n, _), mkSuggest n "") (range_map m)).
(** An attribute that is being typed: what is suggested for its value, and the optimizer that a
    comma ends is kept. *)
Definition complete_attribute (w1 : string) (p : promptState) : option (list Suggest * promptState) :=
  match Split w1 "=" with
  | [name; value] =>
    if decide (name = "model.optimizer" ∨ name = "model.dnn_optimizer" ∨ name = "model.linear_optimizer")%string then
      let p := if HasSuffix value "," then
                 set_optimizers (estimatorCls p) (<[str_drop 6 name := str_take (str_len value - 1) value]> (optimizers p)) p
               else p in
      Some (FilterHasPrefix (names_suggested OptimizerParamsDocs) value, p)
    else if bool_decide (name = "objective"%string) && HasPrefix (estimatorCls p) "xgboost." then
      Some (FilterHasPrefix (names_suggested XGBoostObjectiveDocs) value, p)
    else None
  | _ => None
  end.
Definition complete_with (w0 w1 w2 : string) (p : promptState) : list Suggest * promptState :=
  let attributes := default [] (modelParamDocs p !! w0) in
  let p := if decide (w0 = estimatorCls p) then p else set_optimizers w0 ∅ p in
  let '(attributes, p) :=
    if decide (length attributes ≠ 0) then
      let '(more, o) := getOptimizerSuggestion w0 (optimizers p) in (attributes ++ more, set_optimizers (estimatorCls p) o p)
    else (attributes, p) in
  if decide (w1 = ""%string) then
    (FilterHasPrefix (if decide (ToUpper w2 = "WITH"%string ∨ HasSuffix w2 "," = true) then attributes else withSuggestions) w1, p)
  else match complete_attribute w1 p with
       | Some r => r
       | None => (FilterHasPrefix (withSuggestions ++ attributes) w1, p)
       end.

Definition completer (textBefore w1 : string) (p : promptState) (buf : B) : list Suggest * promptState * B :=
  match searching p with
  | Some s => let '(l, s, buf) := searchHistoryImpl s (history p) buf in (l, set_searching (Some s) p, buf)
  | None =>
    let '(clause, w0, w2) := clauseUnderCursor p textBefore in
    if decide (clause = "TO"%string) then (FilterHasPrefix toSuggestions w1, p, buf)
    else if decide (clause = "TRAIN"%string) then
      (FilterHasPrefix (if decide (w1 = ""%string) then if decide (ToUpper w2 = "TRAIN"%string) then models p else trainSuggestions
                        else models p ++ trainSuggestions) w1, p, buf)
    else if decide (clause = "WITH"%string) then let '(l, p) := complete_with w0 w1 w2 p in (l, p, buf)
    else if decide (clause = "LABEL"%string) then (FilterHasPrefix labelSuggestions w1, p, buf)
    else (if decide (w1 = ""%string) then [] else FilterHasPrefix defaultSuggestions w1, p, buf)
  end.
End suggestions.

(** ** Executing a line *)

Class Console (D : Type) := {
  EraseLine : st D unit;
  CursorUp : st D unit;
  Console_Flush : st D unit;
  ColumnSize : nat;
  print_line : string → st D unit;
  append_history : string → st D unit                  (* fails if the file cannot be opened *)
}.

Section execute.
Context {B : Type} `{GoPrompt B} `{UnicodeTables} `{Console D}.
Notation S := (promptState * D)%type.

Definition refresh (totalLen : nat) (line : string) (p : promptState) : st D unit :=
  (if decide (ColumnSize = 0) then lift Panic else mret tt) ≫= λ _,
  let cursorUpCount := totalLen / ColumnSize + (if decide (totalLen `mod` ColumnSize ≠ 0) then 1 else 0) in
  EraseLine ≫= λ _,
  eachS (λ _, CursorUp ≫= λ _, EraseLine) (replicate cursorUpCount tt) ≫= λ _,
  Console_Flush ≫= λ _,
  print_line ((if enableLivePrefix p then livePrefix p else prompt_prefix) +:+ line).

Definition updateHistory : st S unit :=
  update (λ p, set_history (history p) 0 p) ≫= λ _,
  p ← own;
  let stmts := statements (p_input p) in
  let text := Join stmts " " in
  if decide (length stmts ≠ 0 ∧ text ≠ Join (lastStatements p) " ") then
    let stmt := ReplaceAll text newline1 " " in
    r ← attempt (at_disk (append_history stmt));
    match r with
    | inl _ => update (λ p, set_history (mkSuggest stmt "" :: history p) (historyNavPos p) p)
    | inr _ => mret tt
    end
  else mret tt.

(** The statements go on where [i] ends. *)
Definition execute_line (line : string) (cb : string → st D unit) : st S unit :=
  if decide (TrimByte line " " ≠ ""%string) then
    p ← own;
    '(complete, i) ← lift (addLineToStmt line (p_input p));
    update (set_input i (lastStatements p)) ≫= λ _,
    if complete : bool then
      updateHistory ≫= λ _,
      update (λ p, set_live (livePrefix p) false p) ≫= λ _,
      at_disk (eachS cb (statements i)) ≫= λ _,
      update (λ p, set_optimizers (estimatorCls p) ∅ (set_input (mkInput (inQuotedString i) (isSingleQuoted i) []) (statements i) p))
    else update (λ p, set_history (history p) 0 (set_live (livePrefix p) true p))
  else update (λ p, set_history (history p) 0 p).
Definition execute (line : string) (buf : B) (cb : string → st D unit) : st S unit :=
  p ← own;
  match searching p with
  | Some _ =>
    let '(line, totalLen, p, _) := stopSearch p buf in
    update (λ _, p) ≫= λ _, at_disk (refresh totalLen line p) ≫= λ _, execute_line line cb
  | None => execute_line line cb
  end.
End execute.

(** ** Reading keys (input.go) *)

Definition Key : Type := nat.
Class Keys := {
  GetKey : string → Key;                               (* prompt.GetKey *)
  Enter : Key; ControlJ : Key; ControlM : Key; Up : Key; ControlP : Key; Down : Key; ControlN : Key
}.
(** [start] is always at most the length of [pk_buf]. *)
Record stdinParser := mkStdinParser { pk_buf : string; pk_start : nat; keyMap : gmap Key string }.

Section keys.
Context `{Keys}.
Definition meta (c : ascii) : string := String (of_byte 27) (char1 c).
Definition defaultKeyMap : gmap Key string :=
  list_to_map [(Up, meta "p"); (ControlP, meta "p"); (Down, meta "n"); (ControlN, meta "n")]%char.
(** The keys of the history walk through the list of suggestions during a search. *)
Definition search_keys (m : gmap Key string) : gmap Key string :=
  let down := char1 (of_byte 9) in
  let up := String (of_byte 27) (String (of_byte 91) (char1 (of_byte 90))) in
  <[ControlP := up]> (<[Up := up]> (<[ControlN := down]> (<[Down := down]> m))).

Definition ends_line (c : ascii) : bool := bool_decide (GetKey (char1 c) ∈ [Enter; ControlJ; ControlM]).
(** From the index i on: the bytes up to a key that is mapped, or up to a line end, or all. *)
Fixpoint next_keys (m : gmap Key string) (taken rest : string) : (string + string) :=
  match rest with
  | EmptyString => inr taken
  | String c rest' =>
    match m !! GetKey rest with
    | Some remapped => inl remapped
    | None => if ends_line c then inr taken else next_keys m (taken +:+ char1 c) rest'
    end
  end.
(** [fill] is the answer of the library's parser, which is asked when the buffer is empty. *)
Definition Read (fill : result string) (p : stdinParser) : result (string * stdinParser) :=
  p ← (if decide (str_len (pk_buf p) = pk_start p) then buf ← fill; Ok (mkStdinParser buf 0 (keyMap p)) else Ok p);
  let rest := str_drop (pk_start p) (pk_buf p) in
  match next_keys (keyMap p) "" rest with
  | inl remapped => Ok (remapped, mkStdinParser (pk_buf p) (str_len (pk_buf p)) (keyMap p))
  | inr taken =>
    if decide (taken = ""%string) then
      c ← slice (pk_start p) (S (pk_start p)) (pk_buf p);
      Ok (c, mkStdinParser (pk_buf p) (S (pk_start p)) (keyMap p))
    else Ok (taken, mkStdinParser (pk_buf p) (pk_start p + str_len taken) (keyMap p))
  end.
End keys.

(** ** The prompt reads as files are read *)

(** The last quotation mark does not matter outside of quotation marks. *)
Definition same_input (i j : input) : Prop :=
  statements i = statements j ∧ inQuotedString i = inQuotedString j ∧ (inQuotedString i = true → isSingleQuoted i = isSingleQuoted j).
Definition same_line (r s : result (bool * input)) : Prop :=
  match r, s with
  | Ok (b, i), Ok (c, j) => b = c ∧ same_input i j
  | NoFuel, NoFuel => True
  | _, _ => False
  end.

Lemma same_on_quote c i j : same_input i j → same_input (on_quote c i) (on_quote c j).
Proof.
  destruct i as [q s l], j as [q' s' l']. intros (H1 & H2 & H3). unfold same_input, on_quote in *. cbn in *. subst.
  destruct q'; cbn; [|done]. by rewrite H3.
Qed.
Lemma same_add_text s i j : same_input i j → same_input (add_text s i) (add_text s j).
Proof. intros (H1 & H2 & H3). unfold same_input. cbn. by rewrite H1. Qed.
Lemma same_new_statement i j : same_input i j → same_input (new_statement i) (new_statement j).
Proof. intros (H1 & H2 & H3). unfold same_input. cbn. by rewrite H1. Qed.
#[local] Hint Resolve same_on_quote same_add_text same_new_statement : core.

Section equal.
Context `{UnicodeTables}.

Lemma line_loop_same fuel esc first piece rest i j :
  same_input i j → same_line (line_loop fuel esc first piece rest i) (line_loop fuel esc first piece rest j).
Proof.
  revert esc first piece rest i j. induction fuel as [|fuel IH]; intros esc first piece rest i j Hs; [done|].
  destruct rest as [|c rest]; cbn [line_loop]; [split; [done|auto]|].
  assert (last_empty i = last_empty j) as He by (unfold last_empty; by destruct Hs as [-> _]).
  assert (inQuotedString i = inQuotedString j) as Hq by apply Hs. rewrite He, Hq.
  destruct esc; [by apply IH|]. destruct (decide (c = backslash)); [by apply IH|].
  destruct (decide _); [apply IH; auto|]. destruct (decide (c = ";"%char ∧ _)).
  - set (i1 := if first && _ then add_text _ i else _). set (j1 := if first && _ then add_text _ j else _).
    assert (same_input i1 j1) as H1 by (subst i1 j1; repeat case_match; auto).
    assert (last_empty i1 = last_empty j1) as He1 by (unfold last_empty; by destruct H1 as [-> _]). rewrite He1.
    clearbody i1 j1. destruct (decide (skip_spaces rest = ""%string)); [by split|]. apply IH. destruct (last_empty j1); auto.
  - destruct (_ && _ && _); [|by apply IH]. pose proof (same_add_text (TrimSpace piece) i j Hs) as (Ha & Hb & Hc).
    rewrite Ha. destruct (decide (statements _ = _)); (split; [done|]); by split_and!.
Qed.

Lemma addLineToStmt_same line i j : same_input i j → same_line (addLineToStmt line i) (addLineToStmt line j).
Proof.
  intros Hs. unfold addLineToStmt. assert (statements i = statements j) as Hst by apply Hs. rewrite Hst.
  destruct (statements j); apply line_loop_same; auto.
Qed.
End equal.

Section typed.
Context {B : Type} `{GoPrompt B} `{UnicodeTables} `{Console D}.

Definition save_history (stmts last : list string) : st D unit :=
  let text := Join stmts " " in
  if decide (length stmts ≠ 0 ∧ text ≠ Join last " ") then
    attempt (append_history (ReplaceAll text newline1 " ")) ≫= λ _, mret tt
  else mret tt.

(** The prompt waits for the next line of the statements [i]. *)
Definition waits (i : input) (last : list string) (p : promptState) : Prop :=
  searching p = None ∧ same_input (p_input p) i ∧ lastStatements p = last.

Lemma updateHistory_run p d : let '(r, (p', d')) := updateHistory (p, d) in
  save_history (statements (p_input p)) (lastStatements p) d = (r, d') ∧
  searching p' = searching p ∧ p_input p' = p_input p ∧ lastStatements p' = lastStatements p ∧ historyNavPos p' = 0.
Proof.
  unfold updateHistory, save_history, update, own, mbind, st_bind, attempt, at_disk. cbn.
  case_decide; [|done]. by destruct (append_history _ d) as [[[]|e| |] d1].
Qed.

Lemma execute_line_incomplete line buf cb i j last p d :
  TrimByte line " " ≠ ""%string → waits i last p → addLineToStmt line i = Ok (false, j) →
  ∃ p', execute line buf cb (p, d) = (Ok tt, (p', d)) ∧ waits j last p'.
Proof.
  intros Hl (Hs & Hi & Hlast) Ha. pose proof (addLineToStmt_same line _ _ Hi) as Hsame. rewrite Ha in Hsame.
  unfold execute, own, mbind, st_bind at 1. rewrite Hs. unfold execute_line. rewrite decide_True by done.
  destruct (addLineToStmt line (p_input p)) as [[b j']|e| |] eqn:Hp; try done. destruct Hsame as [-> Hj].
  unfold own, lift, update, mbind, st_bind. rewrite Hp. eexists. split; [reflexivity|]. by split_and!.
Qed.

Lemma execute_line_complete line buf cb i j last p d r d' :
  TrimByte line " " ≠ ""%string → waits i last p → addLineToStmt line i = Ok (true, j) →
  (save_history (statements j) last ≫= λ _, eachS cb (statements j)) d = (r, d') →
  ∃ p', execute line buf cb (p, d) = (r, (p', d')) ∧ (r = Ok tt → p_input p' = mkInput (inQuotedString j) (isSingleQuoted (p_input p')) [] ∧
    lastStatements p' = statements j ∧ searching p' = None).
Proof.
  intros Hl (Hs & Hi & Hlast) Ha Hrun. pose proof (addLineToStmt_same line _ _ Hi) as Hsame. rewrite Ha in Hsame.
  unfold execute, own, mbind, st_bind at 1. rewrite Hs. unfold execute_line. rewrite decide_True by done.
  destruct (addLineToStmt line (p_input p)) as [[b j']|e| |] eqn:Hp; try done. destruct Hsame as [-> (Hj1 & Hj2 & _)].
  unfold own, lift, update, mbind, st_bind. rewrite Hp. cbv beta iota.
  pose proof (updateHistory_run (set_input j' (lastStatements p) p) d) as Hu.
  destruct (updateHistory (set_input j' (lastStatements p) p, d)) as [ru [pu du]]. cbn in Hu.
  destruct Hu as (Hsave & Hus & Hui & Hul & _). rewrite Hlast, Hj1 in Hsave.
  unfold mbind, st_bind in Hrun. rewrite Hsave in Hrun.
  destruct ru as [[]|e| |]; [|injection Hrun as <- <-; by eexists..].
  cbn. rewrite Hj1. destruct (eachS cb (statements j) du) as [rc dc] eqn:Hc. injection Hrun as -> ->.
  destruct r as [[]|e| |]; (eexists; split; [reflexivity|]); [|done..]. intros _. cbn. split_and!; [by rewrite <- Hj2|done|congruence].
Qed.

(** A statement ends outside of quotation marks. *)
Lemma line_loop_closed fuel esc first piece rest i j :
  line_loop fuel esc first piece rest i = Ok (true, j) → inQuotedString j = false.
Proof.
  revert esc first piece rest i. induction fuel as [|fuel IH]; intros esc first piece rest i; [done|].
  destruct rest as [|c rest]; [done|]. cbn [line_loop]. destruct esc; [apply IH|]. destruct (decide (c = backslash)); [apply IH|].
  destruct (decide (c = double_quote ∨ _)); [apply IH|]. destruct (decide (c = ";"%char ∧ _)) as [[_ Hq]|_].
  - destruct (decide (skip_spaces rest = ""%string)); [|apply IH]. intros [= <-]. by repeat case_match.
  - destruct (bool_decide (c = "-"%char ∧ inQuotedString i = false)) eqn:Hq; [|apply IH].
    apply bool_decide_eq_true in Hq as [_ Hq]. destruct (_ && _ && _); [|apply IH]. case_decide; [|done]. by intros [= <-].
Qed.
Lemma addLineToStmt_closed line i j : addLineToStmt line i = Ok (true, j) → inQuotedString j = false.
Proof. unfold addLineToStmt. destruct (statements i); apply line_loop_closed. Qed.

Definition idle (p : promptState) : Prop :=
  searching p = None ∧ statements (p_input p) = [] ∧ inQuotedString (p_input p) = false.
Definition not_blank (line : string) : Prop := TrimByte line " " ≠ ""%string.

Lemma prompt_reads_lines buf cb lines i last stmts rest p d r d' :
  read_lines lines i = Ok (true, stmts, rest) → waits i last p →
  (save_history stmts last ≫= λ _, eachS cb stmts) d = (r, d') →
  ∃ used, lines = used ++ rest ∧ (Forall not_blank used →
    ∃ p', eachS (λ l, execute l buf cb) used (p, d) = (r, (p', d')) ∧ (r = Ok tt → idle p' ∧ lastStatements p' = stmts)).
Proof.
  revert i p. induction lines as [|line lines IH]; intros i p; cbn [read_lines]; [done|].
  destruct (addLineToStmt line i) as [[b j]|e| |] eqn:Ha; [|done..]. ok_step. destruct b.
  - intros [= <- <-] Hw Hrun. exists [line]. split; [done|]. intros [Hb _]%Forall_cons_1.
    destruct (execute_line_complete line buf cb i j last p d r d' Hb Hw Ha Hrun) as (p' & He & Hok).
    exists p'. split.
    + cbn [eachS]. unfold mbind, st_bind. rewrite He. by destruct r as [[]|e| |].
    + intros Hr. destruct (Hok Hr) as (Hi & Hl & Hs). split; [|done]. split; [done|]. rewrite Hi. split; [done|]. exact (addLineToStmt_closed _ _ _ Ha).
  - intros Hr Hw Hrun.
    assert (∀ p1, waits j last p1 → ∃ used, lines = used ++ rest ∧ (Forall not_blank used →
      ∃ p', eachS (λ l, execute l buf cb) used (p1, d) = (r, (p', d')) ∧ (r = Ok tt → idle p' ∧ lastStatements p' = stmts))) as IH'
      by (intros p1 Hp1; by eapply IH).
    assert (∃ k, lines = k ++ rest) as [k Hk].
    { destruct (IH' (set_input j last (set_searching None p))) as (k & Hk & _); [by split_and!|]. by exists k. }
    exists (line :: k). split; [by rewrite Hk|]. intros [Hb Hbs]%Forall_cons_1.
    destruct (execute_line_incomplete line buf cb i j last p d Hb Hw Ha) as (p1 & He & Hw1).
    destruct (IH' p1 Hw1) as (k' & Hk' & Hall). rewrite Hk in Hk'. apply app_inv_tail in Hk' as <-.
    cbn [eachS]. rewrite (st_bind_run _ _ _ _ _ He). by apply Hall.
Qed.

(** C17: the prompt and the reader of files cut programs in the same way: where reading a file
    gives a list of statements, typing the lines it has used, none of which is blank, at a
    prompt that waits for a statement runs exactly these statements, in order, after the
    history has been saved, and nothing before the last of the lines; and then the prompt waits
    for a statement again. *)
Theorem prompt_reads (buf : B) (cb : string → st D unit) (scn scn' : Scanner) (stmts : list string)
    (p : promptState) (d : D) (r : result unit) (d' : D) :
  readStmt scn = Ok (stmts, None, scn') → idle p →
  (save_history stmts (lastStatements p) ≫= λ _, eachS cb stmts) d = (r, d') →
  ∃ used, sc_lines scn = used ++ sc_lines scn' ∧ (Forall not_blank used →
    ∃ p', eachS (λ l, execute l buf cb) used (p, d) = (r, (p', d')) ∧ (r = Ok tt → idle p' ∧ lastStatements p' = stmts)).
Proof.
  unfold readStmt. destruct (read_lines (sc_lines scn) no_input) as [[[b stmts'] rest]|e| |] eqn:Hr; [|done..]. ok_step.
  destruct b; [|by destruct (sc_Err scn)]. intros [= <- <-] (Hs & Hst & Hq) Hrun. cbn [sc_lines].
  eapply prompt_reads_lines; [exact Hr| |exact Hrun]. split_and!; [done| |done].
  unfold same_input. cbn. split_and!; [done|done|congruence].
Qed.
End typed.

(** ** Walking through the history *)

(** What the library promises of a buffer. *)
Class PromptLaws (B : Type) `{GoPrompt B} := {
  cleared b : Text (Delete_runes (length (runes (Text (GoLineBeginning b)))) (GoLineBeginning b)) = ""%string;
  inserted s b : Text b = ""%string → Text (InsertText s b) = s
}.

Section walk.
Context {B : Type} `{PromptLaws B}.

Fixpoint presses (older : bool) (n : nat) (origInput : string) (p : promptState) (buf : B) : result (string * promptState * B) :=
  match n with
  | O => Ok (origInput, p, buf)
  | S n => '(origInput, p, buf) ← navigate origInput older p buf; presses older n origInput p buf
  end.

(** What the line shows at a position of the history. *)
Definition shown_at (p : promptState) (typed : string) (pos : nat) : string :=
  match pos with O => typed | S i => from_option s_Text ""%string (history p !! i) end.

Lemma navigate_to (typed : string) (older : bool) (p : promptState) (buf : B) (pos pos' : nat) :
  searching p = None → historyNavPos p = pos → pos' ≤ length (history p) →
  (if older then pos < length (history p) ∧ pos' = S pos else pos = S pos') →
  (pos = 0 → Text buf = typed) →
  ∃ buf', navigate typed older p buf = Ok (typed, set_history (history p) pos' p, buf') ∧ Text buf' = shown_at p typed pos'.
Proof.
  intros Hs Hp Hlen Hpos Htyped. unfold navigate.
  assert ((if decide (historyNavPos p = 0) then Text buf else typed) = typed) as ->.
  { rewrite Hp. case_decide; [by apply Htyped|done]. }
  unfold navigateHistory. rewrite Hs, Hp. set (b1 := Delete_runes _ _).
  assert (∀ s, Text (InsertText s b1) = s) as Hins by (intros s; apply inserted, cleared).
  assert ((if older then if decide (pos < length (history p)) then S pos else pos else if decide (0 < pos) then pos - 1 else pos) = pos') as ->.
  { destruct older; [destruct Hpos as [? ->]|subst pos]; rewrite decide_True by lia; lia. }
  cbn [history set_history]. destruct pos' as [|i].
  - rewrite decide_True by done. ok_step. eexists. split; [reflexivity|apply Hins].
  - rewrite decide_False by done. destruct (lookup_lt_is_Some_2 (history p) i) as [e He]; [lia|].
    unfold index. replace (S i - 1) with i by lia. rewrite He. ok_step. eexists. split; [reflexivity|]. cbn. by rewrite He, Hins.
Qed.

Lemma set_history_twice h i h' j p : set_history h i (set_history h' j p) = set_history h i p.
Proof. done. Qed.
Lemma set_history_same p pos : historyNavPos p = pos → set_history (history p) pos p = p.
Proof. intros <-. by destruct p. Qed.

Lemma presses_older (n : nat) (typed : string) (p : promptState) (buf : B) : searching p = None → n + historyNavPos p ≤ length (history p) →
  Text buf = shown_at p typed (historyNavPos p) →
  ∃ buf', presses true n typed p buf = Ok (typed, set_history (history p) (n + historyNavPos p) p, buf') ∧
    Text buf' = shown_at p typed (n + historyNavPos p).
Proof.
  revert p buf. induction n as [|n IH]; intros p buf Hs Hlen Ht; cbn [presses].
  { exists buf. by rewrite set_history_same. }
  destruct (navigate_to typed true p buf (historyNavPos p) (S (historyNavPos p))) as (b1 & -> & Ht1);
    [done|done|lia|split; [lia|done]|intros Hp; by rewrite Ht, Hp|]. ok_step.
  destruct (IH (set_history (history p) (S (historyNavPos p)) p) b1) as (b2 & Hb & Ht2); [done|cbn; lia|exact Ht1|].
  exists b2. rewrite Hb. cbn [history historyNavPos set_history] in *. rewrite set_history_twice.
  replace (S n + historyNavPos p) with (n + S (historyNavPos p)) by lia. by split.
Qed.

Lemma presses_newer (n : nat) (typed : string) (p : promptState) (buf : B) : searching p = None → historyNavPos p = n → n ≤ length (history p) →
  Text buf = shown_at p typed n →
  ∃ buf', presses false n typed p buf = Ok (typed, set_history (history p) 0 p, buf') ∧ Text buf' = typed.
Proof.
  revert p buf. induction n as [|n IH]; intros p buf Hs Hp Hlen Ht; cbn [presses].
  { exists buf. by rewrite set_history_same. }
  destruct (navigate_to typed false p buf (S n) n) as (b1 & -> & Ht1); [done..|lia|done|done|]. ok_step.
  destruct (IH (set_history (history p) n p) b1) as (b2 & Hb & Ht2); [done|done|cbn; lia|exact Ht1|]. exists b2. by rewrite Hb.
Qed.

(** Walking [n] entries back into the history, which has as many, never fails: it shows
    the n-th newest entry; and as many steps forward bring back what had been typed and leave
    the state as it was. *)
Theorem history_walk (n : nat) (orig : string) (p : promptState) (buf : B) :
  idle p → historyNavPos p = 0 → 0 < n ≤ length (history p) →
  ∃ p1 b1 b2, presses true n orig p buf = Ok (Text buf, p1, b1) ∧ Some (Text b1) = s_Text <$> history p !! (n - 1) ∧
    presses false n (Text buf) p1 b1 = Ok (Text buf, p, b2) ∧ Text b2 = Text buf.
Proof.
  intros (Hs & _) Hp Hn.
  assert (presses true n orig p buf = presses true n (Text buf) p buf) as ->.
  { destruct n as [|n]; [lia|]. cbn [presses]. unfold navigate. by rewrite Hp, decide_True. }
  destruct (presses_older n (Text buf) p buf) as (b1 & H1 & Ht1); [done|lia|by rewrite Hp|]. rewrite Hp, Nat.add_0_r in H1, Ht1.
  destruct (presses_newer n (Text buf) (set_history (history p) n p) b1) as (b2 & H2 & Ht2); [done|done|cbn; lia|exact Ht1|].
  cbn [history set_history] in H2. rewrite set_history_twice, (set_history_same p 0) in H2 by done.
  eexists _, b1, b2. split; [exact H1|]. split; [|by split].
  rewrite Ht1. destruct n as [|n]; [lia|]. cbn. replace (n - 0) with n by lia.
  destruct (lookup_lt_is_Some_2 (history p) n) as [e He]; [lia|]. by rewrite He.
Qed.
End walk.

(** ** The entries that a search finds *)

Lemma count_texts_lookup (cs : list Suggest) (t : string) (n : string → nat) (m : gmap string nat) : (∀ u, default 0 (m !! u) = n u) →
  default 0 (foldl (λ counts e, <[s_Text e := S (default 0 (counts !! s_Text e))]> counts) m cs !! t) =
    n t + length (filter (λ e, s_Text e = t) cs).
Proof.
  revert m n. induction cs as [|c cs IH]; intros m n Hm; cbn [foldl]; [by rewrite Hm; cbn; lia|].
  rewrite (IH _ (λ u, if decide (u = s_Text c) then S (n u) else n u)).
  - rewrite filter_cons. destruct (decide (t = s_Text c)) as [->|Hn].
    + rewrite decide_True by done. cbn. lia.
    + by rewrite decide_False by done.
  - intros u. destruct (decide (u = s_Text c)) as [->|Hn].
    + rewrite lookup_insert_eq. cbn. by rewrite Hm.
    + by rewrite lookup_insert_ne.
Qed.

Definition found (e : Suggest) (n : nat) : Suggest := mkSuggest (s_Text e) (pretty (Z.of_nat n)).

Lemma unique_loop (counts : gmap string nat) (cs result : list Suggest) (visited : gset string) :
  (∀ t, t ∈ visited ↔ t ∈ s_Text <$> result) → NoDup (s_Text <$> result) →
  let r := (foldl (λ '(result, visited) e,
     (if decide (s_Text e ∈ visited) then result
      else result ++ [mkSuggest (s_Text e) (pretty (Z.of_nat (default 0 (counts !! s_Text e))))],
      {[ s_Text e ]} ∪ visited)) (result, visited : gset string) cs).1 in
  ∃ l, r = result ++ l ∧ (s_Text <$> l) `sublist_of` (s_Text <$> cs) ∧ NoDup (s_Text <$> r) ∧
    (∀ t, t ∈ s_Text <$> r ↔ t ∈ s_Text <$> result ++ cs) ∧
    Forall (λ e, s_Description e = pretty (Z.of_nat (default 0 (counts !! s_Text e)))) l.
Proof.
  revert result visited. induction cs as [|c cs IH]; intros result visited Hv Hnd; cbn [foldl].
  { exists []. rewrite !app_nil_r. cbn. split_and!; try done. }
  case_decide as Hc.
  - destruct (IH result ({[ s_Text c ]} ∪ visited)) as (l & Hr & Hs & Hn & Ht & Hf); [|done|].
    { intros t. rewrite <- Hv. set_solver. }
    exists l. split_and!; [done|by apply sublist_cons|done| |done]. intros t. rewrite Ht, !fmap_app, !elem_of_app. cbn.
    rewrite elem_of_cons. apply Hv in Hc. split; [tauto|]. intros [?|[->|?]]; tauto.
  - destruct (IH (result ++ [found c (default 0 (counts !! s_Text c))]) ({[ s_Text c ]} ∪ visited)) as (l & Hr & Hs & Hn & Ht & Hf).
    { intros t. rewrite fmap_app, elem_of_app, <- Hv. cbn. set_solver. }
    { rewrite fmap_app. apply NoDup_app. split; [done|]. cbn. split; [|apply NoDup_singleton].
      intros t Ht ->%list_elem_of_singleton. by apply Hc, Hv. }
    exists (found c (default 0 (counts !! s_Text c)) :: l). split_and!.
    + etrans; [exact Hr|]. by rewrite <- app_assoc.
    + cbn. by apply sublist_skip.
    + exact Hn.
    + intros t. etrans; [apply Ht|]. rewrite !fmap_app, fmap_cons. cbn. set_solver.
    + by constructor.
Qed.

(** A search shows each command of the history that matches once, in the order of the history,
    with the number of its entries. *)
Theorem unique_commands_spec (cs : list Suggest) :
  let l := unique_commands cs in
  NoDup (s_Text <$> l) ∧ (s_Text <$> l) `sublist_of` (s_Text <$> cs) ∧ (∀ t, t ∈ s_Text <$> l ↔ t ∈ s_Text <$> cs) ∧
  Forall (λ e, s_Description e = pretty (Z.of_nat (length (filter (λ c, s_Text c = s_Text e) cs)))) l.
Proof.
  destruct (unique_loop (count_texts cs) cs [] ∅) as (l & Hr & Hs & Hn & Ht & Hf); [set_solver|constructor|].
  cbv zeta. unfold unique_commands. rewrite Hr in Hn, Ht |- *. cbn [app] in *. split_and!; [done|done|done|].
  eapply Forall_impl; [exact Hf|]. intros e ->. do 2 f_equal. unfold count_texts.
  rewrite (count_texts_lookup cs (s_Text e) (λ _, 0)); [lia|]. intros u. by rewrite lookup_empty.
Qed.

(** ** Keys arrive in order *)

Section key_stream.
Context `{Keys}.

Fixpoint read_keys (n : nat) (fill : result string) (p : stdinParser) : result (list string * stdinParser) :=
  match n with
  | O => Ok ([], p)
  | S n =>
    '(c, p) ← Read fill p;
    if decide (pk_start p = str_len (pk_buf p)) then Ok ([c], p)
    else '(cs, p) ← read_keys n fill p; Ok (c :: cs, p)
  end.

(** What one answer of [Read] is: a line end alone, or a text without one. *)
Definition one_answer (c : string) : Prop :=
  c ≠ ""%string ∧ ((∃ b, c = char1 b ∧ ends_line b = true) ∨ str_forall (λ b, negb (ends_line b)) c = true).
Definition unmapped (m : gmap Key string) (s : string) : Prop := ∀ k, m !! GetKey (str_drop k s) = None.

Lemma next_keys_unmapped m taken rest : unmapped m rest →
  ∃ l r, next_keys m taken rest = inr (taken +:+ l)%string ∧ rest = (l +:+ r)%string ∧
    str_forall (λ b, negb (ends_line b)) l = true ∧ (l = ""%string → rest ≠ ""%string → ∃ b r', r = String b r' ∧ ends_line b = true).
Proof.
  revert taken. induction rest as [|c rest IH]; intros taken Hm; cbn [next_keys].
  { exists ""%string, ""%string. by rewrite str_app_nil_r. }
  pose proof (Hm 0) as H0. cbn [str_drop] in H0. rewrite H0. destruct (ends_line c) eqn:Hc.
  - exists ""%string, (String c rest). rewrite str_app_nil_r. split_and!; [done..|]. intros _ _. by exists c, rest.
  - destruct (IH (taken +:+ char1 c)%string) as (l & r & Hn & -> & Hl & _); [intros k; exact (Hm (S k))|].
    exists (String c l), r. split_and!; [by rewrite Hn, <- str_app_assoc|done|cbn; by rewrite Hc, Hl|done].
Qed.

Lemma Read_unmapped fill buf start m : start < str_len buf → unmapped m (str_drop start buf) →
  ∃ c, Read fill (mkStdinParser buf start m) = Ok (c, mkStdinParser buf (start + str_len c) m) ∧
    one_answer c ∧ HasPrefix (str_drop start buf) c = true.
Proof.
  intros Hlt Hm. unfold Read. cbn [pk_buf pk_start keyMap]. rewrite decide_False by lia. ok_step. cbn [pk_buf pk_start keyMap].
  destruct (next_keys_unmapped m "" (str_drop start buf) Hm) as (l & r & -> & Hlr & Hl & Hend). cbn [String.append].
  assert (str_len (str_drop start buf) = str_len buf - start) as Hlen by apply str_length_drop.
  destruct (decide (l = ""%string)) as [->|Hne].
  - destruct Hend as (b & r' & -> & Hb); [done|intros Hnil; rewrite Hnil in Hlen; cbn in Hlen; lia|].
    rewrite slice_ok by lia. ok_step. exists (str_slice start (S start) buf).
    assert (str_slice start (S start) buf = char1 b) as ->.
    { unfold str_slice. rewrite Hlr. replace (S start - start) with 1 by lia. done. }
    split_and!; [do 2 f_equal; cbn; f_equal; lia|split; [done|left; by exists b]|]. rewrite Hlr. apply HasPrefix_app. by exists r'.
  - exists l. split_and!; [done|split; [done|by right]|]. apply HasPrefix_app. by exists r.
Qed.

(** What is typed or pasted reaches the prompt in order: when no key of the map is in the
    text that the terminal gives, reading until it is used up gives pieces that together are
    the text, each of them a line end alone or a text without a line end, as many pieces at
    most as there are bytes. *)
Theorem keys_in_order (text : string) (m : gmap Key string) (old : string) : text ≠ ""%string → unmapped m text →
  ∃ cs, read_keys (str_len text) (Ok text) (mkStdinParser old (str_len old) m) = Ok (cs, mkStdinParser text (str_len text) m) ∧
    str_concat cs = text ∧ Forall one_answer cs.
Proof.
  intros Hne Hm.
  assert (∀ n start, start < str_len text → str_len text - start ≤ n →
    ∃ cs, read_keys n (Ok text) (mkStdinParser text start m) = Ok (cs, mkStdinParser text (str_len text) m) ∧
      str_concat cs = str_drop start text ∧ Forall one_answer cs) as Hloop.
  { induction n as [|n IH]; intros start Hlt Hn; [lia|]. cbn [read_keys].
    destruct (Read_unmapped (Ok text) text start m) as (c & -> & Hc & (u & Hu)%HasPrefix_app); [done|intros k; rewrite str_drop_drop; apply Hm|].
    ok_step. cbn [pk_start pk_buf].
    assert (str_len c + str_len u = str_len text - start) as Hlen by (rewrite <- str_length_app, <- Hu; apply str_length_drop).
    assert (str_drop (start + str_len c) text = u) as Hd by (by rewrite <- str_drop_drop, Hu, str_drop_app).
    assert (0 < str_len c) as Hpos by (destruct Hc as [Hc _]; destruct c; [done|cbn; lia]).
    destruct (decide (start + str_len c = str_len text)) as [He|He].
    - exists [c]. rewrite He. split_and!; [done| |by constructor]. assert (u = ""%string) as -> by (apply str_length_nil; lia). by rewrite Hu.
    - destruct (IH (start + str_len c)) as (cs & -> & Hcs & Hf); [lia|lia|]. ok_step. exists (c :: cs).
      split_and!; [done| |by constructor]. by rewrite str_concat_cons, Hcs, Hd, Hu. }
  assert (0 < str_len text) as Hpos by (destruct text; [done|cbn; lia]).
  destruct (Hloop (str_len text) 0) as (cs & Hr & Hcs & Hf); [done|lia|]. exists cs. split; [|by split].
  rewrite <- Hr. destruct (str_len text) as [|n] eqn:Hl; [lia|]. cbn [read_keys]. unfold Read. cbn [pk_buf pk_start keyMap].
  rewrite decide_True by done. rewrite (decide_False (P := str_len text = 0)) by lia. done.
Qed.
End key_stream.

(** ** A line as two lists of characters, and a console that keeps what is printed *)

Definition strings_prompt_text (b : string * string) : string := (b.1 +:+ b.2)%string.
#[export] Instance strings_prompt : GoPrompt (string * string) := {|
  Text := strings_prompt_text;
  InsertText s b := ((b.1 +:+ s)%string, b.2);
  DeleteBeforeCursor n b := (str_take (str_len b.1 - n) b.1, b.2);
  Delete_runes n b := (b.1, str_concat (drop n (segments b.2)).*2);
  GoLineBeginning b := (""%string, strings_prompt_text b);
  GoLineEnd b := (strings_prompt_text b, ""%string);
  TextBeforeCursor := fst;
  GetWordBeforeCursor := fst;
  FilterHasPrefix l s := filter (λ e, HasPrefix (s_Text e) s = true) l;
  FilterContains l s := filter (λ e, Contains (s_Text e) s = true) l;
  path_Match _ _ := true
|}.
#[export] Instance strings_prompt_laws : PromptLaws (string * string).
Proof.
  split.
  - intros [u v]. cbn. unfold strings_prompt_text, runes. cbn. rewrite length_fmap. by rewrite drop_all.
  - intros s [u v] Hnil. cbn in *. unfold strings_prompt_text in *. cbn in *. destruct u; [|done]. cbn in Hnil. subst v. by rewrite str_app_nil_r.
Qed.
#[export] Instance list_console : Console (list string) := {|
  EraseLine := mret tt; CursorUp := mret tt; Console_Flush := mret tt; ColumnSize := 80;
  print_line s := λ d, (Ok tt, d ++ [s]);
  append_history s := λ d, (Ok tt, d ++ [("history: " +:+ s)%string])
|}.
#[export] Instance no_docs : ParamDocs := {| PremadeModelParamsDocs := ∅; OptimizerParamsDocs := ∅; XGBoostObjectiveDocs := ∅; sort_by_text l := l |}.
#[export] Instance few_keys : Keys := {|
  GetKey s := if bool_decide (s = newline1) then 1 else if bool_decide (s = char1 (of_byte 16)) then 5 else 0;
  Enter := 1; ControlJ := 2; ControlM := 3; Up := 4; ControlP := 5; Down := 6; ControlN := 7
|}.

Definition demo_state : promptState :=
  mkPromptState prompt_livePrefix false ["TO"; "WITH"]%string [mkSuggest "new" ""; mkSuggest "old" ""]%string None 0 "" ∅ [] ∅ no_input [].
Definition demo_cb (s : string) : st (list string) unit := print_line s.

Lemma prompt_reads_witness :
  ∃ used, demo_program = used ++ [""; "select 2"]%string ∧ (Forall not_blank used →
    ∃ p', eachS (λ l, execute l ("", "")%string demo_cb) used (demo_state, []) =
      (Ok tt, (p', ["history: use other; select 'a;  b'; select 1;"; "use other;"; "select 'a;" +:+ newline1 +:+ " b';"; "select 1;"]%string)) ∧
      (Ok tt = Ok tt → idle p' ∧ lastStatements p' = ["use other;"; "select 'a;" +:+ newline1 +:+ " b';"; "select 1;"]%string)).
Proof.
  apply (prompt_reads ("", "")%string demo_cb (mkScanner demo_program None) (mkScanner [""; "select 2"]%string None) _ demo_state [] (Ok tt)).
  - vm_compute. reflexivity.
  - by split_and!.
  - vm_compute. reflexivity.
Defined.

Lemma history_walk_witness :
  ∃ p1 b1 b2, presses true 2 "" demo_state ("sel", "ect")%string = Ok ("select"%string, p1, b1) ∧
    Some (Text b1) = Some "old"%string ∧ presses false 2 "select" p1 b1 = Ok ("select"%string, demo_state, b2) ∧ Text b2 = "select"%string.
Proof.
  destruct (history_walk 2 "" demo_state ("sel", "ect")%string) as (p1 & b1 & b2 & H1 & H2 & H3 & H4);
    [by split_and!|reflexivity|cbn; lia|].
  exists p1, b1, b2. split; [exact H1|]. split; [exact H2|]. split; [exact H3|exact H4].
Defined.

Lemma keys_in_order_witness :
  ∃ cs, read_keys 5 (Ok ("ab" +:+ newline1 +:+ "cd")%string) (mkStdinParser "" 0 defaultKeyMap) =
      Ok (cs, mkStdinParser ("ab" +:+ newline1 +:+ "cd") 5 defaultKeyMap) ∧
    str_concat cs = ("ab" +:+ newline1 +:+ "cd")%string ∧ Forall one_answer cs.
Proof.
  apply (keys_in_order ("ab" +:+ newline1 +:+ "cd")%string defaultKeyMap ""); [done|].
  intros k. do 6 (destruct k as [|k]; [by vm_compute|]). by vm_compute.
Defined.

(** What stands before a key of the map is lost when both arrive together. *)
Example mapped_key_drops_text :
  Read (Ok ("ab" +:+ char1 (of_byte 16))%string) (mkStdinParser "" 0 defaultKeyMap) =
    Ok (meta "p", mkStdinParser ("ab" +:+ char1 (of_byte 16)) 3 defaultKeyMap).
Proof. by vm_compute. Qed.

(** A search key with a character of two bytes: a character of the chosen command is lost. *)
Example chosen_command_cut :
  let s := mkSearch normalSearch "é" "é" "" true prompt_livePrefix false in
  (stopSearch (set_searching (Some s) demo_state) ("é_` select", "")%string).1.1.1 = "elect"%string.
Proof. by vm_compute. Qed.
