(* ===== verification/KeyBindings.v ===== *)
(** * The keys of the prompt (go/cmd/sqlflow/emacs_key_bindings.go)

    Keys that move the cursor by words and lines, cut into a clipboard and paste from it, walk
    through the history and start searching.  The buffer is the library go-prompt's. *)

From S2P Require Import Prelude GoStrings GoState SqlParser Response NormalStmt TableWriter Argo Pipe AttrInit Serve Client Prompt.

Local Open Scope nat_scope.

(** The rest of go-prompt's buffer and document: what [DeleteBeforeCursor] and [Delete] return,
    the cursor, which can be moved by a negative number too, its column, and words. *)
Class LineBuffer (B : Type) := {
  CursorLeft : Z → B → B;
  CursorRight : Z → B → B;
  cut_before : nat → B → string;
  cut_behind : nat → B → string;
  TextAfterCursor : B → string;
  DisplayCursorPosition : B → nat;
  FindStartOfPreviousWord : string → B → Z;       (* ...UntilSeparatorIgnoreNextToCursor *)
  FindEndOfCurrentWord : string → B → Z;          (* ...UntilSeparatorIgnoreNextToCursor *)
  GetWordBeforeCursorUntil : string → B → string  (* ...SeparatorIgnoreNextToCursor *)
}.
Class Screen (D : Type) := {
  EraseScreen : st D unit;
  CursorGoTo : nat → nat → st D unit;
  Screen_Flush : st D unit
}.

Definition wordSeparator : string := ",.=() ".

(** The prompt and its buffer, the clipboard, and what [initHistory] remembers. *)
Record line_state (B : Type) := mkLine { l_prompt : promptState; l_buf : B; clipboard : string; l_origInput : string }.
Arguments mkLine {B}. Arguments l_prompt {B}. Arguments l_buf {B}. Arguments clipboard {B}. Arguments l_origInput {B}.

(** The keys of go-prompt that have a binding. *)
Inductive control_key :=
  | ControlE | ControlA | ControlK | ControlU | ControlD | ControlH | ControlF | ControlB | ControlW | ControlL | ControlY | ControlR
  | End_key | Home_key | Right_key | Left_key.
#[export] Instance control_key_eq_dec : EqDecision control_key.
Proof. solve_decision. Defined.

Section bindings.
Context {B : Type} `{GoPrompt B} `{!LineBuffer B} `{Screen D}.
Notation S := (line_state B * D)%type.

Definition rune_count (s : string) : nat := length (runes s).

(** Each changes the buffer, or the buffer and the clipboard. *)
Definition goRightWord (b : B) : B := CursorRight (FindEndOfCurrentWord wordSeparator b) b.
Definition goLeftWord (b : B) : B :=
  CursorLeft (Z.of_nat (rune_count (TextBeforeCursor b)) - FindStartOfPreviousWord wordSeparator b) b.

Definition with_buf (f : B → B) (l : line_state B) : line_state B := mkLine (l_prompt l) (f (l_buf l)) (clipboard l) (l_origInput l).
Definition cut_out (text : B → string) (f : B → B) (l : line_state B) : line_state B :=
  mkLine (l_prompt l) (f (l_buf l)) (text (l_buf l)) (l_origInput l).
Definition delete_before (count : B → nat) : line_state B → line_state B :=
  cut_out (λ b, cut_before (count b) b) (λ b, DeleteBeforeCursor (count b) b).
Definition word_before (b : B) : nat := rune_count (GetWordBeforeCursorUntil wordSeparator b).

(** [stopSearch], which every key but those of the history calls first. *)
Definition stop (l : line_state B) : line_state B :=
  let '(_, _, p, b) := stopSearch (l_prompt l) (l_buf l) in mkLine p b (clipboard l) (l_origInput l).
Definition bound (f : line_state B → line_state B) : st S unit := update (f ∘ stop).

(** Meta d: the columns that the cursor has moved. *)
Definition cut_next_word (l : line_state B) : line_state B :=
  let pos1 := DisplayCursorPosition (l_buf l) in
  let l := with_buf goRightWord l in
  let pos2 := DisplayCursorPosition (l_buf l) in
  delete_before (λ _, pos2 - pos1) l.

Definition on_history (older : bool) : st S unit :=
  l ← own;
  '(orig, p, b) ← lift (navigate (l_origInput l) older (l_prompt l) (l_buf l));
  update (λ l, mkLine p b (clipboard l) orig).
Definition search_in (m : searchMode) : st S unit :=
  update (λ l, let '(p, b) := startSearch (l_buf l) m (l_prompt l) in mkLine p b (clipboard l) (l_origInput l)).

Definition emacsMetaKeyBindings : list (string * st S unit) :=
  [(meta "b", bound (with_buf goLeftWord)); (meta "B", bound (with_buf goLeftWord));
   (char1 (of_byte 27) +:+ meta "[" +:+ "D", bound (with_buf goLeftWord));
   (meta "f", bound (with_buf goRightWord)); (meta "F", bound (with_buf goRightWord));
   (char1 (of_byte 27) +:+ meta "[" +:+ "C", bound (with_buf goRightWord));
   (meta "d", bound cut_next_word); (meta "D", bound cut_next_word);
   (meta (of_byte 127), bound (delete_before word_before));
   (meta "p", on_history true); (meta "P", on_history true);
   (meta "n", on_history false); (meta "N", on_history false);
   (meta "w", search_in wildcardSearch); (meta "W", search_in wildcardSearch)]%string.

Definition clear_screen : st S unit :=
  update stop ≫= λ _,
  at_disk (EraseScreen ≫= λ _, CursorGoTo 0 0 ≫= λ _, catchS Screen_Flush (λ _, lift Panic (* log.Fatal *))).
(** With those that [initHistory] adds. *)
Definition emacsCtrlKeyBindings : list (control_key * st S unit) :=
  [(ControlE, bound (with_buf (λ b, CursorRight (Z.of_nat (rune_count (TextAfterCursor b))) b)));
   (ControlA, bound (with_buf (λ b, CursorLeft (Z.of_nat (rune_count (TextBeforeCursor b))) b)));
   (ControlK, bound (cut_out (λ b, cut_behind (rune_count (TextAfterCursor b)) b) (λ b, Delete_runes (rune_count (TextAfterCursor b)) b)));
   (ControlU, bound (delete_before (λ b, rune_count (TextBeforeCursor b))));
   (ControlD, bound (with_buf (λ b, if decide (Text b = ""%string) then b else Delete_runes 1 b)));
   (ControlH, bound (with_buf (DeleteBeforeCursor 1)));
   (ControlF, bound (with_buf (CursorRight 1))); (ControlB, bound (with_buf (CursorLeft 1)));
   (ControlW, bound (delete_before word_before));
   (ControlL, clear_screen);
   (ControlY, bound (λ l, with_buf (InsertText (clipboard l)) l));
   (ControlR, search_in normalSearch)] ++
  map (λ k, (k, bound id)) [End_key; Home_key; Right_key; Left_key].

(** The library calls every binding of a key. *)
Definition press {K} `{EqDecision K} (bindings : list (K * st S unit)) (k : K) : st S unit :=
  eachS (λ kb, if decide (kb.1 = k) then kb.2 else mret tt) bindings.
Definition press_meta : string → st S unit := press emacsMetaKeyBindings.
Definition press_control : control_key → st S unit := press emacsCtrlKeyBindings.
End bindings.

(** ** Cutting and pasting *)

(** What the library promises of a buffer of one line: the characters in front of the cursor and
    behind it, and how wide a terminal shows a character. *)
Class LineLaws (B : Type) `{GoPrompt B} `{!LineBuffer B} := {
  before : B → list Z;
  behind : B → list Z;
  width : Z → nat;
  law_Text b : runes (Text b) = before b ++ behind b;
  law_before b : runes (TextBeforeCursor b) = before b;
  law_behind b : runes (TextAfterCursor b) = behind b;
  law_insert s b : before (InsertText s b) = before b ++ runes s ∧ behind (InsertText s b) = behind b;
  law_delete_before n b : before (DeleteBeforeCursor n b) = take (length (before b) - n) (before b) ∧
    behind (DeleteBeforeCursor n b) = behind b ∧ runes (cut_before n b) = drop (length (before b) - n) (before b);
  law_delete n b : before (Delete_runes n b) = before b ∧ behind (Delete_runes n b) = drop n (behind b) ∧
    runes (cut_behind n b) = take n (behind b);
  law_right n b : before (CursorRight (Z.of_nat n) b) = before b ++ take n (behind b) ∧
    behind (CursorRight (Z.of_nat n) b) = drop n (behind b);
  law_column b : DisplayCursorPosition b = list_sum (width <$> before b)
}.

Section cutting.
Context {B : Type} `{LineLaws B} `{Screen D}.
Notation S := (line_state B * D)%type.

Lemma stop_idle (l : line_state B) : searching (l_prompt (stop l)) = None.
Proof. unfold stop, stopSearch. destruct (searching (l_prompt l)) as [s|] eqn:Hs; [done|exact Hs]. Qed.
Lemma stop_id (l : line_state B) : searching (l_prompt l) = None → stop l = l.
Proof. intros Hs. unfold stop, stopSearch. rewrite Hs. by destruct l. Qed.

(** The keys that cut: the word or the line in front of the cursor, the line behind it. *)
Inductive cutting : st S unit → Prop :=
  | cut_w : cutting (press_control ControlW)
  | cut_u : cutting (press_control ControlU)
  | cut_k : cutting (press_control ControlK)
  | cut_backspace : cutting (press_meta (meta (of_byte 127))).

Lemma press_paste (l : line_state B) (d : D) : searching (l_prompt l) = None →
  press_control ControlY (l, d) = (Ok tt, (with_buf (InsertText (clipboard l)) l, d)).
Proof.
  intros Hs. transitivity (@Ok unit tt, (with_buf (InsertText (clipboard (stop l))) (stop l), d)); [reflexivity|by rewrite stop_id].
Qed.

(** Cutting and pasting at once changes nothing of the line, and the clipboard has what was
    cut: the characters between the cursor's place before and after, or behind the cursor. *)
Theorem cut_then_paste (m : st S unit) (l : line_state B) (d : D) : cutting m →
  let b := l_buf (stop l) in
  ∃ l1 l2, m (l, d) = (Ok tt, (l1, d)) ∧ press_control ControlY (l1, d) = (Ok tt, (l2, d)) ∧
    before (l_buf l1) ++ runes (clipboard l1) ++ behind (l_buf l1) = before b ++ behind b ∧
    runes (Text (l_buf l2)) = runes (Text b) ∧ clipboard l2 = clipboard l1.
Proof.
  intros Hm b.
  assert (∃ l1, m (l, d) = (Ok tt, (l1, d)) ∧ searching (l_prompt l1) = None ∧
    before (l_buf l1) ++ runes (clipboard l1) ++ behind (l_buf l1) = before b ++ behind b) as (l1 & Hr & Hs & Hc).
  { assert (∀ f : B → nat, let l1 := delete_before f (stop l) in
      before (l_buf l1) ++ runes (clipboard l1) ++ behind (l_buf l1) = before b ++ behind b) as Hdel.
    { intros f. cbn [delete_before cut_out l_buf clipboard]. fold b. destruct (law_delete_before (f b) b) as (-> & -> & ->). by rewrite app_assoc, take_drop. }
    destruct Hm; eexists; (split; [reflexivity|split; [apply stop_idle|]]); try apply Hdel.
    cbn [cut_out l_buf clipboard compose]. fold b. destruct (law_delete (rune_count (TextAfterCursor b)) b) as (-> & -> & ->). by rewrite take_drop. }
  exists l1, (with_buf (InsertText (clipboard l1)) l1). split_and!; [exact Hr|by apply press_paste|exact Hc| |done].
  cbn [with_buf l_buf]. rewrite !law_Text. destruct (law_insert (clipboard l1) (l_buf l1)) as [-> ->]. by rewrite <- app_assoc.
Qed.

Lemma one_column (l : list Z) : (∀ r, r ∈ l → width r = 1) → list_sum (width <$> l) = length l.
Proof.
  induction l as [|r l IH]; intros Hw; [done|]. cbn. rewrite (Hw r) by left. f_equal. apply IH. intros r' Hr'. apply Hw. by right.
Qed.

(** Meta d cuts the next word, if the terminal shows all of its characters in one column. *)
Theorem next_word_cut (l : line_state B) (d : D) (n : nat) :
  let b := l_buf (stop l) in
  FindEndOfCurrentWord wordSeparator b = Z.of_nat n → (∀ r, r ∈ take n (behind b) → width r = 1) →
  ∃ l1, press_meta (meta "d") (l, d) = (Ok tt, (l1, d)) ∧
    runes (clipboard l1) = take n (behind b) ∧ before (l_buf l1) = before b ∧ behind (l_buf l1) = drop n (behind b).
Proof.
  intros b Hn Hw. eexists. split; [reflexivity|].
  cbn [cut_next_word delete_before cut_out with_buf l_buf clipboard compose]. fold b. unfold goRightWord. rewrite Hn, !law_column.
  destruct (law_right n b) as [Hb Ha]. set (b1 := CursorRight (Z.of_nat n) b) in *.
  assert (list_sum (width <$> before b1) - list_sum (width <$> before b) = length (take n (behind b))) as ->
    by (rewrite Hb, fmap_app, list_sum_app, (one_column _ Hw); lia).
  destruct (law_delete_before (length (take n (behind b))) b1) as (-> & -> & ->). rewrite Hb, length_app.
  replace (length (before b) + length (take n (behind b)) - length (take n (behind b))) with (length (before b)) by lia.
  by rewrite drop_app_length, take_app_length.
Qed.
End cutting.

(** ** Runes that were encoded are read back *)

Local Open Scope Z_scope.
Definition valid_rune (r : Z) : bool := (0 <=? r) && (r <=? 1114111) && negb ((55296 <=? r) && (r <=? 57343)).
Definition rune : Type := {r : Z | valid_rune r = true}.
Definition to_rune (r : Z) : rune :=
  match decide (valid_rune r = true) with left Hr => @exist Z _ r Hr | right _ => @exist Z _ RuneError eq_refl end.
Definition utf8 (l : list rune) : string := str_concat ((λ r : rune, encode_rune (proj1_sig r)) <$> l).

Lemma to_rune_valid r : valid_rune r = true → proj1_sig (to_rune r) = r.
Proof. intros Hr. unfold to_rune. by destruct (decide _). Qed.

Lemma decode_rune_valid s : valid_rune (decode_rune s).1 = true.
Proof.
  unfold decode_rune, is_cont. destruct s as [|c0 s]; [done|]. pose proof (byte_range c0).
  destruct s as [|c1 s]; [repeat case_match; (done || (unfold valid_rune; cbn [fst]; lia))|]. pose proof (byte_range c1).
  destruct s as [|c2 s]; [repeat case_match; (done || (unfold valid_rune; cbn [fst]; lia))|]. pose proof (byte_range c2).
  destruct s as [|c3 s]; [repeat case_match; (done || (unfold valid_rune; cbn [fst]; lia))|]. pose proof (byte_range c3).
  repeat case_match; (done || (unfold valid_rune; cbn [fst]; lia)).
Qed.

Lemma decode_encode_rune r s : valid_rune r = true → decode_rune (encode_rune r +:+ s) = (r, str_len (encode_rune r)).
Proof.
  unfold valid_rune. intros Hr. unfold encode_rune.
  assert ((r <? 0) || (1114111 <? r) || ((55296 <=? r) && (r <=? 57343)) = false) as -> by lia.
  destruct (r <? 128) eqn:H1; [unfold char1, decode_rune; cbn [String.append]; rewrite byte_of_byte by lia; by rewrite H1|].
  destruct (r <? 2048) eqn:H2; [|destruct (r <? 65536) eqn:H3]; unfold char1, decode_rune, is_cont; cbn [String.append str_len];
    rewrite !byte_of_byte by (Z.to_euclidean_division_equations; lia);
    repeat (case_match; try (exfalso; Z.to_euclidean_division_equations; lia));
    f_equal; Z.to_euclidean_division_equations; lia.
Qed.

Lemma encode_rune_nonempty r : (1 ≤ str_len (encode_rune r))%nat.
Proof. unfold encode_rune. repeat case_match; cbn; lia. Qed.

Lemma runes_utf8 l : runes (utf8 l) = proj1_sig <$> l.
Proof.
  unfold runes, segments. assert (∀ n, (str_len (utf8 l) ≤ n)%nat → (segments_fuel n (utf8 l)).*1 = proj1_sig <$> l) as Hgen; [|by apply Hgen].
  induction l as [|[r Hr] l IH]; intros n Hn; [by destruct n|].
  change (utf8 (_ :: l)) with (encode_rune r +:+ utf8 l)%string in *. pose proof (encode_rune_nonempty r).
  rewrite str_length_app in Hn. destruct n as [|n]; [lia|].
  destruct (encode_rune r +:+ utf8 l)%string as [|c t] eqn:Ht; [apply (f_equal str_len) in Ht; rewrite str_length_app in Ht; cbn in Ht; lia|].
  cbn [segments_fuel]. rewrite <- Ht, decode_encode_rune by done. rewrite str_drop_app by done. cbn. f_equal. apply IH. lia.
Qed.

Lemma runes_valid s : Forall (λ r, valid_rune r = true) (runes s).
Proof.
  unfold runes, segments. generalize (str_len s) as n. intros n. revert s. induction n as [|n IH]; intros s; [constructor|].
  destruct s as [|c s]; [constructor|]. cbn [segments_fuel]. pose proof (decode_rune_valid (String c s)) as Hv.
  destruct (decode_rune (String c s)) as [r w]. constructor; [exact Hv|apply IH].
Qed.
Lemma to_rune_runes s : proj1_sig <$> (to_rune <$> runes s) = runes s.
Proof.
  rewrite <- list_fmap_compose. pose proof (runes_valid s) as Hv. induction Hv as [|r l Hr _ IH]; [done|].
  cbn. rewrite IH. f_equal. by apply to_rune_valid.
Qed.

(** ** A buffer of runes *)

Local Open Scope nat_scope.
Notation line := (list rune * list rune)%type.

Definition wide (r : Z) : nat := if (r <? 4352)%Z then 1 else 2.
Definition separates (sep : string) (r : rune) : bool := bool_decide (proj1_sig r ∈ runes sep).
(** The separators that come first, and the characters up to the next. *)
Definition next_word (sep : string) (l : list rune) : nat :=
  let rest := drop_while (separates sep) l in
  length l - length (drop_while (λ r, negb (separates sep r)) rest).
Definition move (n : Z) (b : line) : line :=
  if decide (0 <= n)%Z then (b.1 ++ take (Z.to_nat n) b.2, drop (Z.to_nat n) b.2)
  else let k := length b.1 - Z.to_nat (- n) in (take k b.1, drop k b.1 ++ b.2).

#[export] Instance line_prompt : GoPrompt line := {|
  Text b := utf8 (b.1 ++ b.2);
  InsertText s b := (b.1 ++ (to_rune <$> runes s), b.2);
  DeleteBeforeCursor n b := (take (length b.1 - n) b.1, b.2);
  Delete_runes n b := (b.1, drop n b.2);
  GoLineBeginning b := ([], b.1 ++ b.2);
  GoLineEnd b := (b.1 ++ b.2, []);
  TextBeforeCursor b := utf8 b.1;
  GetWordBeforeCursor b := utf8 (drop (length b.1 - next_word " " (rev b.1)) b.1);
  FilterHasPrefix l s := filter (λ e, HasPrefix (s_Text e) s = true) l;
  FilterContains l s := filter (λ e, Contains (s_Text e) s = true) l;
  path_Match _ _ := true
|}.
#[export] Instance line_buffer : LineBuffer line := {|
  CursorLeft n := move (- n); CursorRight n := move n;
  cut_before n b := utf8 (drop (length b.1 - n) b.1);
  cut_behind n b := utf8 (take n b.2);
  TextAfterCursor b := utf8 b.2;
  DisplayCursorPosition b := list_sum (wide ∘ proj1_sig <$> b.1);
  FindStartOfPreviousWord sep b := Z.of_nat (length b.1 - next_word sep (rev b.1));
  FindEndOfCurrentWord sep b := Z.of_nat (next_word sep b.2);
  GetWordBeforeCursorUntil sep b := utf8 (drop (length b.1 - next_word sep (rev b.1)) b.1)
|}.
#[local] Arguments runes : simpl never.
#[local] Arguments utf8 : simpl never.
#[export] Instance line_laws : LineLaws line.
Proof.
  refine {| before b := proj1_sig <$> b.1; behind b := proj1_sig <$> b.2; width := wide |}.
  - intros b. cbn. by rewrite runes_utf8, fmap_app.
  - intros b. apply runes_utf8.
  - intros b. apply runes_utf8.
  - intros s b. cbn. by rewrite fmap_app, to_rune_runes.
  - intros n b. cbn. by rewrite runes_utf8, length_fmap, fmap_take, fmap_drop.
  - intros n b. cbn. by rewrite runes_utf8, fmap_take, fmap_drop.
  - intros n b. cbn. unfold move. rewrite decide_True, Nat2Z.id by lia. cbn. by rewrite fmap_app, fmap_take, fmap_drop.
  - intros b. cbn. by rewrite list_fmap_compose.
Defined.
#[export] Instance still_screen : Screen unit := {| EraseScreen := mret tt; CursorGoTo _ _ := mret tt; Screen_Flush := mret tt |}.

Definition typed_line (u v : string) : line_state line := mkLine demo_state (to_rune <$> runes u, to_rune <$> runes v) "" "".
Definition shown (r : result unit * (line_state line * unit)) : string * string * string :=
  let l := r.2.1 in (utf8 (l_buf l).1, utf8 (l_buf l).2, clipboard l).

(** The keys of the tests: back by a word, and the word cut. *)
Example test_keys : shown ((press_meta (meta "b") ≫= λ _, press_meta (meta "d")) (typed_line "USE ir" "", tt)) = ("USE ", "", "ir")%string.
Proof. by vm_compute. Qed.
(** Meta d on a word of two wide characters: what is in front of the cursor goes too. *)
Example wide_word_cut : shown (press_meta (meta "d") (typed_line "SELECT * FROM " "表名", tt)) = ("SELECT * FRO", "", "M 表名")%string.
Proof. by vm_compute. Qed.

Lemma cut_then_paste_witness :
  ∃ l1 l2, press_control ControlW (typed_line "USE iri" "s", tt) = (Ok tt, (l1, tt)) ∧ press_control ControlY (l1, tt) = (Ok tt, (l2, tt)) ∧
    clipboard l1 = "iri"%string ∧ runes (Text (l_buf l2)) = runes "USE iris".
Proof.
  destruct (cut_then_paste _ (typed_line "USE iri" "s") tt cut_w) as (l1 & l2 & H1 & H2 & H3 & H4 & H5).
  exists l1, l2. split; [exact H1|]. split; [exact H2|]. split; [|exact H4].
  pose proof (f_equal (λ r : result unit * (line_state line * unit), clipboard r.2.1) H1) as Hc.
  refine (eq_trans (eq_sym Hc) _). vm_compute. reflexivity.
Defined.
Lemma next_word_cut_witness :
  ∃ l1, press_meta (meta "d") (typed_line "USE " "iris", tt) = (Ok tt, (l1, tt)) ∧ runes (clipboard l1) = runes "iris".
Proof.
  destruct (next_word_cut (typed_line "USE " "iris") tt 4) as (l1 & H1 & H2 & _).
  - vm_compute. reflexivity.
  - intros r Hr. vm_compute in Hr. by repeat (apply elem_of_cons in Hr as [->|Hr]; [reflexivity|]); apply not_elem_of_nil in Hr.
  - exists l1. split; [exact H1|exact H2].
Defined.
