(* ===== verification/Highlight.v ===== *)
(** * The colours of the prompt (go/cmd/sqlflow/output.go)

    The line that is typed is shown with colours: those of a highlighter for SQL, and a colour
    of its own for the keywords of the extended syntax. *)

From S2P Require Import Prelude GoStrings GoState SqlParser Response NormalStmt TableWriter Argo Pipe AttrInit Serve Client Prompt.

Local Open Scope nat_scope.

(** Package chroma, and what go-prompt's writer puts out.  Colours are numbers. *)
Class ConsoleWriter := {
  Highlight : string → string;                  (* mysql, terminal16m, monokai *)
  Write_out : string → string;
  SetColor_out : nat → nat → bool → string;     (* of the text and the background, bold *)
  DefaultColor : nat;
  DarkGreen : nat
}.

(** [w_out]: all that was written. *)
Record stdoutWriter := mkStdoutWriter { w_out : string; currentBgColor : nat; currentFgColor : nat }.
Definition newStdoutWriter : stdoutWriter := mkStdoutWriter "" 0 0.

Definition extendedKeywords : list string :=
  ["COLUMN"; "USING"; "EXPLAIN"; "EVALUATE"; "LABEL"; "PREDICT"; "TO"; "TRAIN"; "WITH"]%string.

Section writer.
Context `{UnicodeTables} `{ConsoleWriter}.

Definition put_out (s : string) (w : stdoutWriter) : stdoutWriter :=
  mkStdoutWriter (w_out w +:+ s) (currentBgColor w) (currentFgColor w).
Definition isInputLine (w : stdoutWriter) : bool := bool_decide (currentBgColor w = DefaultColor ∧ currentFgColor w = DefaultColor).
Definition SetColor (fg bg : nat) (bold : bool) (w : stdoutWriter) : stdoutWriter :=
  mkStdoutWriter (w_out w +:+ SetColor_out fg bg bold) bg fg.

(** A word of the highlighter's, which is replaced if it is a keyword. *)
Definition word_out (word cleanWord : string) : string :=
  if decide (ToUpper cleanWord ∈ extendedKeywords)
  then (SetColor_out DarkGreen DefaultColor false +:+ Write_out cleanWord +:+ SetColor_out DefaultColor DefaultColor false)%string
  else word.
Fixpoint words_out (l : list (string * string)) : string :=
  match l with
  | [] => ""
  | [(word, cleanWord)] => word_out word cleanWord
  | (word, cleanWord) :: l => word_out word cleanWord +:+ Write_out " " +:+ words_out l
  end.
(** What [WriteStr] puts out. *)
Definition str_out (input_line : bool) (data : string) : string :=
  if input_line && bool_decide (data ≠ prompt_prefix ∧ data ≠ prompt_livePrefix) then
    let buf := Highlight data in
    let words := Split buf " " in
    let cleanWords := Split data " " in
    if decide (length words ≠ length cleanWords) then buf else words_out (zip words cleanWords)
  else Write_out data.
Definition WriteStr (data : string) (w : stdoutWriter) : stdoutWriter := put_out (str_out (isInputLine w) data) w.
End writer.

(** ** What the terminal shows

    A control sequence that sets colours starts with an escape character and ends with m; the
    flag says that the terminal is inside of one. *)
Definition chr_esc : ascii := of_byte 27.
Fixpoint screen (inside : bool) (s : string) : string * bool :=
  match s with
  | EmptyString => (""%string, inside)
  | String c s =>
    if inside then screen (negb (bool_decide (c = "m"%char))) s
    else if decide (c = chr_esc) then screen true s
    else let '(v, b) := screen false s in (String c v, b)
  end.

(** The highlighter adds control sequences to a text and nothing else; the writer writes what
    has no escape character as it is, and its colours show nothing. *)
Class ColorLaws `{ConsoleWriter} : Prop := {
  law_Highlight s : no_char chr_esc s = true → (screen false (Highlight s)).1 = s;
  law_Write s : no_char chr_esc s = true → Write_out s = s;
  law_SetColor fg bg bold : screen false (SetColor_out fg bg bold) = (""%string, false)
}.

Lemma screen_app b u v :
  screen b (u +:+ v) = (let '(x, b1) := screen b u in let '(y, b2) := screen b1 v in ((x +:+ y)%string, b2)).
Proof.
  revert b. induction u as [|c u IH]; intros b; cbn; [by destruct (screen b v)|].
  destruct b; [apply IH|]. case_decide; [apply IH|]. rewrite IH. destruct (screen false u) as [x b1]. by destruct (screen b1 v).
Qed.
Lemma screen_plain s : no_char chr_esc s = true → screen false s = (s, false).
Proof.
  induction s as [|c s IH]; [done|]. cbn. intros [Hc Hs]%andb_true_iff.
  apply negb_true_iff, bool_decide_eq_false in Hc. rewrite decide_False by done. by rewrite IH.
Qed.
Lemma screen_no_char c b s : no_char c s = true → no_char c (screen b s).1 = true.
Proof.
  unfold no_char. revert b. induction s as [|d s IH]; intros b; [done|]. cbn [screen str_forall]. intros [Hd Hs]%andb_true_iff.
  destruct b; [by apply IH|]. destruct (decide (d = chr_esc)); [by apply IH|]. specialize (IH false Hs).
  destruct (screen false s). cbn [fst str_forall] in *. by rewrite Hd.
Qed.

(** How often a character occurs. *)
Fixpoint occurs (c : ascii) (s : string) : nat :=
  match s with EmptyString => 0 | String d s => (if decide (d = c) then 1 else 0) + occurs c s end.
Lemma occurs_app c u v : occurs c (u +:+ v) = occurs c u + occurs c v.
Proof. induction u as [|d u IH]; [done|]. cbn. rewrite IH. lia. Qed.
Lemma occurs_none c s : no_char c s = true → occurs c s = 0.
Proof. induction s as [|d s IH]; [done|]. cbn. intros [Hd Hs]%andb_true_iff. case_decide; [|by apply IH]. subst. by rewrite bool_decide_eq_true_2 in Hd. Qed.
Lemma occurs_screen c b s : occurs c (screen b s).1 ≤ occurs c s.
Proof.
  revert b. induction s as [|d s IH]; intros b; [done|]. cbn. destruct b; [specialize (IH (negb (bool_decide (d = "m"%char)))); lia|].
  case_decide; [specialize (IH true); lia|]. specialize (IH false). destruct (screen false s). cbn in *. lia.
Qed.
Lemma occurs_Join c l : l ≠ [] → Forall (λ u, no_char c u = true) l → S (occurs c (Join l (char1 c))) = length l.
Proof.
  intros Hne Hl. induction Hl as [|u l Hu Hl IH]; [done|]. destruct l as [|v l]; [cbn; by rewrite occurs_none|].
  rewrite Join_cons, !occurs_app, (occurs_none _ _ Hu). cbn [char1 occurs length]. rewrite decide_True by done. specialize (IH ltac:(done)).
  cbn [length] in IH. lia.
Qed.

Lemma char_cut c u v x y : no_char c u = true → no_char c x = true → (u +:+ char1 c +:+ v)%string = (x +:+ char1 c +:+ y)%string → u = x ∧ v = y.
Proof.
  intros Hu Hx He. pose proof (f_equal (λ s, SplitN2 s (char1 c)) He) as Hs.
  change (char1 c +:+ ?w)%string with (String c w) in Hs. cbn beta in Hs. rewrite !SplitN2_char in Hs by done. by injection Hs as -> ->.
Qed.

Lemma pieces_of c s : ∃ l, l ≠ [] ∧ Forall (λ u, no_char c u = true) l ∧ s = Join l (char1 c).
Proof.
  induction s as [|d s (l & Hne & Hl & ->)]; [by exists [""%string]; repeat constructor|].
  destruct (decide (d = c)) as [->|Hd]; [exists (""%string :: l); split; [done|]; split; [by constructor|by destruct l]|].
  destruct Hl as [|u l Hu Hl]; [done|]. exists (String d u :: l). split; [done|]. split; [|by destruct l].
  constructor; [|done]. cbn. by rewrite bool_decide_eq_false_2.
Qed.
Lemma Split_pieces c s : Forall (λ u, no_char c u = true) (Split s (char1 c)).
Proof. destruct (pieces_of c s) as (l & Hne & Hl & ->). by rewrite Split_Join. Qed.
Lemma Join_pieces c l sep : no_char c (Join l sep) = true → Forall (λ u, no_char c u = true) l.
Proof.
  induction l as [|u l IH]; [constructor|]. destruct l as [|v l]; [by constructor|]. rewrite Join_cons. unfold no_char in *.
  rewrite !str_forall_app. intros (Hu & (_ & Hr)%andb_true_iff)%andb_true_iff. constructor; [done|by apply IH].
Qed.

Section shown.
Context `{UnicodeTables} `{ColorLaws}.
Notation sp := " "%char.
Notation no_space u := (no_char sp u = true).

Lemma keyword_shown c : no_char chr_esc c = true →
  screen false (SetColor_out DarkGreen DefaultColor false +:+ Write_out c +:+ SetColor_out DefaultColor DefaultColor false) = (c, false).
Proof.
  intros Hc. rewrite screen_app, law_SetColor, screen_app, law_Write, (screen_plain c Hc), law_SetColor by done. cbn. by rewrite str_app_nil_r.
Qed.
Lemma word_shown w c : no_char chr_esc c = true → (screen false w).1 = c → (screen false (word_out w c)).1 = c.
Proof. intros Hc Hw. unfold word_out. case_decide; [by rewrite keyword_shown|done]. Qed.
Lemma word_shown_on w c rest : no_char chr_esc c = true → screen false w = (c, false) →
  (screen false (word_out w c +:+ Write_out " " +:+ rest)).1 = (c +:+ " " +:+ (screen false rest).1)%string.
Proof.
  intros Hc Hw. rewrite (law_Write " ") by (vm_compute; reflexivity). rewrite screen_app.
  assert (screen false (word_out w c) = (c, false)) as -> by (unfold word_out; case_decide; [by apply keyword_shown|done]).
  rewrite screen_app, (screen_plain " ") by (vm_compute; reflexivity). by destruct (screen false rest).
Qed.

(** If the terminal shows as many words as there are, no blank is inside of a control sequence,
    and every word shows the one of the text. *)
Lemma words_shown ws cs : ws ≠ [] → length ws = length cs →
  Forall (λ u, no_space u) ws → Forall (λ u, no_space u ∧ no_char chr_esc u = true) cs →
  (screen false (Join ws " ")).1 = Join cs " " → (screen false (words_out (zip ws cs))).1 = Join cs " ".
Proof.
  intros Hne Hl Hws. revert cs Hl. induction Hws as [|w ws Hw Hws IH]; intros cs Hl Hcs Hs; [done|].
  destruct cs as [|c cs]; [done|]. apply Forall_cons in Hcs as [[Hc1 Hc2] Hcs].
  destruct ws as [|w2 ws].
  { destruct cs as [|? ?]; [|done]. cbn in *. by apply word_shown. }
  destruct cs as [|c2 cs]; [done|]. rewrite Join_cons in Hs. rewrite (Join_cons c) in Hs |- *. rewrite screen_app in Hs.
  destruct (screen false w) as [x b] eqn:Hx.
  assert (no_space x) as Hnx by (pose proof (screen_no_char sp false w Hw) as Hn; by rewrite Hx in Hn).
  destruct b.
  - exfalso. change (" " +:+ ?u)%string with (String sp u) in Hs at 1. cbn [screen] in Hs.
    rewrite bool_decide_eq_false_2 in Hs by done. cbn [negb] in Hs.
    pose proof (occurs_screen sp true (Join (w2 :: ws) " ")) as Ho. destruct (screen true (Join (w2 :: ws) " ")) as [y b] eqn:Hy.
    apply (f_equal (occurs sp)) in Hs. cbn [fst] in *. rewrite !occurs_app, (occurs_none sp x), (occurs_none sp c) in Hs by done.
    pose proof (occurs_Join sp (w2 :: ws) ltac:(done) Hws) as Hn1.
    assert (S (occurs sp (Join (c2 :: cs) " ")) = length (c2 :: cs)) as Hn2.
    { apply (occurs_Join sp); [done|]. eapply Forall_impl; [exact Hcs|]. by intros u [? _]. }
    change (char1 sp) with " "%string in *. cbn [occurs length] in *. rewrite decide_True in Hs by done. lia.
  - rewrite screen_app in Hs. cbn [screen] in Hs. rewrite decide_False in Hs by done.
    destruct (screen false (Join (w2 :: ws) " ")) as [y b] eqn:Hy. cbn [fst] in Hs.
    apply (char_cut sp x y c) in Hs as [-> ->]; [|done..].
    change (zip (w :: w2 :: ws) (c :: c2 :: cs)) with ((w, c) :: zip (w2 :: ws) (c2 :: cs)).
    change (words_out ((w, c) :: zip (w2 :: ws) (c2 :: cs))) with (word_out w c +:+ Write_out " " +:+ words_out (zip (w2 :: ws) (c2 :: cs)))%string.
    rewrite word_shown_on by done. f_equal. f_equal. apply IH; [done|cbn in *; lia|done|done].
Qed.

(** What is typed is what the terminal shows, whatever the highlighter does with it: the escape
    characters that it adds leave the text as it is, also where keywords are replaced; and the
    colours that the prompt has set stay. *)
Theorem WriteStr_shows (data : string) (w : stdoutWriter) : no_char chr_esc data = true →
  ∃ out, w_out (WriteStr data w) = (w_out w +:+ out)%string ∧ (screen false out).1 = data ∧
    isInputLine (WriteStr data w) = isInputLine w.
Proof.
  intros Hd. exists (str_out (isInputLine w) data). split; [done|]. split; [|done]. unfold str_out.
  destruct (isInputLine w && _); [|by rewrite law_Write, screen_plain by done].
  destruct (decide _) as [|Hl%dec_stable]; [by apply law_Highlight|].
  transitivity (Join (Split data " ") " "); [|apply Join_Split]. apply words_shown; [apply Split_nonempty|done|apply (Split_pieces sp)| |].
  - apply Forall_and. split; [apply (Split_pieces sp)|]. apply (Join_pieces chr_esc _ " "). by rewrite Join_Split.
  - rewrite !Join_Split. by apply law_Highlight.
Qed.
End shown.

(** ** A highlighter with one colour *)

Definition sgr (n : string) : string := (char1 chr_esc +:+ "[" +:+ n +:+ "m")%string.
Fixpoint question_marks (s : string) : string :=
  match s with EmptyString => "" | String c s => String (if decide (c = chr_esc) then "?"%char else c) (question_marks s) end.
#[export] Instance blue_writer : ConsoleWriter := {|
  Highlight s := (sgr "34" +:+ s +:+ sgr "0")%string;
  Write_out := question_marks;
  SetColor_out fg bg bold := sgr (if decide (fg = 0) then "0" else "32")%string;
  DefaultColor := 0; DarkGreen := 3
|}.
#[export] Instance blue_laws : ColorLaws.
Proof.
  split.
  - intros s Hs. cbn [Highlight blue_writer]. rewrite screen_app. change (screen false (sgr "34")) with (""%string, false).
    cbv beta iota. rewrite screen_app, (screen_plain s Hs). cbn. apply str_app_nil_r.
  - intros s. cbn [Write_out blue_writer]. induction s as [|c s IH]; [done|]. cbn [no_char str_forall question_marks]. intros [Hc Hs]%andb_true_iff.
    apply negb_true_iff, bool_decide_eq_false in Hc. rewrite decide_False by done. by rewrite IH.
  - intros fg bg bold. cbn [SetColor_out blue_writer]. by case_decide.
Qed.

Example keywords_green : str_out true "SELECT a TO TRAIN m" =
  (sgr "34" +:+ "SELECT a " +:+ sgr "32" +:+ "TO" +:+ sgr "0" +:+ " " +:+ sgr "32" +:+ "TRAIN" +:+ sgr "0" +:+ " m" +:+ sgr "0")%string.
Proof. by vm_compute. Qed.
Lemma WriteStr_shows_witness :
  ∃ out, w_out (WriteStr "SELECT a TO TRAIN m" newStdoutWriter) = out ∧ (screen false out).1 = "SELECT a TO TRAIN m"%string.
Proof.
  destruct (WriteStr_shows "SELECT a TO TRAIN m" newStdoutWriter) as (out & H1 & H2 & _).
  - vm_compute. reflexivity.
  - exists out. split; [exact H1|exact H2].
Defined.
