(* ===== verification/Program.v ===== *)
(** * Running a program (go/sql/executor_ir.go, Run and New of go/executor/executor.go)

    The statements of a program are run one after the other: each is compiled when the ones
    before it have run, because compiling looks at the database.  What an executor does for an
    extended statement is a field of the record [Executor]. *)

From S2P Require Import Prelude GoStrings GoState GoFloat FeatureColumn Lexer Syntax Comments SqlParser.
From S2P Require Import Verifier Ir IRParse Regexp FieldInfer Derivation AttrInit IRGenerator NormalStmt.

Local Open Scope Z_scope.

(** ** Hints (alisa)

    A SET statement is no statement of its own: it goes in front of every standard one. *)

(** [strings.IndexAny(sql, "\n\r")] *)
Definition IndexEOL (s : string) : option nat := IndexFunc (λ c, (byte c =? 10) || (byte c =? 13)) s.

(** Each round but the last drops a line. *)
Fixpoint skip_comment_lines (fuel : nat) (sql : string) : result string :=
  match fuel with
  | O => NoFuel
  | S fuel =>
    let sql := TrimSpace sql in
    if HasPrefix sql "--" then
      match IndexEOL sql with
      | Some eol => skip_comment_lines fuel (str_drop (S eol) sql)
      | None => Ok sql
      end
    else Ok sql
  end.
Definition isAlisaHint `{UnicodeTables} (sql : string) : result bool :=
  sql ← skip_comment_lines (str_len sql + 1) sql;
  Ok (HasPrefix (ToLower sql) "set ").
Definition isHint `{UnicodeTables} (stmt : SQLFlowStmt) (dialect : string) : result bool :=
  if negb (IsExtendedSyntax stmt) && bool_decide (dialect = "alisa"%string)
  then isAlisaHint (Original stmt) else Ok false.

Definition split_hint `{UnicodeTables} (dialect : string) (acc : string * list SQLFlowStmt) (stmt : SQLFlowStmt)
    : result (string * list SQLFlowStmt) :=
  let '(hints, sqls) := acc in
  hint ← isHint stmt dialect;
  if hint : bool then Ok (hints +:+ Original stmt +:+ char1 (of_byte 10), sqls) else Ok (hints, sqls ++ [stmt]).
Definition splitHints `{UnicodeTables} (stmts : list SQLFlowStmt) (dialect : string)
    : result (string * list SQLFlowStmt) :=
  foldM (split_hint dialect) (""%string, []) stmts.

Definition with_hints (hints : string) (sql : SQLFlowStmt) : SQLFlowStmt :=
  if IsExtendedSyntax sql then sql
  else mkSQLFlowStmt (stmt_IsUnfinishedSelect sql) (hints +:+ Original sql) (select sql) (stmt_Inputs sql) (stmt_Outputs sql).
Definition RewriteStatementsWithHints `{UnicodeTables} (stmts : list SQLFlowStmt) (dialect : string)
    : result (list SQLFlowStmt) :=
  '(hints, sqls) ← splitHints stmts dialect;
  if decide (0 < str_len hints)%nat then Ok (map (with_hints hints) sqls) else Ok sqls.

(** *** What becomes of the hints *)

Lemma str_concat_drop_while {A} (P : A → bool) (f : A → string) l :
  (str_len (str_concat (f <$> drop_while P l)) ≤ str_len (str_concat (f <$> l)))%nat.
Proof.
  induction l as [|x l IH]; [done|]. cbn [drop_while]. case_match; [|done].
  rewrite fmap_cons, str_concat_cons, str_length_app. lia.
Qed.

Lemma str_len_concat_reverse l : str_len (str_concat (reverse l)) = str_len (str_concat l).
Proof.
  induction l as [|x l IH]; [done|]. rewrite reverse_cons, str_concat_app, !str_concat_cons, !str_length_app, IH.
  cbn [str_len str_concat foldr]. lia.
Qed.

Lemma TrimSpace_length `{UnicodeTables} s : (str_len (TrimSpace s) ≤ str_len s)%nat.
Proof.
  unfold TrimSpace, drop_while_end. rewrite fmap_reverse, str_len_concat_reverse.
  etrans; [apply str_concat_drop_while|]. rewrite fmap_reverse, str_len_concat_reverse.
  etrans; [apply str_concat_drop_while|]. by rewrite segments_concat.
Qed.

Lemma skip_comment_lines_total `{UnicodeTables} fuel s :
  (str_len s < fuel)%nat → ∃ s', skip_comment_lines fuel s = Ok s'.
Proof.
  revert s. induction fuel as [|fuel IH]; intros s Hf; [lia|]. cbn [skip_comment_lines].
  pose proof (TrimSpace_length s). destruct (HasPrefix (TrimSpace s) "--") eqn:Hp; [|by eexists].
  destruct (IndexEOL (TrimSpace s)) as [eol|]; [|by eexists]. apply IH. rewrite str_length_drop.
  destruct (TrimSpace s); [done|]. simpl in *. lia.
Qed.

Lemma isHint_total `{UnicodeTables} stmt dialect : ∃ b, isHint stmt dialect = Ok b ∧
  (b = true → IsExtendedSyntax stmt = false ∧ dialect = "alisa"%string).
Proof.
  unfold isHint, isAlisaHint. case_match eqn:Hc; [|by exists false].
  destruct (skip_comment_lines_total (str_len (Original stmt) + 1) (Original stmt)) as [s' ->]; [lia|].
  eexists. split; [reflexivity|]. intros _. apply andb_true_iff in Hc as [?%negb_true_iff ?%bool_decide_eq_true]. done.
Qed.

Section hints.
Context `{UnicodeTables} (dialect : string).

Definition hint_in (stmt : SQLFlowStmt) : bool := match isHint stmt dialect with Ok b => b | _ => false end.
Definition hint_text (stmts : list SQLFlowStmt) : string :=
  str_concat (map (λ s, Original s +:+ char1 (of_byte 10)) (filter (λ s, hint_in s = true) stmts)).

Lemma splitHints_spec stmts hints sqls :
  foldM (split_hint dialect) (hints, sqls) stmts =
  Ok (hints +:+ hint_text stmts, sqls ++ filter (λ s, hint_in s = false) stmts).
Proof.
  unfold hint_text. revert hints sqls. induction stmts as [|s stmts IH]; intros hints sqls; cbn [foldM].
  { simpl. by rewrite str_app_nil_r, app_nil_r. }
  destruct (isHint_total s dialect) as (b & Hb & _).
  assert (split_hint dialect (hints, sqls) s =
    Ok (if b then (hints +:+ Original s +:+ char1 (of_byte 10), sqls) else (hints, sqls ++ [s]))) as ->.
  { unfold split_hint. rewrite Hb. by destruct b. }
  assert (hint_in s = b) as Hs by (unfold hint_in; by rewrite Hb). rewrite !filter_cons, Hs. cbn [mbind result_bind].
  destruct b; rewrite IH.
  - rewrite decide_True, decide_False by done. cbn [map]. by rewrite str_concat_cons, !str_app_assoc.
  - rewrite decide_False, decide_True by done. by rewrite <- app_assoc.
Qed.

Lemma hint_text_nil stmts : str_len (hint_text stmts) = 0%nat ↔ filter (λ s, hint_in s = true) stmts = [].
Proof.
  unfold hint_text. destruct (filter _ stmts); [done|]. simpl. rewrite !str_length_app. simpl. split; [lia|done].
Qed.

Lemma with_no_hints l : map (with_hints "") l = l.
Proof.
  induction l as [|s l IH]; [done|]. cbn [map]. rewrite IH. f_equal. unfold with_hints. case_match; [done|]. by destruct s.
Qed.

(** Rewriting with hints always ends, and takes the hints (SET statements of alisa, and
    never an extended statement) out of the program: their texts, a line each, stand in front
    of every standard statement that is left, while an extended one stays as it was. *)
Theorem hints_moved (stmts : list SQLFlowStmt) :
  RewriteStatementsWithHints stmts dialect =
    Ok (map (with_hints (hint_text stmts)) (filter (λ s, hint_in s = false) stmts)) ∧
  Forall (λ s, IsExtendedSyntax s = false ∧ dialect = "alisa"%string) (filter (λ s, hint_in s = true) stmts) ∧
  (dialect ≠ "alisa"%string → RewriteStatementsWithHints stmts dialect = Ok stmts).
Proof.
  assert (Forall (λ s, IsExtendedSyntax s = false ∧ dialect = "alisa"%string)
            (filter (λ s, hint_in s = true) stmts)) as Hall.
  { apply Forall_forall. intros s [Hs _]%list_elem_of_filter. unfold hint_in in Hs.
    destruct (isHint_total s dialect) as (b & Hb & Hi). rewrite Hb in Hs. by apply Hi. }
  assert (RewriteStatementsWithHints stmts dialect =
    Ok (map (with_hints (hint_text stmts)) (filter (λ s, hint_in s = false) stmts))) as Hr.
  { unfold RewriteStatementsWithHints, splitHints. rewrite splitHints_spec. ok_step. simpl. case_decide; [done|].
    destruct (hint_text stmts); [|simpl in *; lia]. by rewrite with_no_hints. }
  split_and!; [exact Hr|exact Hall|]. intros Hd. rewrite Hr. f_equal.
  assert (Forall (λ s, hint_in s = false) stmts) as Hn.
  { apply Forall_forall. intros s Hs. destruct (hint_in s) eqn:Hh; [|done]. rewrite Forall_forall in Hall.
    destruct (Hall s) as [_ ?]; [by apply list_elem_of_filter|done]. }
  assert (filter (λ s, hint_in s = true) stmts = [] ∧ filter (λ s, hint_in s = false) stmts = stmts) as [Ht Hf].
  { clear Hall Hr Hd. induction Hn as [|s l Hs _ [IH1 IH2]]; [done|]. rewrite !filter_cons, Hs.
    rewrite decide_False, decide_True by done. by rewrite IH1, IH2. }
  unfold hint_text. rewrite Ht, Hf. apply with_no_hints.
Qed.
End hints.

(** ** Compiling one statement *)

Notation ir := (IRStmt FieldDesc).

Section compile.
Context `{UnicodeTables} `{GoRegexp} `{MapOrder} `{SortSlice} `{External} `{Services} `{ColumnText} `{CodegenEnv}.

(** go/codegen/experimental/codegen_step.go has the same function, on a copy of the dictionary. *)
Definition initializeAndCheckAttributes (stmt : ir) : result ir :=
  match stmt with
  | IRTrain s =>
    match GetModelKind s with
    | Ir.XGBoost => s ← xgb_InitializeAttributes s; Ok (IRTrain s)
    | KMeans => s ← InitializeKMeansAttributes s; Ok (IRTrain s)
    | TensorFlow => s ← tf_InitializeAttributes s; Ok (IRTrain s)
    end
  | IROptimize s => s ← optimize_InitializeAttributes s; Ok (IROptimize s)
  | s => Ok s
  end.

(** A statement of no known kind gives a nil statement, on which the next call panics; an
    explanation and the like get [connStr], [cwd] and the flag of the executor. *)
Definition generate_ir (train : SQLFlowSelectStmt → result (TrainStmt FieldDesc)) (connStr cwd : string)
    (fromModel : bool) (unknown : result ir) (sql : SQLFlowStmt) : result ir :=
  match select sql with
  | None => Ok (IRNormal (Original sql))
  | Some s =>
    if Train s then r ← train s; Ok (IRTrain r)
    else if ShowTrain s then r ← GenerateShowTrainStmt s; Ok (IRShowTrain r)
    else if Explain s then r ← GenerateExplainStmt s connStr cwd fromModel; Ok (IRExplain r)
    else if Predict s then r ← GeneratePredictStmt s connStr cwd fromModel; Ok (IRPredict r)
    else if Evaluate s then r ← GenerateEvaluateStmt s connStr cwd fromModel; Ok (IREvaluate r)
    else if Optimize s then r ← GenerateOptimizeStmt s; Ok (IROptimize r)
    else if Syntax.Run s then r ← GenerateRunStmt s; Ok (IRRun r)
    else unknown
  end.

Definition legacyGenerateIRStatement (sql : SQLFlowStmt) (connStr cwd : string) (generateTrainStmtFromModel : bool)
    : result ir :=
  generate_ir (λ s, GenerateTrainStmtWithInferredColumns s connStr cwd generateTrainStmtFromModel true)
    connStr cwd generateTrainStmtFromModel Panic sql.
(** go/codegen/experimental/parse_to_ir.go *)
Definition GenerateIRStatement (sql : SQLFlowStmt) (connStr : string) : result ir :=
  generate_ir GenerateTrainStmt connStr "" false Panic sql.

Definition ResolveSQLProgram (sqlStmts : list SQLFlowStmt) : result (list ir) :=
  mapR (λ sql,
      r ← generate_ir GenerateTrainStmt "" "" false (Fail (Errorf "unknown extended SQL statement type" [])) sql;
      Ok (SetOriginalSQL (Original sql) r)) sqlStmts.
(** go/codegen/experimental/parse_to_ir.go *)
Definition parseToIR (sqlProgram connStr : string) : result (list ir) :=
  sqlProgram ← RemoveCommentInSQLStatement sqlProgram;
  match Split connStr "://" with
  | [dbDriver; _] =>
    stmts ← Parse dbDriver sqlProgram;
    sqls ← RewriteStatementsWithHints stmts dbDriver;
    mapR (λ sql,
      r ← GenerateIRStatement sql connStr;
      r ← initializeAndCheckAttributes r;
      Ok (SetOriginalSQL (Original sql) r)) sqls
  | _ => Fail (Errorf "invalid database connection string %s" [connStr])
  end.
End compile.

(** ** Executors *)

Inductive executor_kind := PythonExecutor | PaiExecutor | PaiLocalExecutor | AlisaExecutor | AlpsExecutor.

(** [env]: the variable SQLFLOW_submitter. *)
Definition New_executor (executor env : string) : executor_kind :=
  let executor := if decide (executor = ""%string) then env else executor in
  if decide (executor = "pai"%string) then PaiExecutor
  else if decide (executor = "pai_local"%string) then PaiLocalExecutor
  else if decide (executor = "alisa"%string) then AlisaExecutor
  else if decide (executor = "alps"%string) then AlpsExecutor
  else PythonExecutor.
(** Only the executors of alisa and PAI have a method of their own; that of pai_local is Python's. *)
Definition GetTrainStmtFromModel (k : executor_kind) : bool :=
  match k with PaiExecutor | AlisaExecutor => false | _ => true end.

(** [env]: the variable SQLFLOW_USE_EXPERIMENTAL_CODEGEN. *)
Definition UseExperimentalExecutor (env dbConnStr : string) : result bool :=
  if negb (bool_decide (env = "true"%string)) then Ok false else
  '(dialect, _) ← ParseURL dbConnStr;
  Ok (negb (bool_decide (dialect = "alisa"%string))).

(** The methods of an executor that has been set up with the session and a directory. *)
Record Executor (D : Type) := mkExecutor {
  ExecuteQuery : string → st D unit;
  ExecuteTrain : TrainStmt FieldDesc → st D unit;
  ExecutePredict : PredictStmt FieldDesc → st D unit;
  ExecuteExplain : ExplainStmt FieldDesc → st D unit;
  ExecuteEvaluate : EvaluateStmt FieldDesc → st D unit;
  ExecuteOptimize : OptimizeStmt FieldDesc → st D unit;
  ExecuteRun : RunStmt → st D unit;
  ExecuteShowTrain : ShowTrainStmt → st D unit;
  (** Runs the code of the experimental generator. *)
  ExperimentalExecute : ir → st D unit
}.
Arguments ExecuteQuery {D}.
Arguments ExecuteTrain {D}.
Arguments ExecutePredict {D}.
Arguments ExecuteExplain {D}.
Arguments ExecuteEvaluate {D}.
Arguments ExecuteOptimize {D}.
Arguments ExecuteRun {D}.
Arguments ExecuteShowTrain {D}.
Arguments ExperimentalExecute {D}.

Class RunWorld (D : Type) `{Session D} := {
  executor_of : executor_kind → string → Executor D;   (* the executor, set up in a directory *)
  TempDir : st D string;
  RemoveAll : string → st D unit;
  UnixNano : st D Z;
  Getenv : string → string
}.

Section run.
Context `{UnicodeTables} `{GoRegexp} `{MapOrder} `{SortSlice} `{External} `{Services} `{ColumnText} `{CodegenEnv} `{RunWorld D}.
Variable (DbConnStr Submitter : string).

Definition use_experimental : result bool :=
  UseExperimentalExecutor (Getenv "SQLFLOW_USE_EXPERIMENTAL_CODEGEN") DbConnStr.

Definition Run (it : Executor D) (stmt : ir) : st D unit :=
  ok ← lift use_experimental;
  if ok : bool then ExperimentalExecute it stmt else
  match stmt with
  | IRTrain s => ExecuteTrain it s
  | IRPredict s => ExecutePredict it s
  | IRExplain s => ExecuteExplain it s
  | IREvaluate s => ExecuteEvaluate it s
  | IROptimize s => ExecuteOptimize it s
  | IRRun s => ExecuteRun it s
  | IRNormal s => ExecuteQuery it s
  | IRShowTrain s => ExecuteShowTrain it s
  end.

Definition run_in (sql : SQLFlowStmt) (cwd : string) : st D unit :=
  let k := New_executor Submitter (Getenv "SQLFLOW_submitter") in
  experimental ← lift use_experimental;
  r ← lift (if experimental : bool then GenerateIRStatement sql DbConnStr
            else legacyGenerateIRStatement sql DbConnStr cwd (GetTrainStmtFromModel k));
  r ← lift (initializeAndCheckAttributes r);
  Run (executor_of k cwd) (SetOriginalSQL (Original sql) r).

(** The deferred functions run in reverse: the directory is removed first, and the error of
    that becomes the result; then [EndOfExecution] is written if the result is an error.  A
    panic runs them and goes on. *)
Definition remove_dir (cwd : string) (m : st D unit) : st D unit := λ d,
  let '(r, d) := m d in
  match RemoveAll cwd d with
  | (Fail e, d) =>
    (match r with
     | Panic | NoFuel => r
     | _ => Fail (Errorf "encounter an error when removing temp files: %v" [err_format e])
     end, d)
  | (_, d) => (r, d)
  end.
Definition write_end (startTime : Z) (sql : SQLFlowStmt) (m : st D unit) : st D unit := λ d,
  match m d with
  | (Fail e, d) =>
    (Fail e, ((now ← UnixNano; WriteItem (MEndOfExecution startTime now (Original sql))) d).2)
  | r => r
  end.
Definition run_in_dir (sql : SQLFlowStmt) : st D unit := cwd ← TempDir; remove_dir cwd (run_in sql cwd).
Definition runSingleSQLFlowStatement (sql : SQLFlowStmt) : st D unit :=
  startTime ← UnixNano; write_end startTime sql (run_in_dir sql).

Definition statements_of (sqlProgram driver : string) : result (list SQLFlowStmt) :=
  sqlProgram ← RemoveCommentInSQLStatement sqlProgram;
  stmts ← Parse driver sqlProgram;
  RewriteStatementsWithHints stmts driver.
Definition runSQLProgram (sqlProgram driver : string) : st D unit :=
  sqls ← lift (statements_of sqlProgram driver);
  eachS runSingleSQLFlowStatement sqls.

(** [open]: connecting to the database, which gives the driver's name. *)
Definition RunSQLProgram (open : st D string) (sqlProgram : string) : st D unit :=
  r ← attempt open;
  match r with
  | inr e => WriteItem (MError (Errorf "create DB failed: %v" [err_format e]))
  | inl driver =>
    r ← attempt (runSQLProgram sqlProgram driver);
    match r with
    | inr e => attempt (WriteItem (MError (Errorf "runSQLProgram error: %v" [err_format e]))) ≫= λ _, mret tt
    | inl _ => mret tt
    end
  end.

(** ** What the client learns of a program that fails *)

Context `{!PipeLog D}.

(** A pipe that takes everything and a clock. *)
Definition open_pipe : Prop := ∀ m d, is_ok (WriteItem m d).1 = true.
Definition clock_works : Prop := ∀ d, ∃ t d', UnixNano d = (Ok t, d') ∧ items d' = items d.
(** A statement that ended well: the clock is read and nothing is added to what it wrote. *)
Definition run_quietly (sql : SQLFlowStmt) : st D unit := _ ← UnixNano; run_in_dir sql.

Lemma WriteItem_open m d : open_pipe → ∃ d', WriteItem m d = (Ok tt, d') ∧ items d' = items d ++ [m].
Proof.
  intros Ho. destruct (write_logs m d) as (r & d' & Hw & _ & Hi). pose proof (Ho m d) as Hok.
  rewrite Hw in *. destruct r as [[]|e| |]; try done. by exists d'.
Qed.

(** The three ways in which a statement ends. *)
Lemma run_single_cases sql d r d' :
  open_pipe → clock_works → runSingleSQLFlowStatement sql d = (r, d') →
  r = Ok tt ∧ run_quietly sql d = (Ok tt, d') ∨
  (∃ e d1 t1 t2, r = Fail e ∧ run_quietly sql d = (Fail e, d1) ∧
     items d' = items d1 ++ [MEndOfExecution t1 t2 (Original sql)]) ∨
  (¬ fine r).
Proof.
  intros Ho Hc. unfold runSingleSQLFlowStatement, run_quietly, write_end.
  destruct (Hc d) as (t1 & d0 & Hn1 & _). rewrite !(st_bind_run UnixNano _ d t1 d0 Hn1).
  destruct (run_in_dir sql d0) as [[[]|e| |] d1]; intros [= <- <-]; [by left| |by right; right; intros []..].
  right. left. destruct (Hc d1) as (t2 & d2 & Hn2 & Hi2). unfold mbind, st_bind. rewrite Hn2.
  destruct (WriteItem_open (MEndOfExecution t1 t2 (Original sql)) d2 Ho) as (d3 & -> & Hi3).
  exists e, d1, t1, t2. split_and!; try done. cbn. by rewrite Hi3, Hi2.
Qed.

(** The statements run in order, up to the first that fails. *)
Lemma run_all_cases sqls d r d' :
  open_pipe → clock_works → eachS runSingleSQLFlowStatement sqls d = (r, d') →
  r = Ok tt ∧ eachS run_quietly sqls d = (Ok tt, d') ∨
  (∃ n sql e d0 d1 t1 t2, r = Fail e ∧ sqls !! n = Some sql ∧ eachS run_quietly (take n sqls) d = (Ok tt, d0) ∧
     run_quietly sql d0 = (Fail e, d1) ∧ items d' = items d1 ++ [MEndOfExecution t1 t2 (Original sql)]) ∨
  (¬ fine r).
Proof.
  intros Ho Hc. revert d. induction sqls as [|sql sqls IH]; intros d; cbn [eachS]; [intros [= <- <-]; by left|].
  destruct (runSingleSQLFlowStatement sql d) as [r1 d1] eqn:Hn1. unfold mbind at 1, st_bind at 1. rewrite Hn1.
  apply run_single_cases in Hn1 as [[-> Hq]|[(e & d2 & t1 & t2 & -> & Hq & Hi)|Hp]]; try done.
  - intros [[-> Ha]|[(n & sql' & e & d0 & d2 & t1 & t2 & -> & Hn & Ht & Hs & Hi)|Hp]]%IH.
    + left. split; [done|]. by rewrite (st_bind_run _ _ _ _ _ Hq).
    + right. left. exists (S n), sql', e, d0, d2, t1, t2. split_and!; try done. cbn [take eachS].
      by rewrite (st_bind_run _ _ _ _ _ Hq).
    + by right; right.
  - intros [= <- <-]. right. left. by exists 0%nat, sql, e, d, d2, t1, t2.
  - destruct r1; try by destruct Hp. all: intros [= <- <-]; by right; right.
Qed.

(** C6: Running a program, with a database that opens and a pipe that takes everything: either
    all of its statements ran, in order, and nothing was added to what they wrote (so no
    [EndOfExecution] comes); or no statement ran, and the pipe got the error of the parser; or
    the statements before one ran well, that one failed, none after it ran, and the pipe got
    its [EndOfExecution] and then the error.  The function itself never returns an error. *)
Theorem RunSQLProgram_reports (open : st D string) (sqlProgram driver : string) (d d0 d' : D) (r : result unit) :
  open_pipe → clock_works → open d = (Ok driver, d0) → RunSQLProgram open sqlProgram d = (r, d') → fine r →
  r = Ok tt ∧
  match statements_of sqlProgram driver with
  | Ok sqls =>
    eachS run_quietly sqls d0 = (Ok tt, d') ∨
    ∃ n sql e d1 d2 t1 t2, sqls !! n = Some sql ∧ eachS run_quietly (take n sqls) d0 = (Ok tt, d1) ∧
      run_quietly sql d1 = (Fail e, d2) ∧
      items d' = items d2 ++ [MEndOfExecution t1 t2 (Original sql);
                              MError (Errorf "runSQLProgram error: %v" [err_format e])]
  | Fail e => items d' = items d0 ++ [MError (Errorf "runSQLProgram error: %v" [err_format e])]
  | _ => False
  end.
Proof.
  intros Ho Hc Hop Hr Hf. unfold RunSQLProgram in Hr.
  rewrite (st_bind_run _ _ _ (inl driver) d0) in Hr by (unfold attempt; by rewrite Hop).
  unfold runSQLProgram in Hr. destruct (statements_of sqlProgram driver) as [sqls|e| |].
  - destruct (eachS runSingleSQLFlowStatement sqls d0) as [r1 d1] eqn:Hn1.
    unfold mbind at 1, st_bind at 1, attempt at 1 in Hr. rewrite (st_bind_run (lift (Ok sqls)) _ _ sqls d0) in Hr by done.
    rewrite Hn1 in Hr. apply run_all_cases in Hn1; [|done..].
    destruct Hn1 as [[-> Hq]|[(n & sql & e & d2 & d3 & t1 & t2 & -> & Hn & Ht & Hs & Hi)|Hp]].
    + injection Hr as <- <-. split; [done|]. by left.
    + destruct (WriteItem_open (MError (Errorf "runSQLProgram error: %v" [err_format e])) d1 Ho) as (d4 & Hw & Hi4).
      rewrite (st_bind_run _ _ _ (inl tt) d4) in Hr by (unfold attempt; by rewrite Hw). injection Hr as <- <-.
      split; [done|]. right. exists n, sql, e, d2, d3, t1, t2. split_and!; try done. by rewrite Hi4, Hi, <- app_assoc.
    + destruct r1; try by destruct Hp. all: injection Hr as <- <-; by destruct Hf.
  - unfold mbind at 1, st_bind at 1, attempt at 1 in Hr. rewrite (st_bind_fail (lift (Fail e)) _ _ e d0) in Hr by done.
    destruct (WriteItem_open (MError (Errorf "runSQLProgram error: %v" [err_format e])) d0 Ho) as (d4 & Hw & Hi4).
    rewrite (st_bind_run _ _ _ (inl tt) d4) in Hr by (unfold attempt; by rewrite Hw). by injection Hr as <- <-.
  - injection Hr as <- <-. by destruct Hf.
  - injection Hr as <- <-. by destruct Hf.
Qed.
End run.

(** ** A program of two statements, the second of which cannot be trained *)

#[local] Existing Instances demo_external demo_services word_regexp insertion_slice.
#[local] Instance no_columns : ColumnText := {| pointer_text _ := "&{}"%string; pointer_json _ := Ok "{}"%string |}.
#[local] Instance no_models : CodegenEnv := {| PremadeModelParamsDocs := ∅; XGBoostObjectiveDocs := ∅; SQLFLOW_submitter := "" |}.

Definition demo_hints : list SQLFlowStmt :=
  [mkSQLFlowStmt false "-- a
 SET x=1;" None [] []; mkSQLFlowStmt false "SELECT 1;" None [] []].

Lemma hints_moved_witness :
  RewriteStatementsWithHints demo_hints "alisa" =
    Ok (map (with_hints (hint_text "alisa" demo_hints)) (filter (λ s, hint_in "alisa" s = false) demo_hints)) ∧
  RewriteStatementsWithHints demo_hints "mysql" = Ok demo_hints.
Proof.
  split; [apply (hints_moved "alisa" demo_hints)|]. by apply (hints_moved "mysql" demo_hints).
Defined.

Definition failing_executor : Executor (list message) :=
  let no {X} (_ : X) : st (list message) unit := fail (Errorf "no python" []) in
  mkExecutor _ runNormalStmt no no no no no no no no.
#[local] Instance message_world : RunWorld (list message) := {|
  executor_of _ _ := failing_executor;
  TempDir d := (Ok "/tmp/sqlflow_models1"%string, d);
  RemoveAll _ d := (Ok tt, d);
  UnixNano d := (Ok (Z.of_nat (length d)), d);
  Getenv _ := ""%string
|}.

Lemma RunSQLProgram_reports_witness :
  ∃ n sql d1 d2 e t1 t2, n = 1%nat ∧ run_quietly "mysql://x" "" sql d1 = (Fail e, d2) ∧
    (RunSQLProgram "mysql://x" "" (λ d, (Ok "mysql"%string, d)) toy_program []).2 =
    d2 ++ [MEndOfExecution t1 t2 (Original sql); MError (Errorf "runSQLProgram error: %v" [err_format e])].
Proof.
  destruct (RunSQLProgram "mysql://x" "" (λ d, (Ok "mysql"%string, d)) toy_program []) as [r d'] eqn:Hr.
  destruct (RunSQLProgram_reports "mysql://x" "" (λ d, (Ok "mysql"%string, d)) toy_program "mysql" [] [] d' r)
    as [-> Hs].
  - by intros m d.
  - intros d. exists (Z.of_nat (length d)), d. split; reflexivity.
  - reflexivity.
  - exact Hr.
  - vm_compute in Hr. injection Hr as <- _. done.
  - destruct (statements_of toy_program "mysql") as [sqls| | |] eqn:Hst; [|vm_compute in Hst; discriminate Hst..].
    vm_compute in Hst. injection Hst as <-. destruct Hs as [Hs|Hs].
    + vm_compute in Hs. discriminate Hs.
    + destruct Hs as (n & sql & e & d1 & d2 & t1 & t2 & Hn & Ht & Hq & Hi). exists n, sql, d1, d2, e, t1, t2.
      destruct n as [|[|n]].
      * injection Hn as <-. injection Ht as <-. vm_compute in Hq. discriminate Hq.
      * split; [reflexivity|]. split; [exact Hq|exact Hi].
      * discriminate Hn.
Defined.
