(* ===== verification/Workflow.v ===== *)
(** * Workflows (go/workflow/couler/codegen.go and katib.go, go/workflow/workflow.go)

    Each statement of a program becomes a step of a workflow: a Python program for couler,
    printed by a template, runs a container for each step, whose command gets the statement as
    an argument.  The statement is escaped for the two languages that read it on its way. *)

From S2P Require Import Prelude GoStrings GoState GoFloat FeatureColumn Lexer Syntax Comments SqlParser Attribute.
From S2P Require Import Verifier Ir IRParse Regexp FieldInfer Derivation ColumnCode AttrInit XgbCode IRGenerator NormalStmt Program Shell.
From S2P Require Import Template TemplateText TemplateTypes Fillers.

Local Open Scope Z_scope.

(** ** Escaping a statement *)

Definition escapeStepSQL (sql : string) : string :=
  let sql := ReplaceAll sql (char1 chr_bs) (String chr_bs (String chr_bs (char1 chr_bs))) in
  let sql := ReplaceAll sql (char1 chr_dq) (String chr_bs (String chr_bs (String chr_bs (char1 chr_dq)))) in
  let sql := ReplaceAll sql (char1 chr_bt) (String chr_bs (char1 chr_bt)) in
  ReplaceAll sql "$" (String chr_bs "$").

(** ** What the template is filled with *)

Record sqlStatement := mkSqlStatement {
  ss_OriginalSQL : string; IsExtendedSQL : bool; DockerImage : string; ss_Select : string; ss_Model : string;
  ss_Parameters : string; IsKatibTrain : bool; ss_Into : string
}.
Record Filler := mkFiller {
  f_DataSource : string; SQLStatements : list sqlStatement; SQLFlowSubmitter : string; StepEnvs : gmap string string;
  WorkflowTTL : Z; SecretName : string; SecretData : string; Resources : string; ClusterConfigFn : string;
  StepLogFile : string; UseCoulerSubmitter : bool; CoulerServerAddr : string; CoulerCluster : string
}.

(** The structure as the template sees it; CreateTmpTable and SQLFlowOSSDir are never set. *)
Definition statement_data (x : sqlStatement) : data := DStruct
  [("OriginalSQL", text (ss_OriginalSQL x)); ("IsExtendedSQL", truth (IsExtendedSQL x)); ("DockerImage", text (DockerImage x));
   ("CreateTmpTable", truth false); ("Select", text (ss_Select x)); ("Model", text (ss_Model x)); ("Parameters", text (ss_Parameters x));
   ("IsKatibTrain", truth (IsKatibTrain x)); ("Into", text (ss_Into x))]%string.
Definition filler_data (r : Filler) : data := DStruct
  [("DataSource", text (f_DataSource r)); ("SQLStatements", DList (map statement_data (SQLStatements r)));
   ("SQLFlowSubmitter", text (SQLFlowSubmitter r)); ("SQLFlowOSSDir", text ""); ("StepEnvs", map_of text (StepEnvs r));
   ("WorkflowTTL", number (WorkflowTTL r)); ("SecretName", text (SecretName r)); ("SecretData", text (SecretData r));
   ("Resources", text (Resources r)); ("ClusterConfigFn", text (ClusterConfigFn r)); ("StepLogFile", text (StepLogFile r));
   ("UseCoulerSubmitter", truth (UseCoulerSubmitter r)); ("CoulerServerAddr", text (CoulerServerAddr r));
   ("CoulerCluster", text (CoulerCluster r))]%string.
(** [coulerTemplate.Execute] *)
Definition couler_text `{ColumnText} (r : Filler) : result string := execute coulerTemplateText (filler_data r).

Definition statement_ty : ty := TStruct
  [("OriginalSQL", TLong); ("IsExtendedSQL", TPlain); ("DockerImage", TName); ("CreateTmpTable", TPlain); ("Select", TLong);
   ("Model", TName); ("Parameters", TLong); ("IsKatibTrain", TPlain); ("Into", TName)]%string.
Definition filler_ty : ty := TStruct
  [("DataSource", TName); ("SQLStatements", TList statement_ty); ("SQLFlowSubmitter", TName); ("SQLFlowOSSDir", TName);
   ("StepEnvs", TMap TLong); ("WorkflowTTL", TPlain); ("SecretName", TName); ("SecretData", TLong); ("Resources", TLong);
   ("ClusterConfigFn", TName); ("StepLogFile", TName); ("UseCoulerSubmitter", TPlain); ("CoulerServerAddr", TName);
   ("CoulerCluster", TName)]%string.
Lemma couler_checked : check_template coulerTemplateText filler_ty = true.
Proof. vm_compute. reflexivity. Qed.
(** The template prints a program whatever the steps are. *)
Lemma couler_text_total `{ColumnText} (r : Filler) : ∃ program, couler_text r = Ok program.
Proof.
  destruct (template_sound false _ _ (filler_data r) couler_checked) as (gs & Hgs & _).
  - repeat split; try done; [|by apply typed_map_of]. apply Forall_map, Forall_true. intros x. by repeat split.
  - exists (program_of gs). unfold couler_text, execute. by rewrite Hgs.
Qed.

(** A YAML document, as far as the program looks into it. *)
Inductive yaml := YMap (l : list (string * yaml)) | YText (s : string) | YOther (s : string).

(** The environment, package encoding/json, and what runs and reads the program. *)
Class WorkflowEnv := {
  os_Environ : list string;
  wf_Getenv : string → string;
  is_json_object : string → bool;                                          (* json.Unmarshal into a map *)
  secret_of : string → result (gmap string (gmap string string));
  run_python : string → result string;                                     (* a file with the program, and python on it *)
  yaml_Unmarshal : string → result (list (string * yaml));
  yaml_Marshal : list (string * yaml) → result string
}.

Section couler.
Context `{UnicodeTables} `{MapOrder} `{ColumnText} `{WorkflowEnv}.

Definition fillMapIfValueNotEmpty (m : gmap string string) (kv : string * string) : gmap string string :=
  if decide (kv.2 = ""%string) then m else <[kv.1 := kv.2]> m.
(** The password variable gets the user. *)
Definition session_envs (s : pb_Session) : list (string * string) :=
  [("SQLFLOW_USER_TOKEN", Token s); ("SQLFLOW_DATASOURCE", DbConnStr s); ("SQLFLOW_USER_ID", UserId s);
   ("SQLFLOW_HIVE_LOCATION", HiveLocation s); ("SQLFLOW_HDFS_NAMENODE_ADDR", HdfsNamenodeAddr s);
   ("SQLFLOW_HADOOP_USER", HdfsUser s); ("SQLFLOW_HADOOP_PASS", HdfsUser s); ("SQLFLOW_submitter", Submitter s)]%string.
Definition fillEnvFromSession (envs : gmap string string) (s : pb_Session) : gmap string string :=
  foldl fillMapIfValueNotEmpty envs (session_envs s).
Definition add_env (envs : gmap string string) (env : string) : result (gmap string string) :=
  match SplitN2 env "=" with
  | [k; v] => Ok (if HasPrefix k "SQLFLOW_" && negb (HasPrefix k "SQLFLOW_WORKFLOW_") then <[k := v]> envs else envs)
  | _ => Fail (Errorf "env: %s should format key=value" [env])
  end.
Definition GetStepEnvs (s : pb_Session) : result (gmap string string) :=
  envs ← foldM add_env ∅ os_Environ; Ok (fillEnvFromSession envs s).

Definition envResource : string := "SQLFLOW_WORKFLOW_RESOURCES".
Definition VerifyResources (resources : string) : result unit :=
  if bool_decide (resources = ""%string) || is_json_object resources then Ok tt
  else Fail (Errorf "%s: %s should be JSON format" [envResource; resources]).
Definition GetSecret : result (string * string) :=
  let secretCfg := wf_Getenv "SQLFLOW_WORKFLOW_SECRET" in
  if decide (secretCfg = ""%string) then Ok (""%string, ""%string) else
  secretMap ← secret_of secretCfg;
  match map_to_list secretMap with
  | [(name, data)] => value ← json_map (λ v, Ok (json_string v)) data; Ok (name, value)
  | _ => Fail (Errorf "SQLFLOW_WORKFLOW_SECRET should be a json string, e.g. {name: {key: value, ...}}" [])
  end.
(** The variable keeps its default, 24 hours, if the environment has none. *)
Definition workflow_ttl : result Z :=
  let ttl := wf_Getenv "SQLFLOW_WORKFLOW_TTL" in
  if decide (ttl = ""%string) then Ok (24 * 3600)
  else match Atoi ttl with Some z => Ok z | None => Fail (Errorf "SQLFLOW_WORKFLOW_TTL: %s should be int" [ttl]) end.

(** *** Katib (katib.go) *)

Definition katib_declarations : result Dictionary :=
  d ← Dict_Float "eta" (VFloat (float32_scaled false 3 10 (-1)))
        (doc_lines ["[default=0.3, alias: learning_rate]";
          "Step size shrinkage used in update to prevents overfitting. After each boosting step, we can directly get the weights of new features, and eta shrinks the feature weights to make the boosting process more conservative.";
          "range: [0,1]"]) (Some (Float32RangeChecker (float32_of_Z 0) (float32_of_Z 1) true true)) ∅;
  d ← Dict_Int "num_class" VNil (doc_lines ["Number of classes."; "range: [2, Infinity]"]) (at_least 2) d;
  d ← Dict_String "objective" VNil "Learning objective" None d;
  d ← Dict_IntList "range.num_round" VNil "[ default=[50, 100] ] The range of number of rounds for boosting." None d;
  d ← Dict_IntList "range.max_depth" VNil "[ default=[2, 8] ] The range of max depth during training." None d;
  Dict_String "validation.select" VNil
    (doc_lines [("[default=" +:+ quoted "" +:+ "]")%string; "Specify the dataset for validation.";
                ("example: " +:+ quoted "SELECT * FROM boston.train LIMIT 8")%string]) None d.
Definition katibAttributes : Dictionary := declared_or_empty katib_declarations.

Definition resolveModelType (estimator : string) : result (string * string) :=
  let e := ToUpper estimator in
  if decide (e = "XGBOOST.GBTREE"%string) then Ok ("xgboost", "gbtree")%string
  else if decide (e = "XGBOOST.GBLINEAR"%string) then Ok ("xgboost", "gblinear")%string
  else if decide (e = "XGBOOST.DART"%string) then Ok ("xgboost", "dart")%string
  else Fail (Errorf "unsupported model name %v, currently supports xgboost.gbtree, xgboost.gblinear, xgboost.dart" [estimator]).
Definition katib_parseAttribute (a : attrs) : result attrs :=
  a ← validated katibAttributes a;
  Ok (list_to_map (map (λ '(k, v), (str_drop 6 k, v)) (filter (λ kv, HasPrefix kv.1 "range." = true) (range_map a)))).
Definition ParseKatibSQL (t : TrainStmt FieldDesc) : result sqlStatement :=
  params ← katib_parseAttribute (t_Attributes t);
  '(model, booster) ← resolveModelType (t_Estimator t);
  hps ← json_map json_attr (<["booster"%string := VString booster]> params);
  Ok (mkSqlStatement (t_OriginalSQL t) false "" "" model hps true "").

(** *** The steps *)

Definition plain_step (sql : string) (i : IRStmt FieldDesc) (image slct into : string) : sqlStatement :=
  mkSqlStatement sql (IsExtended i) image slct "" "" false into.
(** The image of the training is used if it has one, that of a program TO RUN in any case. *)
Definition step_of (submitter defaultDockerImage : string) (i : IRStmt FieldDesc) : result sqlStatement :=
  let escapedSQL := escapeStepSQL (GetOriginalSQL i) in
  match i with
  | IRTrain t =>
    if decide (submitter = "katib"%string) then
      catch (ParseKatibSQL t) (λ _, Fail (Errorf "Fail to parse Katib train statement %s" [t_OriginalSQL t]))
    else Ok (plain_step escapedSQL i (if decide (ModelImage t = ""%string) then defaultDockerImage else ModelImage t) "" "")
  | IRRun r => Ok (plain_step escapedSQL i (r_ImageName r) (r_Select r) (r_Into r))
  | _ => Ok (plain_step escapedSQL i defaultDockerImage "" "")
  end.
Definition or_default (s d : string) : string := if decide (s = ""%string) then d else s.
(** The submitter of the filler is never set. *)
Definition GenFiller (programIR : list (IRStmt FieldDesc)) (s : pb_Session) (useCoulerSubmitter : bool) : result Filler :=
  stepEnvs ← GetStepEnvs s;
  ttl ← workflow_ttl;
  '(secretName, secretData) ← GetSecret;
  VerifyResources (wf_Getenv envResource) ≫= λ _,
  let submitter := ""%string in
  let image := or_default (wf_Getenv "SQLFLOW_WORKFLOW_STEP_IMAGE") "sqlflow/sqlflow" in
  let addr := if useCoulerSubmitter then wf_Getenv "SQLFLOW_COULER_SERVER_ADDR" else ""%string in
  let cluster := if useCoulerSubmitter then wf_Getenv "SQLFLOW_COULER_CLUSTER" else ""%string in
  if useCoulerSubmitter && bool_decide (addr = "" ∨ cluster = "")%string then
    Fail (Errorf "must config SQLFLOW_COULER_SERVER_ADDR and SQLFLOW_COULER_CLUSTER when useCoulerSubmitter" [])
  else
    steps ← mapR (step_of submitter image) programIR;
    Ok (mkFiller (DbConnStr s) steps submitter stepEnvs ttl secretName secretData (wf_Getenv envResource)
          (wf_Getenv "SQLFLOW_WORKFLOW_CLUSTER_CONFIG") (wf_Getenv "SQLFLOW_WORKFLOW_STEP_LOG_FILE") useCoulerSubmitter addr cluster).
Definition GenCode (programIR : list (IRStmt FieldDesc)) (s : pb_Session) (useCoulerSubmitter : bool) : result string :=
  r ← GenFiller programIR s useCoulerSubmitter; couler_text r.
Definition GenYAML (coulerProgram : string) : result string := run_python coulerProgram.
End couler.

(** ** workflow.go *)

(** [m[k] = v] on the mapping of a key, if it is one. *)
Fixpoint set_key (k : string) (v : yaml) (l : list (string * yaml)) : list (string * yaml) :=
  match l with
  | [] => [(k, v)]
  | (k', v') :: l => if decide (k' = k) then (k, v) :: l else (k', v') :: set_key k v l
  end.
Definition get_key (k : string) (l : list (string * yaml)) : option yaml :=
  snd <$> List.find (λ kv, bool_decide (kv.1 = k)) l.
Definition set_in (section key value what : string) (obj : list (string * yaml)) : result (list (string * yaml)) :=
  if decide (value = ""%string) then Ok obj else
  match get_key section obj with
  | Some (YMap m) => Ok (set_key section (YMap (set_key key (YText value) m)) obj)
  | _ => Fail (Errorf ("Can not parse workflow " +:+ what) [])
  end.

Section compile.
Context `{UnicodeTables} `{GoRegexp} `{MapOrder} `{SortSlice} `{External} `{Services} `{ColumnText} `{CodegenEnv} `{WorkflowEnv}.

Definition program_ir (sqlProgram : string) (s : pb_Session) : result (list (IRStmt FieldDesc)) :=
  '(driverName, _) ← ParseURL (DbConnStr s);
  stmts ← Parse driverName sqlProgram;
  sqls ← RewriteStatementsWithHints stmts driverName;
  ResolveSQLProgram sqls.
Definition CompileToYAML (sqlProgram : string) (s : pb_Session) : result string :=
  spIRs ← program_ir sqlProgram s;
  py ← GenCode spIRs s false;
  yamlStr ← GenYAML py;
  obj ← yaml_Unmarshal yamlStr;
  obj ← set_in "metadata" "namespace" (WfNamespace s) "metadata" obj;
  obj ← set_in "spec" "serviceAccountName" (ServiceAccount s) "spec" obj;
  yaml_Marshal obj.
Definition CompileToCoulerSubmitCode (sqlProgram : string) (s : pb_Session) : result string :=
  spIRs ← program_ir sqlProgram s; GenCode spIRs s true.
End compile.

(** ** The statement that a step gets

    A step's command is  step -e  with the statement between double quotation marks; in the
    Python program the statement stands between triple quotation marks. *)

Local Open Scope nat_scope.

Definition esc_char (c : ascii) : string :=
  if decide (c = chr_bs) then String chr_bs (String chr_bs (char1 chr_bs))
  else if decide (c = chr_dq) then String chr_bs (String chr_bs (String chr_bs (char1 chr_dq)))
  else if decide (c = chr_bt ∨ c = "$"%char) then String chr_bs (char1 c)
  else char1 c.
Notation esc := (map_chars esc_char).

Lemma escapeStepSQL_esc s : escapeStepSQL s = esc s.
Proof.
  unfold escapeStepSQL. change "$"%string with (char1 "$"). rewrite !ReplaceAll_char.
  induction s as [|c s IH]; [done|]. cbn [subst_char map_chars]. rewrite !subst_char_app, IH. f_equal. unfold esc_char.
  destruct (decide (c = chr_bs)) as [->|H1]; [by vm_compute|]. destruct (decide (c = chr_dq)) as [->|H2]; [by vm_compute|].
  cbn [subst_char char1]. rewrite decide_False by done. cbn [subst_char char1 String.append].
  destruct (decide (c = chr_bt)) as [->|H3]; [by vm_compute|]. cbn [subst_char char1 String.append].
  destruct (decide (c = "$"%char)) as [->|H4]; [by vm_compute|]. rewrite decide_False by (by intros [?|?]). done.
Qed.

(** Behind a backslash: no line end, no other special character, and no letter or digit of an
    escape of Python. *)
Definition after_backslash (d : ascii) : bool :=
  negb (bool_decide (d ∈ [chr_nl; chr_cr; chr_bs; "$"; chr_bt; "n"; "t"; "r"; "a"; "b"; "f"; "v"; "x"; "u"; "U"; "N";
                          "0"; "1"; "2"; "3"; "4"; "5"; "6"; "7"]%char)).
(** Three single quotation marks end the string of Python, as does one that stands last. *)
Fixpoint quotable (s : string) : bool :=
  match s with
  | EmptyString => true
  | String c s' =>
    if decide (c = chr_bs) then match s' with String d s => after_backslash d && quotable s | EmptyString => false end
    else if decide (c = chr_sq) then negb (HasPrefix s triple) && negb (bool_decide (s' = ""%string)) && quotable s'
    else negb (bool_decide (c = chr_cr)) && quotable s'
  end.

Lemma esc_char_plain c : c ≠ chr_bs → c ≠ chr_dq → c ≠ chr_bt → c ≠ "$"%char → esc_char c = char1 c.
Proof. intros. unfold esc_char. rewrite !decide_False; [done|by intros [?|?]|done..]. Qed.

Lemma esc_head c t : c ≠ chr_sq → HasPrefix (esc_char c +:+ t) (char1 chr_sq) = false.
Proof. intros Hc. unfold esc_char, char1. repeat case_match; cbn [String.append HasPrefix]; by rewrite decide_False. Qed.

Lemma py_not_closed s r : quotable (String chr_sq s) = true → HasPrefix (String chr_sq (esc s +:+ triple +:+ r)) triple = false.
Proof.
  cbn [quotable]. rewrite decide_False, decide_True by done. intros [[Ht Hne]%andb_true_iff Hq]%andb_true_iff.
  apply negb_true_iff in Ht. apply negb_true_iff, bool_decide_eq_false in Hne.
  apply map_chars_open; [done|exact esc_head|done|done|]. by intros ->.
Qed.

Lemma py_backslash d t : py_string (String chr_bs (String d t)) =
  (e ← py_escape d; '(v, rest) ← py_string t; Some (e +:+ v, rest)%string).
Proof. cbn [py_string]. rewrite HasPrefix_triple_head by done. by rewrite decide_True. Qed.
Lemma py_plain c t v r : c ≠ chr_bs → HasPrefix (String c t) triple = false → py_string t = Some (v, r) →
  py_string (String c t) = Some (String c v, r).
Proof. intros Hc Hp Ht. cbn [py_string]. rewrite Hp, decide_False by done. by rewrite Ht. Qed.
Lemma bash_backslash d t v r : bash_word t = Some (v, r) → bash_word (String chr_bs (String d t)) =
  Some (if decide (d = chr_nl) then v
        else if decide (d = "$"%char ∨ d = chr_bt ∨ d = chr_dq ∨ d = chr_bs) then String d v
        else String chr_bs (String d v), r).
Proof. intros Ht. cbn [bash_word]. rewrite decide_False, decide_True by done. by rewrite Ht. Qed.
Lemma bash_plain c t v r : c ≠ chr_bs → c ≠ chr_dq → c ≠ chr_bt → c ≠ "$"%char → bash_word t = Some (v, r) →
  bash_word (String c t) = Some (String c v, r).
Proof. intros ???? Ht. cbn [bash_word]. rewrite !decide_False by (done || by intros [?|?]). by rewrite Ht. Qed.

Lemma py_escape_other d : after_backslash d = true → d ≠ chr_dq → d ≠ chr_sq → py_escape d = Some (String chr_bs (char1 d)).
Proof.
  unfold after_backslash. intros Hd%negb_true_iff%bool_decide_eq_false Hq Hs. unfold py_escape.
  repeat (rewrite not_elem_of_cons in Hd). destruct_and! Hd.
  rewrite !decide_False; [done|..]; try done; [|by intros [?|[?|?]]]. intros Hin. by set_solver.
Qed.

(** What Python and then bash make of an escaped text. *)
Definition reads_back (t s : string) : Prop :=
  ∀ r1, ∃ v, py_string (t +:+ triple +:+ r1) = Some (v, r1) ∧ ∀ r2, bash_word (v +:+ String chr_dq r2) = Some (s, r2).

Lemma reads_plain c t s : c ≠ chr_bs → c ≠ chr_dq → c ≠ chr_bt → c ≠ "$"%char →
  (∀ r, HasPrefix (String c (t +:+ triple +:+ r)) triple = false) → reads_back t s → reads_back (String c t) (String c s).
Proof.
  intros H1 H2 H3 H4 Hp Hr r1. destruct (Hr r1) as (v & Hv & Hb). exists (String c v). split.
  - by apply py_plain.
  - intros r2. cbn [String.append]. by apply bash_plain.
Qed.

Lemma reads_special c t s : c ∈ [chr_dq; chr_bt; "$"%char] → reads_back t s → reads_back (esc_char c +:+ t) (String c s).
Proof.
  intros Hc Hr r1. destruct (Hr r1) as (v & Hv & Hb). exists (String chr_bs (String c v)). split.
  - rewrite <- str_app_assoc. set_unfold in Hc. destruct Hc as [->|[->|[->|[]]]].
    + change (esc_char chr_dq) with (String chr_bs (String chr_bs (String chr_bs (char1 chr_dq)))). cbn [String.append char1].
      by rewrite !py_backslash, Hv.
    + change (esc_char chr_bt) with (String chr_bs (char1 chr_bt)). cbn [String.append char1]. by rewrite !py_backslash, Hv.
    + change (esc_char "$"%char) with (String chr_bs (char1 "$")). cbn [String.append char1]. by rewrite !py_backslash, Hv.
  - intros r2. cbn [String.append]. rewrite (bash_backslash _ _ _ _ (Hb r2)). rewrite decide_False, decide_True; [done| |].
    + set_solver.
    + set_unfold in Hc. by destruct Hc as [->|[->|[->|[]]]].
Qed.

Lemma reads_backslash d t s : after_backslash d = true → reads_back t s →
  reads_back (esc_char chr_bs +:+ esc_char d +:+ t) (String chr_bs (String d s)).
Proof.
  intros Hd Hr r1. destruct (Hr r1) as (v & Hv & Hb).
  change (esc_char chr_bs) with (String chr_bs (String chr_bs (char1 chr_bs))). rewrite <- !str_app_assoc. cbn [String.append char1].
  assert (d ≠ chr_nl ∧ d ≠ chr_bs ∧ d ≠ chr_bt ∧ d ≠ "$"%char) as (Hd1 & Hd2 & Hd3 & Hd4).
  { unfold after_backslash in Hd. apply negb_true_iff, bool_decide_eq_false in Hd. set_solver. }
  rewrite py_backslash. destruct (decide (d = chr_dq)) as [->|Hq]; [|destruct (decide (d = chr_sq)) as [->|Hs]].
  - change (esc_char chr_dq) with (String chr_bs (String chr_bs (String chr_bs (char1 chr_dq)))). cbn [String.append char1].
    exists (String chr_bs (String chr_bs (String chr_bs (String chr_dq v)))). split.
    { assert (py_string (String chr_dq (t +:+ triple +:+ r1)) = Some (String chr_dq v, r1)) as Hdq
        by (by apply py_plain; [|apply HasPrefix_triple_head|]).
      by rewrite !py_backslash, Hdq. }
    intros r2. cbn [String.append]. by rewrite (bash_backslash _ _ _ _ (bash_backslash _ _ _ _ (Hb r2))).
  - rewrite esc_char_plain by done. cbn [String.append char1].
    exists (String chr_bs (String chr_sq v)). split; [by rewrite !py_backslash, Hv|].
    intros r2. cbn [String.append]. by rewrite (bash_backslash _ _ _ _ (Hb r2)).
  - rewrite esc_char_plain by done. cbn [String.append char1].
    exists (String chr_bs (String chr_bs (String d v))). split; [by rewrite !py_backslash, (py_escape_other d), Hv|].
    intros r2. cbn [String.append]. by rewrite (bash_backslash _ _ _ _ (bash_plain _ _ _ _ Hd2 Hq Hd3 Hd4 (Hb r2))).
Qed.

Lemma quotable_reads n s : str_len s ≤ n → quotable s = true → reads_back (esc s) s.
Proof.
  revert s. induction n as [|n IH]; intros s Hn Hq.
  { destruct s; [|cbn in Hn; lia]. intros r1. exists ""%string. split; [by destruct r1|]. intros r2. cbn [String.append bash_word]. by rewrite decide_True. }
  destruct s as [|c s]; [apply (IH ""%string); [cbn; lia|done]|]. cbn [quotable] in Hq. cbn in Hn.
  destruct (decide (c = chr_bs)) as [->|Hc1].
  { destruct s as [|d s]; [done|]. apply andb_true_iff in Hq as [Hd Hq]. cbn [map_chars].
    apply reads_backslash; [done|]. apply IH; [cbn in Hn; lia|done]. }
  destruct (decide (c = chr_sq)) as [->|Hc2].
  { change (esc (String chr_sq s)) with (String chr_sq (esc s)). pose proof Hq as Hq'.
    apply andb_true_iff in Hq as [_ Hq]. apply reads_plain; [done..| |by apply IH; [lia|]].
    intros r. apply py_not_closed. cbn [quotable]. by rewrite decide_False, decide_True. }
  apply andb_true_iff in Hq as [_ Hq].
  destruct (decide (c ∈ [chr_dq; chr_bt; "$"%char])) as [Hin|Hin].
  { cbn [map_chars]. apply reads_special; [done|]. apply IH; [lia|done]. }
  assert (c ≠ chr_dq ∧ c ≠ chr_bt ∧ c ≠ "$"%char) as (Hc3 & Hc4 & Hc5) by set_solver.
  cbn [map_chars]. rewrite esc_char_plain by done. cbn [String.append char1]. apply reads_plain; [done..| |apply IH; [lia|done]].
  intros r. by apply HasPrefix_triple_head.
Qed.

(** C10: a step of the workflow gets the statement it is for.  The escaped text that the template
    puts between triple quotation marks is a string of Python; its value, between double
    quotation marks, is a word of bash, and that word is the statement, for every statement in
    which a backslash stands in front of an ordinary character or a quotation mark, no three
    single quotation marks follow each other and none is last, and there is no carriage return;
    it may have quotation marks, dollar signs, backquotes and line ends. *)
Theorem step_gets_statement (sql rest1 rest2 : string) : quotable sql = true →
  ∃ v, py_string (escapeStepSQL sql +:+ triple +:+ rest1) = Some (v, rest1) ∧
       bash_word (v +:+ String chr_dq rest2) = Some (sql, rest2).
Proof.
  intros Hq. rewrite escapeStepSQL_esc. destruct (quotable_reads (str_len sql) sql ltac:(done) Hq rest1) as (v & Hv & Hb).
  exists v. split; [exact Hv|apply Hb].
Qed.

Definition demo_sql : string :=
  "SELECT " +:+ char1 chr_bt +:+ "a" +:+ char1 chr_bt +:+ ", '$x', " +:+ quoted "b" +:+ " FROM t WHERE c LIKE '" +:+
  char1 chr_bs +:+ "%_" +:+ char1 chr_bs +:+ "'' -- %'" +:+ char1 chr_nl +:+ ";".
Lemma step_gets_statement_witness :
  quotable demo_sql = true ∧
  ∃ v, py_string (escapeStepSQL demo_sql +:+ triple +:+ ", log") = Some (v, ", log"%string) ∧
       bash_word (v +:+ String chr_dq " 2>&1") = Some (demo_sql, " 2>&1"%string).
Proof.
  assert (quotable demo_sql = true) as Hq by (by vm_compute). split; [exact Hq|].
  apply (step_gets_statement demo_sql ", log" " 2>&1" Hq).
Defined.

(** What the step gets of a text that reads [a], a backslash, [c], [b]. *)
Definition step_text (c : ascii) : option string :=
  let sql := String "a" (String chr_bs (String c "b")) in
  '(v, _) ← py_string (escapeStepSQL sql +:+ triple); '(w, _) ← bash_word (v +:+ char1 chr_dq); Some w.
(** An escaped line end disappears, and behind a backslash a dollar sign or a backquote is
    expanded by the shell. *)
Example escaped_newline_lost : step_text "n" = Some "ab"%string.
Proof. by vm_compute. Qed.
Example dollar_expanded : step_text "$" = None ∧ step_text chr_bt = None.
Proof. by vm_compute. Qed.

(** ** The environment of the steps *)

Section envs.
Context `{WorkflowEnv}.

(** The value that the variable [k] has in the environment: of several the last one. *)
Definition value_in (k env : string) : option string :=
  if HasPrefix env (k +:+ "=") then Some (str_drop (S (str_len k)) env) else None.
Definition environ_value (l : list string) (k : string) : option string := last (omap (value_in k) l).

Definition step_variable (k : string) : bool := HasPrefix k "SQLFLOW_" && negb (HasPrefix k "SQLFLOW_WORKFLOW_").

Lemma char_split c s : no_char c s = true ∨ ∃ u v, no_char c u = true ∧ s = (u +:+ String c v)%string.
Proof.
  induction s as [|d s [IH|(u & v & Hu & ->)]]; [by left|..]; destruct (decide (d = c)) as [->|Hd];
    try (right; by exists ""%string; eexists).
  - left. unfold no_char in *. cbn [str_forall]. rewrite IH, andb_true_r. by apply negb_true_iff, bool_decide_eq_false.
  - right. exists (String d u), v. split; [|done]. unfold no_char in *. cbn [str_forall]. rewrite Hu, andb_true_r. by apply negb_true_iff, bool_decide_eq_false.
Qed.

Lemma value_in_pair k u v : no_char "=" k = true → no_char "=" u = true →
  value_in k (u +:+ String "=" v) = if decide (k = u) then Some v else None.
Proof.
  intros Hk Hu. unfold value_in. case_decide as He.
  - subst u. assert (HasPrefix (k +:+ String "=" v) (k +:+ "=") = true) as ->.
    { apply HasPrefix_app. exists v. by rewrite <- str_app_assoc. }
    f_equal. change (String "=" v) with ("=" +:+ v)%string. rewrite str_app_assoc. apply str_drop_app. rewrite str_length_app. cbn. lia.
  - destruct (HasPrefix _ _) eqn:Hp; [|done]. apply HasPrefix_app in Hp as [t Ht]. destruct He.
    apply (f_equal (λ s, SplitN2 s (char1 "="%char))) in Ht. rewrite SplitN2_char in Ht by done.
    rewrite <- str_app_assoc in Ht. change ("=" +:+ t)%string with (String "=" t) in Ht. rewrite SplitN2_char in Ht by done. by injection Ht.
Qed.

Lemma add_env_spec m e :
  (Contains e "=" = false ∧ is_ok (add_env m e) = false ∧ fine (add_env m e)) ∨
  (Contains e "=" = true ∧ ∃ m', add_env m e = Ok m' ∧ ∀ k, no_char "=" k = true →
   m' !! k = match value_in k e with Some v => if step_variable k then Some v else m !! k | None => m !! k end).
Proof.
  unfold add_env, Contains. destruct (char_split "=" e) as [Hn|(u & v & Hu & ->)].
  - left. unfold SplitN2. change "="%string with (char1 "="%char). by rewrite Index_char_None.
  - right. change "="%string with (char1 "="%char). rewrite Index_char, SplitN2_char by done. split; [done|]. eexists. split; [done|].
    intros k Hk. change (char1 "="%char) with "="%string in *. rewrite value_in_pair by done. fold (step_variable u).
    case_decide as He; [subst u|]; destruct (step_variable _); rewrite ?lookup_insert_eq, ?lookup_insert_ne by done; done.
Qed.

Lemma environ_spec l m :
  match foldM add_env m l with
  | Ok m' => Forall (λ e, Contains e "=" = true) l ∧ ∀ k, no_char "=" k = true →
      m' !! k = match environ_value l k with Some v => if step_variable k then Some v else m !! k | None => m !! k end
  | Fail _ => Exists (λ e, Contains e "=" = false) l
  | _ => False
  end.
Proof.
  induction l as [|e l IH] in m |- *; cbn [foldM]; [by split|].
  destruct (add_env_spec m e) as [(Hc & Hno & Hf)|(Hc & m1 & -> & Hm1)].
  - destruct (add_env m e); try done. by left.
  - ok_step. specialize (IH m1). destruct (foldM add_env m1 l) as [m'|er| |]; [|by right|done..].
    destruct IH as [Hall Hm']. split; [by constructor|]. intros k Hk. rewrite Hm', Hm1 by done.
    unfold environ_value. cbn [omap list_omap]. destruct (value_in k e) as [v|]; [|done]. rewrite last_cons.
    destruct (last (omap (value_in k) l)); [|done]. by destruct (step_variable k).
Qed.

(** Assignments of the values that are not empty, to different keys. *)
Lemma fill_other l m k : Forall (λ kv, kv.1 = k → kv.2 = ""%string) l → foldl fillMapIfValueNotEmpty m l !! k = m !! k.
Proof.
  intros Hl. induction Hl as [|kv l Hk _ IH] in m |- *; [done|]. cbn [foldl]. rewrite IH. unfold fillMapIfValueNotEmpty.
  case_decide as He; [done|]. apply lookup_insert_ne. tauto.
Qed.
Lemma fill_in l m k v : NoDup l.*1 → (k, v) ∈ l → v ≠ ""%string → foldl fillMapIfValueNotEmpty m l !! k = Some v.
Proof.
  intros Hnd Hin Hv. induction l as [|kv l IH] in m, Hnd, Hin |- *; [by apply elem_of_nil in Hin|]. cbn [foldl].
  apply NoDup_cons in Hnd as [Hk Hnd]. apply elem_of_cons in Hin as [<-|Hin]; [|by apply IH].
  rewrite fill_other.
  - unfold fillMapIfValueNotEmpty. cbn. rewrite decide_False by done. apply lookup_insert_eq.
  - apply Forall_forall. intros kv Hkv He. destruct Hk. apply list_elem_of_fmap. exists kv. by rewrite He.
Qed.

(** C16: the environment of the steps, variable by variable.  What the session has, its token,
    data source, user, Hive and HDFS locations and submitter, wins when it is not empty, and as
    the password for HDFS the user is passed.  Every other variable has the value that it has
    in the server's environment if its name begins with SQLFLOW_ and not with
    SQLFLOW_WORKFLOW_, so that the configuration of the workflow with its secret is not passed,
    and there is none besides.  The only error is an entry of the environment without an equals
    sign. *)
Theorem step_envs_safe (s : pb_Session) :
  match GetStepEnvs s with
  | Ok envs =>
    let session := [("SQLFLOW_USER_TOKEN", Token s); ("SQLFLOW_DATASOURCE", DbConnStr s); ("SQLFLOW_USER_ID", UserId s);
      ("SQLFLOW_HIVE_LOCATION", HiveLocation s); ("SQLFLOW_HDFS_NAMENODE_ADDR", HdfsNamenodeAddr s);
      ("SQLFLOW_HADOOP_USER", HdfsUser s); ("SQLFLOW_HADOOP_PASS", HdfsUser s); ("SQLFLOW_submitter", Submitter s)]%string in
    (∀ k v, (k, v) ∈ session → v ≠ ""%string → envs !! k = Some v) ∧
    (∀ k, no_char "=" k = true → Forall (λ kv, kv.1 = k → kv.2 = ""%string) session →
       envs !! k = if HasPrefix k "SQLFLOW_" && negb (HasPrefix k "SQLFLOW_WORKFLOW_") then environ_value os_Environ k else None) ∧
    Forall (λ e, Contains e "=" = true) os_Environ
  | Fail _ => Exists (λ e, Contains e "=" = false) os_Environ
  | _ => False
  end.
Proof.
  unfold GetStepEnvs. pose proof (environ_spec os_Environ ∅) as Hm.
  destruct (foldM add_env ∅ os_Environ) as [m|e| |]; [|done..]. ok_step. destruct Hm as [Hall Hm]. cbv zeta.
  fold (session_envs s). split_and!; [..|done].
  - intros k v. apply fill_in. by apply (proj1 (bool_decide_eq_true _)).
  - intros k Hk Hs. unfold fillEnvFromSession. rewrite fill_other, Hm, lookup_empty by done. fold (step_variable k).
    destruct (environ_value os_Environ k), (step_variable k); done.
Qed.
End envs.

(** A server with a secret in its environment. *)
#[export] Instance demo_env : WorkflowEnv := {|
  os_Environ := ["PATH=/bin"; "SQLFLOW_WORKFLOW_SECRET={}"; "SQLFLOW_submitter=local"; "SQLFLOW_DATASOURCE=a=b"]%string;
  wf_Getenv _ := ""%string;
  is_json_object _ := true;
  secret_of _ := Ok ∅;
  run_python s := Ok s;
  yaml_Unmarshal _ := Ok [];
  yaml_Marshal _ := Ok ""%string
|}.
Definition demo_user : pb_Session := mkSession "" "mysql://x" false "" "" "" "hdfs" "secret" "" "" "".
Lemma step_envs_safe_witness :
  ∃ envs, GetStepEnvs demo_user = Ok envs ∧ envs !! "SQLFLOW_WORKFLOW_SECRET"%string = None ∧
    envs !! "SQLFLOW_HADOOP_PASS"%string = Some "hdfs"%string ∧ envs !! "SQLFLOW_DATASOURCE"%string = Some "mysql://x"%string ∧
    envs !! "SQLFLOW_submitter"%string = Some "local"%string.
Proof.
  pose proof (step_envs_safe demo_user) as H. assert (is_ok (GetStepEnvs demo_user) = true) as Hok by (vm_compute; reflexivity).
  destruct (GetStepEnvs demo_user) as [envs|e| |] eqn:He; [|discriminate Hok..]. clear Hok.
  destruct H as (Hs & Ho & _). exists envs. split; [reflexivity|]. split_and!.
  - etransitivity; [apply Ho; [reflexivity|repeat constructor; discriminate]|reflexivity].
  - apply Hs; [apply (proj1 (bool_decide_eq_true _)); reflexivity|discriminate].
  - apply Hs; [apply (proj1 (bool_decide_eq_true _)); reflexivity|discriminate].
  - etransitivity; [apply Ho; [reflexivity|repeat constructor; (discriminate || reflexivity)]|vm_compute; reflexivity].
Defined.
