(* ===== verification/Steps.v ===== *)
(** * The steps of a workflow as Python programs (go/codegen/experimental)

    The experimental generator prints a function of Python for each statement of a program and
    a program for couler that runs each function in a container, as a here-document of bash.
    The templates are here with their texts. *)

From S2P Require Import Prelude GoStrings GoState GoConv GoFloat Base64 FeatureColumn Lexer Syntax Comments SqlParser Attribute.
From S2P Require Import Verifier Ir IRParse Regexp FieldInfer Derivation ColumnCode AttrInit XgbCode IRGenerator NormalStmt Program.
From S2P Require Import Sqlfs SqlfsFile Model ModelFile Shell Workflow.

Local Open Scope Z_scope.

(** ** Templates

    [text/template] with actions that are the name of a field or a variable: between two braces
    stands the name, with blanks around it. *)
Definition field_value (fields : list (string * string)) (name : string) : result string :=
  or_fail (snd <$> List.find (λ kv, bool_decide (kv.1 = TrimByte name " ")) fields) (Errorf "can't evaluate field %s" [name]).
Definition fill_action (fields : list (string * string)) (piece : string) : result string :=
  match Index piece "}}" with
  | Some i => v ← field_value fields (str_take i piece); Ok (v +:+ str_drop (i + 2) piece)%string
  | None => Fail (Errorf "unclosed action" [])
  end.
Definition render (text : string) (fields : list (string * string)) : result string :=
  match Split text "{{" with
  | [] => Ok ""%string
  | t :: pieces => l ← mapR (fill_action fields) pieces; Ok (t +:+ str_concat l)%string
  end.

(** The texts.  A template starts and ends with a line end. *)
Definition template_lines (l : list string) : string := Join ("" :: l ++ [""])%string nl.

Definition trainStepTemplate : string := template_lines
  ["def step_entry_{{.StepIndex}}():";
   "    import json";
   "    import runtime.temp_file as temp_file";
   "    import runtime.feature.column";
   "    import runtime.feature.field_desc";
   "    from runtime.{{.Submitter}} import train";
   "";
   "    feature_column_map = {{.FeatureColumnCode}}";
   "    label_column = {{.LabelColumnCode}}";
   "";
   "    model_params = json.loads('''{{.ModelParamsJSON}}''')";
   "    train_params = json.loads('''{{.TrainParamsJSON}}''')";
   "    validation_params = json.loads('''{{.ValidationParamsJSON}}''')";
   "";
   "    with temp_file.TemporaryDirectory(as_cwd=True):";
   "        train(datasource='''{{.DataSource}}''',";
   "              original_sql='''{{.OriginalSQL}}''',";
   "              select='''{{.Select}}''',";
   "              validation_select='''{{.ValidationSelect}}''',";
   "              estimator_string='''{{.Estimator}}''',";
   "              model_image='''{{.ModelImage}}''',";
   "              feature_column_map=feature_column_map,";
   "              label_column=label_column,";
   "              model_params=model_params,";
   "              train_params=train_params,";
   "              validation_params=validation_params,";
   "              save='''{{.Save}}''',";
   "              load='''{{.Load}}''',";
   "              user='''{{.User}}''')"]%string.
Definition predStepTemplate : string := template_lines
  ["def step_entry_{{.StepIndex}}():";
   "    import json";
   "    import runtime.temp_file as temp_file";
   "    from runtime.{{.Submitter}} import pred";
   "";
   "    pred_params = json.loads('''{{.PredParamJSON}}''')";
   "    with temp_file.TemporaryDirectory(as_cwd=True):";
   "        pred(datasource='''{{.DataSource}}''', ";
   "             original_sql='''{{.OriginalSQL}}''',";
   "             select='''{{.Select}}''', ";
   "             model='''{{.Load}}''',";
   "             label_name='''{{.PredLabelName}}''',";
   "             pred_params=pred_params,";
   "             result_table='''{{.ResultTable}}''',";
   "             user='''{{.User}}''')"]%string.
Definition evaluateStepTemplate : string := template_lines
  ["def step_entry_{{.StepIndex}}():";
   "    import json";
   "    import runtime.temp_file as temp_file";
   "    from runtime.{{.Submitter}} import evaluate";
   "    attrJsonStr = '''{{.AttributesJSON}}'''";
   ("    if attrJsonStr != " +:+ dq +:+ dq +:+ ":");
   "        model_params = json.loads(attrJsonStr)";
   "    else:";
   "        model_params = {}";
   "";
   "    with temp_file.TemporaryDirectory(as_cwd=True):";
   "        evaluate(datasource='''{{.DataSource}}''', ";
   "                 original_sql='''{{.OriginalSQL}}''',";
   "                 select='''{{.Select}}''',";
   "                 label_name='''{{.PredLabelName}}''',";
   "                 model='''{{.Load}}''',";
   "                 model_params=model_params,";
   "                 result_table='''{{.ResultTable}}''',";
   "                 user='''{{.User}}''')"]%string.
Definition explainStepTemplate : string := template_lines
  ["def step_entry_{{.StepIndex}}():";
   "    import json";
   "    import runtime.temp_file as temp_file";
   "    from runtime.{{.Submitter}} import explain";
   "";
   "    attr_json_str = '''{{.AttributesJSON}}'''";
   ("    if attr_json_str != " +:+ dq +:+ dq +:+ ":");
   "        model_params = json.loads('''{{.AttributesJSON}}''')";
   "    else:";
   "        model_params = {}";
   "    ";
   "    with temp_file.TemporaryDirectory(as_cwd=True):";
   "        explain(datasource='''{{.DataSource}}''', ";
   "                original_sql='''{{.OriginalSQL}}''',";
   "                select='''{{.Select}}''',";
   "                model='''{{.Load}}''',";
   "                model_params=model_params,";
   "                explainer='''{{.Explainer}}''',";
   "                result_table='''{{.ResultTable}}''',";
   "                user='''{{.User}}''')"]%string.
Definition runStepTemplate : string := template_lines
  ["def step_entry_{{.StepIndex}}():";
   "    from runtime.{{.Submitter}} import run";
   "";
   "    run(datasource='''{{.DataSource}}''',";
   "        select='''{{.Select}}''',";
   "        image_name='''{{.ImageName}}''',";
   "        params={{.Parameters}},";
   "        into='''{{.Into}}''')"]%string.
Definition normalStmtStepTmpl : string := template_lines
  ["def step_entry_{{.StepIndex}}():";
   "    from runtime.dbapi import connect";
   ("    conn = connect(" +:+ dq +:+ "{{.DataSource}}" +:+ dq +:+ ")");
   ("    stmt = " +:+ dq +:+ dq +:+ dq +:+ "{{.Stmt}}" +:+ dq +:+ dq +:+ dq);
   "    if conn.is_query(stmt):";
   "        # Importing table_writer is slow. So only";
   "        # import it when needed.";
   "        from runtime.dbapi import table_writer";
   "        rs = conn.query(stmt)  # Exception would raise if error";
   "        tw = table_writer.ProtobufWriter(rs)";
   "        lines = tw.dump_strings()";
   "        for l in lines:";
   "            print(l)";
   "    else:";
   "        conn.execute(stmt)  # Exception would raise if error";
   "";
   "    conn.close()"]%string.
Definition optimizeTemplate : string := template_lines
  ["def step_entry_{{.StepIndex}}():";
   "    import json";
   "    from runtime.step.optimize import run_optimize";
   "";
   "    run_optimize(datasource='''{{.DataSource}}''',";
   "                 select='''{{.Select}}''',";
   "                 variables={{.Variables}},";
   "                 result_value_name='''{{.ResultValueName}}''',";
   "                 variable_type='''{{.VariableType}}''',";
   "                 objective={{.Objective}},";
   "                 direction='''{{.Direction}}''',";
   "                 constraints=json.loads('''{{.ConstraintJSON}}'''),";
   "                 solver='''{{.Solver}}''',";
   "                 result_table='''{{.ResultTable}}''',";
   "                 submitter='''{{.Submitter}}''',";
   "                 user_id='''{{.UserID}}''')"]%string.
Definition showTrainStepCodeTemplate : string := template_lines
  ["def step_entry_{{.StepIndex}}():";
   "    from runtime.{{.Submitter}} import show_train";
   "    show_train(datasource='''{{.DataSource}}''',";
   "               model_name='''{{.ModelName}}''')"]%string.
Definition couler_head : string := Join
  ["";
   "import couler.argo as couler";
   "from couler.core.utils import body as pybody";
   "from os import path";
   "import json";
   "import re";
   "";
   ("datasource = " +:+ dq +:+ "{{ .DataSource }}" +:+ dq);
   "workflow_ttl = {{.WorkflowTTL}}";
   "";
   ("# it's bug of the couler project, that needs " +:+ dq +:+ dq +:+ " on integer environment variable value to avoid the ");
   ("# workflow failed: " +:+ dq +:+ "invalid spec: cannot convert int64 to string" +:+ dq);
   "# issue: https://github.com/couler-proj/couler/issues/108";
   "step_envs = dict()";
   ""]%string nl.
Definition couler_env : string := Join
  [("step_envs[" +:+ dq +:+ "{{$k}}" +:+ dq +:+ "] = '''" +:+ dq +:+ "{{$v}}" +:+ dq +:+ "'''");
   ""]%string nl.
Definition couler_middle : string := Join
  ["";
   "";
   "sqlflow_secret = None";
   ("if " +:+ dq +:+ "{{.SecretName}}" +:+ dq +:+ " != " +:+ dq +:+ dq +:+ ":");
   "    # note(yancey1989): set dry_run to true, just reference the secret meta to generate workflow YAML,";
   "    # we should create the secret before launching sqlflowserver";
   "    secret_data=json.loads('''{{.SecretData}}''')";
   ("    sqlflow_secret = couler.secret(secret_data, name=" +:+ dq +:+ "{{ .SecretName }}" +:+ dq +:+ ", dry_run=True)");
   "";
   "resources = None";
   ("if '''{{.Resources}}''' != " +:+ dq +:+ dq +:+ ":");
   "    resources=json.loads('''{{.Resources}}''')";
   "";
   ("step_log_file = " +:+ dq +:+ "{{.StepLogFile}}" +:+ dq);
   "step_exit_time_wait = {{.StepExitTimeWait}}";
   "";
   ""]%string nl.
Definition couler_step : string := Join
  ["";
   "{{.Code}}";
   "";
   "codes = [";
   ("    " +:+ dq +:+ "python <<EOF" +:+ dq +:+ ",");
   "    pybody(step_entry_{{.StepIndex}}),";
   ("    " +:+ dq +:+ "EOF" +:+ dq +:+ ",");
   "]";
   "";
   "if step_log_file:";
   "    log_dir = path.dirname(step_log_file)";
   "    codes = [";
   ("        " +:+ dq +:+ "if [[ -f /opt/sqlflow/init_step_container.sh ]]; then" +:+ dq +:+ ",");
   ("        " +:+ dq +:+ "  bash /opt/sqlflow/init_step_container.sh" +:+ dq +:+ ",");
   ("        " +:+ dq +:+ "fi" +:+ dq +:+ ",");
   ("        " +:+ dq +:+ "mkdir -p %s" +:+ dq +:+ " % log_dir,");
   ("        " +:+ dq +:+ "set -o pipefail # fail when any sub-command fail" +:+ dq +:+ ",");
   ("        " +:+ dq +:+ "(" +:+ dq +:+ ",");
   "    ] + codes + [";
   ("        " +:+ dq +:+ ") 2>&1 | tee %s" +:+ dq +:+ " % step_log_file,");
   ("        " +:+ dq +:+ "exit_code=$?" +:+ dq +:+ ",");
   ("        " +:+ dq +:+ "# sleep a while for finishing log collection" +:+ dq +:+ ",");
   ("        " +:+ dq +:+ "sleep %d" +:+ dq +:+ " % step_exit_time_wait,");
   ("        " +:+ dq +:+ "exit $exit_code" +:+ dq +:+ ",");
   "    ]";
   "";
   ("couler.run_script(image=" +:+ dq +:+ "{{.Image}}" +:+ dq +:+ ", command=" +:+ dq +:+ "bash" +:+ dq +:+ ", source=" +:+ dq +:+ "\n" +:+ dq +:+ ".join(codes), env=step_envs, resources=resources)");
   "couler.config_workflow(time_to_clean=workflow_ttl)";
   ""]%string nl.
Definition couler_end : string := Join
  ["";
   ""]%string nl.

(** ** Fields *)

Definition escapeSpecialRunesAndTrimSpace (s : string) : string :=
  let s := TrimSpace s in
  let s := ReplaceAll s (char1 chr_cr) (String chr_bs "r") in
  let s := ReplaceAll s (char1 chr_nl) (String chr_bs "n") in
  let s := ReplaceAll s (char1 chr_bt) (String chr_bs (char1 chr_bt)) in
  TrimSpace s.

Definition isXGBoostEstimator `{UnicodeTables} (estimator : string) : bool := HasPrefix (ToUpper estimator) "XGBOOST.".

(** The statements in front of index [idx], the nearest first. *)
Fixpoint find_train (modelName : string) (before : list (IRStmt FieldDesc)) : option (TrainStmt FieldDesc) :=
  match before with
  | [] => None
  | IRTrain t :: before => if decide (t_Into t = modelName) then Some t else find_train modelName before
  | _ :: before => find_train modelName before
  end.
Definition findModelGenerationTrainStmt (modelName : string) (idx : nat) (sqlStmts : list (IRStmt FieldDesc)) : option (TrainStmt FieldDesc) :=
  find_train modelName (rev (take idx sqlStmts)).

Definition decomposeModelName (modelName : string) : string * string * string :=
  match LastIndexByte modelName "/" with
  | None => (""%string, modelName, ""%string)
  | Some idx =>
    let address := str_take idx modelName in
    let modelName := str_drop (S idx) modelName in
    match LastIndexByte modelName ":" with
    | Some idx => (address, str_take idx modelName, str_drop (S idx) modelName)
    | None => (address, modelName, ""%string)
    end
  end.

(** Packages net/url and grpc, and the service of the model zoo. *)
Class StepWorld (D : Type) := {
  set_params : string → list (string * string) → result string;   (* url.Parse, ParseQuery, Set, Encode *)
  zoo_Meta : string → string → string → st D string               (* GetModelMeta of an address, for a name and a tag *)
}.

Section fields.
Context `{UnicodeTables} `{MapOrder} `{ColumnText} `{WorkflowEnv} `{DSNParsers} `{ModelWorld D} `{!StepWorld D}.

(** *** The metadata of a model *)

Definition imageName (m : Json) : string := MustString m "model_repo_image".
Definition getModelMetadataFromModelZoo (addr table tag : string) : st D Json :=
  meta ← wrapS "error is from: %v %s" [] (zoo_Meta addr table tag); lift (NewJson meta).
Definition qualified_table (dbConnStr table : string) : result string :=
  if Contains table "." then Ok table
  else dbName ← GetDatabaseName dbConnStr; Ok (dbName +:+ "." +:+ table)%string.
(** The length in hexadecimal, then as many bytes. *)
Definition read_metadata : st (reader * D) Json :=
  '(lengthHexStr, err) ← Read 12 10;
  if bool_decide (err ≠ None) || negb (Nat.eqb (str_len lengthHexStr) 10)
  then fail (Errorf "read meta length from db error: %v" [])
  else match ParseInt0 lengthHexStr with
  | None => fail (Errorf "convert length head error: %v" [])
  | Some metaLength =>
    if metaLength <? 0 then lift Panic (* make([]byte, metaLength) *) else
    '(jsonBytes, err) ← Read (Z.to_nat metaLength + 2) (Z.to_nat metaLength);
    match err with
    | Some e => fail (Errorf "read meta json from db error: %v" [err_format e])
    | None =>
      if Z.of_nat (str_len jsonBytes) =? metaLength then lift (NewJson jsonBytes)
      else fail (Errorf "read meta json from db error: invalid meta length read %d" [pretty (Z.of_nat (str_len jsonBytes))])
    end
  end.
Definition getModelMetadataFromDBImpl (dbConnStr table : string) : st D Json :=
  _ ← OpenAndConnectDB dbConnStr;
  table ← lift (qualified_table dbConnStr table);
  fs ← Open table 1;
  with_local fs (defer Close_reader read_metadata).
Definition pai_suffix : string := "_sqlflow_pai_model".
Definition GetModelMetadataFromDB (dbConnStr table : string) : st D Json :=
  catchS (getModelMetadataFromDBImpl dbConnStr table) (λ err1,
    catchS (getModelMetadataFromDBImpl dbConnStr (table +:+ pai_suffix)) (λ err2,
      fail (Errorf "cannot find model metadata from %[1]s or %[1]s%[2]s: %[3]s; %[4]s"
              [table; pai_suffix; err_format err1; err_format err2]))).
Definition getModelMetadata (s : pb_Session) (modelName : string) : st D Json :=
  let '(modelZooAddr, modelName, tag) := decomposeModelName modelName in
  if decide (modelZooAddr = ""%string) then GetModelMetadataFromDB (DbConnStr s) modelName
  else getModelMetadataFromModelZoo modelZooAddr modelName tag.

(** *** Values *)

Definition GeneratePyDbConnStr (s : pb_Session) : result string :=
  '(dialect, _) ← ParseURL (DbConnStr s);
  if decide (dialect ≠ "hive"%string) then Ok (DbConnStr s)
  else set_params (DbConnStr s) [("hdfs_namenode_addr", HdfsNamenodeAddr s); ("hive_location", HiveLocation s);
                                 ("hdfs_user", HdfsUser s); ("hdfs_pass", HdfsPass s)]%string.
Definition getSubmitter (s : pb_Session) : string := or_default (Submitter s) (or_default (wf_Getenv "SQLFLOW_submitter") "local").

Definition desc_code (c : FeatureColumn FieldDesc) : result string := GenPythonCode id (λ m, (range_map m).*1) c.
Definition fc_target_code (kv : string * list (FeatureColumn FieldDesc)) : result (list string) :=
  match kv.2 with
  | [] => Ok []
  | l => codes ← mapR desc_code l; Ok [(quoted kv.1 +:+ ":[" +:+ Join codes "," +:+ "]")%string]
  end.
Definition generateFeatureColumnCode (fcMap : features FieldDesc) : result string :=
  l ← mapR fc_target_code (range_map fcMap); Ok ("{" +:+ Join (concat l) "," +:+ "}")%string.

(** The attributes by their prefix; those without one are the model's. *)
Definition attribute_group (k : string) : string * string :=
  if HasPrefix k "train." then ("train.", str_drop 6 k)%string
  else if HasPrefix k "model." then ("model.", str_drop 6 k)%string
  else if HasPrefix k "validation." then ("validation.", str_drop 11 k)%string
  else ("model.", k)%string.
Definition categorizeAttributes (a : attrs) : gmap string attrs :=
  foldl (λ params '(k, v),
      let '(p, name) := attribute_group k in <[p := <[name := v]> (default ∅ (params !! p))]> params)
    (list_to_map [("train.", ∅); ("model.", ∅); ("validation.", ∅)]%string) (range_map a).
Definition attributes_json (a : attrs) : result string := json_map json_attr a.
Definition group_json (params : gmap string attrs) (group : string) : result string := attributes_json (default ∅ (params !! group)).
End fields.

(** ** The code of a step *)

Section steps.
Context `{UnicodeTables} `{MapOrder} `{ColumnText} `{WorkflowEnv} `{DSNParsers} `{ModelWorld D} `{!StepWorld D}.
Notation IR := (IRStmt FieldDesc).

Definition step_index (stepIndex : nat) : string * string := (".StepIndex", pretty (Z.of_nat stepIndex))%string.
Definition train_attributes (t : TrainStmt FieldDesc) : result attrs :=
  if isXGBoostEstimator (t_Estimator t) then
    a ← resolveModelParams (t_Estimator t) (t_Attributes t);
    if decide (1 < size (Features t))%nat then
      Fail (Errorf "xgboost only support 0 or 1 feature column set, received %d" [pretty (Z.of_nat (size (Features t)))])
    else Ok a
  else Ok (t_Attributes t).
Definition GenerateTrain (t : TrainStmt FieldDesc) (stepIndex : nat) (s : pb_Session) : result string :=
  a ← train_attributes t;
  featureColumnCode ← generateFeatureColumnCode (Features t);
  labelColumnCode ← desc_code (t_Label t);
  let params := categorizeAttributes a in
  mp ← group_json params "model.";
  tp ← group_json params "train.";
  vp ← group_json params "validation.";
  dbConnStr ← GeneratePyDbConnStr s;
  render trainStepTemplate
    [step_index stepIndex; (".OriginalSQL", escapeSpecialRunesAndTrimSpace (t_OriginalSQL t)); (".ModelImage", ModelImage t);
     (".Estimator", t_Estimator t); (".DataSource", dbConnStr); (".Select", escapeSpecialRunesAndTrimSpace (t_Select t));
     (".ValidationSelect", escapeSpecialRunesAndTrimSpace (ValidationSelect t)); (".ModelParamsJSON", mp);
     (".TrainParamsJSON", tp); (".ValidationParamsJSON", vp); (".FeatureColumnCode", featureColumnCode);
     (".LabelColumnCode", labelColumnCode); (".Save", t_Into t); (".Load", PreTrainedModel t);
     (".Submitter", getSubmitter s); (".User", UserId s)]%string.

Definition GeneratePredict (p : PredictStmt FieldDesc) (stepIndex : nat) (s : pb_Session) : result string :=
  dbConnStr ← GeneratePyDbConnStr s;
  modelParams ← attributes_json (p_Attributes p);
  render predStepTemplate
    [step_index stepIndex; (".DataSource", dbConnStr); (".OriginalSQL", escapeSpecialRunesAndTrimSpace (p_OriginalSQL p));
     (".Select", escapeSpecialRunesAndTrimSpace (p_Select p)); (".PredLabelName", ResultColumn p); (".ResultTable", ResultTable p);
     (".PredParamJSON", modelParams); (".Load", Using p); (".Submitter", getSubmitter s); (".User", UserId s)]%string.

Definition GenerateEvaluation (v : EvaluateStmt FieldDesc) (stepIndex : nat) (s : pb_Session) : result string :=
  ds ← GeneratePyDbConnStr s;
  label ← numeric_field (v_Label v) "unsupported label type %T";
  attrPyStr ← attributes_json (v_Attributes v);
  render evaluateStepTemplate
    [step_index stepIndex; (".DataSource", ds); (".OriginalSQL", escapeSpecialRunesAndTrimSpace (v_OriginalSQL v));
     (".Select", escapeSpecialRunesAndTrimSpace (v_Select v)); (".ResultTable", v_Into v); (".PredLabelName", Name label);
     (".Load", v_ModelName v); (".AttributesJSON", attrPyStr); (".Submitter", getSubmitter s); (".User", UserId s)]%string.

Definition GenerateExplain (e : ExplainStmt FieldDesc) (stepIndex : nat) (s : pb_Session) : result string :=
  ds ← GeneratePyDbConnStr s;
  attrJSON ← attributes_json (e_Attributes e);
  render explainStepTemplate
    [step_index stepIndex; (".DataSource", ds); (".OriginalSQL", escapeSpecialRunesAndTrimSpace (e_OriginalSQL e));
     (".Select", escapeSpecialRunesAndTrimSpace (e_Select e)); (".Explainer", e_Explainer e); (".AttributesJSON", attrJSON);
     (".ResultTable", e_Into e); (".Load", e_ModelName e); (".Submitter", getSubmitter s); (".User", UserId s)]%string.

(** The parameters are nil if the statement has none; the SELECT is not escaped. *)
Definition python_list (l : list string) : result string := AttrToPythonValue (R:=FieldDesc) (VStrings (Some l)).
Definition GenerateRun (r : RunStmt) (stepIndex : nat) (s : pb_Session) : result string :=
  ds ← GeneratePyDbConnStr s;
  params ← match r_Parameters r with [] => AttrToPythonValue (R:=FieldDesc) (VStrings None) | l => python_list l end;
  render runStepTemplate
    [step_index stepIndex; (".DataSource", ds); (".Select", r_Select r); (".ImageName", r_ImageName r); (".Parameters", params);
     (".Into", r_Into r); (".Submitter", getSubmitter s)]%string.

(** The data source of the session, also for Hive. *)
Definition generateNormalStmtStep (stmt : string) (stepIndex : nat) (s : pb_Session) : result string :=
  render normalStmtStepTmpl
    [step_index stepIndex; (".DataSource", DbConnStr s); (".Stmt", escapeSpecialRunesAndTrimSpace stmt)]%string.

Definition json_expr (e : OptimizeExpr) : string :=
  ("{" +:+ json_field "tokens" (json_strings (ExpressionTokens e)) +:+ "," +:+ json_field "group_by" (json_string (oe_GroupBy e)) +:+ "}")%string.
Definition generateOptimizeCode (o : OptimizeStmt FieldDesc) (stepIndex : nat) (s : pb_Session) : result string :=
  ds ← GeneratePyDbConnStr s;
  let constraintJSON := json_list (map json_expr (o_Constraints o)) in
  variables ← python_list (Variables o);
  objective ← python_list (ExpressionTokens (o_Objective o));
  render optimizeTemplate
    [step_index stepIndex; (".DataSource", ds); (".Select", escapeSpecialRunesAndTrimSpace (o_Select o)); (".UserID", UserId s);
     (".Variables", variables); (".ResultValueName", ResultValueName o); (".VariableType", VariableType o);
     (".Objective", objective); (".Direction", o_Direction o); (".ConstraintJSON", constraintJSON); (".Solver", o_Solver o);
     (".ResultTable", o_ResultTable o); (".Submitter", getSubmitter s)]%string.

Definition generateShowTrainCode (t : ShowTrainStmt) (stepIndex : nat) (s : pb_Session) : result string :=
  ds ← GeneratePyDbConnStr s;
  render showTrainStepCodeTemplate
    [step_index stepIndex; (".DataSource", ds); (".ModelName", s_ModelName t); (".Submitter", getSubmitter s)]%string.

(** *** The image of a step: that of the statement that trains the model it uses *)

Definition model_image (modelName : string) (stepIndex : nat) (s : pb_Session) (sqlStmts : list IR) : st D string :=
  match findModelGenerationTrainStmt modelName stepIndex sqlStmts with
  | Some t => mret (ModelImage t)
  | None => meta ← getModelMetadata s modelName; mret (imageName meta)
  end.
Definition with_image (image : st D string) (code : result string) : st D (string * string) :=
  image ← image; code ← lift code; mret (code, image).
Definition GenerateStepCodeAndImage (stmt : IR) (stepIndex : nat) (s : pb_Session) (sqlStmts : list IR) : st D (string * string) :=
  match stmt with
  | IRTrain t => with_image (mret (ModelImage t)) (GenerateTrain t stepIndex s)
  | IRPredict p => with_image (model_image (Using p) stepIndex s sqlStmts) (GeneratePredict p stepIndex s)
  | IREvaluate v => with_image (model_image (v_ModelName v) stepIndex s sqlStmts) (GenerateEvaluation v stepIndex s)
  | IRExplain e => with_image (model_image (e_ModelName e) stepIndex s sqlStmts) (GenerateExplain e stepIndex s)
  | IRShowTrain t => with_image (mret ""%string) (generateShowTrainCode t stepIndex s)
  | IROptimize o => with_image (mret ""%string) (generateOptimizeCode o stepIndex s)
  | IRRun r => with_image (mret (r_ImageName r)) (GenerateRun r stepIndex s)
  | IRNormal sql => with_image (mret ""%string) (generateNormalStmtStep sql stepIndex s)
  end.

(** ** The program for couler (codegen_couler.go) *)

Record stepContext := mkStepContext { Code : string; StepIndex : nat; Image : string }.
Definition exit_time_wait : result Z :=
  let env := wf_Getenv "SQLFLOW_WORKFLOW_EXIT_TIME_WAIT" in
  if decide (env = ""%string) then Ok 0
  else match ParseInt10 64 env with Some z => Ok z | None => Fail (Errorf "SQLFLOW_WORKFLOW_EXIT_TIME_WAIT: %s should be int" [env]) end.
(** The template ranges over the variables in the order of their names. *)
Definition env_text (envs : gmap string string) : result string :=
  l ← mapR (λ k, render couler_env [("$k", k); ("$v", default "" (envs !! k))]%string) (sorted_keys envs); Ok (str_concat l).
Definition step_program (c : stepContext) : result string :=
  render couler_step [(".Code", Code c); step_index (StepIndex c); (".Image", Image c)]%string.
Definition CodeGenCouler (stepList : list stepContext) (s : pb_Session) : result string :=
  envs ← GetStepEnvs s;
  '(secretName, secretData) ← GetSecret;
  VerifyResources (wf_Getenv envResource) ≫= λ _,
  ttl ← workflow_ttl;
  exitTimeWait ← exit_time_wait;
  let fields :=
    [(".DataSource", DbConnStr s); (".WorkflowTTL", pretty ttl); (".SecretName", secretName); (".SecretData", secretData);
     (".Resources", wf_Getenv envResource); (".StepLogFile", wf_Getenv "SQLFLOW_WORKFLOW_STEP_LOG_FILE");
     (".StepExitTimeWait", pretty exitTimeWait)]%string in
  head ← render couler_head fields;
  env ← env_text envs;
  middle ← render couler_middle fields;
  steps ← mapR step_program stepList;
  end_ ← render couler_end fields;
  Ok (head +:+ env +:+ middle +:+ str_concat steps +:+ end_)%string.
End steps.

Section program.
Context `{UnicodeTables} `{GoRegexp} `{MapOrder} `{SortSlice} `{External} `{Services} `{ColumnText} `{CodegenEnv} `{WorkflowEnv} `{DSNParsers}.
Context `{ModelWorld D} `{!StepWorld D}.

Fixpoint step_list (defaultDockerImage : string) (idx : nat) (stmts all : list (IRStmt FieldDesc)) (s : pb_Session) : st D (list stepContext) :=
  match stmts with
  | [] => mret []
  | stmt :: stmts =>
    '(stepCode, image) ← GenerateStepCodeAndImage stmt idx s all;
    rest ← step_list defaultDockerImage (S idx) stmts all s;
    mret (mkStepContext stepCode idx (or_default image defaultDockerImage) :: rest)
  end.
Definition GenerateCodeCouler (sqlProgram : string) (s : pb_Session) : st D string :=
  let defaultDockerImage := or_default (wf_Getenv "SQLFLOW_WORKFLOW_STEP_IMAGE") "sqlflow/sqlflow:step" in
  stmts ← lift (parseToIR sqlProgram (DbConnStr s));
  stepList ← step_list defaultDockerImage 0 stmts stmts s;
  lift (CodeGenCouler stepList s).
(** workflow.go; the error of writing the file is not looked at, but then Python reads what is
    there. *)
Definition CompileToYAMLExperimental (sqlProgram : string) (s : pb_Session) : st D string :=
  py ← GenerateCodeCouler sqlProgram s; lift (run_python py).
End program.

(** ** What Python gets of a SELECT

    bash reads the program of a step as a here-document, and Python reads the result. *)

Local Open Scope nat_scope.

Definition here_char (c : ascii) : string :=
  if decide (c = chr_cr) then String chr_bs "r"
  else if decide (c = chr_nl) then String chr_bs "n"
  else if decide (c = chr_bt) then String chr_bs (char1 chr_bt)
  else char1 c.
Notation here := (map_chars here_char).
(** What bash leaves of it. *)
Definition python_char (c : ascii) : string := if decide (c = chr_bt) then char1 c else here_char c.
Notation python := (map_chars python_char).

Lemma escape_here s : escapeSpecialRunesAndTrimSpace s = TrimSpace (here (TrimSpace s)).
Proof.
  unfold escapeSpecialRunesAndTrimSpace. f_equal. rewrite !ReplaceAll_char. induction (TrimSpace s) as [|c t IH]; [done|].
  cbn [subst_char map_chars]. rewrite !subst_char_app, IH. f_equal. unfold here_char.
  destruct (decide (c = chr_cr)) as [->|H1]; [by vm_compute|]. cbn [subst_char char1]. cbn [String.append].
  destruct (decide (c = chr_nl)) as [->|H2]; [by vm_compute|]. cbn [subst_char char1 String.append].
  by destruct (decide (c = chr_bt)) as [->|H3].
Qed.

(** *** Trimming twice *)

Lemma str_forall_list P s : str_forall P s = true ↔ Forall (λ c, P c = true) (String.list_ascii_of_string s).
Proof. induction s as [|c s IH]; cbn; [by split; constructor|]. by rewrite andb_true_iff, Forall_cons, IH. Qed.
Lemma ascii_list_app s t : String.list_ascii_of_string (s +:+ t) = String.list_ascii_of_string s ++ String.list_ascii_of_string t.
Proof. induction s as [|c s IH]; [done|]. cbn. by f_equal. Qed.
Lemma here_char_ends c : ∃ x l y, String.list_ascii_of_string (here_char c) = x :: l ∧ last (x :: l) = Some y ∧
  (x = c ∨ ascii_space x = false) ∧ (y = c ∨ ascii_space y = false).
Proof. unfold here_char. repeat case_match; by eexists _, _, _; split_and!; [done|done|auto..]. Qed.
Lemma here_last t x : last (String.list_ascii_of_string (here t)) = Some x →
  ascii_space x = false ∨ last (String.list_ascii_of_string t) = Some x.
Proof.
  induction t as [|c t IH]; [done|]. cbn [map_chars]. rewrite ascii_list_app, last_app.
  destruct (last (String.list_ascii_of_string (here t))) as [y|] eqn:Hy.
  - intros [= ->]. destruct (IH eq_refl) as [?|Hl]; [by left|]. right. cbn [String.list_ascii_of_string]. by rewrite last_cons, Hl.
  - destruct (here_char_ends c) as (u & l & v & -> & -> & _ & [->|Hv]); intros [= <-]; [|by left]. right.
    cbn [String.list_ascii_of_string]. apply last_None in Hy. destruct t as [|d t]; [done|]. exfalso. cbn [map_chars] in Hy.
    rewrite ascii_list_app in Hy. apply app_eq_nil in Hy as [Hy _]. by destruct (here_char_ends d) as (? & ? & ? & Hd & _); rewrite Hd in Hy.
Qed.
Lemma here_trimmed t : trimmed t → trimmed (here t).
Proof.
  intros [Hh Hl]. split.
  - intros x. destruct t as [|c t]; [done|]. cbn [map_chars]. rewrite ascii_list_app.
    destruct (here_char_ends c) as (u & l & v & -> & _ & [->|Hu] & _); cbn; intros [= <-]; [by apply Hh|done].
  - intros x Hx. destruct (here_last _ _ Hx) as [?|?]; [done|by apply Hl].
Qed.
Lemma here_ascii t : ascii_string t = true → ascii_string (here t) = true.
Proof.
  unfold ascii_string. induction t as [|c t IH]; [done|]. cbn [map_chars str_forall]. intros [Hc Ht]%andb_true_iff.
  rewrite str_forall_app, IH, andb_true_r by done. unfold here_char. repeat case_match; cbn; by rewrite ?Hc.
Qed.
Lemma TrimSpace_is_ascii s : ascii_string s = true → ascii_string (TrimSpace s) = true.
Proof.
  intros Ha. unfold ascii_string. apply str_forall_list. rewrite TrimSpace_ascii, String.list_ascii_of_string_of_list_ascii by done.
  apply str_forall_list in Ha. destruct (drop_while_suffix ascii_space (String.list_ascii_of_string s)) as [k Hk].
  rewrite Hk in Ha. apply Forall_app in Ha as [_ Ha]. unfold drop_while_end. apply Forall_reverse.
  apply Forall_reverse in Ha. destruct (drop_while_suffix ascii_space (reverse (drop_while ascii_space (String.list_ascii_of_string s)))) as [k2 Hk2].
  rewrite Hk2 in Ha. by apply Forall_app in Ha as [_ Ha].
Qed.
Lemma escape_ascii s : ascii_string s = true → escapeSpecialRunesAndTrimSpace s = here (TrimSpace s).
Proof.
  intros Ha. rewrite escape_here. apply TrimSpace_fixed; [by apply here_ascii, TrimSpace_is_ascii|]. by apply here_trimmed, TrimSpace_trimmed.
Qed.

(** *** Reading *)

(** Three single quotation marks end the string of Python, as does one that stands last. *)
Fixpoint closable (s : string) : bool :=
  match s with
  | EmptyString => true
  | String c s' => (negb (bool_decide (c = chr_sq)) || negb (HasPrefix s triple) && negb (bool_decide (s' = ""%string))) && closable s'
  end.
Definition step_text_ok (s : string) : bool :=
  ascii_string s && no_char chr_bs (TrimSpace s) && no_char "$" (TrimSpace s) && closable (TrimSpace s).

Lemma bash_here_backslash d t : bash_here (String chr_bs (String d t)) =
  (λ v, if decide (d = chr_nl) then v else if decide (d = "$"%char ∨ d = chr_bt ∨ d = chr_bs) then String d v
        else String chr_bs (String d v)) <$> bash_here t.
Proof. cbn [bash_here]. rewrite decide_True by done. by destruct (bash_here t). Qed.
Lemma plain_char c : c ≠ chr_cr → c ≠ chr_nl → c ≠ chr_bt → here_char c = char1 c ∧ python_char c = char1 c.
Proof. intros H1 H2 H3. unfold python_char, here_char. by rewrite !decide_False. Qed.
Lemma bash_here_char c w : c ≠ chr_bs → c ≠ "$"%char → c ≠ chr_bt → bash_here (String c w) = String c <$> bash_here w.
Proof. intros. cbn [bash_here]. rewrite !decide_False by (done || by intros [?|?]). by destruct (bash_here w). Qed.
Definition plain_char_of_here (c : ascii) : bool := negb (bool_decide (c = chr_bs ∨ c = "$"%char ∨ c = chr_bt)).
Lemma bash_here_plain x w : str_forall plain_char_of_here x = true → bash_here (x +:+ w) = String.append x <$> bash_here w.
Proof.
  intros Hx. revert Hx. induction x as [|c x IH]; [intros _; cbn [String.append]; by destruct (bash_here w)|].
  cbn [str_forall]. intros [Hc%negb_true_iff%bool_decide_eq_false Hx]%andb_true_iff.
  cbn [String.append]. rewrite bash_here_char, IH by naive_solver. by destruct (bash_here w).
Qed.
Lemma bash_here_reads t w : no_char chr_bs t = true → no_char "$" t = true →
  bash_here (here t +:+ w) = String.append (python t) <$> bash_here w.
Proof.
  intros Hb Hd. induction t as [|c t IH]; [cbn [map_chars String.append]; by destruct (bash_here w)|].
  cbn in Hb, Hd. apply andb_true_iff in Hb as [Hc1%negb_true_iff%bool_decide_eq_false Hb], Hd as [Hc2%negb_true_iff%bool_decide_eq_false Hd].
  specialize (IH Hb Hd). cbn [map_chars]. rewrite <- !str_app_assoc.
  destruct (decide (c = chr_cr)) as [->|H1]; [etrans; [exact (bash_here_backslash "r" _)|]; rewrite IH; by destruct (bash_here w)|].
  destruct (decide (c = chr_nl)) as [->|H2]; [etrans; [exact (bash_here_backslash "n" _)|]; rewrite IH; by destruct (bash_here w)|].
  destruct (decide (c = chr_bt)) as [->|H3]; [etrans; [exact (bash_here_backslash chr_bt _)|]; rewrite IH; by destruct (bash_here w)|].
  destruct (plain_char c H1 H2 H3) as [-> ->]. cbn [char1 String.append]. rewrite bash_here_char, IH by done. by destruct (bash_here w).
Qed.

Lemma python_head c t : c ≠ chr_sq → HasPrefix (python_char c +:+ t) (char1 chr_sq) = false.
Proof.
  intros Hc. unfold python_char, here_char, char1. repeat case_match; cbn [String.append HasPrefix]; by rewrite decide_False.
Qed.

Lemma python_reads t r : no_char chr_bs t = true → closable t = true → py_string (python t +:+ triple +:+ r) = Some (t, r).
Proof.
  induction t as [|c t IH]; intros Hb Hq; [by destruct r|].
  cbn in Hb. apply andb_true_iff in Hb as [Hc1%negb_true_iff%bool_decide_eq_false Hb].
  cbn [closable] in Hq. apply andb_true_iff in Hq as [Hc Hq]. specialize (IH Hb Hq).
  cbn [map_chars]. rewrite <- !str_app_assoc.
  destruct (decide (c = chr_bt)) as [->|H3]; [by apply py_plain; [|apply HasPrefix_triple_head|]|].
  destruct (decide (c = chr_cr)) as [->|H1]; [etrans; [exact (py_backslash "r" _)|]; by rewrite IH|].
  destruct (decide (c = chr_nl)) as [->|H2]; [etrans; [exact (py_backslash "n" _)|]; by rewrite IH|].
  destruct (plain_char c H1 H2 H3) as [_ ->]. apply py_plain; [done| |done]. destruct (decide (c = chr_sq)) as [->|Hs]; [|by apply HasPrefix_triple_head].
  rewrite bool_decide_eq_true_2 in Hc by done. cbn [negb orb] in Hc. apply andb_true_iff in Hc as [Ht Hne].
  apply negb_true_iff in Ht. apply negb_true_iff, bool_decide_eq_false in Hne.
  apply map_chars_open; [done|exact python_head|done|done|]. by intros ->.
Qed.

(** bash leaves the program in front of a word without special characters as it is, up to what
    it does with it. *)
Lemma bash_here_at c u w out : c ≠ chr_bs → c ≠ "$"%char → c ≠ chr_bt → c ≠ chr_nl →
  bash_here (u +:+ String c w) = Some out → ∃ u' w', out = (u' +:+ String c w')%string ∧ bash_here w = Some w'.
Proof.
  intros H1 H2 H3 H4. assert (∀ n u out, str_len u ≤ n → bash_here (u +:+ String c w) = Some out →
    ∃ u' w', out = (u' +:+ String c w')%string ∧ bash_here w = Some w') as Hgen; [|by eapply Hgen].
  clear u out. induction n as [|n IH]; intros u out Hn Hu.
  - destruct u; [|cbn in Hn; lia]. cbn [String.append bash_here] in Hu. rewrite !decide_False in Hu by (done || by intros [?|?]).
    destruct (bash_here w) as [w'|]; [|done]. injection Hu as <-. by exists ""%string, w'.
  - destruct u as [|d u]; [by apply (IH ""%string); [cbn; lia|]|]. cbn in Hn. cbn [String.append bash_here] in Hu.
    destruct (decide (d = chr_bs)) as [->|Hd].
    + destruct u as [|e u]; cbn [String.append] in Hu.
      * destruct (bash_here w) as [w'|]; [|done]. cbn in Hu. rewrite !decide_False in Hu by (done || by intros [?|[?|?]]).
        injection Hu as <-. by exists (char1 chr_bs), w'.
      * destruct (bash_here (u +:+ String c w)) as [v|] eqn:Hv; [|done]. cbn in Hn.
        destruct (IH u v) as (u' & w' & -> & Hw); [lia|done|]. cbn in Hu. injection Hu as <-.
        case_match; [by exists u', w'|]. case_match; [by exists (String e u'), w'|].
        by exists (String chr_bs (String e u')), w'.
    + case_match; [done|]. destruct (bash_here (u +:+ String c w)) as [v|] eqn:Hv; [|done].
      injection Hu as <-. destruct (IH u v) as (u' & w' & -> & Hw); [lia|done|]. by exists (String d u'), w'.
Qed.

(** *** Where a template has the SELECT *)

Definition select_opens : string := "select=" +:+ triple.
(** The second action is the SELECT, between [select=] with three quotation marks and three more. *)
Definition shows_select (p q : string) : bool :=
  match Index p "}}", Index q "}}" with
  | Some i, Some j =>
    HasSuffix (str_drop (i + 2) p) select_opens && bool_decide (str_take j q = ".Select"%string) && HasPrefix (str_drop (j + 2) q) triple
  | _, _ => false
  end.
Fixpoint somewhere (P : string → string → bool) (l : list string) : bool :=
  match l with p :: ((q :: _) as l') => P p q || somewhere P l' | _ => false end.

Lemma HasSuffix_app s suf : HasSuffix s suf = true → ∃ u, s = (u +:+ suf)%string.
Proof.
  unfold HasSuffix. intros [_ Hs%bool_decide_eq_true]%andb_true_iff. rewrite <- Hs. eexists. symmetry. apply str_take_drop.
Qed.
Lemma render_select text fields code v : somewhere shows_select (tail (Split text "{{")) = true →
  field_value fields ".Select" = Ok v → render text fields = Ok code →
  ∃ pre post, code = (pre +:+ select_opens +:+ v +:+ triple +:+ post)%string.
Proof.
  intros Hs Hv Hr. unfold render in Hr. destruct (Split text "{{") as [|t ps]; [done|]. cbn [tail] in Hs.
  destruct (mapR (fill_action fields) ps) as [l|e| |] eqn:Hl; try done. injection Hr as <-. apply mapR_Forall2 in Hl.
  assert (∃ pre post, str_concat l = (pre +:+ select_opens +:+ v +:+ triple +:+ post)%string) as (pre & post & ->).
  { clear t. induction Hl as [|p a ps l Hp Hl IH]; [done|]. destruct Hl as [|q b ps l Hq Hl]; [done|].
    cbn [somewhere] in Hs. apply orb_true_iff in Hs as [Hs|Hs].
    - unfold shows_select in Hs. unfold fill_action in Hp, Hq.
      destruct (Index p "}}") as [i|]; [|done]. destruct (Index q "}}") as [j|]; [|done].
      apply andb_true_iff in Hs as [[Hs1 Hs2%bool_decide_eq_true]%andb_true_iff Hs3].
      apply HasPrefix_app in Hs3 as [post Hpost]. rewrite Hs2, Hv in Hq. cbn in Hq. injection Hq as <-. rewrite Hpost.
      destruct (field_value fields (str_take i p)) as [x|e| |]; try done. cbn in Hp. injection Hp as <-.
      apply HasSuffix_app in Hs1 as [u ->]. exists (x +:+ u)%string, (post +:+ str_concat l)%string.
      rewrite !str_concat_cons. by rewrite <- !str_app_assoc.
    - destruct (IH Hs) as (pre & post & Hc). exists (a +:+ pre)%string, post. by rewrite str_concat_cons, Hc, <- str_app_assoc. }
  exists (t +:+ pre)%string, post. by rewrite <- str_app_assoc.
Qed.

(** *** The steps with a SELECT of their own *)

(** What a generator renders at its end shows the SELECT. *)
Ltac rendered H :=
  repeat match type of H with (_ ≫= _) = Ok _ => apply bind_Ok in H as (? & _ & H) end;
  eapply render_select; [| |exact H]; [by vm_compute|reflexivity].

Section reads.
Context `{UnicodeTables} `{MapOrder} `{ColumnText} `{WorkflowEnv} `{DSNParsers} `{ModelWorld D} `{!StepWorld D}.

Definition select_of (stmt : IRStmt FieldDesc) : option string :=
  match stmt with
  | IRTrain t => Some (t_Select t)
  | IRPredict p => Some (p_Select p)
  | IREvaluate v => Some (v_Select v)
  | IRExplain e => Some (e_Select e)
  | IROptimize o => Some (o_Select o)
  | IRRun _ | IRShowTrain _ | IRNormal _ => None
  end.

(** The code of a step shows the SELECT. *)
Lemma step_code_select (stmt : IRStmt FieldDesc) (i : nat) (s : pb_Session) all d code image d' select :
  GenerateStepCodeAndImage stmt i s all d = (Ok (code, image), d') → select_of stmt = Some select →
  ∃ pre post, code = (pre +:+ select_opens +:+ escapeSpecialRunesAndTrimSpace select +:+ triple +:+ post)%string.
Proof.
  assert (∀ m c, with_image m c d = (Ok (code, image), d') → c = Ok code) as Hw.
  { intros m c Hm. unfold with_image in Hm. run_ok. congruence. }
  destruct stmt as [t|p|e|v|sql|sh|o|r]; cbn [GenerateStepCodeAndImage select_of]; intros Hg%Hw [= <-].
  - unfold GenerateTrain in Hg. rendered Hg.
  - unfold GeneratePredict in Hg. rendered Hg.
  - unfold GenerateExplain in Hg. rendered Hg.
  - unfold GenerateEvaluation in Hg. rendered Hg.
  - unfold generateOptimizeCode in Hg. rendered Hg.
Qed.

(** C11: the Python program of a step gets the SELECT of its statement.  When the code of a
    step that trains, predicts, evaluates, explains or optimizes is made, it has the escaped
    SELECT behind [select=] between three quotation marks; when bash passes the code on as the
    body of a here-document, Python reads there the SELECT, without the white space around it,
    if it is an ASCII text without backslash and dollar sign in which no three single quotation
    marks follow each other and none is last; it may have line ends and backquotes. *)
Theorem step_reads_select (stmt : IRStmt FieldDesc) (i : nat) (s : pb_Session) (all : list (IRStmt FieldDesc)) (d d' : D)
    (code image select out : string) :
  GenerateStepCodeAndImage stmt i s all d = (Ok (code, image), d') → select_of stmt = Some select →
  step_text_ok select = true → bash_here code = Some out →
  ∃ pre post pre' read rest, code = (pre +:+ select_opens +:+ escapeSpecialRunesAndTrimSpace select +:+ triple +:+ post)%string ∧
    out = (pre' +:+ select_opens +:+ read)%string ∧ py_string read = Some (TrimSpace select, rest) ∧ bash_here post = Some rest.
Proof.
  intros Hg Hs Hok Hout. destruct (step_code_select stmt i s all d code image d' select Hg Hs) as (pre & post & Hcode).
  unfold step_text_ok in Hok. apply andb_true_iff in Hok as [[[Ha Hb]%andb_true_iff Hd]%andb_true_iff Hq].
  rewrite Hcode, (escape_ascii _ Ha) in Hout.
  apply (bash_here_at "s" pre ("elect=" +:+ triple +:+ here (TrimSpace select) +:+ triple +:+ post)) in Hout
    as (pre' & w & -> & Hw); [|done..].
  change ("elect=" +:+ triple +:+ here (TrimSpace select) +:+ triple +:+ post)%string
    with (("elect=" +:+ triple) +:+ here (TrimSpace select) +:+ triple +:+ post)%string in Hw.
  rewrite bash_here_plain, bash_here_reads, (bash_here_plain triple) in Hw by done.
  destruct (bash_here post) as [rest|] eqn:Hrest; [|done]. injection Hw as <-.
  exists pre, post, pre', (python (TrimSpace select) +:+ triple +:+ rest)%string, rest.
  split_and!; [done|done|by apply python_reads|done].
Qed.
End reads.

(** ** The model that a step uses *)

Lemma LastIndexByte_none s c : no_char c s = true → LastIndexByte s c = None.
Proof.
  induction s as [|d s IH]; [done|]. cbn. intros [Hd%negb_true_iff%bool_decide_eq_false Hs]%andb_true_iff.
  rewrite IH by done. by rewrite decide_False.
Qed.
Lemma LastIndexByte_last u c v : no_char c v = true → LastIndexByte (u +:+ String c v) c = Some (str_len u).
Proof.
  intros Hv. induction u as [|d u IH]; cbn [String.append LastIndexByte].
  - rewrite LastIndexByte_none by done. by rewrite decide_True.
  - by rewrite IH.
Qed.
Lemma split_at u c v : str_take (str_len u) (u +:+ String c v) = u ∧ str_drop (S (str_len u)) (u +:+ String c v) = v.
Proof. split; [by apply str_take_app|]. induction u as [|d u IH]; [done|]. exact IH. Qed.

(** The address, the name and the tag of a model of a zoo are found in its name; without a
    slash there is no address, and the model is one of the database. *)
Theorem decomposeModelName_parts (addr name tag : string) :
  no_char "/" name = true → no_char "/" tag = true → no_char ":" tag = true →
  decomposeModelName (addr +:+ "/" +:+ name +:+ ":" +:+ tag) = (addr, name, tag) ∧
  (no_char ":" name = true → decomposeModelName (addr +:+ "/" +:+ name) = (addr, name, ""%string)) ∧
  decomposeModelName name = (""%string, name, ""%string).
Proof.
  intros Hn Ht Hc. unfold decomposeModelName. cbn [String.append].
  assert (no_char "/" (name +:+ String ":" tag) = true) as Hnt.
  { unfold no_char in *. rewrite str_forall_app, Hn. cbn. by rewrite Ht. }
  rewrite !LastIndexByte_last by done. rewrite (LastIndexByte_none name "/") by done. split_and!; [| |done].
  - destruct (split_at addr "/" (name +:+ String ":" tag)) as [-> ->]. rewrite LastIndexByte_last by done.
    by destruct (split_at name ":" tag) as [-> ->].
  - intros Hnc. destruct (split_at addr "/" name) as [-> ->]. by rewrite LastIndexByte_none.
Qed.

(** The training statement that is found is the last one in front of the step that makes the
    model. *)
Theorem findModelGenerationTrainStmt_last (name : string) (idx : nat) (stmts : list (IRStmt FieldDesc)) (t : TrainStmt FieldDesc) :
  idx ≤ length stmts →
  findModelGenerationTrainStmt name idx stmts = Some t ↔
  ∃ k, k < idx ∧ stmts !! k = Some (IRTrain t) ∧ t_Into t = name ∧
       ∀ k' u, k < k' < idx → stmts !! k' = Some (IRTrain u) → t_Into u ≠ name.
Proof.
  unfold findModelGenerationTrainStmt. induction idx as [|idx IH]; intros Hl.
  { split; [done|]. intros (k & Hk & _). lia. }
  destruct (lookup_lt_is_Some_2 stmts idx) as [x Hx]; [lia|]. rewrite (take_S_r _ _ _ Hx), rev_app_distr. cbn [rev app].
  assert ((∀ u, x = IRTrain u → t_Into u ≠ name) →
    (∃ k, k < idx ∧ stmts !! k = Some (IRTrain t) ∧ t_Into t = name ∧
       ∀ k' u, k < k' < idx → stmts !! k' = Some (IRTrain u) → t_Into u ≠ name) ↔
    (∃ k, k < S idx ∧ stmts !! k = Some (IRTrain t) ∧ t_Into t = name ∧
       ∀ k' u, k < k' < S idx → stmts !! k' = Some (IRTrain u) → t_Into u ≠ name)) as Hstep.
  { intros Hnot. split; intros (k & Hk & Ht & Hi & Hall); exists k; split_and!; try done; try lia.
    - intros k' u Hk' Hu. destruct (decide (k' = idx)) as [->|]; [|apply (Hall k'); [lia|done]]. apply Hnot. congruence.
    - destruct (decide (k = idx)) as [->|]; [|lia]. exfalso. by apply (Hnot t); [congruence|].
    - intros k' u Hk' Hu. apply (Hall k'); [lia|done]. }
  cbn [find_train]. destruct x as [u|?|?|?|?|?|?|?]; try (rewrite IH by lia; apply Hstep; congruence).
  destruct (decide (t_Into u = name)) as [Hu|Hu]; [|rewrite IH by lia; apply Hstep; congruence]. split.
  - intros [= <-]. exists idx. split_and!; [lia|done|done|]. intros. lia.
  - intros (k & Hk & Ht & Hi & Hall). destruct (decide (k = idx)) as [->|]; [congruence|]. exfalso. by apply (Hall idx u); [lia|done|].
Qed.

(** ** The metadata of a model that was saved *)

Section metadata.
Context `{WorkflowEnv} `{DSNParsers} `{ModelWorld D} `{!BlockDB D} `{!StepWorld D}.

Lemma Contains_qualified table connStr : Contains table "." = true → qualified_table connStr table = Ok table.
Proof. unfold qualified_table. by intros ->. Qed.

(** C15: a later step gets the metadata of a model that a training saved.  When connecting,
    creating the table and every insertion succeed, [SaveDBExperimental] succeeds, and on its
    database [getModelMetadata] gives the metadata that was saved, and with it the image of the
    step, for every model whose name says the database, and for every database that keeps the
    promises of [BlockDB]. *)
Theorem metadata_of_saved (m : Model) (j : Json) (s : string) (out : list string) (session : pb_Session)
    (driver table : string) (hive : string * string * string * string) (d0 d1 d3 : D) (r : reader) :
  let pieces := hex08 (Z.of_nat (str_len s)) :: s :: out in
  (∀ s, Encode j = Ok s → NewJson s = Ok j) → table_name table = true → Contains table "." = true →
  Meta m = Some j → Encode j = Ok s → (Z.of_nat (str_len s) < 2 ^ 32)%Z → TarOut (workDir m) = (out, None) →
  OpenAndConnectDB (DbConnStr session) d0 = (Ok driver, d1) → driver ≠ "hive"%string →
  written driver table bufSize pieces d1 d3 → (Z.of_nat (str_len (str_concat pieces)) + 1 < 2 ^ 63)%Z →
  OpenAndConnectDB (DbConnStr session) d3 = (Ok driver, d3) → answers table (table_rows table d3) → Open table 1 d3 = (Ok r, d3) →
  SaveDBExperimental m (DbConnStr session) table hive d0 = (Ok tt, d3) ∧ getModelMetadata session table d3 = (Ok j, d3).
Proof.
  intros pieces Hjson Ht Hdot Hm Hj Hlen Htar Hdb Hd Hw Hs Hdb3 Ha Hopen. split; [by eapply SaveDBExperimental_run|].
  destruct (Open_written driver table Ht bufSize 1 pieces d1 d3 r d3 False bufSize_pos ltac:(lia) Hw Hopen) as [_ Hat].
  pose proof (written_rows driver table Ht bufSize pieces d1 d3 bufSize_pos Hw) as Hrows.
  unfold pieces in Hs, Hat, Hrows. rewrite !str_concat_cons in Hs, Hat, Hrows.
  set (bs := chunks bufSize _) in *.
  assert (Forall (λ b, b ≠ ""%string) bs) as Hne by by apply chunks_nonempty, bufSize_pos.
  assert (Z.of_nat (length bs) + Z.of_nat 1 < 2 ^ 63)%Z as Hsm.
  { pose proof (chunks_length bufSize (hex08 (Z.of_nat (str_len s)) +:+ s +:+ str_concat out)%string bufSize_pos). unfold bs. lia. }
  destruct (hex08_spec (Z.of_nat (str_len s)) ltac:(lia)) as (Hparse & _ & Hten). apply Hten in Hlen as Hlen10. clear Hten.
  destruct (Read_next table bs 1 d3 r _ _ Ht Hne ltac:(lia) Hsm Hrows Ha Hat) as (r1 & Hr1 & Hat1). rewrite Hlen10 in Hr1.
  destruct (Read_next table bs 1 d3 r1 _ _ Ht Hne ltac:(lia) Hsm Hrows Ha Hat1) as (r2 & Hr2 & _).
  unfold getModelMetadata, decomposeModelName.
  rewrite LastIndexByte_none by (by apply no_char_table). cbv beta iota. rewrite decide_True by done.
  unfold GetModelMetadataFromDB, catchS, getModelMetadataFromDBImpl.
  rewrite (st_bind_run _ _ _ _ _ Hdb3), Contains_qualified by done. rewrite (st_bind_run (lift (Ok table)) _ _ table d3) by done.
  rewrite (st_bind_run _ _ _ _ _ Hopen). unfold with_local, defer, read_metadata.
  rewrite (st_bind_run _ _ _ _ _ Hr1), Hlen10, Hparse. cbn [negb orb Nat.eqb bool_decide decide_rel].
  rewrite bool_decide_eq_false_2 by congruence. cbn [orb]. rewrite (proj2 (Z.ltb_ge _ 0)) by lia. rewrite Nat2Z.id.
  rewrite (st_bind_run _ _ _ _ _ Hr2), Z.eqb_refl. by rewrite (Hjson s Hj).
Qed.
End metadata.

(** ** A prediction behind a training, and a saved model *)

#[local] Instance no_dsn : DSNParsers :=
  {| maxcompute_project _ := Ok ""%string; alisa_project _ := Ok ""%string; hive_database _ := Ok ""%string |}.
#[export] Instance no_zoo : StepWorld tables := {| set_params s _ := Ok s; zoo_Meta _ _ _ := lift (Ok ""%string) |}.

Definition demo_train (image : string) : IRStmt FieldDesc :=
  IRTrain (mkTrainStmt "" "" "" image "DNNClassifier" ∅ ∅ (NumericColumn (newFieldDesc "class" Int (Some [1%Z]))) "" "db.m" "" "").
Definition demo_select : string := (" SELECT " +:+ char1 chr_bt +:+ "a" +:+ char1 chr_bt +:+ char1 chr_nl +:+ "FROM t WHERE b = 'x' LIMIT 1 ")%string.
Definition demo_predict : IRStmt FieldDesc :=
  IRPredict (mkPredictStmt (demo_select +:+ "TO PREDICT r.c USING db.m;") demo_select "r" "c" ∅ "db.m" None "").
Definition demo_stmts : list (IRStmt FieldDesc) := [demo_train "one"; demo_train "two"; demo_predict].

(** The code and the image, and what bash makes of the code. *)
Definition demo_code : string :=
  match (GenerateStepCodeAndImage demo_predict 2 demo_user demo_stmts (∅ : tables)).1 with Ok (code, _) => code | _ => ""%string end.
Example demo_image : GenerateStepCodeAndImage demo_predict 2 demo_user demo_stmts (∅ : tables) = (Ok (demo_code, "two"%string), ∅).
Proof. by vm_compute. Qed.

Lemma step_reads_select_witness :
  ∃ read rest, py_string read = Some (TrimSpace demo_select, rest) ∧
    ∃ pre, bash_here demo_code = Some (pre +:+ select_opens +:+ read)%string.
Proof.
  destruct (bash_here demo_code) as [out|] eqn:Hout; [|vm_compute in Hout; discriminate Hout].
  destruct (step_reads_select demo_predict 2 demo_user demo_stmts (∅ : tables) ∅ demo_code "two" demo_select out)
    as (pre & post & pre' & read & rest & _ & Ho & Hp & _); [vm_compute; reflexivity|reflexivity|vm_compute; reflexivity|exact Hout|].
  exists read, rest. split; [exact Hp|]. exists pre'. by rewrite Ho.
Defined.

(** A SELECT that ends in a quotation mark closes the string too early; a dollar sign is
    expanded by bash, and a backslash makes Python's escapes. *)
Example last_quote_lost :
  py_string (escapeSpecialRunesAndTrimSpace "SELECT 1 WHERE c = 'x' " +:+ triple +:+ ",") =
    Some ("SELECT 1 WHERE c = 'x"%string, String chr_sq ",").
Proof. by vm_compute. Qed.
Example dollar_in_here : bash_here (escapeSpecialRunesAndTrimSpace "SELECT 1 WHERE c LIKE '^a$' OR 1") = None.
Proof. by vm_compute. Qed.

Definition saved_file : tables := {[ "db.m"%string := file_rows ["0x00000008SELECT 1tar of /w"%string] ]}.
#[local] Instance writer_eq_dec : EqDecision flushWriteCloser.
Proof. solve_decision. Defined.
Lemma saved_file_written :
  written "mysql" "db.m" bufSize ["0x00000008"; "SELECT 1"; "tar of "; "/w"]%string (∅ : tables) saved_file.
Proof.
  exists (newFlushWriteCloser bufSize), {[ "db.m"%string := [] ]},
    (mkWriter "0x00000008SELECT 1tar of /w" bufSize 0, (0%Z, {[ "db.m"%string := [] ]})), (newFlushWriteCloser bufSize), 1%Z.
  split_and!; apply (bool_decide_eq_true (_ = _)); vm_compute; reflexivity.
Qed.

Lemma metadata_of_saved_witness :
  SaveDBExperimental (demo_model "/w" "") "mysql://x" "db.m" ("", "", "", "")%string (∅ : tables) = (Ok tt, saved_file) ∧
  getModelMetadata demo_user "db.m" saved_file = (Ok "SELECT 1"%string, saved_file).
Proof.
  apply (metadata_of_saved (demo_model "/w" "") "SELECT 1"%string "SELECT 1" ["tar of "; "/w"]%string demo_user
    "mysql" "db.m" ("", "", "", "")%string (∅ : tables) ∅ saved_file (mkReader true "db.m" "" [] 0 0 1)).
  - by intros s [= <-].
  - reflexivity.
  - reflexivity.
  - reflexivity.
  - reflexivity.
  - vm_compute. reflexivity.
  - reflexivity.
  - reflexivity.
  - done.
  - exact saved_file_written.
  - vm_compute. reflexivity.
  - reflexivity.
  - apply memory_answers. reflexivity.
  - vm_compute. reflexivity.
Defined.
