(* ===== verification/Submit.v ===== *)
(** * Submitting workflows (go/sqlflowserver/sqlflowserver.go)

    With workflows the server runs a program by compiling it, handing the result to Kubernetes or
    to the service of couler, and answering with a job; the client follows the job. *)

From S2P Require Import Prelude GoStrings GoState GoConv GoFloat Base64 FeatureColumn SqlParser Regexp Attribute Verifier Ir IRGenerator FieldInfer Derivation ColumnCode AttrInit XgbCode.
From S2P Require Import Response NormalStmt TableWriter Argo ArgoFollow Pipe Serve Program Sqlfs SqlfsFile Model ModelFile Workflow Steps.

Local Open Scope Z_scope.

Section submit.
Context `{UnicodeTables} `{GoRegexp} `{MapOrder} `{SortSlice} `{External} `{Services} `{ColumnText} `{CodegenEnv} `{WorkflowEnv} `{DSNParsers}.
Context `{ModelWorld D} `{!StepWorld D}.

(** Kubernetes, and python that reads a program from its standard input: all that it prints, and
    its error. *)
Context (k : K8s) (python : string → string * option error).

Definition switched_on (name : string) : bool := bool_decide (wf_Getenv name = "true"%string).

(** The service of couler starts the workflow; all that the program has printed is the name. *)
Definition submit_couler (sqlProgram : string) (s : pb_Session) : result message :=
  pycode ← CompileToCoulerSubmitCode sqlProgram s;
  match python pycode with
  | (_, Some e) => Fail e
  | (out, None) => Ok (MJob out (WfNamespace s))
  end.
Definition compile_yaml (sqlProgram : string) (s : pb_Session) : st D string :=
  if switched_on "SQLFLOW_USE_EXPERIMENTAL_CODEGEN" then CompileToYAMLExperimental sqlProgram s
  else lift (CompileToYAML sqlProgram s).
Definition submit_argo (sqlProgram : string) (s : pb_Session) : st D message :=
  yaml ← compile_yaml sqlProgram s;
  wfID ← lift (Submit k yaml); mret (MJob wfID (WfNamespace s)).

(** What the reader of the pipe gets.  That the address of the logs is not set is only logged:
    [Fatalf] of package log does not end the process. *)
Definition SubmitWorkflow (sqlProgram : string) (s : pb_Session) : st D (list message) :=
  catchS (m ← (if switched_on "SQLFLOW_USE_COULER_SUBMITTER" then lift (submit_couler sqlProgram s) else submit_argo sqlProgram s); mret [m])
         (λ e, mret [MError e]).
End submit.

(** ** From the program to the client's screen *)

Section answer.
Context `{UnicodeTables} `{GoRegexp} `{MapOrder} `{SortSlice} `{External} `{Services} `{ColumnText} `{CodegenEnv} `{WorkflowEnv} `{DSNParsers}.
Context `{ModelWorld D} `{!StepWorld D} (k : K8s) (python : string → string * option error).
Context `{StreamLog D1} `{!Table T D2} `{!Terminal D2}.

(** The workflow [id], seen from the client, which asks for the default namespace, while all of
    its steps [gs] exist and their pods have succeeded. *)
Definition finished (id : string) (gs : list (string * string)) (k : K8s) : Prop :=
  snapshot id "" (length gs) gs (length gs) k ∧
  ∀ p, p ∈ gs.*2 → ∃ pod, k8sReadPod k p "" = Ok pod ∧ pod_Phase pod = PodSucceeded.

Lemma follow_finished (ut : string → option Response) (id : string) (gs : list (string * string)) (ks : list K8s) :
  gs ≠ [] → (length gs ≤ length ks)%nat → Forall (finished id gs) ks →
  ∃ calls, follow ut ks (mkFetchRequest id "" "" "") = (calls, None) ∧ omap (announced gs) calls = gs.*1.
Proof.
  intros Hne Hl Hks. destruct (follow ut ks (mkFetchRequest id "" "" "")) as [calls e] eqn:Hf.
  assert (waits id "" gs (mkFetchRequest id "" "" "") 0 "") as Hw by (split_and!; [done..|by right]).
  assert (0 < length gs)%nat as Hpos by (destruct gs; [done|cbn; lia]).
  destruct (follow_ends ut id "" (length gs) gs ks 0 "" (mkFetchRequest id "" "" "")) as [Hend Hnone];
    [done|done|exact Hw|lia|exact Hks|].
  rewrite Hf in Hend, Hnone. cbn in Hend, Hnone. subst e. exists calls. split; [done|].
  destruct (follow_spec ut id "" (length gs) gs ks (replicate (length ks) (length gs)) 0 "" (mkFetchRequest id "" "" "") calls None)
    as (j & Hj & Ho & He); [done| | | |done|exact Hw| |exact Hf|].
  - apply Forall2_same_length_lookup_2; [by rewrite length_replicate|]. intros i m k' [-> _]%lookup_replicate Hk'.
    by eapply (Forall_lookup_1 _ _ _ _ Hks) in Hk' as [? _].
  - clear. induction (length ks) as [|n IH]; constructor; [done|by apply Forall_replicate].
  - by apply Forall_replicate.
  - apply Forall_replicate. by left.
  - rewrite Ho. destruct (He Hend) as [-> _]. cbn. by rewrite take_ge by (by rewrite length_fmap).
Qed.

Lemma recv_job isT it2 ut ks id ns calls w : follow ut ks (mkFetchRequest id "" "" "") = (calls, None) →
  renderRPCRespStream isT it2 ut ks [Response_Job id ns] None w =
  (renders_all isT it2 (concat (map (λ c, Responses c.2) calls)) ≫= λ _, attempt table_Flush ≫= λ _, mret None) w.
Proof.
  intros Hf. unfold renderRPCRespStream. cbn [recv_loop].
  assert (attempt (Serve.render isT it2 (Response_Job id ns)) w = (Ok (inl tt), w)) as Hjob by done.
  unfold renderPRCFetchResp. rewrite Hf. unfold mbind, st_bind. rewrite Hjob.
  by destruct (renders_all _ _ _ _) as [[[]|?| |] w'].
Qed.

(** C8: a program that is submitted is answered with one message, an error that ends the stream or
    the job that was made, which the server sends.  And the client that gets the job, when all
    steps of the workflow have succeeded in the namespace it asks for, is told about each of them
    once and in order, shows what they sent, and ends without an error. *)
Theorem SubmitWorkflow_shown (sqlProgram conn : string) (s : pb_Session) (ms : list message) (d d' : D) :
  SubmitWorkflow k python sqlProgram s d = (Ok ms, d') →
  (∃ e, ms = [MError e] ∧ ∀ d1, Server_Run sqlProgram conn ms d1 = (Fail e, d1)) ∨
  (∃ id, ms = [MJob id (WfNamespace s)] ∧
    (∀ d1, ∃ d2, Server_Run sqlProgram conn ms d1 = (Ok tt, d2) ∧ sent d2 = sent d1 ++ [Response_Job id (WfNamespace s)]) ∧
    ∀ gs ks isT it2 ut w, gs ≠ [] → (length gs ≤ length ks)%nat → Forall (finished id gs) ks →
      ∃ calls, follow ut ks (mkFetchRequest id "" "" "") = (calls, None) ∧ omap (announced gs) calls = gs.*1 ∧
        renderRPCRespStream isT it2 ut ks [Response_Job id (WfNamespace s)] None w =
        (renders_all isT it2 (concat (map (λ c, Responses c.2) calls)) ≫= λ _, attempt table_Flush ≫= λ _, mret None) w).
Proof.
  intros Hr. apply catchS_Ok in Hr as [Hr|(e & d1 & _ & [<- _]%mret_Ok)].
  2: { left. exists e. split; [done|]. intros d2. done. }
  right. apply st_bind_Ok in Hr as (m & d1 & Hm & [<- _]%mret_Ok).
  assert (∃ id, m = MJob id (WfNamespace s)) as [id ->].
  { destruct (switched_on _).
    - apply lift_Ok in Hm as [Hm _]. unfold submit_couler in Hm. apply bind_Ok in Hm as (py & _ & Hm).
      destruct (python py) as [out [e|]]; [done|]. injection Hm as <-. eauto.
    - unfold submit_argo in Hm. run_ok. eauto. }
  exists id. split; [done|]. split.
  - intros d2. unfold Server_Run. cbn [eachS respond]. destruct (sends (Response_Job id (WfNamespace s)) d2) as (d3 & Hs & He).
    exists d3. split; [|done]. by rewrite (st_bind_run _ _ _ _ _ Hs).
  - intros gs ks isT it2 ut w Hne Hl Hks. destruct (follow_finished ut id gs ks) as (calls & Hf & Ho); [done..|].
    exists calls. split_and!; [done..|]. by apply recv_job.
Qed.
End answer.

(** ** Where a workflow is made

    The document that [CompileToYAML] makes gets the namespace and the service account of the
    session; that of the experimental compiler does not, while the job names the namespace. *)

Definition placed_in (account namespace : string) (s : pb_Session) : pb_Session :=
  mkSession (Token s) (DbConnStr s) (ExitOnSubmit s) (UserId s) (HiveLocation s) (HdfsNamenodeAddr s) (HdfsUser s) (HdfsPass s)
    (Submitter s) account namespace.

Section place.
Context `{UnicodeTables} `{GoRegexp} `{MapOrder} `{SortSlice} `{External} `{Services} `{ColumnText} `{CodegenEnv} `{WorkflowEnv} `{DSNParsers}.
Context `{ModelWorld D} `{!StepWorld D}.

Lemma step_list_placed account namespace image idx stmts all s d :
  step_list image idx stmts all (placed_in account namespace s) d = step_list image idx stmts all s d.
Proof.
  revert idx d. induction stmts as [|stmt stmts IH]; intros idx d; [done|]. cbn [step_list]. unfold mbind, st_bind.
  assert (GenerateStepCodeAndImage stmt idx (placed_in account namespace s) all d = GenerateStepCodeAndImage stmt idx s all d) as ->
    by by destruct stmt.
  destruct (GenerateStepCodeAndImage _ _ _ _ _) as [[[code im]|?| |] d1]; [|done..]. by rewrite IH.
Qed.
Theorem experimental_not_placed (account namespace sqlProgram : string) (s : pb_Session) (d : D) :
  CompileToYAMLExperimental sqlProgram (placed_in account namespace s) d = CompileToYAMLExperimental sqlProgram s d.
Proof.
  unfold CompileToYAMLExperimental, GenerateCodeCouler, mbind, st_bind, lift. cbn [DbConnStr placed_in].
  destruct (parseToIR sqlProgram (DbConnStr s)) as [stmts|?| |]; [|done..]. rewrite step_list_placed.
  by destruct (step_list _ _ _ _ _ _) as [[l|?| |] d1].
Qed.
End place.

(** ** A program of one statement, on a cluster where its two steps succeed *)

#[local] Existing Instances demo_external demo_services word_regexp insertion_slice.
#[local] Instance plain_dsn : DSNParsers :=
  {| maxcompute_project _ := Ok ""%string; alisa_project _ := Ok ""%string; hive_database _ := Ok ""%string |}.

Definition demo_kubernetes : K8s := mkK8s
  (λ args stdin, match args with
     | "create"%string :: _ => ("workflow.argoproj.io/w created"%string, None)
     | _ => kubectl (demo_k8s 2 succeeding) args stdin
     end)
  (parseWorkflowResource (demo_k8s 2 succeeding)) (parsePodResource (demo_k8s 2 succeeding)) (λ _, ""%string) 0.
Definition no_python (_ : string) : string * option error := (""%string, Some (Errorf "no python" [])).

Lemma demo_finished : finished "w" demo_steps demo_kubernetes.
Proof. split; [exact (demo_snapshot 2 succeeding (le_n 2) (λ p, ltac:(done)))|]. intros p Hp. by eexists. Qed.

Lemma SubmitWorkflow_shown_witness :
  ∃ calls, follow no_text [demo_kubernetes; demo_kubernetes] (mkFetchRequest "w" "" "" "") = (calls, None) ∧
    omap (announced demo_steps) calls = ["g1"; "g2"]%string.
Proof.
  destruct (SubmitWorkflow_shown demo_kubernetes no_python (D1 := list Response) (T := ASCIIWriter) (D2 := recording)
    "SELECT 1;" "mysql://x" demo_user [MJob "w" ""] (∅ : tables) ∅) as [(e & He & _)|(id & Hid & _ & Hrest)].
  - vm_compute. reflexivity.
  - discriminate He.
  - injection Hid as <-.
    destruct (Hrest demo_steps [demo_kubernetes; demo_kubernetes] true false no_text (createASCIIWriter 1, ([], []) : recording))
      as (calls & Hf & Ho & _); [done|cbn; lia|constructor; [exact demo_finished|constructor; [exact demo_finished|constructor]]|].
    exists calls. split; [exact Hf|exact Ho].
Defined.

(** With the service of couler the name of the job is all that its program has printed, with the
    end of the line. *)
Definition couler_service_env : WorkflowEnv := {|
  os_Environ := os_Environ (WorkflowEnv := demo_env);
  wf_Getenv name := if decide (name ∈ ["SQLFLOW_USE_COULER_SUBMITTER"; "SQLFLOW_COULER_SERVER_ADDR"; "SQLFLOW_COULER_CLUSTER"])%string
                    then "true"%string else ""%string;
  is_json_object := is_json_object (WorkflowEnv := demo_env); secret_of := secret_of (WorkflowEnv := demo_env);
  run_python := run_python (WorkflowEnv := demo_env); yaml_Unmarshal := yaml_Unmarshal (WorkflowEnv := demo_env);
  yaml_Marshal := yaml_Marshal (WorkflowEnv := demo_env)
|}.
Definition print_name (_ : string) : string * option error := (("wf-1" +:+ nl)%string, None).
Example job_name_has_line_end :
  SubmitWorkflow (H7 := couler_service_env) demo_kubernetes print_name "SELECT 1;" demo_user (∅ : tables) =
  (Ok [MJob ("wf-1" +:+ nl) ""], ∅).
Proof. by vm_compute. Qed.
