(* ===== verification/Archive.v ===== *)
(** * Directories as archives (go/tar/tar.go)

    [ZipDir] packs a directory into a compressed archive, [UnzipDir] unpacks one.  Walking a
    directory, files, and the formats of packages archive/tar and compress/gzip are the class
    [Files]; an archive is a list of entries with the bytes that encode it. *)

From S2P Require Import Prelude GoStrings GoState GoConv.

Local Open Scope Z_scope.

(** [tar.Header] with what was written behind it; [h_Typeflag] is the byte of the source. *)
Definition TypeReg : ascii := "0".
Definition TypeSymlink : ascii := "2".
Definition TypeChar : ascii := "3".
Definition TypeBlock : ascii := "4".
Definition TypeDir : ascii := "5".
Definition TypeFifo : ascii := "6".
Record entry := mkEntry { h_Name : string; h_Typeflag : ascii; h_Mode : Z; h_Size : Z; h_Linkname : string; h_content : string }.
(** [os.FileInfo]: what the path itself is, not what a link leads to. *)
Inductive file_kind := Regular | Directory | Symlink | CharDevice | BlockDevice | NamedPipe | Socket | Irregular.
Record FileInfo := mkFileInfo { i_kind : file_kind; i_Perm : Z; i_Size : Z }.
(** What [filepath.Walk] gives for a path: its information, or nothing but an error. *)
Record found := mkFound { f_path : string; f_info : result FileInfo }.

#[export] Instance entry_eq_dec : EqDecision entry.
Proof. solve_decision. Defined.
#[export] Instance file_kind_eq_dec : EqDecision file_kind.
Proof. solve_decision. Defined.

Class Files (D : Type) := {
  Walk : string → D → list found;                    (* filepath.Walk: a directory before what it contains *)
  FileStat : string → st D unit;                     (* os.Stat *)
  IsNotExist : error → bool;                         (* os.IsNotExist *)
  MkdirAll : string → Z → st D unit;
  ReadAll : string → st D string;                    (* os.Open, which follows links, and io.Copy from the file *)
  OpenFile : string → Z → st D unit;                 (* with O_CREATE|O_RDWR: the content is kept *)
  WriteStart : string → string → st D unit;          (* io.Copy to a file that was just opened *)
  tar_gz : list entry → result string;               (* the bytes that the writers of the two packages make *)
  untar : string → list entry * option error         (* tr.Next until the end or an error *)
}.

(** [tar.FileInfoHeader(fi, file)]: only a regular file has a size.  The owner and the times
    are left out. *)
Definition FileInfoHeader (fi : FileInfo) (link : string) : result entry :=
  let header flag size link := Ok (mkEntry "" flag (i_Perm fi) size link "") in
  match i_kind fi with
  | Regular => header TypeReg (i_Size fi) ""%string
  | Directory => header TypeDir 0 ""%string
  | Symlink => header TypeSymlink 0 link
  | CharDevice => header TypeChar 0 ""%string
  | BlockDevice => header TypeBlock 0 ""%string
  | NamedPipe => header TypeFifo 0 ""%string
  | Socket => Fail (Errorf "archive/tar: sockets not supported" [])
  | Irregular => Fail (Errorf "archive/tar: unknown file mode" [])
  end.

(** [tar.Writer]: its state is the entries written so far.  The next header and [Close] want
    all of the size that the last header announced, and a write does not go beyond it. *)
Definition missing (es : list entry) : Z :=
  match last es with Some e => h_Size e - Z.of_nat (str_len (h_content e)) | None => 0 end.
Definition tar_Flush (es : list entry) : result unit :=
  if decide (0 < missing es) then Fail (Errorf "archive/tar: missed writing %d bytes" [pretty (missing es)]) else Ok tt.
Definition tar_WriteHeader (es : list entry) (h : entry) : result (list entry) := _ ← tar_Flush es; Ok (es ++ [h]).
Definition tar_Write (es : list entry) (data : string) : result (list entry) :=
  if decide (missing es < Z.of_nat (str_len data)) then Fail (Errorf "archive/tar: write too long" [])
  else Ok (alter (λ e, mkEntry (h_Name e) (h_Typeflag e) (h_Mode e) (h_Size e) (h_Linkname e) (h_content e +:+ data)) (pred (length es)) es).

Section archive.
Context `{Files D}.

(** An error of the walk leaves [fi] nil, which [tar.FileInfoHeader] refuses.  Whatever is not a
    directory is opened and copied, links and pipes too. *)
Definition walk_entry (es : list entry) (f : found) : st D (list entry) :=
  match f_info f with
  | Ok fi =>
    h ← lift (FileInfoHeader fi (f_path f));
    es ← lift (tar_WriteHeader es (mkEntry (f_path f) (h_Typeflag h) (h_Mode h) (h_Size h) (h_Linkname h) ""));
    if decide (i_kind fi = Directory) then mret es
    else data ← ReadAll (f_path f); lift (tar_Write es data)
  | _ => fail (Errorf "archive/tar: FileInfo is nil" [])
  end.
Definition compress (src : string) : st D string :=
  d ← get;
  es ← foldS walk_entry [] (Walk src d);
  lift (tar_Flush es) ≫= λ _,
  lift (tar_gz es).
Definition ZipDir (dir output : string) : st D unit :=
  buf ← compress dir;
  OpenFile output 420 (* 0644 *) ≫= λ _,
  WriteStart output buf.

(** The name of an entry is joined to the directory as it is; links and the like are skipped. *)
Definition unpack (dst : string) (e : entry) : st D unit :=
  let target := path_Join [dst; h_Name e] in
  if decide (h_Typeflag e = TypeDir) then
    s ← attempt (FileStat target);
    match s with inl _ => mret tt | inr _ => MkdirAll target 493 (* 0755 *) end
  else if decide (h_Typeflag e = TypeReg) then
    OpenFile target (h_Mode e) ≫= λ _,
    WriteStart target (h_content e)
  else mret tt.
Definition uncompress (src dst : string) : st D unit :=
  let '(es, err) := untar src in
  eachS (unpack dst) es ≫= λ _,
  match err with Some e => fail e | None => mret tt end.
Definition UnzipDir (tarball output : string) : st D unit :=
  s ← attempt (FileStat tarball);
  (match s with inr e => if IsNotExist e then fail e else mret tt | inl _ => mret tt end) ≫= λ _,
  rd ← ReadAll tarball;
  uncompress rd output.
End archive.

(** ** What a file system promises

    [resolve p d] is the file that a path means when links are followed, and [bytes_at x d] the
    content of such a file.  None of these operations makes or moves a link.  Writing at the
    start of a file replaces as many bytes as there are, and leaves what is behind. *)

Definition over (new old : string) : string := new +:+ str_drop (str_len new) old.

Class FileLaws (D : Type) `{Files D} := {
  resolve : string → D → string;
  bytes_at : string → D → option string;
  stat_law p d : (FileStat p d).2 = d;
  mkdir_law p mode d r d' : MkdirAll p mode d = (r, d') →
    (∀ q, resolve q d' = resolve q d) ∧ ∀ x, bytes_at x d' = bytes_at x d;
  read_law p d s d' : ReadAll p d = (Ok s, d') → d' = d ∧ bytes_at (resolve p d) d = Some s;
  open_law p mode d d' : OpenFile p mode d = (Ok tt, d') →
    (∀ q, resolve q d' = resolve q d) ∧
    ∀ x, bytes_at x d' = if decide (x = resolve p d) then Some (default "" (bytes_at x d))%string else bytes_at x d;
  write_law p s d d' old : bytes_at (resolve p d) d = Some old → WriteStart p s d = (Ok tt, d') →
    (∀ q, resolve q d' = resolve q d) ∧
    ∀ x, bytes_at x d' = if decide (x = resolve p d) then Some (over s old) else bytes_at x d;
  untar_gz es s : tar_gz es = Ok s → untar s = (es, None)
}.

Section laws.
Context `{FileLaws D}.

Lemma over_nil s : over s "" = s.
Proof. unfold over. destruct s; [done|]. cbn. by rewrite ?str_app_nil_r. Qed.

Definition content_of (p : string) (d : D) : option string := bytes_at (resolve p d) d.
Definition is_file (e : entry) : bool := bool_decide (h_Typeflag e = TypeReg).
Definition target (dst : string) (e : entry) : string := path_Join [dst; h_Name e].

Lemma create_content p mode s d d' :
  (OpenFile p mode ≫= λ _, WriteStart p s) d = (Ok tt, d') →
  (∀ q, resolve q d' = resolve q d) ∧
  ∀ x, bytes_at x d' = if decide (x = resolve p d) then Some (over s (default "" (bytes_at x d)))%string else bytes_at x d.
Proof.
  intros ([] & d1 & [Hr1 Ho]%open_law & Hw)%st_bind_Ok.
  pose proof (Ho (resolve p d)) as Hp. rewrite decide_True in Hp by done. rewrite <- Hr1 in Hp at 1.
  destruct (write_law _ _ _ _ _ Hp Hw) as [Hr2 Hx]. split; [intros q; by rewrite Hr2|].
  intros x. rewrite Hx, Ho, Hr1. case_decide; by subst.
Qed.

(** The content of [x] when entries have been written over it, each at its place. *)
Definition written_over (place : entry → string) (x : string) (old : option string) (es : list entry) : option string :=
  foldl (λ old e, if is_file e && bool_decide (place e = x)
                  then Some (over (h_content e) (default "" old))%string else old) old es.

Lemma unpack_content dst e d d' :
  unpack dst e d = (Ok tt, d') →
  (∀ q, resolve q d' = resolve q d) ∧
  ∀ x, bytes_at x d' = written_over (λ e, resolve (target dst e) d) x (bytes_at x d) [e].
Proof.
  unfold unpack, written_over, is_file. cbn [foldl]. fold (target dst e). case_decide as Hdir.
  - rewrite bool_decide_false by (rewrite Hdir; done). cbn [andb]. intros (s & d1 & Hs & Hm)%st_bind_Ok.
    unfold attempt in Hs. pose proof (stat_law (target dst e) d) as Hst.
    destruct (FileStat _ d) as [[u|e'| |] d2]; cbn in Hst; subst d2; try done; injection Hs as <- <-.
    + apply mret_Ok in Hm as [_ <-]. done.
    + by eapply mkdir_law.
  - case_decide as Hreg; [|intros [_ <-]%mret_Ok; by rewrite bool_decide_false].
    rewrite bool_decide_true by done. cbn [andb]. intros [Hr Hx]%create_content. split; [exact Hr|]. intros x.
    rewrite Hx. case_decide as Hp; [by subst x; rewrite bool_decide_true|by rewrite bool_decide_false].
Qed.

Lemma unpack_contents dst es d d' x :
  eachS (unpack dst) es d = (Ok tt, d') →
  (∀ q, resolve q d' = resolve q d) ∧
  bytes_at x d' = written_over (λ e, resolve (target dst e) d) x (bytes_at x d) es.
Proof.
  revert d. induction es as [|e es IH]; intros d; cbn [eachS]; [by intros [_ <-]%mret_Ok|].
  intros ([] & d1 & [Hr1 Hu]%unpack_content & [Hr2 Hx]%IH)%st_bind_Ok. split; [intros q; by rewrite Hr2|].
  rewrite Hx, Hu. unfold written_over. cbn [foldl]. generalize (bytes_at x d). clear -Hr1.
  intros old. generalize (if is_file e && bool_decide (resolve (target dst e) d = x)
    then Some (over (h_content e) (default "" old))%string else old). clear old.
  induction es as [|e' es IH]; intros old; [done|]. cbn [foldl]. by rewrite Hr1, IH.
Qed.

Lemma written_over_other place x es old :
  (∀ e, e ∈ es → is_file e = true → place e ≠ x) → written_over place x old es = old.
Proof.
  intros Hd. induction es as [|e es IH] in old, Hd |- *; [done|]. unfold written_over. cbn [foldl].
  destruct (is_file e) eqn:Hf; cbn [andb].
  - rewrite bool_decide_false by (apply Hd; [by left|done]). apply IH. intros e2 H2. apply Hd. by right.
  - apply IH. intros e2 H2. apply Hd. by right.
Qed.

Lemma written_over_once place es i e :
  NoDup (place <$> es) → es !! i = Some e →
  written_over place (place e) None es = if is_file e then Some (h_content e) else None.
Proof.
  intros Hnd Hi. rewrite <- (take_drop_middle _ _ _ Hi) in Hnd |- *.
  rewrite fmap_app, fmap_cons in Hnd. apply NoDup_app in Hnd as (_ & Hbefore & (Hafter & _)%NoDup_cons).
  unfold written_over. rewrite foldl_app. cbn [foldl]. rewrite bool_decide_true, andb_true_r by done.
  match goal with |- foldl _ ?old _ = _ => transitivity (written_over place (place e) old (drop (S i) es)); [done|] end.
  change (foldl _ None (take i es)) with (written_over place (place e) None (take i es)).
  rewrite !written_over_other; [by rewrite over_nil| |].
  - intros e' He' _ Heq. apply (Hbefore (place e')); [by apply list_elem_of_fmap_2|]. rewrite Heq. by left.
  - intros e' He' _ Heq. apply Hafter. rewrite <- Heq. by apply list_elem_of_fmap_2.
Qed.

(** *** The walk *)

(** A header is for a file of a size, and has at most as much behind it; what is neither a file
    nor a directory has nothing behind it, so it could only be copied if it was empty. *)
Definition found_entry (d : D) (f : found) (e : entry) : Prop :=
  h_Name e = f_path f ∧ ∃ fi, f_info f = Ok fi ∧ is_file e = bool_decide (i_kind fi = Regular) ∧
    (Z.of_nat (str_len (h_content e)) ≤ h_Size e ∨ i_kind fi = Directory) ∧
    h_Size e = (if decide (i_kind fi = Regular) then i_Size fi else 0) ∧
    (i_kind fi = Directory ∨ content_of (f_path f) d = Some (h_content e)).
Definition full_entry (e : entry) : Prop := h_Size e ≤ Z.of_nat (str_len (h_content e)).

Lemma tar_Flush_full es : tar_Flush es = Ok tt → Forall full_entry (removelast es) → Forall full_entry es.
Proof.
  unfold tar_Flush, missing. case_decide as Hm; [done|]. intros _ Hf.
  destruct es as [|e es _] using rev_ind; [constructor|].
  rewrite removelast_last in Hf. rewrite last_snoc in Hm. apply Forall_app. split; [done|]. constructor; [unfold full_entry; lia|constructor].
Qed.

Lemma FileInfoHeader_spec fi link h : FileInfoHeader fi link = Ok h →
  bool_decide (h_Typeflag h = TypeReg) = bool_decide (i_kind fi = Regular) ∧
  h_Size h = if decide (i_kind fi = Regular) then i_Size fi else 0.
Proof. unfold FileInfoHeader. by destruct (i_kind fi); intros [= <-]. Qed.

Lemma walk_entry_spec es0 f d es d' :
  walk_entry es0 f d = (Ok es, d') →
  d' = d ∧ tar_Flush es0 = Ok tt ∧ ∃ e, es = es0 ++ [e] ∧ found_entry d f e.
Proof.
  unfold walk_entry, tar_WriteHeader, tar_Write. destruct (f_info f) as [fi| | |] eqn:Hi; try done.
  intros (h & ? & [[Hflag Hsize]%FileInfoHeader_spec <-]%lift_Ok & (es1 & ? & [([] & Hfl & [= <-])%bind_Ok <-]%lift_Ok & Hw)%st_bind_Ok)%st_bind_Ok.
  unfold missing in Hw. rewrite last_snoc in Hw. cbn in Hw.
  case_decide as Hdir.
  - apply mret_Ok in Hw as [<- <-]. split_and!; [done..|]. eexists. split; [reflexivity|]. split; [done|].
    exists fi. split_and!; [done|exact Hflag|by right|exact Hsize|by left].
  - apply st_bind_Ok in Hw as (data & d1 & [-> Hdata]%read_law & [Hw ->]%lift_Ok). case_decide as Hlen; [done|].
    injection Hw as <-. split_and!; [done..|]. eexists. split.
    + rewrite length_app, Nat.add_comm. cbn. rewrite alter_app_r_alt, Nat.sub_diag by done. reflexivity.
    + split; [done|]. exists fi. cbn. split_and!; [done|exact Hflag|left; lia|exact Hsize|by right].
Qed.

Lemma walk_entries fs es0 es d d' :
  foldS walk_entry es0 fs d = (Ok es, d') →
  d' = d ∧ (Forall full_entry (removelast es0) → Forall full_entry (removelast es)) ∧ ∃ new, es = es0 ++ new ∧ Forall2 (found_entry d) fs new.
Proof.
  revert es0. induction fs as [|f fs IH]; intros es0; cbn [foldS].
  - intros [<- <-]%mret_Ok. split_and!; [done..|]. exists []. by rewrite app_nil_r.
  - intros (es1 & d1 & (-> & Hfl & e & -> & He)%walk_entry_spec & (-> & Hfull & new & -> & Hnew)%IH)%st_bind_Ok. split; [done|].
    split; [|exists (e :: new); rewrite <- app_assoc; by split; [|constructor]].
    intros Hf. apply Hfull. rewrite removelast_last. by apply tar_Flush_full.
Qed.

Lemma compress_entries dir d buf d' :
  compress dir d = (Ok buf, d') →
  d' = d ∧ ∃ es, untar buf = (es, None) ∧ Forall full_entry es ∧ Forall2 (found_entry d) (Walk dir d) es.
Proof.
  intros (dx & dy & [= <- <-] & (es & dz & (-> & Hfull & new & -> & Hall)%walk_entries &
    ([] & ? & [Hfl <-]%lift_Ok & [Hgz <-]%lift_Ok)%st_bind_Ok)%st_bind_Ok)%st_bind_Ok.
  split; [done|]. exists new. rewrite (untar_gz _ _ Hgz). split_and!; [done| |done]. apply tar_Flush_full; [done|]. by apply Hfull.
Qed.

(** The archive that [ZipDir] leaves, where there was none. *)
Lemma ZipDir_spec dir ball d d' :
  content_of ball d = None → ZipDir dir ball d = (Ok tt, d') →
  ∃ buf es, content_of ball d' = Some buf ∧ untar buf = (es, None) ∧ Forall full_entry es ∧ Forall2 (found_entry d) (Walk dir d) es ∧
    (∀ q, resolve q d' = resolve q d) ∧ ∀ x, x ≠ resolve ball d → bytes_at x d' = bytes_at x d.
Proof.
  intros Hball (buf & d0 & (-> & es & Hes & Hfull & Hall)%compress_entries & [Hr Hx]%create_content)%st_bind_Ok.
  exists buf, es. split_and!; [|done..|].
  - unfold content_of. rewrite Hr, Hx, decide_True by done. fold (content_of ball d). rewrite Hball. cbn. by rewrite over_nil.
  - intros x Hne. by rewrite Hx, decide_False.
Qed.

Lemma UnzipDir_spec ball dst d d' buf es x :
  content_of ball d = Some buf → untar buf = (es, None) → UnzipDir ball dst d = (Ok tt, d') →
  (∀ q, resolve q d' = resolve q d) ∧
  bytes_at x d' = written_over (λ e, resolve (target dst e) d) x (bytes_at x d) es.
Proof.
  intros Hb Hes (u & d1 & Hst & ([] & d2 & Hgo & (rd & d3 & [-> Hr]%read_law & Hun)%st_bind_Ok)%st_bind_Ok)%st_bind_Ok.
  assert (d1 = d) as ->.
  { pose proof (stat_law ball d) as Hs. unfold attempt in Hst. destruct (FileStat ball d) as [[]]; cbn in Hs; by simplify_eq. }
  assert (d2 = d) as -> by (destruct u as [|e]; [|destruct (IsNotExist e); [discriminate Hgo|]]; by apply mret_Ok in Hgo as [_ ->]).
  unfold content_of in Hb. rewrite Hb in Hr. injection Hr as <-. unfold uncompress in Hun. rewrite Hes in Hun.
  apply st_bind_Ok in Hun as ([] & d4 & Hun & [_ ->]%mret_Ok). by apply unpack_contents.
Qed.

Definition at_dst (dst : string) (f : found) : string := path_Join [dst; f_path f].

(** C37: what is packed is unpacked.  After a [ZipDir] and an [UnzipDir] that succeed, every
    regular file that the walk of the directory found is in the new directory, under its path
    and with its whole content, of the size that the walk told, and no other path that the walk
    found is a file there.  A link, a pipe or a device among what the walk found is lost, and
    packing succeeds only if what is read behind it is empty.  This is if neither the archive
    nor the targets were there and the targets are distinct files when links are followed. *)
Theorem zip_roundtrip dir ball dst d1 d2 d3 :
  content_of ball d1 = None →
  (∀ g, g ∈ Walk dir d1 → resolve (at_dst dst g) d1 ≠ resolve ball d1 ∧ content_of (at_dst dst g) d1 = None) →
  NoDup ((λ g, resolve (at_dst dst g) d1) <$> Walk dir d1) →
  ZipDir dir ball d1 = (Ok tt, d2) → UnzipDir ball dst d2 = (Ok tt, d3) →
  ∀ f, f ∈ Walk dir d1 → ∃ fi, f_info f = Ok fi ∧
    match i_kind fi with
    | Regular => ∃ s, content_of (f_path f) d1 = Some s ∧ Z.of_nat (str_len s) = i_Size fi ∧ content_of (at_dst dst f) d3 = Some s
    | Directory => content_of (at_dst dst f) d3 = None
    | _ => content_of (f_path f) d1 = Some ""%string ∧ content_of (at_dst dst f) d3 = None
    end.
Proof.
  intros Hball Hnew Hnd (buf & es & Hb & Hes & Hfull & Hall & Hr & Hsame)%ZipDir_spec Hu f Hf; [|done].
  destruct (UnzipDir_spec _ _ _ _ _ _ (resolve (at_dst dst f) d1) Hb Hes Hu) as [Hr2 Hx].
  destruct (Hnew f Hf) as [Hne Hnone]. rewrite Hsame in Hx by done. unfold content_of in Hnone. rewrite Hnone in Hx.
  apply list_elem_of_lookup in Hf as (i & Hi).
  destruct (Forall2_lookup_l _ _ _ _ _ Hall Hi) as (e & He & Hname & fi & Hinfo & Hkind & Hlen & Hsize & Hc).
  assert (content_of (at_dst dst f) d3 = if bool_decide (i_kind fi = Regular) then Some (h_content e) else None) as Hd3.
  { unfold content_of at 1. rewrite Hr2, Hr, Hx, <- Hkind. unfold at_dst. rewrite <- Hname, <- Hr.
    apply (written_over_once (λ e, resolve (target dst e) d2) es i); [|done].
    assert ((λ e, resolve (target dst e) d2) <$> es = (λ g, resolve (at_dst dst g) d1) <$> Walk dir d1) as ->; [|done].
    clear -Hall Hr. induction Hall as [|g e fs es (Hn & _) _ IH]; [done|]. rewrite !fmap_cons, IH, Hr.
    unfold target, at_dst. by rewrite Hn. }
  pose proof (Forall_lookup_1 _ _ _ _ Hfull He) as Hfu. unfold full_entry in Hfu. rewrite Hsize in Hfu, Hlen. rewrite Hd3.
  exists fi. split; [done|]. destruct (decide (i_kind fi = Regular)) as [Hreg|Hreg].
  - rewrite Hreg in Hlen, Hc |- *. destruct Hlen as [Hlen|], Hc as [|Hc]; try done. exists (h_content e). split_and!; [done|lia|].
    by rewrite bool_decide_true.
  - rewrite bool_decide_false by done. destruct (i_kind fi); try done.
    all: destruct Hlen as [Hlen|], Hc as [|Hc]; try done; rewrite Hc; destruct (h_content e); [by split|cbn in Hlen; lia].
Qed.
End laws.

(** A name that climbs leaves the directory it is unpacked to. *)
Example climbing : target "/tmp/sqlflow-zoo-repo1/modelrepo" (mkEntry "../../../etc/cron.d/job" TypeReg 420 0 "" "") = "/etc/cron.d/job"%string.
Proof. vm_compute. reflexivity. Qed.
(** An archive that is written over a longer one is followed by the rest of that. *)
Example archive_tail : over "new" "older one" = "newer one"%string.
Proof. vm_compute. reflexivity. Qed.

(** ** Files in the memory *)

Definition entry_tuple (e : entry) : string * string * Z * Z * string * string :=
  (h_Name e, char1 (h_Typeflag e), h_Mode e, h_Size e, h_Linkname e, h_content e).
Definition tuple_entry (t : string * string * Z * Z * string * string) : entry :=
  let '(n, f, m, s, l, c) := t in mkEntry n (match f with String a _ => a | EmptyString => TypeReg end) m s l c.
#[export] Instance entry_countable : Countable entry.
Proof. by apply (inj_countable' entry_tuple tuple_entry); intros []. Defined.

Fixpoint bits (p : positive) : string :=
  match p with xH => "" | xO p => String "0" (bits p) | xI p => String "1" (bits p) end.
Fixpoint of_bits (s : string) : positive :=
  match s with EmptyString => xH | String c s => if decide (c = "0"%char) then xO (of_bits s) else xI (of_bits s) end.
Lemma of_bits_bits p : of_bits (bits p) = p.
Proof. induction p as [p IH|p IH|]; cbn [bits of_bits]; [|rewrite decide_True by done|done]; by rewrite IH. Qed.

(** A disk of files and of links to files. *)
Inductive node := Bytes (s : string) | Link (t : string).
Notation disk := (gmap string node).
Definition disk_follow (p : string) (d : disk) : string := match d !! p with Some (Link t) => t | _ => p end.
Definition disk_bytes (x : string) (d : disk) : option string := match d !! x with Some (Bytes s) => Some s | _ => None end.

Definition no_file : error := Errorf "no such file" [].
Definition file_of (p : string) (d : disk) : result string :=
  match disk_bytes (disk_follow p d) d with Some s => Ok s | None => Fail no_file end.
Definition node_info (n : node) : FileInfo :=
  match n with
  | Bytes s => mkFileInfo Regular 420 (Z.of_nat (str_len s))
  | Link t => mkFileInfo Symlink 511 (Z.of_nat (str_len t))
  end.
(** A link that leads to a link is refused, as a link to itself is. *)
Definition disk_put (p s : string) (d : disk) : result unit * disk :=
  match d !! disk_follow p d with Some (Link _) => (Fail no_file, d) | _ => (Ok tt, <[disk_follow p d := Bytes s]> d) end.
#[export] Instance memory_files : Files disk := {|
  Walk src d := mkFound src (Ok (mkFileInfo Directory 493 4096)) ::
    map (λ '(p, n), mkFound p (Ok (node_info n))) (filter (λ '(p, _), HasPrefix p (src +:+ "/") = true) (map_to_list d));
  FileStat p d := ((_ ← file_of p d; Ok tt), d);
  IsNotExist _ := true;
  MkdirAll _ _ := mret tt;
  ReadAll p d := (file_of p d, d);
  OpenFile p _ d := disk_put p (default "" (disk_bytes (disk_follow p d) d)) d;
  WriteStart p s d := disk_put p (over s (default "" (disk_bytes (disk_follow p d) d))) d;
  tar_gz es := Ok (bits (encode es));
  untar s := match decode (of_bits s) with Some es => (es, None) | None => ([], Some no_file) end
|}.

Lemma disk_put_spec p s d d' : disk_put p s d = (Ok tt, d') →
  (∀ q, disk_follow q d' = disk_follow q d) ∧ ∀ x, disk_bytes x d' = if decide (x = disk_follow p d) then Some s else disk_bytes x d.
Proof.
  unfold disk_put. intros Hp. assert (d' = <[disk_follow p d := Bytes s]> d ∧ ∀ t, d !! disk_follow p d ≠ Some (Link t)) as [-> Hl].
  { destruct (d !! disk_follow p d) as [[]|]; by simplify_eq. }
  clear Hp. split; intros x; destruct (decide (disk_follow p d = x)) as [<-|Hne].
  - unfold disk_follow at 1. rewrite lookup_insert_eq. unfold disk_follow at 2.
    destruct (d !! disk_follow p d) as [[|t]|] eqn:Hx; [done|by destruct (Hl t)|done].
  - unfold disk_follow at 1. by rewrite lookup_insert_ne.
  - unfold disk_bytes. by rewrite lookup_insert_eq, decide_True.
  - unfold disk_bytes. by rewrite lookup_insert_ne, decide_False.
Qed.
#[export] Program Instance memory_file_laws : FileLaws disk := {| resolve := disk_follow; bytes_at := disk_bytes |}.
Next Obligation. done. Qed.
Next Obligation. by intros p mode d r d' [= _ <-]. Qed.
Next Obligation.
  intros p d s d'. unfold ReadAll, memory_files, file_of. by destruct (disk_bytes (disk_follow p d) d) eqn:Hp; intros [= -> <-].
Qed.
Next Obligation. intros p mode d d' [Hr Hx]%disk_put_spec. split; [exact Hr|]. intros x. rewrite Hx. by case_decide; subst. Qed.
Next Obligation. intros p s d d' old Hp [Hr Hx]%disk_put_spec. by rewrite Hp in Hx. Qed.
Next Obligation. intros es s [= <-]. cbn. by rewrite of_bits_bits, decode_encode. Qed.

Definition run_state {D A} (m : st D A) (d : D) : D := (m d).2.
Lemma run_state_run {D A} (m : st D A) d a : (m d).1 = Ok a → m d = (Ok a, run_state m d).
Proof. unfold run_state. destruct (m d). by intros [= ->]. Qed.

(** A package with an empty file and a link to it, and the same with a link to another file:
    the first is packed without the link, the second cannot be packed. *)
Definition package (link : string) : disk :=
  list_to_map [("r/Dockerfile", Bytes "FROM a"); ("r/m/__init__.py", Bytes ""); ("r/n/__init__.py", Link link)]%string.
Definition demo_disk : disk := package "r/m/__init__.py".
Definition zipped : disk := run_state (ZipDir "r" "a.tar.gz") demo_disk.
Definition unzipped : disk := run_state (UnzipDir "a.tar.gz" "out") zipped.
Example link_lost :
  (ZipDir "r" "a.tar.gz" demo_disk).1 = Ok tt ∧ (UnzipDir "a.tar.gz" "out" zipped).1 = Ok tt ∧
  content_of "out/r/m/__init__.py" unzipped = Some ""%string ∧ content_of "out/r/n/__init__.py" unzipped = None.
Proof. vm_compute. split_and!; reflexivity. Qed.
Example link_refused :
  (ZipDir "r" "a.tar.gz" (package "r/Dockerfile")).1 = Fail (Errorf "archive/tar: write too long" []).
Proof. vm_compute. reflexivity. Qed.

Lemma zip_roundtrip_witness : content_of "out/r/Dockerfile" unzipped = Some "FROM a"%string.
Proof.
  destruct (zip_roundtrip "r" "a.tar.gz" "out" demo_disk zipped unzipped) with
    (f := mkFound "r/Dockerfile" (Ok (mkFileInfo Regular 420 6))) as (fi & [= <-] & s & [= <-] & _ & Hs).
  - vm_compute. reflexivity.
  - apply Forall_forall. apply (bool_decide_unpack _). vm_compute. exact I.
  - apply (bool_decide_unpack _). vm_compute. exact I.
  - apply run_state_run. vm_compute. reflexivity.
  - apply run_state_run. vm_compute. reflexivity.
  - apply list_elem_of_In. vm_compute. tauto.
  - exact Hs.
Defined.
