(* ===== verification/ZooServer.v ===== *)
(** * The server of the model zoo (go/modelzooserver)

    The model zoo keeps repositories of model definitions, which are built as images, and
    trained models, which are files of sqlfs.  The server gets names from everybody, checks
    them and puts them into statements of SQL. *)

From S2P Require Import Prelude GoStrings GoState GoConv Regexp Base64 Sqlfs Model World FeatureColumn NormalStmt LogWriter Steps Archive.

Local Open Scope Z_scope.

(** ** Names (input_check.go) *)

(** [^[class]{lo,lo+k}$] *)
Fixpoint r_upto (k : nat) (r : re) : re :=
  match k with O => REps | S k => RAlt REps (RCat r (r_upto k r)) end.
Fixpoint r_between (lo k : nat) (r : re) : re :=
  match lo with O => r_upto k r | S lo => RCat r (r_between lo k r) end.

Definition alnum (c : ascii) : bool :=
  let b := byte c in ascii_lower_letter b || ascii_upper_letter b || ascii_digit b.
Definition tag_char (c : ascii) : bool := alnum c || bool_decide (c ∈ ["_"; "-"; "."]%char).
Definition image_char (c : ascii) : bool := alnum c || bool_decide (c ∈ ["."; "_"; "/"; "-"]%char).
Definition name_re : re := r_between 6 250 (RClass tag_char).
Definition tag_re : re := r_between 0 256 (RClass tag_char).
Definition image_re : re := r_between 6 250 (RClass image_char).

Definition checkName (name : string) : result unit :=
  if decide (str_len name < 6)%nat then Fail (Errorf "model name should have at least 6 characters" [])
  else if re_match name_re name then Ok tt
  else Fail (Errorf "model name should be constist of letters, numbers, underscroll, dash, and must start with a letter" []).
Definition checkTag (name : string) : result unit :=
  if re_match tag_re name then Ok tt
  else Fail (Errorf "model tag should be constist of letters, numbers, underscroll, dash, and dots" []).
Definition checkImageURL (imageURL : string) : result unit :=
  if decide (str_len imageURL < 6)%nat then Fail (Errorf "imageURL should have at least 6 characters" [])
  else if re_match image_re imageURL then Ok tt
  else Fail (Errorf "docker image URL should be format like [hub.your-registry.com/group/]your_image_name" []).
Definition checkNameAndTag (name tag : string) : result unit := checkName name ≫= λ _, checkTag tag.
Definition checkImageAndTag (imageURL tag : string) : result unit := checkImageURL imageURL ≫= λ _, checkTag tag.

(** ** What the server asks of the outside *)

(** Rows as the driver gives them: a cell is NULL or a text. *)
Definition row : Type := list (option string).
(** The end of a pipe that a command gets. *)
Inductive pipe_end := pipe_in | pipe_out.

Class ZooWorld (D : Type) `{World D} := {
  store : string → Outside D;                          (* the database of a data source *)
  models ds : @ModelWorld D (store ds);
  Query : string → string → st D (list row);           (* of a data source: what Next and Scan see; nobody asks rows.Err *)
  LastInsertId : string → string → st D Z;             (* Exec, then LastInsertId of its result *)
  OpenDB : string → st D unit;
  CloseDB : string → st D unit;
  ioutil_TempDir : string → string → st D string;
  os_RemoveAll : string → st D unit;
  os_Create : string → st D unit;
  fd_Write : string → string → st D unit;              (* to the end of the file just created *)
  os_Mkdir : string → Z → st D unit;
  os_IsNotExist : string → st D bool;                  (* of the error of os.Stat *)
  os_Getwd : st D string;
  os_Chdir : string → st D unit;
  ioutil_ReadDir : string → st D (list (string * bool)); (* names, and which are directories *)
  cmd_Start : command → pipe_end → st D Z;
  cmd_Wait : Z → st D unit;
  ClosePipe : st D unit;
  http_Get : string → st D (Z * result string);        (* the status code, and reading the body *)
  Unmarshal_desc : string → result (string * string);  (* json.Unmarshal: name and docstring *)
  SendAndClose : bool → string → st D unit;            (* the response of a stream *)
  SendModel : string → string → string → st D unit     (* one response of DownloadModel *)
}.

(** The server has one connection. *)
Class ZooConn := { s_URL : string; s_Driver : string; s_Hive : string * string * string * string }.

(** ** Statements *)

Definition modelCollTable : string := "sqlflow_model_zoo.model_repos".
Definition modelDefTable : string := "sqlflow_model_zoo.model_definitions".
Definition trainedModelTable : string := "sqlflow_model_zoo.models".
Definition publicModelDB : string := "sqlflow_public_models".

Definition createTableStmts : string := Join
  ["CREATE DATABASE IF NOT EXISTS sqlflow_model_zoo;";
   "";
   "CREATE TABLE IF NOT EXISTS sqlflow_model_zoo.model_repos (";
   "    id INT AUTO_INCREMENT,";
   "    name VARCHAR(255),";
   "    version VARCHAR(255),";
   "    PRIMARY KEY (id)";
   ");";
   "";
   "CREATE TABLE IF NOT EXISTS sqlflow_model_zoo.model_definitions (";
   "    id INT AUTO_INCREMENT,";
   "    model_coll_id INT,";
   "    class_name VARCHAR(255),";
   "    args_desc TEXT,";
   "    PRIMARY KEY (id),";
   "    FOREIGN KEY (model_coll_id) REFERENCES model_repos(id)";
   ");";
   "";
   "CREATE TABLE IF NOT EXISTS sqlflow_model_zoo.models (";
   "    id INT AUTO_INCREMENT,";
   "    model_def_id INT,";
   "    name VARCHAR(255),";
   "    version VARCHAR(255),";
   "    url VARCHAR(255),";
   "    description TEXT,";
   "    metrics TEXT,";
   "    PRIMARY KEY (id),";
   "    FOREIGN KEY (model_def_id) REFERENCES model_definitions(id)";
   ");"]%string (char1 (of_byte 10)).

Definition create_public_db : string := "CREATE DATABASE IF NOT EXISTS " +:+ publicModelDB +:+ ";".
Definition limits (Size Start : Z) : string :=
  if Size <=? 0 then ";" else " LIMIT " +:+ pretty Size +:+ " OFFSET " +:+ pretty Start +:+ ";".
Definition select_repos (Size Start : Z) : string :=
  "SELECT class_name, args_desc, b.name, b.version FROM " +:+ modelDefTable +:+ " LEFT JOIN " +:+ modelCollTable
  +:+ " AS b ON " +:+ modelDefTable +:+ ".model_coll_id=b.id" +:+ limits Size Start.
Definition select_models (Size Start : Z) : string := Join
  ["SELECT a.name, a.version, a.url, a.description, a.metrics, c.name, c.version FROM " +:+ trainedModelTable +:+ " AS a";
   "LEFT JOIN " +:+ modelDefTable +:+ " AS b ON a.model_def_id=b.id";
   "LEFT JOIN " +:+ modelCollTable +:+ " AS c ON b.model_coll_id=c.id"]%string (char1 (of_byte 10)) +:+ limits Size Start.
(** The source writes the word and in capitals when it releases a model. *)
Definition select_repo (word name version : string) : string :=
  "SELECT id FROM " +:+ modelCollTable +:+ " WHERE name='" +:+ name +:+ "' " +:+ word +:+ " version='" +:+ version +:+ "';".
Definition select_def (class_name : string) (coll : Z) : string :=
  "SELECT id FROM " +:+ modelDefTable +:+ " WHERE class_name='" +:+ class_name +:+ "' AND model_coll_id='" +:+ pretty coll +:+ "'".
Definition insert_repo (name version : string) : string :=
  "INSERT INTO " +:+ modelCollTable +:+ " (name, version) VALUES ('" +:+ name +:+ "', '" +:+ version +:+ "');".
Definition insert_def (coll : Z) (name doc : string) : string :=
  "INSERT INTO " +:+ modelDefTable +:+ " (model_coll_id, class_name, args_desc) VALUES (" +:+ pretty coll
  +:+ ", '" +:+ name +:+ "', '" +:+ doc +:+ "')".
Definition insert_model (def : Z) (name version url description metrics : string) : string :=
  "INSERT INTO " +:+ trainedModelTable +:+ " (model_def_id, name, version, url, description, metrics) VALUES ("
  +:+ pretty def +:+ ", '" +:+ name +:+ "', '" +:+ version +:+ "', '" +:+ url +:+ "', '" +:+ description +:+ "', '" +:+ metrics +:+ "')".
Definition delete_defs (coll : Z) : string := "DELETE FROM " +:+ modelDefTable +:+ " WHERE model_coll_id=" +:+ pretty coll +:+ ";".
Definition delete_repo (id : Z) : string := "DELETE FROM " +:+ modelCollTable +:+ " WHERE id=" +:+ pretty id +:+ ";".
Definition delete_model (name version : string) : string :=
  "DELETE FROM " +:+ trainedModelTable +:+ " WHERE name='" +:+ name +:+ "' AND version='" +:+ version +:+ "'".

(** The table of a model. *)
Definition modelTableName (name tag : string) : string :=
  publicModelDB +:+ "." +:+ ReplaceAll name "." "_" +:+ "_" +:+ ReplaceAll tag "." "_".

(** ** Requests and responses *)

Record ListModelRequest := mkList { lr_Size : Z; lr_Start : Z }.
Record ModelRepoResponse := mkRepoResponse { rr_ClassName : string; rr_ArgDescs : string; rr_ImageUrl : string; rr_Tag : string }.
Record ModelResponse := mkModelResponse {
  mr_Name : string; mr_Tag : string; mr_ModelStoreUrl : string; mr_Description : string; mr_Metric : string; mr_ImageUrl : string }.
(** A list with its size. *)
Record ListResponse (A : Type) := mkListResponse { l_Size : Z; l_items : list A }.
Arguments mkListResponse {A}. Arguments l_Size {A}. Arguments l_items {A}.
Record ReleaseModelRequest := mkRelease { rq_Name : string; rq_Tag : string; rq_Description : string; rq_DbConnStr : string }.
Record ReleaseModelRepoRequest := mkReleaseRepo { pr_Name : string; pr_Tag : string; pr_ContentTar : string }.
Record ReleaseModelLocalRequest := mkLocal {
  lq_Name : string; lq_Tag : string; lq_Description : string; lq_EvaluationMetrics : string;
  lq_ModelClassName : string; lq_ModelRepoImageUrl : string; lq_ContentTar : string }.
Record ReleaseResponse := mkReleased { Success : bool; Message : string }.
Definition released : ReleaseResponse := mkReleased true "".

(** A stream of requests: after them [Recv] gives the end of the file, or the same error again
    and again. *)
Record stream (A : Type) := mkStream { requests : list A; broken : option error }.
Arguments mkStream {A}. Arguments requests {A}. Arguments broken {A}.

(** [rows.Scan]: NULL is no string and no integer. *)
Definition scan_string (c : option string) : result string :=
  match c with Some s => Ok s | None => Fail (Errorf "converting NULL to string is unsupported" []) end.
Definition scan_int (c : option string) : result Z :=
  match c with
  | None => Fail (Errorf "converting NULL to int is unsupported" [])
  | Some s =>
    match Atoi s with
    | Some n => Ok n
    | None => Fail (Errorf "converting driver.Value type to a int: invalid syntax" [s])
    end
  end.
Definition wrong_count : error := Errorf "sql: expected %d destination arguments in Scan, not %d" [].

Section server.
Context `{DSNParsers} `{ZooWorld D} `{!Files D} `{ZooConn}.

(** Statements on the server's connection. *)
Definition db_Exec (sql : string) : st D unit := @Exec D (store s_URL) sql.
Definition db_Query (sql : string) : st D (list row) := Query s_URL sql.
Definition db_LastInsertId (sql : string) : st D Z := LastInsertId s_URL sql.
Definition publish_db : st D unit := db_Exec create_public_db.

(** The id in the first row, if there is one. *)
Definition first_id (sql : string) (missing : error) : st D Z :=
  rows ← db_Query sql;
  match rows with
  | [] => fail missing
  | [id] :: _ => lift (scan_int id)
  | _ => fail wrong_count
  end.

(** *** Lists *)

Definition scan_repo (r : row) : result ModelRepoResponse :=
  match r with
  | [n; args; image; imagetag] =>
    n ← scan_string n; args ← scan_string args; image ← scan_string image; imagetag ← scan_string imagetag;
    Ok (mkRepoResponse n args image imagetag)
  | _ => Fail wrong_count
  end.
Definition scan_model (r : row) : result ModelResponse :=
  match r with
  | [n; v; url; desc; m; imagename; imagetag] =>
    n ← scan_string n; v ← scan_string v; url ← scan_string url; desc ← scan_string desc; m ← scan_string m;
    imagename ← scan_string imagename; imagetag ← scan_string imagetag;
    Ok (mkModelResponse n v url desc m (imagename +:+ ":" +:+ imagetag))
  | _ => Fail wrong_count
  end.
Definition append_item {A} (scan : row → result A) (resp : ListResponse A) (r : row) : result (ListResponse A) :=
  a ← scan r; Ok (mkListResponse (wrap64 (l_Size resp + 1)) (l_items resp ++ [a])).
Definition list_rows {A} (sql : string) (scan : row → result A) : st D (ListResponse A) :=
  rows ← db_Query sql;
  foldS (λ resp r, lift (append_item scan resp r)) (mkListResponse 0 []) rows.
Definition ListModelRepos (req : ListModelRequest) : st D (ListResponse ModelRepoResponse) :=
  list_rows (select_repos (lr_Size req) (lr_Start req)) scan_repo.
Definition ListModels (req : ListModelRequest) : st D (ListResponse ModelResponse) :=
  list_rows (select_models (lr_Size req) (lr_Start req)) scan_model.

(** *** Dropping *)

Definition DropModelRepo (req : ReleaseModelRepoRequest) : st D ReleaseResponse :=
  lift (checkImageAndTag (pr_Name req) (pr_Tag req)) ≫= λ _,
  id ← first_id (select_repo "and" (pr_Name req) (pr_Tag req)) (Errorf "no model repo %s found" [pr_Name req]);
  db_Exec (delete_defs id) ≫= λ _,
  db_Exec (delete_repo id) ≫= λ _,
  mret released.

Definition DropModel (req : ReleaseModelRequest) : st D ReleaseResponse :=
  lift (checkNameAndTag (rq_Name req) (rq_Tag req)) ≫= λ _,
  db_Exec (delete_model (rq_Name req) (rq_Tag req)) ≫= λ _,
  mret released.

(** *** Images (image_build.go) *)

(** [parts[1:len(parts)-1]] leaves out the last part; without a slash it panics. *)
Definition registry_path (imageName : string) : result (string * string) :=
  if Contains imageName "." then
    match Split imageName "/" with
    | registryPart :: ((_ :: _) as rest) => Ok (registryPart, Join (take (length rest - 1) rest) "/")
    | _ => Panic
    end
  else Ok (Env "SQLFLOW_MODEL_ZOO_REGISTRY", imageName).
Definition imageExistsOnRegistry (imageName tag : string) : st D bool :=
  '(registryPart, imageNamePart) ← lift (registry_path imageName);
  resp ← attempt (http_Get ("https://" +:+ registryPart +:+ "/v1/repositories/" +:+ imageNamePart +:+ "/tags/" +:+ tag));
  match resp with
  | inr _ => mret false
  | inl (code, body) => mret (bool_decide (code = 200 ∧ is_ok body = true))
  end.

(** [os.Chdir(dir)], and back when the function returns. *)
Definition in_dir {A} (dir : string) (m : st D A) : st D A :=
  cwd ← os_Getwd;
  defer (os_Chdir cwd) (os_Chdir dir ≫= λ _, m).

(** The commands share one buffer for their errors. *)
Definition run_docker (cmdStderr : string) (args : list string) (stdin failure : string) : st D string :=
  o ← perform (exec_Command (mkCommand args "" stdin));
  let cmdStderr := cmdStderr +:+ str_concat (cmd_Stderr o) in
  match cmd_error o with
  | Some e => fail (Errorf failure [err_format e; cmdStderr])
  | None => mret cmdStderr
  end.
Definition buildAndPushImage (dir name tag : string) (dryrun : bool) : st D unit :=
  if Contains name "." then
    fail (Errorf "release model definition to public model zoo server should not contain url prefix like hub.docker.com/group/my_model_image, the registry is configured at model zoo server" [])
  else in_dir dir (
    let image := (name +:+ ":" +:+ tag)%string in
    cmdStderr ← run_docker "" ["docker"; "build"; "."; "-t"; image]%string "" "run docker build err: %v, stderr: %s";
    if dryrun then mret tt else
    let dockerUsername := Env "SQLFLOW_MODEL_ZOO_REGISTRY_USER" in
    let dockerPasswd := Env "SQLFLOW_MODEL_ZOO_REGISTRY_PASS" in
    if bool_decide (dockerUsername = ""%string) || bool_decide (dockerPasswd = ""%string) then
      fail (Errorf "need to set SQLFLOW_MODEL_ZOO_REGISTRY_USER and SQLFLOW_MODEL_ZOO_REGISTRY_PASS for model zoo server" [])
    else
    cmdStderr ← run_docker cmdStderr ["docker"; "login"; "-u"; dockerUsername; "--password-stdin"]%string dockerPasswd
      "run docker login err: %v, stderr: %s";
    run_docker cmdStderr ["docker"; "push"; image]%string "" "run docker push err: %v, stderr: %s" ≫= λ _,
    mret tt).

Definition kaniko_pod (tolerations nodeSelector kanikoPodName kanikoImage destination regSecret : string) : string :=
  Join
    ["'{";
     "  " +:+ dq +:+ "apiVersion" +:+ dq +:+ ": " +:+ dq +:+ "v1" +:+ dq +:+ ",";
     "  " +:+ dq +:+ "spec" +:+ dq +:+ ": {";
     "    " +:+ tolerations;
     "    " +:+ nodeSelector;
     "    " +:+ dq +:+ "containers" +:+ dq +:+ ": [";
     "    {";
     "      " +:+ dq +:+ "name" +:+ dq +:+ ": " +:+ dq +:+ kanikoPodName +:+ dq +:+ ",";
     "      " +:+ dq +:+ "image" +:+ dq +:+ ": " +:+ dq +:+ kanikoImage +:+ dq +:+ ",";
     "      " +:+ dq +:+ "stdin" +:+ dq +:+ ": true,";
     "      " +:+ dq +:+ "stdinOnce" +:+ dq +:+ ": true,";
     "      " +:+ dq +:+ "args" +:+ dq +:+ ": [";
     "        " +:+ dq +:+ "--dockerfile=Dockerfile" +:+ dq +:+ ",";
     "        " +:+ dq +:+ "--context=tar://stdin" +:+ dq +:+ ",";
     "        " +:+ dq +:+ "--force" +:+ dq +:+ ",";
     "        " +:+ dq +:+ "--destination=" +:+ destination +:+ dq +:+ "],";
     "      " +:+ dq +:+ "volumeMounts" +:+ dq +:+ ": [";
     "        {";
     "          " +:+ dq +:+ "name" +:+ dq +:+ ": " +:+ dq +:+ "kaniko-secret" +:+ dq +:+ ",";
     "          " +:+ dq +:+ "mountPath" +:+ dq +:+ ": " +:+ dq +:+ "/kaniko/.docker/" +:+ dq;
     "      }]";
     "    }],";
     "    " +:+ dq +:+ "volumes" +:+ dq +:+ ": [";
     "    {";
     "      " +:+ dq +:+ "name" +:+ dq +:+ ": " +:+ dq +:+ "kaniko-secret" +:+ dq +:+ ",";
     "      " +:+ dq +:+ "secret" +:+ dq +:+ ": {";
     "        " +:+ dq +:+ "secretName" +:+ dq +:+ ": " +:+ dq +:+ regSecret +:+ dq +:+ ",";
     "        " +:+ dq +:+ "items" +:+ dq +:+ ": [{" +:+ dq +:+ "key" +:+ dq +:+ ": " +:+ dq +:+ ".dockerconfigjson" +:+ dq +:+ ", " +:+ dq +:+ "path" +:+ dq +:+ ": " +:+ dq +:+ "config.json" +:+ dq +:+ "}]";
     "      }}";
     "    ]";
     "  }";
     "}'"]%string newline.
Definition run_quietly (args : list string) : st D unit :=
  o ← perform (exec_Command (mkCommand args "" ""));
  match cmd_error o with Some e => fail e | None => mret tt end.
Definition buildAndPushImageKaniko (dir name tag : string) (dryrun : bool) : st D unit :=
  let or_else x y := if decide (x = ""%string) then y else x in
  let reg := or_else (Env "SQLFLOW_MODEL_ZOO_REGISTRY") "https://index.docker.io/v1/"%string in
  let regUsername := Env "SQLFLOW_MODEL_ZOO_REGISTRY_USER" in
  let regPasswd := Env "SQLFLOW_MODEL_ZOO_REGISTRY_PASS" in
  let regEmail := Env "SQLFLOW_MODEL_ZOO_REGISTRY_EMAIL" in
  if bool_decide (regUsername = ""%string) || bool_decide (regPasswd = ""%string) || bool_decide (regEmail = ""%string) then
    fail (Errorf "need to set SQLFLOW_MODEL_ZOO_REGISTRY_USER and SQLFLOW_MODEL_ZOO_REGISTRY_PASS for model zoo server" [])
  else
  secret ← perform (randstring_Generate 8);
  let regSecret := ("kaniko-regcred-" +:+ ToLower secret)%string in
  let cmd := ("kubectl create secret docker-registry " +:+ regSecret +:+ " --docker-server=" +:+ reg +:+ " --docker-username="
              +:+ regUsername +:+ " --docker-password=" +:+ regPasswd +:+ " --docker-email=" +:+ regEmail)%string in
  run_quietly (Split cmd " ") ≫= λ _,
  defer (run_quietly ["kubectl"; "delete"; "secret"; regSecret]%string) (in_dir dir (
    let kanikoImage := or_else (Env "SQLFLOW_MODEL_ZOO_KANIKO_IMAGE")
      "registry.cn-hangzhou.aliyuncs.com/sql-machine-learning/kaniko-executor"%string in
    pod ← perform (randstring_Generate 8);
    let kanikoPodName := ("kaniko-" +:+ ToLower pod)%string in
    let podTemplate := kaniko_pod (Env "SQLFLOW_MODEL_ZOO_TOLERATIONS") (Env "SQLFLOW_MODEL_ZOO_NODE_SELECTOR")
      kanikoPodName kanikoImage (name +:+ ":" +:+ tag) regSecret in
    let kanikoBuildCmdStr := ("kubectl run " +:+ kanikoPodName +:+ " --rm --stdin=true --restart=Never --image=" +:+ kanikoImage
                              +:+ " --overrides=" +:+ podTemplate)%string in
    tar ← cmd_Start (mkCommand ["tar"; "czf"; "-"; "."]%string dir "") pipe_out;
    kaniko ← cmd_Start (mkCommand ["bash"; "-c"; kanikoBuildCmdStr]%string "" "") pipe_in;
    cmd_Wait tar ≫= λ _,
    ClosePipe ≫= λ _,
    cmd_Wait kaniko)).

(** *** Model definitions (get_model_classes.go) *)

Definition getClassesCode (package_name : string) : string := Join
  ["import sys, inspect, json";
   "def print_classes(package_name):";
   "    pkg_module = __import__(package_name)";
   "    for name, obj in inspect.getmembers(pkg_module):";
   "        if inspect.isclass(obj):";
   "            docstring = obj.__init__.__doc__";
   "            if docstring == None:";
   "                docstring = " +:+ dq +:+ dq;
   "            print(json.dumps({" +:+ dq +:+ "name" +:+ dq +:+ ": obj.__name__, " +:+ dq +:+ "docstring" +:+ dq +:+ ": docstring}))";
   "print_classes(" +:+ dq +:+ package_name +:+ dq +:+ ")"]%string newline.
(** One line of the output describes one class. *)
Definition class_lines (out : string) : result (list (string * string)) :=
  mapR Unmarshal_desc (filter (λ line, line ≠ ""%string) (Split out newline)).
Definition package_classes (acc : list (string * string)) (pname : string) : st D (list (string * string)) :=
  o ← perform (exec_Command (mkCommand ["python"]%string "" (getClassesCode pname)));
  match cmd_error o with
  | Some e => fail e
  | None => descs ← lift (class_lines (str_concat (cmd_Stdout o))); mret (acc ++ descs)
  end.
(** The working directory is changed back only when everything went well. *)
Definition getModelClasses (dir : string) : st D (list (string * string)) :=
  files ← ioutil_ReadDir dir;
  let pythonPackages := (filter (λ f, f.2 = true) files).*1 in
  if bool_decide (("Dockerfile"%string, false) ∈ files) then
    if decide (pythonPackages = []) then fail (Errorf "folder %s got no sub-folders as Python packages" [dir]) else
    cwd ← os_Getwd;
    os_Chdir dir ≫= λ _,
    result ← foldS package_classes [] pythonPackages;
    os_Chdir cwd ≫= λ _,
    mret result
  else fail (Errorf "releasing a model definition requires a Dockerfile under your repo directory" []).

(** *** Releasing definitions *)

(** After an error [Recv] gives nil, whose fields are empty, again and again. *)
Fixpoint receive_repo (fuel : nat) (path : string) (reqs : list ReleaseModelRepoRequest) (err : option error)
    (reqName reqTag : string) (totalSize : Z) : st D (string * string * Z) :=
  match fuel with
  | O => lift NoFuel
  | S fuel =>
    match reqs, err with
    | [], None => mret (reqName, reqTag, totalSize)
    | [], Some _ => fd_Write path "" ≫= λ _, receive_repo fuel path [] err "" "" totalSize
    | req :: reqs, _ =>
      fd_Write path (pr_ContentTar req) ≫= λ _,
      receive_repo fuel path reqs err (pr_Name req) (pr_Tag req) (wrap64 (totalSize + Z.of_nat (str_len (pr_ContentTar req))))
    end
  end.
Definition register_repo (reqName reqTag : string) (modelDescs : list (string * string)) : st D unit :=
  rows ← db_Query (select_repo "and" reqName reqTag);
  if decide (rows ≠ []) then fail (Errorf "model repo %s:%s already exists" [reqName; reqTag]) else
  modelCollID ← db_LastInsertId (insert_repo reqName reqTag);
  eachS (λ '(name, doc), db_Exec (insert_def modelCollID name doc)) modelDescs.
Definition build_image (modelExtractDir reqName reqTag : string) : st D unit :=
  let dryrun := bool_decide (Env "SQLFLOW_TEST_DB" ≠ ""%string) in
  no_docker ← os_IsNotExist "/var/run/docker.sock";
  (if no_docker : bool then buildAndPushImageKaniko else buildAndPushImage) modelExtractDir reqName reqTag dryrun.
Definition ReleaseModelRepo (fuel : nat) (s : stream ReleaseModelRepoRequest) : st D unit :=
  dir ← ioutil_TempDir "/tmp" "sqlflow-zoo-repo";
  defer (os_RemoveAll dir) (
    let ball := (dir +:+ "/servergot.tar.gz")%string in
    os_Create ball ≫= λ _,
    '(reqName, reqTag, totalSize) ← receive_repo fuel ball (requests s) (broken s) "" "" 0;
    lift (checkImageURL reqName) ≫= λ _,
    lift (checkTag reqTag) ≫= λ _,
    imgExists ← imageExistsOnRegistry reqName reqTag;
    if (imgExists : bool) then fail (Errorf "current image %s:%s already exists on registry" [reqName; reqTag]) else
    if totalSize <=? 0 then fail (Errorf "no model repo content uploaded" []) else
    let modelExtractDir := (dir +:+ "/modelrepo")%string in
    os_Mkdir modelExtractDir 493 ≫= λ _,
    UnzipDir ball modelExtractDir ≫= λ _,
    classes ← attempt (getModelClasses modelExtractDir);
    let modelDescs := match classes with inl descs => descs | inr _ => [] end in
    if decide (modelDescs = []) then fail (Errorf "no model classes detected" []) else
    build_image modelExtractDir reqName reqTag ≫= λ _,
    register_repo reqName reqTag modelDescs ≫= λ _,
    SendAndClose true "").

(** *** Files of trained models *)

Definition experimental : bool := bool_decide (Env "SQLFLOW_USE_EXPERIMENTAL_CODEGEN" = "true"%string).
Notation sink := (flushWriteCloser * (Z * D))%type.
Notation file_flush := (string → st (Z * D) unit).

(** [sqlfs.Create] on the server's database, with the writer's hooks. *)
Definition zoo_hooks (table : string) : file_flush * st (Z * D) unit := @hooks D (store s_URL) s_Driver table s_Hive.
Definition zoo_Create (table : string) : st D flushWriteCloser :=
  wrapS "cannot create sqlfs file %s: %v" [table]
    (@Create D (store s_URL) (@hive_params D (store s_URL) (models s_URL) s_URL) (@TempFile D (store s_URL) (models s_URL)) s_Driver table).
(** The file is closed when the function returns. *)
Definition with_file {A} (table : string) (w : flushWriteCloser) (m : file_flush → st sink A) : st D A :=
  let '(flush, wrapup) := zoo_hooks table in
  with_local 0 (with_local w (defer (Close flush wrapup) (m flush))).
Definition from_world {A} (m : st D A) : st sink A := at_disk (at_disk m).

Definition write_piece (flush : file_flush) (p : string) : st sink unit :=
  '(_, e) ← Write flush p;
  match e with
  | Some e => fail (Errorf "get user model source code error %v" [err_format e])
  | None => mret tt
  end.

(** [sendFile]: a file of sqlfs or a local file. *)
Inductive source := from_table (r : reader) | from_file (rest : string).
Definition read_source (ds : string) (k : nat) : st (source * D) (string * option error) := λ '(s, d),
  match s with
  | from_table r =>
    let '(res, (r, d)) := @Read D (store ds) (k + 2) k (r, d) in (res, (from_table r, d))
  | from_file rest =>
    if decide (rest = ""%string) then (Ok (""%string, Some EOF), (s, d))
    else (Ok (str_take k rest, None), (from_file (str_drop k rest), d))
  end.
Definition beneath {S A} (m : st (S * D) A) : st (S * sink) A := λ '(s, (w, (row, d))),
  let '(r, (s, d)) := m (s, d) in (r, (s, (w, (row, d)))).
Fixpoint copy_pieces (fuel : nat) (ds : string) (flush : file_flush) : st (source * sink) unit :=
  match fuel with
  | O => lift NoFuel
  | S fuel =>
    '(b, e) ← beneath (read_source ds 4096);
    if bool_decide (e ≠ None ∧ e ≠ Some EOF) then
      fail (Errorf "get user model source code error %v" [default "" (err_format <$> e)])
    else
    (if decide (b = ""%string) then mret tt else at_disk (write_piece flush b)) ≫= λ _,
    if decide (e = Some EOF) then mret tt else copy_pieces fuel ds flush
  end.

(** *** Releasing models *)

Definition find_def (repo_sql class_name : string) (no_repo no_def : error) : st D Z :=
  modelCollID ← first_id repo_sql no_repo;
  first_id (select_def class_name modelCollID) no_def.

(** What [ReleaseModel] needs of the metadata, and the model's file. *)
Record user_model := mkUserModel { um_meta : string → string; um_file : source }.
Definition user_model_of (fuel : nat) (req : ReleaseModelRequest) (dir : string) : st D user_model :=
  let ds := rq_DbConnStr req in
  if experimental then
    meta ← @GetModelMetadataFromDB _ D (store ds) (models ds) ds (rq_Name req);
    sendFile ← @Open D (store ds) (rq_Name req) 32;
    mret (mkUserModel (@MustString D (store ds) (models ds) meta) (from_table sendFile))
  else
    '(tarFile, content) ← @DumpDBModel D (store ds) (models ds) fuel copy_size (rq_Name req) dir;
    modelMeta ← @ExtractMetaFromTarball D (store ds) (models ds) tarFile dir;
    mret (mkUserModel (@GetMetaAsString D (store ds) (models ds) modelMeta) (from_file content)).

Definition zoo_model_image (image : string) : string := if decide (image = ""%string) then "sqlflow/sqlflow:latest" else image.
Definition check_repo_image (modelRepoImage : string) : result unit :=
  match Split modelRepoImage ":" with
  | [image; tag] => checkImageURL image ≫= λ _, checkTag tag
  | [_] => checkImageURL modelRepoImage
  | _ => Fail (Errorf "model repo image should be format of [domain.com/group/]image[:tag]" [])
  end.
(** [imageAndTag[1]] panics if the image has no tag. *)
Definition repo_of_image (modelRepoImage : string) : result (string * string) :=
  match Split modelRepoImage ":" with
  | image :: tag :: _ => Ok (image, tag)
  | _ => Panic
  end.

Definition ReleaseModel (fuel : nat) (req : ReleaseModelRequest) : st D ReleaseResponse :=
  lift (checkNameAndTag (rq_Name req) (rq_Tag req)) ≫= λ _,
  publish_db ≫= λ _,
  OpenDB (rq_DbConnStr req) ≫= λ _,
  defer (CloseDB (rq_DbConnStr req)) (
    dir ← ioutil_TempDir "/tmp" "upload_model_zoo";
    defer (os_RemoveAll dir) (
      um ← user_model_of fuel req dir;
      let table := modelTableName (rq_Name req) (rq_Tag req) in
      let modelRepoImage := zoo_model_image (um_meta um "model_repo_image") in
      lift (check_repo_image modelRepoImage) ≫= λ _,
      sqlf ← zoo_Create table;
      with_file table sqlf (λ flush,
        with_local (um_file um) (copy_pieces fuel (rq_DbConnStr req) flush) ≫= λ _,
        from_world (
          '(image, tag) ← lift (repo_of_image modelRepoImage);
          let modelClassName := um_meta um "class_name" in
          modelDefID ← find_def (select_repo "AND" image tag) modelClassName
            (Errorf "when release model, no model repo %s found" [modelRepoImage])
            (Errorf "when release model, no model definition %s found" [modelClassName]);
          db_Exec (insert_model modelDefID (rq_Name req) (rq_Tag req) "" (rq_Description req) (um_meta um "evaluation")) ≫= λ _,
          mret released)))).

Definition release_local (req : ReleaseModelLocalRequest) : st D unit :=
  lift (checkNameAndTag (lq_Name req) (lq_Tag req)) ≫= λ _,
  match Split (lq_ModelRepoImageUrl req) ":" with
  | [image; tag] =>
    lift (checkImageURL image) ≫= λ _,
    lift (checkTag tag) ≫= λ _,
    modelDefID ← find_def (select_repo "AND" image tag) (lq_ModelClassName req)
      (Errorf "when release model local, no model repo %s found" [lq_ModelRepoImageUrl req])
      (Errorf "when release model, no model definition %s found" [lq_Name req]);
    db_Exec (insert_model modelDefID (lq_Name req) (lq_Tag req) "" (lq_Description req) (lq_EvaluationMetrics req)) ≫= λ _,
    SendAndClose true ""
  | _ => fail (Errorf "model repo image should be like you_image_name:version" [])
  end.
(** The pieces of the requests in order, up to the end: the last request that was received. *)
Fixpoint receive_model (fuel : nat) (flush : file_flush) (reqs : list ReleaseModelLocalRequest) (err : option error)
    (req : ReleaseModelLocalRequest) : st sink ReleaseModelLocalRequest :=
  match fuel with
  | O => lift NoFuel
  | S fuel =>
    match reqs, err with
    | [], None => mret req
    | [], Some _ => write_piece flush "" ≫= λ _, receive_model fuel flush [] err req
    | req :: reqs, _ => write_piece flush (lq_ContentTar req) ≫= λ _, receive_model fuel flush reqs err req
    end
  end.
(** The file is created when the first request arrives.  Without one, the fields of nil are
    empty, or, if it is an error that arrives, [req.Name] panics. *)
Definition ReleaseModelFromLocal (fuel : nat) (s : stream ReleaseModelLocalRequest) : st D unit :=
  publish_db ≫= λ _,
  match requests s, broken s with
  | [], None => lift (checkNameAndTag "" "")
  | [], Some _ => lift Panic
  | req :: _, _ =>
    let table := modelTableName (lq_Name req) (lq_Tag req) in
    sqlf ← zoo_Create table;
    with_file table sqlf (λ flush,
      req ← receive_model fuel flush (requests s) (broken s) req;
      from_world (release_local req))
  end.

(** *** Downloading *)

(** The metadata in front of the model. *)
Definition skip_metadata : st (reader * D) unit :=
  let read k := @Read D (store s_URL) (k + 2) k in
  '(lengthHexStr, err) ← read 10%nat;
  if bool_decide (err ≠ None) || negb (Nat.eqb (str_len lengthHexStr) 10) then fail (Errorf "read length head error: %v" [])
  else match ParseInt0 lengthHexStr with
  | None => fail (Errorf "convert length head error: %v" [])
  | Some metaLength =>
    if metaLength <? 0 then lift Panic (* make([]byte, metaLength) *) else
    '(metaHead, err) ← read (Z.to_nat metaLength);
    if bool_decide (err ≠ None) || negb (Z.of_nat (str_len metaHead) =? metaLength) then fail (Errorf "read meta data error: %v" [])
    else mret tt
  end.
Fixpoint send_pieces (fuel : nat) (name tag : string) : st (reader * D) unit :=
  match fuel with
  | O => lift NoFuel
  | S fuel =>
    '(b, e) ← @Read D (store s_URL) (4096 + 2) 4096;
    match e with
    | Some e =>
      if decide (e = EOF) then
        if decide (b = ""%string) then mret tt else at_disk (SendModel name tag b)
      else fail e
    | None =>
      (if decide (b = ""%string) then mret tt else at_disk (SendModel name tag b)) ≫= λ _, send_pieces fuel name tag
    end
  end.
Definition DownloadModel (fuel : nat) (req : ReleaseModelRequest) : st D unit :=
  lift (checkNameAndTag (rq_Name req) (rq_Tag req)) ≫= λ _,
  sqlf ← @Open D (store s_URL) (modelTableName (rq_Name req) (rq_Tag req)) 32;
  with_local sqlf (defer Close_reader (
    (if experimental then skip_metadata else mret tt) ≫= λ _,
    send_pieces fuel (rq_Name req) (rq_Tag req))).

Definition GetModelMeta (req : ReleaseModelRequest) : st D string :=
  if negb experimental then fail (Errorf "only support when SQLFLOW_USE_EXPERIMENTAL_CODEGEN=true" []) else
  lift (checkNameAndTag (rq_Name req) (rq_Tag req)) ≫= λ _,
  meta ← @GetModelMetadataFromDB _ D (store s_URL) (models s_URL) s_URL (modelTableName (rq_Name req) (rq_Tag req));
  lift (@Encode D (store s_URL) (models s_URL) meta).

(** *** Starting (modelzooserver.go, add_default_model_defs.go) *)

Definition defaultModelNames : list string :=
  ["DNNClassifier"; "DNNRegressor"; "LinearClassifier"; "LinearRegressor";
   "BoostedTreesClassifier"; "BoostedTreesRegressor"; "DNNLinearCombinedClassifier";
   "DNNLinearCombinedRegressor"; "sqlflow_models.DNNClassifier"; "sqlflow_models.DNNRegressor";
   "sqlflow_models.StackedRNNClassifier"; "sqlflow_models.DeepEmbeddingClusterModel";
   "sqlflow_models.RNNBasedTimeSeriesModel"; "sqlflow_models.AutoClassifier";
   "sqlflow_models.AutoRegressor"; "sqlflow_models.RawDNNClassifier";
   "sqlflow_models.ARIMAWithSTLDecomposition"].
Definition default_doc : string :=
  "SQLFlow predefined model, please refer to the documentation for details: https://github.com/sql-machine-learning/sqlflow/blob/v0.3.0-rc.1/doc/sqlflow.org_cn/model_list.md".
Definition find_default_repo : string :=
  "SELECT * FROM " +:+ modelCollTable +:+ " WHERE name='sqlflow/sqlflow' AND version='latest';".
Definition addDefaultModelDefs : st D unit :=
  rows ← db_Query find_default_repo;
  if decide (rows ≠ []) then mret tt else
  modelRepoID ← db_LastInsertId (insert_repo "sqlflow/sqlflow" "latest");
  eachS (λ modelName, db_Exec (insert_def modelRepoID modelName default_doc)) defaultModelNames.

(** What [StartModelZooServer] does to the database before it serves.  [Fatalf] of package log
    calls [Logf] of logrus, which prints a line and returns: it does not end the process, so the
    server goes on behind every failure. *)
Definition log_failure (m : st D unit) : st D unit := attempt m ≫= λ _, mret tt.
Definition prepare_server : st D unit :=
  eachS (λ stmt, log_failure (db_Exec stmt)) (removelast (Split createTableStmts ";")) ≫= λ _, log_failure addDefaultModelDefs.
End server.
