(* ===== verification/ZooNames.v ===== *)
(** * The names of the model zoo (go/modelzooserver/input_check.go)

    What the checks accept, and that an accepted name stays a literal of the statement of SQL
    that it is put into. *)

From S2P Require Import Prelude GoStrings GoState GoConv Regexp Sqlfs SqlfsFile Shell ZooServer.

Local Open Scope nat_scope.

(** ** The expressions *)

Lemma lang_class_inv P s : lang (RClass P) s ↔ ∃ c, s = char1 c ∧ P c = true.
Proof.
  split; [inversion 1; subst; eauto|]. intros (c & -> & Hc). by constructor.
Qed.
Lemma lang_cat_class P r s : lang (RCat (RClass P) r) s ↔ ∃ c t, s = String c t ∧ P c = true ∧ lang r t.
Proof.
  rewrite lang_cat_inv. setoid_rewrite lang_class_inv. split.
  - intros (u & v & -> & (c & -> & Hc) & Hv). by exists c, v.
  - intros (c & t & -> & Hc & Ht). exists (char1 c), t. eauto.
Qed.
Lemma lang_upto k P s : lang (r_upto k (RClass P)) s ↔ str_len s ≤ k ∧ str_forall P s = true.
Proof.
  induction k as [|k IH] in s |- *; cbn [r_upto].
  - rewrite lang_eps_inv. split; [by intros ->|]. by destruct s; [|cbn; lia].
  - rewrite lang_alt_inv, lang_eps_inv, lang_cat_class. setoid_rewrite IH. split.
    + intros [->|(c & t & -> & Hc & Hl & Ht)]; [cbn; split; [lia|done]|]. cbn. rewrite Hc, Ht. split; [lia|done].
    + destruct s as [|c s]; [by left|]. cbn. intros [Hl [Hc Hs]%andb_true_iff]. right. exists c, s. split_and!; [done..|lia|done].
Qed.
Lemma lang_between lo k P s : lang (r_between lo k (RClass P)) s ↔ lo ≤ str_len s ≤ lo + k ∧ str_forall P s = true.
Proof.
  induction lo as [|lo IH] in s |- *; cbn [r_between]; [rewrite lang_upto; cbn; intuition lia|].
  rewrite lang_cat_class. setoid_rewrite IH. split.
  - intros (c & t & -> & Hc & Hl & Ht). cbn. rewrite Hc, Ht. split; [lia|done].
  - destruct s as [|c s]; [cbn; lia|]. cbn. intros [Hl [Hc Hs]%andb_true_iff]. exists c, s. split_and!; [done..|lia|lia|done].
Qed.

Definition name_ok (s : string) : Prop := 6 ≤ str_len s ≤ 256 ∧ str_forall tag_char s = true.
Definition tag_ok (s : string) : Prop := str_len s ≤ 256 ∧ str_forall tag_char s = true.
Definition image_ok (s : string) : Prop := 6 ≤ str_len s ≤ 256 ∧ str_forall image_char s = true.

Lemma checkName_ok s : checkName s = Ok tt ↔ name_ok s.
Proof.
  unfold checkName, name_ok, name_re. case_decide; [split; [done|lia]|].
  destruct (re_match _ s) eqn:Hm.
  - apply re_match_lang, lang_between in Hm. split; [|done]. intros _. split; [lia|tauto].
  - split; [done|]. intros Hs. enough (re_match (r_between 6 250 (RClass tag_char)) s = true) by congruence.
    apply re_match_lang, lang_between. split; [lia|tauto].
Qed.
Lemma checkTag_ok s : checkTag s = Ok tt ↔ tag_ok s.
Proof.
  unfold checkTag, tag_ok, tag_re. destruct (re_match _ s) eqn:Hm.
  - apply re_match_lang, lang_between in Hm. split; [|done]. intros _. split; [lia|tauto].
  - split; [done|]. intros Hs. enough (re_match (r_between 0 256 (RClass tag_char)) s = true) by congruence.
    apply re_match_lang, lang_between. split; [lia|tauto].
Qed.
Lemma checkImageURL_ok s : checkImageURL s = Ok tt ↔ image_ok s.
Proof.
  unfold checkImageURL, image_ok, image_re. case_decide; [split; [done|lia]|].
  destruct (re_match _ s) eqn:Hm.
  - apply re_match_lang, lang_between in Hm. split; [|done]. intros _. split; [lia|tauto].
  - split; [done|]. intros Hs. enough (re_match (r_between 6 250 (RClass image_char)) s = true) by congruence.
    apply re_match_lang, lang_between. split; [lia|tauto].
Qed.
Lemma checkNameAndTag_ok name tag : checkNameAndTag name tag = Ok tt ↔ name_ok name ∧ tag_ok tag.
Proof.
  unfold checkNameAndTag. rewrite <- checkName_ok, <- checkTag_ok. destruct (checkName name) as [[]|e| |]; cbn; naive_solver.
Qed.
Lemma checkImageAndTag_ok name tag : checkImageAndTag name tag = Ok tt ↔ image_ok name ∧ tag_ok tag.
Proof.
  unfold checkImageAndTag. rewrite <- checkImageURL_ok, <- checkTag_ok. destruct (checkImageURL name) as [[]|e| |]; cbn; naive_solver.
Qed.

(** ** Reading a statement

    A statement is text and literals: a literal stands between single quotation marks, a doubled
    mark and an escaped character stand for themselves (the escapes [n], [t], [r], [0], [b] and
    [Z] for others). *)
Inductive token := Text (s : string) | Literal (s : string) | Unclosed (s : string).
#[export] Instance token_eq_dec : EqDecision token.
Proof. solve_decision. Defined.

Definition sql_escape (c : ascii) : ascii :=
  if decide (c = "n"%char) then chr_nl else if decide (c = "t"%char) then of_byte 9
  else if decide (c = "r"%char) then chr_cr else if decide (c = "0"%char) then of_byte 0
  else if decide (c = "b"%char) then of_byte 8 else if decide (c = "Z"%char) then of_byte 26 else c.
Fixpoint sql_tokens (literal : bool) (acc s : string) : list token :=
  match s with
  | EmptyString => [if literal then Unclosed acc else Text acc]
  | String c s =>
    if literal then
      if decide (c = chr_bs) then
        match s with EmptyString => [Unclosed acc] | String d s => sql_tokens true (acc +:+ char1 (sql_escape d)) s end
      else if decide (c = chr_sq) then
        match s with
        | String d s' => if decide (d = chr_sq) then sql_tokens true (acc +:+ char1 chr_sq) s'
                         else Literal acc :: sql_tokens false "" s
        | EmptyString => [Literal acc; Text ""]
        end
      else sql_tokens true (acc +:+ char1 c) s
    else if decide (c = chr_sq) then Text acc :: sql_tokens true "" s
    else sql_tokens false (acc +:+ char1 c) s
  end.
Definition tokens (s : string) : list token := sql_tokens false "" s.

(** Texts that are literals as they are. *)
Definition plain_char (c : ascii) : bool := negb (bool_decide (c ∈ [chr_sq; chr_bs])).
Definition plain (s : string) : bool := str_forall plain_char s.

Lemma plain_char_cases c : plain_char c = true ↔ c ≠ chr_sq ∧ c ≠ chr_bs.
Proof.
  unfold plain_char. rewrite negb_true_iff, bool_decide_eq_false, !elem_of_cons. set_solver.
Qed.
Lemma tokens_text acc u s : no_char chr_sq u = true → sql_tokens false acc (u +:+ s) = sql_tokens false (acc +:+ u) s.
Proof.
  induction u as [|c u IH] in acc |- *; intros Hu; [cbn; by rewrite str_app_nil_r|].
  cbn in Hu. apply andb_true_iff in Hu as [Hc Hu]. apply negb_true_iff, bool_decide_eq_false in Hc.
  cbn [String.append sql_tokens]. rewrite decide_False by done. rewrite IH by done. by rewrite <- str_app_assoc.
Qed.
Lemma tokens_end acc u : no_char chr_sq u = true → sql_tokens false acc u = [Text (acc +:+ u)].
Proof. intros Hu. by rewrite <- (str_app_nil_r u) at 1; rewrite tokens_text. Qed.
Lemma tokens_literal acc v rest :
  plain v = true → (∀ t, rest ≠ String chr_sq t) →
  sql_tokens true acc (v +:+ String chr_sq rest) = Literal (acc +:+ v) :: sql_tokens false "" rest.
Proof.
  intros Hv Hr. induction v as [|c v IH] in acc, Hv |- *.
  - rewrite str_app_nil_r. cbn [String.append sql_tokens]. rewrite decide_False, decide_True by done.
    destruct rest as [|d rest]; [done|]. rewrite decide_False; [done|]. intros ->. by apply (Hr rest).
  - cbn in Hv. apply andb_true_iff in Hv as [[Hs Hb]%plain_char_cases Hv].
    cbn [String.append sql_tokens]. rewrite !decide_False, IH by done. by rewrite <- str_app_assoc.
Qed.
(** A statement from its parts: texts with a literal behind each, and the last text. *)
Fixpoint assemble (parts : list (string * string)) (end_ : string) : string :=
  match parts with
  | [] => end_
  | (u, v) :: parts => u +:+ String chr_sq (v +:+ String chr_sq (assemble parts end_))
  end.
Fixpoint parts_tokens (parts : list (string * string)) (end_ : string) : list token :=
  match parts with
  | [] => [Text end_]
  | (u, v) :: parts => Text u :: Literal v :: parts_tokens parts end_
  end.
Definition part_ok (p : string * string) : bool := no_char chr_sq p.1 && plain p.2.
Lemma no_sq_start u s t : no_char chr_sq u = true → u ≠ ""%string → (u +:+ s)%string ≠ String chr_sq t.
Proof. destruct u as [|c u]; [done|]. cbn. intros [Hc _]%andb_true_iff _ [= -> _]. done. Qed.
Lemma tokens_assemble parts end_ :
  forallb part_ok parts = true → no_char chr_sq end_ = true →
  Forall (λ p, p.1 ≠ ""%string) (tail parts) →
  tokens (assemble parts end_) = parts_tokens parts end_.
Proof.
  intros Hp He. unfold tokens. induction parts as [|[u v] parts IH]; intros Hne; [by apply tokens_end|].
  cbn in Hp. apply andb_true_iff in Hp as [[Hu Hv]%andb_true_iff Hp]. cbn [fst snd] in *.
  cbn [assemble parts_tokens]. rewrite tokens_text by done. cbn [sql_tokens]. rewrite decide_True by done.
  rewrite tokens_literal; [do 2 f_equal; apply IH; [done|by destruct parts as [|[? ?] ?]; [|apply Forall_cons in Hne as [? ?]]]|done|].
  intros t. destruct parts as [|[u2 v2] parts]; cbn [assemble].
  - destruct end_ as [|c s]; [done|]. intros [= -> _]. done.
  - cbn in Hp. apply andb_true_iff in Hp as [[Hu2 _]%andb_true_iff _]. apply Forall_cons in Hne as [Hn _]. by apply no_sq_start.
Qed.

Lemma plain_app s t : plain (s +:+ t) = plain s && plain t.
Proof. apply str_forall_app. Qed.
Lemma tag_plain s : str_forall tag_char s = true → plain s = true.
Proof.
  apply str_forall_impl. intros c Hc. apply plain_char_cases. split; intros ->; by vm_compute in Hc.
Qed.
Lemma image_plain s : str_forall image_char s = true → plain s = true.
Proof.
  apply str_forall_impl. intros c Hc. apply plain_char_cases. split; intros ->; by vm_compute in Hc.
Qed.
Lemma pretty_no_sq (z : Z) : no_char chr_sq (pretty z) = true.
Proof. by apply no_char_pretty. Qed.
Lemma pretty_plain (z : Z) : plain (pretty z) = true.
Proof.
  pose proof (pretty_no_sq z) as H1. assert (no_char chr_bs (pretty z) = true) as H2 by (by apply no_char_pretty).
  unfold plain. induction (pretty z) as [|c s IH]; [done|]. cbn in *.
  apply andb_true_iff in H1 as [Hc1 H1], H2 as [Hc2 H2]. apply negb_true_iff, bool_decide_eq_false in Hc1, Hc2.
  rewrite IH, andb_true_r by done. by apply plain_char_cases.
Qed.

(** ** The statements *)

Lemma no_sq_app u v : no_char chr_sq (u +:+ v) = no_char chr_sq u && no_char chr_sq v.
Proof. apply str_forall_app. Qed.
Ltac part_ok :=
  cbn [forallb]; unfold part_ok; cbn [fst snd]; rewrite ?no_sq_app, ?pretty_no_sq, ?pretty_plain;
  repeat match goal with H : _ = true |- _ => rewrite H; clear H end; reflexivity.
Ltac statement_tokens parts end_ :=
  transitivity (tokens (assemble parts end_));
    [f_equal; cbn [assemble]; rewrite <- ?str_app_assoc; reflexivity
    |rewrite tokens_assemble; [reflexivity|part_ok|reflexivity|repeat constructor; done]].

Section statements.
Local Open Scope string_scope.
Context (name version : string) (Hname : plain name = true) (Hversion : plain version = true).

Lemma tokens_select_repo word : no_char chr_sq word = true →
  tokens (select_repo word name version) =
    [Text "SELECT id FROM sqlflow_model_zoo.model_repos WHERE name="; Literal name; Text (" " +:+ word +:+ " version=");
     Literal version; Text ";"].
Proof.
  intros Hw.
  statement_tokens [("SELECT id FROM sqlflow_model_zoo.model_repos WHERE name=", name); (" " +:+ word +:+ " version=", version)] ";".
Qed.
Lemma tokens_select_def (coll : Z) : tokens (select_def name coll) =
  [Text "SELECT id FROM sqlflow_model_zoo.model_definitions WHERE class_name="; Literal name; Text " AND model_coll_id=";
   Literal (pretty coll); Text ""].
Proof.
  statement_tokens [("SELECT id FROM sqlflow_model_zoo.model_definitions WHERE class_name=", name); (" AND model_coll_id=", pretty coll)] "".
Qed.
Lemma tokens_insert_repo : tokens (insert_repo name version) =
  [Text "INSERT INTO sqlflow_model_zoo.model_repos (name, version) VALUES ("; Literal name; Text ", "; Literal version; Text ");"].
Proof.
  statement_tokens [("INSERT INTO sqlflow_model_zoo.model_repos (name, version) VALUES (", name); (", ", version)] ");".
Qed.
Lemma tokens_insert_def (coll : Z) : tokens (insert_def coll name version) =
  [Text ("INSERT INTO sqlflow_model_zoo.model_definitions (model_coll_id, class_name, args_desc) VALUES (" +:+ pretty coll +:+ ", ");
   Literal name; Text ", "; Literal version; Text ")"].
Proof.
  statement_tokens [("INSERT INTO sqlflow_model_zoo.model_definitions (model_coll_id, class_name, args_desc) VALUES (" +:+ pretty coll +:+ ", ", name);
    (", ", version)] ")".
Qed.
Lemma tokens_insert_model (def : Z) url description metrics :
  plain url = true → plain description = true → plain metrics = true →
  tokens (insert_model def name version url description metrics) =
  [Text ("INSERT INTO sqlflow_model_zoo.models (model_def_id, name, version, url, description, metrics) VALUES (" +:+ pretty def +:+ ", ");
   Literal name; Text ", "; Literal version; Text ", "; Literal url; Text ", "; Literal description; Text ", "; Literal metrics; Text ")"].
Proof.
  intros Hu Hd Hm.
  statement_tokens [("INSERT INTO sqlflow_model_zoo.models (model_def_id, name, version, url, description, metrics) VALUES (" +:+ pretty def +:+ ", ", name);
    (", ", version); (", ", url); (", ", description); (", ", metrics)] ")".
Qed.
Lemma tokens_delete_model : tokens (delete_model name version) =
  [Text "DELETE FROM sqlflow_model_zoo.models WHERE name="; Literal name; Text " AND version="; Literal version; Text ""].
Proof.
  statement_tokens [("DELETE FROM sqlflow_model_zoo.models WHERE name=", name); (" AND version=", version)] "".
Qed.
End statements.

(** The INSERT of a model up to the tag, whatever follows. *)
Lemma tokens_insert_model_head (def : Z) name version url description metrics :
  plain name = true → plain version = true →
  ∃ more, tokens (insert_model def name version url description metrics) =
    Text ("INSERT INTO sqlflow_model_zoo.models (model_def_id, name, version, url, description, metrics) VALUES (" +:+ pretty def +:+ ", ")
    :: Literal name :: Text ", " :: Literal version :: more.
Proof.
  intros Hn Hv.
  set (rest := (", '" +:+ url +:+ "', '" +:+ description +:+ "', '" +:+ metrics +:+ "')")%string).
  assert (insert_model def name version url description metrics =
    ("INSERT INTO sqlflow_model_zoo.models (model_def_id, name, version, url, description, metrics) VALUES (" +:+ pretty def +:+ ", ") +:+
    String chr_sq (name +:+ String chr_sq (", " +:+ String chr_sq (version +:+ String chr_sq rest))))%string as ->.
  { unfold insert_model, rest. rewrite <- ?str_app_assoc. reflexivity. }
  unfold tokens. rewrite tokens_text by (rewrite !no_sq_app, pretty_no_sq; reflexivity).
  cbn [sql_tokens]. rewrite decide_True by done. rewrite tokens_literal by done.
  rewrite tokens_text by done. cbn [sql_tokens]. rewrite decide_True by done. rewrite tokens_literal by done.
  eexists. reflexivity.
Qed.

(** The name of a model's table, which its statements have without quotation marks. *)
Definition table_part_char (c : ascii) : bool := alnum c || bool_decide (c ∈ ["_"; "-"]%char).
Definition undotted (s : string) : string := ReplaceAll s "." "_".
Lemma undotted_chars s : str_forall tag_char s = true → str_forall table_part_char (undotted s) = true.
Proof.
  unfold undotted. rewrite (ReplaceAll_char "."). induction s as [|c s IH]; [done|]. cbn [str_forall subst_char].
  intros [Hc Hs]%andb_true_iff. rewrite str_forall_app, IH by done. rewrite andb_true_r. case_decide; [done|].
  cbn [str_forall char1]. rewrite andb_true_r. revert Hc. unfold tag_char, table_part_char. rewrite !orb_true_iff, !bool_decide_eq_true, !elem_of_cons, elem_of_nil. naive_solver.
Qed.
Lemma undotted_no_dash s : no_char "-" (undotted s) = no_char "-" s.
Proof.
  unfold undotted. rewrite (ReplaceAll_char "."). induction s as [|c s IH]; [done|]. cbn [subst_char]. unfold no_char in *.
  rewrite str_forall_app, IH. cbn [str_forall]. f_equal. case_decide; [by subst|]. cbn [str_forall char1]. apply andb_true_r.
Qed.
Lemma table_part_name s : str_forall table_part_char s = true → (table_name s = true ↔ no_char "-" s = true).
Proof.
  intros Hs. split; [intros Ht; by apply no_char_table|]. intros Hd. unfold table_name, no_char in *.
  induction s as [|c s IH]; [done|]. cbn in *. apply andb_true_iff in Hs as [Hc Hs], Hd as [Hcd Hd].
  rewrite IH by done. rewrite andb_true_r. apply negb_true_iff, bool_decide_eq_false in Hcd.
  revert Hc. unfold table_part_char, table_char, alnum. rewrite !orb_true_iff, bool_decide_eq_true, !elem_of_cons, elem_of_nil, !Z.eqb_eq.
  intros [?|[->|[->|[]]]]; [tauto|by left; right|done].
Qed.

(** C14: a name and a tag that pass the checks are literals of the statements on the catalogue
    of models and repositories that they are put into, and nothing else of these statements
    depends on them: finding and adding a repository, deleting a model, and adding one, for
    every description and metrics.  The statements on the file of a model have its table's
    name, which is made of them and stands there without quotation marks: it is in the
    database of the public models, and behind its dot has only letters, digits, underscores
    and dashes; it is a name that SQL takes as it is if and only if there is no dash. *)
Theorem accepted_names_are_literals (name tag : string) :
  (checkNameAndTag name tag = Ok tt ∨ checkImageAndTag name tag = Ok tt →
   tokens (select_repo "and" name tag) =
     [Text "SELECT id FROM sqlflow_model_zoo.model_repos WHERE name="; Literal name; Text " and version="; Literal tag; Text ";"]%string ∧
   tokens (select_repo "AND" name tag) =
     [Text "SELECT id FROM sqlflow_model_zoo.model_repos WHERE name="; Literal name; Text " AND version="; Literal tag; Text ";"]%string ∧
   tokens (insert_repo name tag) =
     [Text "INSERT INTO sqlflow_model_zoo.model_repos (name, version) VALUES ("; Literal name; Text ", "; Literal tag; Text ");"]%string ∧
   tokens (delete_model name tag) =
     [Text "DELETE FROM sqlflow_model_zoo.models WHERE name="; Literal name; Text " AND version="; Literal tag; Text ""]%string ∧
   ∀ def url description metrics, ∃ more, tokens (insert_model def name tag url description metrics) =
     Text ("INSERT INTO sqlflow_model_zoo.models (model_def_id, name, version, url, description, metrics) VALUES (" +:+ pretty def +:+ ", ")
     :: Literal name :: Text ", " :: Literal tag :: more) ∧
  (checkNameAndTag name tag = Ok tt →
   ∃ t, modelTableName name tag = ("sqlflow_public_models." +:+ t)%string ∧ str_forall table_part_char t = true ∧
     (table_name (modelTableName name tag) = true ↔ no_char "-" name = true ∧ no_char "-" tag = true)).
Proof.
  split.
  - intros Hok. assert (plain name = true ∧ plain tag = true) as [Hn Ht].
    { destruct Hok as [[[_ Hn] [_ Ht]]%checkNameAndTag_ok|[[_ Hn] [_ Ht]]%checkImageAndTag_ok];
        eauto using tag_plain, image_plain. }
    rewrite !tokens_select_repo, tokens_insert_repo, tokens_delete_model by done. split_and!; [done..|].
    intros def url description metrics. by apply tokens_insert_model_head.
  - intros [[_ Hn] [_ Ht]]%checkNameAndTag_ok. apply undotted_chars in Hn, Ht.
    exists (undotted name +:+ "_" +:+ undotted tag)%string.
    assert (str_forall table_part_char (undotted name +:+ "_" +:+ undotted tag) = true) as Hall by (by rewrite !str_forall_app, Hn, Ht).
    split; [reflexivity|]. split; [exact Hall|].
    change (modelTableName name tag) with ("sqlflow_public_models." +:+ (undotted name +:+ "_" +:+ undotted tag))%string.
    unfold table_name at 1. rewrite str_forall_app. cbn [andb]. change (str_forall table_char "sqlflow_public_models.") with true. cbn [andb].
    etrans; [exact (table_part_name _ Hall)|]. unfold no_char. rewrite !str_forall_app. fold (no_char "-" (undotted name)) (no_char "-" (undotted tag)).
    rewrite !undotted_no_dash, andb_true_iff. cbn [str_forall]. done.
Qed.
Lemma accepted_names_are_literals_witness :
  checkNameAndTag "my-model" "v0.1" = Ok tt ∧
  tokens (delete_model "my-model" "v0.1") =
    [Text "DELETE FROM sqlflow_model_zoo.models WHERE name="; Literal "my-model"; Text " AND version="; Literal "v0.1"; Text ""]%string ∧
  ∃ t, modelTableName "my-model" "v0.1" = ("sqlflow_public_models." +:+ t)%string ∧ str_forall table_part_char t = true.
Proof.
  assert (checkNameAndTag "my-model" "v0.1" = Ok tt) as H by (vm_compute; reflexivity).
  destruct (accepted_names_are_literals "my-model" "v0.1") as [Hl Ht].
  split; [exact H|]. split; [apply Hl; left; exact H|]. destruct (Ht H) as (t & H1 & H2 & _). exists t. split; [exact H1|exact H2].
Defined.

(** A tag that ends with two dashes passes the check; SQL takes what follows the table's name for
    a comment, so the query for some blocks is one for all blocks of another table. *)
Example tag_comments : checkNameAndTag "my_model" "v1--" = Ok tt ∧
  select_blocks (modelTableName "my_model" "v1--") 0 32
  = ("SELECT id,block FROM " +:+ modelTableName "my_model" "v1" +:+ "-- WHERE id>=0 AND id<32;")%string.
Proof. vm_compute. done. Qed.

(** A description is not checked: a mark in it ends the literal. *)
Example description_ends_literal :
  tokens (insert_model 7 "my_model" "v1" "" "it's new" "") =
  [Text "INSERT INTO sqlflow_model_zoo.models (model_def_id, name, version, url, description, metrics) VALUES (7, ";
   Literal "my_model"; Text ", "; Literal "v1"; Text ", "; Literal ""; Text ", "; Literal "it"; Text "s new"; Unclosed (", " +:+ char1 chr_sq +:+ ")")]%string.
Proof. vm_compute. reflexivity. Qed.
(** Different names can have the same table. *)
Example table_collision :
  checkNameAndTag "db.model" "v1" = Ok tt ∧ checkNameAndTag "db_model" "v1" = Ok tt ∧
  modelTableName "db.model" "v1" = modelTableName "db_model" "v1" ∧
  modelTableName "model_a" "b" = modelTableName "model" "a_b".
Proof. vm_compute. done. Qed.
(** A name with a dash passes the check, and gives a table's name that SQL does not take as it is. *)
Example dash_in_table : checkNameAndTag "my-model" "v1" = Ok tt ∧ table_name (modelTableName "my-model" "v1") = false.
Proof. vm_compute. done. Qed.
