(* ===== verification/ZooFacts.v ===== *)
(** * The catalogue of the model zoo (go/modelzooserver)

    What the database promises about the statements of the server is the class [ZooDB]; with it,
    the tables of the catalogue keep their invariant, whatever requests arrive and however
    handling them ends. *)

From S2P Require Import Prelude GoStrings GoState GoConv Base64 Sqlfs SqlfsFile Shell Model World NormalStmt Steps Archive ZooServer ZooNames.

Local Open Scope Z_scope.

(** ** The catalogue *)

Record repo_row := mkRepo { rp_id : Z; rp_name : string; rp_version : string }.
Record def_row := mkDef { df_id : Z; df_coll : Z; df_class : string; df_args : string }.
Record model_row := mkRow {
  md_id : Z; md_def : Z; md_name : string; md_version : string; md_url : string; md_description : string; md_metrics : string }.
Record catalogue := mkCatalogue { c_repos : list repo_row; c_defs : list def_row; c_models : list model_row }.

(** One row of an answer, with an id. *)
Definition id_row (id : Z) : row := [Some (pretty id)].

(** The laws are those of SQL for a statement whose texts are plain.  [collate] is what the
    comparison of texts looks at: the collations of MySQL do not distinguish capitals, say.
    A statement that fails has done nothing; a text that is too long for its column is an
    error, as in MySQL's strict mode; a query that was answered gives all its rows.  Foreign
    keys are checked. *)
Class ZooDB (D : Type) `{ZooWorld D} `{ZooConn} := {
  zoo_blocks : @BlockDB D (store s_URL);
  cat : D → catalogue;
  collate : string → string;
  query_fine sql d : fine (db_Query sql d).1;
  insert_id_fine sql d : fine (db_LastInsertId sql d).1;
  exec_fail sql d e d' : db_Exec sql d = (Fail e, d') → cat d' = cat d;
  insert_id_fail sql d e d' : db_LastInsertId sql d = (Fail e, d') → cat d' = cat d;
  select_repo_law word name version d : word ∈ ["and"; "AND"]%string → plain name = true → plain version = true →
    (db_Query (select_repo word name version) d).2 = d ∧
    ∀ rows d', db_Query (select_repo word name version) d = (Ok rows, d') →
      rows = (id_row ∘ rp_id) <$> filter (λ p, collate (rp_name p) = collate name ∧ collate (rp_version p) = collate version) (c_repos (cat d));
  select_def_law class coll d : plain class = true →
    (db_Query (select_def class coll) d).2 = d ∧
    ∀ rows d', db_Query (select_def class coll) d = (Ok rows, d') →
      rows = (id_row ∘ df_id) <$> filter (λ f, collate (df_class f) = collate class ∧ df_coll f = coll) (c_defs (cat d));
  insert_repo_law name version d id d' : plain name = true → plain version = true →
    db_LastInsertId (insert_repo name version) d = (Ok id, d') →
    int64_range id ∧ id ∉ rp_id <$> c_repos (cat d) ∧
    cat d' = mkCatalogue (c_repos (cat d) ++ [mkRepo id name version]) (c_defs (cat d)) (c_models (cat d));
  insert_def_law coll class args d d' : plain class = true → plain args = true →
    db_Exec (insert_def coll class args) d = (Ok tt, d') →
    coll ∈ rp_id <$> c_repos (cat d) ∧
    ∃ id, int64_range id ∧ id ∉ df_id <$> c_defs (cat d) ∧
      cat d' = mkCatalogue (c_repos (cat d)) (c_defs (cat d) ++ [mkDef id coll class args]) (c_models (cat d));
  insert_model_law def name version url description metrics d d' :
    plain name = true → plain version = true → plain url = true → plain description = true → plain metrics = true →
    db_Exec (insert_model def name version url description metrics) d = (Ok tt, d') →
    def ∈ df_id <$> c_defs (cat d) ∧
    (∃ id, id ∉ md_id <$> c_models (cat d) ∧
      cat d' = mkCatalogue (c_repos (cat d)) (c_defs (cat d)) (c_models (cat d) ++ [mkRow id def name version url description metrics])) ∧
    ∀ t, table_name t = true → @table_rows D (store s_URL) zoo_blocks t d' = @table_rows D (store s_URL) zoo_blocks t d;
  delete_defs_law coll d d' : db_Exec (delete_defs coll) d = (Ok tt, d') →
    (∀ f m, f ∈ c_defs (cat d) → df_coll f = coll → m ∈ c_models (cat d) → md_def m ≠ df_id f) ∧
    cat d' = mkCatalogue (c_repos (cat d)) (filter (λ f, df_coll f ≠ coll) (c_defs (cat d))) (c_models (cat d));
  delete_repo_law id d d' : db_Exec (delete_repo id) d = (Ok tt, d') →
    (∀ f, f ∈ c_defs (cat d) → df_coll f ≠ id) ∧
    cat d' = mkCatalogue (filter (λ p, rp_id p ≠ id) (c_repos (cat d))) (c_defs (cat d)) (c_models (cat d));
  delete_model_law name version d d' : plain name = true → plain version = true →
    db_Exec (delete_model name version) d = (Ok tt, d') →
    cat d' = mkCatalogue (c_repos (cat d)) (c_defs (cat d))
      (filter (λ m, ¬ (collate (md_name m) = collate name ∧ collate (md_version m) = collate version)) (c_models (cat d)))
}.

(** No two repositories have the same name and version, definitions belong to repositories and
    models to definitions; ids are unique. *)
Record catalogue_ok `{ZooDB D} (c : catalogue) : Prop := {
  repo_range p : p ∈ c_repos c → int64_range (rp_id p);
  def_range f : f ∈ c_defs c → int64_range (df_id f);
  repo_ids : NoDup (rp_id <$> c_repos c);
  def_ids : NoDup (df_id <$> c_defs c);
  model_ids : NoDup (md_id <$> c_models c);
  repos_unique : NoDup ((λ p, (collate (rp_name p), collate (rp_version p))) <$> c_repos c);
  defs_belong f : f ∈ c_defs c → df_coll f ∈ rp_id <$> c_repos c;
  models_belong m : m ∈ c_models c → md_def m ∈ df_id <$> c_defs c
}.

Section changes.
Context `{ZooDB D}.
Implicit Types (c : catalogue).

Definition key (p : repo_row) : string * string := (collate (rp_name p), collate (rp_version p)).
Definition taken (name version : string) c : Prop := (collate name, collate version) ∈ key <$> c_repos c.

Lemma ok_append_repo c id name version :
  catalogue_ok c → int64_range id → id ∉ rp_id <$> c_repos c → ¬ taken name version c →
  catalogue_ok (mkCatalogue (c_repos c ++ [mkRepo id name version]) (c_defs c) (c_models c)).
Proof.
  intros [] Hr Hid Hkey. split; cbn; try done.
  - intros p [Hp| ->%list_elem_of_singleton]%elem_of_app; [by auto|done].
  - rewrite fmap_app. apply NoDup_app. split_and!; [done| |apply NoDup_singleton]. intros x Hx Hin%list_elem_of_singleton. subst x. by apply Hid.
  - rewrite fmap_app. apply NoDup_app. split_and!; [done| |apply NoDup_singleton]. intros x Hx Hin%list_elem_of_singleton. subst x. by apply Hkey.
  - intros f Hf. rewrite fmap_app. apply elem_of_app. left. auto.
Qed.
Lemma ok_append_def c id coll class args :
  catalogue_ok c → int64_range id → id ∉ df_id <$> c_defs c → coll ∈ rp_id <$> c_repos c →
  catalogue_ok (mkCatalogue (c_repos c) (c_defs c ++ [mkDef id coll class args]) (c_models c)).
Proof.
  intros [] Hr Hid Hc. split; cbn; try done.
  - intros p [Hp| ->%list_elem_of_singleton]%elem_of_app; [by auto|done].
  - rewrite fmap_app. apply NoDup_app. split_and!; [done| |apply NoDup_singleton]. intros x Hx Hin%list_elem_of_singleton. subst x. by apply Hid.
  - intros f [Hf| ->%list_elem_of_singleton]%elem_of_app; [by auto|done].
  - intros m Hm. rewrite fmap_app. apply elem_of_app. left. auto.
Qed.
Lemma ok_append_model c m :
  catalogue_ok c → md_id m ∉ md_id <$> c_models c → md_def m ∈ df_id <$> c_defs c →
  catalogue_ok (mkCatalogue (c_repos c) (c_defs c) (c_models c ++ [m])).
Proof.
  intros [] Hid Hc. split; cbn; try done.
  - rewrite fmap_app. apply NoDup_app. split_and!; [done| |apply NoDup_singleton]. intros x Hx Hin%list_elem_of_singleton. subst x. by apply Hid.
  - intros m' [Hm| ->%list_elem_of_singleton]%elem_of_app; [by auto|done].
Qed.

Lemma NoDup_fmap_filter {A B} (f : A → B) (P : A → Prop) `{∀ x, Decision (P x)} l :
  NoDup (f <$> l) → NoDup (f <$> filter P l).
Proof.
  induction l as [|x l IH]; [done|]. rewrite fmap_cons. intros [Hx Hl]%NoDup_cons. rewrite filter_cons.
  case_decide; [|auto]. rewrite fmap_cons. apply NoDup_cons. split; [|auto]. contradict Hx.
  apply list_elem_of_fmap in Hx as (y & -> & [_ Hy]%list_elem_of_filter). by apply list_elem_of_fmap_2.
Qed.
Lemma ok_delete_defs c coll :
  catalogue_ok c → (∀ f m, f ∈ c_defs c → df_coll f = coll → m ∈ c_models c → md_def m ≠ df_id f) →
  catalogue_ok (mkCatalogue (c_repos c) (filter (λ f, df_coll f ≠ coll) (c_defs c)) (c_models c)).
Proof.
  intros [] Hm. split; cbn; try done.
  - intros f [_ Hf]%list_elem_of_filter. auto.
  - by apply NoDup_fmap_filter.
  - intros f [_ Hf]%list_elem_of_filter. auto.
  - intros m Hin. pose proof (models_belong0 m Hin) as (f & Hf & Hfd)%list_elem_of_fmap. apply list_elem_of_fmap.
    exists f. split; [done|]. apply list_elem_of_filter. split; [|done]. intros Hcoll. by apply (Hm f m).
Qed.
Lemma ok_delete_repo c id :
  catalogue_ok c → (∀ f, f ∈ c_defs c → df_coll f ≠ id) →
  catalogue_ok (mkCatalogue (filter (λ p, rp_id p ≠ id) (c_repos c)) (c_defs c) (c_models c)).
Proof.
  intros [] Hd. split; cbn; try done.
  - intros p [_ Hp]%list_elem_of_filter. auto.
  - by apply NoDup_fmap_filter.
  - by apply NoDup_fmap_filter.
  - intros f Hin. pose proof (defs_belong0 f Hin) as (p & Hp & Hpd)%list_elem_of_fmap. apply list_elem_of_fmap.
    exists p. split; [done|]. apply list_elem_of_filter. split; [|done]. rewrite <- Hp. by apply Hd.
Qed.
Lemma ok_delete_models c (P : model_row → Prop) `{∀ m, Decision (P m)} :
  catalogue_ok c → catalogue_ok (mkCatalogue (c_repos c) (c_defs c) (filter P (c_models c))).
Proof.
  intros []. split; cbn; try done.
  - by apply NoDup_fmap_filter.
  - intros m [_ Hm]%list_elem_of_filter. auto.
Qed.

(** ** What the steps of the handlers do *)

Definition keeps_ok (d d' : D) : Prop := catalogue_ok (cat d) → catalogue_ok (cat d').
#[export] Instance keeps_ok_preorder : PreOrder keeps_ok.
Proof. split; [intros d; by unfold keeps_ok|intros x y z; unfold keeps_ok; auto]. Qed.

(** A computation after a check that it relies on. *)
Lemma within_checked {A} (R : D → D → Prop) `{!PreOrder R} (r : result unit) (m : st D A) :
  (r = Ok tt → within R m) → within R (lift r ≫= λ _, m).
Proof.
  intros Hm. destruct r as [[]|e| |]; [|by intros d r' d' [= <- <-]..].
  intros d r d'. apply Hm. done.
Qed.
(** A statement that does one thing or fails. *)
Lemma exec_keeps sql : (∀ d d', db_Exec sql d = (Ok tt, d') → keeps_ok d d') → within keeps_ok (db_Exec sql).
Proof.
  intros Hok d r d' Hr. destruct r as [[]|e| |].
  - by apply Hok.
  - unfold keeps_ok. by rewrite (exec_fail _ _ _ _ Hr).
  - pose proof (@exec_fine D (store s_URL) zoo_blocks sql d) as Hf. unfold db_Exec in Hr. by rewrite Hr in Hf.
  - pose proof (@exec_fine D (store s_URL) zoo_blocks sql d) as Hf. unfold db_Exec in Hr. by rewrite Hr in Hf.
Qed.

Lemma insert_def_keeps coll class args : plain class = true → plain args = true → within keeps_ok (db_Exec (insert_def coll class args)).
Proof.
  intros Hc Ha. apply exec_keeps. intros d d' He Hok.
  destruct (insert_def_law _ _ _ _ _ Hc Ha He) as (Hin & id & Hr & Hid & ->). by apply ok_append_def.
Qed.
Lemma insert_model_keeps def name version url description metrics :
  plain name = true → plain version = true → plain url = true → plain description = true → plain metrics = true →
  within keeps_ok (db_Exec (insert_model def name version url description metrics)).
Proof.
  intros Hn Hv Hu Hd Hm. apply exec_keeps. intros d d' He Hok.
  destruct (insert_model_law _ _ _ _ _ _ _ _ Hn Hv Hu Hd Hm He) as (Hin & (id & Hid & ->) & _). by apply ok_append_model.
Qed.
Lemma delete_defs_keeps coll : within keeps_ok (db_Exec (delete_defs coll)).
Proof. apply exec_keeps. intros d d' [Hm He]%delete_defs_law Hok. rewrite He. by apply ok_delete_defs. Qed.
Lemma delete_repo_keeps id : within keeps_ok (db_Exec (delete_repo id)).
Proof. apply exec_keeps. intros d d' [Hm He]%delete_repo_law Hok. rewrite He. by apply ok_delete_repo. Qed.
Lemma delete_model_keeps name version : plain name = true → plain version = true → within keeps_ok (db_Exec (delete_model name version)).
Proof. intros Hn Hv. apply exec_keeps. intros d d' He%delete_model_law Hok; [|done..]. rewrite He. by apply ok_delete_models. Qed.

Lemma first_id_same sql missing : (∀ d, (db_Query sql d).2 = d) → within (=) (first_id sql missing).
Proof.
  intros Hs d r d'. unfold first_id, mbind, st_bind. specialize (Hs d).
  destruct (db_Query sql d) as [[rows|e| |] d1]; cbn in Hs; subst d1; [|by intros [= _ <-]..].
  destruct rows as [|[|c [|c2 l]] rows]; by intros [= _ <-].
Qed.
End changes.

(** ** What else the handlers do leaves the catalogue alone *)

Definition same_cat `{ZooDB D} (d d' : D) : Prop := cat d' = cat d.
#[export] Instance same_cat_preorder `{ZooDB D} : PreOrder same_cat.
Proof. split; [by intros d|intros x y z; unfold same_cat; congruence]. Qed.

(** The statements of sqlfs for a table. *)
Definition block_statement (t : string) (sql : string) : Prop :=
  sql = drop_stmt t ∨ sql = has_stmt t ∨ (∃ driver, create_stmt driver t = Some sql) ∨
  ∃ row block, str_forall b64_output block = true ∧ sql = insert_block t row block.
(** A name that SQL takes, or may refuse. *)
Definition plain_table (t : string) : bool := str_forall tag_char t.

(** One statement is sent at a time, so that what begins with SELECT changes nothing. *)
Class QuietWorld (D : Type) `{ZooDB D} `{!Files D} := {
  quiet_perform {A} (c : call A) : within same_cat (perform c);
  quiet_block t sql : plain_table t = true → HasPrefix t (publicModelDB +:+ ".") = true → block_statement t sql →
    within same_cat (db_Exec sql);
  quiet_publish : within same_cat publish_db;
  quiet_tables sql : sql ∈ removelast (Split createTableStmts ";") → within same_cat (db_Exec sql);
  quiet_default : within same_cat (db_Query find_default_repo);
  default_unknown rows d d' : db_Query find_default_repo d = (Ok rows, d') → rows = [] →
    d' = d ∧ (collate "sqlflow/sqlflow", collate "latest") ∉ key <$> c_repos (cat d);
  quiet_lists sql : (∃ n o, sql = select_repos n o ∨ sql = select_models n o) → within same_cat (db_Query sql);
  quiet_has ds t : within same_cat (@Exec D (store ds) (has_stmt t));
  quiet_select ds t lo hi : within same_cat (@SelectBlocks D (store ds) (select_blocks t lo hi));
  quiet_OpenAndConnectDB ds : within same_cat (@OpenAndConnectDB D (store ds) (models ds) ds);
  quiet_RunTar ds args : within same_cat (@RunTar D (store ds) (models ds) args);
  quiet_ReadFile ds p : within same_cat (@ReadFile D (store ds) (models ds) p);
  quiet_CreateFile ds p : within same_cat (@CreateFile D (store ds) (models ds) p);
  quiet_RemoveAll ds p : within same_cat (@RemoveAll D (store ds) (models ds) p);
  quiet_OpenDB ds : within same_cat (OpenDB ds);
  quiet_CloseDB ds : within same_cat (CloseDB ds);
  quiet_ioutil_TempDir d p : within same_cat (ioutil_TempDir d p);
  quiet_os_RemoveAll p : within same_cat (os_RemoveAll p);
  quiet_os_Create p : within same_cat (os_Create p);
  quiet_fd_Write p s : within same_cat (fd_Write p s);
  quiet_os_Mkdir p m : within same_cat (os_Mkdir p m);
  quiet_os_IsNotExist p : within same_cat (os_IsNotExist p);
  quiet_os_Getwd : within same_cat os_Getwd;
  quiet_os_Chdir p : within same_cat (os_Chdir p);
  quiet_ioutil_ReadDir p : within same_cat (ioutil_ReadDir p);
  quiet_cmd_Start c e : within same_cat (cmd_Start c e);
  quiet_cmd_Wait n : within same_cat (cmd_Wait n);
  quiet_ClosePipe : within same_cat ClosePipe;
  quiet_http_Get u : within same_cat (http_Get u);
  quiet_SendAndClose b m : within same_cat (SendAndClose b m);
  quiet_SendModel n t s : within same_cat (SendModel n t s);
  quiet_FileStat p : within same_cat (FileStat p);
  quiet_MkdirAll p m : within same_cat (MkdirAll p m);
  quiet_ReadAll p : within same_cat (ReadAll p);
  quiet_OpenFile p m : within same_cat (OpenFile p m);
  quiet_WriteStart p s : within same_cat (WriteStart p s)
}.
Create HintDb quiet.
#[export] Hint Resolve quiet_has quiet_select quiet_perform quiet_publish quiet_default quiet_OpenAndConnectDB
  quiet_RunTar quiet_ReadFile quiet_CreateFile quiet_RemoveAll quiet_OpenDB quiet_CloseDB quiet_ioutil_TempDir
  quiet_os_RemoveAll quiet_os_Create quiet_fd_Write quiet_os_Mkdir quiet_os_IsNotExist quiet_os_Getwd quiet_os_Chdir
  quiet_ioutil_ReadDir quiet_cmd_Start quiet_cmd_Wait quiet_ClosePipe quiet_http_Get quiet_SendAndClose quiet_SendModel
  quiet_FileStat quiet_MkdirAll quiet_ReadAll quiet_OpenFile quiet_WriteStart : quiet.
