(* ===== verification/ZooRun.v ===== *)
(** * The handlers of the model zoo keep the catalogue (go/modelzooserver)

    What each request does to the catalogue: only the statements on its tables change it, and
    they keep its invariant; so does every sequence of requests. *)

From S2P Require Import Prelude GoStrings GoState GoConv Base64 Sqlfs SqlfsFile Shell Model World NormalStmt Steps Archive ZooServer ZooNames ZooFacts.

Local Open Scope Z_scope.

(** ** Parts *)

Ltac quiet_step :=
  first
    [ assumption | solve [eauto with quiet]
    | apply within_bind; [..|intros ?]
    | apply within_lift | apply within_ret | apply within_get | apply within_attempt
    | apply within_catchS; [..|intros ?] | apply within_wrapS | apply within_defer
    | apply within_local | apply within_disk | apply within_own | apply within_update
    | apply within_eachS; [..|intros ? _]
    | match goal with |- PreOrder _ => apply _ | |- within _ (match ?x with _ => _ end) => destruct x end ].
Ltac quiet := repeat quiet_step.

(** A computation, then another: the tactic is for the first. *)
Tactic Notation "seq_by" tactic3(t) := apply within_bind; [try apply _; t ..|].
Tactic Notation "defer_by" tactic3(t) := apply within_defer; [try apply _; t ..|].
Tactic Notation "catch_by" tactic3(t) := apply within_catchS; [try apply _; t ..|].

(** A loop with a state. *)
Lemma within_foldS {D S X} (R : D → D → Prop) `{!PreOrder R} (f : S → X → st D S) s l :
  (∀ s x, within R (f s x)) → within R (foldS f s l).
Proof. intros Hf. induction l as [|x l IH] in s |- *; cbn [foldS]; quiet. Qed.

Section files.
Context {D : Type} (R : D → D → Prop) `{!PreOrder R}.

(** The writer and the reader of sqlfs do what their hooks and queries do. *)
Lemma within_on_writer f : within (beside R) (on_writer (D := D) f).
Proof. intros [w d] r [w' d'] [= _ _ <-]. unfold beside. reflexivity. Qed.
Lemma within_hook m : within R m → within (beside R) (hook m).
Proof.
  intros Hm [w d] r [w' d']. unfold hook. destruct (attempt m d) as [r1 d1] eqn:Ha. intros [= _ _ <-].
  exact (within_attempt _ _ Hm _ _ _ Ha).
Qed.
Lemma within_Write flush p : (∀ b, within R (flush b)) → within (beside R) (Write flush p).
Proof.
  intros Hf. unfold Write. assert (∀ fuel p n, within (beside R) (Write_loop flush fuel p n)) as Hloop; [|apply Hloop].
  induction fuel as [|fuel IH]; intros q n; cbn [Write_loop]; [apply within_lift; apply _|].
  destruct (decide _); [quiet|]. seq_by (quiet). intros [w d].
  seq_by (apply within_on_writer). intros _.
  seq_by (quiet). intros [w2 d2]. destruct (decide _); [|apply IH].
  seq_by (by apply within_hook). intros [e|e]; [|quiet].
  seq_by (apply within_on_writer). intros _. apply IH.
Qed.
Lemma within_Close flush wrapup : (∀ b, within R (flush b)) → within R wrapup → within (beside R) (Close flush wrapup).
Proof.
  intros Hf Hw. unfold Close. seq_by (quiet). intros [w d].
  seq_by (by apply within_hook). intros [e|e]; [|quiet].
  seq_by (apply within_on_writer). intros _.
  seq_by (by apply within_hook). intros [e2|e2]; quiet.
Qed.
Lemma within_at_world {A} (m : st D A) : within R m → within (beside R) (at_world m).
Proof.
  intros Hm [n d] r [n' d']. unfold at_world. destruct (m d) as [r1 d1] eqn:Hd. intros [= _ _ <-]. exact (Hm _ _ _ Hd).
Qed.
Lemma within_next_row : within (beside R) (next_row (D := D)).
Proof. intros [n d] r [n' d'] [= _ _ <-]. unfold beside. reflexivity. Qed.
Lemma within_on_reader f : within (beside R) (on_reader (D := D) f).
Proof. intros [r d] res [r' d'] [= _ _ <-]. unfold beside. reflexivity. Qed.
End files.

(** A reader stays at its table. *)
Definition reads {D} (R : D → D → Prop) (t : string) (x y : reader * D) : Prop :=
  r_table x.1 = t → r_table y.1 = t ∧ R x.2 y.2.
#[export] Instance reads_preorder {D} (R : D → D → Prop) `{!PreOrder R} t : PreOrder (reads R t).
Proof.
  split; [intros x Hx; split; [done|reflexivity]|]. intros x y z Hxy Hyz Hx. destruct (Hxy Hx) as [Hy H1].
  destruct (Hyz Hy) as [Hz H2]. split; [done|by etrans].
Qed.

Section reading.
Context {D : Type} (R : D → D → Prop) `{!PreOrder R} `{Outside D} (t : string).
Context (Hselect : ∀ lo hi, within R (SelectBlocks (select_blocks t lo hi))).

Lemma reads_local {A} r (m : st (reader * D) A) : r_table r = t → within (reads R t) m → within R (with_local r m).
Proof.
  intros Hr Hm d res d'. unfold with_local. destruct (m (r, d)) as [res' [r' d2]] eqn:Hrun. intros [= _ <-].
  by destruct (Hm _ _ _ Hrun Hr).
Qed.
Lemma reads_on_reader f : (∀ r, r_table (f r) = r_table r) → within (reads R t) (on_reader (D := D) f).
Proof. intros Hf [r d] res [r' d'] [= _ <- <-] Hr. cbn in *. split; [by rewrite Hf|reflexivity]. Qed.
Lemma reads_disk {A} (m : st D A) : within R m → within (reads R t) (at_disk m).
Proof.
  intros Hm [r d] res [r' d']. unfold at_disk. destruct (m d) as [res' d2] eqn:Hd. intros [= <- <- <-] Hr.
  split; [done|]. exact (Hm _ _ _ Hd).
Qed.
Lemma reads_next : within (reads R t) readNextFragments.
Proof.
  intros [r d] res [r' d'] Hrun Hr. cbn in Hr. revert Hrun. unfold readNextFragments.
  rewrite (st_bind_run get _ _ (r, d) (r, d)) by done. cbv beta iota zeta. unfold mbind, st_bind. rewrite Hr.
  destruct (SelectBlocks _ d) as [[[rows err]|e| |] d1] eqn:Hs; apply Hselect in Hs.
  2-4: intros [= _ <- <-]; done.
  destruct (_ <? _)%Z; [intros [= _ <- <-]; done|]. destruct (forallb _ _); intros [= _ <- <-]; done.
Qed.
Lemma reads_nextBlock : within (reads R t) nextBlock.
Proof.
  unfold nextBlock. seq_by (quiet). intros [r d]. cbv zeta.
  assert (∀ i l, within (reads R t) (on_reader (λ r, set_fragments l i (rowIdx r) r))) as Hset by (intros; by apply reads_on_reader).
  assert (within (reads R t) (D := reader * D) (A := string) (reset ≫= λ _, fail EOF)) as Hreset.
  { seq_by (apply Hset). intros _; quiet. }
  match goal with |- within _ (if _ then (if _ then _ else _ ≫= λ _, ?m) else _) => assert (within (reads R t) m) as Htake end.
  { seq_by (quiet). intros [r2 d2]. destruct (decide _); [done|].
    seq_by (quiet). intros f. seq_by (by apply reads_on_reader). intros _; quiet. }
  destruct (decide _); [|done]. destruct (_ && _); [done|].
  seq_by (apply reads_next). intros _; done.
Qed.
Lemma reads_Read fuel k : within (reads R t) (Read fuel k).
Proof.
  assert (∀ out, within (reads R t) (Read_loop fuel k out)) as Hloop.
  { induction fuel as [|n IH]; intros out; cbn [Read_loop]; [quiet|]. destruct (decide _); [|quiet].
    seq_by (quiet). intros [r d]. cbv zeta.
    seq_by (by apply reads_on_reader). intros _. destruct (decide _); [|apply IH].
    seq_by (apply within_attempt, reads_nextBlock). intros [blk|er]; [|quiet].
    destruct (DecodeString blk) as [b err]. seq_by (by apply reads_on_reader). intros _.
    destruct err; [quiet|apply IH]. }
  unfold Read. seq_by (quiet). intros [r d]. destruct (is_open r); [|quiet].
  seq_by (apply Hloop). intros [out e]. destruct (decide _); quiet.
Qed.
Lemma reads_Close : within (reads R t) (D := reader * D) Close_reader.
Proof. by apply reads_on_reader. Qed.
Lemma within_Open n : within R (Exec (has_stmt t)) → within R (Open t n).
Proof.
  intros Hh. unfold Open, hasTable. seq_by (quiet). intros _. destruct (_ <=? _)%Z; quiet.
Qed.
Lemma Open_table n d r d' : Open t n d = (Ok r, d') → r_table r = t.
Proof.
  intros ([] & d1 & _ & Hr)%st_bind_Ok. destruct (_ <=? _)%Z; [done|]. by apply mret_Ok in Hr as [<- _].
Qed.
End reading.

(** ** Requests that leave the catalogue alone *)

Lemma within_weaken {D A} (R S : D → D → Prop) (m : st D A) : (∀ x y, R x y → S x y) → within R m → within S m.
Proof. intros HRS Hm d r d' Hr. apply HRS. exact (Hm _ _ _ Hr). Qed.

(** A computation whose result has a property that what follows relies on. *)
Lemma within_post {D A B} (R : D → D → Prop) `{!PreOrder R} (P : A → Prop) (m : st D A) (f : A → st D B) :
  within R m → (∀ d a d', m d = (Ok a, d') → P a) → (∀ a, P a → within R (f a)) → within R (m ≫= f).
Proof.
  intros Hm HP Hf d r d'. unfold mbind, st_bind. destruct (m d) as [[a|e| |] d1] eqn:Hd; intros Hr.
  2-4: injection Hr as _ <-; exact (Hm _ _ _ Hd).
  etrans; [exact (Hm _ _ _ Hd)|]. exact (Hf a (HP _ _ _ Hd) _ _ _ Hr).
Qed.

Section quiet_parts.
Context `{DSNParsers} `{QuietWorld D}.

Lemma keep_list_rows {A} sql (scan : row → result A) :
  (∃ n o, sql = select_repos n o ∨ sql = select_models n o) → within same_cat (list_rows sql scan).
Proof.
  intros Hs. unfold list_rows. seq_by (by apply quiet_lists). intros rows. apply within_foldS; [apply _|].
  intros s r. quiet.
Qed.
Lemma keep_ListModelRepos req : within same_cat (ListModelRepos req).
Proof. apply keep_list_rows. eauto. Qed.
Lemma keep_ListModels req : within same_cat (ListModels req).
Proof. apply keep_list_rows. eauto. Qed.

Lemma keep_first_id sql missing : (∀ d, (db_Query sql d).2 = d) → within same_cat (first_id sql missing).
Proof. intros Hs. eapply within_weaken; [|by apply first_id_same]. by intros x y ->. Qed.

Lemma keep_imageExists name tag : within same_cat (imageExistsOnRegistry name tag).
Proof. unfold imageExistsOnRegistry. quiet. Qed.
Lemma keep_in_dir {A} dir (m : st D A) : within same_cat m → within same_cat (in_dir dir m).
Proof. intros Hm. unfold in_dir. quiet. Qed.
Lemma keep_run_docker a b c e : within same_cat (run_docker a b c e).
Proof. unfold run_docker. quiet. Qed.
Lemma keep_run_quietly args : within same_cat (run_quietly args).
Proof. unfold run_quietly. quiet. Qed.
Hint Resolve keep_run_docker keep_run_quietly keep_imageExists : quiet.
Lemma keep_buildAndPush dir name tag dry : within same_cat (buildAndPushImage dir name tag dry).
Proof. unfold buildAndPushImage. destruct (Contains _ _); [quiet|]. apply keep_in_dir. quiet. Qed.
Lemma keep_kaniko dir name tag dry : within same_cat (buildAndPushImageKaniko dir name tag dry).
Proof.
  unfold buildAndPushImageKaniko. cbv zeta. destruct (_ || _); [quiet|]. seq_by quiet. intros secret.
  seq_by quiet. intros _. defer_by quiet. apply keep_in_dir. quiet.
Qed.
Lemma keep_build dir name tag : within same_cat (build_image dir name tag).
Proof. unfold build_image. seq_by quiet. intros [|]; [apply keep_kaniko|apply keep_buildAndPush]. Qed.
Lemma keep_getModelClasses dir : within same_cat (getModelClasses dir).
Proof.
  unfold getModelClasses. seq_by quiet. intros files. destruct (bool_decide _); [|quiet]. destruct (decide _); [quiet|].
  seq_by quiet. intros cwd. seq_by quiet. intros _. seq_by (apply within_foldS; [apply _|intros s x; unfold package_classes; quiet]).
  intros result. quiet.
Qed.
Lemma keep_UnzipDir a b : within same_cat (UnzipDir a b).
Proof.
  unfold UnzipDir, uncompress. seq_by quiet. intros s. seq_by (destruct s as [|e]; [quiet|destruct (IsNotExist e); quiet]).
  intros _. seq_by quiet. intros rd. destruct (untar rd) as [es err].
  seq_by (apply within_eachS; [apply _|intros e _; unfold unpack; quiet]). intros _. quiet.
Qed.
Lemma keep_receive_repo fuel path reqs err n t k : within same_cat (receive_repo fuel path reqs err n t k).
Proof.
  induction fuel as [|fuel IH] in reqs, err, n, t, k |- *; cbn [receive_repo]; [quiet|].
  destruct reqs as [|q reqs]; [destruct err|]; quiet.
Qed.

(** The files of models. *)
Lemma keep_send_pieces t fuel name tag : within (reads same_cat t) (send_pieces fuel name tag).
Proof.
  induction fuel as [|fuel IH]; cbn [send_pieces]; [quiet|].
  seq_by (apply (@reads_Read D same_cat _ (store s_URL)); quiet). intros [b e].
  destruct e as [e|]; [destruct (decide _); [|quiet]|seq_by idtac]; try (destruct (decide _); [quiet|]);
    try (apply reads_disk; quiet); try quiet; intros _; apply IH.
Qed.
Lemma keep_skip t : within (reads same_cat t) skip_metadata.
Proof.
  unfold skip_metadata. cbv zeta. seq_by (apply (@reads_Read D same_cat _ (store s_URL)); quiet). intros [l e].
  destruct (_ || _); [quiet|]. destruct (ParseInt0 l); [|quiet]. destruct (_ <? _); [quiet|].
  seq_by (apply (@reads_Read D same_cat _ (store s_URL)); quiet). intros [h e2]. destruct (_ || _); quiet.
Qed.

Lemma keep_Open ds t n : within same_cat (@Open D (store ds) t n).
Proof. apply within_Open; [apply _|]. quiet. Qed.

Lemma keep_DownloadModel fuel req : within same_cat (DownloadModel fuel req).
Proof.
  unfold DownloadModel. seq_by quiet. intros _. eapply (within_post _ (λ r, r_table r = _)); [apply keep_Open|intros d r d'; apply Open_table|].
  intros r Hr. apply (reads_local _ _ _ _ Hr). defer_by (apply reads_Close; apply _).
  seq_by (destruct experimental; [apply keep_skip|quiet]). intros _. apply keep_send_pieces.
Qed.

Lemma keep_read_metadata ds t : within (reads same_cat t) (@read_metadata D (store ds) (models ds)).
Proof.
  unfold read_metadata. seq_by (apply (@reads_Read D same_cat _ (store ds)); quiet). intros [l e].
  destruct (_ || _); [quiet|]. destruct (ParseInt0 l); [|quiet]. destruct (_ <? _); [quiet|].
  seq_by (apply (@reads_Read D same_cat _ (store ds)); quiet). intros [h e2]. destruct e2; [quiet|].
  destruct (_ =? _); quiet.
Qed.
Lemma keep_metadata ds t : within same_cat (@GetModelMetadataFromDB _ D (store ds) (models ds) ds t).
Proof.
  assert (∀ t, within same_cat (@getModelMetadataFromDBImpl _ D (store ds) (models ds) ds t)) as Himpl.
  { clear t. intros t. unfold getModelMetadataFromDBImpl. seq_by quiet. intros _. seq_by quiet. intros t'.
    eapply (within_post _ (λ r, r_table r = _)); [apply keep_Open|intros d r d'; apply Open_table|].
    intros r Hr. apply (reads_local _ _ _ _ Hr). defer_by (apply reads_Close; apply _).
    apply keep_read_metadata. }
  unfold GetModelMetadataFromDB. catch_by (apply Himpl). intros e. catch_by (apply Himpl). intros e2. quiet.
Qed.
Lemma keep_GetModelMeta req : within same_cat (GetModelMeta req).
Proof.
  unfold GetModelMeta. destruct (negb _); [quiet|]. seq_by quiet. intros _. seq_by (apply keep_metadata). intros m. quiet.
Qed.

Lemma keep_Copy ds t fuel k : within (reads same_cat t) (@Copy fuel k D (store ds)).
Proof.
  induction fuel as [|fuel IH]; cbn [Copy]; [quiet|].
  seq_by (apply (@reads_Read D same_cat _ (store ds)); quiet). intros [b e].
  destruct e; [destruct (decide _); quiet|]. seq_by (apply IH). intros rest. quiet.
Qed.
Lemma keep_dump ds fuel k t cwd : within same_cat (@DumpDBModel D (store ds) (models ds) fuel k t cwd).
Proof.
  unfold DumpDBModel, open_model. apply (within_post _ (λ r, r_table r = t)); [apply within_wrapS; [apply _|apply keep_Open]|..].
  { intros d r d' Hr%wrapS_Ok. by apply Open_table in Hr. }
  intros r Hr. apply (reads_local _ _ _ _ Hr). defer_by (apply reads_Close; apply _).
  unfold dump_file. seq_by (apply within_wrapS; try apply _; apply reads_disk; quiet). intros _.
  seq_by (catch_by (apply keep_Copy); intros e; quiet). intros c. quiet.
Qed.
Lemma keep_extract ds a b : within same_cat (@ExtractMetaFromTarball D (store ds) (models ds) a b).
Proof.
  unfold ExtractMetaFromTarball. destruct (negb _); [quiet|]. seq_by quiet. intros _.
  defer_by quiet. unfold loadMeta. quiet.
Qed.
Lemma keep_user_model fuel req dir : within same_cat (user_model_of fuel req dir).
Proof.
  unfold user_model_of. destruct experimental.
  - seq_by (apply keep_metadata). intros m. seq_by (apply keep_Open). intros f. quiet.
  - seq_by (apply keep_dump). intros [tarFile c]. seq_by (apply keep_extract). intros m. quiet.
Qed.
End quiet_parts.

(** ** Requests that change the catalogue *)

Lemma tag_char_subst c new s : str_forall tag_char new = true → str_forall tag_char s = true → str_forall tag_char (subst_char c new s) = true.
Proof.
  intros Hd. induction s as [|e s IH]; [done|]. cbn. intros [He Hs]%andb_true_iff. rewrite str_forall_app, (IH Hs), andb_true_r.
  case_decide; [done|]. cbn. by rewrite He.
Qed.
Lemma modelTableName_plain name tag :
  str_forall tag_char name = true → str_forall tag_char tag = true →
  plain_table (modelTableName name tag) = true ∧ HasPrefix (modelTableName name tag) (publicModelDB +:+ ".") = true.
Proof.
  intros Hn Ht. unfold modelTableName. rewrite !(ReplaceAll_char "."). split.
  - unfold plain_table. rewrite !str_forall_app, !tag_char_subst by done. done.
  - apply HasPrefix_app. eexists. by rewrite <- str_app_assoc.
Qed.

Section changing_parts.
Context `{DSNParsers} `{QuietWorld D} (mysql : s_Driver ≠ "hive"%string).

Lemma keeps_same {A} (m : st D A) : within same_cat m → within keeps_ok m.
Proof. apply within_weaken. intros x y. unfold same_cat, keeps_ok. by intros ->. Qed.

Section table.
Context (t : string) (Hplain : plain_table t = true) (Hpublic : HasPrefix t (publicModelDB +:+ ".") = true).

Lemma keep_flush b : within (beside same_cat) (@flushToSQLTable D (store s_URL) true t b).
Proof.
  unfold flushToSQLTable. cbn [negb]. destruct (decide _); [|quiet]. seq_by quiet. intros [n d].
  seq_by (apply within_wrapS; try apply _; apply within_at_world).
  - apply (quiet_block t); [done..|]. right. right. right. exists n, (EncodeToString b). split; [apply EncodeToString_output|done].
  - intros _. apply within_next_row. apply _.
Qed.
Lemma keep_Create : within same_cat (zoo_Create t).
Proof.
  unfold zoo_Create, Create. rewrite decide_False by done. apply within_wrapS; [apply _|].
  unfold newSQLWriter, prepare_table, dropTableIfExists, createTable, hasTable.
  assert (∀ sql, block_statement t sql → within same_cat (@Exec D (store s_URL) sql)) as Hb by (intros; by apply (quiet_block t)).
  seq_by (seq_by (apply within_wrapS; try apply _; apply within_wrapS; try apply _; apply Hb; by left)).
  - intros _. apply within_wrapS; [apply _|]. destruct (create_stmt s_Driver t) eqn:Hs; [|quiet].
    seq_by (apply within_wrapS; try apply _; apply Hb; right; right; left; by eexists). intros _.
    apply within_wrapS; [apply _|]. apply within_wrapS; [apply _|]. apply Hb. right. by left.
  - intros _. quiet.
Qed.
(** What is done with the file of a model keeps the catalogue's invariant if what is done beside it does. *)
Lemma keep_with_file {A} w (m : (string → st (Z * D) unit) → st (flushWriteCloser * (Z * D)) A) :
  within (beside (beside keeps_ok)) (m (@flushToSQLTable D (store s_URL) true t)) → within keeps_ok (with_file t w m).
Proof.
  intros Hm. unfold with_file, zoo_hooks, hooks. rewrite decide_False by done.
  assert (∀ b, within (beside keeps_ok) (@flushToSQLTable D (store s_URL) true t b)) as Hf.
  { intros b. eapply within_weaken; [|apply keep_flush]. intros x y. unfold beside, same_cat, keeps_ok. by intros ->. }
  apply within_local, within_local. defer_by (apply within_Close; [apply _|apply Hf|apply within_ret; apply _]). done.
Qed.
End table.

Lemma keep_write_piece {D'} (R : D' → D' → Prop) `{!PreOrder R} flush p :
  (∀ b, within (beside R) (flush b)) → within (beside (beside R)) (write_piece flush p).
Proof.
  intros Hf. unfold write_piece. seq_by (apply within_Write; [apply _|done]). intros [n e]. destruct e; quiet.
Qed.
Lemma keep_read_source ds k : within (beside same_cat) (read_source ds k).
Proof.
  intros [s d] res [s' d']. unfold read_source, beside. cbn [snd]. destruct s as [r|rest].
  - destruct (@Read D (store ds) (k + 2) k (r, d)) as [res1 [r1 d1]] eqn:Hr. intros [= _ _ <-].
    by destruct (@reads_Read D same_cat _ (store ds) (r_table r) ltac:(quiet) _ _ _ _ _ Hr eq_refl).
  - destruct (decide _); intros [= _ _ <-]; done.
Qed.
Lemma within_beneath {D' S A} (R : D' → D' → Prop) (m : st (S * D') A) :
  within (beside R) m → within (beside (beside (beside R))) (beneath (D := D') m).
Proof.
  intros Hm [s [w [n d]]] r [s' [w' [n' d']]]. unfold beneath. destruct (m (s, d)) as [r1 [s1 d1]] eqn:Hd.
  intros [= _ _ _ _ <-]. exact (Hm _ _ _ Hd).
Qed.
Lemma keep_copy_pieces {R : D → D → Prop} `{!PreOrder R} fuel ds flush :
  (∀ x y, same_cat x y → R x y) → (∀ b, within (beside R) (flush b)) →
  within (beside (beside (beside R))) (copy_pieces fuel ds flush).
Proof.
  intros HR Hf. induction fuel as [|fuel IH]; cbn [copy_pieces]; [quiet|].
  seq_by (apply within_beneath; eapply within_weaken; [|apply keep_read_source]; intros x y; apply HR). intros [b e].
  destruct (bool_decide _); [quiet|]. seq_by (destruct (decide _); [quiet|apply within_disk; by apply keep_write_piece]).
  intros _. destruct (decide _); [quiet|apply IH].
Qed.

Lemma keep_find_def image tag class a b :
  plain image = true → plain tag = true → plain class = true → within same_cat (find_def (select_repo "AND" image tag) class a b).
Proof.
  intros Hi Ht Hc. unfold find_def. seq_by (apply keep_first_id; intros d; apply select_repo_law; [by right; left|done..]).
  intros coll. apply keep_first_id. intros d. by apply select_def_law.
Qed.

Lemma keep_DropModelRepo req : within keeps_ok (DropModelRepo req).
Proof.
  unfold DropModelRepo. apply within_checked; [apply _|]. intros [[_ Hn] [_ Ht]]%checkImageAndTag_ok.
  seq_by (apply keeps_same, keep_first_id; intros d; apply select_repo_law;
    [by left|by apply image_plain|by apply tag_plain]). intros id.
  seq_by (apply delete_defs_keeps). intros _. seq_by (apply delete_repo_keeps). intros _. quiet.
Qed.
Lemma keep_DropModel req : within keeps_ok (DropModel req).
Proof.
  unfold DropModel. apply within_checked; [apply _|]. intros [[_ Hn] [_ Ht]]%checkNameAndTag_ok.
  seq_by (apply delete_model_keeps; by apply tag_plain). intros _. quiet.
Qed.

(** *** Releasing definitions *)

Definition plain_desc (desc : string * string) : Prop := plain desc.1 = true ∧ plain desc.2 = true.
Lemma keep_insert_defs coll descs : Forall plain_desc descs →
  within keeps_ok (eachS (λ '(name, doc), db_Exec (insert_def coll name doc)) descs).
Proof.
  intros Hd. apply within_eachS; [apply _|]. intros [name doc] Hin. rewrite Forall_forall in Hd.
  destruct (Hd _ Hin). by apply insert_def_keeps.
Qed.
Lemma matching_repos_none name version c :
  (id_row ∘ rp_id) <$> filter (λ p, collate (rp_name p) = collate name ∧ collate (rp_version p) = collate version) (c_repos c) = [] →
  ¬ taken name version c.
Proof.
  intros Hnil (p & Hk & Hp)%list_elem_of_fmap. apply fmap_nil_inv in Hnil.
  eapply (filter_nil_not_elem_of _ _ p); [exact Hnil| |exact Hp]. unfold key in Hk. injection Hk as -> ->. done.
Qed.
Lemma keep_insert_repo name version d id d' : plain name = true → plain version = true → ¬ taken name version (cat d) →
  db_LastInsertId (insert_repo name version) d = (Ok id, d') → keeps_ok d d'.
Proof.
  intros Hn Hv Hfree He Hok. destruct (insert_repo_law _ _ _ _ _ Hn Hv He) as (Hr & Hid & ->). by apply ok_append_repo.
Qed.
Lemma insert_id_kept sql d r d' : db_LastInsertId sql d = (r, d') → is_ok r = false → keeps_ok d d'.
Proof.
  intros Hr Hno. pose proof (insert_id_fine sql d) as Hf. rewrite Hr in Hf. destruct r as [id|e| |]; try done.
  unfold keeps_ok. by rewrite (insert_id_fail _ _ _ _ Hr).
Qed.
(** An insertion when the name is free, and what follows it. *)
Lemma keep_register_new {A} name version (k : Z → st D A) d r d' :
  plain name = true → plain version = true → ¬ taken name version (cat d) → (∀ id, within keeps_ok (k id)) →
  (db_LastInsertId (insert_repo name version) ≫= k) d = (r, d') → keeps_ok d d'.
Proof.
  intros Hn Hv Hfree Hk. unfold mbind, st_bind. destruct (db_LastInsertId _ d) as [[id|e| |] d1] eqn:Hi; intros Hr.
  2-4: injection Hr as _ <-; by eapply insert_id_kept.
  transitivity d1; [exact (keep_insert_repo _ _ _ _ _ Hn Hv Hfree Hi)|exact (Hk _ _ _ _ Hr)].
Qed.
Lemma keep_register name version descs :
  plain name = true → plain version = true → Forall plain_desc descs → within keeps_ok (register_repo name version descs).
Proof.
  intros Hn Hv Hd d r d' Hrun. unfold register_repo in Hrun.
  assert ("and"%string ∈ ["and"; "AND"]%string) as Hand by by left.
  destruct (select_repo_law "and" name version d Hand Hn Hv) as [Hsame Hrows].
  unfold mbind at 1, st_bind at 1 in Hrun. destruct (db_Query _ d) as [[rows|e| |] d1]; cbn in Hsame; subst d1.
  2-4: injection Hrun as _ <-; done.
  specialize (Hrows _ _ eq_refl). destruct (decide (rows ≠ [])) as [|Hnil]; [by injection Hrun as _ <-|].
  eapply keep_register_new; [exact Hn|exact Hv| |intros id; by apply keep_insert_defs|exact Hrun].
  apply matching_repos_none. apply dec_stable in Hnil. by rewrite <- Hrows.
Qed.

Lemma foldS_Forall {D' S X} (P : S → Prop) (f : S → X → st D' S) s l d s' d' :
  P s → (∀ s x d s' d', P s → f s x d = (Ok s', d') → P s') → foldS f s l d = (Ok s', d') → P s'.
Proof.
  intros Hs Hf. induction l as [|x l IH] in s, d, Hs |- *; cbn [foldS]; [by intros [<- _]%mret_Ok|].
  intros (s1 & d1 & Hs1%Hf & Hr)%st_bind_Ok; [|done]. by eapply IH.
Qed.
Lemma getModelClasses_plain dir d descs d' :
  (∀ line desc, Unmarshal_desc line = Ok desc → plain_desc desc) →
  getModelClasses dir d = (Ok descs, d') → Forall plain_desc descs.
Proof.
  intros Hdocs. unfold getModelClasses. intros (files & d1 & _ & Hr)%st_bind_Ok.
  destruct (bool_decide _); [|done]. destruct (decide _); [done|].
  apply st_bind_Ok in Hr as (cwd & d2 & _ & (u & d3 & _ & (res & d4 & Hf & (u2 & d5 & _ & [<- _]%mret_Ok)%st_bind_Ok)%st_bind_Ok)%st_bind_Ok).
  eapply (foldS_Forall (Forall plain_desc)); [constructor| |exact Hf].
  intros acc x da acc' db Hacc. unfold package_classes. intros (o & dc & _ & Ho)%st_bind_Ok.
  destruct (cmd_error o); [done|]. apply st_bind_Ok in Ho as (ds & dd & [Hl _]%lift_Ok & [<- _]%mret_Ok).
  apply Forall_app. split; [done|]. unfold class_lines in Hl. apply mapR_Forall2 in Hl.
  apply Forall_forall. intros desc (i & Hi)%list_elem_of_lookup.
  destruct (Forall2_lookup_r _ _ _ _ _ Hl Hi) as (line & _ & Hline). by eapply Hdocs.
Qed.
Lemma attempt_Ok {D' A} (m : st D' A) d x d' : attempt m d = (Ok x, d') →
  match x with inl a => m d = (Ok a, d') | inr e => m d = (Fail e, d') end.
Proof. unfold attempt. destruct (m d) as [[a|e| |] d1]; by intros [= <- <-]. Qed.

Lemma keep_ReleaseModelRepo fuel s :
  (∀ line desc, Unmarshal_desc line = Ok desc → plain_desc desc) → within keeps_ok (ReleaseModelRepo fuel s).
Proof.
  intros Hdocs. unfold ReleaseModelRepo. seq_by (apply keeps_same; quiet). intros dir.
  defer_by (apply keeps_same; quiet). cbv zeta. seq_by (apply keeps_same; quiet). intros _.
  seq_by (apply keeps_same, keep_receive_repo). intros [[name tag] total].
  apply within_checked; [apply _|]. intros [_ Hn%image_plain]%checkImageURL_ok.
  apply within_checked; [apply _|]. intros [_ Ht%tag_plain]%checkTag_ok.
  seq_by (apply keeps_same, keep_imageExists). intros exists_. destruct exists_; [quiet|]. destruct (_ <=? _); [quiet|].
  seq_by (apply keeps_same; quiet). intros _. seq_by (apply keeps_same, keep_UnzipDir). intros _.
  eapply (within_post _ (λ x, Forall plain_desc (match x with inl descs => descs | inr _ => [] end))).
  - apply within_attempt. apply keeps_same, keep_getModelClasses.
  - intros d x d' Hx%attempt_Ok. destruct x; [by eapply getModelClasses_plain|constructor].
  - intros x Hx. destruct (decide _); [quiet|]. seq_by (apply keeps_same, keep_build). intros _.
    seq_by (by apply keep_register). intros _. apply keeps_same. quiet.
Qed.

Lemma keep_defaults : within keeps_ok addDefaultModelDefs.
Proof.
  intros d r d' Hrun. unfold addDefaultModelDefs in Hrun.
  unfold mbind at 1, st_bind at 1 in Hrun. pose proof (quiet_default d) as Hsame.
  destruct (db_Query find_default_repo d) as [[rows|e| |] d1] eqn:Hq.
  2-4: injection Hrun as _ <-; eapply (keeps_same _ quiet_default); exact Hq.
  destruct (decide (rows ≠ [])) as [Hne|Hnil].
  { apply mret_Ok in Hrun as [_ <-] || injection Hrun as _ <-. eapply (keeps_same _ quiet_default); exact Hq. }
  apply dec_stable in Hnil. destruct (default_unknown _ _ _ Hq Hnil) as [-> Hfree].
  refine (keep_register_new "sqlflow/sqlflow" "latest" _ _ _ _ eq_refl eq_refl Hfree _ Hrun). intros id.
  apply within_eachS; [apply _|]. intros name Hname. apply insert_def_keeps; [|done].
  revert Hname. revert name. apply Forall_forall. repeat constructor.
Qed.
Lemma keep_prepare : within keeps_ok prepare_server.
Proof.
  unfold prepare_server, log_failure. seq_by idtac.
  { apply within_eachS; [apply _|]. intros sql Hsql. apply keeps_same. seq_by (apply within_attempt, quiet_tables, Hsql). intros ?. quiet. }
  intros _.
  seq_by (apply within_attempt, keep_defaults). intros _. quiet.
Qed.

(** *** Releasing models *)

Context (Hdocs : ∀ line desc, Unmarshal_desc line = Ok desc → plain_desc desc).
Context (Hmeta : ∀ ds j key, plain (@MustString D (store ds) (models ds) j key) = true).

Lemma user_model_plain fuel req dir d um d' : user_model_of fuel req dir d = (Ok um, d') → ∀ key, plain (um_meta um key) = true.
Proof.
  unfold user_model_of. destruct experimental.
  - intros (m & d1 & _ & (f & d2 & _ & [<- _]%mret_Ok)%st_bind_Ok)%st_bind_Ok key. apply Hmeta.
  - intros ([tarFile c] & d1 & _ & (m & d2 & _ & [<- _]%mret_Ok)%st_bind_Ok)%st_bind_Ok key. cbn [um_meta].
    unfold GetMetaAsString. destruct (Meta m); [apply Hmeta|done].
Qed.
Lemma from_world_keeps {A} (m : st D A) : within keeps_ok m → within (beside (beside keeps_ok)) (from_world m).
Proof. intros Hm. unfold from_world. by apply within_disk, within_disk. Qed.
Lemma flush_keeps t b : plain_table t = true → HasPrefix t (publicModelDB +:+ ".") = true →
  within (beside keeps_ok) (@flushToSQLTable D (store s_URL) true t b).
Proof.
  intros Hp Hpub. eapply within_weaken; [|by apply keep_flush]. intros x y. unfold beside, same_cat, keeps_ok. by intros ->.
Qed.

Lemma keep_ReleaseModel fuel req : plain (rq_Description req) = true → within keeps_ok (ReleaseModel fuel req).
Proof.
  intros Hdesc. unfold ReleaseModel. apply within_checked; [apply _|]. intros [[_ Hn] [_ Ht]]%checkNameAndTag_ok.
  destruct (modelTableName_plain _ _ Hn Ht) as [Hplain Hpub].
  seq_by (apply keeps_same; quiet). intros _. seq_by (apply keeps_same; quiet). intros _.
  defer_by (apply keeps_same; quiet). seq_by (apply keeps_same; quiet). intros dir. defer_by (apply keeps_same; quiet).
  apply (within_post _ (λ um, ∀ key, plain (um_meta um key) = true)); [apply keeps_same, keep_user_model|apply user_model_plain|].
  intros um Hum. cbv zeta. apply within_checked; [apply _|]. intros Himage.
  seq_by (by apply keeps_same, keep_Create). intros w. apply keep_with_file; [done..|].
  seq_by (apply within_local, keep_copy_pieces; [intros x y; unfold same_cat, keeps_ok; by intros ->|intros b; by apply flush_keeps]).
  intros _. apply from_world_keeps. unfold check_repo_image, repo_of_image in *.
  destruct (Split _ ":") as [|image [|tag [|]]]; try discriminate Himage;
    [intros d r d' [= _ <-]; reflexivity|].
  destruct (checkImageURL image) as [[]|e| |] eqn:Hi; try discriminate Himage. cbn in Himage.
  apply checkImageURL_ok in Hi as [_ Hi]. apply checkTag_ok in Himage as [_ Htag].
  intros d r d'. unfold lift at 1. rewrite (st_bind_run _ _ _ (image, tag) d) by done. cbv beta iota. revert d r d'.
  change (within keeps_ok (find_def (select_repo "AND" image tag) (um_meta um "class_name")
    (Errorf "when release model, no model repo %s found" [zoo_model_image (um_meta um "model_repo_image")])
    (Errorf "when release model, no model definition %s found" [um_meta um "class_name"]) ≫= λ modelDefID,
    db_Exec (insert_model modelDefID (rq_Name req) (rq_Tag req) "" (rq_Description req) (um_meta um "evaluation")) ≫= λ _, mret released)).
  seq_by (apply keeps_same, keep_find_def; [by apply image_plain|by apply tag_plain|done]). intros def.
  seq_by (apply insert_model_keeps; [by apply tag_plain|by apply tag_plain|done|done|done]). intros _. quiet.
Qed.

(** A request whose texts are plain. *)
Definition clean_local (q : ReleaseModelLocalRequest) : Prop :=
  str_forall tag_char (lq_Name q) = true ∧ str_forall tag_char (lq_Tag q) = true ∧ plain (lq_ModelClassName q) = true ∧
  plain (lq_Description q) = true ∧ plain (lq_EvaluationMetrics q) = true.
Lemma keep_release_local q : clean_local q → within keeps_ok (release_local q).
Proof.
  intros (Hn & Ht & Hc & Hd & Hm). unfold release_local. apply within_checked; [apply _|]. intros _.
  destruct (Split _ ":") as [|image [|tag [|]]]; try solve [apply within_lift; apply _].
  apply within_checked; [apply _|]. intros [_ Hi]%checkImageURL_ok. apply within_checked; [apply _|]. intros [_ Htag]%checkTag_ok.
  seq_by (apply keeps_same, keep_find_def; [by apply image_plain|by apply tag_plain|done]). intros def.
  seq_by (apply insert_model_keeps; [by apply tag_plain|by apply tag_plain|done|done|done]). intros _. apply keeps_same. quiet.
Qed.
Lemma receive_model_last {D'} fuel (flush : string → st (Z * D') unit) reqs err q wd q' wd' :
  receive_model fuel flush reqs err q wd = (Ok q', wd') → q' = q ∨ q' ∈ reqs.
Proof.
  induction fuel as [|fuel IH] in reqs, q, wd |- *; cbn [receive_model]; [done|]. destruct reqs as [|r reqs].
  - destruct err; [intros (u & wd1 & _ & Hr)%st_bind_Ok; by apply IH in Hr|]. intros [<- _]%mret_Ok. by left.
  - intros (u & wd1 & _ & Hr)%st_bind_Ok. apply IH in Hr as [->|Hr]; right; [by left|by right].
Qed.
Lemma keep_receive_model {R : D → D → Prop} `{!PreOrder R} fuel flush reqs err q :
  (∀ b, within (beside R) (flush b)) → within (beside (beside R)) (receive_model fuel flush reqs err q).
Proof.
  intros Hf. induction fuel as [|fuel IH] in reqs, q |- *; cbn [receive_model]; [quiet|].
  destruct reqs as [|r reqs]; [destruct err|]; [|quiet|]; (seq_by (by apply keep_write_piece)); intros _; apply IH.
Qed.
Lemma keep_ReleaseModelFromLocal fuel s : Forall clean_local (requests s) → within keeps_ok (ReleaseModelFromLocal fuel s).
Proof.
  intros Hclean. unfold ReleaseModelFromLocal. seq_by (apply keeps_same; quiet). intros _.
  destruct (requests s) as [|q reqs]; [destruct (broken s); quiet|]. cbv zeta.
  pose proof (Forall_inv Hclean) as (Hn & Ht & _). destruct (modelTableName_plain _ _ Hn Ht) as [Hplain Hpub].
  seq_by (by apply keeps_same, keep_Create). intros w. apply keep_with_file; [done..|].
  apply (within_post _ clean_local).
  - apply keep_receive_model. intros b. by apply flush_keeps.
  - intros d q' d' [->|Hq]%receive_model_last; [by apply Forall_inv in Hclean|]. by apply (proj1 (Forall_forall _ _) Hclean).
  - intros q' Hq. by apply from_world_keeps, keep_release_local.
Qed.

(** A stream that breaks is waited for without end: [Recv] gives its error again and again. *)
Lemma receive_repo_broken fuel path reqs e name tag total d :
  (∀ s d, ∃ d', fd_Write path s d = (Ok tt, d')) → (receive_repo fuel path reqs (Some e) name tag total d).1 = NoFuel.
Proof.
  intros Hw. induction fuel as [|fuel IH] in reqs, name, tag, total, d |- *; [done|]. cbn [receive_repo].
  destruct reqs as [|q reqs].
  - destruct (Hw "" d)%string as [d1 Hd]. rewrite (st_bind_run _ _ _ _ _ Hd). apply IH.
  - destruct (Hw (pr_ContentTar q) d) as [d1 Hd]. rewrite (st_bind_run _ _ _ _ _ Hd). apply IH.
Qed.

(** ** All requests *)

Inductive request :=
  | Q_ListModelRepos (req : ListModelRequest) | Q_ListModels (req : ListModelRequest)
  | Q_ReleaseModelRepo (s : stream ReleaseModelRepoRequest) | Q_DropModelRepo (req : ReleaseModelRepoRequest)
  | Q_ReleaseModel (req : ReleaseModelRequest) | Q_ReleaseModelFromLocal (s : stream ReleaseModelLocalRequest)
  | Q_DropModel (req : ReleaseModelRequest) | Q_DownloadModel (req : ReleaseModelRequest) | Q_GetModelMeta (req : ReleaseModelRequest).
Definition clean_request (q : request) : Prop :=
  match q with
  | Q_ReleaseModel req => plain (rq_Description req) = true
  | Q_ReleaseModelFromLocal s => Forall clean_local (requests s)
  | _ => True
  end.
Definition handle (fuel : nat) (q : request) : st D unit :=
  let ignore {A} (m : st D A) : st D unit := m ≫= λ _, mret tt in
  match q with
  | Q_ListModelRepos req => ignore (ListModelRepos req) | Q_ListModels req => ignore (ListModels req)
  | Q_ReleaseModelRepo s => ReleaseModelRepo fuel s | Q_DropModelRepo req => ignore (DropModelRepo req)
  | Q_ReleaseModel req => ignore (ReleaseModel fuel req) | Q_ReleaseModelFromLocal s => ReleaseModelFromLocal fuel s
  | Q_DropModel req => ignore (DropModel req) | Q_DownloadModel req => DownloadModel fuel req
  | Q_GetModelMeta req => ignore (GetModelMeta req)
  end.
Lemma keep_ignored {A} (m : st D A) : within keeps_ok m → within keeps_ok (m ≫= λ _, mret tt).
Proof. intros Hm. seq_by (exact Hm). intros _. apply within_ret. apply _. Qed.
Lemma keep_handle fuel q : clean_request q → within keeps_ok (handle fuel q).
Proof.
  intros Hq. destruct q; unfold handle.
  - apply keep_ignored, keeps_same, keep_ListModelRepos.
  - apply keep_ignored, keeps_same, keep_ListModels.
  - by apply keep_ReleaseModelRepo.
  - apply keep_ignored, keep_DropModelRepo.
  - by apply keep_ignored, keep_ReleaseModel.
  - by apply keep_ReleaseModelFromLocal.
  - apply keep_ignored, keep_DropModel.
  - apply keeps_same, keep_DownloadModel.
  - apply keep_ignored, keeps_same, keep_GetModelMeta.
Qed.

(** The databases that requests lead to, each handled to its end before the next; an error is
    the answer to its client, and a panic ends the process: what it did stays. *)
Inductive served (fuel : nat) : D → D → Prop :=
  | served_none d : served fuel d d
  | served_request d q d1 d2 : clean_request q → (handle fuel q d).2 = d1 → served fuel d1 d2 → served fuel d d2
  | served_restart d d1 d2 : (prepare_server d).2 = d1 → served fuel d1 d2 → served fuel d d2.

(** C13: whatever requests arrive, and however handling them ends, no two repositories of the
    catalogue have the same name and version, every definition belongs to a repository and
    every model to a definition, if the texts of the requests that are not checked are plain
    and no two requests are handled at the same time. *)
Theorem catalogue_kept (fuel : nat) (d d' : D) : served fuel d d' → catalogue_ok (cat d) → catalogue_ok (cat d').
Proof.
  induction 1 as [d|d q d1 d2 Hq Hd _ IH|d d1 d2 Hd _ IH]; intros Hok; [done|apply IH..].
  - destruct (handle fuel q d) as [r d1'] eqn:Hr. cbn in Hd. subst d1'. by apply (keep_handle _ _ Hq _ _ _ Hr).
  - destruct (prepare_server d) as [r d1'] eqn:Hr. cbn in Hd. subst d1'. by apply (keep_prepare _ _ _ Hr).
Qed.
End changing_parts.
