(* ===== verification/ZooTransfer.v ===== *)
(** * A released model is downloaded as it was sent (go/modelzooserver)

    [ReleaseModelFromLocal] stores what the requests of a stream bring in a file of sqlfs, and
    [DownloadModel] sends that file in pieces. *)

From S2P Require Import Prelude GoStrings GoState GoConv Base64 Sqlfs SqlfsFile ModelFile Shell Model World NormalStmt Steps Archive ZooServer ZooNames ZooFacts ZooRun.

Local Open Scope Z_scope.

(** What the responses of a stream promise: sending changes no file, and what was sent is kept,
    with the name and the tag it was sent for. *)
Class Delivery (D : Type) `{ZooDB D} := {
  sent : D → list (string * string * string);
  reply_rows t b m d r d' : SendAndClose b m d = (r, d') → @table_rows D (store s_URL) zoo_blocks t d' = @table_rows D (store s_URL) zoo_blocks t d;
  send_fine n g s d : fine (SendModel n g s d).1;
  send_rows t n g s d r d' : SendModel n g s d = (r, d') → @table_rows D (store s_URL) zoo_blocks t d' = @table_rows D (store s_URL) zoo_blocks t d;
  send_law n g s d d' : SendModel n g s d = (Ok tt, d') → sent d' = sent d ++ [(n, g, s)]
}.

Section transfer.
Context `{DSNParsers} `{QuietWorld D} `{!Delivery D} (mysql : s_Driver ≠ "hive"%string).
Notation rows t d := (@table_rows D (store s_URL) zoo_blocks t d).
Notation flush t := (@flushToSQLTable D (store s_URL) true t).

(** *** Storing *)

(** The writer has taken [s]; the hook has stored its blocks. *)
Definition stored (t : string) (s : string) (x : flushWriteCloser * (Z * D)) : Prop :=
  ∃ bs, wrote (newFlushWriteCloser bufSize) s x.1 bs ∧ writer_ok x.1 ∧ ¬ full x.1 ∧
    x.2.1 = wrap64 (Z.of_nat (length bs)) ∧ rows t x.2.2 = Some (file_rows bs).

Section table.
Context (t : string) (Ht : table_name t = true).
Let hook_sink : BlockSink (flush t) := @sql_sink D (store s_URL) zoo_blocks t Ht.

Lemma stored_write_piece s p x u y : stored t s x → write_piece (flush t) p x = (Ok u, y) → stored t (s +:+ p) y.
Proof.
  intros (bs & Hw & Hok & Hnf & Hrow & Hrows). destruct x as [w d]. unfold write_piece.
  intros ([n e] & [w1 d1] & Hrun & Hu)%st_bind_Ok. destruct e; [done|]. apply mret_Ok in Hu as [_ <-].
  destruct (@Writes_spec _ _ hook_sink [p] w d bs (w1, d1) Hok Hnf (conj Hrow Hrows)) as (new & Hw2 & [Hrow2 Hrows2] & Hok2 & Hnf2).
  { unfold Writes. cbn [eachS]. rewrite (st_bind_run _ _ _ tt (w1, d1)); [done|]. by rewrite (st_bind_run _ _ _ _ _ Hrun). }
  cbn in Hw2. rewrite str_app_nil_r in Hw2. exists (bs ++ new). split_and!; [by eapply wrote_trans|done..].
Qed.
Lemma stored_receive fuel reqs err q s x q' y :
  stored t s x → receive_model fuel (flush t) reqs err q x = (Ok q', y) →
  stored t (s +:+ str_concat (lq_ContentTar <$> reqs)) y ∧ err = None.
Proof.
  induction fuel as [|fuel IH] in reqs, q, s, x |- *; cbn [receive_model]; [done|]. intros Hs. destruct reqs as [|r reqs].
  - destruct err as [e|]; [|intros [_ <-]%mret_Ok; cbn; by rewrite str_app_nil_r].
    intros (u & x1 & Hp & Hr)%st_bind_Ok. apply (stored_write_piece _ _ _ _ _ Hs) in Hp. rewrite str_app_nil_r in Hp.
    by destruct (IH _ _ _ _ Hp Hr).
  - intros (u & x1 & Hp & Hr)%st_bind_Ok. apply (stored_write_piece _ _ _ _ _ Hs) in Hp.
    destruct (IH _ _ _ _ Hp Hr) as [Hst He]. split; [|done]. cbn. by rewrite str_app_assoc.
Qed.

(** *** What is done beside the file leaves it alone *)

Definition same_rows (d d' : D) : Prop := rows t d' = rows t d.
Local Instance same_rows_preorder : PreOrder same_rows.
Proof. split; [by intros d|intros x y z; unfold same_rows; congruence]. Qed.

Lemma rows_insert_model def name version url description metrics d u d' :
  plain name = true → plain version = true → plain url = true → plain description = true → plain metrics = true →
  db_Exec (insert_model def name version url description metrics) d = (Ok u, d') → rows t d' = rows t d.
Proof.
  intros Hn Hv Hu Hd Hm Hrun. destruct u. destruct (insert_model_law _ _ _ _ _ _ _ _ Hn Hv Hu Hd Hm Hrun) as (_ & _ & Hr). by apply Hr.
Qed.
Lemma rows_release_local q d u d' : clean_local q → release_local q d = (Ok u, d') → rows t d' = rows t d.
Proof.
  intros (Hn & Htag & Hc & Hd & Hm). unfold release_local.
  intros (u1 & d1 & [_ <-]%lift_Ok & Hr)%st_bind_Ok. destruct (Split _ ":") as [|image [|tag [|]]]; try done.
  apply st_bind_Ok in Hr as (u2 & d2 & [Hi <-]%lift_Ok & (u3 & d3 & [Hg <-]%lift_Ok & (def & d4 & Hdef & (u4 & d5 & Hins & Hsend)%st_bind_Ok)%st_bind_Ok)%st_bind_Ok).
  destruct u2, u3. apply checkImageURL_ok in Hi as [_ Hi%image_plain]. apply checkTag_ok in Hg as [_ Hg%tag_plain].
  rewrite (reply_rows t _ _ _ _ _ Hsend).
  rewrite (rows_insert_model _ _ _ "" _ _ _ _ _ (tag_plain _ Hn) (tag_plain _ Htag) eq_refl Hd Hm Hins).
  unfold find_def in Hdef. apply st_bind_Ok in Hdef as (coll & d6 & Hfst & Hsnd).
  apply first_id_same in Hfst; [|intros dx; apply select_repo_law; [by right; left|done..]].
  apply first_id_same in Hsnd; [|intros dx; by apply select_def_law]. by subst.
Qed.

(** *** The stored file *)

Lemma zoo_Create_Ok d w d' : zoo_Create t d = (Ok w, d') →
  w = newFlushWriteCloser bufSize ∧ rows t d' = Some [].
Proof.
  unfold zoo_Create, Create. rewrite decide_False by done. intros Hr%wrapS_Ok.
  exact (@newSQLWriter_Ok D (store s_URL) zoo_blocks s_Driver t Ht bufSize d w d' Hr).
Qed.
Lemma stored_new d : rows t d = Some [] → stored t "" (newFlushWriteCloser bufSize, (0, d)).
Proof.
  intros Hr. pose proof bufSize_pos. exists []. unfold writer_ok, full. cbn [fst snd buf cap newFlushWriteCloser str_len].
  split_and!; [apply wrote_refl; cbn|..]; done || lia.
Qed.

(** The database takes the blocks of the file as long as there is its table. *)
Definition takes_blocks : Prop := ∀ row block d, is_Some (rows t d) → int64_range row → str_forall b64_output block = true →
  is_ok (db_Exec (insert_block t row block) d).1 = true.

Lemma Close_taken s w n d : takes_blocks → stored t s (w, (n, d)) →
  ∃ w' n' d', Close (flush t) noopWrapUp (w, (n, d)) = (Ok tt, (w', (n', d'))) ∧ rows t d' = Some (file_rows (chunks bufSize s)).
Proof.
  intros Htake Hst.
  assert (∃ x, Close (flush t) noopWrapUp (w, (n, d)) = (Ok tt, x)) as [[w' [n' d']] Hc].
  { destruct Hst as (bs & _ & _ & _ & Hrow & Hrows). unfold Close. cbv [mbind st_bind get hook attempt on_writer noopWrapUp mret st_ret].
    unfold flushToSQLTable. cbn [negb fst snd] in *. destruct (decide _); [|by eexists].
    unfold mbind, st_bind, get, wrapS, catchS, at_world, next_row.
    assert (int64_range n) as Hn by (rewrite Hrow; apply wrap64_range).
    specialize (Htake n (EncodeToString (buf w)) d ltac:(by eexists) Hn (EncodeToString_output _)). unfold db_Exec in Htake.
    destruct (Exec _ d) as [[[]|e| |] d1]; try done. by eexists. }
  exists w', n', d'. split; [done|]. destruct Hst as (bs & Hw & _ & Hnf & Hrow & Hrows).
  destruct (@Close_after _ _ (@sql_sink D (store s_URL) zoo_blocks t Ht) noopWrapUp s bufSize (n, d) (n', d') w w' bs bufSize_pos Hw Hnf (conj Hrow Hrows) Hc)
    as (rd & [_ Hr] & [_ ->]%mret_Ok). exact Hr.
Qed.

Lemma released_rows fuel s d u d' :
  takes_blocks → Forall clean_local (requests s) → t = modelTableName (default "" (lq_Name <$> head (requests s))) (default "" (lq_Tag <$> head (requests s))) →
  requests s ≠ [] → ReleaseModelFromLocal fuel s d = (Ok u, d') →
  broken s = None ∧ rows t d' = Some (file_rows (chunks bufSize (str_concat (lq_ContentTar <$> requests s)))).
Proof.
  intros Htake Hclean Htab Hne. unfold ReleaseModelFromLocal. intros (u1 & d1 & _ & Hr)%st_bind_Ok.
  destruct (requests s) as [|q reqs]; [done|]. clear Hne.
  change (t = modelTableName (lq_Name q) (lq_Tag q)) in Htab. cbv zeta in Hr. rewrite <- Htab in Hr.
  apply st_bind_Ok in Hr as (w & d2 & [-> Hempty]%zoo_Create_Ok & Hr).
  unfold with_file, zoo_hooks, hooks in Hr. rewrite decide_False in Hr by done. unfold with_local, defer in Hr.
  destruct ((receive_model _ _ _ _ _ ≫= _) _) as [r [w3 [n3 d3]]] eqn:Hrun.
  assert (∃ x, r = Ok x) as [x ->].
  { destruct (Close _ _ _) as [rc [wc [nc dc]]] in Hr. injection Hr as -> _. eauto. }
  apply st_bind_Ok in Hrun as (q' & [w4 [n4 d4]] & Hrecv & Hworld).
  destruct (stored_receive _ _ _ _ _ _ _ _ (stored_new _ Hempty) Hrecv) as [Hst Hb]. split; [done|].
  assert (rows t d3 = rows t d4 ∧ w3 = w4 ∧ n3 = n4) as (Hrows & -> & ->).
  { unfold from_world, at_disk in Hworld. destruct (release_local q' d4) as [rl d5] eqn:Hrl. injection Hworld as -> -> -> ->.
    split_and!; try done. eapply rows_release_local; [|exact Hrl].
    apply receive_model_last in Hrecv as [->|Hin]; [by apply Forall_inv in Hclean|]. by apply (proj1 (Forall_forall _ _) Hclean). }
  assert (stored t (str_concat (lq_ContentTar <$> q :: reqs)) (w4, (n4, d3))) as Hst3.
  { destruct Hst as (bs & Hw & Hok & Hnf & Hrow & Hrs). exists bs. cbn in *. split_and!; try done. by rewrite Hrows. }
  destruct (Close_taken _ _ _ _ Htake Hst3) as (wc & nc & dc & Hclose & Hfinal). rewrite Hclose in Hr. by injection Hr as _ <-.
Qed.

(** *** Sending *)

(** Some result of a query for the rows [rs] of the file breaks off. *)
Definition broken_off (rs : option (list (Z * string))) : Prop :=
  ∃ d, rows t d = rs ∧ @breaks_off D (store s_URL) t d.

Section reading.
Context (bs : list string) (Hne : Forall (λ b, b ≠ ""%string) bs) (Hsm : Z.of_nat (length bs) + Z.of_nat 32 < 2 ^ 63).
Notation broken := (broken_off (Some (file_rows bs))).

Lemma zoo_Read k r rest d : rows t d = Some (file_rows bs) → file_at t bs 32 broken r rest →
  ∃ out e r' rest', @Read D (store s_URL) (k + 2) k (r, d) = (Ok (out, e), (r', d)) ∧
    file_at t bs 32 broken r' rest' ∧ rest = (out +:+ rest')%string ∧ (str_len out ≤ k)%nat ∧
    match e with
    | None => (str_len out = (k `min` str_len rest)%nat ∨ broken) ∧ ((0 < k)%nat → out ≠ ""%string)
    | Some e => (e = EOF → out = ""%string) ∧
        (e = EOF ∧ rest = ""%string ∧ (0 < k)%nat ∨ @query_failed D (store s_URL) t d e ∨ broken)
    end.
Proof.
  intros Hrows Hat. apply (@Read_refines_spec D (store s_URL) zoo_blocks t Ht bs Hne 32 ltac:(lia) Hsm d Hrows broken); [|done].
  intros Hb. by exists d.
Qed.

Lemma send_pieces_spec fuel name tag r rest d :
  rows t d = Some (file_rows bs) → file_at t bs 32 broken r rest → (str_len rest < fuel)%nat →
  ∃ res x, send_pieces fuel name tag (r, d) = (res, x) ∧ fine res ∧
    (res = Ok tt → ∃ pieces left, sent x.2 = sent d ++ ((λ p, (name, tag, p)) <$> pieces) ∧
      (str_concat pieces +:+ left)%string = rest ∧ Forall (λ p, 0 < str_len p ≤ 4096)%nat pieces ∧ (left = ""%string ∨ broken)).
Proof.
  induction fuel as [|fuel IH] in r, rest, d |- *; intros Hrows Hat Hf; [lia|]. cbn [send_pieces].
  destruct (zoo_Read 4096 r rest d Hrows Hat) as (out & e & r' & rest' & Hrun & Hat' & -> & Hle & He).
  rewrite (st_bind_run _ _ _ _ _ Hrun). cbv beta iota. destruct e as [e|].
  - destruct He as [Hout He]. destruct (decide (e = EOF)) as [->|Hno].
    + rewrite (Hout eq_refl) in *. rewrite decide_True by done. exists (Ok tt), (r', d). split; [done|]. split; [done|].
      intros _. exists [], rest'. rewrite app_nil_r. split_and!; [done..|]. cbn in He.
      destruct He as [(_ & Hr & _)|[[[] _]|Hb]]; [by left|done|by right].
    + exists (Fail e), (r', d). done.
  - destruct He as [_ Hpos]. specialize (Hpos ltac:(lia)). rewrite str_length_app in Hf.
    assert (0 < str_len out)%nat as Hout by by apply str_len_pos.
    rewrite decide_False by done.
    pose proof (send_fine name tag out d) as Hfine.
    destruct (SendModel name tag out d) as [rs d1] eqn:Hsend. cbn in Hfine.
    pose proof (send_rows t _ _ _ _ _ _ Hsend) as Hrows1. rewrite Hrows in Hrows1.
    destruct rs as [[]|e| |]; try done.
    + rewrite (st_bind_run _ _ _ tt (r', d1)) by (unfold at_disk; by rewrite Hsend).
      destruct (IH r' rest' d1 Hrows1 Hat' ltac:(lia)) as (res & x & Hrun2 & Hfine2 & Hok).
      exists res, x. split; [done|]. split; [done|]. intros Hres. destruct (Hok Hres) as (ps & left & Hsent & Hcat & Hall & Hleft).
      exists (out :: ps), left. rewrite Hsent, (send_law _ _ _ _ _ Hsend), <- app_assoc, str_concat_cons, <- Hcat, str_app_assoc.
      split_and!; [done..| |done]. constructor; [lia|done].
    + rewrite (st_bind_fail _ _ _ e (r', d1)) by (unfold at_disk; by rewrite Hsend). exists (Fail e), (r', d1). done.
Qed.

(** A read that is checked to have given [len a] bytes has given [a]. *)
Lemma full_read r a rest d : rows t d = Some (file_rows bs) → file_at t bs 32 broken r (a +:+ rest) →
  ∃ out e r', @Read D (store s_URL) (str_len a + 2) (str_len a) (r, d) = (Ok (out, e), (r', d)) ∧
    (e = None → str_len out = str_len a → out = a ∧ file_at t bs 32 broken r' rest).
Proof.
  intros Hrows Hat. destruct (zoo_Read (str_len a) r _ d Hrows Hat) as (out & e & r' & rest' & Hrun & Hat' & Hr & _).
  exists out, e, r'. split; [done|]. intros -> Hl.
  assert (str_take (str_len a) (a +:+ rest) = str_take (str_len a) (out +:+ rest')) as Ha by by rewrite Hr.
  assert (str_drop (str_len a) (a +:+ rest) = str_drop (str_len a) (out +:+ rest')) as Hb by by rewrite Hr.
  rewrite !str_take_app in Ha by lia. rewrite !str_drop_app in Hb by lia. by subst.
Qed.

Lemma skip_metadata_spec s r rest d : rows t d = Some (file_rows bs) → Z.of_nat (str_len s) < 2 ^ 32 →
  file_at t bs 32 broken r (hex08 (Z.of_nat (str_len s)) +:+ s +:+ rest) →
  ∃ res r', skip_metadata (r, d) = (res, (r', d)) ∧ fine res ∧ (res = Ok tt → file_at t bs 32 broken r' rest).
Proof.
  intros Hrows Hlen Hat. destruct (hex08_spec (Z.of_nat (str_len s)) ltac:(lia)) as (Hparse & _ & Hten). apply Hten in Hlen as Hten'.
  destruct (full_read _ _ _ d Hrows Hat) as (h & e & r1 & Hr1 & Hh). rewrite Hten' in Hr1, Hh.
  unfold skip_metadata. rewrite (st_bind_run _ _ _ _ _ Hr1).
  destruct (bool_decide_reflect (e ≠ None)) as [|He%dec_stable]; [by eexists (Fail _), r1|].
  destruct (Nat.eqb_spec (str_len h) 10) as [Hl|]; [|by eexists (Fail _), r1]. cbn [orb negb].
  destruct (Hh He Hl) as [-> Hat1]. rewrite Hparse. destruct (Z.ltb_spec (Z.of_nat (str_len s)) 0); [lia|]. rewrite Nat2Z.id.
  destruct (full_read _ _ _ d Hrows Hat1) as (m & e2 & r2 & Hr2 & Hm). rewrite (st_bind_run _ _ _ _ _ Hr2).
  destruct (bool_decide_reflect (e2 ≠ None)) as [|He2%dec_stable]; [by eexists (Fail _), r2|].
  destruct (Z.eqb_spec (Z.of_nat (str_len m)) (Z.of_nat (str_len s))) as [Hl2|]; [|by eexists (Fail _), r2].
  exists (Ok tt), r2. split; [done|]. split; [done|]. intros _. by apply Hm; [|lia].
Qed.
End reading.
End table.

Lemma check_fine name tag : fine (checkNameAndTag name tag).
Proof. unfold checkNameAndTag, checkName, checkTag. repeat case_match; done. Qed.
Lemma Open_fine t n d : fine (@Open D (store s_URL) t n d).1.
Proof.
  unfold Open, hasTable, wrapS, catchS, mbind, st_bind. pose proof (@exec_fine D (store s_URL) zoo_blocks (has_stmt t) d) as Hf.
  destruct (Exec (has_stmt t) d) as [[[]|e| |] d1]; try done. by destruct (_ <=? _).
Qed.

(** What a download sends of the [content] of a file: all of it, or with
    SQLFLOW_USE_EXPERIMENTAL_CODEGEN what follows the metadata and its length. *)
Definition downloaded (content sent : string) : Prop :=
  if experimental then
    ∃ s, Z.of_nat (str_len s) < 2 ^ 32 ∧ content = (hex08 (Z.of_nat (str_len s)) +:+ s +:+ sent)%string
  else content = sent.

Lemma DownloadModel_spec fuel req content all d :
  let t := modelTableName (rq_Name req) (rq_Tag req) in
  table_name t = true → Z.of_nat (str_len content) + 32 < 2 ^ 63 → (str_len content < fuel)%nat →
  rows t d = Some (file_rows (chunks bufSize content)) → downloaded content all →
  ∃ res d2, DownloadModel fuel req d = (res, d2) ∧ fine res ∧
    (res = Ok tt → ∃ pieces left, sent d2 = sent d ++ ((λ p, (rq_Name req, rq_Tag req, p)) <$> pieces) ∧
      (str_concat pieces +:+ left)%string = all ∧ Forall (λ p, 0 < str_len p ≤ 4096)%nat pieces ∧
      (left = ""%string ∨ broken_off t (rows t d))).
Proof.
  intros t Ht Hlen Hfuel Hrows Hall. rewrite Hrows. unfold DownloadModel. fold t. pose proof (check_fine (rq_Name req) (rq_Tag req)) as Hcf.
  destruct (checkNameAndTag _ _) as [[]|e| |]; try done; [|by exists (Fail e), d].
  rewrite (st_bind_run (lift (Ok tt)) _ _ tt d) by done.
  pose proof (Open_fine t 32 d) as Hof. destruct (Open t 32 d) as [[r|e| |] d2] eqn:Hopen; try done.
  2: { exists (Fail e), d2. by rewrite (st_bind_fail _ _ _ _ _ Hopen). }
  rewrite (st_bind_run _ _ _ _ _ Hopen).
  destruct (@Open_Ok D (store s_URL) zoo_blocks t Ht 32 d r d2 ltac:(lia) Hopen) as (-> & -> & _).
  set (bs := chunks bufSize content) in *. set (r := mkReader _ _ _ _ _ _ _).
  assert (file_at t bs 32 (broken_off t (Some (file_rows bs))) r content) as Hat.
  { exists 0%nat. split.
    - split_and!; try done. exists 0%nat, 0%nat. cbn. split_and!; try done; lia.
    - rewrite drop_0. unfold bs. rewrite chunks_concat by apply bufSize_pos. done. }
  assert (Z.of_nat (length bs) + Z.of_nat 32 < 2 ^ 63) as Hsm.
  { pose proof (chunks_length bufSize content bufSize_pos). unfold bs. lia. }
  pose proof (chunks_nonempty bufSize content bufSize_pos) as Hne. fold bs in Hne.
  assert (∃ res1 r1, (if experimental then skip_metadata else mret tt) (r, d) = (res1, (r1, d)) ∧ fine res1 ∧
    (res1 = Ok tt → file_at t bs 32 (broken_off t (Some (file_rows bs))) r1 all)) as (res1 & r1 & Hskip & Hfine1 & Hat1).
  { unfold downloaded in Hall. destruct experimental; [|subst all; by exists (Ok tt), r].
    destruct Hall as (s & Hs & ->). by eapply skip_metadata_spec. }
  unfold with_local, defer. destruct res1 as [[]|e| |]; try done; cycle 1.
  { rewrite (st_bind_fail _ _ _ _ _ Hskip). by eexists (Fail e), d. }
  rewrite (st_bind_run _ _ _ _ _ Hskip).
  assert (str_len all < fuel)%nat as Hf.
  { unfold downloaded in Hall. destruct experimental; [|by subst]. destruct Hall as (s & _ & ->). rewrite !str_length_app in Hfuel. lia. }
  destruct (send_pieces_spec t Ht bs Hne Hsm fuel (rq_Name req) (rq_Tag req) r1 all d Hrows (Hat1 eq_refl) Hf)
    as (res & [rx dx] & Hsend & Hfine & Hok).
  rewrite Hsend. exists res, dx. done.
Qed.

(** C12: a model that was released from a stream is downloaded as it was sent.  When
    [ReleaseModelFromLocal] succeeded, [DownloadModel] of the name and the tag of the first
    request ends, and if it reports no error it has sent the bytes of all requests in their
    order, however the requests were cut, in nonempty pieces of at most 4096 bytes; with
    SQLFLOW_USE_EXPERIMENTAL_CODEGEN it sends what follows the metadata, for a stream that
    begins with the metadata and its length.  This is for requests whose texts need no quoting,
    a database that takes the blocks of the file (the code ignores an error when it stores the
    last one), and unless the result of a query breaks off, which the code does not notice: then
    only a beginning of the bytes may have been sent. *)
Theorem released_is_downloaded (fuel fuel2 : nat) (s : stream ReleaseModelLocalRequest) (q : ReleaseModelLocalRequest)
    (req : ReleaseModelRequest) (all : string) (d d1 : D) u :
  let content := str_concat (lq_ContentTar <$> requests s) in
  let t := modelTableName (rq_Name req) (rq_Tag req) in
  head (requests s) = Some q → lq_Name q = rq_Name req → lq_Tag q = rq_Tag req →
  Forall clean_local (requests s) → table_name t = true → takes_blocks t →
  Z.of_nat (str_len content) + 32 < 2 ^ 63 → (str_len content < fuel2)%nat → downloaded content all →
  ReleaseModelFromLocal fuel s d = (Ok u, d1) →
  ∃ res d2, DownloadModel fuel2 req d1 = (res, d2) ∧ fine res ∧
    (res = Ok tt → ∃ pieces left, sent d2 = sent d1 ++ ((λ p, (rq_Name req, rq_Tag req, p)) <$> pieces) ∧
      (str_concat pieces +:+ left)%string = all ∧ Forall (λ p, 0 < str_len p ≤ 4096)%nat pieces ∧
      (left = ""%string ∨ broken_off t (rows t d1))).
Proof.
  intros content t Hhd Hn Hg Hclean Ht Htake Hlen Hfuel Hall Hrun.
  destruct (released_rows t Ht fuel s d u d1 Htake Hclean) as [_ Hrows]; [by rewrite Hhd; cbn; rewrite Hn, Hg|by destruct (requests s)|done|].
  by apply (DownloadModel_spec fuel2 req content all d1).
Qed.
End transfer.
