(* ===== verification/ZooMemory.v ===== *)
(** * A model zoo in the memory

    A database that reads the statements of the server, with its catalogue and its files in the
    memory: the laws of [ZooDB], [QuietWorld] and [Delivery] hold for it, and the theorems about
    the model zoo apply. *)

From S2P Require Import Prelude GoStrings GoState GoConv Base64 Sqlfs SqlfsFile Model ModelFile Shell World NormalStmt Steps Archive ZooServer ZooNames ZooFacts ZooRun ZooTransfer.

Local Open Scope Z_scope.

Record zoo_memory := mkZoo { zm_files : tables; zm_cat : catalogue; zm_sent : list (string * string * string) }.
Definition set_cat (c : catalogue) (d : zoo_memory) : zoo_memory := mkZoo (zm_files d) c (zm_sent d).
Definition set_files (f : tables) (d : zoo_memory) : zoo_memory := mkZoo f (zm_cat d) (zm_sent d).

(** ** Statements *)

Definition top_id (ids : list Z) : Z := foldr Z.max 0 ids.
Definition new_id (ids : list Z) : option Z :=
  let id := top_id ids + 1 in if decide (int64_range id) then Some id else None.

Definition add_repo (name version : string) (c : catalogue) : option (Z * catalogue) :=
  id ← new_id (rp_id <$> c_repos c);
  Some (id, mkCatalogue (c_repos c ++ [mkRepo id name version]) (c_defs c) (c_models c)).
Definition add_def (coll : string) (class args : string) (c : catalogue) : option catalogue :=
  '(_, p) ← list_find (λ p, pretty (rp_id p) = coll) (c_repos c);
  id ← new_id (df_id <$> c_defs c);
  Some (mkCatalogue (c_repos c) (c_defs c ++ [mkDef id (rp_id p) class args]) (c_models c)).
Definition add_model (def : string) (name version url description metrics : string) (c : catalogue) : option catalogue :=
  '(_, f) ← list_find (λ f, pretty (df_id f) = def) (c_defs c);
  id ← new_id (md_id <$> c_models c);
  Some (mkCatalogue (c_repos c) (c_defs c) (c_models c ++ [mkRow id (df_id f) name version url description metrics])).
Definition remove_defs (coll : string) (c : catalogue) : option catalogue :=
  let gone f := bool_decide (pretty (df_coll f) = coll) in
  if existsb (λ f, gone f && existsb (λ m, bool_decide (md_def m = df_id f)) (c_models c)) (c_defs c) then None
  else Some (mkCatalogue (c_repos c) (filter (λ f, pretty (df_coll f) ≠ coll) (c_defs c)) (c_models c)).
Definition remove_repo (id : string) (c : catalogue) : option catalogue :=
  if existsb (λ f, bool_decide (pretty (df_coll f) = id)) (c_defs c) then None
  else Some (mkCatalogue (filter (λ p, pretty (rp_id p) ≠ id) (c_repos c)) (c_defs c) (c_models c)).
Definition remove_models (name version : string) (c : catalogue) : catalogue :=
  mkCatalogue (c_repos c) (c_defs c) (filter (λ m, ¬ (md_name m = name ∧ md_version m = version)) (c_models c)).

(** Up to the character, behind the text. *)
Definition operand (pre : string) (e : ascii) (s : string) : option string :=
  s ← cut_prefix pre s; '(n, _) ← cut_at e s; Some n.

(** [None]: not a statement on the catalogue; [Some None]: it is refused. *)
Definition catalogue_statement (ts : list token) (c : catalogue) : option (option catalogue) :=
  match ts with
  | [Text u] =>
    match operand "DELETE FROM sqlflow_model_zoo.model_definitions WHERE model_coll_id=" ";" u,
          operand "DELETE FROM sqlflow_model_zoo.model_repos WHERE id=" ";" u with
    | Some coll, _ => Some (remove_defs coll c)
    | None, Some id => Some (remove_repo id c)
    | None, None =>
      if HasPrefix u "CREATE DATABASE IF NOT EXISTS " || HasPrefix u (char1 chr_nl +:+ char1 chr_nl +:+ "CREATE TABLE IF NOT EXISTS sqlflow_model_zoo.")
      then Some (Some c) else None
    end
  | [Text u; Literal a; Text v; Literal b; Text w] =>
    match operand "INSERT INTO sqlflow_model_zoo.model_definitions (model_coll_id, class_name, args_desc) VALUES (" "," u with
    | Some coll => Some (add_def coll a b c)
    | None => if decide (u = "DELETE FROM sqlflow_model_zoo.models WHERE name="%string) then Some (Some (remove_models a b c)) else Some None
    end
  | [Text u; Literal name; _; Literal version; _; Literal url; _; Literal description; _; Literal metrics; _] =>
    match operand "INSERT INTO sqlflow_model_zoo.models (model_def_id, name, version, url, description, metrics) VALUES (" "," u with
    | Some def => Some (add_model def name version url description metrics c)
    | None => Some None
    end
  | _ => None
  end.
Definition zoo_exec (sql : string) : st zoo_memory unit := λ d,
  match catalogue_statement (tokens sql) (zm_cat d) with
  | Some (Some c) => (Ok tt, set_cat c d)
  | Some None => (Fail refused, d)
  | None => match exec_statement sql (zm_files d) with Some f => (Ok tt, set_files f d) | None => (Fail refused, d) end
  end.
Definition zoo_insert (sql : string) : st zoo_memory Z := λ d,
  match tokens sql with
  | [Text _; Literal name; Text _; Literal version; Text _] =>
    match add_repo name version (zm_cat d) with Some (id, c) => (Ok id, set_cat c d) | None => (Fail refused, d) end
  | _ => (Fail refused, d)
  end.
Definition zoo_rows (ts : list token) (c : catalogue) : list row :=
  match ts with
  | [Text u; Literal a; Text _; Literal b; Text _] =>
    if decide (u = "SELECT id FROM sqlflow_model_zoo.model_definitions WHERE class_name="%string) then
      (id_row ∘ df_id) <$> filter (λ f, df_class f = a ∧ pretty (df_coll f) = b) (c_defs c)
    else (id_row ∘ rp_id) <$> filter (λ p, rp_name p = a ∧ rp_version p = b) (c_repos c)
  | _ => []
  end.
Definition zoo_query (sql : string) : st zoo_memory (list row) := λ d, (Ok (zoo_rows (tokens sql) (zm_cat d)), d).

#[export] Instance zoo_outside : Outside zoo_memory := {|
  Exec := zoo_exec;
  SelectBlocks q d := ((λ l, (l, None)) <$> or_fail (exec_select q (zm_files d)) refused, d);
  WriteCSV _ d := (Fail refused, d);
  csv_Name := "/tmp/sqlflow-sqlfs";
  CloseCSV d := (Ok tt, d);
  RunHdfs _ _ d := (Fail refused, d)
|}.
(** Models have no metadata here. *)
#[export] Instance zoo_models : ModelWorld zoo_memory := {|
  Json := unit;
  Encode _ := Ok "{}"%string;
  NewJson _ := Ok tt;
  MustString _ _ := ""%string;
  OpenAndConnectDB _ d := (Ok "mysql"%string, d);
  hive_params _ := None;
  TempFile := None;
  TarOut _ := ([], None);
  RunTar _ d := (Ok tt, d);
  ReadFile _ d := (Ok "{}"%string, d);
  CreateFile _ d := (Ok tt, d);
  TempDir d := (Ok "/tmp/x"%string, d);
  RemoveAll _ d := (Ok tt, d);
  Model.DownloadModel _ _ _ d := (Fail refused, d)
|}.
Definition no_perform {A} (c : call A) : st zoo_memory A := fail refused.
#[export] Instance zoo_calls : World zoo_memory := {| perform := @no_perform; Env := λ _, ""%string |}.
#[export] Instance zoo_world : ZooWorld zoo_memory := {|
  store _ := zoo_outside;
  models _ := zoo_models;
  Query _ := zoo_query;
  LastInsertId _ := zoo_insert;
  OpenDB _ := mret tt;
  CloseDB _ := mret tt;
  ioutil_TempDir _ _ := mret "/tmp/x"%string;
  os_RemoveAll _ := mret tt;
  os_Create _ := mret tt;
  fd_Write _ _ := mret tt;
  os_Mkdir _ _ := mret tt;
  os_IsNotExist _ := mret false;
  os_Getwd := mret "/"%string;
  os_Chdir _ := mret tt;
  ioutil_ReadDir _ := mret [];
  cmd_Start _ _ := mret 1;
  cmd_Wait _ := mret tt;
  ClosePipe := mret tt;
  http_Get _ := fail refused;
  Unmarshal_desc _ := Fail refused;
  SendAndClose _ _ := mret tt;
  SendModel n g s d := (Ok tt, mkZoo (zm_files d) (zm_cat d) (zm_sent d ++ [(n, g, s)]))
|}.
#[export] Instance zoo_files : Files zoo_memory := {|
  Walk _ _ := [];
  FileStat _ := mret tt;
  IsNotExist _ := true;
  MkdirAll _ _ := mret tt;
  ReadAll _ := mret ""%string;
  OpenFile _ _ := mret tt;
  WriteStart _ _ := mret tt;
  tar_gz _ := Fail refused;
  untar _ := ([], None)
|}.
#[export] Instance zoo_conn : ZooConn := {| s_URL := "mysql://zoo"; s_Driver := "mysql"; s_Hive := ("", "", "", "") |}%string.
#[export] Instance zoo_dsn : DSNParsers := {| maxcompute_project _ := Fail refused; alisa_project _ := Fail refused; hive_database _ := Fail refused |}.

(** ** Statements of sqlfs are not statements on the catalogue *)

Lemma tokens_one s : no_char chr_sq s = true → tokens s = [Text s].
Proof. apply (tokens_end ""). Qed.
Lemma no_sq_table t : plain_table t = true → no_char chr_sq t = true.
Proof.
  apply str_forall_impl. intros c Hc. apply negb_true_iff, bool_decide_eq_false. intros ->. by vm_compute in Hc.
Qed.
Lemma table_name_plain t : table_name t = true → plain_table t = true.
Proof.
  apply str_forall_impl. intros c. unfold table_char, tag_char, alnum. intros Hc.
  destruct (ascii_lower_letter _), (ascii_upper_letter _), (ascii_digit _); try done. cbn in *.
  apply bool_decide_eq_true. destruct (Z.eqb_spec (byte c) 95) as [He|He]; apply list_elem_of_In.
  - left. rewrite <- (of_byte_byte c), He. reflexivity.
  - right. right. left. apply Z.eqb_eq in Hc. rewrite <- (of_byte_byte c), Hc. reflexivity.
Qed.
Lemma b64_plain s : str_forall b64_output s = true → plain s = true.
Proof.
  apply str_forall_impl. intros c Hc. apply plain_char_cases. split; intros ->; by vm_compute in Hc.
Qed.
Lemma tokens_insert_block t n block : plain_table t = true → str_forall b64_output block = true →
  tokens (insert_block t n block) = [Text ("INSERT INTO " +:+ t +:+ " (id, block) VALUES(" +:+ pretty n +:+ ", "); Literal block; Text ")"]%string.
Proof.
  intros Ht%no_sq_table Hb%b64_plain.
  statement_tokens [("INSERT INTO " +:+ t +:+ " (id, block) VALUES(" +:+ pretty n +:+ ", ", block)]%string ")"%string.
Qed.
Lemma block_no_catalogue t sql c : plain_table t = true → block_statement t sql → catalogue_statement (tokens sql) c = None.
Proof.
  intros Ht. pose proof (no_sq_table _ Ht) as Hq. intros [->|[->|[[driver Hc]|(n & block & Hb & ->)]]].
  - unfold drop_stmt. rewrite tokens_one by (rewrite !no_sq_app, Hq; done). done.
  - unfold has_stmt. rewrite tokens_one by (rewrite !no_sq_app, Hq; done). done.
  - assert (∃ e, sql = "CREATE TABLE IF NOT EXISTS " +:+ t +:+ " " +:+ e ∧ no_char chr_sq e = true)%string as (e & -> & He).
    { unfold create_stmt in Hc. repeat case_decide; try done; injection Hc as <-; (eexists; split; [reflexivity|done]). }
    rewrite tokens_one by (rewrite !no_sq_app, Hq, He; done). done.
  - by rewrite tokens_insert_block.
Qed.
Lemma zoo_exec_block t sql d : plain_table t = true → block_statement t sql →
  zoo_exec sql d = match exec_statement sql (zm_files d) with Some f => (Ok tt, set_files f d) | None => (Fail refused, d) end.
Proof. intros Ht Hb. unfold zoo_exec. by rewrite (block_no_catalogue t). Qed.

#[export] Instance zoo_block_db : @BlockDB zoo_memory zoo_outside.
Proof.
  refine {| table_rows t d := zm_files d !! t |}; cbn [Exec SelectBlocks zoo_outside].
  - intros q d. unfold zoo_exec. destruct (catalogue_statement _ _) as [[c|]|]; [done..|]. by destruct (exec_statement _ _).
  - intros t d d' Ht. rewrite (zoo_exec_block t) by (by apply table_name_plain || by left). rewrite exec_drop by done.
    intros [= <-]. apply lookup_delete_eq.
  - intros driver t stmt d d' Ht Hs. rewrite (zoo_exec_block t) by ((by apply table_name_plain) || (right; right; left; by eexists)).
    erewrite exec_create by done. intros [= <-] Hn. right. cbn. by rewrite lookup_insert_eq, Hn.
  - intros t d d' Ht. rewrite (zoo_exec_block t) by ((by apply table_name_plain) || (right; by left)).
    rewrite exec_has by done. destruct (zm_files d !! t) eqn:Hl; [|done]. intros [= <-]. by destruct d.
  - intros t n block l d d' Ht Hr Hb Hl.
    rewrite (zoo_exec_block t) by ((by apply table_name_plain) || (right; right; right; eauto)).
    rewrite exec_insert_block, Hl by done. intros [= <-]. cbn. by rewrite lookup_insert_eq.
  - intros t n block d d' e Ht Hr Hb.
    rewrite (zoo_exec_block t) by ((by apply table_name_plain) || (right; right; right; eauto)).
    rewrite exec_insert_block by done. destruct (zm_files d !! t) eqn:Hl; [done|]. by intros [= _ <-].
  - intros t lo hi d Ht Hlo Hhi. rewrite exec_select_blocks by done. eexists. split; [done|].
    destruct (zm_files d !! t) as [l|]; cbn; (split; [done|]); [by intros ??? [= <- <-] [= <-]|done].
Defined.

(** ** The laws of the catalogue *)

Lemma operand_app pre e n rest : no_char e n = true → operand pre e (pre +:+ n +:+ String e rest) = Some n.
Proof. intros Hn. unfold operand. rewrite cut_prefix_app. cbn [mbind option_bind]. by rewrite cut_at_char. Qed.
Lemma new_id_spec ids id : new_id ids = Some id → int64_range id ∧ id ∉ ids.
Proof.
  unfold new_id. case_decide as Hr; [|done]. intros [= <-]. split; [done|]. intros Hin.
  assert (∀ x, x ∈ ids → x ≤ top_id ids) as Htop.
  { clear. unfold top_id. induction ids as [|y ids IH]; intros x Hx; [by apply not_elem_of_nil in Hx|]. cbn.
    apply elem_of_cons in Hx as [->|Hx]; [lia|]. specialize (IH x Hx). lia. }
  specialize (Htop _ Hin). lia.
Qed.
Lemma find_by_id {A} (id : A → Z) (n : Z) (l : list A) i x :
  list_find (λ y, pretty (id y) = pretty n) l = Some (i, x) → id x = n ∧ n ∈ id <$> l.
Proof.
  intros (Hx & Hp & _)%list_find_Some. apply (inj pretty) in Hp. split; [done|]. rewrite <- Hp.
  apply list_elem_of_fmap_2. by eapply list_elem_of_lookup_2.
Qed.
Lemma add_def_spec coll class args c c' : add_def (pretty coll) class args c = Some c' →
  coll ∈ rp_id <$> c_repos c ∧ ∃ id, int64_range id ∧ id ∉ df_id <$> c_defs c ∧
    c' = mkCatalogue (c_repos c) (c_defs c ++ [mkDef id coll class args]) (c_models c).
Proof.
  unfold add_def. intros ([i p] & Hf & (id & Hid & [= <-])%bind_Some)%bind_Some.
  apply (find_by_id rp_id) in Hf as [-> Hin]. apply new_id_spec in Hid as [Hr Hid]. split; [done|]. by exists id.
Qed.
Lemma add_model_spec def name version url description metrics c c' : add_model (pretty def) name version url description metrics c = Some c' →
  def ∈ df_id <$> c_defs c ∧ ∃ id, id ∉ md_id <$> c_models c ∧
    c' = mkCatalogue (c_repos c) (c_defs c) (c_models c ++ [mkRow id def name version url description metrics]).
Proof.
  unfold add_model. intros ([i p] & Hf & (id & Hid & [= <-])%bind_Some)%bind_Some.
  apply (find_by_id df_id) in Hf as [-> Hin]. apply new_id_spec in Hid as [Hr Hid]. split; [done|]. by exists id.
Qed.
Lemma filter_pretty {A} (id : A → Z) (n : Z) (l : list A) : filter (λ x, pretty (id x) ≠ pretty n) l = filter (λ x, id x ≠ n) l.
Proof. apply list_filter_iff. intros x. split; intros Hx He; apply Hx; [by rewrite He|by apply (inj pretty) in He]. Qed.
Lemma remove_defs_spec coll c c' : remove_defs (pretty coll) c = Some c' →
  (∀ f m, f ∈ c_defs c → df_coll f = coll → m ∈ c_models c → md_def m ≠ df_id f) ∧
  c' = mkCatalogue (c_repos c) (filter (λ f, df_coll f ≠ coll) (c_defs c)) (c_models c).
Proof.
  unfold remove_defs. destruct (existsb _ _) eqn:He; [done|]. intros [= <-]. rewrite (filter_pretty df_coll). split; [|done].
  intros f m Hf <- Hm Hd. apply not_true_iff_false in He. apply He. apply existsb_exists. exists f.
  split; [by apply list_elem_of_In|]. apply andb_true_iff. split; [by apply bool_decide_eq_true|].
  apply existsb_exists. exists m. split; [by apply list_elem_of_In|by apply bool_decide_eq_true].
Qed.
Lemma remove_repo_spec id c c' : remove_repo (pretty id) c = Some c' →
  (∀ f, f ∈ c_defs c → df_coll f ≠ id) ∧
  c' = mkCatalogue (filter (λ p, rp_id p ≠ id) (c_repos c)) (c_defs c) (c_models c).
Proof.
  unfold remove_repo. destruct (existsb _ _) eqn:He; [done|]. intros [= <-]. rewrite (filter_pretty rp_id). split; [|done].
  intros f Hf <-. apply not_true_iff_false in He. apply He. apply existsb_exists. exists f.
  split; [by apply list_elem_of_In|by apply bool_decide_eq_true].
Qed.

(** What each statement is to the reader. *)
Lemma read_insert_def coll class args c : plain class = true → plain args = true →
  catalogue_statement (tokens (insert_def coll class args)) c = Some (add_def (pretty coll) class args c).
Proof.
  intros Hc Ha. rewrite tokens_insert_def by done. cbn [catalogue_statement].
  change (", ")%string with (String "," " ") at 1. rewrite operand_app by (by apply no_char_pretty). done.
Qed.
Lemma read_insert_model def name version url description metrics c :
  plain name = true → plain version = true → plain url = true → plain description = true → plain metrics = true →
  catalogue_statement (tokens (insert_model def name version url description metrics)) c =
    Some (add_model (pretty def) name version url description metrics c).
Proof.
  intros Hn Hv Hu Hd Hm. rewrite tokens_insert_model by done. cbn [catalogue_statement].
  change (", ")%string with (String "," " ") at 1. rewrite operand_app by (by apply no_char_pretty). done.
Qed.
Lemma read_delete_defs coll c : catalogue_statement (tokens (delete_defs coll)) c = Some (remove_defs (pretty coll) c).
Proof.
  unfold delete_defs. rewrite tokens_one by (rewrite !no_sq_app, pretty_no_sq; done). cbn [catalogue_statement].
  change (";")%string with (String ";" "") at 1.
  change ("DELETE FROM " +:+ modelDefTable +:+ " WHERE model_coll_id=" +:+ ?x)%string
    with ("DELETE FROM sqlflow_model_zoo.model_definitions WHERE model_coll_id=" +:+ x)%string.
  rewrite operand_app by (by apply no_char_pretty). done.
Qed.
Lemma read_delete_repo id c : catalogue_statement (tokens (delete_repo id)) c = Some (remove_repo (pretty id) c).
Proof.
  unfold delete_repo. rewrite tokens_one by (rewrite !no_sq_app, pretty_no_sq; done). cbn [catalogue_statement].
  change (";")%string with (String ";" "") at 1.
  change ("DELETE FROM " +:+ modelCollTable +:+ " WHERE id=" +:+ ?x)%string
    with ("DELETE FROM sqlflow_model_zoo.model_repos WHERE id=" +:+ x)%string.
  rewrite (operand_app "DELETE FROM sqlflow_model_zoo.model_repos WHERE id=") by (by apply no_char_pretty). done.
Qed.
Lemma read_delete_model name version c : plain name = true → plain version = true →
  catalogue_statement (tokens (delete_model name version)) c = Some (Some (remove_models name version c)).
Proof. intros Hn Hv. by rewrite tokens_delete_model. Qed.

(** A statement that is read as a change of the catalogue. *)
Lemma zoo_exec_Ok sql r d u d' : catalogue_statement (tokens sql) (zm_cat d) = Some r → zoo_exec sql d = (Ok u, d') →
  ∃ c, r = Some c ∧ d' = set_cat c d.
Proof. unfold zoo_exec. intros ->. destruct r as [c|]; [|done]. intros [= _ <-]. by exists c. Qed.
Lemma zoo_exec_Fail sql d e d' : zoo_exec sql d = (Fail e, d') → d' = d.
Proof.
  unfold zoo_exec. destruct (catalogue_statement _ _) as [[c|]|]; [done|by intros [= _ <-]|].
  destruct (exec_statement _ _); [done|by intros [= _ <-]].
Qed.
Lemma zoo_insert_Fail sql d e d' : zoo_insert sql d = (Fail e, d') → d' = d.
Proof.
  unfold zoo_insert. repeat case_match; try done; by intros [= _ <-].
Qed.

Lemma zoo_query_Ok sql d rows d' : zoo_query sql d = (Ok rows, d') → rows = zoo_rows (tokens sql) (zm_cat d).
Proof. unfold zoo_query. congruence. Qed.

#[export] Instance zoo_db : ZooDB zoo_memory.
Proof.
  refine {| zoo_blocks := zoo_block_db; cat := zm_cat; collate := id |}; unfold db_Query, db_Exec, db_LastInsertId, id;
    cbn [Query store LastInsertId zoo_world Exec zoo_outside].
  - done.
  - intros sql d. unfold zoo_insert. repeat case_match; done.
  - by intros sql d e d' ->%zoo_exec_Fail.
  - by intros sql d e d' ->%zoo_insert_Fail.
  - intros word name version d Hw Hn Hv. split; [done|]. intros rows d' ->%zoo_query_Ok. rewrite tokens_select_repo; [cbn [zoo_rows]; by rewrite decide_False|done|done|].
    apply elem_of_cons in Hw as [->|[->|[]%not_elem_of_nil]%elem_of_cons]; done.
  - intros class coll d Hc. split; [done|]. intros rows d' ->%zoo_query_Ok. rewrite tokens_select_def by done. cbn [zoo_rows].
    rewrite decide_True by done. f_equal. apply list_filter_iff. intros f. split; intros [Hcl Hcoll]; (split; [exact Hcl|]); [by apply (inj pretty) in Hcoll|by rewrite Hcoll].
  - intros name version d id d' Hn Hv. unfold zoo_insert. rewrite tokens_insert_repo by done. unfold add_repo.
    destruct (new_id _) as [i|] eqn:Hi; [|done]. cbn [mbind option_bind]. intros [= <- <-]. apply new_id_spec in Hi as [Hr Hi]. done.
  - intros coll class args d d' Hc Ha Hr. destruct (zoo_exec_Ok _ _ _ _ _ (read_insert_def _ _ _ _ Hc Ha) Hr) as (c & Hadd & ->).
    by apply add_def_spec in Hadd.
  - intros def name version url description metrics d d' Hn Hv Hu Hd Hm Hr.
    destruct (zoo_exec_Ok _ _ _ _ _ (read_insert_model _ _ _ _ _ _ _ Hn Hv Hu Hd Hm) Hr) as (c & Hadd & ->).
    apply add_model_spec in Hadd as [Hin Hadd]. done.
  - intros coll d d' Hr. destruct (zoo_exec_Ok _ _ _ _ _ (read_delete_defs _ _) Hr) as (c & Hc & ->). by apply remove_defs_spec.
  - intros id d d' Hr. destruct (zoo_exec_Ok _ _ _ _ _ (read_delete_repo _ _) Hr) as (c & Hc & ->). by apply remove_repo_spec.
  - intros name version d d' Hn Hv Hr. destruct (zoo_exec_Ok _ _ _ _ _ (read_delete_model _ _ _ Hn Hv) Hr) as (c & [= <-] & ->). done.
Defined.

(** What only answers, or changes nothing but what was sent. *)
Lemma silent {A} (m : st zoo_memory A) : (∀ d, zm_cat (m d).2 = zm_cat d) → within same_cat m.
Proof. intros Hm d r d' Hr. specialize (Hm d). rewrite Hr in Hm. exact Hm. Qed.
Lemma zoo_exec_block_cat t sql : plain_table t = true → block_statement t sql → within same_cat (zoo_exec sql).
Proof. intros Ht Hb. apply silent. intros d. rewrite (zoo_exec_block t) by done. by destruct (exec_statement _ _). Qed.
(** The first token of what begins with a word is a text that begins with it. *)
Lemma sql_tokens_first acc s : ∃ u ts, sql_tokens false acc s = Text (acc +:+ u) :: ts.
Proof.
  induction s as [|c s IH] in acc |- *; cbn [sql_tokens]; [exists ""%string, []; by rewrite str_app_nil_r|].
  destruct (decide _); [exists ""%string; rewrite str_app_nil_r; by eexists|].
  destruct (IH (acc +:+ char1 c)%string) as (u & ts & ->). exists (String c u), ts. by rewrite <- str_app_assoc.
Qed.
Lemma select_quiet t : within same_cat (zoo_exec (has_stmt t)).
Proof.
  apply silent. intros d. unfold zoo_exec.
  assert (∀ c', catalogue_statement (tokens (has_stmt t)) (zm_cat d) ≠ Some (Some c')) as Hno.
  { intros c'. unfold has_stmt, tokens. rewrite (tokens_text "" "SELECT 1 FROM ") by done.
    destruct (sql_tokens_first ("" +:+ "SELECT 1 FROM ") (t +:+ " LIMIT 1")) as (u & ts & ->).
    change (("" +:+ "SELECT 1 FROM ") +:+ u)%string with (String "S" ("ELECT 1 FROM " +:+ u)).
    unfold catalogue_statement. repeat match goal with |- match ?x with _ => _ end ≠ _ => destruct x; try done end. }
  destruct (catalogue_statement _ _) as [[c|]|]; [by destruct (Hno c)|done|]. by destruct (exec_statement _ _).
Qed.
Lemma default_rows rows d d' : zoo_query find_default_repo d = (Ok rows, d') → rows = [] →
  d' = d ∧ ("sqlflow/sqlflow", "latest")%string ∉ key (D := zoo_memory) <$> c_repos (zm_cat d).
Proof.
  intros Hq Hnil. split; [by unfold zoo_query in Hq; injection Hq|]. apply zoo_query_Ok in Hq. rewrite Hq in Hnil.
  assert (tokens find_default_repo = [Text "SELECT * FROM sqlflow_model_zoo.model_repos WHERE name="; Literal "sqlflow/sqlflow";
    Text " AND version="; Literal "latest"; Text ";"]%string) as Ht by (vm_compute; reflexivity).
  rewrite Ht in Hnil. cbn [zoo_rows] in Hnil. rewrite decide_False in Hnil by done.
  exact (matching_repos_none (D := zoo_memory) "sqlflow/sqlflow" "latest" (zm_cat d) Hnil).
Qed.

Lemma zoo_exec_tables sql d : sql ∈ removelast (Split createTableStmts ";") → zm_cat (zoo_exec sql d).2 = zm_cat d.
Proof.
  assert (∃ a b c e, removelast (Split createTableStmts ";") = [a; b; c; e] ∧
    zm_cat (zoo_exec a d).2 = zm_cat d ∧ zm_cat (zoo_exec b d).2 = zm_cat d ∧
    zm_cat (zoo_exec c d).2 = zm_cat d ∧ zm_cat (zoo_exec e d).2 = zm_cat d) as (a & b & c & e & -> & ? & ? & ? & ?)
    by (do 4 eexists; split; [vm_compute; reflexivity|split_and!; reflexivity]).
  intros Hin. by repeat (apply elem_of_cons in Hin as [->|Hin]; [done|]); apply not_elem_of_nil in Hin.
Qed.
#[export] Instance zoo_quiet : QuietWorld zoo_memory.
Proof.
  constructor; intros; try solve [apply silent; intros; reflexivity].
  - by eapply zoo_exec_block_cat.
  - apply silent. intros d. by apply zoo_exec_tables.
  - by eapply default_rows.
  - apply select_quiet.
Defined.
#[export] Program Instance zoo_delivery : Delivery zoo_memory := {| sent := zm_sent |}.
Next Obligation. by intros t b m d r d' [= _ <-]. Qed.
Next Obligation. done. Qed.
Next Obligation. by intros t n g s d r d' [= _ <-]. Qed.
Next Obligation. by intros n g s d d' [= <-]. Qed.

(** ** The theorems at a small model zoo *)

Lemma memory_takes_blocks t : table_name t = true → takes_blocks (D := zoo_memory) t.
Proof.
  intros Ht n block d [l Hl] Hn Hb. unfold db_Exec. cbn [Exec store zoo_world zoo_outside].
  rewrite (zoo_exec_block t) by ((by apply table_name_plain) || (right; right; right; eauto)).
  cbn in Hl. by rewrite exec_insert_block, Hl.
Qed.

Definition empty_zoo : zoo_memory := mkZoo ∅ (mkCatalogue [] [] []) [].
Lemma empty_ok : catalogue_ok (cat empty_zoo).
Proof. split; cbn; try (by intros x Hx%not_elem_of_nil); constructor. Qed.
Definition new_zoo : zoo_memory := run_state prepare_server empty_zoo.
Definition demo_piece (content : string) : ReleaseModelLocalRequest :=
  mkLocal "my_model" "v0.1" "a model" "" "DNNClassifier" "sqlflow/sqlflow:latest" content.
Definition demo_stream : stream ReleaseModelLocalRequest := mkStream [demo_piece "SQL"; demo_piece "Flow"] None.
Definition released_zoo : zoo_memory := run_state (ReleaseModelFromLocal 10 demo_stream) new_zoo.
Definition demo_request : ReleaseModelRequest := mkRelease "my_model" "v0.1" "" "".

Lemma catalogue_kept_witness :
  served 10 empty_zoo (run_state (handle 10 (Q_DropModelRepo (mkReleaseRepo "sqlflow/sqlflow" "latest" ""))) released_zoo) ∧
  catalogue_ok (cat (run_state (handle 10 (Q_DropModelRepo (mkReleaseRepo "sqlflow/sqlflow" "latest" ""))) released_zoo)).
Proof.
  assert (served 10 empty_zoo (run_state (handle 10 (Q_DropModelRepo (mkReleaseRepo "sqlflow/sqlflow" "latest" ""))) released_zoo)) as Hs.
  { eapply served_restart; [reflexivity|].
    eapply (served_request _ _ (Q_ReleaseModelFromLocal demo_stream)); [repeat constructor|reflexivity|].
    eapply (served_request _ _ (Q_DropModelRepo (mkReleaseRepo "sqlflow/sqlflow" "latest" ""))); [exact I|reflexivity|].
    apply served_none. }
  split; [exact Hs|]. eapply catalogue_kept; [..|exact Hs|exact empty_ok]; done.
Defined.

Lemma released_is_downloaded_witness :
  ReleaseModelFromLocal 10 demo_stream new_zoo = (Ok tt, released_zoo) ∧
  ∃ res d2, DownloadModel 10 demo_request released_zoo = (res, d2) ∧ fine res ∧
    (res = Ok tt → ∃ pieces left, sent d2 = sent released_zoo ++ ((λ p, ("my_model", "v0.1", p)%string) <$> pieces) ∧
      (str_concat pieces +:+ left = "SQLFlow")%string ∧ Forall (λ p, 0 < str_len p ≤ 4096)%nat pieces ∧
      (left = ""%string ∨ broken_off (modelTableName "my_model" "v0.1")
        (zm_files released_zoo !! modelTableName "my_model" "v0.1"))).
Proof.
  assert (ReleaseModelFromLocal 10 demo_stream new_zoo = (Ok tt, released_zoo)) as Hr.
  { apply run_state_run. vm_compute. reflexivity. }
  split; [exact Hr|].
  refine (released_is_downloaded _ 10 10 demo_stream (demo_piece "SQL") demo_request "SQLFlow" new_zoo released_zoo tt _ _ _ _ _ _ _ _ _ Hr).
  - done.
  - vm_compute. reflexivity.
  - reflexivity.
  - reflexivity.
  - repeat constructor.
  - vm_compute. reflexivity.
  - apply memory_takes_blocks. vm_compute. reflexivity.
  - vm_compute. reflexivity.
  - cbn. lia.
  - reflexivity.
Defined.
(** The download of it succeeds, with one piece. *)
Example demo_download : sent (run_state (DownloadModel 10 demo_request) released_zoo) = [("my_model", "v0.1", "SQLFlow")]%string.
Proof. vm_compute. reflexivity. Qed.
(** The repository is still used: it is not dropped. *)
Example drop_used : is_ok (DropModelRepo (mkReleaseRepo "sqlflow/sqlflow" "latest" "") released_zoo).1 = false.
Proof. vm_compute. reflexivity. Qed.
(** An image without a tag passes the check and panics later; one that begins with the name of a
    registry is looked for without its own name, and a dot without a slash panics. *)
Example image_without_tag : check_repo_image "group/image" = Ok tt ∧ repo_of_image "group/image" = Panic.
Proof. vm_compute. done. Qed.
Example image_of_registry : registry_path "hub.com/group/image" = Ok ("hub.com", "group")%string ∧ registry_path "image.v1" = Panic.
Proof. vm_compute. done. Qed.
