(* ===== verification/ZooClient.v ===== *)
(** * The commands of the client for the model zoo (go/cmd/sqlflow/model_zoo_client.go, down_model.go)

    The client packs repositories, takes models out of the user's database, and lists what the
    server has, page by page.  The server is what the class [ZooService] says. *)

From S2P Require Import Prelude GoStrings GoState GoConv FeatureColumn Sqlfs SqlfsFile Model Response TableWriter LogWriter World Archive ZooServer.

Local Open Scope Z_scope.

(** The options that these commands look at. *)
Record zoo_options := mkZooOptions {
  zo_CertFile : string; zo_ModelZooServer : string; zo_DataSource : string; zo_RepoDir : string; zo_RepoName : string;
  zo_ModelName : string; zo_Version : string; zo_Description : string }.

(** gRPC: the connection and the calls; a call with a stream of requests gets all of them, since
    the errors of sending one are not looked at. *)
Class ZooService (D : Type) := {
  NewClientTLS : string → st D unit;
  grpc_Dial : string → bool → st D unit;
  CloseConn : st D unit;
  call_ReleaseModel : ReleaseModelRequest → st D ReleaseResponse;
  call_DropModel : ReleaseModelRequest → st D ReleaseResponse;
  call_DropModelRepo : ReleaseModelRepoRequest → st D ReleaseResponse;
  call_ListModels : ListModelRequest → st D (ListResponse ModelResponse);
  call_ListModelRepos : ListModelRequest → st D (ListResponse ModelRepoResponse);
  open_LocalStream : st D unit;
  send_LocalStream : list ReleaseModelLocalRequest → st D ReleaseResponse;
  open_RepoStream : st D unit;
  send_RepoStream : list ReleaseModelRepoRequest → st D ReleaseResponse;
  os_Remove : string → st D unit;
  Printed : string → st D unit
}.

(** ** Buffers *)

Fixpoint zeros (n : nat) : string := match n with O => "" | S n => String (of_byte 0) (zeros n) end.
(** The whole buffer after each read, up to the end of the file: a read that does not fill it
    leaves what was there. *)
Fixpoint whole_buffers (fuel : nat) (buf rest : string) : list string :=
  match fuel with
  | O => []
  | S fuel =>
    if decide (rest = ""%string) then [] else
    let buf := over (str_take (str_len buf) rest) buf in
    buf :: whole_buffers fuel buf (str_drop (str_len buf) rest)
  end.
Definition local_pieces (content : string) : list string :=
  whole_buffers (S (str_len content)) (zeros (Z.to_nat (1024 * 10))) content.

Section client.
Context `{ZooWorld D} `{!ZooService D} `{!Files D} `{Output D}.

(** With a certificate the error of dialing is assigned to a variable that ends with the block:
    there is no connection then, and using it panics. *)
Definition getModelZooServerConn (opts : zoo_options) : st D bool :=
  if decide (zo_ModelZooServer opts = ""%string) then fail (Errorf "Model Zoo server is not specified" [])
  else if decide (zo_CertFile opts = ""%string) then
    wrapS "create client error: %v" [] (grpc_Dial (zo_ModelZooServer opts) false) ≫= λ _, mret true
  else
    NewClientTLS (zo_CertFile opts) ≫= λ _,
    c ← attempt (grpc_Dial (zo_ModelZooServer opts) true);
    mret (match c with inl _ => true | inr _ => false end).
Definition with_conn {A} (opts : zoo_options) (m : st D A) : st D A :=
  conn ← getModelZooServerConn opts;
  if (conn : bool) then defer CloseConn m else lift Panic.

Definition answered (resp : ReleaseResponse) : st D unit :=
  if Success resp then mret tt else fail (Errorf (Message resp) []).

Definition releaseModel (opts : zoo_options) : st D unit :=
  with_conn opts (call_ReleaseModel (mkRelease (zo_ModelName opts) (zo_Version opts) (zo_Description opts) (zo_DataSource opts)) ≫= answered).
Definition deleteModel (opts : zoo_options) : st D unit :=
  with_conn opts (call_DropModel (mkRelease (zo_ModelName opts) (zo_Version opts) "" "") ≫= answered).
Definition checkModelZooParam (opts : zoo_options) : result unit :=
  if decide (zo_ModelZooServer opts = ""%string) then Fail (Errorf "you need to specify a model zoo server" []) else Ok tt.
Definition deleteRepo (opts : zoo_options) : st D unit :=
  lift (checkModelZooParam opts) ≫= λ _,
  with_conn opts (call_DropModelRepo (mkReleaseRepo (zo_RepoName opts) (zo_Version opts) "") ≫= answered).

(** *** Releasing a model from the user's database *)

Definition releaseModelFromLocal (fuel : nat) (opts : zoo_options) : st D unit :=
  let ds := zo_DataSource opts in
  if decide (ds = ""%string) then fail (Errorf "You should specify a datasource with -d" []) else
  OpenDB ds ≫= λ _,
  defer (CloseDB ds) (
    dir ← ioutil_TempDir "/tmp" "upload_model_zoo";
    defer (os_RemoveAll dir) (
      '(tarFile, content) ← @DumpDBModel D (store ds) (models ds) fuel copy_size (zo_ModelName opts) dir;
      model ← @ExtractMetaFromTarball D (store ds) (models ds) tarFile dir;
      let meta := @GetMetaAsString D (store ds) (models ds) model in
      with_conn opts (
        open_LocalStream ≫= λ _,
        let request piece :=
          mkLocal (zo_ModelName opts) (zo_Version opts) (zo_Description opts) (meta "evaluation"%string) (meta "class_name"%string)
            (zoo_model_image (meta "model_repo_image"%string)) piece in
        send_LocalStream (request <$> local_pieces content) ≫= answered))).

(** *** Releasing a repository *)

(** The error of changing the directory is not looked at. *)
Definition tarRepo (repoDir tarName : string) : st D string :=
  curDir ← os_Getwd;
  defer (os_Chdir curDir) (
    attempt (os_Chdir repoDir) ≫= λ _,
    ZipDir "." tarName ≫= λ _,
    mret (path_Join [repoDir; tarName])).
Definition repo_requests (opts : zoo_options) (content : string) : list ReleaseModelRepoRequest :=
  (λ piece, mkReleaseRepo (zo_RepoName opts) (zo_Version opts) piece) <$> chunks (Z.to_nat (1024 * 32)) content.
Definition releaseRepo (opts : zoo_options) : st D unit :=
  lift (checkModelZooParam opts) ≫= λ _,
  tarFile ← tarRepo (zo_RepoDir opts) (path_Base (zo_RepoName opts) +:+ ".tar.gz");
  defer (os_Remove tarFile) (with_conn opts (
    open_RepoStream ≫= λ _,
    content ← ReadAll tarFile;
    send_RepoStream (repo_requests opts content) ≫= answered)).

(** *** Lists *)

Definition model_columns : list string := ["Name"; "Tag"; "ModelStoreUrl"; "ImageUrl"; "Description"; "Metric"].
Definition repo_columns : list string := ["ClassName"; "ImageUrl"; "Tag"; "ArgDescs"].
Definition model_line (m : ModelResponse) : list goval :=
  map VString [mr_Name m; mr_Tag m; mr_ModelStoreUrl m; mr_ImageUrl m; mr_Description m; mr_Metric m].
Definition repo_line (r : ModelRepoResponse) : list goval :=
  map VString [rr_ClassName r; rr_ImageUrl r; rr_Tag r; rr_ArgDescs r].

(** The pages from [start] on, each written to the table. *)
Fixpoint write_pages {A} (fuel : nat) (call : ListModelRequest → st D (ListResponse A)) (line : A → list goval) (start : Z)
    : st (ASCIIWriter * D) unit :=
  match fuel with
  | O => lift NoFuel
  | S fuel =>
    resp ← at_terminal (call (mkList 100 start));
    if l_Size resp <=? 0 then mret tt else
    eachS (λ a, ascii_AppendRow (line a)) (l_items resp) ≫= λ _,
    write_pages fuel call line (wrap64 (start + l_Size resp))
  end.
Definition list_all {A} (fuel : nat) (opts : zoo_options) (columns : list string)
    (call : ListModelRequest → st D (ListResponse A)) (line : A → list goval) : st D unit :=
  lift (checkModelZooParam opts) ≫= λ _,
  with_conn opts (with_local (createASCIIWriter 1024) (
    attempt (ascii_SetHeader {["columnNames"%string := Columns columns]}) ≫= λ _,
    write_pages fuel call line 0 ≫= λ _,
    attempt ascii_Flush ≫= λ _, mret tt)).
Definition listModels (fuel : nat) (opts : zoo_options) : st D unit :=
  list_all fuel opts model_columns call_ListModels model_line.
Definition listRepos (fuel : nat) (opts : zoo_options) : st D unit :=
  list_all fuel opts repo_columns call_ListModelRepos repo_line.

(** *** Downloading (down_model.go) *)

Definition downloadModelFromDB (fuel : nat) (opts : zoo_options) : st D unit :=
  let ds := if decide (zo_DataSource opts = ""%string) then Env "SQLFLOW_DATASOURCE" else zo_DataSource opts in
  if decide (ds = ""%string) then fail (Errorf "You should specify a datasource with -d or set env SQLFLOW_DATASOURCE" []) else
  OpenDB ds ≫= λ _,
  defer (CloseDB ds) (
    cwd ← os_Getwd;
    '(filename, _) ← @DumpDBModel D (store ds) (models ds) fuel copy_size (zo_ModelName opts) cwd;
    attempt (Printed ("model " +:+ dq +:+ zo_ModelName opts +:+ dq +:+ " downloaded successfully at " +:+ filename +:+ newline)) ≫= λ _, mret tt).
End client.

(** ** What is sent *)

Lemma over_length new old : (str_len new ≤ str_len old)%nat → str_len (over new old) = str_len old.
Proof. intros Hl. unfold over. rewrite str_length_app, str_length_drop. lia. Qed.
Lemma over_whole new old : str_len new = str_len old → over new old = new.
Proof. intros Hl. unfold over. rewrite str_drop_ge by lia. apply str_app_nil_r. Qed.
Lemma zeros_length n : str_len (zeros n) = n.
Proof. induction n as [|n IH]; [done|]. cbn. by rewrite IH. Qed.

Lemma whole_buffers_spec fuel buf rest :
  (0 < str_len buf)%nat → (str_len rest < fuel)%nat →
  ∃ tail, str_concat (whole_buffers fuel buf rest) = (rest +:+ tail)%string ∧ (str_len tail < str_len buf)%nat ∧
    Forall (λ b, str_len b = str_len buf) (whole_buffers fuel buf rest).
Proof.
  intros Hb. induction fuel as [|fuel IH] in buf, rest, Hb |- *; intros Hf; [lia|]. cbn [whole_buffers].
  case_decide as Hr; [subst rest; by exists ""%string|].
  assert (0 < str_len rest)%nat as Hpos by (destruct rest; [done|simpl; lia]).
  set (new := str_take (str_len buf) rest).
  assert (str_len new = str_len buf `min` str_len rest)%nat as Hnew by (unfold new; by rewrite str_length_take).
  assert (str_len (over new buf) = str_len buf) as Hover by (apply over_length; lia).
  rewrite Hover, str_concat_cons. destruct (decide (str_len buf ≤ str_len rest)%nat) as [Hle|Hlt].
  - rewrite over_whole in * by lia.
    destruct (IH new (str_drop (str_len buf) rest)) as (tail & Hc & Ht & Hall); [lia|rewrite str_length_drop; lia|].
    exists tail. rewrite Hc. unfold new at 1. rewrite str_app_assoc, str_take_drop. split_and!; [done|lia|].
    constructor; [lia|]. eapply Forall_impl; [exact Hall|]. intros b. cbn. lia.
  - rewrite (str_drop_ge _ rest) by lia. destruct fuel; [lia|]. cbn [whole_buffers]. rewrite decide_True by done. cbn.
    rewrite str_app_nil_r. exists (str_drop (str_len rest) buf). unfold new, over.
    rewrite str_take_ge by lia. rewrite str_length_drop. split_and!; [done|lia|]. constructor; [|done].
    rewrite str_length_app, str_length_drop. lia.
Qed.

(** C38: the client that releases a model from the user's database sends more than the model: the
    buffer is sent whole whatever was read, so that the server gets the content with less
    than 10 KB of stale bytes behind it, none only if 10 KB divide its length. *)
Theorem local_pieces_padded (content : string) :
  ∃ tail, str_concat (local_pieces content) = (content +:+ tail)%string ∧ Z.of_nat (str_len tail) < 10240 ∧
    (Z.of_nat (str_len content) + Z.of_nat (str_len tail)) mod 10240 = 0 ∧
    (str_concat (local_pieces content) = content ↔ Z.of_nat (str_len content) mod 10240 = 0).
Proof.
  unfold local_pieces. destruct (whole_buffers_spec (S (str_len content)) (zeros (Z.to_nat (1024 * 10))) content) as (tail & Hc & Ht & Hall);
    [rewrite zeros_length; lia|lia|]. rewrite zeros_length in *.
  assert ((Z.of_nat (str_len content) + Z.of_nat (str_len tail)) mod 10240 = 0) as Hmod.
  { rewrite <- Nat2Z.inj_add, <- str_length_app, <- Hc. clear Hc. induction Hall as [|b bs Hb _ IH]; [done|].
    rewrite str_concat_cons, str_length_app, Hb, Nat2Z.inj_add, Z.add_mod, IH by done. done. }
  exists tail. split; [done|]. split; [lia|]. split; [done|]. rewrite Hc. split.
  - intros He%(f_equal str_len). rewrite str_length_app in He. assert (str_len tail = 0)%nat as Hz by lia.
    by rewrite Hz, Z.add_0_r in Hmod.
  - intros Hdiv. rewrite <- Z.add_mod_idemp_l, Hdiv, Z.add_0_l in Hmod by done. rewrite Z.mod_small in Hmod by lia.
    destruct tail; [by rewrite str_app_nil_r|cbn in Hmod; lia].
Qed.

(** ** Lists *)

Lemma eachS_fmap {D X Y} (f : X → Y) (g : Y → st D unit) l d : eachS (λ x, g (f x)) l d = eachS g (f <$> l) d.
Proof.
  induction l as [|x l IH] in d |- *; [done|]. cbn [eachS fmap list_fmap]. unfold mbind, st_bind.
  destruct (g (f x) d) as [[[]|e| |] d1]; [apply IH|done..].
Qed.

(** Pages that cut one list give that list again. *)
Lemma pages_cut {A} (all : list A) (pages : list (list A)) (start : nat) :
  (∀ i p, pages !! i = Some p → p = take 100 (drop (start + 100 * i) all)) →
  length (concat pages) = (length all - start)%nat → concat pages = drop start all.
Proof.
  induction pages as [|p pages IH] in start |- *; intros Hp Hl; cbn [concat length] in *.
  - symmetry. apply length_zero_iff_nil. rewrite length_drop. lia.
  - pose proof (Hp 0%nat p eq_refl) as Hp0. rewrite Nat.mul_0_r, Nat.add_0_r in Hp0.
    pose proof (f_equal length Hp0) as Hl0. rewrite length_take, length_drop in Hl0. rewrite length_app in Hl.
    destruct (decide (100 ≤ length all - start)%nat).
    + rewrite (IH (start + 100)%nat) by (try lia; intros i q Hq; rewrite (Hp (S i) q Hq); do 2 f_equal; lia).
      rewrite Hp0, <- drop_drop. apply take_drop.
    + assert (concat pages = []) as -> by (apply length_zero_iff_nil; lia).
      rewrite app_nil_r, Hp0. apply take_ge. rewrite length_drop. lia.
Qed.

Section lists.
Context `{ZooWorld D} `{!ZooService D} `{WorkingOutput D}.
Context {A : Type} (all : list A) (line : A → list goval) (call : ListModelRequest → st D (ListResponse A)).
(** The server answers with the page [p]; nothing changes. *)
Definition answered_page (start : Z) (d : D) (p : list A) : Prop :=
  call (mkList 100 start) d = (Ok (mkListResponse (Z.of_nat (length p)) p), d).
(** A page has up to a hundred of the items, as many as are left behind the first [start]; which
    ones and in which order may be another each time. *)
Definition a_page (start : Z) (p : list A) : Prop :=
  p ⊆+ all ∧ length p = (100 `min` (length all - Z.to_nat start))%nat.
Context (Hcall : ∀ start d, 0 ≤ start → ∃ p, answered_page start d p ∧ a_page start p).
Context (Hsmall : Z.of_nat (length all) < 2 ^ 63).

(** The answers in the order of the requests. *)
Definition pages_from (start : Z) (pages : list (list A)) : Prop :=
  length (concat pages) = (length all - Z.to_nat start)%nat ∧
  ∀ i p, pages !! i = Some p → p ≠ [] ∧ a_page (start + 100 * Z.of_nat i) p ∧
    ∃ d, answered_page (start + 100 * Z.of_nat i) d p.

Lemma pages_from_cons start p pages d :
  0 ≤ start ≤ Z.of_nat (length all) → p ≠ [] → a_page start p → answered_page start d p →
  pages_from (start + Z.of_nat (length p)) pages → pages_from start (p :: pages).
Proof.
  intros Hs Hp Ha Hd [Hl Hall]. pose proof Ha as [_ Hlp]. split.
  - cbn [concat]. rewrite length_app, Hl. lia.
  - intros [|i] q; cbn [lookup list_lookup].
    + intros [= <-]. rewrite Z.mul_0_r, Z.add_0_r. split_and!; [done..|by exists d].
    + intros Hq. assert (length p = 100%nat) as H100.
      { destruct (Hall i q Hq) as (Hqne & [_ Hlq] & _).
        assert (0 < length q)%nat by (destruct q; [done|cbn; lia]). lia. }
      rewrite H100 in Hall. replace (start + 100 * Z.of_nat (S i)) with (start + Z.of_nat 100 + 100 * Z.of_nat i) by lia.
      by apply Hall.
Qed.

Lemma write_pages_spec columns n fuel start w :
  0 ≤ start ≤ Z.of_nat (length all) → (length all - Z.to_nat start < fuel)%nat → ascii_ok columns 1024 n w →
  ∃ pages w', write_pages fuel call line start w = (Ok tt, w') ∧ ascii_ok columns 1024 n w' ∧ pages_from start pages ∧
    shown_lines n w' = shown_lines n w ++ map (map Sprint) (line <$> concat pages).
Proof.
  induction fuel as [|fuel IH] in start, w |- *; intros Hs Hf Hok; [lia|]. cbn [write_pages]. destruct w as [t d].
  destruct (Hcall start d ltac:(lia)) as (p & Hd & Ha). pose proof Ha as [_ Hl].
  rewrite (st_bind_run _ _ _ (mkListResponse (Z.of_nat (length p)) p) (t, d)) by (unfold at_terminal; by rewrite Hd).
  cbn [l_Size l_items]. destruct (Z.leb_spec (Z.of_nat (length p)) 0) as [Hz|Hpos].
  - exists [], (t, d). split_and!; [done..| |by rewrite app_nil_r]. split; [cbn; lia|done].
  - destruct (ascii_rows_ok columns 1024 n (line <$> p) (t, d) Hok) as (w1 & Hr1 & Hok1 & Hs1).
    rewrite <- eachS_fmap in Hr1. rewrite (st_bind_run _ _ _ _ _ Hr1).
    rewrite wrap64_id by (unfold int64_range, min_int64, max_int64; lia).
    destruct (IH (start + Z.of_nat (length p)) w1) as (pages & w2 & Hr2 & Hok2 & Hpages & Hs2); [lia|lia|done|].
    exists (p :: pages), w2. split_and!; [done..| |].
    + eapply pages_from_cons; [lia|by destruct p|done|exact Hd|done].
    + rewrite Hs2, Hs1, <- app_assoc, <- map_app. do 2 f_equal. by rewrite <- fmap_app.
Qed.

(** What is shown of the answers. *)
Lemma list_shows (fuel : nat) (opts : zoo_options) (columns : list string) (d d1 : D) :
  (length all < fuel)%nat → zo_ModelZooServer opts ≠ ""%string → getModelZooServerConn opts d = (Ok true, d1) →
  ∃ pages d2, list_all fuel opts columns call line d = (Ok tt, (CloseConn d2).2) ∧ pages_from 0 pages ∧
    let shown := drop (length (tables_shown d1)) (tables_shown d2) in
    concat shown.*2 = map (map Sprint) (line <$> concat pages) ∧
    Forall (λ t, t.1 = columns ∧ 0 < Z.of_nat (length t.2) ≤ 1024) shown.
Proof.
  intros Hf Hserver Hconn. unfold list_all, checkModelZooParam. rewrite decide_False by done.
  rewrite (st_bind_run (lift (Ok tt)) _ _ tt d) by done. unfold with_conn. rewrite (st_bind_run _ _ _ _ _ Hconn).
  destruct (ascii_start 1024 columns d1) as [Hok Hs0].
  destruct (write_pages_spec columns (length (tables_shown d1)) fuel 0 _ ltac:(lia) ltac:(lia) Hok) as (pages & w1 & Hr1 & Hok1 & Hp & Hs1).
  destruct (ascii_Flush_ok _ _ _ _ Hok1) as ([t d2] & Hr2 & Hnil & He & Hall).
  exists pages, d2. split.
  - unfold defer, with_local.
    rewrite (st_bind_run _ _ _ (inl tt) (mkASCIIWriter columns [] 1024, d1)) by (unfold attempt, ascii_SetHeader; by rewrite lookup_singleton_eq).
    rewrite (st_bind_run _ _ _ _ _ Hr1). rewrite (st_bind_run _ _ _ (inl tt) (t, d2)) by (unfold attempt; by rewrite Hr2). done.
  - split; [done|]. cbv zeta. split; [|exact Hall]. etrans; [exact He|]. by rewrite Hs1, Hs0.
Qed.

(** One page: each item once.  Stable pages: the items in their order. *)
Lemma pages_one pages : pages_from 0 pages → (length all ≤ 100)%nat → concat pages ≡ₚ all.
Proof.
  intros [Hl Hall] Hle. rewrite Nat.sub_0_r in Hl. destruct pages as [|p [|q pages]].
  - symmetry in Hl. apply length_zero_iff_nil in Hl. by rewrite Hl.
  - destruct (Hall 0%nat p eq_refl) as (_ & [Hsub _] & _). cbn in *. rewrite app_nil_r in *.
    by apply submseteq_length_Permutation; [|lia].
  - destruct (Hall 1%nat q eq_refl) as (Hne & [_ Hlq] & _).
    assert (0 < length q)%nat by (destruct q; [done|cbn; lia]). lia.
Qed.
Lemma pages_stable pages : pages_from 0 pages →
  (∀ start d p, 0 ≤ start → answered_page start d p → p = take 100 (drop (Z.to_nat start) all)) → concat pages = all.
Proof.
  intros [Hl Hall] Hcut. apply (pages_cut all pages 0); [|done]. intros i p Hi.
  destruct (Hall i p Hi) as (_ & _ & d & Hd). apply Hcut in Hd; [|lia].
  rewrite Hd. by replace (Z.to_nat (0 + 100 * Z.of_nat i)) with (0 + 100 * i)%nat by lia.
Qed.
End lists.

(** The server's answer to a request for a page. *)
Section server_pages.
Context `{ZooWorld D} `{ZooConn}.
Definition model_cells (m : ModelResponse) : list string :=
  [mr_Name m; mr_Tag m; mr_ModelStoreUrl m; mr_Description m; mr_Metric m].
(** A row of the query for [m], whose image is [image] with [tag]. *)
Definition model_row_of (m : ModelResponse) (r : row) : Prop :=
  ∃ image tag, mr_ImageUrl m = (image +:+ ":" +:+ tag)%string ∧ r = Some <$> (model_cells m ++ [image; tag]).
Lemma scan_rows {A} (scan : row → result A) (l : list A) (rows : list row) k (d : D) :
  Forall2 (λ a r, scan r = Ok a) l rows → Z.of_nat (length k + length l) < 2 ^ 63 →
  foldS (λ resp r, lift (append_item scan resp r)) (mkListResponse (Z.of_nat (length k)) k) rows d =
    (Ok (mkListResponse (Z.of_nat (length (k ++ l))) (k ++ l)), d).
Proof.
  intros Hall. induction Hall as [|a r l rows Ha _ IH] in k |- *; intros Hs; cbn [foldS]; [by rewrite app_nil_r|].
  rewrite (st_bind_run _ _ _ (mkListResponse (Z.of_nat (length (k ++ [a]))) (k ++ [a])) d).
  - replace (k ++ a :: l) with ((k ++ [a]) ++ l) by (by rewrite <- app_assoc). apply IH.
    rewrite length_app. cbn in *. lia.
  - unfold lift, append_item. rewrite Ha. cbn. rewrite length_app. cbn in *. do 3 f_equal.
    rewrite wrap64_id by (unfold int64_range, min_int64, max_int64; lia). lia.
Qed.
Lemma ListModels_page (l : list ModelResponse) rows size start d :
  db_Query (select_models size start) d = (Ok rows, d) → Forall2 model_row_of l rows → Z.of_nat (length l) < 2 ^ 63 →
  ListModels (mkList size start) d = (Ok (mkListResponse (Z.of_nat (length l)) l), d).
Proof.
  intros Hq Hrows Hs. unfold ListModels, list_rows. cbn [lr_Size lr_Start]. rewrite (st_bind_run _ _ _ _ _ Hq).
  apply (scan_rows scan_model l rows []); [|done]. eapply Forall2_impl; [exact Hrows|].
  intros m r (image & tag & Hi & ->). destruct m. cbn in *. by rewrite Hi.
Qed.
End server_pages.

(** C23: listing the models of the zoo ends, with as many lines as there are models, and shows
    the answers of the database line by line in the order of the pages, however many they are:
    the client asks for the page behind what it has, the server turns the rows of each page
    into a list, and the client writes tables with the header that are neither empty nor longer
    than the buffer.  Of the database it is only assumed that LIMIT 100 with OFFSET gives up to
    a hundred of the models, as many as are left behind the offset, so that no result breaks off
    (the server would not notice).  The query has no ORDER BY:
    up to a hundred models are shown each once, more of them if the pages happen to cut one
    list, and otherwise a model may be shown on two pages and another on none. *)
Theorem listModels_shows_all `{ZooWorld D} `{ZooConn} `{!ZooService D} `{WorkingOutput D} (models_ : list ModelResponse)
    (fuel : nat) (opts : zoo_options) (d d1 : D) :
  (∀ req, call_ListModels req = ListModels req) →
  (∀ start d, 0 ≤ start → ∃ rows p, db_Query (select_models 100 start) d = (Ok rows, d) ∧ Forall2 model_row_of p rows ∧
     p ⊆+ models_ ∧ length p = (100 `min` (length models_ - Z.to_nat start))%nat) →
  Z.of_nat (length models_) < 2 ^ 63 → (length models_ < fuel)%nat →
  zo_ModelZooServer opts ≠ ""%string → getModelZooServerConn opts d = (Ok true, d1) →
  ∃ pages d2, listModels fuel opts d = (Ok tt, (CloseConn d2).2) ∧
    pages_from models_ ListModels 0 pages ∧
    (let shown := drop (length (tables_shown d1)) (tables_shown d2) in
     concat shown.*2 = map (map Sprint) (model_line <$> concat pages) ∧ length (concat shown.*2) = length models_ ∧
     Forall (λ t, t.1 = model_columns ∧ 0 < Z.of_nat (length t.2) ≤ 1024) shown) ∧
    ((length models_ ≤ 100)%nat → concat pages ≡ₚ models_) ∧
    ((∀ start d p, 0 ≤ start → answered_page ListModels start d p → p = take 100 (drop (Z.to_nat start) models_)) →
     concat pages = models_).
Proof.
  intros Hserver Hquery Hsmall Hf Hs Hconn.
  assert (∀ start d, 0 ≤ start → ∃ p, answered_page call_ListModels start d p ∧ a_page models_ start p) as Hpage.
  { intros start dx Hstart. destruct (Hquery start dx Hstart) as (rows & p & Hq & Hrows & Hsub & Hl).
    exists p. split; [|by split]. unfold answered_page. rewrite Hserver. eapply ListModels_page; [exact Hq|exact Hrows|lia]. }
  destruct (list_shows models_ model_line call_ListModels Hpage Hsmall fuel opts model_columns d d1) as (pages & d2 & Hrun & Hp & Hshown & Hall);
    [done..|].
  assert (pages_from models_ ListModels 0 pages) as Hp'.
  { destruct Hp as [Hl Hi]. split; [done|]. intros i p Hpi. destruct (Hi i p Hpi) as (? & ? & dx & Hd). split_and!; [done..|].
    exists dx. unfold answered_page in *. by rewrite Hserver in Hd. }
  exists pages, d2. split; [done|]. split; [done|]. split; [split; [exact Hshown|split; [|exact Hall]]|].
  - etrans; [exact (f_equal length Hshown)|]. rewrite length_map, length_fmap. destruct Hp as [-> _]. lia.
  - split; [by apply (pages_one _ _ _ Hp')|by apply pages_stable].
Qed.

(** ** A small zoo behind the client *)

Definition deaf {D A} : st D A := fail refused.
#[local] Instance deaf_calls : World recording := {| perform := λ A _, deaf; Env := λ _, ""%string |}.
#[local] Instance deaf_store : Outside recording := {|
  Exec _ := deaf; SelectBlocks _ := deaf; WriteCSV _ := deaf; csv_Name := ""; CloseCSV := deaf; RunHdfs _ _ := deaf |}.
#[local] Instance deaf_models : ModelWorld recording := {|
  Json := unit; Encode _ := Fail refused; NewJson _ := Fail refused; MustString _ _ := ""%string; OpenAndConnectDB _ := deaf;
  hive_params _ := None; TempFile := None; TarOut _ := ([], None); RunTar _ := deaf; ReadFile _ := deaf; CreateFile _ := deaf;
  TempDir := deaf; RemoveAll _ := deaf; Model.DownloadModel _ _ _ := deaf |}.
Definition demo_listed : ModelResponse := mkModelResponse "my_model" "v1" "" "a model" "" "sqlflow/sqlflow:latest".
#[local] Instance listing_world : ZooWorld recording := {|
  store _ := deaf_store; models _ := deaf_models;
  Query _ sql d := (Ok (if decide (sql = select_models 100 0)
    then [Some <$> ["my_model"; "v1"; ""; "a model"; ""; "sqlflow/sqlflow"; "latest"]%string] else []), d);
  LastInsertId _ _ := deaf; OpenDB _ := deaf; CloseDB _ := deaf; ioutil_TempDir _ _ := deaf; os_RemoveAll _ := deaf;
  os_Create _ := deaf; fd_Write _ _ := deaf; os_Mkdir _ _ := deaf; os_IsNotExist _ := deaf; os_Getwd := deaf; os_Chdir _ := deaf;
  ioutil_ReadDir _ := deaf; cmd_Start _ _ := deaf; cmd_Wait _ := deaf; ClosePipe := deaf; http_Get _ := deaf;
  Unmarshal_desc _ := Fail refused; SendAndClose _ _ := deaf; SendModel _ _ _ := deaf |}.
#[local] Instance listing_conn : ZooConn := {| s_URL := "mysql://zoo"; s_Driver := "mysql"; s_Hive := ("", "", "", "") |}%string.
#[local] Instance listing_service : ZooService recording := {|
  NewClientTLS _ := mret tt; grpc_Dial _ _ := mret tt; CloseConn := mret tt; call_ReleaseModel _ := deaf; call_DropModel _ := deaf;
  call_DropModelRepo _ := deaf; call_ListModels := ListModels; call_ListModelRepos := ListModelRepos;
  open_LocalStream := deaf; send_LocalStream _ := deaf; open_RepoStream := deaf; send_RepoStream _ := deaf;
  os_Remove _ := deaf; Printed _ := deaf |}.

Lemma select_first (start : Z) : select_models 100 start = select_models 100 0 → start = 0.
Proof.
  unfold select_models, limits. change (100 <=? 0) with false. cbv iota. intros He%(inj _)%(inj _)%(inj _)%(inj _).
  apply (f_equal (cut_at ";")) in He. change ";"%string with (String ";" "") in He.
  rewrite !cut_at_char in He by (by apply no_char_pretty). injection He as He. by apply (inj pretty) in He.
Qed.

Lemma listModels_shows_all_witness :
  let opts := mkZooOptions "" "zoo:50051" "" "" "" "" "" "" in
  ∃ d2, listModels 5 opts ([], []) = (Ok tt, (CloseConn d2).2) ∧
    concat (tables_shown d2).*2 = [["my_model"; "v1"; ""; "sqlflow/sqlflow:latest"; "a model"; ""]]%string.
Proof.
  intros opts.
  destruct (listModels_shows_all [demo_listed] 5 opts ([], []) ([], [])) as (pages & d2 & Hrun & _ & (Hshown & _) & Hone & _).
  - done.
  - intros start d Hs. unfold db_Query. cbn [Query listing_world]. case_decide as He.
    + apply select_first in He as ->. eexists _, [demo_listed]. split; [reflexivity|].
      split; [repeat constructor; by exists "sqlflow/sqlflow"%string, "latest"%string|by split].
    + exists [], []. split; [done|]. split; [constructor|]. split; [apply submseteq_nil_l|].
      change (0 = 100 `min` (1 - Z.to_nat start))%nat.
      destruct (decide (start = 0)) as [->|]; [done|lia].
  - done.
  - cbn. lia.
  - done.
  - done.
  - exists d2. split; [exact Hrun|]. etrans; [exact Hshown|].
    assert (concat pages = [demo_listed]) as ->; [|reflexivity].
    apply Permutation_singleton_r, Hone. apply Nat.leb_le. reflexivity.
Defined.

Lemma local_pieces_short : str_len (str_concat (local_pieces "model")) = Z.to_nat 10240.
Proof. vm_compute. reflexivity. Qed.
